(* ===== verification/_CoqProject ===== *)
-Q . S2P
Prelude.v
Proto.v
Csdprof.v
State.v
Lowmem.v
Hw.v
Concrete.v
Fence.v
Bo.v
BoInv.v
BoMap.v
BoShare.v
BoSteps.v
BoReach.v
BoSpec.v
Ovf.v
Waits.v
Jobs.v
Submit.v
Present.v
Events.v
Main.v
SchedInv.v
SchedKick.v
SchedRun.v
SchedReach.v
SchedSpec.v
WaitSpec.v
KickSpec.v
Findings.v
Kept.v
Counts.v
OvfInv.v
OvfSteps.v
OvfKept.v
Pins.v
PinKept.v
Closure.v
Closed.v
Aside.v
Clients.v
Wedge.v
Boot.v
Server.v
Talk.v
Once.v
ServerSpec.v
KmsProto.v
KmsModes.v
KmsState.v
KmsBo.v
KmsEv.v
KmsBackend.v
KmsCommit.v
KmsFw.v
KmsMain.v
KmsVblank.v
KmsModesSpec.v
KmsEvSpec.v
KmsAside.v
KmsRefs.v
KmsRefOps.v
KmsPool.v
KmsRefKept.v
KmsRefCommit.v
KmsRefFlip.v
KmsRefReq.v
KmsReach.v
KmsBoot.v
KmsSpec.v
KmsCommitSpec.v
KmsTalk.v
KmsWake.v
KmsConcrete.v
DrmLogic.v
DrmLogicSpec.v
DrmKms.v
DrmEnd.v
