(* ===== verification/Prelude.v ===== *)
(** * The GPU render server, the display server and the display library of Phoenix-RTOS on the
      Raspberry Pi 4

    This development models three programs that hand graphics buffers to one another: the
    asynchronous V3D render server (tools/gpu-lane/v3d-async), the user-space server that
    owns the GPU of the BCM2711, hands buffer objects to its clients, orders and runs their
    jobs on the four hardware queues and a CPU queue, tells them through a shared page of
    fences when a job is done, and recovers the GPU when it hangs; the display server
    (tools/gpu-lane/kms), which owns the screen, keeps framebuffers, accepts atomic commits,
    waits for the render server's fences, shows a commit at a vblank and tells its clients; and
    the display node of libdrm (tools/gpu-lane/libdrm-phoenix), which turns the DRM requests of
    unmodified clients into requests of the display server.

    ** Parts of the programs and the files that model them

    The render server:
    - Prelude: machine integers ([u8], [u32], [u64]), arrays as total functions with a
      point update, bounded loops ([for_], [find_first], [sumZ], [countZ]), record update
      and the lemmas and tactics every file uses.
    - Proto (v3da_proto.h): queues, operations, flags, request and reply records.
    - Csdprof (v3da_csdprof.h): the compute-dispatch profiler and what it promises.
    - State (v3da.h): the server's records, the environment, the log of effects.
    - Lowmem (v3da_lowmem.h): the footprint of an object, the block pool, and the
      map-and-reject loop that looks for low memory.
    - Hw (v3da_hw.c): GPU address ranges, the MMU and its generations, the interrupt
      handler, draining events, the true reset.
    - Concrete: a concrete server and environment for the examples.
    - Fence (v3da_sched.c): the fence page.
    - Bo, BoShare (v3da_bo.c): buffer objects; their export, import and sharing.
    - BoInv, BoMap, BoSteps, BoReach, BoSpec: the invariant of the object table and of
      the page table, kept by every operation, and what it gives.
    - Ovf (v3da_jobs.c): the binner-overflow pool.
    - Waits (v3da_sched.c): syncobjs and parked requests.
    - Jobs (v3da_jobs.c): completion, kicks, wedge and the scheduler.
    - Submit (v3da_jobs.c): submission and what a dying client leaves.
    - Present (v3da_jobs.c): scanout buffers and the present queue.
    - Events (v3da_jobs.c, v3da_sched.c): the interrupt events, the watchdog, the event
      thread.
    - Main (v3da_main.c, v3da_param.c): clients, requests, parameters, statistics.
    - SchedInv, SchedKick, SchedRun, SchedReach, SchedSpec: the scheduler's invariant,
      kept by every operation, and what it gives.
    - WaitSpec, KickSpec: what parked requests and a new client's slot, the interrupt handler
      and the kicks promise.
    - Kept, Closure: what a predicate must show to be kept by all scheduling (the class
      [Kept]), and by submissions and a client's death too (the class [Submitted]).
    - Counts, OvfInv, OvfSteps, OvfKept, Pins, PinKept, Closed, Clients: four such
      predicates and their instances: the submission and completion counts, the ledger of
      overflow chunks with the links of bin and render jobs, the pins of jobs, the client
      table.
    - Wedge: a wedge, exactly.
    - Aside: frames of the requests and of parking, answering, queries and flips.
    - Boot (v3da_sched.c, v3da_main.c): start-up after the GPU is up.
    - Server, ServerSpec: every message, turn of the event thread and interrupt keeps all
      the invariants at once; the states the server reaches from start-up.
    - Talk, Once: which operations answer or park a request (few), and what a message and
      a turn do to the requests answered and parked.
    - Findings: runs that show where the code and its comments part.

    The display server:
    - KmsProto (kms_proto.h), KmsModes (kms_modes.h): object ids, requests and replies; the
      list of modes, the mode record as bytes, the integer fit of a lower mode.
    - KmsState (kms.h): the server's records, its environment (the class [KEnv]) and log.
    - KmsBo (kms_bo.c, kms_scanout.h): the pool, buffers, framebuffers, blobs, imports and
      their aliases, the /kmsbuf names.
    - KmsEv (kms_main.c): clients, their event rings, parked requests, fences.
    - KmsBackend (kms_backend.c): the framebuffer and plane backends.
    - KmsCommit (kms_main.c): checking, accepting, applying and completing a commit, vblanks,
      a client's death.
    - KmsFw (kms_fw.c): the firmware's mode and EDID.
    - KmsMain (kms_main.c): properties, requests, messages.
    - KmsVblank (kms_vblank.c): the interrupt, the count, the vblank thread.
    - KmsBoot (kms_main.c): start-up to the first request.
    - KmsModesSpec, KmsEvSpec, KmsPool: what the fit, the event ring and the pool promise.
    - KmsAside, KmsRefs, KmsRefOps, KmsRefKept, KmsRefCommit, KmsRefFlip, KmsRefReq,
      KmsReach, KmsSpec: frames; the ledger of references with what the planes show, kept by
      every operation; the states the server reaches from start-up and what the ledger gives.
    - KmsCommitSpec: what a commit does, refused, accepted and completed.
    - KmsTalk, KmsWake: requests answered and parked, and that no wake-up is lost.
    - KmsConcrete: a concrete run; the theorems on it, and runs that show where the code and
      its comments part.

    The display library:
    - DrmLogic (drm_phoenix_logic.c): tokens, object kinds, the flattening of a partial atomic
      request, properties and versions as DRM has them.
    - DrmKms (drm_phoenix_kms.c, drmphx_call of xf86drm_phoenix.c): the tables of a
      connection, commits, flips, vblank waits, buffers; the queries and the dispatcher.
    - DrmLogicSpec: what flattening promises.
    - DrmEnd: the library over the display server (the class [DisplayServer]); the choice of a
      vblank; a connection to the server of KmsConcrete.

    ** How state and operations correspond to the code

    Each server is one global structure guarded by one lock; each definition is one C
    function (or the part of one its comment names) from states to states, in program
    order, and a locked section is one call of such a definition.  A C array is a total
    function updated at a point; where the code bounds an index the model has the same
    test; a pointer into a table is an index.  A job is its submission number [gseq], which no
    other job has, and the heap maps it to its record until [free]; the linked list of a
    client's jobs on a queue is a list.  The free list of overflow chunks stays a linked list
    in [next], because its aliasing is what the code is about.  32-bit counters wrap
    ([u32]); the 64-bit counters that count events (fence numbers, generations) are unbounded.
    The display server drops its lock once, while an import is mapped: what the other
    requests do meanwhile is the argument [between] of that message.

    What a server reads (clock, registers, allocation results, translations of
    addresses, memory of its own) is a field of the class [Env] ([KEnv]), a function of the
    number of reads so far, so every theorem holds for every behaviour of the outside.  What it
    does to the outside (register writes, barriers, mappings released, names published,
    replies) is appended to a log in program order.  The library is a computation with an errno
    over its connection and a world [W]; the class [KmsSide] is what it asks of the world.

    ** What the theorems show

    - The render server: from start-up, whatever messages, interrupts and turns of the event
      thread follow, a buffer a job names stays live and mapped, every overflow chunk is in
      one place, submissions and completions differ by the running job, the links of bin
      and render jobs are mutual, each request received is answered once or parked, and
      a turn answers the parked ones that are decided or expired.
    - Buffer objects: from an empty table, whatever operations run, pages of distinct
      objects are disjoint, the page table maps exactly what is live, references are the
      holders, the low-memory account is exact; creating, closing, dropping a client and
      polling the quarantine do what their contract says.
    - Address ranges and placement: the address allocator and the low-memory search.
    - Fences: what completion publishes.
    - Scheduler: from an idle server, whatever requests and events arrive, the jobs of a
      client keep their order on each queue, a job is in exactly one place, SERIAL runs
      one job and the oldest, PIPELINE is round robin, a wedge fails what the hardware was
      running and leaves what waits, and the reaping loop ends.
    - Parked requests: a wait is parked only when undecided, each parked request is
      answered once, with the state's reply, and the event thread sleeps past nothing.
    - Hardware: any run of interrupts between two turns of the event thread is known to the
      last write: it loses no event and no overflow chunk, and masks only in a storm; a bin,
      TFU or compute start is written only with caches and TLB in step with memory.
    - Clients and profiler: slots change owner only when quiet; histograms add up.
    - The display server: from start-up, whatever messages and vblanks follow, what a plane
      shows is a live framebuffer inside live memory of its own (a pool window, a slot of the
      firmware's framebuffer, an exporter's object), every count is its holders,
      each request is answered once or parked, and nothing parked waits for what has happened.
    - Commits: accepted whole or refused without a trace, on the screen whole two vblanks after
      the firmware has them; the event ring is a bounded queue, the pool's search is first fit,
      a lower mode is fitted inside the screen.
    - The library: flattening is the request laid over the planes' state; a successful
      non-blocking commit arrives at the display server as exactly those states and is what the
      library remembers (or as every plane off, when it turns the CRTC off), provided nothing
      else reaches the server during the call (the class [DisplayServer]); the server's report of a plane reads back; a 32-bit vblank number
      becomes the nearest count.

    ** Fuel and bounds

    Loops over arrays run over the array's bounds and need no fuel.  The footprint loop
    has 64 rounds, enough for every size up to 2^63 bytes (it does not end beyond, which
    is proved too); the reaping loop has one more round than there are jobs, since every
    round but the last frees one; walks over overflow chunks have as many steps as there
    are chunks.  The library's retries are the code's own counts (four vblanks of a blocking
    commit, 64 waits).  Requests carry unsigned words ([msg_ok], [req_ok]): sizes and handles
    are not negative; the descriptors open on an export stay below 2^32 - 256, the buffers named
    by jobs in flight below 2^32 and the framebuffers ever made below 2^32 - 1, the ranges of
    their counters.

    ** Not modelled

    The lock's granularity is the model's: a locked section, an interrupt, and the parts
    of an import around the unlocked mapping are atomic steps, so an interrupt falls
    between sections and not inside one.  Power-up, clock set-up and the self-test of the GPU
    (register scripts without server state; a reset is one effect whose result is
    unconstrained); probing which vblank interrupt exists and the firmware's framebuffer query
    (their outcome is a parameter); log messages; the pixel self-check after a pan, which only
    logs; [main] of both servers (fork, registration, options, threads); the control-list
    generator, the first client library and winsys, and the test programs.  A plane's apply
    reads the clock after each firmware call also where the code is not asked for the latency:
    the reads are of the environment's own.  Of libdrm, the render node and the process-wide
    tables of descriptors and sync files are the interface [KmsSide] of the display node: they
    marshal the render protocol, whose server is modelled.  The ports of third-party programs,
    probes, scripts and documents are not program logic of this repository. *)
From Stdlib Require Export ZArith Lia.
From stdpp Require Export base functions gmap list numbers option tactics list_numbers.

#[global] Open Scope Z_scope.

(** ** Record update

    [s <| f := v |>] and [s <| f ::= g |>] replace one field, [s <| f ; g ::= h |>]
    reaches into a nested record.  A record takes part once its eta expansion is
    declared as an [Eta] instance; the setter of a projection is derived from it. *)
Class Eta (R : Type) := eta : R → R.
Class Setter {R T : Type} (p : R → T) := upd : (T → T) → R → R.
#[global] Arguments upd {R T} p {_} f r /.

Ltac derive_setter p :=
  lazymatch type of p with
  | ?R → ?T =>
      let e := constr:(_ : Eta R) in
      let e := eval unfold eta in e in
      let e := eval red in e in
      let f := fresh "f" in let r := fresh "r" in
      change ((T → T) → R → R); intros f r;
      let body := eval cbv beta in (e r) in
      let abs := eval pattern (p r) in body in
      lazymatch abs with ?F _ => let t := eval cbv beta in (F (f (p r))) in exact t end
  end.
#[export] Hint Extern 1 (Setter ?p) => (derive_setter p) : typeclass_instances.

Declare Scope upd_scope.
Delimit Scope upd_scope with upd.
Open Scope upd_scope.
Notation "r <| p ::= f |>" := (upd p f r)
  (at level 12, p at level 9, f at level 200, left associativity) : upd_scope.
Notation "r <| p := v |>" := (upd p (fun _ => v) r)
  (at level 12, p at level 9, v at level 200, left associativity) : upd_scope.
Notation "r <| p ; q ::= f |>" := (upd p (upd q f) r)
  (at level 12, p at level 9, q at level 9, f at level 200, left associativity) : upd_scope.
Notation "r <| p ; q := v |>" := (upd p (upd q (fun _ => v)) r)
  (at level 12, p at level 9, q at level 9, v at level 200, left associativity) : upd_scope.

(** ** Machine words *)
Definition u16 (x : Z) : Z := x mod 2 ^ 16.
Definition u32 (x : Z) : Z := x mod 2 ^ 32.
Definition u64 (x : Z) : Z := x mod 2 ^ 64.
#[global] Arguments u16 : simpl never.
#[global] Arguments u32 : simpl never.
#[global] Arguments u64 : simpl never.
#[global] Arguments Z.add : simpl nomatch.
#[global] Arguments Z.land : simpl never.
#[global] Arguments Z.lor : simpl never.
#[global] Arguments Z.shiftl : simpl never.
#[global] Arguments Z.shiftr : simpl never.
#[global] Arguments Z.pow : simpl never.

Lemma u32_small x : 0 ≤ x < 2 ^ 32 → u32 x = x.
Proof. apply Z.mod_small. Qed.
Lemma u32_range x : 0 ≤ u32 x < 2 ^ 32.
Proof. by apply Z.mod_pos_bound. Qed.
Lemma u32_add x y : u32 (u32 x + y) = u32 (x + y).
Proof. apply Zplus_mod_idemp_l. Qed.
Lemma u32_sub x y : u32 (u32 x - y) = u32 (x - y).
Proof. apply Zminus_mod_idemp_l. Qed.
Lemma u64_small x : 0 ≤ x < 2 ^ 64 → u64 x = x.
Proof. apply Z.mod_small. Qed.
Lemma u64_range x : 0 ≤ u64 x < 2 ^ 64.
Proof. by apply Z.mod_pos_bound. Qed.

(** A C flag test [(x & m) != 0], and a C truth value stored as an integer. *)
Definition has (x m : Z) : bool := negb (Z.land x m =? 0).
Definition b2z (b : bool) : Z := if b then 1 else 0.

(** ** Arrays

    A C array is a function on its index; [<[i := v]> a] is the assignment
    [a[i] = v] (stdpp's [fn_insert]).  A prefix of an array with its own length
    (a pool, a free list, a hole table) is a list. *)
Lemma fn_upd_eq {K} `{EqDecision K} {A} (f : K → A) i v : <[i := v]> f i = v.
Proof. apply fn_lookup_insert. Qed.
Lemma fn_upd_ne {K} `{EqDecision K} {A} (f : K → A) i j v : i ≠ j → <[i := v]> f j = f j.
Proof. apply fn_lookup_insert_ne. Qed.
Lemma fn_upd_case {K} `{EqDecision K} {A} (f : K → A) i j v :
  <[i := v]> f j = if decide (i = j) then v else f j.
Proof. case_decide; [subst; apply fn_upd_eq | by apply fn_upd_ne]. Qed.

Create Rewrite HintDb arr.
#[export] Hint Rewrite @fn_upd_eq : arr.
#[export] Hint Rewrite @fn_upd_ne using (first [assumption | congruence | lia]) : arr.

(** [a[i] = a[--n]]: the C idiom that drops element [i] of a dense array. *)
Definition swap_remove {A} (i : nat) (l : list A) : list A :=
  match last l with
  | None => l
  | Some x => take (length l - 1) (<[i := x]> l)
  end.

Lemma swap_remove_length {A} i (l : list A) :
  l ≠ [] → length (swap_remove i l) = (length l - 1)%nat.
Proof.
  intros Hl. unfold swap_remove. destruct (last l) eqn:E.
  - rewrite length_take, length_insert. lia.
  - by apply last_None in E.
Qed.

Lemma swap_remove_perm {A} i x (l : list A) :
  l !! i = Some x → x :: swap_remove i l ≡ₚ l.
Proof.
  intros Hi. unfold swap_remove.
  destruct (last l) as [y|] eqn:Hy; last by apply last_None in Hy; subst.
  apply last_Some in Hy as [k ->].
  assert (i < length (k ++ [y]))%nat as Hlt by (eapply lookup_lt_Some; eauto).
  rewrite length_app in *; simpl in *.
  destruct (decide (i = length k)) as [->|Hne].
  - rewrite list_lookup_middle in Hi by done. simplify_eq.
    rewrite insert_app_r_alt, Nat.sub_diag by lia. simpl.
    rewrite take_app_le by lia. rewrite take_ge by lia.
    by rewrite Permutation_app_comm.
  - rewrite lookup_app_l in Hi by lia.
    rewrite insert_app_l by lia.
    rewrite take_app_le by (rewrite length_insert; lia).
    rewrite take_ge by (rewrite length_insert; lia).
    rewrite (Permutation_app_comm k [y]). simpl.
    destruct (list_elem_of_split_length k i x Hi) as (l1 & l2 & -> & ->).
    rewrite insert_app_r_alt, Nat.sub_diag by lia. simpl.
    solve_Permutation.
Qed.

Lemma list_insert_perm {A} i (x y : A) (l : list A) :
  l !! i = Some x → x :: <[i := y]> l ≡ₚ y :: l.
Proof.
  intros Hi. destruct (list_elem_of_split_length l i x Hi) as (l1 & l2 & -> & ->).
  rewrite insert_app_r_alt, Nat.sub_diag by lia. simpl. solve_Permutation.
Qed.

(** ** Pairwise relations on lists, up to permutation *)
Section pairwise.
Context {A : Type} (R : A → A → Prop) `{!Symmetric R}.

Fixpoint pairwise (l : list A) : Prop :=
  match l with
  | [] => True
  | x :: l => Forall (R x) l ∧ pairwise l
  end.

#[export] Instance pairwise_perm : Proper ((≡ₚ) ==> iff) pairwise.
Proof using Type*.
  intros l k Hp. induction Hp; simpl; try tauto.
  - rewrite IHHp. by rewrite Hp.
  - rewrite !Forall_cons. split; intros ([? ?] & ? & ?); split_and!; auto.
Qed.
End pairwise.

(** ** Bounded loops

    [for_ lo hi f s] is [for (i = lo; i < hi; i++) s = f i s]. *)
Definition for_ {S} (lo hi : Z) (f : Z → S → S) (s : S) : S :=
  foldl (λ s i, f i s) s (seqZ lo (hi - lo)).
#[global] Arguments for_ : simpl never.

Lemma for_stop {S} lo hi (f : Z → S → S) s : hi ≤ lo → for_ lo hi f s = s.
Proof. intros. unfold for_. rewrite seqZ_nil by lia. done. Qed.

Lemma for_last {S} lo hi (f : Z → S → S) s :
  lo ≤ hi → for_ lo (hi + 1) f s = f hi (for_ lo hi f s).
Proof.
  intros. unfold for_. replace (hi + 1 - lo) with (hi - lo + 1) by lia.
  rewrite seqZ_app by lia. rewrite foldl_app. simpl.
  replace (lo + (hi - lo)) with hi by lia. done.
Qed.

Lemma for_first {S} lo hi (f : Z → S → S) s :
  lo < hi → for_ lo hi f s = for_ (lo + 1) hi f (f lo s).
Proof.
  intros. unfold for_. rewrite seqZ_cons by lia. simpl.
  replace (Z.succ lo) with (lo + 1) by lia.
  replace (Z.pred (hi - lo)) with (hi - (lo + 1)) by lia. done.
Qed.

(** The loop rule: an indexed invariant. *)
Lemma for_ind {S} (P : Z → S → Prop) lo hi f s :
  P lo s → (∀ i s, lo ≤ i < hi → P i s → P (i + 1) (f i s)) →
  P (Z.max lo hi) (for_ lo hi f s).
Proof.
  intros H0 Hstep. destruct (Z_le_gt_dec hi lo).
  { rewrite for_stop by lia. by replace (Z.max lo hi) with lo by lia. }
  replace (Z.max lo hi) with hi by lia.
  assert (∀ n : nat, lo + Z.of_nat n ≤ hi → P (lo + Z.of_nat n) (for_ lo (lo + Z.of_nat n) f s)) as Hn.
  { induction n as [|n IH]; intros Hle.
    - replace (lo + Z.of_nat 0) with lo by lia. rewrite for_stop by lia. done.
    - replace (lo + Z.of_nat (Datatypes.S n)) with (lo + Z.of_nat n + 1) by lia. rewrite for_last by lia.
      apply Hstep; [lia|]. apply IH. lia. }
  specialize (Hn (Z.to_nat (hi - lo))).
  replace (lo + Z.of_nat (Z.to_nat (hi - lo))) with hi in Hn by lia. apply Hn. lia.
Qed.

(** The loop rule for an invariant that does not mention the index. *)
Lemma for_inv {S} (P : S → Prop) lo hi f s :
  P s → (∀ i s, lo ≤ i < hi → P s → P (f i s)) → P (for_ lo hi f s).
Proof. intros H0 H1. by apply (for_ind (λ _, P)). Qed.

(** A loop leaves a projection alone when its body does. *)
Lemma for_frame {S T} (g : S → T) lo hi f s :
  (∀ i s, g (f i s) = g s) → g (for_ lo hi f s) = g s.
Proof.
  intros H. apply (for_inv (λ s', g s' = g s)); [done|].
  intros i s' _ <-. apply H.
Qed.

(** The first index of [lo, hi) that satisfies a test. *)
Definition find_first (p : Z → bool) (lo hi : Z) : option Z :=
  List.find p (seqZ lo (hi - lo)).
#[global] Arguments find_first : simpl never.

Lemma find_first_Some p lo hi i :
  find_first p lo hi = Some i →
  lo ≤ i < hi ∧ p i = true ∧ ∀ j, lo ≤ j < i → p j = false.
Proof.
  unfold find_first. remember (Z.to_nat (hi - lo)) as n eqn:Hn.
  revert lo Hn. induction n as [|n IH]; intros lo Hn.
  { rewrite seqZ_nil by lia. done. }
  rewrite seqZ_cons by lia. simpl. destruct (p lo) eqn:Hp; intros H.
  - simplify_eq. split_and!; [lia|lia|done|lia].
  - replace (Z.pred (hi - lo)) with (hi - Z.succ lo) in H by lia.
    apply IH in H as (? & ? & Hj); [|lia]. split_and!; [lia|lia|done|].
    intros j ?. destruct (decide (j = lo)) as [->|]; [done|]. apply Hj. lia.
Qed.

Lemma find_first_None p lo hi :
  find_first p lo hi = None → ∀ j, lo ≤ j < hi → p j = false.
Proof.
  intros H j Hj. apply (find_none _ _ H).
  apply list_elem_of_In, elem_of_seqZ. lia.
Qed.

(** ** Sums over an index range *)
Definition sumZ (f : Z → Z) (lo hi : Z) : Z := for_ lo hi (λ i a, a + f i) 0.

Lemma sumZ_stop f lo hi : hi ≤ lo → sumZ f lo hi = 0.
Proof. apply for_stop. Qed.
Lemma sumZ_last f lo hi : lo ≤ hi → sumZ f lo (hi + 1) = sumZ f lo hi + f hi.
Proof. intros. unfold sumZ. by rewrite for_last. Qed.

Lemma sumZ_ind (P : Z → Prop) lo :
  P lo → (∀ h, lo ≤ h → P h → P (h + 1)) → ∀ h, lo ≤ h → P h.
Proof.
  intros H0 HS h Hh. replace h with (lo + Z.of_nat (Z.to_nat (h - lo))) by lia.
  induction (Z.to_nat (h - lo)) as [|n IH].
  - by replace (lo + Z.of_nat 0) with lo by lia.
  - replace (lo + Z.of_nat (S n)) with (lo + Z.of_nat n + 1) by lia. apply HS; [lia|done].
Qed.

Lemma sumZ_ext f g lo hi : (∀ i, lo ≤ i < hi → f i = g i) → sumZ f lo hi = sumZ g lo hi.
Proof.
  intros Heq. destruct (Z_le_gt_dec hi lo); [by rewrite !sumZ_stop|].
  revert Heq. apply (sumZ_ind (λ h, (∀ i, lo ≤ i < h → f i = g i) → sumZ f lo h = sumZ g lo h) lo); [|..|lia].
  - intros. by rewrite !sumZ_stop.
  - intros h Hh IH Heq. rewrite !sumZ_last by lia. rewrite IH, Heq; [done|lia|].
    intros i ?. apply Heq. lia.
Qed.

Lemma sumZ_upd f lo hi i v :
  lo ≤ i < hi → sumZ (<[i := v]> f) lo hi = sumZ f lo hi - f i + v.
Proof.
  intros Hi. assert (lo ≤ hi) as Hle by lia. revert hi Hle Hi.
  apply (sumZ_ind (λ h, lo ≤ i < h → sumZ (<[i := v]> f) lo h = sumZ f lo h - f i + v) lo); [lia|].
  intros h Hh IH Hi. rewrite !sumZ_last by lia. destruct (decide (i = h)) as [->|].
  - rewrite fn_upd_eq. rewrite (sumZ_ext _ f); [lia|]. intros j ?. apply fn_upd_ne. lia.
  - rewrite fn_upd_ne by done. rewrite IH by lia. lia.
Qed.

Lemma sumZ_nonneg f lo hi : (∀ i, lo ≤ i < hi → 0 ≤ f i) → 0 ≤ sumZ f lo hi.
Proof.
  intros H. unfold sumZ.
  apply (for_inv (λ a, 0 ≤ a)); [lia|]. intros i s Hi Hs. specialize (H i Hi). lia.
Qed.

Lemma sumZ_ge f lo hi i :
  (∀ i, lo ≤ i < hi → 0 ≤ f i) → lo ≤ i < hi → f i ≤ sumZ f lo hi.
Proof.
  intros H Hi. pose proof (sumZ_upd f lo hi i 0 Hi) as Hu.
  assert (0 ≤ sumZ (<[i:=0]> f) lo hi); [|lia].
  apply sumZ_nonneg. intros j Hj. rewrite fn_upd_case. case_decide; [lia|]. by apply H.
Qed.

(** How many indices of [lo, hi) satisfy a test. *)
Definition countZ (p : Z → bool) (lo hi : Z) : Z := sumZ (λ i, b2z (p i)) lo hi.

Lemma countZ_ext p q lo hi : (∀ i, lo ≤ i < hi → p i = q i) → countZ p lo hi = countZ q lo hi.
Proof. intros H. apply sumZ_ext. intros i Hi. by rewrite H. Qed.
Lemma countZ_nonneg p lo hi : 0 ≤ countZ p lo hi.
Proof. apply sumZ_nonneg. intros. unfold b2z. by destruct (p i). Qed.
Lemma countZ_ge p lo hi i : lo ≤ i < hi → p i = true → 1 ≤ countZ p lo hi.
Proof.
  intros Hi Hp. unfold countZ.
  pose proof (sumZ_ge (λ i, b2z (p i)) lo hi i) as H. simpl in H. rewrite Hp in H.
  simpl in H. apply H; [|done]. intros j _. by destruct (p j).
Qed.

(** Changing one element moves a sum by the difference. *)
Lemma sumZ_point f g lo hi i :
  lo ≤ i < hi → (∀ j, j ≠ i → f j = g j) → sumZ g lo hi = sumZ f lo hi - f i + g i.
Proof.
  intros Hi Hj. rewrite <- (sumZ_upd f lo hi i (g i) Hi). apply sumZ_ext.
  intros j _. rewrite fn_upd_case. case_decide; [by subst|]. symmetry. by apply Hj.
Qed.

(** ** Small tactics *)
Ltac zify_bools :=
  repeat match goal with
  | H : (_ =? _) = true |- _ => apply Z.eqb_eq in H
  | H : (_ =? _) = false |- _ => apply Z.eqb_neq in H
  | H : (_ <? _) = true |- _ => apply Z.ltb_lt in H
  | H : (_ <? _) = false |- _ => apply Z.ltb_ge in H
  | H : (_ <=? _) = true |- _ => apply Z.leb_le in H
  | H : (_ <=? _) = false |- _ => apply Z.leb_gt in H
  | H : _ && _ = true |- _ => apply andb_true_iff in H as [? ?]
  | H : _ || _ = false |- _ => apply orb_false_iff in H as [? ?]
  | H : negb _ = true |- _ => apply negb_true_iff in H
  | H : negb _ = false |- _ => apply negb_false_iff in H
  end.

(** Loops and sums are reasoned about through their lemmas only. *)
#[global] Opaque for_ find_first sumZ.
