(* ===== verification/Proto.v ===== *)
(** The wire protocol of the V3D render server (tools/gpu-lane/v3d-async/v3da_proto.h)
    and the register map it drives (v3da_regs.h): constants, enumerations, request and
    reply structures.  A C union becomes an inductive type with one constructor per
    member. *)
From S2P Require Import Prelude.

(** ** Error numbers

    The C library's [errno] values; the development only uses that they are positive
    and pairwise distinct. *)
Definition ENOENT := 2.
Definition EIO := 5.
Definition EBADF := 9.
Definition ENOMEM := 12.
Definition EFAULT := 14.
Definition EBUSY := 16.
Definition ENODEV := 19.
Definition EINVAL := 22.
Definition ENFILE := 23.
Definition EPIPE := 32.
Definition ENOSYS := 38.
Definition EPROTO := 71.
Definition ETIMEDOUT := 110.

Definition PAGE_SIZE := 4096.
Definition V3D_PAGE_SHIFT := 12.
Definition PTE_V := 0x10000000.
Definition PTE_W := 0x20000000.
#[global] Arguments PAGE_SIZE : simpl never.

(** ** Versions and limits *)
Definition V3DA_PROTO_VERSION := 5.
Definition V3DA_PROTO_BASE := 2.
Definition V3DA_WAIT_MAX_MS := 2000.
Definition V3DA_FENCE_PAGE_SIZE := 4096.
Definition V3DA_FENCE_HDR_SIZE := 256.
Definition V3DA_FENCE_SLOT_SIZE := 64.
Definition V3DA_FENCE_NSLOTS := (V3DA_FENCE_PAGE_SIZE - V3DA_FENCE_HDR_SIZE) / V3DA_FENCE_SLOT_SIZE.
Definition V3DA_MAX_CLIENTS := V3DA_FENCE_NSLOTS.
Definition V3DA_MAX_BOS := 4096.
Definition V3DA_MAX_HOLES := 2048.
Definition V3DA_MAX_SYNCOBJS := 256.
Definition V3DA_MAX_POOL := 1024.
Definition V3DA_MAX_CHUNKS := 512.
Definition V3DA_MAX_FLIPS := 4.
Definition V3DA_SCANOUT_MAX := 3.
Definition V3DA_HANDLE_SLOT_BITS := 13.
Definition V3DA_HANDLE_SLOT_MASK := 0x1fff.
Definition V3DA_SYNCOBJ_WAIT_MAX := 8.
Definition V3DA_BO_FENCES_MAX := 3.
Definition V3DA_SUBMIT_MAX_BOS := 4096.
Definition V3DA_SUBMIT_MAX_SEMS := 16.
Definition V3DA_IMPORT_MAX_SIZE := 0x10000000.
Definition V3DA_LOWMEM_LIMIT := 0x40000000.
#[global] Arguments V3DA_MAX_CLIENTS : simpl never.
#[global] Arguments V3DA_FENCE_NSLOTS : simpl never.

(** ** enum v3da_queue *)
Definition V3DA_Q_BIN := 0.
Definition V3DA_Q_RENDER := 1.
Definition V3DA_Q_TFU := 2.
Definition V3DA_Q_CSD := 3.
Definition V3DA_Q_CACHE_CLEAN := 4.
Definition V3DA_Q_CPU := 5.
Definition V3DA_Q_COUNT := 6.
#[global] Arguments V3DA_Q_COUNT : simpl never.

(** ** Flags *)
Definition V3DA_FP_IRQ := 1.
Definition V3DA_FP_STORM := 2.
Definition V3DA_FP_EXITED := 4.
Definition V3DA_BO_CACHEABLE := 1.
Definition V3DA_BO_SCANOUT := 2.
Definition V3DA_BO_LOWMEM := 4.
Definition V3DA_BO_FENCES_MORE := 1.
Definition V3DA_SYNCOBJ_CREATE_SIGNALED := 1.
Definition V3DA_SYNCOBJ_WAIT_ALL := 1.
Definition V3DA_SYNCOBJ_WAIT_FOR_SUBMIT := 2.
Definition V3DA_FLIP_AFTER_FENCE := 1.
Definition V3DA_CL_FLUSH_CACHE := 1.
Definition V3DA_SEM_RENDER := 1.
Definition V3DA_SET_MODE := 1.
Definition V3DA_SET_KNOBS := 2.
Definition V3DA_QSTATS_GLOBAL := 0xff.
Definition V3DA_MODE_SERIAL := 0.
Definition V3DA_MODE_PIPELINE := 1.
Definition V3DA_KNOB_TLB_ON_CHANGE := 1.
Definition V3DA_KNOB_NO_L2T_WAIT_NEW := 2.
Definition V3DA_KNOB_NO_FIXA := 4.
Definition V3DA_KNOB_NO_HANDOFF_WAIT := 8.
Definition V3DA_KNOB_CL_CACHE_CLEAN := 16.
Definition V3DA_KNOB_NO_POST_CLEAN := 32.
Definition V3DA_KNOB_NO_HANDOFF_FLUSH := 64.
Definition V3DA_KNOB_LINUX_ORDER := 128.
Definition V3DA_KNOB_PX_LOG := 256.
Definition V3DA_KNOB_ALL := 0x1ff.
Definition V3DA_IMPORT_NS_KMSBUF := 1.
Definition V3DA_IMPORT_NS_V3DBUF := 2.
Definition V3DA_BO_SYNC_HANDLE := 0.
Definition V3DA_CACHE_CACHED := 0.
Definition V3DA_CACHE_UNCACHED := 1.

(** ** enum v3da_op *)
Definition V3DA_OP_GET_INFO := 2.
Definition V3DA_OP_GET_PARAM := 3.
Definition V3DA_OP_BO_CREATE := 16.
Definition V3DA_OP_BO_CLOSE := 17.
Definition V3DA_OP_BO_MMAP := 18.
Definition V3DA_OP_BO_GET_OFFSET := 19.
Definition V3DA_OP_BO_WAIT := 20.
Definition V3DA_OP_BO_IMPORT := 21.
Definition V3DA_OP_BO_EXPORT := 22.
Definition V3DA_OP_BO_LAST_FENCE := 23.
Definition V3DA_OP_BO_ATTACH_FENCE := 24.
Definition V3DA_OP_SUBMIT_CL := 32.
Definition V3DA_OP_SUBMIT_TFU := 33.
Definition V3DA_OP_SUBMIT_CSD := 34.
Definition V3DA_OP_SUBMIT_CPU := 35.
Definition V3DA_OP_SUBMIT_NOP := 36.
Definition V3DA_OP_FENCE_WAIT := 37.
Definition V3DA_OP_SYNCOBJ_CREATE := 48.
Definition V3DA_OP_SYNCOBJ_DESTROY := 49.
Definition V3DA_OP_SYNCOBJ_WAIT := 50.
Definition V3DA_OP_SYNCOBJ_RESET := 51.
Definition V3DA_OP_SYNCOBJ_SIGNAL := 52.
Definition V3DA_OP_SYNCOBJ_QUERY := 53.
Definition V3DA_OP_SYNCOBJ_IMPORT := 54.
Definition V3DA_OP_PERFMON_CREATE := 64.
Definition V3DA_OP_PERFMON_DESTROY := 65.
Definition V3DA_OP_PERFMON_GET_VALUES := 66.
Definition V3DA_OP_PERFMON_GET_COUNTER := 67.
Definition V3DA_OP_SCANOUT_INFO := 80.
Definition V3DA_OP_SCANOUT_BO := 81.
Definition V3DA_OP_FLIP := 82.
Definition V3DA_OP_DBG_IRQ_MODE := 112.
Definition V3DA_OP_DBG_IRQ_SELFTEST := 113.
Definition V3DA_OP_DBG_BO_CHECKSUM := 114.
Definition V3DA_OP_DBG_STATS := 115.
Definition V3DA_OP_DBG_QUIT := 116.
Definition V3DA_OP_DBG_SET_MODE := 117.
Definition V3DA_OP_DBG_QSTATS := 118.

(** ** Memory references and fences *)
Inductive v3da_mem_kind := V3DA_MEM_NONE | V3DA_MEM_PHYS | V3DA_MEM_OID.

Record v3da_memref_t := mkMemref {
  mr_kind : v3da_mem_kind; mr_cache : Z; mr_port : Z; mr_size : Z; mr_addr : Z }.
Definition memref0 := mkMemref V3DA_MEM_NONE 0 0 0 0.

Record v3da_fence_t := mkFence { f_slot : Z; f_queue : Z; f_gen : Z; f_seqno : Z }.
Definition fence0 := mkFence 0 0 0 0.

#[export] Instance v3da_fence_eq_dec : EqDecision v3da_fence_t.
Proof. solve_decision. Defined.

(** ** Syncobjs *)
Inductive v3da_syncobj_state := V3DA_SYNC_EMPTY | V3DA_SYNC_FENCE | V3DA_SYNC_SIGNALED.
#[export] Instance v3da_syncobj_state_eq_dec : EqDecision v3da_syncobj_state.
Proof. solve_decision. Defined.

(** ** Job descriptors *)
Record v3da_cl_desc_t := mkCl {
  cl_bcl_start : Z; cl_bcl_end : Z; cl_rcl_start : Z; cl_rcl_end : Z;
  cl_qma : Z; cl_qms : Z; cl_qts : Z; cl_flags : Z }.
Record v3da_tfu_desc_t := mkTfu {
  tfu_icfg : Z; tfu_iia : Z; tfu_iis : Z; tfu_ica : Z; tfu_iua : Z; tfu_ioa : Z;
  tfu_ios : Z; tfu_coef : Z → Z }.
Record v3da_csd_desc_t := mkCsd { csd_cfg : Z → Z; csd_coef : Z → Z }.
Inductive job_desc :=
  | D_cl (d : v3da_cl_desc_t) | D_tfu (d : v3da_tfu_desc_t) | D_csd (d : v3da_csd_desc_t)
  | D_none.
Record v3da_sem_t := mkSem { sem_handle : Z; sem_flags : Z }.

(** A SUBMIT request after its flat buffer has been laid out: header and payload. *)
Record v3da_submit_t := mkSubmit { sb_desc_size : Z; sb_nbo : Z; sb_nin : Z; sb_nout : Z }.
Record v3da_submit_resp_t := mkSubmitResp { sr_first : v3da_fence_t; sr_last : v3da_fence_t }.

(** ** Requests and replies of the buffer-object family *)
Record v3da_bo_create_resp_t := mkBoCreateResp {
  bcr_handle : Z; bcr_gpuva : Z; bcr_size : Z; bcr_scanout : Z; bcr_mem : v3da_memref_t }.
Record v3da_bo_resp_t := mkBoResp { br_gpuva : Z; br_size : Z; br_mem : v3da_memref_t }.
Record v3da_bo_import_req_t := mkBoImportReq {
  bi_port : Z; bi_cache : Z; bi_id : Z; bi_size : Z; bi_ns : Z; bi_pad : Z }.
Record v3da_bo_sync_req_t := mkBoSyncReq {
  bs_ns : Z; bs_port : Z; bs_id : Z; bs_handle : Z; bs_flags : Z; bs_fence : v3da_fence_t }.
Record v3da_bo_fences_resp_t := mkBoFencesResp {
  bf_count : Z; bf_flags : Z; bf_f : list v3da_fence_t }.

Record v3da_fence_wait_resp_t := mkFenceWaitResp { fw_completed : Z; fw_error : Z; fw_echo : Z }.
Record v3da_syncobj_resp_t := mkSyncobjResp {
  sy_handle : Z; sy_state : v3da_syncobj_state; sy_first : Z; sy_fence : v3da_fence_t }.

Record v3da_scanout_req_t := mkScanoutReq { sq_pa : Z; sq_width : Z; sq_height : Z; sq_pitch : Z }.
Record v3da_scanout_resp_t := mkScanoutResp {
  so_nbuf : Z; so_virt_h : Z; so_bytes : Z; so_claimed : Z }.
Record v3da_flip_req_t := mkFlipReq { fl_buf : Z; fl_flags : Z; fl_fence : v3da_fence_t }.
Record v3da_flip_resp_t := mkFlipResp { fr_deferred : Z; fr_pending : Z; fr_flips : Z }.
Record v3da_mode_req_t := mkModeReq { mq_set : Z; mq_mode : Z; mq_knobs : Z }.
Record v3da_mode_resp_t := mkModeResp { mo_mode : Z; mo_knobs : Z; mo_rc : Z }.
Record v3da_qstats_req_t := mkQstatsReq { qr_which : Z; qr_reset : Z }.
Record v3da_qstats_q_t := mkQstatsQ {
  qq_jobs : Z; qq_errors : Z; qq_busy_us : Z; qq_wait_us : Z; qq_max_us : Z; qq_oom : Z;
  qq_pending : Z; qq_active : Z }.
Record v3da_qstats_g_t := mkQstatsG {
  qg_window_us : Z; qg_any_busy_us : Z; qg_overlap_us : Z; qg_mode : Z; qg_knobs : Z;
  qg_wedges : Z; qg_resets : Z; qg_ovf_free : Z; qg_ovf_total : Z; qg_ovf_starved : Z;
  qg_flips : Z }.

Record v3da_info_t := mkInfo {
  in_ident : list Z; in_irq_mode : Z; in_irq_num : Z; in_clk_rate_hz : Z; in_clk_meas_hz : Z;
  in_max_bos : Z; in_nclients : Z }.
Record v3da_irq_mode_resp_t := mkIrqModeResp { ir_rc : Z; ir_mode : Z; ir_irq : Z }.
Record v3da_stats_t := mkStatsReply {
  ss_clients : Z; ss_bos_live : Z; ss_bos_quarantined : Z; ss_bos_pooled : Z;
  ss_bo_quarantine_passed : Z; ss_pages_to_kernel : Z; ss_parked : Z; ss_parked_max : Z;
  ss_irq_count : Z; ss_tlb_flushes : Z; ss_loops : Z; ss_timeouts : Z; ss_nops_done : Z; ss_resets : Z }.
Record v3da_hello_t := mkHello {
  he_proto : Z; he_client_id : Z; he_slot : Z; he_slot_gen : Z; he_flags : Z; he_fence_page : v3da_memref_t }.

(** The reply union [v3da_resp_t.u]; [R_none] is the zeroed reply. *)
Inductive v3da_resp_u :=
  | R_none
  | R_param (value : Z)
  | R_bo_create (r : v3da_bo_create_resp_t)
  | R_bo (r : v3da_bo_resp_t)
  | R_offset (gpuva : Z)
  | R_fence (f : v3da_fence_t)
  | R_bo_fences (r : v3da_bo_fences_resp_t)
  | R_fence_wait (r : v3da_fence_wait_resp_t)
  | R_syncobj (r : v3da_syncobj_resp_t)
  | R_submit (r : v3da_submit_resp_t)
  | R_scanout (r : v3da_scanout_resp_t)
  | R_flip (r : v3da_flip_resp_t)
  | R_mode (r : v3da_mode_resp_t)
  | R_qstats_q (r : v3da_qstats_q_t)
  | R_qstats_g (r : v3da_qstats_g_t)
  | R_quit (parked inflight : Z)
  | R_bo_checksum (sum first_word : Z)
  | R_info (r : v3da_info_t)
  | R_irq_mode (r : v3da_irq_mode_resp_t)
  | R_stats (r : v3da_stats_t)
  | R_hello (r : v3da_hello_t).

(** A reply: [err] is 0 or a negative errno. *)
Record v3da_resp_t := mkResp { resp_err : Z; resp_u : v3da_resp_u }.

(** ** Registers (v3da_regs.h) *)
Definition INT_FRDONE := 1.
Definition INT_FLDONE := 2.
Definition INT_OUTOMEM := 4.
Definition INT_GMPV := 32.
Definition INT_CSDDONE := 128.
Definition INT_QPU_MASK := 0xfff0000.
Definition HUB_INT_TFUF := 1.
Definition HUB_INT_TFUC := 2.
Definition HUB_INT_MMU_ANY := 0x38.

(** The registers the kick sequences, the interrupt service and the watchdog use. *)
Inductive core_reg :=
  | CTL_INT_STS | CTL_INT_CLR | CTL_INT_MSK_SET | CTL_INT_MSK_CLR
  | CTL_SLCACTL | CTL_L2TCACTL | PTB_BPOA | PTB_BPOS
  | CLE_CT0QMA | CLE_CT0QMS | CLE_CT0QTS | CLE_CT0QBA | CLE_CT0QEA | CLE_CT0CA | CLE_CT0RA
  | CLE_CT1QBA | CLE_CT1QEA | CLE_CT1CA | CLE_CT1RA
  | CSD_STATUS | CSD_CURRENT_CFG4 | CSD_QUEUED_CFG (i : Z).
Inductive hub_reg :=
  | HUB_INT_STS | HUB_INT_CLR | HUB_INT_MSK_SET | HUB_INT_MSK_CLR
  | MMU_CTL | MMUC_CONTROL | TFU_CS
  | TFU_IIA | TFU_IIS | TFU_ICA | TFU_IUA | TFU_IOA | TFU_IOS | TFU_ICFG | TFU_COEF (i : Z).

#[export] Instance core_reg_eq_dec : EqDecision core_reg.
Proof. solve_decision. Defined.
#[export] Instance hub_reg_eq_dec : EqDecision hub_reg.
Proof. solve_decision. Defined.

Definition SLCACTL_INVAL_ALL := 0x0f0f0f0f.
Definition L2TCACTL_L2TFLS := 1.
Definition L2TCACTL_FLM_CLEAN := 4.
Definition L2TCACTL_TMUWCF := 256.
Definition MMUC_ENABLE := 1.
Definition MMUC_FLUSH := 2.
Definition MMU_CTL_TLB_CLEAR := 4.
Definition CT0QTS_ENABLE := 2.
Definition TFU_COEF0_USECOEF := 0x80000000.
Definition TFU_ICFG_IOC := 1.
Definition TFU_CS_BUSY := 1.
Definition CORE_IRQS := 0xa7.
Definition HUB_IRQS := 0x3a.
