(* ===== verification/Csdprof.v ===== *)
(** The CSD profile (tools/gpu-lane/v3d-async/v3da_csdprof.h): per-CFG5 classes of
    compute jobs, with workgroup counts, tick sums and a time histogram. *)
From S2P Require Import Prelude.

Definition V3DA_CSDPROF_CLASSES := 16.
Definition V3DA_CSDPROF_BUCKETS := 8.
Definition V3DA_CSDPROF_REST := 0xffffffff.

Record v3da_csdprof_t := mkProf {
  cp_cfg5 : Z;
  cp_cfg3 : Z;
  cp_wg : Z → Z;
  cp_wgs_min : Z; cp_wgs_max : Z;
  cp_n : Z; cp_n_printed : Z;
  cp_no_irq : Z;
  cp_wgs : Z; cp_batches : Z;
  cp_pro : Z; cp_gpu : Z; cp_wake : Z; cp_epi : Z;
  cp_gpu_max : Z;
  cp_hist : Z → Z }.
#[export] Instance eta_prof : Eta v3da_csdprof_t := fun r => mkProf (cp_cfg5 r) (cp_cfg3 r)
  (cp_wg r) (cp_wgs_min r) (cp_wgs_max r) (cp_n r) (cp_n_printed r) (cp_no_irq r) (cp_wgs r) (cp_batches r)
  (cp_pro r) (cp_gpu r) (cp_wake r) (cp_epi r) (cp_gpu_max r) (cp_hist r).
Definition prof0 := mkProf 0 0 (λ _, 0) 0 0 0 0 0 0 0 0 0 0 0 0 (λ _, 0).

Record v3da_csdprof_times_t := mkTimes { t_t0 : Z; t_t1 : Z; t_done : Z; t_ev : Z; t_end : Z }.

Definition v3da_csdprof_us (ticks cntfrq : Z) : Z :=
  if negb (cntfrq =? 0) then u64 (ticks * 1000000) / cntfrq else 0.

(** The class a CFG5 value counts in, as an index, with the table after the claim. *)
Definition csdprof_key (cfg5 : Z) : Z :=
  if negb (cfg5 =? 0) && negb (cfg5 =? V3DA_CSDPROF_REST) then cfg5 else 1.

Definition v3da_csdprof_class (tab : Z → v3da_csdprof_t) (cfg5 : Z)
    : Z * (Z → v3da_csdprof_t) :=
  let key := csdprof_key cfg5 in
  match find_first (λ i, (cp_cfg5 (tab i) =? key) || (cp_cfg5 (tab i) =? 0))
          0 (V3DA_CSDPROF_CLASSES - 1) with
  | Some i => (i, <[i := tab i <| cp_cfg5 := key |>]> tab)
  | None => let i := V3DA_CSDPROF_CLASSES - 1 in
            (i, <[i := tab i <| cp_cfg5 := V3DA_CSDPROF_REST |>]> tab)
  end.

Definition edge_us : list Z := [250; 500; 1000; 2000; 4000; 8000; 16000].

(** The histogram bucket of a GPU time: the first edge above it, or the last bucket. *)
Fixpoint bucket (edges : list Z) (us : Z) : Z :=
  match edges with
  | [] => 0
  | e :: edges => if e <=? us then 1 + bucket edges us else 0
  end.

(** GPU ticks, wake-up ticks, and whether no interrupt stamp was usable. *)
Definition csdprof_split (t : v3da_csdprof_times_t) : Z * Z * bool :=
  if negb (t_done t =? 0) && (t_t1 t <=? t_done t) && (t_done t <=? t_ev t)
  then (t_done t - t_t1 t, t_ev t - t_done t, false)
  else ((if t_t1 t <? t_ev t then t_ev t - t_t1 t else 0), 0, true).

Definition v3da_csdprof_account (tab : Z → v3da_csdprof_t) (cfg : Z → Z)
    (t : v3da_csdprof_times_t) (cntfrq : Z) : Z → v3da_csdprof_t :=
  let '(i, tab) := v3da_csdprof_class tab (cfg 5) in
  let c := tab i in
  let wg := <[2 := Z.shiftr (cfg 2) 16]> (<[1 := Z.shiftr (cfg 1) 16]>
              (<[0 := Z.shiftr (cfg 0) 16]> (cp_wg c))) in
  let wgs := Z.min (wg 0 * wg 1 * wg 2) 0xffffffff in
  let '(gpu, wake, no_irq) := csdprof_split t in
  let us := v3da_csdprof_us gpu cntfrq in
  let b := bucket edge_us us in
  let c := c <| cp_cfg3 := cfg 3 |> <| cp_wg := wg |>
    <| cp_wgs_min := if (cp_n c =? 0) || (wgs <? cp_wgs_min c) then wgs else cp_wgs_min c |>
    <| cp_wgs_max := if cp_wgs_max c <? wgs then wgs else cp_wgs_max c |>
    <| cp_wgs ::= λ x, u64 (x + wgs) |>
    <| cp_batches ::= λ x, u64 (x + (cfg 4 + 1)) |>
    <| cp_no_irq ::= λ x, if no_irq then u32 (x + 1) else x |>
    <| cp_pro ::= λ x, u64 (x + (if t_t0 t <? t_t1 t then t_t1 t - t_t0 t else 0)) |>
    <| cp_gpu ::= λ x, u64 (x + gpu) |>
    <| cp_wake ::= λ x, u64 (x + wake) |>
    <| cp_epi ::= λ x, u64 (x + (if t_ev t <? t_end t then t_end t - t_ev t else 0)) |>
    <| cp_gpu_max ::= λ x, if x <? gpu then gpu else x |>
    <| cp_hist ::= λ h, <[b := u32 (h b + 1)]> h |>
    <| cp_n ::= λ x, u32 (x + 1) |> in
  <[i := c]> tab.

(** ** What the profile promises

    The compute profile keeps one class per pipeline and a histogram that adds up. *)
(** The edges around bucket [b]. *)
Definition in_bucket (b us : Z) : Prop :=
  (∀ e, edge_us !! Z.to_nat (b - 1) = Some e → 0 < b → e ≤ us) ∧
  (∀ e, edge_us !! Z.to_nat b = Some e → us < e).

Lemma bucket_spec l us :
  let b := bucket l us in
  0 ≤ b ≤ Z.of_nat (length l) ∧
  (∀ e, l !! Z.to_nat (b - 1) = Some e → 0 < b → e ≤ us) ∧ (∀ e, l !! Z.to_nat b = Some e → us < e).
Proof.
  induction l as [|e l IH]; cbv zeta; simpl; [split_and!; done || lia|].
  destruct (Z.leb_spec e us) as [Hle|Hgt]; cbv zeta in IH.
  2:{ split_and!; [lia|lia|lia|]. intros e' [= <-]. lia. }
  destruct IH as (H1 & H2 & H3). split_and!; [lia|lia| |].
  - intros e' He' _. replace (1 + bucket l us - 1) with (bucket l us) in He' by lia.
    destruct (decide (bucket l us = 0)) as [H0|H0]; [rewrite H0 in He'; by injection He' as <-|].
    replace (Z.to_nat (bucket l us)) with (S (Z.to_nat (bucket l us - 1))) in He' by lia. apply (H2 e' He'). lia.
  - intros e' He'. replace (Z.to_nat (1 + bucket l us)) with (S (Z.to_nat (bucket l us))) in He' by lia. by apply H3.
Qed.

(** One class: its histogram adds up to its count, its extremes are in order. *)
Record class_wf (c : v3da_csdprof_t) : Prop := mkClassWf {
  cw_hist : u32 (sumZ (cp_hist c) 0 V3DA_CSDPROF_BUCKETS) = cp_n c;
  cw_range : cp_n c ≠ 0 → 0 ≤ cp_wgs_min c ≤ cp_wgs_max c ∧ cp_wgs_max c ≤ 0xffffffff;
  cw_n : 0 ≤ cp_n c;
  cw_fresh : cp_n c = 0 → 0 ≤ cp_wgs_max c ≤ 0xffffffff }.

Definition REST_CLASS := V3DA_CSDPROF_CLASSES - 1.

(** The table: the claimed classes come first and no two share a pipeline. *)
Record prof_wf (tab : Z → v3da_csdprof_t) : Prop := mkProfWf {
  pw_class : ∀ i, class_wf (tab i);
  pw_prefix : ∀ i j, 0 ≤ i < j → j < REST_CLASS → cp_cfg5 (tab j) ≠ 0 → cp_cfg5 (tab i) ≠ 0;
  pw_distinct : ∀ i j, 0 ≤ i < REST_CLASS → 0 ≤ j < REST_CLASS → cp_cfg5 (tab i) ≠ 0 →
    cp_cfg5 (tab i) = cp_cfg5 (tab j) → i = j }.

Lemma csdprof_key_nz cfg5 : csdprof_key cfg5 ≠ 0.
Proof. unfold csdprof_key. destruct (Z.eqb_spec cfg5 0); simpl; [done|]. by destruct (cfg5 =? V3DA_CSDPROF_REST). Qed.

(** Where a pipeline counts: its own class, the first unclaimed one, or the rest. *)
Definition counts_in (tab : Z → v3da_csdprof_t) (key i : Z) : Prop :=
  (0 ≤ i < REST_CLASS ∧ (cp_cfg5 (tab i) = key ∨ cp_cfg5 (tab i) = 0)) ∨
  (i = REST_CLASS ∧ ∀ j, 0 ≤ j < REST_CLASS → cp_cfg5 (tab j) ≠ key ∧ cp_cfg5 (tab j) ≠ 0).

Lemma csdprof_class_spec tab cfg5 :
  prof_wf tab →
  let '(i, tab1) := v3da_csdprof_class tab cfg5 in
  counts_in tab (csdprof_key cfg5) i ∧ (∀ j, j ≠ i → tab1 j = tab j) ∧
  tab1 i = tab i <| cp_cfg5 := (if i =? REST_CLASS then V3DA_CSDPROF_REST else csdprof_key cfg5) |> ∧
  (∀ j, cp_cfg5 (tab j) = csdprof_key cfg5 → 0 ≤ j < REST_CLASS → j = i) ∧
  ∀ j, 0 ≤ j < i → i < REST_CLASS → cp_cfg5 (tab j) ≠ 0.
Proof.
  intros Hwf. unfold v3da_csdprof_class. cbv zeta. destruct (find_first _ _ _) as [i|] eqn:Hf.
  - apply find_first_Some in Hf as (Hi & Hhit & Hbefore). fold REST_CLASS in Hi. apply orb_true_iff in Hhit.
    assert (cp_cfg5 (tab i) = csdprof_key cfg5 ∨ cp_cfg5 (tab i) = 0) as Hor by (destruct Hhit; zify_bools; auto).
    assert (∀ j, 0 ≤ j < i → cp_cfg5 (tab j) ≠ csdprof_key cfg5 ∧ cp_cfg5 (tab j) ≠ 0) as Hb.
    { intros j Hj. specialize (Hbefore j Hj). apply orb_false_iff in Hbefore as [? ?]. by zify_bools. }
    split_and!.
    + left. split; [lia|done].
    + intros j Hj. by rewrite fn_upd_ne.
    + destruct (Z.eqb_spec i REST_CLASS); [lia|]. by rewrite fn_upd_eq.
    + intros j Hj Hr. destruct (Z.lt_trichotomy j i) as [Hlt|[->|Hgt]]; [|done|].
      * destruct (Hb j); [lia|done].
      * destruct Hor as [Ho|Ho].
        { apply (pw_distinct _ Hwf j i); [lia|lia|rewrite Hj; apply csdprof_key_nz|congruence]. }
        { exfalso. apply (pw_prefix _ Hwf i j); [lia|lia|rewrite Hj; apply csdprof_key_nz|done]. }
    + intros j Hj _. by apply Hb.
  - pose proof (find_first_None _ _ _ Hf) as Hn. fold REST_CLASS in Hn |- *.
    assert (∀ j, 0 ≤ j < REST_CLASS → cp_cfg5 (tab j) ≠ csdprof_key cfg5 ∧ cp_cfg5 (tab j) ≠ 0) as Hb.
    { intros j Hj. specialize (Hn j Hj). cbn beta in Hn. apply orb_false_iff in Hn as [? ?]. by zify_bools. }
    split_and!.
    + by right.
    + intros j Hj. by rewrite fn_upd_ne.
    + rewrite Z.eqb_refl. by rewrite fn_upd_eq.
    + intros j Hj Hr. by destruct (Hb j Hr).
    + intros. by apply Hb.
Qed.

(** The accounting of one dispatch in class [c]: one more in its bucket and in its count. *)
Definition counted (us : Z) (c c' : v3da_csdprof_t) : Prop :=
  cp_n c' = u32 (cp_n c + 1) ∧ ∃ b, 0 ≤ b < V3DA_CSDPROF_BUCKETS ∧ in_bucket b us ∧
    cp_hist c' = <[b := u32 (cp_hist c b + 1)]> (cp_hist c).

Lemma counted_wf us c c' wgs :
  class_wf c → counted us c c' → 0 ≤ wgs ≤ 0xffffffff → cp_n c + 1 < 2 ^ 32 →
  cp_wgs_min c' = (if (cp_n c =? 0) || (wgs <? cp_wgs_min c) then wgs else cp_wgs_min c) →
  cp_wgs_max c' = (if cp_wgs_max c <? wgs then wgs else cp_wgs_max c) → class_wf c'.
Proof.
  intros [Hh Hr H0 Hf] (Hn & b & Hb & _ & Hh') Hw Hlt Hmin Hmax. rewrite u32_small in Hn by lia. constructor.
  - rewrite Hn, Hh', <- Hh.
    rewrite (sumZ_point (cp_hist c) (<[b := u32 (cp_hist c b + 1)]> (cp_hist c)) 0 V3DA_CSDPROF_BUCKETS b); [|done|by intros; rewrite fn_upd_ne].
    rewrite fn_upd_eq. set (t := sumZ _ _ _) in *.
    rewrite <- (u32_small (u32 t + 1)) by (pose proof (u32_range t); lia). unfold u32.
    rewrite Z.add_mod_idemp_l by done. replace (t - cp_hist c b + (cp_hist c b + 1) mod 2 ^ 32)
      with ((cp_hist c b + 1) mod 2 ^ 32 + (t - cp_hist c b)) by lia. rewrite Z.add_mod_idemp_l by done. f_equal. lia.
  - intros _. rewrite Hmin, Hmax.
    destruct (Z.eqb_spec (cp_n c) 0) as [Hz|Hz]; cbn [orb]; [specialize (Hf Hz)|specialize (Hr Hz)];
      repeat match goal with |- context [?x <? ?y] => destruct (Z.ltb_spec x y) end; lia.
  - lia.
  - rewrite Hn. lia.
Qed.

(** accounting one dispatch counts it once, in the class of its pipeline (or in
    the rest class, only when all others are taken by other pipelines), in the bucket its
    GPU time falls in, and keeps one class per pipeline and every histogram adding up to
    its class's count. *)
Theorem v3da_csdprof_account_spec tab cfg t freq :
  prof_wf tab → (∀ i, cp_n (tab i) + 1 < 2 ^ 32) → (∀ k, 0 ≤ cfg k) →
  let tab' := v3da_csdprof_account tab cfg t freq in
  prof_wf tab' ∧ ∃ i, counts_in tab (csdprof_key (cfg 5)) i ∧ (∀ j, j ≠ i → tab' j = tab j) ∧
    cp_cfg5 (tab' i) = (if i =? REST_CLASS then V3DA_CSDPROF_REST else csdprof_key (cfg 5)) ∧
    counted (v3da_csdprof_us (csdprof_split t).1.1 freq) (tab i) (tab' i).
Proof.
  intros Hwf Hlt Hcfg. cbv zeta. unfold v3da_csdprof_account.
  pose proof (csdprof_class_spec tab (cfg 5) Hwf) as Hc. destruct (v3da_csdprof_class tab (cfg 5)) as [i tab1].
  destruct Hc as (Hin & Hne & Hi & Huniq & Hpre). destruct (csdprof_split t) as [[gpu wake] no_irq]. cbn [fst].
  cbv zeta. set (us := v3da_csdprof_us gpu freq). set (b := bucket edge_us us). set (wg := <[2 := _]> _).
  set (wgs := Z.min _ _). set (c' := _ <| cp_n ::= _ |>).
  assert (∀ j, (<[i := c']> tab1) j = if decide (i = j) then c' else tab j) as Htab.
  { intros j. rewrite fn_upd_case. case_decide; [done|]. by apply Hne. }
  assert (cp_cfg5 c' = if i =? REST_CLASS then V3DA_CSDPROF_REST else csdprof_key (cfg 5)) as Hk by (unfold c'; cbn; by rewrite Hi).
  destruct (bucket_spec edge_us us) as (Hb & Hb1 & Hb2). fold b in Hb, Hb1, Hb2.
  assert (counted us (tab i) c') as Hcnt.
  { unfold counted, c'. cbn [upd cp_n cp_hist]. rewrite Hi. cbn. split; [done|]. exists b. unfold V3DA_CSDPROF_BUCKETS. change (length edge_us) with 7%nat in Hb. split_and!; [lia|lia| |done]. by split. }
  assert (0 ≤ wgs ≤ 0xffffffff) as Hwgs.
  { unfold wgs, wg. pose proof (Z.shiftr_nonneg (cfg 0) 16). pose proof (Z.shiftr_nonneg (cfg 1) 16). pose proof (Z.shiftr_nonneg (cfg 2) 16).
    pose proof (Hcfg 0). pose proof (Hcfg 1). pose proof (Hcfg 2).
    rewrite !fn_upd_eq, !(fn_upd_ne _ 2), !fn_upd_eq, !(fn_upd_ne _ 1), fn_upd_eq by done.
    assert (0 ≤ Z.shiftr (cfg 0) 16 * Z.shiftr (cfg 1) 16 * Z.shiftr (cfg 2) 16) by (repeat apply Z.mul_nonneg_nonneg; tauto). lia. }
  assert (class_wf c') as Hcw.
  { apply (counted_wf us (tab i) c' wgs); [apply Hwf|done|done|apply Hlt| |]; unfold c'; cbn [upd cp_wgs_min cp_wgs_max]; by rewrite Hi. }
  split.
  - constructor.
    + intros j. rewrite Htab. case_decide; [done|apply Hwf].
    + intros j k Hjk Hk'. rewrite !Htab. repeat case_decide; subst; try lia.
      * intros _. apply Hpre; lia.
      * intros _. rewrite Hk. destruct (Z.eqb_spec j REST_CLASS); [lia|]. apply csdprof_key_nz.
      * by apply (pw_prefix _ Hwf).
    + intros j k Hj Hk'. rewrite !Htab. repeat case_decide; subst; try done.
      * rewrite Hk. destruct (Z.eqb_spec j REST_CLASS); [lia|]. intros _ He. symmetry. by apply Huniq.
      * rewrite Hk. destruct (Z.eqb_spec k REST_CLASS); [lia|]. intros _ He. by apply Huniq.
      * by apply (pw_distinct _ Hwf).
  - exists i. split_and!; [done| | |].
    + intros j Hj. rewrite Htab. by rewrite decide_False.
    + by rewrite Htab, decide_True.
    + by rewrite Htab, decide_True.
Qed.

(** A table nothing has been counted in. *)
Lemma prof_wf_empty : prof_wf (λ _, prof0).
Proof. constructor; [intros; constructor; (reflexivity || (cbn; lia))|done|done]. Qed.

Lemma v3da_csdprof_account_spec_witness :
  let cfg := λ k, if k =? 5 then 0x1234 else if k <? 3 then Z.shiftl 4 16 else 7 in
  let tab' := v3da_csdprof_account (λ _, prof0) cfg (mkTimes 10 20 54020 60000 70000) 54000000 in
  cp_hist (tab' 0) 3 = 1 ∧ cp_wgs_max (tab' 0) = 64 ∧ prof_wf tab'.
Proof.
  intros cfg tab'. split; [vm_compute; reflexivity|]. split; [vm_compute; reflexivity|].
  apply (v3da_csdprof_account_spec (λ _, prof0) cfg (mkTimes 10 20 54020 60000 70000) 54000000 prof_wf_empty).
  - intros i. vm_compute. reflexivity.
  - intros k. unfold cfg. repeat case_match; vm_compute; discriminate.
Defined.
