(* ===== verification/State.v ===== *)
(** The state of the V3D render server: the records of v3da.h and of the fence page
    (v3da_proto.h), the environment the server reads from (clock, registers,
    allocator, other servers) and the log of its externally visible effects. *)
From S2P Require Import Prelude Proto Csdprof.

(** ** Hardware state kept in memory (v3da_hw_t) *)
Record hole := mkHole { ho_gpuva : Z; ho_pages : Z }.
Record v3da_hw_t := mkHw {
  hw_pt : Z → Z;                (* the flat MMU page table *)
  hw_pt_entries : Z;
  hw_ident : Z → Z; hw_irq_num : Z; hw_clk_rate_hz : Z; hw_clk_meas_hz : Z;
  hw_next_gpuva : Z;
  hw_holes : list hole;         (* holes[0 .. nholes) *)
  hw_pt_gen : Z;
  hw_tlb_gen : Z;
  hw_tlb_flushes : Z;
  hw_irq_on : bool;
  hw_ev_core : Z;
  hw_ev_hub : Z;
  hw_irq_count : Z;
  hw_irq_spurious : Z;
  hw_irq_count_snap : Z;
  hw_storm : Z;
  hw_mmu_ctl_seen : Z;
  hw_ovf_stage_va : Z;
  hw_ovf_stage_size : Z;
  hw_ovf_consumed : Z;
  hw_ovf_missed : Z;
  hw_csd_done_cnt : Z }.
#[export] Instance eta_hw : Eta v3da_hw_t := fun r => mkHw (hw_pt r) (hw_pt_entries r)
  (hw_ident r) (hw_irq_num r) (hw_clk_rate_hz r) (hw_clk_meas_hz r)
  (hw_next_gpuva r) (hw_holes r) (hw_pt_gen r) (hw_tlb_gen r) (hw_tlb_flushes r)
  (hw_irq_on r) (hw_ev_core r) (hw_ev_hub r) (hw_irq_count r) (hw_irq_spurious r)
  (hw_irq_count_snap r) (hw_storm r) (hw_mmu_ctl_seen r) (hw_ovf_stage_va r)
  (hw_ovf_stage_size r) (hw_ovf_consumed r) (hw_ovf_missed r) (hw_csd_done_cnt r).

(** ** The fence page (v3da_fence_page_t) *)
Record v3da_fence_page_t := mkFp {
  fp_flags : Z;
  fp_reset_gen : Z;
  fp_heartbeat : Z;
  fp_hw_submitted : Z → Z;          (* per queue *)
  fp_hw_completed : Z → Z;
  fp_completed : Z → Z → Z;         (* slot, queue *)
  fp_error_seq : Z → Z;             (* slot *)
  fp_gen : Z → Z }.
#[export] Instance eta_fp : Eta v3da_fence_page_t := fun r => mkFp (fp_flags r)
  (fp_reset_gen r) (fp_heartbeat r) (fp_hw_submitted r) (fp_hw_completed r)
  (fp_completed r) (fp_error_seq r) (fp_gen r).

(** ** Buffer objects (v3da_bo_t) *)
Inductive v3da_bo_state := V3DA_BO_FREE | V3DA_BO_LIVE | V3DA_BO_QUARANTINE.
#[export] Instance v3da_bo_state_eq_dec : EqDecision v3da_bo_state.
Proof. solve_decision. Defined.

Record v3da_bo_t := mkBo {
  bo_state : v3da_bo_state;
  bo_handle : Z;
  bo_owner : Z;
  bo_refs : Z;
  bo_inflight : Z;
  bo_flags : Z;
  bo_cpu : Z;
  bo_pa : Z;
  bo_gpuva : Z;
  bo_pages : Z;
  bo_last : Z → v3da_fence_t;       (* per queue *)
  bo_last_gseq : Z → Z;
  bo_scanout : Z;
  bo_low : bool;
  bo_imported : bool;
  bo_imp_mem : v3da_memref_t;
  bo_exported : bool;
  bo_fd_opens : Z;
  bo_sharers : Z;
  bo_clear_pt_gen : Z;
  bo_pass : Z → Z }.
#[export] Instance eta_bo : Eta v3da_bo_t := fun r => mkBo (bo_state r) (bo_handle r)
  (bo_owner r) (bo_refs r) (bo_inflight r) (bo_flags r) (bo_cpu r) (bo_pa r) (bo_gpuva r)
  (bo_pages r) (bo_last r) (bo_last_gseq r) (bo_scanout r) (bo_low r) (bo_imported r)
  (bo_imp_mem r) (bo_exported r) (bo_fd_opens r) (bo_sharers r) (bo_clear_pt_gen r)
  (bo_pass r).

(** [memset(b, 0, sizeof( *b))]; V3DA_BO_FREE is 0. *)
Definition bo0 : v3da_bo_t := mkBo V3DA_BO_FREE 0 0 0 0 0 0 0 0 0 (λ _, fence0) (λ _, 0)
  0 false false memref0 false 0 0 0 (λ _, 0).

(** A block the server owns and has not handed out (v3da_lowmem.h). *)
Record v3da_pool_block_t := mkPool { po_cpu : Z; po_pa : Z; po_pages : Z; po_cached : Z }.

(** The buffer-object part of v3da_srv_t. *)
Record bo_table := mkBoTable {
  bos : Z → v3da_bo_t;
  bo_gen : Z → Z;
  nbos : Z;
  pool : list v3da_pool_block_t;    (* pool[0 .. npool) *)
  imports : Z;
  exports : Z;
  buf_port : Z;
  low_budget : Z; low_live : Z; low_peak : Z;
  low_bos : Z; low_from_pool : Z; low_fallback : Z; low_tries : Z; low_rejected : Z;
  bo_quarantine_passed : Z;
  pages_to_kernel : Z }.
#[export] Instance eta_bo_table : Eta bo_table := fun r => mkBoTable (bos r) (bo_gen r)
  (nbos r) (pool r) (imports r) (exports r) (buf_port r) (low_budget r) (low_live r)
  (low_peak r) (low_bos r) (low_from_pool r) (low_fallback r) (low_tries r)
  (low_rejected r) (bo_quarantine_passed r) (pages_to_kernel r).

(** ** Clients and syncobjs *)
Record v3da_syncobj_t := mkSync {
  so_used : bool; so_state : v3da_syncobj_state; so_fence : v3da_fence_t }.
#[export] Instance eta_sync : Eta v3da_syncobj_t := fun r => mkSync (so_used r) (so_state r) (so_fence r).
Definition sync0 := mkSync false V3DA_SYNC_EMPTY fence0.

Record v3da_client_t := mkClient {
  c_used : bool;
  c_id : Z;
  c_pid : Z;
  c_hello : bool;
  c_slot : Z;
  c_next_seq : Z → Z;
  c_nparked : Z;
  c_sync : Z → v3da_syncobj_t }.
#[export] Instance eta_client : Eta v3da_client_t := fun r => mkClient (c_used r) (c_id r)
  (c_pid r) (c_hello r) (c_slot r) (c_next_seq r) (c_nparked r) (c_sync r).
Definition client0 := mkClient false 0 0 false 0 (λ _, 0) 0 (λ _, sync0).

Record client_table := mkClients {
  clients : Z → v3da_client_t;
  nclients : Z;
  slot_gen : Z → Z;
  dead_flush : Z → Z → Z }.
#[export] Instance eta_clients : Eta client_table := fun r => mkClients (clients r)
  (nclients r) (slot_gen r) (dead_flush r).

(** ** Jobs and queues

    A [v3da_job_t *] is the job's [gseq], which no other job ever has; the heap maps
    it to the job until [free].  The per-client linked list of a queue
    ([head], [tail], [next]) is the list of its jobs, head first. *)
Record v3da_job_t := mkJob {
  j_queue : Z;
  j_client : Z;
  j_fence : v3da_fence_t;
  j_gseq : Z;
  j_t_submit_us : Z;
  j_t_kick_us : Z;
  j_error : bool;
  j_dep : list v3da_fence_t;        (* dep[0 .. ndep) *)
  j_render : option Z;
  j_bin : option Z;
  j_dep_error : bool;
  j_bos : option (list Z);          (* NULL, or bos[0 .. nbo) *)
  j_ovf_head : Z;
  j_wd_check_us : Z;
  j_wd_progress_us : Z;
  j_wd_ca : Z;
  j_wd_ra : Z;
  j_qpu_acks : Z;
  j_csd_t0 : Z;
  j_csd_t1 : Z;
  j_d : job_desc;
  j_delay_us : Z;
  j_done_at_us : Z;
  j_join : bool }.
#[export] Instance eta_job : Eta v3da_job_t := fun r => mkJob (j_queue r) (j_client r)
  (j_fence r) (j_gseq r) (j_t_submit_us r) (j_t_kick_us r) (j_error r) (j_dep r)
  (j_render r) (j_bin r) (j_dep_error r) (j_bos r) (j_ovf_head r) (j_wd_check_us r)
  (j_wd_progress_us r) (j_wd_ca r) (j_wd_ra r) (j_qpu_acks r) (j_csd_t0 r) (j_csd_t1 r)
  (j_d r) (j_delay_us r) (j_done_at_us r) (j_join r).

Record v3da_queue_t := mkQueue {
  q_fifo : Z → list Z;              (* per client slot: head .. tail *)
  q_active : option Z;
  q_rr : Z;
  q_pending : Z;
  q_st_jobs : Z; q_st_errors : Z; q_st_max_us : Z; q_st_oom : Z;
  q_st_busy_us : Z; q_st_wait_us : Z }.
#[export] Instance eta_queue : Eta v3da_queue_t := fun r => mkQueue (q_fifo r) (q_active r)
  (q_rr r) (q_pending r) (q_st_jobs r) (q_st_errors r) (q_st_max_us r) (q_st_oom r)
  (q_st_busy_us r) (q_st_wait_us r).

Record sched := mkSched {
  q : Z → v3da_queue_t;
  jobs : gmap Z v3da_job_t;
  gseq : Z;
  mode : Z;
  knobs : Z;
  wedge_ms : Z;
  nbusy : Z;
  acct_t_us : Z; acct_t0_us : Z; any_busy_us : Z; overlap_us : Z;
  poll_us : Z;
  kick_pending : bool;
  quit : bool }.
#[export] Instance eta_sched : Eta sched := fun r => mkSched (q r) (jobs r) (gseq r)
  (mode r) (knobs r) (wedge_ms r) (nbusy r) (acct_t_us r) (acct_t0_us r) (any_busy_us r)
  (overlap_us r) (poll_us r) (kick_pending r) (quit r).

(** ** Binner-overflow pool and present queue *)
Record v3da_ovf_t := mkOvf {
  ov_gpuva : Z;
  ov_chunk_bytes : Z;
  ov_nchunks : Z;
  ov_free_head : Z;
  ov_nfree : Z;
  ov_staged : Z;
  ov_next : Z → Z;
  ov_starved : Z;
  ov_bin_waiting : Z }.
#[export] Instance eta_ovf : Eta v3da_ovf_t := fun r => mkOvf (ov_gpuva r)
  (ov_chunk_bytes r) (ov_nchunks r) (ov_free_head r) (ov_nfree r) (ov_staged r)
  (ov_next r) (ov_starved r) (ov_bin_waiting r).

Record flip_t := mkFlip { flip_buf : Z; flip_gated : bool; flip_fence : v3da_fence_t }.
Record v3da_scanout_t := mkScan {
  sc_pa : Z;
  sc_width : Z; sc_height : Z; sc_pitch : Z;
  sc_bytes : Z;
  sc_virt_h : Z;
  sc_nbuf : Z;
  sc_claimed : Z → Z;
  sc_q : list flip_t;                 (* q[0 .. nq) *)
  sc_flips : Z;
  sc_flips_deferred : Z;
  sc_shown : Z;
  sc_pan_err : Z }.
#[export] Instance eta_scan : Eta v3da_scanout_t := fun r => mkScan (sc_pa r) (sc_width r)
  (sc_height r) (sc_pitch r) (sc_bytes r) (sc_virt_h r) (sc_nbuf r) (sc_claimed r)
  (sc_q r) (sc_flips r) (sc_flips_deferred r) (sc_shown r) (sc_pan_err r).

(** ** Parked requests

    [w_addr] is the address calloc returned; the doubly linked list srv.waits is a
    list, most recently parked first. *)
Inductive v3da_wait_kind := V3DA_WAIT_FENCE | V3DA_WAIT_SYNCOBJ | V3DA_WAIT_BO.
Record v3da_wait_t := mkWait {
  w_addr : Z;
  w_kind : v3da_wait_kind;
  w_client : Z;
  w_rid : Z;
  w_port : Z;
  w_deadline_us : Z;
  w_fence : list v3da_fence_t;
  w_sync_handle : list Z;
  w_all : bool;
  w_for_submit : bool;
  w_resp : v3da_resp_t }.
#[export] Instance eta_wait : Eta v3da_wait_t := fun r => mkWait (w_addr r) (w_kind r)
  (w_client r) (w_rid r) (w_port r) (w_deadline_us r) (w_fence r) (w_sync_handle r)
  (w_all r) (w_for_submit r) (w_resp r).

Record wait_table := mkWaits {
  waits : list v3da_wait_t;
  next_wait : Z;                    (* addresses handed out by calloc *)
  nparked : Z;
  parked_max : Z;
  timeouts : Z;
  srv_port : Z;
  rx_port : Z }.
#[export] Instance eta_waits : Eta wait_table := fun r => mkWaits (waits r) (next_wait r)
  (nparked r) (parked_max r) (timeouts r) (srv_port r) (rx_port r).

(** ** Statistics *)
Record stats_t := mkStats {
  wedges : Z; submit_rejects : Z; cl_bcl_wrap : Z; cl_render_only : Z;
  g6_queries : Z; g6_pending : Z; g6_attach : Z; g6_attach_busy : Z;
  g6_implicit : Z; g6_implicit_deps : Z; g6_dropped : Z;
  loops : Z; nops_done : Z; resets : Z; stray_fldone : Z; stray_tfuc : Z;
  stat_jobs_seen : Z;
  stat_ms : Z; stat_next_us : Z;
  csdprof : bool; cntfrq : Z; csdprof_cls : Z → v3da_csdprof_t }.
#[export] Instance eta_stats : Eta stats_t := fun r => mkStats (wedges r)
  (submit_rejects r) (cl_bcl_wrap r) (cl_render_only r) (g6_queries r) (g6_pending r)
  (g6_attach r) (g6_attach_busy r) (g6_implicit r) (g6_implicit_deps r) (g6_dropped r)
  (loops r) (nops_done r) (resets r) (stray_fldone r) (stray_tfuc r) (stat_jobs_seen r) (stat_ms r) (stat_next_us r)
  (csdprof r) (cntfrq r) (csdprof_cls r).

(** ** Effects and the environment

    What the server does to the outside is appended to a log, in program order:
    register writes, waits for a status bit, mappings released, names published and
    withdrawn, replies. *)
Inductive effect :=
  | E_core (r : core_reg) (v : Z)
  | E_hub (r : hub_reg) (v : Z)
  | E_dsb                               (* "dsb sy" *)
  | E_wait_l2t                          (* v3da_hw_l2t_flush_wait *)
  | E_spin                              (* any other bounded spin on a status bit *)
  | E_zero (cpu bytes : Z)              (* memset of a block *)
  | E_munmap (cpu bytes : Z)
  | E_export (port id cpu bytes : Z)
  | E_unexport (port id : Z)
  | E_irq_detach
  | E_reset
  | E_pan (buf : Z)
  | E_respond (port rid : Z) (r : v3da_resp_t).

Record io := mkIo { io_n : Z; io_log : list effect }.
#[export] Instance eta_io : Eta io := fun r => mkIo (io_n r) (io_log r).

(** What the server reads: the [n]-th read of a run may return anything. *)
Class Env := {
  env_now : Z → Z;                      (* v3da_now_us *)
  env_cnt : Z → Z;                      (* v3da_cnt *)
  env_core : Z → core_reg → Z;          (* core register reads *)
  env_hub : Z → hub_reg → Z;            (* hub register reads *)
  env_csd_idle : Z → bool;              (* the CSD unit went idle within the spin bound *)
  env_va2pa : Z → Z → Z;                (* va2pa(cpu address) *)
  env_mmap : Z → Z → bool → option Z;   (* mmap(bytes, cached): the block, or MAP_FAILED *)
  env_malloc : Z → bool;                (* calloc/malloc succeeded *)
  env_export : Z → Z;                   (* memExport result *)
  env_vcprop : Z → Z * Z;               (* mailbox property: result, second answer word *)
  env_mem : Z → Z → Z;                  (* bytes of the server's own mappings *)
  env_reset : Z → Z;                    (* v3da_hw_reset_power result *)
  env_interrupt : Z → Z }.              (* interrupt() result *)

(** ** The server (v3da_srv_t) *)
Record v3da_srv_t := mkSrv {
  srv_hw : v3da_hw_t;
  srv_fp : v3da_fence_page_t;
  srv_cl : client_table;
  srv_sched : sched;
  srv_ovf : v3da_ovf_t;
  srv_scan : v3da_scanout_t;
  srv_bo : bo_table;
  srv_wt : wait_table;
  srv_st : stats_t;
  srv_io : io }.
#[export] Instance eta_srv : Eta v3da_srv_t := fun r => mkSrv (srv_hw r) (srv_fp r)
  (srv_cl r) (srv_sched r) (srv_ovf r) (srv_scan r) (srv_bo r) (srv_wt r) (srv_st r)
  (srv_io r).

(** One more environment read; one more effect. *)
Definition tick (s : v3da_srv_t) : v3da_srv_t := s <| srv_io ; io_n ::= Z.succ |>.
Definition emit (e : effect) (s : v3da_srv_t) : v3da_srv_t :=
  s <| srv_io ; io_log ::= λ l, l ++ [e] |>.
Definition cursor (s : v3da_srv_t) : Z := io_n (srv_io s).

(** Shorthands for the fields the code reaches through [srv]. *)
Definition srv_q (s : v3da_srv_t) (i : Z) : v3da_queue_t := q (srv_sched s) i.
Definition active (s : v3da_srv_t) (i : Z) : option Z := q_active (srv_q s i).
Definition job (s : v3da_srv_t) (j : Z) : option v3da_job_t := jobs (srv_sched s) !! j.
Definition srv_client (s : v3da_srv_t) (i : Z) : v3da_client_t := clients (srv_cl s) i.
Definition srv_bos (s : v3da_srv_t) (i : Z) : v3da_bo_t := bos (srv_bo s) i.

Definition set_q (i : Z) (f : v3da_queue_t → v3da_queue_t) (s : v3da_srv_t) : v3da_srv_t :=
  s <| srv_sched ; q ::= λ a, <[i := f (a i)]> a |>.
Definition set_job (j : Z) (f : v3da_job_t → v3da_job_t) (s : v3da_srv_t) : v3da_srv_t :=
  s <| srv_sched ; jobs ::= alter f j |>.
Definition set_bo (i : Z) (f : v3da_bo_t → v3da_bo_t) (s : v3da_srv_t) : v3da_srv_t :=
  s <| srv_bo ; bos ::= λ a, <[i := f (a i)]> a |>.
Definition set_client (i : Z) (f : v3da_client_t → v3da_client_t) (s : v3da_srv_t) : v3da_srv_t :=
  s <| srv_cl ; clients ::= λ a, <[i := f (a i)]> a |>.
