(* ===== verification/Lowmem.v ===== *)
(** Scan-out placement below 1 GiB (tools/gpu-lane/v3d-async/v3da_lowmem.h): the buddy
    footprint, budget admission, the pooled-block choice and the placement loop over
    fresh blocks. *)
From S2P Require Import Prelude Proto State.

Definition V3DA_LOWMEM_TRIES := 16.

(** ** Footprint

    [while (b < want) b <<= 1] on 64-bit words; [None] is a loop still running after
    [fuel] iterations. *)
Fixpoint footprint_loop (fuel : nat) (b want : Z) : option Z :=
  if b <? want then
    match fuel with
    | O => None
    | S fuel => footprint_loop fuel (u64 (Z.shiftl b 1)) want
    end
  else Some b.

Definition v3da_lowmem_footprint (pages page_size : Z) : Z :=
  default 0 (footprint_loop 64 page_size (u64 (pages * page_size))).

(** ** Budget and limit tests *)
Definition v3da_lowmem_admit (live foot budget : Z) : bool :=
  (foot <=? budget) && (live <=? budget - foot).

Definition v3da_lowmem_is_low (pa bytes : Z) : bool :=
  negb (bytes =? 0) && (pa <=? u64 (pa + bytes)) && (u64 (pa + bytes) <=? V3DA_LOWMEM_LIMIT).

(** ** The pooled block a new BO takes *)
Fixpoint pool_pick_loop (pages cached : Z) (want_low : bool) (page_size : Z)
    (l : list v3da_pool_block_t) (i : nat) (any : option nat) : option nat :=
  match l with
  | [] => if want_low then None else any
  | b :: l =>
      if negb (po_pages b =? pages) || negb (po_cached b =? cached)
      then pool_pick_loop pages cached want_low page_size l (S i) any
      else
        let low := v3da_lowmem_is_low (po_pa b) (u64 (pages * page_size)) in
        if want_low then
          if low then Some i else pool_pick_loop pages cached want_low page_size l (S i) any
        else if negb low then Some i
        else pool_pick_loop pages cached want_low page_size l (S i)
               (match any with None => Some i | Some _ => any end)
  end.

Definition v3da_pool_pick (l : list v3da_pool_block_t) (pages cached : Z) (want_low : bool)
    (page_size : Z) : option nat :=
  pool_pick_loop pages cached want_low page_size l 0 None.

(** ** The placement loop

    [map n] is what the [n]-th call of the allocator returns: no block, or a block
    with the physical addresses of its first and last page. *)
Record held_block := mkHeld { he_cpu : Z; he_pa : Z; he_ok : bool }.
Record v3da_lowmem_result_t := mkLmRes { lr_tries : Z; lr_rejected : Z; lr_low : bool }.

Section map_loop.
Context (map : nat → option (Z * Z * Z)) (bytes page_size : Z).

Definition block_ok (first last : Z) : bool :=
  negb (first =? 2 ^ 64 - 1) && (last =? u64 (first + bytes - page_size)).

(** [n] blocks are held in [held], [keep] is the last contiguous one; [rest] calls
    are left.  The result adds whether the loop broke on a low block. *)
Fixpoint lowmem_try (rest n : nat) (held : list held_block) (keep : option nat)
    : list held_block * option nat * bool :=
  match rest with
  | O => (held, keep, false)
  | S rest =>
      match map n with
      | None => (held, keep, false)
      | Some (cpu, first, last) =>
          let ok := block_ok first last in
          let held := held ++ [mkHeld cpu first ok] in
          let keep := if ok then Some n else keep in
          if ok && v3da_lowmem_is_low first bytes then (held, keep, true)
          else lowmem_try rest (S n) held keep
      end
  end.
End map_loop.

(** Every held block but the kept one is unmapped, in order. *)
Definition lowmem_rejects (held : list held_block) (keep : option nat) : list held_block :=
  match keep with
  | None => held
  | Some k => delete k held
  end.

Definition v3da_lowmem_map (map : nat → option (Z * Z * Z)) (bytes tries page_size : Z)
    : option held_block * v3da_lowmem_result_t * list held_block :=
  let tries := Z.min tries V3DA_LOWMEM_TRIES in
  if (bytes =? 0) || (page_size =? 0) || negb (bytes mod page_size =? 0)
  then (None, mkLmRes 0 0 false, [])
  else
    let '(held, keep, low) := lowmem_try map bytes page_size (Z.to_nat tries) 0 [] None in
    let rej := lowmem_rejects held keep in
    (keep ≫= (held !!.), mkLmRes (Z.of_nat (length held)) (Z.of_nat (length rej)) low, rej).

(** ** Lemmas: footprint *)
Lemma footprint_loop_spec n b want :
  0 < b → want ≤ 2 ^ 63 → want ≤ b * 2 ^ Z.of_nat n →
  ∃ k, 0 ≤ k ≤ Z.of_nat n ∧ footprint_loop n b want = Some (b * 2 ^ k) ∧
    want ≤ b * 2 ^ k ∧ (0 < k → b * 2 ^ (k - 1) < want).
Proof.
  revert b. induction n as [|n IH]; intros b Hb Hw Hn; simpl.
  - exists 0. replace (b <? want) with false by lia. simpl.
    split_and!; try lia. f_equal. lia.
  - destruct (b <? want) eqn:E; zify_bools; last first.
    { exists 0. split_and!; try lia. f_equal. lia. }
    assert (u64 (Z.shiftl b 1) = 2 * b) as ->.
    { rewrite Z.shiftl_mul_pow2 by lia. rewrite u64_small; lia. }
    rewrite Nat2Z.inj_succ, Z.pow_succ_r in Hn by lia.
    destruct (IH (2 * b)) as (k & Hk & -> & H1 & H2); [lia|lia|lia|].
    assert (2 ^ (k + 1) = 2 * 2 ^ k) as Ep by (rewrite <- Z.pow_succ_r by lia; f_equal; lia).
    exists (k + 1). rewrite Ep. split_and!; [lia|lia|f_equal; lia|lia|]. intros _.
    replace (k + 1 - 1) with k by lia.
    destruct (decide (k = 0)) as [->|]; [lia|].
    assert (2 ^ k = 2 * 2 ^ (k - 1)) as Ep' by (rewrite <- Z.pow_succ_r by lia; f_equal; lia).
    specialize (H2 ltac:(lia)). lia.
Qed.

(** Doubling a power of two never passes 2^63: it becomes 0 instead. *)
Lemma u64_pow2_le k : 0 ≤ k → u64 (2 ^ k) ≤ 2 ^ 63.
Proof.
  intros Hk. unfold u64. destruct (decide (k < 64)) as [Hl|Hl].
  - rewrite Z.mod_small by (split; [lia | by apply Z.pow_lt_mono_r]).
    apply Z.pow_le_mono_r; lia.
  - replace k with (k - 64 + 64) by lia. rewrite Z.pow_add_r, Z.mod_mul by lia. lia.
Qed.

Lemma footprint_loop_diverges n k want :
  0 ≤ k → 2 ^ 63 < want → footprint_loop n (u64 (2 ^ k)) want = None.
Proof.
  intros Hk Hw. revert k Hk. induction n as [|n IH]; intros k Hk; simpl;
    pose proof (u64_pow2_le k Hk); replace (u64 (2 ^ k) <? want) with true by lia; [done|].
  replace (u64 (Z.shiftl (u64 (2 ^ k)) 1)) with (u64 (2 ^ (k + 1))); [apply IH; lia|].
  unfold u64. rewrite Z.shiftl_mul_pow2 by lia. rewrite Z.mul_mod_idemp_l by lia.
  by rewrite Z.pow_add_r by lia.
Qed.

(** The footprint loop of a block of at most 2^63 bytes ends, whatever page size. *)
Lemma footprint_terminates pages page_size :
  0 < page_size → 0 ≤ pages → pages * page_size ≤ 2 ^ 63 →
  ∃ k, 0 ≤ k ∧ v3da_lowmem_footprint pages page_size = page_size * 2 ^ k ∧
    footprint_loop 64 page_size (pages * page_size) = Some (page_size * 2 ^ k) ∧
    pages * page_size ≤ page_size * 2 ^ k ∧ (0 < k → page_size * 2 ^ (k - 1) < pages * page_size).
Proof.
  intros Hp Hn Hw. unfold v3da_lowmem_footprint.
  rewrite u64_small by nia.
  destruct (footprint_loop_spec 64 page_size (pages * page_size)) as (k & Hk & E & H1 & H2); [lia|lia|nia|].
  exists k. rewrite E. simpl. split_and!; try done; lia.
Qed.

Lemma footprint_bounds pages page_size :
  0 < page_size → 0 ≤ pages → pages * page_size ≤ 2 ^ 63 →
  pages * page_size ≤ v3da_lowmem_footprint pages page_size ∧ 0 < v3da_lowmem_footprint pages page_size.
Proof.
  intros. destruct (footprint_terminates pages page_size) as (k & ? & -> & _ & ? & _); try done.
  split; [done|]. pose proof (Z.pow_pos_nonneg 2 k). nia.
Qed.

(** ** Lemmas: the budget test *)
Lemma admit_iff live foot budget :
  v3da_lowmem_admit live foot budget = true ↔ foot ≤ budget ∧ live + foot ≤ budget.
Proof. unfold v3da_lowmem_admit. rewrite andb_true_iff, !Z.leb_le. lia. Qed.

Lemma is_low_iff pa bytes :
  0 ≤ pa < 2 ^ 64 → 0 ≤ bytes < 2 ^ 64 →
  v3da_lowmem_is_low pa bytes = true ↔ 0 < bytes ∧ pa + bytes ≤ V3DA_LOWMEM_LIMIT.
Proof.
  intros Hpa Hb. unfold v3da_lowmem_is_low, V3DA_LOWMEM_LIMIT.
  rewrite !andb_true_iff, negb_true_iff, Z.eqb_neq, !Z.leb_le.
  destruct (decide (pa + bytes < 2 ^ 64)) as [Hlt|Hge].
  - rewrite u64_small by lia. lia.
  - assert (u64 (pa + bytes) = pa + bytes - 2 ^ 64) as ->; [|lia].
    unfold u64. replace (pa + bytes) with (pa + bytes - 2 ^ 64 + 1 * 2 ^ 64) at 1 by lia.
    rewrite Z.mod_add by lia. apply Z.mod_small. lia.
Qed.

(** ** Lemmas: the pool choice *)
Section pool_pick.
Context (pages cached page_size : Z).

Definition pool_fits (b : v3da_pool_block_t) : Prop :=
  po_pages b = pages ∧ po_cached b = cached.
Definition pool_is_low (b : v3da_pool_block_t) : bool :=
  v3da_lowmem_is_low (po_pa b) (u64 (pages * page_size)).

Lemma pool_fits_test b :
  negb (po_pages b =? pages) || negb (po_cached b =? cached) = false ↔ pool_fits b.
Proof. unfold pool_fits. destruct (Z.eqb_spec (po_pages b) pages), (Z.eqb_spec (po_cached b) cached); simpl; naive_solver. Qed.

Lemma pool_pick_low_spec l i any :
  match pool_pick_loop pages cached true page_size l i any with
  | Some k => ∃ b, (i ≤ k)%nat ∧ l !! (k - i)%nat = Some b ∧ pool_fits b ∧ pool_is_low b = true
  | None => ∀ b, b ∈ l → pool_fits b → pool_is_low b = false
  end.
Proof.
  revert i. induction l as [|b l IH]; intros i; simpl; [by intros b Hb; inv Hb|].
  specialize (IH (S i)).
  assert (∀ P : Prop, P →
    match pool_pick_loop pages cached true page_size l (S i) any with
    | Some k => ∃ b0, (i ≤ k)%nat ∧ (b :: l) !! (k - i)%nat = Some b0 ∧ pool_fits b0 ∧ pool_is_low b0 = true
    | None => (pool_fits b → pool_is_low b = false) →
              ∀ b0, b0 ∈ b :: l → pool_fits b0 → pool_is_low b0 = false end) as Hrest.
  { intros _ _. destruct (pool_pick_loop _ _ _ _ l _ _) as [k|].
    - destruct IH as (b0 & ? & Hl & ? & ?). exists b0. split_and!; try done; [lia|].
      replace (k - i)%nat with (S (k - S i)) by lia. done.
    - intros Hb b0 [->|Hin]%elem_of_cons; auto. }
  specialize (Hrest True I).
  destruct (_ || _) eqn:E.
  - destruct (pool_pick_loop _ _ _ _ l _ _); [done|]. apply Hrest.
    intros Hf%pool_fits_test. congruence.
  - apply pool_fits_test in E. fold (pool_is_low b). destruct (pool_is_low b) eqn:El.
    + exists b. rewrite Nat.sub_diag. done.
    + destruct (pool_pick_loop _ _ _ _ l _ _); [done|]. by apply Hrest.
Qed.

Lemma pool_pick_any_spec l i any :
  match pool_pick_loop pages cached false page_size l i any with
  | Some k =>
      (∃ b, (i ≤ k)%nat ∧ l !! (k - i)%nat = Some b ∧ pool_fits b ∧
         (pool_is_low b = true → ∀ b', b' ∈ l → pool_fits b' → pool_is_low b' = true)) ∨
      (any = Some k ∧ ∀ b, b ∈ l → pool_fits b → pool_is_low b = true)
  | None => any = None ∧ ∀ b, b ∈ l → ¬ pool_fits b
  end.
Proof.
  revert i any. induction l as [|b l IH]; intros i any; simpl.
  { destruct any; [right|]; (split; [done|]); by intros b Hb; inv Hb. }
  destruct (_ || _) eqn:E.
  - assert (¬ pool_fits b) as Hb by (intros Hf%pool_fits_test; congruence).
    specialize (IH (S i) any). destruct (pool_pick_loop _ _ _ _ l _ _) as [k|].
    + destruct IH as [(b0 & ? & Hl & ? & Hlow)|[? Hlow]]; [left|right].
      * exists b0. split_and!; try done; [lia| |].
        { by replace (k - i)%nat with (S (k - S i)) by lia. }
        intros Hb0 b' [->|Hin]%elem_of_cons Hf; [done|eauto].
      * split; [done|]. intros b' [->|Hin]%elem_of_cons Hf; [done|eauto].
    + destruct IH as [-> IH]. split; [done|]. intros b' [->|Hin]%elem_of_cons; auto.
  - apply pool_fits_test in E. fold (pool_is_low b). destruct (pool_is_low b) eqn:El; simpl.
    + specialize (IH (S i) (match any with None => Some i | Some _ => any end)).
      destruct (pool_pick_loop _ _ _ _ l _ _) as [k|].
      * destruct IH as [(b0 & ? & Hl & ? & Hlow)|[Hany Hlow]].
        { left. exists b0. split_and!; try done; [lia| |].
          - by replace (k - i)%nat with (S (k - S i)) by lia.
          - intros Hb0 b' [->|Hin]%elem_of_cons Hf; [done|eauto]. }
        destruct any as [a|]; simplify_eq; [right|left].
        { split; [done|]. intros b' [->|Hin]%elem_of_cons Hf; [done|eauto]. }
        exists b. rewrite Nat.sub_diag. split_and!; try done.
        intros _ b' [->|Hin]%elem_of_cons Hf; [done|eauto].
      * destruct IH as [Hn _]. by destruct any.
    + left. exists b. rewrite Nat.sub_diag. split_and!; try done. congruence.
Qed.
End pool_pick.

(** ** Lemmas: the placement loop *)
Section map_loop_spec.
Context (map : nat → option (Z * Z * Z)) (bytes page_size : Z).

(** What the loop holds after [n] allocator calls: the blocks those calls returned. *)
Definition held_from (held : list held_block) : Prop :=
  ∀ n h, held !! n = Some h → ∃ first last,
    map n = Some (he_cpu h, first, last) ∧ he_pa h = first ∧
    he_ok h = block_ok bytes page_size first last.

(** [keep] is the last contiguous block held. *)
Definition keep_last (held : list held_block) (keep : option nat) : Prop :=
  match keep with
  | Some k => ∃ h, held !! k = Some h ∧ he_ok h = true ∧
              ∀ n h', (k < n)%nat → held !! n = Some h' → he_ok h' = false
  | None => ∀ n h, held !! n = Some h → he_ok h = false
  end.

Definition held_low (h : held_block) : bool := he_ok h && v3da_lowmem_is_low (he_pa h) bytes.

Lemma keep_last_snoc held keep h :
  keep_last held keep →
  keep_last (held ++ [h]) (if he_ok h then Some (length held) else keep).
Proof.
  intros Hk. destruct (he_ok h) eqn:Eh.
  - exists h. split_and!; [by rewrite lookup_app_r, Nat.sub_diag by lia | done |].
    intros n h' Hn Hl%lookup_lt_Some. rewrite length_app in Hl. simpl in Hl. lia.
  - destruct keep as [k|]; simpl in *.
    + destruct Hk as (h0 & Hl & ? & Hlast). exists h0. split_and!; [by apply lookup_app_l_Some|done|].
      intros n h' Hn [Hl'|[Hge Hl']]%lookup_app_Some; [eauto|].
      destruct (n - length held)%nat; simplify_eq/=. done.
    + intros n h' [Hl'|[Hge Hl']]%lookup_app_Some; [eauto|].
      destruct (n - length held)%nat; simplify_eq/=. done.
Qed.

Lemma lowmem_try_spec rest held keep :
  held_from held → keep_last held keep → (∀ h, h ∈ held → held_low h = false) →
  let '(held', keep', low) := lowmem_try map bytes page_size rest (length held) held keep in
  held_from held' ∧ keep_last held' keep' ∧ (length held' ≤ length held + rest)%nat ∧
  (low = true → ∃ k h, keep' = Some k ∧ held' !! k = Some h ∧ held_low h = true) ∧
  (low = false → (∀ h, h ∈ held' → held_low h = false) ∧
     (map (length held') = None ∨ length held' = (length held + rest)%nat)).
Proof.
  revert held keep. induction rest as [|rest IH]; intros held keep Hf Hk Hl; simpl.
  { split_and!; try done; [lia|]. intros _. split; [done|]. right. lia. }
  destruct (map (length held)) as [[[cpu first] last]|] eqn:Em; last first.
  { split_and!; try done; [lia|]. intros _. split; [done|]. by left. }
  set (h := mkHeld cpu first (block_ok bytes page_size first last)).
  assert (held_from (held ++ [h])) as Hf'.
  { intros n h' [Hn|[Hge Hn]]%lookup_app_Some; [by apply Hf|].
    destruct (n - length held)%nat eqn:En; simplify_eq/=.
    replace n with (length held) by lia. exists first, last. done. }
  pose proof (keep_last_snoc held keep h Hk) as Hk'. simpl in Hk'.
  fold (held_low h). destruct (held_low h) eqn:Elow; unfold held_low, h in Elow; simpl in Elow; rewrite Elow.
  - apply andb_true_iff in Elow as [Eok Elow]. rewrite Eok in *.
    split_and!; try done; [rewrite length_app; simpl; lia|].
    intros _. exists (length held), h. split_and!; [done| |].
    + by rewrite lookup_app_r, Nat.sub_diag by lia.
    + unfold held_low, h. simpl. by rewrite Eok, Elow.
  - specialize (IH (held ++ [h]) _ Hf' Hk').
    rewrite length_app in IH. simpl in IH. rewrite Nat.add_1_r in IH.
    destruct (lowmem_try _ _ _ rest (S (length held)) _ _) as [[held' keep'] low].
    destruct IH as (? & ? & Hlen & ? & Hfalse).
    { intros h' [Hin|Hin%list_elem_of_singleton]%elem_of_app; [by apply Hl|]. by subst. }
    split_and!; try done; [lia|]. intros Hlow.
    destruct (Hfalse Hlow) as [? [?|?]]; split; auto. right. lia.
Qed.
End map_loop_spec.

(** ** Properties *)

(** C33: up to 2^63 bytes the footprint of an object is the least number of pages
    that is a power of two and covers it; past 2^63 the doubling loop wraps to 0 and no
    amount of fuel ends it. *)
Theorem v3da_lowmem_footprint_spec pages page_size :
  0 < page_size → 0 ≤ pages → pages * page_size ≤ 2 ^ 63 →
  (∃ k, 0 ≤ k ∧ v3da_lowmem_footprint pages page_size = page_size * 2 ^ k ∧
     pages * page_size ≤ page_size * 2 ^ k ∧
     (0 < k → page_size * 2 ^ (k - 1) < pages * page_size)) ∧
  (∀ k want n, 0 ≤ k → 2 ^ 63 < want → footprint_loop n (u64 (2 ^ k)) want = None).
Proof.
  intros Hps Hp Hw. split.
  - destruct (footprint_terminates pages page_size Hps Hp Hw) as (k & ? & ? & _ & ? & ?). eauto.
  - intros. by apply footprint_loop_diverges.
Qed.

Lemma v3da_lowmem_footprint_spec_witness :
  v3da_lowmem_footprint 2026 PAGE_SIZE = 8 * 1024 * 1024 ∧
  ∃ k, 0 ≤ k ∧ v3da_lowmem_footprint 2026 PAGE_SIZE = PAGE_SIZE * 2 ^ k.
Proof.
  split; [by vm_compute|].
  destruct (v3da_lowmem_footprint_spec 2026 PAGE_SIZE) as [(k & ? & ? & _) _];
    [by vm_compute|done|by vm_compute|]. eauto.
Defined.

(** the block taken from the pool has exactly the pages and caching asked for; a
    low placement takes only a low block, any other prefers a block that is not low; and
    the pool is passed over only when it holds no suitable block. *)
Theorem v3da_pool_pick_spec l pages cached want_low page_size :
  match v3da_pool_pick l pages cached want_low page_size with
  | Some i => ∃ b, l !! i = Some b ∧ pool_fits pages cached b ∧
      (if want_low then pool_is_low pages page_size b = true
       else pool_is_low pages page_size b = true →
            ∀ b', b' ∈ l → pool_fits pages cached b' → pool_is_low pages page_size b' = true)
  | None => ∀ b, b ∈ l → pool_fits pages cached b →
      want_low = true ∧ pool_is_low pages page_size b = false
  end.
Proof.
  unfold v3da_pool_pick. destruct want_low.
  - pose proof (pool_pick_low_spec pages cached page_size l 0 None) as H.
    destruct (pool_pick_loop _ _ _ _ _ _ _); [|by auto].
    destruct H as (b & _ & Hl & ? & ?). rewrite Nat.sub_0_r in Hl. eauto.
  - pose proof (pool_pick_any_spec pages cached page_size l 0 None) as H.
    destruct (pool_pick_loop _ _ _ _ _ _ _).
    + destruct H as [(b & _ & Hl & ? & ?)|[? _]]; [|done]. rewrite Nat.sub_0_r in Hl. eauto.
    + destruct H as [_ H]. intros b Hb Hf. by destruct (H b Hb).
Qed.

(** the placement loop maps at most 16 blocks, keeps at most one, gives every
    other one back, keeps one that was mapped whenever one was, and says "low" exactly
    when the kept block lies below the display limit; it gives up on low memory only when
    no mapped block was low. *)
Theorem v3da_lowmem_map_spec map bytes tries page_size :
  let '(kept, res, rej) := v3da_lowmem_map map bytes tries page_size in
  ∃ held, held_from map bytes page_size held ∧ (length held ≤ 16)%nat ∧
    lr_tries res = Z.of_nat (length held) ∧ lr_rejected res = Z.of_nat (length rej) ∧
    match kept with
    | Some h => held ≡ₚ h :: rej ∧ he_ok h = true ∧ lr_low res = held_low bytes h
    | None => rej = held ∧ lr_low res = false ∧ ∀ h, h ∈ held → he_ok h = false
    end ∧
    (lr_low res = false → ∀ h, h ∈ held → held_low bytes h = false).
Proof.
  unfold v3da_lowmem_map. destruct (_ || _).
  { exists []. simpl. split_and!; try done; [lia|by intros h Hh; inv Hh|by intros _ h Hh; inv Hh]. }
  pose proof (lowmem_try_spec map bytes page_size (Z.to_nat (Z.min tries V3DA_LOWMEM_TRIES)) [] None) as H.
  simpl in H. destruct (lowmem_try _ _ _ _ _ _ _) as [[held keep] low].
  destruct H as (Hf & Hk & Hlen & Htrue & Hfalse); [done|done|by intros h Hh; inv Hh|].
  unfold V3DA_LOWMEM_TRIES in Hlen. exists held. simpl. split_and!; try done; [lia| |by intros ?; apply Hfalse].
  destruct keep as [k|]; simpl in *.
  - destruct Hk as (h & Hl & Hok & _). rewrite Hl. split_and!; [by apply delete_Permutation|done|].
    destruct low; symmetry.
    + destruct Htrue as (k' & h' & ? & ? & ?); [done|]. by simplify_eq.
    + destruct Hfalse as [Hfalse _]; [done|]. apply Hfalse, list_elem_of_lookup. eauto.
  - split_and!; [done| |].
    + destruct low; [|done]. by destruct Htrue as (? & ? & ? & _).
    + intros h [n Hn]%list_elem_of_lookup. eauto.
Qed.
