(* ===== verification/Hw.v ===== *)
(** Hardware access (tools/gpu-lane/v3d-async/v3da_hw.c): the GPU virtual-address
    allocator, the MMU flush, the interrupt service shared by handler and poll path,
    the storm guard and the reset's effect on the words shared with the handler. *)
From S2P Require Import Prelude Proto State.

(** ** Register access *)
Section env.
Context `{E : Env}.

Definition rd_core (r : core_reg) (s : v3da_srv_t) : Z * v3da_srv_t :=
  (env_core (cursor s) r, tick s).
Definition rd_hub (r : hub_reg) (s : v3da_srv_t) : Z * v3da_srv_t :=
  (env_hub (cursor s) r, tick s).
Definition v3da_now_us (s : v3da_srv_t) : Z * v3da_srv_t := (env_now (cursor s), tick s).
Definition v3da_cnt (s : v3da_srv_t) : Z * v3da_srv_t := (env_cnt (cursor s), tick s).

(** ** MMU *)
Definition v3da_hw_mmu_flush (s : v3da_srv_t) : v3da_srv_t :=
  let s := emit E_dsb s in
  let s := emit (E_hub MMUC_CONTROL (Z.lor MMUC_FLUSH MMUC_ENABLE)) s in
  let s := emit E_spin s in
  let '(ctl, s) := rd_hub MMU_CTL s in
  let s := emit (E_hub MMU_CTL (Z.lor ctl MMU_CTL_TLB_CLEAR)) s in
  let s := emit E_spin s in
  s <| srv_hw ::= λ h, h <| hw_tlb_gen := hw_pt_gen h |> <| hw_tlb_flushes ::= λ n, u32 (n + 1) |> |>.

Definition v3da_hw_l2t_flush_wait (s : v3da_srv_t) : v3da_srv_t := emit E_wait_l2t s.

(** ** The GPU virtual-address allocator *)
Definition va_page (va : Z) : Z := Z.shiftr va V3D_PAGE_SHIFT.

Definition clear_ptes (va pages : Z) (pt : Z → Z) : Z → Z :=
  for_ 0 pages (λ i pt, <[va_page va + i := 0]> pt) pt.

Fixpoint find_hole (holes : list hole) (pages : Z) : option (nat * hole) :=
  match holes with
  | [] => None
  | h :: holes =>
      if pages <=? ho_pages h then Some (0%nat, h)
      else prod_map S id <$> find_hole holes pages
  end.

(** First-fit hole, else the bump pointer; 0 is failure. *)
Definition v3da_hw_va_alloc (hw : v3da_hw_t) (pages : Z) : Z * v3da_hw_t :=
  match find_hole (hw_holes hw) pages with
  | Some (i, h) =>
      if ho_pages h =? pages
      then (ho_gpuva h, hw <| hw_holes ::= swap_remove i |>)
      else (ho_gpuva h, hw <| hw_holes ::= λ l,
              <[i := mkHole (u32 (ho_gpuva h + pages * PAGE_SIZE)) (ho_pages h - pages)]> l |>)
  | None =>
      if hw_pt_entries hw <? u32 (va_page (hw_next_gpuva hw) + pages) then (0, hw)
      else
        let va := hw_next_gpuva hw in
        (va, hw <| hw_next_gpuva ::= λ x, u32 (x + pages * PAGE_SIZE) |>
                <| hw_pt ::= clear_ptes va pages |>)
  end.

Definition v3da_hw_va_free (gpuva pages : Z) (hw : v3da_hw_t) : v3da_hw_t :=
  if Z.of_nat (length (hw_holes hw)) <? V3DA_MAX_HOLES
  then hw <| hw_holes ::= λ l, l ++ [mkHole gpuva pages] |>
  else hw.

(** ** Interrupt service *)
Definition csd_done_stamp (core : Z) (s : v3da_srv_t) : v3da_srv_t :=
  if has core INT_CSDDONE && (hw_csd_done_cnt (srv_hw s) =? 0) then
    let '(c, s) := v3da_cnt s in s <| srv_hw ; hw_csd_done_cnt := c |>
  else s.

(** The MMU fault acknowledge: remember MMU_CTL and write it back. *)
Definition mmu_ack (hub : Z) (s : v3da_srv_t) : v3da_srv_t :=
  if has hub HUB_INT_MMU_ANY then
    let '(ctl, s) := rd_hub MMU_CTL s in
    emit (E_hub MMU_CTL ctl) (s <| srv_hw ; hw_mmu_ctl_seen := ctl |>)
  else s.

(** OUTOMEM: hand the staged overflow chunk to the binner, or count the miss. *)
Definition outomem_service (core : Z) (s : v3da_srv_t) : v3da_srv_t :=
  if has core INT_OUTOMEM then
    let va := hw_ovf_stage_va (srv_hw s) in
    let s := s <| srv_hw ; hw_ovf_stage_va := 0 |> in
    if negb (va =? 0) then
      let s := emit (E_core PTB_BPOA va) s in
      let s := emit (E_core PTB_BPOS (hw_ovf_stage_size (srv_hw s))) s in
      s <| srv_hw ; hw_ovf_consumed := va |>
    else s <| srv_hw ; hw_ovf_missed ::= λ n, u32 (n + 1) |>
  else s.

Definition fold_events (core hub : Z) (s : v3da_srv_t) : v3da_srv_t :=
  s <| srv_hw ; hw_ev_core ::= λ e, Z.lor e core |>
    <| srv_hw ; hw_ev_hub ::= λ e, Z.lor e hub |>.

(** Returns the two status words it saw. *)
Definition hw_service (s : v3da_srv_t) : Z * Z * v3da_srv_t :=
  let '(core, s) := rd_core CTL_INT_STS s in
  let '(hub, s) := rd_hub HUB_INT_STS s in
  let s := if negb (core =? 0)
           then csd_done_stamp core (emit (E_core CTL_INT_CLR core) s) else s in
  let s := if negb (hub =? 0)
           then emit (E_hub HUB_INT_CLR hub) (mmu_ack hub s) else s in
  let s := outomem_service core s in
  (core, hub, fold_events core hub s).

Definition IRQ_SPURIOUS_LIMIT := 1000.
Definition IRQ_BURST_LIMIT := 200000.

Definition irq_mask (s : v3da_srv_t) : v3da_srv_t :=
  emit (E_hub HUB_INT_MSK_SET (2 ^ 32 - 1)) (emit (E_core CTL_INT_MSK_SET (2 ^ 32 - 1)) s).

(** The handler: 1 wakes the event thread, -1 does not. *)
Definition v3da_irq_handler (s : v3da_srv_t) : Z * v3da_srv_t :=
  let s := s <| srv_hw ; hw_irq_count ::= λ n, u32 (n + 1) |> in
  let cnt := hw_irq_count (srv_hw s) in
  let '(core, hub, s) := hw_service s in
  let spurious := Z.lor core hub =? 0 in
  let s := if spurious then s <| srv_hw ; hw_irq_spurious ::= λ n, u32 (n + 1) |> else s in
  if spurious && (IRQ_SPURIOUS_LIMIT <? hw_irq_spurious (srv_hw s)) then
    (1, irq_mask s <| srv_hw ; hw_storm := 1 |>)
  else if IRQ_BURST_LIMIT <? u32 (cnt - hw_irq_count_snap (srv_hw s)) then
    (1, irq_mask s <| srv_hw ; hw_storm := 2 |>)
  else ((if negb spurious then 1 else -1), s).

(** Before a kick: fold and clear everything but OUTOMEM. *)
Definition v3da_hw_drain (s : v3da_srv_t) : v3da_srv_t :=
  let '(core, s) := rd_core CTL_INT_STS s in
  let core := Z.ldiff core INT_OUTOMEM in
  let '(hub, s) := rd_hub HUB_INT_STS s in
  let s := if negb (core =? 0)
           then csd_done_stamp core (emit (E_core CTL_INT_CLR core) s)
                  <| srv_hw ; hw_ev_core ::= λ e, Z.lor e core |> else s in
  if negb (hub =? 0)
  then emit (E_hub HUB_INT_CLR hub) (mmu_ack hub s) <| srv_hw ; hw_ev_hub ::= λ e, Z.lor e hub |>
  else s.

Definition v3da_hw_poll_status (s : v3da_srv_t) : v3da_srv_t := (hw_service s).2.

(** ** Interrupt mode *)
Definition irq_mask_all (s : v3da_srv_t) : v3da_srv_t :=
  emit (E_hub HUB_INT_CLR (2 ^ 32 - 1)) (emit (E_core CTL_INT_CLR (2 ^ 32 - 1)) (irq_mask s)).

Definition irq_unmask (s : v3da_srv_t) : v3da_srv_t :=
  emit (E_hub HUB_INT_MSK_CLR HUB_IRQS) (emit (E_core CTL_INT_MSK_CLR CORE_IRQS) s).

Definition v3da_hw_irq_enable (s : v3da_srv_t) : Z * v3da_srv_t :=
  if hw_irq_on (srv_hw s) then (0, s)
  else
    let s := irq_mask_all s <| srv_hw ; hw_storm := 0 |> <| srv_hw ; hw_irq_spurious := 0 |> in
    let rc := env_interrupt (cursor s) in
    let s := tick s in
    if rc <? 0 then (rc, s)
    else (rc, irq_unmask s <| srv_hw ; hw_irq_on := true |>).

Definition v3da_hw_irq_disable (s : v3da_srv_t) : v3da_srv_t :=
  let s := irq_mask s in
  if hw_irq_on (srv_hw s) then emit E_irq_detach s <| srv_hw ; hw_irq_on := false |> else s.

(** Wedge recovery: every word shared with the handler is cleared. *)
Definition v3da_hw_reset (s : v3da_srv_t) : Z * v3da_srv_t :=
  let s := emit E_reset (irq_mask s) in
  let rc := env_reset (cursor s) in
  let s := irq_mask_all (tick s) in
  let s := s <| srv_hw ::= λ h, h <| hw_ovf_stage_va := 0 |> <| hw_ovf_stage_size := 0 |>
      <| hw_ovf_consumed := 0 |> <| hw_ovf_missed := 0 |> <| hw_ev_core := 0 |>
      <| hw_ev_hub := 0 |> <| hw_csd_done_cnt := 0 |> <| hw_pt_gen ::= λ n, n + 1 |> |> in
  let s := v3da_hw_mmu_flush s in
  (rc, if hw_irq_on (srv_hw s) then irq_unmask s else s).

Definition v3da_hw_shutdown (s : v3da_srv_t) : v3da_srv_t :=
  emit (E_hub HUB_INT_CLR (2 ^ 32 - 1)) (emit (E_core CTL_INT_CLR (2 ^ 32 - 1)) (v3da_hw_irq_disable s)).
End env.

(** ** The allocator's invariant

    Ranges the allocator has handed out ([used]) and the holes it holds are aligned,
    non-empty, pairwise disjoint and lie between the window's base and the bump
    pointer, which stays inside the page table. *)
Definition GPUVA_BASE := 0x100000.
Definition GPUVA_PT_PAGES := 256.
Definition PT_ENTRIES := GPUVA_PT_PAGES * (PAGE_SIZE / 4).

Lemma PT_ENTRIES_val : PT_ENTRIES = 262144.
Proof. reflexivity. Qed.

Definition range_end (h : hole) : Z := ho_gpuva h + ho_pages h * PAGE_SIZE.
Ltac va_lia := pose proof PT_ENTRIES_val; unfold range_end, PAGE_SIZE, GPUVA_BASE in *; simpl in *; lia.
Definition range_disj (a b : hole) : Prop :=
  range_end a ≤ ho_gpuva b ∨ range_end b ≤ ho_gpuva a.
#[export] Instance range_disj_sym : Symmetric range_disj.
Proof. unfold range_disj. intros a b. tauto. Qed.

Definition range_ok (limit : Z) (h : hole) : Prop :=
  GPUVA_BASE ≤ ho_gpuva h ∧ 1 ≤ ho_pages h ∧ range_end h ≤ limit ∧ (PAGE_SIZE | ho_gpuva h).

Definition ranges_ok (limit : Z) (l : list hole) : Prop :=
  Forall (range_ok limit) l ∧ pairwise range_disj l.

#[export] Instance ranges_ok_perm limit : Proper ((≡ₚ) ==> iff) (ranges_ok limit).
Proof. intros l k Hp. unfold ranges_ok. by rewrite Hp. Qed.

Record va_wf (hw : v3da_hw_t) (used : list hole) : Prop := mkVaWf {
  va_entries : hw_pt_entries hw = PT_ENTRIES;
  va_next_lo : GPUVA_BASE ≤ hw_next_gpuva hw;
  va_next_hi : hw_next_gpuva hw ≤ PT_ENTRIES * PAGE_SIZE;
  va_next_al : (PAGE_SIZE | hw_next_gpuva hw);
  va_ranges : ranges_ok (hw_next_gpuva hw) (hw_holes hw ++ used) }.

Lemma range_ok_mono a b h : a ≤ b → range_ok a h → range_ok b h.
Proof. unfold range_ok. intros. destruct_and!. split_and!; auto; lia. Qed.

Lemma find_hole_Some holes pages i h :
  find_hole holes pages = Some (i, h) → holes !! i = Some h ∧ pages ≤ ho_pages h.
Proof.
  revert i. induction holes as [|h' holes IH]; intros i; simpl; [done|].
  destruct (pages <=? ho_pages h') eqn:E; zify_bools; [intros; by simplify_eq|].
  destruct (find_hole holes pages) as [[j h0]|]; simpl; [|done].
  intros; simplify_eq/=. by apply IH.
Qed.

Lemma find_hole_None holes pages :
  find_hole holes pages = None → ∀ h, h ∈ holes → ho_pages h < pages.
Proof.
  induction holes as [|h' holes IH]; simpl; [by intros _ h Hh; inv Hh|].
  destruct (pages <=? ho_pages h') eqn:E; zify_bools; [done|].
  destruct (find_hole holes pages); [done|]. intros _ h [->|Hin]%elem_of_cons; [lia|auto].
Qed.

Lemma va_page_lt hw used :
  va_wf hw used → va_page (hw_next_gpuva hw) * PAGE_SIZE = hw_next_gpuva hw.
Proof.
  intros [_ _ _ [k Hk] _]. unfold va_page. rewrite Hk, Z.shiftr_div_pow2 by done.
  change (2 ^ V3D_PAGE_SHIFT) with PAGE_SIZE. unfold PAGE_SIZE. by rewrite Z.div_mul.
Qed.

(** The room left above the bump pointer, as the code computes it (no wrap-around). *)
Lemma va_bump_test hw used pages :
  va_wf hw used → 0 ≤ pages ≤ PT_ENTRIES →
  u32 (va_page (hw_next_gpuva hw) + pages) = va_page (hw_next_gpuva hw) + pages.
Proof.
  intros Hwf Hp. pose proof (va_page_lt _ _ Hwf). destruct Hwf.
  apply u32_small. va_lia.
Qed.

(** Splitting a hole: the front part goes out, the back part stays. *)
Lemma ranges_ok_split limit h pages rest :
  ranges_ok limit (h :: rest) → 1 ≤ pages < ho_pages h →
  ranges_ok limit (mkHole (ho_gpuva h + pages * PAGE_SIZE) (ho_pages h - pages)
                   :: mkHole (ho_gpuva h) pages :: rest).
Proof.
  unfold ranges_ok. simpl. rewrite !Forall_cons.
  intros [[(H1 & H2 & H3 & H4) Hall] [Hd Hpw]] Hp. unfold range_end, PAGE_SIZE in *. simpl in *.
  split_and!; try done.
  - unfold range_ok, range_end, PAGE_SIZE. simpl. split_and!; try lia.
    apply Z.divide_add_r; [done|]. by apply Z.divide_factor_r.
  - unfold range_ok, range_end, PAGE_SIZE. simpl. split_and!; [lia..|done].
  - unfold range_disj, range_end, PAGE_SIZE. simpl. lia.
  - eapply Forall_impl; [exact Hd|]. unfold range_disj, range_end, PAGE_SIZE. simpl. intros x ?. lia.
  - eapply Forall_impl; [exact Hd|]. unfold range_disj, range_end, PAGE_SIZE. simpl. intros x ?. lia.
Qed.

Lemma ranges_ok_bump limit pages l :
  ranges_ok limit l → GPUVA_BASE ≤ limit → 1 ≤ pages → (PAGE_SIZE | limit) →
  ranges_ok (limit + pages * PAGE_SIZE) (mkHole limit pages :: l).
Proof.
  intros [Hall Hpw] Hb Hp Hd. unfold ranges_ok. simpl. split_and!; try done.
  - apply Forall_cons. split.
    + unfold range_ok, range_end, PAGE_SIZE in *. simpl. split_and!; [lia..|done].
    + eapply Forall_impl; [exact Hall|]. intros h. apply range_ok_mono. unfold PAGE_SIZE. lia.
  - eapply Forall_impl; [exact Hall|]. intros h (_ & _ & ? & _).
    unfold range_disj, range_end, PAGE_SIZE in *. simpl. lia.
Qed.

(** Only the page table beyond the old bump pointer is touched by an allocation. *)
Lemma va_alloc_wf hw used pages :
  va_wf hw used → 1 ≤ pages ≤ PT_ENTRIES →
  let '(va, hw') := v3da_hw_va_alloc hw pages in
  (va = 0 ∧ hw' = hw ∧ (∀ h, h ∈ hw_holes hw → ho_pages h < pages) ∧
     PT_ENTRIES * PAGE_SIZE < hw_next_gpuva hw + pages * PAGE_SIZE) ∨
  (0 < va ∧ va_wf hw' (mkHole va pages :: used)).
Proof.
  intros Hwf Hp. pose proof (va_page_lt _ _ Hwf) as Hpg. pose proof (va_bump_test _ _ pages Hwf ltac:(lia)) as Hbt.
  destruct Hwf as [He Hlo Hhi Hal Hr]. unfold v3da_hw_va_alloc.
  destruct (find_hole (hw_holes hw) pages) as [[i h]|] eqn:Ef.
  - apply find_hole_Some in Ef as [Hi Hle].
    assert (range_ok (hw_next_gpuva hw) h) as (Hb & _ & Hend & _).
    { destruct Hr as [Hall _]. rewrite Forall_forall in Hall. apply Hall, elem_of_app. left. apply list_elem_of_lookup. eauto. }
    unfold GPUVA_BASE in Hb.
    pose proof (swap_remove_perm _ _ _ Hi) as Hperm.
    destruct (ho_pages h =? pages) eqn:E; zify_bools; right; (split; [lia|]); constructor; try done; simpl.
    + rewrite <- Hperm in Hr. simpl in Hr. destruct h as [va p]. simpl in *. subst p.
      by rewrite Permutation_app_comm, <- app_comm_cons, Permutation_app_comm.
    + assert (u32 (ho_gpuva h + pages * PAGE_SIZE) = ho_gpuva h + pages * PAGE_SIZE) as ->.
      { apply u32_small. va_lia. }
      set (h' := mkHole _ _). pose proof (list_insert_perm i h h' _ Hi) as Hins.
      apply (ranges_ok_perm _ (h :: (swap_remove i (hw_holes hw) ++ used))) in Hr;
        [|by rewrite app_comm_cons, Hperm].
      apply (ranges_ok_split _ h pages) in Hr; [|lia].
      eapply ranges_ok_perm; [|exact Hr]. fold h'.
      assert (<[i:=h']> (hw_holes hw) ≡ₚ h' :: swap_remove i (hw_holes hw)) as ->.
      { apply (Permutation_cons_inv (a := h)). rewrite Hins. rewrite <- Hperm at 1. by apply Permutation_swap. }
      simpl. apply Permutation_cons; [done|]. by rewrite Permutation_middle.
  - rewrite Hbt, He. destruct (PT_ENTRIES <? _) eqn:E; zify_bools; [left|right].
    { split_and!; try done; [by apply find_hole_None|]. va_lia. }
    unfold GPUVA_BASE in Hlo. split; [lia|].
    assert (u32 (hw_next_gpuva hw + pages * PAGE_SIZE) = hw_next_gpuva hw + pages * PAGE_SIZE) as Eu.
    { apply u32_small. va_lia. }
    constructor; simpl; rewrite ?Eu; try done.
    + va_lia.
    + va_lia.
    + apply Z.divide_add_r; [done|]. by apply Z.divide_factor_r.
    + eapply ranges_ok_perm; [by rewrite <- Permutation_middle|]. apply ranges_ok_bump; [done|done|lia|done].
Qed.

(** Freeing a handed-out range keeps the invariant; with the hole table full the range
    leaks (it stays out of both lists). *)
Lemma va_free_wf hw used va pages :
  va_wf hw (mkHole va pages :: used) → va_wf (v3da_hw_va_free va pages hw) used.
Proof.
  intros [He Hlo Hhi Hal Hr]. unfold v3da_hw_va_free. case_match; constructor; try done; simpl.
  - eapply ranges_ok_perm; [|exact Hr]. rewrite <- app_assoc. done.
  - rewrite <- Permutation_middle in Hr.
    destruct Hr as [Hall Hpw]. simpl in Hpw. destruct Hpw. by apply Forall_cons in Hall as [? ?].
Qed.

(** C34: handing out GPU addresses keeps every range, handed out or free, aligned, disjoint
    and inside the page table; it fails, changing nothing, only when no hole is large
    enough and the room above the bump pointer is not; and freeing the range restores the
    invariant. *)
Theorem v3da_hw_va_alloc_spec hw used pages :
  va_wf hw used → 1 ≤ pages ≤ PT_ENTRIES →
  let '(va, hw') := v3da_hw_va_alloc hw pages in
  (va = 0 ∧ hw' = hw ∧ (∀ h, h ∈ hw_holes hw → ho_pages h < pages) ∧
     PT_ENTRIES * PAGE_SIZE < hw_next_gpuva hw + pages * PAGE_SIZE) ∨
  (0 < va ∧ va_wf hw' (mkHole va pages :: used) ∧
   va_wf (v3da_hw_va_free va pages hw') used).
Proof.
  intros Hwf Hp. pose proof (va_alloc_wf hw used pages Hwf Hp) as H.
  destruct (v3da_hw_va_alloc hw pages) as [va hw']. destruct H as [H|[H0 H]]; [by left|right].
  split_and!; [done|done|]. by apply va_free_wf.
Qed.

Lemma v3da_hw_va_alloc_spec_witness :
  let hw := mkHw (λ _, 0) PT_ENTRIES (λ _, 0) 0 0 0 GPUVA_BASE [] 1 1 0 false 0 0 0 0 0 0 0 0 0 0 0 0 in
  let '(va, hw') := v3da_hw_va_alloc hw 2 in 0 < va ∧ va_wf hw' [mkHole va 2].
Proof.
  set (hw := mkHw (λ _, 0) PT_ENTRIES (λ _, 0) 0 0 0 GPUVA_BASE [] 1 1 0 false 0 0 0 0 0 0 0 0 0 0 0 0).
  assert (va_wf hw []) as Hwf.
  { constructor; [reflexivity|reflexivity|vm_compute; discriminate|exists 256; reflexivity|split; [constructor|exact I]]. }
  pose proof (v3da_hw_va_alloc_spec hw [] 2 Hwf ltac:(vm_compute; split; discriminate)) as H.
  assert ((v3da_hw_va_alloc hw 2).1 ≠ 0) as Hne by (vm_compute; discriminate).
  cbv zeta. destruct (v3da_hw_va_alloc hw 2) as [va hw']. destruct H as [[H _]|(H & Hw & _)]; [destruct (Hne H)|].
  split; [exact H|exact Hw].
Defined.
