(* ===== verification/Concrete.v ===== *)
(** A concrete server and environment: the state v3da_hw_init leaves, with a present
    queue, an overflow pool and one connected client, and an environment whose clock,
    allocator and registers are simple functions of the read counter.  The examples
    evaluate the operations on it. *)
From S2P Require Import Prelude Proto Csdprof State Lowmem Hw.

#[export] Instance env0 : Env := {|
  env_now n := 1000 + n;
  env_cnt n := 54 * n;
  env_core _ _ := 0;
  env_hub _ _ := 0;
  env_csd_idle _ := true;
  env_va2pa _ cpu := cpu;
  env_mmap n bytes _ := Some (0x10000000 + n * 0x1000000);
  env_malloc _ := true;
  env_export _ := 0;
  env_vcprop _ := (0, 0);
  env_mem _ a := a mod 256;
  env_reset _ := 0;
  env_interrupt _ := 0 |}.

Definition hw0 : v3da_hw_t := mkHw (λ _, 0) PT_ENTRIES (λ _, 0) 74 0 0 GPUVA_BASE [] 1 1 0 true
  0 0 0 0 0 0 0 0 0 0 0 0.
Definition fp0 : v3da_fence_page_t := mkFp 0 0 0 (λ _, 0) (λ _, 0) (λ _ _, 0) (λ _, 0) (λ _, 1).
Definition queue0 : v3da_queue_t := mkQueue (λ _, []) None 0 0 0 0 0 0 0 0.
Definition sched0 : sched := mkSched (λ _, queue0) ∅ 0 0 0 2000 0 0 0 0 0 500 false false.
Definition ovf0 : v3da_ovf_t := mkOvf 0 0 0 0 0 0 (λ _, 0) 0 0.
Definition scan0 : v3da_scanout_t := mkScan 0 0 0 0 0 0 0 (λ _, 0) [] 0 0 0 0.
Definition bo_table0 : bo_table :=
  mkBoTable (λ _, bo0) (λ _, 0) 0 [] 0 0 7 (Z.shiftl 96 20) 0 0 0 0 0 0 0 0 0.
Definition client1 : v3da_client_t := mkClient true 1 100 true 0 (λ _, 1) 0 (λ _, sync0).
Definition clients0 : client_table := mkClients (<[0 := client1]> (λ _, client0)) 1 (λ _, 1) (λ _ _, 0).
Definition waits0 : wait_table := mkWaits [] 0x100 0 0 0 3 4.
Definition stats0 : stats_t := mkStats 0 0 0 0 0 0 0 0 0 0 0 0 0 0 0 0 0 0 0 false 54000000 (λ _, prof0).
Definition srv0 : v3da_srv_t := mkSrv hw0 fp0 clients0 sched0 ovf0 scan0 bo_table0 waits0 stats0 (mkIo 0 []).
