(* ===== verification/Fence.v ===== *)
(** The fence page (tools/gpu-lane/v3d-async/v3da_sched.c): when a fence has
    signalled, completing a job, and handing a client slot to a new owner. *)
From S2P Require Import Prelude Proto State Concrete.

Definition SEQ_MASK := 0x00ffffffffffffff.
Definition ERR_SEQ (qu s : Z) : Z := Z.lor (Z.shiftl qu 56) (Z.land s SEQ_MASK).

Definition slot_gen_ok (fp : v3da_fence_page_t) (f : v3da_fence_t) : bool :=
  u32 (fp_gen fp (f_slot f)) =? f_gen f.

(** Signalled, and whether it completed with an error. *)
Definition v3da_fence_signaled (fp : v3da_fence_page_t) (f : v3da_fence_t) : bool * bool :=
  if (V3DA_FENCE_NSLOTS <=? f_slot f) || (V3DA_Q_COUNT <=? f_queue f) then (true, false)
  else if negb (slot_gen_ok fp f) then (true, false)
  else if fp_completed fp (f_slot f) (f_queue f) <? f_seqno f then (false, false)
  else
    let es := fp_error_seq fp (f_slot f) in
    (true, negb (es =? 0) && (Z.shiftr es 56 =? f_queue f) && (f_seqno f <=? Z.land es SEQ_MASK)).

Definition signaled (s : v3da_srv_t) (f : v3da_fence_t) : bool :=
  (v3da_fence_signaled (srv_fp s) f).1.

(** A wait may only name a fence that has been handed out. *)
Definition v3da_fence_valid (s : v3da_srv_t) (f : v3da_fence_t) : bool :=
  if (V3DA_FENCE_NSLOTS <=? f_slot f) || (V3DA_Q_COUNT <=? f_queue f) || (f_seqno f =? 0)
  then false
  else
    let owner := srv_client s (f_slot f) in
    if negb (c_used owner) || negb (slot_gen_ok (srv_fp s) f) then true
    else f_seqno f <=? c_next_seq owner (f_queue f).

(** The seqno a completing job publishes, and whether it counts as an error. *)
Definition complete_seq (s : v3da_srv_t) (j : v3da_job_t) (error : bool) : Z * bool :=
  let seq := f_seqno (j_fence j) in
  let flush := dead_flush (srv_cl s) (f_slot (j_fence j)) (j_queue j) in
  if negb (c_used (srv_client s (f_slot (j_fence j)))) && (seq <? flush)
  then (flush, true) else (seq, error).

Definition set_completed (slot qu seq : Z) (fp : v3da_fence_page_t) : v3da_fence_page_t :=
  fp <| fp_completed ::= λ a, <[slot := <[qu := seq]> (a slot)]> a |>.
Definition set_error_seq (slot v : Z) (fp : v3da_fence_page_t) : v3da_fence_page_t :=
  fp <| fp_error_seq ::= λ a, <[slot := v]> a |>.
Definition incr_submitted (qu : Z) (fp : v3da_fence_page_t) : v3da_fence_page_t :=
  fp <| fp_hw_submitted ::= λ a, <[qu := a qu + 1]> a |>.
Definition incr_completed (qu : Z) (fp : v3da_fence_page_t) : v3da_fence_page_t :=
  fp <| fp_hw_completed ::= λ a, <[qu := a qu + 1]> a |>.

Definition v3da_fence_complete (j : v3da_job_t) (error : bool) (s : v3da_srv_t) : v3da_srv_t :=
  let slot := f_slot (j_fence j) in
  let qu := j_queue j in
  let '(seq, error) := complete_seq s j error in
  s <| srv_fp ::= λ fp,
    let fp := if error then set_error_seq slot (ERR_SEQ qu seq) fp else fp in
    incr_completed qu (set_completed slot qu seq fp) |>.

(** Is a job of this slot on the hardware (or on the CPU queue)? *)
Definition v3da_slot_busy (s : v3da_srv_t) (slot : Z) : bool :=
  match find_first (λ qu, match active s qu ≫= job s with
                          | Some j => f_slot (j_fence j) =? slot
                          | None => false
                          end) 0 V3DA_Q_COUNT with
  | Some _ => true
  | None => false
  end.

(** New owner: zero the row, then publish the new generation. *)
Definition v3da_slot_assign (slot : Z) (s : v3da_srv_t) : v3da_srv_t :=
  let s := for_ 0 V3DA_Q_COUNT (λ qu s,
      s <| srv_fp ::= set_completed slot qu 0 |>
        <| srv_cl ; dead_flush ::= λ a, <[slot := <[qu := 0]> (a slot)]> a |>) s in
  let s := s <| srv_fp ::= set_error_seq slot 0 |> in
  let s := s <| srv_cl ; slot_gen ::= λ a, <[slot := a slot + 1]> a |> in
  s <| srv_fp ; fp_gen ::= λ a, <[slot := slot_gen (srv_cl s) slot]> a |>.

(** ** Lemmas *)
Definition fence_in_page (f : v3da_fence_t) : Prop :=
  f_slot f < V3DA_FENCE_NSLOTS ∧ f_queue f < V3DA_Q_COUNT.

Lemma signaled_spec fp f :
  (v3da_fence_signaled fp f).1 = true ↔
  (fence_in_page f → u32 (fp_gen fp (f_slot f)) = f_gen f →
   f_seqno f ≤ fp_completed fp (f_slot f) (f_queue f)).
Proof.
  unfold v3da_fence_signaled, fence_in_page, slot_gen_ok.
  destruct (Z.leb_spec V3DA_FENCE_NSLOTS (f_slot f)); cbn [orb].
  { split; [intros _ [? _]; lia | intros _; reflexivity]. }
  destruct (Z.leb_spec V3DA_Q_COUNT (f_queue f)); cbn [orb].
  { split; [intros _ [_ ?]; lia | intros _; reflexivity]. }
  destruct (Z.eqb_spec (u32 (fp_gen fp (f_slot f))) (f_gen f)) as [Hg|Hg]; cbn [negb].
  2: { split; [intros _ _ ?; contradiction | intros _; reflexivity]. }
  destruct (Z.ltb_spec (fp_completed fp (f_slot f) (f_queue f)) (f_seqno f)); cbn [fst].
  - split; [discriminate|]. intros H'. specialize (H' (conj H H0) Hg). lia.
  - split; [intros _ _ _; assumption | intros _; reflexivity].
Qed.

Definition error_hit (fp : v3da_fence_page_t) (f : v3da_fence_t) : bool :=
  let es := fp_error_seq fp (f_slot f) in
  negb (es =? 0) && (Z.shiftr es 56 =? f_queue f) && (f_seqno f <=? Z.land es SEQ_MASK).

Lemma signaled_eval fp f :
  fence_in_page f → u32 (fp_gen fp (f_slot f)) = f_gen f →
  v3da_fence_signaled fp f =
  if fp_completed fp (f_slot f) (f_queue f) <? f_seqno f then (false, false)
  else (true, error_hit fp f).
Proof.
  intros [Hs Hq] Hg. unfold v3da_fence_signaled, slot_gen_ok.
  apply Z.leb_gt in Hs, Hq. by rewrite Hs, Hq, Hg, Z.eqb_refl.
Qed.

Lemma ERR_SEQ_queue qu s : 0 ≤ qu → 0 ≤ s → Z.shiftr (ERR_SEQ qu s) 56 = qu.
Proof.
  intros Hq Hs. unfold ERR_SEQ. rewrite Z.shiftr_lor, Z.shiftr_land.
  change (Z.shiftr SEQ_MASK 56) with 0. rewrite Z.land_0_r, Z.lor_0_r.
  by rewrite Z.shiftr_shiftl_l, Z.shiftl_0_r by lia.
Qed.

Lemma ERR_SEQ_seq qu s : 0 ≤ qu → 0 ≤ s < 2 ^ 56 → Z.land (ERR_SEQ qu s) SEQ_MASK = s.
Proof.
  intros Hq Hs. unfold ERR_SEQ. change SEQ_MASK with (Z.ones 56).
  rewrite Z.land_lor_distr_l, !Z.land_ones, Z.shiftl_mul_pow2 by lia.
  rewrite Z.mod_mul by lia. rewrite Z.lor_0_l. by rewrite !Z.mod_small by (try apply Z.mod_pos_bound; lia).
Qed.

Lemma ERR_SEQ_nz qu s : 0 ≤ qu → 0 < s < 2 ^ 56 → ERR_SEQ qu s ≠ 0.
Proof. intros ? ? H. pose proof (ERR_SEQ_seq qu s). rewrite H in *. change (Z.land 0 SEQ_MASK) with 0 in *. lia. Qed.

(** A page step that keeps generations and never lowers a completed seqno. *)
Definition fp_advances (fp fp' : v3da_fence_page_t) : Prop :=
  (∀ sl, fp_gen fp' sl = fp_gen fp sl) ∧
  (∀ sl qu, fp_completed fp sl qu ≤ fp_completed fp' sl qu).

#[export] Instance fp_advances_pre : PreOrder fp_advances.
Proof.
  split.
  - by intros fp.
  - intros a b c [H1 H2] [H3 H4]. split; intros; [by rewrite H3|]. specialize (H2 sl qu). specialize (H4 sl qu). lia.
Qed.

(** An advancing page keeps every signalled fence signalled. *)
#[export] Instance signaled_mono f :
  Proper (fp_advances ==> Basics.impl) (λ fp, (v3da_fence_signaled fp f).1 = true).
Proof.
  intros fp fp' [Hg Hc]. rewrite !signaled_spec. intros H Hin Hgen. rewrite Hg in Hgen.
  specialize (Hc (f_slot f) (f_queue f)). specialize (H Hin Hgen). lia.
Qed.

Lemma complete_seq_alive s j error :
  c_used (srv_client s (f_slot (j_fence j))) = true →
  complete_seq s j error = (f_seqno (j_fence j), error).
Proof. intros H. unfold complete_seq. by rewrite H. Qed.

(** Completing a job publishes a seqno of its row that is at least its own. *)
Lemma complete_seq_ge s j error : f_seqno (j_fence j) ≤ (complete_seq s j error).1.
Proof. unfold complete_seq. case_match eqn:E; simpl; [|lia]. zify_bools. lia. Qed.

Lemma fence_complete_fp s j error :
  let '(seq, err) := complete_seq s j error in
  let slot := f_slot (j_fence j) in
  srv_fp (v3da_fence_complete j error s) =
  incr_completed (j_queue j) (set_completed slot (j_queue j) seq
    (if err then set_error_seq slot (ERR_SEQ (j_queue j) seq) (srv_fp s) else srv_fp s)).
Proof. unfold v3da_fence_complete. destruct (complete_seq s j error). done. Qed.

Lemma set_completed_get fp sl qu v sl' qu' :
  fp_completed (set_completed sl qu v fp) sl' qu' =
  if decide (sl = sl' ∧ qu = qu') then v else fp_completed fp sl' qu'.
Proof.
  unfold set_completed. simpl. rewrite fn_upd_case. case_decide as H1; subst.
  - rewrite fn_upd_case. repeat case_decide; try done; naive_solver.
  - case_decide; [naive_solver|done].
Qed.

Lemma slot_busy_false s slot :
  v3da_slot_busy s slot = false →
  ∀ qu jid j, 0 ≤ qu < V3DA_Q_COUNT → active s qu = Some jid → job s jid = Some j →
  f_slot (j_fence j) ≠ slot.
Proof.
  unfold v3da_slot_busy. intros H qu jid j Hq Ha Hj.
  destruct (find_first _ _ _) eqn:E; [done|].
  pose proof (find_first_None _ _ _ E qu Hq) as Hf. simpl in Hf.
  rewrite Ha in Hf. simpl in Hf. rewrite Hj in Hf. by zify_bools.
Qed.

(** The row loop of a slot assignment. *)
Lemma slot_assign_fp slot s :
  let s' := v3da_slot_assign slot s in
  (∀ qu, 0 ≤ qu < V3DA_Q_COUNT → fp_completed (srv_fp s') slot qu = 0) ∧
  (∀ sl qu, sl ≠ slot → fp_completed (srv_fp s') sl qu = fp_completed (srv_fp s) sl qu) ∧
  fp_gen (srv_fp s') = <[slot := slot_gen (srv_cl s) slot + 1]> (fp_gen (srv_fp s)) ∧
  fp_error_seq (srv_fp s') slot = 0.
Proof.
  unfold v3da_slot_assign. simpl.
  match goal with |- context [for_ 0 V3DA_Q_COUNT ?b s] => set (body := b) end.
  pose proof (for_ind (λ i s', (∀ qu, 0 ≤ qu < i → fp_completed (srv_fp s') slot qu = 0) ∧
    (∀ sl qu, sl ≠ slot → fp_completed (srv_fp s') sl qu = fp_completed (srv_fp s) sl qu) ∧
    fp_gen (srv_fp s') = fp_gen (srv_fp s) ∧ slot_gen (srv_cl s') = slot_gen (srv_cl s))
    0 V3DA_Q_COUNT body s) as H.
  destruct H as (H1 & H2 & H3 & H4).
  - split_and!; try done. lia.
  - intros i s' Hi (H1 & H2 & H3 & H4). unfold body. simpl. split_and!; try done.
    + intros qu Hq. rewrite fn_upd_eq, fn_upd_case. case_decide; [done|]. apply H1. lia.
    + intros sl qu Hsl. rewrite fn_upd_ne by done. by apply H2.
  - change (Z.max 0 V3DA_Q_COUNT) with V3DA_Q_COUNT in H1.
    rewrite H3, H4, !fn_upd_eq. split_and!; auto.
Qed.

(** ** Properties *)

(** C23: completing a live client's job makes its own fence read signalled, with
    the error if there was one, advances the queue's completion count, and, when jobs
    complete in order, leaves every fence that had signalled signalled. *)
Theorem v3da_fence_complete_spec s j error :
  let f := j_fence j in
  let s' := v3da_fence_complete j error s in
  fence_in_page f → f_queue f = j_queue j → 0 ≤ f_queue f →
  u32 (fp_gen (srv_fp s) (f_slot f)) = f_gen f →
  c_used (srv_client s (f_slot f)) = true → 0 < f_seqno f < 2 ^ 56 →
  v3da_fence_signaled (srv_fp s') f =
    (true, if error then true else (v3da_fence_signaled (srv_fp s') f).2) ∧
  (fp_completed (srv_fp s) (f_slot f) (f_queue f) ≤ f_seqno f →
     ∀ f', signaled s f' = true → signaled s' f' = true) ∧
  fp_hw_completed (srv_fp s') (f_queue f) = fp_hw_completed (srv_fp s) (f_queue f) + 1.
Proof.
  intros f s' Hin Hq H0 Hg Hu Hs. subst s'.
  pose proof (fence_complete_fp s j error) as Efp. fold f in Efp.
  rewrite complete_seq_alive in Efp by done. fold f in Efp.
  split_and!.
  - rewrite signaled_eval; [|done|by rewrite Efp; destruct error].
    assert (fp_completed (srv_fp (v3da_fence_complete j error s)) (f_slot f) (f_queue f) = f_seqno f) as ->.
    { rewrite Efp, Hq. unfold incr_completed. cbn [upd fp_completed]. rewrite set_completed_get.
      by rewrite decide_True by done. }
    rewrite Z.ltb_irrefl. destruct error; [f_equal|done].
    unfold error_hit. rewrite Efp. cbn [upd incr_completed set_completed set_error_seq fp_error_seq].
    rewrite fn_upd_eq, <- Hq, ERR_SEQ_queue, ERR_SEQ_seq, Z.eqb_refl, Z.leb_refl by lia.
    pose proof (ERR_SEQ_nz (f_queue f) (f_seqno f) H0 Hs) as Hnz%Z.eqb_neq. by rewrite Hnz.
  - intros Hle f'. unfold signaled. apply signaled_mono. rewrite Efp.
    split; [by destruct error|]. intros sl qu. unfold incr_completed. cbn [upd fp_completed].
    rewrite set_completed_get. case_decide as Hd; [destruct Hd; subst sl qu; rewrite <- Hq; lia|].
    by destruct error.
  - rewrite Efp, Hq. destruct error; cbn [upd incr_completed set_completed set_error_seq fp_hw_completed];
      by rewrite fn_upd_eq.
Qed.

Lemma v3da_fence_complete_spec_witness :
  let j := mkJob V3DA_Q_BIN 1 (mkFence 0 V3DA_Q_BIN 1 5) 1 0 0 false [] None None false None (-1) 0 0 0 0 0 0 0 D_none 0 0 false in
  ∃ s : v3da_srv_t, v3da_fence_signaled (srv_fp (v3da_fence_complete j true s)) (j_fence j) = (true, true).
Proof.
  set (j := mkJob V3DA_Q_BIN 1 (mkFence 0 V3DA_Q_BIN 1 5) 1 0 0 false [] None None false None (-1) 0 0 0 0 0 0 0 D_none 0 0 false).
  exists srv0.
  destruct (v3da_fence_complete_spec srv0 j true) as [H _]; [split; reflexivity|reflexivity|vm_compute; discriminate|
    reflexivity|reflexivity|split; reflexivity|]. exact H.
Defined.
