(* ===== verification/Bo.v ===== *)
(** The buffer-object manager (tools/gpu-lane/v3d-async/v3da_bo.c): blocks and their
    pool, creation, references, quarantine, pinning and last-use records, PRIME import
    and export, the /v3dbuf namespace and cross-process implicit sync.  Every function
    runs with srv.lock held; [v3da_bo_import] is its two locked halves around the
    unlocked mapping. *)
From S2P Require Import Prelude Proto State Lowmem Hw Fence.

(** ** Lookup *)
Definition bo_lookup (s : v3da_srv_t) (handle : Z) : option Z :=
  let slot := Z.land handle V3DA_HANDLE_SLOT_MASK in
  if (slot =? 0) || (nbos (srv_bo s) <? slot) then None
  else
    let b := srv_bos s (slot - 1) in
    if bool_decide (bo_state b = V3DA_BO_LIVE) && (bo_handle b =? handle)
    then Some (slot - 1) else None.

Definition v3da_bo_find (s : v3da_srv_t) (handle : Z) : option Z :=
  match bo_lookup s handle with
  | Some i => if 0 <? bo_refs (srv_bos s i) then Some i else None
  | None => None
  end.

Definition client_bit (client : Z) : Z :=
  if (1 <=? client) && (client <=? V3DA_MAX_CLIENTS) then Z.shiftl 1 (client - 1) else 0.

(** The next handle generation of a slot: never 0 in its 19 bits. *)
Definition next_bo_gen (g : Z) : Z :=
  let g := u32 (g + 1) in
  if Z.land g (Z.shiftr 0xffffffff V3DA_HANDLE_SLOT_BITS) =? 0 then 1 else g.

Definition make_handle (gen slot : Z) : Z :=
  Z.lor (u32 (Z.shiftl gen V3DA_HANDLE_SLOT_BITS)) (slot + 1).

Definition pte_of (pa : Z) : Z :=
  Z.lor (Z.lor (u32 (Z.shiftr pa V3D_PAGE_SHIFT)) PTE_W) PTE_V.

Definition map_ptes (va pages : Z) (pa : Z → Z) (pt : Z → Z) : Z → Z :=
  for_ 0 pages (λ i pt, <[va_page va + i := pte_of (pa i)]> pt) pt.

Section env.
Context `{E : Env}.

(** ** Blocks *)
Definition block_map (n bytes : Z) (cached : bool) : option (Z * Z * Z) :=
  match env_mmap n bytes cached with
  | None => None
  | Some cpu => Some (cpu, env_va2pa n cpu, env_va2pa n (cpu + bytes - PAGE_SIZE))
  end.

(** Where a block was found: in the pool, and below the display limit. *)
Record v3da_place_t := mkPlace { pl_pool : bool; pl_low : bool }.

Definition emit_all (es : list effect) (s : v3da_srv_t) : v3da_srv_t :=
  s <| srv_io ; io_log ::= λ l, l ++ es |>.

(** The ordinary path: one fresh block. *)
Definition block_get_fresh (bytes : Z) (cached : bool) (s : v3da_srv_t)
    : option (Z * Z) * v3da_place_t * v3da_srv_t :=
  let n := cursor s in
  let s := tick s in
  match block_map n bytes cached with
  | None => (None, mkPlace false false, s)
  | Some (cpu, _, _) =>
      let s := emit (E_zero cpu bytes) s in
      let pa := env_va2pa (cursor s) cpu in
      let s := tick s in
      (Some (cpu, pa), mkPlace false (v3da_lowmem_is_low pa bytes), s)
  end.

Definition block_get (pages : Z) (cached want_low : bool) (s : v3da_srv_t)
    : option (Z * Z) * v3da_place_t * v3da_srv_t :=
  let bytes := pages * PAGE_SIZE in
  let pl := pool (srv_bo s) in
  match v3da_pool_pick pl pages (b2z cached) want_low PAGE_SIZE ≫= λ i, (pl !! i) ≫= λ b, Some (i, b) with
  | Some (i, b) =>
      let s := s <| srv_bo ; pool ::= swap_remove i |> in
      let s := emit (E_zero (po_cpu b) bytes) s in
      (Some (po_cpu b, po_pa b), mkPlace true (v3da_lowmem_is_low (po_pa b) bytes), s)
  | None =>
      if want_low then
        let n := cursor s in
        let '(kept, res, rej) :=
          v3da_lowmem_map (λ k, block_map (n + Z.of_nat k) bytes cached) bytes V3DA_LOWMEM_TRIES PAGE_SIZE in
        let s := s <| srv_io ; io_n ::= λ x, x + lr_tries res + 1 |> in
        let s := emit_all (map (λ h, E_munmap (he_cpu h) bytes) rej) s in
        let s := s <| srv_bo ; low_tries ::= λ x, u32 (x + lr_tries res) |>
                   <| srv_bo ; low_rejected ::= λ x, u32 (x + lr_rejected res) |> in
        match kept with
        | Some h => (Some (he_cpu h, he_pa h), mkPlace false (lr_low res), emit (E_zero (he_cpu h) bytes) s)
        | None => block_get_fresh bytes cached s
        end
      else block_get_fresh bytes cached s
  end.

Definition block_put (cpu pa pages : Z) (cached : bool) (s : v3da_srv_t) : v3da_srv_t :=
  if Z.of_nat (length (pool (srv_bo s))) <? V3DA_MAX_POOL
  then s <| srv_bo ; pool ::= λ l, l ++ [mkPool cpu pa pages (b2z cached)] |>
  else emit (E_munmap cpu (pages * PAGE_SIZE)) (s <| srv_bo ; pages_to_kernel ::= λ x, u32 (x + pages) |>).

(** ** Creation *)
Definition scanout_pick (s : v3da_srv_t) : option Z :=
  find_first (λ i, sc_claimed (srv_scan s) i =? 0) 0 (sc_nbuf (srv_scan s)).

(** The lowest free slot, else a new one; [None] when the table is full. *)
Definition bo_slot (s : v3da_srv_t) : option (Z * v3da_srv_t) :=
  let n := nbos (srv_bo s) in
  match find_first (λ i, bool_decide (bo_state (srv_bos s i) = V3DA_BO_FREE)) 0 n with
  | Some slot => Some (slot, s)
  | None => if V3DA_MAX_BOS <=? n then None else Some (n, s <| srv_bo ; nbos := n + 1 |>)
  end.

Definition alloc_va (pages : Z) (s : v3da_srv_t) : Z * v3da_srv_t :=
  let '(va, hw) := v3da_hw_va_alloc (srv_hw s) pages in (va, s <| srv_hw := hw |>).

Definition bump_bo_gen (slot : Z) (s : v3da_srv_t) : v3da_srv_t :=
  s <| srv_bo ; bo_gen ::= λ g, <[slot := next_bo_gen (g slot)]> g |>.

(** Account a LOWMEM BO's placement. *)
Definition low_account (slot foot : Z) (lowmem want_low : bool) (pl : v3da_place_t)
    (scan : option Z) (s : v3da_srv_t) : v3da_srv_t :=
  if lowmem then
    if want_low && pl_low pl then
      let s := set_bo slot (λ b, b <| bo_low := true |>) s in
      s <| srv_bo ::= λ t,
        let live := low_live t + foot in
        t <| low_live := live |> <| low_peak ::= Z.max live |>
          <| low_bos ::= λ x, u32 (x + 1) |>
          <| low_from_pool ::= λ x, if pl_pool pl then u32 (x + 1) else x |> |>
    else match scan with
         | None => s <| srv_bo ; low_fallback ::= λ x, u32 (x + 1) |>
         | Some _ => s
         end
  else s.

Definition set_flag (f m : Z) (b : bool) : Z := if b then Z.lor f m else Z.ldiff f m.

Definition v3da_bo_create (client size flags : Z) (s : v3da_srv_t) : Z * v3da_resp_u * v3da_srv_t :=
  let scan := if has flags V3DA_BO_SCANOUT then scanout_pick s else None in
  let cached := match scan with Some _ => false | None => has flags V3DA_BO_CACHEABLE end in
  let buf_pa := match scan with
                | Some k => u32 (sc_pa (srv_scan s) + u32 (k * sc_bytes (srv_scan s)))
                | None => 0
                end in
  if 0x40000000 <? size then (- EINVAL, R_none, s)
  else
    let pages := Z.max 1 (u32 (size + PAGE_SIZE - 1) / PAGE_SIZE) in
    match bo_slot s with
    | None => (- ENOMEM, R_none, s)
    | Some (slot, s) =>
        let lowmem := has flags V3DA_BO_LOWMEM in
        let foot := v3da_lowmem_footprint pages PAGE_SIZE in
        let want_low := lowmem && negb (bool_decide (is_Some scan)) &&
                        v3da_lowmem_admit (low_live (srv_bo s)) foot (low_budget (srv_bo s)) in
        let '(blk, pl, s) := block_get pages cached want_low s in
        match blk with
        | None => (- ENOMEM, R_none,
                   if lowmem then s <| srv_bo ; low_fallback ::= λ x, u32 (x + 1) |> else s)
        | Some (cpu, pa) =>
            let '(gpuva, s) := alloc_va pages s in
            if gpuva =? 0 then (- ENOMEM, R_none, block_put cpu pa pages cached s)
            else
              let scan_pages := match scan with
                                | Some _ => Z.min (sc_bytes (srv_scan s) / PAGE_SIZE) pages
                                | None => 0
                                end in
              let n := cursor s in
              let s := tick s in
              let ppa i := if i <? scan_pages then buf_pa + i * PAGE_SIZE
                           else env_va2pa n (cpu + i * PAGE_SIZE) in
              let s := s <| srv_hw ::= λ h, h <| hw_pt ::= map_ptes gpuva pages ppa |>
                                              <| hw_pt_gen ::= λ g, g + 1 |> |> in
              let s := bump_bo_gen slot s in
              let handle := make_handle (bo_gen (srv_bo s) slot) slot in
              let s := set_bo slot (λ _, bo0 <| bo_state := V3DA_BO_LIVE |> <| bo_handle := handle |>
                  <| bo_owner := client |> <| bo_refs := 1 |>
                  <| bo_flags := set_flag flags V3DA_BO_CACHEABLE cached |>
                  <| bo_cpu := cpu |> <| bo_pa := pa |> <| bo_gpuva := gpuva |>
                  <| bo_pages := pages |>
                  <| bo_scanout := match scan with Some k => k + 1 | None => 0 end |>) s in
              let s := match scan with
                       | Some k => s <| srv_scan ; sc_claimed ::= λ c, <[k := handle]> c |>
                       | None => s
                       end in
              let s := low_account slot foot lowmem want_low pl scan s in
              (0, R_bo_create (mkBoCreateResp handle gpuva (u32 (pages * PAGE_SIZE))
                    (match scan with Some k => k + 1 | None => 0 end)
                    (mkMemref V3DA_MEM_PHYS (if cached then V3DA_CACHE_CACHED else V3DA_CACHE_UNCACHED)
                       0 (pages * PAGE_SIZE) pa)), s)
        end
    end.

(** ** References and quarantine *)
Definition export_withdraw (i : Z) (s : v3da_srv_t) : v3da_srv_t :=
  let b := srv_bos s i in
  if negb (bo_exported b) then s
  else
    let s := set_bo i (λ b, b <| bo_exported := false |>) s in
    let s := emit (E_unexport (buf_port (srv_bo s)) (bo_handle b)) s in
    s <| srv_bo ; exports ::= λ n, u32 (n - 1) |>.

(** Any queue but the CPU queue with a job on it. *)
Definition gpu_busy (s : v3da_srv_t) : bool :=
  match find_first (λ qu, negb (qu =? V3DA_Q_CPU) && bool_decide (is_Some (active s qu))) 0 V3DA_Q_COUNT with
  | Some _ => true
  | None => false
  end.

(** The framebuffer buffer a quarantined scan-out BO gives back. *)
Definition scanout_release (b : v3da_bo_t) (s : v3da_srv_t) : v3da_srv_t :=
  if (0 <? bo_scanout b) && (bo_scanout b <=? V3DA_SCANOUT_MAX) &&
     (sc_claimed (srv_scan s) (bo_scanout b - 1) =? bo_handle b)
  then s <| srv_scan ; sc_claimed ::= λ c, <[bo_scanout b - 1 := 0]> c |>
  else s.

Definition quarantine_begin (i : Z) (s : v3da_srv_t) : v3da_srv_t :=
  let s := export_withdraw i s in
  let b := srv_bos s i in
  let s := s <| srv_hw ::= λ h, h <| hw_pt ::= clear_ptes (bo_gpuva b) (bo_pages b) |>
                                  <| hw_pt_gen ::= λ g, g + 1 |> |> in
  let s := scanout_release b s in
  let s := set_bo i (λ b, b <| bo_clear_pt_gen := hw_pt_gen (srv_hw s) |>
                            <| bo_pass := fp_hw_submitted (srv_fp s) |>) s in
  let s := if gpu_busy s then s else v3da_hw_mmu_flush s in
  set_bo i (λ b, b <| bo_state := V3DA_BO_QUARANTINE |>) s.

Definition bo_unref (i : Z) (s : v3da_srv_t) : v3da_srv_t :=
  let s := set_bo i (λ b, b <| bo_refs ::= λ r, if 0 <? r then r - 1 else r |>) s in
  if bo_refs (srv_bos s i) =? 0 then
    let s := export_withdraw i s in
    if bo_inflight (srv_bos s i) =? 0 then quarantine_begin i s else s
  else s.

(** A quarantined BO whose unmap is flushed and which every queue has passed. *)
Definition quarantine_passed (s : v3da_srv_t) (b : v3da_bo_t) : bool :=
  bool_decide (bo_state b = V3DA_BO_QUARANTINE) &&
  (bo_clear_pt_gen b <=? hw_tlb_gen (srv_hw s)) &&
  match find_first (λ qu, fp_hw_completed (srv_fp s) qu <? bo_pass b qu) 0 V3DA_Q_COUNT with
  | None => true
  | Some _ => false
  end.

(** Give a passed BO's block, address range and slot back. *)
Definition quarantine_release (i : Z) (s : v3da_srv_t) : v3da_srv_t :=
  let b := srv_bos s i in
  let s := if bo_imported b then
             emit (E_munmap (bo_cpu b) (bo_pages b * PAGE_SIZE)) s
               <| srv_bo ; imports ::= λ n, u32 (n - 1) |>
           else
             let s := if bo_low b
                      then s <| srv_bo ; low_live ::= λ x, x - v3da_lowmem_footprint (bo_pages b) PAGE_SIZE |>
                      else s in
             block_put (bo_cpu b) (bo_pa b) (bo_pages b) (has (bo_flags b) V3DA_BO_CACHEABLE) s in
  let s := s <| srv_hw ::= v3da_hw_va_free (bo_gpuva b) (bo_pages b) |> in
  let s := set_bo i (λ _, bo0) s in
  s <| srv_bo ; bo_quarantine_passed ::= λ n, u32 (n + 1) |>.

Definition quarantine_poll_one (i : Z) (s : v3da_srv_t) : v3da_srv_t :=
  if quarantine_passed s (srv_bos s i) then quarantine_release i s else s.

Definition v3da_bo_quarantine_poll (s : v3da_srv_t) : v3da_srv_t :=
  for_ 0 (nbos (srv_bo s)) quarantine_poll_one s.

(** ** Pinning and last use *)
Definition v3da_bo_pin_for_job (handles : list Z) (s : v3da_srv_t) : Z * v3da_srv_t :=
  if forallb (λ h, bool_decide (is_Some (v3da_bo_find s h))) handles then
    (0, foldl (λ s h, match v3da_bo_find s h with
                      | Some i => set_bo i (λ b, b <| bo_inflight ::= λ n, u32 (n + 1) |>) s
                      | None => s
                      end) s handles)
  else (- ENOENT, s).

Definition v3da_bo_mark_use (handles : list Z) (f : v3da_fence_t) (gseq : Z) (s : v3da_srv_t) : v3da_srv_t :=
  foldl (λ s h, match bo_lookup s h with
                | Some i =>
                    if f_queue f <? V3DA_Q_COUNT
                    then set_bo i (λ b, b <| bo_last ::= λ l, <[f_queue f := f]> l |>
                                          <| bo_last_gseq ::= λ l, <[f_queue f := gseq]> l |>) s
                    else s
                | None => s
                end) s handles.

(** One entry per slot, queue and generation, holding the newest seqno; the flag is
    set when the set was full. *)
Definition same_timeline (a b : v3da_fence_t) : bool :=
  (f_slot a =? f_slot b) && (f_queue a =? f_queue b) && (f_gen a =? f_gen b).

Fixpoint fence_set_merge (dep : list v3da_fence_t) (f : v3da_fence_t) : option (list v3da_fence_t) :=
  match dep with
  | [] => None
  | d :: dep =>
      if same_timeline d f
      then Some (mkFence (f_slot d) (f_queue d) (f_gen d) (Z.max (f_seqno d) (f_seqno f)) :: dep)
      else cons d <$> fence_set_merge dep f
  end.

Definition v3da_fence_set_add (dep : list v3da_fence_t) (max : Z) (f : v3da_fence_t)
    : bool * list v3da_fence_t :=
  match fence_set_merge dep f with
  | Some dep => (false, dep)
  | None => if max <=? Z.of_nat (length dep) then (true, dep) else (false, dep ++ [f])
  end.

(** Another client's pending use of a named BO becomes a dependency; the count is how
    many had to be dropped. *)
Definition implicit_one (slot max : Z) (f : v3da_fence_t) (s : v3da_srv_t)
    (acc : list v3da_fence_t * Z) : list v3da_fence_t * Z :=
  if (f_seqno f =? 0) || (f_slot f =? slot) || signaled s f then acc
  else let '(full, dep) := v3da_fence_set_add acc.1 max f in (dep, acc.2 + b2z full).

Definition v3da_bo_implicit_deps (slot : Z) (handles : list Z) (max : Z) (s : v3da_srv_t)
    (dep : list v3da_fence_t) : list v3da_fence_t * Z :=
  foldl (λ acc h, match bo_lookup s h with
                  | None => acc
                  | Some i => for_ 0 V3DA_Q_COUNT (λ qu acc,
                      implicit_one slot max (bo_last (srv_bos s i) qu) s acc) acc
                  end) (dep, 0) handles.

Definition unpin_one (s : v3da_srv_t) (h : Z) : v3da_srv_t :=
  match bo_lookup s h with
  | None => s
  | Some i =>
      let s := set_bo i (λ b, b <| bo_inflight ::= λ n, if 0 <? n then n - 1 else n |>) s in
      let b := srv_bos s i in
      if (bo_refs b =? 0) && (bo_inflight b =? 0) then quarantine_begin i s else s
  end.

Definition v3da_bo_unpin (handles : list Z) (s : v3da_srv_t) : v3da_srv_t :=
  foldl unpin_one s handles.

(** ** The binner-overflow pool's pages *)
Definition v3da_bo_map_ovf_pool (bytes : Z) (s : v3da_srv_t) : Z * Z * v3da_srv_t :=
  let pages := bytes / PAGE_SIZE in
  let '(va, s) := alloc_va pages s in
  if va =? 0 then (- ENOMEM, 0, s)
  else
    let n := cursor s in
    let s := tick s in
    match env_mmap n bytes false with
    | None => (- ENOMEM, 0, s <| srv_hw ::= v3da_hw_va_free va pages |>)
    | Some cpu =>
        let s := emit (E_zero cpu bytes) s in
        let s := s <| srv_hw ::= λ h,
            h <| hw_pt ::= map_ptes va pages (λ i, env_va2pa n (cpu + i * PAGE_SIZE)) |>
              <| hw_pt_gen ::= λ g, g + 1 |> |> in
        (0, va, v3da_hw_mmu_flush s)
    end.

(** ** Requests on a handle *)
Definition v3da_bo_close (client handle : Z) (s : v3da_srv_t) : Z * v3da_srv_t :=
  match v3da_bo_find s handle with
  | None => (0, s)
  | Some i =>
      let b := srv_bos s i in
      let bit := client_bit client in
      if has (bo_sharers b) bit then
        let s := set_bo i (λ b, b <| bo_sharers ::= λ m, Z.ldiff m bit |>) s in
        (0, v3da_bo_quarantine_poll (bo_unref i s))
      else if negb (bo_owner b =? 0) then
        let s := set_bo i (λ b, b <| bo_owner := 0 |>) s in
        (0, v3da_bo_quarantine_poll (bo_unref i s))
      else (0, s)
  end.

Definition v3da_bo_mmap (handle : Z) (s : v3da_srv_t) : Z * v3da_resp_u :=
  match v3da_bo_find s handle with
  | None => (- EINVAL, R_none)
  | Some i =>
      let b := srv_bos s i in
      (0, R_bo (mkBoResp (bo_gpuva b) (u32 (bo_pages b * PAGE_SIZE))
        (if bo_imported b then bo_imp_mem b
         else mkMemref V3DA_MEM_PHYS
                (if has (bo_flags b) V3DA_BO_CACHEABLE then V3DA_CACHE_CACHED else V3DA_CACHE_UNCACHED)
                0 (bo_pages b * PAGE_SIZE) (bo_pa b))))
  end.

Definition v3da_bo_offset (handle : Z) (s : v3da_srv_t) : Z * v3da_resp_u :=
  match v3da_bo_find s handle with
  | None => (- EINVAL, R_none)
  | Some i => (0, R_offset (bo_gpuva (srv_bos s i)))
  end.

(** FNV-1a over a byte string; the little-endian word at an address. *)
Definition fnv1a (bytes : list Z) : Z :=
  foldl (λ h b, u32 (Z.lxor h b * 16777619)) 2166136261 bytes.
Definition le32 (mem : Z → Z) (a : Z) : Z :=
  mem a + 2 ^ 8 * mem (a + 1) + 2 ^ 16 * mem (a + 2) + 2 ^ 24 * mem (a + 3).

Definition v3da_bo_checksum (handle off len : Z) (s : v3da_srv_t) : Z * v3da_resp_u * v3da_srv_t :=
  match v3da_bo_find s handle with
  | None => (- EINVAL, R_none, s)
  | Some i =>
      let size := u32 (bo_pages (srv_bos s i) * PAGE_SIZE) in
      if (size <? off) || (size - off <? len) || has off 3 then (- EINVAL, R_none, s)
      else
        let mem := env_mem (cursor s) in
        let p := bo_cpu (srv_bos s i) + off in
        (0, R_bo_checksum (fnv1a (map (λ k, mem (p + k)) (seqZ 0 len)))
              (if 4 <=? len then le32 mem p else 0), tick s)
  end.

Definition client_gone_one (client i : Z) (s : v3da_srv_t) : v3da_srv_t :=
  let bit := client_bit client in
  let b := srv_bos s i in
  if negb (bool_decide (bo_state b = V3DA_BO_LIVE)) || (bo_refs b =? 0) then s
  else
    let s := if bo_owner b =? client
             then bo_unref i (set_bo i (λ b, b <| bo_owner := 0 |>) s) else s in
    let b := srv_bos s i in
    if bool_decide (bo_state b = V3DA_BO_LIVE) && has (bo_sharers b) bit
    then bo_unref i (set_bo i (λ b, b <| bo_sharers ::= λ m, Z.ldiff m bit |>) s)
    else s.

Definition v3da_bo_client_gone (client : Z) (s : v3da_srv_t) : v3da_srv_t :=
  v3da_bo_quarantine_poll (for_ 0 (nbos (srv_bo s)) (client_gone_one client) s).

Definition v3da_bo_counts (s : v3da_srv_t) : Z * Z * Z :=
  (countZ (λ i, bool_decide (bo_state (srv_bos s i) = V3DA_BO_LIVE)) 0 (nbos (srv_bo s)),
   countZ (λ i, bool_decide (bo_state (srv_bos s i) = V3DA_BO_QUARANTINE)) 0 (nbos (srv_bo s)),
   Z.of_nat (length (pool (srv_bo s)))).

Definition v3da_bo_low_counts (s : v3da_srv_t) : Z * Z * Z * Z :=
  (low_live (srv_bo s), low_budget (srv_bo s), low_bos (srv_bo s), low_fallback (srv_bo s)).
End env.
