(* ===== verification/BoInv.v ===== *)
(** The buffer-object table's invariants and what each operation of Bo.v does to them:
    reference accounting, published names and imports, the low-memory budget, and the
    GPU page table, which maps exactly the live objects. *)
From S2P Require Import Prelude Proto State Lowmem Hw Fence Bo.

(** ** Handles *)
Lemma make_handle_slot gen slot :
  0 ≤ slot < V3DA_MAX_BOS → Z.land (make_handle gen slot) V3DA_HANDLE_SLOT_MASK = slot + 1.
Proof.
  intros Hs. unfold make_handle, V3DA_HANDLE_SLOT_MASK, V3DA_MAX_BOS in *.
  change 0x1fff with (Z.ones 13). rewrite Z.land_lor_distr_l, !Z.land_ones by lia.
  rewrite (Z.mod_small (slot + 1)) by lia.
  assert (u32 (Z.shiftl gen V3DA_HANDLE_SLOT_BITS) mod 2 ^ 13 = 0) as ->; [|by rewrite Z.lor_0_l].
  unfold u32, V3DA_HANDLE_SLOT_BITS. rewrite Z.shiftl_mul_pow2 by lia.
  replace (2 ^ 32) with (2 ^ 13 * 2 ^ 19) by done.
  rewrite Z.mod_mod_divide by (by exists (2 ^ 19)). by apply Z.mod_mul.
Qed.

Lemma make_handle_gen gen slot :
  0 ≤ slot < V3DA_MAX_BOS → 0 ≤ gen →
  Z.shiftr (make_handle gen slot) V3DA_HANDLE_SLOT_BITS = gen mod 2 ^ 19.
Proof.
  intros Hs Hg. unfold make_handle, V3DA_HANDLE_SLOT_BITS, V3DA_MAX_BOS in *.
  rewrite Z.shiftr_lor. rewrite (Z.shiftr_div_pow2 (slot + 1)) by lia.
  rewrite (Z.div_small (slot + 1)), Z.lor_0_r by lia.
  unfold u32. rewrite Z.shiftl_mul_pow2, Z.shiftr_div_pow2 by lia.
  replace (2 ^ 32) with (2 ^ 19 * 2 ^ 13) by done.
  by rewrite Z.mul_mod_distr_r, Z.div_mul by lia.
Qed.

(** Two handles are equal exactly when slot and generation (mod 2^19) agree. *)
Lemma make_handle_inj g1 s1 g2 s2 :
  0 ≤ s1 < V3DA_MAX_BOS → 0 ≤ s2 < V3DA_MAX_BOS → 0 ≤ g1 → 0 ≤ g2 →
  make_handle g1 s1 = make_handle g2 s2 → s1 = s2 ∧ g1 mod 2 ^ 19 = g2 mod 2 ^ 19.
Proof.
  intros H1 H2 H3 H4 He. split.
  - pose proof (make_handle_slot g1 s1 H1). pose proof (make_handle_slot g2 s2 H2). rewrite He in *. lia.
  - rewrite <- (make_handle_gen g1 s1), <- (make_handle_gen g2 s2) by done. by rewrite He.
Qed.

(** ** Per-object invariant *)
Definition sharer_count (m : Z) : Z := countZ (Z.testbit m) 0 V3DA_MAX_CLIENTS.
Definition holders (b : v3da_bo_t) : Z :=
  b2z (negb (bo_owner b =? 0)) + sharer_count (bo_sharers b) + bo_fd_opens b.

Definition bo_sane (b : v3da_bo_t) : Prop :=
  0 ≤ bo_owner b ∧ 0 ≤ bo_fd_opens b ∧ 0 ≤ bo_sharers b ∧ 0 ≤ bo_inflight b ∧
  (bo_imported b = true → bo_exported b = false ∧ bo_low b = false) ∧
  1 ≤ bo_pages b ≤ PT_ENTRIES.

Definition bo_local (gen : Z → Z) (i : Z) (b : v3da_bo_t) : Prop :=
  match bo_state b with
  | V3DA_BO_FREE => bo_exported b = false ∧ bo_imported b = false ∧ bo_low b = false
  | V3DA_BO_LIVE =>
      bo_handle b = make_handle (gen i) i ∧ bo_refs b = holders b ∧ bo_sane b ∧
      (bo_refs b = 0 → bo_exported b = false ∧ 0 < bo_inflight b)
  | V3DA_BO_QUARANTINE =>
      bo_exported b = false ∧ bo_refs b = 0 ∧ bo_inflight b = 0 ∧ bo_sane b
  end.

Lemma bo_local_live gen i b :
  bo_state b = V3DA_BO_LIVE →
  bo_local gen i b ↔
  bo_handle b = make_handle (gen i) i ∧ bo_refs b = holders b ∧ bo_sane b ∧
  (bo_refs b = 0 → bo_exported b = false ∧ 0 < bo_inflight b).
Proof. unfold bo_local. by intros ->. Qed.

Definition low_bytes (b : v3da_bo_t) : Z :=
  if bo_low b then v3da_lowmem_footprint (bo_pages b) PAGE_SIZE else 0.

(** ** The table invariant; [skip] is an object an operation is half way through. *)
Record table_inv (skip : option Z) (s : v3da_srv_t) : Prop := mkTableInv {
  ti_n : 0 ≤ nbos (srv_bo s) ≤ V3DA_MAX_BOS;
  ti_local : ∀ i, 0 ≤ i < nbos (srv_bo s) → Some i ≠ skip → bo_local (bo_gen (srv_bo s)) i (srv_bos s i);
  ti_fresh : ∀ i, nbos (srv_bo s) ≤ i → srv_bos s i = bo0;
  ti_gen : ∀ i, 0 ≤ bo_gen (srv_bo s) i;
  ti_exports : exports (srv_bo s) = countZ (λ i, bo_exported (srv_bos s i)) 0 (nbos (srv_bo s));
  ti_imports : imports (srv_bo s) = countZ (λ i, bo_imported (srv_bos s i)) 0 (nbos (srv_bo s));
  ti_low : low_live (srv_bo s) = sumZ (λ i, low_bytes (srv_bos s i)) 0 (nbos (srv_bo s));
  ti_budget : low_live (srv_bo s) ≤ low_budget (srv_bo s) }.

(** ** Reading through updates *)
Lemma set_bo_bos i f s j : srv_bos (set_bo i f s) j = if decide (i = j) then f (srv_bos s i) else srv_bos s j.
Proof. unfold srv_bos, set_bo. simpl. by rewrite fn_upd_case. Qed.
Lemma set_bo_eq i f s : srv_bos (set_bo i f s) i = f (srv_bos s i).
Proof. rewrite set_bo_bos. by rewrite decide_True. Qed.
Lemma set_bo_ne i f s j : i ≠ j → srv_bos (set_bo i f s) j = srv_bos s j.
Proof. intros. rewrite set_bo_bos. by rewrite decide_False. Qed.

Lemma countZ_point (p p' : Z → bool) n i :
  0 ≤ i < n → (∀ j, j ≠ i → p' j = p j) → countZ p' 0 n = countZ p 0 n - b2z (p i) + b2z (p' i).
Proof. intros Hi Hj. unfold countZ. apply (sumZ_point (λ j, b2z (p j))); [done|]. intros. by rewrite Hj. Qed.

Lemma countZ_le p n : 0 ≤ n → countZ p 0 n ≤ n.
Proof.
  intros Hn. unfold countZ. revert n Hn. apply sumZ_ind; [by rewrite sumZ_stop|].
  intros h Hh IH. rewrite sumZ_last by done. destruct (p h); simpl; lia.
Qed.

(** Two server states whose BO tables agree satisfy the same table invariant. *)
Lemma table_inv_ext skip s s' : srv_bo s' = srv_bo s → table_inv skip s → table_inv skip s'.
Proof. intros E []. unfold srv_bos in *. constructor; unfold srv_bos; by rewrite E. Qed.

(** Skipping more is weaker. *)
Lemma table_inv_skip i s : table_inv None s → table_inv (Some i) s.
Proof. intros []. constructor; auto. Qed.

(** Replacing object [i]: the counters move by what it contributes. *)
Lemma table_inv_set skip i (b : v3da_bo_t) s s' :
  table_inv (Some i) s → 0 ≤ i < nbos (srv_bo s) →
  nbos (srv_bo s') = nbos (srv_bo s) → bo_gen (srv_bo s') = bo_gen (srv_bo s) →
  (∀ j, srv_bos s' j = if decide (i = j) then b else srv_bos s j) →
  exports (srv_bo s') = exports (srv_bo s) - b2z (bo_exported (srv_bos s i)) + b2z (bo_exported b) →
  imports (srv_bo s') = imports (srv_bo s) - b2z (bo_imported (srv_bos s i)) + b2z (bo_imported b) →
  low_live (srv_bo s') = low_live (srv_bo s) - low_bytes (srv_bos s i) + low_bytes b →
  low_live (srv_bo s') ≤ low_budget (srv_bo s') →
  (skip = Some i ∨ skip = None ∧ bo_local (bo_gen (srv_bo s)) i b) →
  table_inv skip s'.
Proof.
  intros [Hn Hl Hf Hg He Hi' Hw _] Hi En Eg Eb Ee Ei El Hlb Hloc.
  assert (srv_bos s' i = b) as Ebi by (by rewrite Eb, decide_True).
  assert (∀ j, j ≠ i → srv_bos s' j = srv_bos s j) as Ebj by (intros; rewrite Eb; by rewrite decide_False).
  constructor.
  - by rewrite En.
  - rewrite En, Eg. intros j Hj Hskip. destruct (decide (i = j)) as [<-|].
    + rewrite Ebi. destruct Hloc as [->|[_ ?]]; [by destruct Hskip|done].
    + rewrite Ebj by done. apply Hl; [done|]. congruence.
  - rewrite En. intros j Hj. rewrite Ebj by lia. by apply Hf.
  - by rewrite Eg.
  - rewrite Ee, En, He, (countZ_point (λ j, bo_exported (srv_bos s j)) (λ j, bo_exported (srv_bos s' j)) _ i) by (try done; intros; by rewrite Ebj).
    by rewrite Ebi.
  - rewrite Ei, En, Hi', (countZ_point (λ j, bo_imported (srv_bos s j)) (λ j, bo_imported (srv_bos s' j)) _ i) by (try done; intros; by rewrite Ebj).
    by rewrite Ebi.
  - rewrite El, En, Hw.
    rewrite (sumZ_point (λ j, low_bytes (srv_bos s j)) (λ j, low_bytes (srv_bos s' j)) _ _ i) by (try done; intros; by rewrite Ebj).
    by rewrite Ebi.
  - done.
Qed.

(** The common case: an update of object [i] that leaves the counted fields alone. *)
Lemma table_inv_set_bo i f s :
  table_inv (Some i) s → 0 ≤ i < nbos (srv_bo s) →
  bo_exported (f (srv_bos s i)) = bo_exported (srv_bos s i) →
  bo_imported (f (srv_bos s i)) = bo_imported (srv_bos s i) →
  low_bytes (f (srv_bos s i)) = low_bytes (srv_bos s i) →
  table_inv (Some i) (set_bo i f s).
Proof.
  intros H Hi E1 E2 E3. apply (table_inv_set _ i (f (srv_bos s i)) s);
    [done|done|done|done|apply set_bo_bos|..]; rewrite ?E1, ?E2, ?E3; simpl; [lia..|apply H|by left].
Qed.

(** Un-skipping: the object is settled again. *)
Lemma table_inv_settle i s :
  table_inv (Some i) s → bo_local (bo_gen (srv_bo s)) i (srv_bos s i) → table_inv None s.
Proof.
  intros [] H. constructor; try done. intros j Hj _.
  destruct (decide (i = j)) as [<-|]; [done|]. apply ti_local0; [done|congruence].
Qed.

(** ** Lookup *)
Lemma bo_lookup_Some s h i :
  bo_lookup s h = Some i →
  Z.land h V3DA_HANDLE_SLOT_MASK = i + 1 ∧ i + 1 ≤ nbos (srv_bo s) ∧
  bo_state (srv_bos s i) = V3DA_BO_LIVE ∧ bo_handle (srv_bos s i) = h.
Proof.
  unfold bo_lookup. set (sl := Z.land _ _).
  destruct (_ || _) eqn:E1; [done|]. destruct (_ && _) eqn:E2; [|done].
  intros; simplify_eq. apply andb_true_iff in E2 as [E2 E3].
  apply bool_decide_eq_true in E2. zify_bools. split_and!; try done; lia.
Qed.

Lemma land_mask_nonneg h : 0 ≤ h → 0 ≤ Z.land h V3DA_HANDLE_SLOT_MASK.
Proof. intros. apply Z.land_nonneg. by left. Qed.

Lemma bo_lookup_range s h i : 0 ≤ h → bo_lookup s h = Some i → 0 ≤ i < nbos (srv_bo s).
Proof.
  intros Hh H. unfold bo_lookup in H. pose proof (land_mask_nonneg h Hh).
  destruct (_ || _) eqn:E1; [done|]. destruct (_ && _); [|done]. simplify_eq. zify_bools. lia.
Qed.

(** A live object answers to its handle, and to no other object's. *)
Lemma bo_lookup_live s i :
  table_inv None s → 0 ≤ i < nbos (srv_bo s) → bo_state (srv_bos s i) = V3DA_BO_LIVE →
  bo_lookup s (bo_handle (srv_bos s i)) = Some i.
Proof.
  intros [Hn Hl _ _ _ _ _ _] Hi Hst. specialize (Hl i Hi ltac:(done)).
  unfold bo_local in Hl. rewrite Hst in Hl. destruct Hl as (Hh & _).
  assert (Z.land (bo_handle (srv_bos s i)) V3DA_HANDLE_SLOT_MASK = i + 1) as Em.
  { rewrite Hh. apply make_handle_slot. lia. }
  unfold bo_lookup. cbv zeta. rewrite Em.
  replace (i + 1 =? 0) with false by lia. replace (nbos (srv_bo s) <? i + 1) with false by lia. simpl.
  replace (i + 1 - 1) with i by lia. rewrite bool_decide_eq_true_2 by done. by rewrite Z.eqb_refl.
Qed.

Lemma v3da_bo_find_Some s h i :
  v3da_bo_find s h = Some i → bo_lookup s h = Some i ∧ 0 < bo_refs (srv_bos s i).
Proof. unfold v3da_bo_find. destruct (bo_lookup s h); [|done]. case_match; [|done]. intros; simplify_eq. split; [done|]. lia. Qed.

(** ** Frames

    Buffer-object operations leave the fence page, clients, queues, overflow pool,
    parked requests and statistics alone. *)
Definition keeps (s s' : v3da_srv_t) : Prop :=
  srv_fp s' = srv_fp s ∧ srv_cl s' = srv_cl s ∧ srv_sched s' = srv_sched s ∧
  srv_ovf s' = srv_ovf s ∧ srv_wt s' = srv_wt s ∧ srv_st s' = srv_st s.
#[export] Instance keeps_pre : PreOrder keeps.
Proof.
  split; [done|]. unfold keeps. intros a b c H1 H2. destruct_and!. split_and!; congruence.
Qed.
Ltac keeps_tac := unfold keeps; split_and!; reflexivity.

Section env.
Context `{E : Env}.

Lemma mmu_flush_bo s : srv_bo (v3da_hw_mmu_flush s) = srv_bo s.
Proof. reflexivity. Qed.

Lemma bo_eta_exported b : bo_exported b = false → b <| bo_exported := false |> = b.
Proof. destruct b. simpl. by intros ->. Qed.

Lemma export_withdraw_bos i s j :
  srv_bos (export_withdraw i s) j =
  if decide (i = j) then srv_bos s i <| bo_exported := false |> else srv_bos s j.
Proof.
  unfold export_withdraw. destruct (bo_exported (srv_bos s i)) eqn:Ex; cbn [negb].
  - change (srv_bos (set_bo i (λ b, b <| bo_exported := false |>) s) j =
            (if decide (i = j) then srv_bos s i <| bo_exported := false |> else srv_bos s j)).
    apply set_bo_bos.
  - case_decide; subst; [|done]. by rewrite bo_eta_exported.
Qed.

Lemma export_withdraw_tab i s :
  let t := srv_bo s in let t' := srv_bo (export_withdraw i s) in
  nbos t' = nbos t ∧ bo_gen t' = bo_gen t ∧ imports t' = imports t ∧ low_live t' = low_live t ∧
  low_budget t' = low_budget t ∧ pool t' = pool t ∧ buf_port t' = buf_port t ∧
  srv_hw (export_withdraw i s) = srv_hw s ∧ srv_scan (export_withdraw i s) = srv_scan s.
Proof. unfold export_withdraw. case_match; split_and!; reflexivity. Qed.

Lemma export_withdraw_keeps i s : keeps s (export_withdraw i s).
Proof. unfold export_withdraw. case_match; keeps_tac. Qed.

Lemma exports_bounds s skip : table_inv skip s → 0 ≤ exports (srv_bo s) ≤ V3DA_MAX_BOS.
Proof. intros [Hn _ _ _ He _ _ _]. rewrite He. pose proof (countZ_nonneg (λ i, bo_exported (srv_bos s i)) 0 (nbos (srv_bo s))). pose proof (countZ_le (λ i, bo_exported (srv_bos s i)) (nbos (srv_bo s))). lia. Qed.
Lemma imports_bounds s skip : table_inv skip s → 0 ≤ imports (srv_bo s) ≤ V3DA_MAX_BOS.
Proof. intros [Hn _ _ _ _ He _ _]. rewrite He. pose proof (countZ_nonneg (λ i, bo_imported (srv_bos s i)) 0 (nbos (srv_bo s))). pose proof (countZ_le (λ i, bo_imported (srv_bos s i)) (nbos (srv_bo s))). lia. Qed.

Lemma export_withdraw_exports i s skip :
  table_inv skip s → 0 ≤ i < nbos (srv_bo s) →
  exports (srv_bo (export_withdraw i s)) = exports (srv_bo s) - b2z (bo_exported (srv_bos s i)).
Proof.
  intros H Hi. unfold export_withdraw. destruct (bo_exported (srv_bos s i)) eqn:Ex; simpl; [|lia].
  apply u32_small. pose proof (exports_bounds _ _ H). destruct H as [_ _ _ _ He _ _ _].
  pose proof (countZ_ge (λ i, bo_exported (srv_bos s i)) 0 (nbos (srv_bo s)) i Hi Ex).
  unfold V3DA_MAX_BOS in *. lia.
Qed.

Lemma export_withdraw_inv i s :
  table_inv (Some i) s → 0 ≤ i < nbos (srv_bo s) → table_inv (Some i) (export_withdraw i s).
Proof.
  intros H Hi. pose proof (export_withdraw_tab i s) as (En & Eg & Ei & El & Elb & _).
  apply (table_inv_set _ i (srv_bos s i <| bo_exported := false |>) s);
    [done|done|done|done|apply export_withdraw_bos|..].
  - rewrite (export_withdraw_exports i s (Some i)) by done. simpl. lia.
  - rewrite Ei. simpl. lia.
  - rewrite El. unfold low_bytes. simpl. lia.
  - rewrite El. pose proof (ti_budget _ _ H). lia.
  - by left.
Qed.

(** ** Quarantine *)
Definition quarantined (s : v3da_srv_t) (b : v3da_bo_t) : v3da_bo_t :=
  b <| bo_exported := false |> <| bo_clear_pt_gen := hw_pt_gen (srv_hw s) + 1 |>
    <| bo_pass := fp_hw_submitted (srv_fp s) |> <| bo_state := V3DA_BO_QUARANTINE |>.

Lemma quarantine_begin_spec i s :
  let s' := quarantine_begin i s in let t := srv_bo s in let t' := srv_bo s' in
  keeps s s' ∧
  (∀ j, srv_bos s' j = if decide (i = j) then quarantined s (srv_bos s i) else srv_bos s j) ∧
  (nbos t' = nbos t ∧ bo_gen t' = bo_gen t ∧ imports t' = imports t ∧ low_live t' = low_live t ∧
   low_budget t' = low_budget t ∧ pool t' = pool t ∧ buf_port t' = buf_port t ∧
   exports t' = exports (srv_bo (export_withdraw i s))) ∧
  (∃ tlb flushes, srv_hw s' = srv_hw s
     <| hw_pt ::= clear_ptes (bo_gpuva (srv_bos s i)) (bo_pages (srv_bos s i)) |>
     <| hw_pt_gen ::= λ g, g + 1 |> <| hw_tlb_gen := tlb |> <| hw_tlb_flushes := flushes |> ∧
     tlb = if gpu_busy s then hw_tlb_gen (srv_hw s) else hw_pt_gen (srv_hw s) + 1).
Proof.
  cbv zeta. unfold quarantine_begin.
  set (s1 := export_withdraw i s).
  assert (srv_hw s1 = srv_hw s ∧ srv_fp s1 = srv_fp s ∧ srv_sched s1 = srv_sched s ∧ srv_cl s1 = srv_cl s ∧
    srv_ovf s1 = srv_ovf s ∧ srv_wt s1 = srv_wt s ∧ srv_st s1 = srv_st s) as (Eh & Ef & Es & Ec & Eo & Ew & Et)
    by (unfold s1, export_withdraw; case_match; split_and!; reflexivity).
  pose proof (export_withdraw_bos i s) as Eb. fold s1 in Eb.
  pose proof (export_withdraw_tab i s) as Etab. fold s1 in Etab. cbv zeta in Etab.
  destruct_and!.
  assert (bo_gpuva (srv_bos s1 i) = bo_gpuva (srv_bos s i) ∧ bo_pages (srv_bos s1 i) = bo_pages (srv_bos s i)) as [Eg Ep]
    by (rewrite Eb, decide_True by done; done).
  rewrite Eg, Ep. generalize (srv_bos s1 i) as b. clearbody s1. intros b.
  unfold scanout_release. generalize ((0 <? bo_scanout b) && (bo_scanout b <=? V3DA_SCANOUT_MAX)) as c1.
  intros c1. match goal with |- context [c1 && ?c] => generalize (c1 && c) as c2 end. intros c2.
  set (g := gpu_busy _). assert (g = gpu_busy s) as Egb.
  { unfold g, gpu_busy, active, srv_q. destruct c2; cbn; by rewrite Es. }
  clearbody g. rewrite Egb. clear g Egb c1.
  split_and!.
  - unfold keeps. destruct c2, (gpu_busy s); cbn; by rewrite Ef, Ec, Es, Eo, Ew, Et.
  - intros j. unfold srv_bos in Eb |- *. destruct c2, (gpu_busy s); cbn;
      rewrite !fn_upd_case; rewrite ?(decide_True _ _ (eq_refl i)), ?Eb, ?(decide_True _ _ (eq_refl i));
      (case_decide; [unfold quarantined; cbn; rewrite ?Eh, ?Ef; reflexivity | reflexivity]).
  - destruct c2, (gpu_busy s); cbn; congruence.
  - destruct c2, (gpu_busy s); cbn; congruence.
  - destruct c2, (gpu_busy s); cbn; congruence.
  - destruct c2, (gpu_busy s); cbn; congruence.
  - destruct c2, (gpu_busy s); cbn; congruence.
  - destruct c2, (gpu_busy s); cbn; congruence.
  - destruct c2, (gpu_busy s); cbn; congruence.
  - destruct c2, (gpu_busy s); cbn; congruence.
  - destruct c2, (gpu_busy s); cbn; rewrite Eh; do 2 eexists; split; reflexivity.
Qed.
End env.
