(* ===== verification/BoMap.v ===== *)
(** The GPU address space under the buffer-object table: the ranges the table holds are
    pairwise disjoint, and the page table maps exactly the pages of live objects (and of
    [extra], the binner-overflow pool). *)
From S2P Require Import Prelude Proto State Lowmem Hw Fence Bo BoInv.

(** ** Pages of a range *)
Definition covers (h : hole) (p : Z) : Prop :=
  va_page (ho_gpuva h) ≤ p < va_page (ho_gpuva h) + ho_pages h.

Lemma va_page_aligned va : (PAGE_SIZE | va) → va_page va * PAGE_SIZE = va.
Proof.
  intros [k ->]. unfold va_page. rewrite Z.shiftr_div_pow2 by done.
  change (2 ^ V3D_PAGE_SHIFT) with PAGE_SIZE. unfold PAGE_SIZE. by rewrite Z.div_mul.
Qed.

Lemma covers_disj limit a b p :
  range_ok limit a → range_ok limit b → range_disj a b → covers a p → covers b p → False.
Proof.
  intros (_ & _ & _ & Ha%va_page_aligned) (_ & _ & _ & Hb%va_page_aligned) Hd Hca Hcb.
  unfold range_disj, range_end, covers, PAGE_SIZE in *. lia.
Qed.

Lemma clear_ptes_get va pages pt p :
  clear_ptes va pages pt p = if decide (va_page va ≤ p < va_page va + pages) then 0 else pt p.
Proof.
  unfold clear_ptes. destruct (Z_le_gt_dec pages 0).
  { rewrite for_stop by done. case_decide; [lia|done]. }
  match goal with |- for_ 0 pages ?body pt p = _ =>
    pose proof (for_ind (λ i pt', ∀ p, pt' p = if decide (va_page va ≤ p < va_page va + i) then 0 else pt p)
      0 pages body pt) as H end.
  replace (Z.max 0 pages) with pages in H by lia. apply H.
  - intros p'. case_decide; [lia|done].
  - intros i pt' Hi IH p'. rewrite fn_upd_case, IH. repeat case_decide; try done; lia.
Qed.

Lemma pte_of_nz pa : pte_of pa ≠ 0.
Proof.
  unfold pte_of. intros H. assert (Z.testbit 0 28 = true) as Hb; [|done].
  rewrite <- H. rewrite !Z.lor_spec. change (Z.testbit PTE_V 28) with true. by rewrite orb_true_r.
Qed.

Lemma map_ptes_nz va pages pa pt p :
  map_ptes va pages pa pt p ≠ 0 ↔ (va_page va ≤ p < va_page va + pages) ∨ pt p ≠ 0.
Proof.
  unfold map_ptes. destruct (Z_le_gt_dec pages 0).
  { rewrite for_stop by done. split; [tauto|]. intros [|]; [lia|done]. }
  match goal with |- for_ 0 pages ?body pt p ≠ 0 ↔ _ =>
    pose proof (for_ind (λ i pt', ∀ p, pt' p ≠ 0 ↔ (va_page va ≤ p < va_page va + i) ∨ pt p ≠ 0)
      0 pages body pt) as H end.
  replace (Z.max 0 pages) with pages in H by lia. apply H.
  - intros p'. split; [tauto|]. intros [|]; [lia|done].
  - intros i pt' Hi IH p'. rewrite fn_upd_case. case_decide.
    + pose proof (pte_of_nz (pa i)). split; [intros _; left; lia|done].
    + rewrite IH. split; intros [|]; try tauto; left; lia.
Qed.

(** ** Ranges held by the table *)
Definition held (b : v3da_bo_t) : option hole :=
  match bo_state b with
  | V3DA_BO_FREE => None
  | _ => Some (mkHole (bo_gpuva b) (bo_pages b))
  end.
Definition ranges (bos : Z → v3da_bo_t) (n : Z) : list hole := omap (held ∘ bos) (seqZ 0 n).

Lemma ranges_ext f g n : (∀ i, 0 ≤ i < n → held (f i) = held (g i)) → ranges f n = ranges g n.
Proof.
  intros H. unfold ranges. assert (∀ i, i ∈ seqZ 0 n → held (f i) = held (g i)) as Hi.
  { intros i Hi%elem_of_seqZ. apply H. lia. }
  induction (seqZ 0 n) as [|i l IH]; [done|]. simpl. rewrite (Hi i) by (left; done).
  case_match; [f_equal|]; apply IH; intros; apply Hi; by right.
Qed.

Lemma ranges_S f n : 0 ≤ n → ranges f (n + 1) = ranges f n ++ option_list (held (f n)).
Proof.
  intros Hn. unfold ranges. rewrite seqZ_app by lia. rewrite omap_app. simpl.
  destruct (held (f n)); done.
Qed.

Lemma ranges_point f g n i :
  0 ≤ i < n → (∀ j, j ≠ i → held (g j) = held (f j)) →
  option_list (held (f i)) ++ ranges g n ≡ₚ option_list (held (g i)) ++ ranges f n.
Proof.
  intros Hi Hj. assert (0 ≤ n) as Hn by lia. revert n Hn Hi.
  apply (sumZ_ind (λ n, 0 ≤ i < n → option_list (held (f i)) ++ ranges g n ≡ₚ option_list (held (g i)) ++ ranges f n) 0); [lia|].
  intros h Hh IH Hi. rewrite !ranges_S by done. destruct (decide (i = h)) as [->|].
  - rewrite (ranges_ext g f) by (intros; apply Hj; lia).
    rewrite (Permutation_app_comm (ranges f h) (option_list (held (g h)))).
    rewrite (Permutation_app_comm (ranges f h) (option_list (held (f h)))).
    by rewrite !app_assoc, (Permutation_app_comm (option_list (held (f h)))).
  - rewrite !app_assoc, IH by lia. by rewrite (Hj h) by done.
Qed.

Lemma ranges_lookup f n i h : 0 ≤ i < n → held (f i) = Some h → ∃ l, ranges f n ≡ₚ h :: l.
Proof.
  intros Hi Hh.
  pose proof (ranges_point f (<[i := bo0]> f) n i Hi) as Hp. rewrite Hh, fn_upd_eq in Hp.
  change (held bo0) with (@None hole) in Hp. cbn [option_list app] in Hp.
  exists (ranges (<[i := bo0]> f) n). symmetry. apply Hp.
  intros j Hne. by rewrite fn_upd_ne.
Qed.

(** ** The address-space invariant *)
Definition live_page (bos : Z → v3da_bo_t) (n : Z) (p : Z) : Prop :=
  ∃ i, 0 ≤ i < n ∧ bo_state (bos i) = V3DA_BO_LIVE ∧ covers (mkHole (bo_gpuva (bos i)) (bo_pages (bos i))) p.

Record map_inv (extra : list hole) (s : v3da_srv_t) : Prop := mkMapInv {
  mi_va : va_wf (srv_hw s) (ranges (bos (srv_bo s)) (nbos (srv_bo s)) ++ extra);
  mi_pt : ∀ p, hw_pt (srv_hw s) p ≠ 0 ↔
               live_page (bos (srv_bo s)) (nbos (srv_bo s)) p ∨ ∃ h, h ∈ extra ∧ covers h p }.

(** What the invariant reads of the server. *)
Definition same_map (s s' : v3da_srv_t) : Prop :=
  hw_pt (srv_hw s') = hw_pt (srv_hw s) ∧ hw_pt_entries (srv_hw s') = hw_pt_entries (srv_hw s) ∧
  hw_next_gpuva (srv_hw s') = hw_next_gpuva (srv_hw s) ∧ hw_holes (srv_hw s') = hw_holes (srv_hw s) ∧
  nbos (srv_bo s') = nbos (srv_bo s) ∧
  ∀ i, bo_state (srv_bos s' i) = bo_state (srv_bos s i) ∧
       bo_gpuva (srv_bos s' i) = bo_gpuva (srv_bos s i) ∧ bo_pages (srv_bos s' i) = bo_pages (srv_bos s i).

Lemma va_wf_ext hw hw' used :
  hw_pt_entries hw' = hw_pt_entries hw → hw_next_gpuva hw' = hw_next_gpuva hw →
  hw_holes hw' = hw_holes hw → va_wf hw used → va_wf hw' used.
Proof. intros E1 E2 E3 []. constructor; congruence. Qed.

Lemma va_wf_perm hw u u' : u ≡ₚ u' → va_wf hw u → va_wf hw u'.
Proof. intros Hp []. constructor; try done. by rewrite <- Hp. Qed.

Lemma held_ext b b' :
  bo_state b' = bo_state b → bo_gpuva b' = bo_gpuva b → bo_pages b' = bo_pages b → held b' = held b.
Proof. unfold held. by intros -> -> ->. Qed.

Lemma map_inv_ext extra s s' : same_map s s' → map_inv extra s → map_inv extra s'.
Proof.
  intros (E1 & E2 & E3 & E4 & E5 & Hb) [Hva Hpt]. unfold srv_bos in Hb. constructor.
  - rewrite E5, (ranges_ext _ (bos (srv_bo s))).
    + by apply (va_wf_ext (srv_hw s)).
    + intros i _. destruct (Hb i) as (? & ? & ?). by apply held_ext.
  - intros p. rewrite E1, Hpt. apply or_iff_compat_r. unfold live_page. rewrite E5.
    split; intros (i & Hi & H1 & H2); exists i; destruct (Hb i) as (Es & Eg & Ep);
      rewrite Es, Eg, Ep in *; done.
Qed.

Lemma range_held_ok extra s i h :
  map_inv extra s → 0 ≤ i < nbos (srv_bo s) → held (srv_bos s i) = Some h →
  range_ok (hw_next_gpuva (srv_hw s)) h.
Proof.
  intros [[_ _ _ _ [Hall _]] _] Hi Hh.
  destruct (ranges_lookup (bos (srv_bo s)) (nbos (srv_bo s)) i h Hi Hh) as [l Hl].
  rewrite Forall_forall in Hall. apply Hall. rewrite Hl. rewrite elem_of_app. right. by left.
Qed.

(** Two objects the table holds never share a GPU page. *)
Lemma held_disj extra s i j h k p :
  map_inv extra s → i ≠ j → 0 ≤ i < nbos (srv_bo s) → 0 ≤ j < nbos (srv_bo s) →
  held (srv_bos s i) = Some h → held (srv_bos s j) = Some k →
  covers h p → covers k p → False.
Proof.
  intros Hm Hne Hi Hj Hh Hk. apply (covers_disj (hw_next_gpuva (srv_hw s)));
    [by apply (range_held_ok extra s i)|by apply (range_held_ok extra s j)|].
  destruct Hm as [[_ _ _ _ [_ Hpw]] _]. unfold srv_bos in *.
  pose proof (ranges_point (bos (srv_bo s)) (<[i := bo0]> (bos (srv_bo s))) _ i Hi) as Hp.
  rewrite fn_upd_eq, Hh in Hp. change (held bo0) with (@None hole) in Hp. cbn [option_list app] in Hp.
  rewrite <- Hp in Hpw by (intros; by rewrite fn_upd_ne). clear Hp.
  rewrite Permutation_app_comm in Hpw. cbn [app pairwise] in Hpw. destruct Hpw as [Hd _].
  destruct (ranges_lookup (<[i := bo0]> (bos (srv_bo s))) (nbos (srv_bo s)) j k Hj) as [l Hl].
  { by rewrite fn_upd_ne. }
  rewrite Forall_forall in Hd. apply Hd. rewrite elem_of_app. left. rewrite Hl. by left.
Qed.

Lemma held_extra_disj extra s i h k p :
  map_inv extra s → 0 ≤ i < nbos (srv_bo s) → held (srv_bos s i) = Some h → k ∈ extra →
  covers h p → covers k p → False.
Proof.
  intros Hm Hi Hh Hk. assert (range_ok (hw_next_gpuva (srv_hw s)) k) as Hok.
  { destruct Hm as [[_ _ _ _ [Hall _]] _]. rewrite Forall_forall in Hall. apply Hall.
    rewrite !elem_of_app. by do 2 right. }
  apply (covers_disj (hw_next_gpuva (srv_hw s))); [by apply (range_held_ok extra s i)|done|].
  destruct Hm as [[_ _ _ _ [_ Hpw]] _].
  destruct (ranges_lookup (bos (srv_bo s)) (nbos (srv_bo s)) i h Hi Hh) as [l Hl].
  rewrite Hl in Hpw. rewrite Permutation_app_comm in Hpw. cbn [app pairwise] in Hpw.
  destruct Hpw as [Hd _]. rewrite Forall_forall in Hd. apply Hd.
  rewrite !elem_of_app. left. by right.
Qed.

(** ** How the operations move the address space *)
Section env.
Context `{E : Env}.

Lemma quarantine_begin_map extra i s :
  map_inv extra s → 0 ≤ i < nbos (srv_bo s) → bo_state (srv_bos s i) = V3DA_BO_LIVE →
  map_inv extra (quarantine_begin i s).
Proof.
  intros Hm Hi Hlive.
  destruct (quarantine_begin_spec i s) as (_ & Hb & (En & _) & tlb & fl & Ehw & _).
  unfold srv_bos in Hb, Hlive.
  assert (Hheld : ∀ j, held (bos (srv_bo (quarantine_begin i s)) j) = held (bos (srv_bo s) j)).
  { intros j. rewrite Hb. case_decide as Hij; [|done]. subst j. unfold held, quarantined. simpl. by rewrite Hlive. }
  pose proof Hm as [Hva Hpt]. constructor.
  - rewrite En, (ranges_ext _ (bos (srv_bo s))) by (intros; apply Hheld).
    rewrite Ehw. by apply (va_wf_ext (srv_hw s)).
  - intros p. assert (hw_pt (srv_hw (quarantine_begin i s)) =
      clear_ptes (bo_gpuva (srv_bos s i)) (bo_pages (srv_bos s i)) (hw_pt (srv_hw s))) as -> by (by rewrite Ehw).
    rewrite clear_ptes_get. unfold srv_bos. unfold live_page. rewrite En.
    case_decide as Hc.
    + split; [done|]. intros [(j & Hj & Hst & Hcj)|(h & Hh & Hch)]; exfalso.
      * rewrite Hb in Hst, Hcj. case_decide as Hij; [done|].
        apply (held_disj extra s i j (mkHole (bo_gpuva (bos (srv_bo s) i)) (bo_pages (bos (srv_bo s) i)))
                 (mkHole (bo_gpuva (bos (srv_bo s) j)) (bo_pages (bos (srv_bo s) j))) p);
          try done; unfold held, srv_bos; [by rewrite Hlive|by rewrite Hst].
      * apply (held_extra_disj extra s i (mkHole (bo_gpuva (bos (srv_bo s) i)) (bo_pages (bos (srv_bo s) i))) h p);
          try done. unfold held, srv_bos. by rewrite Hlive.
    + rewrite Hpt. apply or_iff_compat_r. split; intros (j & Hj & Hst & Hcj); exists j.
      * rewrite Hb. case_decide as Hij; [subst j; by unfold covers in Hcj|done].
      * rewrite Hb in Hst, Hcj. case_decide as Hij; done.
Qed.

(** Giving back object [i]'s range. *)
Lemma release_map extra i s s' :
  map_inv extra s → 0 ≤ i < nbos (srv_bo s) → bo_state (srv_bos s i) = V3DA_BO_QUARANTINE →
  nbos (srv_bo s') = nbos (srv_bo s) →
  (∀ j, srv_bos s' j = if decide (i = j) then bo0 else srv_bos s j) →
  srv_hw s' = v3da_hw_va_free (bo_gpuva (srv_bos s i)) (bo_pages (srv_bos s i)) (srv_hw s) →
  map_inv extra s'.
Proof.
  intros [Hva Hpt] Hi Hq En Hb Ehw. unfold srv_bos in *. constructor.
  - rewrite En, Ehw. apply va_free_wf. eapply va_wf_perm; [|exact Hva].
    pose proof (ranges_point (bos (srv_bo s)) (bos (srv_bo s')) _ i Hi) as Hp.
    rewrite Hb in Hp. rewrite (decide_True _ _ (eq_refl i)) in Hp.
    assert (held (bos (srv_bo s) i) = Some (mkHole (bo_gpuva (bos (srv_bo s) i)) (bo_pages (bos (srv_bo s) i)))) as Hh
      by (unfold held; by rewrite Hq).
    rewrite Hh in Hp. change (held bo0) with (@None hole) in Hp. cbn [option_list app] in Hp.
    rewrite app_comm_cons. f_equiv. symmetry. apply Hp. intros j Hne. rewrite Hb. by rewrite decide_False.
  - intros p. rewrite Ehw. assert (hw_pt (v3da_hw_va_free (bo_gpuva (bos (srv_bo s) i)) (bo_pages (bos (srv_bo s) i)) (srv_hw s)) = hw_pt (srv_hw s)) as ->.
    { unfold v3da_hw_va_free. by case_match. }
    rewrite Hpt. apply or_iff_compat_r. unfold live_page. rewrite En.
    split; intros (j & Hj & Hst & Hc); exists j.
    + rewrite Hb. case_decide as Hij; [subst j; congruence|done].
    + rewrite Hb in Hst, Hc. case_decide as Hij; done.
Qed.

Lemma va_alloc_pt hw pages va hw' p :
  v3da_hw_va_alloc hw pages = (va, hw') → hw_pt hw' p = hw_pt hw p ∨ (hw_pt hw' p = 0 ∧ covers (mkHole va pages) p).
Proof.
  unfold v3da_hw_va_alloc. destruct (find_hole _ _) as [[k h]|].
  - case_match; intros; simplify_eq/=; by left.
  - case_match; intros; simplify_eq/=; [by left|]. rewrite clear_ptes_get.
    case_decide; [right; split; [done|]; by unfold covers|by left].
Qed.

(** A new live object in a free slot, at a freshly allocated range. *)
Lemma create_map extra slot pages va hw' ppa b s s' :
  map_inv extra s → 0 ≤ slot ≤ nbos (srv_bo s) → nbos (srv_bo s') = Z.max (nbos (srv_bo s)) (slot + 1) →
  bo_state (srv_bos s slot) = V3DA_BO_FREE → 1 ≤ pages ≤ PT_ENTRIES →
  v3da_hw_va_alloc (srv_hw s) pages = (va, hw') → va ≠ 0 →
  hw_pt (srv_hw s') = map_ptes va pages ppa (hw_pt hw') →
  hw_pt_entries (srv_hw s') = hw_pt_entries hw' → hw_next_gpuva (srv_hw s') = hw_next_gpuva hw' →
  hw_holes (srv_hw s') = hw_holes hw' →
  (∀ j, srv_bos s' j = if decide (slot = j) then b else srv_bos s j) →
  bo_state b = V3DA_BO_LIVE → bo_gpuva b = va → bo_pages b = pages →
  map_inv extra s'.
Proof.
  intros [Hva Hpt] Hs En Hfree Hp Halloc Hnz E1 E2 E3 E4 Hb Hlive Eg Ep. unfold srv_bos in *.
  pose proof (va_alloc_wf _ _ _ Hva Hp) as Hw. rewrite Halloc in Hw.
  destruct Hw as [(-> & _)|(_ & Hw)]; [done|].
  assert (Hheld : held b = Some (mkHole va pages)) by (unfold held; rewrite Hlive, Eg, Ep; done).
  assert (Hr : ranges (bos (srv_bo s')) (nbos (srv_bo s')) ≡ₚ mkHole va pages :: ranges (bos (srv_bo s)) (nbos (srv_bo s))).
  { destruct (decide (slot = nbos (srv_bo s))) as [->|Hne].
    - rewrite En. replace (Z.max _ _) with (nbos (srv_bo s) + 1) by lia. rewrite ranges_S by lia.
      rewrite (ranges_ext _ (bos (srv_bo s))) by (intros j Hj; rewrite Hb; rewrite decide_False by lia; done).
      rewrite Hb, (decide_True _ _ (eq_refl _)), Hheld. simpl. by rewrite Permutation_app_comm.
    - rewrite En. replace (Z.max _ _) with (nbos (srv_bo s)) by lia.
      pose proof (ranges_point (bos (srv_bo s)) (bos (srv_bo s')) (nbos (srv_bo s)) slot ltac:(lia)) as Hpt'.
      assert (held (bos (srv_bo s) slot) = None) as Hh by (unfold held; by rewrite Hfree).
      rewrite Hb, (decide_True _ _ (eq_refl _)), Hheld, Hh in Hpt'.
      apply Hpt'. intros j Hj. rewrite Hb. by rewrite decide_False. }
  constructor.
  - apply (va_wf_perm _ (mkHole va pages :: ranges (bos (srv_bo s)) (nbos (srv_bo s)) ++ extra)).
    + by rewrite Hr.
    + by apply (va_wf_ext hw').
  - intros p. rewrite E1, map_ptes_nz.
    assert (live_page (bos (srv_bo s')) (nbos (srv_bo s')) p ↔
            covers (mkHole va pages) p ∨ live_page (bos (srv_bo s)) (nbos (srv_bo s)) p) as ->.
    { unfold live_page. rewrite En. split.
      - intros (j & Hj & Hst & Hc). rewrite Hb in Hst, Hc. case_decide as Hij.
        + left. by rewrite Eg, Ep in Hc.
        + right. exists j. split_and!; try done; lia.
      - intros [Hc|(j & Hj & Hst & Hc)].
        + exists slot. rewrite Hb, (decide_True _ _ (eq_refl _)), Eg, Ep. split_and!; try done; lia.
        + exists j. rewrite Hb. rewrite decide_False by (intros ->; congruence). split_and!; try done; lia. }
    change (va_page va ≤ p < va_page va + pages) with (covers (mkHole va pages) p).
    pose proof (va_alloc_pt _ _ _ _ p Halloc) as [Heq|[Heq Hc]]; rewrite Heq; [rewrite Hpt; tauto|tauto].
Qed.

(** An allocation that is given straight back, or that fails. *)
Lemma alloc_wf extra s pages va hw' :
  map_inv extra s → 1 ≤ pages ≤ PT_ENTRIES → v3da_hw_va_alloc (srv_hw s) pages = (va, hw') → va = 0 →
  hw' = srv_hw s.
Proof.
  intros [Hva _] Hp Halloc ->. pose proof (va_alloc_wf _ _ _ Hva Hp) as Hw. rewrite Halloc in Hw.
  destruct Hw as [(_ & -> & _)|(? & _)]; [done|lia].
Qed.
End env.
