(* ===== verification/BoShare.v ===== *)
(** Sharing buffer objects (tools/gpu-lane/v3d-async/v3da_bo.c): PRIME import and
    export, the /v3dbuf namespace, and the fences of a shared buffer (BO_LAST_FENCE).

    [v3da_bo_import] drops srv.lock while it maps the exporter's name: it is its two
    locked halves around [between], whatever the other threads do meanwhile. *)
From S2P Require Import Prelude Proto State Hw Fence Bo.

(** ** Import of another server's export (/kmsbuf) *)
Definition import_match (client port id : Z) (b : v3da_bo_t) : bool :=
  bool_decide (bo_state b = V3DA_BO_LIVE) && bo_imported b && (0 <? bo_refs b) &&
  (bo_owner b =? client) && (mr_port (bo_imp_mem b) =? port) && (mr_addr (bo_imp_mem b) =? id).

Definition import_find (client port id : Z) (s : v3da_srv_t) : option Z :=
  find_first (λ i, import_match client port id (srv_bos s i)) 0 (nbos (srv_bo s)).

Definition import_reply (b : v3da_bo_t) : v3da_resp_u :=
  R_bo_create (mkBoCreateResp (bo_handle b) (bo_gpuva b) (u32 (bo_pages b * PAGE_SIZE)) 0 (bo_imp_mem b)).

(** What the calls of [import_map] answer: lookup() of the name, open()'s errno if it
    failed, the size lseek() finds, mmap()'s mapping or errno, malloc(), va2pa(). *)
Record import_env := mkImportEnv {
  ie_lookup : option (Z * Z);
  ie_open_errno : option Z;
  ie_end : Z;
  ie_mmap : Z + Z;                 (* errno, or the mapping *)
  ie_malloc : bool;
  ie_va2pa : Z → Z }.

(** The mapping's address, and the physical page numbers' addresses in order. *)
Record import_map_t := mkImportMap { im_cpu : Z; im_pa : list Z }.
Definition im_pages (m : import_map_t) : Z := Z.of_nat (length (im_pa m)).

Definition import_size (rq : v3da_bo_import_req_t) (iend : Z) : option Z :=
  let size := bi_size rq in
  let checked :=
    if size =? 0 then (if iend <=? 0 then None else Some iend)
    else if (0 <? iend) && (iend <? size) then None else Some size in
  match checked with
  | Some size => if has size (PAGE_SIZE - 1) || (V3DA_IMPORT_MAX_SIZE <? size) then None else Some size
  | None => None
  end.

Definition import_pa_ok (pa : Z) : bool :=
  negb (has pa (PAGE_SIZE - 1)) && (pa <? Z.shiftl 1 (32 + V3D_PAGE_SHIFT)).

Definition import_map (rq : v3da_bo_import_req_t) (ie : import_env) : Z + import_map_t :=
  match ie_lookup ie with
  | None => inl (- ENOENT)
  | Some (port, id) =>
      if negb (port =? bi_port rq) || negb (id =? bi_id rq) then inl (- EINVAL)
      else match ie_open_errno ie with
           | Some e => inl (if negb (e =? 0) then - e else - EIO)
           | None =>
               match import_size rq (ie_end ie) with
               | None => inl (- EINVAL)
               | Some size =>
                   match ie_mmap ie with
                   | inl e => inl (if negb (e =? 0) then - e else - EINVAL)
                   | inr cpu =>
                       if negb (ie_malloc ie) then inl (- ENOMEM)
                       else
                         let pa := map (λ i, ie_va2pa ie (cpu + i * PAGE_SIZE)) (seqZ 0 (size / PAGE_SIZE)) in
                         if forallb import_pa_ok pa then inr (mkImportMap cpu pa) else inl (- EFAULT)
                   end
               end
           end
  end.

(** First locked half: refuse, answer with an import the client already has, or go on
    with the client slot's generation. *)
Inductive import_step :=
  | I_done (rc : Z) (u : v3da_resp_u)
  | I_go (gen : Z).

Definition import_check (client : Z) (rq : v3da_bo_import_req_t) (s : v3da_srv_t) : import_step :=
  if negb (c_used (srv_client s (client - 1))) then I_done (- EBADF) R_none
  else match import_find client (bi_port rq) (bi_id rq) s with
       | Some i => I_done 0 (import_reply (srv_bos s i))
       | None => I_go (slot_gen (srv_cl s) (client - 1))
       end.

(** Second locked half: 0 created, 1 a racing import won, negative refused. *)
Definition import_commit (client : Z) (rq : v3da_bo_import_req_t) (gen : Z) (m : import_map_t)
    (s : v3da_srv_t) : Z * v3da_resp_u * v3da_srv_t :=
  if negb (c_used (srv_client s (client - 1))) || negb (slot_gen (srv_cl s) (client - 1) =? gen)
  then (- EBADF, R_none, s)
  else match import_find client (bi_port rq) (bi_id rq) s with
       | Some i => (1, import_reply (srv_bos s i), s)
       | None =>
           match bo_slot s with
           | None => (- ENOMEM, R_none, s)
           | Some (slot, s') =>
               let pages := im_pages m in
               let '(gpuva, s1) := alloc_va pages s in
               if gpuva =? 0 then (- ENOMEM, R_none, s1)
               else
                 let s := s1 <| srv_bo ; nbos := nbos (srv_bo s') |> in
                 let s := s <| srv_hw ::= λ h,
                     h <| hw_pt ::= map_ptes gpuva pages (λ i, default 0 (im_pa m !! Z.to_nat i)) |>
                       <| hw_pt_gen ::= λ g, g + 1 |> |> in
                 let s := bump_bo_gen slot s in
                 let handle := make_handle (bo_gen (srv_bo s) slot) slot in
                 let b := bo0 <| bo_state := V3DA_BO_LIVE |> <| bo_handle := handle |>
                   <| bo_owner := client |> <| bo_refs := 1 |>
                   <| bo_flags := if bi_cache rq =? V3DA_CACHE_CACHED then V3DA_BO_CACHEABLE else 0 |>
                   <| bo_cpu := im_cpu m |> <| bo_pa := default 0 (im_pa m !! 0%nat) |>
                   <| bo_gpuva := gpuva |> <| bo_pages := pages |> <| bo_imported := true |>
                   <| bo_imp_mem := mkMemref V3DA_MEM_OID (bi_cache rq) (bi_port rq)
                        (pages * PAGE_SIZE) (bi_id rq) |> in
                 let s := set_bo slot (λ _, b) s in
                 (0, import_reply b, s <| srv_bo ; imports ::= λ n, u32 (n + 1) |>)
           end
       end.

(** ** Import of one of this server's exports (/v3dbuf) *)
Definition export_memref (b : v3da_bo_t) (s : v3da_srv_t) : v3da_memref_t :=
  mkMemref V3DA_MEM_OID V3DA_CACHE_UNCACHED (buf_port (srv_bo s)) (bo_pages b * PAGE_SIZE) (bo_handle b).

(** A client holds a BO as its creator or as an importer. *)
Definition bo_held_by (client : Z) (b : v3da_bo_t) : bool :=
  (bo_owner b =? client) || has (bo_sharers b) (client_bit client).

Definition import_v3dbuf (client : Z) (rq : v3da_bo_import_req_t) (s : v3da_srv_t)
    : Z * v3da_resp_u * v3da_srv_t :=
  if negb (c_used (srv_client s (client - 1))) then (- EBADF, R_none, s)
  else if (buf_port (srv_bo s) =? 0) || negb (bi_port rq =? buf_port (srv_bo s)) then (- EINVAL, R_none, s)
  else
    let found := if 0xffffffff <? bi_id rq then None else v3da_bo_find s (bi_id rq) in
    match found with
    | None => (- ENOENT, R_none, s)
    | Some i =>
        let b := srv_bos s i in
        if negb (bo_exported b) then (- ENOENT, R_none, s)
        else if has (bi_size rq) (PAGE_SIZE - 1) || (bo_pages b * PAGE_SIZE <? bi_size rq)
        then (- EINVAL, R_none, s)
        else
          let s := if bo_held_by client b then s
                   else set_bo i (λ b, b <| bo_sharers ::= λ m, Z.lor m (client_bit client) |>
                                         <| bo_refs ::= λ r, u32 (r + 1) |>) s in
          (0, R_bo_create (mkBoCreateResp (bo_handle b) (bo_gpuva b) (u32 (bo_pages b * PAGE_SIZE)) 0
                (export_memref b s)), s)
    end.

Section env.
Context `{E : Env}.

Definition v3da_bo_import (client : Z) (rq : v3da_bo_import_req_t) (ie : import_env)
    (between : v3da_srv_t → v3da_srv_t) (s : v3da_srv_t) : Z * v3da_resp_u * v3da_srv_t :=
  if negb (bi_pad rq =? 0) || (client <? 1) || (V3DA_MAX_CLIENTS <? client) then (- EINVAL, R_none, s)
  else if bi_ns rq =? V3DA_IMPORT_NS_V3DBUF then import_v3dbuf client rq s
  else if negb (bi_ns rq =? V3DA_IMPORT_NS_KMSBUF) || (V3DA_CACHE_UNCACHED <? bi_cache rq)
  then (- EINVAL, R_none, s)
  else match import_check client rq s with
       | I_done rc u => (rc, u, s)
       | I_go gen =>
           match import_map rq ie with
           | inl rc => (rc, R_none, between s)
           | inr m =>
               let '(rc, u, s) := import_commit client rq gen m (between s) in
               let s := if negb (rc =? 0) then emit (E_munmap (im_cpu m) (im_pages m * PAGE_SIZE)) s else s in
               (if rc =? 1 then 0 else rc, u, s)
           end
       end.

(** ** Export *)
Definition v3da_bo_export (client handle : Z) (s : v3da_srv_t) : Z * v3da_resp_u * v3da_srv_t :=
  match v3da_bo_find s handle with
  | None => (- ENOENT, R_none, s)
  | Some i =>
      let b := srv_bos s i in
      if negb (bo_held_by client b) then (- ENOENT, R_none, s)
      else if bo_imported b || (0 <? bo_scanout b) || has (bo_flags b) V3DA_BO_CACHEABLE
      then (- EINVAL, R_none, s)
      else if buf_port (srv_bo s) =? 0 then (- ENODEV, R_none, s)
      else
        let reply s := R_bo (mkBoResp (bo_gpuva b) (u32 (bo_pages b * PAGE_SIZE)) (export_memref b s)) in
        if bo_exported b then (0, reply s, s)
        else
          let rc := env_export (cursor s) in
          let s := emit (E_export (buf_port (srv_bo s)) (bo_handle b) (bo_cpu b) (bo_pages b * PAGE_SIZE)) (tick s) in
          if negb (rc =? 0) then (if rc <? 0 then rc else - EIO, R_none, s)
          else
            let s := set_bo i (λ b, b <| bo_exported := true |>) s in
            let s := s <| srv_bo ; exports ::= λ n, u32 (n + 1) |> in
            (0, reply s, s)
  end.

Definition bo_by_export (s : v3da_srv_t) (id : Z) : option Z :=
  match (if negb (id =? 0) && (id <=? 0xffffffff) then bo_lookup s id else None) with
  | Some i => if bo_exported (srv_bos s i) && (0 <? bo_refs (srv_bos s i)) then Some i else None
  | None => None
  end.

(** ** The /v3dbuf namespace: one message, answered under the lock *)
Inductive bufns_msg :=
  | B_lookup (data : option (list Z))       (* the name's bytes, NULL allowed *)
  | B_getattr_mode (id : Z) | B_getattr_type (id : Z) | B_getattr_size (id : Z) | B_getattr_other (id : Z)
  | B_getattr_all (id : Z) (room : bool)    (* the reply buffer holds a _attrAll *)
  | B_open (id : Z) | B_close (id : Z)
  | B_other.

Inductive bufns_val := BV_none | BV_oid (port id : Z) | BV_dir | BV_dev | BV_size (bytes : Z)
  | BV_attrs (dir : bool) (bytes : Z).

(** strnlen(data): the bytes before the first NUL. *)
Fixpoint until_nul (l : list Z) : list Z :=
  match l with
  | [] => []
  | c :: l => if c =? 0 then [] else c :: until_nul l
  end.

(** strtoull on a name whose first byte is a digit 1-9 and whose last is a digit. *)
Definition is_digit (c : Z) : bool := (48 <=? c) && (c <=? 57).
Definition decimal (l : list Z) : Z := foldl (λ a c, a * 10 + (c - 48)) 0 l.

Definition bufns_name_id (name : list Z) : option Z :=
  match name with
  | [] => None
  | c :: _ =>
      if forallb is_digit name && (49 <=? c) && (c <=? 57)
      then Some (Z.min (decimal name) (2 ^ 64 - 1)) else None
  end.

Definition bufns_handle (msg : bufns_msg) (s : v3da_srv_t) : Z * bufns_val * v3da_srv_t :=
  match msg with
  | B_lookup data =>
      let name := match data with Some l => until_nul l | None => [] end in
      let len := Z.of_nat (length name) in
      if (len =? 0) || (24 <=? len) then (- ENOENT, BV_none, s)
      else match bufns_name_id name with
           | Some id =>
               match bo_by_export s id with
               | Some _ => (len, BV_oid (buf_port (srv_bo s)) id, s)
               | None => (- ENOENT, BV_none, s)
               end
           | None => (- ENOENT, BV_none, s)
           end
  | B_getattr_mode id | B_getattr_type id => (0, if id =? 0 then BV_dir else BV_dev, s)
  | B_getattr_size id =>
      if id =? 0 then (- ENOENT, BV_none, s)
      else match bo_by_export s id with
           | Some i => (0, BV_size (bo_pages (srv_bos s i) * PAGE_SIZE), s)
           | None => (- ENOENT, BV_size 0, s)
           end
  | B_getattr_other _ => (- ENOENT, BV_none, s)
  | B_getattr_all id room =>
      let answer v := if room then (0, v, s) else (- EINVAL, BV_none, s) in
      if id =? 0 then answer (BV_attrs true 0)
      else match bo_by_export s id with
           | Some i => answer (BV_attrs false (bo_pages (srv_bos s i) * PAGE_SIZE))
           | None => (- ENOENT, BV_none, s)
           end
  | B_open id =>
      if id =? 0 then (0, BV_none, s)
      else match bo_by_export s id with
           | None => (- ENOENT, BV_none, s)
           | Some i => (0, BV_none, set_bo i (λ b, b <| bo_fd_opens ::= λ n, u32 (n + 1) |>
                                                     <| bo_refs ::= λ n, u32 (n + 1) |>) s)
           end
  | B_close id =>
      let found := if negb (id =? 0) && (id <=? 0xffffffff) then bo_lookup s id else None in
      match found with
      | None => (0, BV_none, s)
      | Some i =>
          if 0 <? bo_fd_opens (srv_bos s i) then
            let s := set_bo i (λ b, b <| bo_fd_opens ::= λ n, n - 1 |>) s in
            (0, BV_none, v3da_bo_quarantine_poll (bo_unref i s))
          else (0, BV_none, s)
      end
  | B_other => (- ENOSYS, BV_none, s)
  end.

(** ** Cross-process implicit sync *)
Definition sync_target_kms (port id : Z) (b : v3da_bo_t) : bool :=
  bool_decide (bo_state b = V3DA_BO_LIVE) && bo_imported b && (0 <? bo_refs b) &&
  (mr_port (bo_imp_mem b) =? port) && (mr_addr (bo_imp_mem b) =? id).

(** The BOs a request names, or a negative errno. *)
Definition v3da_bo_sync_targets (client : Z) (rq : v3da_bo_sync_req_t) (max : Z) (s : v3da_srv_t)
    : Z + list Z :=
  if negb (bs_flags rq =? 0) || (max =? 0) then inl (- EINVAL)
  else if bs_ns rq =? V3DA_BO_SYNC_HANDLE then
    match v3da_bo_find s (bs_handle rq) with
    | Some i => if bo_held_by client (srv_bos s i) then inr [i] else inl (- ENOENT)
    | None => inl (- ENOENT)
    end
  else if bs_ns rq =? V3DA_IMPORT_NS_V3DBUF then
    if (buf_port (srv_bo s) =? 0) || negb (bs_port rq =? buf_port (srv_bo s)) then inl (- EINVAL)
    else match bo_by_export s (bs_id rq) with
         | Some i => inr [i]
         | None => inl (- ENOENT)
         end
  else if bs_ns rq =? V3DA_IMPORT_NS_KMSBUF then
    inr (take (Z.to_nat max)
           (List.filter (λ i, sync_target_kms (bs_port rq) (bs_id rq) (srv_bos s i)) (seqZ 0 (nbos (srv_bo s)))))
  else inl (- EINVAL).

(** A candidate fence and the submission that made it. *)
Definition cand := (v3da_fence_t * Z)%type.

Fixpoint cand_merge (l : list cand) (f : v3da_fence_t) (g : Z) : option (list cand) :=
  match l with
  | [] => None
  | c :: l =>
      if same_timeline c.1 f
      then Some ((if f_seqno c.1 <? f_seqno f then (f, g) else c) :: l)
      else cons c <$> cand_merge l f g
  end.

Definition NCAND := 24.

Definition cand_add (s : v3da_srv_t) (f : v3da_fence_t) (g : Z) (acc : list cand * bool) : list cand * bool :=
  if (f_seqno f =? 0) || signaled s f then acc
  else match cand_merge acc.1 f g with
       | Some l => (l, acc.2)
       | None => if Z.of_nat (length acc.1) <? NCAND then (acc.1 ++ [(f, g)], acc.2) else (acc.1, true)
       end.

Definition cand_collect (s : v3da_srv_t) (targets : list Z) : list cand * bool :=
  foldl (λ acc i, for_ 0 V3DA_Q_COUNT
    (λ qu, cand_add s (bo_last (srv_bos s i) qu) (bo_last_gseq (srv_bos s i) qu)) acc) ([], false) targets.

(** The first position of the largest submission number. *)
Fixpoint newest (l : list cand) (i best : nat) (g : Z) : nat :=
  match l with
  | [] => best
  | c :: l => if g <? c.2 then newest l (S i) i c.2 else newest l (S i) best g
  end.

(** [n] rounds of selection: the newest remaining candidate, swapped to the front. *)
Fixpoint select_newest (n : nat) (l : list cand) : list cand :=
  match n, l with
  | S n, c :: rest =>
      match newest rest 1 0 c.2 with
      | O => c :: select_newest n rest
      | S k => match rest !! k with
               | Some b => b :: select_newest n (<[k := c]> rest)
               | None => c :: select_newest n rest
               end
      end
  | _, _ => []
  end.

Definition v3da_bo_last_fence (client : Z) (rq : v3da_bo_sync_req_t) (s : v3da_srv_t)
    : Z * v3da_resp_u * v3da_srv_t :=
  match v3da_bo_sync_targets client rq V3DA_MAX_CLIENTS s with
  | inl rc => (rc, R_none, s)
  | inr targets =>
      let '(cands, more) := cand_collect s targets in
      let out := map fst (select_newest (Z.to_nat V3DA_BO_FENCES_MAX) cands) in
      let count := Z.of_nat (length out) in
      let flags := if more || (V3DA_BO_FENCES_MAX <? Z.of_nat (length cands)) then V3DA_BO_FENCES_MORE else 0 in
      let s := s <| srv_st ; g6_queries ::= λ n, u32 (n + 1) |> in
      let s := if negb (count =? 0) then s <| srv_st ; g6_pending ::= λ n, u32 (n + 1) |> else s in
      (0, R_bo_fences (mkBoFencesResp count flags out), s)
  end.
End env.
