(* ===== verification/BoSteps.v ===== *)
(** Every operation on buffer objects keeps the table and address-space invariants: the
    operations as a step relation, and what holds in every reachable state. *)
From S2P Require Import Prelude Proto State Lowmem Hw Fence Bo BoInv BoMap BoShare.

(** ** The sharer mask *)
Lemma client_bit_valid c : 1 ≤ c ≤ V3DA_MAX_CLIENTS → client_bit c = Z.shiftl 1 (c - 1).
Proof.
  intros Hc. unfold client_bit. replace (1 <=? c) with true by lia.
  by replace (c <=? V3DA_MAX_CLIENTS) with true by lia.
Qed.

Lemma shiftl1_testbit n i : 0 ≤ n → 0 ≤ i → Z.testbit (Z.shiftl 1 n) i = (n =? i).
Proof.
  intros Hn Hi. rewrite Z.shiftl_1_l. rewrite Z.pow2_bits_eqb by done. done.
Qed.

Lemma has_bit m n : 0 ≤ n → has m (Z.shiftl 1 n) = Z.testbit m n.
Proof.
  intros Hn. unfold has. destruct (Z.testbit m n) eqn:Hb.
  - apply negb_true_iff, Z.eqb_neq. intros H0.
    assert (Z.testbit (Z.land m (Z.shiftl 1 n)) n = true) as Hc.
    { rewrite Z.land_spec, Hb, shiftl1_testbit, Z.eqb_refl by done. done. }
    rewrite H0, Z.bits_0 in Hc. done.
  - apply negb_false_iff, Z.eqb_eq. apply Z.bits_inj_0. intros i.
    destruct (Z_lt_ge_dec i 0); [by apply Z.testbit_neg_r|].
    rewrite Z.land_spec, shiftl1_testbit by lia.
    destruct (Z.eqb_spec n i); [subst; by rewrite Hb|by rewrite andb_false_r].
Qed.

Lemma has_client_bit m c : has m (client_bit c) = true → 1 ≤ c ≤ V3DA_MAX_CLIENTS ∧ Z.testbit m (c - 1) = true.
Proof.
  unfold client_bit. destruct ((1 <=? c) && (c <=? V3DA_MAX_CLIENTS)) eqn:Hc.
  - intros H. zify_bools. rewrite has_bit in H by lia. split; [lia|done].
  - unfold has. by rewrite Z.land_0_r.
Qed.

Lemma sharer_count_point m m' c :
  1 ≤ c ≤ V3DA_MAX_CLIENTS → (∀ i, 0 ≤ i → i ≠ c - 1 → Z.testbit m' i = Z.testbit m i) →
  sharer_count m' = sharer_count m - b2z (Z.testbit m (c - 1)) + b2z (Z.testbit m' (c - 1)).
Proof.
  intros Hc Hi. unfold sharer_count.
  rewrite (countZ_ext (Z.testbit m') (λ i, if decide (i = c - 1) then Z.testbit m' i else Z.testbit m i)).
  - rewrite (countZ_point (Z.testbit m) _ _ (c - 1)); [|lia|intros j Hj; by rewrite decide_False].
    by rewrite (decide_True _ _ (eq_refl (c - 1))).
  - intros i Hr. case_decide; [done|]. apply Hi; [lia|done].
Qed.

Lemma sharer_drop m c :
  has m (client_bit c) = true → sharer_count (Z.ldiff m (client_bit c)) = sharer_count m - 1.
Proof.
  intros [Hc Hb]%has_client_bit. rewrite client_bit_valid by done.
  rewrite (sharer_count_point m _ c) by (lia || (intros i H0 Hi; rewrite Z.ldiff_spec, shiftl1_testbit by lia;
    replace (c - 1 =? i) with false by lia; apply andb_true_r)).
  rewrite Z.ldiff_spec, shiftl1_testbit, Z.eqb_refl, Hb by lia. simpl. lia.
Qed.

Lemma sharer_add m c :
  1 ≤ c ≤ V3DA_MAX_CLIENTS → has m (client_bit c) = false →
  sharer_count (Z.lor m (client_bit c)) = sharer_count m + 1.
Proof.
  intros Hc Hb. rewrite client_bit_valid in * by done. rewrite has_bit in Hb by lia.
  rewrite (sharer_count_point m _ c) by (lia || (intros i H0 Hi; rewrite Z.lor_spec, shiftl1_testbit by lia;
    replace (c - 1 =? i) with false by lia; apply orb_false_r)).
  rewrite Z.lor_spec, shiftl1_testbit, Z.eqb_refl, Hb by lia. simpl. lia.
Qed.

Lemma sharer_count_bounds m : 0 ≤ sharer_count m ≤ V3DA_MAX_CLIENTS.
Proof. unfold sharer_count. split; [apply countZ_nonneg|by apply countZ_le]. Qed.

Lemma ldiff_nonneg m b : 0 ≤ m → 0 ≤ Z.ldiff m b.
Proof. intros. apply Z.ldiff_nonneg. by left. Qed.
Lemma lor_client_bit_nonneg m c : 0 ≤ m → 0 ≤ Z.lor m (client_bit c).
Proof.
  intros. apply Z.lor_nonneg. split; [done|]. unfold client_bit. case_match eqn:E; [|done].
  zify_bools. apply Z.shiftl_nonneg. lia.
Qed.

(** ** The invariant *)
Record bo_inv (extra : list hole) (skip : option Z) (s : v3da_srv_t) : Prop := mkBoInv {
  bi_table : table_inv skip s;
  bi_map : map_inv extra s }.

Section env.
Context `{E : Env}.

Lemma bo_inv_ext extra skip s s' :
  srv_bo s' = srv_bo s → srv_hw s' = srv_hw s → bo_inv extra skip s → bo_inv extra skip s'.
Proof.
  intros Eb Eh [Ht Hm]. split; [by apply (table_inv_ext _ s)|].
  apply (map_inv_ext _ s); [|done]. unfold same_map, srv_bos. rewrite Eb, Eh. split_and!; done.
Qed.

Lemma map_inv_set_bo extra i f s :
  map_inv extra s → bo_state (f (srv_bos s i)) = bo_state (srv_bos s i) →
  bo_gpuva (f (srv_bos s i)) = bo_gpuva (srv_bos s i) → bo_pages (f (srv_bos s i)) = bo_pages (srv_bos s i) →
  map_inv extra (set_bo i f s).
Proof.
  intros Hm E1 E2 E3. apply (map_inv_ext _ s); [|done].
  unfold same_map. split_and!; try done. intros j. rewrite !set_bo_bos. case_decide; [by subst|done].
Qed.

Lemma export_withdraw_map extra i s : map_inv extra s → map_inv extra (export_withdraw i s).
Proof.
  intros Hm. destruct (export_withdraw_tab i s) as (En & _ & _ & _ & _ & _ & _ & Eh & _).
  apply (map_inv_ext _ s); [|done]. unfold same_map. rewrite Eh, En. split_and!; try done.
  intros j. rewrite export_withdraw_bos. case_decide; [by subst|done].
Qed.

(** Quarantining an unreferenced, unpinned object. *)
Lemma quarantine_begin_inv extra i s :
  bo_inv extra (Some i) s → 0 ≤ i < nbos (srv_bo s) → bo_state (srv_bos s i) = V3DA_BO_LIVE →
  bo_refs (srv_bos s i) = 0 → bo_inflight (srv_bos s i) = 0 → bo_sane (srv_bos s i) →
  bo_inv extra None (quarantine_begin i s).
Proof.
  intros [Ht Hm] Hi Hst Hr Hf Hs. split; [|by apply quarantine_begin_map].
  destruct (quarantine_begin_spec i s) as (_ & Hb & (En & Eg & Ei & El & Elb & _ & _ & Ee) & _).
  apply (table_inv_set None i (quarantined s (srv_bos s i)) s); try done.
  - rewrite Ee, (export_withdraw_exports i s (Some i)) by done. simpl. lia.
  - rewrite Ei. simpl. lia.
  - rewrite El. unfold low_bytes. simpl. lia.
  - rewrite El, Elb. apply Ht.
  - right. split; [done|]. unfold bo_local. simpl. split_and!; try done.
    destruct Hs as (? & ? & ? & ? & Himp & ?). unfold bo_sane. simpl.
    split_and!; try done; try lia. intros Hx. by destruct (Himp Hx).
Qed.

(** Dropping the reference of a holder that has just been taken off. *)
Lemma bo_unref_inv extra i s :
  bo_inv extra (Some i) s → 0 ≤ i < nbos (srv_bo s) → bo_state (srv_bos s i) = V3DA_BO_LIVE →
  bo_handle (srv_bos s i) = make_handle (bo_gen (srv_bo s) i) i →
  bo_refs (srv_bos s i) = holders (srv_bos s i) + 1 → bo_sane (srv_bos s i) →
  bo_inv extra None (bo_unref i s).
Proof.
  intros [Ht Hm] Hi Hst Hh Hr Hs. unfold bo_unref.
  assert (0 ≤ holders (srv_bos s i)) as Hpos.
  { destruct Hs as (? & ? & ? & _). unfold holders. pose proof (sharer_count_bounds (bo_sharers (srv_bos s i))).
    destruct (negb _); simpl; lia. }
  set (f := λ b : v3da_bo_t, b <| bo_refs ::= λ r, if 0 <? r then r - 1 else r |>).
  set (s1 := set_bo i f s).
  assert (Hb1 : srv_bos s1 i = srv_bos s i <| bo_refs := holders (srv_bos s i) |>).
  { unfold s1. rewrite set_bo_eq. unfold f. simpl. rewrite Hr.
    replace (0 <? holders (srv_bos s i) + 1) with true by lia.
    by replace (holders (srv_bos s i) + 1 - 1) with (holders (srv_bos s i)) by lia. }
  assert (bo_inv extra (Some i) s1) as [Ht1 Hm1].
  { split; [by apply table_inv_set_bo|by apply map_inv_set_bo]. }
  assert (nbos (srv_bo s1) = nbos (srv_bo s)) as En1 by done.
  destruct (bo_refs (srv_bos s1 i) =? 0) eqn:E0; zify_bools.
  - set (s2 := export_withdraw i s1).
    destruct (export_withdraw_tab i s1) as (En2 & Eg2 & _).
    assert (Hb2 : srv_bos s2 i = srv_bos s1 i <| bo_exported := false |>).
    { unfold s2. rewrite export_withdraw_bos. by rewrite decide_True. }
    assert (bo_inv extra (Some i) s2) as Hinv2.
    { split; [by apply export_withdraw_inv|by apply export_withdraw_map]. }
    assert (bo_sane (srv_bos s2 i)) as Hs2.
    { destruct Hs as (? & ? & ? & ? & Himp & ?). unfold bo_sane. rewrite Hb2, Hb1. simpl.
      split_and!; try done; try lia. intros Hx. by destruct (Himp Hx). }
    destruct (bo_inflight (srv_bos s2 i) =? 0) eqn:Ef; zify_bools.
    + apply quarantine_begin_inv; try done.
      * change (nbos (srv_bo s2)) with (nbos (srv_bo (export_withdraw i s1))). by rewrite En2.
      * by rewrite Hb2, Hb1.
      * by rewrite Hb2.
    + destruct Hinv2 as [Ht2 Hm2]. split; [|done]. apply (table_inv_settle i); [done|].
      assert (bo_gen (srv_bo s2) = bo_gen (srv_bo s)) as -> by (unfold s2; rewrite Eg2; done).
      assert (0 ≤ bo_inflight (srv_bos s2 i)) by apply Hs2.
      apply bo_local_live; [by rewrite Hb2, Hb1|]. rewrite Hb2, Hb1 in *.
      split_and!; try done. intros _. split; [done|]. lia.
  - split; [|done]. apply (table_inv_settle i); [done|].
    apply bo_local_live; [by rewrite Hb1|]. rewrite Hb1 in *. split_and!; try done.
Qed.

(** ** Leaving quarantine *)
Lemma footprint_nonneg pages : 1 ≤ pages ≤ PT_ENTRIES → 0 ≤ v3da_lowmem_footprint pages PAGE_SIZE.
Proof.
  intros Hp. pose proof PT_ENTRIES_val.
  destruct (footprint_terminates pages PAGE_SIZE) as (k & Hk & -> & _); unfold PAGE_SIZE in *; lia.
Qed.

Lemma low_bytes_nonneg b : bo_sane b → 0 ≤ low_bytes b.
Proof. intros (_ & _ & _ & _ & _ & Hp). unfold low_bytes. case_match; [by apply footprint_nonneg|done]. Qed.

Lemma block_put_bo cpu pa pages cached s :
  let t := srv_bo s in let t' := srv_bo (block_put cpu pa pages cached s) in
  bos t' = bos t ∧ nbos t' = nbos t ∧ bo_gen t' = bo_gen t ∧ imports t' = imports t ∧
  exports t' = exports t ∧ low_live t' = low_live t ∧ low_budget t' = low_budget t ∧
  buf_port t' = buf_port t ∧ srv_hw (block_put cpu pa pages cached s) = srv_hw s.
Proof. unfold block_put. case_match; split_and!; reflexivity. Qed.

Lemma quarantine_release_bos i s j :
  srv_bos (quarantine_release i s) j = if decide (i = j) then bo0 else srv_bos s j.
Proof.
  unfold quarantine_release. set (s1 := if bo_imported _ then _ else _).
  assert (bos (srv_bo s1) = bos (srv_bo s)) as E1.
  { unfold s1. case_match; [done|]. by rewrite (proj1 (block_put_bo _ _ _ _ _)); case_match. }
  change (srv_bos (set_bo i (λ _, bo0) (s1 <| srv_hw ::= v3da_hw_va_free (bo_gpuva (srv_bos s i)) (bo_pages (srv_bos s i)) |>)) j =
    (if decide (i = j) then bo0 else srv_bos s j)).
  rewrite set_bo_bos. case_decide; [done|]. unfold srv_bos. cbn. by rewrite E1.
Qed.

Lemma quarantine_release_tab i s :
  let t := srv_bo s in let t' := srv_bo (quarantine_release i s) in let b := srv_bos s i in
  nbos t' = nbos t ∧ bo_gen t' = bo_gen t ∧ exports t' = exports t ∧ low_budget t' = low_budget t ∧
  buf_port t' = buf_port t ∧
  imports t' = (if bo_imported b then u32 (imports t - 1) else imports t) ∧
  low_live t' = low_live t - (if bo_imported b then 0 else low_bytes b) ∧
  srv_hw (quarantine_release i s) = v3da_hw_va_free (bo_gpuva b) (bo_pages b) (srv_hw s).
Proof.
  cbv zeta. unfold quarantine_release, low_bytes. destruct (bo_imported (srv_bos s i)).
  - cbn. split_and!; try reflexivity. lia.
  - set (s1 := if bo_low (srv_bos s i) then _ else _).
    pose proof (block_put_bo (bo_cpu (srv_bos s i)) (bo_pa (srv_bos s i)) (bo_pages (srv_bos s i))
      (has (bo_flags (srv_bos s i)) V3DA_BO_CACHEABLE) s1) as H. cbv zeta in H. destruct_and!.
    set (s2 := block_put _ _ _ _ s1) in *. clearbody s2.
    assert (nbos (srv_bo s1) = nbos (srv_bo s) ∧ bo_gen (srv_bo s1) = bo_gen (srv_bo s) ∧
      exports (srv_bo s1) = exports (srv_bo s) ∧ low_budget (srv_bo s1) = low_budget (srv_bo s) ∧
      imports (srv_bo s1) = imports (srv_bo s) ∧ buf_port (srv_bo s1) = buf_port (srv_bo s) ∧
      low_live (srv_bo s1) = low_live (srv_bo s) - (if bo_low (srv_bos s i) then v3da_lowmem_footprint (bo_pages (srv_bos s i)) PAGE_SIZE else 0) ∧
      srv_hw s1 = srv_hw s) as Hs1.
    { unfold s1. case_match; split_and!; try reflexivity. cbn -[v3da_lowmem_footprint]. lia. }
    set (fp := v3da_lowmem_footprint _ _) in *. clearbody fp.
    destruct_and!. cbn. split_and!; try congruence; try (simplify_eq; congruence).
    all: etrans; [eassumption|]; case_match; lia.
Qed.

Lemma quarantine_release_inv extra i s :
  bo_inv extra None s → 0 ≤ i < nbos (srv_bo s) → bo_state (srv_bos s i) = V3DA_BO_QUARANTINE →
  bo_inv extra None (quarantine_release i s).
Proof.
  intros [Ht Hm] Hi Hq.
  pose proof (quarantine_release_tab i s) as H. cbv zeta in H. destruct H as (En & Eg & Ee & Elb & _ & Ei & El & Eh).
  assert (bo_local (bo_gen (srv_bo s)) i (srv_bos s i)) as Hloc by (apply Ht; [done|done]).
  unfold bo_local in Hloc. rewrite Hq in Hloc. destruct Hloc as (Hx & Hr & Hf & Hs).
  split.
  - apply (table_inv_set None i bo0 s); try done.
    + by apply table_inv_skip.
    + apply quarantine_release_bos.
    + rewrite Ee, Hx. simpl. lia.
    + rewrite Ei. destruct (bo_imported (srv_bos s i)) eqn:Eimp; simpl; [|lia].
      rewrite u32_small; [lia|]. pose proof (imports_bounds s None Ht).
      destruct Ht as [_ _ _ _ _ Hcount _ _].
      pose proof (countZ_ge (λ i, bo_imported (srv_bos s i)) 0 (nbos (srv_bo s)) i Hi Eimp).
      unfold V3DA_MAX_BOS in *. lia.
    + rewrite El. unfold low_bytes. simpl. destruct (bo_imported (srv_bos s i)) eqn:Eimp; [|lia].
      destruct Hs as (_ & _ & _ & _ & Himp & _). destruct (Himp Eimp) as [_ ->]. lia.
    + rewrite El, Elb. pose proof (ti_budget _ _ Ht). case_match; [lia|].
      pose proof (low_bytes_nonneg _ Hs). lia.
    + right. done.
  - apply (release_map extra i s); try done. apply quarantine_release_bos.
Qed.

Lemma quarantine_passed_state s b : quarantine_passed s b = true → bo_state b = V3DA_BO_QUARANTINE.
Proof. unfold quarantine_passed. intros [[H _]%andb_true_iff _]%andb_true_iff. by apply bool_decide_eq_true in H. Qed.

Lemma quarantine_poll_one_inv extra i s :
  bo_inv extra None s → 0 ≤ i < nbos (srv_bo s) → bo_inv extra None (quarantine_poll_one i s).
Proof.
  intros Hinv Hi. unfold quarantine_poll_one. destruct (quarantine_passed s (srv_bos s i)) eqn:Ep; [|done].
  apply quarantine_release_inv; [done|done|]. by eapply quarantine_passed_state.
Qed.

Lemma quarantine_poll_one_n i s : nbos (srv_bo (quarantine_poll_one i s)) = nbos (srv_bo s).
Proof. unfold quarantine_poll_one. case_match; [|done]. apply quarantine_release_tab. Qed.

Lemma quarantine_poll_inv extra s : bo_inv extra None s → bo_inv extra None (v3da_bo_quarantine_poll s).
Proof.
  intros Hinv. unfold v3da_bo_quarantine_poll.
  apply (for_inv (λ s', bo_inv extra None s' ∧ nbos (srv_bo s') = nbos (srv_bo s))); [done|].
  intros i s' Hi [H1 H2]. rewrite quarantine_poll_one_n. split; [|done].
  apply quarantine_poll_one_inv; [done|lia].
Qed.

(** ** Pins *)
Lemma bo_inv_live_set extra i f s :
  bo_inv extra None s → 0 ≤ i < nbos (srv_bo s) → bo_state (srv_bos s i) = V3DA_BO_LIVE →
  bo_state (f (srv_bos s i)) = bo_state (srv_bos s i) →
  bo_gpuva (f (srv_bos s i)) = bo_gpuva (srv_bos s i) → bo_pages (f (srv_bos s i)) = bo_pages (srv_bos s i) →
  bo_exported (f (srv_bos s i)) = bo_exported (srv_bos s i) →
  bo_imported (f (srv_bos s i)) = bo_imported (srv_bos s i) →
  bo_low (f (srv_bos s i)) = bo_low (srv_bos s i) →
  bo_local (bo_gen (srv_bo s)) i (f (srv_bos s i)) →
  bo_inv extra None (set_bo i f s).
Proof.
  intros [Ht Hm] Hi Hst E1 E2 E3 E4 E5 E6 Hloc. split; [|by apply map_inv_set_bo].
  apply (table_inv_settle i).
  - apply table_inv_set_bo; try done; [by apply table_inv_skip|]. unfold low_bytes. by rewrite E6, E3.
  - rewrite set_bo_eq. done.
Qed.

Lemma live_local extra s i :
  bo_inv extra None s → 0 ≤ i < nbos (srv_bo s) → bo_state (srv_bos s i) = V3DA_BO_LIVE →
  bo_handle (srv_bos s i) = make_handle (bo_gen (srv_bo s) i) i ∧ bo_refs (srv_bos s i) = holders (srv_bos s i) ∧
  bo_sane (srv_bos s i) ∧ (bo_refs (srv_bos s i) = 0 → bo_exported (srv_bos s i) = false ∧ 0 < bo_inflight (srv_bos s i)).
Proof. intros [Ht _] Hi Hst. apply bo_local_live; [done|]. apply Ht; done. Qed.

Lemma unpin_one_inv extra h s :
  bo_inv extra None s → 0 ≤ h → bo_inv extra None (unpin_one s h).
Proof.
  intros Hinv Hh. unfold unpin_one. destruct (bo_lookup s h) as [i|] eqn:El; [|done].
  pose proof (bo_lookup_range _ _ _ Hh El) as Hi. apply bo_lookup_Some in El as (_ & _ & Hst & _).
  destruct (live_local _ _ _ Hinv Hi Hst) as (Hhd & Hr & Hs & Hz).
  set (f := λ b : v3da_bo_t, b <| bo_inflight ::= λ n, if 0 <? n then n - 1 else n |>).
  set (s1 := set_bo i f s).
  assert (Hb1 : srv_bos s1 i = f (srv_bos s i)) by apply set_bo_eq.
  destruct Hs as (? & ? & ? & ? & ? & ?).
  assert (bo_sane (srv_bos s1 i)) as Hs1.
  { rewrite Hb1. unfold bo_sane, f. simpl. split_and!; try done; try lia. case_match; lia. }
  destruct ((bo_refs (srv_bos s1 i) =? 0) && (bo_inflight (srv_bos s1 i) =? 0)) eqn:Ez.
  - zify_bools. destruct Hinv as [Ht Hm]. apply quarantine_begin_inv; try done.
    + split; [|by apply map_inv_set_bo]. apply table_inv_set_bo; try done. by apply table_inv_skip.
    + by rewrite Hb1.
  - apply bo_inv_live_set; try done. apply bo_local_live; [done|].
    rewrite Hb1 in *. unfold f in *. simpl in *. split_and!; try done.
    intros Hr0. destruct (Hz Hr0) as [Hx Hf]. split; [done|]. rewrite Hr0 in Ez. simpl in Ez. zify_bools.
    destruct (0 <? bo_inflight (srv_bos s i)) eqn:E0; zify_bools; lia.
Qed.

Lemma unpin_inv extra hs s :
  bo_inv extra None s → Forall (Z.le 0) hs → bo_inv extra None (v3da_bo_unpin hs s).
Proof.
  unfold v3da_bo_unpin. revert s. induction hs as [|h hs IH]; intros s Hinv Hall; [done|].
  apply Forall_cons in Hall as [? ?]. simpl. apply IH; [|done]. by apply unpin_one_inv.
Qed.

Lemma mark_use_inv extra hs f g s :
  bo_inv extra None s → Forall (Z.le 0) hs → bo_inv extra None (v3da_bo_mark_use hs f g s).
Proof.
  unfold v3da_bo_mark_use. revert s. induction hs as [|h hs IH]; intros s Hinv Hall; [done|].
  apply Forall_cons in Hall as [Hh ?]. simpl. apply IH; [|done].
  destruct (bo_lookup s h) as [i|] eqn:El; [|done]. case_match; [|done].
  pose proof (bo_lookup_range _ _ _ Hh El) as Hi. apply bo_lookup_Some in El as (_ & _ & Hst & _).
  pose proof (live_local _ _ _ Hinv Hi Hst).
  apply bo_inv_live_set; try done. by apply bo_local_live.
Qed.
End env.
