(* ===== verification/BoReach.v ===== *)
(** Requests on buffer objects keep the invariant; the step relation that the server's
    threads drive the table with, and what holds in every state it reaches. *)
From S2P Require Import Prelude Proto State Lowmem Hw Fence Bo BoInv BoMap BoShare.
From S2P Require Import BoSteps.

Section env.
Context `{E : Env}.

(** ** Pins of a submitted job *)
Lemma set_inflight_inv extra i g s :
  bo_inv extra None s → 0 ≤ i < nbos (srv_bo s) → bo_state (srv_bos s i) = V3DA_BO_LIVE →
  0 < bo_refs (srv_bos s i) → 0 ≤ g (bo_inflight (srv_bos s i)) →
  bo_inv extra None (set_bo i (λ b, b <| bo_inflight ::= g |>) s).
Proof.
  intros Hinv Hi Hst Hr Hg. destruct (live_local _ _ _ Hinv Hi Hst) as (Hh & Hrh & Hs & _).
  apply bo_inv_live_set; try done. apply bo_local_live; [done|].
  destruct Hs as (? & ? & ? & ? & ? & ?). unfold bo_sane. simpl. split_and!; try done; lia.
Qed.

Lemma pin_loop_inv extra hs s :
  bo_inv extra None s → Forall (Z.le 0) hs →
  bo_inv extra None (foldl (λ s h, match v3da_bo_find s h with
                      | Some i => set_bo i (λ b, b <| bo_inflight ::= λ n, u32 (n + 1) |>) s
                      | None => s
                      end) s hs).
Proof.
  revert s. induction hs as [|h hs IH]; intros s Hinv Hall; [done|].
  apply Forall_cons in Hall as [Hh ?]. simpl. apply IH; [|done].
  destruct (v3da_bo_find s h) as [i|] eqn:Hf; [|done].
  apply v3da_bo_find_Some in Hf as [Hl Hr]. pose proof (bo_lookup_range _ _ _ Hh Hl) as Hi.
  apply bo_lookup_Some in Hl as (_ & _ & Hst & _).
  apply (set_inflight_inv extra i (λ n, u32 (n + 1))); try done. apply u32_range.
Qed.

Lemma pin_for_job_inv extra hs s :
  bo_inv extra None s → Forall (Z.le 0) hs → bo_inv extra None (v3da_bo_pin_for_job hs s).2.
Proof. intros. unfold v3da_bo_pin_for_job. case_match; [by apply pin_loop_inv|done]. Qed.

(** ** A holder leaves *)
Lemma drop_holder_inv extra i f s :
  bo_inv extra None s → 0 ≤ i < nbos (srv_bo s) → bo_state (srv_bos s i) = V3DA_BO_LIVE →
  holders (f (srv_bos s i)) = holders (srv_bos s i) - 1 →
  bo_sane (f (srv_bos s i)) → bo_state (f (srv_bos s i)) = bo_state (srv_bos s i) →
  bo_gpuva (f (srv_bos s i)) = bo_gpuva (srv_bos s i) → bo_pages (f (srv_bos s i)) = bo_pages (srv_bos s i) →
  bo_handle (f (srv_bos s i)) = bo_handle (srv_bos s i) → bo_refs (f (srv_bos s i)) = bo_refs (srv_bos s i) →
  bo_exported (f (srv_bos s i)) = bo_exported (srv_bos s i) →
  bo_imported (f (srv_bos s i)) = bo_imported (srv_bos s i) →
  bo_low (f (srv_bos s i)) = bo_low (srv_bos s i) →
  bo_inv extra None (bo_unref i (set_bo i f s)).
Proof.
  intros Hinv Hi Hst Hd Hs E1 E2 E3 E4 E5 E6 E7 E8.
  destruct (live_local _ _ _ Hinv Hi Hst) as (Hh & Hr & _ & _). destruct Hinv as [Ht Hm].
  assert (srv_bos (set_bo i f s) i = f (srv_bos s i)) as Eb by apply set_bo_eq.
  apply bo_unref_inv; rewrite ?Eb; try done; [|congruence|by rewrite E4|rewrite E5; lia].
  split; [|by apply map_inv_set_bo]. apply table_inv_set_bo; try done; [by apply table_inv_skip|].
  unfold low_bytes. by rewrite E8, E3.
Qed.

Lemma drop_owner_inv extra i s :
  bo_inv extra None s → 0 ≤ i < nbos (srv_bo s) → bo_state (srv_bos s i) = V3DA_BO_LIVE →
  bo_owner (srv_bos s i) ≠ 0 →
  bo_inv extra None (bo_unref i (set_bo i (λ b, b <| bo_owner := 0 |>) s)).
Proof.
  intros Hinv Hi Hst Ho. destruct (live_local _ _ _ Hinv Hi Hst) as (_ & _ & Hs & _).
  apply drop_holder_inv; try done.
  - unfold holders. simpl. replace (bo_owner _ =? 0) with false by lia. simpl. lia.
  - destruct Hs as (? & ? & ? & ? & ? & ?). unfold bo_sane. simpl. split_and!; try done; lia.
Qed.

Lemma drop_sharer_inv extra i c s :
  bo_inv extra None s → 0 ≤ i < nbos (srv_bo s) → bo_state (srv_bos s i) = V3DA_BO_LIVE →
  has (bo_sharers (srv_bos s i)) (client_bit c) = true →
  bo_inv extra None (bo_unref i (set_bo i (λ b, b <| bo_sharers ::= λ m, Z.ldiff m (client_bit c) |>) s)).
Proof.
  intros Hinv Hi Hst Hb. destruct (live_local _ _ _ Hinv Hi Hst) as (_ & _ & Hs & _).
  apply drop_holder_inv; try done.
  - unfold holders. simpl. rewrite sharer_drop by done. lia.
  - destruct Hs as (? & ? & ? & ? & ? & ?). unfold bo_sane. simpl. split_and!; try done; try lia.
    by apply ldiff_nonneg.
Qed.

Lemma drop_fd_inv extra i s :
  bo_inv extra None s → 0 ≤ i < nbos (srv_bo s) → bo_state (srv_bos s i) = V3DA_BO_LIVE →
  0 < bo_fd_opens (srv_bos s i) →
  bo_inv extra None (bo_unref i (set_bo i (λ b, b <| bo_fd_opens ::= λ n, n - 1 |>) s)).
Proof.
  intros Hinv Hi Hst Ho. destruct (live_local _ _ _ Hinv Hi Hst) as (_ & _ & Hs & _).
  apply drop_holder_inv; try done.
  - unfold holders. simpl. lia.
  - destruct Hs as (? & ? & ? & ? & ? & ?). unfold bo_sane. simpl. split_and!; try done; lia.
Qed.

Lemma bo_close_inv extra c h s :
  bo_inv extra None s → 0 ≤ h → bo_inv extra None (v3da_bo_close c h s).2.
Proof.
  intros Hinv Hh. unfold v3da_bo_close. destruct (v3da_bo_find s h) as [i|] eqn:Hf; [|done].
  apply v3da_bo_find_Some in Hf as [Hl Hr]. pose proof (bo_lookup_range _ _ _ Hh Hl) as Hi.
  apply bo_lookup_Some in Hl as (_ & _ & Hst & _).
  case_match eqn:Hb; [|case_match eqn:Ho; [|done]]; apply quarantine_poll_inv.
  - by apply drop_sharer_inv.
  - apply drop_owner_inv; try done. by zify_bools.
Qed.

(** ** A client goes away *)
Lemma bo_unref_n i s : nbos (srv_bo (bo_unref i s)) = nbos (srv_bo s).
Proof.
  unfold bo_unref. set (s1 := set_bo i _ s).
  assert (nbos (srv_bo s1) = nbos (srv_bo s)) as E1 by done. clearbody s1. rewrite <- E1.
  case_match; [|done]. destruct (export_withdraw_tab i s1) as (En & _).
  case_match; [|done]. pose proof (quarantine_begin_spec i (export_withdraw i s1)) as (_ & _ & (En' & _) & _).
  by rewrite En', En.
Qed.

Lemma client_gone_one_inv extra c i s :
  1 ≤ c → bo_inv extra None s → 0 ≤ i < nbos (srv_bo s) →
  bo_inv extra None (client_gone_one c i s) ∧ nbos (srv_bo (client_gone_one c i s)) = nbos (srv_bo s).
Proof.
  intros Hc Hinv Hi. unfold client_gone_one. case_match eqn:E1; [done|].
  apply orb_false_iff in E1 as [E1 _]. apply negb_false_iff, bool_decide_eq_true in E1.
  set (s1 := if _ =? c then _ else s).
  assert (bo_inv extra None s1 ∧ nbos (srv_bo s1) = nbos (srv_bo s)) as [H1 En].
  { unfold s1. case_match eqn:Ho; [|done]. zify_bools. split; [apply drop_owner_inv; try done; lia|by rewrite bo_unref_n]. }
  clearbody s1. case_match eqn:E2; [|done].
  apply andb_true_iff in E2 as [E2 E3]. apply bool_decide_eq_true in E2.
  split; [apply drop_sharer_inv; try done; lia|by rewrite bo_unref_n].
Qed.

Lemma bo_client_gone_inv extra c s :
  1 ≤ c → bo_inv extra None s → bo_inv extra None (v3da_bo_client_gone c s).
Proof.
  intros Hc Hinv. apply quarantine_poll_inv.
  apply (for_inv (λ s', bo_inv extra None s' ∧ nbos (srv_bo s') = nbos (srv_bo s))); [done|].
  intros i s' Hi [H1 H2]. rewrite <- H2. apply client_gone_one_inv; [done|done|lia].
Qed.

(** ** New objects *)
Definition same_books (s s' : v3da_srv_t) : Prop :=
  bos (srv_bo s') = bos (srv_bo s) ∧ nbos (srv_bo s') = nbos (srv_bo s) ∧
  bo_gen (srv_bo s') = bo_gen (srv_bo s) ∧ imports (srv_bo s') = imports (srv_bo s) ∧
  exports (srv_bo s') = exports (srv_bo s) ∧ low_live (srv_bo s') = low_live (srv_bo s) ∧
  low_budget (srv_bo s') = low_budget (srv_bo s) ∧ srv_hw s' = srv_hw s.
#[export] Instance same_books_pre : PreOrder same_books.
Proof.
  split; [done|]. unfold same_books. intros a b c H1 H2. destruct_and!. split_and!; congruence.
Qed.
Ltac books := unfold same_books; split_and!; reflexivity.

Lemma bo_inv_same extra skip s s' : same_books s s' → bo_inv extra skip s → bo_inv extra skip s'.
Proof.
  intros (Eb & En & Eg & Ei & Ee & El & Elb & Eh) [[] Hm]. split.
  - constructor; unfold srv_bos in *; rewrite ?Eb, ?En, ?Eg, ?Ei, ?Ee, ?El, ?Elb; done.
  - apply (map_inv_ext _ s); [|done]. unfold same_map, srv_bos. rewrite Eb, En, Eh. split_and!; done.
Qed.

Lemma emit_all_books l s : same_books s (emit_all l s).
Proof. books. Qed.

Lemma block_get_fresh_books bytes cached s : same_books s (block_get_fresh bytes cached s).2.
Proof. unfold block_get_fresh. repeat case_match; books. Qed.

Lemma block_get_books pages cached want s : same_books s (block_get pages cached want s).2.
Proof.
  unfold block_get. destruct (_ ≫= _) as [[i b]|]; [books|]. case_match; [|apply block_get_fresh_books].
  destruct (v3da_lowmem_map _ _ _ _) as [[kept res] rej]. set (s1 := emit_all _ _).
  set (s2 := s1 <| srv_bo ; low_tries ::= _ |> <| srv_bo ; low_rejected ::= _ |>).
  assert (same_books s s2) as Hs2.
  { unfold s2. transitivity s1; [|books]. unfold s1. etrans; [|apply emit_all_books]. books. }
  clearbody s2. destruct kept as [h|]; simpl.
  - etrans; [exact Hs2|]. books.
  - etrans; [exact Hs2|]. apply block_get_fresh_books.
Qed.

Lemma block_put_books cpu pa pages cached s : same_books s (block_put cpu pa pages cached s).
Proof. unfold block_put. case_match; books. Qed.

(** The slot a new object takes is free; taking a fresh one keeps the invariant. *)
Lemma bo_slot_inv extra s slot s1 :
  bo_inv extra None s → bo_slot s = Some (slot, s1) →
  bo_inv extra None s1 ∧ 0 ≤ slot < nbos (srv_bo s1) ∧ bo_state (srv_bos s1 slot) = V3DA_BO_FREE ∧
  (s1 = s ∨ s1 = s <| srv_bo ; nbos := nbos (srv_bo s) + 1 |>).
Proof.
  intros [Ht Hm]. unfold bo_slot. destruct (find_first _ _ _) as [k|] eqn:Hf.
  - intros; simplify_eq. apply find_first_Some in Hf as (Hk & Hst & _).
    apply bool_decide_eq_true in Hst. split_and!; try done; try lia. by left.
  - case_match eqn:En; [done|]. intros; simplify_eq. zify_bools.
    destruct Ht as [Hn Hl Hf0 Hg He Hi Hw Hb]. unfold srv_bos in *.
    set (n := nbos (srv_bo s)) in *. assert (bos (srv_bo s) n = bo0) as H0 by (apply Hf0; lia).
    split_and!; simpl; unfold srv_bos; simpl; try lia; [|by rewrite H0|by right]. split.
    + constructor; unfold srv_bos; simpl; try done; fold n.
      * lia.
      * intros j Hj _. destruct (decide (j = n)) as [Ej|]; [by rewrite Ej, H0|]. apply Hl; [lia|done].
      * intros j Hj. apply Hf0. lia.
      * unfold countZ in *. rewrite sumZ_last by lia. rewrite H0, <- He. simpl. lia.
      * unfold countZ in *. rewrite sumZ_last by lia. rewrite H0, <- Hi. simpl. lia.
      * rewrite sumZ_last by lia. rewrite H0, <- Hw. unfold low_bytes. simpl. lia.
    + destruct Hm as [Hva Hpt]. constructor; simpl; fold n; fold n in Hva; fold n in Hpt.
      * rewrite ranges_S by lia. rewrite H0. simpl. by rewrite app_nil_r.
      * intros p. rewrite Hpt. unfold live_page.
        assert ((∃ i, 0 ≤ i < n ∧ bo_state (bos (srv_bo s) i) = V3DA_BO_LIVE ∧
                   covers (mkHole (bo_gpuva (bos (srv_bo s) i)) (bo_pages (bos (srv_bo s) i))) p) ↔
                (∃ i, 0 ≤ i < n + 1 ∧ bo_state (bos (srv_bo s) i) = V3DA_BO_LIVE ∧
                   covers (mkHole (bo_gpuva (bos (srv_bo s) i)) (bo_pages (bos (srv_bo s) i))) p)) as ->; [|done].
        split; intros (j & Hj & Hst & Hc); exists j; split_and!; try done; try lia.
        destruct (decide (j = n)) as [Ej|]; [by rewrite Ej, H0 in Hst|lia].
Qed.

Lemma next_bo_gen_nonneg g : 0 ≤ g → 0 ≤ next_bo_gen g.
Proof. intros. unfold next_bo_gen. case_match; [lia|]. apply u32_range. Qed.

(** Object [b] has been created in [slot], over a range fresh from the allocator. *)
Record created (slot : Z) (b : v3da_bo_t) (s s' : v3da_srv_t) : Prop := mkCreated {
  cr_slot : 0 ≤ slot < nbos (srv_bo s);
  cr_free : bo_state (srv_bos s slot) = V3DA_BO_FREE;
  cr_hw : ∃ hw' ppa, v3da_hw_va_alloc (srv_hw s) (bo_pages b) = (bo_gpuva b, hw') ∧ bo_gpuva b ≠ 0 ∧
    srv_hw s' = hw' <| hw_pt ::= map_ptes (bo_gpuva b) (bo_pages b) ppa |> <| hw_pt_gen ::= λ g, g + 1 |>;
  cr_n : nbos (srv_bo s') = nbos (srv_bo s);
  cr_gen : bo_gen (srv_bo s') = <[slot := next_bo_gen (bo_gen (srv_bo s) slot)]> (bo_gen (srv_bo s));
  cr_bos : ∀ j, srv_bos s' j = if decide (slot = j) then b else srv_bos s j;
  cr_exports : exports (srv_bo s') = exports (srv_bo s);
  cr_imports : imports (srv_bo s') = imports (srv_bo s) + b2z (bo_imported b);
  cr_low : low_live (srv_bo s') = low_live (srv_bo s) + low_bytes b;
  cr_budget : low_live (srv_bo s') ≤ low_budget (srv_bo s');
  cr_state : bo_state b = V3DA_BO_LIVE;
  cr_exported : bo_exported b = false;
  cr_handle : bo_handle b = make_handle (next_bo_gen (bo_gen (srv_bo s) slot)) slot;
  cr_refs : bo_refs b = 1;
  cr_holders : holders b = 1;
  cr_sane : bo_sane b }.

Lemma new_object_inv extra slot b s s' :
  bo_inv extra None s → created slot b s s' → bo_inv extra None s'.
Proof.
  intros [Ht Hm] [Hs Hfree (hw' & ppa & Halloc & Hnz & Eh) En Eg Eb Ee Ei El Hbud Hst Hx Hh Hr Hho Hsane].
  remember (bo_pages b) as pages eqn:Ep. remember (bo_gpuva b) as va eqn:Eva.
  symmetry in Ep, Eva.
  assert (1 ≤ pages ≤ PT_ENTRIES) as Hp by (rewrite <- Ep; apply Hsane).
  set (s0 := bump_bo_gen slot s).
  assert (table_inv (Some slot) s0) as Ht0.
  { destruct Ht as [Hn Hl Hf Hg He Hi Hw Hb]. constructor; try done.
    - intros j Hj Hne. specialize (Hl j Hj ltac:(done)). unfold bo_local in *.
      change (srv_bos s0 j) with (srv_bos s j).
      change (bo_gen (srv_bo s0) j) with ((<[slot := next_bo_gen (bo_gen (srv_bo s) slot)]> (bo_gen (srv_bo s))) j).
      rewrite fn_upd_ne by congruence. done.
    - intros j. change (bo_gen (srv_bo s0) j) with ((<[slot := next_bo_gen (bo_gen (srv_bo s) slot)]> (bo_gen (srv_bo s))) j).
      rewrite fn_upd_case. case_decide; [by apply next_bo_gen_nonneg|done]. }
  assert (bo_local (bo_gen (srv_bo s)) slot (srv_bos s slot)) as Hloc by (by apply Ht).
  unfold bo_local in Hloc. rewrite Hfree in Hloc. destruct Hloc as (Hx0 & Hi0 & Hl0).
  split.
  - apply (table_inv_set None slot b s0); change (srv_bos s0 slot) with (srv_bos s slot); try done.
    + change (exports (srv_bo s0)) with (exports (srv_bo s)). rewrite Hx0, Hx, Ee. simpl. lia.
    + change (imports (srv_bo s0)) with (imports (srv_bo s)). rewrite Hi0, Ei. simpl. lia.
    + change (low_live (srv_bo s0)) with (low_live (srv_bo s)). rewrite El.
      assert (low_bytes (srv_bos s slot) = 0) as -> by (unfold low_bytes; by rewrite Hl0). lia.
    + right. split; [done|]. apply bo_local_live; [done|].
      change (bo_gen (srv_bo s0) slot) with ((<[slot := next_bo_gen (bo_gen (srv_bo s) slot)]> (bo_gen (srv_bo s))) slot).
      rewrite fn_upd_eq, Hr, Hho. split_and!; try done; lia.
  - apply (create_map extra slot pages va hw' ppa b s); rewrite ?Eh; try done; [lia|rewrite En; lia].
Qed.

(** ** Creation *)
Lemma low_account_spec slot foot lowmem want pl scan s :
  let s' := low_account slot foot lowmem want pl scan s in let low := lowmem && (want && pl_low pl) in
  (∀ j, srv_bos s' j = if decide (slot = j) then (if low then srv_bos s slot <| bo_low := true |> else srv_bos s slot) else srv_bos s j) ∧
  nbos (srv_bo s') = nbos (srv_bo s) ∧ bo_gen (srv_bo s') = bo_gen (srv_bo s) ∧
  imports (srv_bo s') = imports (srv_bo s) ∧ exports (srv_bo s') = exports (srv_bo s) ∧
  low_live (srv_bo s') = low_live (srv_bo s) + (if low then foot else 0) ∧
  low_budget (srv_bo s') = low_budget (srv_bo s) ∧ srv_hw s' = srv_hw s.
Proof.
  cbv zeta. unfold low_account. destruct lowmem; cbn [andb].
  - destruct (want && pl_low pl).
    + split_and!; reflexivity.
    + destruct scan; split_and!; try reflexivity; try (simpl; lia);
        intros j; (case_decide; [by subst|done]).
  - split_and!; try reflexivity; try lia. intros j; (case_decide; [by subst|done]).
Qed.

Lemma create_pages size : 0 ≤ size ≤ 0x40000000 → 1 ≤ Z.max 1 (u32 (size + PAGE_SIZE - 1) / PAGE_SIZE) ≤ PT_ENTRIES.
Proof.
  intros Hs. rewrite PT_ENTRIES_val. unfold PAGE_SIZE. rewrite u32_small by lia.
  split; [lia|]. apply Z.max_lub; [done|].
  assert ((size + 4096 - 1) / 4096 < 262145); [|lia]. apply Z.div_lt_upper_bound; lia.
Qed.

Lemma holders_owner b c : 1 ≤ c → bo_owner b = c → bo_sharers b = 0 → bo_fd_opens b = 0 → holders b = 1.
Proof.
  intros Hc Ho Hs Hf. unfold holders. rewrite Ho, Hs, Hf. replace (c =? 0) with false by lia. simpl.
  unfold sharer_count. rewrite (countZ_ext _ (λ _, false)) by (intros; apply Z.bits_0). done.
Qed.

(** What a creation does: nothing to the objects, or one new object. *)
Definition create_post (extra : list hole) (client size : Z) (s : v3da_srv_t)
    (r : Z * v3da_resp_u * v3da_srv_t) : Prop :=
  let '(rc, u, s') := r in
  (rc ≠ 0 ∧ u = R_none ∧ bo_inv extra None s' ∧ bos (srv_bo s') = bos (srv_bo s)) ∨
  (rc = 0 ∧ ∃ slot s1 b mem, bo_inv extra None s1 ∧ bos (srv_bo s1) = bos (srv_bo s) ∧
     nbos (srv_bo s) ≤ nbos (srv_bo s1) ∧ bo_gen (srv_bo s1) = bo_gen (srv_bo s) ∧ created slot b s1 s' ∧
     bo_owner b = client ∧ bo_pages b = Z.max 1 ((size + PAGE_SIZE - 1) / PAGE_SIZE) ∧ bo_inflight b = 0 ∧
     u = R_bo_create (mkBoCreateResp (bo_handle b) (bo_gpuva b) (u32 (bo_pages b * PAGE_SIZE)) (bo_scanout b) mem)).

Lemma bo_create_cases extra client size flags s :
  1 ≤ client → 0 ≤ size → bo_inv extra None s →
  create_post extra client size s (v3da_bo_create client size flags s).
Proof.
  intros Hc Hsz Hinv. unfold v3da_bo_create. cbv zeta. case_match eqn:Hbig; [by left|]. zify_bools.
  pose proof (create_pages size ltac:(lia)) as Hp.
  assert (u32 (size + PAGE_SIZE - 1) = size + PAGE_SIZE - 1) as Eu by (apply u32_small; unfold PAGE_SIZE; lia).
  rewrite Eu in *. clear Eu.
  remember (Z.max 1 _) as pages eqn:Hpages.
  destruct (bo_slot s) as [[slot s1]|] eqn:Hslot; [|by left].
  destruct (bo_slot_inv _ _ _ _ Hinv Hslot) as (Hinv1 & Hsl & Hfree & Hs1). clear Hslot Hinv.
  assert (bos (srv_bo s1) = bos (srv_bo s) ∧ nbos (srv_bo s) ≤ nbos (srv_bo s1) ∧
    bo_gen (srv_bo s1) = bo_gen (srv_bo s)) as (E1b & E1n & E1g) by (destruct Hs1 as [->| ->]; split_and!; simpl; done || lia).
  clear Hs1.
  set (scan := if has flags V3DA_BO_SCANOUT then _ else _). clearbody scan.
  set (cached := match scan with Some _ => false | None => _ end). clearbody cached.
  set (buf_pa := match scan with Some _ => _ | None => 0 end). clearbody buf_pa.
  set (lowmem := has flags V3DA_BO_LOWMEM). clearbody lowmem.
  set (want := lowmem && _ && _).
  assert (want = true → low_live (srv_bo s1) + v3da_lowmem_footprint pages PAGE_SIZE ≤ low_budget (srv_bo s1)) as Hadm.
  { unfold want. intros Hw. apply andb_true_iff in Hw as [_ Hw]. by apply admit_iff in Hw as [_ Hw]. }
  clearbody want.
  pose proof (block_get_books pages cached want s1) as Hbg.
  destruct (block_get pages cached want s1) as [[blk pl] s2] eqn:Hblk. simpl in Hbg. clear Hblk.
  assert (bo_inv extra None s2) as Hinv2 by (by apply (bo_inv_same _ _ s1)).
  destruct Hbg as (Eb & En & Eg & Ei & Ee & El & Elb & Eh).
  destruct blk as [[cpu pa]|].
  2:{ left. split_and!; [done|done|..]; case_match; try done; try (by apply (bo_inv_same _ _ s2); [books|]).
      - change (bos (srv_bo s2) = bos (srv_bo s)). congruence.
      - congruence. }
  unfold alloc_va. destruct (v3da_hw_va_alloc (srv_hw s2) pages) as [va hw'] eqn:Hva. cbn iota.
  destruct (va =? 0) eqn:Hz; zify_bools.
  { left. rewrite (alloc_wf extra s2 pages va hw') by (try done; apply Hinv2).
    set (s2' := s2 <| srv_hw := srv_hw s2 |>).
    destruct (block_put_books cpu pa pages cached s2') as (Ebp & _). split_and!; [done|done|..].
    - apply (bo_inv_same _ _ s2); [|done]. etrans; [|apply block_put_books]. books.
    - rewrite Ebp. change (bos (srv_bo s2) = bos (srv_bo s)). congruence. }
  right. split; [done|].
  match goal with |- context [low_account _ _ _ _ _ _ ?x] => set (s3 := x) end.
  pose proof (low_account_spec slot (v3da_lowmem_footprint pages PAGE_SIZE) lowmem want pl scan s3) as Hla.
  cbv zeta in Hla. set (low := lowmem && (want && pl_low pl)) in *.
  assert (low = true → want = true) as Hlw.
  { unfold low. intros H. apply andb_true_iff in H as [_ H]. by apply andb_true_iff in H as [? _]. }
  clearbody low. destruct Hla as (Lb & Ln & Lg & Li & Le & Ll & Llb & Lh).
  set (sf := low_account _ _ _ _ _ _ s3) in *. clearbody sf.
  assert (nbos (srv_bo s3) = nbos (srv_bo s2) ∧
    bo_gen (srv_bo s3) = <[slot := next_bo_gen (bo_gen (srv_bo s2) slot)]> (bo_gen (srv_bo s2)) ∧
    exports (srv_bo s3) = exports (srv_bo s2) ∧ imports (srv_bo s3) = imports (srv_bo s2) ∧
    low_live (srv_bo s3) = low_live (srv_bo s2) ∧ low_budget (srv_bo s3) = low_budget (srv_bo s2))
    as (Fn & Fg & Fe & Fi & Fl & Flb) by (unfold s3; destruct scan; split_and!; reflexivity).
  assert (∃ ppa, srv_hw s3 = hw' <| hw_pt ::= map_ptes va pages ppa |> <| hw_pt_gen ::= λ g, g + 1 |>) as [ppa Fh]
    by (unfold s3; destruct scan; eexists; reflexivity).
  set (b3 := srv_bos s3 slot) in *.
  assert (∀ j, srv_bos s3 j = if decide (slot = j) then b3 else srv_bos s2 j) as Fb.
  { intros j. case_decide as Hj; [by subst|]. unfold s3. destruct scan; unfold srv_bos; simpl; by rewrite fn_upd_ne. }
  assert (b3 = bo0 <| bo_state := V3DA_BO_LIVE |>
      <| bo_handle := make_handle (next_bo_gen (bo_gen (srv_bo s2) slot)) slot |>
      <| bo_owner := client |> <| bo_refs := 1 |> <| bo_flags := bo_flags b3 |>
      <| bo_cpu := cpu |> <| bo_pa := pa |> <| bo_gpuva := va |> <| bo_pages := pages |>
      <| bo_scanout := match scan with Some k => k + 1 | None => 0 end |>) as E3.
  { unfold b3, s3, srv_bos; destruct scan; simpl; rewrite !fn_upd_eq; reflexivity. }
  clearbody s3 b3.
  set (b := if low then b3 <| bo_low := true |> else b3).
  exists slot, s2, b. eexists. split_and!; [done|congruence|lia|congruence|..]; cycle 1.
  { unfold b. rewrite E3. by destruct low. }
  { unfold b. rewrite E3. rewrite <- Hpages. by destruct low. }
  { unfold b. rewrite E3. by destruct low. }
  { f_equal. unfold b. rewrite E3. destruct low; cbn; rewrite fn_upd_eq; reflexivity. }
  assert (bo_pages b = pages ∧ bo_gpuva b = va) as [Ebp Ebva] by (unfold b; rewrite E3; by destruct low).
  constructor; rewrite ?Ebp, ?Ebva; try done.
  - rewrite En. lia.
  - unfold srv_bos in *. by rewrite Eb.
  - exists hw', ppa. by rewrite Lh.
  - by rewrite Ln.
  - by rewrite Lg.
  - intros j. rewrite Lb. case_decide; [done|]. rewrite Fb. by rewrite decide_False.
  - congruence.
  - rewrite Li, Fi. unfold b. rewrite E3. destruct low; simpl; lia.
  - rewrite Ll, Fl. unfold b, low_bytes. rewrite E3. destruct low; simpl; lia.
  - rewrite Ll, Llb, Fl, Flb, El, Elb. destruct low; [by apply Hadm, Hlw|].
    pose proof (ti_budget _ _ (bi_table _ _ _ Hinv1)). lia.
  - unfold b. rewrite E3. by destruct low.
  - unfold b. rewrite E3. by destruct low.
  - unfold b. rewrite E3. by destruct low.
  - unfold b. rewrite E3. by destruct low.
  - unfold b. rewrite E3. destruct low; by apply (holders_owner _ client).
  - unfold b. rewrite E3. unfold bo_sane. destruct low; simpl; split_and!; try done; lia.
Qed.

Lemma bo_create_inv extra client size flags s :
  1 ≤ client → 0 ≤ size → bo_inv extra None s →
  bo_inv extra None (v3da_bo_create client size flags s).2.
Proof.
  intros Hc Hs Hinv. pose proof (bo_create_cases extra client size flags s Hc Hs Hinv) as H.
  destruct (v3da_bo_create client size flags s) as [[rc u] s'].
  destruct H as [(_ & _ & H & _)|(_ & slot & s1 & b & mem & H & _ & _ & _ & Hcr & _)]; [done|].
  by apply (new_object_inv extra slot b s1).
Qed.

(** ** Sharing *)
Lemma import_map_pages rq ie m :
  0 ≤ bi_size rq → import_map rq ie = inr m → 1 ≤ im_pages m ≤ PT_ENTRIES.
Proof.
  intros Hsz. unfold import_map. destruct (ie_lookup ie) as [[port id]|]; [|done].
  case_match; [done|]. destruct (ie_open_errno ie); [done|].
  destruct (import_size rq (ie_end ie)) as [size|] eqn:Hs; [|done].
  destruct (ie_mmap ie) as [|cpu]; [done|]. destruct (ie_malloc ie); [|done]. simpl.
  case_match; [|done]. intros; simplify_eq. unfold im_pages. simpl.
  rewrite length_map, length_seqZ.
  assert (0 < size ≤ V3DA_IMPORT_MAX_SIZE ∧ (PAGE_SIZE | size)) as [Hr Hd].
  { unfold import_size in Hs. remember (if bi_size rq =? 0 then _ else _) as c eqn:Hc in Hs.
    destruct c as [sz|]; [|done]. case_match eqn:Hz; [done|]. simplify_eq. zify_bools.
    assert (0 < size) by (revert Hc; repeat case_match; intros; simplify_eq; zify_bools; lia).
    split; [lia|]. apply Z.mod_divide; [done|]. unfold has in *. zify_bools.
    change (PAGE_SIZE - 1) with (Z.ones 12) in *. rewrite Z.land_ones in * by done. done. }
  destruct Hd as [k ->]. rewrite PT_ENTRIES_val. unfold V3DA_IMPORT_MAX_SIZE, PAGE_SIZE in *.
  rewrite Z.div_mul by done. lia.
Qed.

Lemma import_commit_inv extra client rq gen m s :
  1 ≤ client → 1 ≤ im_pages m ≤ PT_ENTRIES → bo_inv extra None s →
  bo_inv extra None (import_commit client rq gen m s).2.
Proof.
  intros Hc Hp Hinv. unfold import_commit. cbv zeta. case_match; [done|]. case_match; [done|].
  destruct (bo_slot s) as [[slot s1]|] eqn:Hslot; [|done].
  destruct (bo_slot_inv _ _ _ _ Hinv Hslot) as (Hinv1 & Hsl & Hfree & Hs1). clear Hslot.
  unfold alloc_va. destruct (v3da_hw_va_alloc (srv_hw s) (im_pages m)) as [va hw'] eqn:Hva. cbn iota.
  destruct (va =? 0) eqn:Hz; zify_bools; cbn [snd].
  { apply (bo_inv_same _ _ s); [|done].
    rewrite (alloc_wf extra s (im_pages m) va hw') by (try done; apply Hinv). books. }
  match goal with |- context [set_bo slot (λ _, ?x) _] => set (b := x) end.
  pose proof (imports_bounds _ _ (bi_table _ _ _ Hinv)) as Hib.
  assert (bo_gen (srv_bo s1) = bo_gen (srv_bo s) ∧ bos (srv_bo s1) = bos (srv_bo s) ∧
    exports (srv_bo s1) = exports (srv_bo s) ∧ imports (srv_bo s1) = imports (srv_bo s) ∧
    low_live (srv_bo s1) = low_live (srv_bo s) ∧ low_budget (srv_bo s1) = low_budget (srv_bo s) ∧
    srv_hw s1 = srv_hw s) as (Eg & Eb & Ee & Ei & El & Elb & Eh)
    by (destruct Hs1 as [->| ->]; split_and!; reflexivity).
  apply (new_object_inv extra slot b s1); [done|].
  constructor; rewrite ?Eg, ?Ee, ?Ei, ?El, ?Elb, ?Eh; try done.
  - by exists hw', (λ i, default 0 (im_pa m !! Z.to_nat i)).
  - intros j. unfold srv_bos. rewrite Eb. simpl. by rewrite fn_upd_case.
  - simpl. rewrite u32_small; [lia|]. unfold V3DA_MAX_BOS in *. lia.
  - unfold low_bytes. simpl. lia.
  - simpl. apply Hinv.
  - unfold b. simpl. by rewrite fn_upd_eq.
  - by apply (holders_owner _ client).
  - unfold bo_sane. simpl. split_and!; try done; lia.
Qed.

(** The holder counters stay words: at most [V3DA_MAX_CLIENTS + 1] clients hold an
    object, the rest of its references are descriptors of its published name. *)
Definition fds_below (s : v3da_srv_t) : Prop := ∀ i, bo_fd_opens (srv_bos s i) < 2 ^ 32 - 256.

Lemma holders_word s i : bo_sane (srv_bos s i) → fds_below s → 0 ≤ holders (srv_bos s i) < 2 ^ 32 - 1.
Proof.
  intros (? & ? & ? & _) Hf. specialize (Hf i). unfold holders.
  pose proof (sharer_count_bounds (bo_sharers (srv_bos s i))).
  assert (V3DA_MAX_CLIENTS < 255) by done. destruct (negb _); simpl; lia.
Qed.

Lemma add_holder_inv extra i f s :
  bo_inv extra None s → 0 ≤ i < nbos (srv_bo s) → bo_state (srv_bos s i) = V3DA_BO_LIVE → fds_below s →
  holders (f (srv_bos s i)) = holders (srv_bos s i) + 1 →
  bo_refs (f (srv_bos s i)) = u32 (bo_refs (srv_bos s i) + 1) →
  bo_sane (f (srv_bos s i)) → bo_state (f (srv_bos s i)) = bo_state (srv_bos s i) →
  bo_gpuva (f (srv_bos s i)) = bo_gpuva (srv_bos s i) → bo_pages (f (srv_bos s i)) = bo_pages (srv_bos s i) →
  bo_handle (f (srv_bos s i)) = bo_handle (srv_bos s i) →
  bo_exported (f (srv_bos s i)) = bo_exported (srv_bos s i) →
  bo_imported (f (srv_bos s i)) = bo_imported (srv_bos s i) →
  bo_low (f (srv_bos s i)) = bo_low (srv_bos s i) →
  bo_inv extra None (set_bo i f s).
Proof.
  intros Hinv Hi Hst Hf Hho Hrf Hs E1 E2 E3 E4 E5 E6 E7.
  destruct (live_local _ _ _ Hinv Hi Hst) as (Hh & Hr & Hs0 & _).
  pose proof (holders_word s i Hs0 Hf).
  apply bo_inv_live_set; try done. apply bo_local_live; [congruence|].
  rewrite E4, Hrf, Hho, u32_small by lia. rewrite Hr. split_and!; try done. lia.
Qed.

Lemma import_v3dbuf_inv extra client rq s :
  1 ≤ client ≤ V3DA_MAX_CLIENTS → 0 ≤ bi_id rq → fds_below s → bo_inv extra None s →
  bo_inv extra None (import_v3dbuf client rq s).2.
Proof.
  intros Hc Hid Hf Hinv. unfold import_v3dbuf. case_match; [done|]. case_match; [done|].
  destruct (if _ <? bi_id rq then _ else _) as [i|] eqn:Hfi; [|done].
  destruct (_ <? bi_id rq); [done|]. destruct (negb (bo_exported _)); [exact Hinv|].
  destruct (bo_held_by client (srv_bos s i)) eqn:Hheld;
    (destruct (has (bi_size rq) _ || _); [exact Hinv|cbn [snd]]); [exact Hinv|].
  apply v3da_bo_find_Some in Hfi as [Hl _].
  pose proof (bo_lookup_range _ _ _ Hid Hl) as Hi. apply bo_lookup_Some in Hl as (_ & _ & Hst & _).
  destruct (live_local _ _ _ Hinv Hi Hst) as (_ & _ & (? & ? & ? & ? & ? & ?) & _).
  unfold bo_held_by in Hheld. apply orb_false_iff in Hheld as [_ Hsh].
  apply add_holder_inv; try done.
  - unfold holders. simpl. rewrite sharer_add by done. lia.
  - unfold bo_sane. simpl. split_and!; try done; try lia. by apply lor_client_bit_nonneg.
Qed.

Lemma bo_export_inv extra client h s :
  0 ≤ h → bo_inv extra None s → bo_inv extra None (v3da_bo_export client h s).2.
Proof.
  intros Hh Hinv. unfold v3da_bo_export. cbv zeta. destruct (v3da_bo_find s h) as [i|] eqn:Hf; [|done].
  case_match; [done|]. case_match eqn:Hk; [done|]. case_match; [done|].
  destruct (bo_exported (srv_bos s i)) eqn:Hx; [done|].
  apply v3da_bo_find_Some in Hf as [Hl Hpos]. pose proof (bo_lookup_range _ _ _ Hh Hl) as Hi.
  apply bo_lookup_Some in Hl as (_ & _ & Hst & _).
  set (s1 := emit _ _). assert (same_books s s1) as Hs1 by books.
  assert (bo_inv extra None s1) as Hinv1 by (by apply (bo_inv_same _ _ s)).
  case_match; [done|]. cbn [snd].
  destruct (live_local _ _ _ Hinv Hi Hst) as (Hhd & Hr & (? & ? & ? & ? & Himp & ?) & _).
  apply orb_false_iff in Hk as [Hk _]. apply orb_false_iff in Hk as [Hk _].
  destruct Hinv as [Ht Hm].
  pose proof (exports_bounds _ _ Ht) as Hb.
  split; [|by apply (map_inv_ext _ (set_bo i (λ b, b <| bo_exported := true |>) s)), map_inv_set_bo].
  apply (table_inv_set None i (srv_bos s i <| bo_exported := true |>) s); try done.
  - by apply table_inv_skip.
  - rewrite Hx. simpl. rewrite u32_small; [lia|]. unfold V3DA_MAX_BOS in *. lia.
  - simpl. lia.
  - unfold low_bytes. simpl. lia.
  - simpl. apply Ht.
  - right. split; [done|]. apply bo_local_live; [done|]. unfold bo_sane. simpl.
    split_and!; try done; lia || congruence || idtac.
Qed.

Lemma bo_by_export_Some s id i :
  0 ≤ id → bo_by_export s id = Some i →
  0 ≤ i < nbos (srv_bo s) ∧ bo_state (srv_bos s i) = V3DA_BO_LIVE ∧ bo_handle (srv_bos s i) = id ∧
  bo_exported (srv_bos s i) = true ∧ 0 < bo_refs (srv_bos s i).
Proof.
  intros Hid. unfold bo_by_export. destruct (negb (id =? 0) && (id <=? 0xffffffff)); [|done].
  destruct (bo_lookup s id) as [j|] eqn:Hl; [|done].
  case_match eqn:Hx; [|done]. intros; simplify_eq. zify_bools.
  pose proof (bo_lookup_range _ _ _ Hid Hl). apply bo_lookup_Some in Hl as (_ & _ & Hst & Hh). done.
Qed.

Definition bufns_id (m : bufns_msg) : Z :=
  match m with B_open id | B_close id => id | _ => 0 end.

Lemma bufns_inv extra m s :
  0 ≤ bufns_id m → fds_below s → bo_inv extra None s → bo_inv extra None (bufns_handle m s).2.
Proof.
  intros Hid Hf Hinv. destruct m as [d|id|id|id|id|id room|id|id|]; simpl in Hid;
    try (simpl; repeat (case_match; simpl); done).
  - simpl. case_match; [done|]. destruct (bo_by_export s id) as [i|] eqn:Hx; [|done]. simpl.
    apply bo_by_export_Some in Hx as (Hi & Hst & _); [|done].
    destruct (live_local _ _ _ Hinv Hi Hst) as (_ & _ & (? & ? & ? & ? & ? & ?) & _).
    pose proof (Hf i). apply add_holder_inv; try done.
    + unfold holders. simpl. rewrite u32_small; lia.
    + unfold bo_sane. simpl. split_and!; try done; try lia. apply u32_range.
  - cbn [bufns_handle]. destruct (negb (id =? 0) && (id <=? 0xffffffff)); [|done].
    destruct (bo_lookup s id) as [i|] eqn:Hl; [|done].
    case_match eqn:Ho; [|done]. zify_bools. cbn [snd]. apply quarantine_poll_inv.
    pose proof (bo_lookup_range _ _ _ Hid Hl) as Hi. apply bo_lookup_Some in Hl as (_ & _ & Hst & _).
    by apply drop_fd_inv.
Qed.

(** ** The overflow pool's range stays mapped, outside any object *)
Lemma fresh_covers limit new rest p h :
  ranges_ok limit (new :: rest) → covers new p → h ∈ rest → covers h p → False.
Proof.
  intros [Hall [Hd _]] Hn Hh Hc. apply Forall_cons in Hall as [Hok Hall].
  rewrite Forall_forall in Hall, Hd. by eapply (covers_disj limit new h p); auto.
Qed.

Lemma map_ovf_pool_inv extra bytes s rc va s' :
  bo_inv extra None s → 1 ≤ bytes / PAGE_SIZE ≤ PT_ENTRIES →
  v3da_bo_map_ovf_pool bytes s = (rc, va, s') →
  (rc ≠ 0 ∧ bo_inv extra None s') ∨ (rc = 0 ∧ bo_inv (mkHole va (bytes / PAGE_SIZE) :: extra) None s').
Proof.
  intros Hinv Hp. unfold v3da_bo_map_ovf_pool. cbv zeta. unfold alloc_va.
  set (pages := bytes / PAGE_SIZE) in *.
  destruct (v3da_hw_va_alloc (srv_hw s) pages) as [va0 hw'] eqn:Hva. cbn iota.
  destruct Hinv as [Ht [Hw Hpt]].
  pose proof (va_alloc_wf _ _ _ Hw Hp) as Halloc. rewrite Hva in Halloc.
  destruct (va0 =? 0) eqn:Hz; zify_bools.
  { intros; simplify_eq. destruct Halloc as [(_ & -> & _)|(Hne & _)]; [|lia].
    left. split; [done|]. apply (bo_inv_same _ _ s); [books|by split]. }
  destruct Halloc as [(-> & _)|(_ & Hw')]; [done|].
  assert (∀ p, hw_pt hw' p = hw_pt (srv_hw s) p ∨ hw_pt hw' p = 0 ∧ covers (mkHole va0 pages) p) as Hp'
    by (intros; by apply va_alloc_pt).
  destruct (env_mmap _ _ _) as [cpu|]; intros; simplify_eq.
  - right. split; [done|]. split.
    + apply (table_inv_ext None s); done.
    + constructor.
      * simpl. eapply va_wf_perm; [|by apply (va_wf_ext hw')]. solve_Permutation.
      * intros p. simpl. rewrite map_ptes_nz. change (va_page va ≤ p < va_page va + pages) with (covers (mkHole va pages) p).
        destruct (Hp' p) as [Heq|[Heq Hc]]; rewrite Heq.
        -- rewrite Hpt. split.
           ++ intros [Hc|[Hl|(h & Hh & Hc)]]; [right; exists (mkHole va pages)|by left|right; exists h]; (split; [|done]); by constructor.
           ++ intros [Hl|(h & [->|Hh]%elem_of_cons & Hc)]; [by right; left|by left|right; right; by exists h].
        -- split; [intros _|by left]. right. exists (mkHole va pages). split; [by constructor|done].
  - left. split; [done|]. split.
    + by apply (table_inv_ext None s).
    + constructor.
      * simpl. eapply (va_wf_ext (v3da_hw_va_free va0 pages hw')); try done. apply va_free_wf. exact Hw'.
      * intros p. simpl.
        assert (hw_pt (v3da_hw_va_free va0 pages hw') p = hw_pt hw' p) as -> by (unfold v3da_hw_va_free; repeat case_match; done).
        destruct (Hp' p) as [Heq|[Heq Hc]]; rewrite Heq; [apply Hpt|].
        split; [done|]. intros Hl. exfalso. destruct Hw' as [_ _ _ _ Hr].
        rewrite <- Permutation_middle in Hr.
        assert (∃ h, h ∈ hw_holes hw' ++ ranges (bos (srv_bo s)) (nbos (srv_bo s)) ++ extra ∧ covers h p) as (h & Hh & Hcp).
        { destruct Hl as [(i & Hi & Hst & Hcp)|(h & Hh & Hcp)].
          - destruct (ranges_lookup (bos (srv_bo s)) (nbos (srv_bo s)) i
              (mkHole (bo_gpuva (bos (srv_bo s) i)) (bo_pages (bos (srv_bo s) i))) Hi) as [l Hl];
              [unfold held; by rewrite Hst|].
            eexists. split; [|exact Hcp]. rewrite !elem_of_app, Hl. right. left. by left.
          - exists h. split; [|done]. rewrite !elem_of_app. by do 2 right. }
        by apply (fresh_covers _ _ _ p h Hr).
Qed.
End env.
