(* ===== verification/BoSpec.v ===== *)
(** What the buffer-object manager promises: the steps the server's threads take on the
    table, the states they reach, and the properties of those states and of each
    request. *)
From S2P Require Import Prelude Proto State Lowmem Hw Fence Bo BoInv BoMap BoShare.
From S2P Require Import BoSteps BoReach Concrete.

(** ** States and steps *)
(** After v3da_hw_init: an empty table over an empty page table. *)
Definition bo_start (s : v3da_srv_t) : Prop :=
  nbos (srv_bo s) = 0 ∧ (∀ i, srv_bos s i = bo0) ∧ (∀ i, bo_gen (srv_bo s) i = 0) ∧
  imports (srv_bo s) = 0 ∧ exports (srv_bo s) = 0 ∧ low_live (srv_bo s) = 0 ∧ 0 ≤ low_budget (srv_bo s) ∧
  hw_pt_entries (srv_hw s) = PT_ENTRIES ∧ hw_next_gpuva (srv_hw s) = GPUVA_BASE ∧
  hw_holes (srv_hw s) = [] ∧ ∀ p, hw_pt (srv_hw s) p = 0.

(** What the other components leave alone. *)
Definition bo_frame (s s' : v3da_srv_t) : Prop :=
  srv_bo s' = srv_bo s ∧ hw_pt (srv_hw s') = hw_pt (srv_hw s) ∧
  hw_pt_entries (srv_hw s') = hw_pt_entries (srv_hw s) ∧
  hw_next_gpuva (srv_hw s') = hw_next_gpuva (srv_hw s) ∧ hw_holes (srv_hw s') = hw_holes (srv_hw s).

Section env.
Context `{E : Env}.

(** One locked section on the table.  A handle, size or identifier is an unsigned word
    of a request; a client number is one its connection was given. *)
Inductive bo_step (s : v3da_srv_t) : v3da_srv_t → Prop :=
  | BS_create c size flags :
      1 ≤ c ≤ V3DA_MAX_CLIENTS → 0 ≤ size → bo_step s (v3da_bo_create c size flags s).2
  | BS_close c h : 0 ≤ h → bo_step s (v3da_bo_close c h s).2
  | BS_client_gone c : 1 ≤ c → bo_step s (v3da_bo_client_gone c s)
  | BS_pin hs : Forall (Z.le 0) hs → bo_step s (v3da_bo_pin_for_job hs s).2
  | BS_unpin hs : Forall (Z.le 0) hs → bo_step s (v3da_bo_unpin hs s)
  | BS_mark_use hs f g : Forall (Z.le 0) hs → bo_step s (v3da_bo_mark_use hs f g s)
  | BS_poll : bo_step s (v3da_bo_quarantine_poll s)
  | BS_import_v3dbuf c rq :
      1 ≤ c ≤ V3DA_MAX_CLIENTS → 0 ≤ bi_id rq → fds_below s → bo_step s (import_v3dbuf c rq s).2
  | BS_import_commit c rq ie gen m :
      1 ≤ c ≤ V3DA_MAX_CLIENTS → 0 ≤ bi_size rq → import_map rq ie = inr m →
      bo_step s (import_commit c rq gen m s).2
  | BS_export c h : 0 ≤ h → bo_step s (v3da_bo_export c h s).2
  | BS_bufns m : 0 ≤ bufns_id m → fds_below s → bo_step s (bufns_handle m s).2
  | BS_frame s' : bo_frame s s' → bo_step s s'.

(** Reachable states, with the ranges mapped outside the table. *)
Inductive bo_reach : list hole → v3da_srv_t → Prop :=
  | BR_start s : bo_start s → bo_reach [] s
  | BR_step extra s s' : bo_reach extra s → bo_step s s' → bo_reach extra s'
  | BR_ovf_pool extra s bytes va s' :
      bo_reach extra s → 1 ≤ bytes / PAGE_SIZE ≤ PT_ENTRIES →
      v3da_bo_map_ovf_pool bytes s = (0, va, s') →
      bo_reach (mkHole va (bytes / PAGE_SIZE) :: extra) s'.

Lemma bo_start_inv s : bo_start s → bo_inv [] None s.
Proof.
  intros (En & Hb & Hg & Ei & Ee & El & Hbu & Hpe & Hnx & Hh & Hp). split.
  - constructor; rewrite ?En, ?Ei, ?Ee, ?El; try done; try lia.
    intros i. rewrite Hg. done.
  - constructor.
    + rewrite En. constructor; rewrite ?Hpe, ?Hnx, ?Hh; try done.
      by exists 256.
    + intros p. rewrite Hp. split; [done|]. intros [(i & Hi & _)|(h & Hh' & _)]; [lia|inv Hh'].
Qed.

Lemma bo_step_inv extra s s' : bo_inv extra None s → bo_step s s' → bo_inv extra None s'.
Proof.
  intros Hinv Hs. destruct Hs.
  - apply bo_create_inv; [lia|done|done].
  - by apply bo_close_inv.
  - by apply bo_client_gone_inv.
  - by apply pin_for_job_inv.
  - by apply unpin_inv.
  - by apply mark_use_inv.
  - by apply quarantine_poll_inv.
  - by apply import_v3dbuf_inv.
  - apply import_commit_inv; [lia|by eapply import_map_pages|done].
  - by apply bo_export_inv.
  - by apply bufns_inv.
  - match goal with H : bo_frame _ _ |- _ => destruct H as (Eb & E1 & E2 & E3 & E4) end.
    destruct Hinv as [Ht Hm]. split; [by apply (table_inv_ext _ s)|].
    apply (map_inv_ext _ s); [|done]. unfold same_map, srv_bos. rewrite Eb. split_and!; done.
Qed.

Lemma bo_reach_inv extra s : bo_reach extra s → bo_inv extra None s.
Proof.
  induction 1 as [s H|extra s s' _ IH Hs|extra s bytes va s' _ IH Hp Hm].
  - by apply bo_start_inv.
  - by eapply bo_step_inv.
  - destruct (map_ovf_pool_inv _ _ _ _ _ _ IH Hp Hm) as [[? _]|[_ ?]]; done.
Qed.
End env.

(** ** Frames of quarantine *)
Lemma set_bo_other i f s : srv_fp (set_bo i f s) = srv_fp s ∧ srv_hw (set_bo i f s) = srv_hw s.
Proof. done. Qed.

Section frames.
Context `{E : Env}.

Lemma quarantine_release_passed i s b :
  quarantine_passed (quarantine_release i s) b = quarantine_passed s b.
Proof.
  unfold quarantine_passed.
  assert (srv_fp (quarantine_release i s) = srv_fp s) as ->.
  { unfold quarantine_release, block_put. repeat case_match; done. }
  assert (hw_tlb_gen (srv_hw (quarantine_release i s)) = hw_tlb_gen (srv_hw s)) as ->; [|done].
  destruct (quarantine_release_tab i s) as (_ & _ & _ & _ & _ & _ & _ & ->).
  unfold v3da_hw_va_free. repeat case_match; done.
Qed.

Lemma quarantine_poll_one_bos i s j :
  srv_bos (quarantine_poll_one i s) j =
    (if decide (i = j) then (if quarantine_passed s (srv_bos s i) then bo0 else srv_bos s i) else srv_bos s j) ∧
  (∀ b, quarantine_passed (quarantine_poll_one i s) b = quarantine_passed s b).
Proof.
  unfold quarantine_poll_one. destruct (quarantine_passed s (srv_bos s i)) eqn:Hp.
  - split; [apply quarantine_release_bos|]. intros. apply quarantine_release_passed.
  - split; [|done]. case_decide; [by subst|done].
Qed.

Lemma quarantine_poll_bos s :
  (∀ j, srv_bos (v3da_bo_quarantine_poll s) j =
     if bool_decide (0 ≤ j < nbos (srv_bo s)) && quarantine_passed s (srv_bos s j) then bo0 else srv_bos s j) ∧
  nbos (srv_bo (v3da_bo_quarantine_poll s)) = nbos (srv_bo s).
Proof.
  unfold v3da_bo_quarantine_poll.
  pose proof (for_ind (λ n s', (∀ j, srv_bos s' j =
     if bool_decide (0 ≤ j < n) && quarantine_passed s (srv_bos s j) then bo0 else srv_bos s j) ∧
     nbos (srv_bo s') = nbos (srv_bo s) ∧ (∀ b, quarantine_passed s' b = quarantine_passed s b))
     0 (nbos (srv_bo s)) quarantine_poll_one s) as H.
  destruct H as (H1 & H2 & _).
  - split_and!; try done. intros j. rewrite bool_decide_eq_false_2 by lia. done.
  - intros i s' Hi (Hb & Hn & Hp). split_and!.
    + intros j. destruct (quarantine_poll_one_bos i s' j) as [-> _]. rewrite Hp, !Hb.
      rewrite (bool_decide_eq_false_2 (0 ≤ i < i)) by lia. simpl.
      destruct (decide (i = j)) as [->|Hne].
      * rewrite bool_decide_eq_true_2 by lia. done.
      * assert (bool_decide (0 ≤ j < i + 1) = bool_decide (0 ≤ j < i)) as -> by (apply bool_decide_ext; lia). done.
    + by rewrite quarantine_poll_one_n.
    + intros b. destruct (quarantine_poll_one_bos i s' 0) as [_ ->]. apply Hp.
  - split; [|done]. intros j. rewrite H1.
    destruct (decide (0 ≤ j < nbos (srv_bo s))) as [Hj|Hj].
    + rewrite !bool_decide_eq_true_2 by lia. done.
    + rewrite !bool_decide_eq_false_2 by lia. done.
Qed.

Lemma bo_unref_bos i s j : i ≠ j → srv_bos (bo_unref i s) j = srv_bos s j.
Proof.
  intros Hne. unfold bo_unref. set (s1 := set_bo i _ s).
  assert (srv_bos s1 j = srv_bos s j) as <- by (by apply set_bo_ne). clearbody s1.
  assert (srv_bos (export_withdraw i s1) j = srv_bos s1 j) as E1.
  { rewrite export_withdraw_bos. by rewrite decide_False. }
  case_match; [|done]. case_match; [|done]. rewrite <- E1.
  destruct (quarantine_begin_spec i (export_withdraw i s1)) as (_ & -> & _). by rewrite decide_False.
Qed.

Lemma client_gone_one_bos c i s j : i ≠ j → srv_bos (client_gone_one c i s) j = srv_bos s j.
Proof.
  intros Hne. unfold client_gone_one. case_match; [done|].
  set (s1 := if _ =? c then _ else s).
  assert (srv_bos s1 j = srv_bos s j) as <-.
  { unfold s1. case_match; [|done]. rewrite bo_unref_bos by done. by apply set_bo_ne. }
  case_match; [|done]. rewrite bo_unref_bos by done. by apply set_bo_ne.
Qed.
(** After the last reference goes the object is not live, or is only pinned. *)
Lemma bo_unref_self i s :
  let b' := srv_bos (bo_unref i s) i in
  bo_state (srv_bos s i) = V3DA_BO_LIVE → 
  (bo_state b' = V3DA_BO_LIVE → bo_owner b' = bo_owner (srv_bos s i) ∧ bo_sharers b' = bo_sharers (srv_bos s i) ∧
    bo_fd_opens b' = bo_fd_opens (srv_bos s i) ∧ bo_handle b' = bo_handle (srv_bos s i)).
Proof.
  cbv zeta. intros Hst. unfold bo_unref. set (f := λ b : v3da_bo_t, b <| bo_refs ::= _ |>).
  set (s1 := set_bo i f s). assert (srv_bos s1 i = f (srv_bos s i)) as E1 by apply set_bo_eq.
  clearbody s1. case_match; [|by rewrite E1].
  assert (srv_bos (export_withdraw i s1) i = srv_bos s1 i <| bo_exported := false |>) as E2.
  { rewrite export_withdraw_bos. by rewrite decide_True. }
  case_match; [|by rewrite E2, E1].
  destruct (quarantine_begin_spec i (export_withdraw i s1)) as (_ & -> & _). by rewrite decide_True.
Qed.
End frames.

Section gone.
Context `{E : Env}.

Lemma has_ldiff m b : has (Z.ldiff m b) b = false.
Proof.
  unfold has. apply negb_false_iff, Z.eqb_eq, Z.bits_inj_0. intros n.
  rewrite Z.land_spec. destruct (Z_lt_ge_dec n 0); [by rewrite !Z.testbit_neg_r|].
  rewrite Z.ldiff_spec by lia. by destruct (Z.testbit m n), (Z.testbit b n).
Qed.

Lemma no_holders c b : 1 ≤ c → bo_sane b → holders b = 0 → bo_held_by c b = false.
Proof.
  intros Hc (Ho & Hf & _) Hh. unfold holders in Hh. pose proof (sharer_count_bounds (bo_sharers b)).
  unfold bo_held_by. apply orb_false_iff. split.
  - destruct (bo_owner b =? 0) eqn:E0; simpl in *; lia.
  - destruct (has (bo_sharers b) (client_bit c)) eqn:Hb; [|done]. apply has_client_bit in Hb as [Hr Hb].
    pose proof (countZ_ge (Z.testbit (bo_sharers b)) 0 V3DA_MAX_CLIENTS (c - 1) ltac:(lia) Hb).
    unfold sharer_count in *. destruct (negb _); simpl in *; lia.
Qed.

Lemma client_gone_one_free extra c i s :
  1 ≤ c → bo_inv extra None s → 0 ≤ i < nbos (srv_bo s) →
  bo_state (srv_bos (client_gone_one c i s) i) = V3DA_BO_LIVE →
  bo_held_by c (srv_bos (client_gone_one c i s) i) = false.
Proof.
  intros Hc Hinv Hi. unfold client_gone_one.
  destruct (decide (bo_state (srv_bos s i) = V3DA_BO_LIVE)) as [Hst|Hst];
    [rewrite (bool_decide_eq_true_2 _ Hst)|by rewrite (bool_decide_eq_false_2 _ Hst)].
  cbn [negb orb]. case_match eqn:Hz; zify_bools.
  { intros _. destruct (live_local _ _ _ Hinv Hi Hst) as (_ & Hr & Hs & _). apply no_holders; [done|done|lia]. }
  set (s1 := if _ =? c then _ else s).
  assert (bo_state (srv_bos s1 i) = V3DA_BO_LIVE → (bo_owner (srv_bos s1 i) =? c) = false) as H1.
  { unfold s1. destruct (bo_owner (srv_bos s i) =? c) eqn:Ho; [|done]. intros Hst1.
    set (f := λ b : v3da_bo_t, b <| bo_owner := 0 |>) in *.
    assert (srv_bos (set_bo i f s) i = f (srv_bos s i)) as Ef by apply set_bo_eq.
    destruct (bo_unref_self i (set_bo i f s)) as (Eo & _); [by rewrite Ef|done|].
    rewrite Eo, Ef. apply Z.eqb_neq. unfold f. simpl. lia. }
  clearbody s1. unfold bo_held_by. case_match eqn:E2.
  - apply andb_true_iff in E2 as [E2 E3]. apply bool_decide_eq_true in E2. specialize (H1 E2).
    set (f := λ b : v3da_bo_t, b <| bo_sharers ::= λ m, Z.ldiff m (client_bit c) |>).
    assert (srv_bos (set_bo i f s1) i = f (srv_bos s1 i)) as Ef by apply set_bo_eq. intros Hst2.
    destruct (bo_unref_self i (set_bo i f s1)) as (Eo & Es & _); [by rewrite Ef|done|].
    rewrite Eo, Es, Ef. unfold f. simpl. by rewrite H1, has_ldiff.
  - intros Hst1. rewrite (bool_decide_eq_true_2 _ Hst1) in E2. simpl in E2. by rewrite E2, H1.
Qed.

(** C31: once a client's teardown has run, no live object names it as creator or
    importer, whatever it held, in any state the table can reach. *)
Theorem v3da_bo_client_gone_drops extra c s i :
  bo_reach extra s → 1 ≤ c → 0 ≤ i < nbos (srv_bo s) →
  let b' := srv_bos (v3da_bo_client_gone c s) i in
  bo_state b' = V3DA_BO_LIVE → bo_held_by c b' = false.
Proof.
  intros Hinv%bo_reach_inv Hc Hi. cbv zeta. unfold v3da_bo_client_gone.
  pose proof (for_ind (λ n s', bo_inv extra None s' ∧ nbos (srv_bo s') = nbos (srv_bo s) ∧
    ∀ j, 0 ≤ j < n → bo_state (srv_bos s' j) = V3DA_BO_LIVE → bo_held_by c (srv_bos s' j) = false)
    0 (nbos (srv_bo s)) (client_gone_one c) s) as H.
  destruct H as (_ & _ & H).
  - split_and!; try done. lia.
  - intros k s' Hk (H1 & H2 & H3).
    destruct (client_gone_one_inv extra c k s' Hc H1 ltac:(lia)) as [H4 H5].
    split_and!; [done|lia|]. intros j Hj Hst. destruct (decide (k = j)) as [->|Hne].
    + apply (client_gone_one_free extra); try done. lia.
    + rewrite client_gone_one_bos in * by done. apply H3; [lia|done].
  - set (s' := for_ _ _ _ s) in *. destruct (quarantine_poll_bos s') as [-> _].
    case_match; [done|]. apply H. lia.
Qed.
End gone.

Section props.
Context `{E : Env}.

(** In a consistent table the bound on the slot is implied by the object's state. *)
Lemma bo_lookup_alt s h :
  table_inv None s → 0 ≤ h →
  bo_lookup s h = let i := Z.land h V3DA_HANDLE_SLOT_MASK - 1 in
    if (0 <=? i) && bool_decide (bo_state (srv_bos s i) = V3DA_BO_LIVE) && (bo_handle (srv_bos s i) =? h)
    then Some i else None.
Proof.
  intros Ht Hh. unfold bo_lookup. pose proof (land_mask_nonneg h Hh). set (sl := Z.land h _) in *. cbv zeta.
  destruct (decide (sl = 0)) as [E0|E0].
  { rewrite E0. simpl. replace (0 <=? 0 - 1) with false by lia. done. }
  replace (sl =? 0) with false by lia. replace (0 <=? sl - 1) with true by lia. simpl.
  destruct (nbos (srv_bo s) <? sl) eqn:Hn; [|done]. zify_bools.
  rewrite (ti_fresh _ _ Ht) by lia. done.
Qed.

Lemma v3da_bo_find_ext s s' h :
  table_inv None s → table_inv None s' → 0 ≤ h →
  (∀ i, i + 1 = Z.land h V3DA_HANDLE_SLOT_MASK → srv_bos s' i = srv_bos s i) →
  v3da_bo_find s' h = v3da_bo_find s h.
Proof.
  intros Ht Ht' Hh Hb. unfold v3da_bo_find. rewrite !bo_lookup_alt by done. cbv zeta.
  rewrite (Hb (Z.land h V3DA_HANDLE_SLOT_MASK - 1)) by lia.
  destruct (_ && _); [|done]. by rewrite (Hb (Z.land h V3DA_HANDLE_SLOT_MASK - 1)) by lia.
Qed.

Lemma bo_find_free s h i :
  table_inv None s → 0 ≤ h → Z.land h V3DA_HANDLE_SLOT_MASK = i + 1 →
  bo_state (srv_bos s i) = V3DA_BO_FREE → v3da_bo_find s h = None.
Proof.
  intros Ht Hh Hsl Hst. unfold v3da_bo_find. rewrite bo_lookup_alt by done. cbv zeta.
  rewrite Hsl. replace (i + 1 - 1) with i by lia. rewrite Hst.
  assert (bool_decide (V3DA_BO_FREE = V3DA_BO_LIVE) = false) as -> by done. by rewrite andb_false_r.
Qed.

Lemma next_bo_gen_ne g : 0 ≤ g → next_bo_gen g mod 2 ^ 19 ≠ g mod 2 ^ 19.
Proof.
  intros Hg. unfold next_bo_gen. change (Z.shiftr 0xffffffff V3DA_HANDLE_SLOT_BITS) with (Z.ones 19).
  rewrite Z.land_ones by done. unfold u32.
  assert (((g + 1) mod 2 ^ 32) mod 2 ^ 19 = (g + 1) mod 2 ^ 19) as Em.
  { apply Z.mod_mod_divide. by exists (2 ^ 13). }
  rewrite Em. pose proof (Z.mod_pos_bound g (2 ^ 19) ltac:(done)).
  pose proof (Z.add_mod g 1 (2 ^ 19) ltac:(done)) as Ha. change (1 mod 2 ^ 19) with 1 in Ha.
  destruct (Z.eq_dec (g mod 2 ^ 19) (2 ^ 19 - 1)) as [Eg|Eg].
  - rewrite Ha, Eg. done.
  - assert ((g + 1) mod 2 ^ 19 = g mod 2 ^ 19 + 1) as Hs by (rewrite Ha; apply Z.mod_small; lia).
    rewrite Hs. case_match eqn:Hz; zify_bools; [lia|]. rewrite Em, Hs. lia.
Qed.

(** C20: creating a buffer object either fails and changes no handle, or makes a
    handle that only now resolves, held once by its creator, of the size asked for,
    mapped on every page; every other handle resolves as before, and the handle of the
    slot's previous object stays dead. *)
Theorem v3da_bo_create_spec extra c size flags s rc u s' :
  bo_reach extra s → 1 ≤ c ≤ V3DA_MAX_CLIENTS → 0 ≤ size → v3da_bo_create c size flags s = (rc, u, s') →
  (rc ≠ 0 ∧ u = R_none ∧ ∀ h, 0 ≤ h → v3da_bo_find s' h = v3da_bo_find s h) ∨
  (rc = 0 ∧ ∃ r i, u = R_bo_create r ∧ let b := srv_bos s' i in
    v3da_bo_find s (bcr_handle r) = None ∧ v3da_bo_find s' (bcr_handle r) = Some i ∧
    v3da_bo_find s' (make_handle (bo_gen (srv_bo s) i) i) = None ∧
    (∀ h, 0 ≤ h → h ≠ bcr_handle r → v3da_bo_find s' h = v3da_bo_find s h) ∧
    bo_owner b = c ∧ bo_refs b = 1 ∧ bo_inflight b = 0 ∧ bo_gpuva b = bcr_gpuva r ∧
    size ≤ bo_pages b * PAGE_SIZE < size + 2 * PAGE_SIZE ∧
    ∀ p, covers (mkHole (bcr_gpuva r) (bo_pages b)) p → hw_pt (srv_hw s') p ≠ 0).
Proof.
  intros Hinv%bo_reach_inv Hc Hsz Heq. pose proof (bo_create_cases extra c size flags s ltac:(lia) Hsz Hinv) as H.
  rewrite Heq in H. clear Heq.
  destruct H as [(Hrc & Hu & Hinv' & Hb)|(Hrc & i & s1 & b & mem & Hinv1 & Eb1 & En1 & Eg1 & Hcr & Ho & Hp & Hf & Hu)]; [left|right].
  { split_and!; try done. intros h Hh. apply v3da_bo_find_ext; [apply Hinv|apply Hinv'|done|].
    intros. unfold srv_bos. by rewrite Hb. }
  split; [done|]. eexists _, i. split; [exact Hu|]. cbn [bcr_handle bcr_gpuva]. cbv zeta.
  pose proof (new_object_inv _ _ _ _ _ Hinv1 Hcr) as Hinv'.
  pose proof (cr_slot _ _ _ _ Hcr) as Hi. pose proof (cr_bos _ _ _ _ Hcr) as Hbos.
  pose proof (ti_n _ _ (bi_table _ _ _ Hinv1)) as Hn.
  pose proof (ti_gen _ _ (bi_table _ _ _ Hinv1) i) as Hg.
  assert (srv_bos s' i = b) as Ebi by (by rewrite Hbos, decide_True).
  rewrite Ebi, (cr_handle _ _ _ _ Hcr), Eg1 in *. set (g := bo_gen (srv_bo s) i) in *.
  pose proof (next_bo_gen_nonneg g Hg) as Hg'.
  pose proof (make_handle_slot (next_bo_gen g) i ltac:(lia)) as Hsl.
  pose proof (make_handle_slot g i ltac:(lia)) as Hsl0.
  assert (∀ g, 0 ≤ make_handle g i) as Hpos.
  { intros g0. unfold make_handle. apply Z.lor_nonneg. split; [apply u32_range|lia]. }
  assert (bo_state (srv_bos s i) = V3DA_BO_FREE) as Hfree by (rewrite <- (cr_free _ _ _ _ Hcr); unfold srv_bos; by rewrite Eb1).
  assert (∀ h, 0 ≤ h → h ≠ make_handle (next_bo_gen g) i → v3da_bo_find s' h = v3da_bo_find s h) as Hother.
  { intros h Hh Hne. destruct (decide (i + 1 = Z.land h V3DA_HANDLE_SLOT_MASK)) as [Es|Es].
    - rewrite (bo_find_free s h i) by (done || apply Hinv).
      unfold v3da_bo_find. rewrite bo_lookup_alt by (done || apply Hinv'). cbv zeta.
      replace (Z.land h V3DA_HANDLE_SLOT_MASK - 1) with i by lia. rewrite Ebi.
      rewrite (cr_handle _ _ _ _ Hcr), Eg1. fold g. replace (make_handle (next_bo_gen g) i =? h) with false by lia.
      by rewrite !andb_false_r.
    - apply v3da_bo_find_ext; [apply Hinv|apply Hinv'|done|]. intros j Hj.
      rewrite Hbos, decide_False by congruence. unfold srv_bos. by rewrite Eb1. }
  split_and!; try done.
  - by apply (bo_find_free s _ i); [apply Hinv|..].
  - unfold v3da_bo_find. rewrite bo_lookup_alt by (done || apply Hinv'). cbv zeta. rewrite Hsl.
    replace (i + 1 - 1) with i by lia. rewrite Ebi, (cr_handle _ _ _ _ Hcr), Eg1. fold g.
    rewrite (bool_decide_eq_true_2 _ (cr_state _ _ _ _ Hcr)), Z.eqb_refl.
    replace (0 <=? i) with true by lia. simpl. rewrite Ebi, (cr_refs _ _ _ _ Hcr). done.
  - destruct (decide (make_handle g i = make_handle (next_bo_gen g) i)) as [Heq|Hne].
    { apply make_handle_inj in Heq as [_ Hm]; try lia. by destruct (next_bo_gen_ne g Hg). }
    rewrite Hother by done. by apply (bo_find_free s _ i); [apply Hinv|..].
  - apply Hcr.
  - rewrite Hp. unfold PAGE_SIZE. pose proof (Z.div_mod (size + 4096 - 1) 4096 ltac:(done)).
    pose proof (Z.mod_pos_bound (size + 4096 - 1) 4096 ltac:(done)). lia.
  - rewrite Hp. unfold PAGE_SIZE. pose proof (Z.div_mod (size + 4096 - 1) 4096 ltac:(done)).
    pose proof (Z.mod_pos_bound (size + 4096 - 1) 4096 ltac:(done)). lia.
  - intros p Hcov. apply (mi_pt _ _ (bi_map _ _ _ Hinv')). left. exists i.
    rewrite (cr_n _ _ _ _ Hcr). split_and!; [lia|lia|..].
    + change (bos (srv_bo s') i) with (srv_bos s' i). rewrite Ebi. apply Hcr.
    + change (bos (srv_bo s') i) with (srv_bos s' i). by rewrite Ebi.
Qed.

(** C14: in every reachable state, a live object's reference count is the number of
    its holders (its creator, the clients that imported it, the descriptors open on its
    name), its handle names its slot and the slot's generation, and it is without a
    reference only while a job pins it; a quarantined object has no reference, no pin and
    no published name. *)
Theorem bo_refs_accounted extra s i :
  bo_reach extra s → 0 ≤ i < nbos (srv_bo s) →
  let b := srv_bos s i in
  (bo_state b = V3DA_BO_LIVE →
     bo_refs b = b2z (negb (bo_owner b =? 0)) + countZ (Z.testbit (bo_sharers b)) 0 V3DA_MAX_CLIENTS + bo_fd_opens b ∧
     bo_handle b = make_handle (bo_gen (srv_bo s) i) i ∧
     (bo_refs b = 0 → bo_exported b = false ∧ 0 < bo_inflight b)) ∧
  (bo_state b = V3DA_BO_QUARANTINE → bo_refs b = 0 ∧ bo_inflight b = 0 ∧ bo_exported b = false).
Proof.
  intros Hinv%bo_reach_inv Hi. cbv zeta. split.
  - intros Hst. destruct (live_local _ _ _ Hinv Hi Hst) as (Hh & Hr & _ & Hz). done.
  - intros Hst. pose proof (ti_local _ _ (bi_table _ _ _ Hinv) i Hi ltac:(done)) as Hloc.
    unfold bo_local in Hloc. rewrite Hst in Hloc. destruct Hloc as (? & ? & ? & _). done.
Qed.

(** C11: in every reachable state no two objects the table holds, live or
    quarantined, share a page of GPU address space, and none shares one with the
    binner-overflow pool. *)
Theorem bo_pages_disjoint extra s i j p :
  bo_reach extra s → 0 ≤ i < nbos (srv_bo s) → 0 ≤ j < nbos (srv_bo s) →
  let pages k := mkHole (bo_gpuva (srv_bos s k)) (bo_pages (srv_bos s k)) in
  bo_state (srv_bos s i) ≠ V3DA_BO_FREE → covers (pages i) p →
  (bo_state (srv_bos s j) ≠ V3DA_BO_FREE → covers (pages j) p → i = j) ∧
  (∀ h, h ∈ extra → ~ covers h p).
Proof.
  intros Hinv%bo_reach_inv Hi Hj. cbv zeta. intros Hst Hc.
  assert (∀ k, bo_state (srv_bos s k) ≠ V3DA_BO_FREE →
    held (srv_bos s k) = Some (mkHole (bo_gpuva (srv_bos s k)) (bo_pages (srv_bos s k)))) as Hheld.
  { intros k Hk. unfold held. by destruct (bo_state (srv_bos s k)). }
  split.
  - intros Hst' Hc'. destruct (decide (i = j)) as [|Hne]; [done|]. exfalso.
    by eapply (held_disj extra s i j); [apply Hinv|done|done|done|apply Hheld|apply Hheld|..].
  - intros h Hh Hch. by eapply (held_extra_disj extra s i); [apply Hinv|done|apply Hheld|..].
Qed.

(** C12: in every reachable state the GPU page table has an entry for exactly the pages of
    live objects and of the binner-overflow pool: a free or quarantined object's pages
    fault. *)
Theorem bo_page_table_exact extra s p :
  bo_reach extra s →
  hw_pt (srv_hw s) p ≠ 0 ↔
  (∃ i, 0 ≤ i < nbos (srv_bo s) ∧ bo_state (srv_bos s i) = V3DA_BO_LIVE ∧
        covers (mkHole (bo_gpuva (srv_bos s i)) (bo_pages (srv_bos s i))) p) ∨
  (∃ h, h ∈ extra ∧ covers h p).
Proof. intros Hinv%bo_reach_inv. apply (mi_pt _ _ (bi_map _ _ _ Hinv)). Qed.

(** C32: in every reachable state the low-memory account is the sum of the footprints
    of the objects placed low and is within the budget, and the counts of exported and
    imported objects are exact. *)
Theorem bo_low_within_budget extra s :
  bo_reach extra s →
  sumZ (λ i, if bo_low (srv_bos s i) then v3da_lowmem_footprint (bo_pages (srv_bos s i)) PAGE_SIZE else 0)
    0 (nbos (srv_bo s)) = low_live (srv_bo s) ∧
  low_live (srv_bo s) ≤ low_budget (srv_bo s) ∧
  exports (srv_bo s) = countZ (λ i, bo_exported (srv_bos s i)) 0 (nbos (srv_bo s)) ∧
  imports (srv_bo s) = countZ (λ i, bo_imported (srv_bos s i)) 0 (nbos (srv_bo s)).
Proof. intros [[] _]%bo_reach_inv. unfold low_bytes in *. split_and!; congruence || done. Qed.

(** C13: a poll of the quarantine takes an object back exactly when it is quarantined,
    its unmap has been flushed from the TLB, and every queue has completed as many jobs
    as it had been given when the object was quarantined; every other object is left
    alone. *)
Theorem v3da_bo_quarantine_poll_spec s i :
  0 ≤ i < nbos (srv_bo s) →
  let b := srv_bos s i in let b' := srv_bos (v3da_bo_quarantine_poll s) i in
  (b' = b ∨ b' = bo0) ∧
  (b' = bo0 ∧ b ≠ bo0 →
     bo_state b = V3DA_BO_QUARANTINE ∧ bo_clear_pt_gen b ≤ hw_tlb_gen (srv_hw s) ∧
     ∀ qu, 0 ≤ qu < V3DA_Q_COUNT → bo_pass b qu ≤ fp_hw_completed (srv_fp s) qu) ∧
  (bo_state b = V3DA_BO_QUARANTINE → bo_clear_pt_gen b ≤ hw_tlb_gen (srv_hw s) →
     (∀ qu, 0 ≤ qu < V3DA_Q_COUNT → bo_pass b qu ≤ fp_hw_completed (srv_fp s) qu) → b' = bo0).
Proof.
  intros Hi. cbv zeta. destruct (quarantine_poll_bos s) as [-> _].
  rewrite (bool_decide_eq_true_2 (0 ≤ i < nbos (srv_bo s)) Hi). cbn [andb].
  set (b := srv_bos s i).
  assert (quarantine_passed s b = true ↔ bo_state b = V3DA_BO_QUARANTINE ∧ bo_clear_pt_gen b ≤ hw_tlb_gen (srv_hw s) ∧
     ∀ qu, 0 ≤ qu < V3DA_Q_COUNT → bo_pass b qu ≤ fp_hw_completed (srv_fp s) qu) as Hp.
  { unfold quarantine_passed. rewrite !andb_true_iff, bool_decide_eq_true, Z.leb_le. destruct (find_first _ _ _) as [qu|] eqn:Hf.
    - apply find_first_Some in Hf as (Hq & Hlt & _). zify_bools. split; [intros [_ ?]; done|].
      intros (_ & _ & H). specialize (H qu Hq). lia.
    - pose proof (find_first_None _ _ _ Hf) as Hn. split; [|intros (? & ? & _); done].
      intros [[? ?] _]. split_and!; try done. intros qu Hq. by apply Z.ltb_ge, Hn. }
  destruct (quarantine_passed s b) eqn:Eq.
  - split_and!; [by right|intros _; by apply Hp|done].
  - split_and!; [by left|by intros [-> ?]|]. intros H1 H2 H3. exfalso. assert (false = true) as Hx; [|done].
    apply Hp. done.
Qed.

(** What dropping a reference leaves of the object. *)
Lemma bo_unref_at i s :
  0 < bo_refs (srv_bos s i) →
  let b := srv_bos s i in let b' := srv_bos (bo_unref i s) i in
  if bo_refs b =? 1 then
    bo_refs b' = 0 ∧ bo_state b' = (if bo_inflight b =? 0 then V3DA_BO_QUARANTINE else bo_state b) ∧
    bo_gpuva b' = bo_gpuva b ∧ bo_pages b' = bo_pages b
  else b' = b <| bo_refs := bo_refs b - 1 |>.
Proof.
  intros Hr. cbv zeta. unfold bo_unref. set (f := λ b : v3da_bo_t, b <| bo_refs ::= _ |>).
  set (s1 := set_bo i f s).
  assert (srv_bos s1 i = srv_bos s i <| bo_refs := bo_refs (srv_bos s i) - 1 |>) as E1.
  { unfold s1. rewrite set_bo_eq. unfold f. simpl. by replace (0 <? bo_refs (srv_bos s i)) with true by lia. }
  clearbody s1. rewrite E1. cbn [bo_refs upd].
  replace (bo_refs (srv_bos s i <| bo_refs := bo_refs (srv_bos s i) - 1 |>)) with (bo_refs (srv_bos s i) - 1) by done.
  destruct (bo_refs (srv_bos s i) =? 1) eqn:E0; zify_bools.
  - replace (bo_refs (srv_bos s i) - 1 =? 0) with true by lia.
    assert (srv_bos (export_withdraw i s1) i = srv_bos s1 i <| bo_exported := false |>) as E2.
    { rewrite export_withdraw_bos. by rewrite decide_True. }
    rewrite E2, E1. change (bo_inflight _) with (bo_inflight (srv_bos s i)).
    destruct (bo_inflight (srv_bos s i) =? 0).
    + destruct (quarantine_begin_spec i (export_withdraw i s1)) as (_ & -> & _).
      rewrite decide_True by done. rewrite E2, E1, E0. done.
    + rewrite E2, E1, E0. done.
  - replace (bo_refs (srv_bos s i) - 1 =? 0) with false by lia. done.
Qed.

(** Pages of an object no longer live fault, as long as only it changed state. *)
Lemma unmapped extra s s' i p :
  bo_inv extra None s → bo_inv extra None s' → 0 ≤ i < nbos (srv_bo s) → nbos (srv_bo s') = nbos (srv_bo s) →
  bo_state (srv_bos s i) = V3DA_BO_LIVE → bo_state (srv_bos s' i) ≠ V3DA_BO_LIVE →
  (∀ j, j ≠ i → srv_bos s' j = srv_bos s j ∨ srv_bos s' j = bo0) →
  covers (mkHole (bo_gpuva (srv_bos s i)) (bo_pages (srv_bos s i))) p → hw_pt (srv_hw s') p = 0.
Proof.
  intros Hinv Hinv' Hi En Hst Hst' Hj Hc. destruct (Z.eq_dec (hw_pt (srv_hw s') p) 0) as [|Hne]; [done|exfalso].
  assert (held (srv_bos s i) = Some (mkHole (bo_gpuva (srv_bos s i)) (bo_pages (srv_bos s i)))) as Hh
    by (unfold held; by rewrite Hst).
  apply (mi_pt _ _ (bi_map _ _ _ Hinv')) in Hne as [(j & Hjr & Hjst & Hjc)|(h & Hhe & Hhc)].
  - change (bos (srv_bo s') j) with (srv_bos s' j) in *.
    assert (j ≠ i) as Hji by (intros ->; done).
    destruct (Hj j Hji) as [Eb|Eb]; rewrite Eb in *; [|done].
    eapply (held_disj extra s i j); [apply Hinv|done|done|lia|exact Hh| |exact Hc|exact Hjc].
    unfold held. by rewrite Hjst.
  - by eapply (held_extra_disj extra s i); [apply Hinv|done|exact Hh|..].
Qed.

Lemma poll_other s j :
  srv_bos (v3da_bo_quarantine_poll s) j = srv_bos s j ∨ srv_bos (v3da_bo_quarantine_poll s) j = bo0.
Proof. destruct (quarantine_poll_bos s) as [-> _]. case_match; [by right|by left]. Qed.

Lemma poll_live s j :
  bo_state (srv_bos s j) = V3DA_BO_LIVE → srv_bos (v3da_bo_quarantine_poll s) j = srv_bos s j.
Proof.
  intros Hst. destruct (quarantine_poll_bos s) as [-> _].
  destruct (quarantine_passed s (srv_bos s j)) eqn:Hp; [|by rewrite andb_false_r].
  apply quarantine_passed_state in Hp. congruence.
Qed.

(** The request's body: one holder taken off, the reference dropped, a poll. *)
Lemma bo_close_unref c h s i :
  v3da_bo_find s h = Some i → has (bo_sharers (srv_bos s i)) (client_bit c) = true ∨ bo_owner (srv_bos s i) ≠ 0 →
  ∃ f, (v3da_bo_close c h s).2 = v3da_bo_quarantine_poll (bo_unref i (set_bo i f s)) ∧
    bo_refs (f (srv_bos s i)) = bo_refs (srv_bos s i) ∧ bo_state (f (srv_bos s i)) = bo_state (srv_bos s i) ∧
    bo_gpuva (f (srv_bos s i)) = bo_gpuva (srv_bos s i) ∧ bo_pages (f (srv_bos s i)) = bo_pages (srv_bos s i) ∧
    bo_inflight (f (srv_bos s i)) = bo_inflight (srv_bos s i) ∧ bo_handle (f (srv_bos s i)) = bo_handle (srv_bos s i).
Proof.
  intros Hf Hh. unfold v3da_bo_close. rewrite Hf. cbv zeta.
  destruct (has (bo_sharers (srv_bos s i)) (client_bit c)) eqn:Hs; [eexists; split; [done|]; done|].
  destruct Hh as [|Ho]; [done|]. replace (bo_owner (srv_bos s i) =? 0) with false by lia.
  eexists; split; [done|]; done.
Qed.

(** C21: closing a handle by a client that holds the object (or while its creator
    does) drops one reference.  While others remain the handle keeps resolving; with the
    last one the handle dies, and the object's pages are unmapped at once unless a job
    still pins it, in which case they stay mapped. *)
Theorem v3da_bo_close_spec extra c h s i :
  bo_reach extra s → 0 ≤ h → v3da_bo_find s h = Some i →
  has (bo_sharers (srv_bos s i)) (client_bit c) = true ∨ bo_owner (srv_bos s i) ≠ 0 →
  let b := srv_bos s i in let s' := (v3da_bo_close c h s).2 in
  (1 < bo_refs b → v3da_bo_find s' h = Some i ∧ bo_refs (srv_bos s' i) = bo_refs b - 1) ∧
  (bo_refs b = 1 → v3da_bo_find s' h = None ∧
     ∀ p, covers (mkHole (bo_gpuva b) (bo_pages b)) p → (hw_pt (srv_hw s') p = 0 ↔ bo_inflight b = 0)).
Proof.
  intros Hinv%bo_reach_inv Hh Hfind Hhold. cbv zeta.
  pose proof (bo_close_inv extra c h s Hinv Hh) as Hinv'.
  destruct (bo_close_unref c h s i Hfind Hhold) as (f & Es & Er & Est & Eg & Ep & Ei & Ehd).
  rewrite Es in *. clear Es. apply v3da_bo_find_Some in Hfind as [Hl Hpos].
  pose proof (bo_lookup_range _ _ _ Hh Hl) as Hi. apply bo_lookup_Some in Hl as (Hsl & _ & Hst & Hhd).
  set (s1 := set_bo i f s) in *. assert (srv_bos s1 i = f (srv_bos s i)) as Eb1 by apply set_bo_eq.
  pose proof (bo_unref_at i s1) as Hu. cbv zeta in Hu. rewrite Eb1, Er in Hu. specialize (Hu Hpos).
  assert (∀ j, j ≠ i → srv_bos (bo_unref i s1) j = srv_bos s j) as Hj.
  { intros j Hne. rewrite bo_unref_bos by done. by apply set_bo_ne. }
  assert (nbos (srv_bo (bo_unref i s1)) = nbos (srv_bo s)) as En by (by rewrite bo_unref_n).
  set (s2 := bo_unref i s1) in *. clearbody s2. set (s' := v3da_bo_quarantine_poll s2) in *.
  assert (nbos (srv_bo s') = nbos (srv_bo s)) as En' by (unfold s'; destruct (quarantine_poll_bos s2) as [_ ->]; done).
  assert (∀ j, v3da_bo_find s' h = Some j ↔ j = i ∧ bo_state (srv_bos s' i) = V3DA_BO_LIVE ∧
     bo_handle (srv_bos s' i) = h ∧ 0 < bo_refs (srv_bos s' i)) as Hfind'.
  { intros j. unfold v3da_bo_find. rewrite bo_lookup_alt by (done || apply Hinv'). cbv zeta.
    rewrite Hsl. replace (i + 1 - 1) with i by lia. replace (0 <=? i) with true by lia. cbn [andb].
    destruct (bool_decide _) eqn:H1, (bo_handle _ =? h) eqn:H2; cbn [andb];
      try apply bool_decide_eq_true in H1; try apply bool_decide_eq_false in H1; zify_bools;
      try (split; [done|tauto]).
    destruct (0 <? _) eqn:H3; zify_bools; (split; [intros; simplify_eq; by split_and!|intros (-> & _ & _ & ?)]); [done|lia]. }
  split.
  - intros Hr. replace (bo_refs (srv_bos s i) =? 1) with false in Hu by lia.
    assert (srv_bos s' i = srv_bos s2 i) as Eb by (apply poll_live; rewrite Hu; cbn; by rewrite Est).
    rewrite Eb, Hu in *. split; [|done]. apply Hfind'. simpl. rewrite Est, Ehd. split_and!; try done. lia.
  - intros Hr. rewrite Hr in Hu. simpl in Hu. destruct Hu as (Hr0 & Hst' & Eg' & Ep').
    rewrite Ei, Est in Hst'. split.
    + apply eq_None_not_Some. intros [j Hf]. apply Hfind' in Hf as (_ & _ & _ & Hf).
      destruct (poll_other s2 i) as [Eb|Eb]; fold s' in Eb; rewrite Eb in Hf; [lia|done].
    + intros p Hc. destruct (bo_inflight (srv_bos s i) =? 0) eqn:Ez; zify_bools.
      * split; [done|intros _]. apply (unmapped extra s s' i p); try done.
        -- destruct (poll_other s2 i) as [Eb|Eb]; fold s' in Eb; rewrite Eb; [by rewrite Hst'|done].
        -- intros j Hne. rewrite <- Hj by done. apply poll_other.
      * split; [|done]. intros H0. exfalso. revert H0. apply (mi_pt _ _ (bi_map _ _ _ Hinv')). left.
        assert (srv_bos s' i = srv_bos s2 i) as Eb by (apply poll_live; congruence).
        exists i. change (bos (srv_bo s') i) with (srv_bos s' i).
        rewrite Eb, Eg', Ep', Eg, Ep. split_and!; [lia|lia|congruence|done].
Qed.
End props.

(** ** Concrete runs *)
Definition run_created : v3da_srv_t := (v3da_bo_create 1 8192 V3DA_BO_LOWMEM srv0).2.
Definition run_closed : v3da_srv_t := (v3da_bo_close 1 (make_handle 1 0) run_created).2.

Lemma srv0_start : bo_start srv0.
Proof. unfold bo_start. split_and!; try reflexivity; done. Qed.
Lemma run_created_reach : bo_reach [] run_created.
Proof. apply (BR_step _ srv0); [apply BR_start, srv0_start|by apply BS_create]. Qed.

Lemma v3da_bo_client_gone_drops_witness :
  let b' := srv_bos (v3da_bo_client_gone 2 run_created) 0 in
  bo_state b' = V3DA_BO_LIVE ∧ bo_held_by 2 b' = false.
Proof.
  assert (bo_state (srv_bos (v3da_bo_client_gone 2 run_created) 0) = V3DA_BO_LIVE) as H by (vm_compute; reflexivity).
  split; [exact H|]. apply (v3da_bo_client_gone_drops [] 2 run_created 0 run_created_reach); [lia| |exact H].
  vm_compute. split; [discriminate|reflexivity].
Defined.

Lemma v3da_bo_create_spec_witness :
  (v3da_bo_create 1 8192 V3DA_BO_LOWMEM srv0).1.1 = 0 ∧ v3da_bo_find run_created (make_handle 0 0) = None.
Proof.
  destruct (v3da_bo_create 1 8192 V3DA_BO_LOWMEM srv0) as [[rc u] s'] eqn:Heq.
  assert (rc = 0 ∧ s' = run_created) as [Hrc ->].
  { unfold run_created. rewrite Heq. split; [|reflexivity].
    change rc with (rc, u, s').1.1. rewrite <- Heq. vm_compute. reflexivity. }
  split; [exact Hrc|].
  destruct (v3da_bo_create_spec [] 1 8192 V3DA_BO_LOWMEM srv0 rc u run_created (BR_start _ srv0_start)
    ltac:(vm_compute; split; discriminate) ltac:(lia) Heq) as [(Hne & _)|(_ & r & i & Hu & _ & Hf & Hstale & _)].
  - destruct (Hne Hrc).
  - assert (i = 0) as ->; [|exact Hstale].
    assert (i < nbos (srv_bo run_created)) as Hi.
    { apply v3da_bo_find_Some in Hf as [Hl _]. apply bo_lookup_Some in Hl as (_ & Hl & _). lia. }
    assert (0 ≤ i) as Hi0; [|change (nbos (srv_bo run_created)) with 1 in Hi; lia].
    apply v3da_bo_find_Some in Hf as [Hl _]. eapply bo_lookup_range; [|exact Hl].
    assert (R_bo_create r = (v3da_bo_create 1 8192 V3DA_BO_LOWMEM srv0).1.2) as Hr by (rewrite Heq; simpl; congruence).
    vm_compute in Hr. injection Hr as ->. vm_compute. discriminate.
Defined.

Lemma bo_refs_accounted_witness :
  bo_state (srv_bos run_created 0) = V3DA_BO_LIVE ∧
  bo_refs (srv_bos run_created 0) =
    b2z (negb (bo_owner (srv_bos run_created 0) =? 0)) +
    countZ (Z.testbit (bo_sharers (srv_bos run_created 0))) 0 V3DA_MAX_CLIENTS + bo_fd_opens (srv_bos run_created 0).
Proof.
  split; [vm_compute; reflexivity|].
  destruct (bo_refs_accounted [] run_created 0 run_created_reach ltac:(vm_compute; split; [discriminate|reflexivity])) as [H _].
  apply H. vm_compute. reflexivity.
Defined.

Lemma bo_pages_disjoint_witness :
  covers (mkHole (bo_gpuva (srv_bos run_created 0)) (bo_pages (srv_bos run_created 0))) 257 ∧
  ∀ h, h ∈ @nil hole → ~ covers h 257.
Proof.
  assert (covers (mkHole (bo_gpuva (srv_bos run_created 0)) (bo_pages (srv_bos run_created 0))) 257) as H
    by (vm_compute; split; [discriminate|reflexivity]).
  split; [exact H|].
  apply (bo_pages_disjoint [] run_created 0 0 257 run_created_reach); try exact H;
    vm_compute; try (split; [discriminate|reflexivity]); discriminate.
Defined.

Lemma bo_page_table_exact_witness :
  hw_pt (srv_hw run_created) 256 ≠ 0 ∧ hw_pt (srv_hw run_created) 258 = 0 ∧
  ∃ i, 0 ≤ i < nbos (srv_bo run_created) ∧ bo_state (srv_bos run_created i) = V3DA_BO_LIVE.
Proof.
  assert (hw_pt (srv_hw run_created) 256 ≠ 0) as H by (vm_compute; discriminate).
  split_and!; [exact H|vm_compute; reflexivity|].
  destruct (proj1 (bo_page_table_exact [] run_created 256 run_created_reach) H) as [(i & Hi & Hst & _)|(h & Hh & _)].
  - exists i. split; [exact Hi|exact Hst].
  - inversion Hh.
Defined.

Lemma bo_low_within_budget_witness :
  low_live (srv_bo run_created) = 8192 ∧ low_live (srv_bo run_created) ≤ low_budget (srv_bo run_created).
Proof.
  split; [vm_compute; reflexivity|]. apply (bo_low_within_budget [] run_created run_created_reach).
Defined.

Lemma v3da_bo_close_spec_witness :
  v3da_bo_find run_created (make_handle 1 0) = Some 0 ∧ v3da_bo_find run_closed (make_handle 1 0) = None ∧
  hw_pt (srv_hw run_closed) 256 = 0.
Proof.
  assert (v3da_bo_find run_created (make_handle 1 0) = Some 0) as Hf by (vm_compute; reflexivity).
  split; [exact Hf|].
  destruct (v3da_bo_close_spec [] 1 (make_handle 1 0) run_created 0 run_created_reach
    ltac:(vm_compute; discriminate) Hf ltac:(right; vm_compute; discriminate)) as [_ H].
  destruct H as [H1 H2]; [vm_compute; reflexivity|]. split; [exact H1|].
  apply H2; vm_compute; [split; [discriminate|reflexivity]|reflexivity].
Defined.

Lemma v3da_bo_quarantine_poll_spec_witness :
  bo_state (srv_bos (bo_unref 0 run_created) 0) = V3DA_BO_QUARANTINE ∧
  srv_bos (v3da_bo_quarantine_poll (bo_unref 0 run_created)) 0 = bo0.
Proof.
  split; [vm_compute; reflexivity|].
  destruct (v3da_bo_quarantine_poll_spec (bo_unref 0 run_created) 0
    ltac:(vm_compute; split; [discriminate|reflexivity])) as (_ & _ & H).
  apply H; [vm_compute; reflexivity|vm_compute; discriminate|].
  intros qu _. vm_compute. discriminate.
Defined.
