(* ===== verification/Ovf.v ===== *)
(** Binner-overflow memory (tools/gpu-lane/v3d-async/v3da_jobs.c, "Binner-overflow
    chunks"): one premapped pool cut into chunks linked through [ov_next]; a chunk is
    free, staged for the interrupt handler, or on the list of one job. *)
From S2P Require Import Prelude Proto State Hw Bo.

Definition OVF_POOL_BYTES := 32 * 1024 * 1024.

Section env.
Context `{E : Env}.

(** The pool's chunk size and count for [-c kib]. *)
Definition ovf_chunk_size (kib : Z) : Z :=
  let chunk := u32 (kib * 1024) in
  let chunk := if chunk <? 64 * 1024 then 64 * 1024 else chunk in
  let chunk := if OVF_POOL_BYTES <? chunk then OVF_POOL_BYTES else chunk in
  Z.ldiff chunk (PAGE_SIZE - 1).

Definition ovf_link_all (n : Z) (o : v3da_ovf_t) : v3da_ovf_t :=
  for_ 0 n (λ k o,
    let i := n - k in
    o <| ov_next ::= λ a, <[i - 1 := ov_free_head o]> a |> <| ov_free_head := i - 1 |>)
    (o <| ov_free_head := -1 |>).

Definition v3da_ovf_init (kib : Z) (s : v3da_srv_t) : Z * v3da_srv_t :=
  let chunk := ovf_chunk_size kib in
  let n := Z.min (OVF_POOL_BYTES / chunk) V3DA_MAX_CHUNKS in
  let s := s <| srv_ovf ::= λ o, o <| ov_chunk_bytes := chunk |> <| ov_nchunks := n |> |> in
  let '(rc, va, s) := v3da_bo_map_ovf_pool (n * chunk) s in
  if negb (rc =? 0) then (rc, s <| srv_ovf ; ov_nchunks := 0 |>)
  else
    (0, s <| srv_ovf ::= λ o,
          ovf_link_all n (o <| ov_gpuva := va |>) <| ov_nfree := n |> <| ov_staged := -1 |> |>).

(** ** The free list *)
Definition chunk_alloc (o : v3da_ovf_t) : Z * v3da_ovf_t :=
  let i := ov_free_head o in
  (i, if 0 <=? i
      then o <| ov_free_head := ov_next o i |> <| ov_next ::= λ a, <[i := -1]> a |>
             <| ov_nfree ::= λ n, u32 (n - 1) |>
      else o).

(** Walk a job's list back onto the free list; every chunk is visited at most once, so
    the chunk count bounds the walk. *)
Fixpoint chunk_free_walk (fuel : nat) (head : Z) (o : v3da_ovf_t) : v3da_ovf_t :=
  match fuel with
  | O => o
  | S fuel =>
      if 0 <=? head then
        let next := ov_next o head in
        chunk_free_walk fuel next
          (o <| ov_next ::= λ a, <[head := ov_free_head o]> a |> <| ov_free_head := head |>
             <| ov_nfree ::= λ n, u32 (n + 1) |>)
      else o
  end.

Definition chunk_free_list (head : Z) (s : v3da_srv_t) : v3da_srv_t :=
  s <| srv_ovf ::= chunk_free_walk (Z.to_nat V3DA_MAX_CHUNKS) head |>.

Definition j_ovf (s : v3da_srv_t) (j : Z) : Z :=
  match job s j with Some b => j_ovf_head b | None => -1 end.

Definition chunk_attach (j idx : Z) (s : v3da_srv_t) : v3da_srv_t :=
  set_job j (λ b, b <| j_ovf_head := idx |>)
    (s <| srv_ovf ; ov_next ::= λ a, <[idx := j_ovf s j]> a |>).

Definition chunk_va (o : v3da_ovf_t) (idx : Z) : Z := u32 (ov_gpuva o + u32 (idx * ov_chunk_bytes o)).

(** ** Handing chunks out *)
Definition ovf_stage (s : v3da_srv_t) : v3da_srv_t :=
  let o := srv_ovf s in
  if (0 <=? ov_staged o) || (ov_nchunks o =? 0) then s
  else
    let '(i, o) := chunk_alloc o in
    let s := s <| srv_ovf := o <| ov_staged := i |> |> in
    if i <? 0 then s
    else s <| srv_hw ; hw_ovf_stage_size := ov_chunk_bytes o |>
           <| srv_hw ; hw_ovf_stage_va := chunk_va o i |>.

Definition count_oom (s : v3da_srv_t) : v3da_srv_t :=
  set_q V3DA_Q_BIN (λ q, q <| q_st_oom ::= λ n, u32 (n + 1) |>) s.

Definition ovf_grant_direct (bin : Z) (s : v3da_srv_t) : bool * v3da_srv_t :=
  let '(idx, o) := chunk_alloc (srv_ovf s) in
  let s := s <| srv_ovf := o |> in
  if idx <? 0 then (false, s)
  else
    let s := emit (E_core PTB_BPOA (chunk_va o idx)) s in
    let s := emit (E_core PTB_BPOS (ov_chunk_bytes o)) s in
    (true, count_oom (chunk_attach bin idx s)).

(** [n] counts down with [ov_bin_waiting]. *)
Fixpoint ovf_grant_loop (n : nat) (bin : Z) (s : v3da_srv_t) : v3da_srv_t :=
  match n with
  | O => s
  | S n =>
      match ovf_grant_direct bin s with
      | (true, s) => ovf_grant_loop n bin (s <| srv_ovf ; ov_bin_waiting ::= λ x, x - 1 |>)
      | (false, s) => s
      end
  end.

(** The chunk the handler handed out now belongs to the active bin job. *)
Definition ovf_consume (s : v3da_srv_t) : v3da_srv_t :=
  let va := hw_ovf_consumed (srv_hw s) in
  let s := s <| srv_hw ; hw_ovf_consumed := 0 |> in
  let o := srv_ovf s in
  if negb (va =? 0) && negb (ov_chunk_bytes o =? 0) then
    let idx := u32 (va - ov_gpuva o) / ov_chunk_bytes o in
    let s := if idx =? ov_staged o then s <| srv_ovf ; ov_staged := -1 |> else s in
    match active s V3DA_Q_BIN with
    | Some bin => count_oom (chunk_attach bin idx s)
    | None => chunk_free_list idx s
    end
  else s.

Definition ovf_service (s : v3da_srv_t) : v3da_srv_t :=
  let bin := active s V3DA_Q_BIN in
  let s := ovf_consume s in
  let missed := hw_ovf_missed (srv_hw s) in
  let s := s <| srv_hw ; hw_ovf_missed := 0 |> in
  let s := match bin with
           | Some b =>
               let s := if negb (missed =? 0)
                        then s <| srv_ovf ::= λ o, o <| ov_starved ::= λ n, u32 (n + missed) |>
                                                     <| ov_bin_waiting ::= λ n, n + missed |> |>
                        else s in
               ovf_grant_loop (Z.to_nat (ov_bin_waiting (srv_ovf s))) b s
           | None => s <| srv_ovf ; ov_bin_waiting := 0 |>
           end in
  ovf_stage s.
End env.
