(* ===== verification/Waits.v ===== *)
(** Parked requests and syncobjs (tools/gpu-lane/v3d-async/v3da_sched.c): requests the
    server has received and not answered, and the objects some of them wait for. *)
From S2P Require Import Prelude Proto State Hw Fence.

Definition v3da_kick_event_thread (s : v3da_srv_t) : v3da_srv_t :=
  s <| srv_sched ; kick_pending := true |>.

(** ** Syncobjs: [ci] is the client's index, a handle is an index plus one *)
Definition v3da_syncobj_get (s : v3da_srv_t) (ci handle : Z) : option v3da_syncobj_t :=
  if (handle =? 0) || (V3DA_MAX_SYNCOBJS <? handle) then None
  else
    let so := c_sync (srv_client s ci) (handle - 1) in
    if so_used so then Some so else None.

Definition set_sync (ci i : Z) (f : v3da_syncobj_t → v3da_syncobj_t) : v3da_srv_t → v3da_srv_t :=
  set_client ci (λ c, c <| c_sync ::= λ a, <[i := f (a i)]> a |>).

Definition v3da_syncobj_create (ci flags : Z) (s : v3da_srv_t) : Z * Z * v3da_srv_t :=
  match find_first (λ i, negb (so_used (c_sync (srv_client s ci) i))) 0 V3DA_MAX_SYNCOBJS with
  | Some i =>
      (0, i + 1,
       set_sync ci i (λ _, mkSync true
         (if has flags V3DA_SYNCOBJ_CREATE_SIGNALED then V3DA_SYNC_SIGNALED else V3DA_SYNC_EMPTY) fence0) s)
  | None => (- ENOMEM, 0, s)
  end.

Definition v3da_syncobj_destroy (ci handle : Z) (s : v3da_srv_t) : Z * v3da_srv_t :=
  match v3da_syncobj_get s ci handle with
  | None => (- EINVAL, s)
  | Some _ => (0, v3da_kick_event_thread (set_sync ci (handle - 1) (λ o, o <| so_used := false |>) s))
  end.

Definition v3da_syncobj_reset (ci handle : Z) (s : v3da_srv_t) : Z * v3da_srv_t :=
  match v3da_syncobj_get s ci handle with
  | None => (- EINVAL, s)
  | Some _ => (0, set_sync ci (handle - 1) (λ o, o <| so_state := V3DA_SYNC_EMPTY |> <| so_fence := fence0 |>) s)
  end.

Definition v3da_syncobj_signal (ci handle : Z) (s : v3da_srv_t) : Z * v3da_srv_t :=
  match v3da_syncobj_get s ci handle with
  | None => (- EINVAL, s)
  | Some _ => (0, v3da_kick_event_thread (set_sync ci (handle - 1) (λ o, o <| so_state := V3DA_SYNC_SIGNALED |>) s))
  end.

Definition v3da_syncobj_import (ci handle : Z) (f : v3da_fence_t) (s : v3da_srv_t) : Z * v3da_srv_t :=
  match v3da_syncobj_get s ci handle with
  | None => (- EINVAL, s)
  | Some _ =>
      if f_seqno f =? 0
      then (0, v3da_kick_event_thread (set_sync ci (handle - 1) (λ o, o <| so_state := V3DA_SYNC_SIGNALED |>) s))
      else if v3da_fence_valid s f
      then (0, v3da_kick_event_thread
              (set_sync ci (handle - 1) (λ o, o <| so_state := V3DA_SYNC_FENCE |> <| so_fence := f |>) s))
      else (- EINVAL, s)
  end.

Definition v3da_syncobj_query (ci handle : Z) (s : v3da_srv_t) : Z * v3da_resp_u :=
  match v3da_syncobj_get s ci handle with
  | None => (- EINVAL, R_none)
  | Some o => (0, R_syncobj (mkSyncobjResp handle (so_state o) 0 (so_fence o)))
  end.

(** ** Evaluating a wait *)
Definition no_index := 0xffffffff.

(** One syncobj of a wait: [None] fails it, otherwise whether it has signalled. *)
Definition sync_ready (s : v3da_srv_t) (ci : Z) (for_submit : bool) (handle : Z) : option bool :=
  match v3da_syncobj_get s ci handle with
  | None => None
  | Some o =>
      match so_state o with
      | V3DA_SYNC_SIGNALED => Some true
      | V3DA_SYNC_FENCE => Some (signaled s (so_fence o))
      | V3DA_SYNC_EMPTY => if for_submit then Some false else None
      end
  end.

(** The scan over the handles: how many have signalled and the first that has. *)
Fixpoint sync_scan (s : v3da_srv_t) (ci : Z) (for_submit : bool) (i : Z) (hs : list Z)
    (nsig first : Z) : option (Z * Z) :=
  match hs with
  | [] => Some (nsig, first)
  | h :: hs =>
      match sync_ready s ci for_submit h with
      | None => None
      | Some true =>
          sync_scan s ci for_submit (i + 1) hs (nsig + 1) (if first =? no_index then i else first)
      | Some false => sync_scan s ci for_submit (i + 1) hs nsig first
      end
  end.

(** 1: satisfied, with the reply; 0: not yet; negative: fail now. *)
Definition wait_eval (s : v3da_srv_t) (w : v3da_wait_t) : Z * v3da_resp_u :=
  match w_kind w with
  | V3DA_WAIT_FENCE =>
      match w_fence w with
      | [] => (- EINVAL, R_none)
      | f :: _ =>
          let '(sig, err) := v3da_fence_signaled (srv_fp s) f in
          if sig then
            (1, R_fence_wait (mkFenceWaitResp (fp_completed (srv_fp s) (f_slot f) (f_queue f))
                  (b2z err) (u32 (f_seqno f))))
          else (0, R_none)
      end
  | V3DA_WAIT_BO =>
      if forallb (λ f, (f_seqno f =? 0) || signaled s f) (w_fence w) then (1, R_none) else (0, R_none)
  | V3DA_WAIT_SYNCOBJ =>
      match sync_scan s (w_client w - 1) (w_for_submit w) 0 (w_sync_handle w) 0 no_index with
      | None => (- EINVAL, R_none)
      | Some (nsig, first) =>
          if (w_all w && (nsig =? Z.of_nat (length (w_sync_handle w)))) || (negb (w_all w) && (0 <? nsig))
          then (1, R_syncobj (mkSyncobjResp 0 V3DA_SYNC_EMPTY (if first =? no_index then 0 else first) fence0))
          else (0, R_none)
      end
  end.

(** ** Claiming: the one way a request leaves the list *)
Definition wait_unlink (w : v3da_wait_t) (s : v3da_srv_t) : v3da_srv_t :=
  let s := s <| srv_wt ; waits ::= List.filter (λ x, negb (w_addr x =? w_addr w)) |> in
  let s := s <| srv_wt ; nparked ::= λ n, u32 (n - 1) |> in
  if (1 <=? w_client w) && (w_client w <=? V3DA_MAX_CLIENTS) && (0 <? c_nparked (srv_client s (w_client w - 1)))
  then set_client (w_client w - 1) (λ c, c <| c_nparked ::= λ n, n - 1 |>) s
  else s.

Definition set_echo (f : v3da_fence_t) (u : v3da_resp_u) : v3da_resp_u :=
  match u with
  | R_fence_wait r => R_fence_wait (mkFenceWaitResp (fw_completed r) (fw_error r) (u32 (f_seqno f)))
  | _ => R_fence_wait (mkFenceWaitResp 0 0 (u32 (f_seqno f)))
  end.

(** The claimed request carries the reply [u] and the error it is answered with. *)
Definition claimed (w : v3da_wait_t) (err : Z) (u : v3da_resp_u) : v3da_wait_t :=
  w <| w_resp := mkResp err
    match w_kind w, w_fence w with
    | V3DA_WAIT_FENCE, f :: _ => set_echo f u
    | _, _ => u
    end |>.

Definition wait_claim (w : v3da_wait_t) (err : Z) (u : v3da_resp_u)
    (st : v3da_srv_t * list v3da_wait_t) : v3da_srv_t * list v3da_wait_t :=
  (wait_unlink w st.1, claimed w err u :: st.2).

Section env.
Context `{E : Env}.

(** ** Parking: 0 parked, 1 satisfied at once, negative refused *)
Definition v3da_wait_park (ci : Z) (kind : v3da_wait_kind) (rid : Z) (fences : list v3da_fence_t)
    (handles : list Z) (n : Z) (all for_submit : bool) (timeout_ms : Z) (s : v3da_srv_t)
    : Z * v3da_resp_u * v3da_srv_t :=
  if V3DA_SYNCOBJ_WAIT_MAX <? n then (- EINVAL, R_none, s)
  else
    let ok := env_malloc (cursor s) in
    let s := tick s in
    if negb ok then (- ENOMEM, R_none, s)
    else
      let w := mkWait (next_wait (srv_wt s)) kind (c_id (srv_client s ci)) rid (rx_port (srv_wt s)) 0
                 (take (Z.to_nat n) fences) (take (Z.to_nat n) handles) all for_submit (mkResp 0 R_none) in
      let '(rc, u) := wait_eval s w in
      if negb (rc =? 0) then ((if 0 <? rc then 1 else rc), u, s)
      else if timeout_ms =? 0 then (- ETIMEDOUT, R_none, s)
      else
        let timeout_ms := Z.min timeout_ms V3DA_WAIT_MAX_MS in
        let '(now, s) := v3da_now_us s in
        let w := w <| w_deadline_us := u64 (now + timeout_ms * 1000) |> in
        let s := s <| srv_wt ; waits ::= cons w |> <| srv_wt ; next_wait ::= Z.succ |> in
        let s := set_client ci (λ c, c <| c_nparked ::= λ x, u32 (x + 1) |>) s in
        let s := s <| srv_wt ::= λ t,
            let np := u32 (nparked t + 1) in
            t <| nparked := np |> <| parked_max ::= Z.max np |> |> in
        (0, R_none, v3da_kick_event_thread s).

(** ** Scanning: every wait that is satisfied, failed or past its deadline *)
Definition scan_one (now : Z) (st : v3da_srv_t * list v3da_wait_t) (w : v3da_wait_t)
    : v3da_srv_t * list v3da_wait_t :=
  let '(rc, u) := wait_eval st.1 w in
  if 0 <? rc then wait_claim w 0 u st
  else if rc <? 0 then wait_claim w rc u st
  else if w_deadline_us w <=? now then
    wait_claim w (- ETIMEDOUT) u (st.1 <| srv_wt ; timeouts ::= λ n, u32 (n + 1) |>, st.2)
  else st.

Definition waits_scan (now : Z) (s : v3da_srv_t) (answer : list v3da_wait_t)
    : v3da_srv_t * list v3da_wait_t :=
  foldl (scan_one now) (s, answer) (waits (srv_wt s)).

Definition v3da_waits_client_gone (client : Z) (s : v3da_srv_t) (answer : list v3da_wait_t)
    : v3da_srv_t * list v3da_wait_t :=
  foldl (λ st w, if w_client w =? client then wait_claim w (- EPIPE) R_none st else st)
    (s, answer) (waits (srv_wt s)).

Definition v3da_waits_all (err : Z) (s : v3da_srv_t) (answer : list v3da_wait_t)
    : v3da_srv_t * list v3da_wait_t :=
  foldl (λ st w, wait_claim w err R_none st) (s, answer) (waits (srv_wt s)).

(** Answering, after the lock is dropped: one reply per claimed request. *)
Definition v3da_waits_answer (answer : list v3da_wait_t) (s : v3da_srv_t) : v3da_srv_t :=
  foldl (λ s w, emit (E_respond (if negb (w_port w =? 0) then w_port w else srv_port (srv_wt s))
                        (w_rid w) (w_resp w)) s) s answer.
End env.
