(* ===== verification/Jobs.v ===== *)
(** Jobs (tools/gpu-lane/v3d-async/v3da_jobs.c): completion, the kick sequence of each
    hardware queue, GPU reset on a wedge, the FIFOs and the scheduler. *)
From S2P Require Import Prelude Proto State Hw Fence Bo Ovf Waits.

Definition WD_TICK_US := 125000.
Definition WD_HARD_CAP_US := 10000000.

Definition is_hw_queue (qu : Z) : bool :=
  (qu =? V3DA_Q_BIN) || (qu =? V3DA_Q_RENDER) || (qu =? V3DA_Q_TFU) || (qu =? V3DA_Q_CSD).

Definition v3da_jobs_hw_busy (s : v3da_srv_t) : bool := negb (nbusy (srv_sched s) =? 0).

(** Elapsed time, 0 when the clock went back. *)
Definition since (now t : Z) : Z := if t <? now then now - t else 0.

(** Concurrency accounting, before every change of the busy set. *)
Definition acct (now : Z) (s : v3da_srv_t) : v3da_srv_t :=
  s <| srv_sched ::= λ c,
    let dt := since now (acct_t_us c) in
    c <| any_busy_us ::= λ x, if 1 <=? nbusy c then x + dt else x |>
      <| overlap_us ::= λ x, if 2 <=? nbusy c then x + dt else x |>
      <| acct_t_us := now |> |>.

Definition set_nbusy (f : Z → Z) (s : v3da_srv_t) : v3da_srv_t := s <| srv_sched ; nbusy ::= f |>.

Section env.
Context `{E : Env}.

(** ** Completion *)

(** The job leaves the hardware, or is counted as submitted if it never got there. *)
Definition done_leave (jid : Z) (j : v3da_job_t) (now : Z) (s : v3da_srv_t) : v3da_srv_t :=
  let qu := j_queue j in
  if bool_decide (active s qu = Some jid) then
    let s := if is_hw_queue qu then set_nbusy (λ n, u32 (n - 1)) (acct now s) else s in
    let dt := since now (j_t_kick_us j) in
    set_q qu (λ q, q <| q_active := None |> <| q_st_busy_us ::= λ x, x + dt |>
                     <| q_st_max_us ::= λ m, if m <? dt then Z.min dt 0xffffffff else m |>) s
  else if j_t_kick_us j =? 0 then s <| srv_fp ::= incr_submitted qu |>
  else s.

Definition done_count (qu : Z) (err : bool) (s : v3da_srv_t) : v3da_srv_t :=
  set_q qu (λ q, q <| q_st_jobs ::= λ n, u32 (n + 1) |>
                   <| q_st_errors ::= λ n, if err then u32 (n + 1) else n |>) s.

(** A bin job's chunks move to its render job, last granted first. *)
Fixpoint chunks_move (fuel : nat) (bin render : Z) (s : v3da_srv_t) : v3da_srv_t :=
  match fuel with
  | O => s
  | S fuel =>
      let idx := j_ovf s bin in
      if 0 <=? idx then
        let s := set_job bin (λ b, b <| j_ovf_head := ov_next (srv_ovf s) idx |>) s in
        chunks_move fuel bin render (chunk_attach render idx s)
      else s
  end.

Definition free_job_chunks (jid : Z) (s : v3da_srv_t) : v3da_srv_t :=
  set_job jid (λ b, b <| j_ovf_head := -1 |>) (chunk_free_list (j_ovf s jid) s).

Definition done_chunks (jid : Z) (j : v3da_job_t) (err : bool) (s : v3da_srv_t) : v3da_srv_t :=
  if j_queue j =? V3DA_Q_BIN then
    let s := match j_render j with
             | Some r =>
                 let s := set_job r (λ b, b <| j_bin := None |>
                            <| j_dep_error ::= λ e, err || e |>) s in
                 chunks_move (Z.to_nat V3DA_MAX_CHUNKS) jid r s
             | None => s
             end in
    free_job_chunks jid s
  else if 0 <=? j_ovf s jid then free_job_chunks jid s
  else s.

Definition unlink_bin (j : v3da_job_t) (s : v3da_srv_t) : v3da_srv_t :=
  match j_bin j with Some b => set_job b (λ b, b <| j_render := None |>) s | None => s end.

Definition free_job (jid : Z) (s : v3da_srv_t) : v3da_srv_t := s <| srv_sched ; jobs ::= delete jid |>.

Definition drop_pins (j : v3da_job_t) (s : v3da_srv_t) : v3da_srv_t :=
  match j_bos j with Some hs => v3da_bo_unpin hs s | None => s end.

Definition job_done (jid : Z) (error : bool) (now : Z) (s : v3da_srv_t) : v3da_srv_t :=
  match job s jid with
  | None => s
  | Some j =>
      let s := done_leave jid j now s in
      let error := error || j_error j in
      let s := done_count (j_queue j) error s in
      let s := done_chunks jid j error s in
      let s := unlink_bin j s in
      let s := drop_pins j s in
      let s := v3da_fence_complete j error s in
      let s := s <| srv_st ; stat_jobs_seen ::= λ n, u32 (n + 1) |> in
      free_job jid s
  end.

Definition job_discard (jid : Z) (s : v3da_srv_t) : v3da_srv_t :=
  match job s jid with
  | None => s
  | Some j =>
      let s := unlink_bin j s in
      let s := match j_render j with Some r => set_job r (λ b, b <| j_bin := None |>) s | None => s end in
      let s := if 0 <=? j_ovf s jid then chunk_free_list (j_ovf s jid) s else s in
      let s := drop_pins j s in
      free_job jid s
  end.

(** ** Kick sequences *)
Definition knob (s : v3da_srv_t) (k : Z) : bool := has (knobs (srv_sched s)) k.

Definition tlb_step (s : v3da_srv_t) : v3da_srv_t :=
  if negb (knob s V3DA_KNOB_TLB_ON_CHANGE) || negb (hw_tlb_gen (srv_hw s) =? hw_pt_gen (srv_hw s))
  then v3da_hw_mmu_flush s else s.

Definition l2t_flush (wait_new : bool) (s : v3da_srv_t) : v3da_srv_t :=
  let s := v3da_hw_l2t_flush_wait s in
  let s := emit (E_core CTL_L2TCACTL L2TCACTL_L2TFLS) s in
  if wait_new then v3da_hw_l2t_flush_wait s else s.

Definition clean_caches (s : v3da_srv_t) : v3da_srv_t :=
  let s := v3da_hw_l2t_flush_wait s in
  let s := emit (E_core CTL_L2TCACTL L2TCACTL_TMUWCF) s in
  let s := emit E_spin s in
  let s := emit (E_core CTL_L2TCACTL (Z.lor L2TCACTL_L2TFLS L2TCACTL_FLM_CLEAN)) s in
  v3da_hw_l2t_flush_wait s.

Definition drain_for_kick (own_core own_hub : Z) (s : v3da_srv_t) : v3da_srv_t :=
  let s := v3da_hw_drain s in
  let s := if negb (own_core =? 0) then s <| srv_hw ; hw_ev_core ::= λ e, Z.ldiff e own_core |> else s in
  if negb (own_hub =? 0) then s <| srv_hw ; hw_ev_hub ::= λ e, Z.ldiff e own_hub |> else s.

Definition slices_inval (s : v3da_srv_t) : v3da_srv_t := emit (E_core CTL_SLCACTL SLCACTL_INVAL_ALL) s.

Definition kick_bin (d : v3da_cl_desc_t) (s : v3da_srv_t) : v3da_srv_t :=
  let s := emit E_dsb s in
  let s := if negb (knob s V3DA_KNOB_LINUX_ORDER) then slices_inval s else s in
  let s := tlb_step s in
  let s := l2t_flush (negb (knob s V3DA_KNOB_NO_L2T_WAIT_NEW)) s in
  let s := if negb (knob s V3DA_KNOB_NO_FIXA) then l2t_flush true s else s in
  let s := if knob s V3DA_KNOB_LINUX_ORDER then slices_inval s else s in
  let s := drain_for_kick INT_FLDONE 0 s in
  let s := emit (E_core PTB_BPOS 0) s in
  let s := s <| srv_ovf ; ov_bin_waiting := 0 |> in
  let s := ovf_stage s in
  let s := if negb (cl_qma d =? 0)
           then emit (E_core CLE_CT0QMS (cl_qms d)) (emit (E_core CLE_CT0QMA (cl_qma d)) s) else s in
  let s := if negb (cl_qts d =? 0)
           then emit (E_core CLE_CT0QTS (Z.lor CT0QTS_ENABLE (cl_qts d))) s else s in
  emit (E_core CLE_CT0QEA (cl_bcl_end d)) (emit (E_core CLE_CT0QBA (cl_bcl_start d)) s).

Definition kick_render (d : v3da_cl_desc_t) (s : v3da_srv_t) : v3da_srv_t :=
  let s := if negb (knob s V3DA_KNOB_NO_HANDOFF_FLUSH)
           then l2t_flush (negb (knob s V3DA_KNOB_NO_HANDOFF_WAIT)) s else s in
  let s := slices_inval s in
  let s := drain_for_kick INT_FRDONE 0 s in
  emit (E_core CLE_CT1QEA (cl_rcl_end d)) (emit (E_core CLE_CT1QBA (cl_rcl_start d)) s).

Definition kick_tfu (t : v3da_tfu_desc_t) (s : v3da_srv_t) : v3da_srv_t :=
  let s := emit E_dsb s in
  let s := tlb_step s in
  let s := slices_inval s in
  let s := l2t_flush true s in
  let s := drain_for_kick 0 (Z.lor HUB_INT_TFUC HUB_INT_TFUF) s in
  let s := emit (E_hub TFU_IIA (tfu_iia t)) s in
  let s := emit (E_hub TFU_IIS (tfu_iis t)) s in
  let s := emit (E_hub TFU_ICA (tfu_ica t)) s in
  let s := emit (E_hub TFU_IUA (tfu_iua t)) s in
  let s := emit (E_hub TFU_IOA (tfu_ioa t)) s in
  let s := emit (E_hub TFU_IOS (tfu_ios t)) s in
  let s := emit (E_hub (TFU_COEF 0) (tfu_coef t 0)) s in
  let s := if has (tfu_coef t 0) TFU_COEF0_USECOEF
           then emit (E_hub (TFU_COEF 3) (tfu_coef t 3))
                  (emit (E_hub (TFU_COEF 2) (tfu_coef t 2))
                     (emit (E_hub (TFU_COEF 1) (tfu_coef t 1)) s)) else s in
  emit (E_hub TFU_ICFG (Z.lor (tfu_icfg t) TFU_ICFG_IOC)) s.

(** [false]: a dispatch was still current after the bounded spin. *)
Definition kick_csd (jid : Z) (d : v3da_csd_desc_t) (s : v3da_srv_t) : bool * v3da_srv_t :=
  let '(t0, s) := v3da_cnt s in
  let s := set_job jid (λ b, b <| j_csd_t0 := t0 |>) s in
  let s := emit E_dsb s in
  let s := slices_inval s in
  let s := tlb_step s in
  let s := l2t_flush true s in
  let idle := env_csd_idle (cursor s) in
  let s := emit E_spin (tick s) in
  if negb idle then (false, s)
  else
    let s := drain_for_kick INT_CSDDONE 0 s in
    let s := s <| srv_hw ; hw_csd_done_cnt := 0 |> in
    let s := for_ 1 7 (λ i, emit (E_core (CSD_QUEUED_CFG i) (csd_cfg d i))) s in
    let s := emit (E_core (CSD_QUEUED_CFG 0) (csd_cfg d 0)) s in
    let '(t1, s) := v3da_cnt s in
    (true, set_job jid (λ b, b <| j_csd_t1 := t1 |>) s).

Definition progress_sample (qu : Z) (s : v3da_srv_t) : Z * Z * v3da_srv_t :=
  if qu =? V3DA_Q_BIN then
    let '(ca, s) := rd_core CLE_CT0CA s in let '(ra, s) := rd_core CLE_CT0RA s in (ca, ra, s)
  else if qu =? V3DA_Q_RENDER then
    let '(ca, s) := rd_core CLE_CT1CA s in let '(ra, s) := rd_core CLE_CT1RA s in (ca, ra, s)
  else if qu =? V3DA_Q_CSD then
    let '(ca, s) := rd_core CSD_CURRENT_CFG4 s in let '(ra, s) := rd_core CSD_STATUS s in (ca, ra, s)
  else
    let '(ca, s) := rd_hub TFU_CS s in (ca, 0, s).

(** ** Wedge: true reset; every job on the hardware completes with an error *)
Definition wedge_fail_one (now qu : Z) (s : v3da_srv_t) : v3da_srv_t :=
  match active s qu with
  | Some j => if is_hw_queue qu then job_done j true now s else s
  | None => s
  end.

Definition wedge (now : Z) (s : v3da_srv_t) : v3da_srv_t :=
  let s := s <| srv_st ; wedges ::= λ n, u32 (n + 1) |> in
  let '(_, s) := v3da_hw_reset s in
  let s := s <| srv_st ; resets ::= λ n, u32 (n + 1) |> in
  let s := s <| srv_fp ; fp_reset_gen ::= λ n, u32 (n + 1) |> in
  let s := if 0 <=? ov_staged (srv_ovf s)
           then chunk_free_list (ov_staged (srv_ovf s)) s <| srv_ovf ; ov_staged := -1 |> else s in
  let s := s <| srv_ovf ; ov_bin_waiting := 0 |> in
  for_ 0 V3DA_Q_COUNT (wedge_fail_one now) s.

(** ** Kicking a job *)
Definition job_start (jid : Z) (j : v3da_job_t) (now : Z) (s : v3da_srv_t) : v3da_srv_t :=
  let qu := j_queue j in
  let s := set_q qu (λ q, q <| q_active := Some jid |> <| q_pending ::= λ n, u32 (n - 1) |>) s in
  let s := set_job jid (λ b, b <| j_t_kick_us := now |>) s in
  let s := set_q qu (λ q, q <| q_st_wait_us ::= λ x, x + since now (j_t_submit_us j) |>) s in
  let s := s <| srv_fp ::= incr_submitted qu |> in
  if is_hw_queue qu then
    let s := set_nbusy (λ n, u32 (n + 1)) (acct now s) in
    set_job jid (λ b, b <| j_wd_check_us := now + WD_TICK_US |> <| j_wd_progress_us := now |>) s
  else s.

Definition job_sample (jid qu : Z) (s : v3da_srv_t) : v3da_srv_t :=
  if is_hw_queue qu then
    let '(ca, ra, s) := progress_sample qu s in
    set_job jid (λ b, b <| j_wd_ca := ca |> <| j_wd_ra := ra |>) s
  else s.

Definition job_kick (jid now : Z) (s : v3da_srv_t) : v3da_srv_t :=
  match job s jid with
  | None => s
  | Some j =>
      let qu := j_queue j in
      let s := job_start jid j now s in
      if qu =? V3DA_Q_CPU then
        job_sample jid qu (set_job jid (λ b, b <| j_done_at_us := now + j_delay_us b |>) s)
      else
        match j_d j with
        | D_cl d =>
            if qu =? V3DA_Q_BIN then job_sample jid qu (kick_bin d s)
            else if qu =? V3DA_Q_RENDER then job_sample jid qu (kick_render d s)
            else job_sample jid qu s
        | D_tfu t => job_sample jid qu (if qu =? V3DA_Q_TFU then kick_tfu t s else s)
        | D_csd d =>
            if qu =? V3DA_Q_CSD then
              let '(ok, s) := kick_csd jid d s in
              if ok then job_sample jid qu s
              else wedge now (set_job jid (λ b, b <| j_error := true |>) s)
            else job_sample jid qu s
        | D_none => job_sample jid qu s
        end
  end.

(** ** The scheduler *)
Definition fifo (s : v3da_srv_t) (qu slot : Z) : list Z := q_fifo (srv_q s qu) slot.
Definition head (s : v3da_srv_t) (qu slot : Z) : option Z := List.hd_error (fifo s qu slot).

Definition fifo_push (qu slot jid : Z) (s : v3da_srv_t) : v3da_srv_t :=
  set_q qu (λ q, q <| q_fifo ::= λ a, <[slot := a slot ++ [jid]]> a |>
                   <| q_pending ::= λ n, u32 (n + 1) |>) s.

Definition fifo_pop (qu slot : Z) (s : v3da_srv_t) : v3da_srv_t :=
  set_q qu (λ q, q <| q_fifo ::= λ a, <[slot := List.tl (a slot)]> a |>) s.

Definition dec_pending (qu : Z) (s : v3da_srv_t) : v3da_srv_t :=
  set_q qu (λ q, q <| q_pending ::= λ n, u32 (n - 1) |>) s.

Definition job_ready (s : v3da_srv_t) (jid : Z) : bool :=
  match job s jid with
  | None => false
  | Some j =>
      negb ((j_queue j =? V3DA_Q_RENDER) && bool_decide (is_Some (j_bin j))) &&
      forallb (signaled s) (j_dep j)
  end.

Definition head_ready (s : v3da_srv_t) (qu slot : Z) : bool :=
  match head s qu slot with Some j => job_ready s j | None => false end.

(** A head whose dependency failed and which is otherwise ready. *)
Definition head_failed (s : v3da_srv_t) (qu slot : Z) : option Z :=
  match head s qu slot with
  | None => None
  | Some jid =>
      match job s jid with
      | None => None
      | Some j => if j_dep_error j && job_ready s jid then Some jid else None
      end
  end.

Definition reap_one (now qu slot : Z) (st : bool * v3da_srv_t) : bool * v3da_srv_t :=
  let s := st.2 in
  match head_failed s qu slot with
  | None => st
  | Some jid => (true, job_done jid true now (dec_pending qu (fifo_pop qu slot s)))
  end.

Definition reap_pass (now : Z) (s : v3da_srv_t) : bool * v3da_srv_t :=
  for_ 0 V3DA_Q_COUNT (λ qu, for_ 0 V3DA_MAX_CLIENTS (reap_one now qu)) (false, s).

(** Each pass that asks for another has freed a job. *)
Fixpoint reap_loop (fuel : nat) (now : Z) (s : v3da_srv_t) : v3da_srv_t :=
  match fuel with
  | O => s
  | S fuel =>
      let '(again, s) := reap_pass now s in
      if again then reap_loop fuel now s else s
  end.

Definition reap_failed_heads (now : Z) (s : v3da_srv_t) : v3da_srv_t :=
  reap_loop (S (size (jobs (srv_sched s)))) now s.

(** Round robin over the client slots, from the queue's cursor. *)
Definition rr_pick (s : v3da_srv_t) (qu : Z) : option Z :=
  let rr := q_rr (srv_q s qu) in
  (λ i, u32 (rr + i) mod V3DA_MAX_CLIENTS) <$>
    find_first (λ i, head_ready s qu (u32 (rr + i) mod V3DA_MAX_CLIENTS)) 0 V3DA_MAX_CLIENTS.

Definition rr_run (qu now : Z) (s : v3da_srv_t) : v3da_srv_t :=
  match rr_pick s qu with
  | None => s
  | Some slot =>
      match head s qu slot with
      | None => s
      | Some jid =>
          let s := fifo_pop qu slot s in
          let s := set_q qu (λ q, q <| q_rr := slot + 1 |>) s in
          job_kick jid now s
      end
  end.

(** SERIAL: the globally oldest ready head. *)
Definition serial_one (s : v3da_srv_t) (qu slot : Z) (best : option (Z * Z * Z)) : option (Z * Z * Z) :=
  match head s qu slot with
  | None => best
  | Some jid =>
      if is_hw_queue qu && job_ready s jid then
        match best with
        | None => Some (jid, qu, slot)
        | Some (b, _, _) => if jid <? b then Some (jid, qu, slot) else best
        end
      else best
  end.

Definition serial_pick (s : v3da_srv_t) : option (Z * Z * Z) :=
  for_ 0 V3DA_Q_COUNT (λ qu, for_ 0 V3DA_MAX_CLIENTS (serial_one s qu)) None.

Definition serial_run (now : Z) (s : v3da_srv_t) : v3da_srv_t :=
  if negb (nbusy (srv_sched s) =? 0) then s
  else match serial_pick s with
       | None => s
       | Some (jid, qu, slot) => job_kick jid now (fifo_pop qu slot s)
       end.

Definition pipeline_one (now qu : Z) (s : v3da_srv_t) : v3da_srv_t :=
  if negb (is_hw_queue qu) || bool_decide (is_Some (active s qu)) then s else rr_run qu now s.

Definition sched_dispatch (now : Z) (s : v3da_srv_t) : v3da_srv_t :=
  let s := if bool_decide (active s V3DA_Q_CPU = None) then rr_run V3DA_Q_CPU now s else s in
  if mode (srv_sched s) =? V3DA_MODE_SERIAL then serial_run now s
  else for_ 0 V3DA_Q_COUNT (pipeline_one now) s.

Definition v3da_sched_run (s : v3da_srv_t) : v3da_srv_t :=
  let '(now, s) := v3da_now_us s in
  sched_dispatch now (reap_failed_heads now s).
End env.
