(* ===== verification/Submit.v ===== *)
(** Submission (tools/gpu-lane/v3d-async/v3da_jobs.c): SUBMIT_CL, SUBMIT_TFU and
    SUBMIT_CSD, the CPU-queue test job, BO_ATTACH_FENCE, and what a dying client leaves.

    The request's data buffer is read as 32-bit words, all its structures being made of
    them: the descriptor, the BO handles, the in- and the out-semaphores. *)
From S2P Require Import Prelude Proto State Hw Fence Bo BoShare Ovf Waits Jobs.

Definition cl_of (w : Z → Z) : v3da_cl_desc_t := mkCl (w 0) (w 1) (w 2) (w 3) (w 4) (w 5) (w 6) (w 7).
Definition tfu_of (w : Z → Z) : v3da_tfu_desc_t :=
  mkTfu (w 0) (w 1) (w 2) (w 3) (w 4) (w 5) (w 6) (λ i, w (7 + i)).
Definition csd_of (w : Z → Z) : v3da_csd_desc_t := mkCsd w (λ i, w (7 + i)).
Definition sem_size := 8.
Definition sem_at (w : Z → Z) (off : Z) : v3da_sem_t := mkSem (w off) (w (off + 1)).

(** sizeof of an operation's descriptor. *)
Definition want_desc (op : Z) : option Z :=
  if op =? V3DA_OP_SUBMIT_CL then Some 32
  else if op =? V3DA_OP_SUBMIT_TFU then Some 44
  else if op =? V3DA_OP_SUBMIT_CSD then Some 44
  else None.

Record submit_args := mkSubmitArgs {
  sa_desc : job_desc; sa_bos : list Z; sa_in : list v3da_sem_t; sa_out : list v3da_sem_t; sa_bin : bool }.

(** The checks before anything is pinned, in the code's order. *)
Definition submit_parse (ci op : Z) (hdr : v3da_submit_t) (data : option (Z → Z)) (size : Z)
    (s : v3da_srv_t) : Z + submit_args :=
  match want_desc op with
  | None => inl (- EINVAL)
  | Some want =>
      if negb (sb_desc_size hdr =? want) then inl (- EINVAL)
      else if V3DA_SUBMIT_MAX_BOS <? sb_nbo hdr then inl (- EINVAL)
      else if (V3DA_SUBMIT_MAX_SEMS <? sb_nin hdr) || (V3DA_SUBMIT_MAX_SEMS <? sb_nout hdr) then inl (- EINVAL)
      else match data with
           | None => inl (- EINVAL)
           | Some w =>
               if size <? want + sb_nbo hdr * 4 + (sb_nin hdr + sb_nout hdr) * sem_size then inl (- EINVAL)
               else
                 let bos_off := want / 4 in
                 let in_off := bos_off + sb_nbo hdr in
                 let out_off := in_off + 2 * sb_nin hdr in
                 let bos := map (λ i, w (bos_off + i)) (seqZ 0 (sb_nbo hdr)) in
                 let ins := map (λ i, sem_at w (in_off + 2 * i)) (seqZ 0 (sb_nin hdr)) in
                 let outs := map (λ i, sem_at w (out_off + 2 * i)) (seqZ 0 (sb_nout hdr)) in
                 let known x := bool_decide (is_Some (v3da_syncobj_get s ci (sem_handle x))) in
                 if negb (forallb known ins) then inl (- ENOENT)
                 else if negb (forallb known outs) then inl (- ENOENT)
                 else if op =? V3DA_OP_SUBMIT_CL then
                   let d := cl_of w in
                   if cl_rcl_start d =? cl_rcl_end d then inl (- EINVAL)
                   else inr (mkSubmitArgs (D_cl d) bos ins outs (negb (cl_bcl_start d =? cl_bcl_end d)))
                 else inr (mkSubmitArgs (if op =? V3DA_OP_SUBMIT_TFU then D_tfu (tfu_of w) else D_csd (csd_of w))
                             bos ins outs false)
           end
  end.

Definition submit_reject (rc : Z) (s : v3da_srv_t) : Z * v3da_resp_u * v3da_srv_t :=
  (rc, R_none, s <| srv_st ; submit_rejects ::= λ n, u32 (n + 1) |>).

Section env.
Context `{E : Env}.

(** calloc, then a job of the client's slot with the next submission number. *)
Definition job_new (ci qu now : Z) (s : v3da_srv_t) : option Z * v3da_srv_t :=
  let ok := env_malloc (cursor s) in
  let s := tick s in
  if negb ok then (None, s)
  else
    let jid := gseq (srv_sched s) + 1 in
    let c := srv_client s ci in
    let f := mkFence (c_slot c) qu (u32 (slot_gen (srv_cl s) (c_slot c))) 0 in
    let j := mkJob qu (c_id c) f jid now 0 false [] None None false None (-1) 0 0 0 0 0 0 0 D_none 0 0 false in
    (Some jid, s <| srv_sched ::= λ d, d <| gseq := jid |> <| jobs ::= <[jid := j]> |> |>).

Definition free_opt (j : option Z) (s : v3da_srv_t) : v3da_srv_t :=
  match j with Some jid => free_job jid s | None => s end.

(** The jobs of a submit: a linked bin and render pair, or one job twice. *)
Definition submit_jobs (ci op : Z) (a : submit_args) (now : Z) (s : v3da_srv_t)
    : option (Z * Z) * v3da_srv_t :=
  if sa_bin a then
    let '(first, s) := job_new ci V3DA_Q_BIN now s in
    let '(last, s) := job_new ci V3DA_Q_RENDER now s in
    match first, last with
    | Some f, Some l =>
        let s := set_job f (λ b, b <| j_d := sa_desc a |> <| j_render := Some l |>) s in
        (Some (f, l), set_job l (λ b, b <| j_d := sa_desc a |> <| j_bin := Some f |>) s)
    | _, _ => (None, free_opt last (free_opt first s))
    end
  else
    let qu := if op =? V3DA_OP_SUBMIT_CL then V3DA_Q_RENDER
              else if op =? V3DA_OP_SUBMIT_TFU then V3DA_Q_TFU else V3DA_Q_CSD in
    let '(first, s) := job_new ci qu now s in
    match first with
    | Some f => (Some (f, f), set_job f (λ b, b <| j_d := sa_desc a |>) s)
    | None => (None, s)
    end.

(** The last job keeps the BO list (and with it the pins). *)
Definition submit_keep_bos (last : Z) (bos : list Z) (s : v3da_srv_t) : bool * v3da_srv_t :=
  match bos with
  | [] => (true, s)
  | _ =>
      let ok := env_malloc (cursor s) in
      let s := tick s in
      (ok, if ok then set_job last (λ b, b <| j_bos := Some bos |>) s else s)
  end.

Definition add_dep (jid : Z) (so : v3da_syncobj_t) (s : v3da_srv_t) : v3da_srv_t :=
  if bool_decide (so_state so = V3DA_SYNC_FENCE) && negb (signaled s (so_fence so)) then
    set_job jid (λ b, if Z.of_nat (length (j_dep b)) <? V3DA_SUBMIT_MAX_SEMS
                      then b <| j_dep ::= λ l, l ++ [so_fence so] |> else b) s
  else s.

Definition submit_in (ci first last : Z) (s : v3da_srv_t) (x : v3da_sem_t) : v3da_srv_t :=
  match v3da_syncobj_get s ci (sem_handle x) with
  | Some so => add_dep (if has (sem_flags x) V3DA_SEM_RENDER then last else first) so s
  | None => s
  end.

(** Other clients' pending use of the named BOs gates the whole submit. *)
Definition submit_implicit (ci first : Z) (bos : list Z) (s : v3da_srv_t) : v3da_srv_t :=
  match bos, job s first with
  | _ :: _, Some j =>
      let '(dep, dropped) := v3da_bo_implicit_deps (c_slot (srv_client s ci)) bos V3DA_SUBMIT_MAX_SEMS s (j_dep j) in
      let added := Z.of_nat (length dep) - Z.of_nat (length (j_dep j)) in
      let s := set_job first (λ b, b <| j_dep := dep |>) s in
      let s := if 0 <? added
               then s <| srv_st ::= λ t, t <| g6_implicit ::= λ n, u32 (n + 1) |>
                                           <| g6_implicit_deps ::= λ n, u32 (n + added) |> |>
               else s in
      s <| srv_st ; g6_dropped ::= λ n, u32 (n + dropped) |>
  | _, _ => s
  end.

(** The next sequence number of the client on the job's queue becomes its fence's. *)
Definition assign_seq (ci jid : Z) (s : v3da_srv_t) : v3da_srv_t :=
  match job s jid with
  | None => s
  | Some j =>
      let n := c_next_seq (srv_client s ci) (j_queue j) + 1 in
      let s := set_client ci (λ c, c <| c_next_seq ::= λ a, <[j_queue j := n]> a |>) s in
      set_job jid (λ b, b <| j_fence ::= λ f, mkFence (f_slot f) (f_queue f) (f_gen f) n |>) s
  end.

Definition job_fence (s : v3da_srv_t) (jid : Z) : v3da_fence_t :=
  match job s jid with Some j => j_fence j | None => fence0 end.

Definition submit_out (ci : Z) (f : v3da_fence_t) (s : v3da_srv_t) (x : v3da_sem_t) : v3da_srv_t :=
  set_sync ci (sem_handle x - 1) (λ o, o <| so_state := V3DA_SYNC_FENCE |> <| so_fence := f |>) s.

Definition push_job (ci jid : Z) (s : v3da_srv_t) : v3da_srv_t :=
  match job s jid with
  | Some j => fifo_push (j_queue j) (c_slot (srv_client s ci)) jid s
  | None => s
  end.

(** Everything after the jobs exist: dependencies, fences, last use, queueing. *)
Definition submit_queue (ci : Z) (a : submit_args) (first last : Z) (s : v3da_srv_t) : v3da_srv_t :=
  let s := foldl (submit_in ci first last) s (sa_in a) in
  let s := submit_implicit ci first (sa_bos a) s in
  let s := assign_seq ci first s in
  let s := if negb (last =? first) then assign_seq ci last s else s in
  let s := v3da_bo_mark_use (sa_bos a) (job_fence s last) last s in
  let s := foldl (submit_out ci (job_fence s last)) s (sa_out a) in
  let s := push_job ci first s in
  if negb (last =? first) then push_job ci last s else s.

Definition submit_count_cl (a : submit_args) (s : v3da_srv_t) : v3da_srv_t :=
  match sa_desc a with
  | D_cl d =>
      let s := if cl_bcl_end d <? cl_bcl_start d then s <| srv_st ; cl_bcl_wrap ::= λ n, u32 (n + 1) |> else s in
      if negb (sa_bin a) then s <| srv_st ; cl_render_only ::= λ n, u32 (n + 1) |> else s
  | _ => s
  end.

Definition v3da_submit (ci op : Z) (hdr : v3da_submit_t) (data : option (Z → Z)) (size : Z)
    (s : v3da_srv_t) : Z * v3da_resp_u * v3da_srv_t :=
  let '(now, s) := v3da_now_us s in
  match submit_parse ci op hdr data size s with
  | inl rc => submit_reject rc s
  | inr a =>
      let '(rc, s) := v3da_bo_pin_for_job (sa_bos a) s in
      if negb (rc =? 0) then submit_reject rc s
      else
        let s := submit_count_cl a s in
        match submit_jobs ci op a now s with
        | (None, s) => (- ENOMEM, R_none, v3da_bo_unpin (sa_bos a) s)
        | (Some (first, last), s) =>
            let '(ok, s) := submit_keep_bos last (sa_bos a) s in
            if negb ok then
              let s := if negb (first =? last) then free_job first s else s in
              (- ENOMEM, R_none, v3da_bo_unpin (sa_bos a) (free_job last s))
            else
              let s := submit_queue ci a first last s in
              let out := R_submit (mkSubmitResp (job_fence s first) (job_fence s last)) in
              (0, out, v3da_kick_event_thread (v3da_sched_run s))
        end
  end.

(** A CPU-queue job that runs for [delay] microseconds. *)
Definition v3da_submit_nop (ci delay : Z) (s : v3da_srv_t) : Z * v3da_resp_u * v3da_srv_t :=
  if 10000000 <? delay then (- EINVAL, R_none, s)
  else
    let '(now, s) := v3da_now_us s in
    match job_new ci V3DA_Q_CPU now s with
    | (None, s) => (- ENOMEM, R_none, s)
    | (Some jid, s) =>
        let s := set_job jid (λ b, b <| j_delay_us := delay |>) s in
        let s := assign_seq ci jid s in
        let out := R_fence (job_fence s jid) in
        (0, out, v3da_kick_event_thread (v3da_sched_run (push_job ci jid s)))
    end.

(** ** BO_ATTACH_FENCE: a zero-length CPU job joining the fence and the BO's last uses *)
Definition attach_dep_add (f : v3da_fence_t) (acc : list v3da_fence_t * bool) : list v3da_fence_t * bool :=
  let '(full, dep) := v3da_fence_set_add acc.1 V3DA_SUBMIT_MAX_SEMS f in (dep, acc.2 || full).

Definition attach_deps (s : v3da_srv_t) (f : v3da_fence_t) (targets : list Z) : list v3da_fence_t * bool :=
  foldl (λ acc i, for_ 0 V3DA_Q_COUNT (λ qu acc,
      let l := bo_last (srv_bos s i) qu in
      if negb (f_seqno l =? 0) && negb (signaled s l) then attach_dep_add l acc else acc) acc)
    (attach_dep_add f ([], false)) targets.

Definition v3da_bo_attach_fence (ci : Z) (rq : v3da_bo_sync_req_t) (s : v3da_srv_t)
    : Z * v3da_resp_u * v3da_srv_t :=
  let f := bs_fence rq in
  if negb (f_seqno f =? 0) && negb (v3da_fence_valid s f) then (- EINVAL, R_none, s)
  else match v3da_bo_sync_targets (c_id (srv_client s ci)) rq V3DA_MAX_CLIENTS s with
       | inl rc => (rc, R_none, s)
       | inr [] => (- ENOENT, R_none, s)
       | inr targets =>
           if (f_seqno f =? 0) || signaled s f then (0, R_none, s)
           else
             let '(dep, full) := attach_deps s f targets in
             if full then (- EBUSY, R_none, s <| srv_st ; g6_attach_busy ::= λ n, u32 (n + 1) |>)
             else
               let '(now, s) := v3da_now_us s in
               match job_new ci V3DA_Q_CPU now s with
               | (None, s) => (- ENOMEM, R_none, s)
               | (Some jid, s) =>
                   let s := set_job jid (λ b, b <| j_join := true |> <| j_dep := dep |>) s in
                   let s := assign_seq ci jid s in
                   let handles := map (λ i, bo_handle (srv_bos s i)) targets in
                   let s := v3da_bo_mark_use handles (job_fence s jid) jid s in
                   let out := R_fence (job_fence s jid) in
                   let s := s <| srv_st ; g6_attach ::= λ n, u32 (n + 1) |> in
                   (0, out, v3da_kick_event_thread (v3da_sched_run (push_job ci jid s)))
               end
       end.

(** ** In-flight count and client death *)
Definition v3da_jobs_inflight (s : v3da_srv_t) : Z :=
  sumZ (λ qu, b2z (bool_decide (is_Some (active s qu))) +
              sumZ (λ sl, Z.of_nat (length (fifo s qu sl))) 0 V3DA_MAX_CLIENTS) 0 V3DA_Q_COUNT.

(** Discard the queue's whole list of the slot, oldest first. *)
Fixpoint discard_fifo (n : nat) (qu slot : Z) (s : v3da_srv_t) : v3da_srv_t :=
  match n with
  | O => s
  | S n =>
      match head s qu slot with
      | None => s
      | Some jid => discard_fifo n qu slot (job_discard jid (dec_pending qu (fifo_pop qu slot s)))
      end
  end.

Definition slot_on_queue (s : v3da_srv_t) (slot qu : Z) : bool :=
  match active s qu ≫= job s with
  | Some j => f_slot (j_fence j) =? slot
  | None => false
  end.

(** The discarded jobs' fences: with the slot's job on the queue, or now. *)
Definition flush_queue (slot qu : Z) (s : v3da_srv_t) : v3da_srv_t :=
  let n := c_next_seq (srv_client s slot) qu in
  let s := s <| srv_cl ; dead_flush ::= λ a, <[slot := <[qu := n]> (a slot)]> a |> in
  if negb (slot_on_queue s slot qu) && (fp_completed (srv_fp s) slot qu <? n) then
    s <| srv_fp ::= λ fp, set_completed slot qu n (set_error_seq slot (ERR_SEQ qu n) fp) |>
  else s.

Definition v3da_jobs_client_gone (client : Z) (s : v3da_srv_t) : v3da_srv_t :=
  let slot := client - 1 in
  let s := for_ 0 V3DA_Q_COUNT (λ qu s, discard_fifo (length (fifo s qu slot)) qu slot s) s in
  let s := for_ 0 V3DA_Q_COUNT (flush_queue slot) s in
  v3da_sched_run s.
End env.
