(* ===== verification/Present.v ===== *)
(** The transitional present family (tools/gpu-lane/v3d-async/v3da_jobs.c): framebuffer
    geometry, and panning to a buffer now or once a fence has signalled.  The pixel
    self-check of [pan], which only counts and prints, is left out. *)
From S2P Require Import Prelude Proto State Hw Fence Waits.

Section env.
Context `{E : Env}.

Definition claimed_mask (s : v3da_srv_t) : Z :=
  for_ 0 V3DA_SCANOUT_MAX (λ i m,
    if negb (sc_claimed (srv_scan s) i =? 0) then Z.lor m (Z.shiftl 1 i) else m) 0.

Definition v3da_scanout_info (rq : v3da_scanout_req_t) (s : v3da_srv_t) : Z * v3da_resp_u * v3da_srv_t :=
  if (sq_pa rq =? 0) || (0xffffffff <? sq_pa rq) || (sq_height rq =? 0) || (sq_pitch rq =? 0)
  then (- EINVAL, R_none, s)
  else
    let claimed := claimed_mask s in
    let sc := srv_scan s in
    if negb (claimed =? 0) && (negb (sc_pa sc =? sq_pa rq) || negb (sc_height sc =? sq_height rq) ||
                               negb (sc_pitch sc =? sq_pitch rq))
    then (- EBUSY, R_none, s)
    else
      let '(rc, vh) := env_vcprop (cursor s) in
      let s := tick s in
      let vh := if negb (rc =? 0) then 0 else vh in
      let nbuf := if negb (vh =? 0) then vh / sq_height rq else 1 in
      let nbuf := if V3DA_SCANOUT_MAX <? nbuf then V3DA_SCANOUT_MAX else nbuf in
      let nbuf := if nbuf <? 1 then 1 else nbuf in
      let bytes := u32 (sq_pitch rq * sq_height rq) in
      let s := s <| srv_scan ::= λ c, c <| sc_pa := sq_pa rq |> <| sc_width := sq_width rq |>
          <| sc_height := sq_height rq |> <| sc_pitch := sq_pitch rq |> <| sc_bytes := bytes |>
          <| sc_virt_h := vh |> <| sc_nbuf := nbuf |> |> in
      (0, R_scanout (mkScanoutResp nbuf vh bytes claimed), s).

Definition pan (buf : Z) (s : v3da_srv_t) : v3da_srv_t :=
  let '(rc, _) := env_vcprop (cursor s) in
  let s := emit (E_pan buf) (tick s) in
  s <| srv_scan ::= λ c,
    c <| sc_pan_err ::= λ n, if negb (rc =? 0) then u32 (n + 1) else n |>
      <| sc_shown := buf |> <| sc_flips ::= λ n, u32 (n + 1) |> |>.

(** A queued flip may be panned: ungated, or its fence has signalled. *)
Definition flip_ready (s : v3da_srv_t) (f : flip_t) : bool := negb (flip_gated f) || signaled s (flip_fence f).

Definition present_step (s : v3da_srv_t) : option v3da_srv_t :=
  match sc_q (srv_scan s) with
  | [] => None
  | f :: rest => if flip_ready s f then Some (pan (flip_buf f) s <| srv_scan ; sc_q := rest |>) else None
  end.

Fixpoint present_loop (n : nat) (s : v3da_srv_t) : v3da_srv_t :=
  match n with
  | O => s
  | S n => match present_step s with Some s => present_loop n s | None => s end
  end.

Definition present_run (s : v3da_srv_t) : v3da_srv_t := present_loop (length (sc_q (srv_scan s))) s.

Definition v3da_flip (rq : v3da_flip_req_t) (s : v3da_srv_t) : Z * v3da_resp_u * v3da_srv_t :=
  let sc := srv_scan s in
  if sc_nbuf sc =? 0 then (- ENODEV, R_none, s)
  else
    let buf := if sc_nbuf sc <=? fl_buf rq then sc_nbuf sc - 1 else fl_buf rq in
    let gated := has (fl_flags rq) V3DA_FLIP_AFTER_FENCE in
    if gated && negb (v3da_fence_valid s (fl_fence rq)) then (- EINVAL, R_none, s)
    else
      let reply deferred s :=
        R_flip (mkFlipResp deferred (Z.of_nat (length (sc_q (srv_scan s)))) (sc_flips (srv_scan s))) in
      if bool_decide (sc_q sc = []) && (negb gated || signaled s (fl_fence rq)) then
        let s := pan buf s in (0, reply 0 s, s)
      else if V3DA_MAX_FLIPS <=? Z.of_nat (length (sc_q sc)) then (- EBUSY, R_none, s)
      else
        let s := s <| srv_scan ::= λ c, c <| sc_q ::= λ l, l ++ [mkFlip buf gated (fl_fence rq)] |>
                                          <| sc_flips_deferred ::= λ n, u32 (n + 1) |> |> in
        let s := v3da_kick_event_thread s in
        (0, reply 1 s, s).
End env.
