(* ===== verification/Events.v ===== *)
(** The event thread (tools/gpu-lane/v3d-async/v3da_sched.c, v3da_jobs.c): completion
    events, the watchdog tick, the modes and statistics, its timeout and its loop. *)
From S2P Require Import Prelude Proto State Csdprof Hw Fence Bo Ovf Waits Jobs Present.

Section env.
Context `{E : Env}.

(** ** Completion events *)
Definition on_active (qu : Z) (f : Z → v3da_job_t → v3da_srv_t → v3da_srv_t) (s : v3da_srv_t) : v3da_srv_t :=
  match active s qu with
  | Some jid => match job s jid with Some j => f jid j s | None => s end
  | None => s
  end.

Definition event_fldone (now : Z) (s : v3da_srv_t) : v3da_srv_t :=
  match active s V3DA_Q_BIN with
  | Some jid => job_done jid false now s
  | None => s <| srv_st ; stray_fldone ::= λ n, u32 (n + 1) |>
  end.

(** Post-render clean (not waited), the optional full clean, then completion. *)
Definition render_finish (now jid : Z) (j : v3da_job_t) (s : v3da_srv_t) : v3da_srv_t :=
  let s := if negb (knob s V3DA_KNOB_NO_POST_CLEAN)
           then emit (E_core CTL_L2TCACTL (Z.lor L2TCACTL_L2TFLS L2TCACTL_FLM_CLEAN)) (v3da_hw_l2t_flush_wait s)
           else s in
  let flush := match j_d j with D_cl d => has (cl_flags d) V3DA_CL_FLUSH_CACHE | _ => false end in
  let s := if flush && knob s V3DA_KNOB_CL_CACHE_CLEAN then clean_caches s else s in
  job_done jid false now s.

Definition csdprof_job (j : v3da_job_t) (t_done t_ev t_end : Z) (s : v3da_srv_t) : v3da_srv_t :=
  match j_d j with
  | D_csd d =>
      s <| srv_st ::= λ t, t <| csdprof_cls ::= λ tab,
        v3da_csdprof_account tab (csd_cfg d) (mkTimes (j_csd_t0 j) (j_csd_t1 j) t_done t_ev t_end) (cntfrq t) |> |>
  | _ => s
  end.

Definition csd_finish (now jid : Z) (j : v3da_job_t) (s : v3da_srv_t) : v3da_srv_t :=
  let t_done := hw_csd_done_cnt (srv_hw s) in
  let s := s <| srv_hw ; hw_csd_done_cnt := 0 |> in
  let '(t_ev, s) := v3da_cnt s in
  let s := emit E_dsb (clean_caches s) in
  let s := if csdprof (srv_st s)
           then let '(t_end, s) := v3da_cnt s in csdprof_job j t_done t_ev t_end s else s in
  job_done jid false now s.

Definition tfu_finish (now : Z) (failed : bool) (jid : Z) (s : v3da_srv_t) : v3da_srv_t :=
  job_done jid failed now (slices_inval (clean_caches s)).

Definition event_tfu (hub now : Z) (s : v3da_srv_t) : v3da_srv_t :=
  match active s V3DA_Q_TFU with
  | Some jid => tfu_finish now (has hub HUB_INT_TFUF) jid s
  | None => if has hub HUB_INT_TFUC then s <| srv_st ; stray_tfuc ::= λ n, u32 (n + 1) |> else s
  end.

(** Overflow first: a chunk handed out during bin N belongs to bin N even if its FLDONE
    arrived in the same batch. *)
Definition v3da_jobs_events (core hub now : Z) (s : v3da_srv_t) : v3da_srv_t :=
  let s := if has core INT_OUTOMEM || bool_decide (is_Some (active s V3DA_Q_BIN)) then ovf_service s else s in
  let s := if has core INT_FLDONE then event_fldone now s else s in
  let s := if has core INT_FRDONE then on_active V3DA_Q_RENDER (render_finish now) s else s in
  let s := if has core INT_CSDDONE then on_active V3DA_Q_CSD (csd_finish now) s else s in
  if has hub (Z.lor HUB_INT_TFUC HUB_INT_TFUF) then event_tfu hub now s else s.

(** ** The watchdog *)
Definition tick_cpu (now : Z) (s : v3da_srv_t) : v3da_srv_t :=
  on_active V3DA_Q_CPU (λ jid j s,
    if j_done_at_us j <=? now then
      let s := job_done jid false now s in
      if j_join j then s else s <| srv_st ; nops_done ::= λ n, u32 (n + 1) |>
    else s) s.

(** Progress seen since the last check restarts the stall clock. *)
Definition wd_progress (now ca ra : Z) (b : v3da_job_t) : v3da_job_t :=
  if negb (ca =? j_wd_ca b) || negb (ra =? j_wd_ra b)
  then b <| j_wd_progress_us := now |> <| j_wd_ca := ca |> <| j_wd_ra := ra |> else b.

Definition qpu_ack (jid : Z) (s : v3da_srv_t) : v3da_srv_t :=
  let '(sts, s) := rd_core CTL_INT_STS s in
  if has sts INT_QPU_MASK then
    set_job jid (λ b, b <| j_qpu_acks ::= λ n, u32 (n + 1) |>)
      (emit (E_core CTL_INT_CLR (Z.land sts INT_QPU_MASK)) s)
  else s.

Definition fail_wedge (jid now : Z) (s : v3da_srv_t) : v3da_srv_t :=
  wedge now (set_job jid (λ b, b <| j_error := true |>) s).

(** The binner waits for memory: a running render will free some, or the pool is
    exhausted ([true]: the check ends here). *)
Definition bin_starved (qu jid now : Z) (s : v3da_srv_t) : bool * v3da_srv_t :=
  if (qu =? V3DA_Q_BIN) && (0 <? ov_bin_waiting (srv_ovf s)) then
    if bool_decide (is_Some (active s V3DA_Q_RENDER))
    then (false, set_job jid (λ b, b <| j_wd_progress_us := now |>) s)
    else if ov_nfree (srv_ovf s) =? 0 then (true, fail_wedge jid now s)
    else (false, s)
  else (false, s).

Definition stall_check (qu jid now : Z) (s : v3da_srv_t) : v3da_srv_t :=
  match job s jid with
  | None => s
  | Some j =>
      if (wedge_ms (srv_sched s) * 1000 <=? u64 (now - j_wd_progress_us j)) ||
         (WD_HARD_CAP_US <=? u64 (now - j_t_kick_us j))
      then fail_wedge jid now s else s
  end.

Definition tick_queue (now qu : Z) (s : v3da_srv_t) : v3da_srv_t :=
  if negb (is_hw_queue qu) then s
  else on_active qu (λ jid j s,
    if now <? j_wd_check_us j then s
    else
      let s := set_job jid (λ b, b <| j_wd_check_us := now + WD_TICK_US |>) s in
      let '(ca, ra, s) := progress_sample qu s in
      let s := set_job jid (wd_progress now ca ra) s in
      let s := if qu =? V3DA_Q_RENDER then qpu_ack jid s else s in
      let '(stop, s) := bin_starved qu jid now s in
      if stop then s
      else if (qu =? V3DA_Q_TFU) && negb (has ca TFU_CS_BUSY) && (2 * WD_TICK_US <=? u64 (now - j_t_kick_us j))
      then tfu_finish now false jid s
      else stall_check qu jid now s) s.

(** The periodic statistics lines: only their effect on the counters. *)
Definition csdprof_print (s : v3da_srv_t) : v3da_srv_t :=
  s <| srv_st ; csdprof_cls ::= for_ 0 V3DA_CSDPROF_CLASSES (λ i tab,
    if (cp_cfg5 (tab i) =? 0) || (cp_n (tab i) =? cp_n_printed (tab i)) then tab
    else <[i := tab i <| cp_n_printed := cp_n (tab i) |>]> tab) |>.
Definition stat_print (now : Z) (s : v3da_srv_t) : v3da_srv_t :=
  if (stat_ms (srv_st s) =? 0) || (now <? stat_next_us (srv_st s)) then s
  else
    let s := s <| srv_st ; stat_next_us := now + stat_ms (srv_st s) * 1000 |> in
    if stat_jobs_seen (srv_st s) =? 0 then s
    else
      let s := acct now (s <| srv_st ; stat_jobs_seen := 0 |>) in
      if csdprof (srv_st s) then csdprof_print s else s.

Definition v3da_jobs_tick (now : Z) (s : v3da_srv_t) : v3da_srv_t :=
  let s := tick_cpu now s in
  let s := for_ 0 V3DA_Q_COUNT (tick_queue now) s in
  let s := if (0 <? ov_bin_waiting (srv_ovf s)) && bool_decide (is_Some (active s V3DA_Q_BIN))
           then ovf_service s else s in
  stat_print now (present_run s).

(** ** Modes and statistics *)
Definition v3da_set_mode (rq : v3da_mode_req_t) (s : v3da_srv_t) : Z * v3da_resp_u * v3da_srv_t :=
  let bad_mode := has (mq_set rq) V3DA_SET_MODE &&
                  negb ((mq_mode rq =? V3DA_MODE_SERIAL) || (mq_mode rq =? V3DA_MODE_PIPELINE)) in
  if bad_mode then (- EINVAL, R_none, s)
  else
    let s := if has (mq_set rq) V3DA_SET_MODE then s <| srv_sched ; mode := mq_mode rq |> else s in
    if has (mq_set rq) V3DA_SET_KNOBS && negb (Z.ldiff (mq_knobs rq) V3DA_KNOB_ALL =? 0) then (- EINVAL, R_none, s)
    else
      let s := if has (mq_set rq) V3DA_SET_KNOBS then s <| srv_sched ; knobs := mq_knobs rq |> else s in
      let s := if negb (mq_set rq =? 0) then v3da_sched_run s else s in
      (0, R_mode (mkModeResp (mode (srv_sched s)) (knobs (srv_sched s)) 0), s).

Definition qstats_reset (now : Z) (s : v3da_srv_t) : v3da_srv_t :=
  let s := for_ 0 V3DA_Q_COUNT (λ qu, set_q qu (λ q, q <| q_st_jobs := 0 |> <| q_st_errors := 0 |>
             <| q_st_max_us := 0 |> <| q_st_oom := 0 |> <| q_st_busy_us := 0 |> <| q_st_wait_us := 0 |>)) s in
  let s := acct now s in
  s <| srv_sched ::= λ c, c <| any_busy_us := 0 |> <| overlap_us := 0 |> <| acct_t0_us := now |> |>.

Definition v3da_qstats (rq : v3da_qstats_req_t) (s : v3da_srv_t) : Z * v3da_resp_u * v3da_srv_t :=
  let '(now, s) := v3da_now_us s in
  let s := acct now s in
  let c := srv_sched s in
  let o := srv_ovf s in
  let finish u := (0, u, if negb (qr_reset rq =? 0) then qstats_reset now s else s) in
  if qr_which rq =? V3DA_QSTATS_GLOBAL then
    finish (R_qstats_g (mkQstatsG (u64 (now - acct_t0_us c)) (any_busy_us c) (overlap_us c) (mode c) (knobs c)
      (wedges (srv_st s)) (resets (srv_st s))
      (u32 (ov_nfree o + b2z (0 <=? ov_staged o))) (ov_nchunks o) (ov_starved o) (sc_flips (srv_scan s))))
  else if qr_which rq <? V3DA_Q_COUNT then
    let q := srv_q s (qr_which rq) in
    finish (R_qstats_q (mkQstatsQ (q_st_jobs q) (q_st_errors q) (q_st_busy_us q) (q_st_wait_us q)
      (q_st_max_us q) (q_st_oom q) (q_pending q) (b2z (bool_decide (is_Some (q_active q))))))
  else (- EINVAL, R_none, s).

(** ** The thread's timeout *)
Definition IDLE_TIMEOUT_US := 100000.
Definition IRQ_BACKSTOP_US := 10000.

Definition v3da_jobs_next_deadline (now : Z) (s : v3da_srv_t) : Z :=
  match active s V3DA_Q_CPU ≫= job s with
  | Some j => if now <? j_done_at_us j then j_done_at_us j - now else 1
  | None => 2 ^ 64 - 1
  end.

Definition wait_left (now : Z) (w : v3da_wait_t) : Z :=
  if now <? w_deadline_us w then w_deadline_us w - now else 1.

Definition next_timeout_us (now : Z) (s : v3da_srv_t) : Z :=
  let t := Z.min IDLE_TIMEOUT_US (v3da_jobs_next_deadline now s) in
  let t := foldl (λ t w, Z.min t (wait_left now w)) t (waits (srv_wt s)) in
  let t := if negb (bool_decide (sc_q (srv_scan s) = [])) && (1000 <? t) then 1000 else t in
  let t := if hw_irq_on (srv_hw s) then Z.min IRQ_BACKSTOP_US t
           else if v3da_jobs_hw_busy s && (poll_us (srv_sched s) <? t) then poll_us (srv_sched s) else t in
  if t =? 0 then 1 else u32 t.

(** ** One turn of the loop, from the wake-up to the claimed answers *)
Definition storm_fallback (s : v3da_srv_t) : v3da_srv_t :=
  if negb (hw_storm (srv_hw s) =? 0) && hw_irq_on (srv_hw s) then
    v3da_hw_irq_disable s <| srv_fp ; fp_flags ::= λ f, Z.lor (Z.ldiff f V3DA_FP_IRQ) V3DA_FP_STORM |>
  else s.

Definition event_heartbeat (s : v3da_srv_t) : v3da_srv_t :=
  let s := s <| srv_sched ; kick_pending := false |> in
  let s := s <| srv_st ; loops ::= λ n, u32 (n + 1) |> in
  let s := s <| srv_fp ; fp_heartbeat := loops (srv_st s) |> in
  s <| srv_hw ::= λ h, h <| hw_irq_count_snap := hw_irq_count h |> <| hw_irq_spurious := 0 |> |>.

Definition event_body (s : v3da_srv_t) : v3da_srv_t * list v3da_wait_t :=
  let '(now, s) := v3da_now_us s in
  let s := storm_fallback (event_heartbeat s) in
  let s := if negb (hw_irq_on (srv_hw s)) && v3da_jobs_hw_busy s then v3da_hw_poll_status s else s in
  let core := hw_ev_core (srv_hw s) in
  let hub := hw_ev_hub (srv_hw s) in
  let s := s <| srv_hw ::= λ h, h <| hw_ev_core := 0 |> <| hw_ev_hub := 0 |> |> in
  let s := v3da_jobs_events core hub now s in
  let s := v3da_jobs_tick now s in
  let s := v3da_bo_quarantine_poll s in
  let s := v3da_sched_run s in
  waits_scan now s [].

(** Does the thread sleep first?  (condWait with [next_timeout_us].) *)
Definition event_sleeps (s : v3da_srv_t) : bool :=
  negb (kick_pending (srv_sched s)) && (hw_ev_core (srv_hw s) =? 0) && (hw_ev_hub (srv_hw s) =? 0).

(** The claimed requests are answered with the lock dropped. *)
Definition event_turn (s : v3da_srv_t) : v3da_srv_t :=
  let '(s, answer) := event_body s in v3da_waits_answer answer s.
End env.
