(* ===== verification/Main.v ===== *)
(** The dispatcher (tools/gpu-lane/v3d-async/v3da_main.c, v3da_param.c): clients, the
    request switch and the message loop's handling of one message. *)
From S2P Require Import Prelude Proto State Hw Fence Bo BoShare Ovf Waits Jobs Submit.
From S2P Require Import Present Events.

(** ** GET_PARAM *)
Definition DRM_V3D_PARAM_V3D_UIFCFG := 0.
Definition DRM_V3D_PARAM_V3D_HUB_IDENT1 := 1.
Definition DRM_V3D_PARAM_V3D_HUB_IDENT2 := 2.
Definition DRM_V3D_PARAM_V3D_HUB_IDENT3 := 3.
Definition DRM_V3D_PARAM_V3D_CORE0_IDENT0 := 4.
Definition DRM_V3D_PARAM_V3D_CORE0_IDENT1 := 5.
Definition DRM_V3D_PARAM_V3D_CORE0_IDENT2 := 6.
Definition DRM_V3D_PARAM_SUPPORTS_TFU := 7.
Definition DRM_V3D_PARAM_SUPPORTS_CSD := 8.
Definition DRM_V3D_PARAM_SUPPORTS_CACHE_FLUSH := 9.
Definition DRM_V3D_PARAM_SUPPORTS_PERFMON := 10.
Definition DRM_V3D_PARAM_SUPPORTS_MULTISYNC_EXT := 11.
Definition DRM_V3D_PARAM_SUPPORTS_CPU_QUEUE := 12.

Definition v3da_get_param (ident : Z → Z) (param : Z) : Z :=
  if param =? DRM_V3D_PARAM_V3D_CORE0_IDENT0 then ident 0
  else if param =? DRM_V3D_PARAM_V3D_CORE0_IDENT1 then ident 1
  else if param =? DRM_V3D_PARAM_V3D_CORE0_IDENT2 then ident 2
  else if param =? DRM_V3D_PARAM_V3D_UIFCFG then ident 3
  else if param =? DRM_V3D_PARAM_V3D_HUB_IDENT1 then ident 4
  else if param =? DRM_V3D_PARAM_V3D_HUB_IDENT2 then ident 5
  else if param =? DRM_V3D_PARAM_V3D_HUB_IDENT3 then ident 6
  else if param =? DRM_V3D_PARAM_SUPPORTS_TFU then 1
  else if param =? DRM_V3D_PARAM_SUPPORTS_CSD then 1
  else if param =? DRM_V3D_PARAM_SUPPORTS_CACHE_FLUSH then 1
  else if param =? DRM_V3D_PARAM_SUPPORTS_MULTISYNC_EXT then 1
  else if param =? DRM_V3D_PARAM_SUPPORTS_CPU_QUEUE then 1
  else if param =? DRM_V3D_PARAM_SUPPORTS_PERFMON then 0
  else 0.

(** ** Clients *)
Definition client_get (s : v3da_srv_t) (id : Z) : option Z :=
  if (id <? 1) || (V3DA_MAX_CLIENTS <? id) then None
  else if c_used (srv_client s (id - 1)) then Some (id - 1) else None.

(** A free slot with no job of its last owner still running; the id is the slot plus one. *)
Definition client_open (pid : Z) (s : v3da_srv_t) : Z * v3da_srv_t :=
  match find_first (λ i, negb (c_used (srv_client s i)) && negb (v3da_slot_busy s i)) 0 V3DA_MAX_CLIENTS with
  | None => (- ENFILE, s)
  | Some i =>
      let s := set_client i (λ _, client0 <| c_used := true |> <| c_id := i + 1 |>
                                          <| c_pid := pid |> <| c_slot := i |>) s in
      let s := v3da_slot_assign i s in
      (i + 1, s <| srv_cl ; nclients ::= λ n, u32 (n + 1) |>)
  end.

Section env.
Context `{E : Env}.

Definition client_close (id : Z) (s : v3da_srv_t) (answer : list v3da_wait_t)
    : v3da_srv_t * list v3da_wait_t :=
  match client_get s id with
  | None => (s, answer)
  | Some ci =>
      let cid := c_id (srv_client s ci) in
      let '(s, answer) := v3da_waits_client_gone cid s answer in
      let s := v3da_jobs_client_gone cid s in
      let s := v3da_bo_client_gone cid s in
      let s := set_client ci (λ c, c <| c_used := false |>) s in
      (s <| srv_cl ; nclients ::= λ n, u32 (n - 1) |>, answer)
  end.

Definition client_hello (id proto fp_pa : Z) (s : v3da_srv_t) : Z * v3da_resp_u * v3da_srv_t :=
  match client_get s id with
  | None => (- EBADF, R_none, s)
  | Some ci =>
      if (proto <? V3DA_PROTO_BASE) || (V3DA_PROTO_VERSION <? proto) then (- EPROTO, R_none, s)
      else
        let s := set_client ci (λ c, c <| c_hello := true |>) s in
        let c := srv_client s ci in
        (0, R_hello (mkHello V3DA_PROTO_VERSION (c_id c) (c_slot c) (u32 (slot_gen (srv_cl s) (c_slot c)))
              (fp_flags (srv_fp s))
              (mkMemref V3DA_MEM_PHYS V3DA_CACHE_CACHED 0 V3DA_FENCE_PAGE_SIZE fp_pa)), s)
  end.

(** ** Debug requests *)
Definition stats (s : v3da_srv_t) : v3da_resp_u :=
  let '(live, quar, pooled) := v3da_bo_counts s in
  R_stats (mkStatsReply (nclients (srv_cl s)) live quar pooled (bo_quarantine_passed (srv_bo s))
    (pages_to_kernel (srv_bo s)) (nparked (srv_wt s)) (parked_max (srv_wt s))
    (hw_irq_count (srv_hw s)) (hw_tlb_flushes (srv_hw s)) (loops (srv_st s)) (timeouts (srv_wt s))
    (nops_done (srv_st s)) (resets (srv_st s))).

Definition irq_mode_reply (rc : Z) (s : v3da_srv_t) : v3da_resp_u :=
  R_irq_mode (mkIrqModeResp rc (b2z (hw_irq_on (srv_hw s))) (hw_irq_num (srv_hw s))).

(** Switching is refused while any GPU queue has a job: masking and clearing latched
    status mid-job would lose its completion. *)
Definition irq_mode (on : Z) (s : v3da_srv_t) : Z * v3da_resp_u * v3da_srv_t :=
  if gpu_busy s then (- EBUSY, irq_mode_reply (- EBUSY) s, s)
  else if negb (on =? 0) then
    let '(rc, s) := v3da_hw_irq_enable s in
    let s := if 0 <=? rc
             then s <| srv_fp ; fp_flags ::= λ f, Z.ldiff (Z.lor f V3DA_FP_IRQ) V3DA_FP_STORM |> else s in
    let r := if rc <? 0 then rc else 0 in (r, irq_mode_reply r s, s)
  else
    let s := v3da_hw_irq_disable s in
    let s := s <| srv_fp ; fp_flags ::= λ f, Z.ldiff f V3DA_FP_IRQ |> in
    (0, irq_mode_reply 0 s, s).

(** Exit is refused while any job is queued or running; otherwise every parked request
    is claimed with -ENODEV and the hardware is shut down. *)
Definition dbg_quit (s : v3da_srv_t) (answer : list v3da_wait_t)
    : Z * v3da_resp_u * v3da_srv_t * list v3da_wait_t :=
  let inflight := u32 (v3da_jobs_inflight s) in
  if negb (inflight =? 0) then (- EBUSY, R_quit 0 inflight, s, answer)
  else
    let parked := nparked (srv_wt s) in
    let '(s, answer) := v3da_waits_all (- ENODEV) s answer in
    let s := v3da_hw_shutdown s in
    let s := s <| srv_fp ; fp_flags ::= λ f, Z.lor f V3DA_FP_EXITED |> in
    let s := s <| srv_sched ; quit := true |> in
    (0, R_quit parked inflight, s, answer).

(** ** Requests: a v3da_req_t with the union member its [op] selects *)
Inductive v3da_req :=
  | Q_get_info
  | Q_get_param (param : Z)
  | Q_bo_create (size flags : Z)
  | Q_bo_close (handle : Z)
  | Q_bo_mmap (handle : Z)
  | Q_bo_get_offset (handle : Z)
  | Q_bo_export (handle : Z)
  | Q_bo_last_fence (rq : v3da_bo_sync_req_t)
  | Q_bo_attach_fence (rq : v3da_bo_sync_req_t)
  | Q_bo_wait (handle timeout_ms : Z)
  | Q_submit_nop (delay_us : Z)
  | Q_submit (op : Z) (hdr : v3da_submit_t) (data : option (Z → Z)) (size : Z)
  | Q_syncobj_import (handle : Z) (f : v3da_fence_t)
  | Q_scanout_info (rq : v3da_scanout_req_t)
  | Q_flip (rq : v3da_flip_req_t)
  | Q_set_mode (rq : v3da_mode_req_t)
  | Q_qstats (rq : v3da_qstats_req_t)
  | Q_fence_wait (f : v3da_fence_t) (timeout_ms : Z)
  | Q_syncobj_create (flags : Z)
  | Q_syncobj_destroy (handle : Z)
  | Q_syncobj_reset (handle : Z)
  | Q_syncobj_signal (handle : Z)
  | Q_syncobj_query (handle : Z)
  | Q_syncobj_wait (handles : list Z) (count flags timeout_ms : Z)
  | Q_irq_mode (on : Z)
  | Q_bo_checksum (handle off len : Z)
  | Q_stats
  | Q_quit
  | Q_op (op : Z).                       (* an opcode with no handler here *)

(** Outcome of a request: the reply, or [None] when it was parked. *)
Definition outcome := (option v3da_resp_t * v3da_srv_t * list v3da_wait_t)%type.

Definition reserved_op (op : Z) : bool :=
  (op =? V3DA_OP_SUBMIT_CPU) || (op =? V3DA_OP_PERFMON_CREATE) || (op =? V3DA_OP_PERFMON_DESTROY) ||
  (op =? V3DA_OP_PERFMON_GET_VALUES) || (op =? V3DA_OP_PERFMON_GET_COUNTER) || (op =? V3DA_OP_SCANOUT_BO).

(** A parked wait is answered later; one satisfied or refused at once is answered now. *)
Definition park_reply (r : Z * v3da_resp_u * v3da_srv_t) (answer : list v3da_wait_t) : outcome :=
  let '(rc, u, s) := r in
  if rc =? 0 then (None, s, answer)
  else (Some (mkResp (if 0 <? rc then 0 else rc) u), s, answer).

(** The handles a SYNCOBJ_WAIT names are checked before it is parked. *)
Definition syncobj_wait_ok (ci : Z) (handles : list Z) (count : Z) (s : v3da_srv_t) : bool :=
  negb (count =? 0) && (count <=? V3DA_SYNCOBJ_WAIT_MAX) &&
  forallb (λ h, bool_decide (is_Some (v3da_syncobj_get s ci h))) (take (Z.to_nat count) handles).

Definition handle_raw (ci rid : Z) (rq : v3da_req) (s : v3da_srv_t) (answer : list v3da_wait_t) : outcome :=
  let reply (r : Z * v3da_resp_u * v3da_srv_t) : outcome :=
    let '(rc, u, s) := r in (Some (mkResp rc u), s, answer) in
  let plain (r : Z * v3da_srv_t) : outcome := reply (r.1, R_none, r.2) in
  let query (r : Z * v3da_resp_u) : outcome := reply (r.1, r.2, s) in
  match rq with
  | Q_get_info =>
      let h := srv_hw s in
      reply (0, R_info (mkInfo (map (hw_ident h) (seqZ 0 7)) (b2z (hw_irq_on h)) (hw_irq_num h)
        (hw_clk_rate_hz h) (hw_clk_meas_hz h) V3DA_MAX_BOS (nclients (srv_cl s))), s)
  | Q_get_param p => reply (0, R_param (v3da_get_param (hw_ident (srv_hw s)) p), s)
  | Q_bo_create size flags => reply (v3da_bo_create (c_id (srv_client s ci)) size flags s)
  | Q_bo_close h => plain (v3da_bo_close (c_id (srv_client s ci)) h s)
  | Q_bo_mmap h => query (v3da_bo_mmap h s)
  | Q_bo_get_offset h => query (v3da_bo_offset h s)
  | Q_bo_export h => reply (v3da_bo_export (c_id (srv_client s ci)) h s)
  | Q_bo_last_fence q => reply (v3da_bo_last_fence (c_id (srv_client s ci)) q s)
  | Q_bo_attach_fence q => reply (v3da_bo_attach_fence ci q s)
  | Q_bo_wait h t =>
      match v3da_bo_find s h with
      | None => reply (- EINVAL, R_none, s)
      | Some i =>
          park_reply (v3da_wait_park ci V3DA_WAIT_BO rid (map (bo_last (srv_bos s i)) (seqZ 0 V3DA_Q_COUNT)) []
            V3DA_Q_COUNT true false t s) answer
      end
  | Q_submit_nop d => reply (v3da_submit_nop ci d s)
  | Q_submit op hdr data size => reply (v3da_submit ci op hdr data size s)
  | Q_syncobj_import h f => plain (v3da_syncobj_import ci h f s)
  | Q_scanout_info q => reply (v3da_scanout_info q s)
  | Q_flip q => reply (v3da_flip q s)
  | Q_set_mode q => reply (v3da_set_mode q s)
  | Q_qstats q => reply (v3da_qstats q s)
  | Q_fence_wait f t =>
      if negb (v3da_fence_valid s f) then reply (- EINVAL, R_none, s)
      else park_reply (v3da_wait_park ci V3DA_WAIT_FENCE rid [f] [] 1 true false t s) answer
  | Q_syncobj_create flags =>
      let '(rc, h, s) := v3da_syncobj_create ci flags s in
      reply (rc, R_syncobj (mkSyncobjResp h V3DA_SYNC_EMPTY 0 fence0), s)
  | Q_syncobj_destroy h => plain (v3da_syncobj_destroy ci h s)
  | Q_syncobj_reset h => plain (v3da_syncobj_reset ci h s)
  | Q_syncobj_signal h => plain (v3da_syncobj_signal ci h s)
  | Q_syncobj_query h => query (v3da_syncobj_query ci h s)
  | Q_syncobj_wait hs n flags t =>
      if negb (syncobj_wait_ok ci hs n s) then reply (- EINVAL, R_none, s)
      else park_reply (v3da_wait_park ci V3DA_WAIT_SYNCOBJ rid [] hs n
             (has flags V3DA_SYNCOBJ_WAIT_ALL) (has flags V3DA_SYNCOBJ_WAIT_FOR_SUBMIT) t s) answer
  | Q_irq_mode on => let '(rc, u, s) := irq_mode on s in reply (rc, u, v3da_kick_event_thread s)
  | Q_bo_checksum h off len => reply (v3da_bo_checksum h off len s)
  | Q_stats => reply (0, stats s, s)
  | Q_quit => let '(rc, u, s, answer) := dbg_quit s answer in (Some (mkResp rc u), s, answer)
  | Q_op op => reply (if reserved_op op then - ENOSYS else - EINVAL, R_none, s)
  end.

(** The descriptor the request came on must name a live client. *)
Definition raw_request (id rid : Z) (rq : v3da_req) (s : v3da_srv_t) (answer : list v3da_wait_t) : outcome :=
  match client_get s id with
  | None => (Some (mkResp (- EBADF) R_none), s, answer)
  | Some ci => handle_raw ci rid rq s answer
  end.

(** ** One message of a dispatch thread *)
Inductive srv_msg :=
  | M_open (pid : Z)
  | M_close (id : Z)
  | M_hello (id proto : Z)
  | M_import (id : Z) (rq : v3da_bo_import_req_t) (ie : import_env) (between : v3da_srv_t → v3da_srv_t)
  | M_raw (id : Z) (rq : v3da_req)
  | M_getattr (is_mode : bool)            (* atMode, or another attribute *)
  | M_getattr_all (room : bool)           (* the reply buffer holds a _attrAll *)
  | M_read_write
  | M_other.

Definition respond (port rid : Z) (r : option v3da_resp_t) (s : v3da_srv_t) : v3da_srv_t :=
  match r with Some r => emit (E_respond port rid r) s | None => s end.

(** Claimed requests are answered first, then this one unless it was parked. *)
Definition dispatch (fp_pa port rid : Z) (msg : srv_msg) (s : v3da_srv_t) : v3da_srv_t :=
  let '(r, s, answer) :=
    match msg with
    | M_open pid => let '(id, s) := client_open pid s in (Some (mkResp id R_none), s, [])
    | M_close id => let '(s, answer) := client_close id s [] in (Some (mkResp 0 R_none), s, answer)
    | M_hello id proto => let '(rc, u, s) := client_hello id proto fp_pa s in (Some (mkResp rc u), s, [])
    | M_import id rq ie between =>
        let '(rc, u, s) := v3da_bo_import (u32 id) rq ie between s in (Some (mkResp rc u), s, [])
    | M_raw id rq => raw_request id rid rq (s <| srv_wt ; rx_port := port |>) []
    | M_getattr is_mode => (Some (mkResp (if is_mode then 0 else - EINVAL) R_none), s, [])
    | M_getattr_all room => (Some (mkResp (if room then 0 else - EINVAL) R_none), s, [])
    | M_read_write => (Some (mkResp (- EINVAL) R_none), s, [])
    | M_other => (Some (mkResp (- ENOSYS) R_none), s, [])
    end in
  respond port rid r (v3da_waits_answer answer s).
End env.
