(* ===== verification/SchedInv.v ===== *)
(** The scheduler's invariant: every queued or running job exists on its own queue, each
    client's list is in submission order behind the job it has running, no job is lost or
    in two places, and [nbusy] counts the busy hardware queues. *)
From Stdlib Require Import Sorted.
From S2P Require Import Prelude Proto State Csdprof Lowmem Hw Fence Bo BoInv BoSteps.
From S2P Require Import BoSpec Ovf Waits Jobs.

(** The part of a job the scheduler sorts by: its queue and its client's slot. *)
Definition jkey (j : v3da_job_t) : Z * Z := (j_queue j, f_slot (j_fence j)).

Record sched_inv (loose : list Z) (s : v3da_srv_t) : Prop := mkSchedInv {
  si_fifo : ∀ qu slot jid, jid ∈ fifo s qu slot → jkey <$> job s jid = Some (qu, slot) ∧ jid ∉ loose;
  si_active : ∀ qu jid, active s qu = Some jid → (∃ slot, jkey <$> job s jid = Some (qu, slot)) ∧ jid ∉ loose;
  si_sorted : ∀ qu slot, StronglySorted Z.lt (fifo s qu slot);
  si_before : ∀ qu slot jid jid', active s qu = Some jid → jkey <$> job s jid = Some (qu, slot) →
    jid' ∈ fifo s qu slot → jid < jid';
  si_placed : ∀ jid qu slot, jkey <$> job s jid = Some (qu, slot) → jid ∉ loose →
    jid ∈ fifo s qu slot ∨ active s qu = Some jid;
  si_gseq : ∀ jid, is_Some (job s jid) → jid ≤ gseq (srv_sched s);
  si_nbusy : nbusy (srv_sched s) = countZ (λ qu, is_hw_queue qu && bool_decide (is_Some (active s qu))) 0 V3DA_Q_COUNT }.

(** ** What the invariant reads *)
Definition same_sched (s s' : v3da_srv_t) : Prop :=
  (∀ qu slot, fifo s' qu slot = fifo s qu slot) ∧ (∀ qu, active s' qu = active s qu) ∧
  (∀ jid, jkey <$> job s' jid = jkey <$> job s jid) ∧
  gseq (srv_sched s') = gseq (srv_sched s) ∧ nbusy (srv_sched s') = nbusy (srv_sched s).
#[export] Instance same_sched_pre : PreOrder same_sched.
Proof.
  split; [done|]. intros a b c (F1 & A1 & J1 & G1 & N1) (F2 & A2 & J2 & G2 & N2).
  unfold same_sched. split_and!; intros; congruence.
Qed.

Lemma jkey_is_Some s s' jid : jkey <$> job s' jid = jkey <$> job s jid → is_Some (job s' jid) → is_Some (job s jid).
Proof. destruct (job s' jid), (job s jid); intros H [? ?]; try done; by eexists. Qed.

Lemma sched_inv_same loose s s' : same_sched s s' → sched_inv loose s → sched_inv loose s'.
Proof.
  intros (F & A & J & G & N) []. constructor.
  - intros qu slot jid. rewrite F, J. auto.
  - intros qu jid. rewrite A. setoid_rewrite J. auto.
  - intros. by rewrite F.
  - intros qu slot jid jid'. rewrite A, J, F. eauto.
  - intros jid qu slot. rewrite J, F, A. auto.
  - intros jid Hs. rewrite G. apply si_gseq0. by apply (jkey_is_Some s s').
  - rewrite N, si_nbusy0. apply countZ_ext. intros. by rewrite A.
Qed.

Ltac same_sched_refl := unfold same_sched; split_and!; intros; reflexivity.

Lemma same_sched_of s s' : srv_sched s' = srv_sched s → same_sched s s'.
Proof. intros E. unfold same_sched, fifo, active, srv_q, job. rewrite E. split_and!; done. Qed.

Lemma set_job_same jid f s : (∀ j, jkey (f j) = jkey j) → same_sched s (set_job jid f s).
Proof.
  intros Hf. unfold same_sched. split_and!; try done. intros jid'. unfold job, set_job. simpl.
  destruct (decide (jid = jid')) as [->|Hne].
  - rewrite lookup_alter_eq. destruct (jobs (srv_sched s) !! jid'); simpl; [|done]. by rewrite Hf.
  - by rewrite lookup_alter_ne.
Qed.

Lemma set_q_same qu f s :
  (∀ q, q_fifo (f q) = q_fifo q) → (∀ q, q_active (f q) = q_active q) → same_sched s (set_q qu f s).
Proof.
  intros Hf Ha. unfold same_sched, fifo, active, srv_q. simpl. split_and!; try done; intros;
    (rewrite fn_upd_case; case_decide; [subst; by rewrite ?Hf, ?Ha|done]).
Qed.

(** ** Frames of the operations that do not schedule *)
Section env.
Context `{E : Env}.

Lemma emit_same e s : same_sched s (emit e s).
Proof. same_sched_refl. Qed.

Lemma unpin_sched hs s : srv_sched (v3da_bo_unpin hs s) = srv_sched s.
Proof.
  unfold v3da_bo_unpin. revert s. induction hs as [|h hs IH]; intros s; [done|]. simpl. rewrite IH.
  unfold unpin_one. case_match; [|done]. case_match; [|done].
  match goal with |- srv_sched (quarantine_begin ?i ?x) = _ =>
    destruct (quarantine_begin_spec i x) as ((_ & _ & -> & _) & _) end. done.
Qed.

Lemma chunk_attach_same jid idx s : same_sched s (chunk_attach jid idx s).
Proof. unfold chunk_attach. etrans; [|by apply set_job_same]. same_sched_refl. Qed.

Lemma chunks_move_same n bin render s : same_sched s (chunks_move n bin render s).
Proof.
  revert s. induction n as [|n IH]; intros s; [done|]. simpl. case_match; [|done].
  etrans; [|apply IH]. etrans; [|apply chunk_attach_same]. by apply set_job_same.
Qed.

Lemma free_job_chunks_same jid s : same_sched s (free_job_chunks jid s).
Proof. unfold free_job_chunks. etrans; [|by apply set_job_same]. same_sched_refl. Qed.

Lemma done_chunks_same jid j err s : same_sched s (done_chunks jid j err s).
Proof.
  unfold done_chunks. case_match.
  - etrans; [|apply free_job_chunks_same]. case_match; [|done].
    etrans; [|apply chunks_move_same]. by apply set_job_same.
  - case_match; [apply free_job_chunks_same|done].
Qed.

Lemma unlink_bin_same j s : same_sched s (unlink_bin j s).
Proof. unfold unlink_bin. case_match; [by apply set_job_same|done]. Qed.

Lemma drop_pins_same j s : same_sched s (drop_pins j s).
Proof. unfold drop_pins. case_match; [apply same_sched_of, unpin_sched|done]. Qed.

Lemma done_count_same qu err s : same_sched s (done_count qu err s).
Proof. by apply set_q_same. Qed.

Lemma fence_complete_same j err s : same_sched s (v3da_fence_complete j err s).
Proof. unfold v3da_fence_complete. case_match. same_sched_refl. Qed.

(** ** Completion *)
Lemma free_job_inv loose jid s : sched_inv (jid :: loose) s → sched_inv loose (free_job jid s).
Proof.
  intros [].
  assert (∀ jid', jid' ≠ jid → job (free_job jid s) jid' = job s jid') as Hne.
  { intros. unfold job. simpl. by rewrite lookup_delete_ne. }
  assert (job (free_job jid s) jid = None) as He by (unfold job; simpl; apply lookup_delete_eq).
  assert (∀ jid', is_Some (job (free_job jid s) jid') → jid' ≠ jid) as Hs.
  { intros jid' [j Hj] ->. congruence. }
  constructor; try done.
  - intros qu slot jid' Hin. apply si_fifo0 in Hin as [Hk Hl]. rewrite Hne by (intros ->; apply Hl; by left).
    split; [done|]. intros ?. apply Hl. by right.
  - intros qu jid' Ha. apply si_active0 in Ha as [Hk Hl]. rewrite Hne by (intros ->; apply Hl; by left).
    split; [done|]. intros ?. apply Hl. by right.
  - intros qu slot jid1 jid2 Ha Hk. apply (si_before0 qu slot); [done|].
    rewrite <- Hne; [done|]. apply Hs. destruct (job _ jid1); [by eexists|done].
  - intros jid' qu slot Hk Hl. assert (jid' ≠ jid) as Hn by (apply Hs; destruct (job _ jid'); [by eexists|done]).
    apply si_placed0; [by rewrite <- Hne|]. by intros [->|?]%elem_of_cons.
  - intros jid' Hj. apply si_gseq0. rewrite <- Hne; [done|]. by apply Hs.
Qed.

Lemma hw_queue_range qu : is_hw_queue qu = true → 0 ≤ qu < V3DA_Q_COUNT.
Proof. unfold is_hw_queue. rewrite !orb_true_iff, !Z.eqb_eq. intros [[[-> | ->] | ->] | ->]; done. Qed.

Lemma nbusy_bounds loose s : sched_inv loose s → 0 ≤ nbusy (srv_sched s) ≤ V3DA_Q_COUNT.
Proof. intros []. rewrite si_nbusy0. split; [apply countZ_nonneg|by apply countZ_le]. Qed.

(** Taking a job off its queue. *)
Lemma active_clear_inv loose s s' qu jid :
  sched_inv loose s → active s qu = Some jid →
  (∀ qu slot, fifo s' qu slot = fifo s qu slot) →
  (∀ qu', active s' qu' = if decide (qu = qu') then None else active s qu') →
  (∀ jid, jkey <$> job s' jid = jkey <$> job s jid) → gseq (srv_sched s') = gseq (srv_sched s) →
  nbusy (srv_sched s') = (if is_hw_queue qu then u32 (nbusy (srv_sched s) - 1) else nbusy (srv_sched s)) →
  sched_inv (jid :: loose) s'.
Proof.
  intros Hinv Ha F A J G N. pose proof (nbusy_bounds _ _ Hinv) as Hb. destruct Hinv.
  destruct (si_active0 qu jid Ha) as [[slot0 Hk0] Hl0].
  constructor.
  - intros q' slot jid'. rewrite F, J. intros Hin. destruct (si_fifo0 _ _ _ Hin) as [Hk Hl]. split; [done|].
    intros [->|?]%elem_of_cons; [|done]. simplify_eq.
    pose proof (si_before0 _ _ _ _ Ha Hk0 Hin). lia.
  - intros q' jid'. rewrite A. case_decide as Hq; [done|]. intros Ha'. destruct (si_active0 _ _ Ha') as [[sl Hk] Hl].
    split; [exists sl; by rewrite J|]. intros [->|?]%elem_of_cons; [congruence|done].
  - intros. by rewrite F.
  - intros q' slot j1 j2. rewrite A, J, F. case_decide; [done|]. eauto.
  - intros jid' q' slot. rewrite J, F, A. intros Hk Hl.
    destruct (si_placed0 jid' q' slot Hk) as [?|Ha']; [intros ?; apply Hl; by right|by left|].
    right. case_decide as Hq; [|done]. subst. exfalso. apply Hl. assert (jid' = jid) as -> by congruence. by left.
  - intros jid' Hs. rewrite G. apply si_gseq0. by apply (jkey_is_Some s s').
  - rewrite N, si_nbusy0. rewrite si_nbusy0 in Hb.
    destruct (is_hw_queue qu) eqn:Hhw.
    + pose proof (hw_queue_range qu Hhw) as Hr.
      set (p := λ qu, is_hw_queue qu && bool_decide (is_Some (active s qu))) in *.
      rewrite (countZ_point p (λ qu, is_hw_queue qu && bool_decide (is_Some (active s' qu))) V3DA_Q_COUNT qu Hr) by (intros q' Hne; rewrite A, decide_False by done; done).
      assert (p qu = true) as Ep by (unfold p; rewrite Hhw, Ha; done).
      pose proof (countZ_ge p 0 V3DA_Q_COUNT qu Hr Ep).
      rewrite Ep, A, decide_True by done. rewrite bool_decide_eq_false_2 by (by intros [? ?]).
      rewrite andb_false_r. cbn [b2z]. unfold V3DA_Q_COUNT in *. rewrite u32_small by lia. lia.
    + apply countZ_ext. intros q' Hq. rewrite A. case_decide; [subst; by rewrite Hhw|done].
Qed.

Lemma done_leave_inv loose jid j now s :
  sched_inv loose s → job s jid = Some j → (active s (j_queue j) = Some jid ∨ jid ∈ loose) →
  sched_inv (jid :: loose) (done_leave jid j now s).
Proof.
  intros Hinv Hj Hw. unfold done_leave. case_bool_decide as Ha.
  - set (s1 := if is_hw_queue (j_queue j) then _ else s).
    assert ((∀ qu slot, fifo s1 qu slot = fifo s qu slot) ∧ (∀ qu, active s1 qu = active s qu) ∧
      (∀ jid, job s1 jid = job s jid) ∧ gseq (srv_sched s1) = gseq (srv_sched s) ∧
      nbusy (srv_sched s1) = if is_hw_queue (j_queue j) then u32 (nbusy (srv_sched s) - 1) else nbusy (srv_sched s))
      as (F & A & J & G & N) by (unfold s1; destruct (is_hw_queue (j_queue j)); split_and!; intros; reflexivity).
    clearbody s1.
    apply (active_clear_inv loose s _ (j_queue j)); try done.
    + intros qu slot. rewrite <- F. unfold fifo, srv_q. simpl. rewrite fn_upd_case. case_decide; by subst.
    + intros qu'. unfold active, srv_q. simpl. rewrite fn_upd_case. case_decide; [done|]. apply A.
    + intros jid'. change (jkey <$> job s1 jid' = jkey <$> job s jid'). by rewrite J.
  - destruct Hw as [?|Hl]; [done|].
    apply (sched_inv_same _ s).
    + case_match; [same_sched_refl|done].
    + destruct Hinv. constructor; try done.
      * intros qu slot jid' Hin. destruct (si_fifo0 _ _ _ Hin) as [? Hn]. split; [done|].
        intros [->|?]%elem_of_cons; done.
      * intros qu jid' Hin. destruct (si_active0 _ _ Hin) as [? Hn]. split; [done|].
        intros [->|?]%elem_of_cons; done.
      * intros jid' qu slot Hk Hn. apply si_placed0; [done|]. intros ?. apply Hn. by right.
Qed.

Lemma sched_inv_dup loose jid s : sched_inv (jid :: loose) s → jid ∈ loose → sched_inv loose s.
Proof.
  intros [] Hin. constructor; try done.
  - intros qu slot jid' Hf. destruct (si_fifo0 _ _ _ Hf) as [? Hn]. split; [done|]. intros ?. apply Hn. by right.
  - intros qu jid' Hf. destruct (si_active0 _ _ Hf) as [? Hn]. split; [done|]. intros ?. apply Hn. by right.
  - intros jid' qu slot Hk Hn. apply si_placed0; [done|]. by intros [->|?]%elem_of_cons.
Qed.

Lemma job_done_inv loose jid err now s :
  sched_inv loose s →
  (∀ j, job s jid = Some j → active s (j_queue j) = Some jid) →
  sched_inv loose (job_done jid err now s).
Proof.
  intros Hinv Hw. unfold job_done. destruct (job s jid) as [j|] eqn:Hj; [|done]. cbv zeta.
  apply free_job_inv. eapply sched_inv_same; [|apply (done_leave_inv _ jid j now s); [done|done|left; by apply Hw]].
  etrans; [|apply same_sched_of; reflexivity]. etrans; [|apply fence_complete_same].
  etrans; [|apply drop_pins_same]. etrans; [|apply unlink_bin_same].
  etrans; [|apply done_chunks_same]. apply done_count_same.
Qed.

(** A job held by nobody: popped from its list. *)
Lemma job_done_loose_inv loose jid err now s :
  sched_inv (jid :: loose) s → is_Some (job s jid) → sched_inv loose (job_done jid err now s).
Proof.
  intros Hinv [j Hj]. unfold job_done. rewrite Hj. cbv zeta.
  apply free_job_inv. apply (sched_inv_same _ (done_leave jid j now s)).
  - etrans; [|apply same_sched_of; reflexivity]. etrans; [|apply fence_complete_same].
    etrans; [|apply drop_pins_same]. etrans; [|apply unlink_bin_same].
    etrans; [|apply done_chunks_same]. apply done_count_same.
  - apply (sched_inv_dup _ jid); [|by left]. apply done_leave_inv; [done|done|right; by left].
Qed.

Lemma job_discard_inv loose jid s :
  sched_inv (jid :: loose) s → is_Some (job s jid) → sched_inv loose (job_discard jid s).
Proof.
  intros Hinv [j Hj]. unfold job_discard. rewrite Hj. cbv zeta.
  apply free_job_inv. apply (sched_inv_same _ s); [|done].
  etrans; [|apply drop_pins_same].
  set (s2 := match j_render j with Some r => _ | None => _ end).
  assert (same_sched s s2) as H2.
  { unfold s2. case_match; [etrans; [|by apply set_job_same]|]; apply unlink_bin_same. }
  clearbody s2. etrans; [exact H2|]. case_match; [same_sched_refl|done].
Qed.
End env.
