(* ===== verification/SchedKick.v ===== *)
(** The scheduler's invariant through the kick sequences, the wedge and one scheduling
    round. *)
From Stdlib Require Import Sorted.
From S2P Require Import Prelude Proto State Csdprof Lowmem Hw Fence Bo BoInv BoSteps.
From S2P Require Import BoSpec Ovf Waits Jobs SchedInv.

Create Rewrite HintDb sched_frame.

Section env.
Context `{E : Env}.

(** ** Frames of the hardware steps *)
Lemma if_sched (b : bool) s s1 s2 : srv_sched s1 = srv_sched s → srv_sched s2 = srv_sched s → srv_sched (if b then s1 else s2) = srv_sched s.
Proof. by destruct b. Qed.
Lemma csd_done_stamp_sched c s : srv_sched (csd_done_stamp c s) = srv_sched s.
Proof. unfold csd_done_stamp. case_match; reflexivity. Qed.
Lemma mmu_ack_sched h s : srv_sched (mmu_ack h s) = srv_sched s.
Proof. unfold mmu_ack. case_match; reflexivity. Qed.
Lemma outomem_service_sched c s : srv_sched (outomem_service c s) = srv_sched s.
Proof. unfold outomem_service. destruct (has c INT_OUTOMEM); [|done]. cbv zeta. by destruct (negb _). Qed.
Lemma hw_drain_sched s : srv_sched (v3da_hw_drain s) = srv_sched s.
Proof.
  unfold v3da_hw_drain, rd_core, rd_hub. cbv zeta iota beta.
  set (s1 := if negb (Z.ldiff _ _ =? 0) then _ else _). assert (srv_sched s1 = srv_sched s) as <-.
  { unfold s1. apply if_sched; [|done].
    match goal with |- srv_sched (csd_done_stamp ?c ?x <| srv_hw ; hw_ev_core ::= _ |>) = _ =>
      change (srv_sched (csd_done_stamp c x) = srv_sched x) end. apply csd_done_stamp_sched. }
  apply if_sched; [|done].
  match goal with |- srv_sched (emit _ ?x <| srv_hw ; hw_ev_hub ::= _ |>) = _ =>
    change (srv_sched x = srv_sched s1) end. apply mmu_ack_sched.
Qed.
Lemma hw_service_sched s : srv_sched (hw_service s).2 = srv_sched s.
Proof.
  unfold hw_service, rd_core, rd_hub. cbv zeta iota beta. cbn [snd].
  match goal with |- srv_sched (fold_events _ _ ?x) = _ => change (srv_sched x = srv_sched s) end.
  rewrite outomem_service_sched. set (s1 := if negb (env_core _ _ =? 0) then _ else _).
  assert (srv_sched s1 = srv_sched s) as <-.
  { unfold s1. apply if_sched; [|done]. rewrite csd_done_stamp_sched. done. }
  apply if_sched; [|done]. apply (mmu_ack_sched _ s1).
Qed.
Lemma drain_for_kick_sched c h s : srv_sched (drain_for_kick c h s) = srv_sched s.
Proof. unfold drain_for_kick. cbv zeta. rewrite <- (hw_drain_sched s). by destruct (negb (c =? 0)), (negb (h =? 0)). Qed.
Lemma tlb_step_sched s : srv_sched (tlb_step s) = srv_sched s.
Proof. unfold tlb_step. case_match; reflexivity. Qed.
Lemma l2t_flush_sched w s : srv_sched (l2t_flush w s) = srv_sched s.
Proof. unfold l2t_flush. destruct w; reflexivity. Qed.
Lemma ovf_stage_sched s : srv_sched (ovf_stage s) = srv_sched s.
Proof. unfold ovf_stage. cbv zeta. case_match; [done|]. destruct (chunk_alloc _). by apply if_sched. Qed.

Hint Rewrite hw_drain_sched hw_service_sched drain_for_kick_sched tlb_step_sched l2t_flush_sched ovf_stage_sched : sched_frame.
Lemma emit_sched e s : srv_sched (emit e s) = srv_sched s.
Proof. reflexivity. Qed.
Lemma slices_inval_sched s : srv_sched (slices_inval s) = srv_sched s.
Proof. reflexivity. Qed.
Lemma clean_caches_sched s : srv_sched (clean_caches s) = srv_sched s.
Proof. reflexivity. Qed.
Lemma set_ovf_sched f s : srv_sched (s <| srv_ovf ::= f |>) = srv_sched s.
Proof. reflexivity. Qed.
Lemma tick_sched s : srv_sched (tick s) = srv_sched s.
Proof. reflexivity. Qed.
Lemma set_hw_sched f s : srv_sched (s <| srv_hw ::= f |>) = srv_sched s.
Proof. reflexivity. Qed.
Hint Rewrite tick_sched set_hw_sched emit_sched slices_inval_sched clean_caches_sched set_ovf_sched : sched_frame.

Lemma if_emit_sched (b : bool) s s1 : srv_sched s1 = srv_sched s → srv_sched (if b then s1 else s) = srv_sched s.
Proof. by destruct b. Qed.

Lemma kick_bin_sched d s : srv_sched (kick_bin d s) = srv_sched s.
Proof.
  unfold kick_bin. cbv zeta. autorewrite with sched_frame.
  rewrite if_emit_sched by (by autorewrite with sched_frame).
  rewrite if_emit_sched by (by autorewrite with sched_frame). autorewrite with sched_frame.
  autorewrite with sched_frame.
  rewrite if_emit_sched by (by autorewrite with sched_frame).
  rewrite if_emit_sched by (by autorewrite with sched_frame). autorewrite with sched_frame.
  rewrite if_emit_sched by (by autorewrite with sched_frame). done.
Qed.

Lemma kick_render_sched d s : srv_sched (kick_render d s) = srv_sched s.
Proof.
  unfold kick_render. cbv zeta. autorewrite with sched_frame.
  by rewrite if_emit_sched by (by autorewrite with sched_frame).
Qed.

Lemma kick_tfu_sched t s : srv_sched (kick_tfu t s) = srv_sched s.
Proof.
  unfold kick_tfu. cbv zeta. autorewrite with sched_frame.
  rewrite if_emit_sched by (by autorewrite with sched_frame). by autorewrite with sched_frame.
Qed.

Lemma for_emit_sched lo hi (f : Z → effect) s : srv_sched (for_ lo hi (λ i, emit (f i)) s) = srv_sched s.
Proof. by apply (for_frame srv_sched). Qed.

Lemma kick_csd_same jid d s : same_sched s (kick_csd jid d s).2.
Proof.
  unfold kick_csd. cbv zeta. unfold v3da_cnt. cbn iota beta.
  set (s1 := set_job jid _ (tick s)). assert (same_sched s s1) as H1 by (by unfold s1; etrans; [|apply set_job_same]).
  clearbody s1. etrans; [exact H1|]. clear H1.
  set (s2 := l2t_flush true _). assert (srv_sched s2 = srv_sched s1) as H2 by (unfold s2; by autorewrite with sched_frame).
  clearbody s2. etrans; [apply same_sched_of, H2|]. clear H2.
  case_match; [by apply same_sched_of|]. cbn [snd].
  etrans; [|by apply set_job_same]. apply same_sched_of.
  autorewrite with sched_frame. rewrite for_emit_sched. by autorewrite with sched_frame.
Qed.

Lemma progress_sample_sched qu s : srv_sched (progress_sample qu s).2 = srv_sched s.
Proof. unfold progress_sample, rd_core, rd_hub. repeat (case_match; [reflexivity|]). reflexivity. Qed.

Lemma job_sample_same jid qu s : same_sched s (job_sample jid qu s).
Proof.
  unfold job_sample. case_match; [|done]. pose proof (progress_sample_sched qu s) as Hp.
  destruct (progress_sample qu s) as [[ca ra] s']. simpl in Hp.
  etrans; [|by apply set_job_same]. by apply same_sched_of.
Qed.

Lemma hw_reset_sched s : srv_sched (v3da_hw_reset s).2 = srv_sched s.
Proof. unfold v3da_hw_reset. cbv zeta. cbn [snd]. case_match; reflexivity. Qed.

(** ** The wedge *)
Lemma wedge_fail_one_inv loose now qu s :
  sched_inv loose s → sched_inv loose (wedge_fail_one now qu s).
Proof.
  intros Hinv. unfold wedge_fail_one. destruct (active s qu) as [jid|] eqn:Ha; [|done].
  case_match; [|done]. apply job_done_inv; [done|]. intros j Hj.
  destruct (si_active _ _ Hinv qu jid Ha) as [[slot Hk] _]. rewrite Hj in Hk. simpl in Hk.
  unfold jkey in Hk. by simplify_eq.
Qed.

Lemma wedge_inv loose now s : sched_inv loose s → sched_inv loose (wedge now s).
Proof.
  intros Hinv. unfold wedge. cbv zeta.
  set (s1 := s <| srv_st ; wedges ::= _ |>).
  pose proof (hw_reset_sched s1) as Hr. destruct (v3da_hw_reset s1) as [rc s2]. simpl in Hr.
  apply (for_inv (sched_inv loose)); [|intros; by apply wedge_fail_one_inv].
  apply (sched_inv_same _ s); [|done]. apply same_sched_of. case_match; done.
Qed.

(** ** Starting a job *)
Lemma activate_inv loose s s' qu slot jid :
  sched_inv (jid :: loose) s → jkey <$> job s jid = Some (qu, slot) → active s qu = None → jid ∉ loose →
  (∀ jid', jid' ∈ fifo s qu slot → jid < jid') →
  (∀ qu slot, fifo s' qu slot = fifo s qu slot) →
  (∀ qu', active s' qu' = if decide (qu = qu') then Some jid else active s qu') →
  (∀ jid, jkey <$> job s' jid = jkey <$> job s jid) → gseq (srv_sched s') = gseq (srv_sched s) →
  nbusy (srv_sched s') = (if is_hw_queue qu then u32 (nbusy (srv_sched s) + 1) else nbusy (srv_sched s)) →
  sched_inv loose s'.
Proof.
  intros Hinv Hk Ha Hnl Hlt F A J G N. pose proof (nbusy_bounds _ _ Hinv) as Hb. destruct Hinv.
  constructor.
  - intros q' sl jid'. rewrite F, J. intros Hin. destruct (si_fifo _ _ _ Hin) as [? Hl]. split; [done|].
    intros ?. apply Hl. by right.
  - intros q' jid'. rewrite A. case_decide as Hq.
    + intros; simplify_eq. split; [exists slot; by rewrite J|done].
    + intros Ha'. destruct (si_active _ _ Ha') as [[sl ?] Hl]. split; [exists sl; by rewrite J|].
      intros ?. apply Hl. by right.
  - intros. by rewrite F.
  - intros q' sl j1 j2. rewrite A, J, F. case_decide as Hq; [|eauto]. intros; simplify_eq. by apply Hlt.
  - intros jid' q' sl. rewrite J, F, A. intros Hk' Hl. destruct (decide (jid' = jid)) as [->|Hne].
    + right. simplify_eq. by rewrite decide_True.
    + destruct (si_placed jid' q' sl Hk') as [?|Ha']; [by intros [->|?]%elem_of_cons|by left|].
      right. rewrite decide_False; [done|]. intros ->. congruence.
  - intros jid' Hs. rewrite G. apply si_gseq. by apply (jkey_is_Some s s').
  - rewrite N, si_nbusy. rewrite si_nbusy in Hb. destruct (is_hw_queue qu) eqn:Hhw.
    + pose proof (hw_queue_range qu Hhw) as Hr.
      set (p := λ qu, is_hw_queue qu && bool_decide (is_Some (active s qu))) in *.
      rewrite (countZ_point p (λ qu, is_hw_queue qu && bool_decide (is_Some (active s' qu))) V3DA_Q_COUNT qu Hr)
        by (intros q' Hne; rewrite A, decide_False by done; done).
      assert (p qu = false) as Ep by (unfold p; by rewrite Hhw, Ha).
      rewrite Ep, A, decide_True, Hhw by done. rewrite bool_decide_eq_true_2 by (by eexists).
      cbn [b2z andb]. unfold V3DA_Q_COUNT in *. rewrite u32_small by lia. lia.
    + apply countZ_ext. intros q' Hq. rewrite A. case_decide; [subst; by rewrite Hhw|done].
Qed.

Lemma job_start_inv loose jid j now s :
  sched_inv (jid :: loose) s → job s jid = Some j → active s (j_queue j) = None → jid ∉ loose →
  (∀ jid', jid' ∈ fifo s (j_queue j) (f_slot (j_fence j)) → jid < jid') →
  sched_inv loose (job_start jid j now s).
Proof.
  intros Hinv Hj Ha Hl Hlt. set (qu := j_queue j) in *.
  unfold job_start. cbv zeta. fold qu.
  set (s1 := set_q qu _ s). set (s2 := set_job jid _ s1). set (s3 := set_q qu _ s2). set (s4 := s3 <| srv_fp ::= _ |>).
  assert (same_sched s1 s4) as H4.
  { transitivity s3; [|by apply same_sched_of]. transitivity s2; [by apply set_job_same|by apply set_q_same]. }
  destruct H4 as (F4 & A4 & J4 & G4 & N4).
  assert (∀ q' sl, fifo s1 q' sl = fifo s q' sl) as F1.
  { intros q' sl. unfold fifo, srv_q, s1. simpl. rewrite fn_upd_case. case_decide; by subst. }
  assert (∀ q', active s1 q' = if decide (qu = q') then Some jid else active s q') as A1.
  { intros q'. unfold active, srv_q, s1. simpl. rewrite fn_upd_case. by case_decide. }
  apply (activate_inv loose s _ qu (f_slot (j_fence j)) jid); try done.
  - by rewrite Hj.
  - intros q' sl. rewrite <- F1, <- F4. case_match; [|done]. done.
  - intros q'. rewrite <- A1, <- A4. case_match; done.
  - intros jid'. change (job s jid') with (job s1 jid'). rewrite <- J4. case_match; [|done].
    match goal with |- _ <$> job (set_job jid ?f ?x) _ = _ => destruct (set_job_same jid f x) as (_ & _ & Hx & _); [done|] end.
    by rewrite Hx.
  - change (gseq (srv_sched s)) with (gseq (srv_sched s1)). rewrite <- G4. case_match; done.
  - change (nbusy (srv_sched s)) with (nbusy (srv_sched s1)). rewrite <- N4. case_match; done.
Qed.

Lemma job_kick_inv loose jid now s :
  sched_inv (jid :: loose) s → jid ∉ loose →
  (∀ j, job s jid = Some j → active s (j_queue j) = None ∧
        ∀ jid', jid' ∈ fifo s (j_queue j) (f_slot (j_fence j)) → jid < jid') →
  is_Some (job s jid) → sched_inv loose (job_kick jid now s).
Proof.
  intros Hinv Hl Hlt [j Hj]. destruct (Hlt j Hj) as [Ha Hb]. clear Hlt.
  unfold job_kick. rewrite Hj. cbv zeta.
  pose proof (job_start_inv loose jid j now s Hinv Hj Ha Hl Hb) as H1.
  set (s1 := job_start jid j now s) in *. clearbody s1.
  assert (∀ s2, same_sched s1 s2 → sched_inv loose (job_sample jid (j_queue j) s2)) as Hs.
  { intros s2 H2. apply (sched_inv_same _ s1); [|done]. etrans; [exact H2|]. apply job_sample_same. }
  destruct (j_queue j =? V3DA_Q_CPU) eqn:Hcpu; [apply Hs; by apply set_job_same|].
  destruct (j_d j) as [d|t|d|]; [| | |by apply Hs].
  - case_match; [apply Hs, same_sched_of, kick_bin_sched|].
    case_match; [apply Hs, same_sched_of, kick_render_sched|by apply Hs].
  - apply Hs. case_match; [apply same_sched_of, kick_tfu_sched|done].
  - case_match; [|by apply Hs]. pose proof (kick_csd_same jid d s1) as Hk.
    destruct (kick_csd jid d s1) as [ok s2]. simpl in Hk. destruct ok; [by apply Hs|].
    apply wedge_inv. apply (sched_inv_same _ s1); [|done]. etrans; [exact Hk|]. by apply set_job_same.
Qed.
End env.

#[export] Hint Rewrite @hw_drain_sched @hw_service_sched @drain_for_kick_sched @tlb_step_sched @l2t_flush_sched
  @ovf_stage_sched tick_sched set_hw_sched emit_sched @slices_inval_sched @clean_caches_sched set_ovf_sched : sched_frame.
