(* ===== verification/SchedRun.v ===== *)
(** One scheduling round: what it starts, and that it keeps the invariant.  The reaping
    of failed heads reaches its end within the fuel it is given. *)
From Stdlib Require Import Sorted.
From S2P Require Import Prelude Proto State Csdprof Lowmem Hw Fence Bo BoInv BoSteps.
From S2P Require Import BoSpec Ovf Waits Jobs SchedInv SchedKick.

Section env.
Context `{E : Env}.

(** ** Popping a list *)
Lemma head_fifo s qu slot jid : head s qu slot = Some jid → ∃ rest, fifo s qu slot = jid :: rest.
Proof. unfold head. destruct (fifo s qu slot); [done|]. intros; simplify_eq/=. by eexists. Qed.

Lemma fifo_pop_fifo qu slot s qu' slot' :
  fifo (fifo_pop qu slot s) qu' slot' =
  if decide (qu = qu' ∧ slot = slot') then tl (fifo s qu slot) else fifo s qu' slot'.
Proof.
  unfold fifo, srv_q, fifo_pop. simpl. rewrite fn_upd_case. case_decide as H1; subst; simpl.
  - rewrite fn_upd_case. case_decide as H2; subst; [by rewrite decide_True|].
    rewrite decide_False; [done|]. by intros [_ ?].
  - rewrite decide_False; [done|]. by intros [? _].
Qed.

Lemma fifo_pop_active qu slot s qu' : active (fifo_pop qu slot s) qu' = active s qu'.
Proof. unfold active, srv_q, fifo_pop. simpl. rewrite fn_upd_case. case_decide; by subst. Qed.

Lemma fifo_pop_inv loose qu slot jid s :
  sched_inv loose s → head s qu slot = Some jid →
  sched_inv (jid :: loose) (fifo_pop qu slot s) ∧ jkey <$> job s jid = Some (qu, slot) ∧ (jid ∉ loose) ∧
  ∀ jid', jid' ∈ fifo (fifo_pop qu slot s) qu slot → jid < jid'.
Proof.
  intros [] Hh. apply head_fifo in Hh as [rest Hf].
  assert (jid ∈ fifo s qu slot) as Hin by (rewrite Hf; by left).
  destruct (si_fifo _ _ _ Hin) as [Hk Hl].
  pose proof (si_sorted qu slot) as Hs. rewrite Hf in Hs. apply StronglySorted_inv in Hs as [Hs Hall].
  rewrite Forall_forall in Hall.
  assert (∀ qu' slot' jid', jid' ∈ fifo (fifo_pop qu slot s) qu' slot' → jid' ∈ fifo s qu' slot' ∧ jid' ≠ jid) as Hsub.
  { intros qu' slot' jid'. rewrite fifo_pop_fifo. case_decide as Hd.
    - destruct Hd as [<- <-]. rewrite Hf. simpl. intros Hi. split; [by right|]. specialize (Hall _ Hi). lia.
    - intros Hi. split; [done|]. intros ->. destruct (si_fifo _ _ _ Hi) as [Hk' _]. rewrite Hk in Hk'. injection Hk' as -> ->. by destruct Hd. }
  assert (∀ qu', active s qu' ≠ Some jid) as Hna.
  { intros qu' Ha. destruct (si_active _ _ Ha) as [[sl Hk'] _]. simplify_eq.
    pose proof (si_before _ _ _ _ Ha Hk Hin). lia. }
  split_and!; try done.
  2:{ intros jid'. rewrite fifo_pop_fifo, decide_True by done. rewrite Hf. apply Hall. }
  constructor.
  - intros qu' slot' jid' Hi. apply Hsub in Hi as [Hi Hne]. destruct (si_fifo _ _ _ Hi) as [? ?].
    split; [done|]. by intros [->|?]%elem_of_cons.
  - intros qu' jid'. rewrite fifo_pop_active. intros Ha. destruct (si_active _ _ Ha) as [? ?]. split; [done|].
    intros [->|?]%elem_of_cons; [by destruct (Hna qu')|done].
  - intros qu' slot'. rewrite fifo_pop_fifo. case_decide as Hd; [|done]. by rewrite Hf.
  - intros qu' slot' j1 j2. rewrite fifo_pop_active. intros Ha Hk1 Hi. apply Hsub in Hi as [Hi _].
    by apply (si_before qu' slot').
  - intros jid' qu' slot' Hk' Hn. rewrite fifo_pop_active, fifo_pop_fifo.
    destruct (si_placed jid' qu' slot' Hk') as [Hi|Ha]; [intros ?; apply Hn; by right| |by right].
    left. case_decide as Hd; [|done]. destruct Hd as [<- <-]. rewrite Hf in Hi. rewrite Hf.
    apply elem_of_cons in Hi as [->|?]; [|done]. by destruct Hn; left.
  - done.
  - rewrite <- (countZ_ext (λ qu, is_hw_queue qu && bool_decide (is_Some (active s qu)))); [done|].
    intros. by rewrite fifo_pop_active.
Qed.

(** ** Starting a list's head *)
Lemma kick_head_inv loose qu slot jid now f s :
  sched_inv loose s → head s qu slot = Some jid → active s qu = None →
  (∀ s, same_sched s (f s)) → sched_inv loose (job_kick jid now (f (fifo_pop qu slot s))).
Proof.
  intros Hinv Hh Ha Hf. destruct (fifo_pop_inv loose qu slot jid s Hinv Hh) as (Hp & Hk & Hl & Hlt).
  specialize (Hf (fifo_pop qu slot s)). set (s1 := fifo_pop qu slot s) in *.
  destruct Hf as (F & A & J & G & N).
  assert (jkey <$> job (f s1) jid = Some (qu, slot)) as Hk1 by (by rewrite J).
  apply job_kick_inv; [by apply (sched_inv_same _ s1)|done| |].
  - intros j Hj. rewrite Hj in Hk1. simpl in Hk1. unfold jkey in Hk1. simplify_eq.
    split; [rewrite A; unfold s1; by rewrite fifo_pop_active|]. intros jid'. rewrite F. apply Hlt.
  - destruct (job (f s1) jid); [by eexists|done].
Qed.

Lemma rr_run_inv loose qu now s :
  sched_inv loose s → active s qu = None → sched_inv loose (rr_run qu now s).
Proof.
  intros Hinv Ha. unfold rr_run. destruct (rr_pick s qu) as [slot|]; [|done].
  destruct (head s qu slot) as [jid|] eqn:Hh; [|done].
  apply (kick_head_inv loose qu slot jid now (set_q qu (λ q, q <| q_rr := slot + 1 |>)) s); try done.
  intros. by apply set_q_same.
Qed.

Lemma serial_pick_head s jid qu slot :
  serial_pick s = Some (jid, qu, slot) → head s qu slot = Some jid ∧ is_hw_queue qu = true.
Proof.
  unfold serial_pick. set (P := λ b : option (Z * Z * Z), ∀ jid qu slot, b = Some (jid, qu, slot) →
    head s qu slot = Some jid ∧ is_hw_queue qu = true).
  assert (P (for_ 0 V3DA_Q_COUNT (λ qu, for_ 0 V3DA_MAX_CLIENTS (serial_one s qu)) None)) as H; [|apply H].
  apply (for_inv P); [by unfold P|]. intros q' b _ Hb. apply (for_inv P); [done|].
  intros sl b' _ Hb'. unfold serial_one. destruct (head s q' sl) as [j|] eqn:Hh; [|done].
  case_match eqn:Hr; [|done]. apply andb_true_iff in Hr as [? _].
  destruct b' as [[[b1 b2] b3]|]; [case_match; [|done]|]; unfold P; intros; simplify_eq; done.
Qed.

(** With no hardware queue busy, none runs a job. *)
Lemma serial_idle loose s qu :
  sched_inv loose s → nbusy (srv_sched s) = 0 → is_hw_queue qu = true → active s qu = None.
Proof.
  intros Hinv Hn Hhw. destruct (active s qu) as [jid'|] eqn:Ha; [|done]. exfalso.
  pose proof (si_nbusy _ _ Hinv) as Hb. rewrite Hn in Hb.
  pose proof (countZ_ge (λ qu, is_hw_queue qu && bool_decide (is_Some (active s qu))) 0 V3DA_Q_COUNT qu
    (hw_queue_range qu Hhw)) as Hc. cbn beta in Hc. rewrite Hhw, Ha in Hc. specialize (Hc eq_refl). lia.
Qed.

Lemma serial_run_inv loose now s : sched_inv loose s → sched_inv loose (serial_run now s).
Proof.
  intros Hinv. unfold serial_run. case_match eqn:Hn; [done|]. zify_bools.
  destruct (serial_pick s) as [[[jid qu] slot]|] eqn:Hp; [|done].
  apply serial_pick_head in Hp as [Hh Hhw].
  apply (kick_head_inv loose qu slot jid now (λ s, s) s); try done. by apply (serial_idle loose s qu).
Qed.

Lemma pipeline_one_inv loose now qu s : sched_inv loose s → sched_inv loose (pipeline_one now qu s).
Proof.
  intros Hinv. unfold pipeline_one. case_match eqn:Hc; [done|]. apply orb_false_iff in Hc as [_ Hc].
  apply rr_run_inv; [done|]. destruct (active s qu); [|done]. by rewrite bool_decide_eq_true_2 in Hc by (by eexists).
Qed.

Lemma sched_dispatch_inv loose now s : sched_inv loose s → sched_inv loose (sched_dispatch now s).
Proof.
  intros Hinv. unfold sched_dispatch. set (s1 := if bool_decide _ then _ else s).
  assert (sched_inv loose s1) as H1 by (unfold s1; case_bool_decide; [by apply rr_run_inv|done]).
  clearbody s1. cbv zeta. case_match; [by apply serial_run_inv|].
  apply (for_inv (sched_inv loose)); [done|]. intros. by apply pipeline_one_inv.
Qed.

(** ** Reaping *)
Lemma head_failed_head s qu slot jid : head_failed s qu slot = Some jid → head s qu slot = Some jid.
Proof. unfold head_failed. destruct (head s qu slot) as [j|]; [|done]. case_match; [|done]. case_match; [|done]. by intros; simplify_eq. Qed.

Lemma reap_one_inv loose now qu slot st :
  sched_inv loose st.2 → sched_inv loose (reap_one now qu slot st).2.
Proof.
  intros Hinv. unfold reap_one. destruct (head_failed st.2 qu slot) as [jid|] eqn:Hf; [|done]. cbn [snd].
  apply head_failed_head in Hf. destruct (fifo_pop_inv _ _ _ _ _ Hinv Hf) as (Hp & Hk & _ & _).
  apply job_done_loose_inv.
  - apply (sched_inv_same _ (fifo_pop qu slot st.2)); [|done]. by apply set_q_same.
  - change (is_Some (job st.2 jid)). destruct (job st.2 jid); [by eexists|done].
Qed.

Lemma reap_pass_inv loose now s : sched_inv loose s → sched_inv loose (reap_pass now s).2.
Proof.
  intros Hinv. unfold reap_pass. apply (for_inv (λ st : bool * v3da_srv_t, sched_inv loose st.2)); [done|].
  intros qu st _ Hst. apply (for_inv (λ st : bool * v3da_srv_t, sched_inv loose st.2)); [done|].
  intros slot st' _ Hst'. by apply reap_one_inv.
Qed.

Lemma reap_loop_inv loose n now s : sched_inv loose s → sched_inv loose (reap_loop n now s).
Proof.
  revert s. induction n as [|n IH]; intros s Hinv; [done|]. simpl.
  pose proof (reap_pass_inv loose now s Hinv) as H. destruct (reap_pass now s) as [again s']. simpl in H.
  destruct again; [by apply IH|done].
Qed.

Lemma sched_run_inv loose s : sched_inv loose s → sched_inv loose (v3da_sched_run s).
Proof.
  intros Hinv. unfold v3da_sched_run, v3da_now_us. apply sched_dispatch_inv, reap_loop_inv.
  apply (sched_inv_same _ s); [by apply same_sched_of|done].
Qed.

(** A pass that found nothing to do left the state alone and no failed head. *)
Lemma reap_one_flag now qu slot st :
  (reap_one now qu slot st).1 = false →
  reap_one now qu slot st = st ∧ st.1 = false ∧ head_failed st.2 qu slot = None.
Proof. unfold reap_one. destruct (head_failed st.2 qu slot); [done|]. by destruct st. Qed.

Lemma reap_row_flag now qu st :
  let st' := for_ 0 V3DA_MAX_CLIENTS (reap_one now qu) st in
  st'.1 = false → st' = st ∧ st.1 = false ∧ ∀ slot, 0 ≤ slot < V3DA_MAX_CLIENTS → head_failed st.2 qu slot = None.
Proof.
  cbv zeta. pose proof (for_ind (λ n st', st'.1 = false →
      st' = st ∧ st.1 = false ∧ ∀ slot, 0 ≤ slot < n → head_failed st.2 qu slot = None)
    0 V3DA_MAX_CLIENTS (reap_one now qu) st) as H. apply H.
  - intros ?. split_and!; try done. lia.
  - intros i st' Hi IH Hf. apply reap_one_flag in Hf as (-> & Hst' & Hn). destruct (IH Hst') as (-> & ? & Hall).
    split_and!; try done. intros slot Hs. destruct (decide (slot = i)) as [->|]; [done|]. apply Hall. lia.
Qed.

Lemma reap_pass_flag now s :
  (reap_pass now s).1 = false →
  (reap_pass now s).2 = s ∧ ∀ qu slot, 0 ≤ qu < V3DA_Q_COUNT → 0 ≤ slot < V3DA_MAX_CLIENTS → head_failed s qu slot = None.
Proof.
  unfold reap_pass. pose proof (for_ind (λ n st', st'.1 = false → st' = (false, s) ∧
      ∀ qu slot, 0 ≤ qu < n → 0 ≤ slot < V3DA_MAX_CLIENTS → head_failed s qu slot = None)
    0 V3DA_Q_COUNT (λ qu, for_ 0 V3DA_MAX_CLIENTS (reap_one now qu)) (false, s)) as H.
  intros Hf. destruct H as [Hst Hall]; [| |done|].
  - intros _. split; [done|]. lia.
  - intros i st' Hi IH Hfl. apply reap_row_flag in Hfl as (-> & Hst' & Hn). destruct (IH Hst') as (-> & Hall).
    split; [done|]. intros qu slot Hq Hs. destruct (decide (qu = i)) as [->|]; [by apply Hn|]. apply Hall; [lia|done].
  - split; [by rewrite Hst|]. exact Hall.
Qed.

(** Every reaped job leaves the heap. *)
Lemma same_sched_size s s' : same_sched s s' → size (jobs (srv_sched s')) = size (jobs (srv_sched s)).
Proof.
  intros (_ & _ & J & _). rewrite <- !size_dom. f_equal. apply set_eq. intros jid. rewrite !elem_of_dom.
  specialize (J jid). unfold job in J. destruct (jobs (srv_sched s') !! jid), (jobs (srv_sched s) !! jid); done.
Qed.

Lemma done_leave_size jid j now s : size (jobs (srv_sched (done_leave jid j now s))) = size (jobs (srv_sched s)).
Proof. unfold done_leave. repeat case_match; reflexivity. Qed.

Lemma job_done_size jid err now s :
  is_Some (job s jid) → S (size (jobs (srv_sched (job_done jid err now s)))) = size (jobs (srv_sched s)).
Proof.
  intros [j Hj]. unfold job_done. rewrite Hj. cbv zeta.
  match goal with |- S (size (jobs (srv_sched (free_job jid ?x)))) = _ =>
    assert (size (jobs (srv_sched x)) = size (jobs (srv_sched s)) ∧ is_Some (job x jid)) as [Hs Hx] end.
  { set (s1 := done_leave jid j now s).
    assert (size (jobs (srv_sched s1)) = size (jobs (srv_sched s))) as <- by apply done_leave_size.
    assert (is_Some (job s1 jid)) as Hs1 by (unfold s1, done_leave; repeat case_match; by exists j).
    assert (∀ s2, same_sched s1 s2 → size (jobs (srv_sched s2)) = size (jobs (srv_sched s1)) ∧ is_Some (job s2 jid)) as H.
    { intros s2 H2. split; [by apply same_sched_size|]. destruct H2 as (_ & _ & J & _). specialize (J jid).
      destruct Hs1 as [j1 Hj1]. rewrite Hj1 in J. destruct (job s2 jid); [by eexists|done]. }
    apply H. clearbody s1. etrans; [|apply same_sched_of; reflexivity]. etrans; [|apply fence_complete_same].
    etrans; [|apply drop_pins_same]. etrans; [|apply unlink_bin_same].
    etrans; [|apply done_chunks_same]. apply done_count_same. }
  rewrite <- Hs. match goal with |- S (size (jobs (srv_sched (free_job jid ?x)))) = _ => set (s2 := x) in * end.
  clearbody s2. destruct Hx as [j2 Hj2]. unfold free_job. simpl. unfold job in Hj2.
  rewrite map_size_delete_Some by (by eexists).
  assert (size (jobs (srv_sched s2)) ≠ 0%nat); [|lia].
  rewrite map_size_ne_0_lookup. by eexists _, _.
Qed.

Lemma reap_one_size loose now qu slot st :
  sched_inv loose st.2 →
  (size (jobs (srv_sched (reap_one now qu slot st).2)) ≤ size (jobs (srv_sched st.2)))%nat ∧
  ((reap_one now qu slot st).1 = true → st.1 = true ∨
   (size (jobs (srv_sched (reap_one now qu slot st).2)) < size (jobs (srv_sched st.2)))%nat).
Proof.
  intros Hinv. unfold reap_one. destruct (head_failed st.2 qu slot) as [jid|] eqn:Hf; [|by split; [lia|left]].
  apply head_failed_head in Hf. destruct (fifo_pop_inv _ _ _ _ _ Hinv Hf) as (_ & Hk & _ & _). cbn [fst snd].
  pose proof (job_done_size jid true now (dec_pending qu (fifo_pop qu slot st.2))) as Hs.
  change (size (jobs (srv_sched (dec_pending qu (fifo_pop qu slot st.2))))) with (size (jobs (srv_sched st.2))) in Hs.
  rewrite <- Hs; [split; [lia|right; lia]|].
  change (is_Some (job st.2 jid)). destruct (job st.2 jid); [by eexists|done].
Qed.

Lemma reap_pass_size loose now s :
  sched_inv loose s → (reap_pass now s).1 = true →
  (size (jobs (srv_sched (reap_pass now s).2)) < size (jobs (srv_sched s)))%nat.
Proof.
  intros Hinv. unfold reap_pass.
  set (P := λ st : bool * v3da_srv_t, sched_inv loose st.2 ∧
    (size (jobs (srv_sched st.2)) ≤ size (jobs (srv_sched s)))%nat ∧
    (st.1 = true → (size (jobs (srv_sched st.2)) < size (jobs (srv_sched s)))%nat)).
  assert (P (for_ 0 V3DA_Q_COUNT (λ qu, for_ 0 V3DA_MAX_CLIENTS (reap_one now qu)) (false, s))) as (_ & _ & H); [|done].
  apply (for_inv P); [by unfold P|]. intros qu st _ Hst. apply (for_inv P); [done|].
  intros slot st' _ (H1 & H2 & H3). destruct (reap_one_size loose now qu slot st' H1) as [H4 H5].
  split_and!; [by apply reap_one_inv|lia|]. intros Ht. destruct (H5 Ht) as [?|?]; [specialize (H3 H); lia|lia].
Qed.

Lemma reap_loop_done loose n now s :
  sched_inv loose s → (size (jobs (srv_sched s)) < n)%nat →
  ∀ qu slot, 0 ≤ qu < V3DA_Q_COUNT → 0 ≤ slot < V3DA_MAX_CLIENTS → head_failed (reap_loop n now s) qu slot = None.
Proof.
  revert s. induction n as [|n IH]; intros s Hinv Hn; [lia|]. simpl.
  pose proof (reap_pass_inv loose now s Hinv) as Hi. pose proof (reap_pass_size loose now s Hinv) as Hs.
  pose proof (reap_pass_flag now s) as Hfl.
  destruct (reap_pass now s) as [again s']. simpl in *. destruct again.
  - apply IH; [done|]. specialize (Hs eq_refl). lia.
  - destruct (Hfl eq_refl) as [-> Hall]. done.
Qed.
End env.
