(* ===== verification/SchedReach.v ===== *)
(** Every locked section of the server keeps the scheduler's invariant: submissions, the
    event thread, a client's death; the states they reach. *)
From Stdlib Require Import Sorted.
From S2P Require Import Prelude Proto State Csdprof Lowmem Hw Fence Bo BoInv BoMap.
From S2P Require Import BoShare BoSteps BoReach BoSpec Ovf Waits Jobs Submit Present.
From S2P Require Import Events Main SchedInv SchedKick SchedRun.

Section env.
Context `{E : Env}.

Lemma sched_inv_loose l l' s : (∀ x, x ∈ l ↔ x ∈ l') → sched_inv l s → sched_inv l' s.
Proof.
  intros Hl []. constructor; try done.
  - intros qu slot jid Hin. rewrite <- Hl. auto.
  - intros qu jid Hin. rewrite <- Hl. auto.
  - intros jid qu slot Hk Hn. apply si_placed; [done|]. by rewrite Hl.
Qed.

(** ** Client slots are not moved *)
Definition same_slots (s s' : v3da_srv_t) : Prop := ∀ i, c_slot (srv_client s' i) = c_slot (srv_client s i).
Definition quiet (s s' : v3da_srv_t) : Prop := same_sched s s' ∧ same_slots s s'.
#[export] Instance quiet_pre : PreOrder quiet.
Proof.
  split; [done|]. intros a b c [H1 H2] [H3 H4]. split; [by etrans|]. intros i. by rewrite H4.
Qed.
Lemma quiet_of s s' : srv_sched s' = srv_sched s → srv_cl s' = srv_cl s → quiet s s'.
Proof. intros H1 H2. split; [by apply same_sched_of|]. unfold same_slots, srv_client. by rewrite H2. Qed.
Lemma set_job_quiet jid f s : (∀ j, jkey (f j) = jkey j) → quiet s (set_job jid f s).
Proof. intros. split; [by apply set_job_same|done]. Qed.
Lemma set_client_quiet i f s : (∀ c, c_slot (f c) = c_slot c) → quiet s (set_client i f s).
Proof.
  intros Hf. split; [by apply same_sched_of|]. intros j. unfold srv_client, set_client. simpl.
  rewrite fn_upd_case. case_decide; [subst; apply Hf|done].
Qed.
Lemma foldl_quiet {A} (f : v3da_srv_t → A → v3da_srv_t) l s :
  (∀ s x, quiet s (f s x)) → quiet s (foldl f s l).
Proof. intros Hf. revert s. induction l as [|x l IH]; intros s; [done|]. simpl. etrans; [apply Hf|apply IH]. Qed.
Lemma quiet_inv loose s s' : quiet s s' → sched_inv loose s → sched_inv loose s'.
Proof. intros [H _]. by apply sched_inv_same. Qed.
Lemma quiet_key s s' jid : quiet s s' → jkey <$> job s' jid = jkey <$> job s jid.
Proof. by intros [(_ & _ & J & _) _]. Qed.

(** ** New jobs *)
Lemma job_new_inv loose ci qu now s jid s' :
  sched_inv loose s → job_new ci qu now s = (Some jid, s') →
  sched_inv (jid :: loose) s' ∧ jkey <$> job s' jid = Some (qu, c_slot (srv_client s ci)) ∧
  same_slots s s' ∧ jid = gseq (srv_sched s) + 1 ∧ gseq (srv_sched s') = jid ∧
  (∀ jid', jid' ≠ jid → job s' jid' = job s jid') ∧
  (∀ qu slot, fifo s' qu slot = fifo s qu slot) ∧ (∀ qu, active s' qu = active s qu).
Proof.
  intros []. unfold job_new. cbv zeta. destruct (env_malloc (cursor s)); [|done]. cbn [negb].
  intros H. injection H as <- <-. change (tick s) with (s <| srv_io ; io_n ::= Z.succ |>).
  set (g := gseq (srv_sched s)) in *. cbn [srv_sched gseq upd]. 
  match goal with |- context [sched_inv (_ :: loose) ?x] => set (s' := x) end.
  assert (∀ jid', jid' ≠ g + 1 → job s' jid' = job s jid') as Hne.
  { intros jid' Hn. unfold job, s'. simpl. by rewrite lookup_insert_ne. }
  assert (jkey <$> job s' (g + 1) = Some (qu, c_slot (srv_client s ci))) as Hk.
  { unfold job, s'. simpl. by rewrite lookup_insert_eq. }
  assert (∀ jid', is_Some (job s jid') → jid' ≠ g + 1) as Hold by (intros jid' Hj; apply si_gseq in Hj; lia).
  assert (∀ jid' k, jkey <$> job s jid' = Some k → jkey <$> job s' jid' = Some k ∧ jid' ≠ g + 1) as Hkeep.
  { intros jid' k Hj. assert (jid' ≠ g + 1) as Hn by (apply Hold; destruct (job s jid'); [by eexists|done]).
    by rewrite Hne. }
  split_and!; try done. constructor.
  - intros q' slot jid' Hin. destruct (si_fifo _ _ _ Hin) as [Hj Hl]. destruct (Hkeep _ _ Hj) as [? ?].
    split; [done|]. by intros [->|?]%elem_of_cons.
  - intros q' jid' Ha. destruct (si_active _ _ Ha) as [[slot Hj] Hl]. destruct (Hkeep _ _ Hj) as [? ?].
    split; [by exists slot|]. by intros [->|?]%elem_of_cons.
  - done.
  - intros q' slot j1 j2 Ha Hj. apply (si_before q' slot); [done|].
    rewrite <- Hne; [done|]. apply Hold. destruct (si_active _ _ Ha) as [[sl Hj1] _].
    destruct (job s j1); [by eexists|done].
  - intros jid' q' slot Hj Hn. assert (jid' ≠ g + 1) as Hn1 by (intros ->; apply Hn; by left).
    rewrite Hne in Hj by done. apply si_placed; [done|]. intros ?. apply Hn. by right.
  - intros jid' Hj. change (gseq (srv_sched s')) with (g + 1). destruct (decide (jid' = g + 1)) as [->|Hn]; [lia|].
    rewrite Hne in Hj by done. apply si_gseq in Hj. lia.
  - done.
Qed.

Lemma job_new_none ci qu now s s' : job_new ci qu now s = (None, s') → quiet s s'.
Proof. unfold job_new. cbv zeta. destruct (env_malloc _); [done|]. intros H. injection H as <-. by apply quiet_of. Qed.

(** ** Queueing *)
Lemma fifo_push_fifo qu slot jid s qu' slot' :
  fifo (fifo_push qu slot jid s) qu' slot' =
  if decide (qu = qu' ∧ slot = slot') then fifo s qu slot ++ [jid] else fifo s qu' slot'.
Proof.
  unfold fifo, srv_q, fifo_push. simpl. rewrite fn_upd_case. case_decide as H1; subst; simpl.
  - rewrite fn_upd_case. case_decide as H2; subst; [by rewrite decide_True|].
    rewrite decide_False; [done|]. by intros [_ ?].
  - rewrite decide_False; [done|]. by intros [? _].
Qed.

Lemma fifo_push_active qu slot jid s qu' : active (fifo_push qu slot jid s) qu' = active s qu'.
Proof. unfold active, srv_q, fifo_push. simpl. rewrite fn_upd_case. case_decide; by subst. Qed.

Lemma sorted_snoc l x : StronglySorted Z.lt l → (∀ y, y ∈ l → y < x) → StronglySorted Z.lt (l ++ [x]).
Proof.
  induction l as [|y l IH]; intros Hs Hx; simpl; [by repeat constructor|].
  apply StronglySorted_inv in Hs as [Hs Hall]. constructor.
  - apply IH; [done|]. intros z Hz. apply Hx. by right.
  - apply Forall_app. split; [done|]. constructor; [|constructor]. apply Hx. by left.
Qed.

Lemma fifo_push_inv loose qu slot jid s :
  sched_inv (jid :: loose) s → jid ∉ loose → jkey <$> job s jid = Some (qu, slot) →
  (∀ jid', jid' ∈ fifo s qu slot ∨ active s qu = Some jid' → jid' < jid) →
  sched_inv loose (fifo_push qu slot jid s).
Proof.
  intros [] Hl Hk Hlt. constructor.
  - intros q' sl jid'. rewrite fifo_push_fifo. change (job (fifo_push qu slot jid s)) with (job s).
    assert (jid' ∈ fifo s q' sl → jkey <$> job s jid' = Some (q', sl) ∧ jid' ∉ loose) as Ho.
    { intros Hin. destruct (si_fifo _ _ _ Hin) as [? Hn]. split; [done|]. intros ?. apply Hn. by right. }
    case_decide as Hd; [|done]. destruct Hd as [<- <-]. intros [?|Hin]%elem_of_app; [auto|].
    apply list_elem_of_singleton in Hin as ->. done.
  - intros q' jid'. rewrite fifo_push_active. intros Ha. destruct (si_active _ _ Ha) as [? Hn].
    split; [done|]. intros ?. apply Hn. by right.
  - intros q' sl. rewrite fifo_push_fifo. case_decide as Hd; [|done]. apply sorted_snoc; [done|]. eauto.
  - intros q' sl j1 j2. rewrite fifo_push_active, fifo_push_fifo. change (job (fifo_push qu slot jid s)) with (job s).
    intros Ha Hj. case_decide as Hd; [|by apply si_before]. destruct Hd as [<- <-].
    intros [Hin|Hin]%elem_of_app; [by apply (si_before qu slot)|].
    apply list_elem_of_singleton in Hin as ->. apply Hlt. by right.
  - intros jid' q' sl. change (job (fifo_push qu slot jid s)) with (job s). intros Hj Hn.
    rewrite fifo_push_active, fifo_push_fifo. destruct (decide (jid' = jid)) as [->|Hne].
    + left. simplify_eq. rewrite decide_True by done. apply elem_of_app. right. by left.
    + destruct (si_placed jid' q' sl Hj) as [Hin|?]; [by intros [->|?]%elem_of_cons| |by right].
      left. case_decide as Hd; [|done]. destruct Hd as [<- <-]. apply elem_of_app. by left.
  - done.
  - change (nbusy (srv_sched (fifo_push qu slot jid s))) with (nbusy (srv_sched s)). rewrite si_nbusy.
    apply countZ_ext. intros. by rewrite fifo_push_active.
Qed.

(** Pushing a job newer than every job it meets. *)
Lemma push_job_inv loose ci jid s qu :
  sched_inv (jid :: loose) s → jid ∉ loose → jkey <$> job s jid = Some (qu, c_slot (srv_client s ci)) →
  (∀ jid', is_Some (job s jid') → jid' ∉ jid :: loose → jid' < jid) →
  sched_inv loose (push_job ci jid s).
Proof.
  intros Hinv Hl Hk Hnew. unfold push_job. destruct (job s jid) as [j|] eqn:Hj; [|done].
  assert (j_queue j = qu) as <- by (simpl in Hk; unfold jkey in Hk; by simplify_eq).
  apply fifo_push_inv; [done|done|by rewrite Hj|]. intros jid' [Hin|Ha].
  - destruct (si_fifo _ _ Hinv _ _ _ Hin) as [Hk' Hn]. apply Hnew; [|done]. destruct (job s jid'); [by eexists|done].
  - destruct (si_active _ _ Hinv _ _ Ha) as [[sl Hk'] Hn]. apply Hnew; [|done]. destruct (job s jid'); [by eexists|done].
Qed.
End env.

Section env2.
Context `{E : Env}.

Lemma kick_quiet s : quiet s (v3da_kick_event_thread s).
Proof. split; [same_sched_refl|done]. Qed.

(** ** Submission *)
Lemma set_bo_quiet i f s : quiet s (set_bo i f s).
Proof. by apply quiet_of. Qed.

Lemma pin_quiet hs s : quiet s (v3da_bo_pin_for_job hs s).2.
Proof.
  unfold v3da_bo_pin_for_job. case_match; [|done]. apply foldl_quiet. intros s' h.
  case_match; [apply set_bo_quiet|done].
Qed.

Lemma unpin_quiet hs s : quiet s (v3da_bo_unpin hs s).
Proof.
  apply foldl_quiet. intros s' h. unfold unpin_one. case_match; [|done]. case_match; [|apply set_bo_quiet].
  match goal with |- quiet _ (quarantine_begin ?i ?x) =>
    destruct (quarantine_begin_spec i x) as ((_ & Hc & Hs & _) & _) end.
  by apply quiet_of.
Qed.

Lemma mark_use_quiet hs f g s : quiet s (v3da_bo_mark_use hs f g s).
Proof. apply foldl_quiet. intros s' h. repeat case_match; try done; apply set_bo_quiet. Qed.

Lemma submit_in_quiet ci first last s x : quiet s (submit_in ci first last s x).
Proof.
  unfold submit_in. case_match; [|done]. unfold add_dep. case_match; [|done].
  apply set_job_quiet. intros j. by case_match.
Qed.

Lemma submit_implicit_quiet ci first bos s : quiet s (submit_implicit ci first bos s).
Proof.
  unfold submit_implicit. destruct bos; [done|]. case_match; [|done]. case_match. cbv zeta.
  set (s1 := set_job _ _ s). transitivity s1; [by apply set_job_quiet|].
  set (s2 := if 0 <? _ then _ else s1). transitivity s2; [|by apply quiet_of].
  unfold s2. case_match; [by apply quiet_of|done].
Qed.

Lemma assign_seq_quiet ci jid s : quiet s (assign_seq ci jid s).
Proof.
  unfold assign_seq. case_match; [|done]. cbv zeta. etrans; [|by apply set_job_quiet]. by apply set_client_quiet.
Qed.

Lemma submit_out_quiet ci f s x : quiet s (submit_out ci f s x).
Proof. unfold submit_out, set_sync. by apply set_client_quiet. Qed.

Lemma submit_fences_quiet ci a first last s :
  let s1 := foldl (submit_in ci first last) s (sa_in a) in
  let s2 := submit_implicit ci first (sa_bos a) s1 in
  let s3 := assign_seq ci first s2 in
  let s4 := if negb (last =? first) then assign_seq ci last s3 else s3 in
  let s5 := v3da_bo_mark_use (sa_bos a) (job_fence s4 last) last s4 in
  quiet s (foldl (submit_out ci (job_fence s5 last)) s5 (sa_out a)).
Proof.
  cbv zeta. etrans; [|apply foldl_quiet; intros; apply submit_out_quiet].
  etrans; [|apply mark_use_quiet].
  set (s2 := submit_implicit _ _ _ _). assert (quiet s s2) as H2.
  { etrans; [|apply submit_implicit_quiet]. apply foldl_quiet. intros; apply submit_in_quiet. }
  clearbody s2. etrans; [exact H2|]. etrans; [apply assign_seq_quiet|].
  case_match; [apply assign_seq_quiet|done].
Qed.

(** Queueing one job, or a bin and render pair, created in this order. *)
Lemma submit_queue_inv ci a first last qf ql s :
  sched_inv [last; first] s → first ≤ last →
  jkey <$> job s first = Some (qf, c_slot (srv_client s ci)) →
  jkey <$> job s last = Some (ql, c_slot (srv_client s ci)) →
  (∀ jid, is_Some (job s jid) → jid ∉ [last; first] → jid < first) →
  sched_inv [] (submit_queue ci a first last s).
Proof.
  intros Hinv Hle Hkf Hkl Hnew. unfold submit_queue.
  pose proof (submit_fences_quiet ci a first last s) as Hq. cbv zeta in Hq |- *.
  set (s1 := foldl (submit_out _ _) _ _) in *. clearbody s1.
  assert (sched_inv [last; first] s1) as H1 by (by apply (quiet_inv _ s)).
  assert (∀ jid, is_Some (job s1 jid) → jid ∉ [last; first] → jid < first) as Hnew1.
  { intros jid Hj. apply Hnew. apply (jkey_is_Some s s1); [by apply quiet_key|done]. }
  rewrite <- (quiet_key _ _ first Hq) in Hkf. rewrite <- (quiet_key _ _ last Hq) in Hkl.
  destruct Hq as [_ Hs]. rewrite <- Hs in Hkf, Hkl.
  destruct (Z.eqb_spec last first) as [->|Hne]; cbn [negb].
  - apply (push_job_inv [] ci first s1 qf); [|by apply not_elem_of_nil|done|].
    + eapply sched_inv_loose; [|exact H1]. intros x. rewrite !elem_of_cons. tauto.
    + intros jid Hj Hn. apply Hnew1; [done|]. intros Hi. apply Hn. rewrite !elem_of_cons in *. tauto.
  - assert (sched_inv [last] (push_job ci first s1)) as H2.
    { apply (push_job_inv [last] ci first s1 qf); [| |done|].
      - eapply sched_inv_loose; [|exact H1]. intros x. rewrite !elem_of_cons. tauto.
      - intros Hi%list_elem_of_singleton. lia.
      - intros jid Hj Hn. apply Hnew1; [done|]. intros Hi. apply Hn. rewrite !elem_of_cons in *. tauto. }
    assert (∀ jid, job (push_job ci first s1) jid = job s1 jid) as Hj.
    { intros jid. unfold push_job. by case_match. }
    assert (∀ i, c_slot (srv_client (push_job ci first s1) i) = c_slot (srv_client s1 i)) as Hc.
    { intros i. unfold push_job. by case_match. }
    apply (push_job_inv [] ci last _ ql); [done|by apply not_elem_of_nil|by rewrite Hj, Hc|].
    intros jid. rewrite Hj. intros Hs1 Hn. destruct (decide (jid = first)) as [->|Hnf]; [lia|].
    assert (jid < first); [|lia]. apply Hnew1; [done|]. rewrite !elem_of_cons in *. intros [?|[?|?]]; tauto || by (eapply not_elem_of_nil).
Qed.

Lemma free_opt_inv loose j s :
  sched_inv (option_list j ++ loose) s → sched_inv loose (free_opt j s).
Proof. destruct j; simpl; [apply free_job_inv|done]. Qed.

Definition jobs_post (s : v3da_srv_t) (r : option (Z * Z) * v3da_srv_t) (ci : Z) : Prop :=
  match r with
  | (None, s') => sched_inv [] s' ∧ same_slots s s'
  | (Some (first, last), s') =>
      sched_inv [last; first] s' ∧ same_slots s s' ∧ first ≤ last ∧
      (∃ qf ql, jkey <$> job s' first = Some (qf, c_slot (srv_client s' ci)) ∧
                jkey <$> job s' last = Some (ql, c_slot (srv_client s' ci))) ∧
      (∀ jid, is_Some (job s' jid) → jid ∉ [last; first] → jid < first)
  end.

Lemma submit_jobs_inv ci op a now s :
  sched_inv [] s → jobs_post s (submit_jobs ci op a now s) ci.
Proof.
  intros Hinv. unfold submit_jobs. cbv zeta. destruct (sa_bin a).
  - destruct (job_new ci V3DA_Q_BIN now s) as [[f|] s1] eqn:H1.
    + destruct (job_new_inv [] ci _ now s f s1 Hinv H1) as (I1 & K1 & C1 & G1 & G1' & J1 & F1 & A1).
      destruct (job_new ci V3DA_Q_RENDER now s1) as [[l|] s2] eqn:H2.
      * destruct (job_new_inv [f] ci _ now s1 l s2 I1 H2) as (I2 & K2 & C2 & G2 & G2' & J2 & F2 & A2).
        set (s3 := set_job f _ s2). set (s4 := set_job l _ s3).
        assert (quiet s2 s4) as Hq.
        { transitivity s3; by apply set_job_quiet. }
        unfold jobs_post. destruct Hq as [Hq Hc]. split_and!.
        -- by apply (sched_inv_same _ s2).
        -- intros i. by rewrite Hc, C2, C1.
        -- lia.
        -- destruct Hq as (_ & _ & Jq & _). exists V3DA_Q_BIN, V3DA_Q_RENDER. rewrite !Jq, Hc, C2.
           split; [|done]. rewrite J2 by lia. by rewrite C1.
        -- intros jid Hj Hn. destruct Hq as (_ & _ & Jq & _). apply (jkey_is_Some s2 s4) in Hj; [|apply Jq].
           assert (jid ≠ l ∧ jid ≠ f) as [? ?] by (split; intros ->; apply Hn; rewrite !elem_of_cons; tauto).
           rewrite J2, J1 in Hj by done. apply (si_gseq _ _ Hinv) in Hj. lia.
      * apply job_new_none in H2 as [H2 C2]. unfold jobs_post. simpl. split.
        -- apply free_job_inv. by apply (sched_inv_same _ s1).
        -- intros i. change (srv_client (free_job f s2) i) with (srv_client s2 i). by rewrite C2, C1.
    + apply job_new_none in H1 as [H1 C1]. assert (sched_inv [] s1) as I1 by (by apply (sched_inv_same _ s)).
      destruct (job_new ci V3DA_Q_RENDER now s1) as [[l|] s2] eqn:H2.
      * destruct (job_new_inv [] ci _ now s1 l s2 I1 H2) as (I2 & _ & C2 & _). split.
        -- by apply free_job_inv.
        -- intros i. change (srv_client (free_opt (Some l) (free_opt None s2)) i) with (srv_client s2 i). by rewrite C2, C1.
      * apply job_new_none in H2 as [H2 C2]. split; [by apply (sched_inv_same _ s1)|].
        intros i. simpl. by rewrite C2, C1.
  - destruct (job_new _ _ now s) as [[f|] s1] eqn:H1.
    + destruct (job_new_inv [] ci _ now s f s1 Hinv H1) as (I1 & K1 & C1 & G1 & G1' & J1 & F1 & A1).
      set (s3 := set_job f _ s1). assert (quiet s1 s3) as [Hq Hc] by (by apply set_job_quiet).
      unfold jobs_post. split_and!.
      * eapply sched_inv_loose; [|by apply (sched_inv_same _ s1)]. intros x. rewrite !elem_of_cons. tauto.
      * intros i. by rewrite Hc, C1.
      * lia.
      * destruct Hq as (_ & _ & Jq & _). eexists _, _. rewrite !Jq, Hc, C1. done.
      * intros jid Hj Hn. destruct Hq as (_ & _ & Jq & _). apply (jkey_is_Some s1 s3) in Hj; [|apply Jq].
        assert (jid ≠ f) by (intros ->; apply Hn; by left).
        rewrite J1 in Hj by done. apply (si_gseq _ _ Hinv) in Hj. lia.
    + apply job_new_none in H1 as [H1 C1]. split; [by apply (sched_inv_same _ s)|]. intros i. by rewrite C1.
Qed.

Lemma keep_bos_quiet last bos s : quiet s (submit_keep_bos last bos s).2.
Proof.
  unfold submit_keep_bos. destruct bos; [done|]. cbn [snd]. destruct (env_malloc _); [|by apply quiet_of].
  etrans; [|by apply set_job_quiet]. by apply quiet_of.
Qed.

Lemma submit_inv ci op hdr data size s :
  sched_inv [] s → sched_inv [] (v3da_submit ci op hdr data size s).2.
Proof.
  intros Hinv. unfold v3da_submit, v3da_now_us. cbv zeta iota beta.
  assert (sched_inv [] (tick s)) as Ht by (by apply (quiet_inv _ s); [apply quiet_of|]).
  destruct (submit_parse ci op hdr data size (tick s)) as [rc|a].
  { apply (quiet_inv _ (tick s)); [by apply quiet_of|done]. }
  pose proof (pin_quiet (sa_bos a) (tick s)) as Hp.
  destruct (v3da_bo_pin_for_job (sa_bos a) (tick s)) as [rc s1]. simpl in Hp.
  assert (sched_inv [] s1) as H1 by (by apply (quiet_inv _ (tick s))). clear Hp.
  destruct (negb (rc =? 0)); [apply (quiet_inv _ s1); [by apply quiet_of|done]|].
  set (s2 := submit_count_cl a s1). assert (sched_inv [] s2) as H2.
  { apply (quiet_inv _ s1); [|done]. unfold s2, submit_count_cl. repeat case_match; by apply quiet_of. }
  clearbody s2. pose proof (submit_jobs_inv ci op a (env_now (cursor s)) s2 H2) as Hj.
  destruct (submit_jobs _ _ _ _ _) as [[[first last]|] s3].
  2:{ destruct Hj as [Hj _]. cbn [snd]. apply (quiet_inv _ s3); [apply unpin_quiet|done]. }
  destruct Hj as (I3 & _ & Hle & (qf & ql & Kf & Kl) & Hnew).
  pose proof (keep_bos_quiet last (sa_bos a) s3) as Hk.
  destruct (submit_keep_bos last (sa_bos a) s3) as [ok s4]. simpl in Hk.
  assert (sched_inv [last; first] s4) as I4 by (by apply (quiet_inv _ s3)).
  destruct ok; cbn [negb snd].
  - apply (quiet_inv _ (v3da_sched_run (submit_queue ci a first last s4))); [apply kick_quiet|].
    apply sched_run_inv. rewrite <- (quiet_key _ _ first Hk) in Kf. rewrite <- (quiet_key _ _ last Hk) in Kl. pose proof Hk as [_ Hs]. rewrite <- Hs in Kf, Kl.
    apply (submit_queue_inv ci a first last qf ql); try done.
    intros jid Hj. apply Hnew. apply (jkey_is_Some s3 s4); [by apply quiet_key|done].
  - apply (quiet_inv _ (free_job last (if negb (first =? last) then free_job first s4 else s4))); [apply unpin_quiet|].
    destruct (Z.eqb_spec first last) as [->|Hne]; cbn [negb].
    + apply free_job_inv. eapply sched_inv_loose; [|exact I4]. intros x. rewrite !elem_of_cons. tauto.
    + apply free_job_inv, free_job_inv. eapply sched_inv_loose; [|exact I4]. intros x. rewrite !elem_of_cons. tauto.
Qed.

(** One CPU-queue job. *)
Lemma cpu_job_inv ci now s jid s1 s2 :
  sched_inv [] s → job_new ci V3DA_Q_CPU now s = (Some jid, s1) → quiet s1 s2 →
  sched_inv [] (v3da_kick_event_thread (v3da_sched_run (push_job ci jid s2))).
Proof.
  intros Hinv Hn Hq. destruct (job_new_inv [] ci _ now s jid s1 Hinv Hn) as (I1 & K1 & C1 & G1 & _ & J1 & _).
  apply (quiet_inv _ (v3da_sched_run (push_job ci jid s2))); [apply kick_quiet|]. apply sched_run_inv.
  apply (push_job_inv [] ci jid s2 V3DA_Q_CPU).
  - by apply (quiet_inv _ s1).
  - by apply not_elem_of_nil.
  - rewrite (quiet_key _ _ _ Hq). destruct Hq as [_ Hs]. by rewrite Hs, C1.
  - intros jid' Hj Hne. apply (jkey_is_Some s1 s2) in Hj; [|by apply quiet_key].
    rewrite J1 in Hj by (intros ->; apply Hne; by left). apply (si_gseq _ _ Hinv) in Hj. lia.
Qed.

Lemma submit_nop_inv ci d s : sched_inv [] s → sched_inv [] (v3da_submit_nop ci d s).2.
Proof.
  intros Hinv. unfold v3da_submit_nop, v3da_now_us. case_match; [done|]. cbv zeta iota beta.
  assert (sched_inv [] (tick s)) as Ht by (by apply (quiet_inv _ s); [apply quiet_of|]).
  destruct (job_new ci V3DA_Q_CPU _ (tick s)) as [[jid|] s1] eqn:Hn; cbn [snd].
  - apply (cpu_job_inv ci (env_now (cursor s)) (tick s) jid s1); [done|exact Hn|].
    etrans; [|apply assign_seq_quiet]. by apply set_job_quiet.
  - apply job_new_none in Hn. by apply (quiet_inv _ (tick s)).
Qed.

Lemma attach_fence_inv ci rq s : sched_inv [] s → sched_inv [] (v3da_bo_attach_fence ci rq s).2.
Proof.
  intros Hinv. unfold v3da_bo_attach_fence. cbv zeta. case_match; [done|].
  destruct (v3da_bo_sync_targets _ _ _ _) as [|targets]; [done|]. destruct targets as [|t targets]; [done|].
  case_match; [done|]. destruct (attach_deps _ _ _) as [dep full].
  destruct full; [apply (quiet_inv _ s); [by apply quiet_of|done]|]. unfold v3da_now_us. cbv zeta iota beta.
  assert (sched_inv [] (tick s)) as Ht by (by apply (quiet_inv _ s); [apply quiet_of|]).
  destruct (job_new ci V3DA_Q_CPU _ (tick s)) as [[jid|] s1] eqn:Hn; cbn [snd].
  - apply (cpu_job_inv ci (env_now (cursor s)) (tick s) jid s1); [done|exact Hn|].
    match goal with |- quiet _ (?x <| srv_st ; g6_attach ::= _ |>) => transitivity x; [|by apply quiet_of] end.
    etrans; [|apply mark_use_quiet]. etrans; [|apply assign_seq_quiet]. by apply set_job_quiet.
  - apply job_new_none in Hn. by apply (quiet_inv _ (tick s)).
Qed.

(** ** A client's death *)
Lemma discard_fifo_inv n qu slot s : sched_inv [] s → sched_inv [] (discard_fifo n qu slot s).
Proof.
  revert s. induction n as [|n IH]; intros s Hinv; [done|]. simpl.
  destruct (head s qu slot) as [jid|] eqn:Hh; [|done]. apply IH.
  destruct (fifo_pop_inv _ _ _ _ _ Hinv Hh) as (Hp & Hk & _ & _). apply job_discard_inv.
  - apply (sched_inv_same _ (fifo_pop qu slot s)); [|done]. by apply set_q_same.
  - change (is_Some (job s jid)). destruct (job s jid); [by eexists|done].
Qed.

Lemma flush_queue_quiet slot qu s : same_sched s (flush_queue slot qu s).
Proof. unfold flush_queue. cbv zeta. case_match; by apply same_sched_of. Qed.

Lemma jobs_client_gone_inv c s : sched_inv [] s → sched_inv [] (v3da_jobs_client_gone c s).
Proof.
  intros Hinv. unfold v3da_jobs_client_gone. cbv zeta. apply sched_run_inv.
  apply (for_inv (sched_inv [])).
  - apply (for_inv (sched_inv [])); [done|]. intros. by apply discard_fifo_inv.
  - intros i s' _ H. apply (sched_inv_same _ s'); [apply flush_queue_quiet|done].
Qed.
End env2.
