(* ===== verification/SchedSpec.v ===== *)
(** What the scheduler promises: its invariant in every state the server reaches, the
    order jobs start in, and the ends its loops reach. *)
From Stdlib Require Import Sorted.
From S2P Require Import Prelude Proto State Csdprof Lowmem Hw Concrete Fence Bo BoInv.
From S2P Require Import BoMap BoShare BoSteps BoReach BoSpec Ovf Waits Jobs Submit.
From S2P Require Import Present Events Main SchedInv SchedKick SchedRun SchedReach.

Section events.
Context `{E : Env}.

(** ** The event thread *)
Lemma active_job_done loose s s' qu jid err now :
  sched_inv loose s → active s qu = Some jid → same_sched s s' → sched_inv loose (job_done jid err now s').
Proof.
  intros Hinv Ha Hq. assert (sched_inv loose s') as H' by (by apply (sched_inv_same _ s)).
  apply job_done_inv; [done|]. intros j Hj. destruct Hq as (_ & A & _). rewrite <- A in Ha.
  destruct (si_active _ _ H' _ _ Ha) as [[sl Hk] _]. rewrite Hj in Hk. simpl in Hk. unfold jkey in Hk. by simplify_eq.
Qed.

Lemma on_active_inv loose qu f s :
  sched_inv loose s →
  (∀ jid j, active s qu = Some jid → job s jid = Some j → sched_inv loose (f jid j s)) →
  sched_inv loose (on_active qu f s).
Proof.
  intros Hinv Hf. unfold on_active. destruct (active s qu) as [jid|] eqn:Ha; [|done].
  destruct (job s jid) as [j|] eqn:Hj; [|done]. by apply Hf.
Qed.

Lemma count_oom_same s : same_sched s (count_oom s).
Proof. by apply set_q_same. Qed.

Lemma grant_direct_same bin s : same_sched s (ovf_grant_direct bin s).2.
Proof.
  unfold ovf_grant_direct. destruct (chunk_alloc (srv_ovf s)) as [idx o]. cbv zeta. case_match; [by apply same_sched_of|].
  cbn [snd]. etrans; [|apply count_oom_same]. etrans; [|apply chunk_attach_same]. by apply same_sched_of.
Qed.

Lemma grant_loop_same n bin s : same_sched s (ovf_grant_loop n bin s).
Proof.
  revert s. induction n as [|n IH]; intros s; [done|]. simpl. pose proof (grant_direct_same bin s) as H.
  destruct (ovf_grant_direct bin s) as [[|] s']; simpl in H; [|done].
  etrans; [exact H|]. etrans; [|apply IH]. by apply same_sched_of.
Qed.

Lemma ovf_consume_same s : same_sched s (ovf_consume s).
Proof.
  unfold ovf_consume. cbv zeta. set (s1 := s <| srv_hw ; hw_ovf_consumed := 0 |>).
  assert (same_sched s s1) as H1 by (by apply same_sched_of). clearbody s1. case_match; [|done].
  set (s2 := if _ =? ov_staged _ then _ else s1).
  assert (same_sched s s2) as H2 by (etrans; [exact H1|]; unfold s2; case_match; by apply same_sched_of).
  clearbody s2. etrans; [exact H2|]. case_match; [|by apply same_sched_of].
  etrans; [|apply count_oom_same]. apply chunk_attach_same.
Qed.

Lemma ovf_service_same s : same_sched s (ovf_service s).
Proof.
  unfold ovf_service. cbv zeta. etrans; [|apply same_sched_of, ovf_stage_sched].
  etrans; [apply ovf_consume_same|]. set (s1 := ovf_consume s). clearbody s1.
  set (s2 := s1 <| srv_hw ; hw_ovf_missed := 0 |>). transitivity s2; [by apply same_sched_of|].
  case_match; [|by apply same_sched_of]. etrans; [|apply grant_loop_same]. case_match; [by apply same_sched_of|done].
Qed.

Lemma events_inv loose core hub now s :
  sched_inv loose s → sched_inv loose (v3da_jobs_events core hub now s).
Proof.
  intros Hinv. unfold v3da_jobs_events. cbv zeta.
  set (s1 := if _ || _ then ovf_service s else s).
  assert (sched_inv loose s1) as H1 by (unfold s1; case_match; [by apply (sched_inv_same _ s); [apply ovf_service_same|]|done]).
  clearbody s1. set (s2 := if has core INT_FLDONE then _ else s1).
  assert (sched_inv loose s2) as H2.
  { unfold s2. case_match; [|done]. unfold event_fldone. destruct (active s1 V3DA_Q_BIN) eqn:Ha.
    - by apply (active_job_done loose s1 s1 V3DA_Q_BIN).
    - by apply (sched_inv_same _ s1); [apply same_sched_of|]. }
  clearbody s2. set (s3 := if has core INT_FRDONE then _ else s2).
  assert (sched_inv loose s3) as H3.
  { unfold s3. case_match; [|done]. apply on_active_inv; [done|]. intros jid j Ha Hj. unfold render_finish. cbv zeta.
    apply (active_job_done loose s2 _ V3DA_Q_RENDER); [done|done|].
    apply same_sched_of. repeat case_match; by autorewrite with sched_frame. }
  clearbody s3. set (s4 := if has core INT_CSDDONE then _ else s3).
  assert (sched_inv loose s4) as H4.
  { unfold s4. case_match; [|done]. apply on_active_inv; [done|]. intros jid j Ha Hj. unfold csd_finish. cbv zeta.
    unfold v3da_cnt. cbv iota beta. apply (active_job_done loose s3 _ V3DA_Q_CSD); [done|done|].
    apply same_sched_of. unfold csdprof_job. repeat case_match; reflexivity. }
  clearbody s4. case_match; [|done]. unfold event_tfu. destruct (active s4 V3DA_Q_TFU) as [jid|] eqn:Ha.
  - unfold tfu_finish. apply (active_job_done loose s4 _ V3DA_Q_TFU); [done|done|]. apply same_sched_of.
    by autorewrite with sched_frame.
  - case_match; [by apply (sched_inv_same _ s4); [apply same_sched_of|]|done].
Qed.

Lemma fail_wedge_inv loose jid now s : sched_inv loose s → sched_inv loose (fail_wedge jid now s).
Proof. intros Hinv. unfold fail_wedge. apply wedge_inv. apply (sched_inv_same _ s); [by apply set_job_same|done]. Qed.

Lemma qpu_ack_same jid s : same_sched s (qpu_ack jid s).
Proof.
  unfold qpu_ack, rd_core. cbv zeta iota beta. case_match; [|by apply same_sched_of].
  etrans; [|by apply set_job_same]. by apply same_sched_of.
Qed.

Lemma bin_starved_inv loose qu jid now s :
  sched_inv loose s →
  sched_inv loose (bin_starved qu jid now s).2 ∧
  ((bin_starved qu jid now s).1 = false → same_sched s (bin_starved qu jid now s).2).
Proof.
  intros Hinv. unfold bin_starved. destruct (_ && _); [|by split].
  destruct (bool_decide _).
  - assert (same_sched s (set_job jid (λ b, b <| j_wd_progress_us := now |>) s)) as H2 by (by apply set_job_same).
    split; [by apply (sched_inv_same _ s)|done].
  - destruct (_ =? 0); [|by split]. split; [by apply fail_wedge_inv|done].
Qed.

Lemma tick_queue_inv loose now qu s : sched_inv loose s → sched_inv loose (tick_queue now qu s).
Proof.
  intros Hinv. unfold tick_queue. case_match; [done|]. apply on_active_inv; [done|]. intros jid j Ha Hj.
  case_match; [done|]. cbv zeta.
  set (s1 := set_job jid _ s). assert (same_sched s s1) as H1 by (by apply set_job_same). clearbody s1.
  pose proof (progress_sample_sched qu s1) as Hp. destruct (progress_sample qu s1) as [[ca ra] s2]. simpl in Hp.
  assert (same_sched s s2) as H2 by (etrans; [exact H1|by apply same_sched_of]).
  set (s3 := set_job jid _ s2).
  assert (same_sched s s3) as H3.
  { etrans; [exact H2|]. apply set_job_same. intros b. unfold wd_progress. by case_match. }
  clearbody s3. set (s4 := if qu =? V3DA_Q_RENDER then _ else s3).
  assert (same_sched s s4) as H4.
  { etrans; [exact H3|]. unfold s4. case_match; [apply qpu_ack_same|done]. }
  clearbody s4. assert (sched_inv loose s4) as I4 by (by apply (sched_inv_same _ s)).
  pose proof (bin_starved_inv loose qu jid now s4 I4) as Hb. destruct (bin_starved qu jid now s4) as [stop s5].
  destruct Hb as [I5 H5]. cbn [fst snd] in I5, H5. destruct stop; [done|]. specialize (H5 eq_refl).
  case_match.
  - unfold tfu_finish. apply (active_job_done loose s _ qu); [done|done|]. etrans; [exact H4|]. etrans; [exact H5|].
    apply same_sched_of. by autorewrite with sched_frame.
  - unfold stall_check. case_match; [|done]. case_match; [by apply fail_wedge_inv|done].
Qed.

Lemma pan_sched b s : srv_sched (pan b s) = srv_sched s.
Proof. unfold pan. by case_match. Qed.

Lemma present_loop_sched n s : srv_sched (present_loop n s) = srv_sched s.
Proof.
  revert s. induction n as [|n IH]; intros s; [done|]. simpl. unfold present_step.
  destruct (sc_q (srv_scan s)) as [|fl rest]; [done|]. destruct (flip_ready s fl); [|done]. rewrite IH. apply pan_sched.
Qed.

Lemma acct_same now s : same_sched s (acct now s).
Proof. same_sched_refl. Qed.

Lemma stat_print_same now s : same_sched s (stat_print now s).
Proof. unfold stat_print. case_match; [done|]. cbv zeta. case_match; [by apply same_sched_of|]. case_match; same_sched_refl. Qed.

Lemma jobs_tick_inv loose now s : sched_inv loose s → sched_inv loose (v3da_jobs_tick now s).
Proof.
  intros Hinv. unfold v3da_jobs_tick. cbv zeta.
  eapply sched_inv_same; [apply stat_print_same|]. eapply sched_inv_same; [apply same_sched_of, present_loop_sched|].
  set (s1 := tick_cpu now s). assert (sched_inv loose s1) as H1.
  { unfold s1, tick_cpu. apply on_active_inv; [done|]. intros jid j Ha Hj. case_match; [|done]. cbv zeta.
    assert (sched_inv loose (job_done jid false now s)) as Hd by (by apply (active_job_done loose s s V3DA_Q_CPU)).
    case_match; [done|]. apply (sched_inv_same _ (job_done jid false now s)); [by apply same_sched_of|done]. }
  clearbody s1. set (s2 := for_ _ _ _ s1).
  assert (sched_inv loose s2) as H2.
  { apply (for_inv (sched_inv loose)); [done|]. intros. by apply tick_queue_inv. }
  clearbody s2. case_match; [|done]. eapply sched_inv_same; [apply ovf_service_same|done].
Qed.

Lemma poll_sched s : srv_sched (v3da_bo_quarantine_poll s) = srv_sched s.
Proof.
  apply (for_frame srv_sched). intros i s'. unfold quarantine_poll_one. case_match; [|done].
  unfold quarantine_release, block_put. cbv zeta. repeat case_match; reflexivity.
Qed.

Lemma wait_claim_quiet w err u st : quiet st.1 (wait_claim w err u st).1.
Proof.
  unfold wait_claim, wait_unlink. cbn [fst]. cbv zeta.
  case_match; [etrans; [|by apply set_client_quiet]|]; by apply quiet_of.
Qed.

Lemma scan_quiet now s a : quiet s (waits_scan now s a).1.
Proof.
  unfold waits_scan. set (l := waits (srv_wt s)). clearbody l.
  assert (∀ l st, quiet st.1 (foldl (scan_one now) st l).1) as H; [|apply (H l (s, a))].
  clear. induction l as [|w l IH]; intros st; [done|]. simpl. etrans; [|apply IH].
  unfold scan_one. destruct (wait_eval st.1 w) as [rc u]. repeat case_match; try apply wait_claim_quiet; [|done].
  etrans; [|apply wait_claim_quiet]. by apply quiet_of.
Qed.

(** The event thread's section up to the scan of the parked requests. *)
Definition event_core (s : v3da_srv_t) : v3da_srv_t :=
  let '(now, s) := v3da_now_us s in
  let s := storm_fallback (event_heartbeat s) in
  let s := if negb (hw_irq_on (srv_hw s)) && v3da_jobs_hw_busy s then v3da_hw_poll_status s else s in
  let core := hw_ev_core (srv_hw s) in
  let hub := hw_ev_hub (srv_hw s) in
  let s := s <| srv_hw ::= λ h, h <| hw_ev_core := 0 |> <| hw_ev_hub := 0 |> |> in
  v3da_sched_run (v3da_bo_quarantine_poll (v3da_jobs_tick now (v3da_jobs_events core hub now s))).
Lemma event_body_core s : event_body s = waits_scan (env_now (cursor s)) (event_core s) [].
Proof. reflexivity. Qed.

Lemma event_core_inv s : sched_inv [] s → sched_inv [] (event_core s).
Proof.
  intros Hinv. unfold event_core, v3da_now_us. cbv zeta iota beta.
  set (now := env_now (cursor s)).
  set (s1 := storm_fallback _). assert (sched_inv [] s1) as H1.
  { apply (sched_inv_same _ (event_heartbeat (tick s))); [|].
    - unfold s1, storm_fallback. case_match; [|done]. unfold v3da_hw_irq_disable. cbv zeta.
      apply same_sched_of. case_match; reflexivity.
    - apply (sched_inv_same _ s); [|done]. unfold event_heartbeat. same_sched_refl. }
  clearbody s1. set (s2 := if _ && _ then _ else s1). assert (sched_inv [] s2) as H2.
  { unfold s2. case_match; [|done]. apply (sched_inv_same _ s1); [apply same_sched_of, hw_service_sched|done]. }
  clearbody s2. set (s3 := s2 <| srv_hw ::= _ |>).
  assert (sched_inv [] s3) as H3 by (apply (sched_inv_same _ s2); [by apply same_sched_of|done]).
  clearbody s3.
  apply sched_run_inv. eapply sched_inv_same; [apply same_sched_of, poll_sched|].
  by apply jobs_tick_inv, events_inv.
Qed.
Lemma event_body_inv s : sched_inv [] s → sched_inv [] (event_body s).1.
Proof. intros H. rewrite event_body_core. apply (quiet_inv _ (event_core s)); [apply scan_quiet|by apply event_core_inv]. Qed.

(** ** The other requests *)
Lemma set_mode_inv rq s : sched_inv [] s → sched_inv [] (v3da_set_mode rq s).2.
Proof.
  intros Hinv. unfold v3da_set_mode. cbv zeta. case_match; [done|].
  set (s1 := if has (mq_set rq) V3DA_SET_MODE then _ else s).
  assert (sched_inv [] s1) as H1 by (unfold s1; case_match; [apply (sched_inv_same _ s); [same_sched_refl|done]|done]).
  clearbody s1. case_match; [done|]. cbn [snd].
  set (s2 := if has (mq_set rq) V3DA_SET_KNOBS then _ else s1).
  assert (sched_inv [] s2) as H2 by (unfold s2; case_match; [apply (sched_inv_same _ s1); [same_sched_refl|done]|done]).
  clearbody s2. case_match; [by apply sched_run_inv|done].
Qed.
End events.

(** ** States and steps *)
Definition sched_start (s : v3da_srv_t) : Prop :=
  jobs (srv_sched s) = ∅ ∧ nbusy (srv_sched s) = 0 ∧
  (∀ qu slot, fifo s qu slot = []) ∧ ∀ qu, active s qu = None.

Section spec.
Context `{E : Env}.

(** One locked section that may touch the queues; every other one leaves them alone. *)
Inductive sched_step (s : v3da_srv_t) : v3da_srv_t → Prop :=
  | SS_submit ci op hdr data size : sched_step s (v3da_submit ci op hdr data size s).2
  | SS_nop ci d : sched_step s (v3da_submit_nop ci d s).2
  | SS_attach ci rq : sched_step s (v3da_bo_attach_fence ci rq s).2
  | SS_client_gone c : sched_step s (v3da_jobs_client_gone c s)
  | SS_mode rq : sched_step s (v3da_set_mode rq s).2
  | SS_event : sched_step s (event_body s).1
  | SS_other s' : same_sched s s' → sched_step s s'.

Inductive sched_reach : v3da_srv_t → Prop :=
  | SR_start s : sched_start s → sched_reach s
  | SR_step s s' : sched_reach s → sched_step s s' → sched_reach s'.

Lemma sched_reach_inv s : sched_reach s → sched_inv [] s.
Proof.
  induction 1 as [s (Hj & Hn & Hf & Ha)|s s' _ IH Hs].
  - assert (∀ jid, job s jid = None) as Hjob by (intros; unfold job; by rewrite Hj).
    constructor.
    + intros qu slot jid. rewrite Hf. by intros ?%not_elem_of_nil.
    + intros qu jid. by rewrite Ha.
    + intros qu slot. rewrite Hf. constructor.
    + intros qu slot j1 j2. by rewrite Ha.
    + intros jid qu slot. by rewrite Hjob.
    + intros jid [? ?]. by rewrite Hjob in *.
    + rewrite Hn. rewrite (countZ_ext _ (λ _, false)); [done|]. intros qu _. rewrite Ha. by rewrite andb_false_r.
  - destruct Hs.
    + by apply submit_inv.
    + by apply submit_nop_inv.
    + by apply attach_fence_inv.
    + by apply jobs_client_gone_inv.
    + by apply set_mode_inv.
    + by apply event_body_inv.
    + by apply (sched_inv_same _ s).
Qed.

(** ** What holds in every reachable state *)
(** The job of this client the queue is running. *)
Definition running (s : v3da_srv_t) (qu slot : Z) : list Z :=
  match active s qu with
  | Some jid => if bool_decide (jkey <$> job s jid = Some (qu, slot)) then [jid] else []
  | None => []
  end.

(** C10: in every reachable state, on every queue, the job of a client that is
    running and the jobs it has queued, head first, are in the order of submission: a
    client's jobs never overtake each other on a queue. *)
Theorem sched_jobs_in_order s qu slot :
  sched_reach s → StronglySorted Z.lt (running s qu slot ++ fifo s qu slot).
Proof.
  intros Hinv%sched_reach_inv. pose proof (si_sorted _ _ Hinv qu slot) as Hs.
  unfold running. destruct (active s qu) as [jid|] eqn:Ha; [|done]. case_bool_decide as Hk; [|done].
  simpl. constructor; [done|]. apply Forall_forall. intros jid' Hin. by apply (si_before _ _ Hinv qu slot).
Qed.

(** C15: in every reachable state, a job exists exactly when it is queued on its
    own queue and client slot or is what its queue runs, and never both; and [nbusy] is
    the number of hardware queues that run something. *)
Theorem sched_jobs_placed s :
  sched_reach s →
  (∀ jid j, job s jid = Some j →
     (jid ∈ fifo s (j_queue j) (f_slot (j_fence j)) ∧ active s (j_queue j) ≠ Some jid) ∨
     (~ jid ∈ fifo s (j_queue j) (f_slot (j_fence j)) ∧ active s (j_queue j) = Some jid)) ∧
  (∀ qu slot jid, jid ∈ fifo s qu slot → ∃ j, job s jid = Some j ∧ j_queue j = qu ∧ f_slot (j_fence j) = slot) ∧
  (∀ qu jid, active s qu = Some jid → ∃ j, job s jid = Some j ∧ j_queue j = qu) ∧
  nbusy (srv_sched s) = countZ (λ qu, is_hw_queue qu && bool_decide (is_Some (active s qu))) 0 V3DA_Q_COUNT.
Proof.
  intros Hinv%sched_reach_inv.
  assert (∀ jid k, jkey <$> job s jid = Some k → ∃ j, job s jid = Some j ∧ j_queue j = k.1 ∧ f_slot (j_fence j) = k.2) as Hkey.
  { intros jid k. destruct (job s jid) as [j|]; [|done]. simpl. intros. simplify_eq. by exists j. }
  split_and!.
  - intros jid j Hj. assert (jkey <$> job s jid = Some (j_queue j, f_slot (j_fence j))) as Hk by (by rewrite Hj).
    destruct (si_placed _ _ Hinv _ _ _ Hk) as [Hin|Ha]; [by apply not_elem_of_nil| |].
    + left. split; [done|]. intros Ha. pose proof (si_before _ _ Hinv _ _ _ _ Ha Hk Hin). lia.
    + right. split; [|done]. intros Hin. pose proof (si_before _ _ Hinv _ _ _ _ Ha Hk Hin). lia.
  - intros qu slot jid Hin. destruct (si_fifo _ _ Hinv _ _ _ Hin) as [Hk _]. by apply Hkey in Hk.
  - intros qu jid Ha. destruct (si_active _ _ Hinv _ _ Ha) as [[slot Hk] _]. apply Hkey in Hk as (j & ? & ? & _). by exists j.
  - apply Hinv.
Qed.

(** ** Choosing what runs next *)
Lemma head_ready_job s qu slot : head_ready s qu slot = true → ∃ jid, head s qu slot = Some jid ∧ job_ready s jid = true.
Proof. unfold head_ready. destruct (head s qu slot) as [jid|]; [|done]. by exists jid. Qed.

(** round robin picks the first client, from the queue's cursor on and around, whose
    oldest job is ready, and picks nobody only when no client's oldest job is. *)
Theorem rr_pick_spec s qu :
  0 ≤ q_rr (srv_q s qu) ≤ V3DA_MAX_CLIENTS →
  match rr_pick s qu with
  | Some slot =>
      0 ≤ slot < V3DA_MAX_CLIENTS ∧ head_ready s qu slot = true ∧
      ∃ k, 0 ≤ k < V3DA_MAX_CLIENTS ∧ slot = (q_rr (srv_q s qu) + k) mod V3DA_MAX_CLIENTS ∧
        ∀ i, 0 ≤ i < k → head_ready s qu ((q_rr (srv_q s qu) + i) mod V3DA_MAX_CLIENTS) = false
  | None => ∀ slot, 0 ≤ slot < V3DA_MAX_CLIENTS → head_ready s qu slot = false
  end.
Proof.
  intros Hr. unfold rr_pick. set (rr := q_rr (srv_q s qu)) in *. cbv zeta.
  assert (∀ i, 0 ≤ i < V3DA_MAX_CLIENTS → u32 (rr + i) = rr + i) as Hu.
  { intros i Hi. apply u32_small. assert (V3DA_MAX_CLIENTS < 255) by done. lia. }
  destruct (find_first _ _ _) as [k|] eqn:Hf; simpl.
  - apply find_first_Some in Hf as (Hk & Hready & Hbefore). rewrite Hu in * by done. split_and!.
    + apply Z.mod_pos_bound. done.
    + by apply Z.mod_pos_bound.
    + done.
    + exists k. split_and!; try done; try lia. intros i Hi. rewrite <- (Hbefore i Hi). by rewrite Hu by lia.
  - intros slot Hs. pose proof (find_first_None _ _ _ Hf) as Hn.
    set (i := (slot - rr) mod V3DA_MAX_CLIENTS).
    assert (0 ≤ i < V3DA_MAX_CLIENTS) as Hi by (by apply Z.mod_pos_bound).
    specialize (Hn i Hi). cbn beta in Hn. rewrite Hu in Hn by done.
    assert ((rr + i) mod V3DA_MAX_CLIENTS = slot) as Em; [|by rewrite Em in Hn].
    unfold i. rewrite Z.add_mod_idemp_r by done. replace (rr + (slot - rr)) with slot by lia. by apply Z.mod_small.
Qed.

(** A ready head of a hardware queue; the oldest one among the places [S] holds. *)
Definition ready_head (s : v3da_srv_t) (jid qu slot : Z) : Prop :=
  is_hw_queue qu = true ∧ 0 ≤ slot < V3DA_MAX_CLIENTS ∧ head s qu slot = Some jid ∧ job_ready s jid = true.

Definition oldest_in (s : v3da_srv_t) (S : Z → Z → Prop) (b : option (Z * Z * Z)) : Prop :=
  match b with
  | Some (jid, qu, slot) => ready_head s jid qu slot ∧
      ∀ jid' qu' slot', S qu' slot' → ready_head s jid' qu' slot' → jid ≤ jid'
  | None => ∀ jid' qu' slot', S qu' slot' → ~ ready_head s jid' qu' slot'
  end.

Lemma oldest_in_mono s (S S' : Z → Z → Prop) b :
  (∀ qu slot jid, ready_head s jid qu slot → S' qu slot → S qu slot) → oldest_in s S b → oldest_in s S' b.
Proof.
  intros H. unfold oldest_in. destruct b as [[[jid qu] slot]|].
  - intros [Hr Hm]. split; [done|]. intros j' q' sl' HS Hr'. apply (Hm j' q' sl'); [|done]. by apply (H q' sl' j').
  - intros Hm j' q' sl' HS Hr'. apply (Hm j' q' sl'); [|done]. by apply (H q' sl' j').
Qed.

Lemma serial_one_oldest s S qu slot b :
  0 ≤ slot < V3DA_MAX_CLIENTS → oldest_in s S b →
  oldest_in s (λ q' sl', S q' sl' ∨ (q' = qu ∧ sl' = slot)) (serial_one s qu slot b).
Proof.
  intros Hs Hb. unfold serial_one.
  assert ((∀ jid, ~ ready_head s jid qu slot) → oldest_in s (λ q' sl', S q' sl' ∨ (q' = qu ∧ sl' = slot)) b) as Hno.
  { intros Hn. eapply oldest_in_mono; [|exact Hb]. intros q' sl' jid Hr [?|[-> ->]]; [done|]. by destruct (Hn jid). }
  destruct (head s qu slot) as [jid|] eqn:Hh; [|apply Hno; intros jid (_ & _ & ? & _); congruence].
  destruct (is_hw_queue qu && job_ready s jid) eqn:Hc.
  2:{ apply Hno. intros j (Hhw & _ & Hh' & Hr). rewrite Hh in Hh'. injection Hh' as <-. by rewrite Hhw, Hr in Hc. }
  apply andb_true_iff in Hc as [Hhw Hr]. assert (ready_head s jid qu slot) as Hme by done.
  assert (∀ j', ready_head s j' qu slot → jid ≤ j') as Hu.
  { intros j' (_ & _ & Hh' & _). rewrite Hh in Hh'. by injection Hh' as <-. }
  destruct b as [[[j0 q0] sl0]|]; [destruct Hb as [H0 Hmin]; destruct (jid <? j0) eqn:Hlt; zify_bools|].
  - split; [done|]. intros j' q' sl' [HS|[-> ->]] Hr'; [specialize (Hmin _ _ _ HS Hr'); lia|auto].
  - split; [done|]. intros j' q' sl' [HS|[-> ->]] Hr'; [eauto|specialize (Hu _ Hr'); lia].
  - split; [done|]. intros j' q' sl' [HS|[-> ->]] Hr'; [by destruct (Hb j' q' sl')|auto].
Qed.

(** SERIAL mode picks the oldest submission among the ready heads of every
    hardware queue, and nothing only when none is ready. *)
Theorem serial_pick_spec s :
  match serial_pick s with
  | Some (jid, qu, slot) => ready_head s jid qu slot ∧
      ∀ jid' qu' slot', ready_head s jid' qu' slot' → jid ≤ jid'
  | None => ∀ jid' qu' slot', ~ ready_head s jid' qu' slot'
  end.
Proof.
  assert (oldest_in s (λ qu _, qu < V3DA_Q_COUNT) (serial_pick s)) as H.
  { unfold serial_pick. apply (for_ind (λ n, oldest_in s (λ qu _, qu < n))).
    - intros jid qu slot Hq (Hhw%hw_queue_range & _). lia.
    - intros qu b Hq Hb.
      assert (oldest_in s (λ q' sl', q' < qu ∨ (q' = qu ∧ sl' < V3DA_MAX_CLIENTS)) (for_ 0 V3DA_MAX_CLIENTS (serial_one s qu) b)) as H.
      { apply (for_ind (λ n, oldest_in s (λ q' sl', q' < qu ∨ (q' = qu ∧ sl' < n)))).
        - eapply oldest_in_mono; [|exact Hb]. intros q' sl' jid (_ & ? & _) [?|[_ ?]]; lia.
        - intros sl b' Hsl Hb'. eapply oldest_in_mono; [|by apply serial_one_oldest].
          intros q' sl' jid _ [?|[-> ?]]; [left; by left|].
          destruct (decide (sl' = sl)) as [->|]; [by right|left; right; lia]. }
      eapply oldest_in_mono; [|exact H]. intros q' sl' jid (_ & ? & _) ?.
      destruct (decide (q' = qu)) as [->|]; [right|left]; lia. }
  unfold oldest_in in H. destruct (serial_pick s) as [[[jid qu] slot]|].
  - destruct H as [Hr Hmin]. split; [done|]. intros j' q' sl' Hr'. apply (Hmin j' q' sl'); [|done].
    destruct Hr' as (Hhw%hw_queue_range & _). lia.
  - intros j' q' sl' Hr'. apply (H j' q' sl'); [|done]. destruct Hr' as (Hhw%hw_queue_range & _). lia.
Qed.

(** C30: after the failed heads have been reaped, within the passes the loop is given,
    no queued job whose dependency failed is both first in its list and otherwise ready. *)
Theorem reap_failed_heads_done now s qu slot :
  sched_reach s → 0 ≤ qu < V3DA_Q_COUNT → 0 ≤ slot < V3DA_MAX_CLIENTS →
  head_failed (reap_failed_heads now s) qu slot = None.
Proof. intros Hinv%sched_reach_inv Hq Hs. apply (reap_loop_done []); [done|lia|done|done]. Qed.

(** ** The wedge *)
Lemma done_leave_active jid j now s qu :
  active (done_leave jid j now s) qu =
  if decide (j_queue j = qu ∧ active s qu = Some jid) then None else active s qu.
Proof.
  unfold done_leave. case_bool_decide as Ha.
  - set (s1 := if is_hw_queue (j_queue j) then _ else s).
    assert (∀ q, active s1 q = active s q) as A by (intros; unfold s1; by case_match).
    unfold active at 1, srv_q. simpl. rewrite fn_upd_case. case_decide as Hq.
    + subst qu. by rewrite decide_True.
    + rewrite decide_False by (by intros [? _]). apply A.
  - rewrite decide_False by (by intros [<- ?]). by case_match.
Qed.

Lemma job_done_sched_tail jid j err now s :
  job s jid = Some j →
  ∃ s1, same_sched (done_leave jid j now s) s1 ∧ job_done jid err now s = free_job jid s1.
Proof.
  intros Hj. unfold job_done. rewrite Hj. cbv zeta. eexists. split; [|reflexivity].
  etrans; [|apply same_sched_of; reflexivity]. etrans; [|apply fence_complete_same].
  etrans; [|apply drop_pins_same]. etrans; [|apply unlink_bin_same].
  etrans; [|apply done_chunks_same]. apply done_count_same.
Qed.

Lemma job_done_active jid j err now s qu :
  job s jid = Some j →
  active (job_done jid err now s) qu = if decide (j_queue j = qu ∧ active s qu = Some jid) then None else active s qu.
Proof.
  intros Hj. destruct (job_done_sched_tail jid j err now s Hj) as (s1 & (_ & A & _) & ->).
  change (active (free_job jid s1) qu) with (active s1 qu). by rewrite A, done_leave_active.
Qed.

Lemma wedge_fail_one_active loose now q s qu :
  sched_inv loose s →
  active (wedge_fail_one now q s) qu = if decide (q = qu ∧ is_hw_queue q = true) then None else active s qu.
Proof.
  intros Hinv. unfold wedge_fail_one. destruct (active s q) as [jid|] eqn:Ha.
  2:{ case_decide as Hd; [|done]. destruct Hd as [<- _]. done. }
  destruct (is_hw_queue q) eqn:Hhw; [|by rewrite decide_False by (by intros [_ ?])].
  destruct (si_active _ _ Hinv _ _ Ha) as [[sl Hk] _]. destruct (job s jid) as [j|] eqn:Hj; [|done].
  simpl in Hk. unfold jkey in Hk. simplify_eq. rewrite (job_done_active jid j) by done.
  destruct (decide (j_queue j = qu)) as [<-|Hne].
  - by rewrite !decide_True by done.
  - by rewrite !decide_False by (by intros [? _]).
Qed.

Lemma wedge_active loose now s qu :
  sched_inv loose s → active (wedge now s) qu = if is_hw_queue qu then None else active s qu.
Proof.
  intros Hinv. unfold wedge. cbv zeta.
  set (s1 := s <| srv_st ; wedges ::= _ |>).
  pose proof (hw_reset_sched s1) as Hr. destruct (v3da_hw_reset s1) as [rc s2]. simpl in Hr.
  set (s3 := (if _ <=? _ then _ else _) <| srv_ovf ; ov_bin_waiting := 0 |>).
  assert (same_sched s s3) as H3 by (apply same_sched_of; unfold s3; by case_match).
  clearbody s3. assert (sched_inv loose s3) as I3 by (by apply (sched_inv_same _ s)). destruct H3 as (_ & A3 & _).
  pose proof (for_ind (λ n s', sched_inv loose s' ∧
      active s' qu = if bool_decide (qu < n) && is_hw_queue qu then None else active s qu)
    0 V3DA_Q_COUNT (wedge_fail_one now) s3) as H.
  destruct H as [_ H].
  - split; [done|]. rewrite A3. destruct (is_hw_queue qu) eqn:Hhw; [|by rewrite andb_false_r].
    apply hw_queue_range in Hhw. by rewrite bool_decide_eq_false_2 by lia.
  - intros i s' Hi [I' A']. split; [by apply wedge_fail_one_inv|]. rewrite (wedge_fail_one_active loose) by done. rewrite A'.
    destruct (decide (i = qu ∧ is_hw_queue i = true)) as [[-> Hhw]|Hne].
    + by rewrite Hhw, bool_decide_eq_true_2 by lia.
    + destruct (is_hw_queue qu) eqn:Hhw; [|by rewrite !andb_false_r]. rewrite !andb_true_r.
      assert (i ≠ qu) by (intros ->; by apply Hne).
      assert (bool_decide (qu < i + 1) = bool_decide (qu < i)) as -> by (apply bool_decide_ext; lia). done.
  - rewrite H. destruct (is_hw_queue qu) eqn:Hhw; [|by rewrite andb_false_r].
    apply hw_queue_range in Hhw. by rewrite bool_decide_eq_true_2 by lia.
Qed.

Lemma nbusy_idle loose s :
  sched_inv loose s → (∀ qu, is_hw_queue qu = true → active s qu = None) → nbusy (srv_sched s) = 0.
Proof.
  intros Hinv Ha. rewrite (si_nbusy _ _ Hinv), (countZ_ext _ (λ _, false)); [done|].
  intros qu _. destruct (is_hw_queue qu) eqn:Hhw; [|done]. by rewrite Ha.
Qed.

(** ** SERIAL mode *)
Lemma kick_hw_nbusy jid now s :
  sched_inv [jid] s → nbusy (srv_sched s) = 0 →
  (∀ j, job s jid = Some j → active s (j_queue j) = None ∧
        ∀ jid', jid' ∈ fifo s (j_queue j) (f_slot (j_fence j)) → jid < jid') →
  is_Some (job s jid) → nbusy (srv_sched (job_kick jid now s)) ≤ 1.
Proof.
  intros Hinv Hn Hlt [j Hj]. destruct (Hlt j Hj) as [Ha Hb]. unfold job_kick. rewrite Hj. cbv zeta.
  pose proof (job_start_inv [] jid j now s Hinv Hj Ha (not_elem_of_nil _) Hb) as H1.
  set (s1 := job_start jid j now s) in *.
  assert (nbusy (srv_sched s1) ≤ 1) as N1.
  { unfold s1, job_start. cbv zeta. destruct (is_hw_queue (j_queue j)).
    - change (u32 (nbusy (srv_sched s) + 1) ≤ 1). by rewrite Hn.
    - change (nbusy (srv_sched s) ≤ 1). lia. }
  clearbody s1.
  assert (∀ s2, same_sched s1 s2 → nbusy (srv_sched (job_sample jid (j_queue j) s2)) ≤ 1) as Hs.
  { intros s2 H2. assert (same_sched s1 (job_sample jid (j_queue j) s2)) as (_ & _ & _ & _ & N2)
      by (etrans; [exact H2|apply job_sample_same]). lia. }
  destruct (j_queue j =? V3DA_Q_CPU) eqn:Hcpu; [apply Hs; by apply set_job_same|].
  destruct (j_d j) as [d|t|d|]; [| | |by apply Hs].
  - case_match; [apply Hs, same_sched_of, kick_bin_sched|].
    case_match; [apply Hs, same_sched_of, kick_render_sched|by apply Hs].
  - apply Hs. case_match; [apply same_sched_of, kick_tfu_sched|done].
  - case_match; [|by apply Hs]. pose proof (kick_csd_same jid d s1) as Hk.
    destruct (kick_csd jid d s1) as [ok s2]. simpl in Hk. destruct ok; [by apply Hs|].
    set (s3 := set_job jid _ s2). assert (sched_inv [] s3) as H3.
    { apply (sched_inv_same _ s1); [|done]. etrans; [exact Hk|]. by apply set_job_same. }
    rewrite (nbusy_idle [] (wedge now s3)); [lia|by apply wedge_inv|].
    intros q' Hq. by rewrite (wedge_active []), Hq.
Qed.

Lemma kick_cpu_frame jid j now s :
  job s jid = Some j → j_queue j = V3DA_Q_CPU →
  nbusy (srv_sched (job_kick jid now s)) = nbusy (srv_sched s) ∧ mode (srv_sched (job_kick jid now s)) = mode (srv_sched s).
Proof. intros Hj Hq. unfold job_kick. rewrite Hj. cbv zeta. unfold job_start. rewrite Hq. split; reflexivity. Qed.

Lemma head_key loose s qu slot jid :
  sched_inv loose s → head s qu slot = Some jid → ∃ j, job s jid = Some j ∧ j_queue j = qu.
Proof.
  intros Hinv Hh. apply head_fifo in Hh as [rest Hf].
  destruct (si_fifo _ _ Hinv qu slot jid) as [Hk _]; [rewrite Hf; by left|].
  destruct (job s jid) as [j|]; [|done]. simpl in Hk. unfold jkey in Hk. simplify_eq. by exists j.
Qed.

Lemma serial_run_nbusy now s :
  sched_inv [] s → nbusy (srv_sched s) ≤ 1 → nbusy (srv_sched (serial_run now s)) ≤ 1.
Proof.
  intros Hinv Hn. unfold serial_run. destruct (Z.eqb_spec (nbusy (srv_sched s)) 0) as [H0|H0]; cbn [negb]; [|lia].
  destruct (serial_pick s) as [[[jid qu] slot]|] eqn:Hp; [|lia].
  apply serial_pick_head in Hp as [Hh Hhw].
  destruct (fifo_pop_inv [] qu slot jid s Hinv Hh) as (Hpop & Hk & _ & Hlt).
  pose proof (serial_idle [] s qu Hinv H0 Hhw) as Ha.
  apply kick_hw_nbusy; [done|done| |].
  - intros j Hj. change (job s jid = Some j) in Hj. rewrite Hj in Hk. simpl in Hk. unfold jkey in Hk. simplify_eq.
    split; [by rewrite fifo_pop_active|done].
  - change (is_Some (job s jid)). destruct (job s jid); [by eexists|done].
Qed.

(** in SERIAL mode a scheduling round leaves at most one hardware queue busy
    whenever it found at most one busy. *)
Theorem serial_one_job now s :
  sched_reach s → mode (srv_sched s) = V3DA_MODE_SERIAL → nbusy (srv_sched s) ≤ 1 →
  countZ (λ qu, is_hw_queue qu && bool_decide (is_Some (active (sched_dispatch now s) qu))) 0 V3DA_Q_COUNT ≤ 1.
Proof.
  intros Hinv%sched_reach_inv Hm Hn.
  rewrite <- (si_nbusy [] (sched_dispatch now s)) by (by apply sched_dispatch_inv). unfold sched_dispatch.
  set (s1 := if bool_decide _ then _ else s).
  assert (sched_inv [] s1 ∧ nbusy (srv_sched s1) ≤ 1 ∧ mode (srv_sched s1) = V3DA_MODE_SERIAL) as (I1 & N1 & M1).
  { unfold s1. case_bool_decide as Ha; [|done]. split; [by apply rr_run_inv|].
    unfold rr_run. destruct (rr_pick s V3DA_Q_CPU) as [slot|]; [|done].
    destruct (head s V3DA_Q_CPU slot) as [jid|] eqn:Hh; [|done].
    destruct (head_key [] s V3DA_Q_CPU slot jid Hinv Hh) as (j & Hj & Hq). cbv zeta.
    match goal with |- context [job_kick jid now ?x] => destruct (kick_cpu_frame jid j now x) as [-> ->] end; done. }
  cbv zeta. rewrite M1. by apply serial_run_nbusy.
Qed.
End spec.

(** ** At concrete states: two SUBMIT_CL of one client *)
Definition hdr_cl : v3da_submit_t := mkSubmit 32 0 0 0.
Definition words_cl (i : Z) : Z := i * 4096.
Definition submit_cl (s : v3da_srv_t) : v3da_srv_t :=
  (v3da_submit 0 V3DA_OP_SUBMIT_CL hdr_cl (Some words_cl) 32 s).2.
Definition run_cl : v3da_srv_t := submit_cl (submit_cl srv0).
Definition run_serial : v3da_srv_t := (v3da_set_mode (mkModeReq V3DA_SET_MODE V3DA_MODE_SERIAL 0) run_cl).2.

Lemma srv0_sched_start : sched_start srv0.
Proof. by split_and!. Qed.

Lemma run_cl_reach : sched_reach run_cl.
Proof.
  apply (SR_step (submit_cl srv0)); [|apply SS_submit]. apply (SR_step srv0); [|apply SS_submit].
  apply SR_start, srv0_sched_start.
Qed.

Lemma run_serial_reach : sched_reach run_serial.
Proof. apply (SR_step run_cl); [apply run_cl_reach|apply SS_mode]. Qed.

Lemma sched_jobs_in_order_witness :
  running run_cl V3DA_Q_BIN 0 ++ fifo run_cl V3DA_Q_BIN 0 = [1; 3] ∧
  StronglySorted Z.lt (running run_cl V3DA_Q_BIN 0 ++ fifo run_cl V3DA_Q_BIN 0).
Proof.
  split; [vm_compute; reflexivity|]. apply (sched_jobs_in_order run_cl V3DA_Q_BIN 0 run_cl_reach).
Defined.

Lemma sched_jobs_placed_witness :
  is_Some (job run_cl 1) ∧
  nbusy (srv_sched run_cl) =
    countZ (λ qu, is_hw_queue qu && bool_decide (is_Some (active run_cl qu))) 0 V3DA_Q_COUNT.
Proof.
  split; [vm_compute; eexists; reflexivity|].
  destruct (sched_jobs_placed run_cl run_cl_reach) as (_ & _ & _ & H). exact H.
Defined.

Lemma rr_pick_spec_witness :
  0 ≤ q_rr (srv_q run_cl V3DA_Q_RENDER) ≤ V3DA_MAX_CLIENTS ∧
  ∀ slot, 0 ≤ slot < V3DA_MAX_CLIENTS → head_ready run_cl V3DA_Q_RENDER slot = false.
Proof.
  assert (0 ≤ q_rr (srv_q run_cl V3DA_Q_RENDER) ≤ V3DA_MAX_CLIENTS) as H by (vm_compute; by split).
  split; [exact H|]. pose proof (rr_pick_spec run_cl V3DA_Q_RENDER H) as Hs.
  assert (rr_pick run_cl V3DA_Q_RENDER = None) as Hn by (vm_compute; reflexivity).
  rewrite Hn in Hs. exact Hs.
Defined.

Lemma reap_failed_heads_done_witness :
  head_failed (reap_failed_heads 2000 run_cl) V3DA_Q_RENDER 0 = None.
Proof.
  apply (reap_failed_heads_done 2000 run_cl V3DA_Q_RENDER 0 run_cl_reach); vm_compute; by split.
Defined.

Lemma serial_one_job_witness :
  nbusy (srv_sched run_serial) = 1 ∧
  countZ (λ qu, is_hw_queue qu && bool_decide (is_Some (active (sched_dispatch 3000 run_serial) qu)))
    0 V3DA_Q_COUNT ≤ 1.
Proof.
  assert (nbusy (srv_sched run_serial) = 1) as Hn by (vm_compute; reflexivity). split; [exact Hn|].
  apply (serial_one_job 3000 run_serial run_serial_reach); [vm_compute; reflexivity|].
  rewrite Hn. vm_compute. discriminate.
Defined.
