(* ===== verification/WaitSpec.v ===== *)
(** What parking and scanning promise: a parked request is answered exactly once, when it
    is satisfied, fails or expires, and none that is leaves the scan still parked; and what a
    new client finds in its slot. *)
From S2P Require Import Prelude Proto State Hw Concrete Fence Bo Ovf Waits Jobs Submit Present Events Main.

(** ** What an evaluation reads *)
Definition same_view (s s' : v3da_srv_t) : Prop :=
  srv_fp s' = srv_fp s ∧ ∀ ci, c_sync (srv_client s' ci) = c_sync (srv_client s ci).
#[export] Instance same_view_pre : PreOrder same_view.
Proof. split; [done|]. intros a b c [F1 C1] [F2 C2]. split; intros; congruence. Qed.

Lemma syncobj_get_view s s' ci h : same_view s s' → v3da_syncobj_get s' ci h = v3da_syncobj_get s ci h.
Proof. intros [_ Hc]. unfold v3da_syncobj_get. by rewrite Hc. Qed.

Lemma signaled_view s s' f : same_view s s' → signaled s' f = signaled s f.
Proof. intros [Hf _]. unfold signaled. by rewrite Hf. Qed.

Lemma sync_scan_view s s' ci fs hs i n first :
  same_view s s' → sync_scan s' ci fs i hs n first = sync_scan s ci fs i hs n first.
Proof.
  intros Hv. revert i n first. induction hs as [|h hs IH]; intros i n first; [done|]. simpl.
  assert (sync_ready s' ci fs h = sync_ready s ci fs h) as ->; [|repeat case_match; auto].
  unfold sync_ready. rewrite (syncobj_get_view s) by done. repeat case_match; try done. by rewrite (signaled_view s).
Qed.

Lemma wait_eval_view s s' w : same_view s s' → wait_eval s' w = wait_eval s w.
Proof.
  intros Hv. unfold wait_eval. destruct (w_kind w).
  - destruct (w_fence w); [done|]. by destruct Hv as [-> _].
  - by rewrite (sync_scan_view s).
  - assert (∀ l, forallb (λ f, (f_seqno f =? 0) || signaled s' f) l = forallb (λ f, (f_seqno f =? 0) || signaled s f) l) as ->.
    { induction l as [|f l IH]; [done|]. simpl. by rewrite IH, (signaled_view s). }
    done.
Qed.

Lemma wait_unlink_view w s : same_view s (wait_unlink w s).
Proof.
  unfold wait_unlink. cbv zeta. case_match; [|by split]. split; [done|]. intros ci.
  unfold srv_client, set_client. simpl. rewrite fn_upd_case. case_decide; [by subst|done].
Qed.

Lemma wait_unlink_waits w s :
  waits (srv_wt (wait_unlink w s)) = List.filter (λ x, negb (w_addr x =? w_addr w)) (waits (srv_wt s)) ∧
  nparked (srv_wt (wait_unlink w s)) = u32 (nparked (srv_wt s) - 1).
Proof. unfold wait_unlink. cbv zeta. by case_match. Qed.

(** ** The verdict on one request at one time *)
Inductive verdict := Keep | Answer (err : Z) (u : v3da_resp_u).

Definition wait_verdict (now : Z) (s : v3da_srv_t) (w : v3da_wait_t) : verdict :=
  let '(rc, u) := wait_eval s w in
  if 0 <? rc then Answer 0 u
  else if rc <? 0 then Answer rc u
  else if w_deadline_us w <=? now then Answer (- ETIMEDOUT) u
  else Keep.

(** The answers of the requests that leave, in the order of the list. *)
Definition answers (V : v3da_wait_t → verdict) (l : list v3da_wait_t) : list v3da_wait_t :=
  omap (λ w, match V w with Keep => None | Answer e u => Some (claimed w e u) end) l.
#[local] Arguments answers : simpl never.

Definition kept (V : v3da_wait_t → verdict) (w : v3da_wait_t) : bool :=
  match V w with Keep => true | Answer _ _ => false end.

Lemma answers_cons V w l :
  answers V (w :: l) = match V w with Keep => answers V l | Answer e u => claimed w e u :: answers V l end.
Proof. unfold answers. cbn. by destruct (V w). Qed.

(** [st'] is [st] once [w] has been claimed with this answer. *)
Definition claims (s0 : v3da_srv_t) (w : v3da_wait_t) (e : Z) (u : v3da_resp_u)
    (st st' : v3da_srv_t * list v3da_wait_t) : Prop :=
  same_view s0 st'.1 ∧ st'.2 = claimed w e u :: st.2 ∧
  waits (srv_wt st'.1) = List.filter (λ x, negb (w_addr x =? w_addr w)) (waits (srv_wt st.1)) ∧
  nparked (srv_wt st'.1) = u32 (nparked (srv_wt st.1) - 1) ∧ next_wait (srv_wt st'.1) = next_wait (srv_wt st.1).

Lemma wait_claim_claims s0 w e u st s1 :
  same_view s0 s1 → waits (srv_wt s1) = waits (srv_wt st.1) → nparked (srv_wt s1) = nparked (srv_wt st.1) →
  next_wait (srv_wt s1) = next_wait (srv_wt st.1) → claims s0 w e u st (wait_claim w e u (s1, st.2)).
Proof.
  intros Hv Hw Hn Hx. unfold claims, wait_claim. cbn [fst snd]. destruct (wait_unlink_waits w s1) as [-> ->].
  rewrite Hw, Hn, <- Hx. split_and!; try done; [by etrans; [|apply wait_unlink_view]|].
  unfold wait_unlink. cbv zeta. by case_match.
Qed.

Lemma scan_one_claims now s0 st w :
  same_view s0 st.1 →
  match wait_verdict now s0 w with
  | Keep => scan_one now st w = st
  | Answer e u => claims s0 w e u st (scan_one now st w)
  end.
Proof.
  intros Hv. unfold wait_verdict, scan_one. rewrite <- (wait_eval_view s0 st.1) by done.
  destruct (wait_eval st.1 w) as [rc u]. destruct st as [s a]. cbn [fst snd] in *.
  destruct (0 <? rc); [by apply (wait_claim_claims s0 w 0 u (s, a) s)|].
  destruct (rc <? 0); [by apply (wait_claim_claims s0 w rc u (s, a) s)|].
  destruct (_ <=? now); [|done]. by apply (wait_claim_claims s0 w _ u (s, a)).
Qed.

(** ** The list's invariant: addresses are distinct and all handed out before the next, and
    [nparked] counts them, modulo its width *)
Record waits_wf (s : v3da_srv_t) : Prop := mkWaitsWf {
  wf_addr : NoDup (w_addr <$> waits (srv_wt s));
  wf_new : Forall (λ w, w_addr w < next_wait (srv_wt s)) (waits (srv_wt s));
  wf_count : nparked (srv_wt s) = u32 (Z.of_nat (length (waits (srv_wt s)))) }.

Lemma filter_addr_ne w l :
  ~ w_addr w ∈ (w_addr <$> l) → List.filter (λ x, negb (w_addr x =? w_addr w)) l = l.
Proof.
  induction l as [|x l IH]; [done|]. simpl. intros Hn.
  destruct (Z.eqb_spec (w_addr x) (w_addr w)) as [He|He].
  - exfalso. apply Hn. rewrite <- He. by left.
  - simpl. rewrite IH; [done|]. intros H. apply Hn. by right.
Qed.

Lemma filter_sublist {A} (p : A → bool) l : List.filter p l `sublist_of` l.
Proof. induction l as [|x l IH]; simpl; [constructor|]. case_match; by constructor. Qed.

(** A loop over the list that claims what [V] says to. *)
Section claim_loop.
Context (s0 : v3da_srv_t) (V : v3da_wait_t → verdict).
Context (f : v3da_srv_t * list v3da_wait_t → v3da_wait_t → v3da_srv_t * list v3da_wait_t).
Context (f_claims : ∀ st w, same_view s0 st.1 →
  match V w with Keep => f st w = st | Answer e u => claims s0 w e u st (f st w) end).

Lemma claim_fold l front a st :
  same_view s0 st.1 → NoDup (w_addr <$> front ++ l) →
  waits (srv_wt st.1) = front ++ l → nparked (srv_wt st.1) = u32 (Z.of_nat (length (front ++ l))) → st.2 = a →
  let st' := foldl f st l in
  same_view s0 st'.1 ∧ waits (srv_wt st'.1) = front ++ List.filter (kept V) l ∧
  nparked (srv_wt st'.1) = u32 (Z.of_nat (length (waits (srv_wt st'.1)))) ∧
  st'.2 = rev (answers V l) ++ a ∧ next_wait (srv_wt st'.1) = next_wait (srv_wt st.1).
Proof using f_claims.
  revert front a st. induction l as [|w l IH]; intros front a st Hv Hnd Hw Hn Ha; cbv zeta.
  { simpl. rewrite Hw. done. }
  simpl. rewrite answers_cons. unfold kept at 1. pose proof (f_claims st w Hv) as Hs.
  destruct (V w) as [|e u].
  - rewrite Hs. replace (front ++ w :: List.filter (kept V) l) with ((front ++ [w]) ++ List.filter (kept V) l)
      by (by rewrite <- app_assoc).
    replace (front ++ w :: l) with ((front ++ [w]) ++ l) in * by (by rewrite <- app_assoc). by apply IH.
  - destruct Hs as (Hv' & Ha' & Hw' & Hn' & Hx').
    rewrite fmap_app in Hnd. simpl in Hnd. rewrite <- Permutation_middle in Hnd. apply NoDup_cons in Hnd as [Hni Hnd].
    rewrite elem_of_app in Hni. rewrite <- fmap_app in Hnd.
    destruct (IH front (claimed w e u :: a) (f st w)) as (H1 & H2 & H3 & H4 & H5); try done.
    + rewrite Hw', Hw, List.filter_app. simpl. rewrite Z.eqb_refl. simpl. by rewrite !filter_addr_ne by tauto.
    + rewrite Hn', Hn, u32_sub, !length_app. simpl. f_equal. lia.
    + by rewrite Ha', Ha.
    + split_and!; [done|done|done| |by rewrite H5]. rewrite H4. simpl. by rewrite <- app_assoc.
Qed.

Lemma claim_loop_wf a s :
  same_view s0 s → waits_wf s →
  let st' := foldl f (s, a) (waits (srv_wt s)) in
  same_view s0 st'.1 ∧ waits (srv_wt st'.1) = List.filter (kept V) (waits (srv_wt s)) ∧
  st'.2 = rev (answers V (waits (srv_wt s))) ++ a ∧ waits_wf st'.1.
Proof using f_claims.
  intros Hv [Hnd Hnew Hc]. cbv zeta.
  destruct (claim_fold (waits (srv_wt s)) [] a (s, a) Hv Hnd eq_refl Hc eq_refl) as (H1 & H2 & H3 & H4 & H5).
  cbn [fst snd app] in *. split_and!; try done. constructor; [| |done].
  - rewrite H2. eapply sublist_NoDup; [exact Hnd|]. apply fmap_sublist, filter_sublist.
  - rewrite H5, H2. apply Forall_forall. intros w Hi. rewrite Forall_forall in Hnew. apply Hnew.
    rewrite list_elem_of_In, filter_In in Hi. by apply list_elem_of_In, Hi.
Qed.
End claim_loop.

Lemma kept_pending now s w :
  kept (wait_verdict now s) w = true ↔ (wait_eval s w).1 = 0 ∧ now < w_deadline_us w.
Proof.
  unfold kept, wait_verdict. destruct (wait_eval s w) as [rc u]. cbn [fst].
  destruct (0 <? rc) eqn:H1; zify_bools; [split; [done|lia]|].
  destruct (rc <? 0) eqn:H2; zify_bools; [split; [done|lia]|].
  destruct (_ <=? now) eqn:H3; zify_bools; split; (done || lia).
Qed.

(** C37: a scan answers exactly the parked requests that are satisfied, have failed or
    are past their deadline, each once, with the reply of the state scanned; those left
    parked are unsatisfied and unexpired, and the list stays well formed. *)
Theorem waits_scan_spec now s a :
  waits_wf s →
  let '(s', a') := waits_scan now s a in
  waits (srv_wt s') = List.filter (kept (wait_verdict now s)) (waits (srv_wt s)) ∧
  a' = rev (answers (wait_verdict now s) (waits (srv_wt s))) ++ a ∧
  waits_wf s' ∧
  ∀ w, w ∈ waits (srv_wt s') → (wait_eval s' w).1 = 0 ∧ now < w_deadline_us w.
Proof.
  intros Hwf. unfold waits_scan.
  destruct (claim_loop_wf s (wait_verdict now s) (scan_one now) (scan_one_claims now s) a s) as (Hv & Hw & Ha & Hwf'); try done.
  destruct (foldl _ _ _) as [s' a']. cbn [fst snd] in *. split_and!; try done.
  intros w. rewrite (wait_eval_view s s') by done. rewrite Hw, list_elem_of_In, filter_In. intros [_ Hk]. by apply kept_pending.
Qed.

(** a dying client's parked requests, and only they, are answered, each once,
    with -EPIPE. *)
Theorem v3da_waits_client_gone_spec c s a :
  waits_wf s →
  let '(s', a') := v3da_waits_client_gone c s a in
  waits (srv_wt s') = List.filter (λ w, negb (w_client w =? c)) (waits (srv_wt s)) ∧
  a' = rev ((λ w, claimed w (- EPIPE) R_none) <$> List.filter (λ w, w_client w =? c) (waits (srv_wt s))) ++ a ∧
  waits_wf s'.
Proof.
  intros Hwf. unfold v3da_waits_client_gone.
  set (V := λ w, if w_client w =? c then Answer (- EPIPE) R_none else Keep).
  destruct (claim_loop_wf s V (λ st w, if w_client w =? c then wait_claim w (- EPIPE) R_none st else st)) with (a := a) (s := s)
    as (Hv & Hw & Ha & Hwf'); try done.
  { intros [s1 a1] w Hv. unfold V. destruct (w_client w =? c); [|done]. by apply (wait_claim_claims s w _ _ (s1, a1)). }
  destruct (foldl _ _ _) as [s' a']. cbn [fst snd] in *. rewrite Hw, Ha. split_and!; [| |done].
  - apply List.filter_ext. intros w. unfold kept, V. by destruct (w_client w =? c).
  - do 2 f_equal. generalize (waits (srv_wt s)) as l. clear. intros l.
    induction l as [|w l IH]; [done|]. rewrite answers_cons. unfold V at 1. simpl.
    destruct (w_client w =? c); simpl; by rewrite IH.
Qed.

(** ** Parking *)
Section park.
Context `{E : Env}.

(** The request as it is put on the list. *)
Definition asked (ci : Z) (kind : v3da_wait_kind) (rid : Z) (fences : list v3da_fence_t) (handles : list Z)
    (n : Z) (all for_submit : bool) (deadline : Z) (s : v3da_srv_t) : v3da_wait_t :=
  mkWait (next_wait (srv_wt s)) kind (c_id (srv_client s ci)) rid (rx_port (srv_wt s)) deadline
    (take (Z.to_nat n) fences) (take (Z.to_nat n) handles) all for_submit (mkResp 0 R_none).

(** a wait is parked only when it is neither satisfied nor failed and a timeout was
    given; it then heads the list with its deadline, capped, the list stays well formed
    and the event thread is woken.  Otherwise nothing is parked, and the caller gets the
    satisfied reply or the reason. *)
Theorem v3da_wait_park_spec ci kind rid fences handles n all for_submit timeout s :
  waits_wf s →
  let '(rc, u, s') := v3da_wait_park ci kind rid fences handles n all for_submit timeout s in
  let w d := asked ci kind rid fences handles n all for_submit d s in
  if rc =? 0 then
    n ≤ V3DA_SYNCOBJ_WAIT_MAX ∧ timeout ≠ 0 ∧
    (∃ now, waits (srv_wt s') = w (u64 (now + Z.min timeout V3DA_WAIT_MAX_MS * 1000)) :: waits (srv_wt s)) ∧
    (∀ d, (wait_eval s' (w d)).1 = 0) ∧ waits_wf s' ∧ kick_pending (srv_sched s') = true
  else
    srv_wt s' = srv_wt s ∧ srv_cl s' = srv_cl s ∧
    (0 < rc → rc = 1 ∧ ∀ d, (wait_eval s (w d)).2 = u ∧ 0 < (wait_eval s (w d)).1) ∧
    (rc = - ETIMEDOUT → timeout = 0 ∨ ∀ d, (wait_eval s (w d)).1 = - ETIMEDOUT).
Proof.
  intros Hwf. unfold v3da_wait_park.
  destruct (V3DA_SYNCOBJ_WAIT_MAX <? n) eqn:Hn; zify_bools; [cbn; split_and!; done|]. cbv zeta.
  destruct (env_malloc (cursor s)); cbn [negb]; [|cbn; split_and!; done].
  change (mkWait (next_wait (srv_wt (tick s))) kind (c_id (srv_client (tick s) ci)) rid (rx_port (srv_wt (tick s))) 0
    (take (Z.to_nat n) fences) (take (Z.to_nat n) handles) all for_submit (mkResp 0 R_none))
    with (asked ci kind rid fences handles n all for_submit 0 s).
  set (w := λ d, asked ci kind rid fences handles n all for_submit d s).
  assert (∀ s1 d, same_view s s1 → wait_eval s1 (w d) = wait_eval (tick s) (w 0)) as Hev.
  { intros s1 d Hv. rewrite (wait_eval_view s s1), (wait_eval_view s (tick s)) by done. done. }
  fold (w 0). destruct (wait_eval (tick s) (w 0)) as [rc u] eqn:He.
  destruct (Z.eqb_spec rc 0) as [->|Hrc]; cbn [negb].
  2:{ destruct (0 <? rc) eqn:Hp; zify_bools; cbv zeta iota beta.
      - change (1 =? 0) with false. cbv iota. split_and!; try done. intros _. split; [done|]. intros d.
        fold (w d). by rewrite (Hev s d).
      - destruct (Z.eqb_spec rc 0); [done|]. split_and!; try done; [lia|]. intros ->. right. intros d.
        fold (w d). by rewrite (Hev s d). }
  destruct (Z.eqb_spec timeout 0) as [->|Ht]; [cbn; split_and!; try done; by left|].
  unfold v3da_now_us. cbv zeta iota beta.
  match goal with |- context [(0 =? 0)] => change (0 =? 0) with true end. cbv iota.
  destruct Hwf as [Hnd Hnew Hc]. split_and!; [lia|done| | | |done].
  - exists (env_now (cursor (tick s))). reflexivity.
  - intros d. fold (w d). rewrite Hev; [done|]. split; [done|]. intros cj. unfold srv_client, set_client. simpl.
    rewrite fn_upd_case. case_decide; [by subst|done].
  - constructor; cbn.
    + apply NoDup_cons. split; [|done]. rewrite list_elem_of_fmap. intros (x & Hx & Hi).
      rewrite Forall_forall in Hnew. specialize (Hnew x Hi). lia.
    + apply Forall_cons. split; [simpl; lia|]. eapply Forall_impl; [exact Hnew|]. intros x Hx. cbn in *. lia.
    + rewrite Hc, u32_add. f_equal. lia.
Qed.
End park.

(** ** How long the event thread sleeps *)
Lemma foldl_min now l t :
  1 ≤ t → let t' := foldl (λ t w, Z.min t (wait_left now w)) t l in
  1 ≤ t' ≤ t ∧ ∀ w, w ∈ l → t' ≤ wait_left now w.
Proof.
  assert (∀ w, 1 ≤ wait_left now w) as Hw.
  { intros w. unfold wait_left. destruct (now <? w_deadline_us w) eqn:H; zify_bools; lia. }
  revert t. induction l as [|w l IH]; intros t Ht; cbv zeta; [split; [simpl; lia|by intros ? ?%not_elem_of_nil]|].
  simpl. specialize (Hw w). destruct (IH (Z.min t (wait_left now w)) ltac:(lia)) as [H1 H2]. split; [lia|].
  intros w' [->|Hi]%elem_of_cons; [lia|auto].
Qed.

(** the event thread never sleeps past a parked request's deadline or the end of
    the CPU queue's job, at most 1 ms while a flip waits, at most 10 ms with interrupts on,
    and always for between 1 us and 100 ms. *)
Theorem next_timeout_us_spec now (s : v3da_srv_t) :
  0 ≤ poll_us (srv_sched s) →
  let t := next_timeout_us now s in
  1 ≤ t ≤ 100000 ∧
  (∀ w, w ∈ waits (srv_wt s) → t ≤ Z.max 1 (w_deadline_us w - now)) ∧
  (∀ jid j, active s V3DA_Q_CPU = Some jid → job s jid = Some j → t ≤ Z.max 1 (j_done_at_us j - now)) ∧
  (sc_q (srv_scan s) ≠ [] → t ≤ 1000) ∧ (hw_irq_on (srv_hw s) = true → t ≤ 10000).
Proof.
  intros Hp. cbv zeta. unfold next_timeout_us.
  set (t0 := Z.min IDLE_TIMEOUT_US _).
  assert (1 ≤ t0 ≤ 100000 ∧ ∀ jid j, active s V3DA_Q_CPU = Some jid → job s jid = Some j → t0 ≤ Z.max 1 (j_done_at_us j - now)) as [H0 Hj].
  { unfold t0, v3da_jobs_next_deadline, IDLE_TIMEOUT_US. destruct (active s V3DA_Q_CPU) as [jid|]; cbn [mbind option_bind].
    - destruct (job s jid) as [j|] eqn:Hj.
      + destruct (now <? j_done_at_us j) eqn:Hd; zify_bools; (split; [lia|]); intros; simplify_eq; lia.
      + split; [lia|]. intros; congruence.
    - split; [lia|done]. }
  clearbody t0. destruct (foldl_min now (waits (srv_wt s)) t0 ltac:(lia)) as [H1 Hw]. cbv zeta in *.
  set (t1 := foldl _ t0 _) in *. clearbody t1.
  set (t2 := if _ && (1000 <? t1) then 1000 else t1).
  assert (1 ≤ t2 ≤ t1 ∧ (sc_q (srv_scan s) ≠ [] → t2 ≤ 1000)) as [H2 Hf].
  { unfold t2. case_bool_decide; cbn [negb andb]; [split; [lia|done]|]. destruct (1000 <? t1) eqn:He; zify_bools; split; lia. }
  clearbody t2. set (t3 := if hw_irq_on _ then _ else _).
  assert (0 ≤ t3 ≤ t2 ∧ (hw_irq_on (srv_hw s) = true → t3 ≤ 10000)) as [H3 Hi].
  { unfold t3, IRQ_BACKSTOP_US. destruct (hw_irq_on _); [split; lia|]. destruct (_ && _) eqn:Hb; [|split; [lia|done]].
    apply andb_true_iff in Hb as [_ Hb]. zify_bools. split; [lia|done]. }
  clearbody t3.
  assert (1 ≤ (if t3 =? 0 then 1 else u32 t3) ≤ Z.max 1 t3) as H4.
  { destruct (Z.eqb_spec t3 0); [lia|]. rewrite u32_small by lia. lia. }
  revert H4. generalize (if t3 =? 0 then 1 else u32 t3) as t. intros t H4. split_and!.
  - lia.
  - lia.
  - intros w Hin. specialize (Hw w Hin). unfold wait_left in Hw. destruct (now <? w_deadline_us w) eqn:Hd; zify_bools; lia.
  - intros jid j Ha Hjob. specialize (Hj jid j Ha Hjob). lia.
  - intros Hq. specialize (Hf Hq). lia.
  - intros Hq. specialize (Hi Hq). lia.
Qed.

(** ** At a concrete state: one client waiting for a fence not yet signalled *)
Definition run_parked : v3da_srv_t :=
  (v3da_wait_park 0 V3DA_WAIT_FENCE 77 [mkFence 0 0 1 5] [] 1 true false 50 srv0).2.

Lemma srv0_waits_wf : waits_wf srv0.
Proof. constructor; [apply NoDup_nil_2|constructor|reflexivity]. Qed.

Lemma v3da_wait_park_spec_witness :
  (v3da_wait_park 0 V3DA_WAIT_FENCE 77 [mkFence 0 0 1 5] [] 1 true false 50 srv0).1.1 = 0 ∧ waits_wf run_parked.
Proof.
  assert ((v3da_wait_park 0 V3DA_WAIT_FENCE 77 [mkFence 0 0 1 5] [] 1 true false 50 srv0).1.1 = 0) as Hrc by (vm_compute; reflexivity).
  split; [exact Hrc|].
  pose proof (v3da_wait_park_spec 0 V3DA_WAIT_FENCE 77 [mkFence 0 0 1 5] [] 1 true false 50 srv0 srv0_waits_wf) as H.
  unfold run_parked. destruct (v3da_wait_park _ _ _ _ _ _ _ _ _ _) as [[rc u] s']. cbn [fst] in Hrc. subst rc.
  destruct H as (_ & _ & _ & _ & Hwf & _). exact Hwf.
Defined.

Lemma run_parked_wf : waits_wf run_parked.
Proof.
  constructor; [|constructor; [vm_compute; reflexivity|constructor]|reflexivity].
  change (NoDup [0x100]). apply NoDup_singleton.
Qed.

Lemma waits_scan_spec_witness :
  length (waits (srv_wt run_parked)) = 1%nat ∧
  map w_resp (waits_scan 10000000 run_parked []).2 = [mkResp (- ETIMEDOUT) (R_fence_wait (mkFenceWaitResp 0 0 5))] ∧
  waits_wf (waits_scan 10000000 run_parked []).1.
Proof.
  split; [reflexivity|]. split; [vm_compute; reflexivity|].
  pose proof (waits_scan_spec 10000000 run_parked [] run_parked_wf) as H.
  destruct (waits_scan 10000000 run_parked []) as [s' a']. apply H.
Defined.

Lemma v3da_waits_client_gone_spec_witness :
  waits (srv_wt (v3da_waits_client_gone 1 run_parked []).1) = [] ∧
  waits_wf (v3da_waits_client_gone 1 run_parked []).1.
Proof.
  split; [vm_compute; reflexivity|].
  pose proof (v3da_waits_client_gone_spec 1 run_parked [] run_parked_wf) as H.
  destruct (v3da_waits_client_gone 1 run_parked []) as [s' a']. apply H.
Defined.

Lemma next_timeout_us_spec_witness : 1 ≤ next_timeout_us 1000 run_parked ≤ 100000.
Proof. apply (next_timeout_us_spec 1000 run_parked). vm_compute. discriminate. Defined.

(** ** Clients

    Clients coming and going (tools/gpu-lane/v3d-async/v3da_main.c): what a new owner of a
    slot finds, and when the server may exit. *)
(** ** Handing a slot to a new client *)
Lemma slot_assign_cl slot s :
  slot_gen (srv_cl (v3da_slot_assign slot s)) slot = slot_gen (srv_cl s) slot + 1 ∧
  clients (srv_cl (v3da_slot_assign slot s)) = clients (srv_cl s).
Proof.
  unfold v3da_slot_assign. simpl. rewrite fn_upd_eq. set (body := λ qu s, _).
  destruct (for_inv (λ s', slot_gen (srv_cl s') = slot_gen (srv_cl s) ∧ clients (srv_cl s') = clients (srv_cl s))
    0 V3DA_Q_COUNT body s) as [-> ->]; [done| |done]. intros i s' _ [<- <-]. done.
Qed.

Lemma slot_assign_error slot s sl :
  sl ≠ slot → fp_error_seq (srv_fp (v3da_slot_assign slot s)) sl = fp_error_seq (srv_fp s) sl.
Proof.
  intros Hne. unfold v3da_slot_assign. simpl. rewrite fn_upd_ne by done. set (body := λ qu s, _).
  apply (for_inv (λ s', fp_error_seq (srv_fp s') sl = fp_error_seq (srv_fp s) sl)); [done|]. by intros i s' _ <-.
Qed.

Lemma u32_succ_ne x : u32 (x + 1) ≠ u32 x.
Proof.
  unfold u32. intros H. apply (f_equal (λ y, (y - x) mod 2 ^ 32)) in H.
  rewrite !Zminus_mod_idemp_l in H. replace (x + 1 - x) with 1 in H by lia. by rewrite Z.sub_diag in H.
Qed.

(** What the fences of a slot read once it has a new owner. *)
Lemma slot_assign_fences slot s f :
  let s' := v3da_slot_assign slot s in
  (f_slot f ≠ slot → v3da_fence_signaled (srv_fp s') f = v3da_fence_signaled (srv_fp s) f) ∧
  (f_slot f = slot → f_gen f = u32 (slot_gen (srv_cl s) slot) → v3da_fence_signaled (srv_fp s') f = (true, false)) ∧
  (f_slot f = slot → fence_in_page f → 0 ≤ f_queue f → f_gen f = u32 (slot_gen (srv_cl s') slot) → 0 < f_seqno f →
     v3da_fence_signaled (srv_fp s') f = (false, false)).
Proof.
  cbv zeta. destruct (slot_assign_fp slot s) as (Hz & Hne & Hg & He). destruct (slot_assign_cl slot s) as [Hgen _]. split_and!.
  - intros Hs. unfold v3da_fence_signaled, slot_gen_ok.
    rewrite Hg, fn_upd_ne by done. rewrite Hne by done. by rewrite slot_assign_error.
  - intros <- Hf. unfold v3da_fence_signaled, slot_gen_ok. rewrite Hg, fn_upd_eq. destruct (_ || _); [done|].
    destruct (Z.eqb_spec (u32 (slot_gen (srv_cl s) (f_slot f) + 1)) (f_gen f)) as [Heq|]; [|done].
    exfalso. apply (u32_succ_ne (slot_gen (srv_cl s) (f_slot f))). congruence.
  - intros <- Hin Hq Hf Hs. rewrite signaled_eval; [|done|by rewrite Hg, fn_upd_eq, Hf, Hgen].
    rewrite Hz by (destruct Hin; lia). by apply Z.ltb_lt in Hs as ->.
Qed.

(** a new client gets a slot nobody uses and on which no job of the last owner still
    runs, or -ENFILE when every slot is used or busy.  It starts with no syncobj, no parked
    request and sequence numbers from the beginning; every fence of the last owner reads
    signalled without error, its own fences read unsignalled, and the fences of all other
    clients read as before. *)
Theorem client_open_spec pid s :
  let '(id, s') := client_open pid s in
  if id =? - ENFILE then
    s' = s ∧ ∀ i, 0 ≤ i < V3DA_MAX_CLIENTS → c_used (srv_client s i) = true ∨ v3da_slot_busy s i = true
  else
    1 ≤ id ≤ V3DA_MAX_CLIENTS ∧ client_get s id = None ∧ client_get s' id = Some (id - 1) ∧
    (∀ qu jid j, 0 ≤ qu < V3DA_Q_COUNT → active s qu = Some jid → job s jid = Some j → f_slot (j_fence j) ≠ id - 1) ∧
    srv_client s' (id - 1) = client0 <| c_used := true |> <| c_id := id |> <| c_pid := pid |> <| c_slot := id - 1 |> ∧
    (∀ i, i ≠ id - 1 → srv_client s' i = srv_client s i) ∧
    ∀ f, let before := v3da_fence_signaled (srv_fp s) f in let after := v3da_fence_signaled (srv_fp s') f in
      if f_slot f =? id - 1 then
        (f_gen f = u32 (slot_gen (srv_cl s) (id - 1)) → after = (true, false)) ∧
        (fence_in_page f → 0 ≤ f_queue f → f_gen f = u32 (slot_gen (srv_cl s') (id - 1)) → 0 < f_seqno f → after = (false, false))
      else after = before.
Proof.
  unfold client_open. destruct (find_first _ _ _) as [i|] eqn:Hf.
  2:{ change (- ENFILE =? - ENFILE) with true. cbv iota. split; [done|]. intros i Hi.
      pose proof (find_first_None _ _ _ Hf i Hi) as H. cbn beta in H.
      destruct (c_used (srv_client s i)); [by left|right]. by destruct (v3da_slot_busy s i). }
  apply find_first_Some in Hf as (Hi & Hfree & _). apply andb_true_iff in Hfree as [Hu Hb].
  apply negb_true_iff in Hu, Hb. cbv zeta.
  destruct (Z.eqb_spec (i + 1) (- ENFILE)) as [He|_]; [unfold ENFILE in He; lia|]. replace (i + 1 - 1) with i by lia.
  set (s1 := set_client i _ s). set (s2 := v3da_slot_assign i s1).
  destruct (slot_assign_cl i s1) as [_ Hc]. fold s2 in Hc.
  assert (∀ k, srv_client (s2 <| srv_cl ; nclients ::= λ n, u32 (n + 1) |>) k = srv_client s1 k) as Hcl.
  { intros k. change (clients (srv_cl s2) k = clients (srv_cl s1) k). by rewrite Hc. }
  assert (srv_client s1 i = client0 <| c_used := true |> <| c_id := i + 1 |> <| c_pid := pid |> <| c_slot := i |>) as Hnew.
  { unfold s1, srv_client, set_client. simpl. by rewrite fn_upd_eq. }
  assert (∀ s0, client_get s0 (i + 1) = if c_used (srv_client s0 i) then Some i else None) as Hget.
  { intros s0. unfold client_get. replace (i + 1 - 1) with i by lia.
    destruct ((i + 1 <? 1) || (V3DA_MAX_CLIENTS <? i + 1)) eqn:Hr; [|done]. apply orb_true_iff in Hr. zify_bools. lia. }
  split_and!; [lia|lia| | | | | |].
  - by rewrite Hget, Hu.
  - by rewrite Hget, Hcl, Hnew.
  - by apply slot_busy_false.
  - by rewrite Hcl, Hnew.
  - intros k Hk. rewrite Hcl. unfold s1, srv_client, set_client. simpl. by rewrite fn_upd_ne.
  - intros f. destruct (slot_assign_fences i s1 f) as (H1 & H2 & H3). fold s2 in H1, H2, H3.
    destruct (Z.eqb_spec (f_slot f) i) as [Hs|Hs]; [by split; [apply H2|apply H3]|by apply H1].
Qed.

(** ** Exit *)
Section env.
Context `{E : Env}.

(** the server refuses to exit, changing nothing, exactly while a job is queued or
    running; otherwise every parked request is answered, once, with -ENODEV, and the page
    and the thread are told. *)
Theorem dbg_quit_spec s a :
  waits_wf s →
  let '(rc, u, s', a') := dbg_quit s a in
  if u32 (v3da_jobs_inflight s) =? 0 then
    rc = 0 ∧ u = R_quit (nparked (srv_wt s)) 0 ∧ waits (srv_wt s') = [] ∧
    a' = rev ((λ w, claimed w (- ENODEV) R_none) <$> waits (srv_wt s)) ++ a ∧
    quit (srv_sched s') = true ∧ has (fp_flags (srv_fp s')) V3DA_FP_EXITED = true
  else rc = - EBUSY ∧ s' = s ∧ a' = a ∧ u = R_quit 0 (u32 (v3da_jobs_inflight s)).
Proof.
  intros Hwf. unfold dbg_quit.
  destruct (Z.eqb_spec (u32 (v3da_jobs_inflight s)) 0) as [Hz|Hz]; cbn [negb]; [|done]. rewrite Hz.
  unfold v3da_waits_all. cbv zeta.
  destruct (claim_loop_wf s (λ _, Answer (- ENODEV) R_none) (λ st w, wait_claim w (- ENODEV) R_none st)) with (a := a) (s := s)
    as (_ & Hw & Ha & _); try done.
  { intros [s1 a1] w Hv. by apply (wait_claim_claims s w _ _ (s1, a1)). }
  destruct (foldl _ _ _) as [s1 a1]. cbn [fst snd] in *. split_and!; try done.
  - change (waits (srv_wt (v3da_hw_shutdown s1)) = []).
    assert (waits (srv_wt (v3da_hw_shutdown s1)) = waits (srv_wt s1)) as ->.
    { unfold v3da_hw_shutdown, v3da_hw_irq_disable, emit. cbv zeta. simpl. by destruct (hw_irq_on _). }
    rewrite Hw. generalize (waits (srv_wt s)). by induction l.
  - change (has (Z.lor (fp_flags (srv_fp (v3da_hw_shutdown s1))) V3DA_FP_EXITED) V3DA_FP_EXITED = true).
    unfold has. rewrite Z.land_lor_distr_l, Z.land_diag. apply negb_true_iff, Z.eqb_neq. intros [_ H]%Z.lor_eq_0_iff. discriminate H.
Qed.
End env.

Lemma dbg_quit_spec_witness :
  (dbg_quit run_parked []).1.1.1 = 0 ∧ waits (srv_wt (dbg_quit run_parked []).1.2) = [].
Proof.
  pose proof (dbg_quit_spec run_parked [] run_parked_wf) as H.
  assert ((u32 (v3da_jobs_inflight run_parked) =? 0) = true) as Hz by (vm_compute; reflexivity).
  rewrite Hz in H. destruct (dbg_quit run_parked []) as [[[rc u] s'] a']. destruct H as (Hrc & _ & Hw & _). by split.
Defined.
