(* ===== verification/KickSpec.v ===== *)
(** What reaches the hardware: the interrupt handler loses no event and no overflow chunk,
    and a kick leaves the caches and the TLB in step with memory before it writes the
    start register. *)
From S2P Require Import Prelude Proto State Hw Concrete Fence Bo Ovf Waits Jobs Submit Events Main.
From S2P Require Import SchedKick.

(** ** Effects issued between two states *)
Definition issues (l : list effect) (s s' : v3da_srv_t) : Prop :=
  io_log (srv_io s') = io_log (srv_io s) ++ l.
Definition extends (s s' : v3da_srv_t) : Prop := ∃ l, issues l s s'.
Definition issued (e : effect) (s s' : v3da_srv_t) : Prop := ∃ l1 l2, issues (l1 ++ e :: l2) s s'.

#[export] Instance extends_pre : PreOrder extends.
Proof.
  split; [intros s; exists []; unfold issues; by rewrite app_nil_r|].
  intros a b c [l1 H1] [l2 H2]. exists (l1 ++ l2). unfold issues in *. by rewrite H2, H1, app_assoc.
Qed.

Lemma extends_of s s' : io_log (srv_io s') = io_log (srv_io s) → extends s s'.
Proof. intros He. exists []. unfold issues. by rewrite app_nil_r. Qed.
Lemma extends_emit e s : extends s (emit e s).
Proof. by exists [e]. Qed.
Lemma issued_emit e s : issued e s (emit e s).
Proof. by exists [], []. Qed.
Lemma issued_l e a b c : extends a b → issued e b c → issued e a c.
Proof. intros [l H1] (l1 & l2 & H2). exists (l ++ l1), l2. unfold issues in *. rewrite H2, H1. by rewrite <- !app_assoc. Qed.
Lemma issued_r e a b c : issued e a b → extends b c → issued e a c.
Proof. intros (l1 & l2 & H1) [l H2]. exists l1, (l2 ++ l). unfold issues in *. rewrite H2, H1. by rewrite <- !app_assoc. Qed.
Lemma extends_if (b : bool) s s1 s2 : extends s s1 → extends s s2 → extends s (if b then s1 else s2).
Proof. by destruct b. Qed.

Create HintDb io.
#[export] Hint Resolve extends_emit issued_emit extends_if : io.
#[export] Hint Extern 5 (extends ?s ?s) => reflexivity : io.

Section env.
Context `{E : Env}.

(** ** The interrupt handler *)
(** One interrupt: the status words it read, what MMU_CTL read if the MMU had faulted, what the
    handler returned. *)
Record irq := mkIrq { ir_core : Z; ir_hub : Z; ir_ctl : Z; ir_rc : Z }.
Definition ir_empty (x : irq) : bool := Z.lor (ir_core x) (ir_hub x) =? 0.
Definition ir_oom (x : irq) : bool := has (ir_core x) INT_OUTOMEM.
Definition ir_fault (x : irq) : bool := has (ir_hub x) HUB_INT_MMU_ANY.
Definition ir_csd (x : irq) : bool := has (ir_core x) INT_CSDDONE.

(** What one interrupt writes, in order: [va] is the chunk staged for the binner, if any. *)
Definition irq_writes (va size storm : Z) (x : irq) : list effect :=
  (if ir_core x =? 0 then [] else [E_core CTL_INT_CLR (ir_core x)]) ++
  (if ir_fault x then [E_hub MMU_CTL (ir_ctl x)] else []) ++
  (if ir_hub x =? 0 then [] else [E_hub HUB_INT_CLR (ir_hub x)]) ++
  (if ir_oom x && negb (va =? 0) then [E_core PTB_BPOA va; E_core PTB_BPOS size] else []) ++
  (if storm =? 0 then [] else [E_core CTL_INT_MSK_SET (2 ^ 32 - 1); E_hub HUB_INT_MSK_SET (2 ^ 32 - 1)]).
(** The storm guard's verdict on an interrupt, given the counts it left. *)
Definition irq_storm (x : irq) (spurious count snap : Z) : Z :=
  if ir_empty x && (IRQ_SPURIOUS_LIMIT <? spurious) then 1 else if IRQ_BURST_LIMIT <? u32 (count - snap) then 2 else 0.

(** What the next interrupt reads. *)
Definition next_irq (s : v3da_srv_t) : irq :=
  let core := env_core (cursor s) CTL_INT_STS in
  let stamp := has core INT_CSDDONE && (hw_csd_done_cnt (srv_hw s) =? 0) in
  let n := Z.succ (cursor s) in
  mkIrq core (env_hub n HUB_INT_STS) (env_hub (if stamp then Z.succ (Z.succ n) else Z.succ n) MMU_CTL) (v3da_irq_handler s).1.

(** The words of the server an interrupt never touches. *)
Definition unnamed (h : v3da_hw_t) : v3da_hw_t :=
  h <| hw_irq_count := 0 |> <| hw_irq_spurious := 0 |> <| hw_ev_core := 0 |> <| hw_ev_hub := 0 |> <| hw_ovf_stage_va := 0 |> <| hw_ovf_consumed := 0 |>
    <| hw_ovf_missed := 0 |> <| hw_mmu_ctl_seen := 0 |> <| hw_csd_done_cnt := 0 |> <| hw_storm := 0 |>.
(** Nothing but the hardware's words and its log. *)
Definition else_same (s s' : v3da_srv_t) : Prop := s' <| srv_hw := srv_hw s |> <| srv_io := srv_io s |> = s.
#[local] Instance else_same_pre : PreOrder else_same.
Proof.
  unfold else_same. split; [by intros []|]. intros [] [] [] H1 H2. cbn in *. injection H1; injection H2; intros; by subst.
Qed.
Ltac else_refl := unfold else_same; by match goal with |- context [srv_hw ?s] => destruct s end.

(** One interrupt, exactly. *)
Record irq_step (x : irq) (s s' : v3da_srv_t) : Prop := mkIrqStep {
  is_count : hw_irq_count (srv_hw s') = u32 (hw_irq_count (srv_hw s) + 1);
  is_spurious : hw_irq_spurious (srv_hw s') = if ir_empty x then u32 (hw_irq_spurious (srv_hw s) + 1) else hw_irq_spurious (srv_hw s);
  is_ev_core : hw_ev_core (srv_hw s') = Z.lor (hw_ev_core (srv_hw s)) (ir_core x);
  is_ev_hub : hw_ev_hub (srv_hw s') = Z.lor (hw_ev_hub (srv_hw s)) (ir_hub x);
  is_stage : hw_ovf_stage_va (srv_hw s') = if ir_oom x then 0 else hw_ovf_stage_va (srv_hw s);
  is_consumed : hw_ovf_consumed (srv_hw s') = if ir_oom x && negb (hw_ovf_stage_va (srv_hw s) =? 0) then hw_ovf_stage_va (srv_hw s) else hw_ovf_consumed (srv_hw s);
  is_missed : hw_ovf_missed (srv_hw s') = if ir_oom x && (hw_ovf_stage_va (srv_hw s) =? 0) then u32 (hw_ovf_missed (srv_hw s) + 1) else hw_ovf_missed (srv_hw s);
  is_seen : hw_mmu_ctl_seen (srv_hw s') = if ir_fault x then ir_ctl x else hw_mmu_ctl_seen (srv_hw s);
  is_csd : ir_csd x = false ∨ hw_csd_done_cnt (srv_hw s) ≠ 0 → hw_csd_done_cnt (srv_hw s') = hw_csd_done_cnt (srv_hw s);
  is_else : else_same s s' ∧ unnamed (srv_hw s') = unnamed (srv_hw s);
  is_storm : let v := irq_storm x (hw_irq_spurious (srv_hw s')) (hw_irq_count (srv_hw s')) (hw_irq_count_snap (srv_hw s)) in
    hw_storm (srv_hw s') = (if v =? 0 then hw_storm (srv_hw s) else v) ∧
    ir_rc x = (if (v =? 0) && ir_empty x then -1 else 1) ∧
    issues (irq_writes (hw_ovf_stage_va (srv_hw s)) (hw_ovf_stage_size (srv_hw s)) v x) s s' }.

(** The steps of the service, one at a time. *)
Lemma csd_done_stamp_step c s : let s' := csd_done_stamp c s in
  let stamp := has c INT_CSDDONE && (hw_csd_done_cnt (srv_hw s) =? 0) in
  srv_hw s' = srv_hw s <| hw_csd_done_cnt := if stamp then env_cnt (cursor s) else hw_csd_done_cnt (srv_hw s) |> ∧
  cursor s' = (if stamp then Z.succ (cursor s) else cursor s) ∧ issues [] s s' ∧ else_same s s'.
Proof.
  cbv zeta. unfold csd_done_stamp, issues. rewrite app_nil_r. destruct (_ && _); [split_and!; [done..|else_refl]|].
  split_and!; [by destruct s as [[]]|done..].
Qed.
Lemma mmu_ack_step h s : let s' := mmu_ack h s in let ctl := env_hub (cursor s) MMU_CTL in
  srv_hw s' = srv_hw s <| hw_mmu_ctl_seen := if has h HUB_INT_MMU_ANY then ctl else hw_mmu_ctl_seen (srv_hw s) |> ∧
  issues (if has h HUB_INT_MMU_ANY then [E_hub MMU_CTL ctl] else []) s s' ∧ else_same s s'.
Proof.
  cbv zeta. unfold mmu_ack, issues. destruct (has _ _); [split_and!; [done..|else_refl]|]. rewrite app_nil_r.
  split_and!; [by destruct s as [[]]|done..].
Qed.
Lemma outomem_step c s : let s' := outomem_service c s in let h := srv_hw s in let va := hw_ovf_stage_va h in
  srv_hw s' = h <| hw_ovf_stage_va := if has c INT_OUTOMEM then 0 else va |>
    <| hw_ovf_consumed := if has c INT_OUTOMEM && negb (va =? 0) then va else hw_ovf_consumed h |>
    <| hw_ovf_missed := if has c INT_OUTOMEM && (va =? 0) then u32 (hw_ovf_missed h + 1) else hw_ovf_missed h |> ∧
  issues (if has c INT_OUTOMEM && negb (va =? 0) then [E_core PTB_BPOA va; E_core PTB_BPOS (hw_ovf_stage_size h)] else []) s s' ∧ else_same s s'.
Proof.
  cbv zeta. unfold outomem_service, issues. cbv zeta. destruct (has _ _); [|rewrite app_nil_r; split_and!; [by destruct s as [[]]|done..]].
  destruct (hw_ovf_stage_va (srv_hw s) =? 0); cbn [negb andb]; split_and!; try else_refl; try (by destruct s as [[]]).
  - by rewrite app_nil_r.
  - cbn. by rewrite <- app_assoc.
Qed.
Lemma issues_trans l1 l2 a b c : issues l1 a b → issues l2 b c → issues (l1 ++ l2) a c.
Proof. unfold issues. intros H1 H2. by rewrite H2, H1, app_assoc. Qed.
Lemma has_0 b : has 0 b = false.
Proof. done. Qed.

(** The service as a whole: the words it leaves, given what it read. *)
Record serviced (x : irq) (h h' : v3da_hw_t) : Prop := mkServiced {
  sv_counts : (hw_irq_count h', hw_irq_spurious h', hw_irq_count_snap h', hw_storm h') = (hw_irq_count h, hw_irq_spurious h, hw_irq_count_snap h, hw_storm h);
  sv_core : hw_ev_core h' = Z.lor (hw_ev_core h) (ir_core x);
  sv_hub : hw_ev_hub h' = Z.lor (hw_ev_hub h) (ir_hub x);
  sv_stage : hw_ovf_stage_va h' = if ir_oom x then 0 else hw_ovf_stage_va h;
  sv_consumed : hw_ovf_consumed h' = if ir_oom x && negb (hw_ovf_stage_va h =? 0) then hw_ovf_stage_va h else hw_ovf_consumed h;
  sv_missed : hw_ovf_missed h' = if ir_oom x && (hw_ovf_stage_va h =? 0) then u32 (hw_ovf_missed h + 1) else hw_ovf_missed h;
  sv_seen : hw_mmu_ctl_seen h' = if ir_fault x then ir_ctl x else hw_mmu_ctl_seen h;
  sv_csd : ir_csd x = false ∨ hw_csd_done_cnt h ≠ 0 → hw_csd_done_cnt h' = hw_csd_done_cnt h;
  sv_else : unnamed h' = unnamed h }.
Lemma hw_service_step s : let '(core, hub, s') := hw_service s in let h := srv_hw s in let n := Z.succ (cursor s) in
  let stamp := has core INT_CSDDONE && (hw_csd_done_cnt h =? 0) in
  let x := mkIrq core hub (env_hub (if stamp then Z.succ (Z.succ n) else Z.succ n) MMU_CTL) 0 in
  core = env_core (cursor s) CTL_INT_STS ∧ hub = env_hub n HUB_INT_STS ∧ else_same s s' ∧
  issues (irq_writes (hw_ovf_stage_va h) (hw_ovf_stage_size h) 0 x) s s' ∧
  serviced x (srv_hw s) (srv_hw s').
Proof.
  unfold hw_service, rd_core, rd_hub. cbv zeta iota beta. change (cursor (tick s)) with (Z.succ (cursor s)).
  set (core := env_core _ _). set (hub := env_hub _ HUB_INT_STS). clearbody core hub. set (s0 := tick (tick s)).
  assert (srv_hw s0 = srv_hw s ∧ cursor s0 = Z.succ (Z.succ (cursor s)) ∧ issues [] s s0 ∧ else_same s s0) as (W0 & N0 & I0 & F0).
  { split_and!; [done..| |else_refl]. unfold issues. by rewrite app_nil_r. }
  clearbody s0. set (s1 := if negb (core =? 0) then _ else _). set (stamp := has core INT_CSDDONE && _).
  assert (srv_hw s1 = srv_hw s <| hw_csd_done_cnt := if stamp then env_cnt (cursor s0) else hw_csd_done_cnt (srv_hw s) |> ∧
    cursor s1 = (if stamp then Z.succ (cursor s0) else cursor s0) ∧ issues (if core =? 0 then [] else [E_core CTL_INT_CLR core]) s0 s1 ∧ else_same s0 s1) as (W1 & N1 & I1 & F1).
  { unfold s1, stamp. destruct (Z.eqb_spec core 0) as [->|Hc]; cbn [negb].
    - rewrite has_0. cbn [andb]. split_and!; [rewrite W0; by destruct (srv_hw s)|done| |done]. unfold issues. by rewrite app_nil_r.
    - destruct (csd_done_stamp_step core (emit (E_core CTL_INT_CLR core) s0)) as (H1 & H2 & H3 & H4).
      change (srv_hw (emit (E_core CTL_INT_CLR core) s0)) with (srv_hw s0) in *. change (cursor (emit (E_core CTL_INT_CLR core) s0)) with (cursor s0) in *.
      rewrite W0 in *. split_and!; [done..| |].
      + apply (issues_trans [_] [] _ (emit (E_core CTL_INT_CLR core) s0)); done.
      + etrans; [|exact H4]. else_refl. }
  assert (stamp = has core INT_CSDDONE && (hw_csd_done_cnt (srv_hw s) =? 0)) as Hstamp by done.
  clearbody s1 stamp. set (s2 := if negb (hub =? 0) then _ else s1). set (ctl := env_hub (cursor s1) MMU_CTL).
  assert (srv_hw s2 = srv_hw s1 <| hw_mmu_ctl_seen := if has hub HUB_INT_MMU_ANY then ctl else hw_mmu_ctl_seen (srv_hw s1) |> ∧
    issues ((if has hub HUB_INT_MMU_ANY then [E_hub MMU_CTL ctl] else []) ++ (if hub =? 0 then [] else [E_hub HUB_INT_CLR hub])) s1 s2 ∧ else_same s1 s2) as (W2 & I2 & F2).
  { unfold s2. destruct (Z.eqb_spec hub 0) as [->|Hh]; cbn [negb].
    - rewrite has_0. split_and!; [by destruct (srv_hw s1)| |done]. unfold issues. by rewrite app_nil_r.
    - destruct (mmu_ack_step hub s1) as (H1 & H2 & H3). split_and!; [exact H1| |].
      + apply (issues_trans _ [_] _ (mmu_ack hub s1)); done.
      + etrans; [exact H3|]. else_refl. }
  clearbody s2. destruct (outomem_step core s2) as (W3 & I3 & F3). set (s3 := outomem_service core s2) in *. clearbody s3.
  assert (cursor s1 = if stamp then Z.succ (Z.succ (Z.succ (cursor s))) else Z.succ (Z.succ (cursor s))) as Ec by (by destruct stamp; rewrite N1, N0).
  subst ctl. rewrite Ec in W2, I2. rewrite W2, W1 in W3. rewrite W1 in W2. rewrite W2 in I3. cbn in I3. split_and!; [done..| | |].
  - etrans; [exact F0|]. etrans; [exact F1|]. etrans; [exact F2|]. etrans; [exact F3|]. else_refl.
  - unfold irq_writes, ir_fault, ir_oom. cbn [ir_core ir_hub ir_ctl]. cbn [Z.eqb]. rewrite app_nil_r.
    pose proof (issues_trans _ _ _ _ _ I0 (issues_trans _ _ _ _ _ I1 (issues_trans _ _ _ _ _ I2 I3))) as H. cbn [app] in H. by rewrite <- app_assoc in H.
  - change (srv_hw (fold_events core hub s3)) with (srv_hw s3 <| hw_ev_core ::= λ e, Z.lor e core |> <| hw_ev_hub ::= λ e, Z.lor e hub |>). rewrite W3.
    set (x := mkIrq _ _ _ _). change (has hub HUB_INT_MMU_ANY) with (ir_fault x). change (has core INT_OUTOMEM) with (ir_oom x).
    assert (ir_csd x = false ∨ hw_csd_done_cnt (srv_hw s) ≠ 0 → stamp = false) as Hst.
    { rewrite Hstamp. unfold ir_csd. cbn [ir_core x]. intros [->|H%Z.eqb_neq]; [done|]. by rewrite H, andb_false_r. }
    change (env_hub _ MMU_CTL) with (ir_ctl x). assert (ir_core x = core ∧ ir_hub x = hub) as [Ex Ey] by done. clearbody x. revert Hst Ex Ey.
    generalize (env_cnt (cursor s0)). clear. destruct (srv_hw s). intros cnt Hst <- <-. constructor; cbn; try reflexivity. intros H. by rewrite (Hst H).
Qed.

Lemma irq_handler_step s : irq_step (next_irq s) s (v3da_irq_handler s).2.
Proof.
  unfold next_irq. cbv zeta. set (rc := (v3da_irq_handler s).1). assert (rc = (v3da_irq_handler s).1) as Erc by done. clearbody rc. revert Erc.
  unfold v3da_irq_handler. cbv zeta. set (s0 := s <| srv_hw ; hw_irq_count ::= λ n, u32 (n + 1) |>). pose proof (hw_service_step s0) as H. destruct (hw_service s0) as [[core hub] s1].
  cbv zeta in H. change (hw_csd_done_cnt (srv_hw s0)) with (hw_csd_done_cnt (srv_hw s)) in H. change (cursor s0) with (cursor s) in H.
  destruct H as (Ec & Eh & F1 & I1 & W1). rewrite <- Ec, <- Eh.
  set (ctl := env_hub _ MMU_CTL) in *. clearbody ctl. set (x := mkIrq core hub ctl rc).
  assert (serviced x (srv_hw s0) (srv_hw s1)) as W by (by destruct W1). clear W1.
  assert (else_same s s0) as F0 by else_refl.
  set (s2 := if Z.lor core hub =? 0 then _ else s1).
  assert (serviced x (srv_hw s0 <| hw_irq_spurious := if ir_empty x then u32 (hw_irq_spurious (srv_hw s) + 1) else hw_irq_spurious (srv_hw s) |>) (srv_hw s2) ∧
    issues [] s1 s2 ∧ else_same s1 s2) as (W2 & I2 & F2).
  { unfold s2, ir_empty, issues. cbn [ir_core ir_hub x]. rewrite app_nil_r. destruct W. injection sv_counts0 as H1 H2 H3 H4.
    change (hw_irq_spurious (srv_hw s0)) with (hw_irq_spurious (srv_hw s)) in *. destruct (Z.lor core hub =? 0).
    - split_and!; [|done|else_refl]. constructor; try done. cbn in *. by rewrite H1, H2, H3, H4.
    - split_and!; [|done..]. constructor; try done. cbn in *. by rewrite H1, H2, H3, H4. }
  clearbody s2. clear W. destruct W2 as [Wc W1 W3 W4 W5 W6 W7 W8 W9]. injection Wc as C1 C2 C3 C4. cbn in C1, C2, C3, C4.
  assert (issues (irq_writes (hw_ovf_stage_va (srv_hw s)) (hw_ovf_stage_size (srv_hw s)) 0 x) s s2) as I3.
  { pose proof (issues_trans _ _ _ _ _ I1 I2) as H. by rewrite app_nil_r in H. }
  assert (else_same s s2) as F3 by (do 2 (etrans; [eassumption|]); done).
  assert (∀ v s3, srv_hw s3 = srv_hw s2 <| hw_storm := if v =? 0 then hw_storm (srv_hw s) else v |> →
    issues (if v =? 0 then [] else [E_core CTL_INT_MSK_SET (2 ^ 32 - 1); E_hub HUB_INT_MSK_SET (2 ^ 32 - 1)]) s2 s3 → else_same s2 s3 →
    irq_storm x (hw_irq_spurious (srv_hw s2)) (hw_irq_count (srv_hw s2)) (hw_irq_count_snap (srv_hw s)) = v → rc = (if (v =? 0) && ir_empty x then -1 else 1) → irq_step x s s3) as Hall.
  { intros v s3 H1 H2 H3 H4 H5. constructor; rewrite ?H1; try done.
    - split; [by etrans|]. change (unnamed (srv_hw s2) = unnamed (srv_hw s)). by rewrite W9.
    - cbn. rewrite H4. split_and!; [done..|]. pose proof (issues_trans _ _ _ _ _ I3 H2) as H. unfold irq_writes in *. cbn [Z.eqb] in H. rewrite app_nil_r in H.
      by rewrite <- !app_assoc in H. }
  change (Z.lor core hub =? 0) with (ir_empty x). change (hw_irq_count (srv_hw s0)) with (u32 (hw_irq_count (srv_hw s) + 1)). rewrite <- C1, C3.
  change (hw_irq_count_snap (srv_hw s0)) with (hw_irq_count_snap (srv_hw s)).
  destruct (ir_empty x && (IRQ_SPURIOUS_LIMIT <? hw_irq_spurious (srv_hw s2))) eqn:Ee; [|destruct (IRQ_BURST_LIMIT <? _) eqn:Eb]; cbn [fst snd]; intros Hrc.
  - apply (Hall 1); [done|by unfold issues; cbn; rewrite <- app_assoc|by unfold else_same; destruct s2|by unfold irq_storm; rewrite Ee|done].
  - apply (Hall 2); [done|by unfold issues; cbn; rewrite <- app_assoc|by unfold else_same; destruct s2|by unfold irq_storm; rewrite Ee, Eb|done].
  - apply (Hall 0); [|by unfold issues; rewrite app_nil_r|done|by unfold irq_storm; rewrite Ee, Eb|by rewrite Hrc; destruct (ir_empty x)].
    cbn [Z.eqb]. rewrite <- C4. by destruct (srv_hw s2).
Qed.

(** ** A run of interrupts *)
Fixpoint irqs (n : nat) (s : v3da_srv_t) : list irq * v3da_srv_t :=
  match n with
  | O => ([], s)
  | S n => let '(l, s1) := irqs n s in (l ++ [next_irq s1], (v3da_irq_handler s1).2)
  end.
Definition count_irqs (f : irq → bool) (l : list irq) : Z := Z.of_nat (length (filter (λ x, f x = true) l)).
(** The verdict on the [i]-th interrupt of a run, the chunk staged when it came, and all it wrote. *)
Definition verdict (s : v3da_srv_t) (l : list irq) (i : nat) (x : irq) : Z :=
  irq_storm x (u32 (hw_irq_spurious (srv_hw s) + count_irqs ir_empty (take (S i) l))) (u32 (hw_irq_count (srv_hw s) + Z.of_nat (S i))) (hw_irq_count_snap (srv_hw s)).
Definition staged (s : v3da_srv_t) (l : list irq) : Z := if existsb ir_oom l then 0 else hw_ovf_stage_va (srv_hw s).
Definition run_writes (s : v3da_srv_t) (l : list irq) : list effect :=
  concat (imap (λ i x, irq_writes (staged s (take i l)) (hw_ovf_stage_size (srv_hw s)) (verdict s l i x) x) l).

Record irq_run (l : list irq) (s s' : v3da_srv_t) : Prop := mkIrqRun {
  (* every event read is latched, and nothing else *)
  ru_ev_core : hw_ev_core (srv_hw s') = foldl Z.lor (hw_ev_core (srv_hw s)) (ir_core <$> l);
  ru_ev_hub : hw_ev_hub (srv_hw s') = foldl Z.lor (hw_ev_hub (srv_hw s)) (ir_hub <$> l);
  (* the staged chunk goes to the first interrupt that finds the binner out of memory *)
  ru_stage : hw_ovf_stage_va (srv_hw s') = staged s l;
  ru_consumed : hw_ovf_consumed (srv_hw s') =
    if existsb ir_oom l && negb (hw_ovf_stage_va (srv_hw s) =? 0) then hw_ovf_stage_va (srv_hw s) else hw_ovf_consumed (srv_hw s);
  ru_missed : hw_ovf_missed (srv_hw s') =
    u32 (hw_ovf_missed (srv_hw s) + count_irqs ir_oom l - b2z (existsb ir_oom l && negb (hw_ovf_stage_va (srv_hw s) =? 0)));
  ru_seen : hw_mmu_ctl_seen (srv_hw s') = foldl (λ c x, if ir_fault x then ir_ctl x else c) (hw_mmu_ctl_seen (srv_hw s)) l;
  ru_csd : existsb ir_csd l = false ∨ hw_csd_done_cnt (srv_hw s) ≠ 0 → hw_csd_done_cnt (srv_hw s') = hw_csd_done_cnt (srv_hw s);
  (* the counts, and what the guard makes of them *)
  ru_count : hw_irq_count (srv_hw s') = u32 (hw_irq_count (srv_hw s) + Z.of_nat (length l));
  ru_spurious : hw_irq_spurious (srv_hw s') = u32 (hw_irq_spurious (srv_hw s) + count_irqs ir_empty l);
  ru_storm : hw_storm (srv_hw s') = foldl (λ v w, if w =? 0 then v else w) (hw_storm (srv_hw s)) (imap (verdict s l) l);
  ru_rc i x : l !! i = Some x → ir_rc x = if (verdict s l i x =? 0) && ir_empty x then -1 else 1;
  (* every write, in order, and nothing else of the server *)
  ru_writes : issues (run_writes s l) s s';
  ru_else : else_same s s' ∧ unnamed (srv_hw s') = unnamed (srv_hw s) }.

Lemma count_irqs_snoc f l x : count_irqs f (l ++ [x]) = count_irqs f l + b2z (f x).
Proof.
  unfold count_irqs. rewrite filter_app, length_app. rewrite filter_cons. destruct (f x) eqn:Ef.
  - rewrite decide_True by done. cbn. lia.
  - rewrite decide_False by done. cbn. lia.
Qed.
Lemma imap_snoc {A B} (f : nat → A → B) l x : imap f (l ++ [x]) = imap f l ++ [f (length l) x].
Proof. rewrite imap_app. cbn. by rewrite Nat.add_0_r. Qed.
Lemma verdict_snoc s l x i y : l !! i = Some y → verdict s (l ++ [x]) i y = verdict s l i y.
Proof. intros Hi%lookup_lt_Some. unfold verdict. by rewrite take_app_le by lia. Qed.
Lemma verdicts_snoc s l x : imap (verdict s (l ++ [x])) l = imap (verdict s l) l.
Proof. apply imap_ext. intros i y Hi. by apply verdict_snoc. Qed.
Lemma run_writes_snoc s l x : run_writes s (l ++ [x]) =
  run_writes s l ++ irq_writes (staged s l) (hw_ovf_stage_size (srv_hw s)) (verdict s (l ++ [x]) (length l) x) x.
Proof.
  unfold run_writes. rewrite imap_snoc, concat_app. cbn. rewrite app_nil_r, take_app_length. f_equal. f_equal. apply imap_ext. intros i y Hi.
  rewrite (verdict_snoc s l x i y Hi). apply lookup_lt_Some in Hi. by rewrite take_app_le by lia.
Qed.

Lemma irq_run_snoc l x s s1 s2 : irq_run l s s1 → irq_step x s1 s2 → irq_run (l ++ [x]) s s2.
Proof.
  intros [] []. cbv zeta in *.
  assert (unnamed (srv_hw s1) = unnamed (srv_hw s)) as Hu by apply ru_else0.
  assert (hw_irq_count_snap (srv_hw s1) = hw_irq_count_snap (srv_hw s)) as Esnap by apply (f_equal hw_irq_count_snap Hu).
  assert (hw_ovf_stage_size (srv_hw s1) = hw_ovf_stage_size (srv_hw s)) as Esize by apply (f_equal hw_ovf_stage_size Hu).
  assert (irq_storm x (hw_irq_spurious (srv_hw s2)) (hw_irq_count (srv_hw s2)) (hw_irq_count_snap (srv_hw s1)) = verdict s (l ++ [x]) (length l) x) as Ev.
  { unfold verdict. rewrite Esnap, is_count0, ru_count0, u32_add. rewrite take_ge by (rewrite length_app; cbn; lia). rewrite count_irqs_snoc.
    replace (hw_irq_count (srv_hw s) + Z.of_nat (length l) + 1) with (hw_irq_count (srv_hw s) + Z.of_nat (S (length l))) by lia.
    unfold irq_storm. destruct (ir_empty x) eqn:Ee; [|done]. rewrite is_spurious0, ru_spurious0, u32_add. cbn [b2z]. by rewrite Z.add_assoc. }
  rewrite Ev in is_storm0. destruct is_storm0 as (Hst & Hrc & Hw).
  assert (existsb ir_oom (l ++ [x]) = existsb ir_oom l || ir_oom x) as Eo by (rewrite existsb_app; cbn; by rewrite orb_false_r).
  constructor; rewrite ?fmap_app, ?foldl_app, ?imap_snoc, ?verdicts_snoc; cbn [fmap list_fmap foldl].
  - by rewrite is_ev_core0, ru_ev_core0.
  - by rewrite is_ev_hub0, ru_ev_hub0.
  - rewrite is_stage0, ru_stage0. unfold staged. rewrite Eo. by destruct (existsb ir_oom l), (ir_oom x).
  - rewrite is_consumed0, ru_stage0, ru_consumed0, Eo. unfold staged. destruct (existsb ir_oom l), (ir_oom x); cbn; try done.
  - rewrite is_missed0, ru_stage0, ru_missed0, Eo, count_irqs_snoc. unfold staged.
    destruct (existsb ir_oom l), (ir_oom x), (hw_ovf_stage_va (srv_hw s) =? 0); cbn; rewrite ?u32_add; f_equal; lia.
  - by rewrite is_seen0, ru_seen0.
  - rewrite existsb_app. cbn. rewrite orb_false_r. intros H. assert (existsb ir_csd l = false ∨ hw_csd_done_cnt (srv_hw s) ≠ 0) as H1 by (destruct H as [[? ?]%orb_false_iff|]; auto).
    rewrite is_csd0; [by apply ru_csd0|]. rewrite ru_csd0 by done. destruct H as [[? ?]%orb_false_iff|]; auto.
  - rewrite is_count0, ru_count0, u32_add, length_app. cbn. f_equal. lia.
  - rewrite is_spurious0, ru_spurious0, count_irqs_snoc. destruct (ir_empty x); cbn; [rewrite u32_add; f_equal; lia|f_equal; lia].
  - rewrite foldl_app. cbn [foldl]. by rewrite Hst, ru_storm0.
  - intros i y [Hi|[Hi Hy]]%lookup_app_Some.
    + rewrite (verdict_snoc s l x i y Hi). by apply ru_rc0.
    + apply list_lookup_singleton_Some in Hy as [Hi0 <-]. assert (i = length l) as -> by lia. exact Hrc.
  - rewrite run_writes_snoc. apply (issues_trans _ _ _ s1); [done|]. by rewrite <- ru_stage0, <- Esize.
  - destruct ru_else0, is_else0. split; [by etrans|congruence].
Qed.

(** The words the handler counts in are 32 bits wide. *)
Definition irq_words (h : v3da_hw_t) : Prop :=
  0 ≤ hw_irq_count h < 2 ^ 32 ∧ 0 ≤ hw_irq_spurious h < 2 ^ 32 ∧ 0 ≤ hw_ovf_missed h < 2 ^ 32.
Lemma irq_run_nil s : irq_words (srv_hw s) → irq_run [] s s.
Proof.
  intros (H1 & H2 & H3). constructor; unfold count_irqs; cbn; rewrite ?Z.add_0_r, ?Z.sub_0_r, ?u32_small by lia; try done.
  unfold issues. by rewrite app_nil_r.
Qed.
Lemma irqs_run n s : irq_words (srv_hw s) → length (irqs n s).1 = n ∧ irq_run (irqs n s).1 s (irqs n s).2.
Proof.
  intros Hs. induction n as [|n [IHl IHr]]; [split; [done|by apply irq_run_nil]|]. cbn [irqs].
  destruct (irqs n s) as [l s1]. cbn [fst snd] in *. split; [rewrite length_app; cbn; lia|]. apply (irq_run_snoc l _ s s1); [done|apply irq_handler_step].
Qed.

(** Who masks. *)
Lemma masks_in va size v x : E_core CTL_INT_MSK_SET (2 ^ 32 - 1) ∈ irq_writes va size v x ↔ v ≠ 0.
Proof.
  unfold irq_writes. rewrite !elem_of_app. split.
  - intros [H|[H|[H|[H|H]]]]; [..|by destruct (Z.eqb_spec v 0); [apply elem_of_nil in H|]];
      case_match; try (by apply elem_of_nil in H); rewrite ?elem_of_cons, ?elem_of_nil in H; destruct_or?; done.
  - intros Hv. do 4 right. rewrite (proj2 (Z.eqb_neq _ _) Hv). left.
Qed.
Lemma run_masks s l : E_core CTL_INT_MSK_SET (2 ^ 32 - 1) ∈ run_writes s l ↔ ∃ i x, l !! i = Some x ∧ verdict s l i x ≠ 0.
Proof.
  unfold run_writes. rewrite list_elem_of_In, in_concat. split.
  - intros (w & Hw & He). apply list_elem_of_In, elem_of_lookup_imap in Hw as (i & x & -> & Hi). apply list_elem_of_In, masks_in in He. eauto.
  - intros (i & x & Hi & Hv). eexists. split; [apply list_elem_of_In, elem_of_lookup_imap; by exists i, x|]. by apply list_elem_of_In, masks_in.
Qed.
Lemma count_irqs_take f l i : count_irqs f (take i l) ≤ count_irqs f l.
Proof. unfold count_irqs. rewrite <- (take_drop i l) at 2. rewrite filter_app, length_app. lia. Qed.
Lemma verdict_calm s l i x : irq_words (srv_hw s) → l !! i = Some x →
  hw_irq_spurious (srv_hw s) + count_irqs ir_empty l ≤ IRQ_SPURIOUS_LIMIT →
  u32 (hw_irq_count (srv_hw s) - hw_irq_count_snap (srv_hw s)) + Z.of_nat (length l) ≤ IRQ_BURST_LIMIT → verdict s l i x = 0.
Proof.
  intros (_ & H2 & _) Hi%lookup_lt_Some Hs Hb. unfold verdict, irq_storm. pose proof (count_irqs_take ir_empty l (S i)).
  assert (0 ≤ count_irqs ir_empty (take (S i) l)) by (unfold count_irqs; lia). unfold IRQ_SPURIOUS_LIMIT, IRQ_BURST_LIMIT in *.
  rewrite (u32_small (_ + count_irqs _ _)) by lia. rewrite (proj2 (Z.ltb_ge _ _)) by lia. rewrite andb_false_r.
  rewrite u32_sub. replace (hw_irq_count (srv_hw s) + Z.of_nat (S i) - hw_irq_count_snap (srv_hw s))
    with (hw_irq_count (srv_hw s) - hw_irq_count_snap (srv_hw s) + Z.of_nat (S i)) by lia. rewrite <- u32_add.
  pose proof (u32_range (hw_irq_count (srv_hw s) - hw_irq_count_snap (srv_hw s))). rewrite (u32_small (_ + _)) by lia. by rewrite (proj2 (Z.ltb_ge _ _)) by lia.
Qed.
Lemma verdict_burst s l i x : l !! i = Some x → let k := u32 (hw_irq_count (srv_hw s) - hw_irq_count_snap (srv_hw s)) + Z.of_nat (S i) in
  IRQ_BURST_LIMIT < k < 2 ^ 32 → verdict s l i x ≠ 0.
Proof.
  cbv zeta. intros _ Hk. unfold verdict, irq_storm. destruct (_ && _); [done|]. rewrite u32_sub.
  replace (hw_irq_count (srv_hw s) + Z.of_nat (S i) - hw_irq_count_snap (srv_hw s)) with (hw_irq_count (srv_hw s) - hw_irq_count_snap (srv_hw s) + Z.of_nat (S i)) by lia.
  rewrite <- u32_add. unfold IRQ_BURST_LIMIT in *. pose proof (u32_range (hw_irq_count (srv_hw s) - hw_irq_count_snap (srv_hw s))).
  rewrite (u32_small (_ + _)) by lia. by rewrite (proj2 (Z.ltb_lt _ _)) by lia.
Qed.

(** C36: any number of interrupts between two turns of the event thread, exactly.  Every event
    read is acknowledged once and latched for the thread; the staged overflow chunk goes to the
    first interrupt that finds the binner out of memory and the later ones count as missed; the
    thread is woken for every interrupt but the empty ones; the log has the writes of each
    interrupt in order and no other, and nothing else of the server changes.  All interrupts are
    masked, and the reason left for the thread, exactly at those the guard condemns: never while
    the empty ones stay within their limit and the burst within its own, and always past that. *)
Theorem irq_runs_exact n s :
  irq_words (srv_hw s) →
  let '(l, s') := irqs n s in let h := srv_hw s in
  let burst i := u32 (hw_irq_count h - hw_irq_count_snap h) + Z.of_nat i in
  length l = n ∧ irq_run l s s' ∧
  (E_core CTL_INT_MSK_SET (2 ^ 32 - 1) ∈ run_writes s l ↔ ∃ i x, l !! i = Some x ∧ verdict s l i x ≠ 0) ∧
  (hw_irq_spurious h + count_irqs ir_empty l ≤ IRQ_SPURIOUS_LIMIT → burst n ≤ IRQ_BURST_LIMIT → ∀ i x, l !! i = Some x → verdict s l i x = 0) ∧
  (∀ i x, l !! i = Some x → IRQ_BURST_LIMIT < burst (S i) < 2 ^ 32 → verdict s l i x ≠ 0).
Proof.
  intros Hs. destruct (irqs_run n s Hs) as [Hl Hr]. destruct (irqs n s) as [l s']. cbn [fst snd] in *. cbv zeta. split_and!; [done|done|apply run_masks| |].
  - intros H1 H2 i x Hi. apply verdict_calm; [done..|by rewrite Hl].
  - intros i x Hi. by apply verdict_burst.
Qed.

(** ** Kicks *)
(** A step of a kick: it only issues effects and leaves the generations alone. *)
Definition kstep (s s' : v3da_srv_t) : Prop :=
  extends s s' ∧ hw_pt_gen (srv_hw s') = hw_pt_gen (srv_hw s) ∧ hw_tlb_gen (srv_hw s') = hw_tlb_gen (srv_hw s).
#[local] Instance kstep_pre : PreOrder kstep.
Proof.
  split; [intros s; by split_and!|]. intros a b c (E1 & P1 & T1) (E2 & P2 & T2). split_and!; [by etrans|congruence|congruence].
Qed.

Lemma kstep_of s s' :
  io_log (srv_io s') = io_log (srv_io s) → hw_pt_gen (srv_hw s') = hw_pt_gen (srv_hw s) →
  hw_tlb_gen (srv_hw s') = hw_tlb_gen (srv_hw s) → kstep s s'.
Proof. intros. split_and!; [by apply extends_of|done|done]. Qed.
Lemma kstep_emit e s : kstep s (emit e s).
Proof. split_and!; [apply extends_emit|done|done]. Qed.
Lemma kstep_if (b : bool) s s1 s2 : kstep s s1 → kstep s s2 → kstep s (if b then s1 else s2).
Proof. by destruct b. Qed.
Lemma issued_k e a b c : kstep a b → issued e b c → issued e a c.
Proof. intros [H _]. by apply issued_l. Qed.
Lemma issued_kr e a b c : issued e a b → kstep b c → issued e a c.
Proof. intros ? [H _]. by eapply issued_r. Qed.

Lemma l2t_flush_kstep w s :
  kstep s (l2t_flush w s) ∧ issued (E_core CTL_L2TCACTL L2TCACTL_L2TFLS) s (l2t_flush w s).
Proof.
  unfold l2t_flush, v3da_hw_l2t_flush_wait. set (s1 := emit E_wait_l2t s).
  set (s2 := emit (E_core CTL_L2TCACTL L2TCACTL_L2TFLS) s1).
  assert (kstep s2 (if w then emit E_wait_l2t s2 else s2)) as H by (apply kstep_if; [apply kstep_emit|done]). split.
  - transitivity s1; [apply kstep_emit|]. transitivity s2; [apply kstep_emit|exact H].
  - apply (issued_k _ _ s1); [apply kstep_emit|]. apply (issued_kr _ _ s2); [apply issued_emit|exact H].
Qed.

Lemma csd_done_stamp_kstep c s : kstep s (csd_done_stamp c s).
Proof. destruct (csd_done_stamp_step c s) as (H & _ & He & _). split_and!; [by eexists|by rewrite H..]. Qed.
Lemma mmu_ack_kstep h s : kstep s (mmu_ack h s).
Proof. destruct (mmu_ack_step h s) as (H & He & _). split_and!; [by eexists|by rewrite H..]. Qed.

Lemma hw_drain_kstep s : kstep s (v3da_hw_drain s).
Proof.
  unfold v3da_hw_drain, rd_core, rd_hub. cbv zeta iota beta. set (core := Z.ldiff _ _). set (hub := env_hub _ _).
  set (s0 := tick (tick s)). transitivity s0; [by apply kstep_of|].
  set (s1 := if negb (core =? 0) then _ else s0). transitivity s1.
  - apply kstep_if; [|done]. set (s2 := emit _ s0). transitivity s2; [apply kstep_emit|].
    transitivity (csd_done_stamp core s2); [apply csd_done_stamp_kstep|by apply kstep_of].
  - clearbody s1. apply kstep_if; [|done]. transitivity (mmu_ack hub s1); [apply mmu_ack_kstep|].
    etrans; [apply kstep_emit|by apply kstep_of].
Qed.

Lemma drain_for_kick_kstep c h s : kstep s (drain_for_kick c h s).
Proof.
  unfold drain_for_kick. cbv zeta. transitivity (v3da_hw_drain s); [apply hw_drain_kstep|].
  set (s1 := v3da_hw_drain s). clearbody s1. set (s2 := if negb (c =? 0) then _ else s1).
  transitivity s2; [apply kstep_if; [by apply kstep_of|done]|]. apply kstep_if; [by apply kstep_of|done].
Qed.

Lemma mmu_flush_issues s :
  extends s (v3da_hw_mmu_flush s) ∧ issued (E_hub MMUC_CONTROL (Z.lor MMUC_FLUSH MMUC_ENABLE)) s (v3da_hw_mmu_flush s).
Proof.
  unfold v3da_hw_mmu_flush, rd_hub. cbv zeta iota beta. set (s1 := emit E_dsb s). set (s2 := emit _ s1).
  set (s3 := emit E_spin s2). set (s4 := emit _ (tick s3)).
  assert (extends s2 s4) as H4.
  { transitivity s3; [apply extends_emit|]. transitivity (tick s3); [by apply extends_of|apply extends_emit]. }
  assert (∀ s5, io_log (srv_io s5) = io_log (srv_io (emit E_spin s4)) → extends s2 s5) as H5.
  { intros s5 Hs. transitivity s4; [exact H4|]. transitivity (emit E_spin s4); [apply extends_emit|by apply extends_of]. }
  split.
  - transitivity s1; [apply extends_emit|]. transitivity s2; [apply extends_emit|by apply H5].
  - apply (issued_l _ _ s1); [apply extends_emit|]. apply (issued_r _ _ s2); [apply issued_emit|by apply H5].
Qed.

(** After the TLB step no translation older than the page table is left, and a change since
    the last flush has been flushed. *)
Definition tlb_synced (s s' : v3da_srv_t) : Prop :=
  hw_tlb_gen (srv_hw s') = hw_pt_gen (srv_hw s) ∧
  (hw_tlb_gen (srv_hw s) ≠ hw_pt_gen (srv_hw s) → issued (E_hub MMUC_CONTROL (Z.lor MMUC_FLUSH MMUC_ENABLE)) s s').

Lemma tlb_step_spec s :
  extends s (tlb_step s) ∧ hw_pt_gen (srv_hw (tlb_step s)) = hw_pt_gen (srv_hw s) ∧ tlb_synced s (tlb_step s).
Proof.
  unfold tlb_step, tlb_synced. destruct (mmu_flush_issues s) as [He Hi].
  destruct (Z.eqb_spec (hw_tlb_gen (srv_hw s)) (hw_pt_gen (srv_hw s))) as [Hg|Hg]; cbn [negb];
    [rewrite orb_false_r|rewrite orb_true_r; by split_and!].
  destruct (negb _); by split_and!.
Qed.

(** [s'] is a kick from [s] that ends with [start]: the TLB is in step with the page table,
    the slice caches are invalidated and the L2 is flushed before the start registers are
    written. *)
Definition kicked (start : list effect) (s s' : v3da_srv_t) : Prop :=
  ∃ s1, issues start s1 s' ∧ extends s s1 ∧ tlb_synced s s1 ∧
    hw_tlb_gen (srv_hw s') = hw_tlb_gen (srv_hw s1) ∧ hw_pt_gen (srv_hw s') = hw_pt_gen (srv_hw s) ∧
    issued (E_core CTL_SLCACTL SLCACTL_INVAL_ALL) s s1 ∧ issued (E_core CTL_L2TCACTL L2TCACTL_L2TFLS) s s1.

(** The part of a kick between the TLB step and the start registers. *)
Lemma kicked_intro start s s1 s2 s3 s' :
  kstep s s1 → s2 = tlb_step s1 → kstep s2 s3 → issues start s3 s' →
  hw_tlb_gen (srv_hw s') = hw_tlb_gen (srv_hw s3) → hw_pt_gen (srv_hw s') = hw_pt_gen (srv_hw s3) →
  (issued (E_core CTL_SLCACTL SLCACTL_INVAL_ALL) s s1 ∨ issued (E_core CTL_SLCACTL SLCACTL_INVAL_ALL) s2 s3) →
  issued (E_core CTL_L2TCACTL L2TCACTL_L2TFLS) s2 s3 → kicked start s s'.
Proof.
  intros (E1 & P1 & T1) -> (E3 & P3 & T3) Hs Ht Hp Hsl Hl. destruct (tlb_step_spec s1) as (E2 & P2 & T2 & I2).
  assert (extends s (tlb_step s1)) as E12 by (by etrans).
  exists s3. split_and!; [done|by etrans| |done|congruence| |by eapply issued_l].
  - split; [congruence|]. intros Hg. eapply issued_r; [|exact E3]. eapply issued_l; [exact E1|]. apply I2. congruence.
  - destruct Hsl as [H|H]; [|by eapply issued_l]. eapply issued_r; [exact H|]. by etrans.
Qed.

Lemma knob_same s s' k : srv_sched s' = srv_sched s → knob s' k = knob s k.
Proof. intros Hs. unfold knob. by rewrite Hs. Qed.

Lemma ovf_stage_kstep s : kstep s (ovf_stage s).
Proof.
  unfold ovf_stage. cbv zeta. destruct (_ || _); [done|]. destruct (chunk_alloc (srv_ovf s)) as [i o].
  apply kstep_if; by apply kstep_of.
Qed.

Lemma kick_bin_kicked d s : kicked [E_core CLE_CT0QBA (cl_bcl_start d); E_core CLE_CT0QEA (cl_bcl_end d)] s (kick_bin d s).
Proof.
  unfold kick_bin. cbv zeta. set (s0 := emit E_dsb s). set (s1 := if negb (knob s0 _) then _ else s0).
  assert (kstep s s1 ∧ (knob s V3DA_KNOB_LINUX_ORDER = false → issued (E_core CTL_SLCACTL SLCACTL_INVAL_ALL) s s1)) as [K1 I1].
  { unfold s1. change (knob s0 V3DA_KNOB_LINUX_ORDER) with (knob s V3DA_KNOB_LINUX_ORDER).
    destruct (knob s _); cbn [negb]; [split; [apply kstep_emit|done]|]. split.
    - transitivity s0; apply kstep_emit.
    - intros _. apply (issued_k _ _ s0); [apply kstep_emit|apply issued_emit]. }
  assert (srv_sched s1 = srv_sched s) as S1 by (unfold s1; by destruct (negb _)). clearbody s1.
  set (s2 := tlb_step s1). assert (srv_sched s2 = srv_sched s) as S2 by (unfold s2; by rewrite tlb_step_sched).
  destruct (l2t_flush_kstep (negb (knob s2 V3DA_KNOB_NO_L2T_WAIT_NEW)) s2) as [K3 I3]. set (s3 := l2t_flush _ s2) in *.
  assert (srv_sched s3 = srv_sched s) as S3 by (unfold s3; by rewrite l2t_flush_sched). clearbody s3.
  set (s4 := if negb (knob s3 _) then _ else s3).
  assert (kstep s3 s4) as K4 by (apply kstep_if; [apply l2t_flush_kstep|done]).
  assert (srv_sched s4 = srv_sched s) as S4 by (unfold s4; destruct (negb _); by rewrite ?l2t_flush_sched). clearbody s4.
  set (s5 := if knob s4 _ then _ else s4).
  assert (kstep s4 s5 ∧ (knob s V3DA_KNOB_LINUX_ORDER = true → issued (E_core CTL_SLCACTL SLCACTL_INVAL_ALL) s4 s5)) as [K5 I5].
  { unfold s5. rewrite (knob_same s s4) by done. destruct (knob s _); [|by split]. split; [apply kstep_emit|]. intros _. apply issued_emit. }
  clearbody s5. set (s6 := drain_for_kick _ _ s5). assert (kstep s5 s6) as K6 by apply drain_for_kick_kstep. clearbody s6.
  set (s7 := ovf_stage _). assert (kstep s6 s7) as K7.
  { unfold s7. etrans; [|apply ovf_stage_kstep]. etrans; [apply (kstep_emit (E_core PTB_BPOS 0))|by apply kstep_of]. }
  clearbody s7. set (s8 := if negb (cl_qma d =? 0) then _ else s7).
  assert (kstep s7 s8) as K8.
  { apply kstep_if; [|done]. etrans; [apply (kstep_emit (E_core CLE_CT0QMA (cl_qma d)))|apply kstep_emit]. }
  clearbody s8. set (s9 := if negb (cl_qts d =? 0) then _ else s8).
  assert (kstep s8 s9) as K9 by (apply kstep_if; [apply kstep_emit|done]). clearbody s9.
  assert (kstep s5 s9) as K59 by (do 3 (etrans; [eassumption|]); done).
  assert (kstep s3 s9) as K39 by (do 2 (etrans; [eassumption|]); done).
  apply (kicked_intro _ s s1 s2 s9); try done.
  - by etrans.
  - unfold issues. cbn. by rewrite <- app_assoc.
  - destruct (knob s V3DA_KNOB_LINUX_ORDER) eqn:Hk; [right|by left; apply I1].
    apply (issued_k _ _ s3); [done|]. apply (issued_k _ _ s4); [done|]. by apply (issued_kr _ _ s5); [apply I5|].
  - by apply (issued_kr _ _ s3).
Qed.

Lemma kick_tfu_kicked t s : kicked [E_hub TFU_ICFG (Z.lor (tfu_icfg t) TFU_ICFG_IOC)] s (kick_tfu t s).
Proof.
  unfold kick_tfu. cbv zeta. set (s1 := emit E_dsb s). set (s2 := tlb_step s1). set (s3 := slices_inval s2).
  set (s4 := l2t_flush true s3). destruct (l2t_flush_kstep true s3) as [K4 I4].
  set (s5 := drain_for_kick _ _ s4). assert (kstep s4 s5) as K5 by apply drain_for_kick_kstep. clearbody s5.
  set (s6 := emit (E_hub (TFU_COEF 0) _) _). assert (kstep s5 s6) as K6.
  { unfold s6. repeat (etrans; [|apply kstep_emit]). done. }
  clearbody s6. set (s7 := if has _ _ then _ else s6). assert (kstep s6 s7) as K7.
  { apply kstep_if; [|done]. repeat (etrans; [|apply kstep_emit]). done. }
  clearbody s7. assert (kstep s4 s7) as K47 by (do 2 (etrans; [eassumption|]); done).
  apply (kicked_intro _ s s1 s2 s7); try done.
  - apply kstep_emit.
  - etrans; [apply (kstep_emit (E_core CTL_SLCACTL SLCACTL_INVAL_ALL) s2)|]. by etrans.
  - right. apply (issued_kr _ _ s3); [apply issued_emit|]. by etrans.
  - apply (issued_k _ _ s3); [apply kstep_emit|]. by apply (issued_kr _ _ s4).
Qed.

Lemma for_emit_kstep lo hi f s : kstep s (for_ lo hi (λ i, emit (f i)) s).
Proof. apply (for_inv (kstep s)); [done|]. intros i s' _ H. etrans; [exact H|apply kstep_emit]. Qed.

Lemma kick_csd_kicked jid d s s' :
  kick_csd jid d s = (true, s') → kicked [E_core (CSD_QUEUED_CFG 0) (csd_cfg d 0)] s s'.
Proof.
  unfold kick_csd, v3da_cnt. cbv zeta iota beta. set (s0 := set_job jid _ (tick s)).
  set (s1 := slices_inval (emit E_dsb s0)). set (s2 := tlb_step s1). set (s3 := l2t_flush true s2).
  destruct (l2t_flush_kstep true s2) as [K3 I3]. destruct (env_csd_idle _); cbn [negb]; intros Hk; [|done].
  apply (f_equal snd) in Hk. cbn [snd] in Hk. rewrite <- Hk. clear Hk s'.
  set (s4 := emit E_spin (tick s3)). set (s5 := drain_for_kick INT_CSDDONE 0 s4).
  assert (kstep s3 s4) as K4 by (etrans; [|apply kstep_emit]; by apply kstep_of).
  assert (kstep s4 s5) as K5 by apply drain_for_kick_kstep. clearbody s5.
  set (s6 := s5 <| srv_hw ; hw_csd_done_cnt := 0 |>). set (s7 := for_ 1 7 (λ i, emit (E_core (CSD_QUEUED_CFG i) (csd_cfg d i))) s6).
  assert (kstep s5 s7) as K7 by (etrans; [|apply for_emit_kstep]; by apply kstep_of). clearbody s7.
  assert (kstep s3 s7) as K37 by (do 2 (etrans; [eassumption|]); done).
  assert (kstep s s0) as K0 by (by apply kstep_of).
  apply (kicked_intro _ s s1 s2 s7); try done.
  - etrans; [exact K0|]. etrans; [apply (kstep_emit E_dsb)|apply kstep_emit].
  - by etrans.
  - left. apply (issued_k _ _ (emit E_dsb s0)); [etrans; [exact K0|apply kstep_emit]|apply issued_emit].
  - by apply (issued_kr _ _ s3).
Qed.

(** C35: before a bin, TFU or compute job's start registers are written, no translation
    older than the page table is left in the TLB, the slice caches have been invalidated
    and an L2 flush issued; and the start registers are the last thing written. *)
Theorem kick_synced s :
  (∀ d, kicked [E_core CLE_CT0QBA (cl_bcl_start d); E_core CLE_CT0QEA (cl_bcl_end d)] s (kick_bin d s)) ∧
  (∀ t, kicked [E_hub TFU_ICFG (Z.lor (tfu_icfg t) TFU_ICFG_IOC)] s (kick_tfu t s)) ∧
  (∀ jid d, (kick_csd jid d s).1 = true →
     kicked [E_core (CSD_QUEUED_CFG 0) (csd_cfg d 0)] s (kick_csd jid d s).2).
Proof.
  split_and!; [intros; apply kick_bin_kicked|intros; apply kick_tfu_kicked|].
  intros jid d Hok. destruct (kick_csd jid d s) as [ok s'] eqn:Hk. simpl in Hok. subst ok. by apply (kick_csd_kicked jid).
Qed.
End env.

Definition csd_one : v3da_csd_desc_t := mkCsd (λ i, i) (λ _, 0).

Lemma kick_synced_witness :
  (kick_csd 1 csd_one srv0).1 = true ∧ kicked [E_core (CSD_QUEUED_CFG 0) (csd_cfg csd_one 0)] srv0 (kick_csd 1 csd_one srv0).2.
Proof.
  assert ((kick_csd 1 csd_one srv0).1 = true) as H by (vm_compute; reflexivity). split; [exact H|].
  apply kick_synced. exact H.
Defined.

(** Three interrupts: the binner out of memory, nothing, the binner out of memory again. *)
Definition env_oom : Env := {|
  env_now := env_now; env_cnt := env_cnt; env_core n _ := if n =? 2 then 0 else INT_OUTOMEM; env_hub _ _ := 0; env_csd_idle := env_csd_idle;
  env_va2pa := env_va2pa; env_mmap := env_mmap; env_malloc := env_malloc; env_export := env_export; env_vcprop := env_vcprop;
  env_mem := env_mem; env_reset := env_reset; env_interrupt := env_interrupt |}.
Definition srv_staged : v3da_srv_t := srv0 <| srv_hw ; hw_ovf_stage_va := 0x40000 |> <| srv_hw ; hw_ovf_stage_size := 0x10000 |>.

Lemma irq_runs_exact_witness :
  irq_words (srv_hw srv_staged) ∧ let '(l, s') := @irqs env_oom 3 srv_staged in
  ir_rc <$> l = [1; -1; 1] ∧ hw_ovf_consumed (srv_hw s') = 0x40000 ∧ hw_ovf_missed (srv_hw s') = 1 ∧ hw_ovf_stage_va (srv_hw s') = 0.
Proof.
  assert (irq_words (srv_hw srv_staged)) as H by (vm_compute; split_and!; done). split; [exact H|].
  pose proof (@irq_runs_exact env_oom 3 srv_staged H) as Hr.
  assert (((λ x, (ir_oom x, ir_rc x)) <$> (@irqs env_oom 3 srv_staged).1) = [(true, 1); (false, -1); (true, 1)]) as Hl by (vm_compute; reflexivity).
  destruct (@irqs env_oom 3 srv_staged) as [l s']. cbn [fst] in Hl. destruct Hr as (_ & [_ _ Hst Hc Hm _ _ _ _ _ _ _ _] & _).
  destruct l as [|x [|y [|z [|]]]]; try done. cbn in Hl. injection Hl as O1 R1 O2 R2 O3 R3.
  unfold staged in Hst. cbn [existsb] in *. unfold count_irqs in Hm. cbn in Hm. rewrite O1, O2, O3 in *. cbn in *. by rewrite R1, R2, R3.
Defined.
