(* ===== verification/Findings.v ===== *)
(** Runs that show where the code and its comments part: a render-only submit that starts
    without the TLB flush, a failed job reaped out of order, and the same reaping letting a
    buffer out of quarantine under a running job. *)
From S2P Require Import Prelude Proto State Hw Concrete Fence Bo Ovf Waits Jobs Submit Present Events.

(** ** A render-only submit after a mapping change *)
Definition cl_render_only_hdr : v3da_submit_t := mkSubmit 32 0 0 0.
(** bcl_start = bcl_end = 0: no bin job. *)
Definition cl_render_only_words (i : Z) : Z := if (i =? 2) then 0x2000 else if i =? 3 then 0x3000 else 0.

Definition run_new_bo : v3da_srv_t := (v3da_bo_create 1 8192 0 srv0).2.
Definition run_render_only : v3da_srv_t :=
  (v3da_submit 0 V3DA_OP_SUBMIT_CL cl_render_only_hdr (Some cl_render_only_words) 32 run_new_bo).2.

(** ** A failed job reaped ahead of a running one *)
(** A clock that advances one second per read. *)
Definition env_slow : Env := {|
  env_now n := 1000000 * n; env_cnt := @env_cnt env0; env_core := @env_core env0; env_hub := @env_hub env0;
  env_csd_idle := @env_csd_idle env0; env_va2pa := @env_va2pa env0; env_mmap := @env_mmap env0;
  env_malloc := @env_malloc env0; env_export := @env_export env0; env_vcprop := @env_vcprop env0;
  env_mem := @env_mem env0; env_reset := @env_reset env0; env_interrupt := @env_interrupt env0 |}.

Section slow.
#[local] Existing Instance env_slow.

Definition cl_gated_hdr : v3da_submit_t := mkSubmit 32 0 1 0.
Definition cl_gated_words (i : Z) : Z := if i =? 8 then 1 else cl_render_only_words i.
Definition cl_full_words (i : Z) : Z := i * 4096.

(** A CPU job; a syncobj that holds its fence; a render-only submit A gated on it; a
    submit B with a bin job. *)
Definition reap_1 : v3da_srv_t := (v3da_submit_nop 0 500000 srv0).2.
Definition reap_2 : v3da_srv_t := (v3da_syncobj_import 0 1 (mkFence 0 V3DA_Q_CPU 1 2) (v3da_syncobj_create 0 0 reap_1).2).2.
Definition reap_3 : v3da_srv_t :=
  (v3da_submit 0 V3DA_OP_SUBMIT_CL cl_gated_hdr (Some cl_gated_words) 40 (reap_2 <| srv_sched ; mode := V3DA_MODE_PIPELINE |>)).2.
Definition reap_4 : v3da_srv_t :=
  (v3da_submit 0 V3DA_OP_SUBMIT_CL cl_render_only_hdr (Some cl_full_words) 32 reap_3).2.
(** B's bin job hangs and is wedged while the CPU job ends: A starts, B's render heads the
    queue with a failed dependency; the next scheduling round; A's completion event. *)
Definition reap_5 : v3da_srv_t := (event_body reap_4).1.
Definition reap_6 : v3da_srv_t := v3da_sched_run reap_5.
Definition reap_7 : v3da_srv_t := v3da_jobs_events INT_FRDONE 0 0 reap_6.

(** ** A buffer closed between A's start and the reaping *)
Definition quar_1 : v3da_srv_t := (v3da_bo_close 1 8193 (v3da_bo_create 1 8192 0 reap_5).2).2.
(** A format conversion is submitted: the scheduling round reaps B's render job and starts
    the conversion, which flushes the TLB. *)
Definition quar_2 : v3da_srv_t := (v3da_submit 0 V3DA_OP_SUBMIT_TFU (mkSubmit 44 0 0 0) (Some (λ _, 0)) 44 quar_1).2.
Definition quar_3 : v3da_srv_t := v3da_bo_quarantine_poll quar_2.
End slow.

Definition render_fence (n : Z) : v3da_fence_t := mkFence 0 V3DA_Q_RENDER 1 n.

(** A render-only submit right after a buffer was mapped starts its render job,
    with the default knobs, while the TLB is older than the page table: the render kick has
    no TLB step, although every job is said to have one. *)
Theorem render_only_no_tlb_step :
  knobs (srv_sched run_new_bo) = 0 ∧ hw_pt (srv_hw run_new_bo) (0x100000 / PAGE_SIZE) ≠ 0 ∧
  active run_render_only V3DA_Q_RENDER = Some 1 ∧
  hw_tlb_gen (srv_hw run_render_only) < hw_pt_gen (srv_hw run_render_only).
Proof. split_and!; vm_compute; congruence. Qed.

(** A job whose dependency failed is completed, though an earlier job of the
    same client is still running on that queue: the running job's fence reads signalled
    before it is done, and when it is done the reaped job's fence reads unsignalled again. *)
Theorem reap_overtakes_running :
  active reap_6 V3DA_Q_RENDER = Some 2 ∧ j_fence <$> job reap_6 2 = Some (render_fence 2) ∧
  job reap_6 4 = None ∧
  signaled reap_6 (render_fence 2) = true ∧ signaled reap_6 (render_fence 3) = true ∧
  signaled reap_7 (render_fence 2) = true ∧ signaled reap_7 (render_fence 3) = false.
Proof. split_and!; vm_compute; reflexivity. Qed.

(** A buffer closed while a render job runs is quarantined until that job is done, and
    a poll keeps it; but a failed job reaped behind the running one counts as a completion,
    so after the next TLB flush the buffer is released, its pages pooled and its addresses
    free for reuse, while the render job that was running when it was closed still runs. *)
Theorem reap_passes_quarantine :
  active quar_1 V3DA_Q_RENDER = Some 2 ∧ bo_state (srv_bos quar_1 0) = V3DA_BO_QUARANTINE ∧
  bo_state (srv_bos (v3da_bo_quarantine_poll quar_1) 0) = V3DA_BO_QUARANTINE ∧
  active quar_3 V3DA_Q_RENDER = Some 2 ∧ bo_state (srv_bos quar_3 0) = V3DA_BO_FREE ∧
  map po_pages (pool (srv_bo quar_3)) = [2] ∧ j_t_kick_us <$> job quar_3 2 = j_t_kick_us <$> job quar_1 2.
Proof. split_and!; vm_compute; reflexivity. Qed.
