(* ===== verification/Kept.v ===== *)
(** A predicate kept by the few operations that move jobs, buffers and chunks is kept by
    everything built from them: the scheduler's rounds, the event handlers, the watchdog
    and the event thread.  [Kept] is what a predicate has to show. *)
From S2P Require Import Prelude Proto State Csdprof Lowmem Hw Fence Bo BoInv BoSteps BoSpec.
From S2P Require Import Ovf Waits Jobs Present Events SchedInv SchedKick SchedRun SchedReach SchedSpec.

(** ** What a step that moves nothing leaves alone *)
Definition jview (j : v3da_job_t) :=
  (j_queue j, f_slot (j_fence j), j_bos j, j_ovf_head j, j_t_kick_us j, j_render j, j_bin j).
Definition hw_view (h : v3da_hw_t) :=
  (hw_pt h, hw_pt_entries h, hw_next_gpuva h, hw_holes h,
   (hw_ovf_stage_va h, hw_ovf_stage_size h, hw_ovf_consumed h, hw_ovf_missed h)).
Definition ovf_view (o : v3da_ovf_t) :=
  (ov_gpuva o, ov_chunk_bytes o, ov_nchunks o, ov_free_head o, ov_nfree o, ov_staged o, ov_next o).
Definition fp_view (p : v3da_fence_page_t) := (fp_hw_submitted p, fp_hw_completed p, fp_gen p).
Definition cview (c : v3da_client_t) := (c_used c, c_id c, c_slot c, c_nparked c).

(** The requests answered so far, by their identifiers. *)
Definition reply_of (e : effect) : option Z := match e with E_respond _ rid _ => Some rid | _ => None end.
Definition replies (s : v3da_srv_t) : list Z := omap reply_of (io_log (srv_io s)).
Lemma replies_log s l e : reply_of e = None → io_log (srv_io s) = l ++ [e] → replies s = omap reply_of l.
Proof. intros He Hl. unfold replies. rewrite Hl, omap_app. simpl. by rewrite He, app_nil_r. Qed.

Record still (s s' : v3da_srv_t) : Prop := mkStill {
  st_bo : srv_bo s' = srv_bo s;
  st_hw : hw_view (srv_hw s') = hw_view (srv_hw s);
  st_ovf : ovf_view (srv_ovf s') = ovf_view (srv_ovf s);
  st_jobs : ∀ jid, jview <$> job s' jid = jview <$> job s jid;
  st_active : ∀ qu, active s' qu = active s qu;
  st_fp : fp_view (srv_fp s') = fp_view (srv_fp s);
  st_wt : srv_wt s' = srv_wt s;
  st_cl : ∀ i, cview (srv_client s' i) = cview (srv_client s i);
  st_gen : slot_gen (srv_cl s') = slot_gen (srv_cl s);
  st_said : replies s' = replies s }.

#[export] Instance still_pre : PreOrder still.
Proof.
  split; [done|]. intros a b c [] []. constructor; intros; etrans; eauto.
Qed.

Lemma still_if (b : bool) s s1 s2 : still s s1 → still s s2 → still s (if b then s1 else s2).
Proof. by destruct b. Qed.

Lemma still_set_job jid f s : (∀ j, jview (f j) = jview j) → still s (set_job jid f s).
Proof.
  intros Hf. constructor; try done. intros jid'. unfold job, set_job. simpl.
  destruct (decide (jid = jid')) as [->|Hne].
  - rewrite lookup_alter_eq. destruct (jobs (srv_sched s) !! jid'); simpl; [|done]. by rewrite Hf.
  - by rewrite lookup_alter_ne.
Qed.

Lemma still_set_q qu f s : (∀ q, q_active (f q) = q_active q) → still s (set_q qu f s).
Proof.
  intros Hf. constructor; try done. intros qu'. unfold active, srv_q, set_q. simpl.
  rewrite fn_upd_case. case_decide; [subst; apply Hf|done].
Qed.

Lemma still_set_client i f s : (∀ c, cview (f c) = cview c) → still s (set_client i f s).
Proof.
  intros Hf. constructor; try done. intros k. unfold srv_client, set_client. simpl.
  rewrite fn_upd_case. case_decide; [subst; apply Hf|done].
Qed.

Lemma still_foldl {A} (f : v3da_srv_t → A → v3da_srv_t) l s : (∀ s x, still s (f s x)) → still s (foldl f s l).
Proof. intros Hf. revert s. induction l as [|x l IH]; intros s; [done|]. simpl. etrans; [apply Hf|apply IH]. Qed.

Lemma still_for lo hi f s : (∀ i s, still s (f i s)) → still s (for_ lo hi f s).
Proof. intros Hf. apply (for_inv (still s)); [done|]. intros i s' _ H. etrans; [exact H|apply Hf]. Qed.

(** Definitional frames. *)
Ltac said :=
  unfold replies;
  repeat lazymatch goal with
  | |- omap ?f (?l ++ [?e]) = _ => rewrite (omap_app f l [e]); change (omap f [e]) with (@nil Z); rewrite app_nil_r
  | |- omap ?f ?l = _ => let l' := eval hnf in l in progress change l with l'
  end; reflexivity.
Ltac still_refl := constructor; intros; first [reflexivity | said].

Section env.
Context `{E : Env}.

(** ** The hardware steps *)
Lemma still_csd_done_stamp c s : still s (csd_done_stamp c s).
Proof. unfold csd_done_stamp. case_match; [still_refl|done]. Qed.
Lemma still_mmu_ack h s : still s (mmu_ack h s).
Proof. unfold mmu_ack. case_match; [still_refl|done]. Qed.
Lemma still_hw_drain s : still s (v3da_hw_drain s).
Proof.
  unfold v3da_hw_drain, rd_core, rd_hub. cbv zeta iota beta. set (core := Z.ldiff _ _). set (hub := env_hub _ _).
  set (s0 := tick (tick s)). transitivity s0; [still_refl|].
  set (s1 := if negb (core =? 0) then _ else s0). transitivity s1.
  - apply still_if; [|done]. transitivity (csd_done_stamp core (emit (E_core CTL_INT_CLR core) s0)); [|still_refl].
    transitivity (emit (E_core CTL_INT_CLR core) s0); [still_refl|apply still_csd_done_stamp].
  - clearbody s1. apply still_if; [|done]. transitivity (mmu_ack hub s1); [apply still_mmu_ack|still_refl].
Qed.
Lemma still_drain_for_kick c h s : still s (drain_for_kick c h s).
Proof.
  unfold drain_for_kick. cbv zeta. transitivity (v3da_hw_drain s); [apply still_hw_drain|].
  set (s1 := v3da_hw_drain s). clearbody s1. set (s2 := if negb (c =? 0) then _ else s1).
  transitivity s2; apply still_if; (done || still_refl).
Qed.
Lemma still_tlb_step s : still s (tlb_step s).
Proof. unfold tlb_step. apply still_if; [still_refl|done]. Qed.
Lemma still_l2t_flush w s : still s (l2t_flush w s).
Proof. unfold l2t_flush. apply still_if; still_refl. Qed.
Lemma still_progress_sample qu s : still s (progress_sample qu s).2.
Proof. unfold progress_sample, rd_core, rd_hub. repeat (case_match; [still_refl|]). still_refl. Qed.
Lemma still_job_sample jid qu s : still s (job_sample jid qu s).
Proof.
  unfold job_sample. case_match; [|done]. pose proof (still_progress_sample qu s) as Hp.
  destruct (progress_sample qu s) as [[ca ra] s']. etrans; [exact Hp|]. by apply still_set_job.
Qed.

Lemma still_kick_render d s : still s (kick_render d s).
Proof.
  unfold kick_render. cbv zeta. set (s1 := if negb _ then _ else s).
  transitivity s1; [apply still_if; [apply still_l2t_flush|done]|].
  transitivity (slices_inval s1); [still_refl|]. transitivity (drain_for_kick INT_FRDONE 0 (slices_inval s1)); [|still_refl].
  apply still_drain_for_kick.
Qed.
Lemma still_kick_tfu t s : still s (kick_tfu t s).
Proof.
  unfold kick_tfu. cbv zeta. set (s1 := l2t_flush true _). set (s2 := drain_for_kick _ _ s1).
  transitivity s2.
  { transitivity s1; [|apply still_drain_for_kick].
    transitivity (slices_inval (tlb_step (emit E_dsb s))); [|apply still_l2t_flush].
    transitivity (tlb_step (emit E_dsb s)); [|still_refl]. transitivity (emit E_dsb s); [still_refl|apply still_tlb_step]. }
  clearbody s2. set (s3 := if has _ _ then _ else _). transitivity s3; [apply still_if; still_refl|still_refl].
Qed.
Lemma still_kick_csd jid d s : still s (kick_csd jid d s).2.
Proof.
  unfold kick_csd, v3da_cnt. cbv zeta iota beta. set (s0 := set_job jid _ (tick s)).
  transitivity s0; [transitivity (tick s); [still_refl|by apply still_set_job]|]. clearbody s0.
  set (s1 := l2t_flush true _). transitivity s1.
  { transitivity (tlb_step (slices_inval (emit E_dsb s0))); [|apply still_l2t_flush].
    transitivity (slices_inval (emit E_dsb s0)); [still_refl|apply still_tlb_step]. }
  clearbody s1. destruct (negb _); [still_refl|]. cbn [snd]. set (s2 := drain_for_kick _ _ _).
  transitivity s2; [transitivity (emit E_spin (tick s1)); [still_refl|apply still_drain_for_kick]|]. clearbody s2.
  set (s3 := for_ 1 7 _ _). transitivity s3.
  - transitivity (s2 <| srv_hw ; hw_csd_done_cnt := 0 |>); [still_refl|]. apply still_for. intros; still_refl.
  - clearbody s3. etrans; [|by apply still_set_job]. still_refl.
Qed.

Lemma still_acct now s : still s (acct now s).
Proof. still_refl. Qed.
Lemma still_stat_print now s : still s (stat_print now s).
Proof. unfold stat_print. case_match; [done|]. cbv zeta. case_match; [still_refl|]. apply still_if; still_refl. Qed.
Lemma still_pan b s : still s (pan b s).
Proof. unfold pan. case_match. still_refl. Qed.
Lemma still_present_loop n s : still s (present_loop n s).
Proof.
  revert s. induction n as [|n IH]; intros s; [done|]. simpl. unfold present_step.
  destruct (sc_q (srv_scan s)) as [|fl rest]; [done|]. destruct (flip_ready s fl); [|done].
  etrans; [|apply IH]. transitivity (pan (flip_buf fl) s); [apply still_pan|still_refl].
Qed.
Lemma still_clean_caches s : still s (clean_caches s).
Proof. still_refl. Qed.
Lemma still_qpu_ack jid s : still s (qpu_ack jid s).
Proof.
  unfold qpu_ack, rd_core. cbv zeta iota beta. case_match; [|still_refl].
  etrans; [|by apply still_set_job]. still_refl.
Qed.
Lemma still_storm_fallback s : still s (storm_fallback s).
Proof. unfold storm_fallback. apply still_if; [|done]. unfold v3da_hw_irq_disable. cbv zeta. destruct (hw_irq_on _); still_refl. Qed.
End env.

(** The wedge up to the failing of the jobs: reset, and the staged chunk given back. *)
Definition wedge_reset `{E : Env} (s : v3da_srv_t) : v3da_srv_t :=
  let s := (v3da_hw_reset (s <| srv_st ; wedges ::= λ n, u32 (n + 1) |>)).2 in
  let s := s <| srv_st ; resets ::= λ n, u32 (n + 1) |> <| srv_fp ; fp_reset_gen ::= λ n, u32 (n + 1) |> in
  let s := if 0 <=? ov_staged (srv_ovf s)
           then chunk_free_list (ov_staged (srv_ovf s)) s <| srv_ovf ; ov_staged := -1 |> else s in
  s <| srv_ovf ; ov_bin_waiting := 0 |>.

Lemma wedge_split `{E : Env} now s : wedge now s = for_ 0 V3DA_Q_COUNT (wedge_fail_one now) (wedge_reset s).
Proof. unfold wedge, wedge_reset. cbv zeta. by destruct (v3da_hw_reset _). Qed.

Lemma wedge_reset_sched `{E : Env} s : srv_sched (wedge_reset s) = srv_sched s.
Proof.
  unfold wedge_reset. cbv zeta. set (s1 := s <| srv_st ; wedges ::= _ |>).
  assert (srv_sched s1 = srv_sched s) as <- by reflexivity. clearbody s1. rewrite <- (hw_reset_sched s1).
  generalize (v3da_hw_reset s1).2. clear. intros s. destruct (0 <=? _); reflexivity.
Qed.

(** ** What a kept predicate shows *)
Class Kept `{E : Env} (P : v3da_srv_t → Prop) : Prop := {
  kept_still s s' : still s s' → P s → P s';
  kept_start jid j now s :
    sched_inv [jid] s → job s jid = Some j → active s (j_queue j) = None → P s → P (job_start jid j now s);
  kept_done jid err now s :
    (sched_inv [] s ∧ ∀ j, job s jid = Some j → active s (j_queue j) = Some jid) ∨ sched_inv [jid] s →
    P s → P (job_done jid err now s);
  kept_stage s : P s → P (ovf_stage s);
  kept_service s : sched_inv [] s → P s → P (ovf_service s);
  kept_reset s : sched_inv [] s → P s → P (wedge_reset s);
  kept_hw_service s : P s → P (hw_service s).2;
  kept_poll s : P s → P (v3da_bo_quarantine_poll s) }.

Section kept.
Context `{E : Env} (P : v3da_srv_t → Prop) `{!Kept P}.
#[local] Ltac still := eapply kept_still; [|eassumption].

Lemma kept_done_active qu jid err now s s' :
  sched_inv [] s → active s qu = Some jid → same_sched s s' → P s' → P (job_done jid err now s').
Proof.
  intros Hinv Ha Hq HP. apply kept_done; [|done]. left. assert (sched_inv [] s') as H' by (by apply (sched_inv_same _ s)).
  split; [done|]. intros j Hj. destruct Hq as (_ & A & _). rewrite <- A in Ha.
  destruct (si_active _ _ H' _ _ Ha) as [[sl Hk] _]. rewrite Hj in Hk. simpl in Hk. unfold jkey in Hk. by simplify_eq.
Qed.

Lemma kept_wedge now s : sched_inv [] s → P s → P (wedge now s).
Proof.
  intros Hinv HP. rewrite wedge_split.
  assert (sched_inv [] (wedge_reset s)) as H0.
  { apply (sched_inv_same _ s); [|done]. apply same_sched_of, wedge_reset_sched. }
  assert (P (wedge_reset s)) as P0 by (by apply kept_reset). revert H0 P0. generalize (wedge_reset s). clear s Hinv HP. intros s Hinv HP.
  apply (for_inv (λ s, sched_inv [] s ∧ P s)); [done|].
  intros qu s' _ [H1 H2]. split; [by apply wedge_fail_one_inv|]. unfold wedge_fail_one.
  destruct (active s' qu) as [jid|] eqn:Ha; [|done]. destruct (is_hw_queue qu); [|done]. by apply (kept_done_active qu jid _ _ s').
Qed.

Lemma kept_kick_bin d s : P s → P (kick_bin d s).
Proof.
  intros HP. unfold kick_bin. cbv zeta. set (s0 := emit E_dsb s). set (s1 := if negb (knob s0 _) then _ else s0).
  assert (still s s1) as H1 by (transitivity s0; [still_refl|apply still_if; [still_refl|done]]). clearbody s1.
  set (s2 := l2t_flush _ (tlb_step s1)).
  assert (still s1 s2) as H2 by (transitivity (tlb_step s1); [apply still_tlb_step|apply still_l2t_flush]). clearbody s2.
  set (s3 := if negb (knob s2 _) then _ else s2). assert (still s2 s3) as H3 by (apply still_if; [apply still_l2t_flush|done]). clearbody s3.
  set (s4 := if knob s3 _ then _ else s3). assert (still s3 s4) as H4 by (apply still_if; [still_refl|done]). clearbody s4.
  set (s5 := drain_for_kick _ _ s4). assert (still s4 s5) as H5 by apply still_drain_for_kick. clearbody s5.
  set (s6 := ovf_stage _). assert (P s6) as H6.
  { apply kept_stage. eapply kept_still; [|exact HP]. do 5 (etrans; [eassumption|]). still_refl. }
  clearbody s6. set (s7 := if negb (cl_qma d =? 0) then _ else s6). assert (still s6 s7) as H7 by (apply still_if; [still_refl|done]). clearbody s7.
  set (s8 := if negb (cl_qts d =? 0) then _ else s7). assert (still s7 s8) as H8 by (apply still_if; [still_refl|done]). clearbody s8.
  still. etrans; [exact H7|]. etrans; [exact H8|]. still_refl.
Qed.

Lemma kept_kick jid now s :
  sched_inv [jid] s → P s →
  (∀ j, job s jid = Some j → active s (j_queue j) = None ∧
        ∀ jid', jid' ∈ fifo s (j_queue j) (f_slot (j_fence j)) → jid < jid') →
  P (job_kick jid now s).
Proof.
  intros Hinv HP Hlt. unfold job_kick. destruct (job s jid) as [j|] eqn:Hj; [|done]. destruct (Hlt j eq_refl) as [Ha Hb]. cbv zeta.
  pose proof (kept_start jid j now s Hinv Hj Ha HP) as H1.
  pose proof (job_start_inv [] jid j now s Hinv Hj Ha (not_elem_of_nil _) Hb) as I1.
  set (s1 := job_start jid j now s) in *. clearbody s1.
  assert (∀ s2, P s2 → P (job_sample jid (j_queue j) s2)) as Hs by (intros; still; apply still_job_sample).
  destruct (j_queue j =? V3DA_Q_CPU); [apply Hs; still; by apply still_set_job|].
  destruct (j_d j) as [d|t|d|]; [| | |by apply Hs].
  - case_match; [by apply Hs, kept_kick_bin|]. case_match; apply Hs; [still; apply still_kick_render|done].
  - apply Hs. case_match; [still; apply still_kick_tfu|done].
  - case_match; [|by apply Hs]. pose proof (kick_csd_same jid d s1) as Hk. pose proof (still_kick_csd jid d s1) as Hc.
    destruct (kick_csd jid d s1) as [ok s2]. cbn [snd] in Hk, Hc. destruct ok; [apply Hs; by still|].
    assert (same_sched s1 (set_job jid (λ b, b <| j_error := true |>) s2)) as Hq by (etrans; [exact Hk|by apply set_job_same]).
    apply kept_wedge; [by apply (sched_inv_same _ s1)|]. still. etrans; [exact Hc|]. by apply still_set_job.
Qed.

Lemma kept_kick_head qu slot jid now f s :
  sched_inv [] s → P s → head s qu slot = Some jid → active s qu = None →
  (∀ s, same_sched s (f s)) → (∀ s, still s (f s)) → P (job_kick jid now (f (fifo_pop qu slot s))).
Proof.
  intros Hinv HP Hh Ha Hf Hst. destruct (fifo_pop_inv [] qu slot jid s Hinv Hh) as (Hp & Hk & Hl & Hlt).
  assert (still s (fifo_pop qu slot s)) as H1 by (by apply still_set_q).
  specialize (Hf (fifo_pop qu slot s)). specialize (Hst (fifo_pop qu slot s)). set (s1 := fifo_pop qu slot s) in *.
  destruct Hf as (F & A & J & G & N).
  apply kept_kick; [by apply (sched_inv_same _ s1)|still; by etrans|].
  intros j Hj. pose proof (J jid) as Hk1. change (job s1 jid) with (job s jid) in Hk1. rewrite Hj, Hk in Hk1.
  simpl in Hk1. unfold jkey in Hk1. simplify_eq.
  split; [rewrite A; unfold s1; by rewrite fifo_pop_active|]. intros jid'. rewrite F. apply Hlt.
Qed.

Lemma kept_rr_run qu now s : sched_inv [] s → P s → active s qu = None → P (rr_run qu now s).
Proof.
  intros Hinv HP Ha. unfold rr_run. destruct (rr_pick s qu) as [slot|]; [|done].
  destruct (head s qu slot) as [jid|] eqn:Hh; [|done].
  apply (kept_kick_head qu slot jid now (set_q qu (λ q, q <| q_rr := slot + 1 |>)) s); try done.
  - intros. by apply set_q_same.
  - intros. by apply still_set_q.
Qed.

Lemma kept_serial_run now s : sched_inv [] s → P s → P (serial_run now s).
Proof.
  intros Hinv HP. unfold serial_run. destruct (Z.eqb_spec (nbusy (srv_sched s)) 0) as [Hn|Hn]; cbn [negb]; [|done].
  destruct (serial_pick s) as [[[jid qu] slot]|] eqn:Hp; [|done].
  apply serial_pick_head in Hp as [Hh Hhw].
  apply (kept_kick_head qu slot jid now (λ s, s) s); try done. by apply (serial_idle [] s qu).
Qed.

Lemma kept_dispatch now s : sched_inv [] s → P s → P (sched_dispatch now s).
Proof.
  intros Hinv HP. unfold sched_dispatch. set (s1 := if bool_decide _ then _ else s).
  assert (sched_inv [] s1 ∧ P s1) as [I1 P1].
  { unfold s1. case_bool_decide; [|done]. split; [by apply rr_run_inv|by apply kept_rr_run]. }
  clearbody s1. cbv zeta. case_match; [by apply kept_serial_run|].
  apply (for_inv (λ s, sched_inv [] s ∧ P s)); [done|]. intros qu s' _ [I' P']. split; [by apply pipeline_one_inv|].
  unfold pipeline_one. case_match eqn:Hc; [done|]. apply orb_false_iff in Hc as [_ Hc].
  apply kept_rr_run; [done|done|]. destruct (active s' qu); [|done]. by rewrite bool_decide_eq_true_2 in Hc by (by eexists).
Qed.

Lemma kept_reap_loop n now s : sched_inv [] s → P s → P (reap_loop n now s).
Proof.
  revert s. induction n as [|n IH]; intros s Hinv HP; [done|]. simpl.
  assert (sched_inv [] (reap_pass now s).2 ∧ P (reap_pass now s).2) as [I1 P1].
  { unfold reap_pass. apply (for_inv (λ st : bool * v3da_srv_t, sched_inv [] st.2 ∧ P st.2)); [done|].
    intros qu st _ Hst. apply (for_inv (λ st : bool * v3da_srv_t, sched_inv [] st.2 ∧ P st.2)); [done|].
    intros slot st' _ [Ist Pst]. split; [by apply reap_one_inv|].
    unfold reap_one. destruct (head_failed st'.2 qu slot) as [jid|] eqn:Hf; [|done]. cbn [snd].
    apply head_failed_head in Hf. destruct (fifo_pop_inv _ _ _ _ _ Ist Hf) as (Hp & Hk & _ & _).
    apply kept_done.
    - right. apply (sched_inv_same _ (fifo_pop qu slot st'.2)); [|done]. by apply set_q_same.
    - still. transitivity (fifo_pop qu slot st'.2); by apply still_set_q. }
  destruct (reap_pass now s) as [again s']. cbn [snd] in *. destruct again; [by apply IH|done].
Qed.

Lemma kept_sched_run s : sched_inv [] s → P s → P (v3da_sched_run s).
Proof.
  intros Hinv HP. unfold v3da_sched_run, v3da_now_us.
  assert (sched_inv [] (tick s)) as I1 by (apply (sched_inv_same _ s); [by apply same_sched_of|done]).
  assert (P (tick s)) as P1 by (still; still_refl).
  apply kept_dispatch; [by apply reap_loop_inv|by apply kept_reap_loop].
Qed.

(** ** The event thread *)
Lemma kept_on_active qu f s :
  P s → (∀ jid j, active s qu = Some jid → job s jid = Some j → P (f jid j s)) → P (on_active qu f s).
Proof.
  intros HP Hf. unfold on_active. destruct (active s qu) as [jid|] eqn:Ha; [|done].
  destruct (job s jid) as [j|] eqn:Hj; [|done]. by apply Hf.
Qed.

(** Finishing a job is completing it after steps that move nothing. *)
Definition finishes (f : v3da_srv_t → v3da_srv_t) (jid : Z) (err : bool) (now : Z) (s : v3da_srv_t) : Prop :=
  ∃ s', f s = job_done jid err now s' ∧ still s s' ∧ srv_sched s' = srv_sched s.

Lemma render_finishes now jid j s : finishes (render_finish now jid j) jid false now s.
Proof.
  unfold finishes, render_finish. cbv zeta. eexists. split; [reflexivity|].
  set (s1 := if negb _ then _ else s).
  assert (still s s1 ∧ srv_sched s1 = srv_sched s) as [H1 H2] by (unfold s1; destruct (negb _); split; (done || still_refl)).
  clearbody s1. destruct (_ && _); (split; [etrans; [exact H1|]; (done || still_refl)|done]).
Qed.

Lemma csd_finishes now jid j s : finishes (csd_finish now jid j) jid false now s.
Proof.
  unfold finishes, csd_finish, v3da_cnt. cbv zeta iota beta. eexists. split; [reflexivity|].
  set (s1 := s <| srv_hw ; hw_csd_done_cnt := 0 |>). set (s2 := emit E_dsb (clean_caches (tick s1))).
  assert (still s s2 ∧ srv_sched s2 = srv_sched s) as [H1 H2] by (split; [still_refl|done]). clearbody s2.
  destruct (csdprof _); [|done]. unfold csdprof_job.
  destruct (j_d j); (split; [etrans; [exact H1|]; still_refl|exact H2]).
Qed.

Lemma tfu_finishes now err jid s : finishes (tfu_finish now err jid) jid err now s.
Proof. unfold finishes, tfu_finish. eexists. split; [reflexivity|]. split; [still_refl|done]. Qed.

Lemma kept_finish f qu jid err now s :
  finishes f jid err now s → sched_inv [] s → P s → active s qu = Some jid → sched_inv [] (f s) ∧ P (f s).
Proof.
  intros (s' & -> & Hst & Hs) Hinv HP Ha. assert (same_sched s s') as Hq by (by apply same_sched_of).
  split; [by apply (active_job_done [] s s' qu)|]. apply (kept_done_active qu jid err now s); try done. by still.
Qed.

Lemma kept_events core hub now s : sched_inv [] s → P s → P (v3da_jobs_events core hub now s).
Proof.
  intros Hinv HP. unfold v3da_jobs_events. cbv zeta.
  set (s1 := if _ || _ then ovf_service s else s).
  assert (sched_inv [] s1 ∧ P s1) as [I1 P1].
  { unfold s1. destruct (_ || _); [|done]. split; [|by apply kept_service]. apply (sched_inv_same _ s); [apply ovf_service_same|done]. }
  clearbody s1. set (s2 := if has core INT_FLDONE then _ else s1).
  assert (sched_inv [] s2 ∧ P s2) as [I2 P2].
  { unfold s2. destruct (has core INT_FLDONE); [|done]. unfold event_fldone. destruct (active s1 V3DA_Q_BIN) as [jid|] eqn:Ha.
    - by apply (kept_finish (job_done jid false now) V3DA_Q_BIN jid false now); [exists s1|..].
    - split; [apply (sched_inv_same _ s1); [by apply same_sched_of|done]|still; still_refl]. }
  clearbody s2. set (s3 := if has core INT_FRDONE then _ else s2).
  assert (sched_inv [] s3 ∧ P s3) as [I3 P3].
  { unfold s3. destruct (has core INT_FRDONE); [|done]. unfold on_active. destruct (active s2 V3DA_Q_RENDER) as [jid|] eqn:Ha; [|done].
    destruct (job s2 jid) as [j|]; [|done]. by apply (kept_finish _ V3DA_Q_RENDER jid false now); [apply render_finishes|..]. }
  clearbody s3. set (s4 := if has core INT_CSDDONE then _ else s3).
  assert (sched_inv [] s4 ∧ P s4) as [I4 P4].
  { unfold s4. destruct (has core INT_CSDDONE); [|done]. unfold on_active. destruct (active s3 V3DA_Q_CSD) as [jid|] eqn:Ha; [|done].
    destruct (job s3 jid) as [j|]; [|done]. by apply (kept_finish _ V3DA_Q_CSD jid false now); [apply csd_finishes|..]. }
  clearbody s4. destruct (has hub _); [|done]. unfold event_tfu. destruct (active s4 V3DA_Q_TFU) as [jid|] eqn:Ha.
  - by apply (kept_finish _ V3DA_Q_TFU jid (has hub HUB_INT_TFUF) now); [apply tfu_finishes|..].
  - destruct (has hub HUB_INT_TFUC); [still; still_refl|done].
Qed.

Lemma kept_fail_wedge jid now s : sched_inv [] s → P s → P (fail_wedge jid now s).
Proof.
  intros Hinv HP. unfold fail_wedge. apply kept_wedge.
  - apply (sched_inv_same _ s); [by apply set_job_same|done].
  - still. by apply still_set_job.
Qed.

Lemma kept_bin_starved qu jid now s : sched_inv [] s → P s → P (bin_starved qu jid now s).2.
Proof.
  intros Hinv HP. unfold bin_starved. destruct (_ && _); [|done]. destruct (bool_decide _); [still; by apply still_set_job|].
  destruct (_ =? 0); [by apply kept_fail_wedge|done].
Qed.

Lemma kept_tick_queue now qu s : sched_inv [] s → P s → P (tick_queue now qu s).
Proof.
  intros Hinv HP. unfold tick_queue. destruct (negb _); [done|]. apply kept_on_active; [done|]. intros jid j Ha _.
  destruct (now <? _); [done|]. cbv zeta.
  set (s1 := set_job jid _ s). assert (still s s1 ∧ same_sched s s1) as [H1 Q1] by (split; [by apply still_set_job|by apply set_job_same]).
  clearbody s1. pose proof (still_progress_sample qu s1) as Hp. pose proof (progress_sample_sched qu s1) as Hq.
  destruct (progress_sample qu s1) as [[ca ra] s2]. cbn [snd] in Hp, Hq.
  set (s3 := set_job jid _ s2).
  assert (∀ b, jview (wd_progress now ca ra b) = jview b ∧ jkey (wd_progress now ca ra b) = jkey b) as Hwd.
  { intros b. unfold wd_progress. by case_match. }
  assert (still s2 s3 ∧ same_sched s2 s3) as [H3 Q3].
  { split; [apply still_set_job|apply set_job_same]; intros b; apply Hwd. }
  clearbody s3. set (s4 := if qu =? V3DA_Q_RENDER then _ else s3).
  assert (still s3 s4 ∧ same_sched s3 s4) as [H4 Q4].
  { unfold s4. destruct (_ =? _); [|done]. split; [apply still_qpu_ack|apply qpu_ack_same]. }
  clearbody s4. assert (same_sched s s4) as Q04 by (etrans; [exact Q1|]; etrans; [by apply same_sched_of|]; by etrans).
  assert (sched_inv [] s4) as I4 by (by apply (sched_inv_same _ s)).
  assert (P s4) as P4 by (still; do 3 (etrans; [eassumption|]); exact H4).
  pose proof (bin_starved_inv [] qu jid now s4 I4) as [I5 Q5]. pose proof (kept_bin_starved qu jid now s4 I4 P4) as P5.
  destruct (bin_starved qu jid now s4) as [stop s5]. cbn [fst snd] in *. destruct stop; [done|]. specialize (Q5 eq_refl).
  destruct (_ && _).
  - apply (kept_finish (tfu_finish now false jid) qu jid false now s5); [apply tfu_finishes|done|done|].
    destruct Q5 as (_ & A5 & _). destruct Q04 as (_ & A4 & _). by rewrite A5, A4.
  - unfold stall_check. destruct (job s5 jid); [|done]. destruct (_ || _); [by apply kept_fail_wedge|done].
Qed.

Lemma kept_tick_cpu now s : sched_inv [] s → P s → P (tick_cpu now s).
Proof.
  intros Hinv HP. unfold tick_cpu. apply kept_on_active; [done|]. intros jid j Ha _. destruct (_ <=? now); [|done]. cbv zeta.
  assert (P (job_done jid false now s)) as Hd by (by apply (kept_done_active V3DA_Q_CPU jid _ _ s)).
  destruct (j_join j); [done|]. still. still_refl.
Qed.

Lemma tick_cpu_inv now s : sched_inv [] s → sched_inv [] (tick_cpu now s).
Proof.
  intros Hinv. unfold tick_cpu. apply on_active_inv; [done|]. intros jid j Ha Hj. destruct (_ <=? now); [|done]. cbv zeta.
  assert (sched_inv [] (job_done jid false now s)) as Hd by (by apply (active_job_done [] s s V3DA_Q_CPU)).
  destruct (j_join j); [done|]. by apply (sched_inv_same _ (job_done jid false now s)); [apply same_sched_of|].
Qed.

Lemma kept_tick now s : sched_inv [] s → P s → P (v3da_jobs_tick now s).
Proof.
  intros Hinv HP. unfold v3da_jobs_tick. cbv zeta.
  pose proof (tick_cpu_inv now s Hinv) as I1. pose proof (kept_tick_cpu now s Hinv HP) as P1.
  set (s1 := tick_cpu now s) in *. clearbody s1. set (s2 := for_ 0 V3DA_Q_COUNT (tick_queue now) s1).
  assert (sched_inv [] s2 ∧ P s2) as [I2 P2].
  { unfold s2. apply (for_inv (λ s, sched_inv [] s ∧ P s)); [done|]. intros qu s' _ [I' P'].
    split; [by apply tick_queue_inv|by apply kept_tick_queue]. }
  clearbody s2. set (s3 := if _ && _ then ovf_service s2 else s2).
  assert (P s3) as P3 by (unfold s3; destruct (_ && _); [by apply kept_service|done]). clearbody s3.
  still. transitivity (present_run s3); [apply still_present_loop|apply still_stat_print].
Qed.

Lemma kept_event_core s : sched_inv [] s → P s → P (event_core s).
Proof.
  intros Hinv HP. unfold event_core, v3da_now_us. cbv zeta iota beta. set (now := env_now (cursor s)).
  set (s1 := storm_fallback _).
  assert (still s s1 ∧ same_sched s s1) as [H1 Q1].
  { unfold s1. split; [transitivity (event_heartbeat (tick s)); [still_refl|apply still_storm_fallback]|].
    transitivity (event_heartbeat (tick s)); [same_sched_refl|].
    apply same_sched_of. unfold storm_fallback, v3da_hw_irq_disable. cbv zeta. repeat case_match; reflexivity. }
  assert (sched_inv [] s1) as I1 by (by apply (sched_inv_same _ s)). assert (P s1) as P1 by (by still). clearbody s1.
  set (s2 := if _ && _ then _ else s1).
  assert (sched_inv [] s2 ∧ P s2) as [I2 P2].
  { unfold s2. destruct (_ && _); [|done]. split; [|by apply kept_hw_service].
    apply (sched_inv_same _ s1); [apply same_sched_of, hw_service_sched|done]. }
  clearbody s2. set (s3 := s2 <| srv_hw ::= _ |>).
  assert (sched_inv [] s3 ∧ P s3) as [I3 P3] by (split; [by apply (sched_inv_same _ s2); [apply same_sched_of|]|still; still_refl]).
  clearbody s3. pose proof (events_inv [] (hw_ev_core (srv_hw s2)) (hw_ev_hub (srv_hw s2)) now s3 I3) as I4.
  pose proof (kept_events (hw_ev_core (srv_hw s2)) (hw_ev_hub (srv_hw s2)) now s3 I3 P3) as P4.
  set (s4 := v3da_jobs_events _ _ now s3) in *. clearbody s4.
  pose proof (jobs_tick_inv [] now s4 I4) as I5. pose proof (kept_tick now s4 I4 P4) as P5.
  set (s5 := v3da_jobs_tick now s4) in *. clearbody s5. apply kept_sched_run; [|by apply kept_poll].
  eapply sched_inv_same; [apply same_sched_of, poll_sched|done].
Qed.
End kept.
