(* ===== verification/Counts.v ===== *)
(** The submission and completion counts of a queue differ by the job it is running: what
    the quarantine of a buffer compares. *)
From S2P Require Import Prelude Proto State Csdprof Lowmem Hw Fence Bo BoInv BoSteps BoSpec.
From S2P Require Import Ovf Waits Jobs Submit Present Events SchedInv SchedKick SchedRun SchedReach SchedSpec Kept.

Definition busy (s : v3da_srv_t) (qu : Z) : Z := b2z (bool_decide (is_Some (active s qu))).

Record counts_inv (s : v3da_srv_t) : Prop := mkCounts {
  ct_counts : ∀ qu, fp_hw_submitted (srv_fp s) qu = fp_hw_completed (srv_fp s) qu + busy s qu;
  ct_kick : ∀ jid j, job s jid = Some j → active s (j_queue j) ≠ Some jid → j_t_kick_us j = 0 }.

(** What the invariant reads. *)
Definition cnt_view (j : v3da_job_t) : Z * Z := (j_queue j, j_t_kick_us j).
Record cnt_same (s s' : v3da_srv_t) : Prop := mkCntSame {
  cs_sub : fp_hw_submitted (srv_fp s') = fp_hw_submitted (srv_fp s);
  cs_com : fp_hw_completed (srv_fp s') = fp_hw_completed (srv_fp s);
  cs_active : ∀ qu, active s' qu = active s qu;
  cs_jobs : ∀ jid, cnt_view <$> job s' jid = cnt_view <$> job s jid }.
#[export] Instance cnt_same_pre : PreOrder cnt_same.
Proof. split; [done|]. intros a b c [] []. constructor; intros; etrans; eauto. Qed.

Lemma counts_same s s' : cnt_same s s' → counts_inv s → counts_inv s'.
Proof.
  intros [Es Ec Ea Ej] [H1 H2]. constructor.
  - intros qu. unfold busy. rewrite Es, Ec, Ea. apply H1.
  - intros jid j Hj. specialize (Ej jid). rewrite Hj in Ej. destruct (job s jid) as [j'|] eqn:Hj'; [|done].
    injection Ej as Eq Ek. rewrite Ea, Eq, Ek. by apply H2.
Qed.

Lemma cnt_same_still s s' : still s s' → cnt_same s s'.
Proof.
  intros []. unfold fp_view in *. simplify_eq. constructor; try done. intros jid. specialize (st_jobs jid).
  destruct (job s' jid), (job s jid); try done. simpl in *. unfold jview, cnt_view in *. simplify_eq. congruence.
Qed.

Lemma cnt_same_of s s' : srv_sched s' = srv_sched s → srv_fp s' = srv_fp s → cnt_same s s'.
Proof. intros E1 E2. constructor; intros; unfold job, active, srv_q; by rewrite ?E1, ?E2. Qed.
Lemma cnt_same_set_job jid f s : (∀ j, cnt_view (f j) = cnt_view j) → cnt_same s (set_job jid f s).
Proof.
  intros Hf. constructor; try done. intros jid'. unfold job, set_job. simpl.
  destruct (decide (jid = jid')) as [->|Hne].
  - rewrite lookup_alter_eq. destruct (jobs (srv_sched s) !! jid'); simpl; [|done]. by rewrite Hf.
  - by rewrite lookup_alter_ne.
Qed.
Lemma cnt_same_set_q qu f s : (∀ q, q_active (f q) = q_active q) → cnt_same s (set_q qu f s).
Proof. intros. apply cnt_same_still. by apply still_set_q. Qed.

Section env.
Context `{E : Env}.

Lemma unpin_fp hs s : srv_fp (v3da_bo_unpin hs s) = srv_fp s.
Proof.
  unfold v3da_bo_unpin. revert s. induction hs as [|h hs IH]; intros s; [done|]. simpl. rewrite IH.
  unfold unpin_one. case_match; [|done]. case_match; [|done].
  match goal with |- srv_fp (quarantine_begin ?i ?x) = _ =>
    destruct (quarantine_begin_spec i x) as ((-> & _) & _) end. done.
Qed.

Lemma chunk_attach_cnt jid idx s : cnt_same s (chunk_attach jid idx s).
Proof. unfold chunk_attach. etrans; [|by apply cnt_same_set_job]. by apply cnt_same_of. Qed.
Lemma chunks_move_cnt n bin render s : cnt_same s (chunks_move n bin render s).
Proof.
  revert s. induction n as [|n IH]; intros s; [done|]. simpl. case_match; [|done].
  etrans; [|apply IH]. etrans; [|apply chunk_attach_cnt]. by apply cnt_same_set_job.
Qed.
Lemma free_job_chunks_cnt jid s : cnt_same s (free_job_chunks jid s).
Proof. unfold free_job_chunks. etrans; [|by apply cnt_same_set_job]. by apply cnt_same_of. Qed.

(** Between leaving the queue and the completion count, nothing the counts read moves. *)
Lemma done_middle_cnt jid j err s :
  cnt_same s (drop_pins j (unlink_bin j (done_chunks jid j err (done_count (j_queue j) err s)))).
Proof.
  transitivity (done_count (j_queue j) err s); [by apply cnt_same_set_q|].
  set (s1 := done_count _ _ s). clearbody s1. transitivity (done_chunks jid j err s1).
  - unfold done_chunks. repeat case_match; try done.
    + etrans; [|apply free_job_chunks_cnt]. etrans; [|apply chunks_move_cnt]. by apply cnt_same_set_job.
    + apply free_job_chunks_cnt.
    + apply free_job_chunks_cnt.
  - set (s2 := done_chunks _ _ _ _). clearbody s2. transitivity (unlink_bin j s2).
    + unfold unlink_bin. case_match; [by apply cnt_same_set_job|done].
    + unfold drop_pins. case_match; [|done]. apply cnt_same_of; [apply unpin_sched|apply unpin_fp].
Qed.

Lemma fence_complete_counts j err s :
  fp_hw_submitted (srv_fp (v3da_fence_complete j err s)) = fp_hw_submitted (srv_fp s) ∧
  fp_hw_completed (srv_fp (v3da_fence_complete j err s)) = <[j_queue j := fp_hw_completed (srv_fp s) (j_queue j) + 1]> (fp_hw_completed (srv_fp s)).
Proof. unfold v3da_fence_complete. destruct (complete_seq s j err) as [seq e]. by destruct e. Qed.

(** Leaving the queue: the running job frees it, one never started counts as submitted. *)
Lemma done_leave_fp jid j now s :
  srv_fp (done_leave jid j now s) =
    (if bool_decide (active s (j_queue j) = Some jid) then srv_fp s
     else if j_t_kick_us j =? 0 then incr_submitted (j_queue j) (srv_fp s) else srv_fp s) ∧
  ∀ jid', job (done_leave jid j now s) jid' = job s jid'.
Proof. unfold done_leave. repeat case_match; done. Qed.

Lemma done_leave_counts jid j now s :
  job s jid = Some j → counts_inv s →
  let s' := done_leave jid j now s in
  fp_hw_completed (srv_fp s') = fp_hw_completed (srv_fp s) ∧
  (∀ qu, active s' qu = if decide (j_queue j = qu ∧ active s qu = Some jid) then None else active s qu) ∧
  ∀ qu, fp_hw_submitted (srv_fp s') qu = fp_hw_completed (srv_fp s) qu + busy s' qu + (if decide (j_queue j = qu) then 1 else 0).
Proof.
  intros Hj [H1 H2]. cbv zeta.
  assert (∀ qu, active (done_leave jid j now s) qu = if decide (j_queue j = qu ∧ active s qu = Some jid) then None else active s qu)
    as Ha by apply done_leave_active.
  destruct (done_leave_fp jid j now s) as [-> _]. split_and!; [by repeat case_match|done|]. intros qu.
  unfold busy. rewrite Ha. case_bool_decide as Hact.
  - rewrite H1. unfold busy. destruct (decide (j_queue j = qu)) as [<-|Hne].
    + rewrite decide_True by done. rewrite Hact. rewrite bool_decide_eq_true_2 by (by eexists). cbn. lia.
    + rewrite decide_False by (by intros [? _]). lia.
  - specialize (H2 jid j Hj Hact). rewrite H2, Z.eqb_refl.
    cbn [upd incr_submitted fp_hw_submitted]. rewrite fn_upd_case.
    rewrite (decide_False (P := j_queue j = qu ∧ active s qu = Some jid)) by (by intros [<- ?]).
    destruct (decide (j_queue j = qu)) as [<-|Hne]; rewrite H1; unfold busy; lia.
Qed.

Lemma counts_done jid err now s : counts_inv s → counts_inv (job_done jid err now s).
Proof.
  intros Hinv. unfold job_done. destruct (job s jid) as [j|] eqn:Hj; [|done]. cbv zeta.
  destruct (done_leave_counts jid j now s Hj Hinv) as (Hc & Ha & Hs).
  destruct (done_leave_fp jid j now s) as [_ Hjobs].
  set (s1 := done_leave jid j now s) in *. clearbody s1.
  pose proof (done_middle_cnt jid j (err || j_error j) s1) as [Es Ec Ea Ej].
  set (s2 := drop_pins j _) in *. clearbody s2.
  destruct (fence_complete_counts j (err || j_error j) s2) as [Es3 Ec3].
  pose proof (cnt_same_of s2 (s2 <| srv_fp := srv_fp s2 |>) eq_refl eq_refl) as _.
  set (s3 := v3da_fence_complete j _ s2) in *.
  assert (srv_sched s3 = srv_sched s2) as Esch by (unfold s3, v3da_fence_complete; by case_match). clearbody s3.
  set (s4 := s3 <| srv_st ; stat_jobs_seen ::= _ |>).
  assert (∀ qu, active (free_job jid s4) qu = active s1 qu) as A4.
  { intros qu. change (q_active (q (srv_sched s3) qu) = active s1 qu). rewrite Esch. apply Ea. }
  constructor.
  - intros qu. change (fp_hw_submitted (srv_fp s3) qu = fp_hw_completed (srv_fp s3) qu + busy (free_job jid s4) qu).
    unfold busy. rewrite A4, Es3, Es, Ec3, Ec, Hc, Hs, fn_upd_case. unfold busy. case_decide as Hq; [rewrite <- Hq|]; lia.
  - intros jid' j' Hj' Hna. assert (jid' ≠ jid ∧ job s2 jid' = Some j') as [Hne Hj2].
    { change (delete jid (jobs (srv_sched s3)) !! jid' = Some j') in Hj'. rewrite lookup_delete_Some in Hj'.
      destruct Hj' as [? Hj']. split; [done|]. unfold job. by rewrite <- Esch. }
    pose proof (Ej jid') as Ek. rewrite Hj2, Hjobs in Ek. destruct (job s jid') as [j0|] eqn:Hj0; [|done].
    injection Ek as Eq Ekk. rewrite Ekk. apply (ct_kick _ Hinv jid'); [done|].
    rewrite A4, Eq, Ha in Hna. intros Ha0. rewrite decide_False in Hna by (intros [_ ?]; congruence). done.
Qed.

Lemma counts_start jid j now s :
  job s jid = Some j → active s (j_queue j) = None → counts_inv s → counts_inv (job_start jid j now s).
Proof.
  intros Hj Hn [H1 H2]. unfold job_start. cbv zeta. set (qu := j_queue j) in *.
  set (s1 := set_q qu _ s). set (s2 := set_job jid _ s1). set (s3 := set_q qu _ s2). set (s4 := s3 <| srv_fp ::= _ |>).
  assert (counts_inv s4) as H4.
  { assert (∀ q', active s4 q' = if decide (qu = q') then Some jid else active s q') as Ha.
    { intros q'. unfold active, srv_q, s4, s3, s2, s1, set_q, set_job. simpl. rewrite !fn_upd_case. repeat case_decide; done. }
    constructor.
    - intros q'. unfold busy. rewrite Ha.
      change (incr_submitted qu (srv_fp s)) with (srv_fp s4). unfold s4. cbn [upd srv_fp incr_submitted fp_hw_submitted fp_hw_completed].
      change (srv_fp s3) with (srv_fp s). rewrite fn_upd_case, !H1. unfold busy.
      case_decide as Hq; [subst q'; rewrite Hn; cbn; lia|lia].
    - intros jid' j'. rewrite Ha. change (job s4 jid') with (alter (λ b, b <| j_t_kick_us := now |>) jid (jobs (srv_sched s)) !! jid').
      destruct (decide (jid = jid')) as [<-|Hne].
      + rewrite lookup_alter_eq. unfold job in Hj. rewrite Hj. intros [= <-]. cbn. by rewrite decide_True.
      + rewrite lookup_alter_ne by done. intros Hj'. case_decide as Hq.
        * intros _. apply (H2 jid' j' Hj'). rewrite <- Hq, Hn. done.
        * by apply H2. }
  clearbody s4. destruct (is_hw_queue qu); [|done]. apply (counts_same s4); [|done].
  etrans; [|by apply cnt_same_set_job]. by constructor.
Qed.

Lemma grant_direct_cnt bin s : cnt_same s (ovf_grant_direct bin s).2.
Proof.
  unfold ovf_grant_direct. destruct (chunk_alloc (srv_ovf s)) as [idx o]. cbv zeta.
  destruct (idx <? 0); [by apply cnt_same_of|]. cbn [snd]. set (s1 := emit _ (emit _ _)).
  transitivity s1; [by apply cnt_same_of|]. transitivity (chunk_attach bin idx s1); [apply chunk_attach_cnt|].
  by apply cnt_same_set_q.
Qed.
Lemma grant_loop_cnt n bin s : cnt_same s (ovf_grant_loop n bin s).
Proof.
  revert s. induction n as [|n IH]; intros s; [done|]. simpl. pose proof (grant_direct_cnt bin s) as H.
  destruct (ovf_grant_direct bin s) as [[|] s']; cbn [snd] in H; [|done].
  etrans; [exact H|]. etrans; [|apply IH]. by apply cnt_same_of.
Qed.

Lemma ovf_stage_cnt s : cnt_same s (ovf_stage s).
Proof. unfold ovf_stage. cbv zeta. destruct (_ || _); [done|]. destruct (chunk_alloc _). case_match; by apply cnt_same_of. Qed.

Lemma ovf_consume_cnt s : cnt_same s (ovf_consume s).
Proof.
  unfold ovf_consume. cbv zeta. set (s1 := s <| srv_hw ; hw_ovf_consumed := 0 |>).
  assert (cnt_same s s1) as H1 by (by apply cnt_same_of). clearbody s1. case_match; [|done].
  set (s2 := if _ =? ov_staged _ then _ else s1).
  assert (cnt_same s s2) as H2 by (etrans; [exact H1|]; unfold s2; case_match; by apply cnt_same_of).
  clearbody s2. etrans; [exact H2|]. case_match; [|by apply cnt_same_of].
  match goal with |- cnt_same _ (count_oom ?x) => transitivity x end; [apply chunk_attach_cnt|by apply cnt_same_set_q].
Qed.

Lemma ovf_service_cnt s : cnt_same s (ovf_service s).
Proof.
  unfold ovf_service. cbv zeta. etrans; [|apply ovf_stage_cnt].
  etrans; [apply ovf_consume_cnt|]. set (s1 := ovf_consume s). clearbody s1.
  set (s2 := s1 <| srv_hw ; hw_ovf_missed := 0 |>). transitivity s2; [by apply cnt_same_of|].
  case_match; [|by apply cnt_same_of]. etrans; [|apply grant_loop_cnt]. case_match; [by apply cnt_same_of|done].
Qed.

Lemma hw_service_fp s : srv_fp (hw_service s).2 = srv_fp s.
Proof.
  unfold hw_service, rd_core, rd_hub. cbv zeta iota beta. cbn [snd].
  match goal with |- srv_fp (fold_events _ _ ?x) = _ => change (srv_fp x = srv_fp s) end.
  set (s1 := if negb (env_core _ _ =? 0) then _ else _).
  assert (srv_fp s1 = srv_fp s) as <-.
  { unfold s1, csd_done_stamp. destruct (negb _); [|done]. by case_match. }
  clearbody s1. set (s2 := if negb _ then _ else s1).
  assert (srv_fp s2 = srv_fp s1) as <-.
  { unfold s2, mmu_ack. destruct (negb _); [|done]. by case_match. }
  clearbody s2. unfold outomem_service. destruct (has _ _); [|done]. cbv zeta. by destruct (negb _).
Qed.

Lemma poll_fp s : srv_fp (v3da_bo_quarantine_poll s) = srv_fp s.
Proof.
  apply (for_frame srv_fp). intros i s'. unfold quarantine_poll_one. case_match; [|done].
  unfold quarantine_release, block_put. cbv zeta. repeat case_match; reflexivity.
Qed.

Lemma wedge_reset_counts s :
  fp_hw_submitted (srv_fp (wedge_reset s)) = fp_hw_submitted (srv_fp s) ∧
  fp_hw_completed (srv_fp (wedge_reset s)) = fp_hw_completed (srv_fp s).
Proof.
  unfold wedge_reset. cbv zeta. set (s1 := s <| srv_st ; wedges ::= _ |>).
  assert (srv_fp (v3da_hw_reset s1).2 = srv_fp s) as H by (unfold v3da_hw_reset; cbv zeta; cbn [snd]; case_match; reflexivity).
  revert H. generalize (v3da_hw_reset s1).2. clear. intros s2 H. destruct (0 <=? _); cbn; by rewrite H.
Qed.

#[export] Instance counts_kept : Kept counts_inv.
Proof.
  constructor.
  - intros s s' Hst. apply counts_same. by apply cnt_same_still.
  - intros jid j now s _ Hj Ha. by apply counts_start.
  - intros jid err now s _. apply counts_done.
  - intros s. apply counts_same, ovf_stage_cnt.
  - intros s _. apply counts_same, ovf_service_cnt.
  - intros s _. apply counts_same. destruct (wedge_reset_counts s) as [H1 H2].
    constructor; try done; intros; unfold active, job, srv_q; by rewrite wedge_reset_sched.
  - intros s. apply counts_same, cnt_same_of; [apply hw_service_sched|apply hw_service_fp].
  - intros s. apply counts_same, cnt_same_of; [apply poll_sched|apply poll_fp].
Qed.
End env.
