(* ===== verification/OvfInv.v ===== *)
(** The overflow chunks: linked lists threaded through one [next] array.  Every chunk is in
    exactly one place (the free list, the stage, or the list of one job), every list ends,
    and every operation moves chunks from the head of one list to the head of another. *)
From S2P Require Import Prelude Proto State Hw Bo Ovf.

(** ** Lists in an array *)
Fixpoint chain (next : Z → Z) (h : Z) (l : list Z) : Prop :=
  match l with
  | [] => h < 0
  | x :: l => h = x ∧ 0 ≤ x ∧ chain next (next x) l
  end.

Lemma chain_ext next next' h l : (∀ x, x ∈ l → next' x = next x) → chain next h l → chain next' h l.
Proof.
  revert h. induction l as [|x l IH]; intros h He; simpl; [done|]. intros (-> & H0 & Hc). split_and!; [done|done|].
  rewrite He by (by left). apply IH; [|done]. intros y Hy. apply He. by right.
Qed.

Lemma chain_nil next h l : chain next h l → h < 0 → l = [].
Proof. destruct l as [|x l]; simpl; [done|]. lia. Qed.

Lemma chain_cons next h l : chain next h l → 0 ≤ h → ∃ l', l = h :: l' ∧ chain next (next h) l'.
Proof. destruct l as [|x l]; simpl; [lia|]. intros (-> & _ & Hc) _. by exists l. Qed.

(** ** The ledger *)
Inductive place := Free | Staged | Held (jid : Z).
#[export] Instance place_eq_dec : EqDecision place.
Proof. solve_decision. Defined.

Record ledger (next : Z → Z) (hd : place → Z) (n : Z) (ls : place → list Z) : Prop := mkLedger {
  lg_chain : ∀ p, chain next (hd p) (ls p);
  lg_nodup : ∀ p, NoDup (ls p);
  lg_disj : ∀ p q x, x ∈ ls p → x ∈ ls q → p = q;
  lg_all : ∀ x, 0 ≤ x < n ↔ ∃ p, x ∈ ls p }.

(** Two heads that start the same list: equal, or both ending it. *)
Definition same_head (h h' : Z) : Prop := h' = h ∨ (h < 0 ∧ h' < 0).
Lemma same_head_refl h : same_head h h.
Proof. by left. Qed.
#[export] Hint Resolve same_head_refl : core.

Lemma chain_same_head next h h' l : same_head h h' → chain next h l → chain next h' l.
Proof. intros [->|[H1 H2]] Hc; [done|]. apply chain_nil in Hc as ->; done. Qed.

Lemma ledger_ext next next' hd hd' n ls :
  (∀ x, next' x = next x) → (∀ p, same_head (hd p) (hd' p)) → ledger next hd n ls → ledger next' hd' n ls.
Proof.
  intros Hn Hh []. constructor; try done. intros p. apply (chain_same_head _ (hd p)); [done|].
  by apply (chain_ext next).
Qed.

Lemma ledger_head next hd n ls p : ledger next hd n ls → 0 ≤ hd p → 0 ≤ hd p < n.
Proof.
  intros Hl Hp. destruct (chain_cons _ _ _ (lg_chain _ _ _ _ Hl p) Hp) as (l & Hls & _).
  apply (lg_all _ _ _ _ Hl). exists p. rewrite Hls. by left.
Qed.

(** The one move: the head of [p] becomes the head of [q], before what [q] held. *)
Lemma ledger_move next hd n ls p q v hd' :
  ledger next hd n ls → 0 ≤ hd p → p ≠ q → chain next v (ls q) →
  (∀ r, hd' r = if decide (r = q) then hd p else if decide (r = p) then next (hd p) else hd r) →
  ledger (<[hd p := v]> next) hd' n (<[q := hd p :: ls q]> (<[p := tl (ls p)]> ls)).
Proof.
  intros Hl Hp Hne Hv Hhd. pose proof (lg_chain _ _ _ _ Hl p) as Hc.
  destruct (chain_cons _ _ _ Hc Hp) as (l & Hls & Hcl). set (x := hd p) in *. rewrite Hls. cbn [tl].
  pose proof (lg_nodup _ _ _ _ Hl p) as Hnd. rewrite Hls in Hnd. apply NoDup_cons in Hnd as [Hx Hnd].
  assert (∀ r, x ∈ ls r → r = p) as Honly by (intros r Hr; apply (lg_disj _ _ _ _ Hl r p x Hr); rewrite Hls; by left).
  assert (∀ r, (<[q := x :: ls q]> (<[p := l]> ls)) r = if decide (r = q) then x :: ls q else if decide (r = p) then l else ls r) as Hls'.
  { intros r. rewrite !fn_upd_case. repeat case_decide; subst; done. }
  assert (∀ r y, y ∈ (<[q := x :: ls q]> (<[p := l]> ls)) r ↔ (y = x ∧ r = q) ∨ (y ≠ x ∧ y ∈ ls r)) as Hin.
  { intros r y. rewrite Hls'. destruct (decide (r = q)) as [->|Hrq].
    - rewrite elem_of_cons. split; [|naive_solver]. intros [->|Hy]; [by left|].
      destruct (decide (y = x)) as [->|]; [by left|by right].
    - destruct (decide (r = p)) as [->|Hrp].
      + rewrite Hls, elem_of_cons. split; [|naive_solver]. intros Hy. right. split; [intros ->; done|by right].
      + split; [|naive_solver]. intros Hy. right. split; [|done]. intros ->. apply Hrp. by apply Honly. }
  constructor.
  - intros r. rewrite Hls', Hhd. repeat case_decide; subst; try done.
    + simpl. split_and!; [done|done|]. rewrite fn_upd_eq. apply (chain_ext next); [|done].
      intros y Hy. rewrite fn_upd_ne; [done|]. intros <-. apply Hne. symmetry. by apply Honly.
    + apply (chain_ext next); [|done]. intros y Hy. rewrite fn_upd_ne; [done|]. by intros <-.
    + apply (chain_ext next); [|apply Hl]. intros y Hy. rewrite fn_upd_ne; [done|]. intros <-. by apply Honly in Hy.
  - intros r. rewrite Hls'. repeat case_decide; subst; [|done|apply Hl].
    apply NoDup_cons. split; [|apply Hl]. intros Hy. apply Hne. symmetry. by apply Honly.
  - intros r r' y. rewrite !Hin. intros [[-> ->]|[Hy Hr]] [[Hy' ->]|[Hy' Hr']]; try done. by apply (lg_disj _ _ _ _ Hl r r' y).
  - intros y. rewrite (lg_all _ _ _ _ Hl). split.
    + intros [r Hr]. destruct (decide (y = x)) as [->|]; [exists q|exists r]; rewrite Hin; [by left|by right].
    + intros [r Hr]. rewrite Hin in Hr. destruct Hr as [[-> _]|[_ Hr]]; [exists p|by exists r]. rewrite Hls. by left.
Qed.

(** No list is longer than the pool. *)
Lemma NoDup_below (l : list Z) n : 0 ≤ n → NoDup l → (∀ x, x ∈ l → 0 ≤ x < n) → Z.of_nat (length l) ≤ n.
Proof.
  intros Hn Hnd Hin. assert (length l ≤ length (seqZ 0 n))%nat as H; [|rewrite length_seqZ in H; lia].
  apply submseteq_length, NoDup_submseteq; [done|]. intros x Hx. apply elem_of_seqZ. specialize (Hin x Hx). lia.
Qed.

Lemma ledger_length next hd n ls p : 0 ≤ n → ledger next hd n ls → Z.of_nat (length (ls p)) ≤ n.
Proof.
  intros Hn Hl. apply NoDup_below; [done|apply Hl|]. intros x Hx. apply (lg_all _ _ _ _ Hl). by exists p.
Qed.

(** ** Freeing a whole list *)
(** What freeing the list [p] leaves: it is empty, its chunks head the free list. *)
Lemma free_walk_ledger fuel p o hd n ls :
  ledger (ov_next o) hd n ls → hd Free = ov_free_head o → p ≠ Free → (length (ls p) ≤ fuel)%nat →
  0 ≤ ov_nfree o → ov_nfree o + Z.of_nat (length (ls p)) < 2 ^ 32 →
  let o' := chunk_free_walk fuel (hd p) o in
  ∃ ls' v, ledger (ov_next o') (λ r, if decide (r = Free) then ov_free_head o' else if decide (r = p) then v else hd r) n ls' ∧
    v < 0 ∧ ls' p = [] ∧ length (ls' Free) = (length (ls p) + length (ls Free))%nat ∧
    (∀ r, r ≠ Free → r ≠ p → ls' r = ls r) ∧
    ov_nfree o' = ov_nfree o + Z.of_nat (length (ls p)) ∧
    ov_gpuva o' = ov_gpuva o ∧ ov_chunk_bytes o' = ov_chunk_bytes o ∧ ov_nchunks o' = ov_nchunks o ∧ ov_staged o' = ov_staged o.
Proof.
  revert o hd ls. induction fuel as [|fuel IH]; intros o hd ls Hl Hf Hne Hlen H0 Hlt; cbv zeta.
  - destruct (ls p) as [|x l] eqn:Hls; [|simpl in Hlen; lia]. pose proof (lg_chain _ _ _ _ Hl p) as Hc. rewrite Hls in Hc. simpl in Hc.
    exists ls, (hd p). simpl. split_and!; try done; [|lia]. apply (ledger_ext (ov_next o) _ hd); [done| |done].
    intros r. left. repeat case_decide; subst; done.
  - simpl. destruct (Z.leb_spec 0 (hd p)) as [Hp|Hp].
    2:{ pose proof (lg_chain _ _ _ _ Hl p) as Hc. pose proof (chain_nil _ _ _ Hc Hp) as Hls. rewrite Hls in *.
        exists ls, (hd p). simpl. split_and!; try done; [|lia]. apply (ledger_ext (ov_next o) _ hd); [done| |done].
        intros r. left. repeat case_decide; subst; done. }
    destruct (chain_cons _ _ _ (lg_chain _ _ _ _ Hl p) Hp) as (l & Hls & _).
    set (o1 := o <| ov_next ::= λ a, <[hd p := ov_free_head o]> a |> <| ov_free_head := hd p |> <| ov_nfree ::= λ n, u32 (n + 1) |>).
    set (hd1 := λ r, if decide (r = Free) then hd p else if decide (r = p) then ov_next o (hd p) else hd r).
    pose proof (ledger_move (ov_next o) hd n ls p Free (ov_free_head o) hd1 Hl Hp Hne) as Hm.
    rewrite <- Hf in Hm at 1. specialize (Hm (lg_chain _ _ _ _ Hl Free) (λ r, eq_refl)).
    set (ls1 := <[Free := hd p :: ls Free]> (<[p := tl (ls p)]> ls)) in *.
    assert (ls1 p = l) as Hls1 by (unfold ls1; rewrite fn_upd_ne, fn_upd_eq by done; by rewrite Hls).
    assert (ls1 Free = hd p :: ls Free) as Hfr1 by (unfold ls1; by rewrite fn_upd_eq).
    assert (hd1 p = ov_next o (hd p)) as Hd1 by (unfold hd1; rewrite decide_False, decide_True by done; done).
    rewrite Hls in Hlen, Hlt. simpl in Hlen, Hlt.
    assert (ov_nfree o1 = ov_nfree o + 1) as Hn1 by (unfold o1; cbn; apply u32_small; lia).
    destruct (IH o1 hd1 ls1) as (ls' & v & H1 & H2 & H3 & H4 & H5 & H6 & H7 & H8 & H9 & H10); try done.
    + by rewrite Hls1; lia.
    + lia.
    + rewrite Hls1, Hn1. lia.
    + rewrite Hd1 in *. rewrite Hls1, Hfr1, Hn1 in *. rewrite Hls. simpl in *. exists ls', v. split_and!; try done.
      * eapply ledger_ext; [reflexivity| |exact H1]. intros r. left. unfold hd1. repeat case_decide; done.
      * lia.
      * intros r Hr1 Hr2. rewrite H5 by done. unfold ls1. by rewrite !fn_upd_ne by done.
      * etrans; [exact H6|lia].
Qed.

(** ** The pool's chunks, where they are *)
Definition heads (o : v3da_ovf_t) (H : Z → Z) (p : place) : Z :=
  match p with Free => ov_free_head o | Staged => ov_staged o | Held jid => H jid end.

Record chunks_at (o : v3da_ovf_t) (H : Z → Z) (ls : place → list Z) : Prop := mkChunksAt {
  ca_ledger : ledger (ov_next o) (heads o H) (ov_nchunks o) ls;
  ca_nfree : ov_nfree o = Z.of_nat (length (ls Free));
  ca_staged : (length (ls Staged) ≤ 1)%nat;
  ca_count : 0 ≤ ov_nchunks o ≤ V3DA_MAX_CHUNKS }.
Definition chunks_inv (o : v3da_ovf_t) (H : Z → Z) : Prop := ∃ ls, chunks_at o H ls.

Definition nfree_delta (p q : place) : Z := (if decide (q = Free) then 1 else 0) - (if decide (p = Free) then 1 else 0).

Lemma nfree_delta_0 n p q : p ≠ Free → q ≠ Free → n = n + nfree_delta p q.
Proof. intros. unfold nfree_delta. rewrite !decide_False by done. lia. Qed.

(** A chunk moves from the head of [p] to the head of [q]; at most one can be staged. *)
Lemma chunks_move_one p q o H o' H' :
  chunks_inv o H → 0 ≤ heads o H p → p ≠ q → (q = Staged → ov_staged o < 0) →
  (∀ x, x ≠ heads o H p → ov_next o' x = ov_next o x) → same_head (heads o H q) (ov_next o' (heads o H p)) →
  (∀ r, same_head (if decide (r = q) then heads o H p else if decide (r = p) then ov_next o (heads o H p) else heads o H r)
     (heads o' H' r)) →
  ov_nchunks o' = ov_nchunks o → ov_nfree o' = ov_nfree o + nfree_delta p q → chunks_inv o' H'.
Proof.
  intros [ls [Hl Hn Hs Hc]] Hp Hne Hq Hnext Hv Hh Ec En. set (x := heads o H p) in *.
  pose proof (ledger_move _ _ _ _ p q (ov_next o' x) _ Hl Hp Hne (chain_same_head _ _ _ _ Hv (lg_chain _ _ _ _ Hl q)) (λ r, eq_refl)) as Hm.
  destruct (chain_cons _ _ _ (lg_chain _ _ _ _ Hl p) Hp) as (l & Hls & _).
  eexists. constructor; [|..|by rewrite Ec].
  - rewrite Ec. eapply ledger_ext; [|exact Hh|exact Hm]. intros y. rewrite fn_upd_case. case_decide; [by subst|by apply Hnext].
  - rewrite En, Hn. unfold nfree_delta. rewrite !fn_upd_case. repeat case_decide; subst; simpl; rewrite ?Hls; simpl; try done; lia.
  - rewrite !fn_upd_case. repeat case_decide; subst; simpl; [|rewrite Hls in *; simpl in *; lia|lia].
    pose proof (lg_chain _ _ _ _ Hl Staged) as Hst. rewrite (chain_nil _ _ _ Hst (Hq eq_refl)). done.
Qed.

Lemma ledger_length2 next hd n ls p q :
  0 ≤ n → ledger next hd n ls → p ≠ q → Z.of_nat (length (ls p) + length (ls q)) ≤ n.
Proof.
  intros Hn Hl Hne. rewrite <- length_app. apply NoDup_below; [done| |].
  - apply NoDup_app. split_and!; [apply Hl| |apply Hl]. intros x Hx Hy. apply Hne. by apply (lg_disj _ _ _ _ Hl p q x).
  - intros x Hx. apply (lg_all _ _ _ _ Hl). apply elem_of_app in Hx as [Hx|Hx]; by eexists.
Qed.

(** A list other than the free one is freed as a whole. *)
Lemma chunks_free p o H o' H' :
  chunks_inv o H → p ≠ Free →
  let o1 := chunk_free_walk (Z.to_nat V3DA_MAX_CHUNKS) (heads o H p) o in
  (∀ r, r ≠ Free → r ≠ p → same_head (heads o H r) (heads o' H' r)) → heads o' H' p < 0 →
  ov_free_head o' = ov_free_head o1 → ov_next o' = ov_next o1 → ov_nfree o' = ov_nfree o1 → ov_nchunks o' = ov_nchunks o1 →
  chunks_inv o' H'.
Proof.
  intros [ls [Hl Hn Hs Hc]] Hp o1 Hr Hp' Ef Ex En Ec.
  pose proof (ledger_length2 _ _ _ _ p Free (proj1 Hc) Hl Hp) as H2.
  pose proof (ledger_length _ _ _ _ p (proj1 Hc) Hl) as H1.
  assert (V3DA_MAX_CHUNKS < 2 ^ 32) as Hm by done.
  destruct (free_walk_ledger (Z.to_nat V3DA_MAX_CHUNKS) p o (heads o H) (ov_nchunks o) ls Hl) as
    (ls' & v & Hl' & Hv & Hnil & Hlen & Hsame & Hnf & _ & _ & Hnc & _); try done; try lia. fold o1 in Hl', Hnf, Hnc.
  exists ls'. rewrite <- Hnc in Hl'. constructor.
  - rewrite Ec. eapply ledger_ext; [|intros r|exact Hl']; [by rewrite Ex|].
    destruct (decide (r = Free)) as [->|Hrf]; [left; exact Ef|].
    rewrite decide_False by done. destruct (decide (r = p)) as [->|Hrp]; [by right|by apply Hr].
  - rewrite En, Hnf, Hlen, Hn. lia.
  - destruct (decide (p = Staged)) as [->|Hst]; [rewrite Hnil; simpl; lia|]. by rewrite Hsame.
  - by rewrite Ec, Hnc.
Qed.

Lemma chunks_ext o H o' H' :
  chunks_inv o H → ov_next o' = ov_next o → ov_nfree o' = ov_nfree o → ov_nchunks o' = ov_nchunks o →
  (∀ r, same_head (heads o H r) (heads o' H' r)) → chunks_inv o' H'.
Proof.
  intros [ls [Hl Hn Hs Hc]] Ex En Ec Hh. exists ls. constructor; try (by rewrite ?En, ?Ec).
  rewrite Ec. eapply ledger_ext; [|exact Hh|exact Hl]. by rewrite Ex.
Qed.

Lemma chunks_head_range o H p : chunks_inv o H → 0 ≤ heads o H p → 0 ≤ heads o H p < ov_nchunks o.
Proof. intros [ls Hls] Hp. by apply (ledger_head _ _ _ _ _ (ca_ledger _ _ _ Hls)). Qed.

Lemma chunks_staged_alone o H : chunks_inv o H → 0 ≤ ov_staged o → ov_next o (ov_staged o) < 0.
Proof.
  intros [ls [Hl _ Hs _]] Hp. destruct (chain_cons _ _ _ (lg_chain _ _ _ _ Hl Staged) Hp) as (l & Hls & Hc).
  rewrite Hls in Hs. destruct l; [done|]. simpl in Hs. lia.
Qed.

(** ** Linked bin and render jobs *)
Record links_inv (s : v3da_srv_t) : Prop := mkLinks {
  li_render : ∀ b jb r, job s b = Some jb → j_render jb = Some r →
    j_queue jb = V3DA_Q_BIN ∧ j_bin jb = None ∧ ∃ jr, job s r = Some jr ∧ j_bin jr = Some b;
  li_bin : ∀ r jr b, job s r = Some jr → j_bin jr = Some b →
    j_queue jr = V3DA_Q_RENDER ∧ j_render jr = None ∧ ∃ jb, job s b = Some jb ∧ j_render jb = Some r }.

(** ** The invariant of the pool *)
Definition pool_ok (o : v3da_ovf_t) : Prop :=
  0 < ov_chunk_bytes o ∧ 0 < ov_gpuva o ∧ ov_gpuva o + ov_nchunks o * ov_chunk_bytes o < 2 ^ 32.

(** The words shared with the interrupt handler: the staged chunk is either ready for it
    or already handed to the binner. *)
Definition stage_ok (o : v3da_ovf_t) (h : v3da_hw_t) : Prop :=
  if ov_staged o <? 0 then hw_ovf_stage_va h = 0 ∧ hw_ovf_consumed h = 0
  else (hw_ovf_stage_va h = chunk_va o (ov_staged o) ∧ hw_ovf_stage_size h = ov_chunk_bytes o ∧ hw_ovf_consumed h = 0) ∨
       (hw_ovf_stage_va h = 0 ∧ hw_ovf_consumed h = chunk_va o (ov_staged o)).

Record ovf_core (s : v3da_srv_t) : Prop := mkOvfCore {
  oi_chunks : chunks_inv (srv_ovf s) (j_ovf s);
  oi_pool : pool_ok (srv_ovf s);
  oi_stage : stage_ok (srv_ovf s) (srv_hw s) }.
Definition ovf_inv (s : v3da_srv_t) : Prop := ovf_core s ∧ links_inv s.
