(* ===== verification/OvfSteps.v ===== *)
(** Every operation on the overflow pool moves whole chunks: staging, granting, consuming,
    moving a bin job's chunks to its render job, freeing, and the reset of a wedge. *)
From S2P Require Import Prelude Proto State Hw Bo Ovf Jobs SchedInv SchedReach SchedSpec Kept OvfInv.

(** ** Frames *)
Definition ovf_words (h : v3da_hw_t) := (hw_ovf_stage_va h, hw_ovf_stage_size h, hw_ovf_consumed h).

Lemma stage_ok_ext o o' h h' : ov_staged o' = ov_staged o → ov_gpuva o' = ov_gpuva o → ov_chunk_bytes o' = ov_chunk_bytes o →
  ovf_words h' = ovf_words h → stage_ok o h → stage_ok o' h'.
Proof. unfold stage_ok, chunk_va, ovf_words. intros -> -> -> Hw. injection Hw as -> -> ->. done. Qed.

Lemma stage_none o h : ov_staged o < 0 → hw_ovf_stage_va h = 0 → hw_ovf_consumed h = 0 → stage_ok o h.
Proof. intros Hs Hv Hc. unfold stage_ok. by destruct (Z.ltb_spec (ov_staged o) 0); [|lia]. Qed.

Lemma stage_ok_none o h : stage_ok o h → ov_staged o < 0 → hw_ovf_stage_va h = 0 ∧ hw_ovf_consumed h = 0.
Proof. unfold stage_ok. intros H Hs. by destruct (Z.ltb_spec (ov_staged o) 0); [|lia]. Qed.

Lemma core_ext s s' : ovf_core s → ovf_view (srv_ovf s') = ovf_view (srv_ovf s) →
  ovf_words (srv_hw s') = ovf_words (srv_hw s) → (∀ jid, same_head (j_ovf s jid) (j_ovf s' jid)) → ovf_core s'.
Proof.
  intros [Hc Hp Hs] Ho Hw Hj. unfold ovf_view in Ho. injection Ho as E1 E2 E3 E4 E5 E6 E7. constructor.
  - apply (chunks_ext _ _ _ _ Hc); try done. intros [| |jid]; simpl; [by rewrite E4|by rewrite E6|done].
  - unfold pool_ok in *. by rewrite E1, E2, E3.
  - by apply (stage_ok_ext (srv_ovf s) _ (srv_hw s)).
Qed.

(** A step on the free list, the job lists and [next] only. *)
Lemma core_chunks s s' : ovf_core s → chunks_inv (srv_ovf s') (j_ovf s') →
  (ov_gpuva (srv_ovf s'), ov_chunk_bytes (srv_ovf s'), ov_nchunks (srv_ovf s'), ov_staged (srv_ovf s')) =
  (ov_gpuva (srv_ovf s), ov_chunk_bytes (srv_ovf s), ov_nchunks (srv_ovf s), ov_staged (srv_ovf s)) →
  ovf_words (srv_hw s') = ovf_words (srv_hw s) → ovf_core s'.
Proof.
  intros [_ Hp Hs] Hc Ho Hw. injection Ho as E1 E2 E3 E4. constructor; [done| |].
  - unfold pool_ok in *. by rewrite E1, E2, E3.
  - by apply (stage_ok_ext (srv_ovf s) _ (srv_hw s)).
Qed.

Lemma j_ovf_set_job jid f s r :
  j_ovf (set_job jid f s) r = if decide (jid = r) then match job s jid with Some b => j_ovf_head (f b) | None => -1 end else j_ovf s r.
Proof.
  unfold j_ovf, job, set_job. simpl. case_decide as H; [subst; rewrite lookup_alter_eq; by destruct (_ !! r)|by rewrite lookup_alter_ne].
Qed.
Lemma j_ovf_set_keep jid f s r : (∀ b, j_ovf_head (f b) = j_ovf_head b) → j_ovf (set_job jid f s) r = j_ovf s r.
Proof. intros Hf. rewrite j_ovf_set_job. case_decide; [subst|done]. unfold j_ovf. destruct (job s r); [apply Hf|done]. Qed.
Lemma j_ovf_sched s s' r : jobs (srv_sched s') = jobs (srv_sched s) → j_ovf s' r = j_ovf s r.
Proof. unfold j_ovf, job. by intros ->. Qed.

Lemma job_set_job_some jid f s r : is_Some (job (set_job jid f s) r) ↔ is_Some (job s r).
Proof.
  unfold job, set_job. simpl. destruct (decide (jid = r)) as [->|Hne]; [by rewrite lookup_alter_eq, fmap_is_Some|by rewrite lookup_alter_ne].
Qed.

Lemma chunks_nfree o H : chunks_inv o H → 0 ≤ ov_free_head o → 1 ≤ ov_nfree o ≤ V3DA_MAX_CHUNKS.
Proof.
  intros [ls [Hl Hn _ Hc]] Hf. destruct (chain_cons _ _ _ (lg_chain _ _ _ _ Hl Free) Hf) as (l & Hls & _).
  pose proof (ledger_length _ _ _ _ Free (proj1 Hc) Hl) as H1. rewrite Hn. rewrite Hls in *. simpl in *. lia.
Qed.

Lemma nfree_dec n : 1 ≤ n ≤ V3DA_MAX_CHUNKS → u32 (n - 1) = n - 1.
Proof. intros Hn. assert (V3DA_MAX_CHUNKS < 2 ^ 32) by done. apply u32_small. lia. Qed.

(** What walking a list never changes. *)
Definition ovf_geo (o : v3da_ovf_t) := (ov_gpuva o, ov_chunk_bytes o, ov_nchunks o, ov_staged o).
Lemma free_walk_geo fuel h o : ovf_geo (chunk_free_walk fuel h o) = ovf_geo o.
Proof. revert h o. induction fuel as [|fuel IH]; intros h o; [done|]. simpl. case_match; [|done]. by rewrite IH. Qed.

Lemma free_walk_staged fuel h v o : chunk_free_walk fuel h (o <| ov_staged := v |>) = chunk_free_walk fuel h o <| ov_staged := v |>.
Proof. revert h o. induction fuel as [|fuel IH]; intros h o; [done|]. simpl. case_match; [|done].
  exact (IH _ (o <| ov_next ::= λ a, <[h := ov_free_head o]> a |> <| ov_free_head := h |> <| ov_nfree ::= λ n, u32 (n + 1) |>)).
Qed.

Lemma free_list_staged h v s : srv_ovf (chunk_free_list h (s <| srv_ovf ; ov_staged := v |>)) =
  chunk_free_walk (Z.to_nat V3DA_MAX_CHUNKS) h (srv_ovf s) <| ov_staged := v |>.
Proof. apply free_walk_staged. Qed.

Section env.
Context `{E : Env}.

(** ** Staging *)
Lemma chunk_va_exact o i : pool_ok o → 0 ≤ i < ov_nchunks o →
  chunk_va o i = ov_gpuva o + i * ov_chunk_bytes o ∧ 0 < chunk_va o i.
Proof.
  intros (Hb & Hg & Hlt) Hi. unfold chunk_va. assert (0 ≤ i * ov_chunk_bytes o < ov_nchunks o * ov_chunk_bytes o) by nia.
  rewrite (u32_small (i * _)) by lia. rewrite u32_small by lia. lia.
Qed.

Lemma ovf_stage_core s : ovf_core s → ovf_core (ovf_stage s).
Proof.
  intros Hcore. pose proof Hcore as [Hc Hp Hst]. unfold ovf_stage. cbv zeta. unfold chunk_alloc.
  destruct (Z.leb_spec 0 (ov_staged (srv_ovf s))) as [|Hneg]; [done|]. cbn [orb].
  destruct (ov_nchunks (srv_ovf s) =? 0); [done|]. set (i := ov_free_head (srv_ovf s)).
  destruct (stage_ok_none _ _ Hst Hneg) as [Hv Hcs].
  destruct (Z.leb_spec 0 i) as [Hi|Hi].
  - destruct (Z.ltb_spec i 0) as [|_]; [lia|]. pose proof (chunks_nfree _ _ Hc Hi) as Hn. constructor.
    + apply (chunks_move_one Free Staged _ _ _ _ Hc); try done.
      * intros x Hx. simpl. by rewrite fn_upd_ne.
      * right. simpl. fold i. rewrite fn_upd_eq. lia.
      * intros [| |jid]; simpl; by left.
      * cbn. by rewrite nfree_dec.
    + done.
    + unfold stage_ok. cbn [upd srv_ovf srv_hw ov_staged]. destruct (Z.ltb_spec i 0) as [|_]; [lia|]. left. done.
  - destruct (Z.ltb_spec i 0) as [_|]; [|lia]. constructor; [|done|by apply stage_none].
    apply (chunks_ext _ _ _ _ Hc); try done. intros [| |jid]; simpl; [by left|by right|by left].
Qed.

(** ** Granting and consuming *)
Lemma j_ovf_attach jid idx s r :
  is_Some (job s jid) → j_ovf (chunk_attach jid idx s) r = if decide (jid = r) then idx else j_ovf s r.
Proof. intros [b Hb]. unfold chunk_attach. rewrite j_ovf_set_job. case_decide; [|done]. change (job (s <| srv_ovf ; ov_next ::= _ |>) jid) with (job s jid). by rewrite Hb. Qed.

Lemma grant_direct_core bin s :
  is_Some (job s bin) → ovf_core s → ovf_core (ovf_grant_direct bin s).2 ∧ is_Some (job (ovf_grant_direct bin s).2 bin).
Proof.
  intros Hb Hcore. pose proof Hcore as [Hc Hp Hst]. unfold ovf_grant_direct, chunk_alloc. set (i := ov_free_head (srv_ovf s)).
  destruct (Z.leb_spec 0 i) as [Hi|Hi]; (destruct (Z.ltb_spec i 0); [|]; try lia); [|].
  - cbn [snd]. set (s1 := s <| srv_ovf := _ |>). set (s2 := emit _ (emit _ s1)).
    assert (is_Some (job s2 bin)) as Hb2 by done. pose proof (chunks_nfree _ _ Hc Hi) as Hn.
    split; [|change (is_Some (job (chunk_attach bin i s2) bin)); unfold chunk_attach; by apply job_set_job_some].
    apply (core_chunks s); [done| |done|done].
    apply (chunks_move_one Free (Held bin) _ _ _ _ Hc); try done.
    + intros x Hx. cbn. by rewrite !fn_upd_ne.
    + left. cbn. fold i. rewrite fn_upd_eq. done.
    + change (j_ovf (count_oom (chunk_attach bin i s2))) with (j_ovf (chunk_attach bin i s2)).
      intros [| |jid]; simpl; [by left|by left|]. rewrite j_ovf_attach by done. fold i. left.
      repeat case_decide; try done; congruence.
    + cbn. by rewrite nfree_dec.
  - cbn [snd]. split; [|done]. by apply (core_ext s).
Qed.

Lemma grant_loop_core n bin s : is_Some (job s bin) → ovf_core s → ovf_core (ovf_grant_loop n bin s).
Proof.
  revert s. induction n as [|n IH]; intros s Hb Hcore; [done|]. simpl.
  destruct (grant_direct_core bin s Hb Hcore) as [H1 H2]. destruct (ovf_grant_direct bin s) as [[|] s']; cbn [snd] in *; [|done].
  apply IH; [done|]. by apply (core_ext s').
Qed.

Lemma chunk_free_list_core p w s s' :
  ovf_core s → p ≠ Free → w = chunk_free_walk (Z.to_nat V3DA_MAX_CHUNKS) (heads (srv_ovf s) (j_ovf s) p) (srv_ovf s) →
  srv_ovf s' = w <| ov_staged := ov_staged (srv_ovf s') |> →
  (∀ jid, Held jid ≠ p → same_head (j_ovf s jid) (j_ovf s' jid)) → heads (srv_ovf s') (j_ovf s') p < 0 →
  (p ≠ Staged → ov_staged (srv_ovf s') = ov_staged (srv_ovf s)) → stage_ok (srv_ovf s') (srv_hw s') → ovf_core s'.
Proof.
  intros [Hc Hp Hst] Hne Hw Eo Hj Hneg Hstg Hok.
  pose proof (free_walk_geo (Z.to_nat V3DA_MAX_CHUNKS) (heads (srv_ovf s) (j_ovf s) p) (srv_ovf s)) as Hg.
  rewrite <- Hw in Hg. injection Hg as W1 W2 W3 _.
  assert (ov_gpuva (srv_ovf s') = ov_gpuva (srv_ovf s) ∧ ov_chunk_bytes (srv_ovf s') = ov_chunk_bytes (srv_ovf s) ∧
    ov_nchunks (srv_ovf s') = ov_nchunks (srv_ovf s)) as (E1 & E2 & E3) by (rewrite Eo; cbn; done).
  constructor; [|unfold pool_ok in *; by rewrite E1, E2, E3|done].
  apply (chunks_free p _ _ _ _ Hc Hne); try (rewrite <- Hw, Eo; reflexivity); [|done].
  intros [| |jid] H1 H2; simpl; [done| |by apply Hj]. left. apply Hstg. done.
Qed.

Lemma stage_consumed s : ovf_core s → hw_ovf_consumed (srv_hw s) ≠ 0 →
  0 ≤ ov_staged (srv_ovf s) ∧ hw_ovf_stage_va (srv_hw s) = 0 ∧
  u32 (hw_ovf_consumed (srv_hw s) - ov_gpuva (srv_ovf s)) / ov_chunk_bytes (srv_ovf s) = ov_staged (srv_ovf s).
Proof.
  intros [Hc Hp Hst] Hva. unfold stage_ok in Hst. destruct (Z.ltb_spec (ov_staged (srv_ovf s)) 0) as [|H0]; [tauto|].
  destruct Hst as [(_ & _ & ?)|[Hv Hcs]]; [done|]. split_and!; [done..|]. rewrite Hcs.
  pose proof (chunks_head_range _ _ Staged Hc H0) as Hr. simpl in Hr. destruct (chunk_va_exact _ _ Hp Hr) as [-> _].
  destruct Hp as (Hb & Hg & Hlt). set (i := ov_staged (srv_ovf s)) in *.
  replace (ov_gpuva (srv_ovf s) + i * ov_chunk_bytes (srv_ovf s) - ov_gpuva (srv_ovf s)) with (i * ov_chunk_bytes (srv_ovf s)) by lia.
  assert (0 ≤ i * ov_chunk_bytes (srv_ovf s) < ov_nchunks (srv_ovf s) * ov_chunk_bytes (srv_ovf s)) by nia.
  rewrite u32_small by lia. apply Z.div_mul. lia.
Qed.

Lemma stage_unconsumed s : ovf_core s → hw_ovf_consumed (srv_hw s) = 0 → ovf_core (s <| srv_hw ; hw_ovf_consumed := 0 |>).
Proof. intros Hcore Hz. apply (core_ext s); try done. unfold ovf_words. cbn. by rewrite Hz. Qed.

Lemma ovf_consume_core s :
  (∀ bin, active s V3DA_Q_BIN = Some bin → is_Some (job s bin)) → ovf_core s → ovf_core (ovf_consume s).
Proof.
  intros Hb Hcore. unfold ovf_consume. cbv zeta. set (s1 := s <| srv_hw ; hw_ovf_consumed := 0 |>).
  change (srv_ovf s1) with (srv_ovf s). change (active s1) with (active s).
  destruct (Z.eqb_spec (hw_ovf_consumed (srv_hw s)) 0) as [Hz|Hnz]; [by apply stage_unconsumed|]. cbn [negb andb].
  destruct (Z.eqb_spec (ov_chunk_bytes (srv_ovf s)) 0) as [Hz|_]; [destruct (oi_pool _ Hcore); lia|]. cbn [negb].
  destruct (stage_consumed s Hcore Hnz) as (H0 & Hv & ->). rewrite Z.eqb_refl. set (s2 := s1 <| srv_ovf ; ov_staged := -1 |>).
  change (active s2) with (active s).
  assert (stage_ok (srv_ovf s2) (srv_hw s2)) as Hok by (by apply stage_none).
  destruct (active s V3DA_Q_BIN) as [bin|] eqn:Ha.
  - specialize (Hb bin eq_refl). destruct Hcore as [Hc Hp _]. constructor; [|done|exact Hok].
    change (j_ovf (count_oom ?x)) with (j_ovf x).
    apply (chunks_move_one Staged (Held bin) _ _ _ _ Hc); try done.
    + intros x Hx. simpl. by rewrite fn_upd_ne.
    + left. cbn. rewrite fn_upd_eq. done.
    + intros [| |jid]; simpl; [by left| |].
      * right. split; [by apply (chunks_staged_alone _ _ Hc)|lia].
      * rewrite j_ovf_attach by done. left. repeat case_decide; try done; congruence.
    + by apply nfree_delta_0.
  - assert (ov_staged (srv_ovf (chunk_free_list (ov_staged (srv_ovf s)) s2)) = -1) as Es.
    { unfold s2. by rewrite free_list_staged. }
    refine (chunk_free_list_core Staged _ s _ Hcore _ eq_refl _ _ _ _ _); [done| | | | |].
    + rewrite Es. unfold s2. apply (free_list_staged _ _ s1).
    + intros jid _. by left.
    + cbn [heads]. by rewrite Es.
    + done.
    + by apply stage_none; [rewrite Es|..].
Qed.

Lemma consume_jobs s jid : is_Some (job (ovf_consume s) jid) ↔ is_Some (job s jid).
Proof.
  pose proof (ovf_consume_same s) as (_ & _ & J & _). specialize (J jid).
  split; intros H; [by apply (jkey_is_Some s (ovf_consume s))|by apply (jkey_is_Some (ovf_consume s) s)].
Qed.

Lemma ovf_service_core s :
  (∀ bin, active s V3DA_Q_BIN = Some bin → is_Some (job s bin)) → ovf_core s → ovf_core (ovf_service s).
Proof.
  intros Hb Hcore. unfold ovf_service. cbv zeta. apply ovf_stage_core.
  pose proof (ovf_consume_core s Hb Hcore) as H1. pose proof (consume_jobs s) as Hj. set (s1 := ovf_consume s) in *. clearbody s1.
  set (s2 := s1 <| srv_hw ; hw_ovf_missed := 0 |>). assert (ovf_core s2) as H2 by (by apply (core_ext s1)).
  destruct (active s V3DA_Q_BIN) as [bin|] eqn:Ha; [|by apply (core_ext s2)].
  assert (is_Some (job s2 bin)) as Hs2 by (apply (proj2 (Hj bin)), Hb; done). clearbody s2.
  apply grant_loop_core; case_match; try done. by apply (core_ext s2).
Qed.

(** ** Completion *)
Lemma chunks_move_core fuel bin r s :
  is_Some (job s bin) → is_Some (job s r) → bin ≠ r → ovf_core s → ovf_core (chunks_move fuel bin r s).
Proof.
  revert s. induction fuel as [|fuel IH]; intros s Hb Hr Hne Hcore; [done|]. simpl.
  destruct (Z.leb_spec 0 (j_ovf s bin)) as [H0|]; [|done]. set (x := j_ovf s bin) in *.
  set (s1 := set_job bin _ s). assert (is_Some (job s1 r)) as Hr1 by (by apply job_set_job_some).
  apply IH; [| |done|].
  - unfold chunk_attach. by do 2 apply job_set_job_some.
  - unfold chunk_attach. by do 2 apply job_set_job_some.
  - apply (core_chunks s); [done| |done|done]. destruct Hcore as [Hc _ _].
    assert (∀ jid, j_ovf s1 jid = if decide (bin = jid) then ov_next (srv_ovf s) x else j_ovf s jid) as H1.
    { intros jid. unfold s1. rewrite j_ovf_set_job. destruct Hb as [b Hb]. by rewrite Hb. }
    apply (chunks_move_one (Held bin) (Held r) _ _ _ _ Hc); try done.
    + congruence.
    + intros y Hy. simpl in *. fold x in Hy. rewrite fn_upd_ne by done. done.
    + left. cbn. fold x. rewrite fn_upd_eq, H1. by rewrite decide_False.
    + intros [| |jid]; simpl; [by left|by left|]. rewrite j_ovf_attach by done. rewrite H1. fold x. left.
      repeat case_decide; try done; congruence.
    + by apply nfree_delta_0.
Qed.

Lemma freed_core jid s s1 :
  is_Some (job s jid) → ovf_core s → srv_ovf s1 = chunk_free_walk (Z.to_nat V3DA_MAX_CHUNKS) (j_ovf s jid) (srv_ovf s) →
  srv_hw s1 = srv_hw s → (∀ r, r ≠ jid → same_head (j_ovf s r) (j_ovf s1 r)) → j_ovf s1 jid < 0 → ovf_core s1.
Proof.
  intros Hj Hcore Hw Ehw Hr Hjid. pose proof (free_walk_geo (Z.to_nat V3DA_MAX_CHUNKS) (j_ovf s jid) (srv_ovf s)) as Hg.
  rewrite <- Hw in Hg. injection Hg as W2 W3 _ W1. pose proof (oi_stage _ Hcore) as Hst.
  apply (chunk_free_list_core (Held jid) (srv_ovf s1) s); [done|done|exact Hw| | |exact Hjid|by intros _|].
  - by destruct (srv_ovf s1).
  - intros r Hne. apply Hr. congruence.
  - apply (stage_ok_ext (srv_ovf s) _ (srv_hw s)); try done. by rewrite Ehw.
Qed.

Lemma free_job_chunks_core jid s : is_Some (job s jid) → ovf_core s → ovf_core (free_job_chunks jid s).
Proof.
  intros Hj Hcore. assert (∀ r, j_ovf (free_job_chunks jid s) r = if decide (jid = r) then -1 else j_ovf s r) as Hjo.
  { intros r. unfold free_job_chunks. rewrite j_ovf_set_job. case_decide; [subst|done].
    change (job (chunk_free_list _ s) r) with (job s r). by destruct Hj as [b ->]. }
  apply (freed_core jid s); try done.
  - intros r Hr. rewrite Hjo. left. by rewrite decide_False.
  - rewrite Hjo. by rewrite decide_True.
Qed.

(** Freeing a queued job's chunks and the job with them. *)
Lemma free_job_core jid s : j_ovf s jid < 0 → ovf_core s → ovf_core (free_job jid s).
Proof.
  intros Hj Hcore. apply (core_ext s); try done. intros r. unfold j_ovf, job, free_job. simpl.
  destruct (decide (r = jid)) as [->|Hne]; [rewrite lookup_delete_eq; by right|by rewrite lookup_delete_ne].
Qed.
End env.
