(* ===== verification/OvfKept.v ===== *)
(** The pool's invariant is kept by completing and discarding jobs, by a reset, by the
    interrupt handler, and so by everything the scheduler does. *)
From S2P Require Import Prelude Proto State Lowmem Hw Fence Bo BoInv BoSteps BoSpec Ovf Waits Jobs Submit Events.
From S2P Require Import SchedInv SchedKick SchedRun SchedReach SchedSpec Kept OvfInv OvfSteps.

#[local] Opaque chunk_free_walk.

(** ** Links between a bin job and its render job *)
Definition lview (j : v3da_job_t) : Z * option Z * option Z := (j_queue j, j_bin j, j_render j).
(** A job whose partner [jid] is gone. *)
Definition cut (jid : Z) (v : Z * option Z * option Z) : Z * option Z * option Z :=
  let '(qu, b, r) := v in
  (qu, if bool_decide (b = Some jid) then None else b, if bool_decide (r = Some jid) then None else r).

Lemma lview_job s jid qu b r : lview <$> job s jid = Some (qu, b, r) →
  ∃ j, job s jid = Some j ∧ j_queue j = qu ∧ j_bin j = b ∧ j_render j = r.
Proof. destruct (job s jid) as [j|]; [|done]. unfold lview. simpl. intros. simplify_eq. by exists j. Qed.

Lemma links_ext s s' : (∀ jid, lview <$> job s' jid = lview <$> job s jid) → links_inv s → links_inv s'.
Proof.
  intros H [H1 H2].
  assert (∀ x jx, job s' x = Some jx → ∃ j0, job s x = Some j0 ∧ j_queue j0 = j_queue jx ∧ j_bin j0 = j_bin jx ∧ j_render j0 = j_render jx) as Hb.
  { intros x jx Hx. apply lview_job. by rewrite <- H, Hx. }
  assert (∀ x j0, job s x = Some j0 → ∃ jx, job s' x = Some jx ∧ j_queue jx = j_queue j0 ∧ j_bin jx = j_bin j0 ∧ j_render jx = j_render j0) as Hf.
  { intros x j0 Hx. apply lview_job. by rewrite H, Hx. }
  constructor.
  - intros b jb r Hjb Hr. destruct (Hb _ _ Hjb) as (j0 & Hj0 & Eq & Eb & Er). rewrite <- Er in Hr.
    destruct (H1 _ _ _ Hj0 Hr) as (Q & B & jr & Hjr & Hrb). destruct (Hf _ _ Hjr) as (jr' & Hjr' & _ & Eb' & _).
    split_and!; [congruence..|]. exists jr'. split; congruence.
  - intros r jr b Hjr Hrb. destruct (Hb _ _ Hjr) as (j0 & Hj0 & Eq & Eb & Er). rewrite <- Eb in Hrb.
    destruct (H2 _ _ _ Hj0 Hrb) as (Q & B & jb & Hjb & Hbr). destruct (Hf _ _ Hjb) as (jb' & Hjb' & _ & _ & Er').
    split_and!; [congruence..|]. exists jb'. split; congruence.
Qed.

Lemma links_drop jid s s' :
  (∀ x, x ≠ jid → lview <$> job s' x = cut jid ∘ lview <$> job s x) → job s' jid = None → links_inv s → links_inv s'.
Proof.
  intros H Hno [H1 H2].
  assert (∀ x jx, job s' x = Some jx → x ≠ jid ∧ ∃ j0, job s x = Some j0 ∧ (j_queue jx, j_bin jx, j_render jx) = cut jid (lview j0)) as Hb.
  { intros x jx Hx. assert (x ≠ jid) as Hne by congruence. split; [done|]. specialize (H x Hne). rewrite Hx in H.
    destruct (job s x) as [j0|]; [|done]. exists j0. split; [done|]. by apply (inj Some) in H. }
  assert (∀ x j0, x ≠ jid → job s x = Some j0 → ∃ jx, job s' x = Some jx ∧ (j_queue jx, j_bin jx, j_render jx) = cut jid (lview j0)) as Hf.
  { intros x j0 Hne Hx. specialize (H x Hne). rewrite Hx in H. destruct (job s' x) as [jx|]; [|done].
    exists jx. split; [done|]. by apply (inj Some) in H. }
  unfold cut, lview in Hb, Hf. constructor.
  - intros b jb r Hjb Hr. destruct (Hb _ _ Hjb) as (Hne & j0 & Hj0 & Ec). injection Ec as Eq Eb Er.
    rewrite Hr in Er.
    destruct (decide (j_render j0 = Some jid)) as [Hc|Hc]; [by rewrite bool_decide_eq_true_2 in Er|].
    rewrite bool_decide_eq_false_2 in Er by done. symmetry in Er. assert (r ≠ jid) as Hrj by congruence.
    destruct (H1 _ _ _ Hj0 Er) as (Q & B & jr & Hjr & Hrb). destruct (Hf _ _ Hrj Hjr) as (jr' & Hjr' & Ec'). injection Ec' as _ Eb' _.
    split_and!; [congruence|by rewrite Eb, B|]. exists jr'. split; [done|]. rewrite Eb', Hrb. by rewrite bool_decide_eq_false_2 by congruence.
  - intros r jr b Hjr Hrb. destruct (Hb _ _ Hjr) as (Hne & j0 & Hj0 & Ec). injection Ec as Eq Eb Er.
    rewrite Hrb in Eb.
    destruct (decide (j_bin j0 = Some jid)) as [Hc|Hc]; [by rewrite bool_decide_eq_true_2 in Eb|].
    rewrite bool_decide_eq_false_2 in Eb by done. symmetry in Eb. assert (b ≠ jid) as Hbj by congruence.
    destruct (H2 _ _ _ Hj0 Eb) as (Q & B & jb & Hjb & Hbr). destruct (Hf _ _ Hbj Hjb) as (jb' & Hjb' & Ec'). injection Ec' as _ _ Er'.
    split_and!; [congruence|rewrite Er, B; done|]. exists jb'. split; [done|]. rewrite Er', Hbr. by rewrite bool_decide_eq_false_2 by congruence.
Qed.

(** The partners of a job are those it names. *)
Lemma links_partner s jid j x jx : links_inv s → job s jid = Some j → job s x = Some jx →
  (j_bin jx = Some jid ↔ j_render j = Some x) ∧ (j_render jx = Some jid ↔ j_bin j = Some x).
Proof.
  intros [H1 H2] Hj Hx. split; split; intros H.
  - destruct (H2 _ _ _ Hx H) as (_ & _ & jb & ? & ?). congruence.
  - destruct (H1 _ _ _ Hj H) as (_ & _ & jb & ? & ?). congruence.
  - destruct (H1 _ _ _ Hx H) as (_ & _ & jb & ? & ?). congruence.
  - destruct (H2 _ _ _ Hj H) as (_ & _ & jb & ? & ?). congruence.
Qed.

Lemma lview_set_job g f jid s x : (∀ b, lview (f b) = g (lview b)) →
  lview <$> job (set_job jid f s) x = (if decide (jid = x) then g ∘ lview else lview) <$> job s x.
Proof.
  intros Hf. unfold job, set_job. simpl. case_decide as H; [subst; rewrite lookup_alter_eq|by rewrite lookup_alter_ne].
  destruct (_ !! x); simpl; [|done]. by rewrite Hf.
Qed.
Lemma lview_set_keep f jid s x : (∀ b, lview (f b) = lview b) → lview <$> job (set_job jid f s) x = lview <$> job s x.
Proof. intros Hf. rewrite (lview_set_job (λ v, v)) by done. case_decide; by destruct (job s x). Qed.

Definition no_bin (v : Z * option Z * option Z) := let '(qu, _, r) := v in (qu, @None Z, r).
Definition no_render (v : Z * option Z * option Z) := let '(qu, b, _) := v in (qu, b, @None Z).

Section env.
Context `{E : Env}.

Lemma lview_attach jid idx s x : lview <$> job (chunk_attach jid idx s) x = lview <$> job s x.
Proof. unfold chunk_attach. by rewrite lview_set_keep. Qed.
Lemma lview_move fuel b r s x : lview <$> job (chunks_move fuel b r s) x = lview <$> job s x.
Proof.
  revert s. induction fuel as [|fuel IH]; intros s; [done|]. simpl. case_match; [|done].
  by rewrite IH, lview_attach, lview_set_keep.
Qed.
Lemma lview_free_chunks jid s x : lview <$> job (free_job_chunks jid s) x = lview <$> job s x.
Proof. unfold free_job_chunks. by rewrite lview_set_keep. Qed.

Lemma lview_done_chunks jid j err s x :
  lview <$> job (done_chunks jid j err s) x =
  (if decide (j_queue j = V3DA_Q_BIN ∧ j_render j = Some x) then no_bin ∘ lview else lview) <$> job s x.
Proof.
  unfold done_chunks. destruct (Z.eqb_spec (j_queue j) V3DA_Q_BIN) as [Hq|Hq].
  - rewrite lview_free_chunks. destruct (j_render j) as [r|].
    + rewrite lview_move, (lview_set_job no_bin) by done. destruct (decide (r = x)) as [->|Hne].
      * by rewrite decide_True.
      * rewrite decide_False; [done|]. intros [_ ?]. congruence.
    + by rewrite decide_False by (by intros [_ ?]).
  - rewrite decide_False by (by intros [? _]). case_match; [apply lview_free_chunks|done].
Qed.

Lemma lview_unlink_bin j s x :
  lview <$> job (unlink_bin j s) x = (if decide (j_bin j = Some x) then no_render ∘ lview else lview) <$> job s x.
Proof.
  unfold unlink_bin. destruct (j_bin j) as [b|]; [|done]. rewrite (lview_set_job no_render) by done.
  repeat case_decide; try done; congruence.
Qed.

(** What unlinking leaves is what [cut] says. *)
Lemma cut_partner s jid j x jx : links_inv s → job s jid = Some j → job s x = Some jx →
  (if decide (j_bin j = Some x) then no_render else id)
    ((if decide (j_render j = Some x) then no_bin else id) (lview jx)) = cut jid (lview jx).
Proof.
  intros Hl Hj Hx. destruct (links_partner _ _ _ _ _ Hl Hj Hx) as [P1 P2]. unfold cut, lview.
  destruct (decide (j_bin j = Some x)) as [H1|H1]; destruct (decide (j_render j = Some x)) as [H2|H2]; simpl;
    repeat (case_bool_decide; try tauto); done.
Qed.

Lemma drop_pins_sched j s : srv_sched (drop_pins j s) = srv_sched s.
Proof. unfold drop_pins. case_match; [apply unpin_sched|done]. Qed.

Lemma job_done_links jid err now s : links_inv s → links_inv (job_done jid err now s).
Proof.
  intros Hl. unfold job_done. destruct (job s jid) as [j|] eqn:Hj; [|done]. cbv zeta.
  set (s1 := done_count _ _ (done_leave jid j now s)).
  assert (∀ x, job s1 x = job s x) as H1 by (intros x; unfold s1, done_leave; repeat case_match; done). clearbody s1.
  set (err' := err || j_error j). clearbody err'.
  set (s4 := drop_pins j _). assert (∀ x, lview <$> job s4 x = lview <$> job (unlink_bin j (done_chunks jid j err' s1)) x) as H4.
  { intros x. unfold s4, job at 1. by rewrite drop_pins_sched. }
  clearbody s4. set (s5 := v3da_fence_complete j err' s4).
  assert (srv_sched s5 = srv_sched s4) as E5 by (unfold s5, v3da_fence_complete; by case_match). clearbody s5.
  apply (links_drop jid s); [|by apply lookup_delete_eq|done]. intros x Hne.
  change (lview <$> delete jid (jobs (srv_sched s5)) !! x = cut jid ∘ lview <$> job s x).
  rewrite lookup_delete_ne, E5 by done. fold (job s4 x). rewrite H4, lview_unlink_bin.
  destruct (job s x) as [jx|] eqn:Hx; rewrite <- H1 in Hx.
  - pose proof (lview_done_chunks jid j err' s1 x) as Hd. rewrite Hx in Hd.
    destruct (job (done_chunks jid j err' s1) x) as [jx'|]; [|by case_decide].
    rewrite H1 in Hx. pose proof (cut_partner s jid j x jx Hl Hj Hx) as Hc. 
    assert (lview jx' = (if decide (j_render j = Some x) then no_bin else id) (lview jx)) as Hv.
    2:{ transitivity (Some ((if decide (j_bin j = Some x) then no_render else id) (lview jx'))); [by destruct (decide (j_bin j = Some x))|]. by rewrite Hv, Hc. }
    apply (inj Some). etrans; [exact Hd|]. destruct (decide (j_render j = Some x)) as [Hr|Hr].
    + destruct Hl as [H _]. destruct (H _ _ _ Hj Hr) as (Hq & _). by rewrite decide_True.
    + by rewrite decide_False by (by intros [_ ?]).
  - pose proof (lview_done_chunks jid j err' s1 x) as Hd. rewrite Hx in Hd.
    destruct (job (done_chunks jid j err' s1) x); [by case_decide|]. by case_decide.
Qed.

(** ** What releasing buffers leaves alone *)
Definition ovf_part (s : v3da_srv_t) := (srv_ovf s, ovf_words (srv_hw s), srv_sched s).
Lemma core_part s s' : ovf_part s' = ovf_part s → ovf_core s → ovf_core s'.
Proof.
  intros Hp Hcore. injection Hp as Eo Ew1 Ew2 Ew3 Es. apply (core_ext s); [done|by rewrite Eo|unfold ovf_words; congruence|].
  intros jid. left. by apply j_ovf_sched; rewrite Es.
Qed.

Lemma quarantine_begin_part i s : ovf_part (quarantine_begin i s) = ovf_part s.
Proof.
  unfold quarantine_begin. set (s1 := export_withdraw i s).
  assert (ovf_part s1 = ovf_part s) as <- by (unfold s1, export_withdraw; repeat case_match; done). clearbody s1. cbv zeta.
  set (s2 := scanout_release _ _).
  assert (ovf_part s2 = ovf_part s1) as <- by (unfold s2, scanout_release; repeat case_match; done). clearbody s2.
  case_match; done.
Qed.

Lemma unpin_part hs s : ovf_part (v3da_bo_unpin hs s) = ovf_part s.
Proof.
  unfold v3da_bo_unpin. revert s. induction hs as [|h hs IH]; intros s; [done|]. simpl. rewrite IH.
  unfold unpin_one. case_match; [|done]. case_match; [|done]. by rewrite quarantine_begin_part.
Qed.

Lemma drop_pins_part j s : ovf_part (drop_pins j s) = ovf_part s.
Proof. unfold drop_pins. case_match; [apply unpin_part|done]. Qed.

(** ** Completing and discarding *)
Lemma done_chunks_core jid j err s :
  job s jid = Some j → links_inv s → ovf_core s →
  let s' := done_chunks jid j err s in ovf_core s' ∧ j_ovf s' jid < 0 ∧ ∀ x, is_Some (job s' x) ↔ is_Some (job s x).
Proof.
  intros Hj Hl Hcore. cbv zeta.
  assert (∀ s, is_Some (job s jid) → j_ovf (free_job_chunks jid s) jid = -1) as Hf.
  { clear. intros s [b Hb]. unfold free_job_chunks. rewrite j_ovf_set_job, decide_True by done.
    change (job (chunk_free_list _ s) jid) with (job s jid). by rewrite Hb. }
  assert (∀ x, is_Some (job (done_chunks jid j err s) x) ↔ is_Some (job s x)) as Hsome.
  { intros x. rewrite <- !(fmap_is_Some lview), lview_done_chunks. by rewrite !fmap_is_Some. }
  split_and!; [| |done]; unfold done_chunks in *; destruct (j_queue j =? V3DA_Q_BIN).
  - destruct (j_render j) as [r|] eqn:Hr; [|by apply free_job_chunks_core].
    destruct Hl as [H1 _]. destruct (H1 _ _ _ Hj Hr) as (_ & Hb & jr & Hjr & Hrb).
    assert (jid ≠ r) as Hne by congruence. set (s1 := set_job r _ s).
    assert (ovf_core s1) as C1 by (apply (core_ext s); try done; intros x; left; by apply j_ovf_set_keep).
    assert (is_Some (job s1 jid) ∧ is_Some (job s1 r)) as [S1 S2] by (by split; apply job_set_job_some; eexists). clearbody s1.
    apply free_job_chunks_core; [|by apply chunks_move_core].
    by rewrite <- (fmap_is_Some lview), lview_move, fmap_is_Some.
  - destruct (0 <=? j_ovf s jid); [by apply free_job_chunks_core|done].
  - rewrite Hf; [done|]. destruct (Hsome jid) as [_ Hs]. destruct (j_render j) as [r|]; [|by eexists].
    rewrite <- (fmap_is_Some lview), lview_move, fmap_is_Some. apply job_set_job_some. by eexists.
  - destruct (Z.leb_spec 0 (j_ovf s jid)); [rewrite Hf; [done|by eexists]|done].
Qed.

Lemma job_done_core jid err now s : ovf_inv s → ovf_core (job_done jid err now s).
Proof.
  intros [Hcore Hl]. unfold job_done. destruct (job s jid) as [j|] eqn:Hj; [|done]. cbv zeta.
  set (s1 := done_count _ _ (done_leave jid j now s)).
  assert ((∀ x, job s1 x = job s x) ∧ srv_ovf s1 = srv_ovf s ∧ srv_hw s1 = srv_hw s) as (H1 & Eo & Eh).
  { unfold s1, done_leave. split_and!; repeat case_match; done. }
  clearbody s1. set (err' := err || j_error j). clearbody err'.
  assert (ovf_core s1) as C1.
  { apply (core_ext s); [done|by rewrite Eo|by rewrite Eh|]. intros x. left. unfold j_ovf. by rewrite H1. }
  assert (links_inv s1) as L1 by (apply (links_ext s); [intros x; by rewrite H1|done]).
  destruct (done_chunks_core jid j err' s1) as (C2 & Hneg & _); [by rewrite H1|done|done|].
  set (s2 := done_chunks jid j err' s1) in *. clearbody s2.
  assert (∀ x, j_ovf (unlink_bin j s2) x = j_ovf s2 x) as J3.
  { intros x. unfold unlink_bin. case_match; [by apply j_ovf_set_keep|done]. }
  assert (ovf_core (unlink_bin j s2)) as C3.
  { apply (core_ext s2); [done|unfold unlink_bin; by case_match|unfold unlink_bin; by case_match|]. intros x. left. apply J3. }
  set (s3 := unlink_bin j s2) in *. clearbody s3. pose proof (drop_pins_part j s3) as P4.
  assert (ovf_core (drop_pins j s3)) as C4 by (by apply (core_part s3)).
  set (s4 := drop_pins j s3) in *. clearbody s4.
  assert (ovf_part (v3da_fence_complete j err' s4) = ovf_part s4) as P5 by (unfold v3da_fence_complete; by case_match).
  assert (ovf_core (v3da_fence_complete j err' s4)) as C5 by (by apply (core_part s4)).
  set (s5 := v3da_fence_complete j err' s4) in *. clearbody s5. apply free_job_core; [|by apply (core_part s5)].
  change (j_ovf s5 jid < 0). rewrite (j_ovf_sched s4 s5) by (by injection P5 as _ _ _ _ ->).
  rewrite (j_ovf_sched s3 s4) by (by injection P4 as _ _ _ _ ->). by rewrite J3.
Qed.

Lemma ovf_job_done jid err now s : ovf_inv s → ovf_inv (job_done jid err now s).
Proof. intros H. split; [by apply job_done_core|by apply job_done_links; apply H]. Qed.

(** A queued job dropped with its client: both partners forget it. *)
Definition unlink_render (j : v3da_job_t) (s : v3da_srv_t) : v3da_srv_t :=
  match j_render j with Some r => set_job r (λ b, b <| j_bin := None |>) s | None => s end.

Lemma lview_unlink_render j s x :
  lview <$> job (unlink_render j s) x = (if decide (j_render j = Some x) then no_bin ∘ lview else lview) <$> job s x.
Proof.
  unfold unlink_render. destruct (j_render j) as [r|]; [|done]. rewrite (lview_set_job no_bin) by done.
  repeat case_decide; try done; congruence.
Qed.

Lemma unlinked_cut s jid j x : links_inv s → job s jid = Some j →
  lview <$> job (unlink_render j (unlink_bin j s)) x = cut jid ∘ lview <$> job s x.
Proof.
  intros Hl Hj. rewrite lview_unlink_render. pose proof (lview_unlink_bin j s x) as Hb.
  destruct (job (unlink_bin j s) x) as [j1|]; destruct (job s x) as [jx|] eqn:Hx; try (by destruct (decide (j_bin j = Some x))).
  - assert (lview j1 = (if decide (j_bin j = Some x) then no_render else id) (lview jx)) as Hv.
    { apply (inj Some). etrans; [exact Hb|]. by destruct (decide (j_bin j = Some x)). }
    pose proof (cut_partner s jid j x jx Hl Hj Hx) as Hc.
    transitivity (Some ((if decide (j_render j = Some x) then no_bin else id) (lview j1))); [by destruct (decide (j_render j = Some x))|].
    transitivity (Some (cut jid (lview jx))); [|done]. rewrite <- Hc, Hv. f_equal. destruct (lview jx) as [[? ?] ?].
    by destruct (decide (j_bin j = Some x)), (decide (j_render j = Some x)).
Qed.

Lemma discard_split jid s j : job s jid = Some j →
  job_discard jid s =
  (let s1 := unlink_render j (unlink_bin j s) in
   let s2 := if 0 <=? j_ovf s1 jid then chunk_free_list (j_ovf s1 jid) s1 else s1 in
   free_job jid (drop_pins j s2)).
Proof. intros Hj. unfold job_discard. by rewrite Hj. Qed.

Lemma ovf_discard jid s : ovf_inv s → ovf_inv (job_discard jid s).
Proof.
  intros [Hcore Hl]. destruct (job s jid) as [j|] eqn:Hj; [|by unfold job_discard; rewrite Hj].
  rewrite (discard_split jid s j Hj). cbv zeta. pose proof (unlinked_cut s jid j) as Hcut.
  set (s1 := unlink_render j (unlink_bin j s)) in *.
  assert (∀ x, j_ovf s1 x = j_ovf s x) as J1.
  { intros x. unfold s1, unlink_render, unlink_bin. repeat case_match; rewrite ?j_ovf_set_keep by done; done. }
  assert (ovf_core s1) as C1.
  { apply (core_ext s); [done| | |intros x; left; apply J1]; unfold s1, unlink_render, unlink_bin; by repeat case_match. }
  assert (is_Some (job s1 jid)) as S1 by (rewrite <- (fmap_is_Some lview), Hcut, fmap_is_Some by done; by eexists).
  clearbody s1. set (s2 := if _ : bool then chunk_free_list _ s1 else s1).
  assert (ovf_core (free_job jid s2) ∧ srv_sched s2 = srv_sched s1) as [C2 E2].
  { unfold s2. destruct (Z.leb_spec 0 (j_ovf s1 jid)); [|split; [by apply free_job_core|done]]. split; [|done].
    assert (∀ r, j_ovf (free_job jid (chunk_free_list (j_ovf s1 jid) s1)) r = if decide (r = jid) then -1 else j_ovf s1 r) as Hjo.
    { intros r. unfold j_ovf, job, free_job. simpl. case_decide; [subst; by rewrite lookup_delete_eq|by rewrite lookup_delete_ne]. }
    apply (freed_core jid s1); try done.
    - intros r Hr. rewrite Hjo. left. by rewrite decide_False.
    - rewrite Hjo. by rewrite decide_True. }
  clearbody s2. pose proof (drop_pins_part j s2) as P3. set (s3 := drop_pins j s2) in *. clearbody s3.
  injection P3 as Eo Ew1 Ew2 Ew3 Es. split.
  - apply (core_part (free_job jid s2)); [|done]. unfold ovf_part, free_job, ovf_words. cbn. by rewrite Eo, Ew1, Ew2, Ew3, Es.
  - apply (links_drop jid s); [|by apply lookup_delete_eq|done]. intros x Hne. rewrite <- Hcut by done.
    change (lview <$> delete jid (jobs (srv_sched s3)) !! x = lview <$> job s1 x). by rewrite lookup_delete_ne, Es, E2.
Qed.

(** ** The reset and the interrupt handler *)
Lemma hw_reset_ovf s : srv_ovf (v3da_hw_reset s).2 = srv_ovf s ∧
  hw_ovf_stage_va (srv_hw (v3da_hw_reset s).2) = 0 ∧ hw_ovf_consumed (srv_hw (v3da_hw_reset s).2) = 0.
Proof. unfold v3da_hw_reset. cbv zeta. cbn [snd]. case_match; done. Qed.

Lemma staged_freed s w s' :
  ovf_core s → w = chunk_free_walk (Z.to_nat V3DA_MAX_CHUNKS) (ov_staged (srv_ovf s)) (srv_ovf s) →
  srv_ovf s' = w <| ov_staged := -1 |> → hw_ovf_stage_va (srv_hw s') = 0 → hw_ovf_consumed (srv_hw s') = 0 →
  (∀ x, j_ovf s' x = j_ovf s x) → ovf_core s'.
Proof.
  intros Hcore Hw Eo Hv Hc Hj. assert (ov_staged (srv_ovf s') = -1) as Es by (by rewrite Eo).
  apply (chunk_free_list_core Staged w s); [done|done|exact Hw|by rewrite Es| |by cbn [heads]; rewrite Es|done|].
  - intros x _. left. apply Hj.
  - apply stage_none; [by rewrite Es|done|done].
Qed.

Lemma free_list_unstage h s : srv_ovf (chunk_free_list h s <| srv_ovf ; ov_staged := -1 |>) =
  chunk_free_walk (Z.to_nat V3DA_MAX_CHUNKS) h (srv_ovf s) <| ov_staged := -1 |>.
Proof. reflexivity. Qed.

(** The reset with the words it clears, then the staged chunk. *)
Lemma unstage_core s s2 :
  ovf_core s → srv_ovf s2 = srv_ovf s → (∀ x, j_ovf s2 x = j_ovf s x) →
  hw_ovf_stage_va (srv_hw s2) = 0 → hw_ovf_consumed (srv_hw s2) = 0 →
  ovf_core (if 0 <=? ov_staged (srv_ovf s2)
            then chunk_free_list (ov_staged (srv_ovf s2)) s2 <| srv_ovf ; ov_staged := -1 |> else s2).
Proof.
  intros Hcore Eo Hj Hv Hc. destruct (Z.leb_spec 0 (ov_staged (srv_ovf s2))) as [H0|H0].
  - pose proof (free_list_unstage (ov_staged (srv_ovf s2)) s2) as Hw. rewrite Eo in Hw at 2. rewrite Eo in Hw at 2.
    refine (staged_freed s _ _ Hcore eq_refl Hw Hv Hc Hj).
  - destruct Hcore as [Hk Hp _]. constructor; [|by rewrite Eo|by apply stage_none].
    apply (chunks_ext _ _ _ _ Hk); try (by rewrite Eo). intros [| |x]; simpl; left; by rewrite ?Eo, ?Hj.
Qed.

Lemma unwait_core s : ovf_core s → ovf_core (s <| srv_ovf ; ov_bin_waiting := 0 |>).
Proof. intros H. by apply (core_ext s). Qed.

Lemma wedge_reset_core s : ovf_core s → ovf_core (wedge_reset s).
Proof.
  intros Hcore. unfold wedge_reset. cbv zeta.
  pose proof (hw_reset_ovf (s <| srv_st ; wedges ::= λ n, u32 (n + 1) |>)) as (Eo & Ev & Ec).
  pose proof (f_equal jobs (hw_reset_sched (s <| srv_st ; wedges ::= λ n, u32 (n + 1) |>))) as Es.
  revert Eo Ev Ec Es. generalize (v3da_hw_reset (s <| srv_st ; wedges ::= λ n, u32 (n + 1) |>)).2. intros s1 Eo Ev Ec Es.
  assert (∀ x, j_ovf s1 x = j_ovf s x) as Hj by (intros x; by apply j_ovf_sched).
  apply unwait_core, (unstage_core s); [done|exact Eo|exact Hj|exact Ev|exact Ec].
Qed.

Lemma outomem_core core s : ovf_core s → ovf_core (outomem_service core s).
Proof.
  intros Hcore. unfold outomem_service. destruct (has core INT_OUTOMEM); [|done]. cbv zeta.
  set (va := hw_ovf_stage_va (srv_hw s)). destruct Hcore as [Hc Hp Hst]. destruct (Z.eqb_spec va 0) as [Hz|Hnz]; cbn [negb].
  - constructor; [done|done|]. apply (stage_ok_ext (srv_ovf s) _ (srv_hw s)); try done. unfold ovf_words. cbn. by rewrite <- Hz.
  - constructor; [done|done|]. unfold stage_ok in *. cbn [upd emit srv_ovf srv_hw]. fold va in Hst.
    destruct (Z.ltb_spec (ov_staged (srv_ovf s)) 0); [destruct Hst; done|]. right. cbn.
    destruct Hst as [(? & _)|[? _]]; [done|done].
Qed.

Lemma hw_service_core s : ovf_core s → ovf_core (hw_service s).2.
Proof.
  intros Hcore. unfold hw_service, rd_core, rd_hub. cbv zeta iota beta. cbn [snd].
  match goal with |- ovf_core (fold_events ?c ?h ?x) => apply (core_ext x); [|done|done|by left]; apply outomem_core end.
  set (core := env_core _ _). set (hub := env_hub _ _). set (s1 := if negb (core =? 0) then _ else _).
  assert (ovf_core s1) as H1.
  { apply (core_part s); [|done]. unfold s1, csd_done_stamp. destruct (negb _); [|done]. by case_match. }
  clearbody s1. apply (core_part s1); [|done]. unfold mmu_ack. destruct (negb (hub =? 0)); [|done]. by case_match.
Qed.

(** ** Kept by the scheduler *)
Lemma links_jobs s s' : jobs (srv_sched s') = jobs (srv_sched s) → links_inv s → links_inv s'.
Proof. intros Ej. apply links_ext. intros x. unfold job. by rewrite Ej. Qed.

Lemma ovf_part_inv s s' : ovf_part s' = ovf_part s → ovf_inv s → ovf_inv s'.
Proof.
  intros Hp [Hc Hl]. split; [by apply (core_part s)|]. injection Hp as _ _ _ _ Es. apply (links_jobs s); [by rewrite Es|done].
Qed.

Lemma ovf_views s s' : hw_view (srv_hw s') = hw_view (srv_hw s) → ovf_view (srv_ovf s') = ovf_view (srv_ovf s) →
  (∀ jid, jview <$> job s' jid = jview <$> job s jid) → ovf_inv s → ovf_inv s'.
Proof.
  intros Hh Ho Hj [Hc Hl].
  assert (∀ x, (j_ovf s' x = j_ovf s x) ∧ lview <$> job s' x = lview <$> job s x) as H.
  { intros x. specialize (Hj x). unfold j_ovf. destruct (job s' x), (job s x); try done. simpl in *. unfold jview, lview in *.
    injection Hj as -> _ _ -> _ -> ->. done. }
  split; [|apply (links_ext s); [intros x; apply H|done]].
  apply (core_ext s); [done|done| |intros x; left; apply H]. unfold hw_view in Hh. unfold ovf_words. by injection Hh as _ _ _ _ -> -> -> _.
Qed.
Lemma ovf_still s s' : still s s' → ovf_inv s → ovf_inv s'.
Proof. intros []. by apply ovf_views. Qed.

Lemma ovf_frame s s' :
  srv_ovf s' = srv_ovf s → srv_hw s' = srv_hw s → jobs (srv_sched s') = jobs (srv_sched s) → ovf_inv s → ovf_inv s'.
Proof.
  intros Eo Eh Ej [Hc Hl]. split; [|by apply (links_jobs s)]. apply (core_ext s); [done|by rewrite Eo|by rewrite Eh|].
  intros x. left. by apply j_ovf_sched.
Qed.

Lemma ovf_set_job jid f s : (∀ b, j_ovf_head (f b) = j_ovf_head b) → (∀ b, lview (f b) = lview b) → ovf_inv s → ovf_inv (set_job jid f s).
Proof.
  intros Ho Hv [Hc Hl]. split.
  - apply (core_ext s); [done..|]. intros x. left. by apply j_ovf_set_keep.
  - apply (links_ext s); [|done]. intros x. by apply lview_set_keep.
Qed.

Lemma ovf_job_start jid j now s : ovf_inv s → ovf_inv (job_start jid j now s).
Proof.
  intros H. unfold job_start. cbv zeta. set (s1 := set_q _ _ s). assert (ovf_inv s1) as H1 by (by apply (ovf_frame s)). clearbody s1.
  set (s2 := set_job jid _ s1). assert (ovf_inv s2) as H2 by (by apply ovf_set_job). clearbody s2.
  set (s4 := set_q _ _ s2 <| srv_fp ::= _ |>). assert (ovf_inv s4) as H4 by (by apply (ovf_frame s2)). clearbody s4.
  destruct (is_hw_queue (j_queue j)); [|done]. apply ovf_set_job; [done..|]. by apply (ovf_frame s4).
Qed.

Lemma lview_grant_loop n bin s x : lview <$> job (ovf_grant_loop n bin s) x = lview <$> job s x.
Proof.
  revert s. induction n as [|n IH]; intros s; [done|]. simpl. unfold ovf_grant_direct. destruct (chunk_alloc _) as [i o].
  destruct (i <? 0); [done|]. rewrite IH. etrans; [apply (lview_attach bin i (emit (E_core PTB_BPOS (ov_chunk_bytes o)) (emit (E_core PTB_BPOA (chunk_va o i)) (s <| srv_ovf := o |>))))|done].
Qed.
Lemma lview_consume s x : lview <$> job (ovf_consume s) x = lview <$> job s x.
Proof.
  unfold ovf_consume. cbv zeta. set (s1 := s <| srv_hw ; hw_ovf_consumed := 0 |>). change (job s x) with (job s1 x). clearbody s1.
  case_match; [|done]. set (s2 := if _ =? _ then _ else s1). assert (job s1 x = job s2 x) as -> by (unfold s2; by case_match). clearbody s2.
  case_match; [|done]. etrans; [apply (lview_attach _ _ s2)|done].
Qed.
Lemma lview_service s x : lview <$> job (ovf_service s) x = lview <$> job s x.
Proof.
  unfold ovf_service. cbv zeta. rewrite <- (lview_consume s). set (s1 := ovf_consume s). clearbody s1.
  set (s2 := match active s V3DA_Q_BIN with Some _ => _ | None => _ end).
  assert (lview <$> job s2 x = lview <$> job s1 x) as <-.
  { unfold s2. case_match; [|done]. rewrite lview_grant_loop. by case_match. }
  clearbody s2. unfold job. by rewrite ovf_stage_sched.
Qed.

Lemma release_part i s : ovf_part (quarantine_release i s) = ovf_part s.
Proof.
  unfold quarantine_release. cbv zeta. set (s1 := if bo_imported _ then _ else _).
  assert (ovf_part s1 = ovf_part s) as <- by (unfold s1, block_put; repeat case_match; reflexivity). clearbody s1.
  assert (∀ va n h, ovf_words (v3da_hw_va_free va n h) = ovf_words h) as Hw by (intros; unfold v3da_hw_va_free; by case_match).
  unfold ovf_part. cbn. by rewrite Hw.
Qed.

#[export] Instance ovf_kept : Kept ovf_inv.
Proof.
  constructor.
  - apply ovf_still.
  - intros jid j now s _ _ _. apply ovf_job_start.
  - intros jid err now s _. apply ovf_job_done.
  - intros s [Hc Hl]. split; [by apply ovf_stage_core|]. apply (links_jobs s); [by rewrite ovf_stage_sched|done].
  - intros s Hinv [Hc Hl]. split; [|apply (links_ext s); [apply lview_service|done]].
    apply ovf_service_core; [|done]. intros bin Ha. destruct (si_active _ _ Hinv _ _ Ha) as [[slot Hk] _].
    by destruct (job s bin); [eexists|].
  - intros s _ [Hc Hl]. split; [by apply wedge_reset_core|]. apply (links_jobs s); [by rewrite wedge_reset_sched|done].
  - intros s [Hc Hl]. split; [by apply hw_service_core|]. apply (links_jobs s); [by rewrite hw_service_sched|done].
  - intros s. apply ovf_part_inv. apply (for_frame ovf_part). intros i s'. unfold quarantine_poll_one.
    case_match; [apply release_part|done].
Qed.
End env.
