(* ===== verification/Pins.v ===== *)
(** Pinned buffer objects: only pinning and unpinning change which objects are pinned, how
    often, and under which handle, address and size; every other operation on the table
    leaves a pinned object where it is. *)
From S2P Require Import Prelude Proto State Lowmem Hw Fence Bo BoInv BoMap BoShare BoSteps BoReach BoSpec.

(** What a pin fixes: the count, the handle, the address and the size. *)
Definition pin_view (b : v3da_bo_t) : option (Z * (Z * Z * Z)) :=
  if bool_decide (bo_state b = V3DA_BO_LIVE) && (0 <? bo_inflight b)
  then Some (bo_inflight b, (bo_handle b, bo_gpuva b, bo_pages b)) else None.

Definition pin_same (s s' : v3da_srv_t) : Prop := ∀ i, pin_view (srv_bos s' i) = pin_view (srv_bos s i).
#[export] Instance pin_same_pre : PreOrder pin_same.
Proof. split; [done|]. intros a b c V1 V2 i. by rewrite V2, V1. Qed.

Lemma pin_same_of s s' : srv_bo s' = srv_bo s → pin_same s s'.
Proof. intros E. unfold pin_same, srv_bos. rewrite E. done. Qed.
Lemma pin_same_bos s s' : bos (srv_bo s') = bos (srv_bo s) → pin_same s s'.
Proof. intros E i. unfold srv_bos. by rewrite E. Qed.
Lemma pin_same_set_bo i f s : pin_view (f (srv_bos s i)) = pin_view (srv_bos s i) → pin_same s (set_bo i f s).
Proof. intros Hf j. rewrite set_bo_bos. case_decide; [by subst|done]. Qed.

Lemma pin_view_Some b n x : pin_view b = Some (n, x) →
  bo_state b = V3DA_BO_LIVE ∧ 0 < n ∧ n = bo_inflight b ∧ x = (bo_handle b, bo_gpuva b, bo_pages b).
Proof.
  unfold pin_view. destruct (bool_decide _) eqn:Hb; [|done]. apply bool_decide_eq_true in Hb. simpl.
  destruct (Z.ltb_spec 0 (bo_inflight b)); [|done]. intros H1. injection H1 as <- <-. done.
Qed.
Lemma pin_view_idle b : bo_state b ≠ V3DA_BO_LIVE ∨ bo_inflight b ≤ 0 → pin_view b = None.
Proof.
  unfold pin_view. intros [H|H]; [by rewrite bool_decide_eq_false_2|].
  destruct (Z.ltb_spec 0 (bo_inflight b)); [lia|]. by rewrite andb_false_r.
Qed.
Lemma pin_view_ext b b' : bo_state b' = bo_state b → bo_inflight b' = bo_inflight b → bo_handle b' = bo_handle b →
  bo_gpuva b' = bo_gpuva b → bo_pages b' = bo_pages b → pin_view b' = pin_view b.
Proof. unfold pin_view. by intros -> -> -> -> ->. Qed.

Section env.
Context `{E : Env}.

(** ** References *)
Lemma quarantine_begin_pins i s : bo_inflight (srv_bos s i) ≤ 0 → pin_same s (quarantine_begin i s).
Proof.
  intros Hz. destruct (quarantine_begin_spec i s) as (_ & Hb & _).
  intros j. rewrite Hb. case_decide as Hj; [subst|done]. rewrite !pin_view_idle; auto.
Qed.

Lemma export_withdraw_pins i s : pin_same s (export_withdraw i s).
Proof.
  intros j. rewrite export_withdraw_bos.
  case_decide; [subst; by apply pin_view_ext|done].
Qed.

Lemma bo_unref_pins i s : pin_same s (bo_unref i s).
Proof.
  unfold bo_unref. set (s1 := set_bo i _ s). assert (pin_same s s1) as H1 by (by apply pin_same_set_bo). clearbody s1.
  case_match; [|done]. pose proof (export_withdraw_pins i s1) as H2. set (s2 := export_withdraw i s1) in *. clearbody s2. cbv zeta.
  assert (pin_same s s2) as H12 by (by etrans). case_match; [|done]. zify_bools. etrans; [exact H12|]. apply quarantine_begin_pins. lia.
Qed.

Lemma poll_pins s : pin_same s (v3da_bo_quarantine_poll s).
Proof.
  destruct (quarantine_poll_bos s) as [Hb _]. intros j. rewrite Hb.
  destruct (bool_decide _ && _) eqn:Hq; [|done]. apply andb_true_iff in Hq as [_ Hq]. unfold quarantine_passed in Hq.
  destruct (bool_decide (bo_state (srv_bos s j) = V3DA_BO_QUARANTINE)) eqn:Hs; [|done]. apply bool_decide_eq_true in Hs.
  rewrite !pin_view_idle; [done|left; congruence|by left].
Qed.

Lemma bo_close_pins c h s : pin_same s (v3da_bo_close c h s).2.
Proof.
  unfold v3da_bo_close. destruct (v3da_bo_find s h) as [i|]; [|done]. cbv zeta. case_match; [|case_match; [|done]]; cbn [snd];
    (etrans; [|apply poll_pins]); (etrans; [|apply bo_unref_pins]); by apply pin_same_set_bo.
Qed.

Lemma client_gone_one_pins c i s : pin_same s (client_gone_one c i s).
Proof.
  unfold client_gone_one. cbv zeta. case_match; [done|]. set (s1 := if _ =? c then _ else s).
  assert (pin_same s s1) as H1.
  { unfold s1. case_match; [|done]. etrans; [|apply bo_unref_pins]. by apply pin_same_set_bo. }
  clearbody s1. case_match; [|done]. etrans; [exact H1|]. etrans; [|apply bo_unref_pins]. by apply pin_same_set_bo.
Qed.

Lemma bo_client_gone_pins c s : pin_same s (v3da_bo_client_gone c s).
Proof.
  unfold v3da_bo_client_gone. etrans; [|apply poll_pins]. apply (for_inv (pin_same s)); [done|].
  intros i s' _ H. etrans; [exact H|apply client_gone_one_pins].
Qed.

(** ** New objects *)
Lemma created_pins slot b s s' : created slot b s s' → bo_inflight b = 0 → pin_same s s'.
Proof.
  intros [] Hz j. rewrite cr_bos. case_decide; [subst|done].
  rewrite !pin_view_idle; [done|left; congruence|right; lia].
Qed.

Lemma bo_create_pins extra c size flags s :
  1 ≤ c → 0 ≤ size → bo_inv extra None s → pin_same s (v3da_bo_create c size flags s).2.
Proof.
  intros Hc Hsz Hinv. pose proof (bo_create_cases extra c size flags s Hc Hsz Hinv) as H.
  destruct (v3da_bo_create c size flags s) as [[rc u] s'] eqn:Hcr. cbn [snd].
  destruct H as [(_ & _ & _ & Eb)|(_ & slot & s1 & b & mem & _ & Eb & _ & _ & Hcd & _ & _ & Hz & _)].
  - by apply pin_same_bos.
  - transitivity s1; [by apply pin_same_bos|]. by apply (created_pins slot b).
Qed.

Lemma import_commit_pins extra c rq gen m s :
  bo_inv extra None s → pin_same s (import_commit c rq gen m s).2.
Proof.
  intros Hinv. unfold import_commit. cbv zeta. case_match; [done|]. case_match; [done|].
  destruct (bo_slot s) as [[slot s1]|] eqn:Hslot; [|done].
  destruct (bo_slot_inv _ _ _ _ Hinv Hslot) as (_ & _ & Hfree & Hs1). clear Hslot.
  assert (bos (srv_bo s1) = bos (srv_bo s)) as Eb by (destruct Hs1 as [->| ->]; done).
  unfold alloc_va. destruct (v3da_hw_va_alloc _ _) as [va hw']. destruct (va =? 0); cbn [snd]; [by apply pin_same_of|].
  intros j. match goal with |- context [set_bo slot (λ _, ?x) _] => set (b := x) end.
  assert (pin_view b = None) as Hb by (apply pin_view_idle; right; unfold b; simpl; lia). clearbody b.
  change (pin_view ((<[slot := b]> (bos (srv_bo s))) j) = pin_view (bos (srv_bo s) j)).
  rewrite fn_upd_case. case_decide; [subst|done]. rewrite Hb. symmetry. apply pin_view_idle. left.
  unfold srv_bos in Hfree. rewrite Eb in Hfree. congruence.
Qed.

Lemma import_v3dbuf_pins c rq s : pin_same s (import_v3dbuf c rq s).2.
Proof.
  unfold import_v3dbuf. cbv zeta. destruct (negb _); [done|]. destruct (_ || _); [done|].
  set (found := if _ <? bi_id rq then _ else _). clearbody found. destruct found as [i|]; [|done].
  destruct (negb _); [done|]. destruct (_ || _); [done|]. cbn [snd].
  destruct (bo_held_by c (srv_bos s i)); [done|by apply pin_same_set_bo].
Qed.

Lemma bo_export_pins c h s : pin_same s (v3da_bo_export c h s).2.
Proof.
  unfold v3da_bo_export. destruct (v3da_bo_find s h) as [i|]; [|done]. cbv zeta.
  do 3 (case_match; [done|]). case_match; [done|]. case_match; [by apply pin_same_of|]. cbn [snd].
  intros j. set (s1 := emit _ _). change (pin_view (srv_bos (set_bo i (λ b, b <| bo_exported := true |>) s1) j) = pin_view (srv_bos s1 j)).
  by apply pin_same_set_bo.
Qed.

Lemma bufns_pins m s : pin_same s (bufns_handle m s).2.
Proof.
  destruct m; simpl; try done.
  - repeat (case_match; try done).
  - repeat (case_match; try done).
  - repeat (case_match; try done).
  - destruct (id =? 0); [done|]. destruct (bo_by_export s id); [|done]. by apply pin_same_set_bo.
  - destruct (if _ && _ then bo_lookup s id else None) as [i|]; [|done]. destruct (0 <? _); [|done]. cbn [snd].
    etrans; [|apply poll_pins]. etrans; [|apply bo_unref_pins]. by apply pin_same_set_bo.
Qed.

Lemma mark_use_pins hs f g s : pin_same s (v3da_bo_mark_use hs f g s).
Proof.
  unfold v3da_bo_mark_use. revert s. induction hs as [|h hs IH]; intros s; [done|]. simpl.
  match goal with |- pin_same s (foldl _ ?x hs) => transitivity x end; [|apply IH].
  destruct (bo_lookup s h) as [i|]; [|done]. destruct (f_queue f <? _); [by apply pin_same_set_bo|done].
Qed.

Lemma map_ovf_pool_pins bytes s : pin_same s (v3da_bo_map_ovf_pool bytes s).2.
Proof.
  unfold v3da_bo_map_ovf_pool. unfold alloc_va. destruct (v3da_hw_va_alloc _ _) as [va hw']. case_match; [by apply pin_same_of|].
  case_match; by apply pin_same_of.
Qed.
End env.

(** ** The pins of the jobs

    The pins of the jobs: the in-flight count of an object is the number of times the jobs
    name it, so an object a job names stays live, mapped and under its handle. *)
(** ** Counting a handle in a list *)
Definition occ (h : Z) (l : list Z) : Z := Z.of_nat (length (filter (h =.) l)).

Lemma occ_cons h x l : occ h (x :: l) = (if decide (h = x) then 1 else 0) + occ h l.
Proof. unfold occ. rewrite filter_cons. case_decide; simpl; lia. Qed.
#[export] Instance occ_perm h : Proper ((≡ₚ) ==> eq) (occ h).
Proof. intros l l' Hp. unfold occ. by rewrite Hp. Qed.
Lemma occ_pos h l : h ∈ l ↔ 0 < occ h l.
Proof.
  induction l as [|x l IH]; [rewrite elem_of_nil; unfold occ; simpl; lia|].
  assert (0 ≤ occ h l) by (unfold occ; lia). rewrite elem_of_cons, occ_cons.
  destruct (decide (h = x)) as [->|Hne]; [split; [lia|by left]|]. rewrite IH. split; [intros [?|?]; [done|lia]|intros; right; lia].
Qed.
Lemma occ_le h l : 0 ≤ occ h l ≤ Z.of_nat (length l).
Proof. unfold occ. pose proof (length_filter (h =.) l). lia. Qed.

(** ** The pins of a list of handles *)
Record pins_at (l : list Z) (s : v3da_srv_t) : Prop := mkPinsAt {
  pa_pinned : ∀ h, h ∈ l → ∃ i n g p, 0 ≤ i ∧ pin_view (srv_bos s i) = Some (n, (h, g, p));
  pa_count : ∀ i n h g p, 0 ≤ i → pin_view (srv_bos s i) = Some (n, (h, g, p)) → n = occ h l;
  pa_nonneg : Forall (Z.le 0) l;
  pa_small : Z.of_nat (length l) < 2 ^ 32 }.

#[export] Instance pins_at_perm : Proper ((≡ₚ) ==> eq ==> iff) pins_at.
Proof.
  assert (∀ l l' s, l ≡ₚ l' → pins_at l s → pins_at l' s) as H.
  { intros l l' s Hp []. constructor.
    - intros h. rewrite <- Hp. auto.
    - intros i n h g p. rewrite <- Hp. eauto.
    - by rewrite <- Hp.
    - by rewrite <- Hp. }
  intros l l' Hp s s' <-. split; apply H; by rewrite ?Hp.
Qed.

Lemma pins_at_same l s s' : pin_same s s' → pins_at l s → pins_at l s'.
Proof.
  intros Hs []. constructor; try done.
  - intros h Hh. destruct (pa_pinned0 h Hh) as (i & n & g & p & Hi & Hv). exists i, n, g, p. by rewrite Hs.
  - intros i n h g p. rewrite Hs. eauto.
Qed.

Section env.
Context `{E : Env}.

(** A pinned object is in the table and answers to its handle. *)
Lemma pinned_lookup extra s i n h g p :
  bo_inv extra None s → 0 ≤ i → pin_view (srv_bos s i) = Some (n, (h, g, p)) →
  0 ≤ i < nbos (srv_bo s) ∧ bo_lookup s h = Some i.
Proof.
  intros [Ht _] Hi Hv. apply pin_view_Some in Hv as (Hst & _ & _ & [= -> _ _]).
  assert (i < nbos (srv_bo s)) as Hn.
  { destruct (Z.lt_ge_cases i (nbos (srv_bo s))); [done|]. rewrite (ti_fresh _ _ Ht) in Hst by done. done. }
  split; [lia|]. by apply bo_lookup_live.
Qed.

Lemma inflight_occ extra l s i :
  bo_inv extra None s → pins_at l s → 0 ≤ i < nbos (srv_bo s) → bo_state (srv_bos s i) = V3DA_BO_LIVE →
  bo_inflight (srv_bos s i) = occ (bo_handle (srv_bos s i)) l.
Proof.
  intros Hinv [Hp Hc _ _] Hi Hst. destruct (pin_view (srv_bos s i)) as [[n [[h g] p]]|] eqn:Hv.
  - pose proof (Hc i n h g p (proj1 Hi) Hv) as Hn. apply pin_view_Some in Hv as (_ & _ & -> & [= -> _ _]). done.
  - destruct (live_local _ _ _ Hinv Hi Hst) as (_ & _ & (_ & _ & _ & H0 & _) & _).
    assert (bo_inflight (srv_bos s i) = 0) as ->.
    { unfold pin_view in Hv. rewrite bool_decide_eq_true_2 in Hv by done. simpl in Hv.
      destruct (Z.ltb_spec 0 (bo_inflight (srv_bos s i))); [done|lia]. }
    pose proof (occ_le (bo_handle (srv_bos s i)) l) as Hle. destruct (decide (bo_handle (srv_bos s i) ∈ l)) as [Hin|Hin].
    + destruct (Hp _ Hin) as (i' & n & g & p & Hi' & Hv'). pose proof (pinned_lookup _ _ _ _ _ _ _ Hinv Hi' Hv') as [_ Hl].
      rewrite (bo_lookup_live s i) in Hl by (done || apply Hinv). injection Hl as <-. congruence.
    + rewrite occ_pos in Hin. lia.
Qed.

(** Changing the in-flight count of one live object to the count of a new list. *)
Lemma pins_at_step extra l l' s s' i h :
  bo_inv extra None s → pins_at l s → 0 ≤ i < nbos (srv_bo s) → bo_state (srv_bos s i) = V3DA_BO_LIVE → bo_handle (srv_bos s i) = h →
  (∀ j, j ≠ i → pin_view (srv_bos s' j) = pin_view (srv_bos s j)) →
  pin_view (srv_bos s' i) = (if 0 <? occ h l' then Some (occ h l', (h, bo_gpuva (srv_bos s i), bo_pages (srv_bos s i))) else None) →
  (∀ h', h' ≠ h → occ h' l' = occ h' l) → Forall (Z.le 0) l' → Z.of_nat (length l') < 2 ^ 32 → pins_at l' s'.
Proof.
  intros Hinv Hp Hi Hst Hh Hj Hv Ho Hnn Hlt. constructor; [| |done|done].
  - intros h' Hin. destruct (decide (h' = h)) as [->|Hne].
    + apply occ_pos in Hin. destruct (Z.ltb_spec 0 (occ h l')); [|lia]. eexists i, _, _, _. split; [lia|exact Hv].
    + assert (h' ∈ l) as Hin' by (rewrite occ_pos, Ho in * by done; done).
      destruct (pa_pinned _ _ Hp _ Hin') as (i' & n & g & p & Hi' & Hv'). exists i', n, g, p. split; [done|].
      rewrite Hj; [done|]. intros ->. apply pin_view_Some in Hv' as (_ & _ & _ & [= -> _ _]). done.
  - intros j n h' g p H0 Hvj. destruct (decide (j = i)) as [->|Hne].
    + rewrite Hv in Hvj. destruct (0 <? occ h l'); [|done]. by injection Hvj as <- <- _ _.
    + rewrite Hj in Hvj by done. destruct (decide (h' = h)) as [->|Hn']; [|rewrite Ho by done; by apply (pa_count _ _ Hp j n h' g p)].
      exfalso. pose proof (pinned_lookup _ _ _ _ _ _ _ Hinv H0 Hvj) as [_ Hl].
      rewrite <- Hh, (bo_lookup_live s i) in Hl by (done || apply Hinv). by injection Hl as <-.
Qed.

(** ** Pinning *)
Lemma pin_one_at extra l s h i :
  bo_inv extra None s → pins_at l s → v3da_bo_find s h = Some i → 0 ≤ h → Z.of_nat (length l) + 1 < 2 ^ 32 →
  pins_at (h :: l) (set_bo i (λ b, b <| bo_inflight ::= λ n, u32 (n + 1) |>) s).
Proof.
  intros Hinv Hp Hf Hh Hlt. apply v3da_bo_find_Some in Hf as [Hl _]. pose proof (bo_lookup_range _ _ _ Hh Hl) as Hi.
  apply bo_lookup_Some in Hl as (_ & _ & Hst & Hhd). pose proof (inflight_occ _ _ _ _ Hinv Hp Hi Hst) as Hn. rewrite Hhd in Hn.
  pose proof (occ_le h l) as Hle. apply (pins_at_step extra l _ s _ i h); try done.
  - intros j Hj. by rewrite set_bo_ne.
  - rewrite set_bo_eq. rewrite occ_cons, decide_True by done. unfold pin_view. simpl. rewrite Hst, Hn, Hhd.
    rewrite bool_decide_eq_true_2 by done. rewrite u32_small by lia. replace (occ h l + 1) with (1 + occ h l) by lia. done.
  - intros h' Hne. rewrite occ_cons. by rewrite decide_False.
  - constructor; [done|apply Hp].
  - simpl. lia.
Qed.

Lemma find_pin s i f h : (∀ b, bo_state (f b) = bo_state b) → (∀ b, bo_handle (f b) = bo_handle b) → (∀ b, bo_refs (f b) = bo_refs b) →
  v3da_bo_find (set_bo i f s) h = v3da_bo_find s h.
Proof.
  intros Es Eh Er.
  assert (∀ j, bo_state (srv_bos (set_bo i f s) j) = bo_state (srv_bos s j) ∧ bo_handle (srv_bos (set_bo i f s) j) = bo_handle (srv_bos s j) ∧
    bo_refs (srv_bos (set_bo i f s) j) = bo_refs (srv_bos s j)) as Hb.
  { intros j. rewrite set_bo_bos. case_decide; [subst; by rewrite Es, Eh, Er|done]. }
  unfold v3da_bo_find, bo_lookup. change (nbos (srv_bo (set_bo i f s))) with (nbos (srv_bo s)). cbv zeta.
  destruct (Hb (Z.land h V3DA_HANDLE_SLOT_MASK - 1)) as (-> & -> & Hr). destruct (_ || _); [done|]. destruct (_ && _); [by rewrite Hr|done].
Qed.

Lemma pin_loop_at extra hs l s :
  bo_inv extra None s → pins_at l s → Forall (Z.le 0) hs → Z.of_nat (length hs + length l) < 2 ^ 32 →
  (∀ h, h ∈ hs → is_Some (v3da_bo_find s h)) →
  pins_at (hs ++ l) (foldl (λ s h, match v3da_bo_find s h with
                      | Some i => set_bo i (λ b, b <| bo_inflight ::= λ n, u32 (n + 1) |>) s
                      | None => s
                      end) s hs).
Proof.
  revert l s. induction hs as [|h hs IH]; intros l s Hinv Hp Hnn Hlt Hf; [done|]. apply Forall_cons in Hnn as [Hh Hnn].
  simpl. destruct (Hf h) as [i Hi]; [by left|]. rewrite Hi. change (h :: hs ++ l) with ([h] ++ hs ++ l).
  rewrite (assoc_L (++)), (comm (++) [h] hs), <- (assoc_L (++)). simpl in Hlt.
  pose proof (pin_loop_inv extra [h] s Hinv ltac:(by constructor)) as Hinv1. simpl in Hinv1. rewrite Hi in Hinv1. apply IH; [done| |done| |].
  - simpl. apply (pin_one_at extra); try done. lia.
  - simpl. lia.
  - intros h' Hin. rewrite find_pin by done. apply Hf. by right.
Qed.

Lemma pin_for_job_at extra hs l s s' :
  bo_inv extra None s → pins_at l s → Forall (Z.le 0) hs → Z.of_nat (length hs + length l) < 2 ^ 32 →
  v3da_bo_pin_for_job hs s = (0, s') → pins_at (hs ++ l) s'.
Proof.
  intros Hinv Hp Hnn Hlt. unfold v3da_bo_pin_for_job. destruct (forallb _ hs) eqn:Hall; [|intros [=]]. intros H. apply (f_equal snd) in H. cbn [snd] in H.
  rewrite <- H. apply (pin_loop_at extra); try done. intros h Hin. rewrite forallb_forall in Hall.
  apply list_elem_of_In in Hin. specialize (Hall h Hin). by apply bool_decide_eq_true in Hall.
Qed.

(** ** Unpinning *)
Lemma unpin_one_at extra h l s : bo_inv extra None s → pins_at (h :: l) s → pins_at l (unpin_one s h).
Proof.
  intros Hinv Hp. destruct (pa_pinned _ _ Hp h ltac:(by left)) as (i & n & g & p & H0 & Hv).
  destruct (pinned_lookup _ _ _ _ _ _ _ Hinv H0 Hv) as [Hi Hl]. pose proof (pa_count _ _ Hp i n h g p H0 Hv) as Hn.
  rewrite occ_cons, decide_True in Hn by done. pose proof (occ_le h l) as Hle.
  apply pin_view_Some in Hv as (Hst & Hpos & Hinf & [= Hhd Hg Hpg]). symmetry in Hhd.
  unfold unpin_one. rewrite Hl. set (f := λ b : v3da_bo_t, b <| bo_inflight ::= λ n, if 0 <? n then n - 1 else n |>).
  set (s1 := set_bo i f s). assert (srv_bos s1 i = f (srv_bos s i)) as E1 by apply set_bo_eq.
  assert (bo_inflight (srv_bos s1 i) = occ h l) as Ei.
  { rewrite E1. unfold f. cbn. rewrite <- Hinf. destruct (Z.ltb_spec 0 n); lia. }
  assert (pin_view (srv_bos s1 i) = if 0 <? occ h l then Some (occ h l, (h, bo_gpuva (srv_bos s i), bo_pages (srv_bos s i))) else None) as V1.
  { unfold pin_view. rewrite Ei. rewrite E1. unfold f. cbn. rewrite Hst, bool_decide_eq_true_2, Hhd by done. done. }
  assert (∀ j, j ≠ i → pin_view (srv_bos s1 j) = pin_view (srv_bos s j)) as V2 by (intros j Hj; unfold s1; by rewrite set_bo_ne).
  assert (pins_at l s1) as H1.
  { pose proof (pa_nonneg _ _ Hp) as Hnn. pose proof (pa_small _ _ Hp) as Hlt. apply Forall_cons in Hnn as [_ Hnn]. simpl in Hlt.
    apply (pins_at_step extra (h :: l) _ s _ i h); try done; [|lia].
    intros h' Hne. rewrite occ_cons. by rewrite decide_False. }
  cbv zeta. clearbody s1. destruct (_ && _) eqn:Hz; [|done]. zify_bools. apply (pins_at_same _ s1); [|done]. apply quarantine_begin_pins. lia.
Qed.

Lemma unpin_at extra hs l s :
  bo_inv extra None s → pins_at (hs ++ l) s → pins_at l (v3da_bo_unpin hs s) ∧ bo_inv extra None (v3da_bo_unpin hs s).
Proof.
  unfold v3da_bo_unpin. revert s. induction hs as [|h hs IH]; intros s Hinv Hp; [done|]. simpl in *.
  pose proof (pa_nonneg _ _ Hp) as Hnn. apply Forall_cons in Hnn as [Hh _].
  apply IH; [by apply unpin_one_inv|by apply (unpin_one_at extra)].
Qed.
End env.
