(* ===== verification/PinKept.v ===== *)
(** The jobs' pins are kept by everything the scheduler does: a job's pins leave with the
    job, and nothing else moves a pinned object. *)
From S2P Require Import Prelude Proto State Lowmem Hw Fence Bo BoInv BoMap BoShare BoSteps BoReach BoSpec.
From S2P Require Import Ovf Waits Jobs Submit Events SchedInv SchedKick SchedRun SchedReach SchedSpec Kept Pins.

(** ** The handles the jobs name *)
Definition pins_of (j : v3da_job_t) : list Z := default [] (j_bos j).
Definition all_pins (m : gmap Z (list Z)) : list Z := mjoin (snd <$> map_to_list m).
Definition job_pins (s : v3da_srv_t) : list Z := all_pins (pins_of <$> jobs (srv_sched s)).

Lemma all_pins_insert m jid l : m !! jid = None → all_pins (<[jid := l]> m) ≡ₚ l ++ all_pins m.
Proof. intros Hn. unfold all_pins. by rewrite (map_to_list_insert m jid l Hn). Qed.
Lemma all_pins_delete m jid l : m !! jid = Some l → all_pins m ≡ₚ l ++ all_pins (delete jid m).
Proof. intros Hs. unfold all_pins. by rewrite <- (map_to_list_delete m jid l Hs). Qed.
Lemma all_pins_elem m h : h ∈ all_pins m ↔ ∃ jid l, m !! jid = Some l ∧ h ∈ l.
Proof.
  unfold all_pins. rewrite list_elem_of_join. split.
  - intros (l & Hh & Hl). apply list_elem_of_fmap in Hl as ([jid l'] & -> & Hin). apply elem_of_map_to_list in Hin. by exists jid, l'.
  - intros (jid & l & Hm & Hh). exists l. split; [done|]. apply list_elem_of_fmap. exists (jid, l). split; [done|]. by apply elem_of_map_to_list.
Qed.

(** ** What the pins and the objects' invariant read *)
Definition map_words (h : v3da_hw_t) := (hw_pt h, hw_pt_entries h, hw_next_gpuva h, hw_holes h).
Record pin_frame (s s' : v3da_srv_t) : Prop := mkPinFrame {
  pf_bo : srv_bo s' = srv_bo s;
  pf_hw : map_words (srv_hw s') = map_words (srv_hw s);
  pf_jobs : ∀ jid, pins_of <$> job s' jid = pins_of <$> job s jid }.
#[export] Instance pin_frame_pre : PreOrder pin_frame.
Proof. split; [done|]. intros a b c [] []. constructor; intros; etrans; eauto. Qed.

Lemma pin_frame_jobs s s' : (∀ jid, pins_of <$> job s' jid = pins_of <$> job s jid) → job_pins s' = job_pins s.
Proof. intros H. unfold job_pins. f_equal. apply map_eq. intros jid. rewrite !lookup_fmap. apply H. Qed.

Lemma pin_frame_of s s' : srv_bo s' = srv_bo s → srv_hw s' = srv_hw s → srv_sched s' = srv_sched s → pin_frame s s'.
Proof. intros Eb Eh Es. constructor; [done|by rewrite Eh|]. intros jid. unfold job. by rewrite Es. Qed.

Lemma pin_frame_set_job jid f s : (∀ j, pins_of (f j) = pins_of j) → pin_frame s (set_job jid f s).
Proof.
  intros Hf. constructor; try done. intros x. unfold job, set_job. simpl.
  destruct (decide (jid = x)) as [->|Hne]; [rewrite lookup_alter_eq|by rewrite lookup_alter_ne].
  destruct (jobs (srv_sched s) !! x); simpl; [by rewrite Hf|done].
Qed.

Lemma pin_frame_still s s' : still s s' → pin_frame s s'.
Proof.
  intros []. constructor; [done|unfold hw_view, map_words in *; congruence|]. intros jid. specialize (st_jobs jid).
  destruct (job s' jid), (job s jid); try done. simpl in *. unfold jview, pins_of in *. congruence.
Qed.

(** The invariant: the objects', with [hs] pinned for a submission on its way and the rest
    pinned by the jobs. *)
Definition pins_inv (extra : list hole) (hs : list Z) (s : v3da_srv_t) : Prop :=
  bo_inv extra None s ∧ pins_at (hs ++ job_pins s) s.

Lemma pins_frame `{E : Env} extra hs s s' : pin_frame s s' → pins_inv extra hs s → pins_inv extra hs s'.
Proof.
  intros [Eb Eh Ej] [Hinv Hp]. split.
  - apply (bo_step_inv _ s); [done|]. apply BS_frame. unfold map_words in Eh. injection Eh as E1 E2 E3 E4. done.
  - rewrite (pin_frame_jobs _ _ Ej). apply (pins_at_same _ s); [by apply pin_same_of|done].
Qed.

Section env.
Context `{E : Env} (extra : list hole).

(** ** Completion *)
Lemma chunks_move_pins n bin render s : pin_frame s (chunks_move n bin render s).
Proof.
  revert s. induction n as [|n IH]; intros s; [done|]. simpl. case_match; [|done]. set (s1 := set_job bin _ s).
  transitivity s1; [by apply pin_frame_set_job|]. clearbody s1. etrans; [|apply IH].
  unfold chunk_attach. etrans; [|by apply pin_frame_set_job]. by apply pin_frame_of.
Qed.
Lemma free_job_chunks_pins jid s : pin_frame s (free_job_chunks jid s).
Proof. unfold free_job_chunks. etrans; [|by apply pin_frame_set_job]. by apply pin_frame_of. Qed.
Lemma done_chunks_pins jid j err s : pin_frame s (done_chunks jid j err s).
Proof.
  unfold done_chunks. destruct (_ =? _).
  - etrans; [|apply free_job_chunks_pins]. destruct (j_render j); [|done].
    etrans; [|apply chunks_move_pins]. by apply pin_frame_set_job.
  - destruct (0 <=? _); [apply free_job_chunks_pins|done].
Qed.
Lemma done_leave_pins jid j now s : pin_frame s (done_leave jid j now s).
Proof. unfold done_leave. repeat case_match; by constructor. Qed.
Lemma fence_complete_pins j err s : pin_frame s (v3da_fence_complete j err s).
Proof. unfold v3da_fence_complete. case_match. by apply pin_frame_of. Qed.
Lemma unlink_bin_pins j s : pin_frame s (unlink_bin j s).
Proof. unfold unlink_bin. case_match; [by apply pin_frame_set_job|done]. Qed.

(** A job leaves with its pins. *)
Lemma drop_pins_inv j jid s :
  pins_of <$> job s jid = Some (pins_of j) → pins_inv extra [] s →
  let s' := drop_pins j s in
  bo_inv extra None s' ∧ pins_at (all_pins (delete jid (pins_of <$> jobs (srv_sched s')))) s'.
Proof.
  intros Hj [Hinv Hp]. cbv zeta.
  assert (job_pins s ≡ₚ pins_of j ++ all_pins (delete jid (pins_of <$> jobs (srv_sched s)))) as Hd.
  { apply all_pins_delete. by rewrite lookup_fmap. }
  rewrite app_nil_l, Hd in Hp. unfold drop_pins, pins_of in *. destruct (j_bos j) as [hs|]; simpl in *; [|done].
  destruct (unpin_at extra hs _ s Hinv Hp) as [H1 H2]. split; [done|]. by rewrite unpin_sched.
Qed.

Lemma free_job_pins jid s :
  job_pins (free_job jid s) = all_pins (delete jid (pins_of <$> jobs (srv_sched s))).
Proof. unfold job_pins, free_job. simpl. by rewrite fmap_delete. Qed.

Lemma pins_leave s1 s2 jid j :
  pins_of <$> job s1 jid = Some (pins_of j) → pins_inv extra [] s1 → pin_frame (drop_pins j s1) s2 → pins_inv extra [] (free_job jid s2).
Proof.
  intros Hj H1 [Eb Eh Ej]. destruct (drop_pins_inv j jid s1 Hj H1) as [Hinv Hp]. split.
  - apply (bo_step_inv _ (drop_pins j s1)); [done|]. apply BS_frame. unfold map_words in Eh. injection Eh as E1 E2 E3 E4. done.
  - rewrite app_nil_l, free_job_pins. apply (pins_at_same _ (drop_pins j s1)).
    + apply pin_same_of. exact Eb.
    + assert (pins_of <$> jobs (srv_sched s2) = pins_of <$> jobs (srv_sched (drop_pins j s1))) as ->; [|done].
      apply map_eq. intros x. rewrite !lookup_fmap. apply Ej.
Qed.

Lemma pins_job_done jid err now s : pins_inv extra [] s → pins_inv extra [] (job_done jid err now s).
Proof.
  intros H. unfold job_done. destruct (job s jid) as [j|] eqn:Hj; [|done]. cbv zeta. set (err' := err || j_error j). clearbody err'.
  set (s1 := done_count _ _ _). assert (pin_frame s s1) as F1 by (etrans; [apply done_leave_pins|by constructor]). clearbody s1.
  set (s2 := unlink_bin j _). assert (pin_frame s1 s2) as F2 by (etrans; [apply done_chunks_pins|apply unlink_bin_pins]). clearbody s2.
  assert (pin_frame s s2) as F by (by etrans). apply (pins_leave s2 _ jid j).
  - rewrite (pf_jobs _ _ F). by rewrite Hj.
  - by apply (pins_frame _ _ s).
  - etrans; [apply fence_complete_pins|]. by apply pin_frame_of.
Qed.

Lemma pins_discard jid s : pins_inv extra [] s → pins_inv extra [] (job_discard jid s).
Proof.
  intros H. unfold job_discard. destruct (job s jid) as [j|] eqn:Hj; [|done]. cbv zeta.
  set (s1 := match j_render j with Some _ => _ | None => _ end).
  assert (pin_frame s s1) as F1.
  { etrans; [apply unlink_bin_pins|]. unfold s1. destruct (j_render j); [by apply pin_frame_set_job|done]. }
  clearbody s1. set (s2 := if _ : bool then _ else s1).
  assert (pin_frame s1 s2) as F2 by (unfold s2; destruct (0 <=? _); [by apply pin_frame_of|done]). clearbody s2.
  assert (pin_frame s s2) as F by (by etrans). apply (pins_leave s2 _ jid j); [|by apply (pins_frame _ _ s)|done].
  rewrite (pf_jobs _ _ F). by rewrite Hj.
Qed.

(** ** Kept by the scheduler *)
Lemma pin_frame_words s s' : srv_bo s' = srv_bo s → map_words (srv_hw s') = map_words (srv_hw s) → srv_sched s' = srv_sched s → pin_frame s s'.
Proof. intros Eb Eh Es. constructor; [done|done|]. intros jid. unfold job. by rewrite Es. Qed.

Lemma job_start_pins jid j now s : pin_frame s (job_start jid j now s).
Proof.
  unfold job_start. cbv zeta. set (s1 := set_q _ _ s). transitivity s1; [by constructor|]. clearbody s1.
  set (s2 := set_job jid _ s1). transitivity s2; [by apply pin_frame_set_job|]. clearbody s2.
  set (s3 := set_q _ _ s2 <| srv_fp ::= _ |>). transitivity s3; [by constructor|]. clearbody s3.
  destruct (is_hw_queue _); [|done]. etrans; [|by apply pin_frame_set_job]. by constructor.
Qed.

Lemma ovf_stage_pins s : pin_frame s (ovf_stage s).
Proof. unfold ovf_stage. cbv zeta. destruct (_ || _); [done|]. destruct (chunk_alloc _). case_match; by apply pin_frame_words. Qed.

Lemma chunk_attach_pins jid idx s : pin_frame s (chunk_attach jid idx s).
Proof. unfold chunk_attach. etrans; [|by apply pin_frame_set_job]. by apply pin_frame_of. Qed.

Lemma grant_loop_pins n bin s : pin_frame s (ovf_grant_loop n bin s).
Proof.
  revert s. induction n as [|n IH]; intros s; [done|]. simpl. unfold ovf_grant_direct. destruct (chunk_alloc _) as [i o].
  destruct (i <? 0); [by apply pin_frame_of|]. etrans; [|apply IH]. set (s1 := emit _ (emit _ _)).
  transitivity s1; [by apply pin_frame_of|]. transitivity (chunk_attach bin i s1); [apply chunk_attach_pins|]. by constructor.
Qed.

Lemma ovf_consume_pins s : pin_frame s (ovf_consume s).
Proof.
  unfold ovf_consume. cbv zeta. set (s1 := s <| srv_hw ; hw_ovf_consumed := 0 |>).
  transitivity s1; [by apply pin_frame_words|]. clearbody s1. case_match; [|done].
  set (s2 := if _ =? _ then _ else s1). transitivity s2; [unfold s2; case_match; by apply pin_frame_of|]. clearbody s2.
  case_match; [|by apply pin_frame_of]. match goal with |- pin_frame _ (count_oom ?x) => transitivity x end; [apply chunk_attach_pins|by constructor].
Qed.

Lemma ovf_service_pins s : pin_frame s (ovf_service s).
Proof.
  unfold ovf_service. cbv zeta. etrans; [|apply ovf_stage_pins]. etrans; [apply ovf_consume_pins|]. set (s1 := ovf_consume s). clearbody s1.
  set (s2 := s1 <| srv_hw ; hw_ovf_missed := 0 |>). transitivity s2; [by apply pin_frame_words|]. clearbody s2.
  destruct (active s V3DA_Q_BIN); [|by apply pin_frame_of]. etrans; [|apply grant_loop_pins]. case_match; [by apply pin_frame_of|done].
Qed.

Lemma hw_reset_pins s : pin_frame s (v3da_hw_reset s).2.
Proof. apply pin_frame_words; [| |apply hw_reset_sched]; unfold v3da_hw_reset; cbv zeta; cbn [snd]; by case_match. Qed.

Lemma wedge_reset_pins s : pin_frame s (wedge_reset s).
Proof.
  apply pin_frame_words; [| |apply wedge_reset_sched]; unfold wedge_reset; cbv zeta;
    pose proof (hw_reset_pins (s <| srv_st ; wedges ::= λ n, u32 (n + 1) |>)) as [Eb Eh _];
    revert Eb Eh; generalize (v3da_hw_reset (s <| srv_st ; wedges ::= λ n, u32 (n + 1) |>)).2; intros s1 Eb Eh;
    destruct (0 <=? _); (exact Eb || exact Eh).
Qed.

Lemma hw_service_pins s : pin_frame s (hw_service s).2.
Proof.
  apply pin_frame_words; [| |apply hw_service_sched]; unfold hw_service, rd_core, rd_hub; cbv zeta iota beta; cbn [snd];
    match goal with |- context [fold_events ?c ?h (outomem_service ?c ?x)] => set (s2 := x) end;
    (assert (srv_bo s2 = srv_bo s ∧ map_words (srv_hw s2) = map_words (srv_hw s)) as [E1 E2];
     [unfold s2, csd_done_stamp, mmu_ack, rd_hub, v3da_cnt; cbv zeta iota beta; split; repeat case_match; reflexivity|]); clearbody s2;
    [rewrite <- E1|rewrite <- E2]; unfold outomem_service; (destruct (has _ _); [|done]); cbv zeta; by destruct (negb _).
Qed.

#[export] Instance pins_kept : Kept (pins_inv extra []).
Proof.
  constructor.
  - intros s s' Hs. by apply pins_frame, pin_frame_still.
  - intros jid j now s _ _ _. apply pins_frame, job_start_pins.
  - intros jid err now s _. apply pins_job_done.
  - intros s. apply pins_frame, ovf_stage_pins.
  - intros s _. apply pins_frame, ovf_service_pins.
  - intros s _. apply pins_frame, wedge_reset_pins.
  - intros s. apply pins_frame, hw_service_pins.
  - intros s [Hinv Hp]. split; [by apply quarantine_poll_inv|]. rewrite app_nil_l in *.
    assert (job_pins (v3da_bo_quarantine_poll s) = job_pins s) as -> by (unfold job_pins; by rewrite poll_sched).
    apply (pins_at_same _ s); [apply poll_pins|done].
Qed.
End env.
