(* ===== verification/Closure.v ===== *)
(** What a predicate must show, beyond [Kept], to be kept by submissions and by a client's
    death: pinning, the birth of jobs, the link of a bin and a render job, the hand-over of
    the pins to the job, discarding.  [P hs] is the predicate while [hs] is pinned for a
    submission that has no job yet. *)
From S2P Require Import Prelude Proto State Lowmem Hw Fence Bo BoInv BoShare BoSteps BoSpec.
From S2P Require Import Ovf Waits Jobs Submit Events SchedInv SchedKick SchedRun SchedReach SchedSpec Kept PinKept.

(** A job nothing has happened to yet, but for the links of a pair. *)
Definition bare (j : v3da_job_t) : Prop := j_bos j = None ∧ j_ovf_head j = -1 ∧ j_t_kick_us j = 0.
Definition fresh_job (j : v3da_job_t) : Prop := bare j ∧ j_render j = None ∧ j_bin j = None.
Definition paired (f l : Z) (s : v3da_srv_t) : Prop :=
  ∃ jf jl, job s f = Some jf ∧ job s l = Some jl ∧ bare jf ∧ bare jl ∧
    j_queue jf = V3DA_Q_BIN ∧ j_queue jl = V3DA_Q_RENDER ∧
    j_render jf = Some l ∧ j_bin jf = None ∧ j_bin jl = Some f ∧ j_render jl = None.

(** The room the in-flight counts have for another submission. *)
Definition pins_room (hs : list Z) (s : v3da_srv_t) : Prop := Z.of_nat (length hs + length (job_pins s)) < 2 ^ 32.

Class Submitted `{E : Env} (P : list Z → v3da_srv_t → Prop) : Prop := {
  sub_kept :: Kept (P []);
  sub_still hs s s' : still s s' → P hs s → P hs s';
  sub_pin hs s s' : Forall (Z.le 0) hs → pins_room hs s → v3da_bo_pin_for_job hs s = (0, s') → P [] s → P hs s';
  sub_unpin hs s : P hs s → P [] (v3da_bo_unpin hs s);
  sub_new hs ci qu now s jid s' : job_new ci qu now s = (Some jid, s') → job s jid = None → P hs s → P hs s';
  sub_free hs jid j s : job s jid = Some j → fresh_job j → P hs s → P hs (free_job jid s);
  sub_pair hs f l d s : f ≠ l → (∃ j, job s f = Some j ∧ fresh_job j ∧ j_queue j = V3DA_Q_BIN) →
    (∃ j, job s l = Some j ∧ fresh_job j ∧ j_queue j = V3DA_Q_RENDER) → P hs s →
    P hs (set_job l (λ b, b <| j_d := d |> <| j_bin := Some f |>) (set_job f (λ b, b <| j_d := d |> <| j_render := Some l |>) s));
  sub_unpair hs f l s : f ≠ l → paired f l s → P hs s → P hs (free_job l (free_job f s));
  sub_keep hs jid j s : job s jid = Some j → j_bos j = None → P hs s → P [] (set_job jid (λ b, b <| j_bos := Some hs |>) s);
  sub_mark hs f g s : Forall (Z.le 0) hs → P [] s → P [] (v3da_bo_mark_use hs f g s);
  sub_discard jid s : P [] s → P [] (job_discard jid s) }.

Section closed.
Context `{E : Env} (P : list Z → v3da_srv_t → Prop) `{!Submitted P}.
#[local] Ltac still := eapply sub_still; [|eassumption].

Lemma still_tick s : still s (tick s).
Proof. still_refl. Qed.
Lemma still_kick s : still s (v3da_kick_event_thread s).
Proof. still_refl. Qed.

(** ** Births *)
Lemma job_new_None ci qu now s s' : job_new ci qu now s = (None, s') → s' = tick s.
Proof. unfold job_new. cbv zeta. destruct (env_malloc _); [done|]. cbn [negb]. intros H. by apply (f_equal snd) in H. Qed.

Lemma job_new_fresh loose ci qu now s jid s' :
  sched_inv loose s → job_new ci qu now s = (Some jid, s') → job s jid = None ∧ ∃ j, job s' jid = Some j ∧ fresh_job j ∧ j_queue j = qu.
Proof.
  intros Hinv Hn. destruct (job_new_inv loose ci qu now s jid s' Hinv Hn) as (_ & _ & _ & Hj & _). split.
  - destruct (job s jid) eqn:Hs; [|done]. pose proof (si_gseq _ _ Hinv jid). rewrite Hs in *. specialize (H ltac:(by eexists)). lia.
  - revert Hn. unfold job_new. cbv zeta. destruct (env_malloc _); [|done]. cbn [negb]. intros Hn. injection Hn as <- <-.
    eexists. split; [unfold job; simpl; by rewrite lookup_insert_eq|]. done.
Qed.

Definition newly (f l : Z) (s : v3da_srv_t) : Prop :=
  if decide (f = l) then ∃ j, job s f = Some j ∧ fresh_job j else paired f l s.

Lemma kept_submit_jobs hs ci op a now s :
  sched_inv [] s → P hs s →
  match submit_jobs ci op a now s with
  | (None, s') => P hs s'
  | (Some (f, l), s') => P hs s' ∧ newly f l s'
  end.
Proof.
  intros Hinv HP. unfold submit_jobs. cbv zeta. destruct (sa_bin a).
  - destruct (job_new ci V3DA_Q_BIN now s) as [[f|] s1] eqn:H1.
    + destruct (job_new_inv [] ci _ now s f s1 Hinv H1) as (I1 & _ & _ & G1 & G1' & J1 & _).
      destruct (job_new_fresh [] ci _ now s f s1 Hinv H1) as (N1 & jf & F1 & Fr1 & Q1).
      assert (P hs s1) as P1 by (by apply (sub_new hs ci V3DA_Q_BIN now s f)).
      destruct (job_new ci V3DA_Q_RENDER now s1) as [[l|] s2] eqn:H2.
      * destruct (job_new_inv [f] ci _ now s1 l s2 I1 H2) as (I2 & _ & _ & G2 & G2' & J2 & _).
        destruct (job_new_fresh [f] ci _ now s1 l s2 I1 H2) as (N2 & jl & F2 & Fr2 & Q2).
        assert (P hs s2) as P2 by (by apply (sub_new hs ci V3DA_Q_RENDER now s1 l)).
        assert (f ≠ l) as Hne by lia. assert (job s2 f = Some jf) as F1' by (by rewrite J2 by lia). split.
        -- apply sub_pair; [done|by exists jf|by exists jl|done].
        -- unfold newly. rewrite decide_False by done. destruct Fr1 as (B1 & R1 & N1'), Fr2 as (B2 & R2 & N2').
           unfold paired, job, set_job. simpl. rewrite lookup_alter_ne by done. rewrite lookup_alter_eq.
           rewrite lookup_alter_eq, lookup_alter_ne by done. unfold job in F1', F2. rewrite F1', F2. simpl.
           eexists _, _. split_and!; done.
      * apply job_new_None in H2 as ->. simpl. apply (sub_free hs f jf); [exact F1|done|]. still. apply still_tick.
    + assert (sched_inv [] s1) as I1 by (apply job_new_none in H1 as [H1 _]; by apply (sched_inv_same _ s)).
      apply job_new_None in H1 as E1. assert (P hs s1) as P1 by (rewrite E1; still; apply still_tick).
      destruct (job_new ci V3DA_Q_RENDER now s1) as [[l|] s2] eqn:H2.
      * destruct (job_new_fresh [] ci _ now s1 l s2 I1 H2) as (N2 & jl & F2 & Fr2 & Q2). simpl.
        apply (sub_free hs l jl); [done|done|]. by apply (sub_new hs ci V3DA_Q_RENDER now s1 l).
      * apply job_new_None in H2 as ->. simpl. still. apply still_tick.
  - destruct (job_new _ _ now s) as [[f|] s1] eqn:H1.
    + destruct (job_new_fresh [] ci _ now s f s1 Hinv H1) as (N1 & jf & F1 & (B1 & R1 & B1') & Q1).
      assert (P hs s1) as P1 by (by eapply sub_new). split.
      * still. by apply still_set_job.
      * unfold newly. rewrite decide_True by done. unfold job, set_job. simpl. rewrite lookup_alter_eq. unfold job in F1. rewrite F1.
        simpl. eexists. split; [done|]. by split_and!.
    + apply job_new_None in H1 as ->. still. apply still_tick.
Qed.

(** ** Fences, dependencies, queueing *)
Lemma still_submit_in ci f l s x : still s (submit_in ci f l s x).
Proof.
  unfold submit_in. case_match; [|done]. unfold add_dep. case_match; [|done]. apply still_set_job. intros j. by case_match.
Qed.
Lemma still_implicit ci f bos s : still s (submit_implicit ci f bos s).
Proof.
  unfold submit_implicit. destruct bos; [done|]. case_match; [|done]. case_match. cbv zeta. set (s1 := set_job _ _ s).
  transitivity s1; [by apply still_set_job|]. clearbody s1. set (s2 := if 0 <? _ then _ else s1).
  transitivity s2; [apply still_if; [still_refl|done]|still_refl].
Qed.
Lemma still_assign_seq ci jid s : still s (assign_seq ci jid s).
Proof.
  unfold assign_seq. case_match; [|done]. cbv zeta. etrans; [|by apply still_set_job]. by apply still_set_client.
Qed.
Lemma still_submit_out ci f s x : still s (submit_out ci f s x).
Proof. unfold submit_out, set_sync. by apply still_set_client. Qed.
Lemma still_push_job ci jid s : still s (push_job ci jid s).
Proof. unfold push_job. case_match; [|done]. unfold fifo_push. by apply still_set_q. Qed.

Lemma kept_submit_queue ci a f l s :
  Forall (Z.le 0) (sa_bos a) → P [] s → P [] (submit_queue ci a f l s).
Proof.
  intros Hnn HP. unfold submit_queue. cbv zeta.
  set (s2 := submit_implicit _ _ _ _). assert (P [] s2) as P2.
  { still. etrans; [|apply still_implicit]. apply still_foldl. intros; apply still_submit_in. }
  clearbody s2. set (s3 := assign_seq ci f s2). set (s4 := if negb (l =? f) then assign_seq ci l s3 else s3).
  assert (P [] s4) as P4.
  { still. transitivity s3; [apply still_assign_seq|]. apply still_if; [apply still_assign_seq|done]. }
  clearbody s4. set (s5 := v3da_bo_mark_use _ _ _ s4). assert (P [] s5) as P5 by (by apply sub_mark). clearbody s5.
  still. set (s6 := foldl _ s5 _). transitivity s6; [apply still_foldl; intros; apply still_submit_out|]. clearbody s6.
  transitivity (push_job ci f s6); [apply still_push_job|]. apply still_if; [apply still_push_job|done].
Qed.

Lemma kept_keep_bos last bos f s :
  newly f last s → P bos s →
  let '(ok, s') := submit_keep_bos last bos s in if ok then P [] s' else P bos s' ∧ newly f last s'.
Proof.
  intros Hn HP. unfold submit_keep_bos. destruct bos as [|h bos]; [done|]. cbv zeta.
  assert (P (h :: bos) (tick s)) as HT by (still; apply still_tick).
  destruct (env_malloc _); [|done]. assert (∃ j, job (tick s) last = Some j ∧ j_bos j = None) as (j & Hj & Hb).
  { unfold newly in Hn. case_decide as Hd; [subst|].
    - destruct Hn as (j & Hj & ((Hb & _) & _)). by exists j.
    - destruct Hn as (jf & jl & _ & Hl & _ & (Hb & _) & _). by exists jl. }
  by apply (sub_keep _ _ j).
Qed.

Lemma kept_drop_new bos f last s : newly f last s → P bos s →
  P bos (free_job last (if negb (f =? last) then free_job f s else s)).
Proof.
  intros Hn HP. unfold newly in Hn. case_decide as Hd.
  - subst. rewrite Z.eqb_refl. cbn [negb]. destruct Hn as (j & Hj & Hf). by apply (sub_free _ _ j).
  - destruct (Z.eqb_spec f last); [done|]. by apply sub_unpair.
Qed.

(** ** The three submissions *)
Definition submit_ok (data : option (Z → Z)) (s : v3da_srv_t) : Prop :=
  (∀ w i, data = Some w → 0 ≤ w i) ∧ Z.of_nat (length (job_pins s)) + V3DA_SUBMIT_MAX_BOS < 2 ^ 32.

Lemma parse_bos ci op hdr data size s a :
  (∀ w i, data = Some w → 0 ≤ w i) → submit_parse ci op hdr data size s = inr a →
  Forall (Z.le 0) (sa_bos a) ∧ Z.of_nat (length (sa_bos a)) ≤ V3DA_SUBMIT_MAX_BOS.
Proof.
  intros Hw. unfold submit_parse. destruct (want_desc op) as [want|]; [|done]. case_match; [done|].
  destruct (Z.ltb_spec V3DA_SUBMIT_MAX_BOS (sb_nbo hdr)) as [|Hn]; [done|]. case_match; [done|]. destruct data as [w|]; [|done].
  assert (Forall (Z.le 0) (map (λ i, w (want / 4 + i)) (seqZ 0 (sb_nbo hdr))) ∧
    Z.of_nat (length (map (λ i, w (want / 4 + i)) (seqZ 0 (sb_nbo hdr)))) ≤ V3DA_SUBMIT_MAX_BOS) as Hb.
  { split; [|rewrite length_map, length_seqZ; unfold V3DA_SUBMIT_MAX_BOS in *; lia].
    apply Forall_fmap, Forall_forall. intros i _. exact (Hw w _ eq_refl). }
  case_match; [done|]. cbv zeta. case_match; [done|]. case_match; [done|]. case_match; [case_match; [done|]|]; intros [= <-]; exact Hb.
Qed.

Lemma kept_submit ci op hdr data size s :
  sched_inv [] s → submit_ok data s → P [] s → P [] (v3da_submit ci op hdr data size s).2.
Proof.
  intros Hinv [Hw Hroom] HP. unfold v3da_submit, v3da_now_us. cbv zeta iota beta.
  assert (sched_inv [] (tick s)) as It by (by apply (quiet_inv _ s); [apply quiet_of|]).
  assert (P [] (tick s)) as Pt by (still; apply still_tick). change (job_pins s) with (job_pins (tick s)) in Hroom.
  destruct (submit_parse ci op hdr data size (tick s)) as [rc|a] eqn:Hpa; [cbn [snd submit_reject]; still; still_refl|].
  destruct (parse_bos _ _ _ _ _ _ _ Hw Hpa) as [Hnn Hlen].
  pose proof (pin_quiet (sa_bos a) (tick s)) as Hq. destruct (v3da_bo_pin_for_job (sa_bos a) (tick s)) as [rc s1] eqn:Hpin. cbn [snd] in Hq.
  destruct (Z.eqb_spec rc 0) as [->|Hrc]; cbn [negb].
  2:{ cbn [snd submit_reject]. assert (s1 = tick s) as ->; [|still; still_refl].
      revert Hpin. unfold v3da_bo_pin_for_job. case_match; intros Hpin; [by apply (f_equal fst) in Hpin|by apply (f_equal snd) in Hpin]. }
  assert (P (sa_bos a) s1) as P1 by (apply (sub_pin _ (tick s)); [done|unfold pins_room; lia|done|done]).
  assert (sched_inv [] s1) as I1 by (by apply (quiet_inv _ (tick s))). clear Hpin Hq.
  set (s2 := submit_count_cl a s1).
  assert (still s1 s2) as S2 by (unfold s2, submit_count_cl; repeat case_match; still_refl).
  assert (quiet s1 s2) as Q2 by (unfold s2, submit_count_cl; repeat case_match; by apply quiet_of).
  assert (P (sa_bos a) s2) as P2 by (by still). assert (sched_inv [] s2) as I2 by (by apply (quiet_inv _ s1)). clearbody s2.
  pose proof (submit_jobs_inv ci op a (env_now (cursor s)) s2 I2) as Hj. pose proof (kept_submit_jobs (sa_bos a) ci op a (env_now (cursor s)) s2 I2 P2) as HPj.
  destruct (submit_jobs _ _ _ _ _) as [[[first last]|] s3]; [|by apply sub_unpin]. cbn [snd].
  destruct Hj as (I3 & _ & Hle & (qf & ql & Kf & Kl) & Hnew). destruct HPj as [P3 N3].
  pose proof (keep_bos_quiet last (sa_bos a) s3) as Hk. pose proof (kept_keep_bos last (sa_bos a) first s3 N3 P3) as HPk.
  destruct (submit_keep_bos last (sa_bos a) s3) as [ok s4]. simpl in Hk. destruct ok; cbn [negb snd].
  - assert (sched_inv [last; first] s4) as I4 by (by apply (quiet_inv _ s3)).
    rewrite <- (quiet_key _ _ first Hk) in Kf. rewrite <- (quiet_key _ _ last Hk) in Kl. pose proof Hk as [_ Hs]. rewrite <- Hs in Kf, Kl.
    assert (sched_inv [] (submit_queue ci a first last s4)) as I5.
    { apply (submit_queue_inv ci a first last qf ql); try done.
      intros jid Hj. apply Hnew. apply (jkey_is_Some s3 s4); [by apply quiet_key|done]. }
    pose proof (kept_submit_queue ci a first last s4 Hnn HPk) as P5. set (s5 := submit_queue _ _ _ _ _) in *. clearbody s5.
    apply (sub_still _ (v3da_sched_run s5)); [apply still_kick|]. by apply (kept_sched_run (P [])).
  - destruct HPk as [P4 N4]. apply sub_unpin. by apply kept_drop_new.
Qed.

(** A CPU-queue job, queued after steps that move nothing. *)
Lemma kept_cpu_job ci jid now s s1 s2 :
  sched_inv [] s → job_new ci V3DA_Q_CPU now s = (Some jid, s1) → quiet s1 s2 → P [] s → (P [] s1 → P [] s2) →
  P [] (v3da_kick_event_thread (v3da_sched_run (push_job ci jid s2))).
Proof.
  intros Hinv Hn Hq HP H12. destruct (job_new_inv [] ci _ now s jid s1 Hinv Hn) as (I1 & K1 & C1 & G1 & _ & J1 & _).
  destruct (job_new_fresh [] ci _ now s jid s1 Hinv Hn) as (N1 & _). pose proof (sub_new [] ci _ now s jid s1 Hn N1 HP) as P1.
  assert (P [] (push_job ci jid s2)) as P2 by (eapply sub_still; [apply still_push_job|by apply H12]).
  apply (sub_still _ (v3da_sched_run (push_job ci jid s2))); [apply still_kick|]. apply (kept_sched_run (P [])); [|done].
  apply (push_job_inv [] ci jid s2 V3DA_Q_CPU).
  - by apply (quiet_inv _ s1).
  - by apply not_elem_of_nil.
  - rewrite (quiet_key _ _ _ Hq). destruct Hq as [_ Hs]. by rewrite Hs, C1.
  - intros jid' Hj Hne. apply (jkey_is_Some s1 s2) in Hj; [|by apply quiet_key].
    rewrite J1 in Hj by (intros ->; apply Hne; by left). apply (si_gseq _ _ Hinv) in Hj. lia.
Qed.

Lemma kept_submit_nop ci d s : sched_inv [] s → P [] s → P [] (v3da_submit_nop ci d s).2.
Proof.
  intros Hinv HP. unfold v3da_submit_nop, v3da_now_us. case_match; [done|]. cbv zeta iota beta.
  assert (sched_inv [] (tick s)) as It by (by apply (quiet_inv _ s); [apply quiet_of|]).
  assert (P [] (tick s)) as Pt by (still; apply still_tick).
  destruct (job_new ci V3DA_Q_CPU _ (tick s)) as [[jid|] s1] eqn:Hn; cbn [snd].
  - apply (kept_cpu_job ci jid (env_now (cursor s)) (tick s) s1); [done|exact Hn| |done|].
    + etrans; [|apply assign_seq_quiet]. by apply set_job_quiet.
    + intros P1. still. etrans; [|apply still_assign_seq]. by apply still_set_job.
  - apply job_new_None in Hn as ->. still. apply still_tick.
Qed.

Lemma kept_attach_fence ci rq s :
  sched_inv [] s →
  (∀ l i, v3da_bo_sync_targets (c_id (srv_client s ci)) rq V3DA_MAX_CLIENTS s = inr l → i ∈ l → 0 ≤ bo_handle (srv_bos s i)) →
  P [] s → P [] (v3da_bo_attach_fence ci rq s).2.
Proof.
  intros Hinv Hh HP. unfold v3da_bo_attach_fence. cbv zeta. case_match; [done|].
  destruct (v3da_bo_sync_targets _ _ _ _) as [|targets]; [done|]. specialize (Hh targets). destruct targets as [|t targets]; [done|].
  case_match; [done|]. destruct (attach_deps _ _ _) as [dep full].
  destruct full; [cbn [snd]; still; still_refl|]. unfold v3da_now_us. cbv zeta iota beta.
  assert (sched_inv [] (tick s)) as It by (by apply (quiet_inv _ s); [apply quiet_of|]).
  assert (P [] (tick s)) as Pt by (still; apply still_tick).
  destruct (job_new ci V3DA_Q_CPU _ (tick s)) as [[jid|] s1] eqn:Hn; cbn [snd].
  2:{ apply job_new_None in Hn as ->. still. apply still_tick. }
  set (s2 := assign_seq ci jid _). set (s3 := v3da_bo_mark_use _ _ _ s2).
  apply (kept_cpu_job ci jid (env_now (cursor s)) (tick s) s1); [done|exact Hn| |done|].
  - transitivity s3; [|by apply quiet_of]. transitivity s2; [|apply mark_use_quiet].
    etrans; [|apply assign_seq_quiet]. by apply set_job_quiet.
  - intros P1. assert (P [] s2) as P2 by (still; etrans; [|apply still_assign_seq]; by apply still_set_job).
    assert (Forall (Z.le 0) (map (λ i, bo_handle (srv_bos s2 i)) (t :: targets))) as Hnn.
    { assert (∀ i, bo_handle (srv_bos s2 i) = bo_handle (srv_bos s i)) as Eb.
      { assert (srv_bo s2 = srv_bo s) as E2.
        { unfold s2, assign_seq. case_match; cbv zeta; cbn; (transitivity (srv_bo s1); [done|]);
          revert Hn; unfold job_new; cbv zeta; (destruct (env_malloc _); [|done]); cbn [negb]; intros Hn; by apply (f_equal snd) in Hn; cbn in Hn; rewrite <- Hn. }
        intros i. unfold srv_bos. by rewrite E2. }
      apply Forall_fmap, Forall_forall. intros i Hi. cbn. rewrite Eb. by apply Hh. }
    pose proof (sub_mark _ (job_fence s2 jid) jid s2 Hnn P2) as P3. fold s3 in P3. clearbody s3. still. still_refl.
Qed.

(** ** A client's death *)
Lemma kept_discard_fifo n qu slot s : P [] s → P [] (discard_fifo n qu slot s).
Proof.
  revert s. induction n as [|n IH]; intros s HP; [done|]. simpl. destruct (head s qu slot) as [jid|]; [|done].
  apply IH, sub_discard. still. transitivity (fifo_pop qu slot s); by apply still_set_q.
Qed.

Lemma still_flush_queue slot qu s : still s (flush_queue slot qu s).
Proof. unfold flush_queue. cbv zeta. apply still_if; still_refl. Qed.

Lemma kept_jobs_client_gone c s : sched_inv [] s → P [] s → P [] (v3da_jobs_client_gone c s).
Proof.
  intros Hinv HP. unfold v3da_jobs_client_gone. cbv zeta.
  set (s1 := for_ 0 V3DA_Q_COUNT _ s). assert (sched_inv [] s1 ∧ P [] s1) as [I1 P1].
  { unfold s1. apply (for_inv (λ s, sched_inv [] s ∧ P [] s)); [done|]. intros qu s' _ [I' P']. split; [by apply discard_fifo_inv|by apply kept_discard_fifo]. }
  clearbody s1. set (s2 := for_ 0 V3DA_Q_COUNT _ s1). apply (kept_sched_run (P [])).
  - apply (for_inv (sched_inv [])); [done|]. intros i s' _ H. apply (sched_inv_same _ s'); [apply flush_queue_quiet|done].
  - still. apply still_for. intros; apply still_flush_queue.
Qed.
End closed.
