(* ===== verification/Closed.v ===== *)
(** The counts, the overflow pool and the pins are kept by submissions and client deaths
    too. *)
From S2P Require Import Prelude Proto State Lowmem Hw Fence Bo BoInv BoMap BoShare BoSteps BoReach BoSpec.
From S2P Require Import Ovf Waits Jobs Submit Events SchedInv SchedKick SchedRun SchedReach SchedSpec Kept Counts.
From S2P Require Import OvfInv OvfSteps OvfKept Pins PinKept Closure.

Section env.
Context `{E : Env}.

Lemma job_new_state ci qu now s jid s' : job_new ci qu now s = (Some jid, s') →
  srv_bo s' = srv_bo s ∧ srv_hw s' = srv_hw s ∧ srv_ovf s' = srv_ovf s ∧ srv_fp s' = srv_fp s ∧ (∀ q, active s' q = active s q) ∧
  ∃ j, fresh_job j ∧ jobs (srv_sched s') = <[jid := j]> (jobs (srv_sched s)).
Proof.
  unfold job_new. cbv zeta. destruct (env_malloc _); [|done]. cbn [negb]. intros H.
  pose proof (f_equal fst H) as Hj. pose proof (f_equal snd H) as Hs. cbn [fst snd] in Hj, Hs. injection Hj as Hj. rewrite <- Hs, <- Hj.
  split_and!; try done. eexists. split; [|reflexivity]. done.
Qed.

(** ** The counts *)
Lemma counts_view s s' : fp_view (srv_fp s') = fp_view (srv_fp s) → (∀ qu, active s' qu = active s qu) →
  (∀ jid j, job s' jid = Some j → j_t_kick_us j = 0 ∨ ∃ j0, job s jid = Some j0 ∧ cnt_view j = cnt_view j0) →
  counts_inv s → counts_inv s'.
Proof.
  intros Hf Ha Hj [H1 H2]. unfold fp_view in Hf. injection Hf as Es Ec _. constructor.
  - intros qu. unfold busy. rewrite Es, Ec, Ha. apply H1.
  - intros jid j Hjob Hna. destruct (Hj jid j Hjob) as [?|(j0 & Hj0 & Hv)]; [done|]. unfold cnt_view in Hv.
    injection Hv as Eq ->. apply (H2 jid); [done|]. by rewrite <- Eq, <- Ha.
Qed.

Lemma counts_unpin hs s : counts_inv s → counts_inv (v3da_bo_unpin hs s).
Proof. apply counts_same, cnt_same_of; [apply unpin_sched|apply unpin_fp]. Qed.

Lemma counts_free jid s : counts_inv s → counts_inv (free_job jid s).
Proof.
  apply counts_view; [done|done|]. intros x j Hx. right. exists j. split; [|done].
  unfold job, free_job in Hx. simpl in Hx. by apply lookup_delete_Some in Hx as [_ ?].
Qed.

Lemma counts_set_job jid f s : (∀ b, cnt_view (f b) = cnt_view b) → counts_inv s → counts_inv (set_job jid f s).
Proof. intros Hf. apply counts_same. by apply cnt_same_set_job. Qed.

#[export] Instance counts_submitted : Submitted (λ _, counts_inv).
Proof.
  split.
  - apply counts_kept.
  - intros _ s s' H. by apply kept_still.
  - intros hs s s' _ _ Hp. apply counts_same. unfold v3da_bo_pin_for_job in Hp. case_match; [|done].
    apply (f_equal snd) in Hp. cbn [snd] in Hp. rewrite <- Hp. clear Hp.
    assert (∀ s0, cnt_same s s0 → cnt_same s (foldl (λ s h, match v3da_bo_find s h with
       | Some i => set_bo i (λ b, b <| bo_inflight ::= λ n, u32 (n + 1) |>) s | None => s end) s0 hs)) as Hl; [|by apply Hl].
    clear. induction hs as [|h hs IH]; intros s0 H0; [done|]. simpl. apply IH. etrans; [exact H0|]. case_match; [by apply cnt_same_of|done].
  - intros hs s. apply counts_unpin.
  - intros _ ci qu now s jid s' Hn _. destruct (job_new_state _ _ _ _ _ _ Hn) as (_ & _ & _ & Ef & Ea & j & Hf & Ej).
    apply counts_view; [by rewrite Ef|done|]. intros x jx. unfold job. rewrite Ej. destruct (decide (jid = x)) as [->|Hne].
    + rewrite lookup_insert_eq. intros [= <-]. left. apply Hf.
    + rewrite lookup_insert_ne by done. intros Hx. right. by exists jx.
  - intros _ jid j s _ _. apply counts_free.
  - intros _ f l d s _ _ _ H. by apply counts_set_job, counts_set_job.
  - intros _ f l s _ _ H. by apply counts_free, counts_free.
  - intros hs jid j s _ _. by apply counts_set_job.
  - intros hs f g s _. apply counts_same, cnt_same_of; [|].
    + unfold v3da_bo_mark_use. revert s. induction hs as [|h hs IH]; intros s; [done|]. simpl. rewrite IH. by repeat case_match.
    + unfold v3da_bo_mark_use. revert s. induction hs as [|h hs IH]; intros s; [done|]. simpl. rewrite IH. by repeat case_match.
  - intros jid s H. unfold job_discard. destruct (job s jid) as [j|]; [|done]. apply counts_free. cbv zeta.
    set (s1 := match j_render j with Some _ => _ | None => _ end).
    assert (cnt_same s s1) as F1.
    { transitivity (unlink_bin j s); [unfold unlink_bin; case_match; [by apply cnt_same_set_job|done]|].
      unfold s1. destruct (j_render j); [by apply cnt_same_set_job|done]. }
    clearbody s1. set (s2 := if _ : bool then _ else s1).
    assert (cnt_same s1 s2) as F2 by (unfold s2; destruct (0 <=? _); [by apply cnt_same_of|done]). clearbody s2.
    apply (counts_same s); [|done]. etrans; [exact F1|]. etrans; [exact F2|]. unfold drop_pins. case_match; [|done].
    apply cnt_same_of; [apply unpin_sched|apply unpin_fp].
Qed.

(** ** The overflow pool *)
Lemma ovf_still_frame s s' : srv_ovf s' = srv_ovf s → ovf_words (srv_hw s') = ovf_words (srv_hw s) →
  jobs (srv_sched s') = jobs (srv_sched s) → ovf_inv s → ovf_inv s'.
Proof.
  intros Eo Eh Ej [Hc Hl]. split; [|by apply (links_jobs s)]. apply (core_ext s); [done|by rewrite Eo|done|].
  intros x. left. by apply j_ovf_sched.
Qed.

(** The heap changed where jobs are bare. *)
Lemma ovf_jobs s s' : srv_ovf s' = srv_ovf s → srv_hw s' = srv_hw s → (∀ x, same_head (j_ovf s x) (j_ovf s' x)) →
  links_inv s' → ovf_inv s → ovf_inv s'.
Proof. intros Eo Eh Ej Hl [Hc _]. split; [|done]. apply (core_ext s); [done|by rewrite Eo|by rewrite Eh|done]. Qed.

Lemma links_new jid j s s' : jobs (srv_sched s') = <[jid := j]> (jobs (srv_sched s)) → job s jid = None →
  j_render j = None → j_bin j = None → links_inv s → links_inv s'.
Proof.
  intros Ej Hn Hr Hb [H1 H2].
  assert (∀ x, job s' x = if decide (jid = x) then Some j else job s x) as Hx.
  { intros x. unfold job. rewrite Ej. case_decide; [subst; by rewrite lookup_insert_eq|by rewrite lookup_insert_ne]. }
  constructor.
  - intros b jb r. rewrite Hx. case_decide; [intros [= <-]; congruence|]. intros Hjb Hjr. destruct (H1 _ _ _ Hjb Hjr) as (Q & B & jr & Hjr' & Hrb).
    split_and!; [done|done|]. exists jr. rewrite Hx. rewrite decide_False by congruence. done.
  - intros r jr b. rewrite Hx. case_decide; [intros [= <-]; congruence|]. intros Hjr Hjb. destruct (H2 _ _ _ Hjr Hjb) as (Q & B & jb & Hjb' & Hbr).
    split_and!; [done|done|]. exists jb. rewrite Hx. rewrite decide_False by congruence. done.
Qed.

Lemma links_free jid j s : job s jid = Some j → j_render j = None → j_bin j = None → links_inv s → links_inv (free_job jid s).
Proof.
  intros Hj Hr Hb Hl. apply (links_drop jid s); [|apply lookup_delete_eq|done]. intros x Hne.
  unfold job at 1, free_job. simpl. rewrite lookup_delete_ne by done. fold (job s x). destruct (job s x) as [jx|] eqn:Hx; [|done].
  destruct (links_partner _ _ _ _ _ Hl Hj Hx) as [P1 P2]. simpl. unfold lview, cut.
  rewrite !bool_decide_eq_false_2; [done| |]; intros Hc; [apply P2 in Hc|apply P1 in Hc]; congruence.
Qed.

(** Two unlinked jobs linked; a linked pair freed. *)
Lemma links_pair f l jf jl s s' :
  f ≠ l → job s f = Some jf → job s l = Some jl → j_render jf = None → j_bin jf = None → j_render jl = None → j_bin jl = None →
  j_queue jf = V3DA_Q_BIN → j_queue jl = V3DA_Q_RENDER →
  (∀ x, lview <$> job s' x = if decide (x = f) then Some (V3DA_Q_BIN, None, Some l)
        else if decide (x = l) then Some (V3DA_Q_RENDER, Some f, None) else lview <$> job s x) →
  links_inv s → links_inv s'.
Proof.
  intros Hne Hf Hl Hfr Hfb Hlr Hlb Qf Ql Hx [H1 H2].
  assert (∀ x jx, job s' x = Some jx → x ≠ f → x ≠ l → ∃ j0, job s x = Some j0 ∧ lview jx = lview j0) as Hold.
  { intros x jx Hjx H3 H4. specialize (Hx x). rewrite !decide_False, Hjx in Hx by done. destruct (job s x) as [j0|]; [|done]. exists j0. by apply (inj Some) in Hx. }
  assert (∀ x j0, job s x = Some j0 → x ≠ f → x ≠ l → ∃ jx, job s' x = Some jx ∧ lview jx = lview j0) as Hnew.
  { intros x j0 Hj0 H3 H4. specialize (Hx x). rewrite !decide_False, Hj0 in Hx by done. destruct (job s' x) as [jx|]; [|done]. exists jx. by apply (inj Some) in Hx. }
  pose proof (Hx f) as Xf. rewrite decide_True in Xf by done. apply lview_job in Xf as (jf' & Ef & Qf' & Bf' & Rf').
  pose proof (Hx l) as Xl. rewrite decide_False, decide_True in Xl by done. apply lview_job in Xl as (jl' & El & Ql' & Bl' & Rl').
  constructor.
  - intros b jb r Hjb Hr. destruct (decide (b = f)) as [->|Hbf]; [|destruct (decide (b = l)) as [->|Hbl]; [congruence|]].
    + assert (jb = jf') as -> by congruence. split_and!; [done|done|]. exists jl'. assert (r = l) as -> by congruence. done.
    + destruct (Hold _ _ Hjb Hbf Hbl) as (j0 & Hj0 & Ev). unfold lview in Ev. injection Ev as Eq Eb Er. rewrite Er in Hr.
      destruct (H1 _ _ _ Hj0 Hr) as (Q & B & jr & Hjr & Hrb). assert (r ≠ f ∧ r ≠ l) as [? ?] by (split; congruence).
      destruct (Hnew _ _ Hjr) as (jr' & Hjr' & Ev'); [done|done|]. unfold lview in Ev'. injection Ev' as _ Eb' _.
      split_and!; [congruence|congruence|]. exists jr'. split; [done|congruence].
  - intros r jr b Hjr Hrb. destruct (decide (r = l)) as [->|Hrl]; [|destruct (decide (r = f)) as [->|Hrf]; [congruence|]].
    + assert (jr = jl') as -> by congruence. split_and!; [done|done|]. exists jf'. assert (b = f) as -> by congruence. done.
    + destruct (Hold _ _ Hjr Hrf Hrl) as (j0 & Hj0 & Ev). unfold lview in Ev. injection Ev as Eq Eb Er. rewrite Eb in Hrb.
      destruct (H2 _ _ _ Hj0 Hrb) as (Q & B & jb & Hjb & Hbr). assert (b ≠ f ∧ b ≠ l) as [? ?] by (split; congruence).
      destruct (Hnew _ _ Hjb) as (jb' & Hjb' & Ev'); [done|done|]. unfold lview in Ev'. injection Ev' as _ _ Er'.
      split_and!; [congruence|congruence|]. exists jb'. split; [done|congruence].
Qed.

(** Pinning and recording a use touch the objects only. *)
Definition but_bo (s s' : v3da_srv_t) : Prop :=
  srv_hw s' = srv_hw s ∧ srv_ovf s' = srv_ovf s ∧ srv_sched s' = srv_sched s ∧ srv_fp s' = srv_fp s.
Lemma foldl_but_bo {A} (f : v3da_srv_t → A → v3da_srv_t) l s : (∀ s x, but_bo s (f s x)) → but_bo s (foldl f s l).
Proof.
  intros Hf. revert s. induction l as [|x l IH]; intros s; [done|]. simpl. unfold but_bo. destruct (IH (f s x)) as (-> & -> & -> & ->). apply Hf.
Qed.
Lemma pin_but_bo hs s s' : v3da_bo_pin_for_job hs s = (0, s') → but_bo s s'.
Proof.
  unfold v3da_bo_pin_for_job. case_match; [|done]. intros Hp. apply (f_equal snd) in Hp. cbn [snd] in Hp. rewrite <- Hp.
  apply foldl_but_bo. intros s0 h. by case_match.
Qed.
Lemma mark_but_bo hs f g s : but_bo s (v3da_bo_mark_use hs f g s).
Proof. apply foldl_but_bo. intros s0 h. by repeat case_match. Qed.

Lemma ovf_but_bo s s' : but_bo s s' → ovf_inv s → ovf_inv s'.
Proof. intros (Eh & Eo & Es & _). apply ovf_frame; [done|done|by rewrite Es]. Qed.

Lemma j_ovf_free jid s x : j_ovf s jid < 0 → same_head (j_ovf s x) (j_ovf (free_job jid s) x).
Proof.
  intros Hn. unfold j_ovf at 2, job, free_job. simpl. destruct (decide (x = jid)) as [->|Hne]; [rewrite lookup_delete_eq; by right|].
  rewrite lookup_delete_ne by done. by left.
Qed.

Lemma ovf_new ci qu now s jid s' : job_new ci qu now s = (Some jid, s') → job s jid = None → ovf_inv s → ovf_inv s'.
Proof.
  intros Hn Hno H. destruct (job_new_state _ _ _ _ _ _ Hn) as (_ & Eh & Eo & _ & _ & j & ((_ & Hov & _) & Hr & Hb) & Ej).
  apply (ovf_jobs s); [done|done| |by apply (links_new jid j s), H|done]. intros x. left.
  unfold j_ovf, job. rewrite Ej. destruct (decide (jid = x)) as [->|Hne]; [|by rewrite lookup_insert_ne].
  rewrite lookup_insert_eq, Hov. unfold job in Hno. by rewrite Hno.
Qed.

Lemma ovf_free jid j s : job s jid = Some j → fresh_job j → ovf_inv s → ovf_inv (free_job jid s).
Proof.
  intros Hj ((_ & Hov & _) & Hr & Hb) H. apply (ovf_jobs s); [done|done| |by apply (links_free jid j s), H|done].
  intros x. apply j_ovf_free. unfold j_ovf. rewrite Hj. lia.
Qed.

Lemma ovf_pair f l d s : f ≠ l → (∃ j, job s f = Some j ∧ fresh_job j ∧ j_queue j = V3DA_Q_BIN) →
  (∃ j, job s l = Some j ∧ fresh_job j ∧ j_queue j = V3DA_Q_RENDER) → ovf_inv s →
  ovf_inv (set_job l (λ b, b <| j_d := d |> <| j_bin := Some f |>) (set_job f (λ b, b <| j_d := d |> <| j_render := Some l |>) s)).
Proof.
  intros Hne (jf & Ef & ((_ & _ & _) & Rf & Bf) & Qf) (jl & El & ((_ & _ & _) & Rl & Bl) & Ql) H.
  apply (ovf_jobs s); [done|done| | |done].
  - intros x. left. rewrite !j_ovf_set_keep by done. done.
  - apply (links_pair f l jf jl s); try done; [|apply H]. intros x. unfold job, set_job. simpl. unfold job in Ef, El.
    destruct (decide (x = f)) as [->|Hxf]; [|destruct (decide (x = l)) as [->|Hxl]].
    + rewrite lookup_alter_ne, lookup_alter_eq, Ef by done. simpl. unfold lview. simpl. by rewrite Qf, Bf.
    + rewrite lookup_alter_eq, lookup_alter_ne, El by done. simpl. unfold lview. simpl. by rewrite Ql, Rl.
    + by rewrite !lookup_alter_ne.
Qed.

Lemma ovf_unpair f l s : f ≠ l → paired f l s → ovf_inv s → ovf_inv (free_job l (free_job f s)).
Proof.
  intros Hne (jf & jl & Ef & El & (_ & Of & _) & (_ & Ol & _) & Qf & Ql & Rf & Bf & Bl & Rl) H.
  apply (ovf_jobs s); [done|done| | |done].
  - intros x. assert (j_ovf s f < 0 ∧ j_ovf s l < 0) as [H1 H2] by (unfold j_ovf; rewrite Ef, El; lia).
    unfold j_ovf at 2, job, free_job. simpl. destruct (decide (x = l)) as [->|Hxl]; [rewrite lookup_delete_eq; by right|].
    rewrite lookup_delete_ne by done. destruct (decide (x = f)) as [->|Hxf]; [rewrite lookup_delete_eq; by right|].
    rewrite lookup_delete_ne by done. by left.
  - set (s2 := set_job l (λ b, b <| j_bin := None |>) (free_job f s)).
    assert (∀ x, x ≠ l → job s2 x = job (free_job f s) x) as E2 by (intros x Hx; unfold s2, job, set_job; simpl; by rewrite lookup_alter_ne).
    assert (job s2 l = Some (jl <| j_bin := None |>)) as El2.
    { unfold s2, job, set_job, free_job. simpl. rewrite lookup_alter_eq, lookup_delete_ne by done. unfold job in El. by rewrite El. }
    assert (links_inv s2) as L2.
    { apply (links_drop f s); [| |apply H].
      - intros x Hx. destruct (decide (x = l)) as [->|Hxl].
        + rewrite El2, El. simpl. unfold lview, cut. simpl. by rewrite Bl, Rl, bool_decide_eq_true_2.
        + rewrite E2 by done. unfold job at 1, free_job. simpl. rewrite lookup_delete_ne by done. fold (job s x).
          destruct (job s x) as [jx|] eqn:Hjx; [|done]. destruct (links_partner s f jf x jx (proj2 H) Ef Hjx) as [P1 P2].
          simpl. unfold lview, cut. rewrite !bool_decide_eq_false_2; [done| |]; intros Hc; [apply P2 in Hc|apply P1 in Hc]; congruence.
      - rewrite E2 by done. unfold job, free_job. simpl. apply lookup_delete_eq. }
    apply (links_jobs (free_job l s2)); [|by apply (links_free l _ s2 El2)].
    unfold s2, set_job, free_job. simpl. symmetry. apply map_eq. intros x.
    destruct (decide (x = l)) as [->|Hx]; [by rewrite !lookup_delete_eq|]. rewrite !(lookup_delete_ne _ l) by done. by rewrite lookup_alter_ne.
Qed.

#[export] Instance ovf_submitted : Submitted (λ _, ovf_inv).
Proof.
  split.
  - apply ovf_kept.
  - intros _ s s' H. by apply ovf_still.
  - intros hs s s' _ _ Hp. apply ovf_but_bo. by apply (pin_but_bo hs).
  - intros hs s. apply ovf_part_inv, unpin_part.
  - intros _ ci qu now s jid s'. apply ovf_new.
  - intros _. apply ovf_free.
  - intros _. apply ovf_pair.
  - intros _. apply ovf_unpair.
  - intros hs jid j s _ _. by apply ovf_set_job.
  - intros hs f g s _. apply ovf_but_bo, mark_but_bo.
  - intros jid s. apply ovf_discard.
Qed.

(** ** The pins *)
Lemma pins_but_jobs extra hs hs' s s' :
  srv_bo s' = srv_bo s → srv_hw s' = srv_hw s → hs' ++ job_pins s' ≡ₚ hs ++ job_pins s → pins_inv extra hs s → pins_inv extra hs' s'.
Proof.
  intros Eb Eh Hp [Hinv Hat]. split; [by apply (bo_inv_ext _ _ s)|]. rewrite Hp. apply (pins_at_same _ s); [by apply pin_same_of|done].
Qed.

Lemma job_pins_at s jid l : pins_of <$> job s jid = Some l → job_pins s ≡ₚ l ++ all_pins (delete jid (pins_of <$> jobs (srv_sched s))).
Proof. intros Hj. apply all_pins_delete. by rewrite lookup_fmap. Qed.

Lemma pins_free_bare extra hs jid j s : job s jid = Some j → j_bos j = None → pins_inv extra hs s → pins_inv extra hs (free_job jid s).
Proof.
  intros Hj Hb. apply pins_but_jobs; [done|done|]. rewrite free_job_pins. rewrite (job_pins_at s jid []); [done|].
  rewrite Hj. simpl. unfold pins_of. by rewrite Hb.
Qed.

Lemma pins_keep extra hs jid j s : job s jid = Some j → j_bos j = None → pins_inv extra hs s →
  pins_inv extra [] (set_job jid (λ b, b <| j_bos := Some hs |>) s).
Proof.
  intros Hj Hb. apply pins_but_jobs; [done|done|]. rewrite app_nil_l.
  rewrite (job_pins_at s jid []) by (rewrite Hj; simpl; unfold pins_of; by rewrite Hb).
  rewrite (job_pins_at _ jid hs).
  - unfold set_job. simpl. f_equiv. f_equiv. apply map_eq. intros x. destruct (decide (x = jid)) as [->|Hne]; [by rewrite !lookup_delete_eq|].
    rewrite !lookup_delete_ne, !lookup_fmap, lookup_alter_ne by done. done.
  - unfold job, set_job. simpl. rewrite lookup_alter_eq. unfold job in Hj. by rewrite Hj.
Qed.

#[export] Instance pins_submitted extra : Submitted (pins_inv extra).
Proof.
  split.
  - apply pins_kept.
  - intros hs s s' H. by apply pins_frame, pin_frame_still.
  - intros hs s s' Hnn Hroom Hp [Hinv Hat]. rewrite app_nil_l in Hat. destruct (pin_but_bo _ _ _ Hp) as (_ & _ & Es & _). split.
    + pose proof (pin_for_job_inv extra hs s Hinv Hnn) as H. by rewrite Hp in H.
    + assert (job_pins s' = job_pins s) as -> by (unfold job_pins; by rewrite Es). by apply (pin_for_job_at extra hs _ s).
  - intros hs s [Hinv Hat]. destruct (unpin_at extra hs _ s Hinv Hat) as [H1 H2]. split; [done|]. rewrite app_nil_l.
    assert (job_pins (v3da_bo_unpin hs s) = job_pins s) as -> by (unfold job_pins; by rewrite unpin_sched). done.
  - intros hs ci qu now s jid s' Hn Hno. destruct (job_new_state _ _ _ _ _ _ Hn) as (Eb & Eh & _ & _ & _ & j & ((Hb & _) & _) & Ej).
    apply pins_but_jobs; [done|done|]. unfold job_pins. rewrite Ej, fmap_insert, all_pins_insert; [|by rewrite lookup_fmap; unfold job in Hno; rewrite Hno].
    unfold pins_of at 1. by rewrite Hb.
  - intros hs jid j s Hj ((Hb & _) & _). by apply (pins_free_bare extra hs jid j).
  - intros hs f l d s Hne _ _. apply pins_frame.
    match goal with |- pin_frame _ (set_job l _ ?x) => transitivity x end; by apply pin_frame_set_job.
  - intros hs f l s Hne (jf & jl & Ef & El & (Hf & _) & (Hl & _) & _) H.
    apply (pins_free_bare extra hs l jl); [|done|by apply (pins_free_bare extra hs f jf)].
    unfold job, free_job. simpl. by rewrite lookup_delete_ne.
  - intros hs jid j s. apply pins_keep.
  - intros hs f g s Hnn [Hinv Hat]. split; [by apply mark_use_inv|].
    destruct (mark_but_bo hs f g s) as (_ & _ & Es & _). assert (job_pins (v3da_bo_mark_use hs f g s) = job_pins s) as -> by (unfold job_pins; by rewrite Es).
    apply (pins_at_same _ s); [apply mark_use_pins|done].
  - intros jid s. apply pins_discard.
Qed.
End env.
