(* ===== verification/Aside.v ===== *)
(** The steps that take no part in the server's invariant: what a predicate must ignore so
    that parking, answering, syncobjs, queries and the present family keep it ([calm]), and
    what the requests on buffer objects leave to the other components ([aside]). *)
From S2P Require Import Prelude Proto State Csdprof Lowmem Hw Fence Bo BoInv BoMap BoShare BoSteps BoReach BoSpec.
From S2P Require Import Ovf Waits Jobs Submit Present Events Main SchedInv SchedKick SchedRun SchedReach SchedSpec.
From S2P Require Import Kept Counts OvfInv OvfSteps OvfKept Pins PinKept Closure Closed.

(** ** Calm steps *)
Definition cid (c : v3da_client_t) : bool * Z * Z := (c_used c, c_id c, c_slot c).

Record calm (s s' : v3da_srv_t) : Prop := mkCalm {
  cm_bo : srv_bo s' = srv_bo s;
  cm_hw : hw_view (srv_hw s') = hw_view (srv_hw s);
  cm_ovf : ovf_view (srv_ovf s') = ovf_view (srv_ovf s);
  cm_sched : same_sched s s';
  cm_jobs : ∀ jid, jview <$> job s' jid = jview <$> job s jid;
  cm_sub : fp_hw_submitted (srv_fp s') = fp_hw_submitted (srv_fp s);
  cm_com : fp_hw_completed (srv_fp s') = fp_hw_completed (srv_fp s);
  cm_cl : ∀ i, cid (srv_client s' i) = cid (srv_client s i) }.
#[export] Instance calm_pre : PreOrder calm.
Proof. split; [done|]. intros a b c [] []. constructor; intros; etrans; eauto. Qed.

Ltac calm_refl := constructor; intros; (reflexivity || split_and!; intros; reflexivity).

Lemma calm_still s s' : same_sched s s' → still s s' → calm s s'.
Proof.
  intros Hq []. unfold fp_view in st_fp. injection st_fp as E1 E2 _. constructor; try done.
  intros i. specialize (st_cl i). unfold cview, cid in *. congruence.
Qed.

Lemma calm_set_client i f s : (∀ c, cid (f c) = cid c) → calm s (set_client i f s).
Proof.
  intros Hf. constructor; try done. intros k. unfold srv_client, set_client. simpl.
  rewrite fn_upd_case. case_decide; [subst; apply Hf|done].
Qed.
Lemma calm_foldl {A} (f : v3da_srv_t → A → v3da_srv_t) l s : (∀ s x, calm s (f s x)) → calm s (foldl f s l).
Proof. intros Hf. revert s. induction l as [|x l IH]; intros s; [done|]. simpl. etrans; [apply Hf|apply IH]. Qed.
Lemma calm_for lo hi f s : (∀ i s, calm s (f i s)) → calm s (for_ lo hi f s).
Proof. intros Hf. apply (for_inv (calm s)); [done|]. intros i s' _ H. etrans; [exact H|apply Hf]. Qed.
Lemma calm_if (b : bool) s s1 s2 : calm s s1 → calm s s2 → calm s (if b then s1 else s2).
Proof. by destruct b. Qed.

Lemma calm_kick s : calm s (v3da_kick_event_thread s).
Proof. calm_refl. Qed.

(** ** Claiming, parking, answering *)
Lemma calm_unlink w s : calm s (wait_unlink w s).
Proof.
  unfold wait_unlink. cbv zeta. set (s1 := s <| srv_wt ; waits ::= _ |> <| srv_wt ; nparked ::= _ |>).
  transitivity s1; [calm_refl|]. apply calm_if; [by apply calm_set_client|done].
Qed.
Lemma calm_claims (f : v3da_srv_t * list v3da_wait_t → v3da_wait_t → v3da_srv_t * list v3da_wait_t) l st :
  (∀ st w, calm st.1 (f st w).1) → calm st.1 (foldl f st l).1.
Proof. intros Hf. revert st. induction l as [|x l IH]; intros st; [done|]. simpl. etrans; [apply Hf|apply IH]. Qed.

Section env.
Context `{E : Env}.

Lemma calm_waits_gone c s a : calm s (v3da_waits_client_gone c s a).1.
Proof.
  apply (calm_claims _ _ (s, a)). intros st w. destruct (_ =? _); [apply calm_unlink|done].
Qed.
Lemma calm_waits_all err s a : calm s (v3da_waits_all err s a).1.
Proof. apply (calm_claims _ _ (s, a)). intros st w. apply calm_unlink. Qed.
Lemma calm_scan now s a : calm s (waits_scan now s a).1.
Proof.
  apply (calm_claims _ _ (s, a)). intros st w. unfold scan_one. destruct (wait_eval _ _) as [rc u]. destruct (0 <? rc); [apply calm_unlink|].
  destruct (rc <? 0); [apply calm_unlink|]. destruct (_ <=? now); [|done]. cbn [wait_claim fst].
  etrans; [|apply calm_unlink]. calm_refl.
Qed.
Lemma calm_answer a s : calm s (v3da_waits_answer a s).
Proof. apply calm_foldl. intros. calm_refl. Qed.
Lemma calm_respond port rid r s : calm s (respond port rid r s).
Proof. destruct r; [calm_refl|done]. Qed.

Lemma calm_park ci kind rid fs hs n all fsub t s : calm s (v3da_wait_park ci kind rid fs hs n all fsub t s).2.
Proof.
  unfold v3da_wait_park, v3da_now_us. destruct (_ <? n); [done|]. cbv zeta. destruct (negb _); [calm_refl|].
  destruct (wait_eval _ _) as [rc u]. destruct (negb _); [calm_refl|]. destruct (t =? 0); [calm_refl|]. cbn [snd].
  set (s1 := tick (tick s)). transitivity s1; [calm_refl|]. clearbody s1.
  match goal with |- context [set_client ci ?f ?x] => set (s2 := x); set (g := f) end.
  transitivity s2; [calm_refl|]. transitivity (set_client ci g s2); [by apply calm_set_client|]. calm_refl.
Qed.

(** ** Syncobjs, flips, modes, statistics, interrupts *)
Lemma calm_set_sync ci i f s : calm s (set_sync ci i f s).
Proof. by apply calm_set_client. Qed.
Lemma calm_sync_kick ci i f s : calm s (v3da_kick_event_thread (set_sync ci i f s)).
Proof. etrans; [apply calm_set_sync|apply calm_kick]. Qed.
Lemma calm_syncobj_create ci fl s : calm s (v3da_syncobj_create ci fl s).2.
Proof. unfold v3da_syncobj_create. destruct (find_first _ _ _); [apply calm_set_sync|done]. Qed.
Lemma calm_syncobj_destroy ci h s : calm s (v3da_syncobj_destroy ci h s).2.
Proof. unfold v3da_syncobj_destroy. destruct (v3da_syncobj_get _ _ _); [apply calm_sync_kick|done]. Qed.
Lemma calm_syncobj_reset ci h s : calm s (v3da_syncobj_reset ci h s).2.
Proof. unfold v3da_syncobj_reset. destruct (v3da_syncobj_get _ _ _); [apply calm_set_sync|done]. Qed.
Lemma calm_syncobj_signal ci h s : calm s (v3da_syncobj_signal ci h s).2.
Proof. unfold v3da_syncobj_signal. destruct (v3da_syncobj_get _ _ _); [apply calm_sync_kick|done]. Qed.
Lemma calm_syncobj_import ci h f s : calm s (v3da_syncobj_import ci h f s).2.
Proof.
  unfold v3da_syncobj_import. destruct (v3da_syncobj_get _ _ _); [|done]. destruct (_ =? 0); [apply calm_sync_kick|].
  destruct (v3da_fence_valid _ _); [apply calm_sync_kick|done].
Qed.

Lemma calm_scanout_info rq s : calm s (v3da_scanout_info rq s).2.
Proof. unfold v3da_scanout_info. destruct (_ || _); [done|]. cbv zeta. destruct (_ && _); [done|]. destruct (env_vcprop _). calm_refl. Qed.
Lemma calm_pan b s : calm s (pan b s).
Proof. unfold pan. destruct (env_vcprop _). calm_refl. Qed.
Lemma calm_flip rq s : calm s (v3da_flip rq s).2.
Proof.
  unfold v3da_flip. cbv zeta. destruct (_ =? 0); [done|]. destruct (_ && _); [done|]. destruct (_ && _); [apply calm_pan|].
  destruct (_ <=? _); [done|]. cbn [snd]. calm_refl.
Qed.

Lemma calm_set_q qu f s : (∀ q, q_active (f q) = q_active q ∧ q_fifo (f q) = q_fifo q) → calm s (set_q qu f s).
Proof. intros Hf. apply calm_still; [apply set_q_same|apply still_set_q]; intros q; apply Hf. Qed.
Lemma calm_acct now s : calm s (acct now s).
Proof. apply calm_still; [apply acct_same|apply still_acct]. Qed.

Lemma calm_qstats_reset now s : calm s (qstats_reset now s).
Proof.
  unfold qstats_reset. cbv zeta. set (s1 := for_ 0 V3DA_Q_COUNT _ s).
  assert (calm s s1) as H1 by (apply calm_for; intros; by apply calm_set_q). clearbody s1.
  transitivity (acct now s1); [|calm_refl]. etrans; [exact H1|apply calm_acct].
Qed.
Lemma calm_qstats rq s : calm s (v3da_qstats rq s).2.
Proof.
  unfold v3da_qstats, v3da_now_us. cbv zeta. set (now := env_now (cursor s)). set (s1 := acct now (tick s)).
  assert (calm s s1) as H1 by (transitivity (tick s); [calm_refl|apply calm_acct]). clearbody s1.
  assert (calm s (if negb (qr_reset rq =? 0) then qstats_reset now s1 else s1)) as H2.
  { apply calm_if; [|done]. etrans; [exact H1|apply calm_qstats_reset]. }
  destruct (qr_which rq =? _); [exact H2|]. destruct (qr_which rq <? _); [exact H2|exact H1].
Qed.

Lemma calm_irq_enable s : calm s (v3da_hw_irq_enable s).2.
Proof.
  unfold v3da_hw_irq_enable. destruct (hw_irq_on _); [done|]. cbv zeta. destruct (_ <? 0); calm_refl.
Qed.
Lemma calm_irq_disable s : calm s (v3da_hw_irq_disable s).
Proof. unfold v3da_hw_irq_disable. cbv zeta. apply calm_if; calm_refl. Qed.
Lemma calm_shutdown s : calm s (v3da_hw_shutdown s).
Proof. unfold v3da_hw_shutdown. transitivity (v3da_hw_irq_disable s); [apply calm_irq_disable|calm_refl]. Qed.
Lemma calm_irq_mode on s : calm s (irq_mode on s).2.
Proof.
  unfold irq_mode. destruct (gpu_busy s); [done|]. destruct (negb _).
  - pose proof (calm_irq_enable s) as H. destruct (v3da_hw_irq_enable s) as [rc s1]. cbn [snd] in *.
    etrans; [exact H|]. apply calm_if; [calm_refl|done].
  - cbn [snd]. transitivity (v3da_hw_irq_disable s); [apply calm_irq_disable|calm_refl].
Qed.
Lemma calm_quit s a : calm s (dbg_quit s a).1.2.
Proof.
  unfold dbg_quit. destruct (negb _); [done|]. pose proof (calm_waits_all (- ENODEV) s a) as H.
  destruct (v3da_waits_all (- ENODEV) s a) as [s1 a1]. cbn [fst snd] in *. etrans; [exact H|].
  transitivity (v3da_hw_shutdown s1); [apply calm_shutdown|]. calm_refl.
Qed.

Lemma calm_last_fence c rq s : calm s (v3da_bo_last_fence c rq s).2.
Proof.
  unfold v3da_bo_last_fence. destruct (v3da_bo_sync_targets _ _ _ _); [done|]. destruct (cand_collect _ _). cbn [snd].
  apply calm_if; calm_refl.
Qed.
Lemma calm_checksum h off len s : calm s (v3da_bo_checksum h off len s).2.
Proof. unfold v3da_bo_checksum. destruct (v3da_bo_find _ _); [|done]. cbv zeta. destruct (_ || _); [done|calm_refl]. Qed.

(** ** The requests on objects *)
Definition aside (s s' : v3da_srv_t) : Prop := keeps s s' ∧ ovf_words (srv_hw s') = ovf_words (srv_hw s).
#[export] Instance aside_pre : PreOrder aside.
Proof. split; [done|]. intros a b c [K1 W1] [K2 W2]. split; [by etrans|congruence]. Qed.
Ltac aside_refl := split; [unfold keeps; split_and!; reflexivity|reflexivity].

Lemma aside_set_bo i f s : aside s (set_bo i f s).
Proof. aside_refl. Qed.
Lemma aside_quarantine_begin i s : aside s (quarantine_begin i s).
Proof.
  destruct (quarantine_begin_spec i s) as (K & _ & _ & tlb & fl & E1 & _). split; [exact K|]. by rewrite E1.
Qed.
Lemma aside_withdraw i s : aside s (export_withdraw i s).
Proof. unfold export_withdraw. destruct (negb _); [done|aside_refl]. Qed.
Lemma aside_unref i s : aside s (bo_unref i s).
Proof.
  unfold bo_unref. set (s1 := set_bo i _ s). assert (aside s s1) as H1 by aside_refl. clearbody s1.
  destruct (_ =? 0); [|exact H1]. cbv zeta. pose proof (aside_withdraw i s1) as H2. set (s2 := export_withdraw i s1) in *. clearbody s2.
  destruct (_ =? 0); [|by etrans]. etrans; [exact H1|]. etrans; [exact H2|apply aside_quarantine_begin].
Qed.
Lemma aside_va_free va pages s : aside s (s <| srv_hw ::= v3da_hw_va_free va pages |>).
Proof. split; [unfold keeps; split_and!; reflexivity|]. simpl. unfold v3da_hw_va_free. by repeat case_match. Qed.

Lemma aside_block_put cpu pa pages c s : aside s (block_put cpu pa pages c s).
Proof. unfold block_put. destruct (_ <? _); aside_refl. Qed.
Lemma aside_release i s : aside s (quarantine_release i s).
Proof.
  unfold quarantine_release. cbv zeta. set (b := srv_bos s i). clearbody b.
  set (s1 := if bo_imported b then _ else _). assert (aside s s1) as H1.
  { unfold s1. destruct (bo_imported b); [aside_refl|]. etrans; [|apply aside_block_put]. destruct (bo_low b); [aside_refl|done]. }
  clearbody s1. set (s2 := s1 <| srv_hw ::= _ |>). assert (aside s1 s2) as H2 by apply aside_va_free. clearbody s2.
  etrans; [exact H1|]. etrans; [exact H2|]. aside_refl.
Qed.
Lemma aside_poll s : aside s (v3da_bo_quarantine_poll s).
Proof.
  unfold v3da_bo_quarantine_poll. apply (for_inv (aside s)); [done|]. intros i s' _ H. etrans; [exact H|].
  unfold quarantine_poll_one. destruct (quarantine_passed _ _); [apply aside_release|done].
Qed.
Lemma aside_close c h s : aside s (v3da_bo_close c h s).2.
Proof.
  unfold v3da_bo_close. destruct (v3da_bo_find s h) as [i|]; [|done]. cbv zeta.
  destruct (has _ _); [|destruct (negb _); [|done]]; cbn [snd]; (etrans; [|apply aside_poll]; etrans; [|apply aside_unref]; aside_refl).
Qed.
Lemma aside_client_gone c s : aside s (v3da_bo_client_gone c s).
Proof.
  unfold v3da_bo_client_gone. etrans; [|apply aside_poll]. apply (for_inv (aside s)); [done|]. intros i s' _ H. etrans; [exact H|].
  unfold client_gone_one. cbv zeta. destruct (_ || _); [done|]. set (s1 := if _ =? c then _ else s').
  assert (aside s' s1) as H1 by (unfold s1; destruct (_ =? c); [etrans; [|apply aside_unref]; aside_refl|done]). clearbody s1.
  destruct (_ && _); [|exact H1]. etrans; [exact H1|]. etrans; [|apply aside_unref]. aside_refl.
Qed.

Lemma aside_slot s slot s' : bo_slot s = Some (slot, s') → aside s s'.
Proof.
  unfold bo_slot. destruct (find_first _ _ _); [intros [= _ <-]; done|]. destruct (_ <=? _); [done|]. intros [= _ <-]. aside_refl.
Qed.
Lemma aside_alloc pages s : aside s (alloc_va pages s).2.
Proof.
  unfold alloc_va. assert (ovf_words (v3da_hw_va_alloc (srv_hw s) pages).2 = ovf_words (srv_hw s)) as H.
  { unfold v3da_hw_va_alloc. by repeat case_match. }
  destruct (v3da_hw_va_alloc (srv_hw s) pages) as [va hw]. cbn [snd] in *. split; [unfold keeps; split_and!; reflexivity|exact H].
Qed.
Lemma aside_block_get pages c w s : aside s (block_get pages c w s).2.
Proof.
  assert (∀ b s, aside s (block_get_fresh b c s).2) as Hf.
  { intros b s0. unfold block_get_fresh. cbv zeta. destruct (block_map _ _ _) as [[[? ?] ?]|]; aside_refl. }
  unfold block_get. cbv zeta. destruct (_ ≫= _) as [[i b]|]; [aside_refl|]. destruct w; [|apply Hf].
  destruct (v3da_lowmem_map _ _ _ _) as [[kept res] rej].
  match goal with |- context [block_get_fresh _ _ ?x] => set (s1 := x) end. assert (aside s s1) as H1 by aside_refl. clearbody s1.
  destruct kept; [etrans; [exact H1|aside_refl]|etrans; [exact H1|apply Hf]].
Qed.
Lemma aside_low_account slot foot l w pl sc s : aside s (low_account slot foot l w pl sc s).
Proof. unfold low_account. destruct l; [|done]. destruct (_ && _); [aside_refl|]. destruct sc; [done|aside_refl]. Qed.

Lemma aside_create c size flags s : aside s (v3da_bo_create c size flags s).2.
Proof.
  unfold v3da_bo_create. cbv zeta. set (scan := if has flags V3DA_BO_SCANOUT then _ else _). clearbody scan.
  set (cached := match scan with Some _ => false | None => _ end). clearbody cached.
  destruct (_ <? size); [done|]. set (pages := Z.max 1 _). clearbody pages.
  destruct (bo_slot s) as [[slot s1]|] eqn:Hs; [|done]. pose proof (aside_slot _ _ _ Hs) as H1. clear Hs.
  set (w := _ && _ && _). clearbody w. pose proof (aside_block_get pages cached w s1) as H2.
  destruct (block_get pages cached w s1) as [[[[cpu pa]|] pl] s2]; cbn [snd] in H2 |- *.
  2:{ etrans; [exact H1|]. etrans; [exact H2|]. destruct (has _ _); [aside_refl|done]. }
  pose proof (aside_alloc pages s2) as H3. destruct (alloc_va pages s2) as [va s3]. cbn [snd] in H3.
  destruct (va =? 0); cbn [snd].
  { etrans; [exact H1|]. etrans; [exact H2|]. etrans; [exact H3|apply aside_block_put]. }
  etrans; [exact H1|]. etrans; [exact H2|]. etrans; [exact H3|]. etrans; [|apply aside_low_account].
  destruct scan; aside_refl.
Qed.
Lemma aside_import_v3dbuf c rq s : aside s (import_v3dbuf c rq s).2.
Proof.
  unfold import_v3dbuf. cbv zeta. destruct (negb _); [done|]. destruct (_ || _); [done|].
  destruct (if _ <? bi_id rq then _ else _) as [i|]; [|done]. destruct (negb _); [done|]. destruct (_ || _); [done|]. cbn [snd].
  destruct (bo_held_by _ _); [done|aside_refl].
Qed.
Lemma aside_import_commit c rq gen m s : aside s (import_commit c rq gen m s).2.
Proof.
  unfold import_commit. cbv zeta. destruct (_ || _); [done|]. destruct (import_find _ _ _ _); [done|].
  destruct (bo_slot s) as [[slot s']|]; [|done]. pose proof (aside_alloc (im_pages m) s) as H1.
  destruct (alloc_va (im_pages m) s) as [va s1]. cbn [snd] in H1. destruct (va =? 0); [exact H1|]. cbn [snd].
  etrans; [exact H1|]. aside_refl.
Qed.
Lemma aside_export c h s : aside s (v3da_bo_export c h s).2.
Proof.
  unfold v3da_bo_export. destruct (v3da_bo_find s h) as [i|]; [|done]. cbv zeta. destruct (negb _); [done|].
  destruct (_ || _); [done|]. destruct (_ =? 0); [done|]. destruct (bo_exported _); [done|]. destruct (negb _); aside_refl.
Qed.
Lemma aside_bufns m s : aside s (bufns_handle m s).2.
Proof.
  destruct m; simpl; try done; repeat (case_match; try done); cbn [snd]; try aside_refl.
  etrans; [|apply aside_poll]. etrans; [|apply aside_unref]. aside_refl.
Qed.
End env.
