(* ===== verification/Clients.v ===== *)
(** The client table: a slot in use answers to its own number, and nothing but opening and
    closing a client changes who is in it. *)
From S2P Require Import Prelude Proto State Csdprof Lowmem Hw Fence Bo BoInv BoMap BoShare BoSteps BoReach BoSpec.
From S2P Require Import Ovf Waits Jobs Submit Present Events Main SchedInv SchedKick SchedRun SchedReach SchedSpec.
From S2P Require Import Kept Counts OvfInv OvfSteps OvfKept Pins PinKept Closure Closed Aside.

Definition clients_inv (s : v3da_srv_t) : Prop :=
  ∀ i, 0 ≤ i < V3DA_MAX_CLIENTS → c_used (srv_client s i) = true →
    c_id (srv_client s i) = i + 1 ∧ c_slot (srv_client s i) = i.

Definition cids (s s' : v3da_srv_t) : Prop := ∀ i, cid (srv_client s' i) = cid (srv_client s i).
#[export] Instance cids_pre : PreOrder cids.
Proof. split; [done|]. intros a b c H1 H2 i. by rewrite H2, H1. Qed.
Lemma clients_cids s s' : cids s s' → clients_inv s → clients_inv s'.
Proof.
  intros Hc H i Hi. specialize (Hc i). unfold cid in Hc. injection Hc as Eu Ei Es. rewrite Eu, Ei, Es. by apply H.
Qed.
Lemma cids_of s s' : srv_cl s' = srv_cl s → cids s s'.
Proof. intros E i. unfold srv_client. by rewrite E. Qed.

Section env.
Context `{E : Env}.

Lemma foldl_cl {A} (f : v3da_srv_t → A → v3da_srv_t) l s : (∀ s x, srv_cl (f s x) = srv_cl s) → srv_cl (foldl f s l) = srv_cl s.
Proof. intros Hf. revert s. induction l as [|x l IH]; intros s; [done|]. simpl. by rewrite IH. Qed.

Lemma unpin_cl hs s : srv_cl (v3da_bo_unpin hs s) = srv_cl s.
Proof.
  apply foldl_cl. clear s. intros s h. unfold unpin_one. destruct (bo_lookup s h) as [i|]; [|done]. cbv zeta.
  match goal with |- srv_cl (if _ then quarantine_begin _ ?x else _) = _ => set (s1 := x) end.
  assert (srv_cl s1 = srv_cl s) as <- by done. clearbody s1. destruct (_ && _); [|done].
  by destruct (aside_quarantine_begin i s1) as ((_ & -> & _) & _).
Qed.
Lemma drop_pins_cl j s : srv_cl (drop_pins j s) = srv_cl s.
Proof. unfold drop_pins. destruct (j_bos j); [apply unpin_cl|done]. Qed.
Lemma chunks_move_cl n b r s : srv_cl (chunks_move n b r s) = srv_cl s.
Proof. revert s. induction n as [|n IH]; intros s; [done|]. simpl. destruct (0 <=? _); [by rewrite IH|done]. Qed.
Lemma free_chunks_cl h s : srv_cl (chunk_free_list h s) = srv_cl s.
Proof. reflexivity. Qed.
Lemma set_job_cl jid f s : srv_cl (set_job jid f s) = srv_cl s.
Proof. reflexivity. Qed.
Lemma free_job_chunks_cl jid s : srv_cl (free_job_chunks jid s) = srv_cl s.
Proof. unfold free_job_chunks. by rewrite set_job_cl, free_chunks_cl. Qed.
Lemma done_chunks_cl jid j err s : srv_cl (done_chunks jid j err s) = srv_cl s.
Proof.
  unfold done_chunks. destruct (_ =? _).
  - rewrite free_job_chunks_cl. destruct (j_render j); [by rewrite chunks_move_cl, set_job_cl|reflexivity].
  - destruct (0 <=? _); [apply free_job_chunks_cl|reflexivity].
Qed.
Lemma unlink_bin_cl j s : srv_cl (unlink_bin j s) = srv_cl s.
Proof. unfold unlink_bin. by destruct (j_bin j). Qed.
Lemma job_done_cl jid err now s : srv_cl (job_done jid err now s) = srv_cl s.
Proof.
  unfold job_done. destruct (job s jid) as [j|]; [|done]. cbv zeta.
  assert (srv_cl (done_leave jid j now s) = srv_cl s) as H1.
  { unfold done_leave. cbv zeta. destruct (bool_decide _); [by destruct (is_hw_queue _)|by destruct (_ =? 0)]. }
  set (s1 := done_leave jid j now s) in *. clearbody s1. rewrite <- H1.
  set (s2 := drop_pins j _). assert (srv_cl s2 = srv_cl s1) as H2.
  { unfold s2. rewrite drop_pins_cl, unlink_bin_cl, done_chunks_cl. done. }
  clearbody s2. rewrite <- H2. unfold v3da_fence_complete. by destruct (complete_seq _ _ _).
Qed.
Lemma job_discard_cl jid s : srv_cl (job_discard jid s) = srv_cl s.
Proof.
  unfold job_discard. destruct (job s jid) as [j|]; [|done]. cbv zeta. unfold free_job. simpl. rewrite drop_pins_cl.
  destruct (0 <=? _); rewrite ?free_chunks_cl; (destruct (j_render j); rewrite ?set_job_cl; apply unlink_bin_cl).
Qed.
Lemma grant_loop_cl n b s : srv_cl (ovf_grant_loop n b s) = srv_cl s.
Proof.
  revert s. induction n as [|n IH]; intros s; [done|]. simpl. unfold ovf_grant_direct.
  destruct (chunk_alloc _) as [idx o]. destruct (idx <? 0); [done|]. by rewrite IH.
Qed.
Lemma stage_cl s : srv_cl (ovf_stage s) = srv_cl s.
Proof. unfold ovf_stage. cbv zeta. destruct (_ || _); [done|]. destruct (chunk_alloc _) as [i o]. by destruct (i <? 0). Qed.
Lemma service_cl s : srv_cl (ovf_service s) = srv_cl s.
Proof.
  unfold ovf_service. cbv zeta. rewrite stage_cl.
  assert (srv_cl (ovf_consume s) = srv_cl s) as H1.
  { unfold ovf_consume. cbv zeta. destruct (_ && _); [|reflexivity].
    destruct (_ =? ov_staged _); (destruct (active _ _); [reflexivity|by rewrite free_chunks_cl]). }
  set (s1 := ovf_consume s) in *. clearbody s1. rewrite <- H1. destruct (active s _); [|done]. rewrite grant_loop_cl.
  by destruct (negb _).
Qed.
Lemma still_cids s s' : still s s' → cids s s'.
Proof. intros [] i. specialize (st_cl i). unfold cview, cid in *. congruence. Qed.
Lemma hw_service_cl s : srv_cl (hw_service s).2 = srv_cl s.
Proof.
  unfold hw_service, rd_core, rd_hub. cbv zeta iota beta. cbn [snd].
  set (s1 := if negb _ then csd_done_stamp _ _ else _). assert (srv_cl s1 = srv_cl s) as <-.
  { unfold s1, csd_done_stamp. destruct (negb _); [by destruct (_ && _)|done]. }
  clearbody s1. set (s2 := if negb _ then emit _ _ else s1). assert (srv_cl s2 = srv_cl s1) as <-.
  { unfold s2, mmu_ack. destruct (negb _); [by destruct (has _ _)|done]. }
  clearbody s2. unfold fold_events, outomem_service. by repeat case_match.
Qed.

Lemma hw_reset_cl s : srv_cl (v3da_hw_reset s).2 = srv_cl s.
Proof. unfold v3da_hw_reset. cbv zeta. cbn [snd]. by destruct (hw_irq_on _). Qed.
Lemma wedge_reset_cl s : srv_cl (wedge_reset s) = srv_cl s.
Proof.
  unfold wedge_reset. cbv zeta. set (s0 := s <| srv_st ; wedges ::= _ |>).
  assert (srv_cl s0 = srv_cl s) as <- by done. clearbody s0. rewrite <- (hw_reset_cl s0).
  set (s1 := (v3da_hw_reset s0).2). clearbody s1. destruct (0 <=? _); reflexivity.
Qed.

#[export] Instance clients_kept : Kept clients_inv.
Proof.
  constructor.
  - intros s s' H. by apply clients_cids, still_cids.
  - intros jid j now s _ _ _. apply clients_cids, cids_of. unfold job_start. cbv zeta. by destruct (is_hw_queue _).
  - intros jid err now s _. apply clients_cids, cids_of, job_done_cl.
  - intros s. apply clients_cids, cids_of, stage_cl.
  - intros s _. apply clients_cids, cids_of, service_cl.
  - intros s _. apply clients_cids, cids_of, wedge_reset_cl.
  - intros s. apply clients_cids, cids_of, hw_service_cl.
  - intros s. apply clients_cids, cids_of. by destruct (aside_poll s) as ((_ & -> & _) & _).
Qed.

#[export] Instance clients_submitted : Submitted (λ _, clients_inv).
Proof.
  split.
  - apply clients_kept.
  - intros _ s s' H. by apply clients_cids, still_cids.
  - intros hs s s' _ _ Hp. apply clients_cids, cids_of. unfold v3da_bo_pin_for_job in Hp. destruct (forallb _ _); [|done].
    apply (f_equal snd) in Hp. cbn [snd] in Hp. rewrite <- Hp. apply foldl_cl. clear. intros s h. by destruct (v3da_bo_find s h).
  - intros hs s. apply clients_cids, cids_of, unpin_cl.
  - intros _ ci qu now s jid s' Hn _. apply clients_cids, cids_of. revert Hn. unfold job_new. cbv zeta.
    destruct (env_malloc _); [|done]. cbn [negb]. intros Hn. apply (f_equal snd) in Hn. cbn [snd] in Hn. by rewrite <- Hn.
  - intros _ jid j s _ _. by apply clients_cids, cids_of.
  - intros _ f l d s _ _ _. by apply clients_cids, cids_of.
  - intros _ f l s _ _. by apply clients_cids, cids_of.
  - intros hs jid j s _ _. by apply clients_cids, cids_of.
  - intros hs f g s _. apply clients_cids, cids_of, foldl_cl. clear. intros s h. destruct (bo_lookup s h); [by destruct (_ <? _)|done].
  - intros jid s. apply clients_cids, cids_of, job_discard_cl.
Qed.
End env.
