(* ===== verification/Wedge.v ===== *)
(** The wedge, exactly: what a hung GPU costs.  Every job on the hardware completes with an
    error, in the order of the queues; everything that waits stays where it is. *)
From S2P Require Import Prelude Proto State Csdprof Lowmem Hw Concrete Fence Bo BoInv BoMap BoShare BoSteps BoReach BoSpec.
From S2P Require Import Ovf Waits Jobs Submit Present Events Main SchedInv SchedKick SchedRun SchedReach SchedSpec.
From S2P Require Import Kept Counts OvfInv OvfSteps OvfKept Pins PinKept Closure Closed Aside Clients.

(** What the completion of another job leaves of a job: all but its links, the flag of a
    failed dependency and its list of overflow chunks. *)
Definition outline (j : v3da_job_t) : v3da_job_t :=
  j <| j_bin := None |> <| j_render := None |> <| j_dep_error := false |> <| j_ovf_head := -1 |>.
Definition dep_failed (s : v3da_srv_t) (jid : Z) : Prop := ∀ j, job s jid = Some j → j_dep_error j = true.

Record beside (s s' : v3da_srv_t) : Prop := mkBeside {
  be_jobs jid : outline <$> job s' jid = outline <$> job s jid;
  be_dep jid : dep_failed s jid → dep_failed s' jid;
  be_fp : srv_fp s' = srv_fp s;
  be_q qu : srv_q s' qu = srv_q s qu;
  be_cl : srv_cl s' = srv_cl s;
  be_st : srv_st s' = srv_st s }.
#[export] Instance beside_pre : PreOrder beside.
Proof. split; [by intros s; constructor|]. intros a b c [] []. constructor; intros; first [congruence|auto]. Qed.
Lemma beside_of s s' : srv_sched s' = srv_sched s → srv_fp s' = srv_fp s → srv_cl s' = srv_cl s → srv_st s' = srv_st s → beside s s'.
Proof. intros E1 E2 E3 E4. constructor; intros; unfold dep_failed, job, srv_q in *; rewrite ?E1; auto. Qed.
Lemma beside_set_job jid f s :
  (∀ j, outline (f j) = outline j) → (∀ j, j_dep_error j = true → j_dep_error (f j) = true) → beside s (set_job jid f s).
Proof.
  intros Hf Hd. assert (∀ i, job (set_job jid f s) i = if decide (jid = i) then f <$> job s i else job s i) as Hj.
  { intros i. unfold job, set_job. simpl. case_decide; [subst; by rewrite lookup_alter_eq|by rewrite lookup_alter_ne]. }
  constructor; try done.
  - intros i. rewrite Hj. case_decide; [|done]. destruct (job s i); simpl; [by rewrite Hf|done].
  - intros i H j'. rewrite Hj. case_decide; [|apply H]. destruct (job s i) as [j|] eqn:E; [|done]. intros [= <-]. auto.
Qed.
Lemma beside_if (b : bool) s s1 s2 : beside s s1 → beside s s2 → beside s (if b then s1 else s2).
Proof. by destruct b. Qed.

Section env.
Context `{E : Env}.

Lemma beside_attach jid idx s : beside s (chunk_attach jid idx s).
Proof. unfold chunk_attach. etrans; [|by apply beside_set_job]. by apply beside_of. Qed.
Lemma beside_move n b r s : beside s (chunks_move n b r s).
Proof.
  revert s. induction n as [|n IH]; intros s; [done|]. simpl. destruct (0 <=? _); [|done].
  etrans; [|apply IH]. etrans; [|apply beside_attach]. by apply beside_set_job.
Qed.
Lemma beside_free_chunks jid s : beside s (free_job_chunks jid s).
Proof. unfold free_job_chunks. etrans; [|by apply beside_set_job]. by apply beside_of. Qed.
Lemma beside_unlink j s : beside s (unlink_bin j s).
Proof. unfold unlink_bin. destruct (j_bin j); [by apply beside_set_job|done]. Qed.
Lemma unpin_keeps hs s : keeps s (v3da_bo_unpin hs s).
Proof.
  unfold v3da_bo_unpin. revert s. induction hs as [|h hs IH]; intros s; [done|]. simpl. etrans; [|apply IH]. clear. unfold unpin_one.
  destruct (bo_lookup s h) as [i|]; [|done]. cbv zeta. match goal with |- keeps s (if _ then quarantine_begin _ ?x else _) => set (s1 := x) end.
  assert (keeps s s1) as H1 by keeps_tac. clearbody s1. destruct (_ && _); [|done]. etrans; [exact H1|]. apply (quarantine_begin_spec i s1).
Qed.
Lemma beside_drop_pins j s : beside s (drop_pins j s).
Proof. unfold drop_pins. destruct (j_bos j) as [hs|]; [|done]. destruct (unpin_keeps hs s) as (? & ? & ? & _ & _ & ?). by apply beside_of. Qed.
(** The chunks of a failed bin job pass to its render job, which learns of the failure. *)
Lemma beside_done_chunks jid j s :
  beside s (done_chunks jid j true s) ∧
  (j_queue j = V3DA_Q_BIN → ∀ r, j_render j = Some r → dep_failed (done_chunks jid j true s) r).
Proof.
  unfold done_chunks. destruct (Z.eqb_spec (j_queue j) V3DA_Q_BIN) as [Hq|Hq].
  2:{ split; [|done]. destruct (0 <=? _); [apply beside_free_chunks|done]. }
  destruct (j_render j) as [r|]; [|by split; [apply beside_free_chunks|]]. set (s1 := set_job r _ s).
  assert (beside s1 (free_job_chunks jid (chunks_move (Z.to_nat V3DA_MAX_CHUNKS) jid r s1))) as H1.
  { etrans; [apply beside_move|apply beside_free_chunks]. }
  split; [etrans; [|exact H1]; by apply beside_set_job|]. intros _ r' [= <-]. apply (be_dep _ _ H1). intros j'.
  unfold s1, job, set_job. simpl. rewrite lookup_alter_eq. by destruct (jobs (srv_sched s) !! r) as [x|]; [intros [= <-]|].
Qed.

(** ** One job fails *)
Definition fail_seq (s : v3da_srv_t) (j : v3da_job_t) : Z := (complete_seq s j true).1.
Record failed (jid : Z) (j : v3da_job_t) (s s' : v3da_srv_t) : Prop := mkFailed {
  fl_jobs i : outline <$> job s' i = if decide (i = jid) then None else outline <$> job s i;
  fl_dep i : dep_failed s i → dep_failed s' i;
  fl_render : j_queue j = V3DA_Q_BIN → ∀ r, j_render j = Some r → dep_failed s' r;
  fl_completed sl qu : fp_completed (srv_fp s') sl qu =
    if decide (f_slot (j_fence j) = sl ∧ j_queue j = qu) then fail_seq s j else fp_completed (srv_fp s) sl qu;
  fl_error sl : fp_error_seq (srv_fp s') sl =
    if decide (f_slot (j_fence j) = sl) then ERR_SEQ (j_queue j) (fail_seq s j) else fp_error_seq (srv_fp s) sl;
  fl_count qu : fp_hw_completed (srv_fp s') qu = fp_hw_completed (srv_fp s) qu + b2z (bool_decide (j_queue j = qu));
  fl_gen : fp_reset_gen (srv_fp s') = fp_reset_gen (srv_fp s);
  fl_fifo qu slot : fifo s' qu slot = fifo s qu slot;
  fl_cl : srv_cl s' = srv_cl s;
  fl_st : (wedges (srv_st s'), resets (srv_st s')) = (wedges (srv_st s), resets (srv_st s)) }.

Lemma complete_true s j : (complete_seq s j true).2 = true.
Proof. unfold complete_seq. by destruct (_ && _). Qed.
Lemma done_leave_beside jid j now s : active s (j_queue j) = Some jid →
  srv_fp (done_leave jid j now s) = srv_fp s ∧ srv_cl (done_leave jid j now s) = srv_cl s ∧ srv_st (done_leave jid j now s) = srv_st s ∧
  (∀ i, job (done_leave jid j now s) i = job s i) ∧ ∀ qu slot, fifo (done_leave jid j now s) qu slot = fifo s qu slot.
Proof.
  intros Ha. unfold done_leave. rewrite bool_decide_eq_true_2 by done. cbv zeta. set (s1 := if is_hw_queue _ then _ else s).
  assert (srv_fp s1 = srv_fp s ∧ srv_cl s1 = srv_cl s ∧ srv_st s1 = srv_st s ∧ (∀ i, job s1 i = job s i) ∧ ∀ qu slot, fifo s1 qu slot = fifo s qu slot) as (E1 & E2 & E5 & E3 & E4)
    by (unfold s1; by destruct (is_hw_queue _)).
  clearbody s1. split_and!; [done..|]. intros qu slot. rewrite <- E4. unfold fifo, srv_q. simpl. rewrite fn_upd_case. by case_decide; subst.
Qed.

Lemma job_done_failed jid j now s :
  job s jid = Some j → active s (j_queue j) = Some jid → failed jid j s (job_done jid true now s).
Proof.
  intros Hj Ha. unfold job_done. rewrite Hj. cbv zeta. cbn [orb]. destruct (done_leave_beside jid j now s Ha) as (F1 & C1 & T1 & J1 & Q1).
  set (s1 := done_leave jid j now s) in *. clearbody s1. set (s2 := done_count (j_queue j) true s1).
  assert (srv_fp s2 = srv_fp s ∧ srv_cl s2 = srv_cl s ∧ srv_st s2 = srv_st s ∧ (∀ i, job s2 i = job s i) ∧ ∀ qu slot, fifo s2 qu slot = fifo s qu slot) as (F2 & C2 & T2 & J2 & Q2).
  { split_and!; [done..|]. intros qu slot. rewrite <- Q1. unfold s2, done_count, fifo, srv_q. simpl. rewrite fn_upd_case. by case_decide; subst. }
  clearbody s2. destruct (beside_done_chunks jid j s2) as [B3 R3]. set (s3 := done_chunks jid j true s2) in *. clearbody s3.
  set (s4 := drop_pins j (unlink_bin j s3)). assert (beside s3 s4) as B4 by (etrans; [apply beside_unlink|apply beside_drop_pins]).
  clearbody s4. assert (beside s2 s4) as [Bj Bd Bf Bq Bc Bt] by (by etrans). pose proof (fence_complete_fp s4 j true) as Hf.
  assert (complete_seq s4 j true = (fail_seq s j, true)) as Hc.
  { rewrite (surjective_pairing (complete_seq s4 j true)), complete_true. unfold fail_seq, complete_seq, srv_client. by rewrite Bc, C2. }
  rewrite Hc in Hf. assert (srv_sched (v3da_fence_complete j true s4) = srv_sched s4 ∧ srv_cl (v3da_fence_complete j true s4) = srv_cl s4 ∧ srv_st (v3da_fence_complete j true s4) = srv_st s4) as (E5 & C5 & T5).
  { unfold v3da_fence_complete. by rewrite Hc. }
  set (s5 := v3da_fence_complete j true s4) in *. clearbody s5. set (s6 := free_job jid _).
  assert (∀ i, job s6 i = if decide (i = jid) then None else job s4 i) as J6.
  { intros i. unfold s6, job, free_job. simpl. rewrite E5. case_decide; [subst; apply lookup_delete_eq|by rewrite lookup_delete_ne]. }
  constructor.
  - intros i. rewrite J6. case_decide; [done|]. by rewrite Bj, J2.
  - intros i Hi x. rewrite J6. case_decide; [done|]. apply Bd. intros y. rewrite J2. apply Hi.
  - intros Hq r Hr x. rewrite J6. case_decide; [done|]. by apply (be_dep _ _ B4), R3.
  - intros sl qu. change (srv_fp s6) with (srv_fp s5). rewrite Hf. unfold incr_completed. cbn [upd fp_completed]. rewrite set_completed_get. case_decide; [done|]. by rewrite <- F2, <- Bf.
  - intros sl. change (srv_fp s6) with (srv_fp s5). rewrite Hf. cbn [upd incr_completed set_completed set_error_seq fp_error_seq]. rewrite fn_upd_case. case_decide; [done|]. by rewrite <- F2, <- Bf.
  - intros qu. change (srv_fp s6) with (srv_fp s5). rewrite Hf. cbn [upd incr_completed set_completed set_error_seq fp_hw_completed]. rewrite fn_upd_case, Bf, F2.
    case_decide as Hd; [subst; by rewrite bool_decide_eq_true_2|]. rewrite bool_decide_eq_false_2 by done. cbn. lia.
  - change (srv_fp s6) with (srv_fp s5). rewrite Hf. cbn. by rewrite Bf, F2.
  - intros qu slot. change (fifo s6 qu slot) with (q_fifo (q (srv_sched s5) qu) slot). rewrite E5. rewrite <- Q2. unfold fifo. by rewrite <- Bq.
  - change (srv_cl s5 = srv_cl s). congruence.
  - change ((wedges (srv_st s5), resets (srv_st s5)) = (wedges (srv_st s), resets (srv_st s))). by rewrite T5, Bt, T2.
Qed.

(** ** All of them fail *)
Definition on_hw (s : v3da_srv_t) (qu jid : Z) (j : v3da_job_t) : Prop :=
  is_hw_queue qu = true ∧ active s qu = Some jid ∧ job s jid = Some j.

Record failed_below (n : Z) (s s' : v3da_srv_t) : Prop := mkFailedBelow {
  fb_active qu : active s' qu = if bool_decide (qu < n) && is_hw_queue qu then None else active s qu;
  fb_fifo qu slot : fifo s' qu slot = fifo s qu slot;
  fb_gone qu jid : qu < n → is_hw_queue qu = true → active s qu = Some jid → job s' jid = None;
  fb_kept jid : (∀ qu, qu < n → is_hw_queue qu = true → active s qu ≠ Some jid) → outline <$> job s' jid = outline <$> job s jid;
  fb_dep jid : dep_failed s jid → dep_failed s' jid;
  fb_render jid j r : V3DA_Q_BIN < n → on_hw s V3DA_Q_BIN jid j → j_render j = Some r → dep_failed s' r;
  fb_completed qu jid j : qu < n → on_hw s qu jid j → fp_completed (srv_fp s') (f_slot (j_fence j)) qu = fail_seq s j;
  fb_row sl qu : (∀ jid j, qu < n → on_hw s qu jid j → f_slot (j_fence j) ≠ sl) → fp_completed (srv_fp s') sl qu = fp_completed (srv_fp s) sl qu;
  fb_error qu jid j : qu < n → on_hw s qu jid j →
    (∀ qu' jid' j', qu < qu' < n → on_hw s qu' jid' j' → f_slot (j_fence j') ≠ f_slot (j_fence j)) →
    fp_error_seq (srv_fp s') (f_slot (j_fence j)) = ERR_SEQ qu (fail_seq s j);
  fb_no_error sl : (∀ qu jid j, qu < n → on_hw s qu jid j → f_slot (j_fence j) ≠ sl) → fp_error_seq (srv_fp s') sl = fp_error_seq (srv_fp s) sl;
  fb_count qu : fp_hw_completed (srv_fp s') qu =
    fp_hw_completed (srv_fp s) qu + b2z (bool_decide (qu < n) && is_hw_queue qu && bool_decide (is_Some (active s qu)));
  fb_gen : fp_reset_gen (srv_fp s') = fp_reset_gen (srv_fp s);
  fb_cl : srv_cl s' = srv_cl s;
  fb_st : (wedges (srv_st s'), resets (srv_st s')) = (wedges (srv_st s), resets (srv_st s)) }.

Lemma failed_below_0 s n : n ≤ 0 → failed_below n s s.
Proof.
  intros Hn. assert (∀ qu, is_hw_queue qu = true → qu < n → False) as Hx by (intros qu ?%hw_queue_range ?; lia).
  assert (∀ qu, bool_decide (qu < n) && is_hw_queue qu = false) as Hb.
  { intros qu. apply not_true_iff_false. intros [?%bool_decide_eq_true ?]%andb_true_iff. by apply (Hx qu). }
  constructor; intros; rewrite ?Hb; try done; unfold on_hw in *; destruct_and?;
    first [by exfalso; eapply Hx|cbn; lia|exfalso; change V3DA_Q_BIN with 0 in *; lia|done].
Qed.

Lemma outline_job s s' i j : outline <$> job s' i = outline <$> job s i → job s i = Some j →
  ∃ j', job s' i = Some j' ∧ j_queue j' = j_queue j ∧ j_fence j' = j_fence j.
Proof.
  intros Ho Hj. rewrite Hj in Ho. destruct (job s' i) as [j'|]; [|done]. exists j'. cbn in Ho. by injection Ho.
Qed.
Lemma active_job s qu jid : sched_inv [] s → active s qu = Some jid → ∃ j, job s jid = Some j ∧ j_queue j = qu.
Proof.
  intros Hinv Ha. destruct (si_active _ _ Hinv _ _ Ha) as [[sl Hk] _]. destruct (job s jid) as [j|]; [|done].
  exists j. unfold jkey in Hk. cbn in Hk. by simplify_eq.
Qed.

Lemma failed_below_idle i s s' : (∀ jid, is_hw_queue i = true → active s i ≠ Some jid) → failed_below i s s' → failed_below (i + 1) s s'.
Proof.
  intros Hi []. assert (∀ qu jid, qu < i + 1 → is_hw_queue qu = true → active s qu = Some jid → qu < i) as Hlt.
  { intros qu jid H1 H2 H3. destruct (decide (qu = i)) as [->|]; [by destruct (Hi jid)|lia]. }
  assert (∀ qu jid j, qu < i + 1 → on_hw s qu jid j → qu < i) as Hon by (intros qu jid j H1 (H2 & H3 & _); eauto).
  assert (∀ qu, bool_decide (qu < i + 1) && is_hw_queue qu && bool_decide (is_Some (active s qu)) =
    bool_decide (qu < i) && is_hw_queue qu && bool_decide (is_Some (active s qu))) as Hb.
  { intros qu. destruct (is_hw_queue qu) eqn:Hhw; [|by rewrite !andb_false_r]. destruct (active s qu) as [jid|] eqn:Ha; [|by rewrite !(andb_comm _ false)].
    rewrite !andb_true_r, (bool_decide_ext (qu < i + 1) (qu < i)); [done|]. split; [|lia]. intros. by apply (Hlt qu jid). }
  constructor; intros; rewrite ?Hb; eauto.
  - rewrite fb_active0. destruct (is_hw_queue qu) eqn:Hhw; [|by rewrite !andb_false_r]. rewrite !andb_true_r.
    destruct (active s qu) as [jid|] eqn:Ha; [|by repeat case_bool_decide]. rewrite (bool_decide_ext (qu < i + 1) (qu < i)); [done|]. split; [|lia]. intros. by apply (Hlt qu jid).
  - apply fb_kept0. intros qu H1. apply H. lia.
  - apply fb_row0. intros jid j H1. apply H. lia.
  - apply (fb_error0 _ jid); [by apply (Hon _ jid j)|done|]. intros q' i' j' H2 H3. apply (H1 q' i'); [lia|done].
  - apply fb_no_error0. intros qu jid j H1. apply H. lia.
Qed.

Lemma fail_seq_same s s' j j' : srv_cl s' = srv_cl s → j_queue j' = j_queue j → j_fence j' = j_fence j → fail_seq s' j' = fail_seq s j.
Proof. intros E1 E2 E3. unfold fail_seq, complete_seq, srv_client. by rewrite E1, E2, E3. Qed.

Lemma failed_below_step i s s' now : sched_inv [] s → 0 ≤ i → (i = V3DA_Q_BIN → s' = s) → sched_inv [] s' → failed_below i s s' → failed_below (i + 1) s (wedge_fail_one now i s').
Proof.
  intros Hinv H0 Hbin Hinv' Hf. unfold wedge_fail_one. assert (active s' i = active s i) as Ea.
  { rewrite (fb_active _ _ _ Hf). by rewrite bool_decide_eq_false_2 by lia. }
  rewrite Ea. destruct (active s i) as [jid|] eqn:Ha; [|apply failed_below_idle; [by rewrite Ha|done]].
  destruct (is_hw_queue i) eqn:Hhw; [|by apply failed_below_idle; [rewrite Hhw|]].
  destruct (active_job s i jid Hinv Ha) as (j & Hj & Hq). destruct Hf.
  assert (∀ qu, active s qu = Some jid → qu = i) as Honly by (intros qu (j1 & ? & ?)%active_job; [congruence|done]).
  destruct (outline_job s s' jid j) as (j' & Hj' & Eq & Ef); [|done|].
  { apply fb_kept0. intros qu Hlt _ Hac%Honly. lia. }
  destruct (job_done_failed jid j' now s' Hj') as [L1 L2 L3 L4 L5 L6 L7 L8 L9 L10]; [by rewrite Eq, Hq|].
  rewrite (fail_seq_same s s' j j') in L4, L5 by done. rewrite Ef, Eq, Hq in *.
  pose proof (wedge_fail_one_active [] now i s') as Hact. unfold wedge_fail_one in Hact. rewrite Ea, Hhw in Hact.
  set (s2 := job_done jid true now s') in *. clearbody s2.
  assert (∀ q i' k, q < i + 1 → on_hw s q i' k → q < i ∨ q = i ∧ i' = jid ∧ k = j) as Hon.
  { intros q i' k H1 (H2 & H3 & H4). destruct (decide (q = i)) as [->|]; [|left; lia]. right. rewrite Ha in H3. injection H3 as <-. rewrite Hj in H4. by injection H4 as <-. }
  constructor.
  - intros qu. rewrite Hact, fb_active0 by done. destruct (decide (i = qu)) as [<-|Hne].
    + rewrite decide_True by done. by rewrite Hhw, bool_decide_eq_true_2 by lia.
    + rewrite decide_False by (by intros [? _]). destruct (is_hw_queue qu) eqn:Hx; [|by rewrite !andb_false_r].
      rewrite !andb_true_r. by rewrite (bool_decide_ext (qu < i + 1) (qu < i)) by lia.
  - intros. by rewrite L8.
  - intros qu i' H1 H2 H3. specialize (L1 i'). destruct (decide (i' = jid)) as [|Hn]; [by destruct (job s2 i')|].
    assert (qu < i) as Hlt by (destruct (decide (qu = i)); [congruence|lia]). rewrite (fb_gone0 qu i') in L1 by done. by destruct (job s2 i').
  - intros i' H. rewrite L1. rewrite decide_False; [|intros ->; apply (H i); [lia|done..]]. apply fb_kept0. intros qu ?. apply H. lia.
  - auto.
  - intros i' k r H1 H2 H3. destruct (Hon _ _ _ H1 H2) as [?|(Hi & -> & ->)]; [by apply L2, (fb_render0 i' k)|].
    specialize (Hbin (eq_sym Hi)). subst s'. apply L3; [done|]. congruence.
  - intros q i' k H1 H2. rewrite L4. destruct (Hon _ _ _ H1 H2) as [Hlt|(-> & -> & ->)]; [|by rewrite decide_True].
    rewrite decide_False by (intros [_ ?]; lia). by apply (fb_completed0 q i').
  - intros sl q H. rewrite L4. rewrite decide_False; [|intros [? <-]; apply (H jid j); [lia|done|done]]. apply fb_row0. intros i' k ?. apply H. lia.
  - intros q i' k H1 H2 H3. rewrite L5. destruct (Hon _ _ _ H1 H2) as [Hlt|(-> & -> & ->)]; [|by rewrite decide_True].
    rewrite decide_False by (intros Hs; apply (H3 i jid j); [lia|done|done]). apply (fb_error0 q i'); [done..|]. intros q' i2 k2 ?. apply H3. lia.
  - intros sl H. rewrite L5. rewrite decide_False; [|apply (H i jid j); [lia|done]]. apply fb_no_error0. intros q i' k ?. apply H. lia.
  - intros qu. rewrite L6, fb_count0. destruct (decide (i = qu)) as [<-|Hne].
    + rewrite Hhw, Ha. rewrite (bool_decide_eq_true_2 (i = i)), (bool_decide_eq_false_2 (i < i)), (bool_decide_eq_true_2 (i < i + 1)) by lia. cbn. lia.
    + rewrite (bool_decide_eq_false_2 (i = qu)) by done. rewrite (bool_decide_ext (qu < i + 1) (qu < i)) by lia. cbn. lia.
  - congruence.
  - congruence.
  - by rewrite L10.
Qed.

(** What a wedge is, all in all: the counters, and the jobs that were on the hardware. *)
Record wedged (s s' : v3da_srv_t) : Prop := mkWedged {
  wd_counters : wedges (srv_st s') = u32 (wedges (srv_st s) + 1) ∧ resets (srv_st s') = u32 (resets (srv_st s) + 1) ∧ fp_reset_gen (srv_fp s') = u32 (fp_reset_gen (srv_fp s) + 1);
  wd_idle : nbusy (srv_sched s') = 0;
  wd_active qu : active s' qu = if is_hw_queue qu then None else active s qu;
  (* what waits stays, in its order *)
  wd_fifo qu slot : fifo s' qu slot = fifo s qu slot;
  wd_kept jid : (∀ qu, is_hw_queue qu = true → active s qu ≠ Some jid) → outline <$> job s' jid = outline <$> job s jid;
  (* what ran is gone, its fence passed with an error, and its render job told *)
  wd_gone qu jid : is_hw_queue qu = true → active s qu = Some jid → job s' jid = None;
  wd_completed qu jid j : on_hw s qu jid j → fp_completed (srv_fp s') (f_slot (j_fence j)) qu = fail_seq s j;
  wd_row sl qu : (∀ jid j, on_hw s qu jid j → f_slot (j_fence j) ≠ sl) → fp_completed (srv_fp s') sl qu = fp_completed (srv_fp s) sl qu;
  wd_error qu jid j : on_hw s qu jid j → (∀ qu' jid' j', qu < qu' → on_hw s qu' jid' j' → f_slot (j_fence j') ≠ f_slot (j_fence j)) →
    fp_error_seq (srv_fp s') (f_slot (j_fence j)) = ERR_SEQ qu (fail_seq s j);
  wd_no_error sl : (∀ qu jid j, on_hw s qu jid j → f_slot (j_fence j) ≠ sl) → fp_error_seq (srv_fp s') sl = fp_error_seq (srv_fp s) sl;
  wd_count qu : fp_hw_completed (srv_fp s') qu = fp_hw_completed (srv_fp s) qu + b2z (is_hw_queue qu && bool_decide (is_Some (active s qu)));
  wd_dep jid : dep_failed s jid → dep_failed s' jid;
  wd_render jid j r : on_hw s V3DA_Q_BIN jid j → j_render j = Some r → dep_failed s' r }.

Lemma wedge_loop now s : sched_inv [] s → failed_below V3DA_Q_COUNT s (for_ 0 V3DA_Q_COUNT (wedge_fail_one now) s).
Proof.
  intros Hinv. apply (for_ind (λ n s', (n = 0 → s' = s) ∧ 0 ≤ n ∧ sched_inv [] s' ∧ failed_below n s s') 0 V3DA_Q_COUNT (wedge_fail_one now) s).
  - split_and!; [done|lia|done|]. by apply failed_below_0.
  - intros i s' Hi (H1 & H2 & H3 & H4). split_and!; [lia|lia|by apply wedge_fail_one_inv|]. by apply failed_below_step.
Qed.

Lemma wedge_reset_fp s :
  let s' := wedge_reset s in
  srv_fp s' = srv_fp s <| fp_reset_gen ::= λ n, u32 (n + 1) |> ∧ wedges (srv_st s') = u32 (wedges (srv_st s) + 1) ∧ resets (srv_st s') = u32 (resets (srv_st s) + 1).
Proof.
  unfold wedge_reset. cbv zeta. set (s0 := s <| srv_st ; wedges ::= _ |>). assert (srv_fp (v3da_hw_reset s0).2 = srv_fp s ∧ srv_st (v3da_hw_reset s0).2 = srv_st s0) as [H1 H2].
  { unfold v3da_hw_reset. cbv zeta. cbn [snd]. by destruct (hw_irq_on _). }
  revert H1 H2. unfold s0. generalize (v3da_hw_reset (s <| srv_st ; wedges ::= λ n, u32 (n + 1) |>)).2. clear. intros s2 H1 H2.
  destruct (0 <=? _); cbn; by rewrite H1, H2.
Qed.

(** C22: a wedge, exactly.  The hardware queues are empty afterwards and none counts as busy;
    every job that was on one is gone, its fence passed, its client's error word set by the last
    of its client's failures and its render job told that it must fail too.  All else stays:
    the CPU queue's job, every queued job in its place and order (but for links, the failed
    dependency's flag and chunks), the fences and error words of clients that had nothing
    running, the counts of idle queues. *)
Theorem wedge_fails_running now s : sched_reach s → wedged s (wedge now s).
Proof.
  intros Hinv%sched_reach_inv. pose proof (wedge_inv [] now s Hinv) as Hinv'. pose proof (λ qu, wedge_active [] now s qu Hinv) as Ha.
  revert Hinv' Ha. rewrite wedge_split. destruct (wedge_reset_fp s) as (Ef & Ew & Er). pose proof (wedge_reset_sched s) as Es. pose proof (wedge_reset_cl s) as Ec. cbv zeta in *.
  set (s1 := wedge_reset s) in *. clearbody s1. assert (sched_inv [] s1) as I1 by (apply (sched_inv_same _ s); [by apply same_sched_of|done]).
  pose proof (wedge_loop now s1 I1) as Hl. set (s' := for_ _ _ _ s1) in *. clearbody s'. intros Hinv' Ha.
  assert (∀ jid, job s1 jid = job s jid) as J by (intros; unfold job; by rewrite Es).
  assert (∀ qu, active s1 qu = active s qu) as A by (intros; unfold active, srv_q; by rewrite Es).
  assert (∀ qu jid j, on_hw s qu jid j ↔ on_hw s1 qu jid j) as Hon by (intros; unfold on_hw; by rewrite J, A).
  assert (∀ qu, is_hw_queue qu = true → qu < V3DA_Q_COUNT) as Hr by (intros qu ?%hw_queue_range; lia).
  assert (∀ j, fail_seq s1 j = fail_seq s j) as Hs by (intros; by apply fail_seq_same).
  assert (∀ qu jid j, on_hw s qu jid j → qu < V3DA_Q_COUNT) as Hw by (intros ? ? ? (? & _); auto).
  destruct Hl. constructor.
  - injection fb_st0 as -> ->. split_and!; [done..|]. rewrite fb_gen0, Ef. done.
  - apply (nbusy_idle []); [done|]. intros qu Hhw. by rewrite Ha, Hhw.
  - done.
  - intros. rewrite fb_fifo0. unfold fifo, srv_q. by rewrite Es.
  - intros jid H. rewrite <- J. apply fb_kept0. intros qu _. rewrite A. apply H.
  - intros qu jid Hhw Hq. apply (fb_gone0 qu); [by apply Hr|done|by rewrite A].
  - intros qu jid j H. rewrite <- Hs. apply (fb_completed0 qu jid); [by eapply Hw|by apply Hon].
  - intros sl qu H. rewrite fb_row0 by (intros jid j _ ?%Hon; by apply (H jid)). by rewrite Ef.
  - intros qu jid j H1 H2. rewrite <- Hs. apply (fb_error0 qu jid); [by eapply Hw|by apply Hon|]. intros q' i' k [H3 _] H4. apply (H2 q' i' k); [done|by apply Hon].
  - intros sl H. rewrite fb_no_error0 by (intros qu jid j _ ?%Hon; by apply (H qu jid)). by rewrite Ef.
  - intros qu. rewrite fb_count0, Ef, A. cbn [upd fp_hw_completed]. destruct (is_hw_queue qu) eqn:Hhw; [|by rewrite andb_false_r]. by rewrite bool_decide_eq_true_2 by auto.
  - intros jid H. apply fb_dep0. intros j. rewrite J. apply H.
  - intros jid j r H. apply (fb_render0 jid j); [done|by apply Hon].
Qed.
End env.

Lemma wedge_fails_running_witness :
  job run_cl 1 ≠ None ∧ job (wedge 2000 run_cl) 1 = None ∧ fifo (wedge 2000 run_cl) V3DA_Q_BIN 0 = [3] ∧ dep_failed (wedge 2000 run_cl) 2.
Proof.
  destruct (wedge_fails_running 2000 run_cl run_cl_reach) as [_ _ _ Hf _ Hg _ _ _ _ _ _ Hr].
  assert (active run_cl V3DA_Q_BIN = Some 1) as Ha by (vm_compute; reflexivity).
  assert (j_render <$> job run_cl 1 = Some (Some 2)) as Hj by (vm_compute; reflexivity).
  assert (fifo run_cl V3DA_Q_BIN 0 = [3]) as Hq by (vm_compute; reflexivity).
  revert Ha Hj Hq Hf Hg Hr. generalize run_cl. intros s Ha Hj Hq Hf Hg Hr. destruct (job s 1) as [j|] eqn:E; [|done]. cbn in Hj. injection Hj as Hj.
  split_and!; [done|by apply (Hg V3DA_Q_BIN)|by rewrite Hf|]. apply (Hr 1 j 2); [done|exact Hj].
Defined.
