(* ===== verification/Boot.v ===== *)
(** Start-up (tools/gpu-lane/v3d-async/v3da_sched.c, v3da_main.c): the fence page and the
    overflow pool, interrupts when asked for; the server it leaves satisfies the invariants
    of every component. *)
From S2P Require Import Prelude Proto State Csdprof Lowmem Hw Fence Bo BoInv BoMap BoShare BoSteps BoReach BoSpec.
From S2P Require Import Ovf Waits Jobs Submit Present Events Main SchedInv SchedKick SchedRun SchedReach SchedSpec.
From S2P Require Import Kept Counts OvfInv OvfSteps OvfKept Pins PinKept Closure Closed Aside Clients.

(** A zeroed fence page; its magic, version and sizes are constants no operation reads. *)
Definition fence_page_zero : v3da_fence_page_t := mkFp 0 0 0 (λ _, 0) (λ _, 0) (λ _ _, 0) (λ _, 0) (λ _, 0).

Section env.
Context `{E : Env}.

(** [kib] is the chunk size of the -c option; the page's address is the caller's [fp_pa]. *)
Definition v3da_sched_init (kib : Z) (s : v3da_srv_t) : Z * v3da_srv_t :=
  let p := env_mmap (cursor s) V3DA_FENCE_PAGE_SIZE true in
  let s := tick s in
  match p with
  | None => (- ENOMEM, s)
  | Some _ =>
      let s := s <| srv_fp := fence_page_zero |> in
      let '(now, s) := v3da_now_us s in
      let s := s <| srv_sched ; acct_t_us := now |> in
      let s := s <| srv_sched ; acct_t0_us := acct_t_us (srv_sched s) |> in
      v3da_ovf_init kib s
  end.

(** main() after v3da_hw_init, up to the threads: a failure exits. *)
Definition server_init (kib : Z) (irq_at_start : bool) (s : v3da_srv_t) : option v3da_srv_t :=
  let '(rc, s) := v3da_sched_init kib s in
  if negb (rc =? 0) then None else Some (if irq_at_start then (irq_mode 1 s).2 else s).
End env.

(** ** The pool *)
Lemma ovf_chunk_size_range kib : 64 * 1024 ≤ ovf_chunk_size kib ≤ OVF_POOL_BYTES.
Proof.
  unfold ovf_chunk_size, OVF_POOL_BYTES. cbv zeta. generalize (u32 (kib * 1024)) as c. intros c.
  set (c1 := if c <? _ then _ else c). assert (64 * 1024 ≤ c1) as H1 by (unfold c1; destruct (Z.ltb_spec c (64 * 1024)); lia). clearbody c1.
  set (c2 := if _ <? c1 then _ else c1). assert (64 * 1024 ≤ c2 ≤ 32 * 1024 * 1024) as H2.
  { unfold c2. destruct (Z.ltb_spec (32 * 1024 * 1024) c1); lia. }
  clearbody c2. change (PAGE_SIZE - 1) with (Z.ones 12). rewrite Z.ldiff_ones_r by lia.
  rewrite Z.shiftr_div_pow2, Z.shiftl_mul_pow2 by lia. change (2 ^ 12) with 4096.
  pose proof (Z.div_le_lower_bound c2 4096 16 ltac:(lia) ltac:(lia)). pose proof (Z.mul_div_le c2 4096 ltac:(lia)). lia.
Qed.

Definition chunk_count (kib : Z) : Z := Z.min (OVF_POOL_BYTES / ovf_chunk_size kib) V3DA_MAX_CHUNKS.
Lemma chunk_count_range kib : 1 ≤ chunk_count kib ≤ V3DA_MAX_CHUNKS ∧ chunk_count kib * ovf_chunk_size kib ≤ OVF_POOL_BYTES.
Proof.
  unfold chunk_count. pose proof (ovf_chunk_size_range kib) as H. set (c := ovf_chunk_size kib) in *. clearbody c.
  unfold OVF_POOL_BYTES, V3DA_MAX_CHUNKS in *. pose proof (Z.div_le_lower_bound (32 * 1024 * 1024) c 1 ltac:(lia) ltac:(lia)).
  pose proof (Z.mul_div_le (32 * 1024 * 1024) c ltac:(lia)). split; [lia|]. nia.
Qed.

(** The initial links thread every chunk, in order. *)
Lemma link_all_chain n o : 0 ≤ n →
  let o' := ovf_link_all n o in
  chain (ov_next o') (ov_free_head o') (seqZ 0 n) ∧
  (ov_gpuva o', ov_chunk_bytes o', ov_nchunks o') = (ov_gpuva o, ov_chunk_bytes o, ov_nchunks o).
Proof.
  intros Hn. cbv zeta. unfold ovf_link_all. set (o0 := o <| ov_free_head := -1 |>).
  match goal with |- context [for_ 0 n ?f o0] => set (body := f) end.
  pose proof (for_ind (λ k o', chain (ov_next o') (ov_free_head o') (seqZ (n - k) k) ∧
     (ov_gpuva o', ov_chunk_bytes o', ov_nchunks o') = (ov_gpuva o, ov_chunk_bytes o, ov_nchunks o)) 0 n body o0) as H.
  rewrite Z.max_r in H by lia. destruct H as (H1 & H2); [| |split; [by rewrite Z.sub_diag in H1|exact H2]].
  - split_and!; try done.
  - intros k o' Hk (Hc & Hv). split_and!; try done. unfold body. cbn. replace (n - (k + 1)) with (n - k - 1) by lia.
    rewrite (seqZ_cons (n - k - 1) (k + 1)) by lia. replace (Z.succ (n - k - 1)) with (n - k) by lia. replace (Z.pred (k + 1)) with k by lia.
    simpl. split_and!; [lia|lia|]. rewrite fn_upd_eq. apply (chain_ext (ov_next o')); [|exact Hc].
    intros x Hx. apply elem_of_seqZ in Hx. rewrite fn_upd_ne by lia. done.
Qed.

Lemma chunks_start o H n :
  0 ≤ n ≤ V3DA_MAX_CHUNKS → chain (ov_next o) (ov_free_head o) (seqZ 0 n) → ov_nchunks o = n → ov_nfree o = n → ov_staged o < 0 →
  (∀ jid, H jid < 0) → chunks_inv o H.
Proof.
  intros Hn Hc En Ef Hs HH. exists (λ p, match p with Free => seqZ 0 n | _ => [] end). constructor.
  - constructor.
    + intros [| |jid]; simpl; [exact Hc|done|apply HH].
    + intros [| |jid]; [apply NoDup_seqZ|constructor..].
    + intros [| |j1] [| |j2] x; try done; intros Hx Hy; by apply not_elem_of_nil in Hx || apply not_elem_of_nil in Hy.
    + intros x. rewrite En. split; [intros Hx; exists Free; apply elem_of_seqZ; lia|].
      intros [[| |jid] Hx]; [apply elem_of_seqZ in Hx; lia|by apply not_elem_of_nil in Hx..].
  - rewrite Ef, length_seqZ. lia.
  - simpl. lia.
  - by rewrite En.
Qed.

Section boot.
Context `{E : Env}.

(** What v3da_hw_init leaves: an empty table over an empty page table, no job, no client,
    no chunk with the interrupt handler, nobody answered or parked. *)
Record server_start (s : v3da_srv_t) : Prop := mkServerStart {
  ss_bo : bo_start s;
  ss_sched : sched_start s;
  ss_clients : ∀ i, c_used (srv_client s i) = false;
  ss_stage : hw_ovf_stage_va (srv_hw s) = 0 ∧ hw_ovf_consumed (srv_hw s) = 0;
  ss_quiet : replies s = [] ∧ waits (srv_wt s) = [] ∧ nparked (srv_wt s) = 0 }.

Lemma pool_range extra va pages s : bo_inv (mkHole va pages :: extra) None s → GPUVA_BASE ≤ va ∧ va + pages * PAGE_SIZE ≤ PT_ENTRIES * PAGE_SIZE.
Proof.
  intros [_ [[_ _ Hhi _ [Hall _]] _]]. rewrite Forall_forall in Hall.
  destruct (Hall (mkHole va pages)) as (H1 & _ & H2 & _); [rewrite !elem_of_app; right; right; by left|].
  unfold range_end in H2. simpl in *. lia.
Qed.

Lemma map_pool_frame bytes s : let s' := (v3da_bo_map_ovf_pool bytes s).2 in
  srv_ovf s' = srv_ovf s ∧ srv_sched s' = srv_sched s ∧ srv_cl s' = srv_cl s ∧ srv_fp s' = srv_fp s ∧ ovf_words (srv_hw s') = ovf_words (srv_hw s).
Proof.
  cbv zeta. unfold v3da_bo_map_ovf_pool. cbv zeta. pose proof (aside_alloc (bytes / PAGE_SIZE) s) as [(Ef & Ec & Es & Eo & _) Ew].
  destruct (alloc_va (bytes / PAGE_SIZE) s) as [va s1]. cbn [snd] in Ef, Ec, Es, Eo, Ew. destruct (va =? 0); [done|].
  destruct (env_mmap _ _ _); cbn [snd]; [done|]. split_and!; [exact Eo|exact Es|exact Ec|exact Ef|]. rewrite <- Ew.
  simpl. unfold v3da_hw_va_free. by repeat case_match.
Qed.
End boot.
