(* ===== verification/Server.v ===== *)
(** The whole server: the invariants of the scheduler, the counts, the overflow pool, the
    client table, the pins and the objects hold together after start-up and after every
    message, every turn of the event thread and every interrupt. *)
From S2P Require Import Prelude Proto State Csdprof Lowmem Hw Fence Bo BoInv BoMap BoShare BoSteps BoReach BoSpec.
From S2P Require Import Ovf Waits Jobs Submit Present Events Main SchedInv SchedKick SchedRun SchedReach SchedSpec.
From S2P Require Import Kept Counts OvfInv OvfSteps OvfKept Pins PinKept Closure Closed Aside Clients Boot.

(** ** Predicates together *)
Section both.
Context `{E : Env}.

Lemma kept_and P Q : Kept P → Kept Q → Kept (λ s, P s ∧ Q s).
Proof.
  intros KP KQ. split.
  - intros s s' Hs [HP HQ]. split; by eapply kept_still.
  - intros jid j now s Hi Hj Ha [HP HQ]. split; by apply kept_start.
  - intros jid err now s Hi [HP HQ]. split; by apply kept_done.
  - intros s [HP HQ]. split; by apply kept_stage.
  - intros s Hi [HP HQ]. split; by apply kept_service.
  - intros s Hi [HP HQ]. split; by apply kept_reset.
  - intros s [HP HQ]. split; by apply kept_hw_service.
  - intros s [HP HQ]. split; by apply kept_poll.
Qed.

#[export] Instance submitted_and P Q : Submitted P → Submitted Q → Submitted (λ hs s, P hs s ∧ Q hs s).
Proof.
  intros SP SQ. split.
  - apply (kept_and (P []) (Q [])); apply sub_kept.
  - intros hs s s' Hs [HP HQ]. split; by eapply sub_still.
  - intros hs s s' H1 H2 H3 [HP HQ]. split; by eapply sub_pin.
  - intros hs s [HP HQ]. split; by apply sub_unpin.
  - intros hs ci qu now s jid s' H1 H2 [HP HQ]. split; by eapply sub_new.
  - intros hs jid j s H1 H2 [HP HQ]. split; by eapply sub_free.
  - intros hs f l d s H1 H2 H3 [HP HQ]. split; by apply sub_pair.
  - intros hs f l s H1 H2 [HP HQ]. split; by apply sub_unpair.
  - intros hs jid j s H1 H2 [HP HQ]. split; by eapply sub_keep.
  - intros hs f g s H1 [HP HQ]. split; by apply sub_mark.
  - intros jid s [HP HQ]. split; by apply sub_discard.
Qed.

Definition whole (extra : list hole) (hs : list Z) (s : v3da_srv_t) : Prop :=
  (counts_inv s ∧ ovf_inv s) ∧ clients_inv s ∧ pins_inv extra hs s.
#[export] Instance whole_submitted extra : Submitted (whole extra).
Proof.
  apply submitted_and; apply submitted_and; [apply counts_submitted|apply ovf_submitted|apply clients_submitted|apply pins_submitted].
Qed.
#[export] Instance whole_kept extra : Kept (whole extra []) := sub_kept.

Definition srv_inv (extra : list hole) (s : v3da_srv_t) : Prop := sched_inv [] s ∧ whole extra [] s.

(** ** Calm steps and requests on objects *)
Lemma srv_calm extra s s' : calm s s' → srv_inv extra s → srv_inv extra s'.
Proof.
  intros [Eb Eh Eo Es Ej E1 E2 Ec] (Hi & (Hc & Ho) & Hcl & Hp). unfold srv_inv, whole. split_and!.
  - by apply (sched_inv_same _ s).
  - apply (counts_same s); [|done]. constructor; [done|done|apply Es|]. intros jid. specialize (Ej jid).
    destruct (job s' jid), (job s jid); try done. simpl in *. unfold jview, cnt_view in *. congruence.
  - by apply (ovf_views s).
  - by apply (clients_cids s).
  - apply (pins_frame _ _ s); [|done]. constructor; [done|unfold hw_view, map_words in *; congruence|].
    intros jid. specialize (Ej jid). destruct (job s' jid), (job s jid); try done. simpl in *. unfold jview, pins_of in *. congruence.
Qed.

(** A request on objects: [Hbo] for the objects, [Hpin] for the pinned ones. *)
Lemma srv_aside extra s s' : aside s s' → (bo_inv extra None s → bo_inv extra None s') → (bo_inv extra None s → pin_same s s') →
  srv_inv extra s → srv_inv extra s'.
Proof.
  intros [(Ef & Ecl & Es & Eo & _) Ew] Hbo Hpin (Hi & (Hc & Ho) & Hcl & Hb & Hp). unfold srv_inv, whole, pins_inv. split_and!.
  - apply (sched_inv_same _ s); [by apply same_sched_of|done].
  - apply (counts_same s); [by apply cnt_same_of|done].
  - apply (ovf_still_frame s); [done|done|by rewrite Es|done].
  - apply (clients_cids s); [by apply cids_of|done].
  - by apply Hbo.
  - assert (job_pins s' = job_pins s) as -> by (unfold job_pins; by rewrite Es). apply (pins_at_same _ s); auto.
Qed.

(** A request whose steps are the scheduler's. *)
Lemma srv_sub extra s s' : (sched_inv [] s → sched_inv [] s') → (sched_inv [] s → whole extra [] s → whole extra [] s') →
  srv_inv extra s → srv_inv extra s'.
Proof. intros H1 H2 [Hi Hw]. split; auto. Qed.
End both.

(** ** Requests *)
Section requests.
Context `{E : Env} (extra : list hole).

(** What a request's words satisfy: they are unsigned, and the in-flight counts have room
    for a submission. *)
Definition req_ok (rq : v3da_req) (s : v3da_srv_t) : Prop :=
  match rq with
  | Q_bo_create size _ => 0 ≤ size
  | Q_bo_close h | Q_bo_export h => 0 ≤ h
  | Q_bo_attach_fence q => 0 ≤ bs_handle q ∧ 0 ≤ bs_id q
  | Q_submit _ _ data _ => submit_ok data s
  | _ => True
  end.

Lemma client_get_Some s id ci : client_get s id = Some ci → ci = id - 1 ∧ 0 ≤ ci < V3DA_MAX_CLIENTS ∧ c_used (srv_client s ci) = true.
Proof.
  unfold client_get. destruct (_ || _) eqn:Hr; [done|]. destruct (c_used _) eqn:Hu; [|done]. intros [= <-]. zify_bools. split_and!; [done|lia|lia|done].
Qed.

Lemma srv_client_id s ci : srv_inv extra s → 0 ≤ ci < V3DA_MAX_CLIENTS → c_used (srv_client s ci) = true →
  1 ≤ c_id (srv_client s ci) ≤ V3DA_MAX_CLIENTS.
Proof. intros (_ & _ & Hcl & _) Hci Hu. destruct (Hcl ci Hci Hu) as [-> _]. lia. Qed.

Lemma srv_park r a s : calm s r.2 → srv_inv extra s → srv_inv extra (park_reply r a).1.2.
Proof. destruct r as [[rc u] s']. unfold park_reply. intros Hc H. destruct (rc =? 0); by apply (srv_calm _ s). Qed.

Lemma make_handle_nonneg gen slot : 0 ≤ slot → 0 ≤ make_handle gen slot.
Proof. intros Hs. unfold make_handle. apply Z.lor_nonneg. split; [apply u32_range|lia]. Qed.

Lemma sync_target_handle c rq max l i s :
  bo_inv extra None s → 0 ≤ bs_handle rq → 0 ≤ bs_id rq → v3da_bo_sync_targets c rq max s = inr l → i ∈ l → 0 ≤ bo_handle (srv_bos s i).
Proof.
  intros Hinv Hh Hid. unfold v3da_bo_sync_targets. destruct (_ || _); [done|]. destruct (bs_ns rq =? V3DA_BO_SYNC_HANDLE).
  - destruct (v3da_bo_find s (bs_handle rq)) as [k|] eqn:Hf; [|done]. destruct (bo_held_by _ _); [|done].
    intros [= <-] ->%list_elem_of_singleton. apply v3da_bo_find_Some in Hf as [Hl _]. by apply bo_lookup_Some in Hl as (_ & _ & _ & ->).
  - destruct (bs_ns rq =? V3DA_IMPORT_NS_V3DBUF).
    + destruct (_ || _); [done|]. destruct (bo_by_export s (bs_id rq)) as [k|] eqn:Hx; [|done].
      intros [= <-] ->%list_elem_of_singleton. by apply bo_by_export_Some in Hx as (_ & _ & -> & _).
    + destruct (_ =? _); [|done]. intros [= <-] Hin. apply elem_of_take in Hin as (k & Hk & _).
      apply list_elem_of_lookup_2, list_elem_of_In, List.filter_In in Hk as [Hk Ht].
      apply list_elem_of_In, elem_of_seqZ in Hk. unfold sync_target_kms in Ht. rewrite !andb_true_iff in Ht. destruct Ht as [[[[Hst _] _] _] _].
      apply bool_decide_eq_true in Hst. assert (0 ≤ i < nbos (srv_bo s)) as Hi by lia.
      destruct (live_local _ _ _ Hinv Hi Hst) as (-> & _). apply make_handle_nonneg. lia.
Qed.

Lemma srv_attach ci rq s : 0 ≤ bs_handle rq → 0 ≤ bs_id rq → srv_inv extra s → srv_inv extra (v3da_bo_attach_fence ci rq s).2.
Proof.
  intros Hh Hid H. apply (srv_sub _ s); [apply attach_fence_inv| |done]. intros Hi. apply (kept_attach_fence (whole extra)); [done|].
  intros l i Hl Hin. destruct H as (_ & _ & _ & Hb & _). by apply (sync_target_handle (c_id (srv_client s ci)) rq V3DA_MAX_CLIENTS l).
Qed.

Lemma srv_set_mode rq s : srv_inv extra s → srv_inv extra (v3da_set_mode rq s).2.
Proof.
  intros H. unfold v3da_set_mode. cbv zeta. destruct (_ && _); [done|].
  set (s1 := if has (mq_set rq) V3DA_SET_MODE then _ else s).
  assert (srv_inv extra s1) as H1 by (apply (srv_calm _ s); [apply calm_if; [calm_refl|done]|done]). clearbody s1.
  destruct (_ && _); [done|]. set (s2 := if has (mq_set rq) V3DA_SET_KNOBS then _ else s1).
  assert (srv_inv extra s2) as H2 by (apply (srv_calm _ s1); [apply calm_if; [calm_refl|done]|done]). clearbody s2. cbn [snd].
  destruct (negb _); [|done]. apply (srv_sub _ s2); [apply sched_run_inv| |done]. by apply kept_sched_run, whole_kept.
Qed.

Lemma srv_bo_create c size flags s : 1 ≤ c → 0 ≤ size → srv_inv extra s → srv_inv extra (v3da_bo_create c size flags s).2.
Proof. intros. apply (srv_aside _ s); [apply aside_create|by apply bo_create_inv|by apply bo_create_pins|done]. Qed.
Lemma srv_bo_close c h s : 0 ≤ h → srv_inv extra s → srv_inv extra (v3da_bo_close c h s).2.
Proof. intros. apply (srv_aside _ s); [apply aside_close|intros; by apply bo_close_inv|intros; apply bo_close_pins|done]. Qed.
Lemma srv_bo_export c h s : 0 ≤ h → srv_inv extra s → srv_inv extra (v3da_bo_export c h s).2.
Proof. intros. apply (srv_aside _ s); [apply aside_export|intros; by apply bo_export_inv|intros; apply bo_export_pins|done]. Qed.
Lemma srv_bufns m s : 0 ≤ bufns_id m → fds_below s → srv_inv extra s → srv_inv extra (bufns_handle m s).2.
Proof. intros. apply (srv_aside _ s); [apply aside_bufns|intros; by apply bufns_inv|intros; apply bufns_pins|done]. Qed.
Lemma srv_bo_client_gone c s : 1 ≤ c → srv_inv extra s → srv_inv extra (v3da_bo_client_gone c s).
Proof. intros. apply (srv_aside _ s); [apply aside_client_gone|intros; by apply bo_client_gone_inv|intros; apply bo_client_gone_pins|done]. Qed.
Lemma srv_import_v3dbuf c rq s : 1 ≤ c ≤ V3DA_MAX_CLIENTS → 0 ≤ bi_id rq → fds_below s → srv_inv extra s → srv_inv extra (import_v3dbuf c rq s).2.
Proof. intros. apply (srv_aside _ s); [apply aside_import_v3dbuf|intros; by apply import_v3dbuf_inv|intros; apply import_v3dbuf_pins|done]. Qed.
Lemma srv_import_commit c rq ie gen m s : 1 ≤ c ≤ V3DA_MAX_CLIENTS → 0 ≤ bi_size rq → import_map rq ie = inr m →
  srv_inv extra s → srv_inv extra (import_commit c rq gen m s).2.
Proof.
  intros Hc Hs Hm. apply srv_aside; [apply aside_import_commit| |by apply import_commit_pins].
  apply import_commit_inv; [lia|by eapply import_map_pages].
Qed.

Lemma srv_bo_import c rq ie between s :
  0 ≤ bi_id rq → 0 ≤ bi_size rq → fds_below s → (srv_inv extra s → srv_inv extra (between s)) →
  srv_inv extra s → srv_inv extra (v3da_bo_import c rq ie between s).2.
Proof.
  intros Hid Hsz Hfd Hb H. unfold v3da_bo_import. destruct (_ || _) eqn:Hr; [done|]. zify_bools.
  destruct (bi_ns rq =? V3DA_IMPORT_NS_V3DBUF); [apply srv_import_v3dbuf; try done; lia|]. destruct (_ || _); [done|].
  destruct (import_check c rq s) as [|gen]; [done|]. destruct (import_map rq ie) as [rc|m] eqn:Hm; [by apply Hb|].
  assert (1 ≤ c ≤ V3DA_MAX_CLIENTS) as Hc by lia. pose proof (srv_import_commit c rq ie gen m (between s) Hc Hsz Hm (Hb H)) as Hc2.
  destruct (import_commit c rq gen m (between s)) as [[rc u] s2]. cbn [snd] in *.
  apply (srv_calm _ s2); [apply calm_if; [calm_refl|done]|exact Hc2].
Qed.

Lemma srv_handle_raw ci rid rq a s :
  0 ≤ ci < V3DA_MAX_CLIENTS → c_used (srv_client s ci) = true → req_ok rq s → srv_inv extra s → srv_inv extra (handle_raw ci rid rq s a).1.2.
Proof.
  intros Hci Hu Hrq H. pose proof (srv_client_id s ci H Hci Hu) as Hid.
  assert (∀ r, srv_inv extra r.2 → srv_inv extra (let '(rc, u, s) := r in (Some (mkResp rc u), s, a)).1.2) as Hre by (by intros [[? ?] ?]).
  assert (∀ r : Z * v3da_srv_t, calm s r.2 → srv_inv extra r.2) as Hc2 by (intros ??; by apply (srv_calm _ s)).
  assert (∀ r : Z * v3da_resp_u * v3da_srv_t, calm s r.2 → srv_inv extra r.2) as Hc3 by (intros ??; by apply (srv_calm _ s)).
  destruct rq; cbn [req_ok] in Hrq; unfold handle_raw; try (exact H).
  - apply Hre. apply srv_bo_create; [lia|done|done].
  - by apply (srv_bo_close _ handle s).
  - apply Hre. by apply srv_bo_export.
  - apply Hre, Hc3, calm_last_fence.
  - destruct Hrq. apply Hre. by apply srv_attach.
  - destruct (v3da_bo_find s handle); [|exact H]. apply (srv_park _ _ s); [apply calm_park|done].
  - apply Hre. apply (srv_sub _ s); [apply submit_nop_inv| |done]. intros. by apply (kept_submit_nop (whole extra)).
  - apply Hre. apply (srv_sub _ s); [apply submit_inv| |done]. intros. by apply (kept_submit (whole extra)).
  - apply Hc2, calm_syncobj_import.
  - apply Hre, Hc3, calm_scanout_info.
  - apply Hre, Hc3, calm_flip.
  - apply Hre. by apply srv_set_mode.
  - apply Hre, Hc3, calm_qstats.
  - destruct (negb _); [exact H|]. apply (srv_park _ _ s); [apply calm_park|done].
  - pose proof (calm_syncobj_create ci flags s) as Hc. destruct (v3da_syncobj_create ci flags s) as [[rc h] s2].
    by apply (srv_calm _ s).
  - apply Hc2, calm_syncobj_destroy.
  - apply Hc2, calm_syncobj_reset.
  - apply Hc2, calm_syncobj_signal.
  - destruct (negb _); [exact H|]. apply (srv_park _ _ s); [apply calm_park|done].
  - pose proof (calm_irq_mode on s) as Hc. destruct (irq_mode on s) as [[rc u] s2]. cbn [snd fst] in *.
    apply (srv_calm _ s); [etrans; [exact Hc|apply calm_kick]|done].
  - apply Hre, Hc3, calm_checksum.
  - pose proof (calm_quit s a) as Hc. destruct (dbg_quit s a) as [[[rc u] s2] a2]. by apply (srv_calm _ s).
Qed.

(** ** Clients come and go *)
Lemma slot_assign_frame slot s : let s' := v3da_slot_assign slot s in
  srv_sched s' = srv_sched s ∧ srv_bo s' = srv_bo s ∧ srv_hw s' = srv_hw s ∧ srv_ovf s' = srv_ovf s ∧
  fp_hw_submitted (srv_fp s') = fp_hw_submitted (srv_fp s) ∧ fp_hw_completed (srv_fp s') = fp_hw_completed (srv_fp s) ∧
  clients (srv_cl s') = clients (srv_cl s).
Proof.
  unfold v3da_slot_assign. cbv zeta. match goal with |- context [for_ 0 V3DA_Q_COUNT ?b s] => set (body := b) end.
  apply (for_inv (λ s', srv_sched s' = srv_sched s ∧ srv_bo s' = srv_bo s ∧ srv_hw s' = srv_hw s ∧ srv_ovf s' = srv_ovf s ∧
    fp_hw_submitted (srv_fp s') = fp_hw_submitted (srv_fp s) ∧ fp_hw_completed (srv_fp s') = fp_hw_completed (srv_fp s) ∧
    clients (srv_cl s') = clients (srv_cl s))); [done|]. intros i s' _ H. exact H.
Qed.

(** The client table changed, and a step that is calm but for it. *)
Lemma srv_clients s s' : srv_sched s' = srv_sched s → srv_bo s' = srv_bo s → srv_hw s' = srv_hw s → srv_ovf s' = srv_ovf s →
  fp_hw_submitted (srv_fp s') = fp_hw_submitted (srv_fp s) → fp_hw_completed (srv_fp s') = fp_hw_completed (srv_fp s) →
  clients_inv s' → srv_inv extra s → srv_inv extra s'.
Proof.
  intros Es Eb Eh Eo E1 E2 Hcl' (Hi & (Hc & Ho) & _ & Hp). unfold srv_inv, whole. split_and!.
  - apply (sched_inv_same _ s); [by apply same_sched_of|done].
  - apply (counts_same s); [|done]. constructor; [done|done|..]; intros; unfold active, job, srv_q; by rewrite Es.
  - apply (ovf_frame s); [done|done|by rewrite Es|done].
  - done.
  - apply (pins_frame _ _ s); [by apply pin_frame_of|done].
Qed.

Lemma srv_client_open pid s : srv_inv extra s → srv_inv extra (client_open pid s).2.
Proof.
  intros H. unfold client_open. destruct (find_first _ _ _) as [i|] eqn:Hf; [|done]. cbn [snd].
  apply find_first_Some in Hf as (Hi & _ & _). set (s1 := set_client i _ s).
  pose proof (slot_assign_frame i s1) as (Es & Eb & Eh & Eo & E1 & E2 & Ec). set (s2 := v3da_slot_assign i s1) in *. clearbody s2.
  apply (srv_clients s); [done..| |done]. intros k Hk. unfold srv_client. cbn. rewrite Ec.
  destruct H as (_ & _ & Hcl & _). unfold s1, set_client. cbn. rewrite fn_upd_case. destruct (decide (i = k)) as [->|]; [done|].
  intros Hu. by apply (Hcl k).
Qed.

Lemma srv_client_hello id proto fp_pa s : srv_inv extra s → srv_inv extra (client_hello id proto fp_pa s).2.
Proof.
  intros H. unfold client_hello. destruct (client_get s id) as [ci|]; [|done]. destruct (_ || _); [done|]. cbn [snd].
  apply (srv_calm _ s); [by apply calm_set_client|done].
Qed.

Lemma srv_client_close id s a : srv_inv extra s → srv_inv extra (client_close id s a).1.
Proof.
  intros H. unfold client_close. destruct (client_get s id) as [ci|] eqn:Hg; [|done]. apply client_get_Some in Hg as (_ & Hci & Hu).
  pose proof (srv_client_id s ci H Hci Hu) as Hid. generalize dependent (c_id (srv_client s ci)). intros cid' Hid.
  pose proof (calm_waits_gone cid' s a) as Hc. destruct (v3da_waits_client_gone cid' s a) as [s1 a1]. cbn [fst] in Hc. cbv zeta. cbn [fst].
  assert (srv_inv extra s1) as H1 by (by apply (srv_calm _ s)).
  assert (srv_inv extra (v3da_jobs_client_gone cid' s1)) as H2.
  { apply (srv_sub _ s1); [apply jobs_client_gone_inv| |done]. intros. by apply (kept_jobs_client_gone (whole extra)). }
  set (s2 := v3da_jobs_client_gone cid' s1) in *. clearbody s2. pose proof (srv_bo_client_gone cid' s2 (proj1 Hid) H2) as H3.
  set (s3 := v3da_bo_client_gone cid' s2) in *. clearbody s3. apply (srv_clients s3); [done..| |done].
  destruct H3 as (_ & _ & Hcl & _). intros k Hk. unfold srv_client, set_client. cbn. rewrite fn_upd_case.
  destruct (decide (ci = k)) as [->|]; [done|]. intros Hu'. by apply (Hcl k).
Qed.

(** ** Messages *)
Definition msg_ok (msg : srv_msg) (s : v3da_srv_t) : Prop :=
  match msg with
  | M_import _ rq _ _ => 0 ≤ bi_id rq ∧ 0 ≤ bi_size rq ∧ fds_below s
  | M_raw _ rq => req_ok rq s
  | _ => True
  end.
(** What the other threads do while an import maps the exporter's name. *)
Definition msg_between (msg : srv_msg) : v3da_srv_t → v3da_srv_t :=
  match msg with M_import _ _ _ between => between | _ => λ s, s end.

Lemma srv_dispatch fp_pa port rid msg s :
  msg_ok msg s → (srv_inv extra s → srv_inv extra (msg_between msg s)) → srv_inv extra s → srv_inv extra (dispatch fp_pa port rid msg s).
Proof.
  intros Hok Hb H.
  assert (∀ r s' answer, srv_inv extra s' → srv_inv extra (respond port rid r (v3da_waits_answer answer s'))) as Hend.
  { intros r s' answer H'. apply (srv_calm _ s'); [|done]. etrans; [apply calm_answer|apply calm_respond]. }
  destruct msg; cbn [msg_ok msg_between] in Hok, Hb; unfold dispatch; try (by apply Hend).
  - pose proof (srv_client_open pid s H) as Ho. destruct (client_open pid s). by apply Hend.
  - pose proof (srv_client_close id s [] H) as Ho. destruct (client_close id s []). by apply Hend.
  - pose proof (srv_client_hello id proto fp_pa s H) as Ho. destruct (client_hello id proto fp_pa s) as [[? ?] ?]. by apply Hend.
  - destruct Hok as (H1 & H2 & H3). pose proof (srv_bo_import (u32 id) rq ie between s H1 H2 H3 Hb H) as Ho.
    destruct (v3da_bo_import (u32 id) rq ie between s) as [[? ?] ?]. by apply Hend.
  - unfold raw_request. set (s1 := s <| srv_wt ; rx_port := port |>). assert (srv_inv extra s1) as Hs1 by (apply (srv_calm _ s); [calm_refl|done]).
    destruct (client_get s1 id) as [ci|] eqn:Hg; [|by apply Hend]. apply client_get_Some in Hg as (_ & Hci & Hu).
    assert (req_ok rq s1) as Hok1 by (destruct rq; exact Hok).
    pose proof (srv_handle_raw ci rid rq [] s1 Hci Hu Hok1 Hs1) as Ho. destruct (handle_raw ci rid rq s1 []) as [[? ?] ?]. by apply Hend.
Qed.

(** ** The event thread and the interrupt *)
Lemma srv_event_turn s : srv_inv extra s → srv_inv extra (event_turn s).
Proof.
  intros H. unfold event_turn. rewrite event_body_core. set (now := env_now _).
  assert (srv_inv extra (event_core s)) as H1.
  { apply (srv_sub _ s); [apply event_core_inv| |done]. by apply kept_event_core, whole_kept. }
  set (s1 := event_core s) in *. clearbody s1. pose proof (calm_scan now s1 []) as Hc. destruct (waits_scan now s1 []) as [s2 a].
  apply (srv_calm _ s1); [|done]. etrans; [exact Hc|apply calm_answer].
Qed.

Lemma srv_irq s : srv_inv extra s → srv_inv extra (v3da_irq_handler s).2.
Proof.
  intros H. unfold v3da_irq_handler. cbv zeta. set (s0 := s <| srv_hw ; hw_irq_count ::= _ |>).
  assert (srv_inv extra s0) as H0 by (apply (srv_calm _ s); [calm_refl|done]). clearbody s0.
  assert (srv_inv extra (hw_service s0).2) as H1.
  { apply (srv_sub _ s0); [| |done].
    - apply sched_inv_same, same_sched_of, hw_service_sched.
    - intros _. apply kept_hw_service. }
  destruct (hw_service s0) as [[core hub] s1]. cbn [snd] in H1.
  set (s2 := if _ =? 0 then _ else s1). assert (srv_inv extra s2) as H2 by (apply (srv_calm _ s1); [apply calm_if; [calm_refl|done]|done]).
  clearbody s2. destruct (_ && _); [apply (srv_calm _ s2); [calm_refl|done]|]. destruct (_ <? _); [apply (srv_calm _ s2); [calm_refl|done]|done].
Qed.
End requests.
