(* ===== verification/Talk.v ===== *)
(** Who is answered: no step but a scan, a cancellation, a parking or an answer touches the
    parked requests or replies to anyone. *)
From S2P Require Import Prelude Proto State Csdprof Lowmem Hw Fence Bo BoInv BoMap BoShare BoSteps BoReach BoSpec.
From S2P Require Import Ovf Waits Jobs Submit Present Events Main SchedInv SchedKick SchedRun SchedReach SchedSpec.
From S2P Require Import Kept OvfInv OvfSteps OvfKept Pins PinKept Closure Closed Aside Clients.

Definition hush (s s' : v3da_srv_t) : Prop := replies s' = replies s ∧ srv_wt s' = srv_wt s.
#[export] Instance hush_pre : PreOrder hush.
Proof. split; [done|]. intros a b c [R1 W1] [R2 W2]. split; congruence. Qed.
Ltac hush_refl := split; [first [reflexivity | said]|reflexivity].
Lemma hush_if (b : bool) s s1 s2 : hush s s1 → hush s s2 → hush s (if b then s1 else s2).
Proof. by destruct b. Qed.
Lemma hush_foldl {A} (f : v3da_srv_t → A → v3da_srv_t) l s : (∀ s x, hush s (f s x)) → hush s (foldl f s l).
Proof. intros Hf. revert s. induction l as [|x l IH]; intros s; [done|]. simpl. etrans; [apply Hf|apply IH]. Qed.
Lemma hush_for lo hi f s : (∀ i s, hush s (f i s)) → hush s (for_ lo hi f s).
Proof. intros Hf. apply (for_inv (hush s)); [done|]. intros i s' _ H. etrans; [exact H|apply Hf]. Qed.

Section env.
Context `{E : Env}.

(** ** Objects *)
Lemma hush_withdraw i s : hush s (export_withdraw i s).
Proof. unfold export_withdraw. destruct (negb _); [done|hush_refl]. Qed.
Lemma hush_quarantine_begin i s : hush s (quarantine_begin i s).
Proof.
  split; [|by destruct (quarantine_begin_spec i s) as ((_ & _ & _ & _ & -> & _) & _)].
  unfold quarantine_begin. rewrite <- (proj1 (hush_withdraw i s)). set (s1 := export_withdraw i s). clearbody s1. cbv zeta.
  unfold scanout_release. repeat case_match; (reflexivity || said).
Qed.
Lemma hush_unref i s : hush s (bo_unref i s).
Proof.
  unfold bo_unref. set (s1 := set_bo i _ s). assert (hush s s1) as H1 by hush_refl. clearbody s1.
  destruct (_ =? 0); [|exact H1]. cbv zeta. pose proof (hush_withdraw i s1) as H2. set (s2 := export_withdraw i s1) in *. clearbody s2.
  destruct (_ =? 0); [|by etrans]. etrans; [exact H1|]. etrans; [exact H2|apply hush_quarantine_begin].
Qed.
Lemma hush_unpin hs s : hush s (v3da_bo_unpin hs s).
Proof.
  apply hush_foldl. clear s. intros s h. unfold unpin_one. destruct (bo_lookup s h) as [i|]; [|done]. cbv zeta.
  match goal with |- hush s (if _ then quarantine_begin _ ?x else _) => set (s1 := x) end.
  assert (hush s s1) as H1 by hush_refl. clearbody s1. apply hush_if; [|exact H1]. etrans; [exact H1|apply hush_quarantine_begin].
Qed.
Lemma hush_block_put cpu pa pages c s : hush s (block_put cpu pa pages c s).
Proof. unfold block_put. destruct (_ <? _); hush_refl. Qed.
Lemma hush_release i s : hush s (quarantine_release i s).
Proof.
  unfold quarantine_release. cbv zeta. set (b := srv_bos s i). clearbody b.
  set (s1 := if bo_imported b then _ else _). assert (hush s s1) as H1.
  { unfold s1. destruct (bo_imported b); [hush_refl|]. etrans; [|apply hush_block_put]. destruct (bo_low b); [hush_refl|done]. }
  clearbody s1. etrans; [exact H1|]. hush_refl.
Qed.
Lemma hush_poll s : hush s (v3da_bo_quarantine_poll s).
Proof. apply hush_for. intros i s'. unfold quarantine_poll_one. destruct (quarantine_passed _ _); [apply hush_release|done]. Qed.

(** ** Jobs and chunks *)
Lemma hush_drop_pins j s : hush s (drop_pins j s).
Proof. unfold drop_pins. destruct (j_bos j); [apply hush_unpin|done]. Qed.
Lemma hush_free_chunks h s : hush s (chunk_free_list h s).
Proof. split; reflexivity. Qed.
Lemma hush_ovf g s : hush s (s <| srv_ovf ::= g |>).
Proof. split; reflexivity. Qed.
Lemma hush_set_job jid f s : hush s (set_job jid f s).
Proof. split; reflexivity. Qed.
Lemma hush_free_job_chunks jid s : hush s (free_job_chunks jid s).
Proof. unfold free_job_chunks. etrans; [apply hush_free_chunks|apply hush_set_job]. Qed.
Lemma hush_chunks_move n b r s : hush s (chunks_move n b r s).
Proof.
  revert s. induction n as [|n IH]; intros s; [done|]. simpl. destruct (0 <=? _); [|done]. etrans; [|apply IH]. hush_refl.
Qed.
Lemma hush_done_chunks jid j err s : hush s (done_chunks jid j err s).
Proof.
  unfold done_chunks. destruct (_ =? _).
  - etrans; [|apply hush_free_job_chunks]. destruct (j_render j); [|done]. etrans; [|apply hush_chunks_move]. apply hush_set_job.
  - apply hush_if; [apply hush_free_job_chunks|done].
Qed.
Lemma hush_unlink_bin j s : hush s (unlink_bin j s).
Proof. unfold unlink_bin. destruct (j_bin j); [apply hush_set_job|done]. Qed.
Lemma hush_job_done jid err now s : hush s (job_done jid err now s).
Proof.
  unfold job_done. destruct (job s jid) as [j|]; [|done]. cbv zeta. set (s1 := done_leave jid j now s). assert (hush s s1) as H1.
  { unfold s1, done_leave. cbv zeta. destruct (bool_decide _); [destruct (is_hw_queue _); hush_refl|destruct (_ =? 0); hush_refl]. }
  clearbody s1. set (s2 := done_count _ _ s1). assert (hush s1 s2) as H2 by hush_refl. clearbody s2.
  set (s3 := done_chunks _ _ _ s2). assert (hush s2 s3) as H3 by apply hush_done_chunks. clearbody s3.
  set (s4 := unlink_bin j s3). assert (hush s3 s4) as H4 by apply hush_unlink_bin. clearbody s4.
  set (s5 := drop_pins j s4). assert (hush s4 s5) as H5 by apply hush_drop_pins. clearbody s5.
  transitivity s5; [by repeat (etrans; [eassumption|])|]. unfold v3da_fence_complete. destruct (complete_seq _ _ _). hush_refl.
Qed.
Lemma hush_job_discard jid s : hush s (job_discard jid s).
Proof.
  unfold job_discard. destruct (job s jid) as [j|]; [|done]. cbv zeta.
  set (s1 := match j_render j with Some _ => _ | None => _ end). assert (hush s s1) as H1.
  { unfold s1. etrans; [apply (hush_unlink_bin j)|]. destruct (j_render j); [apply hush_set_job|done]. }
  clearbody s1. set (s2 := if _ : bool then _ else s1). assert (hush s1 s2) as H2 by (apply hush_if; [apply hush_free_chunks|done]).
  clearbody s2. transitivity (drop_pins j s2); [|hush_refl]. etrans; [exact H1|]. etrans; [exact H2|apply hush_drop_pins].
Qed.
Lemma hush_stage s : hush s (ovf_stage s).
Proof.
  unfold ovf_stage. cbv zeta. destruct (_ || _); [done|]. destruct (chunk_alloc _) as [i o]. destruct (i <? 0); hush_refl.
Qed.
Lemma hush_grant_loop n b s : hush s (ovf_grant_loop n b s).
Proof.
  revert s. induction n as [|n IH]; intros s; [done|]. simpl. unfold ovf_grant_direct.
  destruct (chunk_alloc _) as [idx o]. destruct (idx <? 0); [hush_refl|]. etrans; [|apply IH]. hush_refl.
Qed.
Lemma hush_service s : hush s (ovf_service s).
Proof.
  unfold ovf_service. cbv zeta. etrans; [|apply hush_stage]. assert (hush s (ovf_consume s)) as H1.
  { unfold ovf_consume. cbv zeta. destruct (_ && _); [|hush_refl].
    destruct (_ =? ov_staged _); (destruct (active _ _); [hush_refl|etrans; [|apply hush_free_chunks]; hush_refl]). }
  etrans; [exact H1|]. generalize (ovf_consume s). clear H1. intros s1. destruct (active s _); [|hush_refl].
  etrans; [|apply hush_grant_loop]. destruct (negb _); hush_refl.
Qed.
Lemma hush_hw_reset s : hush s (v3da_hw_reset s).2.
Proof. unfold v3da_hw_reset. cbv zeta. cbn [snd]. destruct (hw_irq_on _); hush_refl. Qed.
Lemma hush_reset s : hush s (wedge_reset s).
Proof.
  pose proof (hush_hw_reset (s <| srv_st ; wedges ::= λ n, u32 (n + 1) |>)) as [Er Ew]. revert Er Ew.
  unfold wedge_reset. cbv zeta. generalize (v3da_hw_reset (s <| srv_st ; wedges ::= λ n, u32 (n + 1) |>)).2. intros s1 Er Ew.
  split; destruct (0 <=? _); (exact Er || exact Ew).
Qed.
Lemma hush_hw_service s : hush s (hw_service s).2.
Proof.
  unfold hw_service, rd_core, rd_hub. cbv zeta iota beta. cbn [snd].
  set (s1 := if negb _ then csd_done_stamp _ _ else _). assert (hush s s1) as H1.
  { unfold s1, csd_done_stamp. destruct (negb _); [destruct (_ && _); hush_refl|hush_refl]. }
  clearbody s1. set (s2 := if negb _ then emit _ _ else s1). assert (hush s1 s2) as H2.
  { unfold s2, mmu_ack. destruct (negb _); [destruct (has _ _); hush_refl|done]. }
  clearbody s2. etrans; [exact H1|]. etrans; [exact H2|]. unfold fold_events, outomem_service. repeat case_match; hush_refl.
Qed.

(** ** Everything the scheduler does *)
Definition talk (R : list Z) (W : wait_table) (s : v3da_srv_t) : Prop := replies s = R ∧ srv_wt s = W.
Lemma talk_hush R W s s' : hush s s' → talk R W s → talk R W s'.
Proof. unfold hush, talk. intros [-> ->]. done. Qed.
Lemma still_hush s s' : still s s' → hush s s'.
Proof. intros []. by split. Qed.

#[export] Instance talk_kept R W : Kept (talk R W).
Proof.
  constructor.
  - intros s s' H. by apply talk_hush, still_hush.
  - intros jid j now s _ _ _. apply talk_hush. unfold job_start. cbv zeta. destruct (is_hw_queue _); hush_refl.
  - intros jid err now s _. apply talk_hush, hush_job_done.
  - intros s. apply talk_hush, hush_stage.
  - intros s _. apply talk_hush, hush_service.
  - intros s _. apply talk_hush, hush_reset.
  - intros s. apply talk_hush, hush_hw_service.
  - intros s. apply talk_hush, hush_poll.
Qed.

#[export] Instance talk_submitted R W : Submitted (λ _, talk R W).
Proof.
  split.
  - apply talk_kept.
  - intros _ s s' H. by apply talk_hush, still_hush.
  - intros hs s s' _ _ Hp. apply talk_hush. unfold v3da_bo_pin_for_job in Hp. destruct (forallb _ _); [|done].
    apply (f_equal snd) in Hp. cbn [snd] in Hp. rewrite <- Hp. apply hush_foldl. clear. intros s h. destruct (v3da_bo_find s h); [hush_refl|done].
  - intros hs s. apply talk_hush, hush_unpin.
  - intros _ ci qu now s jid s' Hn _. apply talk_hush. revert Hn. unfold job_new. cbv zeta.
    destruct (env_malloc _); [|done]. cbn [negb]. intros Hn. apply (f_equal snd) in Hn. cbn [snd] in Hn. rewrite <- Hn. hush_refl.
  - intros _ jid j s _ _. by apply talk_hush.
  - intros _ f l d s _ _ _. by apply talk_hush.
  - intros _ f l s _ _. by apply talk_hush.
  - intros hs jid j s _ _. by apply talk_hush.
  - intros hs f g s _. apply talk_hush, hush_foldl. clear. intros s h. destruct (bo_lookup s h); [destruct (_ <? _); [hush_refl|done]|done].
  - intros jid s. apply talk_hush, hush_job_discard.
Qed.

Lemma hush_submit ci op hdr data size s : sched_inv [] s → submit_ok data s → hush s (v3da_submit ci op hdr data size s).2.
Proof. intros Hi Ho. by apply (kept_submit (λ _, talk (replies s) (srv_wt s))). Qed.
Lemma hush_submit_nop ci d s : sched_inv [] s → hush s (v3da_submit_nop ci d s).2.
Proof. intros Hi. by apply (kept_submit_nop (λ _, talk (replies s) (srv_wt s))). Qed.
Lemma hush_jobs_gone c s : sched_inv [] s → hush s (v3da_jobs_client_gone c s).
Proof. intros Hi. by apply (kept_jobs_client_gone (λ _, talk (replies s) (srv_wt s))). Qed.
Lemma hush_sched_run s : sched_inv [] s → hush s (v3da_sched_run s).
Proof. intros Hi. by apply (kept_sched_run (talk (replies s) (srv_wt s))). Qed.
Lemma hush_event_core s : sched_inv [] s → hush s (event_core s).
Proof. intros Hi. by apply (kept_event_core (talk (replies s) (srv_wt s))). Qed.

(** ** Requests on objects *)
Lemma hush_close c h s : hush s (v3da_bo_close c h s).2.
Proof.
  unfold v3da_bo_close. destruct (v3da_bo_find s h) as [i|]; [|done]. cbv zeta.
  destruct (has _ _); [|destruct (negb _); [|done]]; cbn [snd]; (etrans; [|apply hush_poll]; etrans; [|apply hush_unref]; hush_refl).
Qed.
Lemma hush_client_gone c s : hush s (v3da_bo_client_gone c s).
Proof.
  unfold v3da_bo_client_gone. etrans; [|apply hush_poll]. apply hush_for. intros i s'.
  unfold client_gone_one. cbv zeta. destruct (_ || _); [done|]. set (s1 := if _ =? c then _ else s').
  assert (hush s' s1) as H1 by (unfold s1; destruct (_ =? c); [etrans; [|apply hush_unref]; hush_refl|done]). clearbody s1.
  destruct (_ && _); [|exact H1]. etrans; [exact H1|]. etrans; [|apply hush_unref]. hush_refl.
Qed.
Lemma hush_slot s slot s' : bo_slot s = Some (slot, s') → hush s s'.
Proof.
  unfold bo_slot. destruct (find_first _ _ _); [intros [= _ <-]; done|]. destruct (_ <=? _); [done|]. intros [= _ <-]. hush_refl.
Qed.
Lemma hush_alloc pages s : hush s (alloc_va pages s).2.
Proof. unfold alloc_va. destruct (v3da_hw_va_alloc (srv_hw s) pages). hush_refl. Qed.
Lemma omap_none {A B} (f : A → option B) l : Forall (λ x, f x = None) l → omap f l = [].
Proof. induction 1 as [|x l Hx _ IH]; [done|]. simpl. by rewrite Hx. Qed.
Lemma hush_block_get pages c w s : hush s (block_get pages c w s).2.
Proof.
  assert (∀ b s, hush s (block_get_fresh b c s).2) as Hf.
  { intros b s0. unfold block_get_fresh. cbv zeta. destruct (block_map _ _ _) as [[[? ?] ?]|]; hush_refl. }
  unfold block_get. cbv zeta. destruct (_ ≫= _) as [[i b]|]; [hush_refl|]. destruct w; [|apply Hf].
  destruct (v3da_lowmem_map _ _ _ _) as [[kept res] rej].
  match goal with |- context [emit_all ?l ?x] => set (s0 := x); set (es := l) end.
  assert (hush s (emit_all es s0)) as H0.
  { split; [|reflexivity]. change (omap reply_of (io_log (srv_io s) ++ es) = omap reply_of (io_log (srv_io s))).
    rewrite omap_app, (omap_none reply_of es); [by rewrite app_nil_r|]. unfold es. apply Forall_forall. intros e He.
    apply list_elem_of_fmap in He as (x & -> & _). done. }
  set (s1 := emit_all es s0) in *. clearbody s1. destruct kept; (etrans; [exact H0|]); [hush_refl|].
  etrans; [|apply Hf]. hush_refl.
Qed.

Lemma hush_create c size flags s : hush s (v3da_bo_create c size flags s).2.
Proof.
  unfold v3da_bo_create. cbv zeta. set (scan := if has flags V3DA_BO_SCANOUT then _ else _). clearbody scan.
  set (cached := match scan with Some _ => false | None => _ end). clearbody cached.
  destruct (_ <? size); [done|]. set (pages := Z.max 1 _). clearbody pages.
  destruct (bo_slot s) as [[slot s1]|] eqn:Hs; [|done]. pose proof (hush_slot _ _ _ Hs) as H1. clear Hs.
  set (w := _ && _ && _). clearbody w. pose proof (hush_block_get pages cached w s1) as H2.
  destruct (block_get pages cached w s1) as [[[[cpu pa]|] pl] s2]; cbn [snd] in H2 |- *.
  2:{ etrans; [exact H1|]. etrans; [exact H2|]. destruct (has _ _); [hush_refl|done]. }
  pose proof (hush_alloc pages s2) as H3. destruct (alloc_va pages s2) as [va s3]. cbn [snd] in H3.
  destruct (va =? 0); cbn [snd].
  { etrans; [exact H1|]. etrans; [exact H2|]. etrans; [exact H3|apply hush_block_put]. }
  etrans; [exact H1|]. etrans; [exact H2|]. etrans; [exact H3|]. unfold low_account.
  destruct scan; destruct (has flags V3DA_BO_LOWMEM); try hush_refl; destruct (w && _); hush_refl.
Qed.
Lemma hush_import_v3dbuf c rq s : hush s (import_v3dbuf c rq s).2.
Proof.
  unfold import_v3dbuf. cbv zeta. destruct (negb _); [done|]. destruct (_ || _); [done|].
  destruct (if _ <? bi_id rq then _ else _) as [i|]; [|done]. destruct (negb _); [done|]. destruct (_ || _); [done|]. cbn [snd].
  destruct (bo_held_by _ _); [done|hush_refl].
Qed.
Lemma hush_import_commit c rq gen m s : hush s (import_commit c rq gen m s).2.
Proof.
  unfold import_commit. cbv zeta. destruct (_ || _); [done|]. destruct (import_find _ _ _ _); [done|].
  destruct (bo_slot s) as [[slot s']|]; [|done]. pose proof (hush_alloc (im_pages m) s) as H1.
  destruct (alloc_va (im_pages m) s) as [va s1]. cbn [snd] in H1. destruct (va =? 0); [exact H1|]. cbn [snd].
  etrans; [exact H1|]. hush_refl.
Qed.
Lemma hush_export c h s : hush s (v3da_bo_export c h s).2.
Proof.
  unfold v3da_bo_export. destruct (v3da_bo_find s h) as [i|]; [|done]. cbv zeta. destruct (negb _); [done|].
  destruct (_ || _); [done|]. destruct (_ =? 0); [done|]. destruct (bo_exported _); [done|]. destruct (negb _); hush_refl.
Qed.
Lemma hush_bufns m s : hush s (bufns_handle m s).2.
Proof.
  destruct m; simpl; try done; repeat (case_match; try done); cbn [snd]; try hush_refl.
  etrans; [|apply hush_poll]. etrans; [|apply hush_unref]. hush_refl.
Qed.

(** ** The other requests *)
Lemma hush_attach ci rq s :
  sched_inv [] s → (∀ l i, v3da_bo_sync_targets (c_id (srv_client s ci)) rq V3DA_MAX_CLIENTS s = inr l → i ∈ l → 0 ≤ bo_handle (srv_bos s i)) →
  hush s (v3da_bo_attach_fence ci rq s).2.
Proof. intros Hi Ht. by apply (kept_attach_fence (λ _, talk (replies s) (srv_wt s))). Qed.
Lemma hush_set_mode rq s : sched_inv [] s → hush s (v3da_set_mode rq s).2.
Proof.
  intros Hi. unfold v3da_set_mode. cbv zeta. destruct (_ && _); [done|].
  set (s1 := if has (mq_set rq) V3DA_SET_MODE then _ else s).
  assert (hush s s1 ∧ same_sched s s1) as [H1 Q1] by (unfold s1; destruct (has _ _); split; (done || hush_refl || same_sched_refl)). clearbody s1.
  destruct (_ && _); [exact H1|]. set (s2 := if has (mq_set rq) V3DA_SET_KNOBS then _ else s1).
  assert (hush s1 s2 ∧ same_sched s1 s2) as [H2 Q2] by (unfold s2; destruct (has _ _); split; (done || hush_refl || same_sched_refl)). clearbody s2.
  cbn [snd]. destruct (negb _); [|by etrans]. etrans; [exact H1|]. etrans; [exact H2|]. apply hush_sched_run.
  apply (sched_inv_same _ s); [by etrans|done].
Qed.
Lemma hush_set_client i f s : hush s (set_client i f s).
Proof. split; reflexivity. Qed.
Lemma hush_sync_kick ci i f s : hush s (v3da_kick_event_thread (set_sync ci i f s)).
Proof. split; reflexivity. Qed.
Lemma hush_syncobj_create ci fl s : hush s (v3da_syncobj_create ci fl s).2.
Proof. unfold v3da_syncobj_create. destruct (find_first _ _ _); [apply hush_set_client|done]. Qed.
Lemma hush_syncobj_destroy ci h s : hush s (v3da_syncobj_destroy ci h s).2.
Proof. unfold v3da_syncobj_destroy. destruct (v3da_syncobj_get _ _ _); [apply hush_sync_kick|done]. Qed.
Lemma hush_syncobj_reset ci h s : hush s (v3da_syncobj_reset ci h s).2.
Proof. unfold v3da_syncobj_reset. destruct (v3da_syncobj_get _ _ _); [apply hush_set_client|done]. Qed.
Lemma hush_syncobj_signal ci h s : hush s (v3da_syncobj_signal ci h s).2.
Proof. unfold v3da_syncobj_signal. destruct (v3da_syncobj_get _ _ _); [apply hush_sync_kick|done]. Qed.
Lemma hush_syncobj_import ci h f s : hush s (v3da_syncobj_import ci h f s).2.
Proof.
  unfold v3da_syncobj_import. destruct (v3da_syncobj_get _ _ _); [|done]. destruct (_ =? 0); [apply hush_sync_kick|].
  destruct (v3da_fence_valid _ _); [apply hush_sync_kick|done].
Qed.
Lemma hush_scanout_info rq s : hush s (v3da_scanout_info rq s).2.
Proof. unfold v3da_scanout_info. destruct (_ || _); [done|]. cbv zeta. destruct (_ && _); [done|]. destruct (env_vcprop _). hush_refl. Qed.
Lemma hush_flip rq s : hush s (v3da_flip rq s).2.
Proof.
  unfold v3da_flip, pan. cbv zeta. destruct (_ =? 0); [done|]. destruct (_ && _); [done|]. destruct (_ && _); [destruct (env_vcprop _); hush_refl|].
  destruct (_ <=? _); [done|]. hush_refl.
Qed.
Lemma hush_qstats rq s : hush s (v3da_qstats rq s).2.
Proof.
  unfold v3da_qstats, v3da_now_us. cbv zeta. set (now := env_now (cursor s)). set (s1 := acct now (tick s)).
  assert (hush s s1) as H1 by hush_refl. clearbody s1. assert (hush s (if negb (qr_reset rq =? 0) then qstats_reset now s1 else s1)) as H2.
  { apply hush_if; [|done]. etrans; [exact H1|]. unfold qstats_reset. cbv zeta. set (s2 := for_ 0 V3DA_Q_COUNT _ s1).
    assert (hush s1 s2) as H2 by (apply hush_for; intros; hush_refl). clearbody s2. etrans; [exact H2|]. hush_refl. }
  destruct (qr_which rq =? _); [exact H2|]. destruct (qr_which rq <? _); [exact H2|exact H1].
Qed.
Lemma hush_irq_disable s : hush s (v3da_hw_irq_disable s).
Proof. unfold v3da_hw_irq_disable. cbv zeta. destruct (hw_irq_on _); hush_refl. Qed.
Lemma hush_irq_mode on s : hush s (irq_mode on s).2.
Proof.
  unfold irq_mode. destruct (gpu_busy s); [done|]. destruct (negb _).
  - assert (hush s (v3da_hw_irq_enable s).2) as H.
    { unfold v3da_hw_irq_enable. destruct (hw_irq_on _); [done|]. cbv zeta. destruct (_ <? 0); hush_refl. }
    destruct (v3da_hw_irq_enable s) as [rc s1]. cbn [snd] in *. etrans; [exact H|]. destruct (0 <=? rc); [hush_refl|done].
  - cbn [snd]. etrans; [apply hush_irq_disable|]. hush_refl.
Qed.
Lemma hush_last_fence c rq s : hush s (v3da_bo_last_fence c rq s).2.
Proof.
  unfold v3da_bo_last_fence. destruct (v3da_bo_sync_targets _ _ _ _); [done|]. destruct (cand_collect _ _). cbn [snd].
  destruct (negb _); hush_refl.
Qed.
Lemma hush_checksum h off len s : hush s (v3da_bo_checksum h off len s).2.
Proof. unfold v3da_bo_checksum. destruct (v3da_bo_find _ _); [|done]. cbv zeta. destruct (_ || _); [done|hush_refl]. Qed.
Lemma hush_client_open pid s : hush s (client_open pid s).2.
Proof.
  unfold client_open. destruct (find_first _ _ _) as [i|]; [|done]. cbn [snd]. set (s1 := set_client i _ s).
  assert (hush s (v3da_slot_assign i s1)) as H; [|exact H].
  unfold v3da_slot_assign. cbv zeta. set (s2 := for_ 0 V3DA_Q_COUNT _ s1). assert (hush s1 s2) as H by (apply hush_for; intros; hush_refl).
  clearbody s2. transitivity s1; [hush_refl|]. etrans; [exact H|]. hush_refl.
Qed.
Lemma hush_hello id proto fp_pa s : hush s (client_hello id proto fp_pa s).2.
Proof. unfold client_hello. destruct (client_get s id); [|done]. destruct (_ || _); [done|apply hush_set_client]. Qed.
Lemma hush_irq s : hush s (v3da_irq_handler s).2.
Proof.
  unfold v3da_irq_handler. cbv zeta. set (s0 := s <| srv_hw ; hw_irq_count ::= _ |>). transitivity s0; [hush_refl|]. clearbody s0.
  pose proof (hush_hw_service s0) as H1. destruct (hw_service s0) as [[core hub] s1]. cbn [snd] in H1. etrans; [exact H1|].
  set (s2 := if _ =? 0 then _ else s1). assert (hush s1 s2) as H2 by (unfold s2; destruct (_ =? 0); hush_refl). clearbody s2.
  etrans; [exact H2|]. destruct (_ && _); [hush_refl|]. destruct (_ <? _); hush_refl.
Qed.
End env.
