(* ===== verification/Once.v ===== *)
(** Requests are neither lost nor answered twice: what a message, a turn of the event thread
    and an interrupt do to the requests answered and parked. *)
From S2P Require Import Prelude Proto State Csdprof Lowmem Hw Fence Bo BoInv BoMap BoShare BoSteps BoReach BoSpec.
From S2P Require Import Ovf Waits Jobs Submit Present Events Main SchedInv SchedKick SchedRun SchedReach SchedSpec WaitSpec.
From S2P Require Import Kept OvfInv OvfSteps OvfKept Pins PinKept Closure Closed Aside Clients Server Talk.

Definition parked (s : v3da_srv_t) : list Z := w_rid <$> waits (srv_wt s).
(** The requests answered, to be answered by the caller, and parked. *)
Definition books (answer : list v3da_wait_t) (s : v3da_srv_t) : list Z := replies s ++ (w_rid <$> answer) ++ parked s.

Lemma rid_inj l w w' : NoDup (w_rid <$> l) → w ∈ l → w' ∈ l → w_rid w = w_rid w' → w = w'.
Proof.
  intros Hnd [i Hi]%list_elem_of_lookup [k Hk]%list_elem_of_lookup Hr.
  assert (i = k) as ->; [|congruence]. apply (NoDup_lookup _ _ _ (w_rid w) Hnd); rewrite list_lookup_fmap; [by rewrite Hi|by rewrite Hk, Hr].
Qed.
Lemma hush_books s s' a : hush s s' → books a s' = books a s.
Proof. unfold hush, books, parked. by intros [-> ->]. Qed.
Lemma hush_ok s s' : hush s s' → waits_wf s → waits_wf s'.
Proof. intros [_ Ew] []. constructor; by rewrite Ew. Qed.

(** ** Claiming *)
(** A step that claims nobody, or one request, says nothing. *)
Lemma wait_claim_said w e u st : replies (wait_claim w e u st).1 = replies st.1.
Proof. unfold wait_claim, wait_unlink. cbv zeta. cbn [fst]. by destruct (_ && _). Qed.

Lemma answers_rids V l : (w_rid <$> answers V l) ++ (w_rid <$> List.filter (kept V) l) ≡ₚ w_rid <$> l.
Proof.
  induction l as [|w l IH]; [done|]. rewrite answers_cons. simpl. unfold kept at 1. destruct (V w) as [|e u]; simpl.
  - by rewrite <- Permutation_middle, IH.
  - by rewrite IH.
Qed.

(** A loop over the list that claims what [V] says moves them to the answers. *)
Lemma claim_loop_books V (f : v3da_srv_t * list v3da_wait_t → v3da_wait_t → v3da_srv_t * list v3da_wait_t) s a :
  (∀ st w, replies (f st w).1 = replies st.1) →
  (∀ st w, same_view s st.1 → match V w with Keep => f st w = st | Answer e u => claims s w e u st (f st w) end) →
  waits_wf s → let st' := foldl f (s, a) (waits (srv_wt s)) in books st'.2 st'.1 ≡ₚ books a s ∧ waits_wf st'.1.
Proof.
  intros Hr Hf Hwf. destruct (claim_loop_wf s V f Hf a s) as (_ & Hw & Ha & Hwf'); [done|done|]. cbv zeta. split; [|done].
  assert (∀ l st, replies (foldl f st l).1 = replies st.1) as Hre.
  { induction l as [|w l IH]; intros st; [done|]. simpl. by rewrite IH. }
  unfold books, parked. rewrite Ha, Hw, Hre. cbn [fst]. f_equiv. rewrite <- (answers_rids V (waits (srv_wt s))).
  rewrite <- (Permutation_rev (answers V _)), fmap_app. solve_Permutation.
Qed.

Section env.
Context `{E : Env}.

Lemma scan_books now s a : waits_wf s →
  books (waits_scan now s a).2 (waits_scan now s a).1 ≡ₚ books a s ∧ waits_wf (waits_scan now s a).1.
Proof.
  apply (claim_loop_books (wait_verdict now s)); [|apply scan_one_claims]. intros st w. unfold scan_one. destruct (wait_eval st.1 w) as [rc u].
  destruct (0 <? rc); [apply wait_claim_said|]. destruct (rc <? 0); [apply wait_claim_said|]. destruct (_ <=? now); [|done].
  by rewrite wait_claim_said.
Qed.
Lemma gone_books c s a : waits_wf s →
  books (v3da_waits_client_gone c s a).2 (v3da_waits_client_gone c s a).1 ≡ₚ books a s ∧ waits_wf (v3da_waits_client_gone c s a).1.
Proof.
  apply (claim_loop_books (λ w, if w_client w =? c then Answer (- EPIPE) R_none else Keep)).
  - intros st w. destruct (_ =? _); [apply wait_claim_said|done].
  - intros [s1 a1] w Hv. destruct (_ =? _); [|done]. by apply (wait_claim_claims s w _ _ (s1, a1)).
Qed.
Lemma all_books err s a : waits_wf s →
  books (v3da_waits_all err s a).2 (v3da_waits_all err s a).1 ≡ₚ books a s ∧ waits_wf (v3da_waits_all err s a).1.
Proof.
  apply (claim_loop_books (λ _, Answer err R_none)); [intros st w; apply wait_claim_said|].
  intros [s1 a1] w Hv. by apply (wait_claim_claims s w _ _ (s1, a1)).
Qed.

(** ** Answering and parking *)
Lemma answer_said a s : replies (v3da_waits_answer a s) = replies s ++ (w_rid <$> a) ∧ srv_wt (v3da_waits_answer a s) = srv_wt s.
Proof.
  unfold v3da_waits_answer. revert s. induction a as [|w a IH]; intros s; simpl; [by rewrite app_nil_r|].
  match goal with |- context [foldl _ ?x a] => set (s1 := x); destruct (IH s1) as [-> ->] end. split; [|done].
  unfold replies, s1, emit. cbn. rewrite omap_app. cbn. by rewrite <- app_assoc.
Qed.
Lemma answer_view a s : same_view s (v3da_waits_answer a s).
Proof.
  unfold v3da_waits_answer. revert s. induction a as [|w a IH]; intros s; simpl; [done|]. etrans; [|apply IH]. done.
Qed.
Lemma answer_books a s : waits_wf s → books [] (v3da_waits_answer a s) ≡ₚ books a s ∧ waits_wf (v3da_waits_answer a s).
Proof.
  destruct (answer_said a s) as [Er Ew]. intros []. unfold books, parked. rewrite Er, Ew. split; [by rewrite <- app_assoc|].
  constructor; by rewrite Ew.
Qed.

Definition asked_of (r : option v3da_resp_t) (rid : Z) : list Z := match r with Some _ => [] | None => [rid] end.
Lemma respond_books port rid r s : waits_wf s →
  asked_of r rid ++ books [] (respond port rid r s) ≡ₚ rid :: books [] s ∧ waits_wf (respond port rid r s).
Proof.
  destruct r as [r|]; [|done]. intros Hok. split; [|by destruct Hok].
  assert (replies (respond port rid (Some r) s) = replies s ++ [rid]) as Er by (unfold replies; simpl; by rewrite omap_app).
  unfold books. rewrite Er. change (parked (respond port rid (Some r) s)) with (parked s). simpl. solve_Permutation.
Qed.

Lemma park_books ci kind rid fs hs n all fsub t s a :
  waits_wf s → let r := v3da_wait_park ci kind rid fs hs n all fsub t s in
  books a r.2 ≡ₚ (if r.1.1 =? 0 then [rid] else []) ++ books a s ∧ waits_wf r.2.
Proof.
  intros Hok. cbv zeta. unfold v3da_wait_park, v3da_now_us. destruct (_ <? n); [done|]. cbv zeta. destruct (negb _); [by destruct Hok|].
  destruct (wait_eval _ _) as [rc u]. destruct (Z.eqb_spec rc 0) as [->|Hrc]; cbn [negb].
  - destruct (t =? 0); [by destruct Hok|]. cbn [fst snd]. rewrite Z.eqb_refl. destruct Hok as [Hnd Hnew Hc].
    split.
    + unfold books, parked. change (replies s ++ (w_rid <$> a) ++ rid :: (w_rid <$> waits (srv_wt s)) ≡ₚ [rid] ++ replies s ++ (w_rid <$> a) ++ (w_rid <$> waits (srv_wt s))).
      solve_Permutation.
    + constructor; cbn.
      * apply NoDup_cons. split; [|done]. intros Hin. apply list_elem_of_fmap in Hin as (x & Hx & Hin).
        rewrite Forall_forall in Hnew. specialize (Hnew x Hin). lia.
      * apply Forall_cons. split; [cbn; lia|]. eapply Forall_impl; [exact Hnew|]. intros x Hx. cbn in *. lia.
      * rewrite Hc, u32_add. f_equal. lia.
  - assert (((if 0 <? rc then 1 else rc) =? 0) = false) as Hz by (destruct (Z.ltb_spec 0 rc); lia). cbn [fst snd]. rewrite Hz. by destruct Hok.
Qed.

(** ** Requests *)
Lemma hush_raw rid s a (o : outcome) : hush s o.1.2 → o.2 = a → o.1.1 ≠ None → waits_wf s →
  books o.2 o.1.2 ≡ₚ asked_of o.1.1 rid ++ books a s ∧ waits_wf o.1.2.
Proof.
  destruct o as [[[r|] s'] a']; cbn [fst snd asked_of]; [|done]. intros Hh -> _ Hok. rewrite (hush_books s s' a Hh). split; [done|].
  by apply (hush_ok s).
Qed.

Lemma park_reply_books ci kind rid fs hs n all fsub t s a :
  waits_wf s → let o := park_reply (v3da_wait_park ci kind rid fs hs n all fsub t s) a in
  books o.2 o.1.2 ≡ₚ asked_of o.1.1 rid ++ books a s ∧ waits_wf o.1.2.
Proof.
  intros Hok. pose proof (park_books ci kind rid fs hs n all fsub t s a Hok) as [H1 H2]. cbv zeta. revert H1 H2.
  destruct (v3da_wait_park ci kind rid fs hs n all fsub t s) as [[rc u] s']. cbn [fst snd]. unfold park_reply.
  destruct (rc =? 0); [done|]. done.
Qed.

Lemma raw_books extra ci rid rq a s :
  0 ≤ ci < V3DA_MAX_CLIENTS → req_ok rq s → srv_inv extra s → waits_wf s →
  let o := handle_raw ci rid rq s a in
  books o.2 o.1.2 ≡ₚ asked_of o.1.1 rid ++ books a s ∧ waits_wf o.1.2.
Proof.
  intros Hci Hrq Hinv Hok. cbv zeta. pose proof (proj1 Hinv) as Hs.
  assert (∀ r : Z * v3da_resp_u * v3da_srv_t, hush s r.2 →
    let o : outcome := let '(rc, u, s) := r in (Some (mkResp rc u), s, a) in
    books o.2 o.1.2 ≡ₚ asked_of o.1.1 rid ++ books a s ∧ waits_wf o.1.2) as Hre.
  { intros [[rc u] s'] Hh. by apply (hush_raw rid s a (Some (mkResp rc u), s', a)). }
  assert (∀ r : Z * v3da_srv_t, hush s r.2 →
    let o : outcome := (Some (mkResp r.1 R_none), r.2, a) in
    books o.2 o.1.2 ≡ₚ asked_of o.1.1 rid ++ books a s ∧ waits_wf o.1.2) as Hp.
  { intros r Hh. by apply (hush_raw rid s a (Some (mkResp r.1 R_none), r.2, a)). }
  assert (∀ rs, let o : outcome := (Some rs, s, a) in books o.2 o.1.2 ≡ₚ asked_of o.1.1 rid ++ books a s ∧ waits_wf o.1.2) as H0 by done.
  destruct rq; cbn [req_ok] in Hrq; unfold handle_raw.
  - apply H0.
  - apply H0.
  - apply Hre, hush_create.
  - apply (Hp (v3da_bo_close (c_id (srv_client s ci)) handle s)), hush_close.
  - apply H0.
  - apply H0.
  - apply Hre, hush_export.
  - apply Hre, hush_last_fence.
  - apply Hre, hush_attach; [done|]. destruct Hrq as [H1 H2], Hinv as (_ & _ & _ & Hb & _). intros l i Hl Hin.
    by apply (sync_target_handle extra (c_id (srv_client s ci)) rq V3DA_MAX_CLIENTS l).
  - destruct (v3da_bo_find s handle); [by apply park_reply_books|apply H0].
  - apply Hre. by apply hush_submit_nop.
  - apply Hre. by apply hush_submit.
  - apply (Hp (v3da_syncobj_import ci handle f s)), hush_syncobj_import.
  - apply Hre, hush_scanout_info.
  - apply Hre, hush_flip.
  - apply Hre. by apply hush_set_mode.
  - apply Hre, hush_qstats.
  - destruct (negb _); [apply H0|by apply park_reply_books].
  - pose proof (hush_syncobj_create ci flags s) as Hc. destruct (v3da_syncobj_create ci flags s) as [[rc h] s2].
    by apply (Hre (rc, R_syncobj (mkSyncobjResp h V3DA_SYNC_EMPTY 0 fence0), s2)).
  - apply (Hp (v3da_syncobj_destroy ci handle s)), hush_syncobj_destroy.
  - apply (Hp (v3da_syncobj_reset ci handle s)), hush_syncobj_reset.
  - apply (Hp (v3da_syncobj_signal ci handle s)), hush_syncobj_signal.
  - apply H0.
  - destruct (negb _); [apply H0|by apply park_reply_books].
  - pose proof (hush_irq_mode on s) as Hc. destruct (irq_mode on s) as [[rc u] s2]. apply (Hre (rc, u, v3da_kick_event_thread s2)). by split; destruct Hc.
  - apply Hre, hush_checksum.
  - apply H0.
  - unfold dbg_quit. destruct (negb _); [apply H0|]. pose proof (all_books (- ENODEV) s a Hok) as [Hb Ho].
    destruct (v3da_waits_all (- ENODEV) s a) as [s1 a1]. cbn [fst snd] in *. cbn [asked_of app].
    match goal with |- books _ ?x ≡ₚ _ ∧ _ => assert (hush s1 x) as Hh end.
    { transitivity (v3da_hw_irq_disable s1); [apply hush_irq_disable|]. hush_refl. }
    rewrite (hush_books _ _ _ Hh). split; [done|by apply (hush_ok s1)].
  - apply H0.
Qed.

(** ** Messages *)
(** Does an import drop the lock to map the exporter's name? *)
Definition msg_unlocks (msg : srv_msg) (s : v3da_srv_t) : bool :=
  match msg with
  | M_import oid rq _ _ =>
      let id := u32 oid in
      negb (negb (bi_pad rq =? 0) || (id <? 1) || (V3DA_MAX_CLIENTS <? id)) &&
      negb (bi_ns rq =? V3DA_IMPORT_NS_V3DBUF) &&
      negb (negb (bi_ns rq =? V3DA_IMPORT_NS_KMSBUF) || (V3DA_CACHE_UNCACHED <? bi_cache rq)) &&
      match import_check id rq s with I_go _ => true | I_done _ _ => false end
  | _ => false
  end.

Lemma import_hush id rq ie between s :
  hush (if msg_unlocks (M_import id rq ie between) s then between s else s) (v3da_bo_import (u32 id) rq ie between s).2.
Proof.
  unfold v3da_bo_import, msg_unlocks. cbv zeta. destruct (_ || _); [done|]. cbn [negb andb].
  destruct (_ =? V3DA_IMPORT_NS_V3DBUF); [apply hush_import_v3dbuf|]. cbn [negb andb]. destruct (_ || _); [done|]. cbn [negb andb].
  destruct (import_check (u32 id) rq s) as [|gen]; [done|]. destruct (import_map rq ie) as [rc|m]; [done|].
  pose proof (hush_import_commit (u32 id) rq gen m (between s)) as H. destruct (import_commit (u32 id) rq gen m (between s)) as [[rc u] s2]. cbn [snd] in *.
  etrans; [exact H|]. destruct (negb _); [hush_refl|done].
Qed.

Lemma hush_client_free ci s : hush s (set_client ci (λ c, c <| c_used := false |>) s <| srv_cl ; nclients ::= λ n, u32 (n - 1) |>).
Proof. split; reflexivity. Qed.
Lemma close_books extra id s : srv_inv extra s → waits_wf s →
  books (client_close id s []).2 (client_close id s []).1 ≡ₚ books [] s ∧ waits_wf (client_close id s []).1.
Proof.
  intros H Hok. unfold client_close. destruct (client_get s id) as [ci|] eqn:Hg; [|done].
  generalize (c_id (srv_client s ci)). intros cid'. pose proof (gone_books cid' s [] Hok) as [Hb Ho].
  pose proof (srv_calm extra s _ (calm_waits_gone cid' s []) H) as [Hs _].
  destruct (v3da_waits_client_gone cid' s []) as [s1 a1]. cbn [fst snd] in *. cbv zeta. cbn [fst snd].
  match goal with |- books _ ?x ≡ₚ _ ∧ _ => assert (hush s1 x) as Hh end.
  { pose proof (hush_jobs_gone cid' s1 Hs) as H2. set (s2 := v3da_jobs_client_gone cid' s1) in *. clearbody s2. etrans; [exact H2|].
    pose proof (hush_client_gone cid' s2) as H3. set (s3 := v3da_bo_client_gone cid' s2) in *. clearbody s3. etrans; [exact H3|].
    apply hush_client_free. }
  rewrite (hush_books _ _ _ Hh). split; [done|by apply (hush_ok s1)].
Qed.

Lemma dispatch_books extra fp_pa port rid msg s :
  msg_ok msg s → srv_inv extra s →
  let s0 := if msg_unlocks msg s then msg_between msg s else s in
  waits_wf s0 →
  books [] (dispatch fp_pa port rid msg s) ≡ₚ rid :: books [] s0 ∧ waits_wf (dispatch fp_pa port rid msg s).
Proof.
  intros Hmsg Hinv. cbv zeta. set (s0 := if msg_unlocks msg s then msg_between msg s else s). intros Hok.
  assert (∀ r s' a, books a s' ≡ₚ asked_of r rid ++ books [] s0 → waits_wf s' →
    books [] (respond port rid r (v3da_waits_answer a s')) ≡ₚ rid :: books [] s0 ∧ waits_wf (respond port rid r (v3da_waits_answer a s'))) as Hend.
  { intros r s' a Hb Ho. destruct (answer_books a s' Ho) as [Hb' Ho']. destruct (respond_books port rid r _ Ho') as [Hb2 Ho2].
    split; [|done]. rewrite Hb', Hb in Hb2. destruct r; cbn [asked_of app] in *; [done|].
    apply Permutation_cons_inv in Hb2. by rewrite Hb2. }
  assert (∀ r s', hush s0 s' → books [] (respond port rid (Some r) (v3da_waits_answer [] s')) ≡ₚ rid :: books [] s0 ∧
    waits_wf (respond port rid (Some r) (v3da_waits_answer [] s'))) as Hh.
  { intros r s' Hh. apply (Hend (Some r)); [by rewrite (hush_books _ _ _ Hh)|by apply (hush_ok s0)]. }
  destruct msg; cbn [msg_ok] in Hmsg; unfold dispatch; try (subst s0; apply Hh; done).
  - pose proof (hush_client_open pid s) as Ho. destruct (client_open pid s). by apply Hh.
  - pose proof (close_books extra id s Hinv Hok) as [Hb Ho]. destruct (client_close id s []). by apply (Hend (Some _)).
  - pose proof (hush_hello id proto fp_pa s) as Ho. destruct (client_hello id proto fp_pa s) as [[? ?] ?]. by apply Hh.
  - pose proof (import_hush id rq ie between s) as Ho. destruct (v3da_bo_import (u32 id) rq ie between s) as [[? ?] ?]. by apply Hh.
  - unfold raw_request. set (s1 := s <| srv_wt ; rx_port := port |>).
    assert (waits_wf s1 ∧ books [] s1 = books [] s) as [Hok1 Eb1] by (by destruct Hok). change s0 with s in *. clear s0.
    destruct (client_get s1 id) as [ci|] eqn:Hg; [|apply (Hend (Some _)); [by rewrite Eb1|done]]. apply client_get_Some in Hg as (_ & Hci & Hu).
    assert (req_ok rq s1) as Hok2 by (destruct rq; exact Hmsg). assert (srv_inv extra s1) as Hs1 by (apply (srv_calm _ s); [calm_refl|done]).
    pose proof (raw_books extra ci rid rq [] s1 Hci Hok2 Hs1 Hok1) as [Hb Ho]. destruct (handle_raw ci rid rq s1 []) as [[r s2] a2].
    cbn [fst snd] in Hb, Ho. apply (Hend r); [by rewrite Hb, Eb1|done].
Qed.

Lemma turn_books extra s : srv_inv extra s → waits_wf s → books [] (event_turn s) ≡ₚ books [] s ∧ waits_wf (event_turn s).
Proof.
  intros [Hs _] Hok. unfold event_turn. rewrite event_body_core. set (now := env_now _). pose proof (hush_event_core s Hs) as Hh.
  set (s1 := event_core s) in *. clearbody s1. pose proof (hush_ok _ _ Hh Hok) as Hok1.
  destruct (scan_books now s1 [] Hok1) as [Hb Ho]. destruct (waits_scan now s1 []) as [s2 a]. cbn [fst snd] in *.
  destruct (answer_books a s2 Ho) as [Hb' Ho']. split; [|done]. by rewrite Hb', Hb, (hush_books _ _ _ Hh).
Qed.

(** A turn answers every request that is satisfied, has failed or is past its deadline. *)
Lemma turn_leaves s w : waits_wf s → sched_inv [] s → w ∈ waits (srv_wt (event_turn s)) →
  w ∈ waits (srv_wt s) ∧ (wait_eval (event_turn s) w).1 = 0 ∧ env_now (cursor s) < w_deadline_us w.
Proof.
  intros Hok Hs. unfold event_turn. rewrite event_body_core. set (now := env_now _). pose proof (hush_event_core s Hs) as Hh.
  pose proof (proj2 Hh) as Ew. set (s1 := event_core s) in *. clearbody s1. pose proof (hush_ok _ _ Hh Hok) as Hok1.
  pose proof (scan_books now s1 [] Hok1) as [_ Ho].
  destruct (claim_loop_wf s1 (wait_verdict now s1) (scan_one now) (scan_one_claims now s1) [] s1) as (Hv & Hw & _); [done|done|].
  change (foldl (scan_one now) (s1, []) (waits (srv_wt s1))) with (waits_scan now s1 []) in Hv, Hw.
  destruct (waits_scan now s1 []) as [s2 a]. cbn [fst snd] in *. destruct (answer_said a s2) as [_ Eq]. rewrite Eq, Hw.
  rewrite list_elem_of_In, filter_In, <- list_elem_of_In, Ew. intros [Hin Hk]. split; [done|]. apply kept_pending in Hk as [He Hd].
  split; [|done]. rewrite <- He. f_equal. apply wait_eval_view. etrans; [exact Hv|]. apply answer_view.
Qed.
End env.
