(* ===== verification/ServerSpec.v ===== *)
(** The server's states: what start-up leaves, one step of one of its threads or of the
    interrupt, what they reach; and what holds in every reachable state. *)
From S2P Require Import Prelude Proto State Csdprof Lowmem Hw Concrete Fence Bo BoInv BoMap BoShare BoSteps BoReach BoSpec.
From S2P Require Import Ovf Waits Jobs Submit Present Events Main SchedInv SchedKick SchedRun SchedReach SchedSpec WaitSpec.
From S2P Require Import Kept Counts OvfInv OvfSteps OvfKept Pins PinKept Closure Closed Aside Clients Boot Server Talk Once.

Section steps.
Context `{E : Env}.

(** ** Start-up *)
Lemma ovf_pages kib : let bytes := chunk_count kib * ovf_chunk_size kib in 1 ≤ bytes / PAGE_SIZE ≤ PT_ENTRIES.
Proof.
  cbv zeta. pose proof (chunk_count_range kib) as [H1 H2]. pose proof (ovf_chunk_size_range kib) as H3.
  set (n := chunk_count kib) in *. set (c := ovf_chunk_size kib) in *. clearbody n c. rewrite PT_ENTRIES_val. unfold OVF_POOL_BYTES, PAGE_SIZE in *.
  assert (65536 ≤ n * c) by nia. split; [apply Z.div_le_lower_bound; lia|]. apply Z.div_le_upper_bound; lia.
Qed.

Lemma ovf_init_inv kib s s' :
  bo_inv [] None s → jobs (srv_sched s) = ∅ → ovf_words (srv_hw s) = (0, hw_ovf_stage_size (srv_hw s), 0) → v3da_ovf_init kib s = (0, s') →
  (∃ va pages, bo_inv [mkHole va pages] None s') ∧ ovf_inv s' ∧ pin_same s s' ∧
  srv_sched s' = srv_sched s ∧ srv_cl s' = srv_cl s ∧ srv_fp s' = srv_fp s.
Proof.
  intros Hbo Hj Hw. unfold v3da_ovf_init. cbv zeta. fold (chunk_count kib). set (s0 := s <| srv_ovf ::= _ |>).
  pose proof (map_pool_frame (chunk_count kib * ovf_chunk_size kib) s0) as (Eo & Es & Ec & Ef & Ew).
  pose proof (map_ovf_pool_pins (chunk_count kib * ovf_chunk_size kib) s0) as Hpin.
  destruct (v3da_bo_map_ovf_pool _ s0) as [[rc va] s1] eqn:Hm. cbn [snd] in Eo, Es, Ec, Ef, Ew, Hpin.
  destruct (Z.eqb_spec rc 0) as [->|Hrc]; cbn [negb]; [|by intros [= ? _]]. intros Hs. apply (f_equal snd) in Hs. cbn [snd] in Hs.
  assert (bo_inv [] None s0) as Hb0 by (apply (bo_inv_same _ _ s); [done|exact Hbo]).
  destruct (map_ovf_pool_inv _ _ _ _ _ _ Hb0 (ovf_pages kib) Hm) as [[? _]|[_ Hb1]]; [done|].
  pose proof (pool_range _ _ _ _ Hb1) as Hr. set (pages := _ / PAGE_SIZE) in *.
  pose proof (link_all_chain (chunk_count kib) (srv_ovf s1 <| ov_gpuva := va |>)) as Hl. pose proof (chunk_count_range kib) as [Hn Hnc].
  destruct Hl as [Hl Hv]; [lia|]. set (o1 := ovf_link_all _ _) in *.
  assert (srv_ovf s' = o1 <| ov_nfree := chunk_count kib |> <| ov_staged := -1 |>) as Eo' by (rewrite <- Hs; reflexivity).
  clearbody o1. injection Hv as E1 E2 E3.
  assert (srv_bo s' = srv_bo s1 ∧ srv_hw s' = srv_hw s1 ∧ srv_sched s' = srv_sched s1 ∧ srv_cl s' = srv_cl s1 ∧ srv_fp s' = srv_fp s1) as (Gb & Gh & Gs & Gc & Gf)
    by (rewrite <- Hs; done). clear Hs. split_and!.
  - exists va, pages. by apply (bo_inv_ext _ _ s1).
  - assert (∀ jid, job s' jid = None) as Hno by (intros jid; unfold job; rewrite Gs, Es; change (jobs (srv_sched s) !! jid = None); by rewrite Hj).
    split; [constructor|].
    + rewrite Eo'. apply (chunks_start _ _ (chunk_count kib)); cbn; [lia|exact Hl|by rewrite E3, Eo|done|lia|].
      intros jid. unfold j_ovf. by rewrite Hno.
    + rewrite Eo'. unfold pool_ok. cbn. rewrite E1, E2, E3. cbn. rewrite Eo. cbn. pose proof (ovf_chunk_size_range kib) as Hcs.
      pose proof (ovf_pages kib) as Hpg. cbv zeta in Hpg. fold pages in Hpg. unfold GPUVA_BASE in Hr. rewrite PT_ENTRIES_val in Hr.
      assert (chunk_count kib * ovf_chunk_size kib < (pages + 1) * PAGE_SIZE) as Hlt.
      { unfold pages. pose proof (Z.mod_pos_bound (chunk_count kib * ovf_chunk_size kib) PAGE_SIZE ltac:(done)) as Hmod.
        pose proof (Z.div_mod (chunk_count kib * ovf_chunk_size kib) PAGE_SIZE ltac:(done)). lia. }
      unfold PAGE_SIZE in *. split_and!; lia.
    + rewrite Eo', Gh. unfold stage_ok. cbn. unfold ovf_words in Hw, Ew. change (srv_hw s0) with (srv_hw s) in Ew. rewrite Hw in Ew.
      injection Ew as -> _ ->. done.
    + constructor; intros ? ? ?; by rewrite Hno.
  - etrans; [|by apply pin_same_of]. exact Hpin.
  - by rewrite Gs, Es.
  - by rewrite Gc, Ec.
  - by rewrite Gf, Ef.
Qed.

Lemma server_init_inv kib irq s s' : server_start s → server_init kib irq s = Some s' → ∃ extra, srv_inv extra s'.
Proof.
  intros [Hbo Hsc Hcl [Hv Hco] _]. unfold server_init, v3da_sched_init, v3da_now_us. cbv zeta.
  destruct (env_mmap _ _ _) as [m|]; [|done]. match goal with |- context [v3da_ovf_init kib ?x] => set (s1 := x) end.
  assert (jobs (srv_sched s1) = ∅) as Hj by apply Hsc. pose proof Hsc as (_ & _ & _ & Ha).
  destruct (v3da_ovf_init kib s1) as [rc s2] eqn:Ho. destruct (Z.eqb_spec rc 0) as [->|]; [|done]. cbn [negb]. intros [= <-].
  destruct (ovf_init_inv kib s1 s2) as ((va & pages & Hb2) & Hov & Hpin & Es & Ec & Ef); [by apply bo_start_inv|done|unfold ovf_words; cbn; by rewrite Hv, Hco|done|].
  exists [mkHole va pages]. assert (srv_inv [mkHole va pages] s2) as H.
  { assert (∀ jid, job s2 jid = None) as Hno by (intros jid; unfold job; rewrite Es, Hj; done).
    split; [|split_and!].
    - apply sched_reach_inv, SR_start. unfold sched_start, fifo, active, srv_q. rewrite Es. exact Hsc.
    - constructor.
      + intros qu. unfold busy, active, srv_q. rewrite Ef, Es. cbn. rewrite (bool_decide_eq_false_2 _); [done|].
        specialize (Ha qu). unfold active, srv_q in Ha. rewrite Ha. by intros [? ?].
      + intros jid j. by rewrite Hno.
    - done.
    - intros i _. unfold srv_client in *. rewrite Ec. cbn. by rewrite Hcl.
    - split; [done|]. assert (job_pins s2 = []) as -> by (unfold job_pins; by rewrite Es, Hj). apply (pins_at_same _ s1); [done|].
      destruct Hbo as (_ & Hb0 & _). constructor; [intros h Hh; by apply not_elem_of_nil in Hh| |done|done].
      intros i n h g p _. change (srv_bos s1 i) with (srv_bos s i). by rewrite Hb0. }
  destruct irq; [|done]. apply (srv_calm _ s2); [apply calm_irq_mode|done].
Qed.

Lemma map_pool_hush bytes s : hush s (v3da_bo_map_ovf_pool bytes s).2.
Proof.
  unfold v3da_bo_map_ovf_pool. cbv zeta. pose proof (hush_alloc (bytes / PAGE_SIZE) s) as H. destruct (alloc_va _ s) as [va s1]. cbn [snd] in H.
  destruct (va =? 0); [exact H|]. etrans; [exact H|]. destruct (env_mmap _ _ _); hush_refl.
Qed.
Lemma server_init_hush kib irq s s' : server_init kib irq s = Some s' → hush s s'.
Proof.
  unfold server_init, v3da_sched_init, v3da_now_us. cbv zeta. destruct (env_mmap _ _ _) as [m|]; [|done].
  match goal with |- context [v3da_ovf_init kib ?x] => set (s1 := x) end. assert (hush s s1) as H1 by hush_refl. clearbody s1.
  assert (hush s1 (v3da_ovf_init kib s1).2) as H2.
  { unfold v3da_ovf_init. cbv zeta. set (s2 := s1 <| srv_ovf ::= _ |>). assert (hush s1 s2) as H2 by hush_refl. clearbody s2.
    match goal with |- context [v3da_bo_map_ovf_pool ?b s2] => pose proof (map_pool_hush b s2) as H3; destruct (v3da_bo_map_ovf_pool b s2) as [[rc va] s3] end.
    cbn [snd] in H3. destruct (negb _); cbn [snd]; (etrans; [exact H2|]); (etrans; [exact H3|]); apply hush_ovf. }
  destruct (v3da_ovf_init kib s1) as [rc s2]. cbn [snd] in H2. destruct (negb _); [done|]. intros [= <-].
  etrans; [exact H1|]. etrans; [exact H2|]. destruct irq; [apply hush_irq_mode|done].
Qed.

(** ** One step *)
(** A message of a dispatch thread (its words are unsigned, see [msg_ok]; an import runs
    with the lock dropped in the middle, while others step), a turn of the event thread, an
    interrupt, a message of the /v3dbuf thread.  The label is the requests received. *)
Inductive server_step : list Z → v3da_srv_t → v3da_srv_t → Prop :=
  | SV_msg fp_pa port rid msg l s :
      msg_ok msg s → server_steps l s (msg_between msg s) → (msg_unlocks msg s = false → l = []) →
      server_step (rid :: l) s (dispatch fp_pa port rid msg s)
  | SV_event s : server_step [] s (event_turn s)
  | SV_irq s : server_step [] s (v3da_irq_handler s).2
  | SV_bufns m s : 0 ≤ bufns_id m → fds_below s → server_step [] s (bufns_handle m s).2
with server_steps : list Z → v3da_srv_t → v3da_srv_t → Prop :=
  | SV_nil s : server_steps [] s s
  | SV_cons l l' s1 s2 s3 : server_step l s1 s2 → server_steps l' s2 s3 → server_steps (l ++ l') s1 s3.
Scheme server_step_mut := Minimality for server_step Sort Prop
  with server_steps_mut := Minimality for server_steps Sort Prop.

Inductive server_reach : list Z → v3da_srv_t → Prop :=
  | SVR_init kib irq s s' : server_start s → server_init kib irq s = Some s' → server_reach [] s'
  | SVR_step rcv l s s' : server_reach rcv s → server_step l s s' → server_reach (rcv ++ l) s'.

(** The requests a step receives are answered, or parked, and nothing else changes hands. *)
Definition books_move (extra : list hole) (l : list Z) (s s' : v3da_srv_t) : Prop :=
  srv_inv extra s → waits_wf s → srv_inv extra s' ∧ waits_wf s' ∧ books [] s' ≡ₚ l ++ books [] s.

Lemma server_step_books extra l s s' : server_step l s s' → books_move extra l s s'.
Proof.
  apply (server_step_mut (books_move extra) (books_move extra)).
  - intros fp_pa port rid msg k s1 Hmsg _ IH Hun Hinv Hok.
    assert (srv_inv extra (dispatch fp_pa port rid msg s1)) as Hi by (apply srv_dispatch; [done|intros; by apply IH|done]).
    destruct (dispatch_books extra fp_pa port rid msg s1 Hmsg Hinv) as [Hb Ho].
    { destruct (msg_unlocks msg s1); [by apply IH|done]. }
    split_and!; [done|done|]. rewrite Hb. simpl. f_equiv. destruct (msg_unlocks msg s1); [by apply IH|]. by rewrite (Hun eq_refl).
  - intros s1 Hinv Hok. destruct (turn_books extra s1 Hinv Hok). split_and!; [by apply srv_event_turn|done|done].
  - intros s1 Hinv Hok. pose proof (hush_irq s1) as Hh. split_and!; [by apply srv_irq|by apply (hush_ok s1)|by rewrite (hush_books _ _ _ Hh)].
  - intros m s1 Hm Hfd Hinv Hok. pose proof (hush_bufns m s1) as Hh.
    split_and!; [by apply srv_bufns|by apply (hush_ok s1)|by rewrite (hush_books _ _ _ Hh)].
  - by intros s1 Hinv Hok.
  - intros k k' s1 s2 s3 _ IH1 _ IH2 Hinv Hok. destruct (IH1 Hinv Hok) as (Hi & Ho & Hb). destruct (IH2 Hi Ho) as (Hi' & Ho' & Hb').
    split_and!; [done|done|]. rewrite Hb', Hb. solve_Permutation.
Qed.

Lemma server_reach_all rcv s : server_reach rcv s → ∃ extra, srv_inv extra s ∧ waits_wf s ∧ books [] s ≡ₚ rcv.
Proof.
  induction 1 as [kib irq s s' Hs Hi|rcv l s s' _ (extra & IH & Ho & Hb) Hst].
  - destruct (server_init_inv kib irq s s' Hs Hi) as [extra Hinv]. exists extra. pose proof (server_init_hush _ _ _ _ Hi) as Hh.
    destruct (ss_quiet s Hs) as (Hr & Hw & Hn). split_and!; [done| |].
    + apply (hush_ok s); [done|]. constructor; rewrite Hw; [constructor|constructor|exact Hn].
    + rewrite (hush_books s s' [] Hh). unfold books, parked. by rewrite Hr, Hw.
  - exists extra. destruct (server_step_books extra l s s' Hst IH Ho) as (Hi' & Ho' & Hb'). split_and!; [done|done|]. rewrite Hb', Hb. solve_Permutation.
Qed.
Lemma server_reach_inv rcv s : server_reach rcv s → ∃ extra, srv_inv extra s.
Proof. intros (extra & H & _)%server_reach_all. by exists extra. Qed.

(** ** What holds in every reachable state *)

(** C2: in every state the server reaches, each buffer a job names is in the table under
    the job's handle, counted in flight exactly as often as the jobs name it, and every one
    of its pages is mapped: no close, client death or quarantine takes a buffer from under
    a job that has not finished. *)
Theorem server_buffers_held rcv s jid j hs h :
  server_reach rcv s → job s jid = Some j → j_bos j = Some hs → h ∈ hs →
  ∃ i, bo_lookup s h = Some i ∧ bo_inflight (srv_bos s i) = occ h (job_pins s) ∧ 0 < bo_inflight (srv_bos s i) ∧
    ∀ k, 0 ≤ k < bo_pages (srv_bos s i) → hw_pt (srv_hw s) (va_page (bo_gpuva (srv_bos s i)) + k) ≠ 0.
Proof.
  intros (extra & _ & _ & _ & Hb & Hp)%server_reach_inv Hj Hbos Hh. rewrite app_nil_l in Hp.
  assert (h ∈ job_pins s) as Hin.
  { apply all_pins_elem. exists jid, hs. split; [|done]. rewrite lookup_fmap. unfold job in Hj. rewrite Hj. simpl. unfold pins_of. by rewrite Hbos. }
  destruct (pa_pinned _ _ Hp h Hin) as (i & n & g & p & Hi & Hv). destruct (pinned_lookup _ _ _ _ _ _ _ Hb Hi Hv) as [Hr Hl].
  pose proof (pa_count _ _ Hp i n h g p Hi Hv) as Hn. apply pin_view_Some in Hv as (Hst & Hpos & -> & _).
  exists i. split_and!; [done|done|done|]. intros k Hk. destruct Hb as [_ [_ Hpt]]. apply Hpt. left. exists i. split_and!; [lia|lia|done|].
  unfold covers, srv_bos in *. cbn [ho_gpuva ho_pages]. lia.
Qed.

(** C3: in every state the server reaches, every overflow chunk is in exactly one place,
    free, staged for the interrupt handler, or on the list of one job that exists; the free
    count is exact, the lists end, and the word the handler will hand to the binner is the
    staged chunk's address, inside the pool. *)
Theorem server_chunks_placed rcv s :
  server_reach rcv s → let o := srv_ovf s in
  ∃ ls : place → list Z,
    (∀ p, chain (ov_next o) (heads o (j_ovf s) p) (ls p)) ∧
    (∀ p, NoDup (ls p)) ∧ (∀ x, 0 ≤ x < ov_nchunks o → exists! p, x ∈ ls p) ∧ (∀ p x, x ∈ ls p → 0 ≤ x < ov_nchunks o) ∧
    ov_nfree o = Z.of_nat (length (ls Free)) ∧ (∀ jid, ls (Held jid) ≠ [] → is_Some (job s jid)) ∧
    (hw_ovf_stage_va (srv_hw s) ≠ 0 → ls Staged = [ov_staged o] ∧
       hw_ovf_stage_va (srv_hw s) = ov_gpuva o + ov_staged o * ov_chunk_bytes o ∧ hw_ovf_stage_size (srv_hw s) = ov_chunk_bytes o).
Proof.
  intros (extra & _ & (_ & [[(ls & Hls) Hpool Hstage] _]) & _)%server_reach_inv. cbv zeta. exists ls.
  pose proof Hls as [[Hc Hnd Hd Hall] Hn Hs _]. split_and!; try done.
  - intros x Hx. apply Hall in Hx as [p Hp]. exists p. split; [done|]. intros p' Hp'. by apply (Hd p p' x).
  - intros p x Hx. apply Hall. by exists p.
  - intros jid Hne. destruct (job s jid) eqn:Hj; [by eexists|]. destruct Hne. apply (chain_nil _ _ _ (Hc (Held jid))).
    simpl. unfold j_ovf. rewrite Hj. lia.
  - intros Hva. unfold stage_ok in Hstage. destruct (Z.ltb_spec (ov_staged (srv_ovf s)) 0) as [|Hp0]; [by destruct Hstage|].
    destruct Hstage as [(Ev & Ez & _)|[Hz _]]; [|done].
    pose proof (chunks_head_range _ _ Staged (ex_intro _ ls Hls) Hp0) as Hr. simpl in Hr.
    destruct (chain_cons _ _ _ (Hc Staged) Hp0) as (l & Hl & _). rewrite Hl in Hs. destruct l; [|simpl in Hs; lia].
    destruct (chunk_va_exact _ _ Hpool Hr) as [Ex _]. split_and!; [done|congruence|done].
Qed.

(** C25: in every state the server reaches, the number of jobs a queue has been given and the
    number it has completed differ by the job it is running, on every queue: what a buffer
    in quarantine is measured against never drifts. *)
Theorem server_counts_exact rcv s qu :
  server_reach rcv s →
  fp_hw_submitted (srv_fp s) qu = fp_hw_completed (srv_fp s) qu + match active s qu with Some _ => 1 | None => 0 end.
Proof.
  intros (extra & _ & ([Hc _] & _) & _)%server_reach_inv. rewrite Hc. unfold busy. destruct (active s qu).
  - by rewrite bool_decide_eq_true_2.
  - rewrite bool_decide_eq_false_2; [done|]. by intros [? ?].
Qed.

(** C26: in every state the server reaches, the links of a bin and a render job are mutual
    and name jobs that exist: a job freed before its partner is never reached through it. *)
Theorem server_links_mutual rcv s a ja b :
  server_reach rcv s → job s a = Some ja →
  (j_render ja = Some b → j_queue ja = V3DA_Q_BIN ∧ ∃ jb, job s b = Some jb ∧ j_queue jb = V3DA_Q_RENDER ∧ j_bin jb = Some a) ∧
  (j_bin ja = Some b → j_queue ja = V3DA_Q_RENDER ∧ ∃ jb, job s b = Some jb ∧ j_queue jb = V3DA_Q_BIN ∧ j_render jb = Some a).
Proof.
  intros (extra & _ & [_ [_ [L1 L2]]] & _)%server_reach_inv Hj. split; intros Hl.
  - destruct (L1 _ _ _ Hj Hl) as (Hq & _ & jb & Hjb & Hb). split; [done|]. exists jb. split_and!; [done| |done]. by destruct (L2 _ _ _ Hjb Hb).
  - destruct (L2 _ _ _ Hj Hl) as (Hq & _ & jb & Hjb & Hb). split; [done|]. exists jb. split_and!; [done| |done]. by destruct (L1 _ _ _ Hjb Hb).
Qed.

(** C1: in every run of the server, each request it has received has been answered exactly
    once or is parked, and nothing else has been answered or is parked: no reply is lost
    (a client would block for ever) and none is sent twice. *)
Theorem server_answers_once rcv s : server_reach rcv s → replies s ++ parked s ≡ₚ rcv.
Proof. intros (extra & _ & _ & H)%server_reach_all. exact H. Qed.

(** C24: no request stays parked for ever: from every state the server reaches, a turn of
    the event thread answers each parked request, unless the request is, when the turn
    ends, neither satisfied nor failed and its deadline is after the turn's clock.  (The
    requests received have distinct names.) *)
Theorem server_turn_answers rcv s w :
  server_reach rcv s → NoDup rcv → w ∈ waits (srv_wt s) →
  w_rid w ∈ replies (event_turn s) ∨
  (w ∈ waits (srv_wt (event_turn s)) ∧ (wait_eval (event_turn s) w).1 = 0 ∧ env_now (cursor s) < w_deadline_us w).
Proof.
  intros Hr Hnd Hw. destruct (server_reach_all _ _ Hr) as (extra & Hinv & Hok & Hb).
  destruct (turn_books extra s Hinv Hok) as [Hb' Hok']. pose proof (proj1 Hinv) as Hs.
  assert (w_rid w ∈ books [] s) as Hin by (unfold books; rewrite elem_of_app; right; by apply list_elem_of_fmap_2).
  rewrite <- Hb' in Hin. apply elem_of_app in Hin as [?|(w' & Er & Hw')%list_elem_of_fmap]; [by left|right].
  destruct (turn_leaves s w' Hok Hs Hw') as (Hin' & He & Hd).
  assert (w = w') as ->; [|done]. rewrite <- Hb in Hnd. unfold books in Hnd. apply NoDup_app in Hnd as (_ & _ & Hnd).
  by apply (rid_inj (waits (srv_wt s))).
Qed.
End steps.


(** ** A run: start-up, a client, a buffer, a submission that names it, a turn *)
Definition srv_cold : v3da_srv_t := srv0 <| srv_cl := mkClients (λ _, client0) 0 (λ _, 0) (λ _ _, 0) |>.
Definition srv_up : v3da_srv_t := default srv_cold (server_init 256 false srv_cold).
Definition raw (rid : Z) (rq : v3da_req) : v3da_srv_t → v3da_srv_t := dispatch 0x9000 3 rid (M_raw 1 rq).
Definition srv_one : v3da_srv_t := raw 7 (Q_bo_create 8192 0) (dispatch 0x9000 3 6 (M_open 100) srv_up).
Definition full_hdr : v3da_submit_t := mkSubmit 32 1 0 0.
Definition full_words (i : Z) : Z := if i =? 8 then 8193 else Z.abs i * 4096.
Definition srv_busy : v3da_srv_t := event_turn (raw 8 (Q_submit V3DA_OP_SUBMIT_CL full_hdr (Some full_words) 36) srv_one).

Lemma srv_up_reach : server_reach [] srv_up.
Proof.
  assert (match server_init 256 false srv_cold with Some _ => true | None => false end = true) as H by (vm_compute; reflexivity).
  apply (SVR_init 256 false srv_cold).
  - split; [by split_and!|by split_and!|done|done|by split_and!].
  - unfold srv_up. by destruct (server_init 256 false srv_cold).
Qed.
Lemma srv_one_reach : server_reach [6; 7] srv_one.
Proof.
  apply (SVR_step [6] [7] (dispatch 0x9000 3 6 (M_open 100) srv_up)); [|apply SV_msg; [by vm_compute|apply SV_nil|done]].
  apply (SVR_step [] [6] srv_up); [apply srv_up_reach|apply SV_msg; [done|apply SV_nil|done]].
Qed.
Lemma full_msg_ok : msg_ok (M_raw 1 (Q_submit V3DA_OP_SUBMIT_CL full_hdr (Some full_words) 36)) srv_one.
Proof. split; [|vm_compute; reflexivity]. intros w i [= <-]. unfold full_words. destruct (i =? 8); lia. Qed.
Lemma srv_busy_reach : server_reach [6; 7; 8] srv_busy.
Proof.
  apply (SVR_step [6; 7; 8] [] (raw 8 (Q_submit V3DA_OP_SUBMIT_CL full_hdr (Some full_words) 36) srv_one)); [|apply SV_event].
  apply (SVR_step [6; 7] [8] srv_one); [apply srv_one_reach|]. apply SV_msg; [apply full_msg_ok|apply SV_nil|done].
Qed.

Lemma server_buffers_held_witness :
  ∃ j, job srv_busy 2 = Some j ∧ j_bos j = Some [8193] ∧
  ∃ i, bo_lookup srv_busy 8193 = Some i ∧ bo_inflight (srv_bos srv_busy i) = occ 8193 (job_pins srv_busy) ∧
    0 < bo_inflight (srv_bos srv_busy i) ∧
    ∀ k, 0 ≤ k < bo_pages (srv_bos srv_busy i) → hw_pt (srv_hw srv_busy) (va_page (bo_gpuva (srv_bos srv_busy i)) + k) ≠ 0.
Proof.
  assert (match job srv_busy 2 with Some j => bool_decide (j_bos j = Some [8193]) | None => false end = true) as H by (vm_compute; reflexivity).
  destruct (job srv_busy 2) as [j|] eqn:Hj; [|done]. apply bool_decide_eq_true in H. exists j. split_and!; [done|done|].
  apply (server_buffers_held [6; 7; 8] srv_busy 2 j [8193] 8193 srv_busy_reach Hj H). by left.
Defined.

Lemma server_chunks_placed_witness :
  hw_ovf_stage_va (srv_hw srv_busy) ≠ 0 ∧
  hw_ovf_stage_va (srv_hw srv_busy) =
    ov_gpuva (srv_ovf srv_busy) + ov_staged (srv_ovf srv_busy) * ov_chunk_bytes (srv_ovf srv_busy).
Proof.
  destruct (server_chunks_placed [6; 7; 8] srv_busy srv_busy_reach) as (ls & _ & _ & _ & _ & _ & _ & H).
  assert (hw_ovf_stage_va (srv_hw srv_busy) ≠ 0) as Hv by (by vm_compute). split; [exact Hv|]. apply (H Hv).
Defined.

Lemma server_counts_exact_witness :
  fp_hw_submitted (srv_fp srv_busy) V3DA_Q_BIN = 1 ∧ fp_hw_completed (srv_fp srv_busy) V3DA_Q_BIN + 1 = 1.
Proof.
  pose proof (server_counts_exact [6; 7; 8] srv_busy V3DA_Q_BIN srv_busy_reach) as H. 
  assert (active srv_busy V3DA_Q_BIN = Some 1) as Ha by (vm_compute; reflexivity). rewrite Ha in H.
  assert (fp_hw_submitted (srv_fp srv_busy) V3DA_Q_BIN = 1) as Hs by (vm_compute; reflexivity). rewrite Hs in H. split; [exact Hs|lia].
Defined.

Lemma server_links_mutual_witness :
  ∃ j, job srv_busy 1 = Some j ∧ j_render j = Some 2 ∧ j_queue j = V3DA_Q_BIN ∧
    ∃ jb, job srv_busy 2 = Some jb ∧ j_queue jb = V3DA_Q_RENDER ∧ j_bin jb = Some 1.
Proof.
  assert (match job srv_busy 1 with Some j => bool_decide (j_render j = Some 2) | None => false end = true) as H by (vm_compute; reflexivity).
  destruct (job srv_busy 1) as [j|] eqn:Hj; [|done]. apply bool_decide_eq_true in H. exists j.
  destruct (server_links_mutual [6; 7; 8] srv_busy 1 j 2 srv_busy_reach Hj) as [Hl _]. destruct (Hl H) as (Hq & Hb). split_and!; done.
Defined.

(** The same server with a fourth request: a wait of 50 ms for the job on the queue. *)
Definition srv_parked : v3da_srv_t := raw 9 (Q_fence_wait (mkFence 0 V3DA_Q_BIN 1 1) 50) srv_busy.
Lemma srv_parked_reach : server_reach [6; 7; 8; 9] srv_parked.
Proof. apply (SVR_step [6; 7; 8] [9] srv_busy); [apply srv_busy_reach|apply SV_msg; [done|apply SV_nil|done]]. Qed.

Lemma server_answers_once_witness : replies srv_parked ++ parked srv_parked ≡ₚ [6; 7; 8; 9] ∧ parked srv_parked = [9].
Proof. split; [apply (server_answers_once _ _ srv_parked_reach)|vm_compute; reflexivity]. Defined.

Lemma server_turn_answers_witness :
  ∃ w, waits (srv_wt srv_parked) = [w] ∧ w_rid w = 9 ∧
    (w_rid w ∈ replies (event_turn srv_parked) ∨
     w ∈ waits (srv_wt (event_turn srv_parked)) ∧ (wait_eval (event_turn srv_parked) w).1 = 0 ∧ env_now (cursor srv_parked) < w_deadline_us w).
Proof.
  pose proof (server_turn_answers [6; 7; 8; 9] srv_parked) as Hk. specialize (λ w, Hk w srv_parked_reach ltac:(by apply (bool_decide_unpack _); vm_compute)) as Hk.
  assert (match waits (srv_wt srv_parked) with [w] => w_rid w =? 9 | _ => false end = true) as H by (vm_compute; reflexivity).
  revert Hk H. generalize (event_turn srv_parked) (cursor srv_parked). intros s1 n Hk H.
  destruct (waits (srv_wt srv_parked)) as [|w [|]]; [done| |done]. apply Z.eqb_eq in H. exists w. split_and!; [reflexivity|exact H|].
  apply Hk. by left.
Defined.
