(* ===== verification/KmsProto.v ===== *)
(** The wire protocol of the display server (tools/gpu-lane/kms/kms_proto.h): constants,
    object ids, request and reply structures.  A C union becomes an inductive type with one
    constructor per member used. *)
From S2P Require Import Prelude Proto.
From stdpp Require Import strings.
#[local] Open Scope Z_scope.

(** ** Error numbers, beside those of the render server's protocol *)
Definition E2BIG := 7.
Definition EAGAIN := 11.
Definition EACCES := 13.
Definition ENOTTY := 25.
Definition ENOSPC := 28.
Definition ERANGE := 34.
Definition ENOTSUP := 95.

(** ** Limits (kms.h, kms_proto.h) *)
Definition KMS_MIB := 1024 * 1024.
Definition KMS_GIB := 1024 * 1024 * 1024.
Definition KMS_MAX_CLIENTS := 16.
Definition KMS_MAX_BOS := 64.
Definition KMS_MAX_FBS := 64.
Definition KMS_MAX_BLOBS := 16.
Definition KMS_BLOB_MAX_LEN := 256.
Definition KMS_EVQ_LEN := 64.
Definition KMS_MAX_PARKED := 32.
Definition KMS_MAX_VBL_EVENTS := 64.
Definition KMS_FB_SLOTS := 4.
Definition KMS_MAX_CRTCS := 2.
Definition KMS_PLANES_PER_CRTC := 8.
Definition KMS_ATOMIC_MAX_PLANES := 8.
Definition KMS_PLANE_MAX_FMTS := 6.
Definition KMS_READ_MAX_MS := 2000.
Definition KMS_PROTO_VERSION := 2.
Definition KMS_PROTO_BASE := 1.
Definition KMS_IMPORT_MAX_SIZE := 0x10000000.

(** ** Object ids *)
Definition KMS_ID_CONNECTOR (i : Z) := u32 (0x20 + i).
Definition KMS_ID_ENCODER (i : Z) := u32 (0x30 + i).
Definition KMS_ID_CRTC (i : Z) := u32 (0x40 + i).
Definition KMS_ID_PLANE (c p : Z) := u32 (0x50 + c * KMS_PLANES_PER_CRTC + p).
Definition KMS_ID_FB_BASE := 0x1000.
Definition KMS_ID_BLOB_BASE := 0x10000.

(** ** Properties *)
Definition KMS_PROP_TYPE := 0x100.
Definition KMS_PROP_FB_ID := 0x101.
Definition KMS_PROP_CRTC_ID := 0x102.
Definition KMS_PROP_SRC_X := 0x103.
Definition KMS_PROP_SRC_Y := 0x104.
Definition KMS_PROP_SRC_W := 0x105.
Definition KMS_PROP_SRC_H := 0x106.
Definition KMS_PROP_CRTC_X := 0x107.
Definition KMS_PROP_CRTC_Y := 0x108.
Definition KMS_PROP_CRTC_W := 0x109.
Definition KMS_PROP_CRTC_H := 0x10a.
Definition KMS_PROP_IN_FENCE_FD := 0x10b.
Definition KMS_PROP_IN_FORMATS := 0x10c.
Definition KMS_PROP_ZPOS := 0x10d.
Definition KMS_PROP_ALPHA := 0x10e.
Definition KMS_PROP_ROTATION := 0x10f.
Definition KMS_PROP_ACTIVE := 0x140.
Definition KMS_PROP_MODE_ID := 0x141.
Definition KMS_PROP_OUT_FENCE_PTR := 0x142.
Definition KMS_PROP_VRR_ENABLED := 0x143.
Definition KMS_PROP_DPMS := 0x180.
Definition KMS_PROP_EDID := 0x181.
Definition KMS_PROP_LINK_STATUS := 0x182.
Definition KMS_PROP_NON_DESKTOP := 0x183.

Definition KMS_PROP_FLAG_RANGE := 2.
Definition KMS_PROP_FLAG_IMMUTABLE := 4.
Definition KMS_PROP_FLAG_ENUM := 8.
Definition KMS_PROP_FLAG_BLOB := 16.
Definition KMS_PROP_FLAG_BITMASK := 32.
Definition KMS_PROP_FLAG_OBJECT := 64.
Definition KMS_PROP_FLAG_SIGNED := 128.
Definition KMS_PROP_FLAG_ATOMIC := 0x80000000.
Definition KMS_OBJ_CRTC := 0xcccccccc.
Definition KMS_OBJ_FB := 0xfbfbfbfb.

(** ** Events *)
Definition KMS_DRM_EVENT_VBLANK := 1.
Definition KMS_DRM_EVENT_FLIP_COMPLETE := 2.
Definition KMS_DRM_EVENT_CRTC_SEQUENCE := 3.

(** kms_drm_event_vblank_t and kms_drm_event_crtc_sequence_t, 32 bytes each. *)
Inductive kms_event :=
  | EV_vblank (type user_data tv_sec tv_usec sequence crtc_id : Z)
  | EV_sequence (type user_data time_ns sequence : Z).

(** ** Modes: struct drm_mode_modeinfo *)
Record kms_modeinfo_t := mkMode {
  clock : Z;
  hdisplay : Z; hsync_start : Z; hsync_end : Z; htotal : Z; hskew : Z;
  vdisplay : Z; vsync_start : Z; vsync_end : Z; vtotal : Z; vscan : Z;
  vrefresh : Z; mode_flags : Z; mode_type : Z; mode_name : list Z }.
#[export] Instance eta_mode : Eta kms_modeinfo_t := fun r => mkMode (clock r) (hdisplay r) (hsync_start r)
  (hsync_end r) (htotal r) (hskew r) (vdisplay r) (vsync_start r) (vsync_end r) (vtotal r) (vscan r) (vrefresh r)
  (mode_flags r) (mode_type r) (mode_name r).
Definition KMS_DISPLAY_MODE_LEN := 32.
Definition mode0 : kms_modeinfo_t := mkMode 0 0 0 0 0 0 0 0 0 0 0 0 0 0 (replicate 32 0).
Definition KMS_MODE_TYPE_PREFERRED := 8.
Definition KMS_MODE_TYPE_DRIVER := 64.
Definition KMS_MODE_FLAG_PHSYNC := 1.
Definition KMS_MODE_FLAG_NHSYNC := 2.
Definition KMS_MODE_FLAG_PVSYNC := 4.
Definition KMS_MODE_FLAG_NVSYNC := 8.
Definition KMS_MODE_FLAG_INTERLACE := 16.

(** ** Capabilities and flags *)
Definition KMS_CAP_DUMB_BUFFER := 0x1.
Definition KMS_CAP_VBLANK_HIGH_CRTC := 0x2.
Definition KMS_CAP_DUMB_PREFERRED_DEPTH := 0x3.
Definition KMS_CAP_DUMB_PREFER_SHADOW := 0x4.
Definition KMS_CAP_PRIME := 0x5.
Definition KMS_CAP_TIMESTAMP_MONOTONIC := 0x6.
Definition KMS_CAP_ASYNC_PAGE_FLIP := 0x7.
Definition KMS_CAP_CURSOR_WIDTH := 0x8.
Definition KMS_CAP_CURSOR_HEIGHT := 0x9.
Definition KMS_CAP_ADDFB2_MODIFIERS := 0x10.
Definition KMS_CAP_PAGE_FLIP_TARGET := 0x11.
Definition KMS_CAP_CRTC_IN_VBLANK_EVENT := 0x12.
Definition KMS_CAP_SYNCOBJ := 0x13.
Definition KMS_CAP_SYNCOBJ_TIMELINE := 0x14.
Definition KMS_CAP_ATOMIC_ASYNC_PAGE_FLIP := 0x15.
Definition KMS_CLIENT_CAP_UNIVERSAL_PLANES := 2.
Definition KMS_CLIENT_CAP_ATOMIC := 3.
Definition KMS_CLIENT_CAP_ASPECT_RATIO := 4.
Definition KMS_PAGE_FLIP_EVENT := 0x01.
Definition KMS_PAGE_FLIP_ASYNC := 0x02.
Definition KMS_ATOMIC_TEST_ONLY := 0x0100.
Definition KMS_VBL_ABSOLUTE := 0x1.
Definition KMS_VBL_EVENT := 0x4000000.
Definition KMS_CONNECTED := 1.
Definition KMS_PLANE_TYPE_OVERLAY := 0.
Definition KMS_PLANE_TYPE_PRIMARY := 1.
Definition KMS_PLANE_TYPE_CURSOR := 2.
Definition KMS_FOURCC (a b c d : Z) : Z := Z.lor (Z.lor (Z.lor a (Z.shiftl b 8)) (Z.shiftl c 16)) (Z.shiftl d 24).
Definition KMS_FMT_XRGB8888 := KMS_FOURCC 88 82 50 52.
Definition KMS_FMT_ARGB8888 := KMS_FOURCC 65 82 50 52.
Definition KMS_FMT_XBGR8888 := KMS_FOURCC 88 66 50 52.
Definition KMS_FMT_ABGR8888 := KMS_FOURCC 65 66 50 52.
Definition KMS_MOD_LINEAR := 0.
Definition KMS_DUMB_POOL := 1.
Definition KMS_IMPORT_NS_KMSBUF := 1.
Definition KMS_IMPORT_NS_V3DBUF := 2.

(** ** Memory references and fences *)
Inductive kms_mem_kind := KMS_MEM_NONE | KMS_MEM_PHYS | KMS_MEM_OID.
Definition KMS_CACHE_UNCACHED := 1.
Record kms_memref_t := mkMemref { mr_kind : kms_mem_kind; mr_cache : Z; mr_port : Z; mr_size : Z; mr_addr : Z }.
Definition memref0 : kms_memref_t := mkMemref KMS_MEM_NONE 0 0 0 0.

(** ** Requests *)
Inductive kms_backend_id := KMS_BACKEND_PAN | KMS_BACKEND_PLANE.
Definition is_plane (b : kms_backend_id) : bool := match b with KMS_BACKEND_PLANE => true | _ => false end.
Inductive kms_vblank_src := KMS_VBL_NONE | KMS_VBL_IRQ | KMS_VBL_HVS | KMS_VBL_FWVSYNC | KMS_VBL_TIMER.

Record kms_set_crtc_req_t := mkSetCrtc {
  sc_crtc_id : Z; sc_fb_id : Z; sc_x : Z; sc_y : Z; sc_mode_hdisplay : Z; sc_mode_vdisplay : Z }.
Record kms_create_dumb_req_t := mkCreateDumb { cd_width : Z; cd_height : Z; cd_bpp : Z; cd_flags : Z }.
Record kms_prime_import_req_t := mkPrimeImport {
  pi_port : Z; pi_cache : Z; pi_id : Z; pi_size : Z; pi_ns : Z; pi_pad : Z }.
Record kms_addfb2_req_t := mkAddfb2 {
  af_width : Z; af_height : Z; af_format : Z; af_handle : Z; af_pitch : Z; af_offset : Z; af_modifier : Z }.
Record kms_page_flip_req_t := mkPageFlip {
  pf_crtc_id : Z; pf_fb_id : Z; pf_flags : Z; pf_user_data : Z; pf_in_fence : v3da_fence_t }.
(** One plane's complete new state. *)
Record kms_atomic_plane_t := mkPlane {
  plane_id : Z; fb_id : Z; crtc_id : Z; crtc_x : Z; crtc_y : Z; crtc_w : Z; crtc_h : Z;
  src_x : Z; src_y : Z; src_w : Z; src_h : Z; zpos : Z; alpha : Z; rotation : Z; in_fence : v3da_fence_t }.
#[export] Instance eta_plane : Eta kms_atomic_plane_t := fun r => mkPlane (plane_id r) (fb_id r) (crtc_id r)
  (crtc_x r) (crtc_y r) (crtc_w r) (crtc_h r) (src_x r) (src_y r) (src_w r) (src_h r) (zpos r) (alpha r) (rotation r)
  (in_fence r).
Definition plane0 : kms_atomic_plane_t := mkPlane 0 0 0 0 0 0 0 0 0 0 0 0 0 0 fence0.
Record kms_atomic_req_t := mkAtomic {
  at_flags : Z; at_nplanes : Z; at_user_data : Z; at_crtc_id : Z; at_mode_blob : Z; at_active : Z }.
Record kms_vblank_req_t := mkVblankReq { vr_crtc_id : Z; vr_type : Z; vr_sequence : Z; vr_user_data : Z }.
Record kms_checksum_req_t := mkChecksum { ck_handle : Z; ck_offset : Z; ck_len : Z }.

(** A request with the payload that came with it: a blob's bytes, an atomic request's planes. *)
Inductive kms_req :=
  | K_get_cap (cap : Z) | K_set_client_cap (cap value : Z)
  | K_set_master | K_drop_master | K_auth_magic
  | K_get_resources (max : Z) | K_get_connector (id max : Z) | K_get_encoder (id : Z) | K_get_crtc (id : Z)
  | K_set_crtc (rq : kms_set_crtc_req_t) | K_get_plane_resources | K_get_plane (id : Z)
  | K_get_properties (id max : Z) | K_get_property (id max : Z)
  | K_get_blob (id : Z) | K_create_blob (data : option (list Z)) | K_destroy_blob (id : Z)
  | K_create_dumb (rq : kms_create_dumb_req_t) | K_map_dumb (h : Z) | K_destroy_dumb (h : Z) | K_prime_export (h : Z)
  | K_addfb2 (rq : kms_addfb2_req_t) | K_rmfb (id : Z)
  | K_page_flip (rq : kms_page_flip_req_t)
  | K_atomic (rq : kms_atomic_req_t) (data : option (list kms_atomic_plane_t))
  | K_wait_vblank (rq : kms_vblank_req_t) | K_crtc_get_sequence (rq : kms_vblank_req_t)
  | K_crtc_queue_sequence (rq : kms_vblank_req_t)
  | K_checksum (rq : kms_checksum_req_t) | K_stats | K_quit | K_other.

(** ** Replies *)
Record kms_dumb_resp_t := mkDumb { du_handle : Z; du_pitch : Z; du_size : Z; du_mem : kms_memref_t }.
Record kms_flip_resp_t := mkFlip { fl_sequence : Z; fl_applied : Z; fl_apply_us : Z }.
Record kms_connector_t := mkConnector {
  cn_type : Z; cn_type_id : Z; cn_connection : Z; cn_mm_width : Z; cn_mm_height : Z; cn_subpixel : Z;
  cn_encoder_id : Z; cn_nmodes : Z; cn_nprops : Z; cn_fw_display_id : Z }.
Record kms_crtc_t := mkCrtcResp {
  cr_fb_id : Z; cr_mode_valid : Z; cr_hdisplay : Z; cr_vdisplay : Z; cr_vrefresh : Z; cr_sequence : Z; cr_pending_fb : Z }.
Record kms_plane_t := mkPlaneResp {
  pl_crtc_id : Z; pl_fb_id : Z; pl_possible_crtcs : Z; pl_type : Z; pl_formats : list Z }.
Record kms_prop_value_t := mkPropValue { pv_prop_id : Z; pv_value : Z }.
Record kms_stats_t := mkKmsStats {
  st_vblanks : Z; st_vblank_src : Z; st_irq_count : Z; st_irq_spurious : Z; st_flips_applied : Z;
  st_flips_completed : Z; st_flips_fence_deferred : Z; st_apply_us_max : Z; st_apply_errors : Z;
  st_events_queued : Z; st_events_dropped : Z; st_reads_parked_max : Z; st_bos_live : Z; st_exports_live : Z;
  st_pool_free_kib : Z }.
#[export] Instance eta_kstats : Eta kms_stats_t := fun r => mkKmsStats (st_vblanks r) (st_vblank_src r) (st_irq_count r)
  (st_irq_spurious r) (st_flips_applied r) (st_flips_completed r) (st_flips_fence_deferred r) (st_apply_us_max r)
  (st_apply_errors r) (st_events_queued r) (st_events_dropped r) (st_reads_parked_max r) (st_bos_live r)
  (st_exports_live r) (st_pool_free_kib r).
Definition kstats0 : kms_stats_t := mkKmsStats 0 0 0 0 0 0 0 0 0 0 0 0 0 0 0.
Record kms_hello_t := mkHello {
  he_proto : Z; he_client_id : Z; he_backend : kms_backend_id; he_vblank_src : kms_vblank_src; he_ncrtc : Z;
  he_buf_port : Z; he_refresh_mhz : Z; he_width : Z; he_height : Z }.

Inductive kms_resp_u :=
  | RU_none | RU_cap (v : Z) | RU_resources (ncrtc nfb : Z) (crtc conn enc : list Z) | RU_connector (c : kms_connector_t)
  | RU_encoder (type crtc_id possible_crtcs possible_clones : Z) | RU_crtc (c : kms_crtc_t)
  | RU_plane_res (l : list Z) | RU_plane (p : kms_plane_t) | RU_count (n : Z)
  | RU_prop (name : string) (flags nvalues nenums : Z) | RU_blob (id length : Z) | RU_dumb (d : kms_dumb_resp_t)
  | RU_fb (id : Z) | RU_flip (f : kms_flip_resp_t) | RU_vblank (sequence time_ns : Z)
  | RU_checksum (sum first_word : Z) | RU_stats (st : kms_stats_t) | RU_hello (h : kms_hello_t).

(** What was written to the message's output buffer. *)
Inductive kms_payload :=
  | PL_none | PL_events (l : list kms_event) | PL_ids (l : list Z) | PL_modes (l : list kms_modeinfo_t)
  | PL_props (l : list kms_prop_value_t) | PL_enums (l : list (Z * string)) | PL_values (l : list Z) | PL_bytes (l : list Z).

(** A reply: [msg.o.err], the [kms_resp_t] in [o.raw] (its err and union) if one was written,
    the payload. *)
Record kms_reply := mkReply { ry_err : Z; ry_resp : option (Z * kms_resp_u); ry_data : kms_payload }.
