(* ===== verification/KmsModes.v ===== *)
(** Scaled display modes and the scan-out rules for imported buffers (kms_modes.h,
    kms_scanout.h): the modes offered, the fit of a lower mode on the screen, what an
    imported framebuffer must satisfy; and the bytes of a mode in a property blob. *)
From S2P Require Import Prelude Proto KmsProto.

Definition i32 (x : Z) : Z := (x + 2 ^ 31) mod 2 ^ 32 - 2 ^ 31.
#[global] Arguments i32 : simpl never.

(** ** The modes offered *)
Definition kms_scaled_sizes : list (Z * Z) :=
  [(1600, 900); (1440, 1080); (1280, 720); (1024, 768); (960, 540); (800, 600); (640, 480)].
Definition KMS_MAX_MODES := 8.

Definition kms_mode_offered (native : kms_modeinfo_t) (w h : Z) : bool :=
  match List.find (λ s, (s.1 =? w) && (s.2 =? h)) kms_scaled_sizes with
  | Some _ => (w <=? hdisplay native) && (h <=? vdisplay native) && (negb (w =? hdisplay native) || negb (h =? vdisplay native))
  | None => false
  end.

(** [snprintf(name, 32, "%ux%u", w, h)] *)
Fixpoint udigits (fuel : nat) (n : Z) (acc : list Z) : list Z :=
  match fuel with
  | O => acc
  | S f => let acc := 48 + n mod 10 :: acc in if n / 10 =? 0 then acc else udigits f (n / 10) acc
  end.
Definition mode_name_of (w h : Z) : list Z :=
  let s := take 31 (udigits 10 w [] ++ 120 :: udigits 10 h []) in s ++ replicate (32 - length s) 0.

Definition kms_mode_scaled (native : kms_modeinfo_t) (refresh_mhz w h : Z) : kms_modeinfo_t :=
  let htotal := u16 (w + w / 10) in
  let vtotal := u16 (h + h / 25 + 8) in
  let hsync_start := u16 (w + w / 40) in
  let vsync_start := u16 (h + 3) in
  let refresh_mhz := if refresh_mhz =? 0 then u32 (vrefresh native * 1000) else refresh_mhz in
  mkMode (u32 (u64 (htotal * vtotal * refresh_mhz) / 1000000))
    (u16 w) hsync_start (u16 (hsync_start + w / 40)) htotal 0
    (u16 h) vsync_start (u16 (vsync_start + 5)) vtotal 0
    (vrefresh native) (Z.lor KMS_MODE_FLAG_NHSYNC KMS_MODE_FLAG_NVSYNC) KMS_MODE_TYPE_DRIVER (mode_name_of w h).

(** All the entries; the code writes the first [max] and returns how many there are. *)
Definition kms_mode_list (native : kms_modeinfo_t) (refresh_mhz : Z) (scaled : bool) : list kms_modeinfo_t :=
  native :: (if scaled then
    (λ s, kms_mode_scaled native refresh_mhz s.1 s.2) <$> List.filter (λ s, kms_mode_offered native s.1 s.2) kms_scaled_sizes
  else []).

(** ** Mode space to screen *)
Record kms_fit_t := mkFit { fit_num : Z; fit_den : Z; fit_ox : Z; fit_oy : Z; fit_fw : Z; fit_fh : Z; fit_sw : Z; fit_sh : Z }.

(** C division truncates; the code corrects the quotient for a negative dividend. *)
Definition kms_fit_div_round (a b : Z) : Z :=
  let q := Z.quot (2 * a + b) (2 * b) in
  if negb (Z.rem (2 * a + b) (2 * b) =? 0) && (2 * a + b <? 0) then q - 1 else q.

Definition kms_fit (sw sh mw mh : Z) : kms_fit_t :=
  if (mw =? 0) || (mh =? 0) || (sw =? 0) || (sh =? 0) || ((mw =? sw) && (mh =? sh)) then mkFit 0 0 0 0 sw sh sw sh
  else
    let '(num, den) := if sw * mh <=? sh * mw then (sw, mw) else (sh, mh) in
    let fw := Z.min (u32 (kms_fit_div_round (mw * num) den)) sw in
    let fh := Z.min (u32 (kms_fit_div_round (mh * num) den)) sh in
    mkFit num den (i32 (u32 (sw - fw) / 2)) (i32 (u32 (sh - fh) / 2)) fw fh sw sh.

Definition kms_fit_is_identity (f : kms_fit_t) : bool := fit_num f =? 0.
Definition kms_fit_bars (f : kms_fit_t) : bool :=
  negb (kms_fit_is_identity f) && ((fit_fw f <? fit_sw f) || (fit_fh f <? fit_sh f)).

(** dx, dy, dw, dh *)
Definition kms_fit_rect (f : kms_fit_t) (x y w h : Z) : Z * Z * Z * Z :=
  if kms_fit_is_identity f then (x, y, w, h)
  else
    let x0 := kms_fit_div_round (x * fit_num f) (fit_den f) in
    let y0 := kms_fit_div_round (y * fit_num f) (fit_den f) in
    let x1 := kms_fit_div_round ((x + w) * fit_num f) (fit_den f) in
    let y1 := kms_fit_div_round ((y + h) * fit_num f) (fit_den f) in
    (i32 (fit_ox f + x0), i32 (fit_oy f + y0), u32 (x1 - x0), u32 (y1 - y0)).

(** ** The bytes of a kms_modeinfo_t (68, little-endian) *)
Definition le16 (x : Z) : list Z := [x mod 2 ^ 8; x / 2 ^ 8 mod 2 ^ 8].
Definition le32 (x : Z) : list Z := le16 (x mod 2 ^ 16) ++ le16 (x / 2 ^ 16 mod 2 ^ 16).
Definition MODEINFO_SIZE := 68.
Definition modeinfo_bytes (m : kms_modeinfo_t) : list Z :=
  le32 (clock m) ++
  le16 (hdisplay m) ++ le16 (hsync_start m) ++ le16 (hsync_end m) ++ le16 (htotal m) ++ le16 (hskew m) ++
  le16 (vdisplay m) ++ le16 (vsync_start m) ++ le16 (vsync_end m) ++ le16 (vtotal m) ++ le16 (vscan m) ++
  le32 (vrefresh m) ++ le32 (mode_flags m) ++ le32 (mode_type m) ++ mode_name m.

(** [memcpy] into a blob's [uint8_t data[256]]: the bytes past what was written stay. *)
Definition byte_at (data : list Z) (i : nat) : Z := default 0 (data !! i).
Definition rd16 (data : list Z) (i : nat) : Z := byte_at data i + 2 ^ 8 * byte_at data (i + 1).
Definition rd32 (data : list Z) (i : nat) : Z := rd16 data i + 2 ^ 16 * rd16 data (i + 2).
Definition modeinfo_of (data : list Z) : kms_modeinfo_t :=
  mkMode (rd32 data 0) (rd16 data 4) (rd16 data 6) (rd16 data 8) (rd16 data 10) (rd16 data 12)
    (rd16 data 14) (rd16 data 16) (rd16 data 18) (rd16 data 20) (rd16 data 22)
    (rd32 data 24) (rd32 data 28) (rd32 data 32) (take 32 (drop 36 data)).

(** ** Scan-out of imported buffers (kms_scanout.h) *)
Definition KMS_SCANOUT_LIMIT := 2 ^ 30.
Definition KMS_IMPORT_ALIGN := 64.

(** Why not: the strings of the log lines. *)
Inductive import_why := W_noncontig | W_above_1g | W_modifier | W_align | W_size.

Definition kms_import_why (pa size : Z) (contiguous : bool) : option import_why :=
  if negb contiguous then Some W_noncontig
  else if (size =? 0) || (KMS_SCANOUT_LIMIT <? u64 (pa + size)) || (u64 (pa + size) <? pa) then Some W_above_1g
  else None.

Definition kms_import_fb_why (rq : kms_addfb2_req_t) (bo_size : Z) (why : option import_why) : option import_why :=
  match why with
  | Some w => Some w
  | None =>
      if negb (af_modifier rq =? KMS_MOD_LINEAR) then Some W_modifier
      else if negb (af_pitch rq mod KMS_IMPORT_ALIGN =? 0) || negb (af_offset rq mod KMS_IMPORT_ALIGN =? 0) then Some W_align
      else if (af_width rq =? 0) || (af_height rq =? 0) || (af_pitch rq <? u32 (af_width rq * 4)) ||
              (bo_size <? af_offset rq + af_pitch rq * af_height rq) then Some W_size
      else None
  end.
