(* ===== verification/KmsState.v ===== *)
(** The display server's state (tools/gpu-lane/kms/kms.h and the file-scope variables of
    kms_main.c, kms_backend.c and kms_vblank.c), its environment and its effects. *)
From S2P Require Import Prelude Proto State KmsProto KmsModes.

(** ** Clients *)
Record kms_client_t := mkKClient {
  kc_used : bool; kc_id : Z; kc_pid : Z; kc_caps : Z;
  kc_evq : Z → kms_event;            (* KMS_EVQ_LEN entries *)
  kc_evhead : Z; kc_evtail : Z;      (* free-running *)
  kc_dropped : Z }.
#[export] Instance eta_kclient : Eta kms_client_t := fun r => mkKClient (kc_used r) (kc_id r) (kc_pid r) (kc_caps r)
  (kc_evq r) (kc_evhead r) (kc_evtail r) (kc_dropped r).
Definition event0 : kms_event := EV_vblank 0 0 0 0 0 0.
Definition kclient0 : kms_client_t := mkKClient false 0 0 0 (λ _, event0) 0 0 0.

(** ** Buffer objects *)
Inductive kms_bok := KMS_BOK_POOL | KMS_BOK_SLOT | KMS_BOK_IMPORT | KMS_BOK_ALIAS.
#[export] Instance kms_bok_eq_dec : EqDecision kms_bok.
Proof. solve_decision. Defined.

Record kms_bo_t := mkKBo {
  kb_used : bool; kb_handle : Z; kb_owner : Z; kb_handle_open : bool; kb_refs : Z; kb_kind : kms_bok;
  kb_slot : Z; kb_pa : Z; kb_off : Z; kb_size : Z; kb_va : Z; kb_w : Z; kb_h : Z; kb_bpp : Z; kb_pitch : Z;
  kb_exported : bool; kb_prime : bool; kb_imp_fd : Z; kb_imp_mem : kms_memref_t; kb_alias_src : Z;
  kb_imp_why : option import_why; kb_imp_shown : bool }.
#[export] Instance eta_kbo : Eta kms_bo_t := fun r => mkKBo (kb_used r) (kb_handle r) (kb_owner r) (kb_handle_open r)
  (kb_refs r) (kb_kind r) (kb_slot r) (kb_pa r) (kb_off r) (kb_size r) (kb_va r) (kb_w r) (kb_h r) (kb_bpp r) (kb_pitch r)
  (kb_exported r) (kb_prime r) (kb_imp_fd r) (kb_imp_mem r) (kb_alias_src r) (kb_imp_why r) (kb_imp_shown r).
(** [memset(b, 0, sizeof *b)] *)
Definition kbo0 : kms_bo_t :=
  mkKBo false 0 0 false 0 KMS_BOK_POOL 0 0 0 0 0 0 0 0 0 false false 0 memref0 0 None false.

(** A released import, closed outside the lock. *)
Record kms_reap_t := mkReap { rp_fd : Z; rp_va : Z; rp_size : Z; rp_handle : Z; rp_id : Z }.

(** ** Framebuffers and property blobs *)
Record kms_fb_t := mkKFb {
  kf_used : bool; kf_id : Z; kf_owner : Z; kf_user_ref : bool; kf_refs : Z; kf_bo : Z;
  kf_w : Z; kf_h : Z; kf_format : Z; kf_pitch : Z; kf_offset : Z }.
#[export] Instance eta_kfb : Eta kms_fb_t := fun r => mkKFb (kf_used r) (kf_id r) (kf_owner r) (kf_user_ref r)
  (kf_refs r) (kf_bo r) (kf_w r) (kf_h r) (kf_format r) (kf_pitch r) (kf_offset r).
Definition kfb0 : kms_fb_t := mkKFb false 0 0 false 0 0 0 0 0 0 0.

Record kms_srvblob_t := mkKBlob { kl_used : bool; kl_id : Z; kl_owner : Z; kl_len : Z; kl_data : list Z }.
#[export] Instance eta_kblob : Eta kms_srvblob_t := fun r => mkKBlob (kl_used r) (kl_id r) (kl_owner r) (kl_len r) (kl_data r).
Definition kblob0 : kms_srvblob_t := mkKBlob false 0 0 0 (replicate 256 0).

(** ** The CRTC *)
Inductive kms_pend := KMS_PEND_NONE | KMS_PEND_FENCE | KMS_PEND_ARMED.
#[export] Instance kms_pend_eq_dec : EqDecision kms_pend.
Proof. solve_decision. Defined.

Record kms_crtc_state_t := mkCrtc {
  cs_idx : Z; cs_fw_display_id : Z; cs_connection : Z; cs_mode : kms_modeinfo_t; cs_mode_from_fw : bool;
  cs_refresh_mhz : Z; cs_mode_blob : Z; cs_edid_blob : Z; cs_mm_w : Z; cs_mm_h : Z;
  cs_umode_w : Z; cs_umode_h : Z; cs_umode_client : Z; cs_umode_blob : Z; cs_fit : kms_fit_t;
  cs_plane_mask : Z; cs_cur : Z → kms_atomic_plane_t;
  cs_pend : kms_pend; cs_pmask : Z; cs_pst : Z → kms_atomic_plane_t; cs_pclient : Z; cs_puser : Z; cs_pevent : bool;
  cs_parmed_cnt : Z; cs_pqueued_cnt : Z; cs_pqueued_seq : Z; cs_ptarget_seq : Z; cs_seq : Z; cs_last_vbl_cnt : Z }.
#[export] Instance eta_crtc : Eta kms_crtc_state_t := fun r => mkCrtc (cs_idx r) (cs_fw_display_id r) (cs_connection r)
  (cs_mode r) (cs_mode_from_fw r) (cs_refresh_mhz r) (cs_mode_blob r) (cs_edid_blob r) (cs_mm_w r) (cs_mm_h r)
  (cs_umode_w r) (cs_umode_h r) (cs_umode_client r) (cs_umode_blob r) (cs_fit r) (cs_plane_mask r) (cs_cur r)
  (cs_pend r) (cs_pmask r) (cs_pst r) (cs_pclient r) (cs_puser r) (cs_pevent r) (cs_parmed_cnt r) (cs_pqueued_cnt r)
  (cs_pqueued_seq r) (cs_ptarget_seq r) (cs_seq r) (cs_last_vbl_cnt r).
Definition crtc0 : kms_crtc_state_t := mkCrtc 0 0 0 mode0 false 0 0 0 0 0 0 0 0 0 (mkFit 0 0 0 0 0 0 0 0) 0
  (λ _, plane0) KMS_PEND_NONE 0 (λ _, plane0) 0 0 false 0 0 0 0 0 0.

(** ** Messages, parked requests, queued vblank events *)
(** Which copy of a message: the dispatch loop's, the parked one, the one answered. *)
Inductive msg_home := H_loop | H_parked (i : Z) | H_answer (k : nat).
#[export] Instance msg_home_eq_dec : EqDecision msg_home.
Proof. solve_decision. Defined.
(** [msg.o.data]: none, a window of the client, or the [o.raw] of some copy of the message
    (a packed reply of at most 64 bytes). *)
Inductive out_ptr := OP_null | OP_window | OP_raw (h : msg_home).
Record kms_msg := mkMsg { m_pid : Z; m_oid : Z; m_out : out_ptr; m_osize : Z; m_nonblock : bool }.
#[export] Instance eta_kmsg : Eta kms_msg := fun r => mkMsg (m_pid r) (m_oid r) (m_out r) (m_osize r) (m_nonblock r).

Inductive kms_park := KMS_PARK_READ | KMS_PARK_VBLANK.
#[export] Instance kms_park_eq_dec : EqDecision kms_park.
Proof. solve_decision. Defined.
Record kms_parked_t := mkParked {
  pk_used : bool; pk_kind : kms_park; pk_client : Z; pk_crtc : Z; pk_target_seq : Z; pk_deadline_cnt : Z;
  pk_msg : kms_msg; pk_rid : Z; pk_reply : kms_reply }.
#[export] Instance eta_parked : Eta kms_parked_t := fun r => mkParked (pk_used r) (pk_kind r) (pk_client r) (pk_crtc r)
  (pk_target_seq r) (pk_deadline_cnt r) (pk_msg r) (pk_rid r) (pk_reply r).
Definition reply0 : kms_reply := mkReply 0 None PL_none.
Definition parked0 : kms_parked_t := mkParked false KMS_PARK_READ 0 0 0 0 (mkMsg 0 0 OP_null 0 false) 0 reply0.

Record kms_vblev_t := mkVblev { ve_used : bool; ve_client : Z; ve_crtc : Z; ve_type : Z; ve_target_seq : Z; ve_user_data : Z }.
#[export] Instance eta_vblev : Eta kms_vblev_t := fun r => mkVblev (ve_used r) (ve_client r) (ve_crtc r) (ve_type r)
  (ve_target_seq r) (ve_user_data r).
Definition vblev0 : kms_vblev_t := mkVblev false 0 0 0 0 0.

(** ** What start-up fixes: options, ports, the firmware framebuffer, the pool *)
Record kms_opts := mkOpts {
  op_console_off : bool; op_bus_c0 : bool; op_pool_mib : Z; op_pool_max_end : Z; op_gate_us : Z; op_no_kick : bool;
  op_latch_guard_us : Z; op_blank_fb : bool; op_native_only : bool; op_be : kms_backend_id; op_xl : bool; op_overlays : Z;
  op_port : Z; op_buf_port : Z; op_ncrtc : Z; op_cnt_hz : Z; op_cnt0 : Z; op_mono0_ns : Z; op_poll_notify : bool;
  op_v3d : bool;                     (* srv.v3d_fp != NULL *)
  op_fb_pa : Z; op_fb_w : Z; op_fb_h : Z; op_fb_pitch : Z; op_fb_virt_h : Z; op_fb_yoff0 : Z; op_fb_format : Z;
  op_fb_layer : Z; op_have_fb_layer : bool; op_fb_slots : Z; op_in_formats : Z → Z;
  op_pool_ok : bool; op_pool_va : Z; op_pool_pa : Z; op_pool_size : Z }.
#[export] Instance eta_opts : Eta kms_opts := fun r => mkOpts (op_console_off r) (op_bus_c0 r) (op_pool_mib r)
  (op_pool_max_end r) (op_gate_us r) (op_no_kick r) (op_latch_guard_us r) (op_blank_fb r) (op_native_only r) (op_be r) (op_xl r)
  (op_overlays r) (op_port r) (op_buf_port r) (op_ncrtc r) (op_cnt_hz r) (op_cnt0 r) (op_mono0_ns r) (op_poll_notify r)
  (op_v3d r) (op_fb_pa r) (op_fb_w r) (op_fb_h r) (op_fb_pitch r) (op_fb_virt_h r) (op_fb_yoff0 r) (op_fb_format r) (op_fb_layer r)
  (op_have_fb_layer r) (op_fb_slots r) (op_in_formats r) (op_pool_ok r) (op_pool_va r) (op_pool_pa r) (op_pool_size r).

(** ** The vblank thread's own variables *)
Record kms_vb := mkVb {
  vb_smi : bool; vb_hvs : bool;      (* mapped *)
  vb_count : Z; vb_spurious : Z; vb_head : Z; vb_ts : Z → Z; vb_registered : bool; vb_seen : Z;
  vb_storm_base : Z; vb_storm_t0 : Z; vb_hvs_last : Z; vb_timer_next : Z; vb_period_cnt : Z; vb_last_vbl : Z;
  vb_meas_t0 : Z; vb_meas_n : Z; vb_measured : bool;
  vb_src : kms_vblank_src; vb_hvs_ch : Z; vb_gate_kick : Z; vb_last_tick : Z }.
#[export] Instance eta_vb : Eta kms_vb := fun r => mkVb (vb_smi r) (vb_hvs r) (vb_count r) (vb_spurious r) (vb_head r)
  (vb_ts r) (vb_registered r) (vb_seen r) (vb_storm_base r) (vb_storm_t0 r) (vb_hvs_last r) (vb_timer_next r)
  (vb_period_cnt r) (vb_last_vbl r) (vb_meas_t0 r) (vb_meas_n r) (vb_measured r) (vb_src r) (vb_hvs_ch r) (vb_gate_kick r)
  (vb_last_tick r).

Record kms_flipstat_t := mkFlipstat {
  fs_flips : Z; fs_vbl1 : Z; fs_vbl2 : Z; fs_vbl3p : Z; fs_deferred : Z; fs_applied_gate : Z; fs_applied_vblank : Z;
  fs_kicks : Z; fs_late_target : Z; fs_q2a_us_sum : Z; fs_q2a_us_max : Z }.
#[export] Instance eta_flipstat : Eta kms_flipstat_t := fun r => mkFlipstat (fs_flips r) (fs_vbl1 r) (fs_vbl2 r)
  (fs_vbl3p r) (fs_deferred r) (fs_applied_gate r) (fs_applied_vblank r) (fs_kicks r) (fs_late_target r)
  (fs_q2a_us_sum r) (fs_q2a_us_max r).
Definition flipstat0 : kms_flipstat_t := mkFlipstat 0 0 0 0 0 0 0 0 0 0 0.

(** ** Effects and the environment *)
(** The 60-byte SET_PLANE value. *)
Record fw_plane_t := mkFwPlane {
  fw_display : Z; fw_plane_id : Z; fw_type : Z; fw_layer : Z; fw_width : Z; fw_height : Z; fw_pitch : Z; fw_vpitch : Z;
  fw_src : Z * Z * Z * Z; fw_dst : Z * Z * Z * Z; fw_alpha : Z; fw_num_planes : Z; fw_bus : Z; fw_transform : Z }.

Inductive kms_effect :=
  | KE_respond (port rid : Z) (r : kms_reply)
  | KE_export (port id va size : Z) | KE_unexport (port id : Z)
  | KE_zero (va size : Z) | KE_munmap (va size : Z) | KE_close (fd : Z) | KE_dsb
  | KE_set_plane (p : fw_plane_t) | KE_pan (y : Z) | KE_blank (on : bool) | KE_console (on : bool)
  | KE_notify (port id : Z) | KE_signal
  | KE_smi (off v : Z) | KE_irq (on : bool)
  | KE_names_release | KE_exit.
Record kms_io := mkKio { ki_n : Z; ki_log : list kms_effect }.
#[export] Instance eta_kio : Eta kms_io := fun r => mkKio (ki_n r) (ki_log r).

(** What the server reads: the [n]-th read of a run may return anything. *)
Class KEnv := {
  kv_cnt : Z → Z;                       (* cntvct_el0 *)
  kv_mmap : Z → Z → option Z;           (* mmap of contiguous anonymous pages *)
  kv_physmap : Z → Z → Z → option Z;    (* mmap(MAP_PHYSMEM) of pa, size *)
  kv_va2pa : Z → Z → option Z;
  kv_export : Z → Z;                    (* memExport result *)
  kv_mem : Z → Z → Z;                   (* a 32-bit word of memory *)
  kv_fw : Z → Z * Z;                    (* a mailbox call: result, answered word *)
  kv_console : Z → Z;                   (* FBCONSETMODE result *)
  kv_fp : Z → v3da_fence_page_t;        (* the render server's fence page *)
  kv_smi : Z → Z → Z;                   (* SMI registers *)
  kv_hvs : Z → Z → Z }.                 (* HVS registers and display lists *)

(** ** The server (kms_srv_t) *)
Record kms_srv_t := mkKms {
  ks_opt : kms_opts;
  ks_crtc : Z → kms_crtc_state_t;
  ks_clients : Z → kms_client_t;
  ks_bos : Z → kms_bo_t;
  ks_fbs : Z → kms_fb_t;
  ks_blobs : Z → kms_srvblob_t;
  ks_next_handle : Z; ks_next_fb : Z; ks_next_blob : Z;
  ks_parked : Z → kms_parked_t; ks_nparked : Z;
  ks_vblev : Z → kms_vblev_t;
  ks_reap : list kms_reap_t;
  ks_imports_live : Z; ks_aliases_live : Z;
  ks_slot_used : Z; ks_fb_blanked : bool; ks_console_disabled : bool; ks_plane_touched : Z;
  ks_vb : kms_vb;
  ks_st : kms_stats_t; ks_fst : kms_flipstat_t;
  ks_quit : bool;
  ks_io : kms_io }.
#[export] Instance eta_kms : Eta kms_srv_t := fun r => mkKms (ks_opt r) (ks_crtc r) (ks_clients r) (ks_bos r) (ks_fbs r)
  (ks_blobs r) (ks_next_handle r) (ks_next_fb r) (ks_next_blob r) (ks_parked r) (ks_nparked r) (ks_vblev r) (ks_reap r)
  (ks_imports_live r) (ks_aliases_live r) (ks_slot_used r) (ks_fb_blanked r) (ks_console_disabled r) (ks_plane_touched r)
  (ks_vb r) (ks_st r) (ks_fst r) (ks_quit r) (ks_io r).

Definition kms_tick (s : kms_srv_t) : kms_srv_t := s <| ks_io ; ki_n ::= Z.succ |>.
Definition kms_emit (e : kms_effect) (s : kms_srv_t) : kms_srv_t := s <| ks_io ; ki_log ::= λ l, l ++ [e] |>.
Definition kms_cur (s : kms_srv_t) : Z := ki_n (ks_io s).

Definition set_kclient (i : Z) (f : kms_client_t → kms_client_t) (s : kms_srv_t) : kms_srv_t :=
  s <| ks_clients ::= λ a, <[i := f (a i)]> a |>.
Definition set_kbo (i : Z) (f : kms_bo_t → kms_bo_t) (s : kms_srv_t) : kms_srv_t :=
  s <| ks_bos ::= λ a, <[i := f (a i)]> a |>.
Definition set_kfb (i : Z) (f : kms_fb_t → kms_fb_t) (s : kms_srv_t) : kms_srv_t :=
  s <| ks_fbs ::= λ a, <[i := f (a i)]> a |>.
Definition set_kblob (i : Z) (f : kms_srvblob_t → kms_srvblob_t) (s : kms_srv_t) : kms_srv_t :=
  s <| ks_blobs ::= λ a, <[i := f (a i)]> a |>.
Definition set_crtc (i : Z) (f : kms_crtc_state_t → kms_crtc_state_t) (s : kms_srv_t) : kms_srv_t :=
  s <| ks_crtc ::= λ a, <[i := f (a i)]> a |>.
Definition set_parked (i : Z) (f : kms_parked_t → kms_parked_t) (s : kms_srv_t) : kms_srv_t :=
  s <| ks_parked ::= λ a, <[i := f (a i)]> a |>.
Definition set_vblev (i : Z) (f : kms_vblev_t → kms_vblev_t) (s : kms_srv_t) : kms_srv_t :=
  s <| ks_vblev ::= λ a, <[i := f (a i)]> a |>.
Definition kstat (f : kms_stats_t → kms_stats_t) (s : kms_srv_t) : kms_srv_t := s <| ks_st ::= f |>.

Section env.
Context `{K : KEnv}.
(** [kms_cnt()] *)
Definition kms_cnt (s : kms_srv_t) : Z * kms_srv_t := (u64 (kv_cnt (kms_cur s)), kms_tick s).
End env.
Definition kms_cnt_us (s : kms_srv_t) (ticks : Z) : Z := u64 (ticks * 1000000) / op_cnt_hz (ks_opt s).
Definition kms_us_cnt (s : kms_srv_t) (us : Z) : Z := u64 (us * op_cnt_hz (ks_opt s)) / 1000000.

(** cntvct to CLOCK_MONOTONIC nanoseconds; C division truncates. *)
Definition i64 (x : Z) : Z := (x + 2 ^ 63) mod 2 ^ 64 - 2 ^ 63.
Definition kms_cnt_to_mono_ns (s : kms_srv_t) (cnt : Z) : Z :=
  let hz := op_cnt_hz (ks_opt s) in
  let d := i64 (cnt - op_cnt0 (ks_opt s)) in
  op_mono0_ns (ks_opt s) + Z.quot d hz * 1000000000 + Z.quot (Z.rem d hz * 1000000000) hz.

Definition KMS_PAGE_ROUND (x : Z) : Z := Z.land (u64 (x + PAGE_SIZE - 1)) (u64 (Z.lnot (PAGE_SIZE - 1))).
