(* ===== verification/KmsBo.v ===== *)
(** Dumb buffers, imports, framebuffers and property blobs of the display server
    (tools/gpu-lane/kms/kms_bo.c).  A pointer into a table is the index of its entry. *)
From S2P Require Import Prelude Proto State KmsProto KmsModes KmsState.

(** ** The pool *)
Definition pool_live (b : kms_bo_t) : bool := kb_used b && bool_decide (kb_kind b = KMS_BOK_POOL).
Definition pool_cands (s : kms_srv_t) : list Z :=
  0 :: ((λ i, kb_off (ks_bos s i) + kb_size (ks_bos s i)) <$> List.filter (λ i, pool_live (ks_bos s i)) (seqZ 0 KMS_MAX_BOS)).
Definition pool_fits (s : kms_srv_t) (size c : Z) : bool :=
  (c + size <=? op_pool_size (ks_opt s)) &&
  forallb (λ i, let b := ks_bos s i in negb (pool_live b && (c <? kb_off b + kb_size b) && (kb_off b <? c + size)))
    (seqZ 0 KMS_MAX_BOS).
(** The lowest candidate that fits; None is (size_t)-1. *)
Definition pool_find (s : kms_srv_t) (size : Z) : option Z :=
  foldl (λ best c, if pool_fits s size c && match best with None => true | Some b => c <? b end then Some c else best)
    None (pool_cands s).

Section env.
Context `{K : KEnv}.

(** Take blocks until one ends low enough: those not kept, and the one kept (va, pa). *)
Fixpoint pool_tries (n : nat) (size : Z) (rej : list Z) (s : kms_srv_t) : list Z * option (Z * Z) * kms_srv_t :=
  match n with
  | O => (rej, None, s)
  | S n =>
      let m := kv_mmap (kms_cur s) size in
      let s := kms_tick s in
      match m with
      | None => (rej, None, s)
      | Some va =>
          let pa := kv_va2pa (kms_cur s) va in
          let s := kms_tick s in
          let last := kv_va2pa (kms_cur s) (va + size - PAGE_SIZE) in
          let s := kms_tick s in
          match pa with
          | None => pool_tries n size (rej ++ [va]) s
          | Some pa =>
              if negb (bool_decide (last = Some (u64 (pa + size - PAGE_SIZE)))) then pool_tries n size (rej ++ [va]) s
              else if u64 (pa + size) <=? op_pool_max_end (ks_opt s) then (rej, Some (va, pa), s)
              else pool_tries n size (rej ++ [va]) s
          end
      end
  end.

Definition kms_pool_init (s : kms_srv_t) : Z * kms_srv_t :=
  let size := op_pool_mib (ks_opt s) * KMS_MIB in
  if size =? 0 then (- EINVAL, s)
  else
    let '(rej, found, s) := pool_tries 16 size [] s in
    let s := foldl (λ s va, kms_emit (KE_munmap va size) s) s rej in
    match found with
    | None => (- ENOMEM, s)
    | Some (va, pa) =>
        (0, s <| ks_opt ::= λ o, o <| op_pool_va := va |> <| op_pool_pa := pa |> <| op_pool_size := size |> <| op_pool_ok := true |> |>)
    end.

Definition kms_pool_fini (s : kms_srv_t) : kms_srv_t :=
  for_ 0 KMS_MAX_BOS (λ i s,
    let b := ks_bos s i in
    if kb_used b && kb_exported b then
      kms_emit (KE_unexport (op_buf_port (ks_opt s)) (kb_handle b)) (set_kbo i (λ b, b <| kb_exported := false |>) s)
    else s) s.

(** ** Dumb buffers *)
Definition memref_fill (s : kms_srv_t) (b : kms_bo_t) : kms_memref_t :=
  match kb_kind b with
  | KMS_BOK_IMPORT | KMS_BOK_ALIAS => kb_imp_mem b
  | KMS_BOK_POOL => mkMemref KMS_MEM_OID KMS_CACHE_UNCACHED (op_buf_port (ks_opt s)) (kb_size b) (kb_handle b)
  | KMS_BOK_SLOT => mkMemref KMS_MEM_PHYS KMS_CACHE_UNCACHED 0 (kb_size b) (kb_pa b)
  end.
Definition bo_slot_free (s : kms_srv_t) : option Z := find_first (λ i, negb (kb_used (ks_bos s i))) 0 KMS_MAX_BOS.
Definition kms_bo_get (s : kms_srv_t) (client handle : Z) : option Z :=
  find_first (λ i, let b := ks_bos s i in
    kb_used b && kb_handle_open b && (kb_handle b =? handle) && (kb_owner b =? client)) 0 KMS_MAX_BOS.

Definition bo_from_slot (b : kms_bo_t) (w h : Z) (s : kms_srv_t) : Z * kms_bo_t * kms_srv_t :=
  let o := ks_opt s in
  if is_plane (op_be o) || negb (w =? op_fb_w o) || negb (h =? op_fb_h o) then (- ENOENT, b, s)
  else
    match find_first (λ i, negb (Z.testbit (ks_slot_used s) i)) 1 (op_fb_slots o) with
    | None => (- ENOENT, b, s)
    | Some i =>
        let pa := u64 (op_fb_pa o + i * op_fb_h o * op_fb_pitch o) in
        if negb (Z.land pa (PAGE_SIZE - 1) =? 0) then (- ENOENT, b, s)
        else
          let b := b <| kb_size := KMS_PAGE_ROUND (op_fb_pitch o * op_fb_h o) |> in
          let m := kv_physmap (kms_cur s) pa (kb_size b) in
          let s := kms_tick s in
          match m with
          | None => (- ENOMEM, b, s)
          | Some va =>
              (0, b <| kb_kind := KMS_BOK_SLOT |> <| kb_slot := i |> <| kb_pa := pa |> <| kb_va := va |>
                    <| kb_pitch := op_fb_pitch o |>,
               s <| ks_slot_used ::= λ m, Z.setbit m i |>)
          end
    end.

Definition bo_from_pool (b : kms_bo_t) (w h bpp : Z) (s : kms_srv_t) : Z * kms_bo_t * kms_srv_t :=
  let o := ks_opt s in
  if negb (op_pool_ok o) then (- ENOMEM, b, s)
  else
    let pitch := Z.land (u32 (u32 (w * (u32 (bpp + 7) / 8)) + 63)) (u32 (Z.lnot 63)) in
    let b := b <| kb_pitch := pitch |> <| kb_size := KMS_PAGE_ROUND (pitch * h) |> in
    match pool_find s (kb_size b) with
    | None => (- ENOMEM, b, s)
    | Some off =>
        let b := b <| kb_kind := KMS_BOK_POOL |> <| kb_off := off |> <| kb_pa := u64 (op_pool_pa o + off) |>
                   <| kb_va := op_pool_va o + off |> in
        let rc := kv_export (kms_cur s) in
        let s := kms_emit (KE_export (op_buf_port o) (kb_handle b) (kb_va b) (kb_size b)) (kms_tick s) in
        if negb (rc =? 0) then (rc, b, s)
        else (0, b <| kb_exported := true |>, kstat (λ t, t <| st_exports_live ::= λ n, u16 (n + 1) |>) s)
    end.

Definition dumb_resp (s : kms_srv_t) (b : kms_bo_t) : kms_dumb_resp_t :=
  mkDumb (kb_handle b) (kb_pitch b) (kb_size b) (memref_fill s b).

Definition kms_bo_create (client : Z) (rq : kms_create_dumb_req_t) (s : kms_srv_t) : Z * option kms_dumb_resp_t * kms_srv_t :=
  if (cd_width rq =? 0) || (cd_height rq =? 0) || (8192 <? cd_width rq) || (8192 <? cd_height rq) ||
     (negb (cd_bpp rq =? 32) && negb (cd_bpp rq =? 16) && negb (cd_bpp rq =? 8))
  then (- EINVAL, None, s)
  else
    match bo_slot_free s with
    | None => (- ENOSPC, None, s)
    | Some idx =>
        let b := kbo0 <| kb_handle := ks_next_handle s |> <| kb_owner := client |> <| kb_w := cd_width rq |>
                      <| kb_h := cd_height rq |> <| kb_bpp := cd_bpp rq |> in
        let s := s <| ks_next_handle ::= λ n, u32 (n + 1) |> in
        let '(rc, b, s) :=
          if negb (has (cd_flags rq) KMS_DUMB_POOL) && (cd_bpp rq =? 32) then bo_from_slot b (cd_width rq) (cd_height rq) s
          else (- ENOENT, b, s) in
        let '(rc, b, s) := if negb (rc =? 0) then bo_from_pool b (cd_width rq) (cd_height rq) (cd_bpp rq) s else (rc, b, s) in
        if negb (rc =? 0) then (rc, None, set_kbo idx (λ _, kbo0) s)
        else
          let b := b <| kb_used := true |> <| kb_handle_open := true |> <| kb_refs := 1 |> in
          let s := set_kbo idx (λ _, b) s in
          let s := kms_emit KE_dsb (kms_emit (KE_zero (kb_va b) (kb_size b)) s) in
          let s := kstat (λ t, t <| st_bos_live ::= λ n, u16 (n + 1) |>) s in
          (0, Some (dumb_resp s b), s)
    end.

Definition kms_bo_map (client handle : Z) (s : kms_srv_t) : Z * option kms_dumb_resp_t :=
  match kms_bo_get s client handle with
  | None => (- ENOENT, None)
  | Some i => (0, Some (dumb_resp s (ks_bos s i)))
  end.

(** What the last reference of an object releases. *)
Definition bo_free (idx : Z) (s : kms_srv_t) : kms_srv_t :=
  let b := ks_bos s idx in
  let s := if bool_decide (kb_kind b = KMS_BOK_ALIAS) then s <| ks_aliases_live ::= λ n, u32 (n - 1) |> else s in
  let s :=
    if kb_exported b then
      let s := set_kbo idx (λ b, b <| kb_exported := false |>) s in
      let s := kms_emit (KE_unexport (op_buf_port (ks_opt s)) (kb_handle b)) s in
      kstat (λ t, t <| st_exports_live ::= λ n, u16 (n - 1) |>) s
    else s in
  let s :=
    if bool_decide (kb_kind b = KMS_BOK_SLOT) then
      kms_emit (KE_munmap (kb_va b) (kb_size b)) s <| ks_slot_used ::= λ m, Z.clearbit m (kb_slot b) |>
    else s in
  let s :=
    if bool_decide (kb_kind b = KMS_BOK_IMPORT) then
      (if Z.of_nat (length (ks_reap s)) <? KMS_MAX_BOS then
         s <| ks_reap ::= λ l, l ++ [mkReap (kb_imp_fd b) (kb_va b) (kb_size b) (kb_handle b) (mr_addr (kb_imp_mem b))] |>
       else kms_emit (KE_close (kb_imp_fd b)) (kms_emit (KE_munmap (kb_va b) (kb_size b)) s))
      <| ks_imports_live ::= λ n, u32 (n - 1) |>
    else s in
  let s := kstat (λ t, t <| st_bos_live ::= λ n, u16 (n - 1) |>) s in
  set_kbo idx (λ _, kbo0) s.

(** The recursion frees an entry each time: one round more than there are entries. *)
Fixpoint bo_unref_n (fuel : nat) (idx : Z) (s : kms_srv_t) : kms_srv_t :=
  match fuel with
  | O => s
  | S fuel =>
      let b := ks_bos s idx in
      if negb (kb_used b) || (kb_refs b =? 0) then s
      else
        let s := set_kbo idx (λ b, b <| kb_refs ::= λ n, u32 (n - 1) |>) s in
        if negb (u32 (kb_refs b - 1) =? 0) then s
        else
          let src := if bool_decide (kb_kind b = KMS_BOK_ALIAS) then kb_alias_src b else KMS_MAX_BOS in
          let s := bo_free idx s in
          if (src <? KMS_MAX_BOS) && negb (src =? idx) then bo_unref_n fuel src s else s
  end.
Definition kms_bo_unref (idx : Z) (s : kms_srv_t) : kms_srv_t := bo_unref_n (Z.to_nat KMS_MAX_BOS + 1) idx s.

Definition kms_bo_destroy (client handle : Z) (s : kms_srv_t) : Z * kms_srv_t :=
  match kms_bo_get s client handle with
  | None => (- ENOENT, s)
  | Some i => (0, kms_bo_unref i (set_kbo i (λ b, b <| kb_handle_open := false |>) s))
  end.

(** FNV-1a over 32-bit words. *)
Definition checksum_step (va : Z) (i : Z) (st : Z * Z * kms_srv_t) : Z * Z * kms_srv_t :=
  let '(h, first, s) := st in
  let w := u32 (kv_mem (kms_cur s) (va + 4 * i)) in
  (u32 (Z.lxor h w * 16777619), if i =? 0 then w else first, kms_tick s).
Definition kms_bo_checksum (client : Z) (rq : kms_checksum_req_t) (s : kms_srv_t) : Z * kms_resp_u * kms_srv_t :=
  match kms_bo_get s client (ck_handle rq) with
  | None => (- EINVAL, RU_none, s)
  | Some i =>
      let b := ks_bos s i in
      if (kb_size b <? ck_offset rq + ck_len rq) || has (ck_offset rq) 3 || has (ck_len rq) 3 then (- EINVAL, RU_none, s)
      else
        let '(h, first, s) := for_ 0 (ck_len rq / 4) (checksum_step (kb_va b + ck_offset rq)) (2166136261, 0, s) in
        (0, RU_checksum h first, s)
  end.
End env.

(** ** PRIME import of a foreign buffer *)
Record kms_import_map_t := mkImap { im_fd : Z; im_va : Z; im_size : Z; im_pa : Z; im_pages : Z; im_contiguous : bool }.
Definition imap0 : kms_import_map_t := mkImap (-1) 0 0 0 0 false.

(** What the exporter and the kernel answer while the name is opened and mapped. *)
Record kimp_env := mkKie {
  kie_lookup : option (Z * Z);         (* the name's port and id *)
  kie_open : option Z; kie_open_errno : Z;
  kie_end : Z;                         (* lseek(fd, 0, SEEK_END) *)
  kie_mmap : option Z; kie_mmap_errno : Z;
  kie_pa : Z → option Z }.             (* va2pa of page i once touched *)

(** Are all pages there?  And one linear range? *)
Definition import_pages (ie : kimp_env) (pages : Z) : option (Z * bool) :=
  for_ 0 pages (λ i r,
    match r, kie_pa ie i with
    | Some (pa0, contiguous), Some pa =>
        if negb (Z.land pa (PAGE_SIZE - 1) =? 0) then None
        else if i =? 0 then Some (pa, contiguous)
        else Some (pa0, contiguous && (pa =? u64 (pa0 + i * PAGE_SIZE)))
    | _, _ => None
    end) (Some (0, true)).

Definition kms_import_map (rq : kms_prime_import_req_t) (ie : kimp_env) : Z * kms_import_map_t * list kms_effect :=
  if negb (pi_ns rq =? KMS_IMPORT_NS_V3DBUF) || negb (pi_pad rq =? 0) || (pi_id rq =? 0) then (- EINVAL, imap0, [])
  else
    match kie_lookup ie with
    | None => (- ENOENT, imap0, [])
    | Some (port, id) =>
        if negb (port =? pi_port rq) || negb (id =? pi_id rq) then (- EINVAL, imap0, [])
        else
          match kie_open ie with
          | None => ((if negb (kie_open_errno ie =? 0) then - kie_open_errno ie else - EIO), imap0, [])
          | Some fd =>
              if (kie_end ie <=? 0) || (negb (pi_size rq =? 0) && (kie_end ie <? pi_size rq)) then (- EINVAL, imap0, [KE_close fd])
              else
                let size := if pi_size rq =? 0 then kie_end ie else pi_size rq in
                if negb (Z.land size (PAGE_SIZE - 1) =? 0) || (KMS_IMPORT_MAX_SIZE <? size) then (- EINVAL, imap0, [KE_close fd])
                else
                  match kie_mmap ie with
                  | None => ((if negb (kie_mmap_errno ie =? 0) then - kie_mmap_errno ie else - EINVAL), imap0, [KE_close fd])
                  | Some va =>
                      match import_pages ie (size / PAGE_SIZE) with
                      | None => (- EFAULT, imap0, [KE_munmap va size; KE_close fd])
                      | Some (pa0, contiguous) => (0, mkImap fd va size pa0 (size / PAGE_SIZE) contiguous, [])
                      end
                  end
          end
    end.

Definition kms_import_unmap (im : kms_import_map_t) (s : kms_srv_t) : kms_srv_t :=
  let s := if negb (im_va im =? 0) then kms_emit (KE_munmap (im_va im) (im_size im)) s else s in
  if 0 <=? im_fd im then kms_emit (KE_close (im_fd im)) s else s.

Definition import_find (s : kms_srv_t) (client port id : Z) : option Z :=
  find_first (λ i, let b := ks_bos s i in
    kb_used b && bool_decide (kb_kind b = KMS_BOK_IMPORT) && kb_handle_open b && (kb_owner b =? client) &&
    (mr_port (kb_imp_mem b) =? port) && (mr_addr (kb_imp_mem b) =? id)) 0 KMS_MAX_BOS.
(** [import_reply] fills the reply as every other reply about a buffer. *)
Definition import_reply : kms_srv_t → kms_bo_t → kms_dumb_resp_t := dumb_resp.

Definition bo_by_export (s : kms_srv_t) (id : Z) : option Z :=
  if id =? 0 then None
  else find_first (λ i, let b := ks_bos s i in kb_used b && kb_exported b && (kb_handle b =? id)) 0 KMS_MAX_BOS.

Definition alias_find (s : kms_srv_t) (client src : Z) : option Z :=
  find_first (λ i, let b := ks_bos s i in
    kb_used b && bool_decide (kb_kind b = KMS_BOK_ALIAS) && kb_handle_open b && (kb_owner b =? client) &&
    (kb_alias_src b =? src)) 0 KMS_MAX_BOS.

Definition import_alias (client : Z) (rq : kms_prime_import_req_t) (s : kms_srv_t) : Z * option kms_dumb_resp_t * kms_srv_t :=
  match bo_by_export s (u32 (pi_id rq)) with
  | None => (- ENOENT, None, s)
  | Some si =>
      let src := ks_bos s si in
      if negb (bool_decide (kb_kind src = KMS_BOK_POOL)) then (- ENOENT, None, s)
      else if kb_size src <? pi_size rq then (- EINVAL, None, s)
      else if negb (kb_prime src) then (- EACCES, None, s)
      else
        match alias_find s client si with
        | Some i => (0, Some (import_reply s (ks_bos s i)), s)
        | None =>
            match bo_slot_free s with
            | None => (- ENOSPC, None, s)
            | Some idx =>
                let b := kbo0 <| kb_used := true |> <| kb_handle := ks_next_handle s |> <| kb_owner := client |>
                  <| kb_handle_open := true |> <| kb_refs := 1 |> <| kb_kind := KMS_BOK_ALIAS |> <| kb_pa := kb_pa src |>
                  <| kb_va := kb_va src |> <| kb_size := kb_size src |> <| kb_w := kb_w src |> <| kb_h := kb_h src |>
                  <| kb_bpp := kb_bpp src |> <| kb_pitch := kb_pitch src |> <| kb_alias_src := si |>
                  <| kb_imp_mem := memref_fill s src |> in
                let s := s <| ks_next_handle ::= λ n, u32 (n + 1) |> in
                let s := set_kbo idx (λ _, b) s in
                let s := set_kbo si (λ c, c <| kb_refs ::= λ n, u32 (n + 1) |>) s in
                let s := kstat (λ t, t <| st_bos_live ::= λ n, u16 (n + 1) |>) s <| ks_aliases_live ::= λ n, u32 (n + 1) |> in
                (0, Some (import_reply s b), s)
            end
        end
  end.

(** 0 answered, 1 the buffer must be mapped, negative refused *)
Definition kms_import_lookup (client : Z) (rq : kms_prime_import_req_t) (s : kms_srv_t) : Z * option kms_dumb_resp_t * kms_srv_t :=
  if pi_ns rq =? KMS_IMPORT_NS_KMSBUF then
    if negb (pi_port rq =? op_buf_port (ks_opt s)) || (pi_id rq =? 0) || (0xffffffff <? pi_id rq) then (- EINVAL, None, s)
    else
      match kms_bo_get s client (u32 (pi_id rq)) with
      | Some i => let '(rc, out) := kms_bo_map client (kb_handle (ks_bos s i)) s in (rc, out, s)
      | None => import_alias client rq s
      end
  else if negb (pi_ns rq =? KMS_IMPORT_NS_V3DBUF) then (- EINVAL, None, s)
  else
    match import_find s client (pi_port rq) (pi_id rq) with
    | Some i => (0, Some (import_reply s (ks_bos s i)), s)
    | None => (1, None, s)
    end.

Definition kms_import_install (client : Z) (rq : kms_prime_import_req_t) (im : kms_import_map_t) (s : kms_srv_t)
    : Z * option kms_dumb_resp_t * kms_srv_t :=
  let queue s :=
    if (Z.of_nat (length (ks_reap s)) <? KMS_MAX_BOS) && (0 <=? im_fd im) then
      s <| ks_reap ::= λ l, l ++ [mkReap (im_fd im) (im_va im) (im_size im) 0 (pi_id rq)] |>
    else s in
  match import_find s client (pi_port rq) (pi_id rq) with
  | Some i => (0, Some (import_reply s (ks_bos s i)), queue s)
  | None =>
      if negb (im_contiguous im) then (- EINVAL, None, queue s)
      else
        match bo_slot_free s with
        | None => (- ENOSPC, None, queue s)
        | Some idx =>
            let b := kbo0 <| kb_used := true |> <| kb_handle := ks_next_handle s |> <| kb_owner := client |>
              <| kb_handle_open := true |> <| kb_refs := 1 |> <| kb_kind := KMS_BOK_IMPORT |> <| kb_pa := im_pa im |>
              <| kb_va := im_va im |> <| kb_size := im_size im |> <| kb_imp_fd := im_fd im |>
              <| kb_imp_mem := mkMemref KMS_MEM_OID KMS_CACHE_UNCACHED (pi_port rq) (im_size im) (pi_id rq) |>
              <| kb_imp_why := kms_import_why (im_pa im) (im_size im) (im_contiguous im) |> in
            let s := s <| ks_next_handle ::= λ n, u32 (n + 1) |> in
            let s := set_kbo idx (λ _, b) s in
            let s := kstat (λ t, t <| st_bos_live ::= λ n, u16 (n + 1) |>) s <| ks_imports_live ::= λ n, u32 (n + 1) |> in
            (0, Some (import_reply s b), s)
        end
  end.

Definition kms_import_shown (i : Z) (s : kms_srv_t) : kms_srv_t :=
  if kb_imp_shown (ks_bos s i) then s else set_kbo i (λ b, b <| kb_imp_shown := true |>) s.

Definition kms_reap (s : kms_srv_t) : kms_srv_t :=
  let list := ks_reap s in
  let s := s <| ks_reap := [] |> in
  foldl (λ s r,
    let s := if negb (rp_va r =? 0) then kms_emit (KE_munmap (rp_va r) (rp_size r)) s else s in
    if 0 <=? rp_fd r then kms_emit (KE_close (rp_fd r)) s else s) s list.

(** ** Framebuffers *)
Definition kms_fb_lookup (s : kms_srv_t) (fb_id : Z) : option Z :=
  if fb_id =? 0 then None
  else find_first (λ i, kf_used (ks_fbs s i) && (kf_id (ks_fbs s i) =? fb_id)) 0 KMS_MAX_FBS.

Definition fb_format_ok (f : Z) : bool :=
  (f =? KMS_FMT_XRGB8888) || (f =? KMS_FMT_ARGB8888) || (f =? KMS_FMT_XBGR8888) || (f =? KMS_FMT_ABGR8888).
Definition is_foreign (b : kms_bo_t) : bool :=
  match kb_kind b with KMS_BOK_IMPORT | KMS_BOK_ALIAS => true | _ => false end.

Definition kms_fb_add (client : Z) (rq : kms_addfb2_req_t) (s : kms_srv_t) : Z * Z * kms_srv_t :=
  match kms_bo_get s client (af_handle rq) with
  | None => (- ENOENT, 0, s)
  | Some bi =>
      let b := ks_bos s bi in
      if negb (fb_format_ok (af_format rq)) then (- EINVAL, 0, s)
      else if is_foreign b && bool_decide (kms_import_fb_why rq (kb_size b) (kb_imp_why b) ≠ None) then (- EINVAL, 0, s)
      else if negb (af_modifier rq =? KMS_MOD_LINEAR) || (af_width rq =? 0) || (af_height rq =? 0) ||
              (af_pitch rq <? u32 (af_width rq * 4)) || (kb_size b <? u64 (af_offset rq + u64 (af_pitch rq * af_height rq)))
      then (- EINVAL, 0, s)
      else
        match find_first (λ i, negb (kf_used (ks_fbs s i))) 0 KMS_MAX_FBS with
        | None => (- ENOSPC, 0, s)
        | Some i =>
            let f := mkKFb true (ks_next_fb s) client true 1 bi (af_width rq) (af_height rq) (af_format rq) (af_pitch rq) (af_offset rq) in
            let s := s <| ks_next_fb ::= λ n, u32 (n + 1) |> in
            let s := set_kfb i (λ _, f) s in
            (0, kf_id f, set_kbo bi (λ b, b <| kb_refs ::= λ n, u32 (n + 1) |>) s)
        end
  end.

Definition kms_fb_ref (fb : option Z) (s : kms_srv_t) : kms_srv_t :=
  match fb with
  | Some i => set_kfb i (λ f, f <| kf_refs ::= λ n, u32 (n + 1) |>) s
  | None => s
  end.

Definition kms_fb_unref (fb : option Z) (s : kms_srv_t) : kms_srv_t :=
  match fb with
  | None => s
  | Some i =>
      let f := ks_fbs s i in
      if kf_refs f =? 0 then s
      else
        let s := set_kfb i (λ f, f <| kf_refs ::= λ n, u32 (n - 1) |>) s in
        if u32 (kf_refs f - 1) =? 0 then kms_bo_unref (kf_bo f) (set_kfb i (λ _, kfb0) s) else s
  end.

Definition kms_fb_rm (client fb_id : Z) (s : kms_srv_t) : Z * kms_srv_t :=
  match kms_fb_lookup s fb_id with
  | None => (- ENOENT, s)
  | Some i =>
      let f := ks_fbs s i in
      if negb (kf_owner f =? client) || negb (kf_user_ref f) then (- ENOENT, s)
      else (0, kms_fb_unref (Some i) (set_kfb i (λ f, f <| kf_user_ref := false |>) s))
  end.

(** The three loops of a client's death. *)
Definition gone_fb (client i : Z) (s : kms_srv_t) : kms_srv_t :=
  let f := ks_fbs s i in
  if kf_used f && (kf_owner f =? client) && kf_user_ref f then
    kms_fb_unref (Some i) (set_kfb i (λ f, f <| kf_user_ref := false |>) s)
  else s.
Definition gone_bo (client i : Z) (s : kms_srv_t) : kms_srv_t :=
  let b := ks_bos s i in
  if kb_used b && (kb_owner b =? client) && kb_handle_open b then
    kms_bo_unref i (set_kbo i (λ b, b <| kb_handle_open := false |>) s)
  else s.
Definition gone_blob (client i : Z) (s : kms_srv_t) : kms_srv_t :=
  let b := ks_blobs s i in
  if kl_used b && (kl_owner b =? client) then set_kblob i (λ _, kblob0) s else s.
Definition kms_bo_client_gone (client : Z) (s : kms_srv_t) : kms_srv_t :=
  let s := for_ 0 KMS_MAX_FBS (gone_fb client) s in
  let s := for_ 0 KMS_MAX_BOS (gone_bo client) s in
  for_ 0 KMS_MAX_BLOBS (gone_blob client) s.

(** ** Property blobs *)
(** [memcpy(dst, data, n)] *)
Definition copy_over (data dst : list Z) : list Z := data ++ drop (length data) dst.

Definition kms_blob_create (owner : Z) (data : list Z) (s : kms_srv_t) : Z * kms_srv_t :=
  if KMS_BLOB_MAX_LEN <? Z.of_nat (length data) then (0, s)
  else
    match find_first (λ i, negb (kl_used (ks_blobs s i))) 0 KMS_MAX_BLOBS with
    | None => (0, s)
    | Some i =>
        let id := ks_next_blob s in
        (id, set_kblob i (λ b, mkKBlob true id owner (Z.of_nat (length data)) (copy_over data (kl_data b)))
               (s <| ks_next_blob ::= λ n, u32 (n + 1) |>))
    end.
Definition kms_blob_get (s : kms_srv_t) (id : Z) : option Z :=
  if id =? 0 then None
  else find_first (λ i, kl_used (ks_blobs s i) && (kl_id (ks_blobs s i) =? id)) 0 KMS_MAX_BLOBS.
Definition kms_blob_destroy (owner id : Z) (s : kms_srv_t) : Z * kms_srv_t :=
  match kms_blob_get s id with
  | None => (- ENOENT, s)
  | Some i =>
      let b := ks_blobs s i in
      if (kl_owner b =? 0) || negb (kl_owner b =? owner) then (- ENOENT, s) else (0, set_kblob i (λ _, kblob0) s)
  end.

(** ** The /kmsbuf namespace *)
Inductive kbufns_msg :=
  | KB_lookup (data : option (list Z))
  | KB_getattr_mode (id : Z) | KB_getattr_type (id : Z) | KB_getattr_size (id : Z) | KB_getattr_other (id : Z)
  | KB_getattr_all (id : Z) (room : bool)
  | KB_open (id : Z) | KB_close (id : Z) | KB_other.
Inductive kbufns_val := KV_none | KV_oid (port id : Z) | KV_dir | KV_dev | KV_size (bytes : Z) | KV_attrs (dir : bool) (bytes : Z).

Fixpoint strnlen (l : list Z) : list Z :=
  match l with
  | [] => []
  | c :: l => if c =? 0 then [] else c :: strnlen l
  end.
(** [strtoul(name, &end, 10)]: leading white space, a sign, digits; the value and what is
    left of the name (all of it when there is no digit).  A value past the 64 bits of an
    unsigned long cannot be written in the 15 characters of a name. *)
Definition isdigit (c : Z) : bool := (48 <=? c) && (c <=? 57).
Definition isspace (c : Z) : bool := (c =? 32) || ((9 <=? c) && (c <=? 13)).
Fixpoint skip_space (l : list Z) : list Z :=
  match l with
  | c :: r => if isspace c then skip_space r else l
  | [] => []
  end.
Fixpoint digits (l : list Z) (v : Z) : Z * list Z :=
  match l with
  | c :: r => if isdigit c then digits r (v * 10 + (c - 48)) else (v, l)
  | [] => (v, [])
  end.
Definition strtoul (name : list Z) : Z * list Z :=
  let l := skip_space name in
  let '(neg, l) := match l with c :: r => if c =? 45 then (true, r) else if c =? 43 then (false, r) else (false, l) | [] => (false, []) end in
  match l with
  | c :: _ => if isdigit c then let '(v, rest) := digits l 0 in ((if neg then u64 (- v) else u64 v), rest) else (0, name)
  | [] => (0, name)
  end.

(** One message of the buffer thread: [msg.o.err] and what it answers. *)
Definition kms_bufns (s : kms_srv_t) (msg : kbufns_msg) : Z * kbufns_val :=
  match msg with
  | KB_lookup data =>
      let name := match data with Some l => strnlen l | None => [] end in
      let len := Z.of_nat (length name) in
      if (len =? 0) || (16 <=? len) then (- ENOENT, KV_none)
      else
        let '(id, rest) := strtoul name in
        match (match rest with [] => bo_by_export s (u32 id) | _ => None end) with
        | None => (- ENOENT, KV_none)
        | Some _ => (len, KV_oid (op_buf_port (ks_opt s)) id)
        end
  | KB_getattr_mode id | KB_getattr_type id => (0, if id =? 0 then KV_dir else KV_dev)
  | KB_getattr_size id =>
      if id =? 0 then (- ENOENT, KV_none)
      else
        match bo_by_export s (u32 id) with
        | Some i => (0, KV_size (kb_size (ks_bos s i)))
        | None => (- ENOENT, KV_size 0)
        end
  | KB_getattr_other _ => (- ENOENT, KV_none)
  | KB_getattr_all id room =>
      if id =? 0 then (if room then (0, KV_attrs true 0) else (- EINVAL, KV_none))
      else
        match bo_by_export s (u32 id) with
        | None => (- ENOENT, KV_none)
        | Some i => if room then (0, KV_attrs false (kb_size (ks_bos s i))) else (- EINVAL, KV_none)
        end
  | KB_open id =>
      if negb (id =? 0) && bool_decide (bo_by_export s (u32 id) = None) then (- ENOENT, KV_none) else (0, KV_none)
  | KB_close _ => (0, KV_none)
  | KB_other => (- ENOSYS, KV_none)
  end.
