(* ===== verification/KmsEv.v ===== *)
(** Clients, events, parked requests and in-fences of the display server
    (tools/gpu-lane/kms/kms_main.c).  A list of claimed requests is what the caller answers
    once it has dropped the lock. *)
From S2P Require Import Prelude Proto State KmsProto KmsModes KmsState.

(** ** Clients *)
Definition kms_client_get (s : kms_srv_t) (id : Z) : option Z :=
  if (id <? 1) || (KMS_MAX_CLIENTS <? id) then None
  else if kc_used (ks_clients s (id - 1)) then Some (id - 1) else None.

Definition kms_client_open (pid : Z) (s : kms_srv_t) : Z * kms_srv_t :=
  match find_first (λ i, negb (kc_used (ks_clients s i))) 0 KMS_MAX_CLIENTS with
  | None => (- ENFILE, s)
  | Some i => (i + 1, set_kclient i (λ _, kclient0 <| kc_used := true |> <| kc_id := u32 (i + 1) |> <| kc_pid := pid |>) s)
  end.

(** ** Events *)
Definition ev_push (client : Z) (ev : kms_event) (s : kms_srv_t) : kms_srv_t :=
  match kms_client_get s client with
  | None => s
  | Some i =>
      let c := ks_clients s i in
      if KMS_EVQ_LEN <=? u32 (kc_evtail c - kc_evhead c) then
        kstat (λ t, t <| st_events_dropped ::= λ n, u32 (n + 1) |>) (set_kclient i (λ c, c <| kc_dropped ::= λ n, u32 (n + 1) |>) s)
      else
        let s := set_kclient i (λ c, c <| kc_evq ::= λ q, <[kc_evtail c mod KMS_EVQ_LEN := ev]> q |>
                                       <| kc_evtail ::= λ n, u32 (n + 1) |>) s in
        let s := kstat (λ t, t <| st_events_queued ::= λ n, u32 (n + 1) |>) s in
        if op_poll_notify (ks_opt s) then kms_emit (KE_notify (op_port (ks_opt s)) (kc_id c)) s else s
  end.

Definition ev_vblank (client type crtc user seq cnt : Z) (s : kms_srv_t) : kms_srv_t :=
  let ns := kms_cnt_to_mono_ns s cnt in
  if type =? KMS_DRM_EVENT_CRTC_SEQUENCE then ev_push client (EV_sequence type user ns seq) s
  else ev_push client (EV_vblank type user (u32 (Z.quot ns 1000000000)) (u32 (Z.quot (Z.rem ns 1000000000) 1000)) (u32 seq) crtc) s.

(** Whole events, as many as fit; a queue holds at most KMS_EVQ_LEN. *)
Fixpoint ev_take (n : nat) (q : Z → kms_event) (head tail : Z) : list kms_event * Z :=
  match n with
  | O => ([], head)
  | S n =>
      if head =? tail then ([], head)
      else let '(l, h) := ev_take n q (u32 (head + 1)) tail in (q (head mod KMS_EVQ_LEN) :: l, h)
  end.
Definition ev_fill (i size : Z) (s : kms_srv_t) : list kms_event * kms_srv_t :=
  let c := ks_clients s i in
  let '(l, h) := ev_take (Z.to_nat (Z.min (size / 32) KMS_EVQ_LEN)) (kc_evq c) (kc_evhead c) (kc_evtail c) in
  (l, set_kclient i (λ c, c <| kc_evhead := h |>) s).
Definition ev_pending (s : kms_srv_t) (i : Z) : bool :=
  negb (kc_evhead (ks_clients s i) =? kc_evtail (ks_clients s i)).

(** The bytes land where [o.data] points: in the copy of the message that is answered, if it
    is the client's window or that copy's own [o.raw]. *)
Definition read_reply (home : msg_home) (m : kms_msg) (l : list kms_event) : kms_reply :=
  mkReply (32 * Z.of_nat (length l)) None
    match m_out m with
    | OP_window => PL_events l
    | OP_raw h => if bool_decide (h = home) then PL_events l else PL_none
    | OP_null => PL_none
    end.

(** ** Parked requests *)
(** A copy of a message: [o.data] into the original's own [o.raw] is moved to the copy's. *)
Definition msg_rebase (dst src : msg_home) (m : kms_msg) : kms_msg :=
  m <| m_out ::= λ p, match p with OP_raw h => if bool_decide (h = src) then OP_raw dst else p | _ => p end |>.

Section env.
Context `{K : KEnv}.
Definition park (kind : kms_park) (client crtc target : Z) (m : kms_msg) (rid : Z) (s : kms_srv_t) : Z * kms_srv_t :=
  match find_first (λ i, negb (pk_used (ks_parked s i))) 0 KMS_MAX_PARKED with
  | None => (- ENOSPC, s)
  | Some i =>
      let '(now, s) := kms_cnt s in
      let deadline := u64 (now + kms_us_cnt s (KMS_READ_MAX_MS * 1000)) in
      let s := set_parked i (λ _, mkParked true kind client crtc target deadline (msg_rebase (H_parked i) H_loop m) rid reply0) s in
      let s := s <| ks_nparked ::= λ n, u32 (n + 1) |> in
      (0, kstat (λ t, t <| st_reads_parked_max ::= Z.max (ks_nparked s) |>) s)
  end.
End env.

Definition claim (i : Z) (st : kms_srv_t * list kms_parked_t) : kms_srv_t * list kms_parked_t :=
  let '(s, answer) := st in
  let p := ks_parked s i in
  let a := p <| pk_msg ::= msg_rebase (H_answer (length answer)) (H_parked i) |> in
  (set_parked i (λ p, p <| pk_used := false |>) s <| ks_nparked ::= λ n, u32 (n - 1) |>, answer ++ [a]).

Definition set_reply (i : Z) (r : kms_reply) (s : kms_srv_t) : kms_srv_t := set_parked i (λ p, p <| pk_reply := r |>) s.
Definition vblank_reply (s : kms_srv_t) (err seq cnt : Z) : kms_reply :=
  mkReply 0 (Some (err, RU_vblank seq (kms_cnt_to_mono_ns s cnt))) PL_none.

(** The reply of a request that is turned away: a read's error, or a vblank reply. *)
Definition turned_away (s : kms_srv_t) (p : kms_parked_t) (err seq cnt : Z) : kms_reply :=
  match pk_kind p with
  | KMS_PARK_READ => mkReply err None PL_none
  | KMS_PARK_VBLANK => vblank_reply s err seq cnt
  end.

Definition serve_one (i : Z) (st : kms_srv_t * list kms_parked_t) : kms_srv_t * list kms_parked_t :=
  let '(s, answer) := st in
  let p := ks_parked s i in
  if negb (pk_used p) || negb (bool_decide (pk_kind p = KMS_PARK_READ)) then st
  else
    match kms_client_get s (pk_client p) with
    | None => st
    | Some c =>
        if ev_pending s c then
          let '(l, s) := ev_fill c (m_osize (pk_msg p)) s in
          claim i (set_reply i (read_reply (H_parked i) (pk_msg p) l) s, answer)
        else st
    end.
Definition serve_reads (st : kms_srv_t * list kms_parked_t) : kms_srv_t * list kms_parked_t := for_ 0 KMS_MAX_PARKED serve_one st.

Definition expire_one (now i : Z) (st : kms_srv_t * list kms_parked_t) : kms_srv_t * list kms_parked_t :=
  let '(s, answer) := st in
  let p := ks_parked s i in
  if negb (pk_used p) || (now <? pk_deadline_cnt p) then st
  else
    let c := ks_crtc s 0 in
    claim i (set_reply i (turned_away s p (- EAGAIN) (cs_seq c) (cs_last_vbl_cnt c)) s, answer).
Definition kms_expire_parked (now : Z) (st : kms_srv_t * list kms_parked_t) : kms_srv_t * list kms_parked_t :=
  for_ 0 KMS_MAX_PARKED (expire_one now) st.

Definition kms_answer (list : list kms_parked_t) (s : kms_srv_t) : kms_srv_t :=
  foldl (λ s p, kms_emit (KE_respond (op_port (ks_opt s)) (pk_rid p) (pk_reply p)) s) s list.

(** ** In-fences, checked against the render server's page *)
Section fences.
Context `{K : KEnv}.
(** Each of the three loads sees the page as it is then. *)
Definition kms_fence_signaled (f : v3da_fence_t) (s : kms_srv_t) : bool * kms_srv_t :=
  if (f_seqno f =? 0) || negb (op_v3d (ks_opt s)) then (true, s)
  else
    let flags := fp_flags (kv_fp (kms_cur s)) in
    let s := kms_tick s in
    if has flags V3DA_FP_EXITED then (true, s)
    else if (V3DA_FENCE_NSLOTS <=? f_slot f) || (V3DA_Q_COUNT <=? f_queue f) then (true, s)
    else
      let gen := fp_gen (kv_fp (kms_cur s)) (f_slot f) in
      let s := kms_tick s in
      if negb (u32 gen =? f_gen f) then (true, s)
      else
        let done := fp_completed (kv_fp (kms_cur s)) (f_slot f) (f_queue f) in
        (f_seqno f <=? done, kms_tick s).
End fences.
