(* ===== verification/KmsBackend.v ===== *)
(** The plane backends of the display server (tools/gpu-lane/kms/kms_backend.c, and the
    firmware calls of kms_fw.c they use). *)
From S2P Require Import Prelude Proto State KmsProto KmsModes KmsState.

(** ** Firmware calls *)
(** The 32-bit address handed to the firmware, or -ERANGE. *)
Definition kms_bus_addr (s : kms_srv_t) (pa len : Z) : option Z :=
  if KMS_GIB <? u64 (pa + len) then None
  else Some (if op_bus_c0 (ks_opt s) then Z.lor 0xc0000000 (u32 pa) else u32 pa).

(** What a plane shows: its framebuffer and the buffer behind it. *)
Definition shown : Type := option (kms_fb_t * kms_bo_t).

(** ** Firmware words *)
Definition VC_IMAGE_ARGB8888 := 43.
Definition VC_IMAGE_XRGB8888 := 44.
Definition FW_XFORM_ROT180 := 2.
Definition FW_XFORM_HFLIP := 0x10000.
Definition FW_XFORM_VFLIP := 0x20000.
Definition DRM_ROTATE_0 := 1.
Definition DRM_ROTATE_180 := 4.
Definition DRM_REFLECT_X := 16.
Definition DRM_REFLECT_Y := 32.
Definition vc_type (fmt : Z) : Z := if fmt =? KMS_FMT_ARGB8888 then VC_IMAGE_ARGB8888 else VC_IMAGE_XRGB8888.
Definition i16 (x : Z) : Z := (x + 2 ^ 15) mod 2 ^ 16 - 2 ^ 15.
Definition i8 (x : Z) : Z := (x + 2 ^ 7) mod 2 ^ 8 - 2 ^ 7.
Definition u8 (x : Z) : Z := x mod 2 ^ 8.

Section env.
Context `{K : KEnv}.

Definition kms_fw_pan (y : Z) (s : kms_srv_t) : Z * Z * kms_srv_t :=
  let '(rc, got) := kv_fw (kms_cur s) in (rc, got, kms_emit (KE_pan y) (kms_tick s)).
Definition kms_fw_blank (on : bool) (s : kms_srv_t) : Z * kms_srv_t :=
  ((kv_fw (kms_cur s)).1, kms_emit (KE_blank on) (kms_tick s)).
Definition kms_fw_console (on : bool) (s : kms_srv_t) : Z * kms_srv_t :=
  (kv_console (kms_cur s), kms_emit (KE_console on) (kms_tick s)).

(** ** pan: a flip is an offset into the firmware framebuffer *)
Definition pan_init (s : kms_srv_t) : Z * Z :=
  let o := ks_opt s in
  if (op_fb_pa o =? 0) || (op_fb_pitch o =? 0) then (- ENODEV, 0)
  else if op_fb_slots o <? 2 then (- ENODEV, 0) else (0, 1).
Definition pan_formats (s : kms_srv_t) (plane max : Z) : list Z :=
  if negb (plane =? 0) || (max =? 0) then [] else [op_fb_format (ks_opt s)].

Definition pan_check (s : kms_srv_t) (p : Z) (st : kms_atomic_plane_t) (sh : shown) : Z :=
  let o := ks_opt s in
  if negb (p =? 0) then - EINVAL
  else
    match sh with
    | None => 0
    | Some (fb, bo) =>
        if negb (bool_decide (kb_kind bo = KMS_BOK_SLOT)) || negb (kf_offset fb =? 0) || negb (kf_w fb =? op_fb_w o) ||
           negb (kf_h fb =? op_fb_h o) || negb (kf_pitch fb =? op_fb_pitch o) || negb (kf_format fb =? op_fb_format o)
        then - EINVAL
        else if negb (crtc_x st =? 0) || negb (crtc_y st =? 0) || negb (crtc_w st =? kf_w fb) || negb (crtc_h st =? kf_h fb) ||
                negb (src_x st =? 0) || negb (src_y st =? 0) || negb (src_w st =? u32 (Z.shiftl (kf_w fb) 16)) ||
                negb (src_h st =? u32 (Z.shiftl (kf_h fb) 16))
        then - ERANGE
        else if negb (rotation st =? 0) && negb (rotation st =? 1) then - EINVAL else 0
    end.

Definition pan_apply (sh : shown) (s : kms_srv_t) : Z * Z * kms_srv_t :=
  let o := ks_opt s in
  let want := match sh with None => op_fb_yoff0 o | Some (_, bo) => u32 (kb_slot bo * op_fb_h o) end in
  let '(t0, s) := kms_cnt s in
  let '(rc, got, s) := kms_fw_pan want s in
  let '(t1, s) := kms_cnt s in
  ((if (rc =? 0) && negb (got =? want) then - ERANGE else rc), u32 (kms_cnt_us s (u64 (t1 - t0))), s).

(** ** plane: firmware SET_PLANE *)
Definition plane_init (s : kms_srv_t) : Z * Z :=
  let o := ks_opt s in
  if negb (op_xl o) then (- ENOTSUP, 0)
  else if negb (op_pool_ok o) then (- ENOMEM, 0)
  else (0, for_ 1 (Z.min (op_overlays o) 6 + 1) (λ i m, Z.setbit m i) (Z.lor 1 (Z.shiftl 1 7))).
Definition plane_formats (max : Z) : list Z := take (Z.to_nat max) [KMS_FMT_XRGB8888; KMS_FMT_ARGB8888].

Definition plane_check (s : kms_srv_t) (c : kms_crtc_state_t) (p : Z) (st : kms_atomic_plane_t) (sh : shown) : Z :=
  if (KMS_PLANES_PER_CRTC <=? p) || negb (Z.testbit (cs_plane_mask c) p) then - EINVAL
  else
    match sh with
    | None => 0
    | Some (fb, bo) =>
        if negb (kf_format fb =? KMS_FMT_XRGB8888) && negb (kf_format fb =? KMS_FMT_ARGB8888) then - EINVAL
        else if (0xffff <? kf_w fb) || (0xffff <? kf_h fb) || (0xffff <? kf_pitch fb) then - ERANGE
        else if bool_decide (kms_bus_addr s (u64 (kb_pa bo + kf_offset fb)) (kf_pitch fb * kf_h fb) = None) then - ERANGE
        else
          let sw := Z.shiftr (src_w st) 16 in
          let shh := Z.shiftr (src_h st) 16 in
          if (sw =? 0) || (shh =? 0) || (kf_w fb <? u32 (Z.shiftr (src_x st) 16 + sw)) || (kf_h fb <? u32 (Z.shiftr (src_y st) 16 + shh))
          then - ERANGE
          else if (crtc_w st =? 0) || (crtc_h st =? 0) || (0xffff <? crtc_w st) || (0xffff <? crtc_h st) ||
                  (crtc_x st <? -32768) || (32767 <? crtc_x st) || (crtc_y st <? -32768) || (32767 <? crtc_y st)
          then - ERANGE
          else if negb (Z.land (rotation st) (u32 (Z.lnot (Z.lor (Z.lor DRM_ROTATE_0 DRM_ROTATE_180) (Z.lor DRM_REFLECT_X DRM_REFLECT_Y)))) =? 0)
          then - EINVAL
          else
            let '(dx, dy, dw, dh) := kms_fit_rect (cs_fit c) (crtc_x st) (crtc_y st) (crtc_w st) (crtc_h st) in
            if (dw =? 0) || (dh =? 0) || (0xffff <? dw) || (0xffff <? dh) || (dx <? -32768) || (32767 <? dx) ||
               (dy <? -32768) || (32767 <? dy)
            then - ERANGE else 0
    end.

Definition plane_layer (s : kms_srv_t) (p zpos : Z) : Z :=
  let o := ks_opt s in
  let base := if op_have_fb_layer o && (0 <=? op_fb_layer o) && (op_fb_layer o <? 100) then op_fb_layer o + 1 else 0 in
  if p =? 7 then i8 (base + 8)
  else if p =? 0 then i8 base
  else
    let zpos := if zpos <? 1 then p else zpos in
    i8 (base + (if 7 <? zpos then 7 else zpos)).

(** The SET_PLANE value of a plane that shows [fb] of [bo], whose bus address is [bus]. *)
Definition fw_plane_of (s : kms_srv_t) (c : kms_crtc_state_t) (p : Z) (st : kms_atomic_plane_t) (fb : kms_fb_t) (bus : Z) : fw_plane_t :=
  let '(dx, dy, dw, dh) := kms_fit_rect (cs_fit c) (crtc_x st) (crtc_y st) (crtc_w st) (crtc_h st) in
  let t := if has (rotation st) DRM_ROTATE_180 then FW_XFORM_ROT180 else 0 in
  let t := if has (rotation st) DRM_REFLECT_X then Z.lor t FW_XFORM_HFLIP else t in
  let t := if has (rotation st) DRM_REFLECT_Y then Z.lor t FW_XFORM_VFLIP else t in
  mkFwPlane (u8 (cs_fw_display_id c)) (u8 (p + cs_idx c * KMS_PLANES_PER_CRTC)) (vc_type (kf_format fb)) (plane_layer s p (zpos st))
    (u16 (kf_w fb)) (u16 (kf_h fb)) (u16 (kf_pitch fb)) (u16 (kf_h fb))
    (src_x st, src_y st, src_w st, src_h st) (i16 dx, i16 dy, u16 dw, u16 dh)
    (u8 (Z.shiftr (if 0xffff <? alpha st then 0xffff else alpha st) 8)) 1 bus t.
Definition fw_plane_off (c : kms_crtc_state_t) (p : Z) : fw_plane_t :=
  mkFwPlane (u8 (cs_fw_display_id c)) (u8 (p + cs_idx c * KMS_PLANES_PER_CRTC)) 0 0 0 0 0 0 (0, 0, 0, 0) (0, 0, 0, 0) 0 0 0 0.

Definition plane_apply (c : kms_crtc_state_t) (p : Z) (st : kms_atomic_plane_t) (sh : shown) (s : kms_srv_t) : Z * Z * kms_srv_t :=
  match (match sh with
         | None => Some (fw_plane_off c p)
         | Some (fb, bo) =>
             match kms_bus_addr s (u64 (kb_pa bo + kf_offset fb)) (kf_pitch fb * kf_h fb) with
             | None => None
             | Some bus => Some (fw_plane_of s c p st fb bus)
             end
         end) with
  | None => (- ERANGE, 0, s)
  | Some fp =>
      let '(t0, s) := kms_cnt (kms_emit KE_dsb s) in
      let rc := (kv_fw (kms_cur s)).1 in
      let s := kms_emit (KE_set_plane fp) (kms_tick s) in
      let '(t1, s) := kms_cnt s in
      let lat := u32 (kms_cnt_us s (u64 (t1 - t0))) in
      (rc, lat,
       match sh with
       | Some _ => s <| ks_plane_touched ::= λ m, Z.setbit m p |>
       | None => if rc =? 0 then s <| ks_plane_touched ::= λ m, Z.clearbit m p |> else s
       end)
  end.

(** ** Through the backend's table *)
Definition be_check (s : kms_srv_t) (c : kms_crtc_state_t) (p : Z) (st : kms_atomic_plane_t) (sh : shown) : Z :=
  if is_plane (op_be (ks_opt s)) then plane_check s c p st sh else pan_check s p st sh.
Definition be_apply (c : kms_crtc_state_t) (p : Z) (st : kms_atomic_plane_t) (sh : shown) (s : kms_srv_t) : Z * Z * kms_srv_t :=
  if is_plane (op_be (ks_opt s)) then plane_apply c p st sh s else pan_apply sh s.
Definition be_formats (s : kms_srv_t) (p max : Z) : list Z :=
  if is_plane (op_be (ks_opt s)) then plane_formats max else pan_formats s p max.
Definition be_init (s : kms_srv_t) : Z * Z := if is_plane (op_be (ks_opt s)) then plane_init s else pan_init s.

Definition pan_restore (s : kms_srv_t) : kms_srv_t := (pan_apply None s).2.
Definition plane_restore (c : kms_crtc_state_t) (s : kms_srv_t) : kms_srv_t :=
  for_ 0 KMS_PLANES_PER_CRTC (λ p s, if Z.testbit (ks_plane_touched s) p then (plane_apply c p plane0 None s).2 else s) s.
Definition be_restore (c : kms_crtc_state_t) (s : kms_srv_t) : kms_srv_t :=
  if is_plane (op_be (ks_opt s)) then plane_restore c s else pan_restore s.
End env.
