(* ===== verification/KmsCommit.v ===== *)
(** Modes, commits, vblanks and a client's death in the display server
    (tools/gpu-lane/kms/kms_main.c).  [ci] is the index of the CRTC the code points to. *)
From S2P Require Import Prelude Proto State KmsProto KmsModes KmsState KmsBo KmsEv KmsBackend.

Definition crtc_by_id (s : kms_srv_t) (id : Z) : option Z :=
  find_first (λ i, KMS_ID_CRTC i =? id) 0 (op_ncrtc (ks_opt s)).
Definition plane_idx (c : kms_crtc_state_t) (id : Z) : option Z :=
  find_first (λ i, Z.testbit (cs_plane_mask c) i && (KMS_ID_PLANE (cs_idx c) i =? id)) 0 KMS_PLANES_PER_CRTC.
Definition plane_type (p : Z) : Z :=
  if p =? 0 then KMS_PLANE_TYPE_PRIMARY else if p =? 7 then KMS_PLANE_TYPE_CURSOR else KMS_PLANE_TYPE_OVERLAY.

(** ** The current mode *)
Definition umode_w (c : kms_crtc_state_t) : Z := if negb (cs_umode_w c =? 0) then cs_umode_w c else hdisplay (cs_mode c).
Definition umode_h (c : kms_crtc_state_t) : Z := if negb (cs_umode_w c =? 0) then cs_umode_h c else vdisplay (cs_mode c).
Definition umode_info (c : kms_crtc_state_t) : kms_modeinfo_t :=
  if negb (cs_umode_w c =? 0) then kms_mode_scaled (cs_mode c) (cs_refresh_mhz c) (cs_umode_w c) (cs_umode_h c) else cs_mode c.
(** The mode to set for WxH: (0, 0) is the native one. *)
Definition umode_lookup (s : kms_srv_t) (c : kms_crtc_state_t) (w h : Z) : option (Z * Z) :=
  if (w =? hdisplay (cs_mode c)) && (h =? vdisplay (cs_mode c)) then Some (0, 0)
  else if negb (is_plane (op_be (ks_opt s))) || op_native_only (ks_opt s) || negb (kms_mode_offered (cs_mode c) w h) then None
  else Some (u16 w, u16 h).

Definition umode_set (ci uw uh client : Z) (s : kms_srv_t) : kms_srv_t :=
  let s := set_crtc ci (λ c, c <| cs_umode_w := uw |> <| cs_umode_h := uh |>
    <| cs_umode_client := if negb (uw =? 0) then client else 0 |>
    <| cs_fit := kms_fit (hdisplay (cs_mode c)) (vdisplay (cs_mode c)) uw uh |>) s in
  if negb (uw =? 0) then
    let c := ks_crtc s ci in
    let mi := modeinfo_bytes (umode_info c) in
    match kms_blob_get s (cs_umode_blob c) with
    | Some b =>
        if kl_len (ks_blobs s b) =? MODEINFO_SIZE then set_kblob b (λ b, b <| kl_data ::= copy_over mi |>) s
        else let '(id, s) := kms_blob_create 0 mi s in set_crtc ci (λ c, c <| cs_umode_blob := id |>) s
    | None => let '(id, s) := kms_blob_create 0 mi s in set_crtc ci (λ c, c <| cs_umode_blob := id |>) s
    end
  else s.

Definition state_fullscreen (s : kms_srv_t) (c : kms_crtc_state_t) (fb : kms_fb_t) (p mw mh : Z) : kms_atomic_plane_t :=
  let o := ks_opt s in
  let w := if is_plane (op_be o) then mw else op_fb_w o in
  let h := if is_plane (op_be o) then mh else op_fb_h o in
  plane0 <| plane_id := KMS_ID_PLANE (cs_idx c) p |> <| crtc_id := KMS_ID_CRTC (cs_idx c) |> <| fb_id := kf_id fb |>
    <| crtc_w := w |> <| crtc_h := h |> <| src_w := u32 (Z.shiftl (kf_w fb) 16) |> <| src_h := u32 (Z.shiftl (kf_h fb) 16) |>
    <| alpha := 0xffff |> <| rotation := 1 |> <| zpos := p |>.

Definition show (s : kms_srv_t) (fb : option Z) : shown := (λ i, (ks_fbs s i, ks_bos s (kf_bo (ks_fbs s i)))) <$> fb.

Definition validate (client : Z) (s : kms_srv_t) (c : kms_crtc_state_t) (p : Z) (st : kms_atomic_plane_t) : Z :=
  if fb_id st =? 0 then be_check s c p st None
  else
    match kms_fb_lookup s (fb_id st) with
    | None => - ENOENT
    | Some i =>
        if negb (kf_user_ref (ks_fbs s i)) then - ENOENT
        else if negb (kf_owner (ks_fbs s i) =? client) then - EACCES
        else if negb (crtc_id st =? 0) && negb (crtc_id st =? KMS_ID_CRTC (cs_idx c)) then - EINVAL
        else if negb (f_seqno (in_fence st) =? 0) && negb (op_v3d (ks_opt s)) then - ENODEV
        else be_check s c p st (show s (Some i))
    end.

(** Does plane [p] show a framebuffer, or is it about to? *)
Definition plane_on (c : kms_crtc_state_t) (p : Z) : bool :=
  negb (fb_id (cs_cur c p) =? 0) ||
  (negb (bool_decide (cs_pend c = KMS_PEND_NONE)) && Z.testbit (cs_pmask c) p && negb (fb_id (cs_pst c p) =? 0)).

Section env.
Context `{K : KEnv}.

Definition console_update (s : kms_srv_t) : kms_srv_t :=
  let c := ks_crtc s 0 in
  let s :=
    if is_plane (op_be (ks_opt s)) then
      let want := plane_on c 0 && (op_blank_fb (ks_opt s) || kms_fit_bars (cs_fit c)) in
      if negb (eqb want (ks_fb_blanked s)) then
        let '(rc, s) := kms_fw_blank want s in
        if rc =? 0 then s <| ks_fb_blanked := want |> else s
      else s
    else s in
  if negb (op_console_off (ks_opt s)) then s
  else
    let on := existsb (plane_on c) (seqZ 0 KMS_PLANES_PER_CRTC) in
    if on && negb (ks_console_disabled s) then (kms_fw_console false s).2 <| ks_console_disabled := true |>
    else if negb on && ks_console_disabled s then (kms_fw_console true s).2 <| ks_console_disabled := false |>
    else s.

(** ** Back to the native mode *)
Definition reapply_cur (ci p : Z) (s : kms_srv_t) : kms_srv_t :=
  let c := ks_crtc s ci in
  match kms_fb_lookup s (fb_id (cs_cur c p)) with
  | Some i => (be_apply c p (cs_cur c p) (show s (Some i)) s).2
  | None => s
  end.
Definition umode_native (ci : Z) (s : kms_srv_t) : kms_srv_t :=
  if cs_umode_w (ks_crtc s ci) =? 0 then s
  else console_update (for_ 0 KMS_PLANES_PER_CRTC (reapply_cur ci) (umode_set ci 0 0 0 s)).

(** ** Handing a commit to the firmware *)
Fixpoint fences_signaled (ps : list Z) (c : kms_crtc_state_t) (s : kms_srv_t) : bool * kms_srv_t :=
  match ps with
  | [] => (true, s)
  | p :: ps =>
      if Z.testbit (cs_pmask c) p then
        let '(ok, s) := kms_fence_signaled (in_fence (cs_pst c p)) s in
        if negb ok then (false, s) else fences_signaled ps c s
      else fences_signaled ps c s
  end.

Definition apply_plane (ci p : Z) (st : Z * kms_srv_t) : Z * kms_srv_t :=
  let '(maxlat, s) := st in
  let c := ks_crtc s ci in
  if negb (Z.testbit (cs_pmask c) p) then st
  else
    let fb := kms_fb_lookup s (fb_id (cs_pst c p)) in
    let '(rc, lat, s) := be_apply c p (cs_pst c p) (show s fb) s in
    let s :=
      match fb with
      | Some i => let b := kf_bo (ks_fbs s i) in if (rc =? 0) && is_foreign (ks_bos s b) then kms_import_shown b s else s
      | None => s
      end in
    let s := if negb (rc =? 0) then kstat (λ t, t <| st_apply_errors ::= λ n, u16 (n + 1) |>) s else s in
    (Z.max lat maxlat, s).

(** Microseconds in a frame; the vblank an apply at [now] is scanned from. *)
Definition frame_us (c : kms_crtc_state_t) : Z :=
  if negb (cs_refresh_mhz c =? 0) then u32 (1000000000 / cs_refresh_mhz c) else 16667.
Definition target_of (s : kms_srv_t) (c : kms_crtc_state_t) (now : Z) : Z :=
  let since := if negb (cs_last_vbl_cnt c =? 0) then kms_cnt_us s (u64 (now - cs_last_vbl_cnt c)) else frame_us c in
  cs_seq c + (if since + op_latch_guard_us (ks_opt s) <? frame_us c then 1 else 2).

Definition kms_try_apply (ci : Z) (s : kms_srv_t) : bool * kms_srv_t :=
  let c := ks_crtc s ci in
  match cs_pend c with
  | KMS_PEND_NONE => (false, s)
  | KMS_PEND_ARMED => (true, s)
  | KMS_PEND_FENCE =>
      let '(ok, s) := fences_signaled (seqZ 0 KMS_PLANES_PER_CRTC) c s in
      if negb ok then (false, s)
      else
        let s := console_update s in
        let '(maxlat, s) := for_ 0 KMS_PLANES_PER_CRTC (apply_plane ci) (0, s) in
        let '(now, s) := kms_cnt s in
        let c := ks_crtc s ci in
        let target := target_of s c now in
        let s := set_crtc ci (λ c, c <| cs_parmed_cnt := now |> <| cs_pend := KMS_PEND_ARMED |> <| cs_ptarget_seq := target |>) s in
        let q2a := u32 (kms_cnt_us s (u64 (now - cs_pqueued_cnt c))) in
        let s := s <| ks_fst ::= λ f, f <| fs_q2a_us_sum ::= λ n, u64 (n + q2a) |> <| fs_q2a_us_max ::= Z.max q2a |> |> in
        let s := if cs_seq c + 1 <? target then s <| ks_fst ; fs_late_target ::= λ n, u32 (n + 1) |> else s in
        let s := kstat (λ t, t <| st_flips_applied ::= λ n, u32 (n + 1) |> <| st_apply_us_max ::= Z.max maxlat |>) s in
        (true, s)
  end.

(** ** Completing it at a vblank *)
Definition complete_plane (ci p : Z) (s : kms_srv_t) : kms_srv_t :=
  let c := ks_crtc s ci in
  if negb (Z.testbit (cs_pmask c) p) then s
  else
    let old := kms_fb_lookup s (fb_id (cs_cur c p)) in
    kms_fb_unref old (set_crtc ci (λ c, c <| cs_cur ::= λ a, <[p := cs_pst c p]> a |>) s).

Definition count_flip (k : Z) (s : kms_srv_t) : kms_srv_t :=
  s <| ks_fst ::= λ f,
    let f := f <| fs_flips ::= λ n, u32 (n + 1) |> in
    if k <=? 1 then f <| fs_vbl1 ::= λ n, u32 (n + 1) |>
    else if k =? 2 then f <| fs_vbl2 ::= λ n, u32 (n + 1) |>
    else f <| fs_vbl3p ::= λ n, u32 (n + 1) |> |>.

Definition complete (ci cnt : Z) (s : kms_srv_t) : kms_srv_t :=
  let s := for_ 0 KMS_PLANES_PER_CRTC (complete_plane ci) s in
  let c := ks_crtc s ci in
  let s := if cs_pevent c then ev_vblank (cs_pclient c) KMS_DRM_EVENT_FLIP_COMPLETE (KMS_ID_CRTC (cs_idx c)) (cs_puser c) (cs_seq c) cnt s else s in
  let s := set_crtc ci (λ c, c <| cs_pend := KMS_PEND_NONE |> <| cs_pmask := 0 |>) s in
  let s := kstat (λ t, t <| st_flips_completed ::= λ n, u32 (n + 1) |>) s in
  console_update (count_flip (u64 (cs_seq c - cs_pqueued_seq c)) s).

Definition vblev_one (ci cnt i : Z) (s : kms_srv_t) : kms_srv_t :=
  let c := ks_crtc s ci in
  let e := ks_vblev s i in
  if ve_used e && (ve_crtc e =? KMS_ID_CRTC (cs_idx c)) && (ve_target_seq e <=? cs_seq c) then
    set_vblev i (λ e, e <| ve_used := false |>) (ev_vblank (ve_client e) (ve_type e) (ve_crtc e) (ve_user_data e) (cs_seq c) cnt s)
  else s.

Definition vblank_one (ci cnt i : Z) (st : kms_srv_t * list kms_parked_t) : kms_srv_t * list kms_parked_t :=
  let '(s, answer) := st in
  let c := ks_crtc s ci in
  let p := ks_parked s i in
  if pk_used p && bool_decide (pk_kind p = KMS_PARK_VBLANK) && (pk_crtc p =? KMS_ID_CRTC (cs_idx c)) && (pk_target_seq p <=? cs_seq c) then
    claim i (set_reply i (vblank_reply s 0 (cs_seq c) cnt) s, answer)
  else st.

(** The commit's part of a vblank. *)
Definition vblank_flip (ci cnt : Z) (s : kms_srv_t) : kms_srv_t :=
  let c := ks_crtc s ci in
  match cs_pend c with
  | KMS_PEND_ARMED => if cs_ptarget_seq c <=? cs_seq c then complete ci cnt s else s
  | KMS_PEND_FENCE =>
      let '(armed, s) := kms_try_apply ci s in
      if armed then s <| ks_fst ; fs_applied_vblank ::= λ n, u32 (n + 1) |> else s
  | KMS_PEND_NONE => s
  end.

Definition kms_on_vblank (ci cnt nvbl : Z) (st : kms_srv_t * list kms_parked_t) : kms_srv_t * list kms_parked_t :=
  let '(s, answer) := st in
  let s := set_crtc ci (λ c, c <| cs_seq ::= λ n, n + nvbl |> <| cs_last_vbl_cnt := cnt |>) s in
  let s := vblank_flip ci cnt s in
  let s := for_ 0 KMS_MAX_VBL_EVENTS (vblev_one ci cnt) s in
  serve_reads (for_ 0 KMS_MAX_PARKED (vblank_one ci cnt) (s, answer)).

(** ** Accepting a commit *)
(** The planes named, each once: their set and their indices. *)
Fixpoint commit_planes (c : kms_crtc_state_t) (sts : list kms_atomic_plane_t) (mask : Z) : Z + Z * list Z :=
  match sts with
  | [] => inr (mask, [])
  | st :: sts =>
      match plane_idx c (plane_id st) with
      | None => inl (- EINVAL)
      | Some p =>
          if Z.testbit mask p then inl (- EINVAL)
          else
            match commit_planes c sts (Z.setbit mask p) with
            | inl e => inl e
            | inr (mask, idx) => inr (mask, p :: idx)
            end
      end
  end.
Fixpoint validate_all (client : Z) (s : kms_srv_t) (c : kms_crtc_state_t) (l : list (Z * kms_atomic_plane_t)) : Z :=
  match l with
  | [] => 0
  | (p, st) :: l => let rc := validate client s c p st in if negb (rc =? 0) then rc else validate_all client s c l
  end.

(** The mode after the commit, and the framebuffer the primary will show. *)
Definition commit_prim (c : kms_crtc_state_t) (l : list (Z * kms_atomic_plane_t)) : Z :=
  foldl (λ prim x, if x.1 =? 0 then fb_id x.2 else prim) (fb_id (cs_cur c 0)) l.
Definition commit_mode (c : kms_crtc_state_t) (prim : Z) (newmode : option (Z * Z)) : Z * Z :=
  if prim =? 0 then (0, 0) else match newmode with Some m => m | None => (cs_umode_w c, cs_umode_h c) end.
Definition mode_moves (c : kms_crtc_state_t) (m : Z * Z) : bool := negb (m.1 =? cs_umode_w c) || negb (m.2 =? cs_umode_h c).

(** A commit is accepted in these steps: its planes, the planes carried over, its record. *)
Definition take_plane (ci : Z) (s : kms_srv_t) (x : Z * kms_atomic_plane_t) : kms_srv_t :=
  let '(p, st) := x in
  let st' := st <| crtc_id := if negb (fb_id st =? 0) then KMS_ID_CRTC (cs_idx (ks_crtc s ci)) else 0 |> in
  let s := set_crtc ci (λ c, c <| cs_pst ::= λ a, <[p := st']> a |>) s in
  kms_fb_ref (kms_fb_lookup s (fb_id st)) s.
Definition carry_plane (ci : Z) (carry p : Z) (s : kms_srv_t) : kms_srv_t :=
  if negb (Z.testbit carry p) then s
  else
    let c := ks_crtc s ci in
    let fb := kms_fb_lookup s (fb_id (cs_cur c p)) in
    let off := plane0 <| plane_id := KMS_ID_PLANE (cs_idx c) p |> in
    let ok := match fb with Some _ => be_check s c p (cs_cur c p) (show s fb) =? 0 | None => false end in
    let s := set_crtc ci (λ c, c <| cs_pst ::= λ a, <[p := if ok then cs_cur c p else off]> a |>) s in
    if ok then kms_fb_ref fb s else s.

Definition commit_accept (client ci : Z) (l : list (Z * kms_atomic_plane_t)) (mask carry flags user : Z) (newmode : option (Z * Z))
    (m : Z * Z) (s : kms_srv_t) : option kms_flip_resp_t * kms_srv_t :=
  let s := foldl (take_plane ci) s l in
  let s := for_ 0 KMS_PLANES_PER_CRTC (carry_plane ci carry) s in
  let s :=
    if mode_moves (ks_crtc s ci) m then umode_set ci m.1 m.2 client s
    else match newmode with
         | Some _ => if negb (m.1 =? 0) then set_crtc ci (λ c, c <| cs_umode_client := client |>) s else s
         | None => s
         end in
  let '(now, s) := kms_cnt s in
  let s := set_crtc ci (λ c, c <| cs_pmask := Z.lor mask carry |> <| cs_pclient := client |> <| cs_puser := user |>
    <| cs_pevent := has flags KMS_PAGE_FLIP_EVENT |> <| cs_pqueued_cnt := now |> <| cs_pqueued_seq := cs_seq c |>
    <| cs_pend := KMS_PEND_FENCE |>) s in
  let seq := cs_seq (ks_crtc s ci) in
  let '(armed, s) := kms_try_apply ci s in
  if armed then
    let c := ks_crtc s ci in
    (Some (mkFlip seq 1 (u32 (kms_cnt_us s (u64 (cs_parmed_cnt c - cs_pqueued_cnt c))))), s)
  else
    let s := kstat (λ t, t <| st_flips_fence_deferred ::= λ n, u32 (n + 1) |>) s in
    let s := s <| ks_fst ; fs_deferred ::= λ n, u32 (n + 1) |> in
    (Some (mkFlip seq 0 0),
     if negb (op_no_kick (ks_opt s)) then kms_emit KE_signal (s <| ks_vb ; vb_gate_kick ::= λ n, u32 (n + 1) |>) else s).

(** The planes are checked in the new mode's space: its fit is in the CRTC meanwhile, and is
    put back when the commit is refused or only tested. *)
Definition commit_fit (ci : Z) (m : Z * Z) (s : kms_srv_t) : kms_srv_t :=
  if mode_moves (ks_crtc s ci) m then
    set_crtc ci (λ c, c <| cs_fit := kms_fit (hdisplay (cs_mode c)) (vdisplay (cs_mode c)) m.1 m.2 |>) s
  else s.
Definition commit (client ci : Z) (sts : list kms_atomic_plane_t) (flags user : Z) (newmode : option (Z * Z)) (s : kms_srv_t)
    : Z * option kms_flip_resp_t * kms_srv_t :=
  if KMS_ATOMIC_MAX_PLANES <? Z.of_nat (length sts) then (- E2BIG, None, s)
  else
    let c := ks_crtc s ci in
    match commit_planes c sts 0 with
    | inl e => (e, None, s)
    | inr (mask, idx) =>
        let l := zip idx sts in
        let prim := commit_prim c l in
        let m := commit_mode c prim newmode in
        let carry :=
          if mode_moves c m then
            for_ 0 KMS_PLANES_PER_CRTC (λ p carry,
              if negb (Z.testbit mask p) && negb (fb_id (cs_cur c p) =? 0) then Z.setbit carry p else carry) 0
          else 0 in
        let s := commit_fit ci m s in
        let back := set_crtc ci (λ d, d <| cs_fit := cs_fit c |>) in
        let rc := validate_all client s (ks_crtc s ci) l in
        if negb (rc =? 0) then (rc, None, back s)
        else if has flags KMS_ATOMIC_TEST_ONLY then (0, None, back s)
        else if negb (bool_decide (cs_pend c = KMS_PEND_NONE)) then (- EBUSY, None, back s)
        else
          let '(out, s) := commit_accept client ci l mask carry flags user newmode m s in
          (0, out, s)
    end.

(** ** Off the screen *)
Definition off_plane (ci client fb p : Z) (st : Z * kms_srv_t) : Z * kms_srv_t :=
  let '(n, s) := st in
  let c := ks_crtc s ci in
  match kms_fb_lookup s (fb_id (cs_cur c p)) with
  | None => st
  | Some i =>
      let f := ks_fbs s i in
      if (if negb (fb =? 0) then negb (kf_id f =? fb) else negb (kf_owner f =? client)) then st
      else
        let s := (be_apply c p plane0 None s).2 in
        let s := set_crtc ci (λ c, c <| cs_cur ::= λ a, <[p := plane0]> a |>) s in
        (u32 (n + 1), kms_fb_unref (Some i) s)
  end.
Definition planes_off (ci client fb : Z) (s : kms_srv_t) : Z * kms_srv_t :=
  let '(n, s) := for_ 0 KMS_PLANES_PER_CRTC (off_plane ci client fb) (0, s) in
  let s := if negb (plane_on (ks_crtc s ci) 0) then umode_native ci s else s in
  (n, console_update s).

Definition close_parked (id i : Z) (st : kms_srv_t * list kms_parked_t) : kms_srv_t * list kms_parked_t :=
  let '(s, answer) := st in
  let p := ks_parked s i in
  if pk_used p && (pk_client p =? id) then
    let c := ks_crtc s 0 in
    claim i (set_reply i (turned_away s p (- EPIPE) (cs_seq c) (cs_last_vbl_cnt c)) s, answer)
  else st.
Definition close_vblev (id i : Z) (s : kms_srv_t) : kms_srv_t :=
  let e := ks_vblev s i in
  if ve_used e && (ve_client e =? id) then set_vblev i (λ e, e <| ve_used := false |>) s else s.
(** Its commit: dropped while it waits for a fence, settled once the firmware has it. *)
Definition drop_pending (ci p : Z) (s : kms_srv_t) : kms_srv_t :=
  let c := ks_crtc s ci in
  if Z.testbit (cs_pmask c) p then kms_fb_unref (kms_fb_lookup s (fb_id (cs_pst c p))) s else s.
Definition close_commit (id : Z) (s : kms_srv_t) : kms_srv_t :=
  let c := ks_crtc s 0 in
  if negb (cs_pclient c =? id) then s
  else
    match cs_pend c with
    | KMS_PEND_NONE => s
    | KMS_PEND_FENCE =>
        set_crtc 0 (λ c, c <| cs_pend := KMS_PEND_NONE |> <| cs_pmask := 0 |>) (for_ 0 KMS_PLANES_PER_CRTC (drop_pending 0) s)
    | KMS_PEND_ARMED =>
        let s := set_crtc 0 (λ c, c <| cs_pevent := false |>) s in
        let '(now, s) := kms_cnt s in
        complete 0 now s
    end.

Definition kms_client_close (id : Z) (st : kms_srv_t * list kms_parked_t) : kms_srv_t * list kms_parked_t :=
  match kms_client_get st.1 id with
  | None => st
  | Some i =>
      let '(s, answer) := for_ 0 KMS_MAX_PARKED (close_parked id) st in
      let s := for_ 0 KMS_MAX_VBL_EVENTS (close_vblev id) s in
      let s := close_commit id s in
      let '(_, s) := planes_off 0 (u32 id) 0 s in
      let s := if cs_umode_client (ks_crtc s 0) =? u32 id then umode_native 0 s else s in
      let s := kms_bo_client_gone (u32 id) s in
      let s := set_kclient i (λ c, c <| kc_used := false |>) s in
      let s :=
        if negb (fs_flips (ks_fst s) =? 0) || negb (fs_deferred (ks_fst s) =? 0) then s <| ks_fst := flipstat0 |> else s in
      (s, answer)
  end.
End env.
