(* ===== verification/KmsFw.v ===== *)
(** Modes from the firmware (tools/gpu-lane/kms/kms_fw.c): the mode a CRTC starts with, and
    the measured refresh. *)
From S2P Require Import Prelude Proto State KmsProto KmsModes KmsState KmsBo.

Definition kms_mode_set_refresh (ci mhz : Z) (s : kms_srv_t) : kms_srv_t :=
  if cs_mode_from_fw (ks_crtc s ci) || (mhz =? 0) then s
  else
    let s := set_crtc ci (λ c, c <| cs_refresh_mhz := mhz |>
      <| cs_mode ::= λ m, m <| vrefresh := u32 (mhz + 500) / 1000 |>
                            <| clock := u32 (u64 (htotal m * vtotal m * mhz) / 1000000) |> |>) s in
    let c := ks_crtc s ci in
    match kms_blob_get s (cs_mode_blob c) with
    | Some b => if kl_len (ks_blobs s b) =? MODEINFO_SIZE then set_kblob b (λ b, b <| kl_data ::= copy_over (modeinfo_bytes (cs_mode c)) |>) s else s
    | None => s
    end.

(** The mode synthesized when the firmware gives no timing. *)
Definition mode_fallback (ci : Z) (s : kms_srv_t) : kms_srv_t :=
  let o := ks_opt s in
  let w := u16 (op_fb_w o) in
  let h := u16 (op_fb_h o) in
  let m := if (op_fb_w o =? 1920) && (op_fb_h o =? 1080)
    then mkMode 0 w 2008 2052 2200 0 h 1084 1089 1125 0 0 (Z.lor KMS_MODE_FLAG_PHSYNC KMS_MODE_FLAG_PVSYNC)
           (Z.lor KMS_MODE_TYPE_PREFERRED KMS_MODE_TYPE_DRIVER) (mode_name_of (op_fb_w o) (op_fb_h o))
    else
      let hss := u16 (w + w / 40) in
      let vss := u16 (h + 3) in
      mkMode 0 w hss (u16 (hss + w / 40)) (u16 (w + w / 10)) 0 h vss (u16 (vss + 5)) (u16 (h + h / 25 + 8)) 0 0
        (Z.lor KMS_MODE_FLAG_NHSYNC KMS_MODE_FLAG_NVSYNC) (Z.lor KMS_MODE_TYPE_PREFERRED KMS_MODE_TYPE_DRIVER)
        (mode_name_of (op_fb_w o) (op_fb_h o)) in
  kms_mode_set_refresh ci 60000 (set_crtc ci (λ c, c <| cs_mode := m |> <| cs_mode_from_fw := false |>) s).

(** GET_DISPLAY_TIMING answered the nine words [o], or failed. *)
Definition mode_query (ci rc : Z) (o : Z → Z) (s : kms_srv_t) : kms_srv_t :=
  if negb (rc =? 0) || (o 1 =? 0) || (Z.land (o 2) 0xffff =? 0) then mode_fallback ci s
  else
    let lo x := Z.land x 0xffff in
    let hi x := u16 (Z.shiftr x 16) in
    let flags := Z.lor (Z.lor (if has (o 8) 1 then KMS_MODE_FLAG_PHSYNC else KMS_MODE_FLAG_NHSYNC)
                              (if has (o 8) 2 then KMS_MODE_FLAG_PVSYNC else KMS_MODE_FLAG_NVSYNC))
                       (if has (o 8) 4 then KMS_MODE_FLAG_INTERLACE else 0) in
    let m := mkMode (o 1) (lo (o 2)) (hi (o 2)) (lo (o 3)) (hi (o 3)) (lo (o 4)) (hi (o 4)) (lo (o 5)) (hi (o 5)) (lo (o 6)) (hi (o 6))
      (lo (o 7)) flags (Z.lor KMS_MODE_TYPE_PREFERRED KMS_MODE_TYPE_DRIVER) (mode_name_of (lo (o 2)) (hi (o 4))) in
    let mhz := if negb (htotal m =? 0) && negb (vtotal m =? 0) then u32 (u64 (clock m * 1000000) / (htotal m * vtotal m)) else u32 (vrefresh m * 1000) in
    set_crtc ci (λ c, c <| cs_mode := m |> <| cs_mode_from_fw := true |> <| cs_refresh_mhz := mhz |>) s.

(** EDID block 0, 128 bytes, or no answer. *)
Definition EDID_HEADER : list Z := [0x00; 0xff; 0xff; 0xff; 0xff; 0xff; 0xff; 0x00].
Definition edid_query (ci : Z) (ans : option (list Z)) (s : kms_srv_t) : kms_srv_t :=
  match ans with
  | None => s
  | Some e =>
      if negb (op_xl (ks_opt s)) || negb (bool_decide (take 8 e = EDID_HEADER)) then s
      else
        let '(id, s) := kms_blob_create 0 e s in
        set_crtc ci (λ c, c <| cs_edid_blob := id |> <| cs_mm_w := u32 (byte_at e 21 * 10) |> <| cs_mm_h := u32 (byte_at e 22 * 10) |>) s
  end.

(** What kms_fw_init does for a CRTC once the firmware has answered. *)
Definition crtc_init (ci id rc : Z) (timing : Z → Z) (edid : option (list Z)) (s : kms_srv_t) : kms_srv_t :=
  let s := set_crtc ci (λ _, crtc0 <| cs_idx := ci |> <| cs_fw_display_id := id |>) s in
  let s := mode_query ci rc timing s in
  let s := set_crtc ci (λ c, c <| cs_connection := KMS_CONNECTED |>) s in
  let '(blob, s) := kms_blob_create 0 (modeinfo_bytes (cs_mode (ks_crtc s ci))) s in
  edid_query ci edid (set_crtc ci (λ c, c <| cs_mode_blob := blob |>) s).
