(* ===== verification/KmsMain.v ===== *)
(** Properties, requests and the dispatch loop of the display server
    (tools/gpu-lane/kms/kms_main.c). *)
From S2P Require Import Prelude Proto State KmsProto KmsModes KmsState KmsBo KmsEv KmsBackend KmsCommit.
From stdpp Require Import strings.
#[local] Open Scope Z_scope.

(** ** Properties *)
Record propdesc_t := mkProp { pd_id : Z; pd_name : string; pd_flags : Z; pd_min : Z; pd_max : Z; pd_en : list (Z * string) }.
Definition en_type := [(0, "Overlay"%string); (1, "Primary"%string); (2, "Cursor"%string)].
Definition en_dpms := [(0, "On"%string); (1, "Standby"%string); (2, "Suspend"%string); (3, "Off"%string)].
Definition en_link := [(0, "Good"%string); (1, "Bad"%string)].
Definition en_rot := [(0, "rotate-0"%string); (2, "rotate-180"%string); (4, "reflect-x"%string); (5, "reflect-y"%string)].
Definition props : list propdesc_t :=
  let RANGE := KMS_PROP_FLAG_RANGE in let IMM := KMS_PROP_FLAG_IMMUTABLE in let ATOM := KMS_PROP_FLAG_ATOMIC in
  [ mkProp KMS_PROP_TYPE "type" (Z.lor KMS_PROP_FLAG_ENUM IMM) 0 0 en_type;
    mkProp KMS_PROP_FB_ID "FB_ID" (Z.lor KMS_PROP_FLAG_OBJECT ATOM) KMS_OBJ_FB 0 [];
    mkProp KMS_PROP_CRTC_ID "CRTC_ID" (Z.lor KMS_PROP_FLAG_OBJECT ATOM) KMS_OBJ_CRTC 0 [];
    mkProp KMS_PROP_SRC_X "SRC_X" (Z.lor RANGE ATOM) 0 0xffffffff [];
    mkProp KMS_PROP_SRC_Y "SRC_Y" (Z.lor RANGE ATOM) 0 0xffffffff [];
    mkProp KMS_PROP_SRC_W "SRC_W" (Z.lor RANGE ATOM) 0 0xffffffff [];
    mkProp KMS_PROP_SRC_H "SRC_H" (Z.lor RANGE ATOM) 0 0xffffffff [];
    mkProp KMS_PROP_CRTC_X "CRTC_X" (Z.lor KMS_PROP_FLAG_SIGNED ATOM) (u64 (-2147483648)) 2147483647 [];
    mkProp KMS_PROP_CRTC_Y "CRTC_Y" (Z.lor KMS_PROP_FLAG_SIGNED ATOM) (u64 (-2147483648)) 2147483647 [];
    mkProp KMS_PROP_CRTC_W "CRTC_W" (Z.lor RANGE ATOM) 0 2147483647 [];
    mkProp KMS_PROP_CRTC_H "CRTC_H" (Z.lor RANGE ATOM) 0 2147483647 [];
    mkProp KMS_PROP_IN_FENCE_FD "IN_FENCE_FD" (Z.lor KMS_PROP_FLAG_SIGNED ATOM) (u64 (-1)) 2147483647 [];
    mkProp KMS_PROP_IN_FORMATS "IN_FORMATS" (Z.lor KMS_PROP_FLAG_BLOB IMM) 0 0 [];
    mkProp KMS_PROP_ZPOS "zpos" RANGE 0 7 [];
    mkProp KMS_PROP_ALPHA "alpha" RANGE 0 0xffff [];
    mkProp KMS_PROP_ROTATION "rotation" KMS_PROP_FLAG_BITMASK 0 0 en_rot;
    mkProp KMS_PROP_ACTIVE "ACTIVE" (Z.lor RANGE ATOM) 0 1 [];
    mkProp KMS_PROP_MODE_ID "MODE_ID" (Z.lor KMS_PROP_FLAG_BLOB ATOM) 0 0 [];
    mkProp KMS_PROP_OUT_FENCE_PTR "OUT_FENCE_PTR" (Z.lor RANGE ATOM) 0 (u64 (-1)) [];
    mkProp KMS_PROP_VRR_ENABLED "VRR_ENABLED" RANGE 0 1 [];
    mkProp KMS_PROP_DPMS "DPMS" KMS_PROP_FLAG_ENUM 0 0 en_dpms;
    mkProp KMS_PROP_EDID "EDID" (Z.lor KMS_PROP_FLAG_BLOB IMM) 0 0 [];
    mkProp KMS_PROP_LINK_STATUS "link-status" KMS_PROP_FLAG_ENUM 0 0 en_link;
    mkProp KMS_PROP_NON_DESKTOP "non-desktop" (Z.lor RANGE IMM) 0 1 [] ].
Definition prop_desc (id : Z) : option propdesc_t := List.find (λ d, pd_id d =? id) props.

(** The property list of an object with its current values. *)
Definition obj_props (s : kms_srv_t) (obj : Z) : list kms_prop_value_t :=
  let c := ks_crtc s 0 in
  let v id x := mkPropValue id (u64 x) in
  if obj =? KMS_ID_CONNECTOR 0 then
    [v KMS_PROP_CRTC_ID (KMS_ID_CRTC 0); v KMS_PROP_DPMS 0; v KMS_PROP_EDID (cs_edid_blob c); v KMS_PROP_LINK_STATUS 0;
     v KMS_PROP_NON_DESKTOP 0]
  else if obj =? KMS_ID_CRTC 0 then
    [v KMS_PROP_ACTIVE 1;
     v KMS_PROP_MODE_ID (if negb (cs_umode_w c =? 0) && negb (cs_umode_blob c =? 0) then cs_umode_blob c else cs_mode_blob c);
     v KMS_PROP_OUT_FENCE_PTR 0; v KMS_PROP_VRR_ENABLED 0]
  else
    match plane_idx c obj with
    | None => []
    | Some p =>
        let st := cs_cur c p in
        [v KMS_PROP_TYPE (plane_type p); v KMS_PROP_FB_ID (fb_id st); v KMS_PROP_CRTC_ID (crtc_id st);
         v KMS_PROP_SRC_X (src_x st); v KMS_PROP_SRC_Y (src_y st); v KMS_PROP_SRC_W (src_w st); v KMS_PROP_SRC_H (src_h st);
         v KMS_PROP_CRTC_X (crtc_x st); v KMS_PROP_CRTC_Y (crtc_y st); v KMS_PROP_CRTC_W (crtc_w st); v KMS_PROP_CRTC_H (crtc_h st);
         v KMS_PROP_IN_FENCE_FD (-1); v KMS_PROP_IN_FORMATS (op_in_formats (ks_opt s) p)] ++
        (if is_plane (op_be (ks_opt s)) then
           [v KMS_PROP_ZPOS (if p =? 7 then 7 else p); v KMS_PROP_ALPHA (if negb (fb_id st =? 0) then alpha st else 0xffff);
            v KMS_PROP_ROTATION (if negb (rotation st =? 0) then rotation st else 1)]
         else [])
    end.

(** struct drm_format_modifier_blob: header, formats, one LINEAR modifier. *)
Definition le64 (x : Z) : list Z := le32 (x mod 2 ^ 32) ++ le32 (x / 2 ^ 32 mod 2 ^ 32).
Definition in_formats_bytes (fmts : list Z) : list Z :=
  let n := Z.of_nat (length fmts) in
  let off_mod := Z.land (24 + 4 * n + 7) (u32 (Z.lnot 7)) in
  le32 1 ++ le32 0 ++ le32 n ++ le32 24 ++ le32 1 ++ le32 off_mod ++ mjoin (le32 <$> fmts) ++
  replicate (Z.to_nat (off_mod - (24 + 4 * n))) 0 ++
  le64 (if 64 <=? n then u64 (-1) else Z.shiftl 1 n - 1) ++ le32 0 ++ le32 0 ++ le64 KMS_MOD_LINEAR.
Definition in_formats_blob (p : Z) (s : kms_srv_t) : Z * kms_srv_t :=
  kms_blob_create 0 (in_formats_bytes (be_formats s p KMS_PLANE_MAX_FMTS)) s.

(** ** Queries *)
Definition get_cap (cap : Z) : option Z :=
  if cap =? KMS_CAP_DUMB_BUFFER then Some 1
  else if cap =? KMS_CAP_VBLANK_HIGH_CRTC then Some 1
  else if cap =? KMS_CAP_DUMB_PREFERRED_DEPTH then Some 24
  else if cap =? KMS_CAP_DUMB_PREFER_SHADOW then Some 0
  else if cap =? KMS_CAP_PRIME then Some 3
  else if cap =? KMS_CAP_TIMESTAMP_MONOTONIC then Some 1
  else if cap =? KMS_CAP_ASYNC_PAGE_FLIP then Some 0
  else if cap =? KMS_CAP_CURSOR_WIDTH then Some 64
  else if cap =? KMS_CAP_CURSOR_HEIGHT then Some 64
  else if cap =? KMS_CAP_ADDFB2_MODIFIERS then Some 1
  else if cap =? KMS_CAP_PAGE_FLIP_TARGET then Some 0
  else if cap =? KMS_CAP_CRTC_IN_VBLANK_EVENT then Some 1
  else if cap =? KMS_CAP_SYNCOBJ then Some 0
  else if cap =? KMS_CAP_SYNCOBJ_TIMELINE then Some 0
  else if cap =? KMS_CAP_ATOMIC_ASYNC_PAGE_FLIP then Some 0
  else None.

Definition has_out (m : kms_msg) : bool := match m_out m with OP_null => false | _ => true end.
(** The first elements of [l], of [sz] bytes each, that fit both the buffer and [max]. *)
Definition fit_out {A} (m : kms_msg) (sz max : Z) (l : list A) : list A :=
  take (Z.to_nat (Z.min (Z.min (m_osize m / sz) max) (Z.of_nat (length l)))) l.

Definition modes_listed (s : kms_srv_t) : list kms_modeinfo_t :=
  let c := ks_crtc s 0 in
  kms_mode_list (cs_mode c) (cs_refresh_mhz c) (is_plane (op_be (ks_opt s)) && negb (op_native_only (ks_opt s))).
Definition op_get_connector (s : kms_srv_t) (m : kms_msg) (id max : Z) : Z * kms_resp_u * kms_payload :=
  let c := ks_crtc s 0 in
  if negb (id =? KMS_ID_CONNECTOR 0) then (- ENOENT, RU_none, PL_none)
  else
    let modes := modes_listed s in
    (0, RU_connector (mkConnector 11 1 (cs_connection c) (cs_mm_w c) (cs_mm_h c) 1 (KMS_ID_ENCODER 0) (Z.of_nat (length modes))
                        (Z.of_nat (length (obj_props s id))) (cs_fw_display_id c)),
     if has_out m then PL_modes (fit_out m MODEINFO_SIZE max modes) else PL_none).

Definition op_get_property (m : kms_msg) (id max : Z) : Z * kms_resp_u * kms_payload :=
  match prop_desc id with
  | None => (- ENOENT, RU_none, PL_none)
  | Some d =>
      if has (pd_flags d) (Z.lor KMS_PROP_FLAG_ENUM KMS_PROP_FLAG_BITMASK) then
        let nen := Z.of_nat (length (pd_en d)) in
        let n := Z.min nen max in
        (0, RU_prop (pd_name d) (pd_flags d) nen nen,
         if has_out m && negb (max =? 0) && (n * 40 <=? m_osize m) then PL_enums (take (Z.to_nat n) (pd_en d)) else PL_none)
      else if has (pd_flags d) (Z.lor (Z.lor KMS_PROP_FLAG_RANGE KMS_PROP_FLAG_SIGNED) KMS_PROP_FLAG_OBJECT) then
        let n := if has (pd_flags d) KMS_PROP_FLAG_OBJECT then 1 else 2 in
        (0, RU_prop (pd_name d) (pd_flags d) n 0,
         if has_out m && negb (max =? 0) && (n * 8 <=? m_osize m) then PL_values (take (Z.to_nat n) [pd_min d; pd_max d]) else PL_none)
      else (0, RU_prop (pd_name d) (pd_flags d) 0 0, PL_none)
  end.

Definition op_get_crtc (s : kms_srv_t) (m : kms_msg) (id : Z) : Z * kms_resp_u * kms_payload :=
  let c := ks_crtc s 0 in
  if negb (id =? KMS_ID_CRTC 0) then (- ENOENT, RU_none, PL_none)
  else
    (0, RU_crtc (mkCrtcResp (fb_id (cs_cur c 0)) 1 (umode_w c) (umode_h c) (vrefresh (cs_mode c)) (cs_seq c)
                   (if negb (bool_decide (cs_pend c = KMS_PEND_NONE)) then fb_id (cs_pst c 0) else 0)),
     if has_out m && (MODEINFO_SIZE <=? m_osize m) then PL_modes [umode_info c] else PL_none).

Definition op_get_resources (s : kms_srv_t) (m : kms_msg) (client max : Z) : Z * kms_resp_u * kms_payload :=
  let n := op_ncrtc (ks_opt s) in
  let ids := kf_id ∘ ks_fbs s <$> List.filter (λ i, let f := ks_fbs s i in kf_used f && kf_user_ref f && (kf_owner f =? client)) (seqZ 0 KMS_MAX_FBS) in
  (0, RU_resources n (Z.of_nat (length ids)) (KMS_ID_CRTC <$> seqZ 0 n) (KMS_ID_CONNECTOR <$> seqZ 0 n) (KMS_ID_ENCODER <$> seqZ 0 n),
   if has_out m then PL_ids (fit_out m 4 max ids) else PL_none).

Definition op_get_plane_resources (s : kms_srv_t) (caps : Z) : list Z :=
  KMS_ID_PLANE 0 <$> List.filter (λ i, Z.testbit (cs_plane_mask (ks_crtc s 0)) i &&
    (Z.testbit caps KMS_CLIENT_CAP_UNIVERSAL_PLANES || (plane_type i =? KMS_PLANE_TYPE_OVERLAY))) (seqZ 0 KMS_PLANES_PER_CRTC).

Section env.
Context `{K : KEnv}.

(** ** Flips and mode sets *)
Definition op_page_flip (client : Z) (rq : kms_page_flip_req_t) (s : kms_srv_t) : Z * option kms_flip_resp_t * kms_srv_t :=
  match crtc_by_id s (pf_crtc_id rq) with
  | None => (- ENOENT, None, s)
  | Some ci =>
      let c := ks_crtc s ci in
      if has (pf_flags rq) KMS_PAGE_FLIP_ASYNC then (- EINVAL, None, s)
      else
        match kms_fb_lookup s (pf_fb_id rq) with
        | None => (- ENOENT, None, s)
        | Some i =>
            let fb := ks_fbs s i in
            let st :=
              if negb (fb_id (cs_cur c 0) =? 0) then
                cs_cur c 0 <| fb_id := pf_fb_id rq |> <| src_w := u32 (Z.shiftl (kf_w fb) 16) |> <| src_h := u32 (Z.shiftl (kf_h fb) 16) |>
              else state_fullscreen s c fb 0 (umode_w c) (umode_h c) in
            commit client ci [st <| in_fence := pf_in_fence rq |>] (Z.land (pf_flags rq) KMS_PAGE_FLIP_EVENT) (pf_user_data rq) None s
        end
  end.

(** Every plane of the CRTC off. *)
Definition all_off (c : kms_crtc_state_t) : list kms_atomic_plane_t :=
  (λ p, plane0 <| plane_id := KMS_ID_PLANE (cs_idx c) p |>) <$> List.filter (Z.testbit (cs_plane_mask c)) (seqZ 0 KMS_PLANES_PER_CRTC).

Definition op_set_crtc (client : Z) (rq : kms_set_crtc_req_t) (s : kms_srv_t) : Z * kms_srv_t :=
  match crtc_by_id s (sc_crtc_id rq) with
  | None => (- ENOENT, s)
  | Some ci =>
      let c := ks_crtc s ci in
      if sc_fb_id rq =? 0 then let '(rc, _, s) := commit client ci (all_off c) 0 0 (Some (0, 0)) s in (rc, s)
      else if negb (sc_x rq =? 0) || negb (sc_y rq =? 0) then (- EINVAL, s)
      else
        match (if negb (sc_mode_hdisplay rq =? 0) then Some <$> umode_lookup s c (sc_mode_hdisplay rq) (sc_mode_vdisplay rq) else Some None) with
        | None => (- EINVAL, s)
        | Some newmode =>
            match kms_fb_lookup s (sc_fb_id rq) with
            | None => (- ENOENT, s)
            | Some i =>
                let '(mw, mh) :=
                  match newmode with
                  | None => (umode_w c, umode_h c)
                  | Some (w, h) => if negb (w =? 0) then (w, h) else (hdisplay (cs_mode c), vdisplay (cs_mode c))
                  end in
                let '(rc, _, s) := commit client ci [state_fullscreen s c (ks_fbs s i) 0 mw mh] 0 0 newmode s in (rc, s)
            end
        end
  end.

(** The mode a MODE_ID blob asks for. *)
Definition blob_mode (s : kms_srv_t) (c : kms_crtc_state_t) (id : Z) : option (Z * Z) :=
  match kms_blob_get s id with
  | None => None
  | Some b =>
      if kl_len (ks_blobs s b) <? MODEINFO_SIZE then None
      else let mi := modeinfo_of (kl_data (ks_blobs s b)) in umode_lookup s c (hdisplay mi) (vdisplay mi)
  end.

Definition op_atomic (client : Z) (rq : kms_atomic_req_t) (data : option (list kms_atomic_plane_t)) (s : kms_srv_t)
    : Z * option kms_flip_resp_t * kms_srv_t :=
  match crtc_by_id s (at_crtc_id rq) with
  | None => (- ENOENT, None, s)
  | Some ci =>
      let c := ks_crtc s ci in
      match (if negb (at_mode_blob rq =? 0) then Some <$> blob_mode s c (at_mode_blob rq) else Some None) with
      | None => (- EINVAL, None, s)
      | Some newmode =>
          let n := at_nplanes rq in
          match (if at_active rq =? 0 then Some (all_off c)
                 else
                   match data with
                   | None => None
                   | Some l => if (n =? 0) || (KMS_ATOMIC_MAX_PLANES <? n) || (Z.of_nat (length l) <? n) then None else Some (take (Z.to_nat n) l)
                   end) with
          | None => (- EINVAL, None, s)
          | Some sts => commit client ci sts (at_flags rq) (at_user_data rq) newmode s
          end
      end
  end.

(** ** Vblank waits: [None] when parked *)
Inductive vbl_op := VO_wait | VO_get | VO_queue.
Definition vblank_target (op : vbl_op) (c : kms_crtc_state_t) (rq : kms_vblank_req_t) : Z :=
  match op with
  | VO_queue =>
      let t := if has (vr_type rq) 1 then u64 (cs_seq c + vr_sequence rq) else vr_sequence rq in
      if has (vr_type rq) 2 && (t <=? cs_seq c) then u64 (cs_seq c + 1) else t
  | _ => if has (vr_type rq) KMS_VBL_ABSOLUTE then vr_sequence rq else u64 (cs_seq c + vr_sequence rq)
  end.
Definition op_vblank (op : vbl_op) (client : Z) (rq : kms_vblank_req_t) (m : kms_msg) (rid : Z) (s : kms_srv_t)
    : option (Z * kms_resp_u) * kms_srv_t :=
  match crtc_by_id s (vr_crtc_id rq) with
  | None => (Some (- ENOENT, RU_none), s)
  | Some ci =>
      let c := ks_crtc s ci in
      let ns := kms_cnt_to_mono_ns s (cs_last_vbl_cnt c) in
      let target := vblank_target op c rq in
      let queued := match op with VO_queue => true | _ => has (vr_type rq) KMS_VBL_EVENT end in
      match op with
      | VO_get => (Some (0, RU_vblank (cs_seq c) ns), s)
      | _ =>
          if queued then
            match find_first (λ i, negb (ve_used (ks_vblev s i))) 0 KMS_MAX_VBL_EVENTS with
            | None => (Some (- ENOSPC, RU_none), s)
            | Some i =>
                let type := match op with VO_queue => KMS_DRM_EVENT_CRTC_SEQUENCE | _ => KMS_DRM_EVENT_VBLANK end in
                (Some (0, RU_vblank target ns),
                 set_vblev i (λ _, mkVblev true client (KMS_ID_CRTC (cs_idx c)) type target (vr_user_data rq)) s)
            end
          else if target <=? cs_seq c then (Some (0, RU_vblank (cs_seq c) ns), s)
          else
            let '(rc, s) := park KMS_PARK_VBLANK client (KMS_ID_CRTC (cs_idx c)) target m rid s in
            if negb (rc =? 0) then (Some (- ENOSPC, RU_none), s) else (None, s)
      end
  end.

(** ** RMFB *)
Definition op_rmfb (client id : Z) (s : kms_srv_t) : Z * kms_srv_t :=
  match kms_fb_lookup s id with
  | None => (- ENOENT, s)
  | Some i =>
      let f := ks_fbs s i in
      let c := ks_crtc s 0 in
      if negb (kf_owner f =? client) || negb (kf_user_ref f) then (- ENOENT, s)
      else if existsb (λ p, negb (bool_decide (cs_pend c = KMS_PEND_NONE)) && Z.testbit (cs_pmask c) p && (fb_id (cs_pst c p) =? kf_id f))
                (seqZ 0 KMS_PLANES_PER_CRTC)
      then (- EBUSY, s)
      else let '(_, s) := planes_off 0 client (kf_id f) s in kms_fb_rm client id s
  end.

Definition pool_free_kib (s : kms_srv_t) : Z :=
  if op_pool_ok (ks_opt s) then
    u32 (u64 (op_pool_size (ks_opt s) - sumZ (λ i, if pool_live (ks_bos s i) then kb_size (ks_bos s i) else 0) 0 KMS_MAX_BOS) / 1024)
  else 0.

Definition quit_parked (i : Z) (st : kms_srv_t * list kms_parked_t) : kms_srv_t * list kms_parked_t :=
  let '(s, answer) := st in
  let p := ks_parked s i in
  if pk_used p then
    let c := ks_crtc s 0 in
    claim i (set_reply i (turned_away s p (- ENODEV) (cs_seq c) (cs_last_vbl_cnt c)) s, answer)
  else st.

(** ** A raw request: the reply, or [None] when it was parked *)
Definition koutcome : Type := option kms_reply * kms_srv_t * list kms_parked_t.
Definition raw_reply (rc : Z) (u : kms_resp_u) (d : kms_payload) : option kms_reply := Some (mkReply 0 (Some (rc, u)) d).

Definition kms_handle_raw (ci rid : Z) (m : kms_msg) (rq : kms_req) (s : kms_srv_t) (answer : list kms_parked_t) : koutcome :=
  let cl := ks_clients s ci in
  let id := kc_id cl in
  let c := ks_crtc s 0 in
  let simple rc s : koutcome := (raw_reply rc RU_none PL_none, s, answer) in
  let query (r : Z * kms_resp_u * kms_payload) : koutcome := let '(rc, u, d) := r in (raw_reply rc u d, s, answer) in
  let dumb (r : Z * option kms_dumb_resp_t * kms_srv_t) : koutcome :=
    let '(rc, d, s) := r in (raw_reply rc (match d with Some d => RU_dumb d | None => RU_none end) PL_none, s, answer) in
  let flip (r : Z * option kms_flip_resp_t * kms_srv_t) : koutcome :=
    let '(rc, f, s) := r in (raw_reply rc (match f with Some f => RU_flip f | None => RU_none end) PL_none, s, answer) in
  let wait (r : option (Z * kms_resp_u) * kms_srv_t) : koutcome :=
    match r with (Some (rc, u), s) => (raw_reply rc u PL_none, s, answer) | (None, s) => (None, s, answer) end in
  match rq with
  | K_get_cap cap => match get_cap cap with Some v => query (0, RU_cap v, PL_none) | None => simple (- EINVAL) s end
  | K_set_client_cap cap value =>
      if (cap =? KMS_CLIENT_CAP_UNIVERSAL_PLANES) || (cap =? KMS_CLIENT_CAP_ATOMIC) || (cap =? KMS_CLIENT_CAP_ASPECT_RATIO) then
        simple 0 (set_kclient ci (λ c, c <| kc_caps ::= λ x, if negb (value =? 0) then Z.setbit x cap else Z.clearbit x cap |>) s)
      else simple (if value =? 0 then 0 else - EINVAL) s
  | K_set_master | K_drop_master | K_auth_magic => simple 0 s
  | K_get_resources max => query (op_get_resources s m id max)
  | K_get_connector obj max => query (op_get_connector s m obj max)
  | K_get_encoder obj =>
      if negb (obj =? KMS_ID_ENCODER 0) then simple (- ENOENT) s else query (0, RU_encoder 2 (KMS_ID_CRTC 0) 1 0, PL_none)
  | K_get_crtc obj => query (op_get_crtc s m obj)
  | K_set_crtc rq => let '(rc, s) := op_set_crtc id rq s in simple rc s
  | K_get_plane_resources => query (0, RU_plane_res (op_get_plane_resources s (kc_caps cl)), PL_none)
  | K_get_plane obj =>
      match plane_idx c obj with
      | None => simple (- ENOENT) s
      | Some p =>
          query (0, RU_plane (mkPlaneResp (crtc_id (cs_cur c p)) (fb_id (cs_cur c p)) 1 (plane_type p) (be_formats s p KMS_PLANE_MAX_FMTS)), PL_none)
      end
  | K_get_properties obj max =>
      let l := obj_props s obj in
      match l with
      | [] => simple (- ENOENT) s
      | _ => query (0, RU_count (Z.of_nat (length l)), if has_out m && negb (max =? 0) then PL_props (fit_out m 16 max l) else PL_none)
      end
  | K_get_property obj max => query (op_get_property m obj max)
  | K_get_blob b =>
      match kms_blob_get s b with
      | None => simple (- ENOENT) s
      | Some i =>
          let b := ks_blobs s i in
          query (0, RU_blob (kl_id b) (kl_len b),
            if has_out m then PL_bytes (take (Z.to_nat (Z.min (kl_len b) (m_osize m))) (kl_data b)) else PL_none)
      end
  | K_create_blob data =>
      match data with
      | None => simple (- EINVAL) s
      | Some l =>
          let n := Z.of_nat (length l) in
          if (n =? 0) || (KMS_BLOB_MAX_LEN <? n) then simple (- EINVAL) s
          else let '(b, s) := kms_blob_create id l s in (raw_reply (if negb (b =? 0) then 0 else - ENOSPC) (RU_blob b n) PL_none, s, answer)
      end
  | K_destroy_blob b => let '(rc, s) := kms_blob_destroy id b s in simple rc s
  | K_create_dumb rq => dumb (kms_bo_create id rq s)
  | K_map_dumb h => let '(rc, d) := kms_bo_map id h s in dumb (rc, d, s)
  | K_prime_export h =>
      match kms_bo_get s id h with
      | None => simple (- ENOENT) s
      | Some i =>
          let s := set_kbo i (λ b, b <| kb_prime := true |>) s in
          let '(rc, d) := kms_bo_map id h s in dumb (rc, d, s)
      end
  | K_destroy_dumb h => let '(rc, s) := kms_bo_destroy id h s in simple rc s
  | K_addfb2 rq => let '(rc, fb, s) := kms_fb_add id rq s in (raw_reply rc (RU_fb fb) PL_none, s, answer)
  | K_rmfb fb => let '(rc, s) := op_rmfb id fb s in simple rc s
  | K_page_flip rq => flip (op_page_flip id rq s)
  | K_atomic rq data => flip (op_atomic id rq data s)
  | K_wait_vblank rq => wait (op_vblank VO_wait id rq m rid s)
  | K_crtc_get_sequence rq => wait (op_vblank VO_get id rq m rid s)
  | K_crtc_queue_sequence rq => wait (op_vblank VO_queue id rq m rid s)
  | K_checksum rq => let '(rc, u, s) := kms_bo_checksum id rq s in (raw_reply rc u PL_none, s, answer)
  | K_stats =>
      let s := kstat (λ t, t <| st_pool_free_kib := pool_free_kib s |>) s in (raw_reply 0 (RU_stats (ks_st s)) PL_none, s, answer)
  | K_quit =>
      let '(s, answer) := for_ 0 KMS_MAX_PARKED quit_parked (s, answer) in
      (raw_reply 0 RU_none PL_none, s <| ks_quit := true |>, answer)
  | K_other => simple (- EINVAL) s
  end.

(** PRIME_IMPORT: look up; unlocked, map while the others run ([between]); recheck, install. *)
Definition op_prime_import (id : Z) (rq : kms_prime_import_req_t) (ie : kimp_env) (between : kms_srv_t → kms_srv_t) (s : kms_srv_t)
    : Z * option kms_dumb_resp_t * kms_srv_t :=
  match kms_client_get s id with
  | None => (- EBADF, None, s)
  | Some ci =>
      let pid := kc_pid (ks_clients s ci) in
      let '(rc, out, s) := kms_import_lookup (u32 id) rq s in
      if negb (rc =? 1) then (rc, out, s)
      else
        let '(rc, im, effs) := kms_import_map rq ie in
        let s := foldl (λ s e, kms_emit e s) (between s) effs in
        if negb (rc =? 0) then (rc, None, s)
        else
          match kms_client_get s id with
          | Some ci => if kc_pid (ks_clients s ci) =? pid then kms_import_install (u32 id) rq im s else (- EBADF, None, kms_import_unmap im s)
          | None => (- EBADF, None, kms_import_unmap im s)
          end
  end.

Definition kms_hello (id proto : Z) (s : kms_srv_t) : Z * option kms_hello_t :=
  match kms_client_get s id with
  | None => (- EBADF, None)
  | Some ci =>
      if (proto <? KMS_PROTO_BASE) || (KMS_PROTO_VERSION <? proto) then (- EPROTO, None)
      else
        let o := ks_opt s in
        let c := ks_crtc s 0 in
        (0, Some (mkHello KMS_PROTO_VERSION (kc_id (ks_clients s ci)) (op_be o) (vb_src (ks_vb s)) (op_ncrtc o) (op_buf_port o)
                    (cs_refresh_mhz c) (if is_plane (op_be o) then umode_w c else op_fb_w o)
                    (if is_plane (op_be o) then umode_h c else op_fb_h o)))
  end.

(** ** Messages *)
Inductive kmsg :=
  | KM_open (pid : Z) | KM_close (id : Z)
  | KM_read (m : kms_msg) | KM_write
  | KM_hello (id proto : Z) | KM_ioctl_other
  | KM_prime_import (id : Z) (rq : kms_prime_import_req_t) (ie : kimp_env) (between : kms_srv_t → kms_srv_t)
  | KM_raw (m : kms_msg) (rq : kms_req)
  | KM_getattr_mode | KM_getattr_poll (id : Z) | KM_getattr_other | KM_getattr_all (room : bool)
  | KM_other.

Definition err_reply (e : Z) : option kms_reply := Some (mkReply e None PL_none).
Definition val_reply (v : Z) : option kms_reply := Some (mkReply 0 None (PL_values [v])).

Definition read_msg (rid : Z) (m : kms_msg) (s : kms_srv_t) : option kms_reply * kms_srv_t :=
  match kms_client_get s (m_oid m) with
  | None => (err_reply (- EBADF), s)
  | Some ci =>
      if negb (has_out m) || (m_osize m <? 32) then (err_reply (- EINVAL), s)
      else if ev_pending s ci then let '(l, s) := ev_fill ci (m_osize m) s in (Some (read_reply H_loop m l), s)
      else if m_nonblock m then (err_reply (- EAGAIN), s)
      else let '(rc, s) := park KMS_PARK_READ (kc_id (ks_clients s ci)) 0 0 m rid s in
           if rc =? 0 then (None, s) else (err_reply (- EAGAIN), s)
  end.

(** What a message does under the lock. *)
Definition kms_handle (rid : Z) (msg : kmsg) (s : kms_srv_t) : koutcome :=
  match msg with
  | KM_open pid => let '(id, s) := kms_client_open pid s in (err_reply id, s, [])
  | KM_close id => let '(s, answer) := kms_client_close id (s, []) in (err_reply 0, s, answer)
  | KM_read m => let '(r, s) := read_msg rid m s in (r, s, [])
  | KM_write => (err_reply (- EINVAL), s, [])
  | KM_hello id proto => let '(e, h) := kms_hello id proto s in (Some (mkReply e (match h with Some h => Some (0, RU_hello h) | None => None end) PL_none), s, [])
  | KM_ioctl_other => (err_reply (- ENOTTY), s, [])
  | KM_prime_import id rq ie between =>
      let '(rc, d, s) := op_prime_import id rq ie between s in
      (raw_reply rc (match d with Some d => RU_dumb d | None => RU_none end) PL_none, s, [])
  | KM_raw m rq =>
      match kms_client_get s (m_oid m) with
      | None => (raw_reply (- EBADF) RU_none PL_none, s, [])
      | Some ci => kms_handle_raw ci rid m rq s []
      end
  | KM_getattr_mode => (val_reply 0x21b6, s, [])
  | KM_getattr_poll id => (val_reply (match kms_client_get s id with Some ci => b2z (ev_pending s ci) | None => 0 end), s, [])
  | KM_getattr_other => (err_reply (- EINVAL), s, [])
  | KM_getattr_all room => (err_reply (if room then 0 else - EINVAL), s, [])
  | KM_other => (err_reply (- ENOSYS), s, [])
  end.

Definition restore_display (s : kms_srv_t) : kms_srv_t :=
  let s := for_ 0 (op_ncrtc (ks_opt s)) (λ i s, be_restore (ks_crtc s i) s) s in
  let s := if ks_fb_blanked s then (kms_fw_blank false s).2 <| ks_fb_blanked := false |> else s in
  if ks_console_disabled s then (kms_fw_console true s).2 <| ks_console_disabled := false |> else s.

Definition reap_if_any (s : kms_srv_t) : kms_srv_t := match ks_reap s with [] => s | _ => kms_reap s end.
Definition kms_respond (rid : Z) (r : option kms_reply) (s : kms_srv_t) : kms_srv_t :=
  match r with Some r => kms_emit (KE_respond (op_port (ks_opt s)) rid r) s | None => s end.

(** The process ends after a QUIT: the display is restored, the names withdrawn. *)
Definition kms_exit (s : kms_srv_t) : kms_srv_t :=
  let s := kms_pool_fini (restore_display s) in
  let s := if vb_registered (ks_vb s) then kms_emit (KE_irq false) s <| ks_vb ; vb_registered := false |> else s in
  kms_emit KE_exit (kms_emit KE_names_release s).

Definition kms_dispatch (rid : Z) (msg : kmsg) (s : kms_srv_t) : kms_srv_t :=
  let '(r, s, answer) := kms_handle rid msg s in
  let quitting := match msg with KM_raw _ _ => ks_quit s | _ => false end in
  let s := kms_respond rid r (kms_answer answer (reap_if_any s)) in
  if quitting then kms_exit s else s.
End env.
