(* ===== verification/KmsVblank.v ===== *)
(** The vblank source and its thread (tools/gpu-lane/kms/kms_vblank.c).  A turn of the
    thread starts when its wait ends; what the wait itself lets happen (interrupts, requests)
    are steps before it. *)
From S2P Require Import Prelude Proto State KmsProto KmsModes KmsState KmsBo KmsEv KmsBackend KmsCommit KmsFw KmsMain.

Definition SMICS := 0x00.
Definition SMIDSW0 := 0x14.
Definition SMIDSW1 := 0x1c.
Definition SMICS_INTS := 0xe00.
Definition SMI_NEW := 0xabcd0000.
Definition SCALER_DISPSTAT1 := 0x58.
Definition SCALER_DISPSTAT2 := 0x68.
Definition SCALER_DISPLISTX (x : Z) := 0x20 + 4 * x.
Definition SCALER_DISPSTATX (x : Z) := 0x48 + 0x10 * x.
Definition HVS_DLIST_OFF := 0x4000.
Definition HVS_DLIST_WORDS := 4096.
Definition HVS_CHANNELS := 3.
Definition VB_RING := 64.

Definition set_vb (f : kms_vb → kms_vb) (s : kms_srv_t) : kms_srv_t := s <| ks_vb ::= f |>.

Section env.
Context `{K : KEnv}.

(** ** The SMI interrupt *)
Definition smi_rd (off : Z) (s : kms_srv_t) : Z * kms_srv_t := (kv_smi (kms_cur s) off, kms_tick s).
Definition smi_wr (off v : Z) (s : kms_srv_t) : kms_srv_t := kms_emit (KE_smi off v) s.

(** -1: none of the firmware's bits; else whether it was a vblank of display 0. *)
Definition smi_ack (now : Z) (s : kms_srv_t) : Z * kms_srv_t :=
  let '(cs, s) := smi_rd SMICS s in
  if Z.land cs SMICS_INTS =? 0 then (-1, s)
  else
    let s := smi_wr SMICS 0 s in
    let '(d0, s) := smi_rd SMIDSW0 s in
    let '(ours, s) :=
      if negb (Z.land d0 0xffff0000 =? SMI_NEW) then (true, s)
      else
        let '(ours, s) := if has d0 1 then (true, smi_wr SMIDSW0 SMI_NEW s) else (false, s) in
        let '(d1, s) := smi_rd SMIDSW1 s in
        (ours, if has d1 1 then smi_wr SMIDSW1 SMI_NEW s else s) in
    (b2z ours,
     if ours then set_vb (λ v, v <| vb_ts ::= λ a, <[vb_head v mod VB_RING := now]> a |> <| vb_head ::= λ n, u32 (n + 1) |>) s else s).

Definition smi_isr (s : kms_srv_t) : Z * kms_srv_t :=
  let '(now, s) := kms_cnt s in
  let '(r, s) := smi_ack now s in
  if r <? 0 then (-1, set_vb (λ v, v <| vb_spurious ::= λ n, u32 (n + 1) |>) (smi_wr SMICS 0 s))
  else (1, set_vb (λ v, v <| vb_count ::= λ n, u32 (n + 1) |>) s).

Definition irq_register (rc : Z) (s : kms_srv_t) : Z * kms_srv_t :=
  let v := ks_vb s in
  if vb_registered v then (0, s)
  else if negb (vb_smi v) then (- ENODEV, s)
  else
    let s := kms_emit (KE_irq true) (smi_wr SMICS 0 s) in
    if rc <? 0 then (rc, s)
    else
      let '(now, s) := kms_cnt s in
      (0, set_vb (λ v, v <| vb_registered := true |> <| vb_seen := vb_head v |>
             <| vb_storm_base := u32 (vb_count v + vb_spurious v) |> <| vb_storm_t0 := now |>) s).
Definition irq_unregister (s : kms_srv_t) : kms_srv_t :=
  if vb_registered (ks_vb s) then set_vb (λ v, v <| vb_registered := false |>) (kms_emit (KE_irq false) s) else s.

Definition storm_check (s : kms_srv_t) : bool * kms_srv_t :=
  if negb (vb_registered (ks_vb s)) then (false, s)
  else
    let '(now, s) := kms_cnt s in
    let v := ks_vb s in
    let us := kms_cnt_us s (u64 (now - vb_storm_t0 v)) in
    if us <? 2000000 then (false, s)
    else
      let d := u32 (u32 (vb_count v + vb_spurious v) - vb_storm_base v) in
      if 2000 <? u64 (d * 1000000) / us then (true, irq_unregister s)
      else
        let '(now, s) := kms_cnt s in
        (false, set_vb (λ v, v <| vb_storm_base := u32 (vb_count v + vb_spurious v) |> <| vb_storm_t0 := now |>) s).

(** ** The HVS frame counter *)
Definition hvs_rd (off : Z) (s : kms_srv_t) : Z * kms_srv_t := (kv_hvs (kms_cur s) off, kms_tick s).
Definition hvs_frcnt (ch : Z) (s : kms_srv_t) : Z * kms_srv_t :=
  if ch =? 0 then let '(v, s) := hvs_rd SCALER_DISPSTAT1 s in (Z.land (Z.shiftr v 20) 0x3f, s)
  else if ch =? 1 then let '(v, s) := hvs_rd SCALER_DISPSTAT1 s in (Z.land (Z.shiftr v 14) 0x3f, s)
  else let '(v, s) := hvs_rd SCALER_DISPSTAT2 s in (Z.land (Z.shiftr v 14) 0x3f, s).

(** ** The end of a wait: was there a vblank, its stamp, how many *)
Definition vbl_wait (max_us : Z) (s : kms_srv_t) : bool * Z * Z * kms_srv_t :=
  let v := ks_vb s in
  match vb_src v with
  | KMS_VBL_IRQ =>
      if vb_head v =? vb_seen v then (false, 0, 0, s)
      else (true, vb_ts v (u32 (vb_head v - 1) mod VB_RING), u32 (vb_head v - vb_seen v), set_vb (λ v, v <| vb_seen := vb_head v |>) s)
  | KMS_VBL_HVS =>
      let '(f, s) := hvs_frcnt (vb_hvs_ch v) s in
      if f =? vb_hvs_last v then (false, 0, 0, s)
      else
        let s := set_vb (λ v, v <| vb_hvs_last := f |>) s in
        let '(now, s) := kms_cnt s in (true, now, Z.land (u32 (f - vb_hvs_last v)) 0x3f, s)
  | KMS_VBL_FWVSYNC => let '(now, s) := kms_cnt (kms_tick s) in (true, now, 1, s)
  | KMS_VBL_TIMER | KMS_VBL_NONE =>
      let '(now, s) := kms_cnt s in
      let next := if vb_timer_next v =? 0 then u64 (now + vb_period_cnt v) else vb_timer_next v in
      let s := set_vb (λ v, v <| vb_timer_next := next |>) s in
      if (now <? next) && (max_us <? kms_cnt_us s (u64 (next - now))) then (false, 0, 0, s)
      else
        let next := u64 (next + vb_period_cnt v) in
        let '(now, s) := kms_cnt s in
        let '(next, s) :=
          if u64 (next + vb_period_cnt v) <? now then let '(now, s) := kms_cnt s in (u64 (now + vb_period_cnt v), s) else (next, s) in
        let s := set_vb (λ v, v <| vb_timer_next := next |>) s in
        let '(now, s) := kms_cnt s in (true, now, 1, s)
  end.

(** A source that stops delivering is replaced by the next one. *)
Definition fallback (s : kms_srv_t) : kms_srv_t :=
  let old := vb_src (ks_vb s) in
  let s := irq_unregister s in
  let v := ks_vb s in
  if match old with KMS_VBL_HVS => false | _ => true end && vb_hvs v && (0 <=? vb_hvs_ch v) then
    let s := set_vb (λ v, v <| vb_src := KMS_VBL_HVS |>) s in
    let '(f, s) := hvs_frcnt (vb_hvs_ch v) s in set_vb (λ v, v <| vb_hvs_last := f |>) s
  else set_vb (λ v, v <| vb_src := KMS_VBL_TIMER |> <| vb_timer_next := 0 |>) s.

(** The refresh rate, once, over 120 vblanks. *)
Definition measure (ci stamp n : Z) (s : kms_srv_t) : kms_srv_t :=
  let v := ks_vb s in
  if vb_measured v then s
  else if vb_meas_t0 v =? 0 then set_vb (λ v, v <| vb_meas_t0 := stamp |>) s
  else
    let s := set_vb (λ v, v <| vb_meas_n ::= λ m, u32 (m + n) |>) s in
    let meas := vb_meas_n (ks_vb s) in
    if meas <? 120 then s
    else
      let us := kms_cnt_us s (u64 (stamp - vb_meas_t0 v)) in
      let mhz := if negb (us =? 0) then u32 (u64 (meas * 1000000000) / us) else 0 in
      let s := set_vb (λ v, v <| vb_measured := true |>) s in
      if negb (mhz =? 0) && match vb_src (ks_vb s) with KMS_VBL_TIMER => false | _ => true end then kms_mode_set_refresh ci mhz s else s.

Definition vbl_src_id (x : kms_vblank_src) : Z :=
  match x with KMS_VBL_NONE => 0 | KMS_VBL_IRQ => 1 | KMS_VBL_HVS => 2 | KMS_VBL_FWVSYNC => 3 | KMS_VBL_TIMER => 4 end.

(** The locked part of a turn, and what is to be answered.  [kick] and [gate] are what the
    thread read of the kick count and of the pending commit before it waited. *)
Definition vblank_body (kick : Z) (gate : bool) (s : kms_srv_t) : kms_srv_t * list kms_parked_t :=
  let max_us := if gate then op_gate_us (ks_opt s) else 20000 in
  let '(got, stamp, n, s) := vbl_wait max_us s in
  let '(s, answer) :=
    if got then
      let s := set_vb (λ v, v <| vb_last_vbl := stamp |>) s in
      let s := kstat (λ t, t <| st_vblanks ::= λ k, u32 (k + n) |>) s in
      kms_on_vblank 0 stamp n (measure 0 stamp n s, [])
    else
      match cs_pend (ks_crtc s 0) with
      | KMS_PEND_FENCE =>
          let s := if negb gate && negb (vb_gate_kick (ks_vb s) =? kick) then s <| ks_fst ; fs_kicks ::= λ k, u32 (k + 1) |> else s in
          let '(armed, s) := kms_try_apply 0 s in
          (if armed then s <| ks_fst ; fs_applied_gate ::= λ k, u32 (k + 1) |> else s, [])
      | _ => (s, [])
      end in
  let '(now, s) := kms_cnt s in
  let '(s, answer) := kms_expire_parked now (s, answer) in
  let v := ks_vb s in
  (kstat (λ t, t <| st_vblank_src := vbl_src_id (vb_src v) |> <| st_irq_count := vb_count v |> <| st_irq_spurious := vb_spurious v |>) s, answer).

(** After the lock is dropped: answers, releases, and a look at the source. *)
Definition vblank_watch (s : kms_srv_t) : kms_srv_t :=
  let '(now, s) := kms_cnt s in
  let s :=
    if 2 * op_cnt_hz (ks_opt s) <=? u64 (now - vb_last_tick (ks_vb s)) then
      let s := set_vb (λ v, v <| vb_last_tick := now |>) s in
      match vb_src (ks_vb s) with
      | KMS_VBL_IRQ => let '(storm, s) := storm_check s in if storm then fallback s else s
      | _ => s
      end
    else s in
  match vb_src (ks_vb s) with
  | KMS_VBL_IRQ | KMS_VBL_HVS =>
      let '(now, s) := kms_cnt s in
      if 250000 <? kms_cnt_us s (u64 (now - vb_last_vbl (ks_vb s))) then
        let '(now, s) := kms_cnt (fallback s) in set_vb (λ v, v <| vb_last_vbl := now |>) s
      else s
  | _ => s
  end.
Definition vblank_turn (kick : Z) (gate : bool) (s : kms_srv_t) : kms_srv_t :=
  let '(s, answer) := vblank_body kick gate s in
  let quit := ks_quit s in
  let s := reap_if_any (kms_answer answer s) in
  if quit then s else vblank_watch s.
End env.
