(* ===== verification/KmsModesSpec.v ===== *)
(** What the scaled modes promise: rounding is the floor it is meant to be, the image of a
    mode is inside the screen with the mode's proportions, planes keep their adjacency, and
    a mode survives its property blob. *)
From S2P Require Import Prelude Proto KmsProto KmsModes.

(** ** Rounding *)
Lemma kms_fit_div_round_floor a b : 0 < b → kms_fit_div_round a b = (2 * a + b) / (2 * b).
Proof.
  intros Hb. unfold kms_fit_div_round. set (n := 2 * a + b). assert (0 < 2 * b) as Hd by lia. clearbody n.
  pose proof (Z.quot_rem' n (2 * b)) as Hq. pose proof (Z.rem_bound_pos n (2 * b)) as Hp.
  pose proof (Z.rem_sign_mul n (2 * b) ltac:(lia)) as Hs.
  destruct (Z.eqb_spec (Z.rem n (2 * b)) 0) as [Hz|Hz]; cbn [negb andb].
  - apply (Z.div_unique_pos _ _ _ 0); lia.
  - destruct (Z.ltb_spec n 0) as [Hneg|Hpos]; cbn [andb].
    + apply (Z.div_unique_pos _ _ _ (Z.rem n (2 * b) + 2 * b)); [|lia].
      pose proof (Z.rem_bound_abs n (2 * b) ltac:(lia)). assert (Z.rem n (2 * b) ≤ 0); [nia|lia].
    + apply (Z.div_unique_pos _ _ _ (Z.rem n (2 * b))); [apply Hp; lia|lia].
Qed.

(** [round a b] is the integer nearest to a / b. *)
Lemma round_near a b : 0 < b → let r := kms_fit_div_round a b in - b ≤ 2 * (a - r * b) < b.
Proof.
  intros Hb. cbv zeta. rewrite kms_fit_div_round_floor by done.
  pose proof (Z.div_mod (2 * a + b) (2 * b) ltac:(lia)). pose proof (Z.mod_pos_bound (2 * a + b) (2 * b) ltac:(lia)). lia.
Qed.
Lemma round_mono a a' b : 0 < b → a ≤ a' → kms_fit_div_round a b ≤ kms_fit_div_round a' b.
Proof. intros. rewrite !kms_fit_div_round_floor by done. apply Z.div_le_mono; lia. Qed.
Lemma round_exact q b : 0 < b → kms_fit_div_round (q * b) b = q.
Proof.
  intros. rewrite kms_fit_div_round_floor by done. symmetry. apply (Z.div_unique_pos _ _ _ b); lia.
Qed.

(** ** The fit *)
Section fit.
Context (sw sh mw mh : Z) (Hsw : 0 < sw < 2 ^ 16) (Hsh : 0 < sh < 2 ^ 16) (Hmw : 0 < mw < 2 ^ 16) (Hmh : 0 < mh < 2 ^ 16).

(** The side that decides is filled exactly; the other side is rounded. *)
Lemma fit_side a b c d : 0 < a < 2 ^ 16 → 0 < b < 2 ^ 16 → 0 < c < 2 ^ 16 → 0 < d < 2 ^ 16 → a * d <= b * c →
  Z.min (u32 (kms_fit_div_round (c * a) c)) a = a ∧ u32 (kms_fit_div_round (c * a) c) = a ∧
  0 ≤ kms_fit_div_round (d * a) c ≤ b ∧ Z.min (u32 (kms_fit_div_round (d * a) c)) b = kms_fit_div_round (d * a) c ∧
  u32 (kms_fit_div_round (d * a) c) = kms_fit_div_round (d * a) c.
Proof.
  intros Ha Hb Hc Hd Hle. assert (kms_fit_div_round (c * a) c = a) as Ea by (rewrite Z.mul_comm; apply round_exact; lia).
  assert (0 ≤ kms_fit_div_round (d * a) c ≤ b) as Hr.
  { split.
    - transitivity (kms_fit_div_round (0 * c) c); [rewrite round_exact; lia|apply round_mono; lia].
    - transitivity (kms_fit_div_round (b * c) c); [apply round_mono; lia|rewrite round_exact; lia]. }
  rewrite Ea, !(u32_small a), (u32_small (kms_fit_div_round _ _)) by lia. lia.
Qed.

Lemma half_off a b : 0 ≤ b ≤ a → a < 2 ^ 16 → let o := i32 (u32 (a - b) / 2) in 0 ≤ o ∧ 0 ≤ a - b - 2 * o ≤ 1.
Proof.
  intros Hb Ha. cbv zeta. rewrite u32_small by lia. unfold i32. pose proof (Z.div_mod (a - b) 2 ltac:(lia)). pose proof (Z.mod_pos_bound (a - b) 2 ltac:(lia)).
  rewrite Z.mod_small by lia. lia.
Qed.

(** The two ways a fit comes about. *)
Definition fit_of (f : kms_fit_t) : Prop :=
  (mw = sw ∧ mh = sh ∧ f = mkFit 0 0 0 0 sw sh sw sh) ∨
  (∃ num den fw fh, f = mkFit num den (i32 (u32 (sw - fw) / 2)) (i32 (u32 (sh - fh) / 2)) fw fh sw sh ∧
    0 < num < 2 ^ 16 ∧ 0 < den < 2 ^ 16 ∧ fw = kms_fit_div_round (mw * num) den ∧ fh = kms_fit_div_round (mh * num) den ∧
    0 ≤ fw ≤ sw ∧ 0 ≤ fh ≤ sh ∧ ((fw = sw ∧ den = mw) ∨ (fh = sh ∧ den = mh))).
Lemma kms_fit_cases : fit_of (kms_fit sw sh mw mh).
Proof using Type*.
  unfold kms_fit, fit_of. rewrite !(proj2 (Z.eqb_neq _ 0)) by lia. cbn [orb].
  destruct ((mw =? sw) && (mh =? sh)) eqn:He; [left; zify_bools; subst; by split_and!|right].
  destruct (Z.leb_spec (sw * mh) (sh * mw)) as [Hle|Hle].
  - destruct (fit_side sw sh mw mh) as (-> & Ea & Hr & -> & Eb); [lia..|].
    assert (kms_fit_div_round (mw * sw) mw = sw) as E by (rewrite Z.mul_comm; apply round_exact; lia).
    exists sw, mw, sw, (kms_fit_div_round (mh * sw) mw). rewrite E. split_and!; auto; lia.
  - destruct (fit_side sh sw mh mw) as (-> & Ea & Hr & -> & Eb); [lia..|].
    assert (kms_fit_div_round (mh * sh) mh = sh) as E by (rewrite Z.mul_comm; apply round_exact; lia).
    exists sh, mh, (kms_fit_div_round (mw * sh) mh), sh. rewrite E. split_and!; auto; lia.
Qed.

(** C27: the image of a lower mode lies inside the screen, fills it in one direction, is
    centred in the other to within a pixel, and keeps the mode's proportions to within
    half a pixel of rounding. *)
Theorem kms_fit_spec :
  let f := kms_fit sw sh mw mh in
  0 ≤ fit_ox f ∧ fit_ox f + fit_fw f ≤ sw ∧ 0 ≤ fit_oy f ∧ fit_oy f + fit_fh f ≤ sh ∧ (fit_fw f = sw ∨ fit_fh f = sh) ∧
  0 ≤ sw - fit_fw f - 2 * fit_ox f ≤ 1 ∧ 0 ≤ sh - fit_fh f - 2 * fit_oy f ≤ 1 ∧
  2 * Z.abs (fit_fw f * mh - fit_fh f * mw) ≤ Z.max mw mh.
Proof using Type*.
  cbv zeta. destruct kms_fit_cases as [(Ew & Eh & ->)|(num & den & fw & fh & -> & Hn & Hd & Efw & Efh & Hfw & Hfh & Hside)]; cbn.
  - subst mw mh. lia.
  - destruct (half_off sw fw) as [H1 H2]; [lia..|]. destruct (half_off sh fh) as [H3 H4]; [lia..|].
    pose proof (round_near (mw * num) den ltac:(lia)) as Nw. pose proof (round_near (mh * num) den ltac:(lia)) as Nh.
    cbv zeta in Nw, Nh. rewrite <- Efw in Nw. rewrite <- Efh in Nh. split_and!; try lia.
    destruct Hside as [[Es Ed]|[Es Ed]]; subst den.
    + rewrite (Z.mul_comm mw num), round_exact in Efw by lia. nia.
    + rewrite (Z.mul_comm mh num), round_exact in Efh by lia. nia.
Qed.

(** A plane inside the mode's space is mapped inside the image, the whole mode exactly
    onto it, and two planes that touch in the mode's space touch on the screen: both edges
    are mapped by the same rounding. *)
Theorem kms_fit_rect_spec x y w h w' :
  0 ≤ x → 0 ≤ y → 0 ≤ w → 0 ≤ h → 0 ≤ w' → x + w + w' ≤ mw → y + h ≤ mh →
  let f := kms_fit sw sh mw mh in
  let '(dx, dy, dw, dh) := kms_fit_rect f x y w h in
  let '(dx', dy', dw', dh') := kms_fit_rect f (x + w) y w' h in
  fit_ox f ≤ dx ∧ dx + dw ≤ fit_ox f + fit_fw f ∧ fit_oy f ≤ dy ∧ dy + dh ≤ fit_oy f + fit_fh f ∧
  dx' = dx + dw ∧ dy' = dy ∧ dh' = dh ∧
  kms_fit_rect f 0 0 mw mh = (fit_ox f, fit_oy f, fit_fw f, fit_fh f).
Proof using Type*.
  intros Hx Hy Hw Hh Hw' Hxw Hyh. cbv zeta.
  destruct kms_fit_cases as [(Ew & Eh & ->)|(num & den & fw & fh & -> & Hn & Hd & Efw & Efh & Hfw & Hfh & _)]; unfold kms_fit_rect, kms_fit_is_identity; cbn.
  - subst mw mh. split_and!; (done || lia).
  - rewrite (proj2 (Z.eqb_neq num 0)) by lia. destruct (half_off sw fw) as [H1 H2]; [lia..|]. destruct (half_off sh fh) as [H3 H4]; [lia..|].
    set (ox := i32 (u32 (sw - fw) / 2)) in *. set (oy := i32 (u32 (sh - fh) / 2)) in *. clearbody ox oy.
    assert (∀ a b, 0 ≤ a → a ≤ b → 0 ≤ kms_fit_div_round (a * num) den ≤ kms_fit_div_round (b * num) den) as Hm.
    { intros a b Ha Hab. split; [|apply round_mono; nia]. transitivity (kms_fit_div_round (0 * den) den); [rewrite round_exact; lia|apply round_mono; nia]. }
    pose proof (Hm x (x + w) ltac:(lia) ltac:(lia)) as A1. pose proof (Hm (x + w) (x + w + w') ltac:(lia) ltac:(lia)) as A2.
    pose proof (Hm (x + w + w') mw ltac:(lia) ltac:(lia)) as A3. rewrite <- Efw in A3.
    pose proof (Hm y (y + h) ltac:(lia) ltac:(lia)) as B1. pose proof (Hm (y + h) mh ltac:(lia) ltac:(lia)) as B2. rewrite <- Efh in B2.
    rewrite <- Efw, <- Efh. assert (kms_fit_div_round 0 den = 0) as E0 by (apply (round_exact 0); lia).
    assert (∀ v, 0 ≤ v < 2 ^ 17 → i32 v = v) as Hi by (intros v Hv; unfold i32; rewrite Z.mod_small; lia).
    rewrite ?Z.mul_0_l, ?Z.add_0_l, E0. rewrite !Hi, !u32_small by lia. split_and!; try lia. f_equal; [f_equal; [f_equal|]|]; lia.
Qed.
End fit.

Lemma kms_fit_spec_witness : let f := kms_fit 1920 1080 1024 768 in fit_fh f = 1080 ∧ 0 ≤ fit_ox f ∧ fit_ox f + fit_fw f ≤ 1920.
Proof. cbv zeta. split; [reflexivity|]. by destruct (kms_fit_spec 1920 1080 1024 768) as (H1 & H2 & _). Defined.
Lemma kms_fit_rect_spec_witness : kms_fit_rect (kms_fit 1920 1080 1024 768) 0 0 1024 768 = (240, 0, 1440, 1080).
Proof.
  pose proof (kms_fit_rect_spec 1920 1080 1024 768 ltac:(lia) ltac:(lia) ltac:(lia) ltac:(lia) 0 0 512 768 512) as H.
  do 7 (specialize (H ltac:(lia))). by destruct H as (_ & _ & _ & _ & _ & _ & _ & H).
Defined.

(** ** A mode in a property blob *)
Definition word16 (x : Z) : Prop := 0 ≤ x < 2 ^ 16.
Definition word32 (x : Z) : Prop := 0 ≤ x < 2 ^ 32.
(** The widths of kms_modeinfo_t. *)
Record mode_ok (m : kms_modeinfo_t) : Prop := mkModeOk {
  mo_clock : word32 (clock m);
  mo_h : Forall word16 [hdisplay m; hsync_start m; hsync_end m; htotal m; hskew m];
  mo_v : Forall word16 [vdisplay m; vsync_start m; vsync_end m; vtotal m; vscan m];
  mo_w : Forall word32 [vrefresh m; mode_flags m; mode_type m];
  mo_name : length (mode_name m) = 32%nat }.

Lemma le16_val x : word16 x → x mod 2 ^ 8 + 2 ^ 8 * (x / 2 ^ 8 mod 2 ^ 8) = x.
Proof.
  intros [H1 H2]. rewrite (Z.mod_small (x / 2 ^ 8)) by (split; [apply Z.div_pos|apply Z.div_lt_upper_bound]; lia).
  pose proof (Z.div_mod x (2 ^ 8) ltac:(lia)). lia.
Qed.
Lemma le32_val x : word32 x →
  x mod 2 ^ 16 mod 2 ^ 8 + 2 ^ 8 * (x mod 2 ^ 16 / 2 ^ 8 mod 2 ^ 8) +
  2 ^ 16 * (x / 2 ^ 16 mod 2 ^ 16 mod 2 ^ 8 + 2 ^ 8 * (x / 2 ^ 16 mod 2 ^ 16 / 2 ^ 8 mod 2 ^ 8)) = x.
Proof.
  intros [H1 H2]. rewrite !le16_val by (unfold word16; apply Z.mod_pos_bound; lia).
  rewrite (Z.mod_small (x / 2 ^ 16)) by (split; [apply Z.div_pos|apply Z.div_lt_upper_bound]; lia).
  pose proof (Z.div_mod x (2 ^ 16) ltac:(lia)). lia.
Qed.

(** A mode written to a property blob reads back as itself: what the server puts behind
    MODE_ID is what a commit that names the blob asks for. *)
Theorem modeinfo_roundtrip m rest : mode_ok m → modeinfo_of (modeinfo_bytes m ++ rest) = m ∧ length (modeinfo_bytes m) = 68%nat.
Proof.
  intros [Hc Hh Hv Hw Hn]. destruct m as [c h1 h2 h3 h4 h5 v1 v2 v3 v4 v5 r f ty nm]. cbn in *.
  repeat match goal with H : Forall _ (_ :: _) |- _ => apply Forall_cons in H as [? H] end.
  unfold modeinfo_bytes, modeinfo_of, rd32, rd16, byte_at, le32, le16. cbn [clock hdisplay hsync_start hsync_end htotal hskew vdisplay vsync_start vsync_end vtotal vscan vrefresh mode_flags mode_type mode_name app].
  split; [|cbn [length]; rewrite Hn; done].
  cbn [lookup list_lookup default plus drop Nat.add]. unfold default, id. rewrite !le32_val, !le16_val by done.
  by rewrite drop_0, take_app_le, take_ge by lia.
Qed.
Lemma modeinfo_roundtrip_witness :
  modeinfo_of (modeinfo_bytes (kms_mode_scaled (mode0 <| hdisplay := 1920 |> <| vdisplay := 1080 |> <| vrefresh := 60 |>) 60000 1280 720) ++ [7])
  = kms_mode_scaled (mode0 <| hdisplay := 1920 |> <| vdisplay := 1080 |> <| vrefresh := 60 |>) 60000 1280 720.
Proof. apply modeinfo_roundtrip. constructor; [by vm_compute|..|reflexivity]; repeat constructor; by vm_compute. Defined.
