(* ===== verification/KmsEvSpec.v ===== *)
(** A client's event queue, a ring of KMS_EVQ_LEN entries with free-running 32-bit counters,
    is a bounded first-in first-out queue. *)
From S2P Require Import Prelude Proto State KmsProto KmsModes KmsState KmsEv.

(** ** The abstract queue *)
Inductive evq_op := Push (ev : kms_event) | Fill (size : Z).
Definition fifo_step (q : list kms_event) (o : evq_op) : list kms_event * list kms_event :=
  match o with
  | Push ev => ([], if Z.of_nat (length q) <? KMS_EVQ_LEN then q ++ [ev] else q)
  | Fill size => let n := Z.to_nat (size / 32) in (take n q, drop n q)
  end.
Fixpoint fifo_run (q : list kms_event) (ops : list evq_op) : list (list kms_event) * list kms_event :=
  match ops with
  | [] => ([], q)
  | o :: ops => let '(out, q) := fifo_step q o in let '(outs, q) := fifo_run q ops in (out :: outs, q)
  end.

(** ** What the ring holds *)
Definition ring_len (c : kms_client_t) : Z := u32 (kc_evtail c - kc_evhead c).
Definition ring_items (c : kms_client_t) : list kms_event := (λ k, kc_evq c ((kc_evhead c + k) mod KMS_EVQ_LEN)) <$> seqZ 0 (ring_len c).
Definition ring_ok (c : kms_client_t) : Prop := 0 ≤ kc_evhead c < 2 ^ 32 ∧ 0 ≤ kc_evtail c < 2 ^ 32 ∧ ring_len c ≤ KMS_EVQ_LEN.
Definition events (s : kms_srv_t) (i : Z) : list kms_event := ring_items (ks_clients s i).
Definition queue_ok (s : kms_srv_t) (i : Z) : Prop := ring_ok (ks_clients s i).

Lemma ring_length c : ring_ok c → Z.of_nat (length (ring_items c)) = ring_len c.
Proof. intros _. unfold ring_items. rewrite length_fmap, length_seqZ. pose proof (u32_range (kc_evtail c - kc_evhead c)). unfold ring_len in *. lia. Qed.

Lemma u32_cases x : - 2 ^ 32 < x < 2 ^ 32 → u32 x = if x <? 0 then x + 2 ^ 32 else x.
Proof.
  intros H. unfold u32. destruct (Z.ltb_spec x 0); [|apply Z.mod_small; lia].
  symmetry. apply (Z.mod_unique_pos _ _ (-1)); lia.
Qed.
Lemma u32_next x : 0 ≤ x < 2 ^ 32 → u32 (x + 1) = if x =? 2 ^ 32 - 1 then 0 else x + 1.
Proof. intros H. destruct (Z.eqb_spec x (2 ^ 32 - 1)) as [->|]; [reflexivity|]. apply u32_small. lia. Qed.
Lemma u32_mod64 x : u32 x mod KMS_EVQ_LEN = x mod KMS_EVQ_LEN.
Proof. unfold u32, KMS_EVQ_LEN. apply Z.mod_mod_divide. by exists 67108864. Qed.

(** ** Reading *)
Lemma ring_pop c : ring_ok c → kc_evhead c ≠ kc_evtail c →
  let c' := c <| kc_evhead := u32 (kc_evhead c + 1) |> in
  ring_ok c' ∧ ring_items c = kc_evq c (kc_evhead c mod KMS_EVQ_LEN) :: ring_items c'.
Proof.
  intros (Hh & Ht & Hl) Hne. cbv zeta. set (h := kc_evhead c) in *. set (t := kc_evtail c) in *.
  assert (ring_len (c <| kc_evhead := u32 (h + 1) |>) = ring_len c - 1 ∧ 1 ≤ ring_len c) as [El Hpos].
  { unfold ring_len in *. cbn. fold h t in Hl |- *. rewrite (u32_next h), !u32_cases in * by lia.
    destruct (Z.ltb_spec (t - h) 0), (Z.eqb_spec h (2 ^ 32 - 1)); rewrite ?u32_cases by lia;
      repeat match goal with |- context [?a <? 0] => destruct (Z.ltb_spec a 0) end; lia. }
  split; [split; [apply u32_range|split; [exact Ht|rewrite El; lia]]|].
  unfold ring_items. rewrite El. cbn [kc_evq kc_evhead]. rewrite seqZ_cons by lia. cbn [fmap list_fmap]. rewrite Z.add_0_r. fold h. f_equal.
  change (Z.succ 0) with (1 + 0). rewrite <- (fmap_add_seqZ 1 0), <- list_fmap_compose. replace (Z.pred (ring_len c)) with (ring_len c - 1) by lia.
  apply list_fmap_ext. intros k x _. unfold compose. cbn [upd kc_evq kc_evhead]. f_equal.
  rewrite <- (Zplus_mod_idemp_l (u32 (h + 1))), u32_mod64, Zplus_mod_idemp_l. f_equal. lia.
Qed.

Lemma ev_take_items n c : ring_ok c →
  let '(l, h) := ev_take n (kc_evq c) (kc_evhead c) (kc_evtail c) in
  let c' := c <| kc_evhead := h |> in l = take n (ring_items c) ∧ ring_items c' = drop n (ring_items c) ∧ ring_ok c'.
Proof.
  revert c. induction n as [|n IH]; intros c Hok; cbn [ev_take].
  - cbv zeta. rewrite take_0, drop_0. split_and!; [done|by destruct c|by destruct c].
  - destruct (Z.eqb_spec (kc_evhead c) (kc_evtail c)) as [He|Hne].
    + assert (ring_items c = []) as E0.
      { unfold ring_items, ring_len. rewrite He, Z.sub_diag. by vm_compute. }
      cbv zeta. rewrite E0. replace (c <| kc_evhead := kc_evhead c |>) with c by (by destruct c). by rewrite E0.
    + destruct (ring_pop c Hok Hne) as [Hok' ->]. specialize (IH _ Hok'). cbn [upd kc_evq kc_evhead kc_evtail eta] in IH.
      destruct (ev_take n _ _ _) as [l h]. cbv zeta in *. destruct IH as (-> & IH2 & IH3). by split_and!.
Qed.

(** ** Writing *)
Lemma ring_push c ev : ring_ok c → ring_len c < KMS_EVQ_LEN →
  let c' := c <| kc_evq ::= λ q, <[kc_evtail c mod KMS_EVQ_LEN := ev]> q |> <| kc_evtail ::= λ n, u32 (n + 1) |> in
  ring_ok c' ∧ ring_items c' = ring_items c ++ [ev].
Proof.
  intros (Hh & Ht & Hl) Hlt. cbv zeta. set (h := kc_evhead c) in *. set (t := kc_evtail c) in *. set (c' := upd _ _ _).
  assert (ring_len c' = ring_len c + 1 ∧ 0 ≤ ring_len c) as [El Hpos].
  { unfold ring_len, c', KMS_EVQ_LEN in *. cbn. fold h t in Hlt |- *. rewrite (u32_next t), !u32_cases in * by lia.
    destruct (Z.ltb_spec (t - h) 0), (Z.eqb_spec t (2 ^ 32 - 1)); rewrite ?u32_cases by lia;
      repeat match goal with |- context [?a <? 0] => destruct (Z.ltb_spec a 0) end; lia. }
  split; [split; [exact Hh|split; [apply u32_range|rewrite El; lia]]|].
  assert (t mod KMS_EVQ_LEN = (h + ring_len c) mod KMS_EVQ_LEN) as Et.
  { unfold ring_len. fold h t. rewrite <- (u32_mod64 (h + _)). replace (u32 (h + u32 (t - h))) with t; [done|].
    rewrite Z.add_comm, u32_add. replace (t - h + h) with t by lia. by rewrite u32_small. }
  unfold ring_items. rewrite El, seqZ_app, fmap_app by lia. cbn [fmap list_fmap]. f_equal.
  - apply list_fmap_ext. intros k x Hx. apply lookup_seqZ in Hx as [-> Hx]. unfold c'. cbn [upd kc_evq kc_evhead eta]. fold t h. apply fn_upd_ne.
    rewrite Et. unfold KMS_EVQ_LEN in *. intros E. pose proof (Z.div_mod (h + ring_len c) 64 ltac:(lia)). pose proof (Z.div_mod (h + (0 + Z.of_nat k)) 64 ltac:(lia)). nia.
  - rewrite seqZ_cons, seqZ_nil by lia. cbn [fmap list_fmap]. f_equal. unfold c'. cbn [upd kc_evq kc_evhead eta]. fold t h. rewrite Et, Z.add_0_l. apply fn_upd_eq.
Qed.

(** ** The operations on the server *)
Lemma set_kclient_eq i f s : ks_clients (set_kclient i f s) i = f (ks_clients s i).
Proof. apply fn_upd_eq. Qed.
Lemma set_kclient_ne i f s j : j ≠ i → ks_clients (set_kclient i f s) j = ks_clients s j.
Proof. intros. apply fn_upd_ne. done. Qed.
Lemma ev_push_spec s id i ev : kms_client_get s id = Some i → queue_ok s i →
  queue_ok (ev_push id ev s) i ∧ events (ev_push id ev s) i = (fifo_step (events s i) (Push ev)).2 ∧
  (∀ j, j ≠ i → ks_clients (ev_push id ev s) j = ks_clients s j) ∧ kms_client_get (ev_push id ev s) id = Some i.
Proof.
  intros Hg Hok. unfold ev_push. rewrite Hg. unfold events, queue_ok. cbn [fifo_step snd]. rewrite ring_length by done.
  assert (∀ s', kc_used (ks_clients s' i) = kc_used (ks_clients s i) → kms_client_get s' id = Some i) as Hget.
  { intros s' Hu. unfold kms_client_get in *. destruct (_ || _); [done|]. destruct (kc_used (ks_clients s (id - 1))) eqn:E; [|done].
    injection Hg as <-. by rewrite Hu, E. }
  fold (ring_len (ks_clients s i)). destruct (Z.leb_spec KMS_EVQ_LEN (ring_len (ks_clients s i))).
  - rewrite (proj2 (Z.ltb_ge _ _)) by lia. cbn. rewrite fn_upd_eq. split_and!; [exact Hok|done|intros; by apply fn_upd_ne|].
    apply Hget. cbn. by rewrite fn_upd_eq.
  - rewrite (proj2 (Z.ltb_lt _ _)) by lia. destruct (ring_push (ks_clients s i) ev Hok ltac:(lia)) as [Hok' Hr].
    match goal with |- context [if op_poll_notify _ then kms_emit ?e ?x else _] => set (s1 := x); assert (∀ b : bool, ks_clients (if b then kms_emit e s1 else s1) = ks_clients s1) as Eb by (by intros []) end.
    rewrite !Eb. unfold s1. cbn. rewrite fn_upd_eq. split_and!; [exact Hok'|exact Hr|intros; by apply fn_upd_ne|].
    apply Hget. rewrite Eb. unfold s1. cbn. by rewrite fn_upd_eq.
Qed.

Lemma ev_fill_spec s i size : queue_ok s i →
  queue_ok (ev_fill i size s).2 i ∧ fifo_step (events s i) (Fill size) = ((ev_fill i size s).1, events (ev_fill i size s).2 i) ∧
  (∀ j, j ≠ i → ks_clients (ev_fill i size s).2 j = ks_clients s j) ∧ (∀ id, kms_client_get (ev_fill i size s).2 id = kms_client_get s id).
Proof.
  intros Hok. unfold ev_fill. pose proof (ev_take_items (Z.to_nat (Z.min (size / 32) KMS_EVQ_LEN)) _ Hok) as H.
  destruct (ev_take _ _ _ _) as [l h]. cbv zeta in H. destruct H as (-> & Hd & Hok'). cbn [fst snd]. unfold queue_ok, events in *.
  assert (∀ q : list kms_event, Z.of_nat (length q) ≤ KMS_EVQ_LEN →
    take (Z.to_nat (Z.min (size / 32) KMS_EVQ_LEN)) q = take (Z.to_nat (size / 32)) q ∧
    drop (Z.to_nat (Z.min (size / 32) KMS_EVQ_LEN)) q = drop (Z.to_nat (size / 32)) q) as Hmin.
  { intros q Hq. destruct (Z.le_ge_cases (size / 32) KMS_EVQ_LEN); [by rewrite Z.min_l by lia|]. rewrite Z.min_r by lia.
    rewrite !take_ge, !drop_ge by lia. done. }
  destruct (Hmin (ring_items (ks_clients s i))) as [-> E2]; [rewrite ring_length by done; apply Hok|]. rewrite E2 in Hd.
  rewrite set_kclient_eq. split_and!; [exact Hok'|by rewrite Hd|intros; by apply set_kclient_ne|].
  intros id. unfold kms_client_get. destruct (_ || _); [done|]. destruct (decide (i = id - 1)) as [->|Hne]; [by rewrite set_kclient_eq|by rewrite set_kclient_ne].
Qed.

Definition evq_step (id i : Z) (o : evq_op) (s : kms_srv_t) : list kms_event * kms_srv_t :=
  match o with Push ev => ([], ev_push id ev s) | Fill size => ev_fill i size s end.
Fixpoint evq_run (id i : Z) (ops : list evq_op) (s : kms_srv_t) : list (list kms_event) * kms_srv_t :=
  match ops with
  | [] => ([], s)
  | o :: ops => let '(out, s) := evq_step id i o s in let '(outs, s) := evq_run id i ops s in (out :: outs, s)
  end.

(** C18: a client's event queue refines a bounded first-in first-out queue: whatever events
    are pushed and reads served, in any order and past any wrap of the 32-bit counters, the
    reads return exactly the events the abstract queue returns, in order and each once, the
    ring holds what it holds, and the queues of other clients are not touched. *)
Theorem event_queue_refines s id i ops :
  kms_client_get s id = Some i → queue_ok s i →
  let '(outs, s') := evq_run id i ops s in
  fifo_run (events s i) ops = (outs, events s' i) ∧ queue_ok s' i ∧ ∀ j, j ≠ i → ks_clients s' j = ks_clients s j.
Proof.
  revert s. induction ops as [|o ops IH]; intros s Hg Hok; [done|]. cbn [evq_run fifo_run].
  assert (queue_ok (evq_step id i o s).2 i ∧ fifo_step (events s i) o = ((evq_step id i o s).1, events (evq_step id i o s).2 i) ∧
    (∀ j, j ≠ i → ks_clients (evq_step id i o s).2 j = ks_clients s j) ∧ kms_client_get (evq_step id i o s).2 id = Some i) as (H1 & H2 & H3 & H4).
  { destruct o as [ev|size]; cbn [evq_step fst snd].
    - destruct (ev_push_spec s id i ev Hg Hok) as (A & B & C & D). split_and!; [done| |done|done]. rewrite B. done.
    - destruct (ev_fill_spec s i size Hok) as (A & B & C & D). split_and!; [done|exact B|done|]. by rewrite D. }
  rewrite H2. destruct (evq_step id i o s) as [out s1]. cbn [fst snd] in *. specialize (IH s1 H4 H1).
  destruct (evq_run id i ops s1) as [outs s2]. destruct IH as (E & Hq & Ho). rewrite E. split_and!; [done|done|].
  intros j Hj. by rewrite Ho, H3.
Qed.
