(* ===== verification/KmsAside.v ===== *)
(** What the calls to the firmware, the clock, the log and the counters leave alone. *)
From S2P Require Import Prelude Proto State KmsProto KmsModes KmsState KmsBo KmsEv KmsBackend KmsCommit.

(** The requests answered so far. *)
Definition kreply_of (e : kms_effect) : option Z := match e with KE_respond _ rid _ => Some rid | _ => None end.
Definition k_replies (s : kms_srv_t) : list Z := omap kreply_of (ki_log (ks_io s)).

(** Everything but the clock cursor, effects other than answers, the counters, the flip
    statistics and the firmware-side flags is as it was. *)
Record kaside (s s' : kms_srv_t) : Prop := mkAside {
  as_opt : ks_opt s' = ks_opt s; as_crtc : ks_crtc s' = ks_crtc s; as_clients : ks_clients s' = ks_clients s;
  as_bos : ks_bos s' = ks_bos s; as_fbs : ks_fbs s' = ks_fbs s; as_blobs : ks_blobs s' = ks_blobs s;
  as_handle : ks_next_handle s' = ks_next_handle s; as_fb : ks_next_fb s' = ks_next_fb s; as_blob : ks_next_blob s' = ks_next_blob s;
  as_parked : ks_parked s' = ks_parked s; as_nparked : ks_nparked s' = ks_nparked s; as_vblev : ks_vblev s' = ks_vblev s;
  as_reap : ks_reap s' = ks_reap s; as_slot : ks_slot_used s' = ks_slot_used s; as_quit : ks_quit s' = ks_quit s; as_said : k_replies s' = k_replies s }.

#[export] Instance kaside_pre : PreOrder kaside.
Proof. split; [by intros ?; constructor|]. intros a b c [] []. constructor; congruence. Qed.

Lemma omap_app_none {A B} (f : A → option B) l x : f x = None → omap f (l ++ [x]) = omap f l.
Proof. intros H. rewrite omap_app. cbn. rewrite H. by rewrite app_nil_r. Qed.
Lemma kaside_emit e s : kreply_of e = None → kaside s (kms_emit e s).
Proof. intros H. constructor; try done. by apply omap_app_none. Qed.
Lemma kaside_stat f s : kaside s (kstat f s).
Proof. by constructor. Qed.
Lemma kaside_tick s : kaside s (kms_tick s).
Proof. by constructor. Qed.
Create HintDb kaside.
#[export] Hint Resolve kaside_stat kaside_tick : kaside.
#[export] Hint Extern 1 (kaside _ (kms_emit _ _)) => (apply kaside_emit; reflexivity) : kaside.
#[export] Hint Extern 0 (kaside ?s ?s) => reflexivity : kaside.

(** Everything but the objects (buffers, framebuffers, the list of releases), the clock
    cursor, effects other than answers, the counters and the firmware-side flags. *)
Record kmem (s s' : kms_srv_t) : Prop := mkMem {
  mm_opt : ks_opt s' = ks_opt s; mm_crtc : ks_crtc s' = ks_crtc s; mm_clients : ks_clients s' = ks_clients s;
  mm_blobs : ks_blobs s' = ks_blobs s; mm_fb : ks_next_fb s' = ks_next_fb s; mm_blob : ks_next_blob s' = ks_next_blob s;
  mm_parked : ks_parked s' = ks_parked s; mm_nparked : ks_nparked s' = ks_nparked s; mm_vblev : ks_vblev s' = ks_vblev s;
  mm_quit : ks_quit s' = ks_quit s; mm_said : k_replies s' = k_replies s }.
#[export] Instance kmem_pre : PreOrder kmem.
Proof. split; [by intros ?; constructor|]. intros a b c [] []. constructor; congruence. Qed.
Lemma kaside_mem s s' : kaside s s' → kmem s s'.
Proof. by intros []. Qed.
#[export] Hint Resolve kaside_mem : kaside.

(** Planes, clients, parked requests, queued vblank events and answers are as they were. *)
Record kside (s s' : kms_srv_t) : Prop := mkSide {
  sd_opt : ks_opt s' = ks_opt s; sd_crtc : ks_crtc s' = ks_crtc s; sd_clients : ks_clients s' = ks_clients s;
  sd_parked : ks_parked s' = ks_parked s; sd_nparked : ks_nparked s' = ks_nparked s; sd_vblev : ks_vblev s' = ks_vblev s;
  sd_quit : ks_quit s' = ks_quit s; sd_said : k_replies s' = k_replies s }.
#[export] Instance kside_pre : PreOrder kside.
Proof. split; [by intros ?; constructor|]. intros a b c [] []. constructor; congruence. Qed.
Lemma kmem_side s s' : kmem s s' → kside s s'.
Proof. by intros []. Qed.
#[export] Hint Resolve kmem_side : kaside.

(** Clients, parked requests, queued vblank events, answers and the vblank count are as they
    were; planes, objects and property blobs may change. *)
Record kplane (s s' : kms_srv_t) : Prop := mkKplane {
  kp_opt : ks_opt s' = ks_opt s; kp_clients : ks_clients s' = ks_clients s;
  kp_parked : ks_parked s' = ks_parked s; kp_nparked : ks_nparked s' = ks_nparked s; kp_vblev : ks_vblev s' = ks_vblev s;
  kp_quit : ks_quit s' = ks_quit s; kp_said : k_replies s' = k_replies s;
  kp_seq : cs_seq (ks_crtc s' 0) = cs_seq (ks_crtc s 0); kp_idx : cs_idx (ks_crtc s' 0) = cs_idx (ks_crtc s 0);
  kp_last : cs_last_vbl_cnt (ks_crtc s' 0) = cs_last_vbl_cnt (ks_crtc s 0) }.
#[export] Instance kplane_pre : PreOrder kplane.
Proof. split; [by intros ?; constructor|]. intros a b c [] []. constructor; congruence. Qed.
Lemma kside_plane s s' : kside s s' → kplane s s'.
Proof. intros []. constructor; congruence. Qed.
#[export] Hint Resolve kside_plane : kaside.
Lemma kplane_aside s s' : kaside s s' → kplane s s'.
Proof. intros []. constructor; congruence. Qed.
Lemma kplane_crtc f s : (∀ c, cs_seq (f c) = cs_seq c ∧ cs_idx (f c) = cs_idx c ∧ cs_last_vbl_cnt (f c) = cs_last_vbl_cnt c) → kplane s (set_crtc 0 f s).
Proof.
  intros H. assert (ks_crtc (set_crtc 0 f s) 0 = f (ks_crtc s 0)) as E by apply fn_upd_eq. destruct (H (ks_crtc s 0)) as (H1 & H2 & H3).
  constructor; try done; by rewrite E.
Qed.
Lemma kplane_for lo hi (f : Z → kms_srv_t → kms_srv_t) s : (∀ i s, kplane s (f i s)) → kplane s (for_ lo hi f s).
Proof. intros H. apply (for_inv (λ s', kplane s s')); [done|]. intros i s1 _ H1. etrans; [exact H1|apply H]. Qed.
Lemma kaside_for {A} lo hi (f : Z → A * kms_srv_t → A * kms_srv_t) a s : (∀ i st, kaside st.2 (f i st).2) → kaside s (for_ lo hi f (a, s)).2.
Proof. intros H. apply (for_inv (λ st, kaside s st.2)); [done|]. intros i st _ H1. etrans; [exact H1|apply H]. Qed.

Section env.
Context `{K : KEnv}.

Lemma aside_blank on s : kaside s (kms_fw_blank on s).2.
Proof. constructor; try done. by apply omap_app_none. Qed.
Lemma aside_console on s : kaside s (kms_fw_console on s).2.
Proof. constructor; try done. by apply omap_app_none. Qed.
Lemma aside_pan y s : kaside s (kms_fw_pan y s).2.
Proof. unfold kms_fw_pan. destruct (kv_fw _). constructor; try done. by apply omap_app_none. Qed.

Lemma aside_pan_apply sh s : kaside s (pan_apply sh s).2.
Proof.
  unfold pan_apply, kms_cnt. cbv zeta. match goal with |- context [kms_fw_pan ?w ?x] => pose proof (aside_pan w x) as H; destruct (kms_fw_pan w x) as [[rc got] s1] end.
  cbn [fst snd] in *. etrans; [apply kaside_tick|]. etrans; [exact H|]. apply kaside_tick.
Qed.
Lemma aside_plane_apply c p st sh s : kaside s (plane_apply c p st sh s).2.
Proof.
  unfold plane_apply. match goal with |- context [match ?x with Some _ => _ | None => _ end] => destruct x as [fp|] end; [|reflexivity].
  unfold kms_cnt. cbv zeta. cbn [snd]. set (s1 := kms_tick _).
  assert (kaside s s1) as H1.
  { unfold s1. etrans; [|apply kaside_tick]. etrans; [|by apply kaside_emit]. etrans; [|apply kaside_tick]. etrans; [|apply kaside_tick].
    by apply kaside_emit. }
  clearbody s1.
  destruct sh; [etrans; [exact H1|]; by constructor|]. destruct (_ =? 0); [etrans; [exact H1|]; by constructor|exact H1].
Qed.
Lemma aside_apply c p st sh s : kaside s (be_apply c p st sh s).2.
Proof. unfold be_apply. destruct (is_plane _); [apply aside_plane_apply|apply aside_pan_apply]. Qed.

Lemma aside_disabled b s : kaside s (s <| ks_console_disabled := b |>).
Proof. by constructor. Qed.
Lemma aside_console_update s : kaside s (console_update s).
Proof.
  unfold console_update. cbv zeta. set (want := plane_on _ 0 && _).
  set (s1 := if is_plane _ then _ else s). assert (kaside s s1) as H1.
  { unfold s1. destruct (is_plane _); [|done]. destruct (negb _); [|done].
    pose proof (aside_blank want s) as H. destruct (kms_fw_blank want s) as [rc s2]. cbn [snd] in H. destruct (rc =? 0); [|done].
    etrans; [exact H|]. by constructor. }
  clearbody s1. clear want. destruct (negb _); [done|]. destruct (existsb _ _ && _).
  - etrans; [exact H1|]. etrans; [apply (aside_console false)|]. apply aside_disabled.
  - destruct (_ && _); [|done]. etrans; [exact H1|]. etrans; [apply (aside_console true)|]. apply aside_disabled.
Qed.

Lemma aside_fence f s : kaside s (kms_fence_signaled f s).2.
Proof. unfold kms_fence_signaled. cbv zeta. repeat case_match; by constructor. Qed.
Lemma aside_fences ps c s : kaside s (fences_signaled ps c s).2.
Proof.
  revert s. induction ps as [|p ps IH]; intros s; [done|]. cbn [fences_signaled]. destruct (Z.testbit _ p); [|apply IH].
  pose proof (aside_fence (in_fence (cs_pst c p)) s) as H. destruct (kms_fence_signaled _ s) as [ok s1]. cbn [snd] in H.
  destruct (negb ok); [exact H|]. etrans; [exact H|apply IH].
Qed.
End env.
