(* ===== verification/KmsRefs.v ===== *)
(** Who holds what in the display server: a framebuffer is held by its creator's reference
    and by each plane that shows it or is about to, a buffer by its open handle, by each
    framebuffer and by each alias of it.  The invariant says that the counts are exact and
    that whatever is held is there; [hf] and [hb] are a framebuffer and a buffer of which an
    operation in progress still holds one reference. *)
From S2P Require Import Prelude Proto State KmsProto KmsModes KmsState KmsBo KmsEv KmsBackend KmsCommit KmsAside.

(** ** Counting *)
Lemma countZ_at p q hi i : 0 ≤ i < hi → (∀ j, j ≠ i → p j = q j) → countZ q 0 hi = countZ p 0 hi - b2z (p i) + b2z (q i).
Proof. intros Hi Hj. unfold countZ. apply (sumZ_point (λ i, b2z (p i)) (λ i, b2z (q i))); [done|]. intros j Hne. by rewrite Hj. Qed.
Lemma countZ_zero p hi : 0 ≤ hi → (∀ i, 0 ≤ i < hi → p i = false) → countZ p 0 hi = 0.
Proof.
  intros Hhi H. unfold countZ. rewrite (sumZ_ext _ (λ _, 0)) by (intros i Hi; by rewrite H). clear H. revert hi Hhi.
  apply sumZ_ind; [by apply sumZ_stop|]. intros h Hh IH. rewrite sumZ_last, IH by lia. done.
Qed.
Lemma countZ_most p hi : 0 ≤ hi → 0 ≤ countZ p 0 hi ≤ hi.
Proof.
  intros Hhi. split; [apply countZ_nonneg|]. revert hi Hhi. unfold countZ. apply sumZ_ind; [by rewrite sumZ_stop|].
  intros h Hh IH. rewrite sumZ_last by lia. destruct (p h); cbn [b2z]; lia.
Qed.
Lemma countZ_pos p hi i : 0 ≤ i < hi → countZ p 0 hi = 0 → p i = false.
Proof. intros Hi H. destruct (p i) eqn:E; [|done]. pose proof (countZ_ge p 0 hi i Hi E). lia. Qed.

Definition occ (i : Z) (h : option Z) : Z := b2z (bool_decide (h = Some i)).
Lemma occ_eq i : occ i (Some i) = 1.
Proof. unfold occ. by rewrite bool_decide_true. Qed.
Lemma occ_ne i j : i ≠ j → occ i (Some j) = 0.
Proof. intros H. unfold occ. rewrite bool_decide_false by congruence. done. Qed.
Lemma occ_None i : occ i None = 0.
Proof. done. Qed.
Lemma occ_range i h : 0 ≤ occ i h ≤ 1.
Proof. unfold occ. destruct (bool_decide _); cbn; lia. Qed.

(** ** The invariant *)
Definition SLOTS := 2 * KMS_PLANES_PER_CRTC.
(** The ids the planes show ([cur]) and will show ([pst], where the commit holds them). *)
Definition slots_of (c : kms_crtc_state_t) (P : Z → bool) (q : Z) : Z :=
  if q <? KMS_PLANES_PER_CRTC then fb_id (cs_cur c q)
  else if P (q - KMS_PLANES_PER_CRTC) then fb_id (cs_pst c (q - KMS_PLANES_PER_CRTC)) else 0.
Definition pending_planes (c : kms_crtc_state_t) (p : Z) : bool := negb (bool_decide (cs_pend c = KMS_PEND_NONE)) && Z.testbit (cs_pmask c) p.

Definition fb_of (s : kms_srv_t) (b i : Z) : bool := kf_used (ks_fbs s i) && (kf_bo (ks_fbs s i) =? b).
Definition alias_of (s : kms_srv_t) (b i : Z) : bool :=
  kb_used (ks_bos s i) && bool_decide (kb_kind (ks_bos s i) = KMS_BOK_ALIAS) && (kb_alias_src (ks_bos s i) =? b).
Definition fb_holders (on : Z → Z) (f : kms_fb_t) : Z := countZ (λ q, on q =? kf_id f) 0 SLOTS.
Definition bo_holders (s : kms_srv_t) (b : Z) : Z := countZ (fb_of s b) 0 KMS_MAX_FBS + countZ (alias_of s b) 0 KMS_MAX_BOS.

Definition is_bo (s : kms_srv_t) (b : Z) : Prop := 0 ≤ b < KMS_MAX_BOS ∧ kb_used (ks_bos s b) = true.
Definition is_fb (s : kms_srv_t) (i : Z) : Prop := 0 ≤ i < KMS_MAX_FBS ∧ kf_used (ks_fbs s i) = true.
Definition fb_fits (f : kms_fb_t) (b : kms_bo_t) : Prop := u32 (kf_w f * 4) ≤ kf_pitch f ∧ 0 ≤ kf_offset f ∧ 0 ≤ kf_pitch f * kf_h f ∧ kf_offset f + kf_pitch f * kf_h f ≤ kb_size b.
Definition alias_ok (s : kms_srv_t) (b : kms_bo_t) : Prop :=
  is_bo s (kb_alias_src b) ∧ let src := ks_bos s (kb_alias_src b) in
  kb_kind src = KMS_BOK_POOL ∧ kb_pa src = kb_pa b ∧ kb_size src = kb_size b.

Record refs_inv (on : Z → Z) (hf hb : option Z) (s : kms_srv_t) : Prop := mkRefs {
  ri_next : KMS_ID_FB_BASE ≤ ks_next_fb s < 2 ^ 32;
  ri_fb_id i : is_fb s i → 0 < kf_id (ks_fbs s i) < ks_next_fb s;
  ri_fb_inj i j : is_fb s i → is_fb s j → kf_id (ks_fbs s i) = kf_id (ks_fbs s j) → i = j;
  ri_fb_refs i : is_fb s i →
    kf_refs (ks_fbs s i) = b2z (kf_user_ref (ks_fbs s i)) + fb_holders on (ks_fbs s i) + occ i hf ∧ 1 ≤ kf_refs (ks_fbs s i);
  ri_fb_bo i : is_fb s i → is_bo s (kf_bo (ks_fbs s i)) ∧ fb_fits (ks_fbs s i) (ks_bos s (kf_bo (ks_fbs s i)));
  ri_on q : 0 ≤ q < SLOTS → on q = 0 ∨ ∃ i, is_fb s i ∧ kf_id (ks_fbs s i) = on q;
  ri_hf i : hf = Some i → is_fb s i;
  ri_bo_refs b : is_bo s b →
    kb_refs (ks_bos s b) = b2z (kb_handle_open (ks_bos s b)) + bo_holders s b + occ b hb ∧ 1 ≤ kb_refs (ks_bos s b);
  ri_alias b : is_bo s b → kb_kind (ks_bos s b) = KMS_BOK_ALIAS → alias_ok s (ks_bos s b);
  ri_hb b : hb = Some b → is_bo s b }.

(** The fields of a buffer the invariant reads. *)
Definition bview (b : kms_bo_t) :=
  (kb_used b, kb_handle_open b, kb_refs b, kb_kind b, kb_alias_src b, kb_pa b, kb_off b, kb_size b, kb_slot b, kb_imp_mem b).
(** What does not change while a buffer lives. *)
Definition bfixed (b : kms_bo_t) := (kb_kind b, kb_alias_src b, kb_pa b, kb_off b, kb_size b, kb_slot b, kb_imp_mem b).
Definition ffixed (f : kms_fb_t) := (kf_id f, kf_bo f, kf_offset f, kf_pitch f, kf_h f, kf_w f).
Lemma bview_eq b b' : bview b = bview b' →
  kb_used b = kb_used b' ∧ kb_handle_open b = kb_handle_open b' ∧ kb_refs b = kb_refs b' ∧ kb_kind b = kb_kind b' ∧
  kb_alias_src b = kb_alias_src b' ∧ kb_pa b = kb_pa b' ∧ kb_off b = kb_off b' ∧ kb_size b = kb_size b'.
Proof. unfold bview. intros H. injection H as ? ? ? ? ? ? ? ? ? ?. by split_and!. Qed.
Lemma bfixed_eq b b' : bfixed b = bfixed b' →
  kb_kind b = kb_kind b' ∧ kb_alias_src b = kb_alias_src b' ∧ kb_pa b = kb_pa b' ∧ kb_off b = kb_off b' ∧ kb_size b = kb_size b'.
Proof. unfold bfixed. intros H. injection H as ? ? ? ? ? ? ?. by split_and!. Qed.
Lemma bfixed_own b b' : bfixed b = bfixed b' → kb_slot b = kb_slot b' ∧ kb_imp_mem b = kb_imp_mem b'.
Proof. unfold bfixed. intros H. by injection H. Qed.
Lemma bview_fixed b b' : bview b = bview b' → bfixed b = bfixed b'.
Proof. unfold bview, bfixed. congruence. Qed.

Lemma refs_frame on hf hb s s' :
  ks_fbs s' = ks_fbs s → ks_next_fb s' = ks_next_fb s → (∀ b, bview (ks_bos s' b) = bview (ks_bos s b)) →
  refs_inv on hf hb s → refs_inv on hf hb s'.
Proof.
  intros Hf Hn Hb [].
  assert (∀ b, is_bo s' b ↔ is_bo s b) as Hbo by (intros b; unfold is_bo; destruct (bview_eq _ _ (Hb b)) as (-> & _); done).
  assert (∀ i, is_fb s' i ↔ is_fb s i) as Hfb by (intros i; unfold is_fb; by rewrite Hf).
  assert (∀ b, bo_holders s' b = bo_holders s b) as Hh.
  { intros b. unfold bo_holders. f_equal; apply countZ_ext; intros i _; [unfold fb_of; by rewrite Hf|]. unfold alias_of.
    destruct (bview_eq _ _ (Hb i)) as (-> & _ & _ & -> & -> & _). done. }
  assert (∀ f b, fb_fits f (ks_bos s b) → fb_fits f (ks_bos s' b)) as Hfit.
  { intros f b. unfold fb_fits. destruct (bview_eq _ _ (Hb b)) as (_ & _ & _ & _ & _ & _ & _ & ->). done. }
  constructor; try (rewrite ?Hf, ?Hn; assumption).
  - intros i. rewrite Hfb, Hf, Hn. auto.
  - intros i j. rewrite !Hfb, Hf. auto.
  - intros i. rewrite Hfb, Hf. auto.
  - intros i. rewrite Hfb, Hf, Hbo. intros Hi. destruct (ri_fb_bo0 i Hi). auto.
  - intros q Hq. destruct (ri_on0 q Hq) as [|(i & Hi & E)]; [by left|right]. exists i. by rewrite Hfb, Hf.
  - intros i. rewrite Hfb. auto.
  - intros b. rewrite Hbo, Hh. intros H. destruct (bview_eq _ _ (Hb b)) as (_ & -> & -> & _). auto.
  - intros b. rewrite Hbo. intros H. destruct (bview_eq _ _ (Hb b)) as (_ & _ & _ & Ek & Ea & Ep & _ & Es). rewrite Ek. intros Ha.
    destruct (ri_alias0 b H Ha) as (H7 & H8). unfold alias_ok. rewrite Hbo, Ea, Ep, Es.
    destruct (bview_eq _ _ (Hb (kb_alias_src (ks_bos s b)))) as (_ & _ & _ & -> & _ & -> & _ & ->). done.
  - intros b. rewrite Hbo. auto.
Qed.

(** ** One buffer changes *)
Lemma refs_bo_change on hf hb hb' b s s' :
  0 ≤ b < KMS_MAX_BOS → ks_fbs s' = ks_fbs s → ks_next_fb s' = ks_next_fb s →
  (∀ j, j ≠ b → bview (ks_bos s' j) = bview (ks_bos s j)) →
  (is_bo s b → is_bo s' b → bfixed (ks_bos s' b) = bfixed (ks_bos s b)) →
  (¬ is_bo s' b → is_bo s b → bo_holders s b = 0) →
  (is_bo s' b → kb_refs (ks_bos s' b) = b2z (kb_handle_open (ks_bos s' b)) + bo_holders s b + occ b hb' ∧ 1 ≤ kb_refs (ks_bos s' b)) →
  (∀ j, j ≠ b → is_bo s j → b2z (alias_of s' j b) + occ j hb' = b2z (alias_of s j b) + occ j hb) →
  (is_bo s' b → kb_kind (ks_bos s' b) = KMS_BOK_ALIAS → kb_alias_src (ks_bos s' b) ≠ b ∧ alias_ok s (ks_bos s' b)) →
  (∀ j, hb' = Some j → is_bo s' j) →
  refs_inv on hf hb s → refs_inv on hf hb' s'.
Proof.
  intros Hr Hf Hn Hj Hfix Hgone Hrefs Hocc Hal Hhb [].
  assert (∀ j, j ≠ b → is_bo s' j ↔ is_bo s j) as Hbo by (intros j Hne; unfold is_bo; destruct (bview_eq _ _ (Hj j Hne)) as (-> & _); done).
  assert (∀ i, is_fb s' i ↔ is_fb s i) as Hfb by (intros i; unfold is_fb; by rewrite Hf).
  (* what is held stays *)
  assert (∀ j, is_bo s j → bo_holders s j ≠ 0 → is_bo s' j ∧ bfixed (ks_bos s' j) = bfixed (ks_bos s j)) as Hkeep.
  { intros j Hj1 Hj2. destruct (decide (j = b)) as [->|Hne].
    - assert (is_bo s' b) as Hb'; [|by auto]. destruct (kb_used (ks_bos s' b)) eqn:E; [by split|]. exfalso. apply Hj2, Hgone; [|done].
      intros [_ Hu]. congruence.
    - split; [by apply Hbo|]. apply bview_fixed. auto. }
  assert (∀ i, is_fb s i → is_bo s' (kf_bo (ks_fbs s i)) ∧ bfixed (ks_bos s' (kf_bo (ks_fbs s i))) = bfixed (ks_bos s (kf_bo (ks_fbs s i)))) as Hfbk.
  { intros i Hi. destruct (ri_fb_bo0 i Hi) as [H1 _]. apply Hkeep; [done|]. destruct Hi as [Hi Hu].
    pose proof (countZ_ge (fb_of s (kf_bo (ks_fbs s i))) 0 KMS_MAX_FBS i Hi) as Hc. pose proof (countZ_nonneg (alias_of s (kf_bo (ks_fbs s i))) 0 KMS_MAX_BOS).
    unfold bo_holders. unfold fb_of at 1 in Hc. rewrite Hu, Z.eqb_refl in Hc. specialize (Hc eq_refl). lia. }
  assert (∀ j, j ≠ b → is_bo s j → kb_kind (ks_bos s j) = KMS_BOK_ALIAS → is_bo s' (kb_alias_src (ks_bos s j)) ∧
    bfixed (ks_bos s' (kb_alias_src (ks_bos s j))) = bfixed (ks_bos s (kb_alias_src (ks_bos s j)))) as Halk.
  { intros j Hne Hj1 Ha. destruct (ri_alias0 j Hj1 Ha) as [H1 _]. apply Hkeep; [done|]. destruct Hj1 as [Hj1 Hu].
    pose proof (countZ_ge (alias_of s (kb_alias_src (ks_bos s j))) 0 KMS_MAX_BOS j Hj1) as Hc.
    pose proof (countZ_nonneg (fb_of s (kb_alias_src (ks_bos s j))) 0 KMS_MAX_FBS).
    unfold bo_holders. unfold alias_of at 1 in Hc. rewrite Hu, Ha, Z.eqb_refl, bool_decide_true in Hc by done. specialize (Hc eq_refl). lia. }
  assert (∀ j, bo_holders s' j = bo_holders s j - b2z (alias_of s j b) + b2z (alias_of s' j b)) as Hcnt.
  { intros j. unfold bo_holders. rewrite (countZ_ext (fb_of s' j) (fb_of s j)) by (intros i _; unfold fb_of; by rewrite Hf).
    rewrite (countZ_at (alias_of s j) (alias_of s' j) KMS_MAX_BOS b Hr); [lia|]. intros i Hi. unfold alias_of.
    destruct (bview_eq _ _ (Hj i Hi)) as (-> & _ & _ & -> & -> & _). done. }
  assert (is_bo s b → alias_of s b b = false) as Hself.
  { intros Hb. unfold alias_of. destruct (kb_used _), (bool_decide_reflect (kb_kind (ks_bos s b) = KMS_BOK_ALIAS)) as [Ha|]; try done. cbn [andb].
    apply Z.eqb_neq. intros E. destruct (ri_alias0 b Hb Ha) as (_ & Hk & _). rewrite E in Hk. congruence. }
  assert (∀ x y, is_bo s x → bfixed (ks_bos s' x) = bfixed (ks_bos s x) → is_bo s' x → alias_ok s y → kb_alias_src y = x → alias_ok s' y) as Hao.
  { intros x y Hx Hfx Hx' (_ & Hk & Hp & Hs) E. unfold alias_ok. rewrite E in *. destruct (bfixed_eq _ _ Hfx) as (-> & _ & -> & _ & ->). by split_and!. }
  constructor; try (rewrite ?Hf, ?Hn; assumption).
  - intros i. rewrite Hfb, Hf, Hn. auto.
  - intros i j. rewrite !Hfb, Hf. auto.
  - intros i. rewrite Hfb, Hf. auto.
  - intros i. rewrite Hfb, Hf. intros Hi. destruct (Hfbk i Hi) as [H1 H2]. split; [done|]. destruct (ri_fb_bo0 i Hi) as [_ H3].
    unfold fb_fits in *. destruct (bfixed_eq _ _ H2) as (_ & _ & _ & _ & ->). done.
  - intros q Hq. destruct (ri_on0 q Hq) as [|(i & Hi & E)]; [by left|right]. exists i. by rewrite Hfb, Hf.
  - intros i. rewrite Hfb. auto.
  - intros j Hj1. rewrite Hcnt. destruct (decide (j = b)) as [->|Hne].
    + destruct (Hrefs Hj1) as [H1 H2]. split; [|done]. rewrite H1.
      assert (alias_of s' b b = false) as ->.
      { unfold alias_of. destruct (bool_decide_reflect (kb_kind (ks_bos s' b) = KMS_BOK_ALIAS)) as [Ha|]; [|by destruct (kb_used _)].
        destruct (Hal Hj1 Ha) as [H3 _]. apply Z.eqb_neq in H3. rewrite H3. by destruct (kb_used _). }
      assert (alias_of s b b = false) as ->; [|cbn [b2z]; lia]. destruct (kb_used (ks_bos s b)) eqn:Eu; [by apply Hself; split|].
      unfold alias_of. by rewrite Eu.
    + apply Hbo in Hj1; [|done]. destruct (ri_bo_refs0 j Hj1) as [H1 H2]. specialize (Hocc j Hne Hj1).
      destruct (bview_eq _ _ (Hj j Hne)) as (_ & -> & -> & _). lia.
  - intros j Hj1 Ha. destruct (decide (j = b)) as [->|Hne].
    + destruct (Hal Hj1 Ha) as [Hsrc Hok]. pose proof Hok as (H1 & _). apply (Hao (kb_alias_src (ks_bos s' b)));
        [done|by apply bview_fixed, Hj|by apply Hbo|done|done].
    + assert (is_bo s j) as Hjs by (by apply Hbo). destruct (bview_eq _ _ (Hj j Hne)) as (_ & _ & _ & Ek & Ea & Ep & _ & Es).
      rewrite Ek in Ha. destruct (Halk j Hne Hjs Ha) as [H7 H8]. destruct (ri_alias0 j Hjs Ha) as (G1 & G2).
      apply (Hao (kb_alias_src (ks_bos s j))); try done. unfold alias_ok. rewrite Ea, Ep, Es. done.
Qed.

(** ** One framebuffer changes *)
Lemma refs_fb_change on hf hf' hb hb' i s s' :
  0 ≤ i < KMS_MAX_FBS → ks_bos s' = ks_bos s → ks_next_fb s ≤ ks_next_fb s' < 2 ^ 32 →
  (∀ j, j ≠ i → ks_fbs s' j = ks_fbs s j) →
  (is_fb s i → is_fb s' i → ffixed (ks_fbs s' i) = ffixed (ks_fbs s i)) →
  (¬ is_fb s i → is_fb s' i → kf_id (ks_fbs s' i) = ks_next_fb s ∧ ks_next_fb s < ks_next_fb s' ∧
     is_bo s (kf_bo (ks_fbs s' i)) ∧ fb_fits (ks_fbs s' i) (ks_bos s (kf_bo (ks_fbs s' i)))) →
  (is_fb s i → ¬ is_fb s' i → fb_holders on (ks_fbs s i) = 0) →
  (is_fb s' i → kf_refs (ks_fbs s' i) = b2z (kf_user_ref (ks_fbs s' i)) + fb_holders on (ks_fbs s' i) + occ i hf' ∧ 1 ≤ kf_refs (ks_fbs s' i)) →
  (∀ j, j ≠ i → occ j hf' = occ j hf) →
  (∀ b, is_bo s b → b2z (fb_of s' b i) + occ b hb' = b2z (fb_of s b i) + occ b hb) →
  (∀ j, hf' = Some j → is_fb s' j) → (∀ b, hb' = Some b → is_bo s b) →
  refs_inv on hf hb s → refs_inv on hf' hb' s'.
Proof.
  intros Hr Hb Hn Hj Hfix Hnew Hgone Hrefs Hocc Hbocc Hhf Hhb [].
  assert (∀ j, j ≠ i → is_fb s' j ↔ is_fb s j) as Hfb by (intros j Hne; unfold is_fb; by rewrite Hj).
  assert (∀ b, is_bo s' b ↔ is_bo s b) as Hbo by (intros b; unfold is_bo; by rewrite Hb).
  assert (∀ b, bo_holders s' b = bo_holders s b - b2z (fb_of s b i) + b2z (fb_of s' b i)) as Hcnt.
  { intros b. unfold bo_holders. rewrite (countZ_ext (alias_of s' b) (alias_of s b)) by (intros j _; unfold alias_of; by rewrite Hb).
    rewrite (countZ_at (fb_of s b) (fb_of s' b) KMS_MAX_FBS i Hr); [lia|]. intros j Hne. unfold fb_of. by rewrite Hj. }
  (* the id of [i] is as it was or new *)
  assert (is_fb s i ∨ ¬ is_fb s i) as Hdec by (destruct (kf_used (ks_fbs s i)) eqn:E; [left; by split|right; intros [_ ?]; congruence]).
  assert (is_fb s' i → is_fb s i ∧ kf_id (ks_fbs s' i) = kf_id (ks_fbs s i) ∨ kf_id (ks_fbs s' i) = ks_next_fb s ∧ ks_next_fb s < ks_next_fb s') as Hid.
  { intros Hi. destruct Hdec as [H|H].
    - left. specialize (Hfix H Hi). unfold ffixed in Hfix. injection Hfix as ? ? ? ? ? ?. done.
    - right. by destruct (Hnew H Hi) as (? & ? & _). }
  constructor; try (rewrite ?Hb; assumption); try lia.
  - intros j Hj'. destruct (decide (j = i)) as [->|Hne].
    + destruct (Hid Hj') as [[H ->]|[-> H]]; [specialize (ri_fb_id0 i H); lia|]. unfold KMS_ID_FB_BASE in *. lia.
    + apply Hfb in Hj'; [|done]. rewrite Hj by done. specialize (ri_fb_id0 j Hj'). lia.
  - assert (∀ j, j ≠ i → is_fb s' i → is_fb s j → kf_id (ks_fbs s' i) ≠ kf_id (ks_fbs s j)) as Hd.
    { intros j Hne Hi Hj' E. specialize (ri_fb_id0 j Hj'). destruct (Hid Hi) as [[H E2]|[H _]]; [|lia]. apply Hne. symmetry. apply ri_fb_inj0; congruence || done. }
    intros j k. destruct (decide (j = i)) as [->|Hne], (decide (k = i)) as [->|Hnk]; [done|..].
    + rewrite (Hfb k), (Hj k) by done. intros H1 H2 E. destruct (Hd k Hnk H1 H2 E).
    + rewrite (Hfb j), (Hj j) by done. intros H1 H2 E. by destruct (Hd j Hne H2 H1).
    + rewrite !Hfb, !Hj by done. auto.
  - intros j Hj'. destruct (decide (j = i)) as [->|Hne]; [auto|]. apply Hfb in Hj'; [|done]. rewrite Hj, Hocc by done. auto.
  - intros j Hj'. rewrite Hbo. destruct (decide (j = i)) as [->|Hne].
    + destruct Hdec as [H|H]; [|by destruct (Hnew H Hj') as (_ & _ & ? & ?); rewrite Hb].
      specialize (Hfix H Hj'). unfold ffixed in Hfix. injection Hfix as _ E1 E2 E3 E4 E5. unfold fb_fits in *. rewrite E1, E2, E3, E4, E5, Hb. apply (ri_fb_bo0 i H).
    + apply Hfb in Hj'; [|done]. rewrite Hj, Hb by done. auto.
  - intros q Hq. destruct (ri_on0 q Hq) as [|(j & H1 & H2)]; [by left|]. destruct (decide (j = i)) as [->|Hne].
    + destruct (kf_used (ks_fbs s' i)) eqn:Eu.
      * right. exists i. assert (is_fb s' i) as Hi by (by split). split; [done|]. specialize (Hfix H1 Hi). unfold ffixed in Hfix. injection Hfix as ? _ _ _ _ _. congruence.
      * exfalso. assert (fb_holders on (ks_fbs s i) = 0) as Hz by (apply Hgone; [done|intros [_ ?]; congruence]).
        pose proof (countZ_pos _ _ q Hq Hz) as Hq0. cbv beta in Hq0. apply Z.eqb_neq in Hq0. by rewrite H2 in Hq0.
    + right. exists j. by rewrite Hfb, Hj.
  - intros b. rewrite Hbo, Hcnt, Hb. intros H. destruct (ri_bo_refs0 b H) as [H1 H2]. specialize (Hbocc b H). lia.
  - intros b. rewrite Hbo, Hb. intros H Ha. destruct (ri_alias0 b H Ha) as [G1 G2]. split; [by apply Hbo|]. rewrite Hb. exact G2.
  - intros b H. apply Hbo. auto.
Qed.

(** ** What the planes show changes *)
Lemma refs_on_change on on' hf hf' hb s :
  (∀ i, is_fb s i → fb_holders on' (ks_fbs s i) + occ i hf' = fb_holders on (ks_fbs s i) + occ i hf) →
  (∀ q, 0 ≤ q < SLOTS → on' q = 0 ∨ ∃ i, is_fb s i ∧ kf_id (ks_fbs s i) = on' q) →
  (∀ i, hf' = Some i → is_fb s i) →
  refs_inv on hf hb s → refs_inv on' hf' hb s.
Proof.
  intros Hc Hon Hhf []. constructor; try assumption. intros i Hi. destruct (ri_fb_refs0 i Hi). specialize (Hc i Hi). lia.
Qed.
Lemma refs_on_ext on on' hf hb s : (∀ q, 0 ≤ q < SLOTS → on' q = on q) → refs_inv on hf hb s → refs_inv on' hf hb s.
Proof.
  intros He H. apply (refs_on_change on on' hf hf hb s); [|by intros q Hq; rewrite He by done; apply H|apply H|exact H].
  intros i _. f_equal. apply countZ_ext. intros q Hq. by rewrite He.
Qed.

(** ** Lookups *)
Lemma is_fb_dec s i : is_fb s i ∨ ¬ is_fb s i.
Proof. unfold is_fb. destruct (kf_used _); [|by right; intros []]. destruct (decide (0 ≤ i < KMS_MAX_FBS)); [by left|right; by intros []]. Qed.
Lemma fb_lookup_Some s id i : kms_fb_lookup s id = Some i → is_fb s i ∧ kf_id (ks_fbs s i) = id ∧ id ≠ 0.
Proof.
  unfold kms_fb_lookup. destruct (Z.eqb_spec id 0); [done|]. intros H. apply find_first_Some in H as (Hi & H & _). apply andb_true_iff in H as [H1 H2].
  apply Z.eqb_eq in H2. by split_and!.
Qed.
Lemma fb_lookup_is on hf hb s i : refs_inv on hf hb s → is_fb s i → kms_fb_lookup s (kf_id (ks_fbs s i)) = Some i.
Proof.
  intros Hinv Hi. destruct (kms_fb_lookup s _) as [j|] eqn:E.
  - apply fb_lookup_Some in E as (Hj & E & _). f_equal. by eapply ri_fb_inj.
  - exfalso. unfold kms_fb_lookup in E. pose proof (ri_fb_id _ _ _ _ Hinv i Hi). destruct (Z.eqb_spec (kf_id (ks_fbs s i)) 0); [lia|].
    destruct Hi as [Hi Hu]. pose proof (find_first_None _ _ _ E i Hi) as H1. cbv beta in H1. by rewrite Hu, Z.eqb_refl in H1.
Qed.
Lemma fb_lookup_0 s : kms_fb_lookup s 0 = None.
Proof. done. Qed.
(** What a slot shows is found. *)
Lemma fb_lookup_on on hf hb s q : refs_inv on hf hb s → 0 ≤ q < SLOTS →
  kms_fb_lookup s (on q) = None ∧ on q = 0 ∨ ∃ i, kms_fb_lookup s (on q) = Some i ∧ is_fb s i ∧ kf_id (ks_fbs s i) = on q.
Proof.
  intros Hinv Hq. destruct (ri_on _ _ _ _ Hinv q Hq) as [->|(i & Hi & <-)]; [by left|]. right. exists i. split; [|done]. by eapply fb_lookup_is.
Qed.
Lemma bo_get_Some s c h b : kms_bo_get s c h = Some b →
  is_bo s b ∧ kb_handle_open (ks_bos s b) = true ∧ kb_owner (ks_bos s b) = c ∧ kb_handle (ks_bos s b) = h.
Proof.
  unfold kms_bo_get. intros H. apply find_first_Some in H as (Hi & H & _). cbv zeta in H. apply andb_true_iff in H as [H H4]. apply andb_true_iff in H as [H H3].
  apply andb_true_iff in H as [H1 H2]. apply Z.eqb_eq in H3, H4. by split_and!.
Qed.

(** Counts stay far below 2^32. *)
Lemma fb_refs_small on hf hb s i : refs_inv on hf hb s → is_fb s i → 1 ≤ kf_refs (ks_fbs s i) ≤ 18.
Proof.
  intros Hinv Hi. destruct (ri_fb_refs _ _ _ _ Hinv i Hi) as [H1 H2]. split; [done|]. rewrite H1. unfold fb_holders.
  pose proof (countZ_most (λ q, on q =? kf_id (ks_fbs s i)) SLOTS ltac:(done)). pose proof (occ_range i hf). unfold SLOTS, KMS_PLANES_PER_CRTC in *.
  destruct (kf_user_ref _); cbn [b2z]; lia.
Qed.
Lemma bo_refs_small on hf hb s b : refs_inv on hf hb s → is_bo s b → 1 ≤ kb_refs (ks_bos s b) ≤ 130.
Proof.
  intros Hinv Hi. destruct (ri_bo_refs _ _ _ _ Hinv b Hi) as [H1 H2]. split; [done|]. rewrite H1. unfold bo_holders.
  pose proof (countZ_most (fb_of s b) KMS_MAX_FBS ltac:(done)). pose proof (countZ_most (alias_of s b) KMS_MAX_BOS ltac:(done)).
  pose proof (occ_range b hb). unfold KMS_MAX_FBS, KMS_MAX_BOS in *. destruct (kb_handle_open _); cbn [b2z]; lia.
Qed.
