(* ===== verification/KmsRefOps.v ===== *)
(** Each operation on buffers and framebuffers keeps the reference counts exact. *)
From S2P Require Import Prelude Proto State KmsProto KmsModes KmsState KmsBo KmsEv KmsBackend KmsCommit KmsAside KmsRefs.

(** ** Frames of the small updates *)
Lemma set_kbo_at b f s j : ks_bos (set_kbo b f s) j = if decide (b = j) then f (ks_bos s b) else ks_bos s j.
Proof. apply fn_upd_case. Qed.
Lemma set_kfb_at i f s j : ks_fbs (set_kfb i f s) j = if decide (i = j) then f (ks_fbs s i) else ks_fbs s j.
Proof. apply fn_upd_case. Qed.
Lemma set_kbo_eq b f s : ks_bos (set_kbo b f s) b = f (ks_bos s b).
Proof. apply fn_upd_eq. Qed.
Lemma set_kbo_ne b f s j : j ≠ b → ks_bos (set_kbo b f s) j = ks_bos s j.
Proof. intros. by apply fn_upd_ne. Qed.
Lemma set_kfb_eq i f s : ks_fbs (set_kfb i f s) i = f (ks_fbs s i).
Proof. apply fn_upd_eq. Qed.
Lemma set_kfb_ne i f s j : j ≠ i → ks_fbs (set_kfb i f s) j = ks_fbs s j.
Proof. intros. by apply fn_upd_ne. Qed.
Lemma kmem_set_kbo b f s : kmem s (set_kbo b f s).
Proof. by constructor. Qed.
Lemma kmem_set_kfb i f s : kmem s (set_kfb i f s).
Proof. by constructor. Qed.
#[export] Hint Resolve kmem_set_kbo kmem_set_kfb : kaside.

(** ** Releasing a buffer *)
Lemma bo_free_bos b s j : ks_bos (bo_free b s) j = if decide (b = j) then kbo0 else ks_bos s j.
Proof.
  unfold bo_free. cbv zeta. rewrite set_kbo_at. case_decide as Hd; [done|].
  repeat match goal with |- context [if ?c then _ else _] => destruct c end; cbn; rewrite ?fn_upd_ne by done; done.
Qed.
Lemma bo_free_fbs b s : ks_fbs (bo_free b s) = ks_fbs s.
Proof. unfold bo_free. cbv zeta. repeat match goal with |- context [if ?c then _ else _] => destruct c end; done. Qed.
Lemma kmem_if (c : bool) s s1 s2 : kmem s s1 → kmem s s2 → kmem s (if c then s1 else s2).
Proof. by destruct c. Qed.
Lemma kmem_emit e s : kreply_of e = None → kmem s (kms_emit e s).
Proof. intros H. by apply kaside_mem, kaside_emit. Qed.
Lemma kmem_stat f s : kmem s (kstat f s).
Proof. by constructor. Qed.
Lemma bo_free_mem b s : kmem s (bo_free b s).
Proof.
  unfold bo_free. cbv zeta. set (s1 := if bool_decide _ then s <| ks_aliases_live ::= _ |> else s).
  assert (kmem s s1) as H1 by (unfold s1; destruct (bool_decide _); [by constructor|done]). clearbody s1.
  set (s2 := if kb_exported _ then _ else s1). assert (kmem s1 s2) as H2.
  { unfold s2. destruct (kb_exported _); [|done]. etrans; [|apply kmem_stat]. etrans; [|by apply kmem_emit]. apply kmem_set_kbo. }
  clearbody s2. set (s3 := if bool_decide (_ = KMS_BOK_SLOT) then _ else s2). assert (kmem s2 s3) as H3.
  { unfold s3. destruct (bool_decide _); [|done]. constructor; try done. by apply omap_app_none. }
  clearbody s3. set (s4 := if bool_decide _ then _ else s3). assert (kmem s3 s4) as H4.
  { unfold s4. destruct (bool_decide _); [|done]. set (s5 := if _ <? _ then _ else _). assert (kmem s3 s5) as H5.
    { unfold s5. destruct (_ <? _); [by constructor|]. etrans; [|by apply kmem_emit]. by apply kmem_emit. }
    clearbody s5. etrans; [exact H5|]. by constructor. }
  clearbody s4. etrans; [exact H1|]. etrans; [exact H2|]. etrans; [exact H3|]. etrans; [exact H4|]. etrans; [apply kmem_stat|apply kmem_set_kbo].
Qed.

Lemma bo_unref_n_fbs n b s : ks_fbs (bo_unref_n n b s) = ks_fbs s.
Proof.
  revert b s. induction n as [|n IH]; intros b s; [done|]. cbn [bo_unref_n]. cbv zeta. destruct (_ || _); [done|]. destruct (negb _); [done|].
  destruct (_ && _); rewrite ?IH; by rewrite bo_free_fbs.
Qed.
Lemma bo_unref_n_mem n b s : kmem s (bo_unref_n n b s).
Proof.
  revert b s. induction n as [|n IH]; intros b s; [done|]. cbn [bo_unref_n]. cbv zeta. destruct (_ || _); [done|]. destruct (negb _); [by constructor|].
  destruct (_ && _); [etrans; [|apply IH]|]; (etrans; [|apply bo_free_mem]); by constructor.
Qed.
Lemma kms_bo_unref_mem b s : kmem s (kms_bo_unref b s).
Proof. apply bo_unref_n_mem. Qed.

Lemma is_bo_dec s b : is_bo s b ∨ ¬ is_bo s b.
Proof. unfold is_bo. destruct (kb_used _); [|by right; intros []]. destruct (decide (0 ≤ b < KMS_MAX_BOS)); [by left|right; by intros []]. Qed.

Section inv.
Context (on : Z → Z) (hf : option Z).

(** One reference fewer, of those in hand. *)
Lemma bo_drop_inv b s : refs_inv on hf (Some b) s → kb_refs (ks_bos s b) ≠ 1 →
  refs_inv on hf None (set_kbo b (λ c, c <| kb_refs ::= λ n, u32 (n - 1) |>) s).
Proof.
  intros Hinv Hne. pose proof (ri_hb _ _ _ _ Hinv b eq_refl) as Hb. pose proof (bo_refs_small _ _ _ _ _ Hinv Hb) as Hs.
  destruct (ri_bo_refs _ _ _ _ Hinv b Hb) as [Hr _]. rewrite occ_eq in Hr.
  assert (bfixed (ks_bos (set_kbo b (λ c, c <| kb_refs ::= λ n, u32 (n - 1) |>) s) b) = bfixed (ks_bos s b)) as Hf by (by rewrite set_kbo_eq).
  apply (refs_bo_change on hf (Some b) None b s); try done.
  - apply Hb.
  - intros j Hj. by rewrite set_kbo_ne.
  - intros Hn. exfalso. apply Hn. split; [apply Hb|]. rewrite set_kbo_eq. apply Hb.
  - intros _. rewrite set_kbo_eq, occ_None. cbn [upd kb_refs kb_handle_open eta eta_kbo]. rewrite u32_small by lia. lia.
  - intros j Hj _. rewrite occ_ne, occ_None by done. f_equal. f_equal. unfold alias_of. by rewrite set_kbo_eq.
  - intros _ Ha. rewrite set_kbo_eq in Ha |- *. change (kb_kind (ks_bos s b) = KMS_BOK_ALIAS) in Ha. destruct (ri_alias _ _ _ _ Hinv b Hb Ha) as (H1 & H2).
    split; [|split; [exact H1|exact H2]]. intros E. destruct H2 as [H2 _]. change (kb_alias_src (ks_bos s b) = b) in E. rewrite E in H2. congruence.
Qed.

(** The last one frees it; an alias then drops its source. *)
Lemma bo_last_inv b s : refs_inv on hf (Some b) s → kb_refs (ks_bos s b) = 1 →
  ∀ s', ks_fbs s' = ks_fbs s → ks_next_fb s' = ks_next_fb s → (∀ j, ks_bos s' j = if decide (b = j) then kbo0 else ks_bos s j) →
  refs_inv on hf (if bool_decide (kb_kind (ks_bos s b) = KMS_BOK_ALIAS) then Some (kb_alias_src (ks_bos s b)) else None) s'.
Proof.
  intros Hinv H1 s' Hf Hn Hbos. pose proof (ri_hb _ _ _ _ Hinv b eq_refl) as Hb. destruct (ri_bo_refs _ _ _ _ Hinv b Hb) as [Hr _].
  rewrite occ_eq, H1 in Hr. pose proof (countZ_nonneg (fb_of s b) 0 KMS_MAX_FBS). pose proof (countZ_nonneg (alias_of s b) 0 KMS_MAX_BOS).
  assert (bo_holders s b = 0) as Hz by (unfold bo_holders in *; destruct (kb_handle_open _); cbn [b2z] in Hr; lia).
  assert (ks_bos s' b = kbo0) as Hb' by (by rewrite Hbos, decide_True). assert (¬ is_bo s' b) as Hnb by (intros [_ Hu]; by rewrite Hb' in Hu).
  apply (refs_bo_change on hf (Some b) _ b s); try done.
  - apply Hb.
  - intros j Hj. by rewrite Hbos, decide_False.
  - intros j Hj Hj1. rewrite (occ_ne j b) by done. assert (alias_of s' j b = false) as -> by (unfold alias_of; by rewrite Hb'). cbn [b2z].
    unfold alias_of. rewrite (proj2 Hb). destruct (bool_decide_reflect (kb_kind (ks_bos s b) = KMS_BOK_ALIAS)) as [Ha|]; [|done]. cbn [andb].
    destruct (Z.eqb_spec (kb_alias_src (ks_bos s b)) j) as [->|Hne]; [by rewrite occ_eq|]. by rewrite occ_ne by done.
  - intros j Hj. destruct (bool_decide_reflect (kb_kind (ks_bos s b) = KMS_BOK_ALIAS)) as [Ha|]; [|done]. injection Hj as <-.
    destruct (ri_alias _ _ _ _ Hinv b Hb Ha) as ((G1 & G2) & Hk & _). split; [done|]. rewrite Hbos, decide_False; [done|]. intros E. rewrite <- E in Hk. congruence.
Qed.

(** A reference in hand given back: the recursion goes at most one step deep. *)
Lemma bo_unref_n_inv n b s : refs_inv on hf (Some b) s → refs_inv on hf None (bo_unref_n (S (S n)) b s).
Proof.
  assert (∀ m b s, refs_inv on hf (Some b) s →
    let s' := bo_unref_n (S m) b s in
    refs_inv on hf None s' ∨ ∃ s1, kb_kind (ks_bos s b) = KMS_BOK_ALIAS ∧ refs_inv on hf (Some (kb_alias_src (ks_bos s b))) s1 ∧
      s' = bo_unref_n m (kb_alias_src (ks_bos s b)) s1 ∧ kb_kind (ks_bos s1 (kb_alias_src (ks_bos s b))) = KMS_BOK_POOL) as Hstep.
  { clear n b s. intros m b s Hinv. pose proof (ri_hb _ _ _ _ Hinv b eq_refl) as Hb. pose proof (bo_refs_small _ _ _ _ _ Hinv Hb) as Hs.
    cbv zeta. cbn [bo_unref_n]. cbv zeta. rewrite (proj2 Hb). cbn [negb orb]. rewrite (proj2 (Z.eqb_neq _ _)) by lia.
    rewrite u32_small by lia. set (s1 := set_kbo b _ s). destruct (Z.eqb_spec (kb_refs (ks_bos s b) - 1) 0) as [E|E]; cbn [negb].
    2:{ left. apply bo_drop_inv; [done|lia]. }
    assert (∀ j, ks_bos (bo_free b s1) j = if decide (b = j) then kbo0 else ks_bos s j) as Hbos.
    { intros j. rewrite bo_free_bos. case_decide; [done|]. unfold s1. by apply set_kbo_ne. }
    pose proof (bo_last_inv b s Hinv ltac:(lia) (bo_free b s1) (bo_free_fbs _ _) (mm_fb _ _ (bo_free_mem b s1)) Hbos) as Hinv2.
    destruct (bool_decide_reflect (kb_kind (ks_bos s b) = KMS_BOK_ALIAS)) as [Ha|Ha].
    - destruct (ri_alias _ _ _ _ Hinv b Hb Ha) as (G1 & G2 & _). right. exists (bo_free b s1). split; [done|]. split; [done|].
      assert (kb_alias_src (ks_bos s b) ≠ b) as Hne by (intros Ee; rewrite Ee in G2; congruence).
      rewrite (proj2 (Z.ltb_lt _ _)) by apply G1. rewrite (proj2 (Z.eqb_neq _ _)) by done. cbn [negb andb]. split; [done|].
      rewrite Hbos, decide_False by done. done.
    - left. change (KMS_MAX_BOS <? KMS_MAX_BOS) with false. cbn [andb]. exact Hinv2. }
  intros Hinv. destruct (Hstep (S n) b s Hinv) as [H|(s1 & Ha & Hi & -> & Hk)]; [exact H|].
  destruct (Hstep n _ s1 Hi) as [H|(s2 & Hk2 & _)]; [exact H|]. rewrite Hk in Hk2. done.
Qed.
Lemma kms_bo_unref_inv b s : refs_inv on hf (Some b) s → refs_inv on hf None (kms_bo_unref b s).
Proof. apply bo_unref_n_inv. Qed.
End inv.

(** ** References taken and dropped *)
Lemma fb_of_eq s s' b i : kf_used (ks_fbs s' i) = kf_used (ks_fbs s i) → kf_bo (ks_fbs s' i) = kf_bo (ks_fbs s i) → fb_of s' b i = fb_of s b i.
Proof. intros H1 H2. unfold fb_of. by rewrite H1, H2. Qed.

(** A change of the count or of the creator's reference of a framebuffer that stays. *)
Lemma fb_count_inv on hf hf' hb i f s : is_fb s i →
  kf_used (f (ks_fbs s i)) = true → ffixed (f (ks_fbs s i)) = ffixed (ks_fbs s i) →
  kf_refs (f (ks_fbs s i)) - b2z (kf_user_ref (f (ks_fbs s i))) - occ i hf' = kf_refs (ks_fbs s i) - b2z (kf_user_ref (ks_fbs s i)) - occ i hf →
  1 ≤ kf_refs (f (ks_fbs s i)) → (∀ j, j ≠ i → occ j hf' = occ j hf) → (∀ j, hf' = Some j → is_fb s j) →
  refs_inv on hf hb s → refs_inv on hf' hb (set_kfb i f s).
Proof.
  intros Hi Hu Hfx Hr H1 Ho Hhf Hinv. destruct (ri_fb_refs _ _ _ _ Hinv i Hi) as [Hc _].
  assert (is_fb (set_kfb i f s) i) as Hi' by (split; [apply Hi|by rewrite set_kfb_eq]).
  apply (refs_fb_change on hf hf' hb hb i s); try done; try (rewrite set_kfb_eq; assumption).
  - apply Hi.
  - pose proof (ri_next _ _ _ _ Hinv). cbn. lia.
  - intros j Hj. by apply set_kfb_ne.
  - intros _ _. by rewrite set_kfb_eq.
  - intros _. rewrite set_kfb_eq. unfold fb_holders in *. assert (kf_id (f (ks_fbs s i)) = kf_id (ks_fbs s i)) as -> by (unfold ffixed in Hfx; congruence). lia.
  - intros b _. f_equal. f_equal. apply fb_of_eq; rewrite set_kfb_eq; [by rewrite Hu; symmetry; apply Hi|unfold ffixed in Hfx; congruence].
  - intros j Hj. destruct (Hhf j Hj) as [G1 G2]. split; [done|]. rewrite set_kfb_at. by case_decide; [subst|].
  - intros b. apply (ri_hb _ _ _ _ Hinv b).
Qed.
Lemma fb_ref_inv on hb i s : is_fb s i → refs_inv on None hb s → refs_inv on (Some i) hb (kms_fb_ref (Some i) s).
Proof.
  intros Hi Hinv. pose proof (fb_refs_small _ _ _ _ _ Hinv Hi) as Hs. apply (fb_count_inv on None (Some i) hb i); try done; try apply Hi.
  - cbn. rewrite u32_small by lia. rewrite occ_eq, occ_None. lia.
  - cbn. rewrite u32_small by lia. lia.
  - intros j Hj. by rewrite occ_ne.
  - by intros j [= <-].
Qed.
Lemma fb_user_drop_inv on hb i s : is_fb s i → kf_user_ref (ks_fbs s i) = true →
  refs_inv on None hb s → refs_inv on (Some i) hb (set_kfb i (λ f, f <| kf_user_ref := false |>) s).
Proof.
  intros Hi Hu Hinv. pose proof (fb_refs_small _ _ _ _ _ Hinv Hi) as Hs. apply (fb_count_inv on None (Some i) hb i); try done; try apply Hi.
  - cbn. rewrite Hu, occ_eq, occ_None. cbn. lia.
  - cbn. lia.
  - intros j Hj. by rewrite occ_ne.
  - by intros j [= <-].
Qed.

Lemma fb_unref_inv on i s : refs_inv on (Some i) None s → refs_inv on None None (kms_fb_unref (Some i) s).
Proof.
  intros Hinv. pose proof (ri_hf _ _ _ _ Hinv i eq_refl) as Hi. pose proof (fb_refs_small _ _ _ _ _ Hinv Hi) as Hs.
  destruct (ri_fb_refs _ _ _ _ Hinv i Hi) as [Hc _]. rewrite occ_eq in Hc. destruct (ri_fb_bo _ _ _ _ Hinv i Hi) as [Hb _].
  unfold kms_fb_unref. cbv zeta. rewrite (proj2 (Z.eqb_neq _ _)) by lia. rewrite u32_small by lia.
  set (s1 := set_kfb i _ s). destruct (Z.eqb_spec (kf_refs (ks_fbs s i) - 1) 0) as [E|E].
  - apply kms_bo_unref_inv. assert (fb_holders on (ks_fbs s i) = 0) as Hz.
    { pose proof (countZ_nonneg (λ q, on q =? kf_id (ks_fbs s i)) 0 SLOTS). unfold fb_holders in *. destruct (kf_user_ref _); cbn [b2z] in Hc; lia. }
    assert (ks_fbs (set_kfb i (λ _, kfb0) s1) i = kfb0) as Ef by apply set_kfb_eq.
    assert (¬ is_fb (set_kfb i (λ _, kfb0) s1) i) as Hn by (intros [_ Hu]; by rewrite Ef in Hu).
    apply (refs_fb_change on (Some i) None None (Some (kf_bo (ks_fbs s i))) i s); try done.
    + apply Hi.
    + pose proof (ri_next _ _ _ _ Hinv). cbn. lia.
    + intros j Hj. rewrite set_kfb_ne by done. unfold s1. by rewrite set_kfb_ne.
    + intros j Hj. by rewrite (occ_ne j i).
    + intros b _. assert (fb_of (set_kfb i (λ _, kfb0) s1) b i = false) as -> by (unfold fb_of; by rewrite Ef). unfold fb_of. rewrite (proj2 Hi). cbn [andb b2z].
      destruct (Z.eqb_spec (kf_bo (ks_fbs s i)) b) as [->|Hne]; [by rewrite occ_eq|by rewrite occ_ne].
    + by intros b [= <-].
  - apply (fb_count_inv on (Some i) None None i); try done; try apply Hi.
    + cbn. rewrite u32_small by lia. rewrite occ_eq, occ_None. lia.
    + cbn. rewrite u32_small by lia. lia.
    + intros j Hj. by rewrite occ_ne.
Qed.
Lemma fb_unref_mem fb s : kmem s (kms_fb_unref fb s).
Proof.
  destruct fb as [i|]; [|done]. unfold kms_fb_unref. cbv zeta. destruct (_ =? 0); [done|]. destruct (_ =? 0); [|apply kmem_set_kfb].
  etrans; [|apply kms_bo_unref_mem]. by constructor.
Qed.

Lemma kms_bo_close_inv on hf b s : is_bo s b → kb_handle_open (ks_bos s b) = true →
  refs_inv on hf None s → refs_inv on hf (Some b) (set_kbo b (λ c, c <| kb_handle_open := false |>) s).
Proof.
  intros Hb Ho Hinv. destruct (ri_bo_refs _ _ _ _ Hinv b Hb) as [Hr H1]. rewrite Ho, occ_None in Hr. cbn [b2z] in Hr.
  apply (refs_bo_change on hf None (Some b) b s); try done.
  - apply Hb.
  - intros j Hj. by rewrite set_kbo_ne.
  - intros _ _. by rewrite set_kbo_eq.
  - intros Hn. exfalso. apply Hn. split; [apply Hb|]. rewrite set_kbo_eq. apply Hb.
  - intros _. rewrite set_kbo_eq, occ_eq. cbn [upd kb_refs kb_handle_open eta eta_kbo b2z]. lia.
  - intros j Hj _. rewrite occ_ne, occ_None by done. f_equal. f_equal. unfold alias_of. by rewrite set_kbo_eq.
  - intros _ Ha. rewrite set_kbo_eq in Ha |- *. change (kb_kind (ks_bos s b) = KMS_BOK_ALIAS) in Ha. destruct (ri_alias _ _ _ _ Hinv b Hb Ha) as (H2 & H3).
    split; [|split; [exact H2|exact H3]]. intros E. destruct H3 as [H3 _]. change (kb_alias_src (ks_bos s b) = b) in E. rewrite E in H3. congruence.
  - intros j [= <-]. split; [apply Hb|]. rewrite set_kbo_eq. apply Hb.
Qed.
Lemma bo_destroy_inv on hf b s : is_bo s b → kb_handle_open (ks_bos s b) = true →
  refs_inv on hf None s → refs_inv on hf None (kms_bo_unref b (set_kbo b (λ c, c <| kb_handle_open := false |>) s)).
Proof. intros Hb Ho Hinv. apply kms_bo_unref_inv. by apply kms_bo_close_inv. Qed.

(** ** New buffers *)
Lemma bo_new_inv on hf idx b s s' : 0 ≤ idx < KMS_MAX_BOS → kb_used (ks_bos s idx) = false →
  ks_fbs s' = ks_fbs s → ks_next_fb s' = ks_next_fb s → (∀ j, j ≠ idx → bview (ks_bos s' j) = bview (ks_bos s j)) → ks_bos s' idx = b →
  kb_handle_open b = true → kb_refs b = 1 → kb_kind b ≠ KMS_BOK_ALIAS →
  refs_inv on hf None s → refs_inv on hf None s'.
Proof.
  intros Hr Hu Hf Hn Hj Hb Ho H1 Hk Hinv. assert (¬ is_bo s idx) as Hnb by (intros [_ ?]; congruence).
  assert (bo_holders s idx = 0) as Hz.
  { unfold bo_holders. rewrite !countZ_zero; [done|done| |done|].
    - intros j Hj1. unfold alias_of. destruct (kb_used (ks_bos s j)) eqn:E; [|done]. destruct (bool_decide_reflect (kb_kind (ks_bos s j) = KMS_BOK_ALIAS)) as [Ha|]; [|done].
      cbn [andb]. apply Z.eqb_neq. intros E2. destruct (ri_alias _ _ _ _ Hinv j) as (G & _); [by split|done|]. rewrite E2 in G. done.
    - intros j Hj1. unfold fb_of. destruct (kf_used (ks_fbs s j)) eqn:E; [|done]. cbn [andb]. apply Z.eqb_neq. intros E2.
      destruct (ri_fb_bo _ _ _ _ Hinv j) as (G & _); [by split|]. rewrite E2 in G. done. }
  apply (refs_bo_change on hf None None idx s); try done.
  - intros _. rewrite Hb, Ho, H1, Hz. done.
  - intros j Hne _. f_equal. f_equal. unfold alias_of. rewrite Hu, Hb, bool_decide_false by done. cbn [andb]. by destruct (kb_used b).
  - intros _. by rewrite Hb.
Qed.

Lemma alias_new_inv on hf idx src b s s' : 0 ≤ idx < KMS_MAX_BOS → kb_used (ks_bos s idx) = false →
  is_bo s src → kb_kind (ks_bos s src) = KMS_BOK_POOL →
  ks_fbs s' = ks_fbs s → ks_next_fb s' = ks_next_fb s → (∀ j, j ≠ idx → j ≠ src → ks_bos s' j = ks_bos s j) → ks_bos s' idx = b →
  ks_bos s' src = ks_bos s src <| kb_refs ::= λ n, u32 (n + 1) |> →
  kb_used b = true → kb_handle_open b = true → kb_refs b = 1 → kb_kind b = KMS_BOK_ALIAS → kb_alias_src b = src → kb_pa b = kb_pa (ks_bos s src) →
  kb_size b = kb_size (ks_bos s src) →
  refs_inv on hf None s → refs_inv on hf None s'.
Proof.
  intros Hr Hu Hsrc Hpool Hf Hn Hj Hb Hs Hub Ho H1 Hk Has Hpa Hsz Hinv.
  pose proof (bo_refs_small _ _ _ _ _ Hinv Hsrc) as Hsm. destruct (ri_bo_refs _ _ _ _ Hinv src Hsrc) as [Hc Hp1].
  assert (src ≠ idx) as Hne by (intros ->; destruct Hsrc; congruence).
  (* first the source's count, in hand; then the alias takes it *)
  set (s1 := set_kbo src (λ c, c <| kb_refs ::= λ n, u32 (n + 1) |>) s).
  assert (refs_inv on hf (Some src) s1) as Hinv1.
  { apply (refs_bo_change on hf None (Some src) src s); try done.
    - apply Hsrc.
    - intros j Hj'. unfold s1. by rewrite set_kbo_ne.
    - intros _ _. unfold s1. by rewrite set_kbo_eq.
    - intros Hnb. exfalso. apply Hnb. split; [apply Hsrc|]. unfold s1. rewrite set_kbo_eq. apply Hsrc.
    - intros _. unfold s1. rewrite set_kbo_eq, occ_eq. rewrite occ_None in Hc. cbn [upd kb_refs kb_handle_open eta eta_kbo]. rewrite u32_small by lia. lia.
    - intros j Hj' _. rewrite occ_ne, occ_None by done. f_equal. f_equal. unfold alias_of, s1. by rewrite set_kbo_eq.
    - intros _ Ha. unfold s1 in Ha. rewrite set_kbo_eq in Ha. change (kb_kind (ks_bos s src) = KMS_BOK_ALIAS) in Ha. congruence.
    - intros j [= <-]. split; [apply Hsrc|]. unfold s1. rewrite set_kbo_eq. apply Hsrc. }
  assert (kb_used (ks_bos s1 idx) = false) as Hu1 by (unfold s1; by rewrite set_kbo_ne).
  assert (bo_holders s1 idx = 0) as Hz.
  { unfold bo_holders. rewrite !countZ_zero; [done|done| |done|].
    - intros j Hj1. unfold alias_of. destruct (kb_used (ks_bos s1 j)) eqn:E; [|done]. destruct (bool_decide_reflect (kb_kind (ks_bos s1 j) = KMS_BOK_ALIAS)) as [Ha|]; [|done].
      cbn [andb]. apply Z.eqb_neq. intros E2. destruct (ri_alias _ _ _ _ Hinv1 j) as (G & _); [by split|done|]. rewrite E2 in G. destruct G. congruence.
    - intros j Hj1. unfold fb_of. destruct (kf_used (ks_fbs s1 j)) eqn:E; [|done]. cbn [andb]. apply Z.eqb_neq. intros E2.
      destruct (ri_fb_bo _ _ _ _ Hinv1 j) as (G & _); [by split|]. rewrite E2 in G. destruct G. congruence. }
  apply (refs_bo_change on hf (Some src) None idx s1); try done.
  - intros j Hj'. unfold s1. destruct (decide (j = src)) as [->|]; [rewrite set_kbo_eq, Hs|rewrite set_kbo_ne, Hj by done]; done.
  - intros [_ ?]. congruence.
  - intros _. rewrite Hb, Ho, H1, Hz. done.
  - intros j Hj' _. rewrite occ_None. unfold alias_of. rewrite Hu1, Hb, Hub, Hk, Has, bool_decide_true by done. cbn [andb b2z].
    destruct (Z.eqb_spec src j) as [->|]; [by rewrite occ_eq|by rewrite occ_ne].
  - intros _ _. rewrite Hb, Has. split; [done|]. unfold alias_ok. rewrite Has. unfold s1. rewrite set_kbo_eq. split; [split; [apply Hsrc|]|done].
    rewrite set_kbo_eq. apply Hsrc.
Qed.

(** ** A new framebuffer *)
Lemma fb_new_inv on i b f s s' : 0 ≤ i < KMS_MAX_FBS → kf_used (ks_fbs s i) = false → is_bo s b →
  ks_next_fb s + 1 < 2 ^ 32 → ks_next_fb s' = ks_next_fb s + 1 →
  (∀ j, ks_fbs s' j = if decide (i = j) then f else ks_fbs s j) →
  ks_bos s' = ks_bos (set_kbo b (λ c, c <| kb_refs ::= λ n, u32 (n + 1) |>) s) →
  kf_used f = true → kf_id f = ks_next_fb s → kf_user_ref f = true → kf_refs f = 1 → kf_bo f = b → fb_fits f (ks_bos s b) →
  refs_inv on None None s → refs_inv on None None s'.
Proof.
  intros Hr Hu Hb Hroom Hn Hfs Hbs Huf Hid Hur H1 Hbo Hfit Hinv.
  pose proof (bo_refs_small _ _ _ _ _ Hinv Hb) as Hsm. destruct (ri_bo_refs _ _ _ _ Hinv b Hb) as [Hc Hp1]. pose proof (ri_next _ _ _ _ Hinv) as Hnx.
  set (s1 := set_kbo b (λ c, c <| kb_refs ::= λ n, u32 (n + 1) |>) s) in *.
  assert (refs_inv on None (Some b) s1) as Hinv1.
  { apply (refs_bo_change on None None (Some b) b s); try done.
    - apply Hb.
    - intros j Hj'. unfold s1. by rewrite set_kbo_ne.
    - intros _ _. unfold s1. by rewrite set_kbo_eq.
    - intros Hnb. exfalso. apply Hnb. split; [apply Hb|]. unfold s1. rewrite set_kbo_eq. apply Hb.
    - intros _. unfold s1. rewrite set_kbo_eq, occ_eq. rewrite occ_None in Hc. cbn [upd kb_refs kb_handle_open eta eta_kbo]. rewrite u32_small by lia. lia.
    - intros j Hj' _. rewrite occ_ne, occ_None by done. f_equal. f_equal. unfold alias_of, s1. by rewrite set_kbo_eq.
    - intros _ Ha. unfold s1 in Ha |- *. rewrite set_kbo_eq in Ha |- *. change (kb_kind (ks_bos s b) = KMS_BOK_ALIAS) in Ha.
      destruct (ri_alias _ _ _ _ Hinv b Hb Ha) as (H2 & H3). split; [|split; [exact H2|exact H3]]. intros E. destruct H3 as [H3 _].
      change (kb_alias_src (ks_bos s b) = b) in E. rewrite E in H3. congruence.
    - intros j [= <-]. split; [apply Hb|]. unfold s1. rewrite set_kbo_eq. apply Hb. }
  assert (is_bo s1 b) as Hb1 by (split; [apply Hb|unfold s1; rewrite set_kbo_eq; apply Hb]).
  assert (¬ is_fb s1 i) as Hni by (intros [_ Hx]; change (kf_used (ks_fbs s i) = true) in Hx; congruence).
  assert (fb_holders on f = 0) as Hz.
  { unfold fb_holders. apply countZ_zero; [done|]. intros q Hq. apply Z.eqb_neq. rewrite Hid. intros E.
    destruct (ri_on _ _ _ _ Hinv q Hq) as [E0|(j & Hj & Ej)]; [rewrite E0 in E; unfold KMS_ID_FB_BASE in Hnx; lia|].
    pose proof (ri_fb_id _ _ _ _ Hinv j Hj). lia. }
  assert (ks_fbs s' i = f) as Ef by (by rewrite Hfs, decide_True).
  apply (refs_fb_change on None None (Some b) None i s1); try done.
  - cbn. lia.
  - intros j Hj. by rewrite Hfs, decide_False.
  - intros _ _. rewrite Ef, Hbo. split_and!; [exact Hid|cbn; lia|done|]. unfold fb_fits in *. unfold s1. rewrite set_kbo_eq. exact Hfit.
  - intros _. rewrite Ef, Hur, H1, Hz. done.
  - intros c _. rewrite occ_None. unfold fb_of. rewrite Ef, Huf, Hbo. change (ks_fbs s1 i) with (ks_fbs s i). rewrite Hu. cbn [andb b2z].
    destruct (Z.eqb_spec b c) as [->|]; [by rewrite occ_eq|by rewrite occ_ne].
Qed.
