(* ===== verification/KmsPool.v ===== *)
(** The scan-out pool: the offset chosen is the lowest that fits, and the windows of live
    pool buffers stay disjoint and inside the pool. *)
From S2P Require Import Prelude Proto State KmsProto KmsModes KmsState KmsBo KmsEv KmsBackend KmsCommit KmsAside KmsRefs KmsRefOps.

Definition pool_bo (s : kms_srv_t) (b : Z) : Prop := is_bo s b ∧ kb_kind (ks_bos s b) = KMS_BOK_POOL.
Definition off_of (s : kms_srv_t) (b : Z) : Z := kb_off (ks_bos s b).
Definition end_of (s : kms_srv_t) (b : Z) : Z := kb_off (ks_bos s b) + kb_size (ks_bos s b).
(** [size] bytes at [o] are in the pool and clear of every live window. *)
Definition fits_at (s : kms_srv_t) (size o : Z) : Prop :=
  0 ≤ o ∧ o + size ≤ op_pool_size (ks_opt s) ∧ ∀ b, pool_bo s b → o + size ≤ off_of s b ∨ end_of s b ≤ o.

Record pool_inv (s : kms_srv_t) : Prop := mkPool {
  pi_window b : pool_bo s b → 0 ≤ off_of s b ≤ end_of s b ∧ end_of s b ≤ op_pool_size (ks_opt s) ∧
    kb_pa (ks_bos s b) = u64 (op_pool_pa (ks_opt s) + off_of s b);
  pi_apart b b' : pool_bo s b → pool_bo s b' → b ≠ b' → end_of s b ≤ off_of s b' ∨ end_of s b' ≤ off_of s b }.

(** A buffer in a slot of the firmware framebuffer, and one that is a foreign buffer. *)
Definition in_use (s : kms_srv_t) (b : Z) : Prop := kb_used (ks_bos s b) = true.
Definition slot_bo (s : kms_srv_t) (b : Z) : Prop := in_use s b ∧ kb_kind (ks_bos s b) = KMS_BOK_SLOT.
#[export] Instance slot_bo_dec s b : Decision (slot_bo s b).
Proof. unfold slot_bo, in_use. apply _. Defined.
Definition slot_at (o : kms_opts) (c : kms_bo_t) : Prop :=
  1 ≤ kb_slot c < op_fb_slots o ∧ kb_pa c = u64 (op_fb_pa o + kb_slot c * op_fb_h o * op_fb_pitch o) ∧
  Z.land (kb_pa c) (PAGE_SIZE - 1) = 0 ∧ kb_size c = KMS_PAGE_ROUND (op_fb_pitch o * op_fb_h o).
Definition import_at (c : kms_bo_t) : Prop := mr_kind (kb_imp_mem c) = KMS_MEM_OID ∧ mr_size (kb_imp_mem c) = kb_size c.
Record own_inv (s : kms_srv_t) : Prop := mkOwn {
  oi_slot b : slot_bo s b → slot_at (ks_opt s) (ks_bos s b);
  oi_used b : slot_bo s b → Z.testbit (ks_slot_used s) (kb_slot (ks_bos s b)) = true;
  oi_apart b b' : slot_bo s b → slot_bo s b' → b ≠ b' → kb_slot (ks_bos s b) ≠ kb_slot (ks_bos s b');
  oi_import b : in_use s b → kb_kind (ks_bos s b) = KMS_BOK_IMPORT → import_at (ks_bos s b) }.
Definition mem_inv (s : kms_srv_t) : Prop := pool_inv s ∧ own_inv s.

(** Buffers with memory only go: options stay, and so does what such a buffer has. *)
Definition mem_sub (s s' : kms_srv_t) : Prop :=
  ks_opt s' = ks_opt s ∧
  (∀ b, in_use s' b → kb_kind (ks_bos s' b) ≠ KMS_BOK_ALIAS → in_use s b ∧ bfixed (ks_bos s' b) = bfixed (ks_bos s b)) ∧
  (own_inv s → ∀ b, slot_bo s' b → Z.testbit (ks_slot_used s') (kb_slot (ks_bos s' b)) = true).
Lemma own_inv_sub s s' : mem_sub s s' → own_inv s → own_inv s'.
Proof.
  intros (Eo & Hs & Hu) Hp.
  assert (∀ b, slot_bo s' b → slot_bo s b ∧ bfixed (ks_bos s' b) = bfixed (ks_bos s b)) as H.
  { intros b [Hb Hk]. destruct (Hs b Hb) as [G1 G2]; [congruence|]. split; [|done]. split; [done|]. destruct (bfixed_eq _ _ G2). congruence. }
  constructor.
  - intros b Hb. destruct (H b Hb) as [G1 G2]. apply (oi_slot _ Hp) in G1. unfold slot_at in *.
    destruct (bfixed_eq _ _ G2) as (_ & _ & -> & _ & ->), (bfixed_own _ _ G2) as [-> _]. by rewrite Eo.
  - by apply Hu.
  - intros b b' Hb Hb' Hne. destruct (H b Hb) as [G1 G2], (H b' Hb') as [G3 G4].
    destruct (bfixed_own _ _ G2) as [-> _], (bfixed_own _ _ G4) as [-> _]. by apply Hp.
  - intros b Hb Hk. destruct (Hs b Hb) as [G1 G2]; [congruence|]. destruct (bfixed_eq _ _ G2) as (Ek & _ & _ & _ & Es), (bfixed_own _ _ G2) as [_ Ei].
    unfold import_at. rewrite Ei, Es. apply (oi_import _ Hp); congruence.
Qed.
#[export] Instance mem_sub_pre : PreOrder mem_sub.
Proof.
  split; [intros s; split_and!; [done|done|apply oi_used]|]. intros s1 s2 s3 H12 (E2 & H2 & U2). pose proof H12 as (E1 & H1 & U1). split_and!; [congruence| |].
  - intros b Hb Hk. destruct (H2 b Hb Hk) as [G1 G2]. destruct (H1 b G1) as [G3 G4]; [destruct (bfixed_eq _ _ G2) as (Ek & _); congruence|]. split; [done|by rewrite G2].
  - intros Ho. apply U2. by apply (own_inv_sub s1).
Qed.
Lemma pool_inv_sub s s' : mem_sub s s' → pool_inv s → pool_inv s'.
Proof.
  intros (Eo & Hs & _) Hp.
  assert (∀ b, pool_bo s' b → pool_bo s b ∧ off_of s' b = off_of s b ∧ end_of s' b = end_of s b ∧ kb_pa (ks_bos s' b) = kb_pa (ks_bos s b)) as H.
  { intros b [[Hr Hb] Hk]. destruct (Hs b Hb) as [G1 G2]; [congruence|]. destruct (bfixed_eq _ _ G2) as (Ek & _ & Ep & Ef & Es).
    unfold pool_bo, is_bo, off_of, end_of. rewrite Ef, Es, <- Ek. destruct Hr; by split_and!. }
  constructor.
  - intros b Hb. destruct (H b Hb) as (G & -> & -> & ->). rewrite Eo. by apply Hp.
  - intros b b' Hb Hb' Hne. destruct (H b Hb) as (G & -> & -> & _), (H b' Hb') as (G' & -> & -> & _). by apply Hp.
Qed.
Lemma mem_inv_sub s s' : mem_sub s s' → mem_inv s → mem_inv s'.
Proof. intros H [H1 H2]. split; [by apply (pool_inv_sub s)|by apply (own_inv_sub s)]. Qed.

(** ** The search *)
Lemma pool_live_bo s b : 0 ≤ b < KMS_MAX_BOS → pool_live (ks_bos s b) = true ↔ pool_bo s b.
Proof.
  intros Hr. unfold pool_live, pool_bo, is_bo. rewrite andb_true_iff, bool_decide_eq_true. tauto.
Qed.
Lemma pool_fits_at s size o : 0 ≤ o → pool_fits s size o = true ↔ fits_at s size o.
Proof.
  intros Ho. unfold pool_fits, fits_at. rewrite andb_true_iff, Z.leb_le, forallb_forall. split.
  - intros [H1 H2]. split_and!; [done|done|]. intros b Hb. pose proof (proj1 Hb) as [Hr _]. specialize (H2 b). rewrite <- list_elem_of_In in H2.
    assert (b ∈ seqZ 0 KMS_MAX_BOS) as Hin by (apply elem_of_seqZ; lia). specialize (H2 Hin). cbv zeta in H2. apply (pool_live_bo s b Hr) in Hb. rewrite Hb in H2. cbn [andb] in H2.
    unfold off_of, end_of. apply negb_true_iff, andb_false_iff in H2 as [H2|H2]; apply Z.ltb_ge in H2; lia.
  - intros (_ & H1 & H2). split; [done|]. intros b Hb. apply list_elem_of_In, elem_of_seqZ in Hb. cbv zeta.
    destruct (pool_live (ks_bos s b)) eqn:E; [|done]. apply pool_live_bo in E; [|lia]. destruct (H2 b E) as [G|G]; unfold off_of, end_of in G.
    + rewrite (proj2 (Z.ltb_ge _ (o + size))) by lia. by rewrite andb_false_r.
    + rewrite (proj2 (Z.ltb_ge o _)) by lia. done.
Qed.

Lemma pool_cands_in s c : c ∈ pool_cands s ↔ c = 0 ∨ ∃ b, pool_bo s b ∧ c = end_of s b.
Proof.
  unfold pool_cands. rewrite elem_of_cons, list_elem_of_fmap. split; intros [H|(b & H1 & H2)]; [by left| |by left|]; right.
  - exists b. apply list_elem_of_In, filter_In in H2 as [H2 H3]. apply list_elem_of_In, elem_of_seqZ in H2. split; [|done]. by apply pool_live_bo; [lia|].
  - exists b. split; [done|]. apply list_elem_of_In, filter_In. pose proof (proj1 H1) as [Hr _]. split; [apply list_elem_of_In, elem_of_seqZ; lia|].
    by apply pool_live_bo.
Qed.

(** The least of the candidates that fit. *)
Lemma pool_best s size l best :
  match foldl (λ best c, if pool_fits s size c && match best with None => true | Some b => c <? b end then Some c else best) best l with
  | Some o => (best = Some o ∨ o ∈ l ∧ pool_fits s size o = true) ∧ (∀ c, c ∈ l → pool_fits s size c = true → o ≤ c) ∧ (∀ b, best = Some b → o ≤ b)
  | None => best = None ∧ ∀ c, c ∈ l → pool_fits s size c = false
  end.
Proof.
  revert best. induction l as [|c l IH]; intros best; cbn [foldl].
  - destruct best as [b|]; [|split; [done|]; by intros c ?%elem_of_nil]. split_and!; [by left|by intros c ?%elem_of_nil|by intros ? [= <-]].
  - set (best' := if pool_fits s size c && _ then Some c else best). specialize (IH best'). destruct (foldl _ best' l) as [o|].
    + destruct IH as (H1 & H2 & H3). assert ((best' = Some c ∧ pool_fits s size c = true ∧ (∀ b, best = Some b → c < b)) ∨
        best' = best ∧ (pool_fits s size c = true → ∃ b, best = Some b ∧ b ≤ c)) as [(E & Hc & Hb)|(E & Hc)].
      { unfold best'. destruct (pool_fits s size c); [|by right]. destruct best as [b|]; cbn [andb]; [|by left]. destruct (Z.ltb_spec c b).
        - left. split_and!; [done|done|]. by intros ? [= <-].
        - right. split; [done|]. intros _. by exists b. }
      * split_and!.
        -- right. destruct H1 as [H1|[H1 H4]]; [|split; [by right|done]]. rewrite E in H1. injection H1 as <-. split; [by left|done].
        -- intros d [->|Hd]%elem_of_cons Hf; [by apply H3|by apply H2].
        -- intros b Hb'. specialize (H3 c E). specialize (Hb b Hb'). lia.
      * rewrite E in H1, H3. split_and!; [|..|done].
        -- destruct H1 as [?|[? ?]]; [by left|right; split; [by right|done]].
        -- intros d [->|Hd]%elem_of_cons Hf; [|by apply H2]. destruct (Hc Hf) as (b & -> & Hb). specialize (H3 b eq_refl). lia.
    + destruct IH as [E H]. assert (best = None ∧ pool_fits s size c = false) as [-> Hc].
      { unfold best' in E. destruct (pool_fits s size c), best as [b|]; cbn [andb] in E; try done. by destruct (c <? b). }
      split; [done|]. by intros d [->|Hd]%elem_of_cons; [|apply H].
Qed.

(** Wherever something fits, it fits at a candidate no higher. *)
Lemma fits_candidate s size o : pool_inv s → fits_at s size o → ∃ c, c ∈ pool_cands s ∧ c ≤ o ∧ fits_at s size c.
Proof.
  intros Hp (H0 & H1 & H2).
  assert (∃ c, c ∈ pool_cands s ∧ c ≤ o ∧ ∀ d, d ∈ pool_cands s → d ≤ o → d ≤ c) as (c & Hc & Hle & Hmax).
  { assert (0 ∈ pool_cands s) as Hin by (apply pool_cands_in; by left). revert Hin. generalize (pool_cands s) as l. clear -H0.
    intros l Hin. assert (∀ l : list Z, (∃ c, c ∈ l ∧ c ≤ o) → ∃ c, c ∈ l ∧ c ≤ o ∧ ∀ d, d ∈ l → d ≤ o → d ≤ c) as H; [|apply H; by exists 0].
    clear l Hin. induction l as [|x l IH]; intros (c & Hc & Hle); [by apply elem_of_nil in Hc|].
    destruct (decide (Exists (λ c, c ≤ o) l)) as [He|Hn]; rewrite Exists_exists in *.
    - destruct (IH He) as (m & Hm & Hmo & Hmax). destruct (decide (x ≤ o ∧ m ≤ x)) as [[Hx1 Hx2]|Hx].
      + exists x. split_and!; [by left|done|]. intros d [->|Hd]%elem_of_cons Hdo; [lia|]. specialize (Hmax d Hd Hdo). lia.
      + exists m. split_and!; [by right|done|]. intros d [->|Hd]%elem_of_cons Hdo; [lia|by apply Hmax].
    - exists c. apply elem_of_cons in Hc as [->|Hc]; [|destruct Hn; by exists c]. split_and!; [by left|done|].
      intros d [->|Hd]%elem_of_cons Hdo; [lia|]. destruct Hn. by exists d. }
  exists c. split_and!; [done|done|]. split_and!.
  - apply pool_cands_in in Hc as [->|(b & Hb & ->)]; [done|]. apply pi_window in Hb; [|done]. lia.
  - lia.
  - intros b Hb. destruct (H2 b Hb) as [G|G]; [left; lia|right]. apply Hmax; [|done]. apply pool_cands_in. right. by exists b.
Qed.

Lemma pool_find_best s size :
  match pool_find s size with
  | Some o => o ∈ pool_cands s ∧ pool_fits s size o = true ∧ ∀ c, c ∈ pool_cands s → pool_fits s size c = true → o ≤ c
  | None => ∀ c, c ∈ pool_cands s → pool_fits s size c = false
  end.
Proof.
  unfold pool_find. generalize (pool_cands s) as l. intros l. pose proof (pool_best s size l None) as H. destruct (foldl _ None l) as [o|].
  - destruct H as ([H|[H1 H2]] & H3 & _); [done|]. by split_and!.
  - apply H.
Qed.
Lemma pool_find_Some s size o : pool_inv s → pool_find s size = Some o → fits_at s size o.
Proof.
  intros Hp Hf. pose proof (pool_find_best s size) as H. rewrite Hf in H. destruct H as (H1 & H2 & _).
  apply pool_fits_at; [|done]. apply pool_cands_in in H1 as [->|(b & Hb & ->)]; [done|]. apply pi_window in Hb; [|done]. lia.
Qed.

(** C19: the pool allocator is first fit, and complete: the offset it returns is the lowest
    one at which the buffer fits inside the pool and clear of every live window, and it fails
    only when the buffer fits nowhere, although it looks only at the start of the pool and at
    the ends of live windows. *)
Theorem pool_find_first_fit s size : pool_inv s →
  match pool_find s size with
  | Some o => fits_at s size o ∧ ∀ o', fits_at s size o' → o ≤ o'
  | None => ∀ o, ¬ fits_at s size o
  end.
Proof.
  intros Hp. pose proof (pool_find_best s size) as H. destruct (pool_find s size) as [o|] eqn:E.
  - destruct H as (_ & _ & H2). split; [by apply pool_find_Some|]. intros o' Ho'. destruct (fits_candidate s size o' Hp Ho') as (c & Hc & Hle & Hf).
    apply pool_fits_at in Hf; [|apply Hf]. specialize (H2 c Hc Hf). lia.
  - intros o Ho. destruct (fits_candidate s size o Hp Ho) as (c & Hc & _ & Hf). apply pool_fits_at in Hf; [|apply Hf]. by rewrite H in Hf.
Qed.
