(* ===== verification/KmsRefKept.v ===== *)
(** The requests on buffers and framebuffers, whole, keep the reference counts exact and the
    pool windows disjoint; they leave the planes alone. *)
From S2P Require Import Prelude Proto State KmsProto KmsModes KmsState KmsBo KmsEv KmsBackend KmsCommit KmsAside KmsRefs KmsRefOps KmsPool.

(** ** Pool windows under each update *)
Lemma mem_sub_frame s s' : ks_opt s' = ks_opt s → ks_slot_used s' = ks_slot_used s →
  (∀ b, in_use s' b → kb_kind (ks_bos s' b) ≠ KMS_BOK_ALIAS → in_use s b ∧ bfixed (ks_bos s' b) = bfixed (ks_bos s b)) → mem_sub s s'.
Proof.
  intros Ho Hu Hb. split_and!; [done|done|]. intros Hi b [H1 H2]. destruct (Hb b H1) as [G1 G2]; [congruence|].
  destruct (bfixed_eq _ _ G2) as (Ek & _), (bfixed_own _ _ G2) as [-> _]. rewrite Hu. apply (oi_used _ Hi). split; [done|congruence].
Qed.
Lemma mem_sub_eq s s' : ks_opt s' = ks_opt s → ks_bos s' = ks_bos s → ks_slot_used s' = ks_slot_used s → mem_sub s s'.
Proof. intros Ho Hb Hu. apply mem_sub_frame; [done|done|]. intros b. unfold in_use. rewrite Hb. done. Qed.
Lemma mem_sub_set b f s : (kb_used (f (ks_bos s b)) = true → kb_used (ks_bos s b) = true ∧ bfixed (f (ks_bos s b)) = bfixed (ks_bos s b)) →
  mem_sub s (set_kbo b f s).
Proof.
  intros H. apply mem_sub_frame; [done|done|]. intros j. unfold in_use. rewrite set_kbo_at. case_decide as Hd; [subst|by split].
  intros Hu _. by apply H.
Qed.
Lemma bo_free_slots b s :
  ks_slot_used (bo_free b s) = if bool_decide (kb_kind (ks_bos s b) = KMS_BOK_SLOT) then Z.clearbit (ks_slot_used s) (kb_slot (ks_bos s b)) else ks_slot_used s.
Proof. unfold bo_free. cbv zeta. repeat case_bool_decide; repeat match goal with |- context [if ?c then _ else _] => destruct c end; done. Qed.
Lemma bo_free_sub b s : in_use s b → mem_sub s (bo_free b s).
Proof.
  intros Hb. split_and!; [apply (mm_opt _ _ (bo_free_mem b s))|..].
  - intros j. unfold in_use. rewrite bo_free_bos. case_decide; [done|by split].
  - intros Hi j. unfold slot_bo, in_use. rewrite bo_free_bos, bo_free_slots. case_decide as Hd; [by intros []|]. intros Hj.
    pose proof (oi_used _ Hi j Hj) as Hu. case_bool_decide as Hk; [|done]. rewrite Z.clearbit_neq; [done|]. by apply (oi_apart _ Hi).
Qed.
Lemma bo_unref_n_sub n b s : mem_sub s (bo_unref_n n b s).
Proof.
  revert b s. induction n as [|n IH]; intros b s; [done|]. cbn [bo_unref_n]. cbv zeta. destruct (negb (kb_used (ks_bos s b)) || _) eqn:Eb; [done|].
  apply orb_false_iff in Eb as [Eb _]. apply negb_false_iff in Eb.
  set (s1 := set_kbo b _ s). assert (mem_sub s s1) as H1 by (by apply mem_sub_set).
  assert (in_use s1 b) as Hu by (unfold in_use, s1; by rewrite set_kbo_eq). clearbody s1.
  destruct (negb _); [done|]. destruct (_ && _); [etrans; [|apply IH]|]; (etrans; [exact H1|by apply bo_free_sub]).
Qed.
Lemma kms_bo_unref_sub b s : mem_sub s (kms_bo_unref b s).
Proof. apply bo_unref_n_sub. Qed.
Lemma fb_unref_sub fb s : mem_sub s (kms_fb_unref fb s).
Proof.
  destruct fb as [i|]; [|done]. unfold kms_fb_unref. cbv zeta. destruct (_ =? 0); [done|]. destruct (_ =? 0); [|by apply mem_sub_eq].
  etrans; [|apply kms_bo_unref_sub]. by apply mem_sub_eq.
Qed.

(** A step that keeps everything this file is about, and the planes with it. *)
Definition kept (on : Z → Z) (s s' : kms_srv_t) : Prop :=
  (refs_inv on None None s → mem_inv s → refs_inv on None None s' ∧ mem_inv s') ∧ kmem s s'.
#[export] Instance kept_pre on : PreOrder (kept on).
Proof.
  split; [by intros s; split|]. intros a b c [H1 M1] [H2 M2]. split; [|by etrans]. intros G1 G2. destruct (H1 G1 G2). auto.
Qed.
Lemma kept_sub on s s' : kmem s s' → mem_sub s s' → (refs_inv on None None s → mem_inv s → refs_inv on None None s') → kept on s s'.
Proof. intros Hm Hs Hr. split; [|done]. intros G1 G2. split; [auto|]. by apply (mem_inv_sub s). Qed.
Lemma kept_same on s s' : kmem s s' → ks_fbs s' = ks_fbs s → ks_slot_used s' = ks_slot_used s → (∀ b, bview (ks_bos s' b) = bview (ks_bos s b)) → kept on s s'.
Proof.
  intros Hm Hf Hs Hb. apply kept_sub; [done| |].
  - apply mem_sub_frame; [by apply mm_opt|done|]. intros b Hu _. destruct (bview_eq _ _ (Hb b)) as (Eu & _). split; [unfold in_use in *; congruence|].
    by apply bview_fixed.
  - intros Hi _. apply (refs_frame on None None s); auto. by apply mm_fb.
Qed.
Lemma kept_aside on s s' : kaside s s' → kept on s s'.
Proof. intros H. apply kept_same; [by apply kaside_mem|by apply as_fbs|by apply as_slot|]. intros b. by rewrite (as_bos _ _ H). Qed.

Lemma unused_inv on hf hb idx s s' : 0 ≤ idx < KMS_MAX_BOS → kb_used (ks_bos s idx) = false → kb_used (ks_bos s' idx) = false →
  ks_fbs s' = ks_fbs s → ks_next_fb s' = ks_next_fb s → (∀ j, j ≠ idx → ks_bos s' j = ks_bos s j) →
  refs_inv on hf hb s → refs_inv on hf hb s'.
Proof.
  intros Hr Hu Hu' Hf Hn Hj Hinv. assert (∀ x, is_bo x idx → kb_used (ks_bos x idx) = true) as Hx by (by intros x []).
  apply (refs_bo_change on hf hb hb idx s); try done.
  - intros j Hne. by rewrite Hj.
  - intros H%Hx. congruence.
  - intros _ H%Hx. congruence.
  - intros H%Hx. congruence.
  - intros j _ _. f_equal. f_equal. unfold alias_of. by rewrite Hu, Hu'.
  - intros H%Hx. congruence.
  - intros j Hj'. pose proof (ri_hb _ _ _ _ Hinv j Hj') as Hb. destruct (decide (j = idx)) as [->|Hne]; [apply Hx in Hb; congruence|].
    unfold is_bo. by rewrite Hj.
Qed.

Section env.
Context `{K : KEnv} (on : Z → Z).

(** ** Creating *)
(** A slot taken: it was free, and is marked. *)
Definition slot_new (s : kms_srv_t) (c : kms_bo_t) (s' : kms_srv_t) : Prop :=
  slot_at (ks_opt s) c ∧ Z.testbit (ks_slot_used s) (kb_slot c) = false ∧ ks_slot_used s' = Z.setbit (ks_slot_used s) (kb_slot c).
Lemma bo_from_slot_facts b w h s : let '(rc, b', s') := bo_from_slot b w h s in
  kmem s s' ∧ ks_bos s' = ks_bos s ∧ ks_fbs s' = ks_fbs s ∧
  (rc = 0 → kb_kind b' = KMS_BOK_SLOT ∧ slot_new s b' s') ∧ (rc ≠ 0 → ks_slot_used s' = ks_slot_used s).
Proof.
  unfold bo_from_slot. cbv zeta. destruct (_ || _); [by split_and!|]. destruct (find_first _ _ _) as [i|] eqn:Ei; [|by split_and!].
  apply find_first_Some in Ei as (Hi & Hu & _). apply negb_true_iff in Hu. destruct (negb (_ =? 0)) eqn:Ea; [by split_and!|].
  apply negb_false_iff, Z.eqb_eq in Ea. destruct (kv_physmap _ _ _); [|by split_and!]. split_and!; try done; lia.
Qed.
Lemma bo_from_pool_facts b w h bpp s : let '(rc, b', s') := bo_from_pool b w h bpp s in
  kmem s s' ∧ ks_bos s' = ks_bos s ∧ ks_fbs s' = ks_fbs s ∧ ks_slot_used s' = ks_slot_used s ∧
  (pool_inv s → rc = 0 → kb_kind b' = KMS_BOK_POOL ∧ fits_at s (kb_size b') (kb_off b') ∧ 0 ≤ kb_size b' ∧ kb_pa b' = u64 (op_pool_pa (ks_opt s) + kb_off b')).
Proof.
  unfold bo_from_pool. cbv zeta. destruct (negb _); [by split_and!|]. set (pitch := Z.land _ _).
  destruct (pool_find s _) as [off|] eqn:Ef; [|by split_and!].
  assert (0 ≤ KMS_PAGE_ROUND (pitch * h)) as Hsz by (unfold KMS_PAGE_ROUND; apply Z.land_nonneg; left; apply u64_range).
  match goal with |- context [kv_export ?n =? 0] => destruct (Z.eqb_spec (kv_export n) 0) as [E|E] end; cbn [negb]; (split_and!; [|done|done|done|]).
  - constructor; try done. by apply omap_app_none.
  - intros Hp _. split_and!; try done. by apply pool_find_Some.
  - constructor; try done. by apply omap_app_none.
  - intros _ E0. destruct (E E0).
Qed.

Lemma pool_new_window s s' idx : 0 ≤ idx < KMS_MAX_BOS → kb_used (ks_bos s idx) = false →
  ks_opt s' = ks_opt s → (∀ j, j ≠ idx → ks_bos s' j = ks_bos s j) →
  (pool_bo s' idx → fits_at s (kb_size (ks_bos s' idx)) (kb_off (ks_bos s' idx)) ∧ 0 ≤ kb_size (ks_bos s' idx) ∧
     kb_pa (ks_bos s' idx) = u64 (op_pool_pa (ks_opt s) + kb_off (ks_bos s' idx))) →
  pool_inv s → pool_inv s'.
Proof.
  intros Hr Hu Ho Hj Hnew Hp. assert (∀ b, b ≠ idx → pool_bo s' b ↔ pool_bo s b) as Hb by (intros b Hne; unfold pool_bo, is_bo; by rewrite Hj).
  assert (∀ b, b ≠ idx → off_of s' b = off_of s b ∧ end_of s' b = end_of s b) as He by (intros b Hne; unfold off_of, end_of; by rewrite Hj).
  constructor.
  - intros b H. rewrite Ho. destruct (decide (b = idx)) as [->|Hne].
    + destruct (Hnew H) as ((H1 & H2 & _) & H3 & H4). unfold off_of, end_of. split; [lia|split; [lia|done]].
    + destruct (He b Hne) as [-> ->]. rewrite Hj by done. apply Hb in H; [|done]. by apply Hp.
  - intros b b' H H' Hne. destruct (decide (b = idx)) as [->|Hb1], (decide (b' = idx)) as [->|Hb2]; [done|..].
    + apply Hb in H'; [|done]. destruct (He b' Hb2) as [-> ->]. destruct (Hnew H) as ((_ & _ & H3) & _). destruct (H3 b' H'); unfold off_of, end_of in *; lia.
    + apply Hb in H; [|done]. destruct (He b Hb1) as [-> ->]. destruct (Hnew H') as ((_ & _ & H3) & _). destruct (H3 b H); unfold off_of, end_of in *; lia.
    + destruct (He b Hb1) as [-> ->], (He b' Hb2) as [-> ->]. apply Hb in H, H'; try done. by apply Hp.
Qed.
Lemma own_new s s' idx : kb_used (ks_bos s idx) = false → ks_opt s' = ks_opt s → (∀ j, j ≠ idx → ks_bos s' j = ks_bos s j) →
  (slot_bo s' idx → slot_new s (ks_bos s' idx) s') → (¬ slot_bo s' idx → ks_slot_used s' = ks_slot_used s) →
  (in_use s' idx → kb_kind (ks_bos s' idx) = KMS_BOK_IMPORT → import_at (ks_bos s' idx)) → own_inv s → own_inv s'.
Proof.
  intros Hu Ho Hj Hnew Hold Himp Hi.
  assert (∀ b, b ≠ idx → slot_bo s' b → slot_bo s b) as Hb by (intros b Hne; unfold slot_bo, in_use; by rewrite Hj).
  assert (∀ b, b ≠ idx → slot_bo s b → Z.testbit (ks_slot_used s') (kb_slot (ks_bos s b)) = true) as Hbit.
  { intros b Hne Hs. apply (oi_used _ Hi) in Hs. destruct (decide (slot_bo s' idx)) as [E|E]; [|by rewrite Hold].
    destruct (Hnew E) as (Hat & _ & ->). destruct Hat as [Hr _]. rewrite Z.setbit_eqb, Hs by lia. apply orb_true_r. }
  constructor.
  - intros b H. rewrite Ho. destruct (decide (b = idx)) as [->|Hne]; [apply (Hnew H)|]. rewrite Hj by done. by apply (oi_slot _ Hi), Hb.
  - intros b H. destruct (decide (b = idx)) as [->|Hne]; [|rewrite Hj by done; by apply Hbit; [|apply Hb]].
    destruct (Hnew H) as ((Hr & _) & _ & ->). rewrite Z.setbit_eq by lia. done.
  - intros b b' H H' Hne. destruct (decide (b = idx)) as [->|Hb1], (decide (b' = idx)) as [->|Hb2]; [done|..].
    + rewrite (Hj b') by done. destruct (Hnew H) as (_ & Hf & _). pose proof (oi_used _ Hi b' (Hb b' Hb2 H')). congruence.
    + rewrite (Hj b) by done. destruct (Hnew H') as (_ & Hf & _). pose proof (oi_used _ Hi b (Hb b Hb1 H)). congruence.
    + rewrite !Hj by done. apply (oi_apart _ Hi); auto.
  - intros b H Hk. destruct (decide (b = idx)) as [->|Hne]; [auto|]. unfold in_use in H. rewrite Hj in * by done. by apply (oi_import _ Hi).
Qed.
Lemma bo_slot_free_Some s idx : bo_slot_free s = Some idx → 0 ≤ idx < KMS_MAX_BOS ∧ kb_used (ks_bos s idx) = false.
Proof. unfold bo_slot_free. intros H. apply find_first_Some in H as (Hr & H & _). split; [done|]. by apply negb_true_iff. Qed.

(** The memory found for a new buffer: a slot, else a window of the pool. *)
Definition got_memory (s : kms_srv_t) (r : Z * kms_bo_t * kms_srv_t) : Prop :=
  let '(rc, b, s') := r in
  kmem s s' ∧ ks_bos s' = ks_bos s ∧ ks_fbs s' = ks_fbs s ∧
  (rc = 0 ∧ kb_kind b = KMS_BOK_SLOT ∧ slot_new s b s' ∨
   ks_slot_used s' = ks_slot_used s ∧ (pool_inv s → rc = 0 → kb_kind b = KMS_BOK_POOL ∧
     fits_at s (kb_size b) (kb_off b) ∧ 0 ≤ kb_size b ∧ kb_pa b = u64 (op_pool_pa (ks_opt s) + kb_off b))).
Lemma got_slot flags bpp b w h s : got_memory s (
  let '(rc, b, s) := if negb (has flags KMS_DUMB_POOL) && (bpp =? 32) then bo_from_slot b w h s else (- ENOENT, b, s) in
  if negb (rc =? 0) then bo_from_pool b w h bpp s else (rc, b, s)).
Proof.
  set (r1 := if negb _ && _ then _ else _).
  assert (kmem s r1.2 ∧ ks_bos r1.2 = ks_bos s ∧ ks_fbs r1.2 = ks_fbs s ∧
    (r1.1.1 = 0 → kb_kind r1.1.2 = KMS_BOK_SLOT ∧ slot_new s r1.1.2 r1.2) ∧ (r1.1.1 ≠ 0 → ks_slot_used r1.2 = ks_slot_used s)) as H1.
  { unfold r1. destruct (negb _ && _); [|by split_and!]. pose proof (bo_from_slot_facts b w h s) as H. by destruct (bo_from_slot _ _ _ s) as [[rc b1] s1]. }
  destruct r1 as [[rc b1] s1]. cbn [fst snd] in H1. destruct H1 as (M & Eb & Ef & Hk & Hu).
  destruct (Z.eqb_spec rc 0) as [E|E]; cbn [negb]; [split_and!; try done; left; split; [done|by apply Hk]|].
  pose proof (bo_from_pool_facts b1 w h bpp s1) as H. destruct (bo_from_pool _ _ _ _ s1) as [[rc2 b2] s2]. destruct H as (M2 & Eb2 & Ef2 & Hu2 & Hk2).
  split_and!; [by etrans|congruence|congruence|]. right. split; [by rewrite Hu2, Hu|]. intros Hp E0.
  assert (pool_inv s1) as Hp1 by (apply (pool_inv_sub s); [|done]; apply mem_sub_eq; [by apply mm_opt|done|by apply Hu]).
  destruct (Hk2 Hp1 E0) as (G1 & G2 & G3 & G4). rewrite (mm_opt _ _ M) in G4. split_and!; [done| |done|done].
  unfold fits_at, pool_bo, is_bo, off_of, end_of in *. by rewrite Eb, (mm_opt _ _ M) in G2.
Qed.

Lemma new_inv idx b s s' : 0 ≤ idx < KMS_MAX_BOS → kb_used (ks_bos s idx) = false →
  kmem s s' → ks_fbs s' = ks_fbs s → (∀ j, j ≠ idx → ks_bos s' j = ks_bos s j) → ks_bos s' idx = b →
  kb_handle_open b = true → kb_refs b = 1 → kb_kind b ≠ KMS_BOK_ALIAS → pool_inv s' → own_inv s' →
  refs_inv on None None s → refs_inv on None None s' ∧ mem_inv s'.
Proof.
  intros Hr Hu M Ef Hj Hi Ho H1 Hk Hp Hown Hinv. split; [|done].
  apply (bo_new_inv on None idx b s); try done; [by apply (mm_fb _ _ M)|]. intros j Hne. by rewrite Hj.
Qed.

Lemma create_kept c rq s : kept on s (kms_bo_create c rq s).2.
Proof.
  unfold kms_bo_create. destruct (_ || _); [done|]. destruct (bo_slot_free s) as [idx|] eqn:Ei; [|done]. apply bo_slot_free_Some in Ei as [Hr Hu].
  cbv zeta. set (b0 := upd kb_bpp _ _). set (s0 := s <| ks_next_handle ::= _ |>).
  pose proof (got_slot (cd_flags rq) (cd_bpp rq) b0 (cd_width rq) (cd_height rq) s0) as Hg. revert Hg.
  assert (pool_inv s → pool_inv s0) as Hs0 by (apply pool_inv_sub; by apply mem_sub_eq).
  destruct (if negb (has _ _) && _ then _ else _) as [[rc1 b1] s1]. destruct (if negb (rc1 =? 0) then _ else _) as [[rc b] s2].
  intros (M0 & Eb & Ef & Hk). assert (kmem s s2) as M by (etrans; [|exact M0]; by constructor). clear rc1 b1 s1 M0.
  assert (∀ f s3, ks_opt s3 = ks_opt s → ks_bos s3 = ks_bos (set_kbo idx f s2) → ∀ j, j ≠ idx → ks_bos s3 j = ks_bos s j) as Hj.
  { intros f s3 _ -> j Hne. rewrite set_kbo_ne by done. by rewrite Eb. }
  destruct (Z.eqb_spec rc 0) as [E|E]; cbn [negb snd].
  - set (b3 := b <| kb_used := true |> <| kb_handle_open := true |> <| kb_refs := 1 |>). set (s3 := kstat _ _).
    assert (kmem s s3) as M3.
    { etrans; [exact M|]. etrans; [|apply kmem_stat]. etrans; [|by apply kmem_emit]. etrans; [|by apply kmem_emit]. apply kmem_set_kbo. }
    assert (ks_bos s3 idx = b3 ∧ ks_slot_used s3 = ks_slot_used s2 ∧ ks_fbs s3 = ks_fbs s) as (Hi & Eu & Ef3) by (split_and!; [apply fn_upd_eq|done|exact Ef]).
    specialize (Hj (λ _, b3) s3 (mm_opt _ _ M3) eq_refl). clearbody s3. split; [|done]. intros Hinv [Hp Hown].
    apply (new_inv idx b3 s); try done.
    + change (kb_kind b ≠ KMS_BOK_ALIAS). destruct Hk as [(_ & Hk & _)|[_ Hk]]; [congruence|]. destruct (Hk (Hs0 Hp) E). congruence.
    + apply (pool_new_window s s3 idx); try done; [by apply mm_opt|]. rewrite Hi. intros [_ Hkp]. rewrite Hi in Hkp.
      destruct Hk as [(_ & Hk & _)|[_ Hk]]; [change (kb_kind b = KMS_BOK_POOL) in Hkp; congruence|]. by apply (Hk (Hs0 Hp) E).
    + apply (own_new s s3 idx); try done; [by apply mm_opt|..]; unfold slot_bo, in_use; rewrite Hi.
      * intros [_ Hks]. destruct Hk as [(_ & _ & Hk)|[_ Hk]]; [unfold slot_new; rewrite Eu; exact Hk|]. destruct (Hk (Hs0 Hp) E). change (kb_kind b = KMS_BOK_SLOT) in Hks. congruence.
      * intros Hn. rewrite Eu. destruct Hk as [(_ & Hk & _)|[Hk _]]; [by destruct Hn|exact Hk].
      * intros _ Him. change (kb_kind b = KMS_BOK_IMPORT) in Him. destruct Hk as [(_ & Hk & _)|[_ Hk]]; [congruence|]. destruct (Hk (Hs0 Hp) E). congruence.
  - set (s3 := set_kbo idx (λ _, kbo0) s2). assert (kmem s s3) as M3 by (etrans; [exact M|apply kmem_set_kbo]).
    specialize (Hj _ s3 (mm_opt _ _ M3) eq_refl). assert (kb_used (ks_bos s3 idx) = false) as Hi by (unfold s3; by rewrite set_kbo_eq).
    assert (ks_slot_used s3 = ks_slot_used s) as Eu by (destruct Hk as [[? _]|[Hk _]]; [done|exact Hk]).
    assert (ks_fbs s3 = ks_fbs s) as Ef3 by exact Ef. clearbody s3. apply kept_sub; [done| |].
    + apply mem_sub_frame; [by apply mm_opt|done|]. intros j Hu3 _. destruct (decide (j = idx)) as [->|Hne]; [unfold in_use in Hu3; congruence|].
      unfold in_use in *. rewrite Hj in Hu3 |- * by done. done.
    + intros Hinv _. apply (unused_inv on None None idx s); try done. by apply (mm_fb _ _ M3).
Qed.

(** ** Closing a handle, exporting, importing *)
Lemma unref_kept b s : is_bo s b → kb_handle_open (ks_bos s b) = true →
  kept on s (kms_bo_unref b (set_kbo b (λ c, c <| kb_handle_open := false |>) s)).
Proof.
  intros Hb Ho. apply kept_sub.
  - etrans; [|apply kms_bo_unref_mem]. apply kmem_set_kbo.
  - etrans; [|apply kms_bo_unref_sub]. by apply mem_sub_set.
  - intros Hinv _. by apply bo_destroy_inv.
Qed.
Lemma destroy_kept c h s : kept on s (kms_bo_destroy c h s).2.
Proof.
  unfold kms_bo_destroy. destruct (kms_bo_get s c h) as [b|] eqn:E; [|done]. apply bo_get_Some in E as (Hb & Ho & _). by apply unref_kept.
Qed.
Lemma set_view_kept b f s : (∀ c, bview (f c) = bview c) → kept on s (set_kbo b f s).
Proof.
  intros Hf. apply kept_same; [apply kmem_set_kbo|done|done|]. intros j. rewrite set_kbo_at. case_decide; [subst; apply Hf|done].
Qed.
Lemma shown_kept b s : kept on s (kms_import_shown b s).
Proof. unfold kms_import_shown. destruct (kb_imp_shown _); [done|]. by apply set_view_kept. Qed.

Lemma kms_export_Some s id b : bo_by_export s id = Some b → is_bo s b ∧ kb_exported (ks_bos s b) = true ∧ kb_handle (ks_bos s b) = id.
Proof.
  unfold bo_by_export. destruct (id =? 0); [done|]. intros H. apply find_first_Some in H as (Hr & H & _). cbv zeta in H. apply andb_true_iff in H as [H H3].
  apply andb_true_iff in H as [H1 H2]. apply Z.eqb_eq in H3. by split_and!.
Qed.
Lemma alias_kept c rq s : kept on s (import_alias c rq s).2.
Proof.
  unfold import_alias. destruct (bo_by_export s _) as [src|] eqn:E; [|done]. apply kms_export_Some in E as (Hsrc & _). cbv zeta.
  destruct (bool_decide_reflect (kb_kind (ks_bos s src) = KMS_BOK_POOL)) as [Hk|]; [|done]. cbn [negb]. destruct (_ <? _); [done|]. destruct (negb _); [done|].
  destruct (alias_find s c src); [done|]. destruct (bo_slot_free s) as [idx|] eqn:Ei; [|done]. apply bo_slot_free_Some in Ei as [Hr Hu]. cbn [snd].
  set (b := upd kb_imp_mem _ _). set (s1 := s <| ks_next_handle ::= _ |>). set (s2 := set_kbo src _ (set_kbo idx _ s1)). set (s3 := upd ks_aliases_live _ _).
  assert (src ≠ idx) as Hne by (intros ->; destruct Hsrc; congruence).
  assert (ks_bos s3 = ks_bos s2 ∧ ks_fbs s3 = ks_fbs s ∧ ks_slot_used s3 = ks_slot_used s ∧ kmem s s3) as (Eb & Ef & Eu & M) by done.
  assert (∀ j, ks_bos s2 j = if decide (src = j) then ks_bos s src <| kb_refs ::= λ n, u32 (n + 1) |> else if decide (idx = j) then b else ks_bos s j) as Hj.
  { intros j. unfold s2. rewrite set_kbo_at, !set_kbo_at. rewrite (decide_False (P := idx = src)) by congruence. done. }
  clearbody s3 s2. apply kept_sub; [done| |].
  - apply mem_sub_frame; [by apply mm_opt|done|]. intros j. unfold in_use. rewrite Eb, Hj. case_decide as H1; [|case_decide as H2].
    + subst j. intros _ _. split; [apply Hsrc|done].
    + intros _ Hx. by destruct Hx.
    + by split.
  - intros Hinv _. apply (alias_new_inv on None idx src b s); try done.
    + by apply mm_fb.
    + intros j H1 H2. rewrite Eb, Hj. by rewrite !decide_False.
    + by rewrite Eb, Hj, decide_False, decide_True.
    + by rewrite Eb, Hj, decide_True.
Qed.
Lemma import_lookup_kept c rq s : kept on s (kms_import_lookup c rq s).2.
Proof.
  unfold kms_import_lookup. destruct (_ =? KMS_IMPORT_NS_KMSBUF).
  - destruct (_ || _); [done|]. destruct (kms_bo_get s c _) as [i|]; [by destruct (kms_bo_map c _ s)|]. apply alias_kept.
  - destruct (negb _); [done|]. by destruct (import_find s c _ _).
Qed.

Lemma import_install_kept c rq im s : kept on s (kms_import_install c rq im s).2.
Proof.
  assert (∀ s, kept on s (if (Z.of_nat (length (ks_reap s)) <? KMS_MAX_BOS) && (0 <=? im_fd im)
      then s <| ks_reap ::= λ l, l ++ [mkReap (im_fd im) (im_va im) (im_size im) 0 (pi_id rq)] |> else s)) as Hq.
  { intros s0. destruct (_ && _); [|done]. apply kept_same; [by constructor|done|done|done]. }
  unfold kms_import_install. cbv zeta. destruct (import_find s c _ _); [apply Hq|]. destruct (negb _); [apply Hq|].
  destruct (bo_slot_free s) as [idx|] eqn:Ei; [|apply Hq]. apply bo_slot_free_Some in Ei as [Hr Hu]. cbn [snd]. clear Hq.
  set (b := upd kb_imp_why _ _). set (s3 := upd ks_imports_live _ _).
  assert (ks_fbs s3 = ks_fbs s ∧ ks_slot_used s3 = ks_slot_used s ∧ kmem s s3 ∧ ∀ j, ks_bos s3 j = if decide (idx = j) then b else ks_bos s j) as (Ef & Eu & M & Hj0).
  { split_and!; [done|done|done|]. intros j. unfold s3. cbn [ks_bos upd kstat]. apply fn_upd_case. }
  assert (ks_bos s3 idx = b) as Hi by (by rewrite Hj0, decide_True).
  assert (∀ j, j ≠ idx → ks_bos s3 j = ks_bos s j) as Hj by (intros j Hne; by rewrite Hj0, decide_False).
  clearbody s3. split; [|done]. intros Hinv [Hp Hown]. apply (new_inv idx b s); try done.
  - apply (pool_new_window s s3 idx); try done; [by apply mm_opt|]. intros [_ Hx]. by rewrite Hi in Hx.
  - apply (own_new s s3 idx); try done; [by apply mm_opt|..].
    + intros [_ Hx]. by rewrite Hi in Hx.
    + rewrite Hi. by intros _ _.
Qed.

(** ** Framebuffers *)
Lemma fb_unref_kept i s : is_fb s i → kf_user_ref (ks_fbs s i) = true →
  kept on s (kms_fb_unref (Some i) (set_kfb i (λ f, f <| kf_user_ref := false |>) s)).
Proof.
  intros Hi Hu. apply kept_sub.
  - etrans; [|apply fb_unref_mem]. apply kmem_set_kfb.
  - etrans; [|apply fb_unref_sub]. by apply mem_sub_eq.
  - intros Hinv _. apply fb_unref_inv. by apply fb_user_drop_inv.
Qed.
Lemma fb_rm_kept c id s : kept on s (kms_fb_rm c id s).2.
Proof.
  unfold kms_fb_rm. destruct (kms_fb_lookup s id) as [i|] eqn:E; [|done]. apply fb_lookup_Some in E as (Hi & _). cbv zeta.
  destruct (negb (kf_owner _ =? c) || negb (kf_user_ref _)) eqn:Eo; [done|]. apply orb_false_iff in Eo as [_ Eo]. apply negb_false_iff in Eo. by apply fb_unref_kept.
Qed.
Lemma gone_fb_kept c i s : 0 ≤ i < KMS_MAX_FBS → kept on s (gone_fb c i s).
Proof.
  intros Hr. unfold gone_fb. cbv zeta. destruct (kf_used _ && _ && _) eqn:E; [|done]. apply andb_true_iff in E as [E Eu]. apply andb_true_iff in E as [E _].
  by apply fb_unref_kept.
Qed.
Lemma gone_bo_kept c b s : 0 ≤ b < KMS_MAX_BOS → kept on s (gone_bo c b s).
Proof.
  intros Hr. unfold gone_bo. cbv zeta. destruct (kb_used _ && _ && _) eqn:E; [|done]. apply andb_true_iff in E as [E Eu]. apply andb_true_iff in E as [E _].
  by apply unref_kept.
Qed.
Lemma kept_for lo hi f s : (∀ i s, lo ≤ i < hi → kept on s (f i s)) → kept on s (for_ lo hi f s).
Proof. intros H. apply (for_inv (λ s', kept on s s')); [done|]. intros i s1 Hi H1. etrans; [exact H1|by apply H]. Qed.
Lemma reap_kept s : kept on s (kms_reap s).
Proof.
  unfold kms_reap. cbv zeta. set (s1 := s <| ks_reap := [] |>). assert (kept on s s1) as H1 by (apply kept_same; [by constructor|done|done|done]). clearbody s1.
  revert s1 H1. induction (ks_reap s) as [|r l IH]; intros s1 H1; [done|]. cbn [foldl]. apply IH. etrans; [exact H1|]. cbv zeta.
  set (s2 := if negb _ then _ else s1). assert (kaside s1 s2) as H2 by (unfold s2; destruct (negb _); [by apply kaside_emit|done]). clearbody s2.
  apply kept_aside. destruct (_ <=? _); [|done]. etrans; [exact H2|]. by apply kaside_emit.
Qed.

(** Adding a framebuffer takes the next id. *)
Lemma fb_add_kept c rq s :
  0 ≤ af_offset rq < 2 ^ 32 → 0 ≤ af_pitch rq < 2 ^ 32 → 0 ≤ af_height rq < 2 ^ 32 → ks_next_fb s + 1 < 2 ^ 32 →
  let s' := (kms_fb_add c rq s).2 in
  (refs_inv on None None s → mem_inv s → refs_inv on None None s' ∧ mem_inv s') ∧ kside s s'.
Proof.
  intros Hof Hpi Hhe Hroom. cbv zeta. unfold kms_fb_add. destruct (kms_bo_get s c _) as [b|] eqn:E; [|by split]. apply bo_get_Some in E as (Hb & _). cbv zeta.
  destruct (negb (fb_format_ok _)); [by split|]. destruct (is_foreign _ && _); [by split|].
  destruct (negb (af_modifier rq =? KMS_MOD_LINEAR) || _ || _ || _ || (kb_size (ks_bos s b) <? _)) eqn:Ec; [by split|]. apply orb_false_iff in Ec as [Ep Ec]. apply orb_false_iff in Ep as [_ Ep].
  destruct (find_first _ _ _) as [i|] eqn:Ei; [|by split]. apply find_first_Some in Ei as (Hr & Hu & _). apply negb_true_iff in Hu. cbn [snd].
  set (f := mkKFb _ _ _ _ _ _ _ _ _ _ _). set (s1 := s <| ks_next_fb ::= _ |>). set (s3 := set_kbo b _ _).
  assert (mem_sub s s3) as Hps by (etrans; [|by apply mem_sub_set]; by apply mem_sub_eq).
  split; [|done]. intros Hinv Hp. pose proof (ri_next _ _ _ _ Hinv) as Hn. unfold KMS_ID_FB_BASE in Hn. split; [|by apply (mem_inv_sub s)].
  apply (fb_new_inv on i b f s s3); try done.
  - cbn. rewrite u32_small; lia.
  - apply Z.ltb_ge in Ec, Ep. unfold fb_fits, f. cbn. split; [done|]. rewrite (u64_small (af_pitch rq * af_height rq)) in Ec by nia. rewrite u64_small in Ec by nia. nia.
Qed.
End env.
