(* ===== verification/KmsRefCommit.v ===== *)
(** Commits, vblanks and planes going off keep the reference counts exact: a plane holds a
    framebuffer while it shows it, a pending commit while it is about to.  [P] is the set of
    planes whose pending state holds a reference at a point inside an operation. *)
From S2P Require Import Prelude Proto State KmsProto KmsModes KmsState KmsBo KmsEv KmsBackend KmsCommit KmsAside KmsRefs KmsRefOps KmsPool KmsRefKept.

(** ** One slot *)
Lemma holders_upd on f q v : 0 ≤ q < SLOTS → fb_holders (<[q := v]> on) f = fb_holders on f - b2z (on q =? kf_id f) + b2z (v =? kf_id f).
Proof.
  intros Hq. unfold fb_holders. rewrite (countZ_at (λ q, on q =? kf_id f) (λ x, (<[q := v]> on : Z → Z) x =? kf_id f) SLOTS q Hq).
  - by rewrite fn_upd_eq.
  - intros j Hj. by rewrite fn_upd_ne.
Qed.
Lemma slot_set on hb s i q : 0 ≤ q < SLOTS → on q = 0 →
  refs_inv on (Some i) hb s → refs_inv (<[q := kf_id (ks_fbs s i)]> on) None hb s.
Proof.
  intros Hq H0 Hinv. pose proof (ri_hf _ _ _ _ Hinv i eq_refl) as Hi. apply (refs_on_change on _ (Some i) None hb); [| |done|done].
  - intros j Hj. rewrite holders_upd, H0, occ_None by done. pose proof (ri_fb_id _ _ _ _ Hinv j Hj). rewrite (proj2 (Z.eqb_neq 0 _)) by lia. cbn [b2z].
    destruct (Z.eqb_spec (kf_id (ks_fbs s i)) (kf_id (ks_fbs s j))) as [E|E].
    + apply (ri_fb_inj _ _ _ _ Hinv) in E; [|done|done]. subst. rewrite occ_eq. cbn. lia.
    + rewrite occ_ne by (intros ->; done). cbn. lia.
  - intros x Hx. rewrite fn_upd_case. case_decide; [right; by exists i|by apply (ri_on _ _ _ _ Hinv)].
Qed.
Lemma slot_clear on hb s i q : 0 ≤ q < SLOTS → is_fb s i → on q = kf_id (ks_fbs s i) →
  refs_inv on None hb s → refs_inv (<[q := 0]> on) (Some i) hb s.
Proof.
  intros Hq Hi H0 Hinv. apply (refs_on_change on _ None (Some i) hb); [| | |done].
  - intros j Hj. rewrite holders_upd, H0, occ_None by done. pose proof (ri_fb_id _ _ _ _ Hinv j Hj). rewrite (proj2 (Z.eqb_neq 0 _)) by lia. cbn [b2z].
    destruct (Z.eqb_spec (kf_id (ks_fbs s i)) (kf_id (ks_fbs s j))) as [E|E].
    + apply (ri_fb_inj _ _ _ _ Hinv) in E; [|done|done]. subst. rewrite occ_eq. cbn. lia.
    + rewrite occ_ne by (intros ->; done). cbn. lia.
  - intros x Hx. rewrite fn_upd_case. case_decide; [by left|by apply (ri_on _ _ _ _ Hinv)].
  - by intros j [= <-].
Qed.
Lemma slot_move on hf hb s p q : 0 ≤ p < SLOTS → 0 ≤ q < SLOTS → p ≠ q → on p = 0 →
  refs_inv on hf hb s → refs_inv (<[p := on q]> (<[q := 0]> on)) hf hb s.
Proof.
  intros Hp Hq Hne H0 Hinv. apply (refs_on_change on _ hf hf hb); [| |apply Hinv|done].
  - intros j Hj. rewrite !holders_upd by done. rewrite fn_upd_ne, H0 by done. lia.
  - intros x Hx. rewrite !fn_upd_case. case_decide; [by apply (ri_on _ _ _ _ Hinv)|]. case_decide; [by left|by apply (ri_on _ _ _ _ Hinv)].
Qed.

(** ** The CRTC's slots *)
Definition one_crtc (s : kms_srv_t) : Prop := op_ncrtc (ks_opt s) = 1 ∧ cs_idx (ks_crtc s 0) = 0.
Definition refs_at (P : Z → bool) (s : kms_srv_t) : Prop := refs_inv (slots_of (ks_crtc s 0) P) None None s ∧ mem_inv s.
Definition with_p (P : Z → bool) (p : Z) : Z → bool := <[p := true]> P.
Definition without_p (P : Z → bool) (p : Z) : Z → bool := <[p := false]> P.

Lemma slots_cur c P p : 0 ≤ p < KMS_PLANES_PER_CRTC → slots_of c P p = fb_id (cs_cur c p).
Proof. intros H. unfold slots_of. by rewrite (proj2 (Z.ltb_lt _ _)) by lia. Qed.
Lemma slots_pst c P p : 0 ≤ p → slots_of c P (KMS_PLANES_PER_CRTC + p) = if P p then fb_id (cs_pst c p) else 0.
Proof.
  intros H. unfold slots_of. rewrite (proj2 (Z.ltb_ge _ _)) by lia. by replace (KMS_PLANES_PER_CRTC + p - KMS_PLANES_PER_CRTC) with p by lia.
Qed.
Lemma slots_split q : 0 ≤ q < SLOTS → 0 ≤ q < KMS_PLANES_PER_CRTC ∨ ∃ p, 0 ≤ p < KMS_PLANES_PER_CRTC ∧ q = KMS_PLANES_PER_CRTC + p.
Proof. intros H. unfold SLOTS, KMS_PLANES_PER_CRTC in *. destruct (decide (q < 8)); [left; lia|right]. exists (q - 8). lia. Qed.
(** Two descriptions of what the planes hold agree when they do plane by plane. *)
Lemma slots_ext c (P : Z → bool) (on : Z → Z) : (∀ p, 0 ≤ p < KMS_PLANES_PER_CRTC → fb_id (cs_cur c p) = on p) →
  (∀ p, 0 ≤ p < KMS_PLANES_PER_CRTC → (if P p then fb_id (cs_pst c p) else 0) = on (KMS_PLANES_PER_CRTC + p)) →
  ∀ q, 0 ≤ q < SLOTS → slots_of c P q = on q.
Proof.
  intros H1 H2 q Hq. destruct (slots_split q Hq) as [Hp|(p & Hp & ->)]; [rewrite slots_cur by done; by apply H1|].
  rewrite slots_pst by lia. by apply H2.
Qed.

Lemma refs_at_ext P P' s s' : (∀ p, 0 ≤ p < KMS_PLANES_PER_CRTC → P' p = P p) →
  (∀ p, 0 ≤ p < KMS_PLANES_PER_CRTC → fb_id (cs_cur (ks_crtc s' 0) p) = fb_id (cs_cur (ks_crtc s 0) p)) →
  (∀ p, 0 ≤ p < KMS_PLANES_PER_CRTC → P p = true → fb_id (cs_pst (ks_crtc s' 0) p) = fb_id (cs_pst (ks_crtc s 0) p)) →
  ks_fbs s' = ks_fbs s → ks_next_fb s' = ks_next_fb s → (∀ b, bview (ks_bos s' b) = bview (ks_bos s b)) → ks_opt s' = ks_opt s →
  ks_slot_used s' = ks_slot_used s →
  refs_at P s → refs_at P' s'.
Proof.
  intros HP Hc Hpst Hf Hn Hb Ho Hsu [Hinv Hp]. split.
  - apply (refs_on_ext (slots_of (ks_crtc s 0) P)).
    + apply slots_ext; intros p H; [rewrite slots_cur by done; auto|]. rewrite slots_pst by lia. rewrite HP by done. destruct (P p) eqn:E; [auto|done].
    + by apply (refs_frame _ _ _ s).
  - apply (mem_inv_sub s); [|done]. apply mem_sub_frame; [done|done|]. intros b Hu _. destruct (bview_eq _ _ (Hb b)) as (Eu & _).
    split; [unfold in_use in *; congruence|]. by apply bview_fixed.
Qed.
(** Steps that leave the planes alone. *)
Lemma refs_at_kept P s s' : ks_crtc s' = ks_crtc s → ((refs_inv (slots_of (ks_crtc s 0) P) None None s → mem_inv s →
  refs_inv (slots_of (ks_crtc s 0) P) None None s' ∧ mem_inv s')) → refs_at P s → refs_at P s'.
Proof. intros Hc H [H1 H2]. unfold refs_at. rewrite Hc. auto. Qed.
Lemma refs_at_aside P s s' : kaside s s' → refs_at P s → refs_at P s'.
Proof. intros H. apply refs_at_kept; [by apply as_crtc|]. apply (kept_aside _ s s' H). Qed.
Lemma set_crtc_eq f s : ks_crtc (set_crtc 0 f s) 0 = f (ks_crtc s 0).
Proof. apply fn_upd_eq. Qed.
(** An update of the CRTC that keeps what the planes show. *)
Lemma refs_at_crtc P f s : (∀ c, cs_cur (f c) = cs_cur c) → (∀ c, cs_pst (f c) = cs_pst c) → refs_at P s → refs_at P (set_crtc 0 f s).
Proof. intros H1 H2. apply refs_at_ext; try done; intros p _; rewrite set_crtc_eq, ?H1, ?H2; done. Qed.

Section env.
Context `{K : KEnv}.

(** ** Taking planes into a commit *)
Lemma refs_take P p st s : 0 ≤ p < KMS_PLANES_PER_CRTC → P p = false →
  (fb_id st = 0 ∨ ∃ i, kms_fb_lookup s (fb_id st) = Some i) →
  refs_at P s → refs_at (with_p P p) (kms_fb_ref (kms_fb_lookup s (fb_id st)) (set_crtc 0 (λ c, c <| cs_pst ::= λ a, <[p := st]> a |>) s)).
Proof.
  intros Hp HP Hst [Hinv Hpool]. set (s1 := set_crtc 0 _ s). set (on := slots_of (ks_crtc s 0) P).
  assert (ks_crtc s1 0 = ks_crtc s 0 <| cs_pst ::= λ a, <[p := st]> a |>) as Ec by (unfold s1; by rewrite set_crtc_eq).
  assert (0 ≤ KMS_PLANES_PER_CRTC + p < SLOTS) as Hq by (unfold SLOTS, KMS_PLANES_PER_CRTC in *; lia).
  assert (on (KMS_PLANES_PER_CRTC + p) = 0) as H0 by (unfold on; rewrite slots_pst by lia; by rewrite HP).
  assert (∀ q, 0 ≤ q < SLOTS → slots_of (ks_crtc s1 0) (with_p P p) q = (<[KMS_PLANES_PER_CRTC + p := fb_id st]> on : Z → Z) q) as Hsl.
  { apply slots_ext; rewrite Ec; intros x Hx.
    - rewrite fn_upd_ne by lia. unfold on. by rewrite slots_cur.
    - unfold with_p. cbn [cs_pst upd eta eta_crtc]. rewrite !fn_upd_case. destruct (decide (p = x)) as [->|Hne]; [by rewrite decide_True|].
      rewrite decide_False by lia. unfold on. rewrite slots_pst by lia. done. }
  assert (refs_inv on None None s1) as Hinv1 by (by apply (refs_frame on None None s)).
  destruct Hst as [E|(i & E)].
  - rewrite E in *. cbn [kms_fb_ref]. rewrite fb_lookup_0. split; [|apply (mem_inv_sub s); [by apply mem_sub_eq|done]].
    apply (refs_on_ext on); [|done]. intros q Hq'. rewrite Hsl by done. rewrite fn_upd_case. by case_decide; [subst|].
  - rewrite E. pose proof (fb_lookup_Some _ _ _ E) as (Hi & Hid & _). assert (is_fb s1 i) as Hi1 by done.
    split; [|apply (mem_inv_sub s); [by apply mem_sub_eq|done]]. change (ks_crtc (kms_fb_ref (Some i) s1) 0) with (ks_crtc s1 0).
    apply (refs_on_ext (<[KMS_PLANES_PER_CRTC + p := kf_id (ks_fbs (kms_fb_ref (Some i) s1) i)]> on)).
    + intros q Hq'. rewrite Hsl by done. rewrite !fn_upd_case. case_decide; [|done]. unfold kms_fb_ref. rewrite set_kfb_eq. cbn. by rewrite <- Hid.
    + apply slot_set; [done|done|]. by apply fb_ref_inv.
Qed.

Lemma take_plane_kept P p st s : 0 ≤ p < KMS_PLANES_PER_CRTC → P p = false → (fb_id st = 0 ∨ ∃ i, kms_fb_lookup s (fb_id st) = Some i) →
  refs_at P s → refs_at (with_p P p) (take_plane 0 s (p, st)).
Proof.
  intros Hp HP Hst H. unfold take_plane. cbv zeta. set (st' := st <| crtc_id := _ |>).
  change (kms_fb_lookup (set_crtc 0 (λ c, c <| cs_pst ::= λ a, <[p := st']> a |>) s) (fb_id st)) with (kms_fb_lookup s (fb_id st')). by apply refs_take.
Qed.

Lemma carry_plane_kept P carry p s : 0 ≤ p < KMS_PLANES_PER_CRTC → P p = false → refs_at P s →
  refs_at (if Z.testbit carry p then with_p P p else P) (carry_plane 0 carry p s).
Proof.
  intros Hp HP H. unfold carry_plane. destruct (Z.testbit carry p); [|done]. cbn [negb]. cbv zeta. set (off := plane0 <| plane_id := _ |>).
  destruct (kms_fb_lookup s (fb_id (cs_cur (ks_crtc s 0) p))) as [i|] eqn:E.
  - destruct (be_check _ _ _ _ _ =? 0).
    + rewrite <- E. apply refs_take; [done|done|right; by exists i|done].
    + pose proof (refs_take P p off s Hp HP (or_introl eq_refl) H) as G. rewrite fb_lookup_0 in G. exact G.
  - pose proof (refs_take P p off s Hp HP (or_introl eq_refl) H) as G. rewrite fb_lookup_0 in G. exact G.
Qed.

(** ** Pending references given back or moved to the screen *)
Lemma lookup_set_crtc f s id : kms_fb_lookup (set_crtc 0 f s) id = kms_fb_lookup s id.
Proof. done. Qed.
Lemma refs_drop P s q on' : 0 ≤ q < SLOTS → (∀ x, 0 ≤ x < SLOTS → on' x = if decide (q = x) then 0 else slots_of (ks_crtc s 0) P x) →
  refs_inv (slots_of (ks_crtc s 0) P) None None s → refs_inv on' None None (kms_fb_unref (kms_fb_lookup s (slots_of (ks_crtc s 0) P q)) s).
Proof.
  intros Hq Hon Hinv. set (on := slots_of (ks_crtc s 0) P) in *. destruct (fb_lookup_on _ _ _ _ q Hinv Hq) as [[-> E]|(i & -> & Hi & E)].
  - cbn [kms_fb_unref]. apply (refs_on_ext on); [|done]. intros x Hx. rewrite Hon by done. case_decide; [subst; by rewrite E|done].
  - apply fb_unref_inv. apply (refs_on_ext (<[q := 0]> on)).
    + intros x Hx. rewrite Hon, fn_upd_case by done. by case_decide.
    + by apply slot_clear.
Qed.
Lemma unref_crtc fb s : ks_crtc (kms_fb_unref fb s) = ks_crtc s.
Proof. apply (mm_crtc _ _ (fb_unref_mem fb s)). Qed.

Lemma drop_pending_kept P p s : 0 ≤ p < KMS_PLANES_PER_CRTC → P p = Z.testbit (cs_pmask (ks_crtc s 0)) p → refs_at P s →
  refs_at (without_p P p) (drop_pending 0 p s).
Proof.
  intros Hp HP [Hinv Hpool]. unfold drop_pending. cbv zeta. rewrite <- HP. destruct (P p) eqn:EP.
  - assert (0 ≤ KMS_PLANES_PER_CRTC + p < SLOTS) as Hq by (unfold SLOTS, KMS_PLANES_PER_CRTC in *; lia). split.
    + rewrite unref_crtc. assert (fb_id (cs_pst (ks_crtc s 0) p) = slots_of (ks_crtc s 0) P (KMS_PLANES_PER_CRTC + p)) as -> by (rewrite slots_pst by lia; by rewrite EP).
      apply (refs_drop P s (KMS_PLANES_PER_CRTC + p)); [done| |done]. apply slots_ext; intros x Hx; (case_decide; [|]); try lia.
      * by rewrite slots_cur.
      * unfold without_p. rewrite fn_upd_case. by rewrite decide_True by lia.
      * unfold without_p. rewrite fn_upd_ne by lia. by rewrite slots_pst by lia.
    + apply (mem_inv_sub s); [apply fb_unref_sub|done].
  - apply (refs_at_ext P _ s s); try done. intros x Hx. unfold without_p. rewrite fn_upd_case. by case_decide; [subst|].
Qed.

Lemma complete_plane_kept P p s : 0 ≤ p < KMS_PLANES_PER_CRTC → P p = Z.testbit (cs_pmask (ks_crtc s 0)) p → refs_at P s →
  refs_at (without_p P p) (complete_plane 0 p s).
Proof.
  intros Hp HP [Hinv Hpool]. unfold complete_plane. cbv zeta. rewrite <- HP. destruct (P p) eqn:EP; cbn [negb].
  2:{ apply (refs_at_ext P _ s s); try done. intros x Hx. unfold without_p. rewrite fn_upd_case. by case_decide; [subst|]. }
  set (s1 := set_crtc 0 _ s). set (on := slots_of (ks_crtc s 0) P) in *. assert (0 ≤ p < SLOTS) as Hps by (unfold SLOTS, KMS_PLANES_PER_CRTC in *; lia).
  assert (0 ≤ KMS_PLANES_PER_CRTC + p < SLOTS) as Hq by (unfold SLOTS, KMS_PLANES_PER_CRTC in *; lia).
  assert (ks_crtc s1 0 = ks_crtc s 0 <| cs_cur ::= λ a, <[p := cs_pst (ks_crtc s 0) p]> a |>) as Ec by (unfold s1; by rewrite set_crtc_eq).
  assert (on p = fb_id (cs_cur (ks_crtc s 0) p)) as Eon by (unfold on; by rewrite slots_cur).
  assert (∀ on0, on0 p = 0 → (∀ x, x ≠ p → on0 x = on x) → ∀ q, 0 ≤ q < SLOTS →
    slots_of (ks_crtc s1 0) (without_p P p) q = (<[p := on0 (KMS_PLANES_PER_CRTC + p)]> (<[KMS_PLANES_PER_CRTC + p := 0]> on0) : Z → Z) q) as Hsl.
  { intros on0 H0 Hx0. apply slots_ext; rewrite Ec; intros x Hx; cbn [cs_cur cs_pst upd eta eta_crtc].
    - rewrite !fn_upd_case. destruct (decide (p = x)) as [->|Hne].
      + rewrite Hx0 by (unfold KMS_PLANES_PER_CRTC in *; lia). unfold on. rewrite slots_pst by lia. by rewrite EP.
      + rewrite decide_False by lia. rewrite Hx0 by congruence. unfold on. by rewrite slots_cur.
    - unfold without_p. rewrite !fn_upd_case. rewrite (decide_False (P := p = KMS_PLANES_PER_CRTC + x)) by lia.
      destruct (decide (p = x)) as [->|Hne]; [by rewrite decide_True|]. rewrite decide_False by lia.
      rewrite Hx0 by lia. unfold on. by rewrite slots_pst by lia. }
  assert (refs_inv on None None s1) as Hinv1 by (by apply (refs_frame on None None s)).
  split.
  - rewrite unref_crtc. destruct (fb_lookup_on _ _ _ _ p Hinv Hps) as [[El E]|(i & El & Hi & E)]; rewrite Eon in El; rewrite El.
    + cbn [kms_fb_unref]. apply (refs_on_ext _ _ _ _ _ (Hsl on E (λ x _, eq_refl))). apply slot_move; [done|done|unfold KMS_PLANES_PER_CRTC; lia|exact E|done].
    + apply fb_unref_inv. assert (∀ x, x ≠ p → (<[p := 0]> on : Z → Z) x = on x) as Hx0 by (intros x Hx; by rewrite fn_upd_ne).
      apply (refs_on_ext _ _ _ _ _ (Hsl (<[p := 0]> on) (fn_upd_eq _ _ _) Hx0)).
      apply slot_move; [done|done|unfold KMS_PLANES_PER_CRTC; lia|apply fn_upd_eq|]. by apply slot_clear.
  - apply (mem_inv_sub s1); [apply fb_unref_sub|]. apply (mem_inv_sub s); [by apply mem_sub_eq|done].
Qed.

Lemma off_shown_kept P p s : 0 ≤ p < KMS_PLANES_PER_CRTC → refs_at P s →
  refs_at P (kms_fb_unref (kms_fb_lookup s (fb_id (cs_cur (ks_crtc s 0) p))) (set_crtc 0 (λ c, c <| cs_cur ::= λ a, <[p := plane0]> a |>) s)).
Proof.
  intros Hp [Hinv Hpool]. set (s1 := set_crtc 0 _ s). set (on := slots_of (ks_crtc s 0) P) in *. assert (0 ≤ p < SLOTS) as Hps by (unfold SLOTS, KMS_PLANES_PER_CRTC in *; lia).
  assert (ks_crtc s1 0 = ks_crtc s 0 <| cs_cur ::= λ a, <[p := plane0]> a |>) as Ec by (unfold s1; by rewrite set_crtc_eq).
  assert (on p = fb_id (cs_cur (ks_crtc s 0) p)) as Eon by (unfold on; by rewrite slots_cur).
  assert (∀ q, 0 ≤ q < SLOTS → slots_of (ks_crtc s1 0) P q = (<[p := 0]> on : Z → Z) q) as Hsl.
  { apply slots_ext; rewrite Ec; intros x Hx; cbn [cs_cur cs_pst upd eta eta_crtc].
    - rewrite !fn_upd_case. case_decide; [done|]. unfold on. by rewrite slots_cur.
    - rewrite fn_upd_ne by lia. unfold on. by rewrite slots_pst by lia. }
  assert (refs_inv on None None s1) as Hinv1 by (by apply (refs_frame on None None s)). rewrite <- Eon. split.
  - rewrite unref_crtc. apply (refs_on_ext (<[p := 0]> on)); [exact Hsl|]. destruct (fb_lookup_on _ _ _ _ p Hinv Hps) as [[-> E]|(i & -> & Hi & E)].
    + cbn [kms_fb_unref]. apply (refs_on_ext on); [|done]. intros x Hx. rewrite fn_upd_case. by case_decide; [subst|].
    + apply fb_unref_inv. by apply slot_clear.
  - apply (mem_inv_sub s1); [apply fb_unref_sub|]. apply (mem_inv_sub s); [by apply mem_sub_eq|done].
Qed.
End env.
