(* ===== verification/KmsRefFlip.v ===== *)
(** Whole display operations keep the reference counts exact: handing a commit over,
    completing it at a vblank, accepting one, taking planes off, a client's death. *)
From S2P Require Import Prelude Proto State KmsProto KmsModes KmsState KmsBo KmsEv KmsBackend KmsCommit KmsAside KmsRefs KmsRefOps KmsPool KmsRefKept KmsRefCommit.

Definition refs_ok (s : kms_srv_t) : Prop := refs_at (pending_planes (ks_crtc s 0)) s.

Lemma pending_idle c p : cs_pend c = KMS_PEND_NONE → pending_planes c p = false.
Proof. intros E. unfold pending_planes. by rewrite bool_decide_true. Qed.
Lemma pending_busy c p : cs_pend c ≠ KMS_PEND_NONE → pending_planes c p = Z.testbit (cs_pmask c) p.
Proof. intros E. unfold pending_planes. by rewrite bool_decide_false. Qed.
Lemma refs_ok_aside s s' : kaside s s' → refs_ok s → refs_ok s'.
Proof. intros H. unfold refs_ok. rewrite (as_crtc _ _ H). by apply refs_at_aside. Qed.
Lemma refs_ok_kept s s' : (∀ on, kept on s s') → refs_ok s → refs_ok s'.
Proof.
  intros H. assert (ks_crtc s' = ks_crtc s) as Hc by (by apply mm_crtc; destruct (H (λ _, 0))). unfold refs_ok. rewrite Hc. apply refs_at_kept; [done|]. apply H.
Qed.
(** An update of the CRTC that keeps what the planes show and will show. *)
Lemma refs_ok_crtc f s : (∀ c, cs_cur (f c) = cs_cur c) → (∀ c, cs_pst (f c) = cs_pst c) →
  (∀ p, 0 ≤ p < KMS_PLANES_PER_CRTC → pending_planes (f (ks_crtc s 0)) p = pending_planes (ks_crtc s 0) p) → refs_ok s → refs_ok (set_crtc 0 f s).
Proof.
  intros H1 H2 Hp H. unfold refs_ok. rewrite set_crtc_eq. apply (refs_at_ext (pending_planes (ks_crtc s 0)) _ s); try done;
    intros p Hr; rewrite set_crtc_eq, ?H1, ?H2; done.
Qed.
(** Deliveries change clients, counters and the log only. *)
Record kdeliver (s s' : kms_srv_t) : Prop := mkDeliver {
  dl_opt : ks_opt s' = ks_opt s; dl_crtc : ks_crtc s' = ks_crtc s; dl_bos : ks_bos s' = ks_bos s; dl_fbs : ks_fbs s' = ks_fbs s;
  dl_blobs : ks_blobs s' = ks_blobs s; dl_fb : ks_next_fb s' = ks_next_fb s; dl_reap : ks_reap s' = ks_reap s; dl_slot : ks_slot_used s' = ks_slot_used s;
  dl_parked : ks_parked s' = ks_parked s; dl_nparked : ks_nparked s' = ks_nparked s; dl_vblev : ks_vblev s' = ks_vblev s;
  dl_quit : ks_quit s' = ks_quit s; dl_said : k_replies s' = k_replies s }.
#[export] Instance kdeliver_pre : PreOrder kdeliver.
Proof. split; [by intros ?; constructor|]. intros a b c [] []. constructor; congruence. Qed.
Lemma kdeliver_emit e s : kreply_of e = None → kdeliver s (kms_emit e s).
Proof. intros H. constructor; try done. by apply omap_app_none. Qed.
Lemma kdeliver_client i f s : kdeliver s (set_kclient i f s).
Proof. by constructor. Qed.
Lemma kdeliver_stat f s : kdeliver s (kstat f s).
Proof. by constructor. Qed.
Lemma ev_push_frame id ev s : kdeliver s (ev_push id ev s).
Proof.
  unfold ev_push. destruct (kms_client_get s id) as [i|]; [|done]. cbv zeta. destruct (_ <=? _).
  - etrans; [apply kdeliver_client|apply kdeliver_stat].
  - set (s1 := kstat _ _). assert (kdeliver s s1) as H1 by (etrans; [apply kdeliver_client|apply kdeliver_stat]). clearbody s1.
    destruct (op_poll_notify _); [|done]. etrans; [exact H1|]. by apply kdeliver_emit.
Qed.
Lemma ev_vblank_frame id ty cr u seq cnt s : kdeliver s (ev_vblank id ty cr u seq cnt s).
Proof. unfold ev_vblank. cbv zeta. destruct (_ =? _); apply ev_push_frame. Qed.
Lemma refs_ok_same s s' : ks_opt s' = ks_opt s → ks_crtc s' = ks_crtc s → ks_bos s' = ks_bos s → ks_fbs s' = ks_fbs s → ks_next_fb s' = ks_next_fb s → ks_slot_used s' = ks_slot_used s →
  refs_ok s → refs_ok s'.
Proof.
  intros Ho Hc Hb Hf Hn Hu. unfold refs_ok. rewrite Hc. apply refs_at_ext; try done; try (by rewrite Hc). intros b. by rewrite Hb.
Qed.

Section env.
Context `{K : KEnv}.

(** ** Handing a commit over *)
Record same_planes (s s' : kms_srv_t) : Prop := mkSame {
  sp_plane : kplane s s'; sp_crtc : ks_crtc s' = ks_crtc s; sp_fbs : ks_fbs s' = ks_fbs s; sp_fb : ks_next_fb s' = ks_next_fb s;
  sp_slot : ks_slot_used s' = ks_slot_used s;
  sp_bos b : bview (ks_bos s' b) = bview (ks_bos s b) ∧ kb_owner (ks_bos s' b) = kb_owner (ks_bos s b) }.
#[local] Instance same_pre : PreOrder same_planes.
Proof.
  split; [by intros s; constructor|]. intros a b c [] []. constructor; try congruence; [by etrans|]. intros x. destruct (sp_bos0 x), (sp_bos1 x). split; congruence.
Qed.
Lemma same_aside s s' : kaside s s' → same_planes s s'.
Proof. intros H. constructor; [by apply kplane_aside|by apply as_crtc|by apply as_fbs|by apply as_fb|by apply as_slot|]. intros b. by rewrite (as_bos _ _ H). Qed.
Lemma same_apply_plane p lat s : same_planes s (apply_plane 0 p (lat, s)).2.
Proof.
  unfold apply_plane. cbv zeta. destruct (negb _); [done|]. set (fb := kms_fb_lookup s _).
  pose proof (aside_apply (ks_crtc s 0) p (cs_pst (ks_crtc s 0) p) (show s fb) s) as H. destruct (be_apply _ _ _ _ s) as [[rc l] s1]. cbn [snd] in H.
  set (s2 := match fb with Some _ => _ | None => s1 end). assert (same_planes s1 s2) as H2.
  { unfold s2. destruct fb as [i|]; [|done]. destruct (_ && _); [|done]. unfold kms_import_shown. destruct (kb_imp_shown _); [done|].
    constructor; try done. intros b. rewrite set_kbo_at. by case_decide; [subst|]. }
  clearbody s2. etrans; [by apply same_aside|]. etrans; [exact H2|]. cbn [snd]. destruct (negb _); [|done]. apply same_aside, kaside_stat.
Qed.

(** What an attempt to hand the commit over leaves: the same planes, armed or waiting. *)
Record tried (armed : bool) (s s' : kms_srv_t) : Prop := mkTried {
  tr_armed : armed = negb (bool_decide (cs_pend (ks_crtc s' 0) = KMS_PEND_FENCE)) && negb (bool_decide (cs_pend (ks_crtc s' 0) = KMS_PEND_NONE));
  tr_plane : kplane s s'; tr_fbs : ks_fbs s' = ks_fbs s; tr_fb : ks_next_fb s' = ks_next_fb s; tr_slot : ks_slot_used s' = ks_slot_used s;
  tr_bos b : bview (ks_bos s' b) = bview (ks_bos s b) ∧ kb_owner (ks_bos s' b) = kb_owner (ks_bos s b);
  tr_crtc : ks_crtc s' = ks_crtc s ∨ cs_pend (ks_crtc s 0) = KMS_PEND_FENCE ∧ ∃ now s0, ks_opt s0 = ks_opt s ∧
    ks_crtc s' 0 = ks_crtc s 0 <| cs_parmed_cnt := now |> <| cs_pend := KMS_PEND_ARMED |> <| cs_ptarget_seq := target_of s0 (ks_crtc s 0) now |> }.
Lemma tried_same armed s s' : same_planes s s' →
  armed = negb (bool_decide (cs_pend (ks_crtc s 0) = KMS_PEND_FENCE)) && negb (bool_decide (cs_pend (ks_crtc s 0) = KMS_PEND_NONE)) → tried armed s s'.
Proof. intros [] ->. constructor; try done; [by rewrite sp_crtc0|by left]. Qed.
Lemma try_apply_tried s : tried (kms_try_apply 0 s).1 s (kms_try_apply 0 s).2.
Proof.
  destruct (kms_try_apply 0 s) as [b s'] eqn:E. cbn [fst snd]. revert E. unfold kms_try_apply. cbv zeta.
  destruct (cs_pend (ks_crtc s 0)) eqn:Ep; [by intros [= <- <-]; apply tried_same; [|rewrite Ep]|..|by intros [= <- <-]; apply tried_same; [|rewrite Ep]].
  pose proof (aside_fences (seqZ 0 KMS_PLANES_PER_CRTC) (ks_crtc s 0) s) as H1. destruct (fences_signaled _ _ s) as [ok s1]. cbn [snd] in H1.
  destruct ok; cbn [negb]; [|by intros [= <- <-]; apply tried_same; [apply same_aside|rewrite Ep]].
  set (r := for_ 0 _ (apply_plane 0) _). assert (same_planes s r.2) as H2.
  { etrans; [by apply same_aside|]. etrans; [apply same_aside, aside_console_update|]. unfold r. apply (for_inv (λ st, same_planes (console_update s1) st.2)); [done|].
    intros p [l s3] _ H3. etrans; [exact H3|]. apply same_apply_plane. }
  clearbody r. destruct r as [maxlat s2]. cbn [snd] in H2. unfold kms_cnt. cbv beta iota. set (now := u64 _). set (s3 := kms_tick s2).
  assert (same_planes s s3) as H3 by (etrans; [exact H2|]; apply same_aside, kaside_tick). clearbody now s3.
  set (f := λ c : kms_crtc_state_t, _). set (s4 := set_crtc 0 f s3).
  assert (ks_crtc s4 0 = f (ks_crtc s 0)) as Ec by (unfold s4; rewrite set_crtc_eq; by rewrite (sp_crtc _ _ H3)).
  set (s5 := upd ks_fst _ s4). set (s6 := if _ <? _ then _ else s5). set (s7 := kstat _ s6).
  assert (kaside s4 s7) as H7 by (etrans; [|apply kaside_stat]; unfold s6; destruct (_ <? _); by constructor). clearbody s7.
  assert (ks_crtc s7 0 = f (ks_crtc s 0)) as Ec7 by (by rewrite (as_crtc _ _ H7)). intros [= <- <-]. constructor.
  - by rewrite Ec7.
  - etrans; [apply (sp_plane _ _ H3)|]. etrans; [|by apply kplane_aside]. by apply kplane_crtc.
  - rewrite (as_fbs _ _ H7). apply (sp_fbs _ _ H3).
  - rewrite (as_fb _ _ H7). apply (sp_fb _ _ H3).
  - rewrite (as_slot _ _ H7). apply (sp_slot _ _ H3).
  - intros b. rewrite (as_bos _ _ H7). apply (sp_bos _ _ H3).
  - right. split; [done|]. exists now, s3. split; [apply (kp_opt _ _ (sp_plane _ _ H3))|]. rewrite Ec7. unfold f. by rewrite (sp_crtc _ _ H3).
Qed.
Lemma tried_pending armed s s' : tried armed s s' →
  cs_cur (ks_crtc s' 0) = cs_cur (ks_crtc s 0) ∧ cs_pst (ks_crtc s' 0) = cs_pst (ks_crtc s 0) ∧ cs_pmask (ks_crtc s' 0) = cs_pmask (ks_crtc s 0) ∧
  ∀ p, pending_planes (ks_crtc s' 0) p = pending_planes (ks_crtc s 0) p.
Proof.
  intros H. destruct (tr_crtc _ _ _ H) as [->|(Ep & now & s0 & _ & ->)]; [done|]. split_and!; [done|done|done|]. intros p. unfold pending_planes.
  cbn [cs_pend cs_pmask upd eta eta_crtc]. by rewrite Ep.
Qed.
Lemma try_apply_kept s : refs_ok s → refs_ok (kms_try_apply 0 s).2.
Proof.
  intros H. pose proof (try_apply_tried s) as T. set (s' := (kms_try_apply 0 s).2) in *. clearbody s'. destruct (tried_pending _ _ _ T) as (H1 & H2 & _ & H3).
  unfold refs_ok. apply (refs_at_ext (pending_planes (ks_crtc s 0)) _ s); try done; try (by intros; rewrite ?H1, ?H2).
  - apply (tr_fbs _ _ _ T).
  - apply (tr_fb _ _ _ T).
  - intros b. apply (tr_bos _ _ _ T).
  - apply (kp_opt _ _ (tr_plane _ _ _ T)).
  - apply (tr_slot _ _ _ T).
Qed.

(** ** Completing it *)
(** The CRTC but for what its planes show and will show. *)
Definition shell (c : kms_crtc_state_t) : kms_crtc_state_t := c <| cs_cur := λ _, plane0 |> <| cs_pst := λ _, plane0 |>.
Lemma shell_field {A} (g : kms_crtc_state_t → A) c c' : (∀ c, g (shell c) = g c) → shell c' = shell c → g c' = g c.
Proof. intros H E. by rewrite <- (H c), <- (H c'), E. Qed.
Record pstep (s s' : kms_srv_t) : Prop := mkPstep { ps_plane : kplane s s'; ps_shell : shell (ks_crtc s' 0) = shell (ks_crtc s 0) }.
#[export] Instance pstep_pre : PreOrder pstep.
Proof. split; [by intros s; constructor|]. intros a b c [] []. constructor; [by etrans|congruence]. Qed.
Lemma pstep_crtc f s : (∀ c, shell (f c) = shell c) → pstep s (set_crtc 0 f s).
Proof.
  intros H. constructor; [|rewrite set_crtc_eq; apply H].
  apply kplane_crtc. intros c. by split_and!; [apply (shell_field cs_seq)|apply (shell_field cs_idx)|apply (shell_field cs_last_vbl_cnt)].
Qed.
Lemma pstep_unref fb s : pstep s (kms_fb_unref fb s).
Proof. constructor; [apply kside_plane, kmem_side, fb_unref_mem|by rewrite unref_crtc]. Qed.
Lemma pstep_ref fb s : pstep s (kms_fb_ref fb s).
Proof. by destruct fb. Qed.
Lemma pstep_for lo hi f s : (∀ p s, pstep s (f p s)) → pstep s (for_ lo hi f s).
Proof. intros H. apply (for_inv (λ s', pstep s s')); [done|]. intros i s1 _ H1. etrans; [exact H1|apply H]. Qed.
Lemma pmask_pstep s s' : pstep s s' → cs_pmask (ks_crtc s' 0) = cs_pmask (ks_crtc s 0).
Proof. intros []. by apply (shell_field cs_pmask). Qed.
Lemma pstep_complete p s : pstep s (complete_plane 0 p s).
Proof. unfold complete_plane. cbv zeta. destruct (negb _); [done|]. etrans; [|apply pstep_unref]. by apply pstep_crtc. Qed.
Lemma pstep_drop p s : pstep s (drop_pending 0 p s).
Proof. unfold drop_pending. cbv zeta. destruct (Z.testbit _ p); [|done]. apply pstep_unref. Qed.

(** A walk over the planes that gives up each pending reference in turn leaves none. *)
Lemma planes_loop f s :
  (∀ P p s, 0 ≤ p < KMS_PLANES_PER_CRTC → P p = Z.testbit (cs_pmask (ks_crtc s 0)) p → refs_at P s → refs_at (without_p P p) (f p s)) →
  (∀ p s, pstep s (f p s)) → refs_at (Z.testbit (cs_pmask (ks_crtc s 0))) s →
  refs_at (λ _, false) (for_ 0 KMS_PLANES_PER_CRTC f s).
Proof.
  set (P0 := Z.testbit _). intros Hf Hk H.
  pose proof (for_ind (λ k s', refs_at (λ p, (k <=? p) && P0 p) s' ∧ pstep s s') 0 KMS_PLANES_PER_CRTC f s) as L.
  change (Z.max 0 KMS_PLANES_PER_CRTC) with KMS_PLANES_PER_CRTC in L. destruct L as (L1 & L2).
  - split; [|done]. apply (refs_at_ext P0 _ s s); try done. intros p Hp. by rewrite (proj2 (Z.leb_le 0 p)) by lia.
  - intros p s1 Hp (H1 & H2). split; [|etrans; [exact H2|apply Hk]].
    apply (refs_at_ext (without_p (λ x, (p <=? x) && P0 x) p) _ (f p s1)); try done.
    + intros x Hx. unfold without_p. rewrite fn_upd_case. case_decide as Hd; [subst|].
      * by rewrite (proj2 (Z.leb_gt _ _)) by lia.
      * f_equal. destruct (Z.leb_spec (p + 1) x), (Z.leb_spec p x); try done; lia.
    + apply Hf; [done| |done]. rewrite Z.leb_refl. cbn [andb]. by rewrite (pmask_pstep _ _ H2).
  - revert L1. generalize (for_ 0 KMS_PLANES_PER_CRTC f s). intros s' L1. eapply refs_at_ext; [| | | | | | | |exact L1]; try done.
    intros p Hp. cbv beta. by rewrite (proj2 (Z.leb_gt _ _)) by lia.
Qed.
Lemma refs_busy s : cs_pend (ks_crtc s 0) ≠ KMS_PEND_NONE → refs_ok s → refs_at (Z.testbit (cs_pmask (ks_crtc s 0))) s.
Proof. intros Hp. apply refs_at_ext; try done. intros p _. by rewrite pending_busy. Qed.
Lemma refs_idle f s : (∀ c, cs_cur (f c) = cs_cur c) → (∀ c, cs_pend (f c) = KMS_PEND_NONE) → refs_at (λ _, false) s → refs_ok (set_crtc 0 f s).
Proof.
  intros Hc Hp. apply refs_at_ext; try done.
  - intros p _. rewrite set_crtc_eq. by apply pending_idle.
  - intros p _. by rewrite set_crtc_eq, Hc.
Qed.

Lemma refs_deliver P s s' : kdeliver s s' → refs_at P s → refs_at P s'.
Proof. intros []. apply refs_at_ext; try done; try (by rewrite dl_crtc0). intros b. by rewrite dl_bos0. Qed.

Lemma complete_kept cnt s : cs_pend (ks_crtc s 0) ≠ KMS_PEND_NONE → refs_ok s → refs_ok (complete 0 cnt s).
Proof.
  intros Hp H. unfold complete. set (s1 := for_ 0 _ _ s).
  assert (refs_at (λ _, false) s1) as H1. { apply planes_loop; [apply complete_plane_kept|apply pstep_complete|by apply refs_busy]. }
  clearbody s1. cbv zeta. set (s2 := if cs_pevent _ then _ else s1).
  assert (refs_at (λ _, false) s2) as H2. { unfold s2. destruct (cs_pevent _); [|done]. by apply (refs_deliver _ s1); [apply ev_vblank_frame|]. }
  clearbody s2. set (s3 := set_crtc 0 _ s2). assert (refs_ok s3) as H3 by (by apply refs_idle). clearbody s3.
  eapply refs_ok_aside; [apply aside_console_update|]. by apply (refs_ok_same s3).
Qed.
End env.
