(* ===== verification/KmsRefReq.v ===== *)
(** Requests on the display keep the reference counts exact: mode changes, commits, planes
    going off, a client's death, a vblank. *)
From S2P Require Import Prelude Proto State KmsProto KmsModes KmsState KmsBo KmsEv KmsBackend KmsCommit KmsFw KmsMain KmsVblank KmsAside KmsRefs KmsRefOps KmsPool KmsRefKept KmsRefCommit KmsRefFlip.

(** ** Steps that leave what is held as it is *)
Record same_held (s s' : kms_srv_t) : Prop := mkHeld {
  sh_opt : ks_opt s' = ks_opt s; sh_fbs : ks_fbs s' = ks_fbs s; sh_fb : ks_next_fb s' = ks_next_fb s; sh_slot : ks_slot_used s' = ks_slot_used s;
  sh_bos b : bview (ks_bos s' b) = bview (ks_bos s b);
  sh_cur : cs_cur (ks_crtc s' 0) = cs_cur (ks_crtc s 0); sh_pst : cs_pst (ks_crtc s' 0) = cs_pst (ks_crtc s 0);
  sh_pend : cs_pend (ks_crtc s' 0) = cs_pend (ks_crtc s 0); sh_pmask : cs_pmask (ks_crtc s' 0) = cs_pmask (ks_crtc s 0);
  sh_target : cs_ptarget_seq (ks_crtc s' 0) = cs_ptarget_seq (ks_crtc s 0); sh_seq : cs_seq (ks_crtc s' 0) = cs_seq (ks_crtc s 0) }.
#[export] Instance same_held_pre : PreOrder same_held.
Proof. split; [by intros ?; constructor|]. intros a b c [] []. constructor; congruence. Qed.
Lemma held_refs_at P s s' : same_held s s' → refs_at P s → refs_at P s'.
Proof. intros []. apply refs_at_ext; try done; intros; congruence. Qed.
Lemma held_aside s s' : kaside s s' → same_held s s'.
Proof. intros []. constructor; try done; try (by rewrite as_crtc). intros b. by rewrite as_bos. Qed.
Lemma held_deliver s s' : kdeliver s s' → same_held s s'.
Proof. intros []. constructor; try done; try (by rewrite dl_crtc). intros b. by rewrite dl_bos. Qed.
Lemma held_for lo hi f s : (∀ i s, same_held s (f i s)) → same_held s (for_ lo hi f s).
Proof. intros H. apply (for_inv (λ s', same_held s s')); [done|]. intros i s1 _ H1. etrans; [exact H1|apply H]. Qed.

(** What is held stays, and clients, parked requests, queued events and the count too. *)
Definition quiet (s s' : kms_srv_t) : Prop := same_held s s' ∧ kplane s s'.
#[export] Instance quiet_pre : PreOrder quiet.
Proof. split; [by intros s; split|]. intros a b c [H1 E1] [H2 E2]. split; by etrans. Qed.
Lemma quiet_aside s s' : kaside s s' → quiet s s'.
Proof. intros H. split; [by apply held_aside|by apply kplane_aside]. Qed.
Definition crtc_quiet (f : kms_crtc_state_t → kms_crtc_state_t) : Prop := ∀ c,
  cs_cur (f c) = cs_cur c ∧ cs_pst (f c) = cs_pst c ∧ cs_pend (f c) = cs_pend c ∧ cs_pmask (f c) = cs_pmask c ∧
  cs_seq (f c) = cs_seq c ∧ cs_idx (f c) = cs_idx c ∧ cs_last_vbl_cnt (f c) = cs_last_vbl_cnt c ∧ cs_ptarget_seq (f c) = cs_ptarget_seq c.
Lemma quiet_crtc f s : crtc_quiet f → quiet s (set_crtc 0 f s).
Proof. intros H. destruct (H (ks_crtc s 0)) as (? & ? & ? & ? & ? & ? & ? & ?). split; constructor; try done; by rewrite set_crtc_eq. Qed.
Lemma quiet_for lo hi f s : (∀ i s, quiet s (f i s)) → quiet s (for_ lo hi f s).
Proof. intros H. apply (for_inv (λ s', quiet s s')); [done|]. intros i s1 _ H1. etrans; [exact H1|apply H]. Qed.
Lemma quiet_blob i f s : quiet s (set_kblob i f s).
Proof. split; by constructor. Qed.
Lemma quiet_create o d s : quiet s (kms_blob_create o d s).2.
Proof. unfold kms_blob_create. destruct (_ <? _); [done|]. by destruct (find_first _ _ _). Qed.

(** An armed commit is due at one of the next two vblanks. *)
Definition armed_ok (s : kms_srv_t) : Prop :=
  cs_pend (ks_crtc s 0) = KMS_PEND_ARMED → cs_seq (ks_crtc s 0) < cs_ptarget_seq (ks_crtc s 0) ≤ cs_seq (ks_crtc s 0) + 2.
Definition sound (s : kms_srv_t) : Prop := refs_ok s ∧ armed_ok s.
Lemma armed_not s : cs_pend (ks_crtc s 0) ≠ KMS_PEND_ARMED → armed_ok s.
Proof. by intros H ?. Qed.
Lemma armed_same s s' : cs_pend (ks_crtc s' 0) = cs_pend (ks_crtc s 0) → cs_ptarget_seq (ks_crtc s' 0) = cs_ptarget_seq (ks_crtc s 0) →
  cs_seq (ks_crtc s' 0) = cs_seq (ks_crtc s 0) → armed_ok s → armed_ok s'.
Proof. unfold armed_ok. by intros -> -> ->. Qed.
Lemma armed_crtc s s' : ks_crtc s' = ks_crtc s → armed_ok s → armed_ok s'.
Proof. unfold armed_ok. by intros ->. Qed.
Lemma armed_shell s s' : shell (ks_crtc s' 0) = shell (ks_crtc s 0) → armed_ok s → armed_ok s'.
Proof. intros H. apply armed_same; [by apply (shell_field cs_pend)|by apply (shell_field cs_ptarget_seq)|by apply (shell_field cs_seq)]. Qed.
Lemma tried_armed armed s s' : tried armed s s' → armed_ok s → armed_ok s'.
Proof.
  intros T. destruct (tr_crtc _ _ _ T) as [E|(_ & now & s0 & _ & E)]; [by apply armed_crtc|]. intros _ _. rewrite E. cbn [cs_seq cs_ptarget_seq upd eta eta_crtc].
  unfold target_of. cbv zeta. destruct (_ <? _); lia.
Qed.

(** The invariant is kept, the options fixed. *)
Definition keeps (s s' : kms_srv_t) : Prop := (sound s → sound s') ∧ ks_opt s' = ks_opt s.
#[export] Instance keeps_pre : PreOrder keeps.
Proof. split; [by intros s; split|]. intros a b c [H1 E1] [H2 E2]. split; [auto|congruence]. Qed.
Lemma sound_held s s' : same_held s s' → sound s → sound s'.
Proof.
  intros H [Hr Ha]. split; [|revert Ha; apply armed_same; apply H]. unfold refs_ok. apply (refs_at_ext (pending_planes (ks_crtc s 0)) _ s); try done; try apply H.
  - intros p _. unfold pending_planes. by rewrite (sh_pend _ _ H), (sh_pmask _ _ H).
  - intros p _. by rewrite (sh_cur _ _ H).
  - intros p _ _. by rewrite (sh_pst _ _ H).
Qed.
Lemma keeps_held s s' : same_held s s' → keeps s s'.
Proof. intros H. split; [by apply sound_held|apply H]. Qed.
Lemma keeps_aside s s' : kaside s s' → keeps s s'.
Proof. intros H. by apply keeps_held, held_aside. Qed.
Lemma sound_kept s s' : (∀ on, kept on s s') → sound s → sound s'.
Proof. intros H [Hr Ha]. split; [by apply (refs_ok_kept s)|]. revert Ha. apply armed_crtc. destruct (H (λ _, 0)) as [_ M]. apply (mm_crtc _ _ M). Qed.
Lemma keeps_kept s s' : (∀ on, kept on s s') → keeps s s'.
Proof. intros H. split; [by apply sound_kept|]. destruct (H (λ _, 0)) as [_ M]. apply (mm_opt _ _ M). Qed.
(** The same for the operations that leave the requests and the vblank count alone. *)
Definition planed (s s' : kms_srv_t) : Prop := (sound s → sound s') ∧ kplane s s'.
#[export] Instance planed_pre : PreOrder planed.
Proof. split; [by intros s; split|]. intros a b c [H1 E1] [H2 E2]. split; [auto|by etrans]. Qed.
Lemma planed_keeps s s' : planed s s' → keeps s s'.
Proof. intros [H []]. by split. Qed.
Lemma planed_quiet s s' : quiet s s' → planed s s'.
Proof. intros [H1 H2]. split; [by apply sound_held|done]. Qed.
Lemma planed_aside s s' : kaside s s' → planed s s'.
Proof. intros H. by apply planed_quiet, quiet_aside. Qed.
Lemma planed_for {A} lo hi (f : Z → A → A) (g : A → kms_srv_t) a : (∀ i a, lo ≤ i < hi → planed (g a) (g (f i a))) → planed (g a) (g (for_ lo hi f a)).
Proof. intros H. apply (for_inv (λ a', planed (g a) (g a'))); [done|]. intros i s1 Hi H1. etrans; [exact H1|by apply H]. Qed.

(** ** Modes *)
Lemma quiet_umode_set uw uh cl s : quiet s (umode_set 0 uw uh cl s).
Proof.
  unfold umode_set. cbv zeta. set (s1 := set_crtc 0 _ s). assert (quiet s s1) as H1 by (by apply quiet_crtc). clearbody s1.
  destruct (negb _); [|done]. set (mi := modeinfo_bytes _).
  assert (quiet s (let '(id, s) := kms_blob_create 0 mi s1 in set_crtc 0 (λ c, c <| cs_umode_blob := id |>) s)) as H2.
  { pose proof (quiet_create 0 mi s1) as H. destruct (kms_blob_create 0 mi s1) as [id s2]. cbn [snd] in H. etrans; [exact H1|]. etrans; [exact H|]. by apply quiet_crtc. }
  destruct (kms_blob_get _ _); [|done]. destruct (_ =? _); [|done]. etrans; [exact H1|apply quiet_blob].
Qed.

Section env.
Context `{K : KEnv}.

Lemma aside_reapply p s : kaside s (reapply_cur 0 p s).
Proof. unfold reapply_cur. cbv zeta. destruct (kms_fb_lookup _ _); [|done]. apply aside_apply. Qed.
Lemma quiet_umode_native s : quiet s (umode_native 0 s).
Proof.
  unfold umode_native. destruct (_ =? 0); [done|]. etrans; [apply (quiet_umode_set 0 0 0)|]. etrans; [|apply quiet_aside, aside_console_update].
  apply quiet_for. intros i s1. apply quiet_aside, aside_reapply.
Qed.

(** ** Planes going off *)
Lemma off_plane_kept cl fb p st : 0 ≤ p < KMS_PLANES_PER_CRTC → planed st.2 (off_plane 0 cl fb p st).2.
Proof.
  intros Hp. destruct st as [n s]. unfold off_plane. cbv zeta. destruct (kms_fb_lookup s _) as [i|] eqn:El; [|done]. destruct (if negb (fb =? 0) then _ else _); [done|]. cbn [snd].
  pose proof (aside_apply (ks_crtc s 0) p plane0 None s) as Ha. destruct (be_apply _ _ _ _ s) as [r s1]. cbn [snd] in *. etrans; [by apply planed_aside|].
  assert (kms_fb_lookup s1 (fb_id (cs_cur (ks_crtc s1 0) p)) = Some i) as <-.
  { rewrite (as_crtc _ _ Ha). rewrite <- El. unfold kms_fb_lookup. by rewrite (as_fbs _ _ Ha). }
  split.
  - intros [H A]. split.
    + pose proof (off_shown_kept _ p s1 Hp H) as G. unfold refs_ok. rewrite unref_crtc, set_crtc_eq. exact G.
    + revert A. apply armed_shell. by rewrite unref_crtc, set_crtc_eq.
  - etrans; [|apply pstep_unref]. by apply kplane_crtc.
Qed.
Lemma planes_off_kept cl fb s : planed s (planes_off 0 cl fb s).2.
Proof.
  unfold planes_off. pose proof (planed_for 0 KMS_PLANES_PER_CRTC (off_plane 0 cl fb) snd (0, s)) as H.
  destruct (for_ 0 _ _ _) as [n s1]. cbn [snd] in *. etrans; [apply H; intros i a Hi; by apply off_plane_kept|].
  etrans; [|apply planed_aside, aside_console_update]. destruct (negb _); [|done]. apply planed_quiet, quiet_umode_native.
Qed.

(** ** Accepting a commit *)
Lemma commit_planes_spec c sts mask m' idx : commit_planes c sts mask = inr (m', idx) →
  length idx = length sts ∧ NoDup idx ∧ (∀ p, p ∈ idx → 0 ≤ p < KMS_PLANES_PER_CRTC ∧ Z.testbit mask p = false) ∧
  ∀ p, 0 ≤ p → Z.testbit m' p = Z.testbit mask p || bool_decide (p ∈ idx).
Proof.
  revert mask m' idx. induction sts as [|st sts IH]; intros mask m' idx; cbn [commit_planes].
  - intros [= <- <-]. split_and!; [done|constructor|by intros p ?%elem_of_nil|]. intros p _. by rewrite bool_decide_false, orb_false_r by apply not_elem_of_nil.
  - destruct (plane_idx c _) as [p|] eqn:Ep; [|done]. destruct (Z.testbit mask p) eqn:Em; [done|].
    destruct (commit_planes c sts _) as [e|[m idx']] eqn:Ec; [done|]. intros [= -> <-]. apply IH in Ec as (H1 & H2 & H3 & H4).
    unfold plane_idx in Ep. apply find_first_Some in Ep as (Hp & _ & _). split_and!.
    + cbn. by rewrite H1.
    + constructor; [|done]. intros Hin. destruct (H3 p Hin) as [_ Hb]. rewrite Z.setbit_eq in Hb by lia. done.
    + intros q [->|Hq]%elem_of_cons; [done|]. destruct (H3 q Hq) as [Hr Hb]. split; [done|]. rewrite Z.setbit_eqb in Hb by lia. by apply orb_false_iff in Hb as [_ Hb].
    + intros q Hq. rewrite H4, Z.setbit_eqb by lia. destruct (Z.eqb_spec p q) as [->|Hne]; cbn [orb].
      * symmetry. rewrite bool_decide_true by (by left). by rewrite orb_true_r.
      * f_equal. apply bool_decide_ext. rewrite elem_of_cons. split; [by right|]. by intros [->|].
Qed.
Lemma validate_all_ok cl s c l : validate_all cl s c l = 0 → ∀ x, x ∈ l → fb_id x.2 = 0 ∨ ∃ i, kms_fb_lookup s (fb_id x.2) = Some i.
Proof.
  induction l as [|[p st] l IH]; intros H x; [by intros ?%elem_of_nil|]. cbn [validate_all] in H. cbv zeta in H.
  destruct (Z.eqb_spec (validate cl s c p st) 0) as [E|E]; cbn [negb] in H; [|done].
  intros [->|Hx]%elem_of_cons; [|by apply IH]. cbn. unfold validate in E. destruct (Z.eqb_spec (fb_id st) 0); [by left|]. right.
  destruct (kms_fb_lookup s (fb_id st)) as [i|]; [by exists i|done].
Qed.
Lemma find_first_ext p q lo hi : (∀ i, lo ≤ i < hi → p i = q i) → find_first p lo hi = find_first q lo hi.
Proof.
  intros H. destruct (find_first p lo hi) as [i|] eqn:Ep, (find_first q lo hi) as [j|] eqn:Eq; [..|done].
  - apply find_first_Some in Ep as (H1 & H2 & H3), Eq as (G1 & G2 & G3). f_equal. destruct (Z.lt_trichotomy i j) as [Hl|[?|Hl]]; [|done|].
    + rewrite H, G3 in H2 by lia. done.
    + rewrite <- H, H3 in G2 by lia. done.
  - apply find_first_Some in Ep as (H1 & H2 & _). rewrite H, (find_first_None _ _ _ Eq) in H2 by lia. done.
  - apply find_first_Some in Eq as (H1 & H2 & _). rewrite <- H, (find_first_None _ _ _ Ep) in H2 by lia. done.
Qed.
Lemma ref_lookup fb s id : kms_fb_lookup (kms_fb_ref fb s) id = kms_fb_lookup s id.
Proof.
  destruct fb as [i|]; [|done]. unfold kms_fb_lookup, kms_fb_ref. destruct (id =? 0); [done|]. apply find_first_ext. intros j _. rewrite set_kfb_at. by case_decide; [subst|].
Qed.
Lemma take_plane_lookup x s id : kms_fb_lookup (take_plane 0 s x) id = kms_fb_lookup s id.
Proof. destruct x as [p st]. unfold take_plane. cbv zeta. by rewrite ref_lookup. Qed.
Lemma take_planes_kept l : ∀ P s, NoDup l.*1 → (∀ x, x ∈ l → 0 ≤ x.1 < KMS_PLANES_PER_CRTC ∧ P x.1 = false ∧ (fb_id x.2 = 0 ∨ ∃ i, kms_fb_lookup s (fb_id x.2) = Some i)) →
  refs_at P s → refs_at (λ p, P p || bool_decide (p ∈ l.*1)) (foldl (take_plane 0) s l).
Proof.
  induction l as [|x l IH]; intros P s Hn Hl H; cbn [foldl].
  - apply (refs_at_ext P _ s s); try done. intros p _. cbn. by rewrite bool_decide_false, orb_false_r by apply not_elem_of_nil.
  - apply NoDup_cons in Hn as [Hx Hn]. destruct (Hl x) as (H1 & H2 & H3); [by left|]. destruct x as [p st]. cbn [fst snd] in *.
    pose proof (take_plane_kept P p st s H1 H2 H3 H) as Hs. pose proof (take_plane_lookup (p, st) s) as Hlk. revert Hs Hlk. generalize (take_plane 0 s (p, st)). intros s1 Hs Hlk.
    apply (refs_at_ext (λ q, with_p P p q || bool_decide (q ∈ l.*1)) _ (foldl (take_plane 0) s1 l)); try done.
    + intros q _. change (((p, st) :: l).*1) with (p :: l.*1). unfold with_p. rewrite fn_upd_case. case_decide as Hd; [subst|].
      * rewrite (bool_decide_true (q ∈ q :: _)) by (by left). by rewrite orb_true_r.
      * f_equal. apply bool_decide_ext. rewrite elem_of_cons. split; [|by right]. by intros [->|].
    + apply IH; [done| |done]. intros y Hy. destruct (Hl y) as (G1 & G2 & G3); [by right|]. split; [done|]. rewrite Hlk. split; [|done].
      unfold with_p. rewrite fn_upd_ne; [done|]. intros E. apply Hx. rewrite E. by apply list_elem_of_fmap_2.
Qed.
Lemma carry_planes_kept P carry s : (∀ p, 0 ≤ p < KMS_PLANES_PER_CRTC → Z.testbit carry p = true → P p = false) → refs_at P s →
  refs_at (λ p, P p || Z.testbit carry p) (for_ 0 KMS_PLANES_PER_CRTC (carry_plane 0 carry) s).
Proof.
  intros Hc H. pose proof (for_ind (λ k s', refs_at (λ q, P q || ((q <? k) && Z.testbit carry q)) s') 0 KMS_PLANES_PER_CRTC (carry_plane 0 carry) s) as L.
  change (Z.max 0 KMS_PLANES_PER_CRTC) with KMS_PLANES_PER_CRTC in L. revert L. generalize (for_ 0 KMS_PLANES_PER_CRTC (carry_plane 0 carry) s). intros s' L.
  eapply refs_at_ext; [..|apply L]; try done.
  - intros p Hp. cbv beta. by rewrite (proj2 (Z.ltb_lt _ _)) by lia.
  - apply (refs_at_ext P _ s s); try done. intros p Hp. rewrite (proj2 (Z.ltb_ge _ _)) by lia. by rewrite orb_false_r.
  - intros p s1 Hp H1. pose proof (carry_plane_kept (λ q, P q || ((q <? p) && Z.testbit carry q)) carry p s1 Hp) as G. cbv beta in G.
    rewrite Z.ltb_irrefl in G. cbn [andb] in G. rewrite orb_false_r in G. destruct (Z.testbit carry p) eqn:E.
    + specialize (G (Hc p Hp E) H1). eapply refs_at_ext; [..|exact G]; try done.
      intros x Hx. cbv beta. unfold with_p. rewrite fn_upd_case. case_decide as Hd; [subst; rewrite (proj2 (Z.ltb_lt _ _)), E by lia; by rewrite orb_true_r|].
      f_equal. f_equal. destruct (Z.ltb_spec x (p + 1)), (Z.ltb_spec x p); try done; lia.
    + unfold carry_plane. rewrite E. cbn [negb]. eapply refs_at_ext; [..|exact H1]; try done.
      intros x Hx. cbv beta. f_equal. destruct (decide (x = p)) as [->|Hne]; [by rewrite E, !andb_false_r|]. f_equal.
      destruct (Z.ltb_spec x (p + 1)), (Z.ltb_spec x p); try done; lia.
Qed.
End env.

(** ** The dispatch loop

    The rest of the requests, the vblank and the dispatch loop keep the reference counts
    exact: whatever the server does to its objects and planes, it counts right. *)
Lemma pstep_foldl {A} (f : kms_srv_t → A → kms_srv_t) l s : (∀ s x, pstep s (f s x)) → pstep s (foldl f s l).
Proof. intros H. revert s. induction l as [|x l IH]; intros s; [done|]. cbn [foldl]. etrans; [apply H|apply IH]. Qed.

Section env.
Context `{K : KEnv}.

Lemma pstep_take s x : pstep s (take_plane 0 s x).
Proof. destruct x as [p st]. unfold take_plane. cbv zeta. etrans; [|apply pstep_ref]. by apply pstep_crtc. Qed.
Lemma pstep_carry carry p s : pstep s (carry_plane 0 carry p s).
Proof.
  unfold carry_plane. destruct (negb _); [done|]. cbv zeta. set (ok := match kms_fb_lookup s _ with Some _ => _ | None => false end).
  set (s1 := set_crtc 0 _ s). assert (pstep s s1) as H1 by (by apply pstep_crtc). clearbody ok s1. destruct ok; [|done]. etrans; [exact H1|apply pstep_ref].
Qed.

Lemma commit_accept_kept cl l mask carry flags user nm m s :
  cs_pend (ks_crtc s 0) = KMS_PEND_NONE → NoDup l.*1 →
  (∀ x, x ∈ l → 0 ≤ x.1 < KMS_PLANES_PER_CRTC ∧ (fb_id x.2 = 0 ∨ ∃ i, kms_fb_lookup s (fb_id x.2) = Some i)) →
  (∀ p, 0 ≤ p < KMS_PLANES_PER_CRTC → Z.testbit mask p = bool_decide (p ∈ l.*1)) →
  (∀ p, 0 ≤ p < KMS_PLANES_PER_CRTC → Z.testbit carry p = true → Z.testbit mask p = false) →
  planed s (commit_accept cl 0 l mask carry flags user nm m s).2.
Proof.
  intros Hp Hn Hl Hm Hc. unfold commit_accept.
  set (s2 := foldl _ s l). assert (pstep s s2) as S2 by (apply pstep_foldl, pstep_take).
  set (s3 := for_ 0 _ _ s2). assert (pstep s2 s3) as S3 by (apply pstep_for, pstep_carry).
  assert (refs_ok s → refs_at (λ p, Z.testbit mask p || Z.testbit carry p) s3) as H3.
  { intros H. assert (refs_at (λ _, false) s) as H1.
    { revert H. apply refs_at_ext; try done. intros p _. by rewrite pending_idle. }
    assert (refs_at (λ p, false || bool_decide (p ∈ l.*1)) s2) as H2.
    { apply take_planes_kept; [done| |done]. intros x Hx. destruct (Hl x Hx) as [G1 G2]. by split_and!; try apply G1. }
    assert (∀ p, 0 ≤ p < KMS_PLANES_PER_CRTC → Z.testbit carry p = true → false || bool_decide (p ∈ l.*1) = false) as Hc2.
    { intros p Hpr Ht. cbn [orb]. rewrite <- Hm by done. by apply Hc. }
    pose proof (carry_planes_kept _ carry s2 Hc2 H2) as H3. eapply refs_at_ext; [..|exact H3]; try done.
    intros p Hpr. cbv beta. cbn [orb]. by rewrite Hm. }
  clearbody s3. clearbody s2. set (s4 := if mode_moves _ _ then _ else _). assert (quiet s3 s4) as Q4.
  { unfold s4. destruct (mode_moves _ _); [apply quiet_umode_set|]. destruct nm; [|done]. destruct (negb _); [|done]. by apply quiet_crtc. }
  clearbody s4. unfold kms_cnt. cbv beta iota zeta. set (now := u64 _). set (f := λ c : kms_crtc_state_t, _). set (s5 := set_crtc 0 f (kms_tick s4)).
  assert (kplane s s5) as K5.
  { etrans; [apply S2|]. etrans; [apply S3|]. etrans; [apply Q4|]. etrans; [apply kplane_aside, kaside_tick|]. by apply kplane_crtc. }
  assert (armed_ok s5) as A5 by (apply armed_not; unfold s5; by rewrite set_crtc_eq).
  assert (refs_ok s → refs_ok s5) as R5.
  { intros H. specialize (H3 H). apply (held_refs_at _ s3 s4) in H3; [|apply Q4]. unfold refs_ok, s5. rewrite set_crtc_eq.
    eapply refs_at_ext; [..|exact H3]; try done; intros p Hpr; try (by rewrite set_crtc_eq). rewrite pending_busy by done.
    unfold f. cbn [cs_pmask upd eta eta_crtc]. apply Z.lor_spec. }
  clearbody s5. pose proof (try_apply_tried s5) as T. pose proof (try_apply_kept s5) as TK. destruct (kms_try_apply 0 s5) as [armed s6]. cbn [fst snd] in *.
  assert (planed s s6) as P6. { split; [intros [H _]; split; [auto|by eapply tried_armed]|]. etrans; [exact K5|]. apply (tr_plane _ _ _ T). }
  destruct armed; cbn [snd]; [done|]. etrans; [exact P6|]. apply planed_aside. set (s7 := kstat _ s6 <| ks_fst; fs_deferred ::= _ |>).
  assert (kaside s6 s7) as H7 by done. clearbody s7. destruct (negb _); [|done]. etrans; [exact H7|]. etrans; [|by apply kaside_emit]. done.
Qed.
Lemma carry_mask c mask p : 0 ≤ p →
  Z.testbit (for_ 0 KMS_PLANES_PER_CRTC (λ p carry, if negb (Z.testbit mask p) && negb (fb_id (cs_cur c p) =? 0) then Z.setbit carry p else carry) 0) p = true →
  Z.testbit mask p = false.
Proof.
  intros Hp. apply (for_inv (λ carry, Z.testbit carry p = true → Z.testbit mask p = false)); [by rewrite Z.bits_0|]. intros i carry Hi IH.
  destruct (Z.testbit mask i) eqn:E; [done|]. cbn [negb andb]. destruct (negb _); [|done]. rewrite Z.setbit_eqb by lia.
  destruct (Z.eqb_spec i p) as [->|]; [done|]. exact IH.
Qed.

Lemma commit_fit_quiet m s : quiet s (commit_fit 0 m s).
Proof. unfold commit_fit. destruct (mode_moves _ _); [by apply quiet_crtc|done]. Qed.
Lemma commit_fit_same m s : let s' := commit_fit 0 m s in
  cs_pend (ks_crtc s' 0) = cs_pend (ks_crtc s 0) ∧ (∃ fit, ks_crtc s' 0 = ks_crtc s 0 <| cs_fit := fit |>) ∧
  ∀ id, kms_fb_lookup s' id = kms_fb_lookup s id.
Proof.
  cbv zeta. unfold commit_fit. destruct (mode_moves _ _); [|split_and!; try done; exists (cs_fit (ks_crtc s 0)); by destruct (ks_crtc s 0)].
  rewrite set_crtc_eq. split_and!; try done. by eexists.
Qed.

Lemma commit_kept cl sts flags user nm s : planed s (commit cl 0 sts flags user nm s).2.
Proof.
  unfold commit. destruct (_ <? _); [done|]. cbv zeta. destruct (commit_planes _ sts 0) as [e|[mask idx]] eqn:Ec; [done|].
  apply commit_planes_spec in Ec as (Hlen & Hnd & Hidx & Hmask). set (l := zip idx sts). set (m := commit_mode _ _ _).
  pose proof (commit_fit_quiet m s) as Q1. pose proof (commit_fit_same m s) as (Hp1 & _ & Hlk).
  set (s1 := commit_fit 0 m s) in *. clearbody s1. assert (∀ f, planed s (set_crtc 0 (λ d, d <| cs_fit := f |>) s1)) as Hback.
  { intros f. etrans; [by apply planed_quiet|]. by apply planed_quiet, quiet_crtc. }
  set (carry := if mode_moves _ _ then for_ _ _ _ _ else 0).
  destruct (Z.eqb_spec (validate_all cl s1 (ks_crtc s1 0) l) 0) as [Ev|]; cbn [negb]; [|apply Hback]. destruct (has _ _); [apply Hback|].
  destruct (bool_decide_reflect (cs_pend (ks_crtc s 0) = KMS_PEND_NONE)) as [Hp|]; cbn [negb]; [|apply Hback]. rewrite <- Hp1 in Hp.
  assert (l.*1 = idx) as El by (unfold l; rewrite fst_zip; [done|by rewrite Hlen]).
  pose proof (commit_accept_kept cl l mask carry flags user nm m s1 Hp) as H. destruct (commit_accept _ _ _ _ _ _ _ _ _ _) as [out s']. cbn [snd] in *.
  etrans; [by apply planed_quiet|]. apply H; rewrite ?El.
  - done.
  - intros x Hx. split; [|by apply (validate_all_ok cl s1 (ks_crtc s1 0) l)]. apply Hidx. rewrite <- El. by apply list_elem_of_fmap_2.
  - intros p Hpr. by rewrite Hmask, Z.bits_0 by lia.
  - intros p Hpr. unfold carry. destruct (mode_moves _ _); [apply carry_mask; lia|by rewrite Z.bits_0].
Qed.

(** ** A client's death *)
Lemma complete_quietly cnt s : cs_pevent (ks_crtc s 0) = false → kplane s (complete 0 cnt s).
Proof.
  intros He. unfold complete. set (s1 := for_ 0 _ _ s). assert (pstep s s1) as H1 by (apply pstep_for, pstep_complete). clearbody s1. cbv zeta.
  assert (cs_pevent (ks_crtc s1 0) = false) as -> by (rewrite <- He; apply (shell_field cs_pevent); [done|apply H1]).
  etrans; [apply H1|]. etrans; [|apply kplane_aside, aside_console_update].
  set (s2 := set_crtc 0 _ s1). assert (kplane s1 s2) as H2 by (by apply kplane_crtc). clearbody s2. etrans; [exact H2|]. by apply kplane_aside.
Qed.
Lemma complete_pend cnt s : cs_pend (ks_crtc (complete 0 cnt s) 0) = KMS_PEND_NONE.
Proof.
  unfold complete. cbv zeta. set (s1 := for_ 0 _ _ s). set (s2 := if cs_pevent _ then _ else s1). clearbody s2. rewrite (as_crtc _ _ (aside_console_update _)).
  change (ks_crtc (count_flip ?k ?x)) with (ks_crtc x). change (ks_crtc (kstat ?f ?x)) with (ks_crtc x). by rewrite set_crtc_eq.
Qed.
Lemma close_commit_kept id s : planed s (close_commit id s).
Proof.
  unfold close_commit. cbv zeta. destruct (negb _); [done|]. destruct (cs_pend (ks_crtc s 0)) eqn:Ep; [done|..].
  - split.
    + intros [H _]. split; [|apply armed_not; by rewrite set_crtc_eq]. apply refs_idle; [done|done|]. apply planes_loop; [apply drop_pending_kept|apply pstep_drop|]. apply refs_busy; [by rewrite Ep|done].
    + etrans; [apply pstep_for, pstep_drop|]. by apply kplane_crtc.
  - set (s1 := set_crtc 0 _ s). assert (quiet s s1) as H1 by (by apply quiet_crtc).
    assert (cs_pevent (ks_crtc s1 0) = false ∧ cs_pend (ks_crtc s1 0) = KMS_PEND_ARMED) as [E1 E2] by (unfold s1; by rewrite set_crtc_eq).
    clearbody s1. unfold kms_cnt. cbv beta iota zeta. set (s2 := kms_tick s1). assert (quiet s s2) as H2 by (etrans; [exact H1|apply quiet_aside, kaside_tick]).
    assert (ks_crtc s2 = ks_crtc s1) as E3 by done. clearbody s2. split.
    + intros H. apply (sound_held s s2) in H as [H _]; [|apply H2]. split; [apply complete_kept; [by rewrite E3, E2|done]|]. apply armed_not. by rewrite complete_pend.
    + etrans; [apply H2|]. apply complete_quietly. by rewrite E3.
Qed.
Lemma planed_kept s s' : (∀ on, kept on s s') → planed s s'.
Proof. intros H. split; [by apply sound_kept|]. destruct (H (λ _, 0)) as [_ M]. by apply kside_plane, kmem_side. Qed.
Lemma gone_kept cl s : planed s (kms_bo_client_gone cl s).
Proof.
  unfold kms_bo_client_gone. cbv zeta. etrans; [|apply planed_quiet, quiet_for; intros i s1; unfold gone_blob; cbv zeta; destruct (_ && _); [apply quiet_blob|done]].
  apply planed_kept. intros on. etrans; apply kept_for; intros i s1 Hi; [by apply gone_fb_kept|by apply gone_bo_kept].
Qed.
End env.
