(* ===== verification/KmsReach.v ===== *)
(** What the display server can reach: its steps (messages in any order, what happens while
    an import is mapped, turns of the vblank thread) and the invariant they keep. *)
From S2P Require Import Prelude Proto State KmsProto KmsModes KmsState KmsBo KmsEv KmsBackend KmsCommit KmsFw KmsMain KmsVblank KmsAside KmsRefs KmsRefOps KmsPool KmsRefKept KmsRefCommit KmsRefFlip KmsRefReq.

(** ** Requests on clients and parked requests only *)
Lemma held_claim i st : same_held st.1 (claim i st).1.
Proof. destruct st as [s a]. by constructor. Qed.
Lemma held_reply i r s : same_held s (set_reply i r s).
Proof. by constructor. Qed.
Lemma held_client i f s : same_held s (set_kclient i f s).
Proof. by constructor. Qed.
Lemma held_fill i n s : same_held s (ev_fill i n s).2.
Proof. unfold ev_fill. cbv zeta. destruct (ev_take _ _ _ _). apply held_client. Qed.
Lemma held_walk (f : Z → kms_srv_t * list kms_parked_t → kms_srv_t * list kms_parked_t) lo hi st :
  (∀ i st, same_held st.1 (f i st).1) → same_held st.1 (for_ lo hi f st).1.
Proof. intros H. apply (for_inv (λ st', same_held st.1 st'.1)); [done|]. intros i st' _ H1. etrans; [exact H1|apply H]. Qed.
Lemma held_claim_reply i r s a : same_held s (claim i (set_reply i r s, a)).1.
Proof. etrans; [apply held_reply|]. apply (held_claim i (set_reply i r s, a)). Qed.
Lemma held_serve i st : same_held st.1 (serve_one i st).1.
Proof.
  destruct st as [s a]. unfold serve_one. cbv zeta. destruct (_ || _); [done|]. destruct (kms_client_get _ _) as [c|]; [|done]. destruct (ev_pending s c); [|done].
  pose proof (held_fill c (m_osize (pk_msg (ks_parked s i))) s) as H. destruct (ev_fill _ _ s) as [l s1]. etrans; [exact H|]. apply held_claim_reply.
Qed.
Lemma held_close_parked id i st : same_held st.1 (close_parked id i st).1.
Proof. destruct st as [s a]. unfold close_parked. cbv zeta. destruct (_ && _); [apply held_claim_reply|done]. Qed.
Lemma held_quit i st : same_held st.1 (quit_parked i st).1.
Proof. destruct st as [s a]. unfold quit_parked. cbv zeta. destruct (pk_used _); [apply held_claim_reply|done]. Qed.
Lemma held_expire now i st : same_held st.1 (expire_one now i st).1.
Proof. destruct st as [s a]. unfold expire_one. cbv zeta. destruct (_ || _); [done|apply held_claim_reply]. Qed.
Lemma held_close_vblev id i s : same_held s (close_vblev id i s).
Proof. unfold close_vblev. cbv zeta. destruct (_ && _); by constructor. Qed.
Lemma held_vblev ci cnt i s : same_held s (vblev_one ci cnt i s).
Proof.
  unfold vblev_one. cbv zeta. destruct (_ && _); [|done]. set (s1 := ev_vblank _ _ _ _ _ _ s). assert (same_held s s1) as H by apply held_deliver, ev_vblank_frame.
  clearbody s1. etrans; [exact H|]. by constructor.
Qed.
Lemma held_vblank_one ci cnt i st : same_held st.1 (vblank_one ci cnt i st).1.
Proof. destruct st as [s a]. unfold vblank_one. cbv zeta. destruct (_ && _); [apply held_claim_reply|done]. Qed.
Lemma held_answer l s : same_held s (kms_answer l s).
Proof. unfold kms_answer. revert s. induction l as [|p l IH]; intros s; [done|]. cbn [foldl]. etrans; [|apply IH]. by constructor. Qed.

Section env.
Context `{K : KEnv}.
Lemma held_park kind cl cr tg m rid s : same_held s (park kind cl cr tg m rid s).2.
Proof. unfold park. by destruct (find_first _ _ _). Qed.

(** ** A vblank *)
Lemma keeps_set_vb f s : keeps s (set_vb f s).
Proof. apply keeps_held. by constructor. Qed.
Lemma flip_refs cnt s : refs_ok s → refs_ok (vblank_flip 0 cnt s).
Proof.
  intros H. unfold vblank_flip. cbv zeta. destruct (cs_pend (ks_crtc s 0)) eqn:Ep; [done|..].
  - pose proof (try_apply_kept s H) as TK. destruct (kms_try_apply 0 s) as [armed s1]. cbn [snd] in *. destruct armed; [|done]. by apply (refs_ok_same s1).
  - destruct (_ <=? _); [|done]. by apply complete_kept; [rewrite Ep|].
Qed.
Lemma flip_opt cnt s : ks_opt (vblank_flip 0 cnt s) = ks_opt s.
Proof.
  unfold vblank_flip. cbv zeta. destruct (cs_pend (ks_crtc s 0)) eqn:Ep; [done|..].
  - pose proof (try_apply_tried s) as T. destruct (kms_try_apply 0 s) as [armed s1]. cbn [fst snd] in *. transitivity (ks_opt s1); [by destruct armed|]. apply (tr_plane _ _ _ T).
  - destruct (_ <=? _); [|done]. unfold complete. set (s1 := for_ 0 _ _ s). assert (ks_opt s1 = ks_opt s) as <- by (apply pstep_for, pstep_complete). clearbody s1. cbv zeta.
    set (s2 := if cs_pevent _ then _ else s1). assert (ks_opt s2 = ks_opt s1) as <- by (unfold s2; destruct (cs_pevent _); [apply ev_vblank_frame|done]). clearbody s2.
    etrans; [apply (as_opt _ _ (aside_console_update _))|done].
Qed.
(** The count moves on; a commit that is due is completed. *)
Lemma flip_armed cnt n s : 0 ≤ n → armed_ok s →
  armed_ok (vblank_flip 0 cnt (set_crtc 0 (λ c, c <| cs_seq ::= λ k, k + n |> <| cs_last_vbl_cnt := cnt |>) s)).
Proof.
  intros Hn Ha. set (s1 := set_crtc 0 _ s).
  assert (cs_pend (ks_crtc s1 0) = cs_pend (ks_crtc s 0) ∧ cs_ptarget_seq (ks_crtc s1 0) = cs_ptarget_seq (ks_crtc s 0) ∧
    cs_seq (ks_crtc s1 0) = cs_seq (ks_crtc s 0) + n) as (E1 & E2 & E3) by (unfold s1; by rewrite set_crtc_eq).
  clearbody s1. unfold vblank_flip. cbv zeta. destruct (cs_pend (ks_crtc s1 0)) eqn:Ep; [by apply armed_not; rewrite Ep|..].
  - assert (armed_ok s1) as A1 by (by apply armed_not; rewrite Ep). pose proof (try_apply_tried s1) as T. destruct (kms_try_apply 0 s1) as [armed s2]. cbn [fst snd] in *.
    apply (tried_armed _ _ _ T) in A1. destruct armed; [|done]. by apply (armed_crtc s2).
  - destruct (Z.leb_spec (cs_ptarget_seq (ks_crtc s1 0)) (cs_seq (ks_crtc s1 0))); [apply armed_not; by rewrite complete_pend|].
    intros _. specialize (Ha (eq_sym E1)). lia.
Qed.
Lemma on_vblank_kept cnt n st : 0 ≤ n → keeps st.1 (kms_on_vblank 0 cnt n st).1.
Proof.
  intros Hn. destruct st as [s a]. unfold kms_on_vblank. cbv zeta. set (s1 := set_crtc 0 _ s). assert (keeps s (vblank_flip 0 cnt s1)) as H1.
  { split; [|etrans; [apply flip_opt|done]]. intros [Hr Ha]. split; [apply flip_refs|by apply flip_armed]. by apply refs_ok_crtc. }
  etrans; [exact H1|]. clear H1. generalize (vblank_flip 0 cnt s1). intros s2. apply keeps_held.
  set (s3 := for_ 0 KMS_MAX_VBL_EVENTS (vblev_one 0 cnt) s2). assert (same_held s2 s3) as H3 by apply held_for, held_vblev. clearbody s3. etrans; [exact H3|].
  unfold serve_reads. etrans; [|apply held_walk, held_serve]. apply (held_walk _ _ _ (s3, a)), held_vblank_one.
Qed.
Lemma quiet_set_refresh mhz s : quiet s (kms_mode_set_refresh 0 mhz s).
Proof.
  unfold kms_mode_set_refresh. destruct (_ || _); [done|]. cbv zeta. set (s1 := set_crtc 0 _ s). assert (quiet s s1) as H1 by (by apply quiet_crtc). clearbody s1.
  destruct (kms_blob_get _ _); [|done]. destruct (_ =? _); [|done]. etrans; [exact H1|apply quiet_blob].
Qed.

(** ** The vblank source *)
Lemma aside_vb f s : kaside s (set_vb f s).
Proof. by constructor. Qed.
Lemma aside_wr off v s : kaside s (smi_wr off v s).
Proof. by apply kaside_emit. Qed.
Lemma aside_frcnt ch s : kaside s (hvs_frcnt ch s).2.
Proof. unfold hvs_frcnt. destruct (ch =? 0); [|destruct (ch =? 1)]; by constructor. Qed.
Lemma aside_wait n s : kaside s (vbl_wait n s).2.
Proof.
  unfold vbl_wait. destruct (vb_src (ks_vb s)); unfold kms_cnt; cbv zeta; repeat case_match; cbn [snd]; simplify_eq; try by constructor.
  all: match goal with H : hvs_frcnt _ _ = _ |- _ => pose proof (aside_frcnt (vb_hvs_ch (ks_vb s)) s) as Hf; rewrite H in Hf; cbn [snd] in Hf end.
  all: first [exact Hf|etrans; [exact Hf|by constructor]].
Qed.
Lemma aside_unregister s : kaside s (irq_unregister s).
Proof. unfold irq_unregister. destruct (vb_registered _); [|done]. etrans; [by apply (kaside_emit (KE_irq false))|apply aside_vb]. Qed.
Lemma aside_fallback s : kaside s (fallback s).
Proof.
  unfold fallback. cbv zeta. pose proof (aside_unregister s) as H. set (s1 := irq_unregister s) in *. clearbody s1. etrans; [exact H|]. destruct (_ && _); [|apply aside_vb].
  set (s2 := set_vb _ s1). pose proof (aside_frcnt (vb_hvs_ch (ks_vb s1)) s2) as H2. destruct (hvs_frcnt _ s2) as [f s3]. cbn [snd] in H2.
  assert (kaside s1 s2) as H3 by apply aside_vb. etrans; [exact H3|]. etrans; [exact H2|apply aside_vb].
Qed.
Lemma aside_storm s : kaside s (storm_check s).2.
Proof.
  unfold storm_check, kms_cnt. cbv zeta. destruct (negb _); [done|]. destruct (_ <? _); [by constructor|]. destruct (_ <? _); cbn [snd]; [|by constructor].
  etrans; [apply kaside_tick|apply aside_unregister].
Qed.
Lemma aside_watch s : kaside s (vblank_watch s).
Proof.
  unfold vblank_watch. unfold kms_cnt at 1. cbv beta iota zeta. set (s1 := kms_tick s). set (now := u64 _). set (s2 := if _ <=? _ then _ else s1).
  assert (kaside s s2) as H2.
  { etrans; [apply kaside_tick|]. fold s1. unfold s2. destruct (_ <=? _); [|done]. set (s3 := set_vb _ s1). assert (kaside s1 s3) as H3 by apply aside_vb. clearbody s3.
    destruct (vb_src (ks_vb s3)); try done. etrans; [exact H3|]. pose proof (aside_storm s3) as H4. destruct (storm_check s3) as [b s4]. cbn [snd] in H4.
    destruct b; [|done]. etrans; [exact H4|apply aside_fallback]. }
  clearbody s2 now. clear s1. assert (kaside s2 (let '(now, s) := kms_cnt s2 in
      if 250000 <? kms_cnt_us s (u64 (now - vb_last_vbl (ks_vb s))) then
        let '(now, s) := kms_cnt (fallback s) in set_vb (λ v, v <| vb_last_vbl := now |>) s else s)) as H.
  { unfold kms_cnt. cbv zeta beta iota. destruct (_ <? _); [|apply kaside_tick]. etrans; [apply kaside_tick|]. etrans; [apply aside_fallback|].
    etrans; [apply kaside_tick|apply aside_vb]. }
  destruct (vb_src (ks_vb s2)); try done; by etrans.
Qed.
Ltac aside_chain := repeat match goal with
  | |- kaside ?s ?s => reflexivity
  | |- kaside _ (set_vb ?f ?x) => transitivity x; [|apply (aside_vb f x)]
  | |- kaside _ (smi_wr ?o ?v ?x) => transitivity x; [|apply (aside_wr o v x)]
  | |- kaside _ (kms_tick ?x) => transitivity x; [|apply (kaside_tick x)]
  end.
Lemma aside_isr s : kaside s (smi_isr s).2.
Proof.
  unfold smi_isr, smi_ack, smi_rd, kms_cnt. cbv beta iota zeta.
  repeat match goal with |- context [if ?b then _ else _] => destruct b; cbv beta iota zeta; cbn [snd negb b2z] end; aside_chain.
Qed.

Lemma quiet_measure stamp n s : quiet s (measure 0 stamp n s).
Proof.
  unfold measure. cbv zeta. destruct (vb_measured _); [done|]. destruct (_ =? 0); [apply quiet_aside, aside_vb|]. set (s1 := set_vb _ s).
  assert (quiet s s1) as H1 by apply quiet_aside, aside_vb. clearbody s1. destruct (_ <? _); [done|].
  set (mhz := if negb (_ =? 0) then _ else 0). set (s2 := set_vb _ s1). assert (quiet s s2) as H2 by (etrans; [exact H1|apply quiet_aside, aside_vb]).
  clearbody s2. destruct (_ && _); [|done]. etrans; [exact H2|apply quiet_set_refresh].
Qed.
Lemma wait_count n s : let '(got, _, k, _) := vbl_wait n s in got = true → 0 ≤ k.
Proof.
  unfold vbl_wait, kms_cnt. cbv zeta. repeat case_match; simplify_eq; try done; intros _; try apply u32_range; try done; apply Z.land_nonneg; by right.
Qed.
Lemma body_kept kick gate s : keeps s (vblank_body kick gate s).1.
Proof.
  unfold vblank_body. cbv zeta. set (mu := if gate then _ else 20000). pose proof (aside_wait mu s) as Hw. pose proof (wait_count mu s) as Hc. destruct (vbl_wait mu s) as [[[got stamp] n] s1]. cbn [snd] in Hw.
  set (r := if got then _ else _). assert (keeps s r.1) as Hr.
  { etrans; [by apply keeps_aside|]. unfold r. destruct got.
    - set (s2 := kstat _ (set_vb _ s1)). assert (keeps s1 s2) as H2 by (apply keeps_aside; etrans; [apply aside_vb|apply kaside_stat]). clearbody s2. etrans; [exact H2|].
      etrans; [apply keeps_held, (quiet_measure stamp n)|]. apply (on_vblank_kept stamp n (measure 0 stamp n s2, [])). by apply Hc.
    - destruct (cs_pend (ks_crtc s1 0)); [done| |done]. set (s2 := if _ && _ then _ else s1). assert (keeps s1 s2) as H2 by (apply keeps_aside; unfold s2; destruct (_ && _); done).
      clearbody s2. etrans; [exact H2|]. pose proof (try_apply_tried s2) as T. pose proof (try_apply_kept s2) as TK. destruct (kms_try_apply 0 s2) as [armed s3]. cbn [fst snd] in *.
      assert (keeps s2 s3) as H3 by (split; [intros [? ?]; split; [auto|by eapply tried_armed]|apply T]). clear T TK. destruct armed; [|done]. etrans; [exact H3|]. by apply keeps_aside. }
  clearbody r. destruct r as [s2 a]. cbn [fst] in Hr. unfold kms_cnt. cbv beta iota. set (now := u64 _). unfold kms_expire_parked.
  pose proof (held_walk (expire_one now) 0 KMS_MAX_PARKED (kms_tick s2, a) (held_expire now)) as He. destruct (for_ 0 KMS_MAX_PARKED _ _) as [s3 a']. cbn [fst] in *.
  etrans; [exact Hr|]. etrans; [apply keeps_aside, kaside_tick|]. etrans; [by apply keeps_held|]. apply keeps_aside, kaside_stat.
Qed.
Lemma keeps_reap s : keeps s (reap_if_any s).
Proof. unfold reap_if_any. destruct (ks_reap s); [done|]. apply keeps_kept. intros on. apply reap_kept. Qed.
Lemma turn_kept kick gate s : keeps s (vblank_turn kick gate s).
Proof.
  unfold vblank_turn. pose proof (body_kept kick gate s) as H. destruct (vblank_body kick gate s) as [s1 a]. cbn [fst] in H. cbv zeta.
  assert (keeps s (reap_if_any (kms_answer a s1))) as H2 by (etrans; [exact H|]; etrans; [apply keeps_held, (held_answer a)|apply keeps_reap]).
  destruct (ks_quit s1); [done|]. etrans; [exact H2|]. apply keeps_aside, aside_watch.
Qed.

(** ** Requests *)
Definition one_head (s : kms_srv_t) : Prop := op_ncrtc (ks_opt s) = 1.
Lemma crtc_zero s id ci : one_head s → crtc_by_id s id = Some ci → ci = 0.
Proof. unfold one_head, crtc_by_id. intros ->. intros H. apply find_first_Some in H as (Hr & _). lia. Qed.
Lemma flip_req_kept cl rq s : one_head s → planed s (op_page_flip cl rq s).2.
Proof.
  intros H1. unfold op_page_flip. destruct (crtc_by_id s _) as [ci|] eqn:E; [|done]. apply crtc_zero in E as ->; [|done]. cbv zeta. destruct (has _ _); [done|].
  destruct (kms_fb_lookup s _); [|done]. apply commit_kept.
Qed.
Lemma set_crtc_req_kept cl rq s : one_head s → planed s (op_set_crtc cl rq s).2.
Proof.
  intros H1. unfold op_set_crtc. destruct (crtc_by_id s _) as [ci|] eqn:E; [|done]. apply crtc_zero in E as ->; [|done]. cbv zeta.
  assert (∀ sts nm, planed s (let '(rc, _, s) := commit cl 0 sts 0 0 nm s in (rc, s)).2) as H.
  { intros sts nm. pose proof (commit_kept cl sts 0 0 nm s) as H. by destruct (commit _ _ _ _ _ _ s) as [[rc o] s']. }
  destruct (sc_fb_id rq =? 0); [apply H|]. destruct (_ || _); [done|]. destruct (if negb (sc_mode_hdisplay rq =? 0) then _ else _) as [nm|]; [|done].
  destruct (kms_fb_lookup s _); [|done]. destruct (match nm with Some _ => _ | None => _ end). apply H.
Qed.
Lemma atomic_req_kept cl rq d s : one_head s → planed s (op_atomic cl rq d s).2.
Proof.
  intros H1. unfold op_atomic. destruct (crtc_by_id s _) as [ci|] eqn:E; [|done]. apply crtc_zero in E as ->; [|done]. cbv zeta.
  destruct (if negb (at_mode_blob rq =? 0) then _ else _) as [nm|]; [|done]. destruct (if at_active rq =? 0 then _ else _); [|done]. apply commit_kept.
Qed.
Lemma vblank_req_held op cl rq m rid s : same_held s (op_vblank op cl rq m rid s).2.
Proof.
  unfold op_vblank. destruct (crtc_by_id s _) as [ci|]; [|done]. cbv zeta.
  assert (∀ (q : bool) (out out' : Z * kms_resp_u) f cr tg (b : bool), same_held s (if q then
      match find_first (λ i, negb (ve_used (ks_vblev s i))) 0 KMS_MAX_VBL_EVENTS with
      | None => (Some (- ENOSPC, RU_none), s) | Some i => (Some out, set_vblev i f s) end
    else if b then (Some out', s)
    else let '(rc, s) := park KMS_PARK_VBLANK cl cr tg m rid s in if negb (rc =? 0) then (Some (- ENOSPC, RU_none), s) else (None, s)).2) as G.
  { intros q out out' f cr tg b. destruct q; [by destruct (find_first _ _ _)|]. destruct b; [done|]. pose proof (held_park KMS_PARK_VBLANK cl cr tg m rid s) as H.
    destruct (park _ _ _ _ _ _ s) as [rc s1]. by destruct (negb _). }
  destruct op; [apply G|done|]. by destruct (find_first _ _ _).
Qed.
Lemma rmfb_kept cl id s : planed s (op_rmfb cl id s).2.
Proof.
  unfold op_rmfb. destruct (kms_fb_lookup s id) as [i|]; [|done]. cbv zeta. destruct (_ || _); [done|]. destruct (existsb _ _); [done|].
  pose proof (planes_off_kept cl (kf_id (ks_fbs s i)) s) as H. destruct (planes_off _ _ _ s) as [n s1]. cbn [snd] in H. etrans; [exact H|]. apply planed_kept. intros on. apply fb_rm_kept.
Qed.
Lemma close_kept id st : keeps st.1 (kms_client_close id st).1.
Proof.
  unfold kms_client_close. destruct (kms_client_get st.1 id) as [i|]; [|done].
  pose proof (held_walk (close_parked id) 0 KMS_MAX_PARKED st (held_close_parked id)) as H. destruct (for_ 0 KMS_MAX_PARKED _ st) as [s a]. cbn [fst] in H. cbv zeta.
  etrans; [by apply keeps_held|]. set (s1 := for_ 0 KMS_MAX_VBL_EVENTS _ s). assert (keeps s s1) as H1 by apply keeps_held, held_for, held_close_vblev. clearbody s1.
  etrans; [exact H1|]. pose proof (close_commit_kept id s1) as H2. set (s2 := close_commit id s1) in *. clearbody s2. pose proof (planes_off_kept (u32 id) 0 s2) as H3.
  destruct (planes_off 0 (u32 id) 0 s2) as [n s3]. cbn [snd] in H3. set (s4 := if _ =? _ then umode_native 0 s3 else s3).
  assert (planed s3 s4) as H4 by (unfold s4; destruct (_ =? _); [apply planed_quiet, quiet_umode_native|done]). clearbody s4. pose proof (gone_kept (u32 id) s4) as H5.
  set (s5 := kms_bo_client_gone _ s4) in *. clearbody s5. assert (planed s1 s5) as H6 by (etrans; [exact H2|]; etrans; [exact H3|]; by etrans).
  etrans; [by apply planed_keeps|]. apply keeps_held. set (s6 := set_kclient _ _ s5). assert (same_held s5 s6) as H7 by apply held_client. clearbody s6.
  destruct (_ || _); [|done]. etrans; [exact H7|]. by constructor.
Qed.

Lemma aside_checksum cl rq s : kaside s (kms_bo_checksum cl rq s).2.
Proof.
  unfold kms_bo_checksum. destruct (kms_bo_get _ _ _) as [i|]; [|done]. cbv zeta. destruct (_ || _); [done|]. set (va := kb_va _ + _).
  pose proof (for_inv (λ st : Z * Z * kms_srv_t, kaside s st.2) 0 (ck_len rq / 4) (checksum_step va) (2166136261, 0, s)) as H.
  destruct (for_ _ _ _ _) as [[h first] s1]. cbn [snd] in *. apply H; [done|]. intros j [[h' f'] s'] _ H1. etrans; [exact H1|]. apply kaside_tick.
Qed.
(** A request whose framebuffer fields are 32 bits wide, while ids are left. *)
Definition req_ok (s : kms_srv_t) (rq : kms_req) : Prop :=
  match rq with
  | K_addfb2 rq => 0 ≤ af_offset rq < 2 ^ 32 ∧ 0 ≤ af_pitch rq < 2 ^ 32 ∧ 0 ≤ af_height rq < 2 ^ 32 ∧ ks_next_fb s + 1 < 2 ^ 32
  | _ => True
  end.
Lemma raw_kept ci rid m rq s a : one_head s → req_ok s rq → keeps s (kms_handle_raw ci rid m rq s a).1.2.
Proof.
  intros H1 Hrq. unfold kms_handle_raw. cbv zeta. set (cl := kc_id (ks_clients s ci)).
  destruct rq as [cap|cap v| | | |max|obj max|obj|obj|rq| |obj|obj max|obj max|b|data|b|rq|h|h|h|rq|fb|rq|rq data|rq|rq|rq|rq| | | ]; try done.
  - by destruct (get_cap _).
  - destruct (_ || _); [|done]. by apply keeps_held, held_client.
  - unfold op_get_connector. cbv zeta. by destruct (negb _).
  - by destruct (negb _).
  - unfold op_get_crtc. cbv zeta. by destruct (negb _).
  - pose proof (set_crtc_req_kept cl rq s H1) as H. destruct (op_set_crtc _ _ _). by apply planed_keeps.
  - by destruct (plane_idx _ _).
  - by destruct (obj_props _ _).
  - by destruct (op_get_property m obj max) as [[? ?] ?].
  - by destruct (kms_blob_get _ _).
  - destruct data as [l|]; [|done]. destruct (_ || _); [done|]. pose proof (quiet_create cl l s) as H. destruct (kms_blob_create cl l s). by apply keeps_held, H.
  - unfold kms_blob_destroy. destruct (kms_blob_get _ _); [|done]. cbv zeta. destruct (_ || _); [done|]. by apply keeps_held, quiet_blob.
  - pose proof (λ on, create_kept on cl rq s) as H. destruct (kms_bo_create cl rq s) as [[? ?] ?]. by apply keeps_kept.
  - by destruct (kms_bo_map cl h s).
  - pose proof (λ on, destroy_kept on cl h s) as H. destruct (kms_bo_destroy cl h s). by apply keeps_kept.
  - destruct (kms_bo_get _ _ _) as [i|]; [|done]. set (s1 := set_kbo i _ s). assert (keeps s s1) as H by (apply keeps_kept; intros on; by apply set_view_kept).
    clearbody s1. by destruct (kms_bo_map cl h s1).
  - destruct Hrq as (G1 & G2 & G3 & G4). pose proof (λ on, fb_add_kept on cl rq s G1 G2 G3 G4) as H. cbv zeta in H. destruct (kms_fb_add cl rq s) as [[? ?] s']. cbn [fst snd] in *.
    destruct (H (λ _, 0)) as [_ S]. split; [|apply (sd_opt _ _ S)]. intros [[I P] A]. split; [|revert A; by apply armed_crtc, (sd_crtc _ _ S)]. unfold refs_ok, refs_at. rewrite (sd_crtc _ _ S). by apply (proj1 (H _)).
  - pose proof (rmfb_kept cl fb s) as H. destruct (op_rmfb cl fb s). by apply planed_keeps.
  - pose proof (flip_req_kept cl rq s H1) as H. destruct (op_page_flip cl rq s) as [[? ?] ?]. by apply planed_keeps.
  - pose proof (atomic_req_kept cl rq data s H1) as H. destruct (op_atomic cl rq data s) as [[? ?] ?]. by apply planed_keeps.
  - pose proof (vblank_req_held VO_wait cl rq m rid s) as H. destruct (op_vblank VO_wait cl rq m rid s) as [[[? ?]|] ?]; by apply keeps_held.
  - pose proof (vblank_req_held VO_get cl rq m rid s) as H. destruct (op_vblank VO_get cl rq m rid s) as [[[? ?]|] ?]; by apply keeps_held.
  - pose proof (vblank_req_held VO_queue cl rq m rid s) as H. destruct (op_vblank VO_queue cl rq m rid s) as [[[? ?]|] ?]; by apply keeps_held.
  - pose proof (aside_checksum cl rq s) as H. destruct (kms_bo_checksum cl rq s) as [[? ?] ?]. by apply keeps_aside.
  - apply keeps_aside, kaside_stat.
  - pose proof (held_walk quit_parked 0 KMS_MAX_PARKED (s, a) held_quit) as H. destruct (for_ 0 KMS_MAX_PARKED _ _) as [s' a']. cbn [fst snd] in *.
    etrans; [apply keeps_held, H|]. apply keeps_held. by constructor.
Qed.

(** ** Messages *)
Lemma aside_unmap im s : kaside s (kms_import_unmap im s).
Proof.
  unfold kms_import_unmap. set (s1 := if negb _ then _ else s). assert (kaside s s1) as H by (unfold s1; destruct (negb _); [by apply kaside_emit|done]). clearbody s1. cbv zeta.
  destruct (_ <=? _); [|done]. etrans; [exact H|by apply kaside_emit].
Qed.
Definition effect_silent (e : kms_effect) : Prop := kreply_of e = None.
Lemma import_map_silent rq ie : Forall effect_silent (kms_import_map rq ie).2.
Proof. unfold kms_import_map. repeat case_match; repeat constructor. Qed.
Lemma aside_effects l s : Forall effect_silent l → kaside s (foldl (λ s e, kms_emit e s) s l).
Proof.
  revert s. induction l as [|e l IH]; intros s H; [done|]. apply Forall_cons in H as [H1 H2]. cbn [foldl]. etrans; [by apply (kaside_emit e)|by apply IH].
Qed.
Lemma import_kept id rq ie between s : one_head s → (∀ s, one_head s → keeps s (between s)) → keeps s (op_prime_import id rq ie between s).2.
Proof.
  intros Ho Hb. unfold op_prime_import. destruct (kms_client_get s id) as [ci|]; [|done]. cbv zeta. pose proof (λ on, import_lookup_kept on (u32 id) rq s) as H1.
  destruct (kms_import_lookup (u32 id) rq s) as [[rc out] s1]. cbn [snd] in H1. destruct (negb (rc =? 1)); [by apply keeps_kept|].
  assert (one_head s1) as Ho1 by (unfold one_head; destruct (H1 (λ _, 0)) as [_ M]; by rewrite (mm_opt _ _ M)).
  pose proof (import_map_silent rq ie) as Hm. destruct (kms_import_map rq ie) as [[rc2 im] effs]. cbn [snd] in Hm.
  set (s2 := foldl _ _ effs). assert (keeps s s2) as H2 by (etrans; [by apply keeps_kept|]; etrans; [by apply Hb|]; by apply keeps_aside, aside_effects). clearbody s2.
  destruct (negb (rc2 =? 0)); [done|]. assert (keeps s (kms_import_unmap im s2)) as H3 by (etrans; [exact H2|apply keeps_aside, aside_unmap]).
  destruct (kms_client_get s2 id) as [cj|]; [|done]. destruct (_ =? _); [|done]. etrans; [exact H2|]. apply keeps_kept. intros on. apply import_install_kept.
Qed.

(** The messages of the model, each with 32-bit framebuffer fields. *)
Definition msg_ok (s : kms_srv_t) (msg : kmsg) : Prop := match msg with KM_raw _ rq => req_ok s rq | _ => True end.
Definition is_import (msg : kmsg) : bool := match msg with KM_prime_import _ _ _ _ => true | _ => false end.
Lemma read_msg_held rid m s : same_held s (read_msg rid m s).2.
Proof.
  unfold read_msg. destruct (kms_client_get _ _) as [ci|]; [|done]. destruct (_ || _); [done|]. destruct (ev_pending s ci).
  - pose proof (held_fill ci (m_osize m) s) as H. by destruct (ev_fill _ _ s).
  - destruct (m_nonblock m); [done|]. match goal with |- context [park ?k ?a ?b ?c ?d ?e s] => pose proof (held_park k a b c d e s) as H; destruct (park k a b c d e s) as [rc s1] end.
    cbn [snd] in H. by destruct (_ =? 0).
Qed.
Lemma handle_kept rid msg s : one_head s → msg_ok s msg →
  (∀ id rq ie between, msg = KM_prime_import id rq ie between → ∀ s, one_head s → keeps s (between s)) → keeps s (kms_handle rid msg s).1.2.
Proof.
  intros H1 Hm Hb. destruct msg as [pid|id|m| |id proto| |id rq ie between|m rq| |id| |room| ]; try done; cbn [kms_handle].
  - unfold kms_client_open. destruct (find_first _ _ _); [|done]. cbn [fst snd]. by apply keeps_held, held_client.
  - pose proof (close_kept id (s, [])) as H. by destruct (kms_client_close id (s, [])).
  - pose proof (read_msg_held rid m s) as H. destruct (read_msg rid m s). by apply keeps_held.
  - by destruct (kms_hello id proto s).
  - pose proof (import_kept id rq ie between s H1 (Hb _ _ _ _ eq_refl)) as H. by destruct (op_prime_import id rq ie between s) as [[? ?] ?].
  - destruct (kms_client_get s _) as [ci|]; [|done]. by apply raw_kept.
Qed.
Lemma aside_be_restore c s : kaside s (be_restore c s).
Proof.
  unfold be_restore. destruct (is_plane _); [|apply aside_pan_apply]. unfold plane_restore. apply (for_inv (λ s', kaside s s')); [done|].
  intros p s4 _ H4. etrans; [exact H4|]. destruct (Z.testbit _ _); [apply aside_plane_apply|done].
Qed.
Lemma aside_unblank s : kaside s (if ks_fb_blanked s then (kms_fw_blank false s).2 <| ks_fb_blanked := false |> else s).
Proof. destruct (ks_fb_blanked s); [|done]. etrans; [apply (aside_blank false)|]. generalize (kms_fw_blank false s).2. intros s'. by constructor. Qed.
Lemma aside_reenable s : kaside s (if ks_console_disabled s then (kms_fw_console true s).2 <| ks_console_disabled := false |> else s).
Proof. destruct (ks_console_disabled s); [|done]. etrans; [apply (aside_console true)|apply aside_disabled]. Qed.
Lemma aside_restore s : kaside s (restore_display s).
Proof.
  unfold restore_display. assert (kaside s (for_ 0 (op_ncrtc (ks_opt s)) (λ i s, be_restore (ks_crtc s i) s) s)) as H.
  { apply (for_inv (λ s', kaside s s')); [done|]. intros i s3 _ H3. etrans; [exact H3|apply aside_be_restore]. }
  revert H. generalize (for_ 0 (op_ncrtc (ks_opt s)) (λ i s, be_restore (ks_crtc s i) s) s). intros s1 H. cbv zeta.
  etrans; [exact H|]. etrans; [apply (aside_unblank s1)|]. apply aside_reenable.
Qed.
Lemma fini_kept s : keeps s (kms_pool_fini s).
Proof.
  unfold kms_pool_fini. apply (for_inv (λ s', keeps s s')); [done|]. intros i s3 _ H3. etrans; [exact H3|]. cbv zeta. destruct (_ && _); [|done].
  set (s4 := set_kbo i _ s3). assert (keeps s3 s4) as H4 by (apply keeps_kept; intros on; by apply set_view_kept). clearbody s4. etrans; [exact H4|]. by apply keeps_aside, kaside_emit.
Qed.
Lemma aside_irq_off s : kaside s (if vb_registered (ks_vb s) then kms_emit (KE_irq false) s <| ks_vb; vb_registered := false |> else s).
Proof. destruct (vb_registered _); [|done]. etrans; [by apply (kaside_emit (KE_irq false))|]. generalize (kms_emit (KE_irq false) s). intros s'. by constructor. Qed.
Lemma exit_kept s : keeps s (kms_exit s).
Proof.
  unfold kms_exit. cbv zeta. etrans; [apply keeps_aside, aside_restore|]. generalize (restore_display s). clear s. intros s. etrans; [apply fini_kept|].
  generalize (kms_pool_fini s). clear s. intros s. apply keeps_aside. etrans; [apply aside_irq_off|].
  set (s3 := if vb_registered (ks_vb s) then _ else s). clearbody s3. etrans; [by apply (kaside_emit KE_names_release)|by apply kaside_emit].
Qed.
Lemma dispatch_kept rid msg s : one_head s → msg_ok s msg →
  (∀ id rq ie between, msg = KM_prime_import id rq ie between → ∀ s, one_head s → keeps s (between s)) → keeps s (kms_dispatch rid msg s).
Proof.
  intros H1 Hm Hb. unfold kms_dispatch. pose proof (handle_kept rid msg s H1 Hm Hb) as H. destruct (kms_handle rid msg s) as [[r s1] a]. cbn [fst snd] in H. cbv zeta.
  set (s2 := kms_respond _ _ _). assert (keeps s s2) as H2.
  { etrans; [exact H|]. etrans; [apply keeps_reap|]. etrans; [apply keeps_held, (held_answer a)|]. unfold s2, kms_respond. destruct r; [|done]. apply keeps_held. by constructor. }
  clearbody s2. destruct (match msg with KM_raw _ _ => _ | _ => false end); [|done]. etrans; [exact H2|apply exit_kept].
Qed.

(** ** Steps *)
(** From [s0] the server can be in [s]: messages in any order, each import with what happens
    while its buffer is mapped, turns of the vblank thread, vblank interrupts. *)
Inductive kreach : kms_srv_t → kms_srv_t → Prop :=
  | kr_refl s : kreach s s
  | kr_msg s0 s rid msg : kreach s0 s → is_import msg = false → msg_ok s msg → kreach s0 (kms_dispatch rid msg s)
  | kr_import s0 s rid id rq ie between : kreach s0 s → (∀ s, kreach s (between s)) → kreach s0 (kms_dispatch rid (KM_prime_import id rq ie between) s)
  | kr_turn s0 s kick gate : kreach s0 s → kreach s0 (vblank_turn kick gate s)
  | kr_irq s0 s : kreach s0 s → kreach s0 (smi_isr s).2.

Lemma reach_keeps s0 s : kreach s0 s → one_head s0 → keeps s0 s.
Proof.
  intros H. induction H as [s|s0 s rid msg H IH Hi Hm|s0 s rid id rq ie between H IH Hb IHb|s0 s kick gate H IH|s0 s H IH]; intros Ho; [done|..].
  - specialize (IH Ho). etrans; [exact IH|]. apply dispatch_kept; [unfold one_head; by rewrite (proj2 IH)|done|]. by intros id rq ie between ->.
  - specialize (IH Ho). etrans; [exact IH|]. apply dispatch_kept; [unfold one_head; by rewrite (proj2 IH)|done|]. by intros ? ? ? ? [= <- <- <- <-].
  - etrans; [by apply IH|]. apply turn_kept.
  - etrans; [by apply IH|]. apply keeps_aside, aside_isr.
Qed.

End env.
