(* ===== verification/KmsBoot.v ===== *)
(** How the display server starts (tools/gpu-lane/kms/kms_main.c, main): the zeroed state,
    the mode, the pool, the backend's planes. *)
From S2P Require Import Prelude Proto State KmsProto KmsModes KmsState KmsBo KmsEv KmsBackend KmsCommit KmsFw KmsMain KmsVblank KmsAside KmsRefs KmsRefOps KmsPool KmsRefKept KmsRefCommit KmsRefFlip KmsRefReq KmsReach.

(** Static storage, and the first ids; [o] are the options and what the firmware said of its
    framebuffer, [vb] the vblank source that start-up found. *)
Definition kms_zero (o : kms_opts) (vb : kms_vb) : kms_srv_t :=
  mkKms o (λ _, crtc0) (λ _, kclient0) (λ _, kbo0) (λ _, kfb0) (λ _, kblob0) 1 KMS_ID_FB_BASE KMS_ID_BLOB_BASE
    (λ _, parked0) 0 (λ _, vblev0) [] 0 0 0 false false 0 vb kstats0 flipstat0 false (mkKio 0 []).

Section env.
Context `{K : KEnv}.
Definition in_formats_plane (mask p : Z) (s : kms_srv_t) : kms_srv_t :=
  if Z.testbit mask p then
    let '(id, s) := in_formats_blob p s in s <| ks_opt ; op_in_formats ::= λ a, <[p := id]> a |>
  else s.
(** [None] is an exit before the server answers anything. *)
Definition kms_start (o : kms_opts) (vb : kms_vb) (force : bool) (id rc : Z) (timing : Z → Z) (edid : option (list Z)) : option kms_srv_t :=
  let s := crtc_init 0 id rc timing edid (kms_zero (o <| op_ncrtc := 1 |> <| op_pool_ok := false |> <| op_in_formats := λ _, 0 |>) vb) in
  if negb (op_fb_yoff0 (ks_opt s) =? 0) && negb force then None
  else
    let '(rc, s) := kms_pool_init (s <| ks_opt ; op_fb_yoff0 := 0 |>) in
    if negb (rc =? 0) && is_plane (op_be (ks_opt s)) then None
    else
      let '(rc, mask) := be_init s in
      if negb (rc =? 0) then None
      else Some (for_ 0 KMS_PLANES_PER_CRTC (in_formats_plane mask) (set_crtc 0 (λ c, c <| cs_plane_mask := mask |>) s)).

(** ** Nothing is open, shown or held yet *)
Record fresh (s : kms_srv_t) : Prop := mkFresh {
  fr_heads : op_ncrtc (ks_opt s) = 1; fr_bos b : kb_used (ks_bos s b) = false; fr_fbs i : kf_used (ks_fbs s i) = false;
  fr_fb : ks_next_fb s = KMS_ID_FB_BASE; fr_cur p : cs_cur (ks_crtc s 0) p = plane0; fr_pend : cs_pend (ks_crtc s 0) = KMS_PEND_NONE;
  fr_idx : cs_idx (ks_crtc s 0) = 0; fr_seq : cs_seq (ks_crtc s 0) = 0;
  fr_clients i : kc_used (ks_clients s i) = false; fr_parked i : pk_used (ks_parked s i) = false; fr_nparked : ks_nparked s = 0;
  fr_vblev i : ve_used (ks_vblev s i) = false; fr_quit : ks_quit s = false; fr_said : k_replies s = [] }.
Lemma fresh_zero o vb : op_ncrtc o = 1 → fresh (kms_zero o vb).
Proof. by constructor. Qed.
Lemma fresh_quiet s s' : quiet s s' → fresh s → fresh s'.
Proof.
  intros [[] []] []. constructor; try congruence.
  - intros b. destruct (bview_eq _ _ (sh_bos b)) as (-> & _). done.
Qed.
Lemma fresh_opt f s : op_ncrtc (f (ks_opt s)) = op_ncrtc (ks_opt s) → fresh s → fresh (s <| ks_opt ::= f |>).
Proof. intros E []. constructor; try done. by rewrite <- fr_heads0. Qed.

Lemma fresh_refs s : fresh s → refs_ok s ∧ one_head s.
Proof.
  intros []. assert (∀ b, ¬ is_bo s b) as Hb by (intros b []; congruence). assert (∀ i, ¬ is_fb s i) as Hf by (intros i []; congruence). split; [|done]. split.
  - assert (∀ q, slots_of (ks_crtc s 0) (pending_planes (ks_crtc s 0)) q = 0) as H0.
    { intros q. unfold slots_of. rewrite fr_cur0, pending_idle by done. by destruct (_ <? _). }
    constructor; try done; try (by intros i Hi; destruct (Hf i Hi)); try (by intros b Hi; destruct (Hb b Hi)); [by rewrite fr_fb0|by intros i j Hi; destruct (Hf i Hi)|intros q Hq; by left].
  - split; [constructor; [intros b [Hi _]|intros b b' [Hi _]]; by destruct (Hb b Hi)|].
    assert (∀ b, ¬ in_use s b) as Hu by (intros b; unfold in_use; by rewrite fr_bos0).
    constructor; [intros b []|intros b []|intros b b' []|intros b H]; by destruct (Hu b).
Qed.

Lemma fresh_mode_query rc t s : fresh s → fresh (mode_query 0 rc t s).
Proof.
  apply fresh_quiet. unfold mode_query. destruct (_ || _); [|by apply quiet_crtc]. unfold mode_fallback. cbv zeta. etrans; [|apply quiet_set_refresh]. by apply quiet_crtc.
Qed.
Lemma fresh_edid e s : fresh s → fresh (edid_query 0 e s).
Proof.
  apply fresh_quiet. unfold edid_query. destruct e as [l|]; [|done]. destruct (_ || _); [done|]. pose proof (quiet_create 0 l s) as H. destruct (kms_blob_create 0 l s) as [id s1].
  etrans; [exact H|]. by apply quiet_crtc.
Qed.
Lemma fresh_crtc_init id rc t e o vb : op_ncrtc o = 1 → fresh (crtc_init 0 id rc t e (kms_zero o vb)).
Proof.
  intros Ho. unfold crtc_init. set (s := set_crtc 0 _ (kms_zero o vb)).
  assert (fresh s) as H by (constructor; try done; try intros p; unfold s; by rewrite set_crtc_eq). clearbody s. cbv zeta. apply (fresh_mode_query rc t) in H. revert H.
  generalize (mode_query 0 rc t s). clear s. intros s H. set (s1 := set_crtc 0 _ s). assert (fresh s1) as H1 by (revert H; apply fresh_quiet; by apply quiet_crtc). clearbody s1.
  set (mi := modeinfo_bytes _). pose proof (quiet_create 0 mi s1) as H2. destruct (kms_blob_create 0 mi s1) as [bl s2]. apply fresh_edid. revert H1. apply fresh_quiet. etrans; [exact H2|]. by apply quiet_crtc.
Qed.
Lemma aside_tries n size rej s : kaside s (pool_tries n size rej s).2.
Proof.
  revert rej s. induction n as [|n IH]; intros rej s; [done|]. cbn [pool_tries]. cbv zeta. destruct (kv_mmap _ _); [|apply kaside_tick].
  set (s3 := kms_tick (kms_tick (kms_tick s))). assert (kaside s s3) as H3 by (by constructor). clearbody s3.
  destruct (kv_va2pa _ _) as [pa|]; [|by etrans; [exact H3|apply IH]]. destruct (negb _); [by etrans; [exact H3|apply IH]|]. destruct (_ <=? _); [done|by etrans; [exact H3|apply IH]].
Qed.
Lemma fresh_pool s : fresh s → fresh (kms_pool_init s).2.
Proof.
  intros H. unfold kms_pool_init. cbv zeta. destruct (_ =? 0); [done|]. set (size := _ * KMS_MIB). pose proof (aside_tries 16 size [] s) as H1. destruct (pool_tries _ _ _ _) as [[rej found] s1]. cbn [snd] in H1.
  set (s2 := foldl _ s1 rej). assert (kaside s1 s2) as H2.
  { unfold s2. clearbody size. clear. revert s1. induction rej as [|va l IH]; intros s1; [done|]. cbn [foldl]. etrans; [|apply IH]. by apply kaside_emit. }
  clearbody s2. assert (fresh s2) as H3 by (revert H; apply fresh_quiet, quiet_aside; by etrans). destruct found as [[va pa]|]; [|done]. by apply (fresh_opt (λ o, _)).
Qed.
Lemma fresh_in_formats mask p s : fresh s → fresh (in_formats_plane mask p s).
Proof.
  intros H. unfold in_formats_plane, in_formats_blob. destruct (Z.testbit _ _); [|done]. set (d := in_formats_bytes _). pose proof (quiet_create 0 d s) as H1. destruct (kms_blob_create 0 d s) as [id s1].
  apply (fresh_opt (λ o, _)); [done|]. by apply (fresh_quiet s).
Qed.
Lemma start_fresh o vb force id rc t e s : kms_start o vb force id rc t e = Some s → fresh s.
Proof.
  unfold kms_start. set (o' := upd op_in_formats _ _). cbv zeta. pose proof (fresh_crtc_init id rc t e o' vb eq_refl) as H. revert H. generalize (crtc_init 0 id rc t e (kms_zero o' vb)). intros s0 H.
  destruct (_ && negb force); [done|]. set (s1 := upd ks_opt _ s0). assert (fresh s1) as H1 by (by apply (fresh_opt (λ o, _))). clearbody s1. apply fresh_pool in H1.
  destruct (kms_pool_init s1) as [rc1 s2]. cbn [snd] in H1. destruct (_ && _); [done|]. destruct (be_init s2) as [rc2 mask]. destruct (negb _); [done|]. intros [= <-].
  apply (for_inv fresh); [revert H1; apply fresh_quiet; by apply quiet_crtc|]. intros p s3 _. apply fresh_in_formats.
Qed.
End env.
