(* ===== verification/KmsSpec.v ===== *)
(** What holds of the display server's objects in every state it can reach. *)
From S2P Require Import Prelude Proto State KmsProto KmsModes KmsState KmsBo KmsEv KmsBackend KmsCommit KmsFw KmsMain KmsVblank KmsAside KmsRefs KmsRefOps KmsPool KmsRefKept KmsRefCommit KmsRefFlip KmsRefReq KmsReach KmsBoot.

Section env.
Context `{K : KEnv}.

(** The server started and got to [s]. *)
Definition running (s : kms_srv_t) : Prop :=
  ∃ o vb force id rc timing edid s0, kms_start o vb force id rc timing edid = Some s0 ∧ kreach s0 s.
Lemma running_sound s : running s → sound s ∧ one_head s.
Proof.
  intros (o & vb & fo & id & rc & t & e & s0 & H0 & H). apply start_fresh in H0. destruct (fresh_refs _ H0) as [H1 H2]. destruct (reach_keeps _ _ H H2) as [G1 G2].
  split; [|unfold one_head; by rewrite G2]. apply G1. split; [done|]. apply armed_not. by rewrite (fr_pend _ H0).
Qed.
Lemma running_ok s : running s → refs_ok s ∧ one_head s.
Proof. intros H. by destruct (running_sound s H) as [[] ]. Qed.

(** How many planes of the CRTC show framebuffer [id], and will once the commit completes. *)
Definition shown_by (s : kms_srv_t) (id : Z) : Z := countZ (λ p, fb_id (cs_cur (ks_crtc s 0) p) =? id) 0 KMS_PLANES_PER_CRTC.
Definition pending_by (s : kms_srv_t) (id : Z) : Z :=
  countZ (λ p, pending_planes (ks_crtc s 0) p && (fb_id (cs_pst (ks_crtc s 0) p) =? id)) 0 KMS_PLANES_PER_CRTC.
Lemma countZ_split p a b : 0 ≤ a → 0 ≤ b → countZ p 0 (a + b) = countZ p 0 a + countZ (λ i, p (a + i)) 0 b.
Proof.
  intros Ha. revert b. apply sumZ_ind.
  - unfold countZ. rewrite Z.add_0_r, (sumZ_stop (λ i, b2z (p (a + i)))) by lia. lia.
  - intros h Hh IH. unfold countZ in *. rewrite Z.add_assoc, !(sumZ_last _ 0) by lia. rewrite IH. lia.
Qed.
Lemma fb_holders_split s id : id ≠ 0 → countZ (λ q, slots_of (ks_crtc s 0) (pending_planes (ks_crtc s 0)) q =? id) 0 SLOTS = shown_by s id + pending_by s id.
Proof.
  intros Hid. unfold SLOTS. replace (2 * KMS_PLANES_PER_CRTC) with (KMS_PLANES_PER_CRTC + KMS_PLANES_PER_CRTC) by done. rewrite countZ_split by done. f_equal; apply countZ_ext; intros p Hp.
  - cbv beta. rewrite slots_pst by lia. destruct (pending_planes _ _); [done|]. cbn [andb]. apply Z.eqb_neq. lia.
Qed.

(** C4: reference counts are exact in every state the server reaches: a framebuffer's count
    is its creator's reference plus the planes that show it plus the planes of the pending
    commit that will, a buffer's is its open handle plus the framebuffers made of it plus the
    aliases imported from it; every object in use has at least one, ids are unique, and what
    a plane shows is a framebuffer in use. *)
Theorem kms_refs_exact s : running s →
  (∀ i, is_fb s i → let f := ks_fbs s i in
     kf_refs f = b2z (kf_user_ref f) + shown_by s (kf_id f) + pending_by s (kf_id f) ∧ 1 ≤ kf_refs f ∧ kms_fb_lookup s (kf_id f) = Some i) ∧
  (∀ b, is_bo s b → let o := ks_bos s b in
     kb_refs o = b2z (kb_handle_open o) + countZ (fb_of s b) 0 KMS_MAX_FBS + countZ (alias_of s b) 0 KMS_MAX_BOS ∧ 1 ≤ kb_refs o) ∧
  (∀ p, 0 ≤ p < KMS_PLANES_PER_CRTC → fb_id (cs_cur (ks_crtc s 0) p) ≠ 0 → ∃ i, kms_fb_lookup s (fb_id (cs_cur (ks_crtc s 0) p)) = Some i).
Proof.
  intros Hr. destruct (running_ok s Hr) as [[Hinv _] _]. split_and!.
  - intros i Hi. cbv zeta. pose proof (ri_fb_id _ _ _ _ Hinv i Hi). destruct (ri_fb_refs _ _ _ _ Hinv i Hi) as [H1 H2]. unfold fb_holders in H1.
    rewrite fb_holders_split, occ_None in H1 by lia. split; [lia|]. split; [done|]. by eapply fb_lookup_is.
  - intros b Hb. cbv zeta. destruct (ri_bo_refs _ _ _ _ Hinv b Hb) as [H1 H2]. unfold bo_holders in H1. rewrite occ_None in H1. split; [lia|done].
  - intros p Hp H0. destruct (fb_lookup_on _ _ _ _ p Hinv) as [[_ E]|(i & E & _)]; [unfold SLOTS; unfold KMS_PLANES_PER_CRTC in *; lia|..]; rewrite slots_cur in E by done; [done|by exists i].
Qed.

(** The memory behind a buffer: a window of the scan-out pool that no other buffer has; a
    slot of the firmware framebuffer, marked as taken, that no other buffer has; the window
    of the pool buffer it is an alias of; or, for an imported buffer, an object of its
    exporter, all of it. *)
Definition window_ok (s : kms_srv_t) (b : Z) : Prop :=
  0 ≤ off_of s b ∧ end_of s b ≤ op_pool_size (ks_opt s) ∧ kb_pa (ks_bos s b) = u64 (op_pool_pa (ks_opt s) + off_of s b) ∧
  ∀ b', pool_bo s b' → b' ≠ b → end_of s b ≤ off_of s b' ∨ end_of s b' ≤ off_of s b.
(** Bytes from the start of the firmware framebuffer. *)
Definition slot_off (s : kms_srv_t) (b : Z) : Z := kb_slot (ks_bos s b) * op_fb_h (ks_opt s) * op_fb_pitch (ks_opt s).
Definition slot_ok (s : kms_srv_t) (b : Z) : Prop :=
  slot_at (ks_opt s) (ks_bos s b) ∧ Z.testbit (ks_slot_used s) (kb_slot (ks_bos s b)) = true ∧
  ∀ b', slot_bo s b' → b' ≠ b → kb_slot (ks_bos s b') ≠ kb_slot (ks_bos s b) ∧
    (0 ≤ op_fb_h (ks_opt s) < 2 ^ 32 → 0 ≤ op_fb_pitch (ks_opt s) < 2 ^ 32 →
     slot_off s b + kb_size (ks_bos s b) ≤ slot_off s b' ∨ slot_off s b' + kb_size (ks_bos s b') ≤ slot_off s b).
Definition memory_ok (s : kms_srv_t) (b : Z) : Prop :=
  match kb_kind (ks_bos s b) with
  | KMS_BOK_POOL => window_ok s b
  | KMS_BOK_ALIAS => let src := kb_alias_src (ks_bos s b) in
      pool_bo s src ∧ window_ok s src ∧ kb_pa (ks_bos s src) = kb_pa (ks_bos s b) ∧ kb_size (ks_bos s src) = kb_size (ks_bos s b)
  | KMS_BOK_SLOT => slot_ok s b
  | KMS_BOK_IMPORT => import_at (ks_bos s b)
  end.
Lemma pool_window s b : pool_inv s → pool_bo s b → window_ok s b.
Proof. intros Hp Hb. destruct (pi_window _ Hp b Hb) as ([H1 H2] & H3 & H4). split_and!; try done. intros b' Hb' Hne. by apply Hp. Qed.

(** Slots are whole rows apart and start on pages, so rounding up to a page cannot make two
    of them overlap. *)
Lemma page_round_le n m : 0 ≤ n → n + PAGE_SIZE ≤ 2 ^ 64 → n ≤ m → m mod PAGE_SIZE = 0 → KMS_PAGE_ROUND n ≤ m.
Proof.
  intros H0 H1 Hle Hm. unfold KMS_PAGE_ROUND, PAGE_SIZE in *. rewrite (u64_small (n + 4096 - 1)) by lia. set (x := n + 4096 - 1).
  assert (Z.land x (u64 (Z.lnot (4096 - 1))) = Z.shiftl (Z.shiftr x 12) 12) as ->.
  { unfold u64. rewrite <- Z.land_ones by done. rewrite (Z.land_comm (Z.lnot _)), Z.land_assoc, Z.land_ones, Z.mod_small by lia.
    change (4096 - 1) with (Z.ones 12). rewrite <- Z.ldiff_land. by apply Z.ldiff_ones_r. }
  rewrite Z.shiftl_mul_pow2, Z.shiftr_div_pow2 by done. change (2 ^ 12) with 4096.
  apply Z.mod_divide in Hm as [k ->]; [|done]. enough (x / 4096 < k + 1) by lia. apply Z.div_lt_upper_bound; unfold x; lia.
Qed.
Lemma page_aligned pa off : Z.land (u64 (pa + off)) (PAGE_SIZE - 1) = 0 → (pa + off) mod PAGE_SIZE = 0.
Proof.
  unfold PAGE_SIZE. change (4096 - 1) with (Z.ones 12). rewrite Z.land_ones by done. unfold u64. intros H. change (2 ^ 12) with 4096 in H.
  rewrite <- H. change (2 ^ 64) with (4096 * 2 ^ 52). symmetry. by rewrite Z.rem_mul_r, Z.mul_comm, Z.mod_add, Z.mod_mod by done.
Qed.
Lemma slots_apart o c c' : slot_at o c → slot_at o c' → kb_slot c < kb_slot c' → 0 ≤ op_fb_h o < 2 ^ 32 → 0 ≤ op_fb_pitch o < 2 ^ 32 →
  kb_slot c * op_fb_h o * op_fb_pitch o + kb_size c ≤ kb_slot c' * op_fb_h o * op_fb_pitch o.
Proof.
  intros (Hr & Ep & Ha & Es) (_ & Ep' & Ha' & _) Hlt Hh Hp. rewrite Ep in Ha. rewrite Ep' in Ha'. apply page_aligned in Ha, Ha'. rewrite Es.
  enough (KMS_PAGE_ROUND (op_fb_pitch o * op_fb_h o) ≤ (kb_slot c' - kb_slot c) * (op_fb_h o * op_fb_pitch o)) by lia.
  apply page_round_le; [nia|unfold PAGE_SIZE; nia|nia|].
  replace ((kb_slot c' - kb_slot c) * (op_fb_h o * op_fb_pitch o)) with
    ((op_fb_pa o + kb_slot c' * op_fb_h o * op_fb_pitch o) - (op_fb_pa o + kb_slot c * op_fb_h o * op_fb_pitch o)) by lia.
  by rewrite Zminus_mod, Ha, Ha'.
Qed.
Lemma slot_own s b : own_inv s → slot_bo s b → slot_ok s b.
Proof.
  intros Ho Hb. split_and!; [by apply oi_slot|by apply oi_used|]. intros b' Hb' Hne. split; [by apply oi_apart|]. intros Hh Hp.
  pose proof (oi_apart _ Ho b' b Hb' Hb Hne). pose proof (oi_slot _ Ho b Hb) as H1. pose proof (oi_slot _ Ho b' Hb') as H2. unfold slot_off.
  destruct (Z.lt_total (kb_slot (ks_bos s b)) (kb_slot (ks_bos s b'))) as [Hlt|[|Hlt]]; [left|done|right]; by apply slots_apart.
Qed.
Lemma memory_live on hf hb s b : refs_inv on hf hb s → mem_inv s → is_bo s b → memory_ok s b.
Proof.
  intros Hinv [Hp Ho] Hb. pose proof Hb as [_ Hu]. unfold memory_ok. destruct (kb_kind (ks_bos s b)) eqn:Ek;
    [by apply pool_window|by apply slot_own|by apply oi_import|].
  destruct (ri_alias _ _ _ _ Hinv b Hb Ek) as (H1 & H2 & H3 & H4). cbv zeta. split_and!; try done. by apply pool_window.
Qed.

End env.
