(* ===== verification/KmsCommitSpec.v ===== *)
(** Commits: accepted whole or refused without a trace, and once the firmware has them on
    the screen whole at one of the next two vblanks. *)
From S2P Require Import Prelude Proto State KmsProto KmsModes KmsState KmsBo KmsEv KmsBackend KmsCommit KmsFw KmsMain KmsVblank KmsAside KmsRefs KmsRefOps KmsPool KmsRefKept KmsRefCommit KmsRefFlip KmsRefReq KmsReach KmsBoot KmsSpec.
From Stdlib Require Import FunctionalExtensionality.

Section env.
Context `{K : KEnv}.

(** ** What accepting leaves in the CRTC *)
Definition taken (c : kms_crtc_state_t) (st : kms_atomic_plane_t) : kms_atomic_plane_t :=
  st <| crtc_id := if fb_id st =? 0 then 0 else KMS_ID_CRTC (cs_idx c) |>.
Lemma take_plane_crtc x s : ks_crtc (take_plane 0 s x) 0 = ks_crtc s 0 <| cs_pst ::= λ a, <[x.1 := taken (ks_crtc s 0) x.2]> a |>.
Proof.
  destruct x as [p st]. unfold take_plane. cbv zeta. set (s1 := set_crtc 0 _ s). assert (ks_crtc (kms_fb_ref (kms_fb_lookup s1 (fb_id st)) s1) = ks_crtc s1) as -> by (by destruct (kms_fb_lookup _ _)).
  unfold s1. rewrite set_crtc_eq. unfold taken. cbn [fst snd]. by destruct (fb_id st =? 0).
Qed.
Lemma take_planes_crtc l : ∀ s, NoDup l.*1 → let c := ks_crtc (foldl (take_plane 0) s l) 0 in
  cs_cur c = cs_cur (ks_crtc s 0) ∧ cs_idx c = cs_idx (ks_crtc s 0) ∧
  (∀ p st, (p, st) ∈ l → cs_pst c p = taken (ks_crtc s 0) st) ∧ (∀ p, p ∉ l.*1 → cs_pst c p = cs_pst (ks_crtc s 0) p).
Proof.
  induction l as [|[q st] l IH]; intros s Hn; [split_and!; try done; by intros ? ? ?%elem_of_nil|]. apply NoDup_cons in Hn as [Hq Hn]. cbn [foldl]. cbv zeta.
  pose proof (take_plane_crtc (q, st) s) as E. cbn [fst snd] in E. revert E. generalize (take_plane 0 s (q, st)). intros s1 E. destruct (IH s1 Hn) as (H1 & H2 & H3 & H4).
  set (c := ks_crtc (foldl _ s1 l) 0) in *. clearbody c. rewrite E in H1, H2, H3, H4. split; [exact H1|]. split; [exact H2|]. split.
  - intros p st' [[= -> ->]|Hp]%elem_of_cons; [|by rewrite (H3 p st' Hp)]. rewrite H4 by done. apply fn_upd_eq.
  - intros p Hp. cbn in Hp. apply not_elem_of_cons in Hp as [Hne Hp]. rewrite H4 by done. by apply fn_upd_ne.
Qed.
Lemma carry_plane_crtc carry p s : let c := ks_crtc (carry_plane 0 carry p s) 0 in
  cs_cur c = cs_cur (ks_crtc s 0) ∧ cs_idx c = cs_idx (ks_crtc s 0) ∧ (∀ q, Z.testbit carry q = false → cs_pst c q = cs_pst (ks_crtc s 0) q).
Proof.
  unfold carry_plane. destruct (Z.testbit carry p) eqn:Ec; cbn [negb]; [|done]. cbv zeta. set (ok := match kms_fb_lookup s _ with Some _ => _ | None => false end).
  set (s1 := set_crtc 0 _ s). assert (∀ fb, ks_crtc (if ok then kms_fb_ref fb s1 else s1) = ks_crtc s1) as -> by (intros []; by destruct ok).
  unfold s1. rewrite set_crtc_eq. split_and!; [done|done|]. intros q Hq. apply fn_upd_ne. intros ->. congruence.
Qed.
Lemma carry_planes_crtc carry s : let c := ks_crtc (for_ 0 KMS_PLANES_PER_CRTC (carry_plane 0 carry) s) 0 in
  cs_cur c = cs_cur (ks_crtc s 0) ∧ cs_idx c = cs_idx (ks_crtc s 0) ∧ (∀ q, Z.testbit carry q = false → cs_pst c q = cs_pst (ks_crtc s 0) q).
Proof.
  apply (for_inv (λ s', let c := ks_crtc s' 0 in cs_cur c = cs_cur (ks_crtc s 0) ∧ cs_idx c = cs_idx (ks_crtc s 0) ∧
    (∀ q, Z.testbit carry q = false → cs_pst c q = cs_pst (ks_crtc s 0) q))); [done|]. intros p s1 _ (H1 & H2 & H3).
  destruct (carry_plane_crtc carry p s1) as (G1 & G2 & G3). split_and!; [by rewrite G1|by rewrite G2|]. intros q Hq. by rewrite G3, H3.
Qed.

Lemma commit_accept_spec cl l mask carry flags user nm m s :
  NoDup l.*1 → (∀ p, p ∈ l.*1 → Z.testbit mask p = true ∧ Z.testbit carry p = false) →
  let r := commit_accept cl 0 l mask carry flags user nm m s in let c := ks_crtc s 0 in let c' := ks_crtc r.2 0 in
  cs_pend c' ≠ KMS_PEND_NONE ∧ cs_pclient c' = cl ∧ cs_puser c' = user ∧ cs_pevent c' = has flags KMS_PAGE_FLIP_EVENT ∧ cs_cur c' = cs_cur c ∧
  (∃ applied us, r.1 = Some (mkFlip (cs_seq c) applied us)) ∧
  (∀ p, p ∈ l.*1 → Z.testbit (cs_pmask c') p = true) ∧ (∀ p st, (p, st) ∈ l → cs_pst c' p = taken c st).
Proof.
  intros Hn Hl. cbv zeta. unfold commit_accept.
  destruct (take_planes_crtc l s Hn) as (H1 & H2 & H3 & H4). assert (cs_seq (ks_crtc (foldl (take_plane 0) s l) 0) = cs_seq (ks_crtc s 0)) as H5.
  { apply (shell_field cs_seq); [done|]. apply pstep_foldl, pstep_take. }
  set (s2 := foldl (take_plane 0) s l) in *. clearbody s2.
  destruct (carry_planes_crtc carry s2) as (G1 & G2 & G3). assert (cs_seq (ks_crtc (for_ 0 KMS_PLANES_PER_CRTC (carry_plane 0 carry) s2) 0) = cs_seq (ks_crtc s2 0)) as G5.
  { apply (shell_field cs_seq); [done|]. apply pstep_for, pstep_carry. }
  set (s3 := for_ 0 _ _ s2) in *. clearbody s3. set (s4 := if mode_moves _ _ then _ else _). assert (quiet s3 s4) as [Q4 _].
  { unfold s4. destruct (mode_moves _ _); [apply quiet_umode_set|]. destruct nm; [|done]. destruct (negb _); [|done]. by apply quiet_crtc. }
  clearbody s4. unfold kms_cnt. cbv beta iota. set (now := u64 _). set (f := λ c : kms_crtc_state_t, _). set (s5 := set_crtc 0 f (kms_tick s4)).
  assert (ks_crtc s5 0 = f (ks_crtc s4 0)) as E5 by (unfold s5; by rewrite set_crtc_eq). clearbody s5.
  pose proof (try_apply_tried s5) as T. destruct (kms_try_apply 0 s5) as [armed s6]. cbn [fst snd] in *. destruct (tried_pending _ _ _ T) as (P1 & P2 & P3 & _).
  assert (cs_pend (ks_crtc s6 0) ≠ KMS_PEND_NONE ∧ cs_pclient (ks_crtc s6 0) = cl ∧ cs_puser (ks_crtc s6 0) = user ∧ cs_pevent (ks_crtc s6 0) = has flags KMS_PAGE_FLIP_EVENT) as (A1 & A2 & A3 & A4).
  { destruct (tr_crtc _ _ _ T) as [E|(_ & now' & s0 & _ & E)]; rewrite E; [rewrite E5; done|]. rewrite E5. done. }
  assert (cs_cur (ks_crtc s6 0) = cs_cur (ks_crtc s 0)) as A5 by (rewrite P1, E5; change (cs_cur (f (ks_crtc s4 0))) with (cs_cur (ks_crtc s4 0)); by rewrite (sh_cur _ _ Q4), G1, H1).
  assert (cs_seq (ks_crtc s5 0) = cs_seq (ks_crtc s 0)) as A6 by (rewrite E5; change (cs_seq (f (ks_crtc s4 0))) with (cs_seq (ks_crtc s4 0)); by rewrite (sh_seq _ _ Q4), G5, H5).
  assert (∀ p, p ∈ l.*1 → Z.testbit (cs_pmask (ks_crtc s6 0)) p = true) as A7.
  { intros p Hp. rewrite P3, E5. change (cs_pmask (f (ks_crtc s4 0))) with (Z.lor mask carry). rewrite Z.lor_spec. by rewrite (proj1 (Hl p Hp)). }
  assert (∀ p st, (p, st) ∈ l → cs_pst (ks_crtc s6 0) p = taken (ks_crtc s 0) st) as A8.
  { intros p st Hp. rewrite P2, E5. change (cs_pst (f (ks_crtc s4 0))) with (cs_pst (ks_crtc s4 0)). assert (p ∈ l.*1) as Hp1 by (by apply (list_elem_of_fmap_2 fst l (p, st))).
    rewrite (sh_pst _ _ Q4), G3 by (by apply Hl). by rewrite (H3 p st Hp). }
  assert (∀ x, ks_crtc x 0 = ks_crtc s6 0 → cs_pend (ks_crtc x 0) ≠ KMS_PEND_NONE ∧ cs_pclient (ks_crtc x 0) = cl ∧ cs_puser (ks_crtc x 0) = user ∧
    cs_pevent (ks_crtc x 0) = has flags KMS_PAGE_FLIP_EVENT ∧ cs_cur (ks_crtc x 0) = cs_cur (ks_crtc s 0)) as Hx by (by intros x ->).
  clear T H1 H2 H3 H4 H5 G1 G2 G3 G5 P1 P2 P3. destruct armed; cbn [fst snd]; rewrite A6.
  - split_and!; try done. by eexists _, _.
  - set (s7 := if negb _ then _ else _). assert (ks_crtc s7 0 = ks_crtc s6 0) as E7 by (unfold s7; by destruct (negb _)). clearbody s7. rewrite E7. split_and!; try done. by eexists _, _.
Qed.

Lemma commit_planes_err c sts : ∀ m, commit_planes c sts m ≠ inl 0.
Proof.
  induction sts as [|st sts IH]; intros m; cbn [commit_planes]; [done|]. destruct (plane_idx _ _) as [q|]; [|done]. destruct (Z.testbit m q); [done|].
  specialize (IH (Z.setbit m q)). destruct (commit_planes _ sts _) as [e|[]]; [|done]. intros [= ->]. by apply IH.
Qed.
Lemma commit_planes_in c sts : ∀ m m' idx, commit_planes c sts m = inr (m', idx) →
  ∀ st, st ∈ sts → ∃ p, plane_idx c (plane_id st) = Some p ∧ (p, st) ∈ zip idx sts.
Proof.
  induction sts as [|st sts IH]; intros m m' idx; cbn [commit_planes]; [by intros _ ? ?%elem_of_nil|]. destruct (plane_idx c (plane_id st)) as [p|] eqn:Ep; [|done].
  destruct (Z.testbit m p); [done|]. destruct (commit_planes _ sts _) as [e|[m2 idx2]] eqn:E; [done|]. intros [= <- <-] x [->|Hx]%elem_of_cons.
  - exists p. split; [done|by left].
  - destruct (IH _ _ _ E x Hx) as (q & Hq & Hi). exists q. split; [done|by right].
Qed.

(** Putting the fit back undoes the attempt. *)
Lemma set_crtc_back f g s : g (f (ks_crtc s 0)) = ks_crtc s 0 → set_crtc 0 g (set_crtc 0 f s) = s.
Proof.
  intros H. destruct s. unfold set_crtc in *. cbn in *. f_equal. apply functional_extensionality. intros i. rewrite fn_upd_eq, !fn_upd_case.
  by case_decide; [subst|].
Qed.
Lemma set_crtc_same f s : f (ks_crtc s 0) = ks_crtc s 0 → set_crtc 0 f s = s.
Proof.
  intros H. destruct s. unfold set_crtc. cbn in *. f_equal. apply functional_extensionality. intros i. rewrite fn_upd_case. by case_decide; [subst|].
Qed.
Lemma commit_fit_back m s : set_crtc 0 (λ d, d <| cs_fit := cs_fit (ks_crtc s 0) |>) (commit_fit 0 m s) = s.
Proof.
  unfold commit_fit. destruct (mode_moves _ _); [apply set_crtc_back|apply set_crtc_same]; by destruct (ks_crtc s 0).
Qed.

(** What a commit does, refused and accepted. *)
Lemma commit_outcome cl sts flags user nm s :
  let '(rc, out, s') := commit cl 0 sts flags user nm s in
  (rc ≠ 0 ∨ has flags KMS_ATOMIC_TEST_ONLY = true → s' = s ∧ out = None) ∧
  (rc = 0 → has flags KMS_ATOMIC_TEST_ONLY = false →
    let c := ks_crtc s 0 in let c' := ks_crtc s' 0 in
    cs_pend c = KMS_PEND_NONE ∧ cs_pend c' ≠ KMS_PEND_NONE ∧ cs_pclient c' = cl ∧ cs_puser c' = user ∧ cs_pevent c' = has flags KMS_PAGE_FLIP_EVENT ∧
    cs_cur c' = cs_cur c ∧ (∃ applied us, out = Some (mkFlip (cs_seq c) applied us)) ∧
    ∀ st, st ∈ sts → ∃ p, plane_idx c (plane_id st) = Some p ∧ Z.testbit (cs_pmask c') p = true ∧ cs_pst c' p = taken c st).
Proof.
  unfold commit. destruct (_ <? _); [by split|]. cbv zeta. destruct (commit_planes _ sts 0) as [e|[mask idx]] eqn:Ec.
  { split; [done|]. intros ->. by apply commit_planes_err in Ec. }
  pose proof (commit_planes_in _ _ _ _ _ Ec) as Hin.
  apply commit_planes_spec in Ec as (Hlen & Hnd & Hidx & Hmask). set (l := zip idx sts) in *. set (m := commit_mode _ _ _).
  rewrite commit_fit_back. pose proof (commit_fit_same m s) as (_ & [fit E1] & _). set (s1 := commit_fit 0 m s) in *. clearbody s1.
  set (carry := if mode_moves _ _ then for_ _ _ _ _ else 0).
  destruct (Z.eqb_spec (validate_all cl s1 (ks_crtc s1 0) l) 0) as [Ev|]; cbn [negb]; [|by split]. destruct (has flags KMS_ATOMIC_TEST_ONLY) eqn:Et; [by split|].
  destruct (bool_decide_reflect (cs_pend (ks_crtc s 0) = KMS_PEND_NONE)) as [Hp|]; cbn [negb]; [|by split].
  assert (l.*1 = idx) as El by (unfold l; rewrite fst_zip; [done|by rewrite Hlen]).
  pose proof (commit_accept_spec cl l mask carry flags user nm m s1) as H. cbv zeta in H. rewrite E1 in H. destruct (commit_accept _ _ _ _ _ _ _ _ _ _) as [out s']. cbn [fst snd] in *.
  destruct H as (H1 & H2 & H3 & H4 & H5 & H6 & H7 & H8).
  - by rewrite El.
  - rewrite El. intros p Hpi. destruct (Hidx p Hpi) as [Hr _]. assert (Z.testbit mask p = true) as Hm by (rewrite Hmask, Z.bits_0 by lia; by apply bool_decide_true). split; [done|].
    unfold carry. destruct (mode_moves _ _); [|apply Z.bits_0]. apply not_true_is_false. intros Hc. apply carry_mask in Hc; [congruence|lia].
  - split; [by intros [?|?]|]. intros _ _. split_and!; try done. intros st Hst. destruct (Hin st Hst) as (p & Hpi & Hl). exists p. split; [done|].
    split; [|by apply H8]. apply H7. by apply (list_elem_of_fmap_2 fst l (p, st)).
Qed.

(** C16: a commit is all or nothing.  Refused, or only tested, it leaves the server's state
    exactly as it was.  Accepted, nothing was pending before, nothing on the screen changes
    yet, every plane it names is pending with exactly the state it asks for (on the CRTC, or
    on none when it shows nothing), and the reply carries the vblank count. *)
Theorem commit_all_or_nothing cl sts flags user nm s :
  let '(rc, out, s') := commit cl 0 sts flags user nm s in
  (rc ≠ 0 ∨ has flags KMS_ATOMIC_TEST_ONLY = true → s' = s ∧ out = None) ∧
  (rc = 0 → has flags KMS_ATOMIC_TEST_ONLY = false →
    let c := ks_crtc s 0 in let c' := ks_crtc s' 0 in
    cs_pend c = KMS_PEND_NONE ∧ cs_pend c' ≠ KMS_PEND_NONE ∧ cs_pclient c' = cl ∧ cs_puser c' = user ∧ cs_pevent c' = has flags KMS_PAGE_FLIP_EVENT ∧
    cs_cur c' = cs_cur c ∧ (∃ applied us, out = Some (mkFlip (cs_seq c) applied us)) ∧
    ∀ st, st ∈ sts → ∃ p, plane_idx c (plane_id st) = Some p ∧ Z.testbit (cs_pmask c') p = true ∧ cs_pst c' p = taken c st).
Proof. apply commit_outcome. Qed.

(** ** What completing leaves in the CRTC *)
Lemma complete_plane_crtc p s : let c := ks_crtc s 0 in let c' := ks_crtc (complete_plane 0 p s) 0 in
  cs_cur c' = (if Z.testbit (cs_pmask c) p then <[p := cs_pst c p]> (cs_cur c) else cs_cur c) ∧ cs_pst c' = cs_pst c ∧ cs_pmask c' = cs_pmask c.
Proof.
  cbv zeta. unfold complete_plane. cbv zeta. destruct (Z.testbit _ p) eqn:E; cbn [negb]; [|done]. rewrite unref_crtc, set_crtc_eq. by split_and!.
Qed.
Definition on_screen (c : kms_crtc_state_t) (p : Z) : kms_atomic_plane_t := if Z.testbit (cs_pmask c) p then cs_pst c p else cs_cur c p.
Lemma complete_planes_cur s p : 0 ≤ p < KMS_PLANES_PER_CRTC → cs_cur (ks_crtc (for_ 0 KMS_PLANES_PER_CRTC (complete_plane 0) s) 0) p = on_screen (ks_crtc s 0) p.
Proof.
  intros Hp. set (c := ks_crtc s 0).
  pose proof (for_ind (λ k s', let c' := ks_crtc s' 0 in (∀ q, cs_cur c' q = if bool_decide (0 ≤ q < k) then on_screen c q else cs_cur c q) ∧
    cs_pst c' = cs_pst c ∧ cs_pmask c' = cs_pmask c) 0 KMS_PLANES_PER_CRTC (complete_plane 0) s) as L.
  change (Z.max 0 KMS_PLANES_PER_CRTC) with KMS_PLANES_PER_CRTC in L. destruct L as (L & _).
  - split; [|done]. intros q. rewrite bool_decide_false by lia. done.
  - intros q s1 Hq (H1 & H2 & H3). destruct (complete_plane_crtc q s1) as (G1 & G2 & G3). split; [|by rewrite G2, G3]. intros x. rewrite G1, H2, H3. unfold on_screen at 1.
    destruct (decide (x = q)) as [->|Hne].
    + rewrite bool_decide_true by lia. destruct (Z.testbit (cs_pmask c) q) eqn:E; [apply fn_upd_eq|]. rewrite H1. by rewrite bool_decide_false by lia.
    + transitivity (cs_cur (ks_crtc s1 0) x); [destruct (Z.testbit (cs_pmask c) q); [by apply fn_upd_ne|done]|]. rewrite H1. unfold on_screen.
      destruct (decide (0 ≤ x < q)); [by rewrite !bool_decide_true by lia|by rewrite !bool_decide_false by lia].
  - rewrite L. by rewrite bool_decide_true.
Qed.
Lemma complete_cur cnt s p : 0 ≤ p < KMS_PLANES_PER_CRTC → cs_cur (ks_crtc (complete 0 cnt s) 0) p = on_screen (ks_crtc s 0) p.
Proof.
  intros Hp. unfold complete. cbv zeta. rewrite <- (complete_planes_cur s p Hp). set (s1 := for_ 0 _ _ s). rewrite (as_crtc _ _ (aside_console_update _)).
  set (s2 := if cs_pevent _ then _ else s1). assert (ks_crtc s2 = ks_crtc s1) as E by (unfold s2; destruct (cs_pevent _); [apply (dl_crtc _ _ (ev_vblank_frame _ _ _ _ _ _ _))|done]).
  clearbody s2. change (ks_crtc (count_flip ?k ?x)) with (ks_crtc x). change (ks_crtc (kstat ?f ?x)) with (ks_crtc x). rewrite set_crtc_eq. change (cs_cur (ks_crtc s2 0) p = cs_cur (ks_crtc s1 0) p). by rewrite E.
Qed.
(** A vblank moves the count and settles the commit; the rest of it leaves the CRTC alone. *)
Lemma on_vblank_crtc cnt n s a : let c := ks_crtc s 0 in let c' := ks_crtc (kms_on_vblank 0 cnt n (s, a)).1 0 in
  (cs_pend c = KMS_PEND_NONE → cs_pend c' = KMS_PEND_NONE ∧ cs_cur c' = cs_cur c) ∧
  (cs_pend c = KMS_PEND_ARMED → cs_ptarget_seq c ≤ cs_seq c + n → cs_pend c' = KMS_PEND_NONE ∧ ∀ p, 0 ≤ p < KMS_PLANES_PER_CRTC → cs_cur c' p = on_screen c p) ∧
  (cs_pend c = KMS_PEND_ARMED → cs_seq c + n < cs_ptarget_seq c → cs_pend c' = KMS_PEND_ARMED ∧ cs_cur c' = cs_cur c ∧ cs_pst c' = cs_pst c ∧
     cs_pmask c' = cs_pmask c ∧ cs_ptarget_seq c' = cs_ptarget_seq c ∧ cs_seq c' = cs_seq c + n).
Proof.
  cbv zeta. unfold kms_on_vblank. cbv zeta. set (s1 := set_crtc 0 _ s).
  assert (ks_crtc s1 0 = ks_crtc s 0 <| cs_seq ::= λ k, k + n |> <| cs_last_vbl_cnt := cnt |>) as E1 by (unfold s1; by rewrite set_crtc_eq). clearbody s1.
  set (s2 := vblank_flip 0 cnt s1). assert (same_held s2 (serve_reads (for_ 0 KMS_MAX_PARKED (vblank_one 0 cnt) (for_ 0 KMS_MAX_VBL_EVENTS (vblev_one 0 cnt) s2, a))).1) as H.
  { set (s3 := for_ 0 KMS_MAX_VBL_EVENTS (vblev_one 0 cnt) s2). assert (same_held s2 s3) as H3 by apply held_for, held_vblev. clearbody s3. etrans; [exact H3|].
    unfold serve_reads. etrans; [|apply held_walk, held_serve]. apply (held_walk _ _ _ (s3, a)), held_vblank_one. }
  set (s4 := (serve_reads _).1) in *. clearbody s4. destruct H as [_ _ _ _ _ H1 H2 H3 H4 H5 H6]. rewrite H1, H2, H3, H4, H5, H6. clear H1 H2 H3 H4 H5 H6. unfold s2, vblank_flip. cbv zeta. rewrite E1.
  cbn [cs_pend cs_ptarget_seq cs_seq upd eta eta_crtc]. split_and!.
  - intros Ep. rewrite Ep, E1. by split.
  - intros Ep Hle. rewrite Ep, (proj2 (Z.leb_le _ _)) by done. split; [apply complete_pend|]. intros p Hp. rewrite complete_cur by done. by rewrite E1.
  - intros Ep Hlt. rewrite Ep, (proj2 (Z.leb_gt _ _)) by done. rewrite E1. by split_and!.
Qed.

(** C17: a commit the firmware has reaches the screen within two vblanks, whole: in every
    reachable state with an armed commit, after the next two vblanks no commit is pending and
    every plane shows what the commit asked for, or what it showed where the commit left it
    alone; nothing in between shows a part of it. *)
Theorem armed_commit_completes s a cnt1 n1 cnt2 n2 : running s → cs_pend (ks_crtc s 0) = KMS_PEND_ARMED → 1 ≤ n1 → 1 ≤ n2 →
  let st1 := kms_on_vblank 0 cnt1 n1 (s, a) in let st2 := kms_on_vblank 0 cnt2 n2 st1 in
  let shows x := ∀ p, 0 ≤ p < KMS_PLANES_PER_CRTC → cs_cur (ks_crtc x 0) p = on_screen (ks_crtc s 0) p in
  (cs_cur (ks_crtc st1.1 0) = cs_cur (ks_crtc s 0) ∨ shows st1.1) ∧ cs_pend (ks_crtc st2.1 0) = KMS_PEND_NONE ∧ shows st2.1.
Proof.
  intros Hr Hp H1 H2. destruct (running_sound s Hr) as [[_ Ha] _]. specialize (Ha Hp). cbv zeta. destruct (on_vblank_crtc cnt1 n1 s a) as (_ & V1 & V2).
  destruct (kms_on_vblank 0 cnt1 n1 (s, a)) as [s1 a1]. cbn [fst] in *. destruct (on_vblank_crtc cnt2 n2 s1 a1) as (W0 & W1 & _).
  destruct (kms_on_vblank 0 cnt2 n2 (s1, a1)) as [s2 a2]. cbn [fst] in *. destruct (Z.le_gt_cases (cs_ptarget_seq (ks_crtc s 0)) (cs_seq (ks_crtc s 0) + n1)) as [Hle|Hgt].
  - destruct (V1 Hp Hle) as [G1 G2]. destruct (W0 G1) as [G3 G4]. split; [by right|]. split; [done|]. intros p Hpr. rewrite G4. by apply G2.
  - destruct (V2 Hp Hgt) as (G1 & G2 & G3 & G4 & G5 & G6). destruct W1 as [W2 W3]; [done|lia|]. split; [by left|]. split; [done|]. intros p Hpr. rewrite W3 by done. unfold on_screen. by rewrite G2, G3, G4.
Qed.
End env.
