(* ===== verification/KmsTalk.v ===== *)
(** Clients and the requests the display server keeps: every request is answered exactly
    once, and none sleeps past what it waits for. *)
From S2P Require Import Prelude Proto State KmsProto KmsModes KmsState KmsBo KmsEv KmsBackend KmsCommit KmsFw KmsMain KmsVblank KmsAside KmsRefs KmsRefOps KmsPool KmsRefKept KmsRefCommit KmsRefFlip KmsRefReq KmsReach KmsBoot KmsSpec.

(** ** Who is owed an answer *)
Definition occurs (r : Z) (l : list Z) : Z := foldr (λ x n, b2z (x =? r) + n) 0 l.
Lemma occurs_app r l l' : occurs r (l ++ l') = occurs r l + occurs r l'.
Proof. unfold occurs. induction l as [|x l IH]; [done|]. cbn [app foldr]. lia. Qed.
Definition parked_with (s : kms_srv_t) (r : Z) : Z := countZ (λ i, pk_used (ks_parked s i) && (pk_rid (ks_parked s i) =? r)) 0 KMS_MAX_PARKED.
(** How often [r] is parked, claimed or answered. *)
Definition owes (r : Z) (s : kms_srv_t) (a : list kms_parked_t) : Z :=
  parked_with s r + occurs r (pk_rid <$> a) + occurs r (k_replies s).

(** ** Who may sleep *)
Definition asleep_read (s : kms_srv_t) (i : Z) : Prop :=
  let p := ks_parked s i in pk_used p = true → pk_kind p = KMS_PARK_READ → ∀ ci, kms_client_get s (pk_client p) = Some ci → ev_pending s ci = false.
Definition asleep_vblank (s : kms_srv_t) (i : Z) : Prop :=
  let p := ks_parked s i in pk_used p = true → pk_kind p = KMS_PARK_VBLANK → cs_seq (ks_crtc s 0) < pk_target_seq p.
Record parked_ok (s : kms_srv_t) : Prop := mkPkOk {
  po_idx : cs_idx (ks_crtc s 0) = 0;
  po_id i : 0 ≤ i < KMS_MAX_CLIENTS → kc_used (ks_clients s i) = true → kc_id (ks_clients s i) = i + 1;
  po_client i : 0 ≤ i < KMS_MAX_PARKED → pk_used (ks_parked s i) = true →
    is_Some (kms_client_get s (pk_client (ks_parked s i))) ∧ (pk_kind (ks_parked s i) = KMS_PARK_VBLANK → pk_crtc (ks_parked s i) = KMS_ID_CRTC 0);
  po_count : ks_nparked s = countZ (λ i, pk_used (ks_parked s i)) 0 KMS_MAX_PARKED }.
Definition wake_ok (s : kms_srv_t) : Prop := parked_ok s ∧ ∀ i, 0 ≤ i < KMS_MAX_PARKED → asleep_read s i ∧ asleep_vblank s i.

(** ** Steps that leave all this alone *)
Record ktalk (s s' : kms_srv_t) : Prop := mkTalk {
  tk_clients : ks_clients s' = ks_clients s; tk_parked : ks_parked s' = ks_parked s; tk_nparked : ks_nparked s' = ks_nparked s;
  tk_said : k_replies s' = k_replies s; tk_seq : cs_seq (ks_crtc s' 0) = cs_seq (ks_crtc s 0); tk_idx : cs_idx (ks_crtc s' 0) = cs_idx (ks_crtc s 0) }.
#[export] Instance ktalk_pre : PreOrder ktalk.
Proof. split; [by intros ?; constructor|]. intros a b c [] []. constructor; congruence. Qed.
Lemma talk_plane s s' : kplane s s' → ktalk s s'.
Proof. by intros []. Qed.
Lemma talk_side s s' : kside s s' → ktalk s s'.
Proof. intros H. by apply talk_plane, kside_plane. Qed.
Lemma talk_aside s s' : kaside s s' → ktalk s s'.
Proof. intros H. by apply talk_plane, kplane_aside. Qed.
Lemma talk_get s s' id : ktalk s s' → kms_client_get s' id = kms_client_get s id.
Proof. intros []. unfold kms_client_get. by rewrite tk_clients0. Qed.

(** What a step does to the requests: the invariant stays, [rids] are newly owed. *)
Definition fair (rids : list Z) (st st' : kms_srv_t * list kms_parked_t) : Prop :=
  wake_ok st.1 → wake_ok st'.1 ∧ ∀ r, owes r st'.1 st'.2 = owes r st.1 st.2 + occurs r rids.
#[export] Instance fair_pre : PreOrder (fair []).
Proof.
  split; [intros st W; split; [done|intros r; cbn; lia]|]. intros a b c H1 H2 W. destruct (H1 W) as [W1 E1]. destruct (H2 W1) as [W2 E2]. split; [done|]. intros r. rewrite E2, E1. cbn. lia.
Qed.
Lemma fair_seq l l' a b c : fair l a b → fair l' b c → fair (l' ++ l) a c.
Proof. intros H1 H2 W. destruct (H1 W) as [W1 E1]. destruct (H2 W1) as [W2 E2]. split; [done|]. intros r. rewrite E2, E1, occurs_app. lia. Qed.
Lemma fair_then l a b c : fair l a b → fair [] b c → fair l a c.
Proof. intros H1 H2. by apply (fair_seq l [] a b c). Qed.
Lemma fair_after l a b c : fair [] a b → fair l b c → fair l a c.
Proof. intros H1 H2. rewrite <- (app_nil_r l). by apply (fair_seq [] l a b c). Qed.
Lemma parked_ok_talk s s' : ktalk s s' → parked_ok s → parked_ok s'.
Proof.
  intros T []. pose proof T as []. constructor; rewrite ?tk_clients0, ?tk_parked0, ?tk_nparked0, ?tk_idx0; try done. intros i. rewrite (talk_get s s') by done. auto.
Qed.
Lemma asleep_talk s s' i : ktalk s s' → asleep_read s i → asleep_read s' i.
Proof. intros T. pose proof T as []. unfold asleep_read, ev_pending. cbv zeta. rewrite tk_parked0, (talk_get s s'), tk_clients0 by done. done. Qed.
Lemma fair_talk a s s' : ktalk s s' → fair [] (s, a) (s', a).
Proof.
  intros T [H1 H2]. pose proof T as []. split.
  - split; [by apply (parked_ok_talk s)|]. intros i Hi. destruct (H2 i Hi). split; [by apply (asleep_talk s)|].
    unfold asleep_vblank in *. cbn [fst] in *. by rewrite tk_parked0, tk_seq0.
  - intros r. unfold owes, parked_with. cbn [fst snd occurs foldr]. rewrite tk_parked0, tk_said0. lia.
Qed.

(** ** Claiming a parked request *)
Lemma claim_parked i rep s a j : ks_parked (claim i (set_reply i rep s, a)).1 j =
  if decide (i = j) then ks_parked s i <| pk_reply := rep |> <| pk_used := false |> else ks_parked s j.
Proof. unfold claim, set_reply. cbn [fst]. cbn [ks_parked upd eta eta_kms set_parked]. case_decide as Hd; [subst; by rewrite !fn_upd_eq|by rewrite !fn_upd_ne]. Qed.
Section claim.
Context (i : Z) (rep : kms_reply) (s : kms_srv_t) (a : list kms_parked_t).
Context (Hi : 0 ≤ i < KMS_MAX_PARKED) (Hu : pk_used (ks_parked s i) = true).
#[local] Abbreviation st' := (claim i (set_reply i rep s, a)).
Lemma claim_get id : kms_client_get st'.1 id = kms_client_get s id.
Proof. done. Qed.
Lemma claim_ok : parked_ok s → parked_ok st'.1.
Proof.
  intros []. constructor; try done.
  - intros j Hj. rewrite claim_get, claim_parked. case_decide as Hd; [by subst|]. auto.
  - change (ks_nparked st'.1) with (u32 (ks_nparked s - 1)). rewrite po_count0. set (p := λ j, pk_used (ks_parked s j)). set (q := λ j, pk_used (ks_parked st'.1 j)).
    assert (countZ q 0 KMS_MAX_PARKED = countZ p 0 KMS_MAX_PARKED - b2z (p i) + b2z (q i)) as ->.
    { apply countZ_at; [done|]. intros j Hj. unfold p, q. rewrite claim_parked. by rewrite decide_False. }
    assert (p i = true ∧ q i = false) as [-> ->] by (unfold p, q; rewrite claim_parked, decide_True; done).
    pose proof (countZ_most p KMS_MAX_PARKED ltac:(done)). pose proof (countZ_ge p 0 KMS_MAX_PARKED i Hi Hu). unfold KMS_MAX_PARKED in *. cbn [b2z] in *. rewrite u32_small; lia.
Qed.
Lemma claim_asleep j : (asleep_read s j → asleep_read st'.1 j) ∧ (asleep_vblank s j → asleep_vblank st'.1 j).
Proof.
  unfold asleep_read, asleep_vblank. cbv zeta. rewrite claim_parked. case_decide; [by subst|done].
Qed.
Lemma claim_awake : asleep_read st'.1 i ∧ asleep_vblank st'.1 i.
Proof. unfold asleep_read, asleep_vblank. cbv zeta. rewrite claim_parked. by rewrite decide_True. Qed.
Lemma claim_owes r : owes r st'.1 st'.2 = owes r s a.
Proof.
  unfold owes. assert (k_replies st'.1 = k_replies s) as -> by done. assert (pk_rid <$> st'.2 = (pk_rid <$> a) ++ [pk_rid (ks_parked s i)]) as ->.
  { unfold claim. cbn [snd]. rewrite fmap_app. f_equal. cbn. unfold set_reply. cbn. by rewrite fn_upd_eq. }
  rewrite occurs_app. cbn [occurs foldr]. unfold parked_with. set (p := λ j, pk_used (ks_parked s j) && (pk_rid (ks_parked s j) =? r)).
  rewrite (countZ_at p (λ j, pk_used (ks_parked st'.1 j) && (pk_rid (ks_parked st'.1 j) =? r)) KMS_MAX_PARKED i Hi).
  - rewrite claim_parked, decide_True by done. assert (p i = (pk_rid (ks_parked s i) =? r)) as -> by (unfold p; by rewrite Hu). cbn. lia.
  - intros j Hj. unfold p. rewrite claim_parked. by rewrite decide_False.
Qed.
Lemma claim_fair : fair [] (s, a) st'.
Proof.
  intros [H1 H2]. split.
  - split; [by apply claim_ok|]. intros j Hj. destruct (H2 j Hj). destruct (claim_asleep j). auto.
  - intros r. rewrite claim_owes. cbn. lia.
Qed.
End claim.
Lemma walk_fair (f : Z → kms_srv_t * list kms_parked_t → kms_srv_t * list kms_parked_t) st :
  (∀ i st, 0 ≤ i < KMS_MAX_PARKED → fair [] st (f i st)) → fair [] st (for_ 0 KMS_MAX_PARKED f st).
Proof. intros H. apply (for_inv (λ st', fair [] st st')); [done|]. intros i st' Hi H1. etrans; [exact H1|by apply H]. Qed.
Lemma fair_quit i st : 0 ≤ i < KMS_MAX_PARKED → fair [] st (quit_parked i st).
Proof. destruct st as [s a]. intros Hi. unfold quit_parked. cbv zeta. destruct (pk_used _) eqn:E; [by apply claim_fair|done]. Qed.
Lemma fair_expire now i st : 0 ≤ i < KMS_MAX_PARKED → fair [] st (expire_one now i st).
Proof.
  destruct st as [s a]. intros Hi. unfold expire_one. cbv zeta. destruct (negb (pk_used _) || _) eqn:E; [done|]. apply orb_false_iff in E as [E _]. apply negb_false_iff in E. by apply claim_fair.
Qed.
Lemma fair_close_parked id i st : 0 ≤ i < KMS_MAX_PARKED → fair [] st (close_parked id i st).
Proof. destruct st as [s a]. intros Hi. unfold close_parked. cbv zeta. destruct (pk_used _) eqn:E; [|done]. destruct (_ =? id); [by apply claim_fair|done]. Qed.

(** ** Deliveries: the queues grow, nothing else the requests depend on changes *)
Record kqueue (s s' : kms_srv_t) : Prop := mkQueue {
  ku_parked : ks_parked s' = ks_parked s; ku_nparked : ks_nparked s' = ks_nparked s; ku_said : k_replies s' = k_replies s;
  ku_seq : cs_seq (ks_crtc s' 0) = cs_seq (ks_crtc s 0); ku_idx : cs_idx (ks_crtc s' 0) = cs_idx (ks_crtc s 0);
  ku_client i : kc_used (ks_clients s' i) = kc_used (ks_clients s i) ∧ kc_id (ks_clients s' i) = kc_id (ks_clients s i) }.
#[export] Instance kqueue_pre : PreOrder kqueue.
Proof.
  split; [by intros ?; constructor|]. intros a b c [] []. constructor; try congruence. intros i. destruct (ku_client0 i), (ku_client1 i). split; congruence.
Qed.
Lemma queue_talk s s' : ktalk s s' → kqueue s s'.
Proof. intros []. constructor; try done. intros i. by rewrite tk_clients0. Qed.
Lemma queue_get s s' id : kqueue s s' → kms_client_get s' id = kms_client_get s id.
Proof. intros []. unfold kms_client_get. by rewrite (proj1 (ku_client0 (id - 1))). Qed.
Lemma queue_client i f s : kc_used (f (ks_clients s i)) = kc_used (ks_clients s i) → kc_id (f (ks_clients s i)) = kc_id (ks_clients s i) → kqueue s (set_kclient i f s).
Proof.
  intros H1 H2. constructor; try done. intros j. unfold set_kclient. cbn [ks_clients upd eta eta_kms]. destruct (decide (i = j)) as [<-|Hne]; [by rewrite fn_upd_eq|by rewrite fn_upd_ne].
Qed.
Lemma queue_push id ev s : kqueue s (ev_push id ev s).
Proof.
  unfold ev_push. destruct (kms_client_get s id) as [i|]; [|done]. cbv zeta. destruct (_ <=? _).
  - set (s1 := set_kclient i _ s). assert (kqueue s s1) as H by (by apply queue_client). clearbody s1. etrans; [exact H|]. apply queue_talk, talk_aside, kaside_stat.
  - set (s1 := set_kclient i _ s). assert (kqueue s s1) as H by (by apply queue_client). clearbody s1. set (s2 := kstat _ s1).
    assert (kqueue s s2) as H2 by (etrans; [exact H|]; apply queue_talk, talk_aside, kaside_stat). clearbody s2. destruct (op_poll_notify _); [|done].
    etrans; [exact H2|]. by apply queue_talk, talk_aside, kaside_emit.
Qed.
Lemma queue_vblank id ty cr u seq cnt s : kqueue s (ev_vblank id ty cr u seq cnt s).
Proof. unfold ev_vblank. cbv zeta. destruct (_ =? _); apply queue_push. Qed.
Lemma queue_vblev ci cnt i s : kqueue s (vblev_one ci cnt i s).
Proof.
  unfold vblev_one. cbv zeta. destruct (_ && _); [|done]. set (s1 := ev_vblank _ _ _ _ _ _ s). assert (kqueue s s1) as H by apply queue_vblank.
  clearbody s1. etrans; [exact H|]. by constructor.
Qed.
Lemma queue_parked s s' : kqueue s s' → parked_ok s → parked_ok s'.
Proof.
  intros Q []. pose proof Q as []. constructor; rewrite ?ku_parked0, ?ku_nparked0, ?ku_idx0; try done.
  - intros i Hi. destruct (ku_client0 i) as [-> ->]. auto.
  - intros i. rewrite (queue_get s s') by done. auto.
Qed.
Lemma queue_asleep s s' i : kqueue s s' → asleep_vblank s i → asleep_vblank s' i.
Proof. intros []. unfold asleep_vblank. by rewrite ku_parked0, ku_seq0. Qed.
Lemma queue_owes r s s' a : kqueue s s' → owes r s' a = owes r s a.
Proof. intros []. unfold owes, parked_with. by rewrite ku_parked0, ku_said0. Qed.

(** Fewer events, or the same: a sleeping read sleeps on. *)
Lemma client_fair i f s a :
  kc_used (f (ks_clients s i)) = kc_used (ks_clients s i) → kc_id (f (ks_clients s i)) = kc_id (ks_clients s i) →
  (ev_pending s i = false → kc_evhead (f (ks_clients s i)) = kc_evtail (f (ks_clients s i))) → fair [] (s, a) (set_kclient i f s, a).
Proof.
  intros H1 H2 H3 [P A]. pose proof (queue_client i f s H1 H2) as Q. split.
  - split; [by apply (queue_parked s)|]. intros j Hj. destruct (A j Hj) as [A1 A2]. split; [|by apply (queue_asleep s)].
    intros Hu Hk ci. cbn [fst]. rewrite (queue_get _ _ _ Q). intros Hg. change (ks_parked (set_kclient i f s) j) with (ks_parked s j) in *. specialize (A1 Hu Hk ci Hg).
    unfold ev_pending, set_kclient in *. cbn [ks_clients upd eta eta_kms fst] in *. destruct (decide (i = ci)) as [->|Hne]; [|by rewrite fn_upd_ne].
    rewrite fn_upd_eq, (H3 A1). by rewrite Z.eqb_refl.
  - intros r. cbn [fst snd]. rewrite (queue_owes r s) by done. cbn. lia.
Qed.
Lemma ev_take_stop n q h : ev_take n q h h = ([], h).
Proof. destruct n; [done|]. cbn [ev_take]. by rewrite Z.eqb_refl. Qed.
Lemma fill_fair i size s a : fair [] (s, a) ((ev_fill i size s).2, a).
Proof.
  unfold ev_fill. cbv zeta. destruct (ev_take _ _ _ _) as [l h] eqn:E. cbn [snd]. apply client_fair; [done|done|]. unfold ev_pending. intros Hp. apply negb_false_iff, Z.eqb_eq in Hp.
  rewrite Hp, ev_take_stop in E. by injection E as <- <-.
Qed.

(** ** Parking *)
Section env.
Context `{K : KEnv}.
Lemma park_fair kind id cr tg m rid s a ci : kms_client_get s id = Some ci →
  (kind = KMS_PARK_READ → ev_pending s ci = false) → (kind = KMS_PARK_VBLANK → cr = KMS_ID_CRTC 0 ∧ cs_seq (ks_crtc s 0) < tg) →
  let '(rc, s') := park kind id cr tg m rid s in if rc =? 0 then fair [rid] (s, a) (s', a) else s' = s.
Proof.
  intros Hg Hr Hv. unfold park. destruct (find_first _ _ _) as [i|] eqn:Ei; [|done]. apply find_first_Some in Ei as (Hi & Hu & _). apply negb_true_iff in Hu.
  unfold kms_cnt. cbv beta iota. set (s1 := kms_tick s). cbv zeta. set (p := mkParked true kind id cr tg _ _ rid reply0). assert (pk_client p = id ∧ pk_kind p = kind ∧ pk_crtc p = cr ∧ pk_target_seq p = tg ∧ pk_rid p = rid ∧ pk_used p = true) as (P1 & P2 & P3 & P4 & P5 & P6) by done.
  clearbody p. set (s2 := set_parked i (λ _, p) s1 <| ks_nparked ::= _ |>). assert (∀ j, ks_parked s2 j = if decide (i = j) then p else ks_parked s j) as Hp by (intros j; apply fn_upd_case).
  assert (ks_clients s2 = ks_clients s ∧ ks_crtc s2 = ks_crtc s ∧ k_replies s2 = k_replies s ∧ ks_nparked s2 = u32 (ks_nparked s + 1)) as (E1 & E2 & E3 & E4) by done. clearbody s2.
  set (f := λ t : kms_stats_t, _). cbn [Z.eqb]. eapply fair_then; [|apply fair_talk, talk_aside, (kaside_stat f)].
  assert (∀ x, kms_client_get s2 x = kms_client_get s x) as Hget by (intros x; unfold kms_client_get; by rewrite E1). set (used x := λ j, pk_used (ks_parked x j)).
  assert (countZ (used s2) 0 KMS_MAX_PARKED = countZ (used s) 0 KMS_MAX_PARKED + 1) as Hc.
  { rewrite (countZ_at (used s) (used s2) KMS_MAX_PARKED i Hi) by (intros j Hj; unfold used; rewrite Hp; by rewrite decide_False). unfold used. rewrite Hp, decide_True, Hu, P6 by done. cbn. lia. }
  pose proof (countZ_most (used s2) KMS_MAX_PARKED ltac:(done)) as Hm. pose proof (countZ_most (used s) KMS_MAX_PARKED ltac:(done)) as Hm'. unfold KMS_MAX_PARKED in Hm, Hm', Hi. intros [[] A]. split.
  - cbn [fst] in *. split; [constructor; rewrite ?E1, ?E2; try done|].
    + intros j Hj. rewrite Hp, Hget. case_decide as Hd; [|auto]. rewrite P1, P2, P3, Hg. intros _. split; [done|]. intros ->. by apply Hv.
    + rewrite E4, po_count0. fold (used s) (used s2). rewrite Hc. apply u32_small. unfold KMS_MAX_PARKED in *. lia.
    + intros j Hj. destruct (A j Hj) as [A1 A2]. unfold asleep_read, asleep_vblank, ev_pending in *. cbv zeta in *. rewrite Hp, Hget, E1, E2. case_decide as Hd; [|done].
      rewrite P1, P2, P4. split; [|intros _ H%Hv; apply H]. intros _ H%Hr ci'. rewrite Hg. intros [= <-]. exact H.
  - intros r. cbn [fst snd]. unfold owes. rewrite E3. cbn [occurs foldr]. unfold parked_with.
    rewrite (countZ_at (λ j, pk_used (ks_parked s j) && (pk_rid (ks_parked s j) =? r)) (λ j, pk_used (ks_parked s2 j) && (pk_rid (ks_parked s2 j) =? r)) KMS_MAX_PARKED i Hi).
    + rewrite Hp, decide_True, Hu, P5, P6 by done. cbn. lia.
    + intros j Hj. rewrite Hp. by rewrite decide_False.
Qed.

(** ** A vblank wakes everyone it should *)
Lemma queue_plane s s' : kplane s s' → kqueue s s'.
Proof. intros H. by apply queue_talk, talk_plane. Qed.
Lemma queue_complete cnt s : kqueue s (complete 0 cnt s).
Proof.
  unfold complete. set (s1 := for_ 0 _ _ s). assert (kqueue s s1) as H1 by (apply queue_plane, pstep_for, pstep_complete). clearbody s1. cbv zeta.
  set (s2 := if cs_pevent _ then _ else s1). assert (kqueue s s2) as H2 by (unfold s2; destruct (cs_pevent _); [etrans; [exact H1|apply queue_vblank]|done]). clearbody s2.
  etrans; [|apply queue_talk, talk_aside, aside_console_update]. set (s3 := set_crtc 0 _ s2). assert (kqueue s2 s3) as H3 by (by apply queue_plane, kplane_crtc). clearbody s3.
  etrans; [exact H2|]. etrans; [exact H3|]. by apply queue_talk, talk_aside.
Qed.
Lemma queue_flip cnt s : kqueue s (vblank_flip 0 cnt s).
Proof.
  unfold vblank_flip. cbv zeta. destruct (cs_pend _); [done|..].
  - pose proof (tr_plane _ _ _ (try_apply_tried s)) as T. destruct (kms_try_apply 0 s) as [armed s1]. cbn [fst snd] in *. apply queue_plane in T. destruct armed; [|done].
    etrans; [exact T|]. by apply queue_talk, talk_aside.
  - destruct (_ <=? _); [apply queue_complete|done].
Qed.
(** The walk that answers the vblank waits that are due. *)
Lemma vblank_walk cnt s a : parked_ok s →
  let st := for_ 0 KMS_MAX_PARKED (vblank_one 0 cnt) (s, a) in
  parked_ok st.1 ∧ (∀ i, 0 ≤ i < KMS_MAX_PARKED → asleep_vblank st.1 i).
Proof.
  intros H. cbv zeta. pose proof (for_ind (λ k st, parked_ok st.1 ∧ ∀ i, 0 ≤ i < k → asleep_vblank st.1 i) 0 KMS_MAX_PARKED (vblank_one 0 cnt) (s, a)) as L.
  change (Z.max 0 KMS_MAX_PARKED) with KMS_MAX_PARKED in L. apply L; clear L; [split; [done|]; intros i Hi; lia|]. intros i [s1 a1] Hi (P1 & A1). cbn [fst] in *.
  unfold vblank_one. cbv zeta. set (due := _ && (pk_target_seq _ <=? _)). destruct due eqn:Ed; unfold due in Ed.
  - rewrite !andb_true_iff in Ed. destruct Ed as [[[Hu _] _] _]. split; [by apply claim_ok|]. intros j Hj. destruct (decide (j = i)) as [->|Hne]; [apply claim_awake|].
    apply claim_asleep; [done|done|]. apply A1. lia.
  - split; [done|]. cbn [fst]. intros j Hj. destruct (decide (j = i)) as [->|Hne]; [|apply A1; lia]. intros Hu Hk. destruct (po_client _ P1 i Hi Hu) as [_ Hc]. specialize (Hc Hk).
    rewrite Hu, Hk, Hc, (po_idx _ P1), Z.eqb_refl, bool_decide_true in Ed by done. cbn [andb] in Ed. by apply Z.leb_gt in Ed.
Qed.
Lemma fill_awake c n s i : asleep_vblank s i → asleep_vblank (ev_fill c n s).2 i.
Proof. unfold ev_fill. cbv zeta. destruct (ev_take _ _ _ _). done. Qed.
Lemma queue_fill c n s : kqueue s (ev_fill c n s).2.
Proof. unfold ev_fill. cbv zeta. destruct (ev_take _ _ _ _). by apply queue_client. Qed.
(** Filling only takes events away. *)
Lemma fill_asleep c n s i : asleep_read s i → asleep_read (ev_fill c n s).2 i.
Proof.
  intros A. pose proof (queue_fill c n s) as Q. unfold asleep_read in *. cbv zeta in *. rewrite (ku_parked _ _ Q). intros Hu Hk ci. rewrite (queue_get _ _ _ Q). intros Hg. specialize (A Hu Hk ci Hg).
  unfold ev_fill. cbv zeta. destruct (ev_take _ _ _ _) as [l h] eqn:E. cbn [snd]. unfold ev_pending, set_kclient in *. cbn [ks_clients upd eta eta_kms].
  destruct (decide (c = ci)) as [->|Hne]; [|by rewrite fn_upd_ne]. rewrite fn_upd_eq. cbn. apply negb_false_iff, Z.eqb_eq in A. rewrite A, ev_take_stop in E. injection E as _ <-. by rewrite Z.eqb_refl.
Qed.
Lemma serve_walk st : parked_ok st.1 → (∀ i, 0 ≤ i < KMS_MAX_PARKED → asleep_vblank st.1 i) → wake_ok (serve_reads st).1.
Proof.
  intros H Hv. unfold serve_reads.
  pose proof (for_ind (λ k st, parked_ok st.1 ∧ (∀ i, 0 ≤ i < KMS_MAX_PARKED → asleep_vblank st.1 i) ∧ ∀ i, 0 ≤ i < k → asleep_read st.1 i) 0 KMS_MAX_PARKED serve_one st) as L.
  change (Z.max 0 KMS_MAX_PARKED) with KMS_MAX_PARKED in L. destruct L as (L1 & L2 & L3); [split_and!; [done|done|]; intros i Hi; lia| |by split; [|split; auto]].
  intros i [s1 a1] Hi (P1 & V1 & A1). cbn [fst] in *. unfold serve_one. cbv zeta.
  assert (∀ x : Prop, x → (∀ j, 0 ≤ j < i + 1 → j ≠ i → asleep_read s1 j)) as A2 by (intros _ _ j Hj Hne; apply A1; lia). specialize (A2 True I).
  destruct (pk_used (ks_parked s1 i)) eqn:Hu; cbn [negb orb].
  2:{ split_and!; try done. intros j Hj. destruct (decide (j = i)) as [->|Hne]; [|by apply A2]. cbn [fst]. unfold asleep_read. cbv zeta. by rewrite Hu. }
  destruct (bool_decide_reflect (pk_kind (ks_parked s1 i) = KMS_PARK_READ)) as [Hk|Hk]; cbn [negb].
  2:{ split_and!; try done. intros j Hj. destruct (decide (j = i)) as [->|Hne]; [|by apply A2]. by intros _ ?. }
  destruct (po_client _ P1 i Hi Hu) as [[c Hc] _]. rewrite Hc. destruct (ev_pending s1 c) eqn:Hp.
  - pose proof (queue_fill c (m_osize (pk_msg (ks_parked s1 i))) s1) as Q. pose proof (λ j, fill_asleep c (m_osize (pk_msg (ks_parked s1 i))) s1 j) as Hf.
    pose proof (λ j, fill_awake c (m_osize (pk_msg (ks_parked s1 i))) s1 j) as Hw.
    destruct (ev_fill _ _ s1) as [l s2]. cbn [snd] in *. assert (pk_used (ks_parked s2 i) = true) as Hu2 by (by rewrite (ku_parked _ _ Q)). split_and!.
    + apply claim_ok; [done|done|]. by apply (queue_parked s1).
    + intros j Hj. apply claim_asleep; [done|done|]. by apply Hw, V1.
    + intros j Hj. destruct (decide (j = i)) as [->|Hne]; [apply claim_awake|]. apply claim_asleep; [done|done|]. by apply Hf, A2.
  - split_and!; try done. intros j Hj. destruct (decide (j = i)) as [->|Hne]; [|by apply A2]. intros _ _ ci. cbn [fst]. rewrite Hc. by intros [= <-].
Qed.
Lemma owes_serve r i st : 0 ≤ i < KMS_MAX_PARKED → owes r (serve_one i st).1 (serve_one i st).2 = owes r st.1 st.2.
Proof.
  destruct st as [s a]. intros Hi. unfold serve_one. cbv zeta. destruct (pk_used _) eqn:Hu; [|done]. cbn [negb orb]. destruct (negb _); [done|]. destruct (kms_client_get _ _) as [c|]; [|done].
  destruct (ev_pending s c); [|done]. pose proof (queue_fill c (m_osize (pk_msg (ks_parked s i))) s) as Q. destruct (ev_fill _ _ s) as [l s2]. cbn [snd] in *.
  rewrite claim_owes; [|done|by rewrite (ku_parked _ _ Q)]. by apply queue_owes.
Qed.
Lemma owes_vblank r cnt i st : 0 ≤ i < KMS_MAX_PARKED → owes r (vblank_one 0 cnt i st).1 (vblank_one 0 cnt i st).2 = owes r st.1 st.2.
Proof.
  destruct st as [s a]. intros Hi. unfold vblank_one. cbv zeta. destruct (pk_used _) eqn:Hu; [|done]. destruct (_ && _); [|done]. by apply claim_owes.
Qed.
Lemma owes_walk r (f : Z → kms_srv_t * list kms_parked_t → kms_srv_t * list kms_parked_t) st :
  (∀ i st, 0 ≤ i < KMS_MAX_PARKED → owes r (f i st).1 (f i st).2 = owes r st.1 st.2) → owes r (for_ 0 KMS_MAX_PARKED f st).1 (for_ 0 KMS_MAX_PARKED f st).2 = owes r st.1 st.2.
Proof. intros H. apply (for_inv (λ st', owes r st'.1 st'.2 = owes r st.1 st.2)); [done|]. intros i st' Hi H1. by rewrite H. Qed.
Lemma on_vblank_fair cnt n st : fair [] st (kms_on_vblank 0 cnt n st).
Proof.
  destruct st as [s a]. unfold kms_on_vblank. cbv zeta. set (s1 := set_crtc 0 _ s).
  assert (ks_parked s1 = ks_parked s ∧ ks_clients s1 = ks_clients s ∧ ks_nparked s1 = ks_nparked s ∧ k_replies s1 = k_replies s ∧ cs_idx (ks_crtc s1 0) = cs_idx (ks_crtc s 0)) as (E1 & E2 & E3 & E4 & E5).
  { by split_and!. }
  clearbody s1. set (s3 := for_ 0 KMS_MAX_VBL_EVENTS (vblev_one 0 cnt) (vblank_flip 0 cnt s1)). assert (kqueue s1 s3) as Q.
  { etrans; [apply (queue_flip cnt)|]. unfold s3. generalize (vblank_flip 0 cnt s1). intros s2. apply (for_inv (λ s', kqueue s2 s')); [done|]. intros i s4 _ H4. etrans; [exact H4|apply queue_vblev]. }
  clearbody s3. intros [H _]. split.
  - cbn [fst] in H. assert (parked_ok s1) as H1.
    { destruct H. constructor; rewrite ?E1, ?E2, ?E3, ?E5; try done. intros i. unfold kms_client_get. rewrite E2. apply po_client0. }
    apply (queue_parked s1 s3 Q) in H1. destruct (vblank_walk cnt s3 a H1) as [G1 G2]. by apply serve_walk.
  - intros r. unfold serve_reads. rewrite (owes_walk r serve_one) by (intros; by apply owes_serve). rewrite (owes_walk r (vblank_one 0 cnt)) by (intros; by apply owes_vblank).
    cbn [fst snd]. rewrite (queue_owes r s1 s3 a Q). unfold owes, parked_with. rewrite E1, E4. cbn. lia.
Qed.
End env.
