(* ===== verification/KmsWake.v ===== *)
(** The dispatch loop and the vblank thread keep the promises to those who wait: the
    invariant of the parked requests, and the account of what is owed, over all steps; so each
    request is answered once or still parked, and nothing parked has anything to wake it. *)
From S2P Require Import Prelude Proto State KmsProto KmsModes KmsState KmsBo KmsEv KmsBackend KmsCommit KmsFw KmsMain KmsVblank KmsEvSpec KmsAside KmsRefs KmsRefOps KmsPool KmsRefKept KmsRefCommit KmsRefFlip KmsRefReq KmsReach KmsBoot KmsSpec KmsTalk.

(** A request that got no reply is owed one. *)
Definition owed (rid : Z) (r : option kms_reply) : list Z := match r with Some _ => [] | None => [rid] end.
Definition fair_out (rid : Z) (st : kms_srv_t * list kms_parked_t) (out : koutcome) : Prop := let '(r, s, a) := out in fair (owed rid r) st (s, a).

Lemma talk_kept s s' : (∀ on, kept on s s') → ktalk s s'.
Proof. intros H. destruct (H (λ _, 0)) as [_ M]. by apply talk_side, kmem_side. Qed.
Lemma talk_planed s s' : planed s s' → ktalk s s'.
Proof. intros [_ H]. by apply talk_plane. Qed.
Lemma talk_quiet s s' : quiet s s' → ktalk s s'.
Proof. intros [_ H]. by apply talk_plane. Qed.

Lemma out_same rid r s a : fair_out rid (s, a) (Some r, s, a).
Proof. apply (fair_talk a s s). done. Qed.
Lemma raw_same rid rc u d s a : fair_out rid (s, a) (raw_reply rc u d, s, a).
Proof. apply out_same. Qed.
#[local] Hint Resolve out_same raw_same : core.

Section env.
Context `{K : KEnv}.

Lemma get_ci s id ci : kms_client_get s id = Some ci → 0 ≤ ci < KMS_MAX_CLIENTS ∧ kc_used (ks_clients s ci) = true ∧ ci = id - 1.
Proof.
  unfold kms_client_get. destruct (_ || _) eqn:E; [done|]. apply orb_false_iff in E as [E1 E2]. apply Z.ltb_ge in E1, E2. destruct (kc_used _) eqn:Eu; [|done]. intros [= <-]. split; [lia|done].
Qed.
(** The id the requests are parked under is the one the message came with. *)
Lemma get_own s id ci : parked_ok s → kms_client_get s id = Some ci → kms_client_get s (kc_id (ks_clients s ci)) = Some ci.
Proof. intros P H. destruct (get_ci _ _ _ H) as (H1 & H2 & H3). rewrite (po_id _ P) by done. by replace (ci + 1) with id by lia. Qed.

Lemma vblank_req_fair op ci rq m rid s a id : one_head s → kms_client_get s id = Some ci →
  fair_out rid (s, a) (match op_vblank op (kc_id (ks_clients s ci)) rq m rid s with
    | (Some (rc, u), s) => (raw_reply rc u PL_none, s, a) | (None, s) => (None, s, a) end).
Proof.
  intros H1 Hg. unfold op_vblank. destruct (crtc_by_id s _) as [c|] eqn:Ec; [|by auto]. apply crtc_zero in Ec as ->; [|done]. cbv zeta. set (tg := vblank_target _ _ _). set (ns := kms_cnt_to_mono_ns _ _).
  assert (∀ f i, fair [] (s, a) (set_vblev i f s, a)) as Hset by (intros f i; by apply fair_talk).
  assert ((tg <=? cs_seq (ks_crtc s 0)) = false → fair_out rid (s, a)
    match (let '(rc, s) := park KMS_PARK_VBLANK (kc_id (ks_clients s ci)) (KMS_ID_CRTC (cs_idx (ks_crtc s 0))) tg m rid s in
       if negb (rc =? 0) then (Some (- ENOSPC, RU_none), s) else (None, s)) with
    | (Some (rc, u), s) => (raw_reply rc u PL_none, s, a) | (None, s) => (None, s, a) end) as Hpark.
  { intros Ht. apply Z.leb_gt in Ht. set (cl := kc_id _). set (cr := KMS_ID_CRTC _). pose proof (park_fair KMS_PARK_VBLANK cl cr tg m rid s a ci) as Hp.
    destruct (park _ _ _ _ _ _ s) as [rc s1]. destruct (rc =? 0) eqn:E; cbn [negb fair_out owed raw_reply].
    - intros W. apply Hp; [apply (get_own s id ci (proj1 W) Hg)|done| |done]. intros _. unfold cr. rewrite (po_idx s (proj1 W)). by split.
    - intros W. assert (s1 = s) as ->; [|by apply (fair_talk a s s)]. apply Hp; [apply (get_own s id ci (proj1 W) Hg)|done|]. intros _. unfold cr. rewrite (po_idx s (proj1 W)). by split. }
  destruct op.
  - destruct (has _ _); [destruct (find_first _ _ _); [apply Hset|by auto]|]. destruct (tg <=? _) eqn:Ht; [by auto|]. by apply Hpark.
  - by auto.
  - destruct (find_first _ _ _); [apply Hset|by auto].
Qed.

Lemma raw_fair ci rid m rq s a : one_head s → req_ok s rq → kms_client_get s (m_oid m) = Some ci → fair_out rid (s, a) (kms_handle_raw ci rid m rq s a).
Proof.
  intros H1 Hrq Hg. unfold kms_handle_raw. cbv zeta. set (cl := kc_id (ks_clients s ci)).
  destruct rq as [cap|cap v| | | |max|obj max|obj|obj|rq| |obj|obj max|obj max|b|data|b|rq|h|h|h|rq|fb|rq|rq data|rq|rq|rq|rq| | | ]; try by auto.
  - by destruct (get_cap _); auto.
  - destruct (_ || _); [|by auto]. apply client_fair; try done. unfold ev_pending. intros E. apply negb_false_iff, Z.eqb_eq in E. exact E.
  - apply raw_same.
  - unfold op_get_connector. cbv zeta. by destruct (negb _); auto.
  - by destruct (negb _); auto.
  - unfold op_get_crtc. cbv zeta. by destruct (negb _); auto.
  - pose proof (set_crtc_req_kept cl rq s H1) as H. destruct (op_set_crtc _ _ _). by apply fair_talk, talk_planed.
  - by destruct (plane_idx _ _); auto.
  - by destruct (obj_props _ _); auto.
  - by destruct (op_get_property m obj max) as [[? ?] ?]; auto.
  - by destruct (kms_blob_get _ _); auto.
  - destruct data as [l|]; [|by auto]. destruct (_ || _); [by auto|]. pose proof (quiet_create cl l s) as H. destruct (kms_blob_create cl l s). by apply fair_talk, talk_quiet.
  - unfold kms_blob_destroy. destruct (kms_blob_get _ _); [|by auto]. cbv zeta. destruct (_ || _); [by auto|]. by apply fair_talk, talk_quiet, quiet_blob.
  - pose proof (λ on, create_kept on cl rq s) as H. destruct (kms_bo_create cl rq s) as [[? ?] ?]. by apply fair_talk, talk_kept.
  - by destruct (kms_bo_map cl h s); auto.
  - pose proof (λ on, destroy_kept on cl h s) as H. destruct (kms_bo_destroy cl h s). by apply fair_talk, talk_kept.
  - destruct (kms_bo_get _ _ _) as [i|]; [|by auto]. set (s1 := set_kbo i _ s). assert (ktalk s s1) as H by done. clearbody s1. destruct (kms_bo_map cl h s1). by apply fair_talk.
  - destruct Hrq as (G1 & G2 & G3 & G4). pose proof (fb_add_kept (λ _, 0) cl rq s G1 G2 G3 G4) as H. cbv zeta in H. destruct (kms_fb_add cl rq s) as [[? ?] s']. cbn [fst snd] in *.
    apply fair_talk, talk_side, H.
  - pose proof (rmfb_kept cl fb s) as H. destruct (op_rmfb cl fb s). by apply fair_talk, talk_planed.
  - pose proof (flip_req_kept cl rq s H1) as H. destruct (op_page_flip cl rq s) as [[? ?] ?]. by apply fair_talk, talk_planed.
  - pose proof (atomic_req_kept cl rq data s H1) as H. destruct (op_atomic cl rq data s) as [[? ?] ?]. by apply fair_talk, talk_planed.
  - by apply (vblank_req_fair VO_wait ci rq m rid s a (m_oid m)).
  - by apply (vblank_req_fair VO_get ci rq m rid s a (m_oid m)).
  - by apply (vblank_req_fair VO_queue ci rq m rid s a (m_oid m)).
  - pose proof (aside_checksum cl rq s) as H. destruct (kms_bo_checksum cl rq s) as [[? ?] ?]. by apply fair_talk, talk_aside.
  - by apply fair_talk, talk_aside, kaside_stat.
  - pose proof (walk_fair quit_parked (s, a) fair_quit) as H. destruct (for_ 0 KMS_MAX_PARKED _ _) as [s' a']. eapply fair_then; [exact H|]. by apply fair_talk.
Qed.

(** ** Clients come and go *)
Lemma get_client s i f id : id ≠ i + 1 → kms_client_get (set_kclient i f s) id = kms_client_get s id.
Proof.
  intros H. unfold kms_client_get. by rewrite set_kclient_ne by lia.
Qed.
(** A slot nobody waits under may change hands. *)
Lemma client_slot_fair i f s a : (∀ j, 0 ≤ j < KMS_MAX_PARKED → pk_used (ks_parked s j) = true → pk_client (ks_parked s j) ≠ i + 1) →
  (kc_used (f (ks_clients s i)) = true → kc_id (f (ks_clients s i)) = i + 1) → fair [] (s, a) (set_kclient i f s, a).
Proof.
  intros Hn Hid [[Pi Pd Pc Pn] A]. cbn [fst] in *. split; [split; [constructor; try done|]|].
  - intros j Hj. cbn [fst]. destruct (decide (j = i)) as [->|Hne]; [rewrite set_kclient_eq|rewrite set_kclient_ne by done]; auto.
  - intros j Hj Hu. cbn [fst]. rewrite get_client by (by apply Hn). by apply Pc.
  - intros j Hj. destruct (A j Hj) as [A1 A2]. split; [|exact A2]. intros Hu Hk ci. cbn [fst] in *. change (ks_parked (set_kclient i f s) j) with (ks_parked s j) in *.
    rewrite get_client by (by apply Hn). intros Hg. specialize (A1 Hu Hk ci Hg). apply get_ci in Hg as (_ & _ & ->). specialize (Hn j Hj Hu).
    unfold ev_pending in *. by rewrite set_kclient_ne by lia.
  - intros r. unfold owes, parked_with. cbn [fst snd occurs foldr]. change (k_replies (set_kclient i f s)) with (k_replies s). change (ks_parked (set_kclient i f s)) with (ks_parked s). lia.
Qed.
Lemma open_fair pid s a : fair [] (s, a) ((kms_client_open pid s).2, a).
Proof.
  unfold kms_client_open. destruct (find_first _ _ _) as [i|] eqn:E; [|done]. apply find_first_Some in E as (Hi & Hu & _). apply negb_true_iff in Hu. cbn [snd]. intros W. apply client_slot_fair; [| |done].
  - intros j Hj Hp Hc. destruct W as [[_ _ Pc _] _]. destruct (Pc j Hj Hp) as [[ci Hg] _]. cbn [fst] in Hg. rewrite Hc in Hg. apply get_ci in Hg as (_ & H & ->).
    replace (i + 1 - 1) with i in H by lia. congruence.
  - intros _. cbn. rewrite u32_small; [done|]. unfold KMS_MAX_CLIENTS in Hi. lia.
Qed.
Lemma close_walk id st : let st' := for_ 0 KMS_MAX_PARKED (close_parked id) st in
  ∀ j, 0 ≤ j < KMS_MAX_PARKED → pk_used (ks_parked st'.1 j) = true → pk_client (ks_parked st'.1 j) ≠ id.
Proof.
  cbv zeta. pose proof (for_ind (λ k st, ∀ j, 0 ≤ j < k → pk_used (ks_parked st.1 j) = true → pk_client (ks_parked st.1 j) ≠ id) 0 KMS_MAX_PARKED (close_parked id) st) as L.
  change (Z.max 0 KMS_MAX_PARKED) with KMS_MAX_PARKED in L. apply L; clear L; [intros j Hj; lia|]. intros i [s a] Hi H j Hj. unfold close_parked. cbv zeta.
  destruct (pk_used (ks_parked s i) && (pk_client (ks_parked s i) =? id)) eqn:E.
  - rewrite claim_parked. case_decide as Hd; [done|]. apply H. lia.
  - cbn [fst] in *. destruct (decide (j = i)) as [->|Hne]; [|apply H; lia]. intros Hu. rewrite Hu in E. by apply Z.eqb_neq in E.
Qed.
Lemma close_vblev_talk id s : ktalk s (for_ 0 KMS_MAX_VBL_EVENTS (close_vblev id) s).
Proof.
  apply (for_inv (λ s', ktalk s s')); [done|]. intros j s2 _ H2. etrans; [exact H2|]. unfold close_vblev. cbv zeta. by destruct (_ && _).
Qed.
(** What a dying client leaves once its requests are turned away: nobody waits under its id. *)
Lemma close_rest_fair id i a s s' : i = id - 1 → ktalk s s' →
  (∀ j, 0 ≤ j < KMS_MAX_PARKED → pk_used (ks_parked s j) = true → pk_client (ks_parked s j) ≠ id) →
  fair [] (s, a) (set_kclient i (λ c, c <| kc_used := false |>) s', a).
Proof.
  intros -> T Hn. etrans; [exact (fair_talk a s s' T)|]. apply client_slot_fair; [|done]. intros j Hj. rewrite (tk_parked _ _ T). replace (id - 1 + 1) with id by lia. by apply Hn.
Qed.
Lemma flipstat_talk s : ktalk s (if negb (fs_flips (ks_fst s) =? 0) || negb (fs_deferred (ks_fst s) =? 0) then s <| ks_fst := flipstat0 |> else s).
Proof. by destruct (_ || _). Qed.
Lemma close_mid_talk id s : ktalk s (let s := close_commit id s in let '(_, s) := planes_off 0 (u32 id) 0 s in
  let s := if cs_umode_client (ks_crtc s 0) =? u32 id then umode_native 0 s else s in kms_bo_client_gone (u32 id) s).
Proof.
  cbv zeta. pose proof (talk_planed _ _ (close_commit_kept id s)) as T2. revert T2. generalize (close_commit id s). intros s2 T2.
  pose proof (talk_planed _ _ (planes_off_kept (u32 id) 0 s2)) as T3. revert T3. generalize (planes_off 0 (u32 id) 0 s2). intros [n s3] T3. cbn [snd] in T3.
  set (s4 := if _ =? _ then umode_native 0 s3 else s3). assert (ktalk s3 s4) as T4 by (unfold s4; destruct (_ =? _); [apply talk_quiet, quiet_umode_native|done]). clearbody s4.
  etrans; [exact T2|]. etrans; [exact T3|]. etrans; [exact T4|]. exact (talk_planed _ _ (gone_kept (u32 id) s4)).
Qed.
Lemma close_fair id st : fair [] st (kms_client_close id st).
Proof.
  unfold kms_client_close. destruct (kms_client_get st.1 id) as [i|] eqn:Eg; [|done]. apply get_ci in Eg as (Hi & _ & Eid).
  pose proof (walk_fair (close_parked id) st (fair_close_parked id)) as H. pose proof (close_walk id st) as Hn. cbv zeta in Hn.
  revert H Hn. generalize (for_ 0 KMS_MAX_PARKED (close_parked id) st). intros [s a] H Hn. cbn [fst] in Hn. etrans; [exact H|]. clear H st.
  pose proof (close_vblev_talk id s) as T1. revert T1. generalize (for_ 0 KMS_MAX_VBL_EVENTS (close_vblev id) s). intros s1 T1.
  pose proof (close_mid_talk id s1) as T2. cbv zeta in *. revert T2. generalize (close_commit id s1). intros s2. generalize (planes_off 0 (u32 id) 0 s2). intros [n s3].
  set (s5 := kms_bo_client_gone _ _). clearbody s5. intros T2. pose proof (close_rest_fair id i a s s5 Eid (transitivity T1 T2) Hn) as H6.
  revert H6. generalize (set_kclient i (λ c, c <| kc_used := false |>) s5). intros s6 H6. etrans; [exact H6|]. apply fair_talk, flipstat_talk.
Qed.
Lemma read_fair rid m s : fair_out rid (s, []) (let '(r, s) := read_msg rid m s in (r, s, [])).
Proof.
  unfold read_msg. destruct (kms_client_get s (m_oid m)) as [ci|] eqn:Hg; [|exact (out_same rid _ s [])]. destruct (_ || _); [exact (out_same rid _ s [])|]. destruct (ev_pending s ci) eqn:Ep.
  - pose proof (fill_fair ci (m_osize m) s []) as H. destruct (ev_fill ci (m_osize m) s) as [l s1]. exact H.
  - destruct (m_nonblock m); [exact (out_same rid _ s [])|]. set (cl := kc_id _). pose proof (park_fair KMS_PARK_READ cl 0 0 m rid s [] ci) as Hp. destruct (park _ _ _ _ _ _ s) as [rc s1].
    destruct (rc =? 0); cbn [fair_out owed err_reply].
    + intros W. apply Hp; [apply (get_own s _ ci (proj1 W) Hg)|done..].
    + intros W. assert (s1 = s) as ->; [|by apply (fair_talk [] s s)]. apply Hp; [apply (get_own s _ ci (proj1 W) Hg)|done..].
Qed.

(** ** Imports *)
Lemma import_rel (R : kms_srv_t → kms_srv_t → Prop) `{!PreOrder R} id rq ie between s : (∀ s s', ktalk s s' → ks_opt s' = ks_opt s → R s s') →
  (∀ s, R s (between s)) → R s (op_prime_import id rq ie between s).2.
Proof.
  intros HR Hb. unfold op_prime_import. destruct (kms_client_get s id) as [ci|]; [|done]. cbv zeta. pose proof (λ on, import_lookup_kept on (u32 id) rq s) as H1.
  destruct (kms_import_lookup (u32 id) rq s) as [[rc out] s1]. cbn [snd] in H1. assert (R s s1) as R1 by (apply HR; [by apply talk_kept|]; destruct (H1 (λ _, 0)) as [_ M]; apply (mm_opt _ _ M)). destruct (negb (rc =? 1)); [exact R1|].
  pose proof (import_map_silent rq ie) as Hm. destruct (kms_import_map rq ie) as [[rc2 im] effs]. cbn [snd] in Hm.
  set (s2 := foldl _ _ effs). assert (R s s2) as R2.
  { etrans; [exact R1|]. etrans; [apply Hb|]. pose proof (aside_effects effs (between s1) Hm) as A. apply HR; [by apply talk_aside|apply (as_opt _ _ A)]. }
  clearbody s2. destruct (negb (rc2 =? 0)); [exact R2|].
  assert (R s (kms_import_unmap im s2)) as R3 by (etrans; [exact R2|]; pose proof (aside_unmap im s2) as A; apply HR; [by apply talk_aside|apply (as_opt _ _ A)]).
  destruct (kms_client_get s2 id) as [cj|]; [|exact R3]. destruct (_ =? _); [|exact R3]. etrans; [exact R2|]. pose proof (λ on, import_install_kept on (u32 id) rq im s2) as H4.
  apply HR; [by apply talk_kept|]. destruct (H4 (λ _, 0)) as [_ M]. apply (mm_opt _ _ M).
Qed.

(** ** The dispatch loop *)
Lemma handle_fair rid msg s : one_head s → msg_ok s msg →
  (∀ id rq ie between, msg = KM_prime_import id rq ie between → ∀ s, fair [] (s, []) (between s, [])) → fair_out rid (s, []) (kms_handle rid msg s).
Proof.
  intros H1 Hm Hb. destruct msg as [pid|id|m| |id proto| |id rq ie between|m rq| |id| |room| ]; cbn [kms_handle]; try by apply out_same.
  - pose proof (open_fair pid s []) as H. destruct (kms_client_open pid s). exact H.
  - pose proof (close_fair id (s, [])) as H. destruct (kms_client_close id (s, [])). exact H.
  - apply read_fair.
  - destruct (kms_hello id proto s). by apply out_same.
  - assert (PreOrder (λ s s', fair [] (s, []) (s', []))) as HP by (split; [by intros x|by intros x y z H2 H3; etrans]).
    pose proof (import_rel (λ s s', fair [] (s, []) (s', [])) id rq ie between s) as H. destruct (op_prime_import id rq ie between s) as [[rc d] s1]. cbn [snd fair_out owed raw_reply] in *. apply H.
    + intros x y T _. by apply fair_talk.
    + by apply (Hb id rq ie between).
  - destruct (kms_client_get s _) as [ci|] eqn:Hg; [|by apply out_same]. by apply raw_fair.
Qed.

(** Answering moves what was claimed to what was answered. *)
Lemma wake_emit e s : wake_ok s → wake_ok (kms_emit e s).
Proof. intros [[] A]. split; [by constructor|exact A]. Qed.
Lemma kms_answer_said l s : k_replies (kms_answer l s) = k_replies s ++ (pk_rid <$> l).
Proof.
  unfold kms_answer. revert s. induction l as [|p l IH]; intros s; [by rewrite app_nil_r|]. cbn [foldl]. rewrite IH. unfold k_replies at 1. cbn [ki_log ks_io upd eta eta_kms eta_kio kms_emit]. rewrite omap_app. by rewrite <- app_assoc.
Qed.
Lemma answer_wake l s : wake_ok s → wake_ok (kms_answer l s).
Proof. unfold kms_answer. revert s. induction l as [|p l IH]; intros s H; [done|]. cbn [foldl]. by apply IH, wake_emit. Qed.
Lemma answer_parked l s : ks_parked (kms_answer l s) = ks_parked s.
Proof. unfold kms_answer. revert s. induction l as [|p l IH]; intros s; [done|]. cbn [foldl]. by rewrite IH. Qed.
Lemma answer_fair l s : fair [] (s, l) (kms_answer l s, []).
Proof.
  intros W. split; [by apply answer_wake|]. intros r. unfold owes, parked_with. cbn [fst snd]. rewrite kms_answer_said, answer_parked, occurs_app. cbn. lia.
Qed.
Lemma talk_reap s : ktalk s (reap_if_any s).
Proof. unfold reap_if_any. destruct (ks_reap s); [done|]. apply talk_kept. intros on. apply reap_kept. Qed.
Lemma talk_exit s : ktalk s (kms_exit s).
Proof.
  unfold kms_exit. cbv zeta. etrans; [apply talk_aside, aside_restore|]. generalize (restore_display s). clear s. intros s.
  assert (ktalk s (kms_pool_fini s)) as H.
  { unfold kms_pool_fini. apply (for_inv (λ s', ktalk s s')); [done|]. intros i s3 _ H3. etrans; [exact H3|]. cbv zeta. destruct (_ && _); [|done].
    set (s4 := set_kbo i _ s3). assert (ktalk s3 s4) as H4 by done. clearbody s4. etrans; [exact H4|]. by apply talk_aside, kaside_emit. }
  etrans; [exact H|]. clear H. generalize (kms_pool_fini s). clear s. intros s. apply talk_aside. etrans; [apply aside_irq_off|].
  set (s3 := if vb_registered (ks_vb s) then _ else s). clearbody s3. etrans; [by apply (kaside_emit KE_names_release)|by apply kaside_emit].
Qed.
(** A message is answered, or parked, or was a wait that went on: owed once either way. *)
Lemma dispatch_rest_fair rid (q : bool) r a s : fair (match r with Some _ => [rid] | None => [] end) (s, a)
  (if q then kms_exit (kms_respond rid r (kms_answer a (reap_if_any s))) else kms_respond rid r (kms_answer a (reap_if_any s)), []).
Proof.
  eapply fair_after; [apply (fair_talk a s), talk_reap|]. eapply fair_after; [apply answer_fair|]. generalize (kms_answer a (reap_if_any s)). clear. intros s.
  assert (fair (match r with Some _ => [rid] | None => [] end) (s, []) (kms_respond rid r s, [])) as H.
  { destruct r as [r|]; [|done]. intros W. split; [by apply wake_emit|]. intros r'. unfold owes, kms_respond. cbn [fst snd]. set (o := op_port _).
    assert (k_replies (kms_emit (KE_respond o rid r) s) = k_replies s ++ [rid]) as -> by (unfold k_replies; cbn [ki_log ks_io upd eta eta_kms eta_kio kms_emit]; by rewrite omap_app).
    rewrite occurs_app. unfold parked_with. change (ks_parked (kms_emit _ s)) with (ks_parked s). lia. }
  revert H. generalize (kms_respond rid r s). intros s1 H. destruct q; [|exact H]. eapply fair_then; [exact H|]. apply fair_talk, talk_exit.
Qed.
Lemma dispatch_fair rid msg s : one_head s → msg_ok s msg →
  (∀ id rq ie between, msg = KM_prime_import id rq ie between → ∀ s, fair [] (s, []) (between s, [])) → fair [rid] (s, []) (kms_dispatch rid msg s, []).
Proof.
  intros H1 Hm Hb. pose proof (handle_fair rid msg s H1 Hm Hb) as H. unfold kms_dispatch. destruct (kms_handle rid msg s) as [[r s1] a]. cbv zeta. cbn [fair_out] in H.
  pose proof (dispatch_rest_fair rid (match msg with KM_raw _ _ => ks_quit s1 | _ => false end) r a s1) as H2.
  pose proof (fair_seq _ _ _ _ _ H H2) as H3. by destruct r.
Qed.
Lemma turn_fair kick gate s : fair [] (s, []) (vblank_turn kick gate s, []).
Proof.
  assert (fair [] (s, []) (vblank_body kick gate s)) as H.
  { unfold vblank_body. cbv zeta. set (mu := if gate then _ else 20000). pose proof (aside_wait mu s) as Hw. destruct (vbl_wait mu s) as [[[got stamp] n] s1]. cbn [snd] in Hw.
    set (r := if got then _ else _). assert (fair [] (s, []) r) as Hr.
    { etrans; [apply (fair_talk [] s s1), (talk_aside _ _ Hw)|]. unfold r. destruct got.
      - set (s2 := kstat _ (set_vb _ s1)). assert (ktalk s1 s2) as H2 by (apply talk_aside; etrans; [apply aside_vb|apply kaside_stat]). clearbody s2. etrans; [apply (fair_talk [] s1 s2 H2)|].
        assert (ktalk s2 (measure 0 stamp n s2)) as H3 by apply talk_quiet, quiet_measure. etrans; [apply (fair_talk [] s2 _ H3)|]. apply on_vblank_fair.
      - destruct (cs_pend (ks_crtc s1 0)); [done| |done]. set (s2 := if _ && _ then _ else s1). assert (ktalk s1 s2) as H2 by (unfold s2; by destruct (_ && _)).
        clearbody s2. etrans; [apply (fair_talk [] s1 s2 H2)|]. pose proof (tr_plane _ _ _ (try_apply_tried s2)) as T. destruct (kms_try_apply 0 s2) as [armed s3]. cbn [fst snd] in *.
        apply fair_talk. etrans; [apply (talk_plane _ _ T)|]. by destruct armed. }
    clearbody r. destruct r as [s2 a]. unfold kms_cnt. cbv beta iota. set (now := u64 _). unfold kms_expire_parked.
    pose proof (walk_fair (expire_one now) (kms_tick s2, a) (fair_expire now)) as He. revert He. generalize (for_ 0 KMS_MAX_PARKED (expire_one now) (kms_tick s2, a)). intros [s3 a'] He.
    etrans; [exact Hr|]. etrans; [apply (fair_talk a s2), talk_aside, kaside_tick|]. etrans; [exact He|]. apply fair_talk, talk_aside, kaside_stat. }
  unfold vblank_turn. destruct (vblank_body kick gate s) as [s1 a]. cbv zeta. etrans; [exact H|]. etrans; [apply answer_fair|]. generalize (kms_answer a s1). intros s2.
  etrans; [apply (fair_talk [] s2), talk_reap|]. destruct (ks_quit s1); [done|]. apply fair_talk, talk_aside, aside_watch.
Qed.
End env.

(** ** Each request answered once

    What clients may rely on in every run of the display server: each request is answered
    exactly once or still parked, and what is parked has nothing to wake it yet. *)
Lemma fresh_wake s : fresh s → wake_ok s.
Proof.
  intros []. split; [constructor; try done|].
  - intros i _. by rewrite fr_clients.
  - intros i _. by rewrite fr_parked.
  - rewrite fr_nparked. symmetry. apply countZ_zero; [done|]. intros i _. apply fr_parked.
  - intros i _. split; unfold asleep_read, asleep_vblank; cbv zeta; by rewrite fr_parked.
Qed.
Lemma fresh_owes s r : fresh s → owes r s [] = 0.
Proof.
  intros []. unfold owes, parked_with. rewrite fr_said, countZ_zero; [done|done|]. intros i _. by rewrite fr_parked.
Qed.

Section env.
Context `{K : KEnv}.

(** ** Every reachable state *)
Lemma reach_wake s0 s : kreach s0 s → one_head s0 → wake_ok s0 → wake_ok s.
Proof.
  intros H. induction H as [s|s0 s rid msg H IH Hi Hm|s0 s rid id rq ie between H IH Hb IHb|s0 s kick gate H IH|s0 s H IH]; intros Ho W; [done|..]; specialize (IH Ho W);
    assert (one_head s) as Hs by (unfold one_head; by rewrite (proj2 (reach_keeps _ _ H Ho))).
  - apply (dispatch_fair rid msg s); [done|done| |done]. by intros ? ? ? ? ->.
  - set (R := λ x y : kms_srv_t, one_head x → ks_opt y = ks_opt x ∧ (wake_ok x → wake_ok y)).
    assert (PreOrder R) as HR.
    { split; [by intros x ?|]. intros x y z H1 H2 Hx. destruct (H1 Hx) as [E1 W1]. destruct H2 as [E2 W2]; [unfold one_head; by rewrite E1|]. split; [congruence|auto]. }
    pose proof (import_rel R id rq ie between s) as HI. unfold kms_dispatch, kms_handle. destruct (op_prime_import id rq ie between s) as [[rc d] s1]. cbn [snd] in HI.
    assert (wake_ok s1) as W1.
    { apply HI; [| |done|done].
      - intros x y T E _. split; [done|]. intros Wx. apply (fair_talk [] x y T). done.
      - intros x Hx. split; [apply (reach_keeps _ _ (Hb x) Hx)|]. by apply IHb. }
    by apply (dispatch_rest_fair rid false (raw_reply rc (match d with Some d => RU_dumb d | None => RU_none end) PL_none) [] s1).
  - by apply (turn_fair kick gate s).
  - by apply (fair_talk [] s _ (talk_aside _ _ (aside_isr s))).
Qed.

(** C7: no wake-up is lost: in every reachable state each parked request belongs to an
    open client and waits for something that has not happened: a read sleeps only while its
    client's event queue is empty, a vblank wait only while the count is short of its target;
    and the number of parked requests the server keeps is the number there are. *)
Theorem kms_no_lost_wakeup s i : running s → 0 ≤ i < KMS_MAX_PARKED → pk_used (ks_parked s i) = true →
  let p := ks_parked s i in
  (∃ ci, kms_client_get s (pk_client p) = Some ci ∧ match pk_kind p with
     | KMS_PARK_READ => kc_evhead (ks_clients s ci) = kc_evtail (ks_clients s ci)
     | KMS_PARK_VBLANK => cs_seq (ks_crtc s 0) < pk_target_seq p end) ∧
  ks_nparked s = countZ (λ i, pk_used (ks_parked s i)) 0 KMS_MAX_PARKED.
Proof.
  intros (o & vb & f & id & rc & t & e & s0 & H0 & H) Hi Hu. apply start_fresh in H0. destruct (fresh_refs _ H0) as [_ Ho].
  destruct (reach_wake s0 s H Ho (fresh_wake _ H0)) as [P A]. cbv zeta. split; [|apply (po_count _ P)]. destruct (po_client _ P i Hi Hu) as [[ci Hc] _]. destruct (A i Hi) as [A1 A2].
  exists ci. split; [done|]. destruct (pk_kind (ks_parked s i)) eqn:Ek; [|by apply A2]. specialize (A1 Hu Ek ci Hc). unfold ev_pending in A1. by apply negb_false_iff, Z.eqb_eq in A1.
Qed.

(** ** Every run *)
(** One thread takes the messages; the vblank thread and the interrupt run in between, and
    also while an import is mapped. *)
Inductive kbeat := KB_turn (kick : Z) (gate : bool) | KB_irq.
Definition beat (b : kbeat) (s : kms_srv_t) : kms_srv_t := match b with KB_turn kick gate => vblank_turn kick gate s | KB_irq => (smi_isr s).2 end.
Definition beats (l : list kbeat) (s : kms_srv_t) : kms_srv_t := foldl (λ s b, beat b s) s l.
Inductive kact := KA_msg (rid : Z) (msg : kmsg) | KA_beat (b : kbeat).
Definition act (x : kact) (s : kms_srv_t) : kms_srv_t := match x with KA_msg rid msg => kms_dispatch rid msg s | KA_beat b => beat b s end.
Definition krun (l : list kact) (s : kms_srv_t) : kms_srv_t := foldl (λ s x, act x s) s l.
Definition received (l : list kact) : list Z := omap (λ x, match x with KA_msg rid _ => Some rid | KA_beat _ => None end) l.
Definition act_ok (x : kact) (s : kms_srv_t) : Prop :=
  match x with
  | KA_msg _ msg => msg_ok s msg ∧ match msg with KM_prime_import _ _ _ between => ∃ l, ∀ s, between s = beats l s | _ => True end
  | KA_beat _ => True
  end.
Fixpoint run_ok (l : list kact) (s : kms_srv_t) : Prop :=
  match l with
  | [] => True
  | x :: l => act_ok x s ∧ run_ok l (act x s)
  end.

Lemma beat_fair b s : fair [] (s, []) (beat b s, []).
Proof. destruct b; [apply turn_fair|]. apply fair_talk, talk_aside, aside_isr. Qed.
Lemma beats_fair l s : fair [] (s, []) (beats l s, []).
Proof. revert s. induction l as [|b l IH]; intros s; [done|]. etrans; [apply (beat_fair b s)|apply IH]. Qed.
Lemma beat_keeps b s : keeps s (beat b s).
Proof. destruct b; [apply turn_kept|apply keeps_aside, aside_isr]. Qed.
Lemma beats_keeps l s : keeps s (beats l s).
Proof. revert s. induction l as [|b l IH]; intros s; [done|]. etrans; [apply (beat_keeps b s)|apply IH]. Qed.
Lemma act_fair x s : one_head s → act_ok x s → fair (received [x]) (s, []) (act x s, []) ∧ one_head (act x s).
Proof.
  intros Ho Hx. destruct x as [rid msg|b].
  - destruct Hx as [Hm Hb]. split.
    + apply dispatch_fair; [done|done|]. intros id rq ie between -> s'. destruct Hb as [l Hb]. rewrite Hb. apply beats_fair.
    + unfold one_head. cbn [act]. rewrite (proj2 (dispatch_kept rid msg s Ho Hm ltac:(intros id rq ie between -> s' _; destruct Hb as [l Hb]; rewrite Hb; apply beats_keeps))). done.
  - split; [apply beat_fair|]. unfold one_head. cbn [act]. by rewrite (proj2 (beat_keeps b s)).
Qed.
Lemma run_fair l s : one_head s → run_ok l s → fair (received l) (s, []) (krun l s, []).
Proof.
  revert s. induction l as [|x l IH]; intros s Ho; [done|]. intros [H1 H2]. destruct (act_fair x s Ho H1) as [F Ho']. specialize (IH (act x s) Ho' H2).
  intros W. destruct (F W) as [W1 E1]. destruct (IH W1) as [W2 E2]. split; [done|]. intros r. cbn [fst snd] in *. change (krun (x :: l) s) with (krun l (act x s)). rewrite E2, E1.
  change (x :: l) with ([x] ++ l). unfold received. rewrite omap_app, occurs_app. lia.
Qed.

(** C6: every request is answered exactly once: after any run of messages, vblanks and
    interrupts from start-up, each request received has been answered once or is still
    parked, with nothing answered twice and nothing answered that was not asked. *)
Theorem kms_answers_once o vb force id rc timing edid s0 l r :
  kms_start o vb force id rc timing edid = Some s0 → run_ok l s0 →
  occurs r (k_replies (krun l s0)) + parked_with (krun l s0) r = occurs r (received l).
Proof.
  intros H0 Hl. apply start_fresh in H0. destruct (fresh_refs _ H0) as [_ Ho]. destruct (run_fair l s0 Ho Hl (fresh_wake _ H0)) as [_ E]. specialize (E r).
  cbn [fst snd] in E. rewrite (fresh_owes s0 r H0) in E. unfold owes in E. cbn in E. lia.
Qed.
End env.
