(* ===== verification/KmsConcrete.v ===== *)
(** A display server on a concrete board: it starts, a client shows a framebuffer, flips to
    a second one and imports its first buffer, a vblank completes the first commit; the
    theorems on the display server at work on that run. *)
From S2P Require Import Prelude Proto State KmsProto KmsModes KmsState KmsBo KmsEv KmsBackend KmsCommit KmsFw KmsMain KmsVblank KmsEvSpec KmsAside KmsRefs KmsRefOps KmsPool KmsRefKept KmsRefCommit KmsRefFlip KmsRefReq KmsReach KmsBoot KmsSpec KmsCommitSpec KmsTalk KmsWake.

(** A counter of a tick a read, memory where it is asked for, firmware that says yes, a
    render server whose fences are not signalled. *)
#[export] Instance kenv0 : KEnv := {|
  kv_cnt n := 1000 * n; kv_mmap n size := Some 0x10000000; kv_physmap n pa size := Some 0x20000000; kv_va2pa n va := Some va;
  kv_export n := 0; kv_mem n a := 0; kv_fw n := (0, 0); kv_console n := 0;
  kv_fp n := mkFp 0 0 0 (λ _, 0) (λ _, 0) (λ _ _, 0) (λ _, 0) (λ _, 1); kv_smi n off := 0; kv_hvs n off := 0 |}.

Definition opts_demo : kms_opts :=
  mkOpts false false 32 0x40000000 500 false 2000 false false KMS_BACKEND_PLANE true 0 10 11 1 1000000 0 0 true true
    0x3c000000 1920 1080 7680 1080 0 KMS_FMT_XRGB8888 0 false 1 (λ _, 0) false 0 0 0.
Definition vb_demo : kms_vb := mkVb false false 0 0 0 (λ _, 0) false 0 0 0 0 0 16667 0 0 0 false KMS_VBL_TIMER 0 0 0.
Definition demo_start : option kms_srv_t := kms_start opts_demo vb_demo false 0 (-1) (λ _, 0) None.
Definition demo0 : kms_srv_t := default (kms_zero opts_demo vb_demo) demo_start.

Definition req_of (id : Z) (rq : kms_req) : kmsg := KM_raw (mkMsg 7 id OP_null 0 false) rq.
Definition say (msg : kmsg) (s : kms_srv_t) : kms_srv_t := kms_dispatch 1 msg s.
Definition fence1 : v3da_fence_t := mkFence 1 0 1 1.
Definition demo_msgs : list kmsg :=
  [ KM_open 7; KM_open 8;
    req_of 1 (K_create_dumb (mkCreateDumb 640 480 32 KMS_DUMB_POOL));
    req_of 1 (K_create_dumb (mkCreateDumb 640 480 32 KMS_DUMB_POOL));
    req_of 1 (K_addfb2 (mkAddfb2 640 480 KMS_FMT_XRGB8888 1 2560 0 KMS_MOD_LINEAR));
    req_of 1 (K_addfb2 (mkAddfb2 640 480 KMS_FMT_XRGB8888 2 2560 0 KMS_MOD_LINEAR));
    req_of 1 (K_prime_export 1);
    req_of 1 (K_set_crtc (mkSetCrtc (KMS_ID_CRTC 0) KMS_ID_FB_BASE 0 0 640 480)) ].
Definition demo1 : kms_srv_t := foldl (λ s m, say m s) demo0 demo_msgs.
Definition turns (n : nat) (s : kms_srv_t) : kms_srv_t := Nat.iter n (vblank_turn 0 false) s.
(** The first framebuffer is on the screen. *)
Definition demo2 : kms_srv_t := turns 12 demo1.
(** A flip that waits for a fence, an import of the first buffer, a read and a vblank wait. *)
Definition import1 : kmsg :=
  KM_prime_import 2 (mkPrimeImport 11 0 1 0 KMS_IMPORT_NS_KMSBUF 0) (mkKie None None 0 0 None 0 (λ _, None)) (λ s, s).
Definition demo_msgs2 : list kmsg :=
  [ req_of 1 (K_page_flip (mkPageFlip (KMS_ID_CRTC 0) (KMS_ID_FB_BASE + 1) KMS_PAGE_FLIP_EVENT 99 fence1));
    KM_read (mkMsg 7 1 OP_window 64 false);
    req_of 2 (K_wait_vblank (mkVblankReq (KMS_ID_CRTC 0) KMS_VBL_ABSOLUTE 1000 0));
    req_of 2 (K_crtc_queue_sequence (mkVblankReq (KMS_ID_CRTC 0) 1 3 5)) ].
Definition demo3 : kms_srv_t := say import1 (foldl (λ s m, say m s) demo2 demo_msgs2).

(** Each is a state the server reaches. *)
Definition is_Some_b {A} (o : option A) : bool := match o with Some _ => true | None => false end.
Lemma demo0_start : kms_start opts_demo vb_demo false 0 (-1) (λ _, 0) None = Some demo0.
Proof.
  unfold demo0, demo_start. assert (is_Some_b (kms_start opts_demo vb_demo false 0 (-1) (λ _, 0) None) = true) as H by (vm_compute; reflexivity).
  revert H. generalize (kms_start opts_demo vb_demo false 0 (-1) (λ _, 0) None). intros [s|]; [reflexivity|discriminate].
Qed.
Lemma running_start : running demo0.
Proof. exists opts_demo, vb_demo, false, 0, (-1), (λ _, 0), None, demo0. split; [exact demo0_start|exact (kr_refl demo0)]. Qed.
Definition msg_okb (s : kms_srv_t) (msg : kmsg) : bool :=
  negb (is_import msg) &&
  match msg with
  | KM_raw _ (K_addfb2 rq) => bool_decide (0 ≤ af_offset rq < 2 ^ 32) && bool_decide (0 ≤ af_pitch rq < 2 ^ 32) &&
      bool_decide (0 ≤ af_height rq < 2 ^ 32) && bool_decide (ks_next_fb s + 1 < 2 ^ 32)
  | _ => true
  end.
Lemma running_say msg s : running s → msg_okb s msg = true → running (say msg s).
Proof.
  intros (o & vb & f & id & rc & t & e & s0 & H0 & H) [H1 H2]%andb_true_iff. exists o, vb, f, id, rc, t, e, s0. split; [done|]. apply kr_msg; [done|by apply negb_true_iff|].
  destruct msg as [| | | | | | |m rq| | | | |]; try done. destruct rq; try done. cbn in *. rewrite !andb_true_iff, !bool_decide_eq_true in H2. tauto.
Qed.
Lemma running_turn kick gate s : running s → running (vblank_turn kick gate s).
Proof. intros (o & vb & f & id & rc & t & e & s0 & H0 & H). exists o, vb, f, id, rc, t, e, s0. split; [done|]. by apply kr_turn. Qed.
Lemma running_turns n s : running s → running (turns n s).
Proof. intros H. induction n as [|n IH]; [done|]. by apply running_turn. Qed.
Fixpoint msgs_okb (s : kms_srv_t) (l : list kmsg) : bool := match l with [] => true | m :: l => msg_okb s m && msgs_okb (say m s) l end.
Lemma running_msgs l : ∀ s, running s → msgs_okb s l = true → running (foldl (λ s m, say m s) s l).
Proof. induction l as [|m l IH]; intros s H; [done|]. cbn [msgs_okb]. intros [H1 H2]%andb_true_iff. cbn [foldl]. apply IH; [by apply running_say|done]. Qed.
Lemma running_demo1 : running demo1.
Proof. apply running_msgs; [apply running_start|by vm_compute]. Qed.
Lemma running_demo2 : running demo2.
Proof. apply running_turns, running_demo1. Qed.
Lemma running_demo3 : running demo3.
Proof.
  assert (running (foldl (λ s m, say m s) demo2 demo_msgs2)) as (o & vb & f & id & rc & t & e & s0 & H0 & H) by (apply running_msgs; [apply running_demo2|by vm_compute]).
  exists o, vb, f, id, rc, t, e, s0. split; [done|]. apply kr_import; [done|]. constructor.
Qed.

(** ** The properties at work

    The theorems on the display server, applied to that run. *)
Lemma demo_shown : fb_id (cs_cur (ks_crtc demo3 0) 0) = KMS_ID_FB_BASE.
Proof. vm_compute. reflexivity. Qed.
Lemma kms_refs_exact_witness : is_fb demo3 0 ∧ let f := ks_fbs demo3 0 in
  kf_refs f = b2z (kf_user_ref f) + shown_by demo3 (kf_id f) + pending_by demo3 (kf_id f).
Proof.
  assert (is_fb demo3 0) as H by (split; [done|vm_compute; reflexivity]). split; [exact H|]. destruct (kms_refs_exact demo3 running_demo3) as [G _]. exact (proj1 (G 0 H)).
Defined.
Lemma pool_find_first_fit_witness : pool_inv demo3 ∧
  match pool_find demo3 4096 with Some o => fits_at demo3 4096 o ∧ ∀ o', fits_at demo3 4096 o' → o ≤ o' | None => ∀ o, ¬ fits_at demo3 4096 o end.
Proof.
  assert (pool_inv demo3) as H by (destruct (running_ok demo3 running_demo3) as [[_ [H _]] _]; exact H). split; [exact H|]. exact (pool_find_first_fit demo3 4096 H).
Defined.
Lemma event_queue_refines_witness : let ops := [Push event0; Push event0; Fill 64; Push event0] in
  let '(outs, s') := evq_run 1 0 ops demo3 in
  fifo_run (events demo3 0) ops = (outs, events s' 0) ∧ queue_ok s' 0 ∧ ∀ j, j ≠ 0 → ks_clients s' j = ks_clients demo3 j.
Proof.
  intros ops. apply (event_queue_refines demo3 1 0 ops); [vm_compute; reflexivity|]. unfold queue_ok. vm_compute. repeat split; congruence.
Defined.
Lemma armed_commit_completes_witness : cs_pend (ks_crtc demo1 0) = KMS_PEND_ARMED ∧
  cs_pend (ks_crtc (kms_on_vblank 0 5 1 (kms_on_vblank 0 4 1 (demo1, []))).1 0) = KMS_PEND_NONE.
Proof.
  assert (cs_pend (ks_crtc demo1 0) = KMS_PEND_ARMED) as H by (vm_compute; reflexivity). split; [exact H|].
  destruct (armed_commit_completes demo1 [] 4 1 5 1 running_demo1 H ltac:(lia) ltac:(lia)) as (_ & G & _). exact G.
Defined.
Lemma kms_no_lost_wakeup_witness : pk_used (ks_parked demo3 0) = true ∧ ks_nparked demo3 = countZ (λ i, pk_used (ks_parked demo3 i)) 0 KMS_MAX_PARKED.
Proof.
  assert (pk_used (ks_parked demo3 0) = true) as H by (vm_compute; reflexivity). split; [exact H|].
  assert (0 ≤ 0 < KMS_MAX_PARKED) as Hr by (split; [apply Z.le_refl|reflexivity]). pose proof (kms_no_lost_wakeup demo3 0 running_demo3 Hr H) as G. cbv zeta in G.
  destruct G as [_ G]. exact G.
Defined.
Definition run_demo : list kact :=
  [KA_msg 1 (KM_open 7); KA_beat (KB_turn 0 false); KA_msg 2 (KM_read (mkMsg 7 1 OP_window 64 false)); KA_beat KB_irq;
   KA_msg 3 (KM_prime_import 1 (mkPrimeImport 11 0 1 0 KMS_IMPORT_NS_KMSBUF 0) (mkKie None None 0 0 None 0 (λ _, None)) (λ s, beats [] s)); KA_msg 4 KM_write].
Lemma kms_answers_once_witness : run_ok run_demo demo0 ∧
  occurs 2 (k_replies (krun run_demo demo0)) + parked_with (krun run_demo demo0) 2 = occurs 2 (received run_demo).
Proof.
  assert (run_ok run_demo demo0) as H by (repeat (split; [split; [exact I|]; first [exact I|by exists []]|]) || idtac; repeat split; try exact I; by exists []). split; [exact H|].
  exact (kms_answers_once opts_demo vb_demo false 0 (-1) (λ _, 0) None demo0 run_demo 2 demo0_start H).
Defined.

(** ** Where code and comments part

    Runs of the display server that show where the code and its comments part. *)
(** The ids of /kmsbuf count modulo 2^32: a larger id is answered as if it existed. *)
Lemma kmsbuf_id_truncated s id : 0 < id < 2 ^ 32 → kms_bufns s (KB_getattr_size (2 ^ 32 + id)) = kms_bufns s (KB_getattr_size id).
Proof.
  intros H. unfold kms_bufns. replace (2 ^ 32 + id =? 0) with false by (symmetry; apply Z.eqb_neq; lia). replace (id =? 0) with false by (symmetry; apply Z.eqb_neq; lia).
  replace (u32 (2 ^ 32 + id)) with (u32 id); [done|]. unfold u32. replace (2 ^ 32 + id) with (id + 1 * 2 ^ 32) by lia. by rewrite Z.mod_add.
Qed.

(** A framebuffer of 2^30 pixels a row is accepted with a pitch of 2560 bytes. *)
Lemma addfb2_wider_than_pitch : let rq := mkAddfb2 (2 ^ 30) 480 KMS_FMT_XRGB8888 1 2560 0 KMS_MOD_LINEAR in
  (kms_fb_add 1 rq demo1).1.1 = 0 ∧ af_pitch rq < 4 * af_width rq ∧ kb_size (ks_bos demo1 0) < 4 * af_width rq.
Proof. vm_compute. done. Qed.

(** Client 1 shows a framebuffer; client 2 sets a lower mode, which carries it; client 1 dies
    before the next vblank, and is shown again after it. *)
Definition low_mode : kms_modeinfo_t := kms_mode_scaled (cs_mode (ks_crtc demo2 0)) (cs_refresh_mhz (ks_crtc demo2 0)) 1280 720.
Definition ghost_msgs : list kmsg :=
  [ req_of 2 (K_create_blob (Some (modeinfo_bytes low_mode)));
    req_of 2 (K_atomic (mkAtomic 0 1 77 (KMS_ID_CRTC 0) (ks_next_blob demo2) 1) (Some [plane0 <| plane_id := KMS_ID_PLANE 0 7 |>])); KM_close 1 ].
Definition ghost1 : kms_srv_t := foldl (λ s m, say m s) demo2 ghost_msgs.
Definition ghost2 : kms_srv_t := turns 12 ghost1.
Lemma dead_client_shown : running ghost2 ∧
  cs_pend (ks_crtc ghost1 0) = KMS_PEND_ARMED ∧ fb_id (cs_cur (ks_crtc ghost1 0) 0) = 0 ∧      (* taken off when it died *)
  kms_client_get ghost2 1 = None ∧ fb_id (cs_cur (ks_crtc ghost2 0) 0) = KMS_ID_FB_BASE ∧
  kf_owner (ks_fbs ghost2 0) = 1 ∧ kf_user_ref (ks_fbs ghost2 0) = false.
Proof.
  split; [apply running_turns, running_msgs; [apply running_demo2|by vm_compute]|]. vm_compute. done.
Qed.
