(* ===== verification/DrmLogic.v ===== *)
(** The pure logic of libdrm on Phoenix (tools/gpu-lane/libdrm-phoenix/src/drm_phoenix_logic.c,
    drm_phoenix_logic.h): request numbers, tokens, object kinds, the flattening of a partial
    DRM atomic request into complete plane states, the DRM view of a property and a version. *)
From S2P Require Import Prelude Proto State KmsProto KmsModes KmsState.
From stdpp Require Import strings.
#[local] Open Scope Z_scope.

(** ** Requests and tokens *)
Definition DRMPHX_IOC_NR (req : Z) : Z := Z.land req 0xff.
Definition DRMPHX_IOC_TYPE (req : Z) : Z := Z.land (Z.shiftr req 8) 0xff.
Definition DRMPHX_TOKEN_TAG : Z := Z.shiftl 1 52.
Definition DRMPHX_TOKEN (h : Z) : Z := Z.lor DRMPHX_TOKEN_TAG (u64 (Z.shiftl h 12)).
Definition DRMPHX_TOKEN_OK (o : Z) : bool := Z.land (u64 o) (Z.lor DRMPHX_TOKEN_TAG 0xfff) =? DRMPHX_TOKEN_TAG.
Definition DRMPHX_TOKEN_HANDLE (o : Z) : Z := u32 (Z.shiftr (Z.land (u64 o) (u64 (Z.lnot DRMPHX_TOKEN_TAG))) 12).

(** ** Object kinds *)
Inductive drmphx_obj := DRMPHX_OBJ_NONE | DRMPHX_OBJ_CONNECTOR | DRMPHX_OBJ_ENCODER | DRMPHX_OBJ_CRTC | DRMPHX_OBJ_PLANE.
#[export] Instance drmphx_obj_dec : EqDecision drmphx_obj.
Proof. solve_decision. Defined.
Definition drmphx_obj_kind (id : Z) : drmphx_obj :=
  if (KMS_ID_CONNECTOR 0 <=? id) && (id <? KMS_ID_CONNECTOR KMS_MAX_CRTCS) then DRMPHX_OBJ_CONNECTOR
  else if (KMS_ID_ENCODER 0 <=? id) && (id <? KMS_ID_ENCODER KMS_MAX_CRTCS) then DRMPHX_OBJ_ENCODER
  else if (KMS_ID_CRTC 0 <=? id) && (id <? KMS_ID_CRTC KMS_MAX_CRTCS) then DRMPHX_OBJ_CRTC
  else if (KMS_ID_PLANE 0 0 <=? id) && (id <? KMS_ID_PLANE KMS_MAX_CRTCS 0) then DRMPHX_OBJ_PLANE
  else DRMPHX_OBJ_NONE.

Definition DRM_MODE_ROTATE_0 := 1.

(** ** A plane's state from its properties *)
Definition plane_prop (st : kms_atomic_plane_t) (pv : kms_prop_value_t) : kms_atomic_plane_t :=
  let v := pv_value pv in
  let p := pv_prop_id pv in
  if p =? KMS_PROP_FB_ID then st <| fb_id := u32 v |>
  else if p =? KMS_PROP_CRTC_ID then st <| crtc_id := u32 v |>
  else if p =? KMS_PROP_SRC_X then st <| src_x := u32 v |>
  else if p =? KMS_PROP_SRC_Y then st <| src_y := u32 v |>
  else if p =? KMS_PROP_SRC_W then st <| src_w := u32 v |>
  else if p =? KMS_PROP_SRC_H then st <| src_h := u32 v |>
  else if p =? KMS_PROP_CRTC_X then st <| crtc_x := i32 v |>
  else if p =? KMS_PROP_CRTC_Y then st <| crtc_y := i32 v |>
  else if p =? KMS_PROP_CRTC_W then st <| crtc_w := u32 v |>
  else if p =? KMS_PROP_CRTC_H then st <| crtc_h := u32 v |>
  else if p =? KMS_PROP_ZPOS then st <| zpos := i32 v |>
  else if p =? KMS_PROP_ALPHA then st <| alpha := u32 v |>
  else if p =? KMS_PROP_ROTATION then st <| rotation := u32 v |>
  else st.
Definition drmphx_plane_state_from_props (id : Z) (pv : list kms_prop_value_t) (st : kms_atomic_plane_t) : kms_atomic_plane_t :=
  foldl plane_prop (st <| plane_id := id |>) pv.

(** ** Flattening an atomic request

    [da_planes] is [st] and [in_fence_fd] up to [nplanes]. *)
Record drmphx_atomic_t := mkDrmAtomic {
  da_crtc_id : Z; da_crtc_named : bool; da_active : Z; da_mode_blob : Z; da_out_fence_ptr : Z;
  da_planes : list (kms_atomic_plane_t * Z) }.
#[export] Instance eta_drm_atomic : Eta drmphx_atomic_t := fun r =>
  mkDrmAtomic (da_crtc_id r) (da_crtc_named r) (da_active r) (da_mode_blob r) (da_out_fence_ptr r) (da_planes r).
Definition drm_atomic0 : drmphx_atomic_t := mkDrmAtomic 0 false 1 0 0 [].

Definition slot_of (a : drmphx_atomic_t) (id : Z) : option nat :=
  fst <$> list_find (λ x : kms_atomic_plane_t * Z, plane_id x.1 = id) (da_planes a).
Definition plane_default (id : Z) : kms_atomic_plane_t :=
  plane0 <| plane_id := id |> <| alpha := 0xffff |> <| rotation := DRM_MODE_ROTATE_0 |>.

(** One property of a plane, with its in-fence descriptor; a CRTC; a connector. *)
Definition set_plane_prop (prop v : Z) (x : kms_atomic_plane_t * Z) : Z + kms_atomic_plane_t * Z :=
  let '(st, fd) := x in
  if prop =? KMS_PROP_FB_ID then inr (st <| fb_id := u32 v |>, fd)
  else if prop =? KMS_PROP_CRTC_ID then
    if negb (v =? 0) && negb (bool_decide (drmphx_obj_kind (u32 v) = DRMPHX_OBJ_CRTC)) then inl (- EINVAL)
    else inr (st <| crtc_id := u32 v |>, fd)
  else if prop =? KMS_PROP_SRC_X then inr (st <| src_x := u32 v |>, fd)
  else if prop =? KMS_PROP_SRC_Y then inr (st <| src_y := u32 v |>, fd)
  else if prop =? KMS_PROP_SRC_W then inr (st <| src_w := u32 v |>, fd)
  else if prop =? KMS_PROP_SRC_H then inr (st <| src_h := u32 v |>, fd)
  else if prop =? KMS_PROP_CRTC_X then inr (st <| crtc_x := i32 v |>, fd)
  else if prop =? KMS_PROP_CRTC_Y then inr (st <| crtc_y := i32 v |>, fd)
  else if prop =? KMS_PROP_CRTC_W then if 0x7fffffff <? v then inl (- EINVAL) else inr (st <| crtc_w := u32 v |>, fd)
  else if prop =? KMS_PROP_CRTC_H then if 0x7fffffff <? v then inl (- EINVAL) else inr (st <| crtc_h := u32 v |>, fd)
  else if prop =? KMS_PROP_IN_FENCE_FD then
    if (i64 v <? -1) || (0x7fffffff <? i64 v) then inl (- EINVAL) else inr (st, i32 (i64 v))
  else if prop =? KMS_PROP_ZPOS then if 7 <? v then inl (- EINVAL) else inr (st <| zpos := i32 v |>, fd)
  else if prop =? KMS_PROP_ALPHA then if 0xffff <? v then inl (- EINVAL) else inr (st <| alpha := u32 v |>, fd)
  else if prop =? KMS_PROP_ROTATION then inr (st <| rotation := u32 v |>, fd)
  else if (prop =? KMS_PROP_TYPE) || (prop =? KMS_PROP_IN_FORMATS) then inl (- EINVAL)
  else inl (- ENOENT).

Definition set_crtc_prop (prop v : Z) (a : drmphx_atomic_t) : Z + drmphx_atomic_t :=
  if prop =? KMS_PROP_ACTIVE then if 1 <? v then inl (- EINVAL) else inr (a <| da_active := u32 v |>)
  else if prop =? KMS_PROP_MODE_ID then inr (a <| da_mode_blob := u32 v |>)
  else if prop =? KMS_PROP_OUT_FENCE_PTR then inr (a <| da_out_fence_ptr := v |>)
  else if prop =? KMS_PROP_VRR_ENABLED then if v =? 0 then inr a else inl (- EINVAL)
  else inl (- ENOENT).

Definition set_connector_prop (prop v : Z) (a : drmphx_atomic_t) : Z + drmphx_atomic_t :=
  if prop =? KMS_PROP_CRTC_ID then
    if negb (v =? 0) && negb (bool_decide (drmphx_obj_kind (u32 v) = DRMPHX_OBJ_CRTC)) then inl (- EINVAL)
    else inr (if negb (v =? 0) && (da_crtc_id a =? 0) then a <| da_crtc_id := u32 v |> else a)
  else if prop =? KMS_PROP_DPMS then if v <=? 3 then inr a else inl (- EINVAL)
  else if prop =? KMS_PROP_LINK_STATUS then if v <=? 1 then inr a else inl (- EINVAL)
  else if (prop =? KMS_PROP_EDID) || (prop =? KMS_PROP_NON_DESKTOP) then inl (- EINVAL)
  else inl (- ENOENT).

(** A computation over the caller's own state [W] (the mirror behind the callback), with an
    errno: what was cached before an error stays cached. *)
Definition drm (W A : Type) : Type := W → (Z + A) * W.
Definition drm_fail {W A} (e : Z) : drm W A := λ w, (inl e, w).
Definition drm_lift {W A} (r : Z + A) : drm W A := λ w, (r, w).
#[export] Instance drm_mret {W} : MRet (drm W) := λ A a w, (inr a, w).
#[export] Instance drm_mbind {W} : MBind (drm W) := λ A B f m w,
  let '(r, w) := m w in match r with inl e => (inl e, w) | inr a => f a w end.

Section flatten.
Context {W : Type}.
(** The callback fills the state it is given: its errno and the state. *)
Definition baseline_fn : Type := Z → kms_atomic_plane_t → W → Z * kms_atomic_plane_t * W.
Context (baseline : option baseline_fn).

Definition ask_baseline (id : Z) : drm W kms_atomic_plane_t := λ w,
  match baseline with
  | None => (inr (plane_default id), w)
  | Some f => let '(rc, st, w) := f id (plane_default id) w in (if negb (rc =? 0) then inl rc else inr (st <| plane_id := id |>), w)
  end.
Definition plane_slot (id : Z) (a : drmphx_atomic_t) : drm W (nat * drmphx_atomic_t) :=
  match slot_of a id with
  | Some i => mret (i, a)
  | None =>
      if KMS_ATOMIC_MAX_PLANES <=? Z.of_nat (length (da_planes a)) then drm_fail (- E2BIG)
      else
        st ← ask_baseline id;
        mret (length (da_planes a), a <| da_planes ::= λ l, l ++ [(st <| in_fence := fence0 |>, -1)] |>)
  end.

Definition flat_prop (kind : drmphx_obj) (id prop v : Z) (a : drmphx_atomic_t) : drm W drmphx_atomic_t :=
  match kind with
  | DRMPHX_OBJ_PLANE =>
      '(i, a) ← plane_slot id a;
      match set_plane_prop prop v (default (plane0, -1) (da_planes a !! i)) with
      | inl e => drm_fail e
      | inr x => mret (a <| da_planes ::= <[i := x]> |>)
      end
  | DRMPHX_OBJ_CRTC => drm_lift (set_crtc_prop prop v a)
  | DRMPHX_OBJ_CONNECTOR => drm_lift (set_connector_prop prop v a)
  | _ => drm_fail (- ENOENT)
  end.
(** The request: objects, how many properties each has, the properties of all in a row. *)
Context (objs count_props props values : Z → Z).
Fixpoint flat_props (n : nat) (kind : drmphx_obj) (id k : Z) (a : drmphx_atomic_t) : drm W drmphx_atomic_t :=
  match n with
  | O => mret a
  | S n => a ← flat_prop kind id (props k) (values k) a; flat_props n kind id (u32 (k + 1)) a
  end.
Definition flat_obj (id n k : Z) (a : drmphx_atomic_t) : drm W drmphx_atomic_t :=
  let kind := drmphx_obj_kind id in
  let isa k := bool_decide (kind = k) in
  if isa DRMPHX_OBJ_CRTC && da_crtc_named a && negb (da_crtc_id a =? id) then drm_fail (- EINVAL)
  else
    let a := if isa DRMPHX_OBJ_CRTC then a <| da_crtc_named := true |> <| da_crtc_id := id |> else a in
    a ← flat_props (Z.to_nat n) kind id k a;
    if isa DRMPHX_OBJ_PLANE && (n =? 0) then r ← plane_slot id a; mret r.2 else mret a.
Fixpoint flat_objs (n : nat) (o k : Z) (a : drmphx_atomic_t) : drm W drmphx_atomic_t :=
  match n with
  | O => mret a
  | S n => a ← flat_obj (objs o) (count_props o) k a; flat_objs n (o + 1) (u32 (k + count_props o)) a
  end.

(** The commit's CRTC: named, else the first plane's, else display 0. *)
Definition plane_crtc (a : drmphx_atomic_t) : Z :=
  default 0 (List.find (λ x, negb (x =? 0)) ((λ x : kms_atomic_plane_t * Z, crtc_id x.1) <$> da_planes a)).
Definition flat_crtc (a : drmphx_atomic_t) : Z + drmphx_atomic_t :=
  let a := if da_crtc_id a =? 0 then a <| da_crtc_id := plane_crtc a |> else a in
  let a := if da_crtc_id a =? 0 then a <| da_crtc_id := KMS_ID_CRTC 0 |> else a in
  if existsb (λ x : kms_atomic_plane_t * Z, negb (crtc_id x.1 =? 0) && negb (crtc_id x.1 =? da_crtc_id a)) (da_planes a) then inl (- EINVAL)
  else inr a.

Definition drmphx_atomic_flatten (count_objs : Z) : drm W drmphx_atomic_t :=
  a ← flat_objs (Z.to_nat count_objs) 0 0 drm_atomic0;
  drm_lift (flat_crtc a).
End flatten.
#[global] Arguments baseline_fn : clear implicits.
#[global] Arguments drmphx_atomic_flatten {W} baseline objs count_props props values count_objs _ : assert.

(** ** The DRM view of a property *)
Record kms_property_t := mkKProperty { pr_name : string; pr_flags : Z; pr_nvalues : Z; pr_nenums : Z }.
(** What the server put behind a property: [kms_prop_enum_t]s or values. *)
Inductive prop_data := PD_enums (l : list (Z * string)) | PD_values (l : list Z).
(** [struct drm_mode_get_property], and what was written where in the caller's memory. *)
Inductive user_word := UW_value (v : Z) | UW_enum (v : Z) (name : string).
Record drm_get_property := mkGetProp {
  gp_name : string; gp_flags : Z; gp_count_values : Z; gp_count_enum_blobs : Z; gp_writes : list (Z * user_word) }.
Definition DRM_PROP_NAME_LEN := 32.
Definition prop_name (s : string) : string := String.substring 0 (Z.to_nat (DRM_PROP_NAME_LEN - 1)) s.
Definition copy_user (uptr : Z) (x : user_word) : list (Z * user_word) := if uptr =? 0 then [] else [(uptr, x)].
(** The first [n] elements of a buffer that is zero past what the server wrote. *)
Definition padded {A} (n : nat) (z : A) (l : list A) : list A := take n (l ++ replicate n z).
(** Element [i] of what the server wrote goes to the two arrays, each up to its capacity. *)
Definition fill_enum (values_ptr enum_ptr cap_values cap_enums : Z) (i : nat) (e : Z * string) : list (Z * user_word) :=
  let i := Z.of_nat i in
  (if i <? cap_values then copy_user (u64 (values_ptr + i * 8)) (UW_value e.1) else []) ++
  (if i <? cap_enums then copy_user (u64 (enum_ptr + i * 40)) (UW_enum e.1 (prop_name e.2)) else []).
Definition fill_value (values_ptr : Z) (i : nat) (v : Z) : list (Z * user_word) := copy_user (u64 (values_ptr + Z.of_nat i * 8)) (UW_value v).
Definition drmphx_fill_property (p : kms_property_t) (data : prop_data) (data_size values_ptr enum_ptr cap_values cap_enums : Z) : drm_get_property :=
  let name := prop_name (pr_name p) in
  if has (pr_flags p) (Z.lor KMS_PROP_FLAG_ENUM KMS_PROP_FLAG_BITMASK) then
    let l := padded (Z.to_nat (Z.min (pr_nenums p) (data_size / 40))) (0, EmptyString) (match data with PD_enums l => l | PD_values _ => [] end) in
    mkGetProp name (pr_flags p) (pr_nenums p) (pr_nenums p) (mjoin (imap (fill_enum values_ptr enum_ptr cap_values cap_enums) l))
  else if has (pr_flags p) KMS_PROP_FLAG_BLOB then mkGetProp name (pr_flags p) 0 0 []
  else
    let l := padded (Z.to_nat (Z.min (Z.min (pr_nvalues p) cap_values) (data_size / 8))) 0 (match data with PD_values l => l | PD_enums _ => [] end) in
    mkGetProp name (pr_flags p) (pr_nvalues p) 0 (mjoin (imap (fill_value values_ptr) l)).

(** ** DRM_IOCTL_VERSION: the bytes copied and the full length *)
Definition fill_str (len : Z) (dst : bool) (src : string) : string * Z :=
  let n := Z.of_nat (String.length src) in
  ((if dst && negb (len =? 0) then String.substring 0 (Z.to_nat (Z.min n len)) src else EmptyString), n).
Record drm_version := mkVersion { dv_major : Z; dv_minor : Z; dv_patch : Z; dv_name : string * Z; dv_date : string * Z; dv_desc : string * Z }.
Definition drmphx_fill_version (name_len date_len desc_len : Z) (dsts : bool * bool * bool) (major minor patch : Z)
    (name date desc : string) : drm_version :=
  let '(dn, dd, de) := dsts in
  mkVersion major minor patch (fill_str name_len dn name) (fill_str date_len dd date) (fill_str desc_len de desc).

(** ** drmDevice construction

    [alloc i] says whether the [i]-th allocation succeeds; the result is the device and how
    many allocations are live: the block, the array and a string per entry. *)
Record drm_device := mkDevice { dev_fullname : string; dev_nodes : list string; dev_available : Z; dev_compatible : list string }.
Definition DRMPHX_NODE_PATH_MAX := 64.
Definition DRM_PLATFORM_DEVICE_NAME_LEN := 512.
Definition node_path (s : option string) : string :=
  match s with Some s => String.substring 0 (Z.to_nat (DRMPHX_NODE_PATH_MAX - 1)) s | None => EmptyString end.
Definition node_mask (nodes : list (option string)) : Z :=
  foldl Z.lor 0 (imap (λ i n, match n with Some _ => Z.shiftl 1 (Z.of_nat i) | None => 0 end) nodes).
Fixpoint dup_all (alloc : nat → bool) (i : nat) (l : list string) : option (list string) :=
  match l with
  | [] => Some []
  | s :: l => if alloc i then cons s <$> dup_all alloc (S i) l else None
  end.
Definition drmphx_device_new (alloc : nat → bool) (fullname : string) (compatible : list string) (nodes : list (option string))
    : option drm_device * nat :=
  if negb (alloc 0%nat) then (None, 0%nat)
  else if negb (alloc 1%nat) then (None, 0%nat)
  else
    match dup_all alloc 2 compatible with
    | None => (None, 0%nat)
    | Some l =>
        (Some (mkDevice (String.substring 0 (Z.to_nat (DRM_PLATFORM_DEVICE_NAME_LEN - 1)) fullname) (node_path <$> nodes) (node_mask nodes) l),
         (2 + length l)%nat)
    end.
