(* ===== verification/DrmLogicSpec.v ===== *)
(** What flattening gives: the complete state of each plane named once, equal to its properties
    laid in order over its baseline. *)
From S2P Require Import Prelude Proto State KmsProto KmsModes KmsState DrmLogic.
From stdpp Require Import strings.
#[local] Open Scope Z_scope.

(** ** The request as a list *)
Section request.
Context (objs count_props props values : Z → Z).
Fixpoint req_props (n : nat) (k : Z) : list (Z * Z) :=
  match n with O => [] | S n => (props k, values k) :: req_props n (u32 (k + 1)) end.
Fixpoint req_objs (n : nat) (o k : Z) : list (Z * list (Z * Z)) :=
  match n with O => [] | S n => (objs o, req_props (Z.to_nat (count_props o)) k) :: req_objs n (o + 1) (u32 (k + count_props o)) end.
Definition request (count_objs : Z) : list (Z * list (Z * Z)) := req_objs (Z.to_nat count_objs) 0 0.
End request.

(** The properties an object is given, in order, and what they make of a plane. *)
Definition props_of (R : list (Z * list (Z * Z))) (id : Z) : list (Z * Z) := mjoin (snd <$> filter (λ x, x.1 = id) R).
Definition put_prop (r : Z + kms_atomic_plane_t * Z) (pv : Z * Z) : Z + kms_atomic_plane_t * Z :=
  match r with inl e => inl e | inr x => set_plane_prop pv.1 pv.2 x end.
Definition overlay (x : kms_atomic_plane_t * Z) (l : list (Z * Z)) : Z + kms_atomic_plane_t * Z := foldl put_prop (inr x) l.
Definition start (b : Z → kms_atomic_plane_t) (id : Z) : kms_atomic_plane_t * Z := (b id <| plane_id := id |> <| in_fence := fence0 |>, -1).
(** [b] is what the callback answers in the states [I], which it keeps. *)
Definition answers {W} (I : W → Prop) (f : baseline_fn W) (b : Z → kms_atomic_plane_t) : Prop :=
  ∀ id w, drmphx_obj_kind id = DRMPHX_OBJ_PLANE → I w → I (f id (plane_default id) w).2 ∧ ((f id (plane_default id) w).1.1 = 0 → (f id (plane_default id) w).1.2 = b id).

Lemma set_plane_prop_id p v x y : set_plane_prop p v x = inr y → plane_id y.1 = plane_id x.1.
Proof. destruct x as [st fd]. unfold set_plane_prop. repeat case_match; intros [= <-]; done. Qed.
Lemma slot_of_Some a id i : slot_of a id = Some i → ∃ x, da_planes a !! i = Some x ∧ plane_id x.1 = id.
Proof. unfold slot_of. destruct (list_find _ _) as [[j x]|] eqn:E; [|done]. intros [= <-]. apply list_find_Some in E as (? & ? & _). by exists x. Qed.
Lemma slot_of_None a id x : slot_of a id = None → x ∈ da_planes a → plane_id x.1 ≠ id.
Proof. unfold slot_of. destruct (list_find _ _) as [[]|] eqn:E; [done|]. intros _. apply list_find_None in E. rewrite Forall_forall in E. apply E. Qed.

Section spec.
Context {W : Type} (I : W → Prop) (f : baseline_fn W) (b : Z → kms_atomic_plane_t) (Hf : answers I f b).

(** What the planes hold after the properties [R], the last object's perhaps not complete; the
    objects [T] are. *)
Definition ids (a : drmphx_atomic_t) : list Z := (λ x : kms_atomic_plane_t * Z, plane_id x.1) <$> da_planes a.
Record holds (R : list (Z * list (Z * Z))) (T : list Z) (a : drmphx_atomic_t) : Prop := mkHolds {
  ho_len : Z.of_nat (length (da_planes a)) ≤ KMS_ATOMIC_MAX_PLANES;
  ho_dup : NoDup (ids a);
  ho_kind id : id ∈ ids a → (id ∈ (R.*1)) ∧ drmphx_obj_kind id = DRMPHX_OBJ_PLANE;
  ho_state x : x ∈ da_planes a → overlay (start b (plane_id x.1)) (props_of R (plane_id x.1)) = inr x;
  ho_all id : id ∈ T → drmphx_obj_kind id = DRMPHX_OBJ_PLANE → id ∈ ids a;
  ho_named id : id ∈ (R.*1) → drmphx_obj_kind id = DRMPHX_OBJ_CRTC → da_crtc_named a = true ∧ da_crtc_id a = id }.

Lemma plane_slot_spec id a w i a' w' : drmphx_obj_kind id = DRMPHX_OBJ_PLANE → I w → plane_slot (Some f) id a w = (inr (i, a'), w') →
  I w' ∧
  (∃ x, da_planes a' !! i = Some x ∧ plane_id x.1 = id ∧ (da_planes a' = da_planes a ∨ ((id ∉ ids a) ∧ x = start b id ∧ da_planes a' = da_planes a ++ [x]))) ∧
  Z.of_nat (length (da_planes a')) ≤ Z.max (Z.of_nat (length (da_planes a))) KMS_ATOMIC_MAX_PLANES ∧
  da_crtc_named a' = da_crtc_named a ∧ da_crtc_id a' = da_crtc_id a.
Proof.
  intros Hk Hw. unfold plane_slot. destruct (slot_of a id) as [j|] eqn:Es.
  - intros [= -> -> ->]. split; [done|]. destruct (slot_of_Some _ _ _ Es) as (x & ? & ?). split; [exists x; auto|]. split; [lia|done].
  - destruct (Z.leb_spec KMS_ATOMIC_MAX_PLANES (Z.of_nat (length (da_planes a)))) as [|Hl]; [done|]. unfold ask_baseline, mbind, drm_mbind.
    specialize (Hf id w Hk Hw). destruct (f id (plane_default id) w) as [[rc st] w1]. cbn in Hf. destruct Hf as [Hw1 Hst]. destruct (Z.eqb_spec rc 0) as [->|]; [|done]. cbn [negb].
    intros [= <- <- <-]. split; [done|]. rewrite Hst by done. split.
    + exists (start b id). cbn. rewrite lookup_app_r, Nat.sub_diag by done. split; [done|]. split; [done|]. right. split; [|done].
      intros (x & Hx & Hin)%list_elem_of_fmap. by apply (slot_of_None _ _ _ Es Hin).
    + cbn. rewrite length_app. cbn. split; [lia|done].
Qed.

Lemma props_of_snoc R id l id' : props_of (R ++ [(id, l)]) id' = props_of R id' ++ (if decide (id = id') then l else []).
Proof.
  unfold props_of. rewrite filter_app, fmap_app, join_app. f_equal. rewrite filter_cons. cbn. case_decide; cbn; by rewrite ?app_nil_r.
Qed.
Lemma overlay_snoc x l p v y : overlay x l = inr y → overlay x (l ++ [(p, v)]) = set_plane_prop p v y.
Proof. unfold overlay. rewrite foldl_app. by intros ->. Qed.

(** A slot for the current object. *)
Lemma holds_slot R T id l a w i a' w' : drmphx_obj_kind id = DRMPHX_OBJ_PLANE → id ∈ (R.*1) → props_of R id = l →
  holds R T a → (id ∈ ids a ∨ l = []) → I w → plane_slot (Some f) id a w = (inr (i, a'), w') →
  I w' ∧ holds R T a' ∧ ∃ x, da_planes a' !! i = Some x ∧ plane_id x.1 = id.
Proof.
  intros Hk HR El [] Hid Hw H. apply plane_slot_spec in H as (Hw' & (x & Hx & Eid & Hc) & Hlen & En & Ec); [|done..]. split; [done|]. split; [|eauto]. destruct Hc as [E|(Hni & -> & E)].
  - constructor; unfold ids in *; rewrite ?E, ?En, ?Ec; auto.
  - assert (l = []) as -> by (by destruct Hid). constructor; unfold ids in *; rewrite ?E, ?En, ?Ec; auto.
    + rewrite E in Hlen. lia.
    + rewrite fmap_app. apply NoDup_app. split; [done|]. split; [|apply NoDup_singleton]. cbn. by intros y Hy ->%list_elem_of_singleton.
    + intros id'. rewrite fmap_app, elem_of_app. intros [?|Hy]; [auto|]. cbn in Hy. by apply list_elem_of_singleton in Hy as ->.
    + intros y [?| ->%list_elem_of_singleton]%elem_of_app; [auto|]. change (plane_id (start b id).1) with id. by rewrite El.
    + intros id' ? ?. rewrite fmap_app. apply elem_of_app. left. auto.
Qed.

(** One property. *)
Lemma crtc_prop_frame p v a a' : set_crtc_prop p v a = inr a' → da_planes a' = da_planes a ∧ da_crtc_named a' = da_crtc_named a ∧ da_crtc_id a' = da_crtc_id a.
Proof. unfold set_crtc_prop. repeat case_match; intros [= <-]; done. Qed.
Lemma connector_prop_frame p v a a' : set_connector_prop p v a = inr a' →
  da_planes a' = da_planes a ∧ da_crtc_named a' = da_crtc_named a ∧ (da_crtc_id a ≠ 0 → da_crtc_id a' = da_crtc_id a).
Proof.
  unfold set_connector_prop. repeat case_match; intros [= <-]; try done. split; [done|]. split; [done|]. intros Hn. exfalso. apply Hn.
  destruct (da_crtc_id a =? 0) eqn:E; [lia|]. by rewrite andb_false_r in *.
Qed.
Lemma crtc_id_nz id : drmphx_obj_kind id = DRMPHX_OBJ_CRTC → id ≠ 0.
Proof. by intros H ->. Qed.
Lemma snoc_ids (R : list (Z * list (Z * Z))) id l l' : (R ++ [(id, l)]).*1 = (R ++ [(id, l')]).*1.
Proof. by rewrite !fmap_app. Qed.
Lemma holds_frame R T id l l' a a' : drmphx_obj_kind id ≠ DRMPHX_OBJ_PLANE → holds (R ++ [(id, l)]) T a →
  da_planes a' = da_planes a → da_crtc_named a' = da_crtc_named a → (da_crtc_id a ≠ 0 → da_crtc_id a' = da_crtc_id a) → holds (R ++ [(id, l')]) T a'.
Proof.
  intros Hk [] Ep En Ec. constructor; unfold ids in *; rewrite ?Ep, ?En; auto.
  - intros id' Hin. rewrite (snoc_ids _ _ l' l). auto.
  - intros x Hx. rewrite props_of_snoc. destruct (decide (id = plane_id x.1)) as [E|Hne].
    + destruct (ho_kind0 (plane_id x.1)) as [_ G]; [by apply list_elem_of_fmap; exists x|]. by rewrite <- E in G.
    + rewrite <- (ho_state0 x Hx). by rewrite props_of_snoc, decide_False.
  - intros id' Hin Hc. rewrite (snoc_ids _ _ l' l) in Hin. destruct (ho_named0 id' Hin Hc) as [G1 G2]. split; [done|]. rewrite Ec; [done|]. rewrite G2. by apply crtc_id_nz.
Qed.
Lemma NoDup_lookup_fmap a i j x y : NoDup (ids a) → da_planes a !! i = Some x → da_planes a !! j = Some y → plane_id x.1 = plane_id y.1 → i = j.
Proof. intros Hn Hi Hj E. apply (NoDup_lookup (ids a) i j (plane_id x.1)); [done| |]; unfold ids; rewrite list_lookup_fmap; [by rewrite Hi|by rewrite Hj, E]. Qed.
(** A property of a plane that has its slot. *)
Lemma holds_put R T id l p v a i x y : drmphx_obj_kind id = DRMPHX_OBJ_PLANE → holds (R ++ [(id, l)]) T a →
  da_planes a !! i = Some x → plane_id x.1 = id → set_plane_prop p v x = inr y →
  let a' := a <| da_planes ::= <[i := y]> |> in holds (R ++ [(id, l ++ [(p, v)])]) T a' ∧ id ∈ ids a'.
Proof.
  intros Hk H Hx Eid Hy. cbv zeta. set (a' := a <| da_planes ::= <[i := y]> |>). pose proof (set_plane_prop_id _ _ _ _ Hy) as Ey.
  assert (ids a' = ids a) as Ei. { unfold ids, a'. cbn. rewrite list_fmap_insert. apply list_insert_id. rewrite list_lookup_fmap, Hx. cbn. by rewrite Ey. }
  destruct H. split.
  - constructor; unfold ids in *; rewrite ?Ei; auto.
    + unfold a'. cbn. by rewrite length_insert.
    + intros id' Hin. rewrite (snoc_ids _ _ _ l). auto.
    + intros z Hz. apply list_elem_of_lookup in Hz as [j Hj]. unfold a' in Hj. cbn in Hj. rewrite props_of_snoc. destruct (decide (j = i)) as [->|Hne].
      * rewrite list_lookup_insert_eq in Hj by (by eapply lookup_lt_Some). injection Hj as <-. rewrite Ey, Eid, decide_True by done.
        rewrite app_assoc. rewrite (overlay_snoc _ _ p v x); [done|]. rewrite <- (ho_state0 x (list_elem_of_lookup_2 _ _ _ Hx)). rewrite Eid. by rewrite props_of_snoc, decide_True.
      * rewrite list_lookup_insert_ne in Hj by done. destruct (decide (id = plane_id z.1)) as [E|Hn].
        { destruct Hne. symmetry. apply (NoDup_lookup_fmap a i j x z); [done..|]. congruence. }
        rewrite <- (ho_state0 z (list_elem_of_lookup_2 _ _ _ Hj)). by rewrite props_of_snoc, decide_False.
    + intros id' Hin. rewrite (snoc_ids _ _ _ l) in Hin. auto.
  - rewrite Ei. unfold ids. apply list_elem_of_fmap. exists x. split; [done|by eapply list_elem_of_lookup_2].
Qed.
Lemma flat_prop_spec R T id l p v a w a' w' :
  holds (R ++ [(id, l)]) T a → (drmphx_obj_kind id = DRMPHX_OBJ_PLANE → id ∈ ids a ∨ props_of (R ++ [(id, l)]) id = []) →
  I w → flat_prop (Some f) (drmphx_obj_kind id) id p v a w = (inr a', w') →
  I w' ∧ holds (R ++ [(id, l ++ [(p, v)])]) T a' ∧ (drmphx_obj_kind id = DRMPHX_OBJ_PLANE → id ∈ ids a').
Proof.
  intros H Hid Hw. unfold flat_prop, drm_lift. destruct (drmphx_obj_kind id) eqn:Hk; try done.
  - intros [= (E1 & E2 & E3)%connector_prop_frame <-]. split; [done|]. split; [|done]. eapply holds_frame; [by rewrite Hk|exact H|done..].
  - intros [= (E1 & E2 & E3)%crtc_prop_frame <-]. split; [done|]. split; [|done]. eapply holds_frame; [by rewrite Hk|exact H|done|done|by intros].
  - unfold mbind, drm_mbind. destruct (plane_slot (Some f) id a w) as [[e|[i a1]] w1] eqn:Es; [done|].
    assert (id ∈ (R ++ [(id, l)]).*1) as Hin by (rewrite fmap_app; apply elem_of_app; right; by apply list_elem_of_singleton).
    destruct (holds_slot _ _ _ _ _ _ _ _ _ Hk Hin eq_refl H (Hid eq_refl) Hw Es) as (Hw1 & H1 & x & Hx & Eid). rewrite Hx. unfold default, Datatypes.id, drm_fail, mret, drm_mret.
    destruct (set_plane_prop p v x) as [e|y] eqn:Ey; [done|]. intros [= <- <-]. destruct (holds_put _ _ _ _ _ _ _ _ _ _ Hk H1 Hx Eid Ey) as [G1 G2]. split; [done|]. split; [exact G1|by intros _].
Qed.

Context (objs count_props props values : Z → Z).
Lemma flat_props_spec R T id n : ∀ l k a w a' w',
  holds (R ++ [(id, l)]) T a → (drmphx_obj_kind id = DRMPHX_OBJ_PLANE → id ∈ ids a ∨ props_of (R ++ [(id, l)]) id = []) →
  I w → flat_props (Some f) props values n (drmphx_obj_kind id) id k a w = (inr a', w') →
  I w' ∧ holds (R ++ [(id, l ++ req_props props values n k)]) T a' ∧ (drmphx_obj_kind id = DRMPHX_OBJ_PLANE → id ∈ ids a' ∨ n = 0%nat ∧ a' = a).
Proof.
  induction n as [|n IH]; intros l k a w a' w' H Hid Hw; cbn [flat_props req_props].
  - intros [= <- <-]. rewrite app_nil_r. split; [done|]. split; [done|]. intros _. by right.
  - unfold mbind, drm_mbind. destruct (flat_prop _ _ _ _ _ a w) as [[e|a1] w1] eqn:E; [done|]. intros E2.
    destruct (flat_prop_spec _ _ _ _ _ _ _ _ _ _ H Hid Hw E) as (Hw1 & H1 & Hin). destruct (IH (l ++ [(props k, values k)]) (u32 (k + 1)) a1 w1 a' w' H1) as (Hw' & G1 & G2); [by left; auto|done|done|].
    rewrite <- app_assoc in G1. cbn in G1. split; [done|]. split; [done|]. intros Hk. left. destruct (G2 Hk) as [?|[_ ->]]; auto.
Qed.

Lemma props_of_out R id : id ∉ R.*1 → props_of R id = [].
Proof.
  intros H. unfold props_of. replace (filter _ R) with (@nil (Z * list (Z * Z))); [done|]. symmetry. induction R as [|[i l] R IH]; [done|]. cbn in H. apply not_elem_of_cons in H as [? H].
  rewrite filter_cons, decide_False by (cbn; congruence). auto.
Qed.
Lemma holds_begin R id a : let isc := bool_decide (drmphx_obj_kind id = DRMPHX_OBJ_CRTC) in
  holds R R.*1 a → isc && da_crtc_named a && negb (da_crtc_id a =? id) = false →
  holds (R ++ [(id, [])]) R.*1 (if isc then a <| da_crtc_named := true |> <| da_crtc_id := id |> else a).
Proof.
  cbv zeta. intros [] Hc. case_bool_decide as Hk; cbn [andb] in Hc.
  - constructor; unfold ids in *; auto.
    + intros id' Hin. destruct (ho_kind0 id' Hin). split; [|done]. rewrite fmap_app. apply elem_of_app. by left.
    + intros x Hx. rewrite props_of_snoc. replace (if decide _ then [] else []) with (@nil (Z * Z)) by (by case_decide). rewrite app_nil_r. auto.
    + intros id' Hin Hk'. cbn. split; [done|]. rewrite fmap_app in Hin. apply elem_of_app in Hin as [Hin|Hin]; [|by apply list_elem_of_singleton in Hin].
      destruct (ho_named0 id' Hin Hk') as [G1 G2]. rewrite G1 in Hc. cbn in Hc. rewrite <- G2. lia.
  - constructor; unfold ids in *; auto.
    + intros id' Hin. destruct (ho_kind0 id' Hin). split; [|done]. rewrite fmap_app. apply elem_of_app. by left.
    + intros x Hx. rewrite props_of_snoc. replace (if decide _ then [] else []) with (@nil (Z * Z)) by (by case_decide). rewrite app_nil_r. auto.
    + intros id' Hin Hk'. rewrite fmap_app in Hin. apply elem_of_app in Hin as [Hin|Hin]; [auto|]. apply list_elem_of_singleton in Hin. by subst.
Qed.
Lemma holds_done R id l a : holds (R ++ [(id, l)]) R.*1 a → (drmphx_obj_kind id = DRMPHX_OBJ_PLANE → id ∈ ids a) → holds (R ++ [(id, l)]) (R ++ [(id, l)]).*1 a.
Proof.
  intros [] Hid. constructor; auto. intros id'. rewrite fmap_app, elem_of_app. cbn. rewrite list_elem_of_singleton. intros [?| ->]; auto.
Qed.
Lemma flat_obj_spec R id n k a w a' w' : 0 ≤ n → holds R R.*1 a → I w → flat_obj (Some f) props values id n k a w = (inr a', w') →
  let R' := R ++ [(id, req_props props values (Z.to_nat n) k)] in I w' ∧ holds R' R'.*1 a'.
Proof.
  intros Hn H Hw. unfold flat_obj. cbv zeta. destruct (_ && _ && _) eqn:Ec; [done|]. pose proof (holds_begin R id a H Ec) as H1. cbv zeta in H1. revert H1. generalize (if bool_decide (drmphx_obj_kind id = DRMPHX_OBJ_CRTC) then a <| da_crtc_named := true |> <| da_crtc_id := id |> else a).
  intros a1 H1. unfold mbind, drm_mbind. destruct (flat_props _ _ _ _ _ _ _ a1 w) as [[e|a2] w2] eqn:E; [done|].
  assert (drmphx_obj_kind id = DRMPHX_OBJ_PLANE → id ∈ ids a1 ∨ props_of (R ++ [(id, [])]) id = []) as Hid.
  { intros Hk. destruct (decide (id ∈ R.*1)) as [Hin|Hin]; [left; by apply (ho_all _ _ _ H1)|right]. rewrite props_of_snoc, props_of_out by done. by destruct (decide (id = id)). }
  destruct (flat_props_spec _ _ _ _ _ _ _ _ _ _ H1 Hid Hw E) as (Hw2 & H2 & Hin). cbn [app] in H2. destruct (bool_decide (drmphx_obj_kind id = DRMPHX_OBJ_PLANE)) eqn:Hk; [apply bool_decide_eq_true in Hk|apply bool_decide_eq_false in Hk]; cbn [andb].
  - destruct (Z.eqb_spec n 0) as [->|Hnz].
    + cbn in E. injection E as <- <-. destruct (plane_slot (Some f) id a1 w) as [[e|[i a3]] w3] eqn:Es; [done|]. intros [= <- <-]. cbn [Z.to_nat req_props] in *.
      assert (id ∈ (R ++ [(id, [])]).*1) as HR by (rewrite fmap_app; apply elem_of_app; right; by apply list_elem_of_singleton).
      destruct (holds_slot _ _ _ _ _ _ _ _ _ Hk HR eq_refl H2 (Hid Hk) Hw Es) as (Hw3 & G & x & Hx & <-). split; [done|]. apply holds_done; [done|]. intros _.
      unfold ids. apply list_elem_of_fmap. exists x. split; [done|by eapply list_elem_of_lookup_2].
    + intros [= <- <-]. split; [done|]. apply holds_done; [done|]. intros Hk'. destruct (Hin Hk') as [?|[G _]]; [done|]. lia.
  - intros [= <- <-]. split; [done|]. apply holds_done; [done|]. done.
Qed.
Lemma flat_objs_spec n : ∀ R o k a w a' w', (∀ i, 0 ≤ count_props i) → holds R R.*1 a → I w → flat_objs (Some f) objs count_props props values n o k a w = (inr a', w') →
  let R' := R ++ req_objs objs count_props props values n o k in I w' ∧ holds R' R'.*1 a'.
Proof.
  induction n as [|n IH]; intros R o k a w a' w' Hc H Hw; cbn [flat_objs req_objs].
  - intros [= <- <-]. rewrite app_nil_r. done.
  - unfold mbind, drm_mbind. destruct (flat_obj _ _ _ _ _ _ a w) as [[e|a1] w1] eqn:E; [done|]. intros E2. apply (flat_obj_spec R) in E as [Hw1 E]; [|auto|done|done].
    specialize (IH _ _ _ _ _ _ _ Hc E Hw1 E2). rewrite <- app_assoc in IH. exact IH.
Qed.
Lemma holds_nil : holds [] [] drm_atomic0.
Proof. constructor; try done; [apply NoDup_nil_2|..]; by intros ? ?%elem_of_nil. Qed.
End spec.

(** The CRTC that is settled last leaves the planes alone and keeps one that is named. *)
Lemma flat_crtc_spec a a' : flat_crtc a = inr a' →
  da_planes a' = da_planes a ∧ da_crtc_id a' ≠ 0 ∧ (da_crtc_id a ≠ 0 → da_crtc_id a' = da_crtc_id a) ∧
  ∀ x, x ∈ da_planes a → crtc_id x.1 = 0 ∨ crtc_id x.1 = da_crtc_id a'.
Proof.
  unfold flat_crtc. set (a1 := if da_crtc_id a =? 0 then _ else a). set (a2 := if da_crtc_id a1 =? 0 then _ else a1).
  assert (da_planes a1 = da_planes a ∧ (da_crtc_id a ≠ 0 → da_crtc_id a1 = da_crtc_id a)) as [P1 C1] by (unfold a1; destruct (Z.eqb_spec (da_crtc_id a) 0); by split).
  assert (da_planes a2 = da_planes a1 ∧ (da_crtc_id a1 ≠ 0 → da_crtc_id a2 = da_crtc_id a1) ∧ da_crtc_id a2 ≠ 0) as (P2 & C2 & N2) by (unfold a2; destruct (Z.eqb_spec (da_crtc_id a1) 0); by repeat split).
  clearbody a1 a2. destruct (existsb _ _) eqn:E; [done|]. intros [= <-]. rewrite P2, P1. split; [done|]. split; [done|].
  split; [intros H; rewrite C2; auto; by rewrite C1|]. intros x Hx. rewrite P2, P1 in E.
  destruct (Z.eqb_spec (crtc_id x.1) 0); [by left|]. destruct (Z.eqb_spec (crtc_id x.1) (da_crtc_id a2)); [by right|]. exfalso.
  apply not_true_iff_false in E. apply E. apply existsb_exists. exists x. split; [by apply list_elem_of_In|]. cbn. apply andb_true_intro. split; apply negb_true_iff; by apply Z.eqb_neq.
Qed.

(** What flattening leaves, before the CRTC is settled. *)
Lemma flatten_holds {W} (I : W → Prop) (f : baseline_fn W) b objs count_props props values n w a w' :
  answers I f b → (∀ i, 0 ≤ count_props i) → I w →
  drmphx_atomic_flatten (Some f) objs count_props props values n w = (inr a, w') →
  let R := request objs count_props props values n in I w' ∧ ∃ a1, holds b R R.*1 a1 ∧ flat_crtc a1 = inr a.
Proof.
  intros Hf Hc Hw. unfold drmphx_atomic_flatten, drm_lift, mbind, drm_mbind. destruct (flat_objs _ _ _ _ _ _ _ _ _ w) as [[e|a1] w1] eqn:E; [done|].
  intros [= Hr <-]. cbv zeta. apply (flat_objs_spec I f b Hf _ _ _ _ _ []) in E as [Hw' E]; [|done|apply holds_nil|done]. cbn [app] in E. split; [done|]. by exists a1.
Qed.

(** C9: when flattening succeeds it has each plane the request names exactly once, at most
    eight; the state of a plane is its baseline with all its properties, of whichever object
    entries, laid over it in order; and the commit is on one CRTC, the one a CRTC object names if
    there is one, and no plane is on another. *)
Theorem drmphx_atomic_flatten_spec {W} (I : W → Prop) (f : baseline_fn W) b objs count_props props values n w a w' :
  answers I f b → (∀ i, 0 ≤ count_props i) → I w →
  drmphx_atomic_flatten (Some f) objs count_props props values n w = (inr a, w') →
  let R := request objs count_props props values n in
  I w' ∧ (length (da_planes a) ≤ 8)%nat ∧ NoDup (ids a) ∧
  (∀ id, id ∈ ids a ↔ (id ∈ R.*1) ∧ drmphx_obj_kind id = DRMPHX_OBJ_PLANE) ∧
  (∀ x, x ∈ da_planes a → overlay (start b (plane_id x.1)) (props_of R (plane_id x.1)) = inr x ∧
    (crtc_id x.1 = 0 ∨ crtc_id x.1 = da_crtc_id a)) ∧
  da_crtc_id a ≠ 0 ∧ ∀ id, id ∈ R.*1 → drmphx_obj_kind id = DRMPHX_OBJ_CRTC → da_crtc_id a = id.
Proof.
  intros Hf Hc Hw Hfl. destruct (flatten_holds I f b objs count_props props values n w a w' Hf Hc Hw Hfl) as (Hw' & a1 & H & Hr). cbv zeta. revert H.
  generalize (request objs count_props props values n). intros R [].
  destruct (flat_crtc_spec _ _ Hr) as (P & N & C & O). unfold ids in *. rewrite P. split; [done|]. change 8%nat with (Z.to_nat KMS_ATOMIC_MAX_PLANES). split; [lia|]. split; [done|].
  split; [intros id; split; [auto|intros [? ?]; auto]|]. split; [intros x Hx; auto|]. split; [done|].
  intros id Hin Hk. destruct (ho_named0 id Hin Hk) as [_ E]. rewrite C; [done|]. rewrite E. by apply crtc_id_nz.
Qed.

(** The base plane of display 0 moved and its cursor shown, in two passes over the base plane. *)
Definition ex_objs (i : Z) : Z := nth (Z.to_nat i) [KMS_ID_CRTC 0; KMS_ID_PLANE 0 0; KMS_ID_PLANE 0 1; KMS_ID_PLANE 0 0] 0.
Definition ex_counts (i : Z) : Z := nth (Z.to_nat i) [1; 2; 2; 1] 0.
Definition ex_props (k : Z) : Z :=
  nth (Z.to_nat k) [KMS_PROP_ACTIVE; KMS_PROP_FB_ID; KMS_PROP_CRTC_X; KMS_PROP_FB_ID; KMS_PROP_CRTC_ID; KMS_PROP_CRTC_X] 0.
Definition ex_values (k : Z) : Z := nth (Z.to_nat k) [1; 7; 16; 9; KMS_ID_CRTC 0; 2 ^ 32 - 5] 0.
Definition ex_base (id : Z) (st : kms_atomic_plane_t) (w : Z) : Z * kms_atomic_plane_t * Z := (0, plane_default id <| zpos := id |>, w + 1).
Lemma drmphx_atomic_flatten_spec_witness :
  ∃ a, drmphx_atomic_flatten (Some ex_base) ex_objs ex_counts ex_props ex_values 4 0 = (inr a, 2) ∧
    (length (da_planes a) ≤ 8)%nat ∧ (crtc_x ∘ fst <$> da_planes a) = [-5; 0] ∧ (fb_id ∘ fst <$> da_planes a) = [7; 9].
Proof.
  destruct (drmphx_atomic_flatten (Some ex_base) ex_objs ex_counts ex_props ex_values 4 0) as [[e|a] w] eqn:E; [by vm_compute in E|].
  assert (∀ i, 0 ≤ ex_counts i) as Hc by (intros i; unfold ex_counts; by destruct (Z.to_nat i) as [|[|[|[|[|?]]]]]).
  pose proof (drmphx_atomic_flatten_spec (λ _, True) ex_base (λ id, plane_default id <| zpos := id |>) ex_objs ex_counts ex_props ex_values 4 0 a w ltac:(done) Hc Logic.I E) as (_ & H & _).
  exists a. vm_compute in E. injection E as <- <-. split; [done|]. split; [exact H|]. done.
Defined.

(** Element 1 of an array that is not there is written to address 8. *)
Lemma fill_property_null :
  (8, UW_value 5) ∈ gp_writes (drmphx_fill_property (mkKProperty "type" KMS_PROP_FLAG_ENUM 2 2) (PD_enums [(4, "a"); (5, "b")])%string 640 0 0 2 0).
Proof. vm_compute. left. Qed.
