(* ===== verification/DrmKms.v ===== *)
(** The display node of libdrm on Phoenix (tools/gpu-lane/libdrm-phoenix/src/drm_phoenix_kms.c):
    DRM requests on /dev/dri/card0 marshalled into requests of the display server, with the
    tables one connection keeps.  One call at a time; what a C function writes through its
    argument is part of its result. *)
From S2P Require Import Prelude Proto State KmsProto KmsModes KmsState DrmLogic.
From stdpp Require Import strings.
#[local] Open Scope Z_scope.

Definition DRMPHX_KMS_MAX_DUMB := 256.
Definition DRMPHX_KMS_MAX_FB := 64.
Definition DRMPHX_KMS_MAX_PLANES := KMS_MAX_CRTCS * KMS_PLANES_PER_CRTC.
Definition KMS_MAX_ARRAY := 64.
Definition KMS_VBL_RELATIVE := 0.
Definition KMS_PROTO_PRIME_IMPORT := 2.

(** ** What a connection keeps *)
Record drmphx_kms_dumb_t := mkDrmDumb { dm_handle : Z; dm_pitch : Z; dm_size : Z; dm_mem : kms_memref_t }.
Record drmphx_kms_fb_t := mkDrmFb { df_fb_id : Z; df_handle : Z; df_mem : kms_memref_t }.
Definition drm_dumb0 := mkDrmDumb 0 0 0 memref0.
Definition drm_fb0 := mkDrmFb 0 0 memref0.
Record kms_conn := mkKconn {
  kx_client : Z; kx_proto : Z; kx_buf_port : Z;
  kx_dumb : Z → drmphx_kms_dumb_t; kx_plane_valid : Z → bool; kx_plane : Z → kms_atomic_plane_t;
  kx_fb : Z → drmphx_kms_fb_t; kx_no_gate : bool; kx_implicit : Z; kx_scratch_size : Z }.
#[export] Instance eta_kconn : Eta kms_conn := fun r => mkKconn (kx_client r) (kx_proto r) (kx_buf_port r) (kx_dumb r)
  (kx_plane_valid r) (kx_plane r) (kx_fb r) (kx_no_gate r) (kx_implicit r) (kx_scratch_size r).
Definition kms_conn0 : kms_conn := mkKconn 0 0 0 (λ _, drm_dumb0) (λ _, false) (λ _, plane0) (λ _, drm_fb0) false 0 0.

(** ** The rest of the world

    The kernel's messages with the server behind them (a reply once it has one), the PRIME
    import and HELLO ioctls, the sync files and the render side of the same library, and the
    descriptors. *)
Class KmsSide (W : Type) := {
  ks_pid : Z;
  ks_send : kms_msg → kms_req → W → (Z * option kms_reply) * W;     (* msgSend: its error, the reply *)
  ks_mmap : Z → W → bool * W;                                       (* anonymous pages *)
  ks_import : kms_prime_import_req_t → W → (Z * kms_resp_u) * W;
  ks_hello : Z → W → (Z + Z * Z * Z) * W;                           (* proto offered: errno, or proto, client, buffer port *)
  ks_syncfile_get : Z → W → (Z * v3da_fence_t) * W;
  ks_flip_fence : Z → Z → Z → W → option v3da_fence_t * W;          (* drmphx_v3d_flip_fence *)
  ks_flip_wait : Z → Z → Z → W → W;                                 (* drmphx_v3d_flip_wait *)
  ks_prime_lookup : Z → W → (Z * kms_memref_t) * W;                 (* drmphx_prime_fd_lookup *)
  ks_open : bool → Z → bool → W → Z * W;                            (* in /kmsbuf?, id, close-on-exec: fd or -errno *)
  ks_prime_note : Z → kms_memref_t → Z → W → W }.                   (* drmphx_prime_fd_note *)

Section world.
Context {W : Type} `{KS : KmsSide W}.
Definition kx (A : Type) : Type := drm (kms_conn * W) A.
Definition kx_get : kx kms_conn := λ w, (inr w.1, w).
Definition kx_mod (f : kms_conn → kms_conn) : kx unit := λ w, (inr (), (f w.1, w.2)).
Definition kx_world {A} (f : W → A * W) : kx A := λ w, let '(a, v) := f w.2 in (inr a, (w.1, v)).
Definition kx_do (f : W → W) : kx unit := λ w, (inr (), (w.1, f w.2)).

(** ** One raw request

    The bounce buffer grows to the rounded sizes of the payload sent and of the room for the
    one that comes back. *)
Definition page_round (n : Z) : Z := Z.land (u64 (n + 4095)) (u64 (Z.lnot 4095)).
Definition SIZEOF_ATOMIC_PLANE := 80.
Definition isize_of (rq : kms_req) : Z :=
  match rq with
  | K_atomic _ (Some l) => Z.of_nat (length l) * SIZEOF_ATOMIC_PLANE
  | K_create_blob (Some l) => Z.of_nat (length l)
  | _ => 0
  end.
Definition call_scratch (isize osize : Z) : kx unit :=
  c ← kx_get;
  let need := page_round isize + page_round osize in
  if (isize =? 0) && (osize =? 0) then mret ()
  else if kx_scratch_size c <? need then
    b ← kx_world (ks_mmap need);
    if (b : bool) then kx_mod (λ c, c <| kx_scratch_size := need |>) else drm_fail (- ENOMEM)
  else mret ().
Definition drmphx_call (osize : Z) (rq : kms_req) : kx (kms_resp_u * kms_payload * Z) :=
  _ ← call_scratch (isize_of rq) osize;
  c ← kx_get;
  r ← kx_world (ks_send (mkMsg ks_pid (kx_client c) (if osize =? 0 then OP_null else OP_window) (page_round osize) false) rq);
  if r.1 <? 0 then drm_fail r.1
  else
    let y := default reply0 r.2 in
    if ry_err y <? 0 then drm_fail (ry_err y)
    else let '(rc, u) := default (0, RU_none) (ry_resp y) in mret (u, ry_data y, rc).
(** Its errno and what came back; or failing with the errno. *)
Definition kcall (osize : Z) (rq : kms_req) : kx (Z * kms_resp_u * kms_payload) := λ w,
  let '(r, w) := drmphx_call osize rq w in
  (inr (match r with inl e => (e, RU_none, PL_none) | inr (u, d, rc) => (rc, u, d) end), w).
Definition kcall_ok (osize : Z) (rq : kms_req) : kx (kms_resp_u * kms_payload) :=
  r ← kcall osize rq; if negb (r.1.1 =? 0) then drm_fail r.1.1 else mret (r.1.2, r.2).
(** The member of the reply's union that the request names. *)
Definition as_dumb (u : kms_resp_u) : kms_dumb_resp_t := match u with RU_dumb d => d | _ => mkDumb 0 0 0 memref0 end.
Definition as_seq (u : kms_resp_u) : Z * Z := match u with RU_vblank n t => (n, t) | _ => (0, 0) end.
Definition as_flip (u : kms_resp_u) : Z := match u with RU_flip f => fl_sequence f | _ => 0 end.
Definition as_fb (u : kms_resp_u) : Z := match u with RU_fb id => id | _ => 0 end.
Definition as_crtc (u : kms_resp_u) : kms_crtc_t := match u with RU_crtc c => c | _ => mkCrtcResp 0 0 0 0 0 0 0 end.
Definition as_count (u : kms_resp_u) : Z := match u with RU_count n => n | _ => 0 end.
Definition as_props (d : kms_payload) : list kms_prop_value_t := match d with PL_props l => l | _ => [] end.

(** HELLO, speaking an older protocol to an older server. *)
Definition drmphx_kms_hello : kx unit :=
  r ← kx_world (ks_hello KMS_PROTO_VERSION);
  r ← (match r with
       | inl e => if e =? EPROTO then kx_world (ks_hello KMS_PROTO_BASE) else mret r
       | inr _ => mret r
       end);
  match r with
  | inl e => drm_fail (if negb (e =? 0) then - e else - EIO)
  | inr (proto, client, port) =>
      if client =? 0 then drm_fail (- EPROTO)
      else kx_mod (λ c, c <| kx_client := client |> <| kx_proto := proto |> <| kx_buf_port := port |>)
  end.

(** ** Local tables *)
Definition dumb_find (c : kms_conn) (handle : Z) : option Z :=
  if handle =? 0 then None else find_first (λ i, dm_handle (kx_dumb c i) =? handle) 0 DRMPHX_KMS_MAX_DUMB.
Definition dumb_store (d : kms_dumb_resp_t) (c : kms_conn) : kms_conn :=
  let e := match dumb_find c (du_handle d) with
           | Some i => Some i
           | None => find_first (λ i, dm_handle (kx_dumb c i) =? 0) 0 DRMPHX_KMS_MAX_DUMB
           end in
  match e with
  | Some i => c <| kx_dumb ::= <[i := mkDrmDumb (du_handle d) (du_pitch d) (du_size d) (du_mem d)]> |>
  | None => c
  end.
Definition dumb_drop (handle : Z) (c : kms_conn) : kms_conn :=
  match dumb_find c handle with Some i => c <| kx_dumb ::= <[i := drm_dumb0]> |> | None => c end.

Definition is_oid (m : kms_memref_t) : bool := match mr_kind m with KMS_MEM_OID => true | _ => false end.
Definition mem_known (m : kms_memref_t) : bool := match mr_kind m with KMS_MEM_NONE => false | _ => true end.
Definition drmphx_kms_token_memref (handle : Z) : kx kms_memref_t :=
  c ← kx_get;
  match (i ← dumb_find c handle; if mem_known (dm_mem (kx_dumb c i)) then Some (dm_mem (kx_dumb c i)) else None) with
  | Some m => mret m
  | None =>
      r ← kcall_ok 0 (K_map_dumb handle);
      _ ← kx_mod (dumb_store (as_dumb r.1));
      mret (du_mem (as_dumb r.1))
  end.

Definition fb_note (fb_id handle : Z) (mem : kms_memref_t) (c : kms_conn) : kms_conn :=
  let k := match find_first (λ i, df_fb_id (kx_fb c i) =? fb_id) 0 DRMPHX_KMS_MAX_FB with
           | Some i => Some i
           | None => find_first (λ i, df_fb_id (kx_fb c i) =? 0) 0 DRMPHX_KMS_MAX_FB
           end in
  match k with Some i => c <| kx_fb ::= <[i := mkDrmFb fb_id handle mem]> |> | None => c end.
Definition fb_drop (fb_id : Z) (c : kms_conn) : kms_conn :=
  for_ 0 DRMPHX_KMS_MAX_FB (λ i c, if df_fb_id (kx_fb c i) =? fb_id then c <| kx_fb ::= <[i := drm_fb0]> |> else c) c.
(** The export a framebuffer scans: its namespace's port and its id. *)
Definition fb_export (c : kms_conn) (fb_id : Z) : option (Z * Z) :=
  if fb_id =? 0 then None
  else
    match find_first (λ i, df_fb_id (kx_fb c i) =? fb_id) 0 DRMPHX_KMS_MAX_FB with
    | None => None
    | Some i => let m := df_mem (kx_fb c i) in if is_oid m then Some (mr_port m, mr_addr m) else None
    end.

(** A flip without a fence of its own waits for the buffer's: whether one was attached. *)
Definition implicit_attach (fb_id : Z) (f : v3da_fence_t) : kx (bool * v3da_fence_t) :=
  c ← kx_get;
  if negb (f_seqno f =? 0) then mret (false, f)
  else
    match fb_export c fb_id with
    | None => mret (false, f)
    | Some (port, id) =>
        if kx_no_gate c then _ ← kx_do (ks_flip_wait (kx_buf_port c) port id); mret (false, f)
        else
          r ← kx_world (ks_flip_fence (kx_buf_port c) port id);
          mret (match r with Some g => (true, g) | None => (false, f) end)
    end.
Definition implicit_fallback (fb_id : Z) : kx v3da_fence_t :=
  _ ← kx_mod (λ c, c <| kx_no_gate := true |>);
  c ← kx_get;
  _ ← (match fb_export c fb_id with Some (port, id) => kx_do (ks_flip_wait (kx_buf_port c) port id) | None => mret () end);
  mret fence0.

(** ** The mirror of the planes *)
Definition plane_index (id : Z) : Z := u32 (id - KMS_ID_PLANE 0 0).
Definition mirror_invalidate (c : kms_conn) : kms_conn := c <| kx_plane_valid := λ _, false |>.
Definition mirror_one (c : kms_conn) (st : kms_atomic_plane_t) : kms_conn :=
  let i := plane_index (plane_id st) in
  if i <? DRMPHX_KMS_MAX_PLANES then
    let st := st <| in_fence := fence0 |> in
    let st := if fb_id st =? 0 then st <| crtc_id := 0 |> else st in
    c <| kx_plane ::= <[i := st]> |> <| kx_plane_valid ::= <[i := true]> |>
  else c.
Definition mirror_store (sts : list kms_atomic_plane_t) (c : kms_conn) : kms_conn := foldl mirror_one c sts.
Definition plane_baseline (id : Z) (st : kms_atomic_plane_t) : kx kms_atomic_plane_t :=
  let i := plane_index id in
  if DRMPHX_KMS_MAX_PLANES <=? i then drm_fail (- ENOENT)
  else
    c ← kx_get;
    if kx_plane_valid c i then mret (kx_plane c i)
    else
      r ← kcall_ok (KMS_MAX_ARRAY * 16) (K_get_properties id KMS_MAX_ARRAY);
      let n := Z.min (as_count r.1) KMS_MAX_ARRAY in
      let st := drmphx_plane_state_from_props id (take (Z.to_nat n) (as_props r.2)) st in
      let st := if rotation st =? 0 then st <| rotation := DRM_MODE_ROTATE_0 |> else st in
      _ ← kx_mod (mirror_store [st]);
      mret st.
(** As the callback of the flattening. *)
Definition baseline_cb : baseline_fn (kms_conn * W) := λ id st w,
  let '(r, w) := plane_baseline id st w in match r with inl e => (e, st, w) | inr st => (0, st, w) end.

(** ** Commits *)
(** Until the server reports no pending flip, four times at most. *)
Fixpoint wait_flips (n : nat) (crtc : Z) : kx unit :=
  match n with
  | O => mret ()
  | S n =>
      r ← kcall 0 (K_get_crtc crtc);
      if negb (r.1.1 =? 0) || (cr_pending_fb (as_crtc r.1.2) =? 0) then mret ()
      else _ ← kcall 0 (K_wait_vblank (mkVblankReq crtc KMS_VBL_RELATIVE 1 0)); wait_flips n crtc
  end.
Definition wait_commit_done (crtc accepted : Z) : kx unit :=
  _ ← kcall 0 (K_wait_vblank (mkVblankReq crtc KMS_VBL_ABSOLUTE (u64 (accepted + 1)) 0));
  wait_flips 4 crtc.

(** The descriptors of IN_FENCE_FD become fences. *)
Definition resolve_one (x : kms_atomic_plane_t * Z) : kx (kms_atomic_plane_t * Z) :=
  if x.2 <? 0 then mret x
  else
    r ← kx_world (ks_syncfile_get x.2);
    if negb (r.1 =? 0) then drm_fail (- EINVAL) else mret (x.1 <| in_fence := r.2 |>, x.2).
Fixpoint each {A B} (f : A → kx B) (l : list A) : kx (list B) :=
  match l with
  | [] => mret []
  | x :: l => y ← f x; l ← each f l; mret (y :: l)
  end.
Definition resolve_in_fences (a : drmphx_atomic_t) : kx drmphx_atomic_t :=
  l ← each resolve_one (da_planes a); mret (a <| da_planes := l |>).

(** Each plane with a fence of the library's own attached, marked. *)
Definition attach_one (active flags : Z) (x : kms_atomic_plane_t * Z) : kx (kms_atomic_plane_t * Z * bool) :=
  if negb (active =? 0) && (x.2 <? 0) && negb (fb_id x.1 =? 0) && negb (has flags KMS_ATOMIC_TEST_ONLY) then
    r ← implicit_attach (fb_id x.1) (in_fence x.1); mret (x.1 <| in_fence := r.2 |>, x.2, r.1)
  else mret (x, false).
Definition fall_back (x : kms_atomic_plane_t * bool) : kx kms_atomic_plane_t :=
  if x.2 then f ← implicit_fallback (fb_id x.1); mret (x.1 <| in_fence := f |>) else mret x.1.

(** The planes sent: those named, or the primary as it is. *)
Definition primary_of (crtc : Z) : Z := KMS_ID_PLANE (u32 (crtc - KMS_ID_CRTC 0)) 0.
Definition atomic_send (h : kms_atomic_req_t) (l : list (kms_atomic_plane_t * bool)) : kx (Z * list kms_atomic_plane_t * bool * kms_resp_u) :=
  let send sts := kcall 0 (K_atomic h (match sts with [] => None | _ => Some sts end)) in
  let implicit := existsb snd l in
  r ← send l.*1;
  if (r.1.1 =? - ENODEV) && implicit then
    sts ← each fall_back l;
    r ← send sts;
    mret (r.1.1, sts, false, r.1.2)
  else mret (r.1.1, l.*1, implicit, r.1.2).
Definition atomic_rest (a : drmphx_atomic_t) (flags user : Z) (blocking : bool) (l : list (kms_atomic_plane_t * bool)) : kx unit :=
  '(rc, sts, implicit, u) ← atomic_send (mkAtomic flags (Z.of_nat (length l)) user (da_crtc_id a) (da_mode_blob a) (da_active a)) l;
  if negb (rc =? 0) then drm_fail rc
  else
    _ ← (if (implicit : bool) then kx_mod (λ c, c <| kx_implicit ::= λ n, u32 (n + 1) |>) else mret ());
    if has flags KMS_ATOMIC_TEST_ONLY then mret ()
    else
      _ ← kx_mod (if da_active a =? 0 then mirror_invalidate else mirror_store sts);
      if blocking then wait_commit_done (da_crtc_id a) (as_flip u) else mret ().
Definition atomic_commit (a : drmphx_atomic_t) (flags user : Z) (blocking : bool) : kx unit :=
  if negb (da_out_fence_ptr a =? 0) then drm_fail (- ENOSYS)
  else
    a ← resolve_in_fences a;
    l ← each (attach_one (da_active a) flags) (da_planes a);
    let l := (λ x : kms_atomic_plane_t * Z * bool, (x.1.1, x.2)) <$> l in
    if negb (da_active a =? 0) && (Z.of_nat (length l) =? 0) then
      st ← plane_baseline (primary_of (da_crtc_id a)) plane0;
      if fb_id st =? 0 then (if has flags KMS_PAGE_FLIP_EVENT then drm_fail (- EINVAL) else mret ())
      else atomic_rest a flags user blocking [(st, false)]
    else atomic_rest a flags user blocking l.

Definition KMS_ATOMIC_NONBLOCK := 0x200.
Definition KMS_ATOMIC_ALLOW_MODESET := 0x400.
Definition ATOMIC_FLAGS : Z := foldr Z.lor 0 [KMS_PAGE_FLIP_EVENT; KMS_PAGE_FLIP_ASYNC; KMS_ATOMIC_TEST_ONLY; KMS_ATOMIC_NONBLOCK; KMS_ATOMIC_ALLOW_MODESET].
Definition ioc_atomic (flags reserved user : Z) (objs count_props props values : Z → Z) (count_objs : Z) : kx unit :=
  if negb (Z.land flags (u32 (Z.lnot ATOMIC_FLAGS)) =? 0) || negb (reserved =? 0) then drm_fail (- EINVAL)
  else if has flags KMS_ATOMIC_TEST_ONLY && has flags KMS_PAGE_FLIP_EVENT then drm_fail (- EINVAL)
  else
    a ← drmphx_atomic_flatten (Some baseline_cb) objs count_props props values count_objs;
    atomic_commit a flags user (Z.land flags (Z.lor KMS_ATOMIC_NONBLOCK KMS_ATOMIC_TEST_ONLY) =? 0).
Definition set_one_prop (obj prop value : Z) : kx unit :=
  a ← drmphx_atomic_flatten (Some baseline_cb) (λ _, obj) (λ _, 1) (λ _, prop) (λ _, value) 1;
  if bool_decide (da_planes a = []) && negb (da_active a =? 0) then mret () else atomic_commit a 0 0 true.

(** SETPLANE: the plane's whole state but its position in the stack, alpha and rotation. *)
Record set_plane_req := mkSetPlane {
  sp_plane_id : Z; sp_crtc_id : Z; sp_fb_id : Z; sp_crtc_x : Z; sp_crtc_y : Z; sp_crtc_w : Z; sp_crtc_h : Z;
  sp_src_x : Z; sp_src_y : Z; sp_src_w : Z; sp_src_h : Z }.
Definition ioc_setplane (sp : set_plane_req) : kx unit :=
  st ← plane_baseline (sp_plane_id sp) plane0;
  let st := st <| plane_id := sp_plane_id sp |> <| fb_id := sp_fb_id sp |>
    <| crtc_id := if negb (sp_fb_id sp =? 0) then sp_crtc_id sp else 0 |>
    <| crtc_x := sp_crtc_x sp |> <| crtc_y := sp_crtc_y sp |> <| crtc_w := sp_crtc_w sp |> <| crtc_h := sp_crtc_h sp |>
    <| src_x := sp_src_x sp |> <| src_y := sp_src_y sp |> <| src_w := sp_src_w sp |> <| src_h := sp_src_h sp |> in
  atomic_commit (mkDrmAtomic (if negb (sp_crtc_id sp =? 0) then sp_crtc_id sp else KMS_ID_CRTC 0) false 1 0 0 [(st, -1)]) 0 0 true.

(** SETCRTC: the framebuffer -1 is the one shown. *)
Definition ioc_setcrtc (crtc fb x y hdisplay vdisplay : Z) (mode_valid : bool) : kx unit :=
  r ← kcall_ok 0 (K_get_crtc crtc);
  let cr := as_crtc r.1 in
  let fb := if fb =? 0xffffffff then cr_fb_id cr else fb in
  if negb mode_valid && negb (fb =? 0) then drm_fail (- EINVAL)
  else
    r ← kcall 0 (K_set_crtc (mkSetCrtc crtc fb (i32 x) (i32 y) (if mode_valid then hdisplay else 0) (if mode_valid then vdisplay else 0)));
    _ ← kx_mod mirror_invalidate;
    if negb (r.1.1 =? 0) then drm_fail r.1.1 else wait_commit_done crtc (cr_sequence cr).

(** ** Vblanks *)
Definition DRM_VBLANK_RELATIVE := 0x1.
Definition DRM_VBLANK_HIGH_CRTC_MASK := 0x3e.
Definition DRM_VBLANK_EVENT := 0x4000000.
Definition DRM_VBLANK_FLIP := 0x8000000.
Definition DRM_VBLANK_NEXTONMISS := 0x10000000.
Definition DRM_VBLANK_SECONDARY := 0x20000000.
Definition DRM_VBLANK_SIGNAL := 0x40000000.
Definition crtc_seq (crtc : Z) : kx (Z * Z) := r ← kcall_ok 0 (K_crtc_get_sequence (mkVblankReq crtc 0 0 0)); mret (as_seq r.1).
(** The 64-bit count nearest to [cur] whose low word is [seq]. *)
Definition near_target (cur seq : Z) : Z :=
  let target := Z.lor (Z.land cur (u64 (Z.lnot 0xffffffff))) seq in
  if u64 (target + 0x80000000) <? cur then u64 (target + 0x100000000)
  else if u64 (cur + 0x80000000) <? target then u64 (target - 0x100000000)
  else target.
Definition vblank_target_of (type cur seq : Z) : Z :=
  let target := if has type DRM_VBLANK_RELATIVE then u64 (cur + seq) else near_target cur seq in
  if has type DRM_VBLANK_NEXTONMISS && (target <=? cur) then u64 (cur + 1) else target.
(** The server answers a parked wait within KMS_READ_MAX_MS: 64 waits at most. *)
Fixpoint wait_again (n : nat) (v : kms_vblank_req_t) : kx (Z * kms_resp_u) :=
  r ← kcall 0 (K_wait_vblank v);
  match n with
  | S n => if r.1.1 =? - EAGAIN then wait_again n v else mret (r.1.1, r.1.2)
  | O => mret (r.1.1, r.1.2)
  end.
Record vblank_reply_t := mkVblReply { vy_type : Z; vy_sequence : Z; vy_sec : Z; vy_usec : Z }.
Definition ioc_wait_vblank (type seq signal : Z) : kx vblank_reply_t :=
  if has type (Z.lor DRM_VBLANK_SIGNAL DRM_VBLANK_FLIP) then drm_fail (- EINVAL)
  else
    let idx := if has type DRM_VBLANK_SECONDARY then 1 else Z.shiftr (Z.land type DRM_VBLANK_HIGH_CRTC_MASK) 1 in
    if KMS_MAX_CRTCS <=? idx then drm_fail (- EINVAL)
    else
      cur ← crtc_seq (KMS_ID_CRTC idx);
      let v := mkVblankReq (KMS_ID_CRTC idx) (Z.lor KMS_VBL_ABSOLUTE (if has type DRM_VBLANK_EVENT then KMS_VBL_EVENT else 0))
                 (vblank_target_of type cur.1 seq) signal in
      r ← wait_again 63 v;
      if negb (r.1 =? 0) then drm_fail r.1
      else let '(n, ns) := as_seq r.2 in mret (mkVblReply type (u32 n) (Z.quot ns 1000000000) (Z.quot (Z.rem ns 1000000000) 1000)).

(** ** Buffers and framebuffers *)
(** PRIME: a buffer is a name under /kmsbuf or /v3dbuf. *)
Definition ioc_prime_export (handle : Z) (cloexec : bool) : kx Z :=
  r ← kcall_ok 0 (K_prime_export handle);
  let m := du_mem (as_dumb r.1) in
  if negb (is_oid m) then drm_fail (- ENOSYS)
  else
    c ← kx_get;
    fd ← kx_world (ks_open (mr_port m =? kx_buf_port c) (mr_addr m) cloexec);
    if fd <? 0 then drm_fail fd
    else _ ← kx_mod (dumb_store (as_dumb r.1)); _ ← kx_do (ks_prime_note fd m handle); mret fd.
Definition kx_try {A} (m : kx A) : kx bool := λ w, let '(r, w) := m w in (inr (match r with inl _ => false | inr _ => true end), w).
Definition kx_or {A} (m : kx A) (d : A) : kx A := λ w, let '(r, w) := m w in (inr (match r with inl _ => d | inr a => a end), w).
Definition ioc_prime_import (fd : Z) : kx Z :=
  l ← kx_world (ks_prime_lookup fd);
  let '(rc, m) := l in
  if negb (rc =? 0) then drm_fail (if rc =? - EBADF then - EBADF else - EINVAL)
  else
    c ← kx_get;
    own ← (if (mr_port m =? kx_buf_port c) && (mr_addr m <=? 0xffffffff) then kx_try (drmphx_kms_token_memref (u32 (mr_addr m))) else mret false);
    if (own : bool) then mret (u32 (mr_addr m))
    else if kx_proto c <? KMS_PROTO_PRIME_IMPORT then drm_fail (- ENOSYS)
    else
      r ← kx_world (ks_import (mkPrimeImport (mr_port m) (mr_cache m) (mr_addr m) (mr_size m)
                        (if mr_port m =? kx_buf_port c then KMS_IMPORT_NS_KMSBUF else KMS_IMPORT_NS_V3DBUF) 0));
      if negb (r.1 =? 0) then drm_fail r.1
      else _ ← kx_mod (dumb_store (as_dumb r.2)); mret (du_handle (as_dumb r.2)).

(** ADDFB2 and ADDFB: the handle's buffer is noted while the handle is open. *)
Record drm_fb_cmd2 := mkFbCmd2 {
  fc_width : Z; fc_height : Z; fc_format : Z; fc_flags : Z; fc_handles : Z → Z; fc_pitch : Z; fc_offset : Z; fc_modifier : Z }.
Definition DRM_MODE_FB_MODIFIERS := 2.
Definition ioc_addfb2 (f : drm_fb_cmd2) : kx Z :=
  if negb (Z.land (fc_flags f) (u32 (Z.lnot DRM_MODE_FB_MODIFIERS)) =? 0) then drm_fail (- EINVAL)
  else if negb (fc_handles f 1 =? 0) || negb (fc_handles f 2 =? 0) || negb (fc_handles f 3 =? 0) then drm_fail (- EINVAL)
  else if has (fc_flags f) DRM_MODE_FB_MODIFIERS && negb (fc_modifier f =? KMS_MOD_LINEAR) then drm_fail (- EINVAL)
  else
    let h := fc_handles f 0 in
    r ← kcall_ok 0 (K_addfb2 (mkAddfb2 (fc_width f) (fc_height f) (fc_format f) h (fc_pitch f) (fc_offset f) KMS_MOD_LINEAR));
    mem ← kx_or (drmphx_kms_token_memref h) memref0;
    _ ← kx_mod (fb_note (as_fb r.1) h mem);
    mret (as_fb r.1).
Definition ioc_addfb (width height pitch bpp depth handle : Z) : kx Z :=
  let go format := ioc_addfb2 (mkFbCmd2 width height format 0 (λ i, if i =? 0 then handle else 0) pitch 0 0) in
  if (bpp =? 32) && (depth =? 24) then go KMS_FMT_XRGB8888
  else if (bpp =? 32) && (depth =? 32) then go KMS_FMT_ARGB8888
  else drm_fail (- EINVAL).

Definition ioc_create_dumb (width height bpp flags : Z) : kx kms_dumb_resp_t :=
  if negb (flags =? 0) then drm_fail (- EINVAL)
  else
    r ← kcall_ok 0 (K_create_dumb (mkCreateDumb width height bpp 0));
    _ ← kx_mod (dumb_store (as_dumb r.1));
    mret (as_dumb r.1).
Definition ioc_destroy_dumb (handle : Z) : kx unit :=
  _ ← kx_mod (dumb_drop handle); _ ← kcall_ok 0 (K_destroy_dumb handle); mret ().

(** ** The dispatcher: what a request changes

    The queries (resources, connectors, properties, blobs) only copy the server's answer. *)
Definition DRM_CLIENT_CAP_ATOMIC := 3.
Definition DRM_CLIENT_CAP_UNIVERSAL_PLANES := 2.
Definition ioc_set_client_cap (cap value : Z) : kx unit :=
  _ ← kcall_ok 0 (K_set_client_cap cap value);
  if cap =? DRM_CLIENT_CAP_ATOMIC then _ ← kcall_ok 0 (K_set_client_cap DRM_CLIENT_CAP_UNIVERSAL_PLANES value); mret () else mret ().
Definition ioc_map_dumb (handle : Z) : kx Z := _ ← drmphx_kms_token_memref handle; mret (DRMPHX_TOKEN handle).
Definition ioc_rmfb (fb : Z) : kx unit :=
  r ← kcall 0 (K_rmfb fb);
  _ ← kx_mod mirror_invalidate;
  if r.1.1 =? 0 then kx_mod (fb_drop fb) else drm_fail r.1.1.
Definition ioc_page_flip (crtc fb flags user : Z) : kx unit :=
  if negb (Z.land flags (u32 (Z.lnot (Z.lor KMS_PAGE_FLIP_EVENT KMS_PAGE_FLIP_ASYNC))) =? 0) then drm_fail (- EINVAL)
  else
    let send f := kcall 0 (K_page_flip (mkPageFlip crtc fb flags user f)) in
    a ← implicit_attach fb fence0;
    r ← send a.2;
    r ← (if (r.1.1 =? - ENODEV) && a.1 then f ← implicit_fallback fb; r ← send f; mret (r.1.1, false) else mret (r.1.1, a.1));
    _ ← (if (r.1 =? 0) && r.2 then kx_mod (λ c, c <| kx_implicit ::= λ n, u32 (n + 1) |>) else mret ());
    _ ← kx_mod mirror_invalidate;
    if negb (r.1 =? 0) then drm_fail r.1 else mret ().
Definition ioc_get_sequence (crtc : Z) : kx (Z * Z) := crtc_seq crtc.
Definition DRM_CRTC_SEQUENCE_FLAGS := 3.
Definition ioc_queue_sequence (crtc flags sequence user : Z) : kx Z :=
  if negb (Z.land flags (u32 (Z.lnot DRM_CRTC_SEQUENCE_FLAGS)) =? 0) then drm_fail (- EINVAL)
  else r ← kcall_ok 0 (K_crtc_queue_sequence (mkVblankReq crtc flags sequence user)); mret (as_seq r.1).1.
Definition ioc_create_blob (data : option (list Z)) : kx Z :=
  match data with
  | None | Some [] => drm_fail (- EINVAL)
  | Some l => r ← kcall_ok 0 (K_create_blob (Some l)); mret (match r.1 with RU_blob id _ => id | _ => 0 end)
  end.
End world.

(** ** Queries and the dispatcher

    The ioctls of the display node (tools/gpu-lane/libdrm-phoenix/src/drm_phoenix_kms.c): the
    queries, which copy the server's answer into the caller's arrays, and the dispatcher. *)
(** ** The caller's arrays

    An array the caller gives with its capacity, or none; what is written is a prefix. *)
Record user_array := mkArray { ua_cap : Z; ua_ptr : bool }.
Definition copy_ids (n max : Z) (a : user_array) (l : list Z) : list Z :=
  if ua_ptr a then take (Z.to_nat (Z.min (Z.min n max) (ua_cap a))) l else [].
(** How much is asked of the server. *)
Definition ask (max : Z) (a : user_array) : Z := if ua_ptr a then Z.min (ua_cap a) max else 0.

Definition as_ids (d : kms_payload) : list Z := match d with PL_ids l => l | _ => [] end.
Definition as_modes (d : kms_payload) : list kms_modeinfo_t := match d with PL_modes l => l | _ => [] end.
Definition as_conn (u : kms_resp_u) : kms_connector_t := match u with RU_connector c => c | _ => mkConnector 0 0 0 0 0 0 0 0 0 0 end.
Definition as_plane (u : kms_resp_u) : kms_plane_t := match u with RU_plane p => p | _ => mkPlaneResp 0 0 0 0 [] end.

Section world.
Context {W : Type} `{KS : KmsSide W}.

(** ** Queries *)
Record drm_card_res := mkCardRes {
  re_fbs : list Z; re_crtcs : list Z; re_connectors : list Z; re_encoders : list Z;
  re_count_fbs : Z; re_count_crtcs : Z; re_count_connectors : Z; re_count_encoders : Z }.
Definition ioc_get_resources (fbs crtcs conns encs : user_array) : kx drm_card_res :=
  let max := ask KMS_MAX_ARRAY fbs in
  r ← kcall_ok (max * 4) (K_get_resources max);
  let '(ncrtc, nfb, crtc, conn, enc) := match r.1 with RU_resources n f c k e => (n, f, c, k, e) | _ => (0, 0, [], [], []) end in
  let len (l : list Z) := Z.of_nat (length l) in
  mret (mkCardRes (take (Z.to_nat (Z.min nfb max)) (as_ids r.2)) (copy_ids ncrtc KMS_MAX_CRTCS crtcs crtc)
          (copy_ids (len conn) KMS_MAX_CRTCS conns conn) (copy_ids (len enc) KMS_MAX_CRTCS encs enc)
          nfb ncrtc (len conn) (len enc)).

(** The properties written: their ids, their values if there is room for them, the count. *)
Definition obj_props (obj count : Z) (props values : bool) : kx (list Z * list Z * Z) :=
  let max := ask KMS_MAX_ARRAY (mkArray count props) in
  r ← kcall_ok (max * 16) (K_get_properties obj max);
  let l := take (Z.to_nat (Z.min (as_count r.1) max)) (as_props r.2) in
  mret (pv_prop_id <$> l, if values then pv_value <$> l else [], as_count r.1).

Record drm_get_connector := mkGetConn {
  gn_modes : list kms_modeinfo_t; gn_encoders : list Z; gn_props : list Z * list Z;
  gn_count_modes : Z; gn_count_encoders : Z; gn_count_props : Z; gn_info : kms_connector_t }.
Definition ioc_get_connector (id : Z) (modes encs props : user_array) (values : bool) : kx drm_get_connector :=
  let max := ask 16 modes in
  r ← kcall_ok (max * MODEINFO_SIZE) (K_get_connector id max);
  let c := as_conn r.1 in
  let enc := cn_encoder_id c in
  let e := if (1 <=? ua_cap encs) && ua_ptr encs && negb (enc =? 0) then [enc] else [] in
  p ← (if negb (ua_cap props =? 0) && ua_ptr props then obj_props id (ua_cap props) true values else mret ([], [], 0));
  mret (mkGetConn (take (Z.to_nat (Z.min (cn_nmodes c) max)) (as_modes r.2)) e p.1
          (cn_nmodes c) (if negb (enc =? 0) then 1 else 0) (cn_nprops c) c).

Definition ioc_get_crtc (id : Z) : kx (kms_crtc_t * kms_modeinfo_t) :=
  r ← kcall_ok MODEINFO_SIZE (K_get_crtc id); mret (as_crtc r.1, default mode0 (head (as_modes r.2))).
Record drm_get_plane := mkGetPlane { gl_crtc_id : Z; gl_fb_id : Z; gl_possible_crtcs : Z; gl_formats : list Z; gl_count_formats : Z }.
Definition ioc_get_plane (id : Z) (formats : user_array) : kx drm_get_plane :=
  r ← kcall_ok 0 (K_get_plane id);
  let p := as_plane r.1 in
  let n := Z.of_nat (length (pl_formats p)) in
  mret (mkGetPlane (pl_crtc_id p) (pl_fb_id p) (pl_possible_crtcs p) (copy_ids n KMS_PLANE_MAX_FMTS formats (pl_formats p)) n).
Definition get_plane_resources (planes : user_array) : kx (list Z * Z) :=
  r ← kcall_ok 0 K_get_plane_resources;
  let l := match r.1 with RU_plane_res l => l | _ => [] end in
  mret (copy_ids (Z.of_nat (length l)) 13 planes l, Z.of_nat (length l)).
Definition KMS_MAX_ENUMS := 16.
Definition ioc_get_property (id values_ptr enum_ptr cap_values cap_enums : Z) : kx drm_get_property :=
  r ← kcall_ok (KMS_MAX_ENUMS * 40) (K_get_property id KMS_MAX_ENUMS);
  let p := match r.1 with RU_prop name flags nv ne => mkKProperty name flags nv ne | _ => mkKProperty String.EmptyString 0 0 0 end in
  let data := match r.2 with PL_enums l => PD_enums l | PL_values l => PD_values l | _ => PD_values [] end in
  mret (drmphx_fill_property p data (KMS_MAX_ENUMS * 40) values_ptr enum_ptr cap_values cap_enums).
Definition get_blob (id length : Z) (data : bool) : kx (list Z * Z) :=
  r ← kcall_ok (if negb (length =? 0) && data then length else 0) (K_get_blob id);
  mret (match r.2 with PL_bytes l => l | _ => [] end, match r.1 with RU_blob _ n => n | _ => 0 end).

(** ** The dispatcher *)
Inductive drm_ioctl :=
  | I_get_cap (cap : Z) | I_set_client_cap (cap value : Z) | I_set_master | I_drop_master | I_auth_magic
  | I_gem_close (h : Z) | I_prime_handle_to_fd (h : Z) (cloexec : bool) | I_prime_fd_to_handle (fd : Z) | I_gem_flink | I_gem_open
  | I_getresources (fbs crtcs conns encs : user_array) | I_getconnector (id : Z) (modes encs props : user_array) (values : bool)
  | I_getencoder (id : Z) | I_getcrtc (id : Z) | I_setcrtc (crtc fb x y hdisplay vdisplay : Z) (mode_valid : bool)
  | I_getplaneresources (planes : user_array) | I_getplane (id : Z) (formats : user_array) | I_setplane (sp : set_plane_req)
  | I_obj_getproperties (obj count : Z) (props values : bool) | I_getproperty (id values_ptr enum_ptr cap_values cap_enums : Z)
  | I_obj_setproperty (obj prop value : Z) | I_setproperty (connector prop value : Z)
  | I_getpropblob (id length : Z) (data : bool) | I_createpropblob (data : option (list Z)) | I_destroypropblob (id : Z)
  | I_create_dumb (width height bpp flags : Z) | I_map_dumb (h : Z) | I_destroy_dumb (h : Z)
  | I_addfb (width height pitch bpp depth handle : Z) | I_addfb2 (f : drm_fb_cmd2) | I_rmfb (fb : Z) | I_dirtyfb
  | I_page_flip (crtc fb flags user : Z)
  | I_atomic (flags reserved user : Z) (objs count_props props values : Z → Z) (count_objs : Z)
  | I_wait_vblank (type seq signal : Z) | I_crtc_get_sequence (crtc : Z) | I_crtc_queue_sequence (crtc flags sequence user : Z)
  | I_cursor_or_gamma | I_syncobj | I_other.
Inductive drm_out :=
  | O_none | O_value (v : Z) | O_res (r : drm_card_res) | O_conn (c : drm_get_connector) | O_enc (type crtc possible clones : Z)
  | O_crtc (c : kms_crtc_t) (m : kms_modeinfo_t) | O_ids (l : list Z) (count : Z) | O_plane (p : drm_get_plane)
  | O_props (ids values : list Z) (count : Z) | O_prop (p : drm_get_property) | O_blob (data : list Z) (length : Z)
  | O_dumb (d : kms_dumb_resp_t) | O_vblank (v : vblank_reply_t) | O_sequence (seq ns : Z).
Definition no_value (m : kx (W:=W) unit) : kx (W:=W) drm_out := _ ← m; mret O_none.
Definition a_value (m : kx (W:=W) Z) : kx (W:=W) drm_out := v ← m; mret (O_value v).
Definition plain_call (rq : kms_req) : kx (W:=W) drm_out := _ ← kcall_ok 0 rq; mret O_none.
Definition EOPNOTSUPP := 95.

Definition drmphx_kms_ioctl (q : drm_ioctl) : kx drm_out :=
  match q with
  | I_get_cap cap => r ← kcall_ok 0 (K_get_cap cap); mret (O_value (match r.1 with RU_cap v => v | _ => 0 end))
  | I_set_client_cap cap v => no_value (ioc_set_client_cap cap v)
  | I_set_master => plain_call K_set_master
  | I_drop_master => plain_call K_drop_master
  | I_auth_magic => plain_call K_auth_magic
  | I_gem_close h | I_destroy_dumb h => no_value (ioc_destroy_dumb h)
  | I_prime_handle_to_fd h cloexec => a_value (ioc_prime_export h cloexec)
  | I_prime_fd_to_handle fd => a_value (ioc_prime_import fd)
  | I_gem_flink | I_gem_open => drm_fail (- ENOSYS)
  | I_getresources fbs crtcs conns encs => r ← ioc_get_resources fbs crtcs conns encs; mret (O_res r)
  | I_getconnector id modes encs props values => r ← ioc_get_connector id modes encs props values; mret (O_conn r)
  | I_getencoder id =>
      r ← kcall_ok 0 (K_get_encoder id);
      mret (match r.1 with RU_encoder t c p k => O_enc t c p k | _ => O_enc 0 0 0 0 end)
  | I_getcrtc id => r ← ioc_get_crtc id; mret (O_crtc r.1 r.2)
  | I_setcrtc crtc fb x y w h valid => no_value (ioc_setcrtc crtc fb x y w h valid)
  | I_getplaneresources planes => r ← get_plane_resources planes; mret (O_ids r.1 r.2)
  | I_getplane id formats => r ← ioc_get_plane id formats; mret (O_plane r)
  | I_setplane sp => no_value (ioc_setplane sp)
  | I_obj_getproperties obj count props values => r ← obj_props obj count props values; mret (O_props r.1.1 r.1.2 r.2)
  | I_getproperty id vp ep cv ce => r ← ioc_get_property id vp ep cv ce; mret (O_prop r)
  | I_obj_setproperty obj prop v | I_setproperty obj prop v => no_value (set_one_prop obj prop v)
  | I_getpropblob id length data => r ← get_blob id length data; mret (O_blob r.1 r.2)
  | I_createpropblob data => a_value (ioc_create_blob data)
  | I_destroypropblob id => plain_call (K_destroy_blob id)
  | I_create_dumb w h bpp flags => d ← ioc_create_dumb w h bpp flags; mret (O_dumb d)
  | I_map_dumb h => a_value (ioc_map_dumb h)
  | I_addfb w h pitch bpp depth handle => a_value (ioc_addfb w h pitch bpp depth handle)
  | I_addfb2 f => a_value (ioc_addfb2 f)
  | I_rmfb fb => no_value (ioc_rmfb fb)
  | I_dirtyfb => mret O_none
  | I_page_flip crtc fb flags user => no_value (ioc_page_flip crtc fb flags user)
  | I_atomic flags reserved user objs cp props values n => no_value (ioc_atomic flags reserved user objs cp props values n)
  | I_wait_vblank type seq signal => r ← ioc_wait_vblank type seq signal; mret (O_vblank r)
  | I_crtc_get_sequence crtc => r ← ioc_get_sequence crtc; mret (O_sequence r.1 r.2)
  | I_crtc_queue_sequence crtc flags seq user => a_value (ioc_queue_sequence crtc flags seq user)
  | I_cursor_or_gamma => drm_fail (- ENOSYS)
  | I_syncobj => drm_fail (- EOPNOTSUPP)
  | I_other => drm_fail (- EINVAL)
  end.
End world.
