(* ===== verification/DrmEnd.v ===== *)
(** The library and the display server together: what the server reports of a plane decodes to
    its state, and a partial DRM request arrives as complete plane states. *)
From S2P Require Import Prelude Proto State KmsProto KmsModes KmsState KmsBo KmsEv KmsBackend KmsCommit KmsMain KmsAside KmsRefs KmsRefOps KmsPool KmsRefKept KmsRefCommit KmsRefFlip KmsRefReq KmsReach KmsConcrete KmsCommitSpec DrmLogic DrmLogicSpec DrmKms.
#[local] Open Scope Z_scope.

(** ** A plane's properties read back *)
(** The fields have their C types' widths. *)
Record plane_words (st : kms_atomic_plane_t) : Prop := mkWords {
  pw_fb : 0 ≤ fb_id st < 2 ^ 32; pw_crtc : 0 ≤ crtc_id st < 2 ^ 32;
  pw_sx : 0 ≤ src_x st < 2 ^ 32; pw_sy : 0 ≤ src_y st < 2 ^ 32; pw_sw : 0 ≤ src_w st < 2 ^ 32; pw_sh : 0 ≤ src_h st < 2 ^ 32;
  pw_x : -2 ^ 31 ≤ crtc_x st < 2 ^ 31; pw_y : -2 ^ 31 ≤ crtc_y st < 2 ^ 31;
  pw_w : 0 ≤ crtc_w st < 2 ^ 32; pw_h : 0 ≤ crtc_h st < 2 ^ 32;
  pw_alpha : 0 ≤ alpha st < 2 ^ 32; pw_rot : 0 ≤ rotation st < 2 ^ 32 }.
(** What the server's report of plane [p] says of it. *)
Definition plane_report (st : kms_atomic_plane_t) (id p : Z) : kms_atomic_plane_t :=
  st <| plane_id := id |> <| zpos := p |> <| alpha := if fb_id st =? 0 then 0xffff else alpha st |>
     <| rotation := if rotation st =? 0 then DRM_MODE_ROTATE_0 else rotation st |> <| in_fence := fence0 |>.

Lemma u32_u64 x : u32 (u64 x) = u32 x.
Proof. unfold u32, u64. change (2 ^ 64) with (2 ^ 32 * 2 ^ 32). rewrite Z.rem_mul_r by lia. rewrite (Z.mul_comm (2 ^ 32)), Z.mod_add by lia. by rewrite Zmod_mod. Qed.
Lemma i32_small x : -2 ^ 31 ≤ x < 2 ^ 31 → i32 x = x.
Proof. intros H. unfold i32. rewrite Z.mod_small by lia. lia. Qed.
Lemma i32_u64 x : i32 (u64 x) = i32 x.
Proof.
  unfold i32. assert ((u64 x + 2 ^ 31) mod 2 ^ 32 = (x + 2 ^ 31) mod 2 ^ 32) as ->; [|done].
  change ((u64 x + 2 ^ 31) mod 2 ^ 32) with (u32 (u64 x + 2 ^ 31)). change ((x + 2 ^ 31) mod 2 ^ 32) with (u32 (x + 2 ^ 31)).
  rewrite <- (u32_add x), <- (u32_add (u64 x)). by rewrite u32_u64.
Qed.

(** The list as a whole: one field from each entry. *)
Lemma report_fields id st vt vfb vc vsx vsy vsw vsh vx vy vw vh vf vi vz va vr :
  drmphx_plane_state_from_props id
    [mkPropValue KMS_PROP_TYPE vt; mkPropValue KMS_PROP_FB_ID vfb; mkPropValue KMS_PROP_CRTC_ID vc; mkPropValue KMS_PROP_SRC_X vsx;
     mkPropValue KMS_PROP_SRC_Y vsy; mkPropValue KMS_PROP_SRC_W vsw; mkPropValue KMS_PROP_SRC_H vsh; mkPropValue KMS_PROP_CRTC_X vx;
     mkPropValue KMS_PROP_CRTC_Y vy; mkPropValue KMS_PROP_CRTC_W vw; mkPropValue KMS_PROP_CRTC_H vh; mkPropValue KMS_PROP_IN_FENCE_FD vf;
     mkPropValue KMS_PROP_IN_FORMATS vi; mkPropValue KMS_PROP_ZPOS vz; mkPropValue KMS_PROP_ALPHA va; mkPropValue KMS_PROP_ROTATION vr] st =
  mkPlane id (u32 vfb) (u32 vc) (i32 vx) (i32 vy) (u32 vw) (u32 vh) (u32 vsx) (u32 vsy) (u32 vsw) (u32 vsh) (i32 vz) (u32 va) (u32 vr) (in_fence st).
Proof. by destruct st. Qed.

Section report.
Context (s : kms_srv_t) (Hpl : op_be (ks_opt s) = KMS_BACKEND_PLANE) (Hidx : cs_idx (ks_crtc s 0) = 0).
Lemma plane_idx_id id p : plane_idx (ks_crtc s 0) id = Some p → 0 ≤ p < KMS_PLANES_PER_CRTC ∧ id = 0x50 + p.
Proof.
  unfold plane_idx. intros (Hr & Hb & _)%find_first_Some. split; [done|]. apply andb_true_iff in Hb as [_ Hb]. apply Z.eqb_eq in Hb. rewrite <- Hb, Hidx.
  unfold KMS_ID_PLANE. change KMS_PLANES_PER_CRTC with 8 in *. rewrite u32_small; lia.
Qed.
(** The properties of a plane are what the state is, whatever the buffer they are put in. *)
Lemma props_report id p st : plane_idx (ks_crtc s 0) id = Some p → plane_words (cs_cur (ks_crtc s 0) p) →
  (length (KmsMain.obj_props s id) ≤ 16)%nat ∧ KmsMain.obj_props s id ≠ [] ∧
  drmphx_plane_state_from_props id (KmsMain.obj_props s id) st = plane_report (cs_cur (ks_crtc s 0) p) id p <| in_fence := in_fence st |>.
Proof.
  intros Hp []. destruct (plane_idx_id id p Hp) as [Hr Hid]. change KMS_PLANES_PER_CRTC with 8 in Hr. unfold KmsMain.obj_props.
  destruct (Z.eqb_spec id (KMS_ID_CONNECTOR 0)) as [E|_]; [change (KMS_ID_CONNECTOR 0) with 32 in E; lia|].
  destruct (Z.eqb_spec id (KMS_ID_CRTC 0)) as [E|_]; [change (KMS_ID_CRTC 0) with 64 in E; lia|]. rewrite Hp, Hpl. cbn [is_plane app].
  split; [cbn; lia|]. split; [done|]. rewrite report_fields, !u32_u64, !i32_u64.
  unfold plane_report. destruct (cs_cur (ks_crtc s 0) p) as [i fb crtc cx cy cw ch sx sy sw sh z al rot fe]. cbn in *.
  replace (if p =? 7 then 7 else p) with p by (destruct (Z.eqb_spec p 7); lia). rewrite !i32_small by lia.
  assert (∀ x y : Z, u32 x = x → u32 y = y → ∀ c : bool, u32 (if c then x else y) = if c then x else y) as Hif by (by intros ? ? ? ? []).
  rewrite !Hif by (apply u32_small; (done || lia)). rewrite !u32_small by lia. by destruct (fb =? 0), (rot =? 0).
Qed.
End report.

(** ** The server on the other side *)
(** Nothing happens to what the planes show. *)
Record same_screen (s s' : kms_srv_t) : Prop := mkSameScreen {
  ss_opt : ks_opt s' = ks_opt s; ss_clients : ks_clients s' = ks_clients s; ss_quit : ks_quit s' = ks_quit s;
  ss_cur : cs_cur (ks_crtc s' 0) = cs_cur (ks_crtc s 0); ss_idx : cs_idx (ks_crtc s' 0) = cs_idx (ks_crtc s 0);
  ss_mask : cs_plane_mask (ks_crtc s' 0) = cs_plane_mask (ks_crtc s 0) }.
#[export] Instance same_screen_pre : PreOrder same_screen.
Proof. split; [by intros ?; constructor|]. intros a b c [] []. constructor; congruence. Qed.
Lemma screen_plane_idx s s' id : same_screen s s' → plane_idx (ks_crtc s' 0) id = plane_idx (ks_crtc s 0) id.
Proof. intros []. unfold plane_idx. by rewrite ss_idx0, ss_mask0. Qed.
Lemma screen_client_get s s' id : same_screen s s' → kms_client_get s' id = kms_client_get s id.
Proof. intros []. unfold kms_client_get. by rewrite ss_clients0. Qed.

Definition plain (rq : kms_req) : Prop := match rq with K_get_properties _ _ | K_atomic _ _ => True | _ => False end.
(** The messages of the connection are dispatched by the server [srv] of the world, one by one,
    and answered, and nothing but them reaches the server during a call of the library: this
    leaves out the turns of the vblank thread (kms_vblank.c) and the messages of other clients,
    which the server's own theorems cover. *)
Class DisplayServer {W : Type} `{KMS : KmsSide W} `{K : KEnv} (srv : W → kms_srv_t) : Prop := mkDisplayServer {
  ds_send m rq w : plain rq → ∃ rid, let o := kms_handle rid (KM_raw m rq) (srv w) in
    (ks_send m rq w).1 = (0, o.1.1) ∧ srv (ks_send m rq w).2 = kms_dispatch rid (KM_raw m rq) (srv w);
  ds_mmap n w : same_screen (srv w) (srv (ks_mmap n w).2);
  ds_syncfile fd w : same_screen (srv w) (srv (ks_syncfile_get fd w).2);
  ds_flip_fence bp port id w : same_screen (srv w) (srv (ks_flip_fence bp port id w).2);
  ds_flip_wait bp port id w : same_screen (srv w) (srv (ks_flip_wait bp port id w)) }.

Section server.
Context `{K : KEnv}.
Lemma screen_reap_list l s : let s' := foldl (λ s r,
    let s := if negb (rp_va r =? 0) then kms_emit (KE_munmap (rp_va r) (rp_size r)) s else s in
    if 0 <=? rp_fd r then kms_emit (KE_close (rp_fd r)) s else s) s l in same_screen s s' ∧ ks_crtc s' = ks_crtc s.
Proof.
  cbv zeta. revert s. induction l as [|x l IH]; intros s; [done|]. cbn [foldl]. set (s1 := if 0 <=? rp_fd x then _ else _).
  assert (same_screen s s1 ∧ ks_crtc s1 = ks_crtc s) as [H1 H2] by (unfold s1; by destruct (negb (rp_va x =? 0)), (0 <=? rp_fd x)).
  clearbody s1. destruct (IH s1) as [G1 G2]. split; [by etrans|congruence].
Qed.
Lemma screen_reap s : same_screen s (reap_if_any s) ∧ ks_crtc (reap_if_any s) = ks_crtc s.
Proof.
  unfold reap_if_any. destruct (ks_reap s) as [|x l] eqn:E; [done|]. unfold kms_reap. destruct (screen_reap_list (ks_reap s) (s <| ks_reap := [] |>)) as [H1 H2].
  split; [etrans; [|exact H1]; by constructor|exact H2].
Qed.
(** An accepted commit of the planes [sts]. *)
Definition accepted (s : kms_srv_t) (sts : list kms_atomic_plane_t) (s' : kms_srv_t) : Prop :=
  let c := ks_crtc s 0 in let c' := ks_crtc s' 0 in
  cs_pend c = KMS_PEND_NONE ∧ cs_pend c' ≠ KMS_PEND_NONE ∧ cs_cur c' = cs_cur c ∧
  ∀ st, st ∈ sts → ∃ p, plane_idx c (plane_id st) = Some p ∧ Z.testbit (cs_pmask c') p = true ∧ cs_pst c' p = taken c st.
(** What a request asks of the CRTC: with ACTIVE = 0, every plane off. *)
Definition asked (s : kms_srv_t) (active : Z) (sts : list kms_atomic_plane_t) : list kms_atomic_plane_t :=
  if active =? 0 then all_off (ks_crtc s 0) else sts.
Definition fits (h : kms_atomic_req_t) (data : option (list kms_atomic_plane_t)) (sts : list kms_atomic_plane_t) : Prop :=
  at_active h ≠ 0 → data = Some sts ∧ at_nplanes h = Z.of_nat (length sts).
Lemma op_atomic_spec cl h data s : one_head s → let o := op_atomic cl h data s in
  kplane s o.2 ∧ (o.1.1 ≠ 0 → o.2 = s) ∧
  (o.1.1 = 0 → has (at_flags h) KMS_ATOMIC_TEST_ONLY = false → ∀ sts, fits h data sts → accepted s (asked s (at_active h) sts) o.2).
Proof.
  intros H1. unfold op_atomic. destruct (crtc_by_id s (at_crtc_id h)) as [ci|] eqn:Ei; [|by split_and!]. apply find_first_Some in Ei as (Hr & _). unfold one_head in H1. assert (ci = 0) as -> by lia. cbv zeta.
  destruct (if negb (at_mode_blob h =? 0) then _ else _) as [nm|]; [|by split_and!].
  assert (∀ sts, let o := commit cl 0 sts (at_flags h) (at_user_data h) nm s in kplane s o.2 ∧ (o.1.1 ≠ 0 → o.2 = s) ∧
    (o.1.1 = 0 → has (at_flags h) KMS_ATOMIC_TEST_ONLY = false → accepted s sts o.2)) as Hcm.
  { intros sts. pose proof (commit_kept cl sts (at_flags h) (at_user_data h) nm s) as [_ Hk]. pose proof (commit_outcome cl sts (at_flags h) (at_user_data h) nm s) as Ho.
    destruct (commit _ _ _ _ _ _ _) as [[rc out] s']. cbn [fst snd] in *. destruct Ho as [Ho1 Ho2]. split; [done|]. split; [intros Hrc; apply Ho1; by left|].
    intros Hrc Ht. destruct (Ho2 Hrc Ht) as (G1 & G2 & _ & _ & _ & G3 & _ & G4). done. }
  unfold asked, fits. destruct (Z.eqb_spec (at_active h) 0) as [Ha|Ha].
  { destruct (Hcm (all_off (ks_crtc s 0))) as (G1 & G2 & G3). split_and!; [done|done|]. intros Hrc Ht sts _. by apply G3. }
  destruct data as [l|]; [|split_and!; [done|done|]; by intros _ _ sts []]. destruct (_ || _) eqn:Eo; [by split_and!|]. destruct (Hcm (take (Z.to_nat (at_nplanes h)) l)) as (G1 & G2 & G3). split_and!; [done|done|].
  intros Hrc Ht sts Hs. destruct Hs as [[= <-] En]; [done|]. assert (take (Z.to_nat (at_nplanes h)) l = l) as El by (apply take_ge; lia). rewrite El in *. by apply G3.
Qed.
Lemma atomic_handled rid m h data s : one_head s → let o := kms_handle rid (KM_raw m (K_atomic h data)) s in
  o.2 = [] ∧ kplane s o.1.2 ∧ ∃ rc u, o.1.1 = raw_reply rc u PL_none ∧ (rc ≠ 0 → o.1.2 = s) ∧
  (rc = 0 → has (at_flags h) KMS_ATOMIC_TEST_ONLY = false → ∀ sts, fits h data sts → accepted s (asked s (at_active h) sts) o.1.2).
Proof.
  intros H1. unfold kms_handle. destruct (kms_client_get s (m_oid m)) as [ci|]; [|by split_and!; [..|eexists _, _; split_and!]].
  unfold kms_handle_raw. cbv zeta. pose proof (op_atomic_spec (kc_id (ks_clients s ci)) h data s H1) as H. cbv zeta in H. destruct (op_atomic _ _ _ _) as [[rc f] s']. cbn [fst snd] in *.
  destruct H as (G1 & G2 & G3). split_and!; [done|done|]. by eexists rc, _.
Qed.
(** What is left of a message after it is handled. *)
Lemma dispatch_screen rid m rq s r s1 a : kms_handle rid (KM_raw m rq) s = (r, s1, a) → ks_quit s1 = false → a = [] →
  same_screen s1 (kms_dispatch rid (KM_raw m rq) s) ∧ ks_crtc (kms_dispatch rid (KM_raw m rq) s) = ks_crtc s1.
Proof.
  intros E Hq ->. unfold kms_dispatch. rewrite E, Hq. cbn [kms_answer foldl]. destruct (screen_reap s1) as [H Hc].
  revert H Hc. generalize (reap_if_any s1). intros s2 H Hc. split; [etrans; [exact H|]|by rewrite <- Hc; destruct r]. by destruct r.
Qed.
End server.

(** ** The calls of a connection *)
Section link.
Context {W : Type} `{KMS : KmsSide W} `{K : KEnv} (srv : W → kms_srv_t) `{DS : !DisplayServer srv}.

(** The mirror and the screen are as they were. *)
Record calm (x y : kms_conn * W) : Prop := mkCalm {
  cm_client : kx_client y.1 = kx_client x.1; cm_plane : kx_plane y.1 = kx_plane x.1; cm_valid : kx_plane_valid y.1 = kx_plane_valid x.1;
  cm_screen : same_screen (srv x.2) (srv y.2) }.
#[export] Instance calm_pre : PreOrder calm.
Proof. split; [by intros ?; constructor|]. intros a b c [] []. constructor; [congruence..|by etrans]. Qed.
Definition quietly {A} (m : kx A) : Prop := ∀ x, calm x (m x).2.
Lemma quietly_bind {A B} (m : kx A) (f : A → kx B) : quietly m → (∀ a, quietly (f a)) → quietly (m ≫= f).
Proof. intros H1 H2 x. specialize (H1 x). unfold mbind, drm_mbind. destruct (m x) as [[e|a] y]; [done|]. etrans; [exact H1|apply H2]. Qed.
Lemma quietly_ret {A} (a : A) : quietly (mret a).
Proof. by intros x. Qed.
Lemma quietly_fail {A} e : quietly (drm_fail e : kx A).
Proof. by intros x. Qed.
Lemma quietly_get : quietly kx_get.
Proof. by intros x. Qed.
Lemma quietly_mod f : (∀ c, kx_client (f c) = kx_client c ∧ kx_plane (f c) = kx_plane c ∧ kx_plane_valid (f c) = kx_plane_valid c) → quietly (kx_mod f).
Proof. intros H x. destruct (H x.1) as (? & ? & ?). by constructor. Qed.
Lemma quietly_world {A} (f : W → A * W) : (∀ w, same_screen (srv w) (srv (f w).2)) → quietly (kx_world f).
Proof. intros H x. specialize (H x.2). unfold kx_world. by destruct (f x.2). Qed.
Lemma quietly_do (f : W → W) : (∀ w, same_screen (srv w) (srv (f w))) → quietly (kx_do f).
Proof. intros H x. by constructor. Qed.
Lemma quietly_scratch isize osize : quietly (call_scratch isize osize).
Proof.
  apply quietly_bind; [apply quietly_get|]. intros c. cbv zeta. destruct (_ && _); [apply quietly_ret|]. destruct (_ <? _); [|apply quietly_ret].
  apply quietly_bind; [apply quietly_world; intros w; apply ds_mmap|]. intros []; [|apply quietly_fail]. by apply quietly_mod.
Qed.

(** A message the server answers, from the state it is in. *)
Lemma kcall_outcome osize rq x : plain rq → let r := kcall osize rq x in ∃ y, calm x y ∧
  ((∃ e, r = (inr (e, RU_none, PL_none), y) ∧ e ≠ 0) ∨
   ∃ rid, let m := mkMsg ks_pid (kx_client x.1) (if osize =? 0 then OP_null else OP_window) (page_round osize) false in
     let o := (kms_handle rid (KM_raw m rq) (srv y.2)).1.1 in let y' := default reply0 o in let z := default (0, RU_none) (ry_resp y') in
     srv r.2.2 = kms_dispatch rid (KM_raw m rq) (srv y.2) ∧ r.2.1 = y.1 ∧
     r.1 = inr (if ry_err y' <? 0 then (ry_err y', RU_none, PL_none) else (z, ry_data y'))).
Proof.
  intros Hp. cbv zeta. unfold kcall, drmphx_call, mbind, drm_mbind. pose proof (quietly_scratch (isize_of rq) osize x) as Hs.
  assert (∀ e y, call_scratch (isize_of rq) osize x = (inl e, y) → e = - ENOMEM) as He.
  { intros e y. unfold call_scratch, mbind, drm_mbind, kx_get, kx_world, kx_mod, mret, drm_mret, drm_fail. cbv beta iota zeta. destruct (_ && _); [done|]. destruct (_ <? _); [|done].
    destruct (ks_mmap _ x.2) as [[] v]; [done|]. by intros [= <- _]. }
  destruct (call_scratch (isize_of rq) osize x) as [[e|[]] y]; cbn [fst snd] in Hs.
  - exists y. split; [done|]. left. exists e. split; [done|]. by rewrite (He e y eq_refl).
  - exists y. split; [done|]. right. unfold kx_get, kx_world. cbv beta iota. rewrite (cm_client _ _ Hs).
    set (m := mkMsg _ _ _ _ _). destruct (ds_send m rq y.2 Hp) as (rid & E1 & E2). exists rid. destruct (ks_send m rq y.2) as [r w']. cbn [fst snd] in *. subst r.
    cbn [fst snd]. change (0 <? 0) with false. cbv iota. set (y' := default reply0 _). destruct (ry_err y' <? 0); [done|].
    unfold mret, drm_mret. by destruct (default (0, RU_none) (ry_resp y')).
Qed.

(** Reading a plane's properties. *)
Lemma props_handled rid m id s : has_out m = true →
  let o := kms_handle rid (KM_raw m (K_get_properties id KMS_MAX_ARRAY)) s in o.1.2 = s ∧ o.2 = [] ∧
  ((∃ e, o.1.1 = raw_reply e RU_none PL_none ∧ e ≠ 0) ∨
   (KmsMain.obj_props s id ≠ [] ∧ o.1.1 = raw_reply 0 (RU_count (Z.of_nat (length (KmsMain.obj_props s id)))) (PL_props (fit_out m 16 KMS_MAX_ARRAY (KmsMain.obj_props s id))))).
Proof.
  intros Ho. unfold kms_handle. destruct (kms_client_get s (m_oid m)) as [ci|]; [|by split_and!; [..|left; eexists]]. unfold kms_handle_raw. rewrite Ho.
  destruct (KmsMain.obj_props s id) as [|x l]; [by split_and!; [..|left; eexists]|]. split_and!; [done..|]. by right.
Qed.

Context (x0 : kms_conn * W) (Hpl : op_be (ks_opt (srv x0.2)) = KMS_BACKEND_PLANE) (Hidx : cs_idx (ks_crtc (srv x0.2) 0) = 0)
  (Hquit : ks_quit (srv x0.2) = false)
  (Hw : ∀ p, 0 ≤ p < KMS_PLANES_PER_CRTC → plane_words (cs_cur (ks_crtc (srv x0.2) 0) p))
  (Hoff : ∀ p, 0 ≤ p < KMS_PLANES_PER_CRTC → fb_id (cs_cur (ks_crtc (srv x0.2) 0) p) = 0 → crtc_id (cs_cur (ks_crtc (srv x0.2) 0) p) = 0).
(** What the connection takes a plane's state to be: its last commit, or what the server reports. *)
Definition known (id : Z) : kms_atomic_plane_t :=
  let i := plane_index id in
  if kx_plane_valid x0.1 i then kx_plane x0.1 i
  else match plane_idx (ks_crtc (srv x0.2) 0) id with Some p => plane_report (cs_cur (ks_crtc (srv x0.2) 0) p) id p | None => plane0 end.
Record seeded (y : kms_conn * W) : Prop := mkSeeded {
  sd_client : kx_client y.1 = kx_client x0.1; sd_screen : same_screen (srv x0.2) (srv y.2);
  sd_known id : drmphx_obj_kind id = DRMPHX_OBJ_PLANE → kx_plane_valid y.1 (plane_index id) = true → kx_plane y.1 (plane_index id) = known id;
  sd_valid i : kx_plane_valid x0.1 i = true → kx_plane_valid y.1 i = true }.
Lemma seeded_calm y z : seeded y → calm y z → seeded z.
Proof. intros [] []. constructor; [congruence|by etrans| |]; rewrite ?cm_plane0, ?cm_valid0; auto. Qed.
Lemma seeded_0 : seeded x0.
Proof. constructor; [done..| |done]. intros id _ H. unfold known. by rewrite H. Qed.
Lemma kind_plane_range id : drmphx_obj_kind id = DRMPHX_OBJ_PLANE → 0x50 ≤ id < 0x60.
Proof.
  unfold drmphx_obj_kind. destruct (_ && _); [done|]. destruct (_ && _); [done|]. destruct (_ && _); [done|]. destruct ((KMS_ID_PLANE 0 0 <=? id) && _) eqn:E; [|done].
  change (KMS_ID_PLANE 0 0) with 0x50 in E. change (KMS_ID_PLANE KMS_MAX_CRTCS 0) with 0x60 in E. lia.
Qed.
Lemma plane_index_small id : 0x50 ≤ id < 0x60 → plane_index id = id - 0x50.
Proof. intros H. unfold plane_index. change (KMS_ID_PLANE 0 0) with 0x50. apply u32_small. lia. Qed.
Lemma known_report y id p st : seeded y → kx_plane_valid y.1 (plane_index id) = false → in_fence st = fence0 →
  plane_idx (ks_crtc (srv y.2) 0) id = Some p →
  drmphx_plane_state_from_props id (KmsMain.obj_props (srv y.2) id) st = known id ∧ rotation (known id) ≠ 0 ∧
  (length (KmsMain.obj_props (srv y.2) id) ≤ 16)%nat ∧ in_fence (known id) = fence0 ∧ plane_id (known id) = id ∧ (fb_id (known id) = 0 → crtc_id (known id) = 0).
Proof.
  intros [] Hv Hf Hp. unfold known. destruct (kx_plane_valid x0.1 (plane_index id)) eqn:E; [rewrite (sd_valid0 _ E) in Hv; done|].
  rewrite <- (screen_plane_idx _ _ _ sd_screen0), Hp. destruct sd_screen0. assert (0 ≤ p < KMS_PLANES_PER_CRTC) as Hr by (by apply find_first_Some in Hp as [? _]).
  destruct (props_report (srv y.2) ltac:(congruence) ltac:(congruence) id p st Hp) as (H1 & _ & H3); [rewrite ss_cur0; by apply Hw|].
  rewrite H3, ss_cur0, Hf. unfold plane_report. specialize (Hoff p Hr). destruct (cs_cur _ p) as [i fb c cx cy cw ch sx sy sw sh z al rot fe]. cbn in *.
  split; [done|]. split; [by destruct (Z.eqb_spec rot 0)|]. done.
Qed.

Lemma kcall_props id y : drmphx_obj_kind id = DRMPHX_OBJ_PLANE → seeded y →
  let r := kcall (KMS_MAX_ARRAY * 16) (K_get_properties id KMS_MAX_ARRAY) y in calm y r.2 ∧
  ((∃ e u d, r.1 = inr (e, u, d) ∧ e ≠ 0) ∨
   ∃ z p, calm y z ∧ plane_idx (ks_crtc (srv z.2) 0) id = Some p ∧
     r.1 = inr (0, RU_count (Z.of_nat (length (KmsMain.obj_props (srv z.2) id))), PL_props (fit_out (mkMsg ks_pid (kx_client y.1) OP_window 4096 false) 16 KMS_MAX_ARRAY (KmsMain.obj_props (srv z.2) id)))).
Proof.
  intros Hk Hy. cbv zeta. destruct (kcall_outcome (KMS_MAX_ARRAY * 16) (K_get_properties id KMS_MAX_ARRAY) y I) as (z & Hz & [(e & E & He)|(rid & E1 & E2 & E3)]).
  { rewrite E. split; [done|]. left. by exists e, RU_none, PL_none. }
  change (page_round (KMS_MAX_ARRAY * 16)) with 4096 in *. change (if KMS_MAX_ARRAY * 16 =? 0 then OP_null else OP_window) with OP_window in *.
  set (m := mkMsg _ _ _ _ _) in *. destruct (props_handled rid m id (srv z.2) eq_refl) as (G1 & G2 & G3).
  destruct (kms_handle rid _ (srv z.2)) as [[o s1] a] eqn:Eh. cbn [fst snd] in *. subst s1 a.
  assert (ks_quit (srv z.2) = false) as Hq by (by rewrite (ss_quit _ _ (cm_screen _ _ Hz)), (ss_quit _ _ (sd_screen _ Hy))).
  destruct (dispatch_screen _ _ _ _ _ _ _ Eh Hq eq_refl) as [D1 _].
  destruct (kcall _ _ y) as [r1 r2]. cbn [fst snd] in *. split.
  { etrans; [exact Hz|]. constructor; [by rewrite E2..|]. by rewrite E1. }
  destruct G3 as [(e & -> & He)|(Hne & ->)]; cbn in E3; [left; by exists e, RU_none, PL_none|]. right.
  destruct (plane_idx (ks_crtc (srv z.2) 0) id) as [p|] eqn:Ep; [by exists z, p|]. exfalso. apply Hne. unfold KmsMain.obj_props.
  apply kind_plane_range in Hk. destruct (Z.eqb_spec id (KMS_ID_CONNECTOR 0)) as [E|_]; [change (KMS_ID_CONNECTOR 0) with 32 in E; lia|].
  destruct (Z.eqb_spec id (KMS_ID_CRTC 0)) as [E|_]; [change (KMS_ID_CRTC 0) with 64 in E; lia|]. by rewrite Ep.
Qed.
Lemma seeded_store y st : seeded y → drmphx_obj_kind (plane_id st) = DRMPHX_OBJ_PLANE → st = known (plane_id st) → in_fence st = fence0 → (fb_id st = 0 → crtc_id st = 0) →
  seeded (mirror_store [st] y.1, y.2).
Proof.
  intros [] Hk E Hf Ho. pose proof (kind_plane_range _ Hk) as Hr. pose proof (plane_index_small _ Hr) as Ei. unfold mirror_store. cbn [foldl]. unfold mirror_one. rewrite Ei.
  destruct (Z.ltb_spec (plane_id st - 0x50) DRMPHX_KMS_MAX_PLANES) as [_|H]; [|change DRMPHX_KMS_MAX_PLANES with 16 in H; lia].
  assert ((if fb_id (st <| in_fence := fence0 |>) =? 0 then st <| in_fence := fence0 |> <| crtc_id := 0 |> else st <| in_fence := fence0 |>) = st) as ->.
  { destruct st. cbn in *. subst. destruct (Z.eqb_spec fb_id 0); [|done]. by rewrite Ho. }
  constructor; cbn; [done|done| |].
  - intros id Hid. rewrite !fn_upd_case. pose proof (plane_index_small _ (kind_plane_range _ Hid)) as Ej. rewrite Ej. case_decide as Hd; [|rewrite <- Ej; auto].
    intros _. assert (id = plane_id st) as -> by lia. exact E.
  - intros i Hi. rewrite fn_upd_case. case_decide; auto.
Qed.
Lemma baseline_known id st0 y : drmphx_obj_kind id = DRMPHX_OBJ_PLANE → seeded y → in_fence st0 = fence0 →
  seeded (plane_baseline id st0 y).2 ∧ match (plane_baseline id st0 y).1 with inl e => e ≠ 0 | inr st => st = known id end.
Proof.
  intros Hk Hy Hf. pose proof (kind_plane_range _ Hk) as Hr. pose proof (plane_index_small _ Hr) as Ei.
  unfold plane_baseline. destruct (Z.leb_spec DRMPHX_KMS_MAX_PLANES (plane_index id)) as [H|_]; [rewrite Ei in H; change DRMPHX_KMS_MAX_PLANES with 16 in H; lia|].
  unfold mbind, drm_mbind, kx_get. cbv beta iota. destruct (kx_plane_valid y.1 (plane_index id)) eqn:Hv.
  { cbn. split; [done|]. by apply sd_known. }
  unfold kcall_ok, mbind, drm_mbind. destruct (kcall_props id y Hk Hy) as [Hc Ho]. cbv zeta in *. destruct (kcall _ _ y) as [r1 r2]. cbn [fst snd] in *.
  pose proof (seeded_calm _ _ Hy Hc) as Hs. destruct Ho as [(e & u & d & -> & He)|(z & p & Hz & Hp & ->)]; cbn [fst snd].
  { destruct (Z.eqb_spec e 0); [done|]. by split. }
  cbn [negb Z.eqb fst snd mret drm_mret]. unfold mret, drm_mret, kx_mod. cbv beta iota. cbn [as_count as_props fst snd].
  destruct (known_report z id p st0 (seeded_calm _ _ Hy Hz)) as (K1 & K2 & K3 & K4 & K5 & K6); [by rewrite (cm_valid _ _ Hz)|done|done|].
  assert (take (Z.to_nat (Z.min (Z.of_nat (length (KmsMain.obj_props (srv z.2) id))) KMS_MAX_ARRAY)) (fit_out (mkMsg ks_pid (kx_client y.1) OP_window 4096 false) 16 KMS_MAX_ARRAY (KmsMain.obj_props (srv z.2) id)) =
    KmsMain.obj_props (srv z.2) id) as ->.
  { unfold fit_out. cbn [m_osize]. change KMS_MAX_ARRAY with 64. change (4096 / 16) with 256. revert K3. generalize (KmsMain.obj_props (srv z.2) id). clear. intros l Hl.
    rewrite (take_ge l (Z.to_nat (Z.min (Z.min 256 64) (Z.of_nat (length l))))) by lia. apply take_ge. lia. }
  rewrite K1. destruct (Z.eqb_spec (rotation (known id)) 0); [done|]. cbn [fst snd]. split; [|done]. apply (seeded_store (r2.1, r2.2)); [by destruct r2|by rewrite K5..|done|done].
Qed.
Lemma baseline_answers : answers seeded baseline_cb known.
Proof.
  intros id y Hk Hy. unfold baseline_cb. destruct (baseline_known id (plane_default id) y Hk Hy eq_refl) as [H1 H2].
  by destruct (plane_baseline _ _ y) as [[e|st] z].
Qed.

(** ** A commit on its way *)
Definition strip (st : kms_atomic_plane_t) : kms_atomic_plane_t := st <| in_fence := fence0 |>.
Lemma quietly_attach fb f : quietly (implicit_attach fb f).
Proof.
  apply quietly_bind; [apply quietly_get|]. intros c. destruct (negb _); [apply quietly_ret|]. destruct (fb_export c fb) as [[port id]|]; [|apply quietly_ret].
  destruct (kx_no_gate c).
  - apply quietly_bind; [apply quietly_do; intros w; apply ds_flip_wait|]. intros []. apply quietly_ret.
  - apply quietly_bind; [apply quietly_world; intros w; apply ds_flip_fence|]. intros r. apply quietly_ret.
Qed.
Lemma quietly_fallback fb : quietly (implicit_fallback fb).
Proof.
  apply quietly_bind; [by apply quietly_mod|]. intros []. apply quietly_bind; [apply quietly_get|]. intros c. apply quietly_bind; [|intros []; apply quietly_ret].
  destruct (fb_export c fb) as [[port id]|]; [apply quietly_do; intros w; apply ds_flip_wait|apply quietly_ret].
Qed.
Lemma each_spec {A B C} (f : A → kx B) (g : A → C) (h : B → C) l : (∀ a, quietly (f a)) → (∀ a x b y, f a x = (inr b, y) → h b = g a) →
  ∀ x, calm x (each f l x).2 ∧ ∀ l' y, each f l x = (inr l', y) → h <$> l' = g <$> l.
Proof.
  intros Hq Hf. induction l as [|a l IH]; intros x; [split; [done|]; by intros l' y [= <- _]|]. cbn [each]. unfold mbind, drm_mbind. pose proof (Hq a x) as H1.
  destruct (f a x) as [[e|b] x1] eqn:E1; [done|]. cbn [snd] in H1. destruct (IH x1) as [H2 H3]. destruct (each f l x1) as [[e|l1] x2]; (split; [by etrans|]); [done|].
  intros l' y [= <- <-]. cbn. by rewrite (Hf _ _ _ _ E1), (H3 l1 x2).
Qed.
Lemma quietly_resolve x : quietly (resolve_one x).
Proof.
  unfold resolve_one. destruct (_ <? 0); [apply quietly_ret|]. apply quietly_bind; [apply quietly_world; intros w; apply ds_syncfile|]. intros r. destruct (negb _); [apply quietly_fail|apply quietly_ret].
Qed.
Lemma resolve_strip a x b y : resolve_one a x = (inr b, y) → strip b.1 = strip a.1.
Proof.
  unfold resolve_one, mbind, drm_mbind, kx_world. destruct (_ <? 0); [by intros [= <- _]|]. destruct (ks_syncfile_get a.2 x.2) as [r v]. destruct (negb _); [done|]. by intros [= <- _].
Qed.
Lemma quietly_attach_one active flags x : quietly (attach_one active flags x).
Proof. unfold attach_one. destruct (_ && _); [|apply quietly_ret]. apply quietly_bind; [apply quietly_attach|]. intros r. apply quietly_ret. Qed.
Lemma attach_strip active flags a x b y : attach_one active flags a x = (inr b, y) → strip b.1.1 = strip a.1.
Proof. unfold attach_one, mbind, drm_mbind. destruct (_ && _); [|by intros [= <- _]]. destruct (implicit_attach _ _ x) as [[e|r] x1]; [done|]. by intros [= <- _]. Qed.
Lemma quietly_fall_back x : quietly (fall_back x).
Proof. unfold fall_back. destruct x.2; [|apply quietly_ret]. apply quietly_bind; [apply quietly_fallback|]. intros f. apply quietly_ret. Qed.
Lemma fall_back_strip a x b y : fall_back a x = (inr b, y) → strip b = strip a.1.
Proof. unfold fall_back, mbind, drm_mbind. destruct a.2; [|by intros [= <- _]]. destruct (implicit_fallback _ x) as [[e|f] x1]; [done|]. by intros [= <- _]. Qed.

(** The planes, sent. *)
Record sent (active : Z) (x : kms_conn * W) (sts : list kms_atomic_plane_t) (y : kms_conn * W) : Prop := mkSent {
  se_client : kx_client y.1 = kx_client x.1; se_plane : kx_plane y.1 = kx_plane x.1; se_valid : kx_plane_valid y.1 = kx_plane_valid x.1;
  se_accepted : ∃ s1, same_screen (srv x.2) s1 ∧ accepted s1 (asked s1 active sts) (srv y.2) }.
Definition ready (x : kms_conn * W) : Prop := one_head (srv x.2) ∧ ks_quit (srv x.2) = false.
Lemma ready_calm x y : ready x → calm x y → ready y.
Proof. intros [H1 H2] [_ _ _ []]. split; [unfold one_head; by rewrite ss_opt0|congruence]. Qed.
Lemma sent_calm active x y sts z : calm x y → sent active y sts z → sent active x sts z.
Proof. intros [] [? ? ? (s1 & ? & ?)]. constructor; [congruence..|]. exists s1. split; [by etrans|done]. Qed.
Lemma send_once h sts x : ready x → (at_active h ≠ 0 → sts ≠ []) → at_nplanes h = Z.of_nat (length sts) → has (at_flags h) KMS_ATOMIC_TEST_ONLY = false →
  ∃ rc u d y, kcall 0 (K_atomic h (match sts with [] => None | _ => Some sts end)) x = (inr (rc, u, d), y) ∧ (if rc =? 0 then sent (at_active h) x sts y else calm x y).
Proof.
  intros Hr Hne En Ht. set (data := match sts with [] => None | _ => Some sts end).
  assert (fits h data sts) as Hfit by (intros Ha; specialize (Hne Ha); by destruct sts). clearbody data.
  destruct (kcall_outcome 0 (K_atomic h data) x Logic.I) as (z & Hz & [(e & E & He)|(rid & E1 & E2 & E3)]).
  { exists e, RU_none, PL_none, z. split; [done|]. destruct (Z.eqb_spec e 0); [done|exact Hz]. }
  set (m := mkMsg _ _ _ _ _) in *. destruct (ready_calm _ _ Hr Hz) as [Hone Hq0]. destruct (atomic_handled rid m h data (srv z.2) Hone) as (G1 & G2 & rc & u & G3 & G4 & G5).
  destruct (kms_handle rid _ (srv z.2)) as [[o s1] a] eqn:Eh. cbn [fst snd] in *. subst o.
  destruct (dispatch_screen _ _ _ _ _ _ _ Eh ltac:(by rewrite (kp_quit _ _ G2)) G1) as [D1 D2].
  destruct (kcall _ _ x) as [r1 r2]. cbn [fst snd] in *. exists rc, u, PL_none, r2. split; [by rewrite E3|].
  destruct (Z.eqb_spec rc 0) as [->|Hrc].
  - constructor; [rewrite E2; apply Hz..|]. exists (srv z.2). split; [apply Hz|]. rewrite E1. unfold accepted. rewrite D2. by apply (G5 eq_refl Ht).
  - etrans; [exact Hz|]. constructor; [by rewrite E2..|]. rewrite E1. by rewrite (G4 Hrc) in D1.
Qed.
Lemma atomic_send_spec h l x sts implicit u y : ready x → (at_active h ≠ 0 → l ≠ []) → at_nplanes h = Z.of_nat (length l) → has (at_flags h) KMS_ATOMIC_TEST_ONLY = false →
  atomic_send h l x = (inr (0, sts, implicit, u), y) → sent (at_active h) x sts y ∧ strip <$> sts = (strip ∘ fst) <$> l.
Proof.
  intros Hr Hne En Ht. unfold atomic_send, mbind, drm_mbind. cbv zeta.
  destruct (send_once h l.*1 x Hr) as (rc & u1 & d1 & y1 & -> & H1); [intros Ha; specialize (Hne Ha); by destruct l|by rewrite length_fmap|done|]. cbn [fst snd].
  destruct ((rc =? - ENODEV) && _) eqn:Ef.
  - apply andb_true_iff in Ef as [Ef _]. apply Z.eqb_eq in Ef as ->. cbn in H1. destruct (each_spec fall_back (strip ∘ fst) strip l quietly_fall_back fall_back_strip y1) as [H2 H3].
    destruct (each fall_back l y1) as [[e|sts1] y2]; [done|]. cbn [fst snd] in *. specialize (H3 sts1 y2 eq_refl).
    assert (length sts1 = length l) as Hlen by (rewrite <- (length_fmap strip), H3; apply length_fmap).
    pose proof (ready_calm _ _ (ready_calm _ _ Hr H1) H2) as Hr2.
    destruct (send_once h sts1 y2 Hr2) as (rc & u2 & d2 & y3 & -> & H4); [intros Ha ->; specialize (Hne Ha); by destruct l|by rewrite Hlen|done|]. unfold mret, drm_mret. cbn [fst snd].
    intros [= -> <- <- <- <-]. cbn [Z.eqb] in H4. split; [|done]. by apply (sent_calm _ x y1), (sent_calm _ y1 y2).
  - intros [= -> <- <- <- <-]. cbn [Z.eqb] in H1. split; [done|]. by rewrite <- list_fmap_compose.
Qed.

(** ** The mirror after a commit *)
Definition mirrored (st : kms_atomic_plane_t) : kms_atomic_plane_t :=
  let st := strip st in if fb_id st =? 0 then st <| crtc_id := 0 |> else st.
Lemma mirror_store_at sts : ∀ c, NoDup (plane_id <$> sts) → (∀ st, st ∈ sts → 0x50 ≤ plane_id st < 0x60) →
  ∀ i, let r := (kx_plane (mirror_store sts c) i, kx_plane_valid (mirror_store sts c) i) in
  (∀ st, st ∈ sts → i = plane_index (plane_id st) → r = (mirrored st, true)) ∧
  ((∀ st, st ∈ sts → i ≠ plane_index (plane_id st)) → r = (kx_plane c i, kx_plane_valid c i)).
Proof.
  induction sts as [|st sts IH]; intros c Hn Hr i; [split; [by intros ? ?%elem_of_nil|done]|]. cbn in Hn. apply NoDup_cons in Hn as [Hni Hn].
  destruct (IH (mirror_one c st) Hn (λ t Ht, Hr t (list_elem_of_further _ _ _ Ht)) i) as [H1 H2]. change (mirror_store (st :: sts) c) with (mirror_store sts (mirror_one c st)) in *. cbv zeta in *.
  pose proof (plane_index_small _ (Hr st (list_elem_of_here _ _))) as Ei. specialize (Hr st (list_elem_of_here _ _)) as Hst.
  assert (∀ t, t ∈ sts → plane_index (plane_id st) ≠ plane_index (plane_id t)) as Hd.
  { intros t Ht. rewrite Ei, (plane_index_small _ (Hr t (list_elem_of_further _ _ _ Ht))). intros E. apply Hni. apply list_elem_of_fmap. exists t. split; [lia|done]. }
  assert (kx_plane (mirror_one c st) = <[plane_index (plane_id st) := mirrored st]> (kx_plane c) ∧
    kx_plane_valid (mirror_one c st) = <[plane_index (plane_id st) := true]> (kx_plane_valid c)) as [M1 M2].
  { unfold mirror_one. rewrite Ei. destruct (Z.ltb_spec (plane_id st - 0x50) DRMPHX_KMS_MAX_PLANES) as [_|H]; [done|]. change DRMPHX_KMS_MAX_PLANES with 16 in H. lia. }
  split.
  - intros t [->|Ht]%elem_of_cons ->; [|by apply H1]. rewrite H2 by exact Hd. rewrite M1, M2. by rewrite !fn_upd_eq.
  - intros Ho. rewrite H2 by (intros t Ht; by apply Ho, list_elem_of_further). rewrite M1, M2. rewrite !fn_upd_ne by (apply not_eq_sym, Ho, list_elem_of_here). done.
Qed.

Lemma atomic_rest_spec a flags user l x y : ready x → (da_active a ≠ 0 → l ≠ []) → has flags KMS_ATOMIC_TEST_ONLY = false →
  atomic_rest a flags user false l x = (inr (), y) →
  ∃ sts z c, sent (da_active a) x sts z ∧ strip <$> sts = (strip ∘ fst) <$> l ∧
    y = ((if da_active a =? 0 then mirror_invalidate else mirror_store sts) c, z.2) ∧ kx_plane c = kx_plane x.1 ∧ kx_plane_valid c = kx_plane_valid x.1.
Proof.
  intros Hr Hne Ht. unfold atomic_rest, mbind, drm_mbind. set (h := mkAtomic _ _ _ _ _ _).
  destruct (atomic_send h l x) as [[e|[[[rc sts] imp] u]] x3] eqn:Es; [done|]. destruct (Z.eqb_spec rc 0) as [->|]; [|done].
  cbn [negb]. destruct (atomic_send_spec h l x sts imp u x3 Hr Hne eq_refl Ht Es) as [S1 S2]. rewrite Ht. cbn [negb].
  unfold kx_mod, mret, drm_mret. intros E. exists sts, x3, (if imp then x3.1 <| kx_implicit ::= λ n, u32 (n + 1) |> else x3.1).
  split; [exact S1|]. split; [done|]. destruct S1. split; [by destruct imp; cbn in E; injection E as <-|]. by destruct imp.
Qed.
(** The planes a commit sends: those it names, with their fences. *)
Lemma atomic_named_spec a flags user x y : ready x → (da_active a ≠ 0 → da_planes a ≠ []) → has flags KMS_ATOMIC_TEST_ONLY = false →
  atomic_commit a flags user false x = (inr (), y) →
  ∃ sts z c, sent (da_active a) x sts z ∧ strip <$> sts = (strip ∘ fst) <$> da_planes a ∧
    y = ((if da_active a =? 0 then mirror_invalidate else mirror_store sts) c, z.2) ∧ kx_plane c = kx_plane x.1 ∧ kx_plane_valid c = kx_plane_valid x.1.
Proof.
  intros Hr Hne Ht. unfold atomic_commit. destruct (negb (da_out_fence_ptr a =? 0)); [done|]. unfold resolve_in_fences, mbind, drm_mbind.
  destruct (each_spec resolve_one (strip ∘ fst) (strip ∘ fst) (da_planes a) quietly_resolve resolve_strip x) as [H1 E1].
  destruct (each resolve_one (da_planes a) x) as [[e|l1] x1]; [done|]. cbn [fst snd] in H1. specialize (E1 l1 x1 eq_refl). unfold mret at 1, drm_mret at 1. cbv beta iota.
  cbn [da_active da_planes da_crtc_id da_mode_blob]. set (a1 := a <| da_planes := l1 |>). change (da_planes a1) with l1. change (da_active a1) with (da_active a).
  destruct (each_spec (attach_one (da_active a) flags) (strip ∘ fst) (strip ∘ fst ∘ fst) l1 (quietly_attach_one _ _) (attach_strip _ _) x1) as [H2 E2].
  destruct (each _ l1 x1) as [[e|l2] x2]; [done|]. cbn [fst snd] in H2. specialize (E2 l2 x2 eq_refl).
  set (l3 := (λ x : kms_atomic_plane_t * Z * bool, (x.1.1, x.2)) <$> l2). assert ((strip ∘ fst) <$> l3 = (strip ∘ fst) <$> da_planes a) as E3.
  { rewrite <- E1, <- E2. unfold l3. by rewrite <- list_fmap_compose. }
  assert (da_active a ≠ 0 → l3 ≠ []) as Hn3 by (intros Ha E; specialize (Hne Ha); rewrite E in E3; by destruct (da_planes a)). clearbody l3.
  destruct (negb (da_active a =? 0) && _) eqn:Eb.
  { apply andb_true_iff in Eb as [Ea El]. apply negb_true_iff, Z.eqb_neq in Ea. specialize (Hn3 Ea). by destruct l3. }
  intros E. destruct (atomic_rest_spec a1 flags user l3 x2 y (ready_calm _ _ (ready_calm _ _ Hr H1) H2) Hn3 Ht E) as (sts & z & c & S1 & S2 & S3 & S4 & S5).
  exists sts, z, c. split; [by apply (sent_calm _ x x1), (sent_calm _ x1 x2)|]. split; [by rewrite S2|]. split; [done|]. destruct H1, H2. split; congruence.
Qed.
(** A commit that names no plane and leaves the CRTC on carries the primary as it is. *)
Lemma atomic_bare_spec a flags user x y : let id := primary_of (da_crtc_id a) in
  seeded x → ready x → da_active a ≠ 0 → da_planes a = [] → drmphx_obj_kind id = DRMPHX_OBJ_PLANE → has flags KMS_ATOMIC_TEST_ONLY = false →
  atomic_commit a flags user false x = (inr (), y) →
  if fb_id (known id) =? 0 then seeded y
  else ∃ st z c x1, seeded x1 ∧ sent (da_active a) x1 [st] z ∧ strip st = strip (known id) ∧ y = (mirror_store [st] c, z.2) ∧
    kx_plane c = kx_plane x1.1 ∧ kx_plane_valid c = kx_plane_valid x1.1.
Proof.
  cbv zeta. intros Hs Hr Ha Hn Hk Ht. unfold atomic_commit. destruct (negb (da_out_fence_ptr a =? 0)); [done|]. unfold resolve_in_fences, mbind, drm_mbind. rewrite Hn.
  cbn [each]. unfold mret, drm_mret. cbv beta iota. change (da_planes (a <| da_planes := [] |>)) with ([] : list (kms_atomic_plane_t * Z)). cbn [each]. unfold mret, drm_mret. cbv beta iota. cbn [fmap list_fmap length]. change (Z.of_nat 0 =? 0) with true. rewrite andb_true_r.
  change (da_active (a <| da_planes := [] |>)) with (da_active a). change (da_crtc_id (a <| da_planes := [] |>)) with (da_crtc_id a).
  rewrite (proj2 (Z.eqb_neq _ _) Ha). cbn [negb]. cbv iota beta. set (id := primary_of (da_crtc_id a)) in *.
  destruct (baseline_known id plane0 x Hk Hs eq_refl) as [H1 H2]. destruct (plane_baseline id plane0 x) as [[e|st] x1]; [done|]. cbn [fst snd] in *. subst st.
  destruct (fb_id (known id) =? 0); [destruct (has flags KMS_PAGE_FLIP_EVENT); [done|]; intros E; by injection E as <-|].
  intros E. assert (ready x1) as Hr1.
  { destruct (sd_screen _ Hs), (sd_screen _ H1), Hr as [Hr1 Hr2]. split; [unfold one_head in *; congruence|congruence]. }
  destruct (atomic_rest_spec (a <| da_planes := [] |>) flags user [(known id, false)] x1 y Hr1 ltac:(done) Ht E) as (sts & z & c & S1 & S2 & S3 & S4 & S5).
  destruct sts as [|st [|]]; try done. assert (strip st = strip (known id)) as S6 by (by apply (f_equal hd_error) in S2; cbn in S2; congruence). clear S2. change (da_active (a <| da_planes := [] |>)) with (da_active a) in *.
  rewrite (proj2 (Z.eqb_neq _ _) Ha) in S3. by exists st, z, c, x1.
Qed.
End link.

(** What the whole call needs of the world: a display server that composes planes, with one head,
    running, whose planes' words fit their types and whose idle planes belong to no CRTC. *)
Record plane_server (s : kms_srv_t) : Prop := mkPlaneServer {
  ps_backend : op_be (ks_opt s) = KMS_BACKEND_PLANE;
  ps_one : op_ncrtc (ks_opt s) = 1;
  ps_idx : cs_idx (ks_crtc s 0) = 0;
  ps_up : ks_quit s = false;
  ps_words p : 0 ≤ p < KMS_PLANES_PER_CRTC → plane_words (cs_cur (ks_crtc s 0) p);
  ps_idle p : 0 ≤ p < KMS_PLANES_PER_CRTC → fb_id (cs_cur (ks_crtc s 0) p) = 0 → crtc_id (cs_cur (ks_crtc s 0) p) = 0 }.

(** The server has taken a commit: it is pending, and the screen has not changed. *)
Definition underway (c c' : kms_crtc_state_t) : Prop := cs_pend c' ≠ KMS_PEND_NONE ∧ cs_cur c' = cs_cur c.
(** The plane [id] is pending as [st], but for a fence of the library's, and that is remembered. *)
Definition arrives (c c' : kms_crtc_state_t) (k : kms_conn) (id : Z) (st : kms_atomic_plane_t) : Prop :=
  ∃ p fence, plane_idx c id = Some p ∧ Z.testbit (cs_pmask c') p = true ∧ cs_pst c' p = taken c (st <| in_fence := fence |>) ∧
    kx_plane_valid k (plane_index id) = true ∧ kx_plane k (plane_index id) = mirrored st.

Lemma accepted_underway s0 s1 sts s' : same_screen s0 s1 → accepted s1 sts s' → underway (ks_crtc s0 0) (ks_crtc s' 0).
Proof. intros Hsc (_ & A2 & A3 & _). split; [done|]. rewrite A3. apply (ss_cur _ _ Hsc). Qed.
Lemma accepted_arrives s0 s1 sts s' k st st0 : same_screen s0 s1 → accepted s1 sts s' → st ∈ sts → strip st = strip st0 → NoDup (plane_id <$> sts) → cs_idx (ks_crtc s0 0) = 0 →
  arrives (ks_crtc s0 0) (ks_crtc s' 0) (mirror_store sts k) (plane_id st0) st0.
Proof.
  intros Hsc (_ & _ & _ & A4) Hin Es Hnd Hi. assert (∀ t, t ∈ sts → 0x50 ≤ plane_id t < 0x60) as Hr.
  { intros t (p & Hp & _)%A4. destruct (plane_idx_id s1 ltac:(by rewrite (ss_idx _ _ Hsc)) _ _ Hp) as [? ->]. change KMS_PLANES_PER_CRTC with 8 in *. lia. }
  assert (plane_id st = plane_id st0) as Ep by apply (f_equal plane_id Es).
  destruct (A4 st Hin) as (p & Hp & Hm & Hps). exists p, (in_fence st). rewrite <- Ep.
  assert (st = st0 <| in_fence := in_fence st |>) as Est. { transitivity (strip st <| in_fence := in_fence st |>); [by destruct st|]. rewrite Es. by destruct st0. }
  destruct (mirror_store_at sts k Hnd Hr (plane_index (plane_id st))) as [M _]. specialize (M st Hin eq_refl). injection M as M1 M2. rewrite <- Est.
  split; [by rewrite <- (screen_plane_idx _ _ _ Hsc)|]. split; [done|]. split; [rewrite Hps; unfold taken; by rewrite (ss_idx _ _ Hsc)|]. split; [done|].
  rewrite M1. unfold mirrored. by rewrite Es.
Qed.
Lemma accepted_off s0 s1 s' p : same_screen s0 s1 → cs_idx (ks_crtc s0 0) = 0 → accepted s1 (all_off (ks_crtc s1 0)) s' →
  0 ≤ p < KMS_PLANES_PER_CRTC → Z.testbit (cs_plane_mask (ks_crtc s0 0)) p = true →
  Z.testbit (cs_pmask (ks_crtc s' 0)) p = true ∧ cs_pst (ks_crtc s' 0) p = taken (ks_crtc s0 0) (plane0 <| plane_id := KMS_ID_PLANE 0 p |>).
Proof.
  intros Hsc Hi (_ & _ & _ & A4) Hp Hm. destruct (A4 (plane0 <| plane_id := KMS_ID_PLANE 0 p |>)) as (q & Hq & G1 & G2).
  { unfold all_off. rewrite (ss_idx _ _ Hsc), (ss_mask _ _ Hsc), Hi. apply list_elem_of_fmap. exists p. split; [done|].
    apply list_elem_of_In, filter_In. split; [|done]. apply list_elem_of_In, elem_of_seqZ. lia. }
  destruct (plane_idx_id s1 ltac:(by rewrite (ss_idx _ _ Hsc)) _ _ Hq) as [Hr Eq]. assert (q = p) as ->.
  { cbn [plane_id upd] in Eq. unfold KMS_ID_PLANE in Eq. change KMS_PLANES_PER_CRTC with 8 in *. rewrite u32_small in Eq by lia. lia. }
  split; [done|]. rewrite G2. unfold taken. by rewrite (ss_idx _ _ Hsc).
Qed.


(** C28: what the server reports of a plane reads back, through the library, as the state the
    plane shows: every field but the position in the stack, which is reported as the plane's
    number, and the fence; with the defaults of alpha and rotation for a plane that has none. *)
Theorem plane_report_roundtrip s id p st :
  op_be (ks_opt s) = KMS_BACKEND_PLANE → cs_idx (ks_crtc s 0) = 0 → plane_idx (ks_crtc s 0) id = Some p → plane_words (cs_cur (ks_crtc s 0) p) →
  drmphx_plane_state_from_props id (KmsMain.obj_props s id) st = plane_report (cs_cur (ks_crtc s 0) p) id p <| in_fence := in_fence st |>.
Proof. intros Hpl Hidx Hp Hw. apply (props_report s Hpl Hidx id p st Hp Hw). Qed.

(** ** Vblank waits

    Vblank waits: the 64-bit count that a 32-bit sequence of DRM stands for. *)
(** The low word cut off, and put back. *)
Lemma land_high x : 0 ≤ x < 2 ^ 64 → Z.land x (u64 (Z.lnot 0xffffffff)) = Z.ldiff x (Z.ones 32).
Proof.
  intros Hx. change (u64 (Z.lnot 0xffffffff)) with (Z.ldiff (Z.ones 64) (Z.ones 32)). apply Z.bits_inj'. intros i Hi. rewrite Z.land_spec, !Z.ldiff_spec.
  destruct (Z.ltb_spec i 64) as [Hlt|Hge]; [by rewrite (Z.ones_spec_low 64) by lia|].
  rewrite (Z.bits_above_log2 x); [done|lia|]. destruct (decide (x = 0)) as [->|]; [cbn; lia|]. apply Z.log2_lt_pow2; [lia|]. eapply Z.lt_le_trans; [apply Hx|]. apply Z.pow_le_mono_r; lia.
Qed.
Lemma ldiff_low x : Z.ldiff x (Z.ones 32) = x - x mod 2 ^ 32.
Proof.
  assert (x mod 2 ^ 32 = Z.land x (Z.ones 32)) as -> by (by rewrite Z.land_ones). pose proof (Z.add_lor_land (Z.ldiff x (Z.ones 32)) (Z.land x (Z.ones 32))) as H.
  rewrite Z.lor_ldiff_and in H. assert (Z.land (Z.ldiff x (Z.ones 32)) (Z.land x (Z.ones 32)) = 0) as E; [|lia].
  apply Z.bits_inj'. intros i Hi. rewrite !Z.land_spec, Z.ldiff_spec, Z.bits_0. by destruct (Z.testbit x i), (Z.testbit (Z.ones 32) i).
Qed.
Lemma lor_low x n : 0 ≤ n < 2 ^ 32 → Z.lor (Z.ldiff x (Z.ones 32)) n = Z.ldiff x (Z.ones 32) + n.
Proof.
  intros Hn. rewrite <- (Z.add_lor_land (Z.ldiff x (Z.ones 32)) n). assert (Z.land (Z.ldiff x (Z.ones 32)) n = 0) as ->; [|lia].
  assert (n = Z.land n (Z.ones 32)) as -> by (rewrite Z.land_ones by lia; by rewrite Z.mod_small). apply Z.bits_inj'. intros i Hi.
  rewrite !Z.land_spec, Z.ldiff_spec, Z.bits_0. by destruct (Z.testbit x i), (Z.testbit n i), (Z.testbit (Z.ones 32) i).
Qed.
Lemma near_target_split cur n : 0 ≤ cur < 2 ^ 63 → 0 ≤ n < 2 ^ 32 →
  let t := cur - cur mod 2 ^ 32 + n in
  near_target cur n = if t + 2 ^ 31 <? cur then t + 2 ^ 32 else if cur + 2 ^ 31 <? t then u64 (t - 2 ^ 32) else t.
Proof.
  intros Hc Hn. cbv zeta. unfold near_target. rewrite land_high by lia. rewrite lor_low by done. rewrite ldiff_low.
  pose proof (Z.mod_pos_bound cur (2 ^ 32) ltac:(lia)) as Hm. pose proof (Z.div_mod cur (2 ^ 32) ltac:(lia)) as Hd. rewrite (u64_small (_ + 0x80000000)) by lia.
  rewrite (u64_small (cur + _)) by lia. change 0x80000000 with (2 ^ 31). change 0x100000000 with (2 ^ 32). destruct (Z.ltb_spec (cur - cur mod 2 ^ 32 + n + 2 ^ 31) cur); [|done].
  apply u64_small. lia.
Qed.

(** C29: an absolute wait for a 32-bit sequence number, once the display has counted 2^31
    vblanks, waits for the count that has that number as its low word and is nearest to the
    current one, at most 2^31 away; before that, for a number that lies before the first
    vblank, it waits for a count near 2^64, which never comes. *)
Theorem near_target_nearest cur n : 0 ≤ cur < 2 ^ 63 → 0 ≤ n < 2 ^ 32 →
  (2 ^ 31 ≤ cur → u32 (near_target cur n) = n ∧ cur - 2 ^ 31 ≤ near_target cur n ≤ cur + 2 ^ 31) ∧
  (cur + 2 ^ 31 < n → near_target cur n = 2 ^ 64 - (2 ^ 32 - n)).
Proof.
  intros Hc Hn. rewrite near_target_split by done. cbv zeta. pose proof (Z.mod_pos_bound cur (2 ^ 32) ltac:(lia)) as Hm. pose proof (Z.div_mod cur (2 ^ 32) ltac:(lia)) as Hd.
  assert (∀ k, u32 (cur - cur mod 2 ^ 32 + n + k * 2 ^ 32) = n) as Hlow.
  { intros k. unfold u32. replace (cur - cur mod 2 ^ 32 + n + k * 2 ^ 32) with (n + (cur / 2 ^ 32 + k) * 2 ^ 32) by lia. rewrite Z.mod_add by lia. by apply Z.mod_small. }
  split.
  - intros Hb. destruct (Z.ltb_spec (cur - cur mod 2 ^ 32 + n + 2 ^ 31) cur); [split; [by rewrite <- (Hlow 1) at 2; f_equal; lia|lia]|].
    destruct (Z.ltb_spec (cur + 2 ^ 31) (cur - cur mod 2 ^ 32 + n)).
    + assert (0 ≤ cur / 2 ^ 32) by (apply Z.div_pos; lia). rewrite u64_small by lia. split; [rewrite <- (Hlow (-1)) at 2; f_equal; lia|lia].
    + split; [rewrite <- (Hlow 0) at 2; f_equal; lia|lia].
  - intros Hb. assert (cur mod 2 ^ 32 = cur) as E by (apply Z.mod_small; lia). rewrite E. destruct (Z.ltb_spec (cur - cur + n + 2 ^ 31) cur); [lia|].
    destruct (Z.ltb_spec (cur + 2 ^ 31) (cur - cur + n)); [|lia]. unfold u64. symmetry. apply (Z.mod_unique _ _ (-1)); lia.
Qed.
Lemma near_target_nearest_witness :
  near_target (2 ^ 32 + 5) (2 ^ 32 - 1) = 2 ^ 32 - 1 ∧ u32 (near_target (2 ^ 32 + 5) (2 ^ 32 - 1)) = 2 ^ 32 - 1 ∧ near_target 100 (2 ^ 32 - 1) = 2 ^ 64 - 1.
Proof.
  split; [reflexivity|]. split.
  - apply (near_target_nearest (2 ^ 32 + 5) (2 ^ 32 - 1)); lia.
  - apply (near_target_nearest 100 (2 ^ 32 - 1)); lia.
Defined.

(** ** A run

    A connection to the display server of KmsConcrete, which dispatches each message as it is
    sent, and a flip of its base plane to the second framebuffer. *)
(** The world is the server: memory is there, no buffer has a render fence. *)
#[export] Instance direct : KmsSide kms_srv_t := {|
  ks_pid := 7; ks_send m rq s := ((0, (kms_handle 1 (KM_raw m rq) s).1.1), kms_dispatch 1 (KM_raw m rq) s);
  ks_mmap n s := (true, s); ks_import rq s := ((- ENOSYS, RU_none), s); ks_hello proto s := (inr (proto, 1, 10), s);
  ks_syncfile_get fd s := ((- EBADF, fence0), s); ks_flip_fence bp port id s := (None, s); ks_flip_wait bp port id s := s;
  ks_prime_lookup fd s := ((- EBADF, memref0), s); ks_open k id c s := (- ENOENT, s); ks_prime_note fd m h s := s |}.
#[export] Instance direct_server : DisplayServer (λ s : kms_srv_t, s).
Proof. by constructor; [intros m rq s _; exists 1|..]. Qed.

Definition conn1 : kms_conn := kms_conn0 <| kx_client := 1 |>.
Definition flip_objs (i : Z) : Z := KMS_ID_PLANE 0 0.
Definition flip_counts (i : Z) : Z := 2.
Definition flip_props (k : Z) : Z := if k =? 0 then KMS_PROP_FB_ID else KMS_PROP_CRTC_X.
Definition flip_values (k : Z) : Z := if k =? 0 then KMS_ID_FB_BASE + 1 else 0.
Definition flipped : (Z + unit) * (kms_conn * kms_srv_t) := ioc_atomic KMS_ATOMIC_NONBLOCK 0 5 flip_objs flip_counts flip_props flip_values 1 (conn1, demo2).

(** The planes of the demonstration are well formed, by evaluation. *)
Definition in32 (x : Z) : bool := (0 <=? x) && (x <? 2 ^ 32).
Definition words_okb (st : kms_atomic_plane_t) : bool :=
  forallb in32 [fb_id st; crtc_id st; src_x st; src_y st; src_w st; src_h st; crtc_w st; crtc_h st; alpha st; rotation st] &&
  forallb (λ x, (- 2 ^ 31 <=? x) && (x <? 2 ^ 31)) [crtc_x st; crtc_y st] && (negb (fb_id st =? 0) || (crtc_id st =? 0)).
Lemma words_ok st : words_okb st = true → plane_words st ∧ (fb_id st = 0 → crtc_id st = 0).
Proof. unfold words_okb, in32. cbn [forallb]. rewrite !andb_true_iff. intros H. split; [constructor; lia|lia]. Qed.
Lemma demo2_words p : 0 ≤ p < KMS_PLANES_PER_CRTC → plane_words (cs_cur (ks_crtc demo2 0) p) ∧ (fb_id (cs_cur (ks_crtc demo2 0) p) = 0 → crtc_id (cs_cur (ks_crtc demo2 0) p) = 0).
Proof.
  intros Hp. apply words_ok. assert (forallb (λ p, words_okb (cs_cur (ks_crtc demo2 0) p)) (seqZ 0 KMS_PLANES_PER_CRTC) = true) as H by (vm_compute; reflexivity).
  rewrite forallb_forall in H. apply H, list_elem_of_In, elem_of_seqZ. lia.
Qed.
Lemma flip_accepted : flipped.1 = inr ().
Proof. assert (match flipped.1 with inl _ => false | inr _ => true end = true) as H by (vm_compute; reflexivity). by destruct flipped.1 as [e|[]]. Qed.

Lemma flip_flattens : match (drmphx_atomic_flatten (Some baseline_cb) flip_objs flip_counts flip_props flip_values 1 (conn1, demo2)).1 with
  | inr a => negb (da_active a =? 0) && negb (Nat.eqb (length (da_planes a)) 0) | inl _ => false end = true.
Proof. vm_compute. reflexivity. Qed.
Lemma flip_overlay : match overlay (start (known (λ s, s) (conn1, demo2)) (KMS_ID_PLANE 0 0)) (props_of (request flip_objs flip_counts flip_props flip_values 1) (KMS_ID_PLANE 0 0)) with
  | inr x => (fb_id x.1, x.2) | inl _ => (0, 0) end = (KMS_ID_FB_BASE + 1, -1).
Proof. vm_compute. reflexivity. Qed.
Lemma demo2_plane0 : plane_idx (ks_crtc demo2 0) (KMS_ID_PLANE 0 0) = Some 0.
Proof. vm_compute. reflexivity. Qed.
Lemma demo2_up : plane_server demo2.
Proof. constructor; [vm_compute; reflexivity..| |]; intros p Hp; by apply demo2_words. Qed.
Lemma flip_named : KMS_ID_PLANE 0 0 ∈ (request flip_objs flip_counts flip_props flip_values 1).*1.
Proof. vm_compute. left. Qed.

Lemma plane_report_roundtrip_witness :
  drmphx_plane_state_from_props (KMS_ID_PLANE 0 0) (KmsMain.obj_props demo2 (KMS_ID_PLANE 0 0)) plane0 = plane_report (cs_cur (ks_crtc demo2 0) 0) (KMS_ID_PLANE 0 0) 0 <| in_fence := fence0 |>.
Proof.
  generalize demo2_up demo2_words demo2_plane0. generalize demo2. intros s [U1 _ U3 _ _ _] Hws Hp. apply (plane_report_roundtrip s (KMS_ID_PLANE 0 0) 0 plane0 U1 U3 Hp). by apply Hws.
Defined.
